(* ===== verification/_CoqProject ===== *)
-Q . S2P
Prelude.v
PyFloat.v
Sha256.v
PyValue.v
Json.v
Effects.v
Authority.v
Steps.v
SessionState.v
SessionSpec.v
SessionStore.v
SessionFacts.v
SessionLifecycle.v
SessionTheorems.v
SessionPrepare.v
SessionLeases.v
SessionIngest.v
SessionControl.v
Ingest.v
IngestTheorems.v
Entitlements.v
Calendar.v
Uuid.v
Provider.v
FakeFile.v
Site.v
Workflow.v
Reaper.v
SiteFacts.v
ReaperTheorems.v
WorkflowTheorems.v
ControlStore.v
ControlReader.v
Continuity.v
PyText.v
TextFacts.v
JsonText.v
EventPolicy.v
RateLimit.v
RateLimitTheorems.v
IpAddress.v
AuthGuard.v
AuthGuardTheorems.v
Url.v
UrlSafety.v
EgressDestination.v
DestinationGuard.v
ClientAddress.v
EgressPolicy.v
AttemptSupervisor.v
AttemptTheorems.v
SinkPoll.v
EgressGateway.v
EgressTheorems.v
StateFile.v
AuthStore.v
AuthStoreFacts.v
AuthStoreTheorems.v
AssetUpload.v
ImageProbe.v
Catalog.v
CatalogTheorems.v
SecretStore.v
NodeAuthority.v
NodeEvents.v
NodeControl.v
NodeFacts.v
NodeTheorems.v
NodeReports.v
NodeDelivery.v
EgressStatus.v
IngestPolicy.v
IngestQuality.v
IngestReports.v
AgentBootstrap.v
Supervisor.v
AgentLifecycle.v
