(* ===== verification/Prelude.v ===== *)
(** * IRLight: a verification library of the control plane and of the media nodes

    IRLight relays live streams: a user reserves a Session, the control plane allocates
    a server for it at a cloud provider, an agent on that server (the Node) starts a
    media stack, takes the user's input and publishes it to the user's destination. The
    programs are written in Python; file names below are relative to [src/]. This library
    models their logic as executable definitions and proves what makes them correct.

    ** Parts, files of the library and files of the program

    Foundations, used by everything:
    - Prelude.v (this file): texts as UTF-8 strings, tactics, hints and generic lemmas;
    - PyFloat.v: doubles, as the correctly rounded operations of [SpecFloat], with the
      order lemmas the time arithmetic needs;
    - PyValue.v: the values of Python ([value], [dict]), the exceptions ([exn]) and the
      [result] of a computation; Json.v and JsonText.v: [json] with and without the
      hooks of [apps/control-api/state_safety.py]; PyText.v, TextFacts.v: [strip],
      [float(text)], the environment; Sha256.v, Uuid.v, Calendar.v, IpAddress.v, Url.v:
      the parts of [hashlib], [uuid], [datetime], [ipaddress] and [urllib.parse] that the
      program uses;
    - Effects.v: the state and exception monad of an operation over a durable file, with
      the oracles for the clock, identifiers and I/O faults; Authority.v: the protocol of
      the stores (lock, reload, commit behind a fuse), generic in a format given by the
      classes [AuthorityFormat] and [AuthorityLaws]; StateFile.v: the variant of the
      accounts, the catalog and the Nodes; Steps.v: a relation on states lifted to every
      schedule of faults.

    Sessions ([apps/control-api/session_store.py]): SessionState.v (records and their
    validation), SessionSpec.v (what a valid record is), SessionStore.v (one definition
    per method), SessionFacts.v, SessionLifecycle.v (the abstract machine and the
    refinement), and theorems in SessionTheorems.v, SessionPrepare.v, SessionLeases.v,
    SessionIngest.v, SessionControl.v.

    Credentials and limits: Ingest.v and IngestTheorems.v ([ingest_store.py]),
    Entitlements.v ([entitlement_store.py]), EventPolicy.v ([session_event_policy.py]),
    RateLimit.v and RateLimitTheorems.v ([auth_rate_limit.py]), AuthGuard.v and
    AuthGuardTheorems.v ([ingest_auth_guard.py]), ClientAddress.v
    ([auth_client_address.py]), AuthStore.v, AuthStoreFacts.v, AuthStoreTheorems.v
    ([auth_store.py], [auth_session_gc.py]).

    Provisioning: Provider.v (the protocol of a provider as a record of operations with
    the class [ProviderLaws], and the in-memory provider as an instance of it),
    FakeFile.v (its file), Site.v (a process: two stores and a provider), Workflow.v and
    WorkflowTheorems.v ([session_workflow.py]), Reaper.v, SiteFacts.v and
    ReaperTheorems.v ([reaper.py]).

    Destinations and assets: UrlSafety.v ([destination_url_safety.py]), Catalog.v and
    CatalogTheorems.v ([catalog_store.py]), SecretStore.v
    ([destination_secret_store.py]), EgressDestination.v ([egress_destination.py]),
    AssetUpload.v and ImageProbe.v ([asset_upload_intent.py], [asset_processing.py]).

    Nodes, seen from the control plane ([node_internal.py], [pipeline_health.py]):
    NodeAuthority.v, NodeEvents.v, NodeControl.v (the handlers, over the four stores),
    NodeFacts.v, NodeTheorems.v, NodeReports.v, NodeDelivery.v.

    The Node: EgressStatus.v, IngestPolicy.v, IngestQuality.v, IngestReports.v,
    AgentBootstrap.v, AgentLifecycle.v, Supervisor.v ([apps/node-agent/]); ControlStore.v
    and ControlReader.v (the audio command, written by [control_store.py] or seeded by
    the agent, read by [apps/continuity/control_state.py]); Continuity.v
    ([apps/continuity/state.py]); DestinationGuard.v, EgressPolicy.v,
    AttemptSupervisor.v, AttemptTheorems.v, SinkPoll.v, EgressGateway.v, EgressTheorems.v
    ([apps/egress-gateway/]).

    ** How the parts interact

    A store operation reads its file, works on a copy and commits it; what an operation
    may do to the durable state is a relation, and the theorems about histories follow by
    induction from one lemma per operation. The workflow and the reaper run operations of
    the Session store, the credential store and the provider in turn ([site]); they are
    proved against the provider's laws, not against one provider. The handlers of the
    Nodes run on the Node authority, the Sessions, the catalog and the secrets
    ([node_site]). The agent's reports are checked against the request classes of the
    control plane (IngestReports.v), and the audio command it seeds against both of its
    readers (AgentBootstrap.v). The two threads of the agent are interleaved in all the
    ways their lock allows (AgentLifecycle.v).

    ** What the theorems show

    - Sessions: every operation, wherever an I/O error stops it, is the identity or one
      step of the lifecycle machine; terminal states are final; the event log only grows
      under fresh numbers; a failed operation changes nothing; a lost authority file is
      never replaced by an empty one; capacity is respected; an observation of the input
      is one step of the signal machine at its time; a request to stop always returns.
    - Resources: the reaper spares the resources of live Sessions; a stop that reports
      FINISHED has left no server under the tags of the Session, its owner and its
      environment, and has had the deletion of every volume under them accepted; a
      repeated prepare adds no duplicate; a stopped provisioning never advances and a
      cleanup lease excludes the others over every later history.
    - Access: a bootstrap token serves one request, only its agent reports for a Node, a
      stop is final; owners do not see or change each other's records and their assets
      follow the upload flow; accounts are final while identifiers are fresh; a logout
      is final as long as its token is not drawn again; the garbage collection of
      sessions cannot be observed; the rate limit bounds the attempts of a period (at
      most twice the limit for a key already tracked) as long as no call fails closed; a
      lockout holds as long as its credential does not succeed and the table has room.
    - Output: a Session's destination is delivered only if it is the owner's and
      verified (without one the operator's configured URL is), internal addresses are
      refused at every attempt unless private targets are allowed, an attempt that
      returns has fenced its child, a limit on retries is kept.
    - Input and media: LIVE needs an unbroken run; publishers are disconnected for cause
      and once; quality never rejects; heartbeats are accepted by the control plane
      exactly when what they copy from the configuration and from other programs is in
      range; a failure of the media that the Node does not report itself is latched after
      its grace period only; a clean end of the agent has stopped the media, but for the
      late start that [late_start_leaves_media_running] exhibits.

    ** Oracles, fuel and bounds

    The clock, identifiers and random numbers, and the success of each I/O step are
    functions of the world that an operation is run in; theorems hold for all of them
    unless they say otherwise. A file-system step that fails raises [OSError], before or
    after a replacement took effect. Loops over data are structural. Fuel is used by:
    [walk] of EventPolicy.v (the weight of the payload is enough,
    [payload_walk_terminates]); [digits] (the number of bits); [read_chunks] (the limit of
    the file and one more read); [skip_fill] and [jpeg_loop] of ImageProbe.v (the length of
    the file, [image_probe_is_total]); the retries of the secret of the rate limit (their
    number in the source); [supervise_loop] ([stop_ends_the_attempt] gives enough of it
    once a stop is requested), [gateway_loop] ([retries_are_bounded]) and [await] of
    Supervisor.v ([start_ends]). Integers are unbounded, as in Python; where one must
    become a double, the [OverflowError] is modelled.

    ** Parameters

    Code outside [src/] is a parameter: the encryption of Fernet, with the law that what
    was encrypted is decrypted; Unicode normalization ([nfkc]) and the version-dependent
    treatment of mapped addresses ([mapped], [dotted]); [pow] of the C library; the
    shortest text of a double ([float_repr]); the texts of exceptions ([exc_text]) and
    of values that are no strings ([str_of]); the conversions of pydantic
    ([Conversions], with the law that a value of the declared type is kept); the
    provider ([ProviderLaws]: a deletion that answers has removed the resource or has
    been accepted); the resolver; the network probe of [verify_destination]; the publish
    attempt of the gateway loop; the answers of the media server, [docker] and
    [ffprobe]; the operator's token file; the environment. The number of PBKDF2
    iterations is a variable so that examples can be evaluated.

    ** Approximations

    Texts are compared and cut by code points; [lower] acts on ASCII letters only, and
    [int]/[float] read ASCII digits only. The limit on the length of decimal integers
    (4300 digits) is modelled where a text is written, not where one is read.
    [name_text] stands for [str(v)] where the result is only compared with names. A
    list of times with a NaN in it may be sorted otherwise by Python. Logging and
    messages of exceptions are left out, but for those that are stored.

    ** Not modelled

    The admission of key derivations and of probes (slots held by file locks of the
    operating system); sockets, TLS and name resolution of the destination probe; the
    GStreamer pipelines of [continuity.py] and [egress.py] and the child processes; the
    HTTP routes ([app.py] and the [*_api.py] files), which parse requests and map the
    modelled exceptions to status codes; the authentication proxy, the entry points and the
    secret files of the Node; the alert scanners and inspection commands, which only
    read; the client of the cloud's API, for which [ProviderLaws] stands; scripts and the
    front end. In [catalog_store.py] the promotion of an asset to READY sits behind an
    unconditional [raise] and is left out. *)

From Stdlib Require Export ZArith Lia.
From Stdlib Require Export Ascii.
From stdpp Require Export base tactics option list gmap strings sorting.
From stdpp Require Export options.

#[global] Open Scope Z_scope.

(** ** Text

    A Python [str] is its UTF-8 encoding. [py_len] and [py_take] count code
    points, i.e. the bytes that are not continuation bytes. *)
Definition byte_code (c : Ascii.ascii) : Z := Z.of_N (Ascii.N_of_ascii c).

Definition is_continuation (c : Ascii.ascii) : bool :=
  (128 <=? byte_code c) && (byte_code c <? 192).

Fixpoint py_len (s : string) : nat :=
  match s with
  | EmptyString => 0%nat
  | String c s' => if is_continuation c then py_len s' else S (py_len s')
  end.

(** [s[:n]] *)
Fixpoint py_take (n : nat) (s : string) : string :=
  match s with
  | EmptyString => EmptyString
  | String c s' =>
      if is_continuation c then String c (py_take n s')
      else match n with
           | O => EmptyString
           | S n' => String c (py_take n' s')
           end
  end.

Lemma py_len_take n s : (py_len (py_take n s) <= n)%nat.
Proof.
  revert n. induction s as [|c s IH]; intros n; simpl; [lia|].
  destruct (is_continuation c) eqn:Hc; simpl.
  - rewrite Hc. apply IH.
  - destruct n as [|n]; simpl; [lia|]. rewrite Hc. specialize (IH n). lia.
Qed.

Lemma py_take_short n s : (py_len s <= n)%nat -> py_take n s = s.
Proof.
  revert n. induction s as [|c s IH]; intros n Hn; simpl in *; [done|].
  destruct (is_continuation c); [by rewrite IH|].
  destruct n as [|n]; [lia|]. rewrite IH; [done|lia].
Qed.

(** [s.lower()], as far as its ASCII letters go. Two letters outside ASCII have a
    lower case with an ASCII letter in it, KELVIN SIGN (k) and LATIN CAPITAL LETTER
    I WITH DOT ABOVE (i and a combining dot); the others are left alone, which no
    comparison with an ASCII text can tell. *)
Definition lower_ascii (c : Ascii.ascii) : Ascii.ascii :=
  let n := byte_code c in
  if (65 <=? n) && (n <=? 90) then Ascii.ascii_of_N (Z.to_N (n + 32)) else c.

Fixpoint py_lower (s : string) : string :=
  match s with
  | EmptyString => EmptyString
  | String a s1 =>
      let plain := String (lower_ascii a) (py_lower s1) in
      match s1 with
      | String b s2 =>
          if (byte_code a =? 196) && (byte_code b =? 176) then
            String "i"%char (String "204"%char (String "135"%char (py_lower s2)))
          else
            match s2 with
            | String c s3 =>
                if (byte_code a =? 226) && (byte_code b =? 132) && (byte_code c =? 170)
                then String "k"%char (py_lower s3) else plain
            | EmptyString => plain
            end
      | EmptyString => plain
      end
  end.

(** Characters that survive lowering come one by one from the text. *)
Lemma py_lower_forall (P : Ascii.ascii -> bool) s :
  P "i"%char = false -> P "k"%char = false ->
  forallb P (String.list_ascii_of_string (py_lower s)) = true ->
  forallb (fun c => P (lower_ascii c)) (String.list_ascii_of_string s) = true /\
  String.length (py_lower s) = String.length s.
Proof.
  intros Hi Hk. induction s as [|a s1 IH]; [done|]. cbn [py_lower].
  assert (Hplain : forallb P (String.list_ascii_of_string
      (String (lower_ascii a) (py_lower s1))) = true ->
    forallb (fun c => P (lower_ascii c)) (String.list_ascii_of_string (String a s1)) = true /\
    String.length (String (lower_ascii a) (py_lower s1)) = String.length (String a s1)).
  { cbn. intros [-> H]%andb_prop. destruct (IH H) as [-> ->]. done. }
  destruct s1 as [|b s2]; [exact Hplain|].
  destruct (_ && _); [cbn; by rewrite Hi|].
  destruct s2 as [|c s3]; [exact Hplain|].
  destruct (_ && _); [cbn; by rewrite Hk|exact Hplain].
Qed.

(** [not s.strip()]: every code point of [s] is a white space, the ASCII ones (9 to
    13, 28 to 32) and those of UTF-8 with two bytes (U+0085, U+00A0) or three
    (U+1680, U+2000 to U+200A, U+2028, U+2029, U+202F, U+205F, U+3000). *)
Definition ascii_space (c : Ascii.ascii) : bool :=
  let n := byte_code c in ((9 <=? n) && (n <=? 13)) || ((28 <=? n) && (n <=? 32)).

Definition space2 (b c : Ascii.ascii) : bool :=
  (byte_code b =? 194) && ((byte_code c =? 133) || (byte_code c =? 160)).

Definition space3 (b c d : Ascii.ascii) : bool :=
  let n := 65536 * byte_code b + 256 * byte_code c + byte_code d in
  (n =? 14785152) || ((14844032 <=? n) && (n <=? 14844042)) ||
  (n =? 14844072) || (n =? 14844073) || (n =? 14844079) || (n =? 14844319) || (n =? 14909568).

Fixpoint py_blank (s : string) : bool :=
  match s with
  | EmptyString => true
  | String b s1 =>
      if ascii_space b then py_blank s1
      else match s1 with
           | String c s2 =>
               if space2 b c then py_blank s2
               else match s2 with
                    | String d s3 => space3 b c d && py_blank s3
                    | EmptyString => false
                    end
           | EmptyString => false
           end
  end.

(** [s.lstrip()] *)
Fixpoint py_lstrip (s : string) : string :=
  match s with
  | EmptyString => EmptyString
  | String b s1 =>
      if ascii_space b then py_lstrip s1
      else match s1 with
           | String c s2 =>
               if space2 b c then py_lstrip s2
               else match s2 with
                    | String d s3 => if space3 b c d then py_lstrip s3 else s
                    | EmptyString => s
                    end
           | EmptyString => s
           end
  end.

(** [not s] *)
Definition str_empty (s : string) : bool :=
  match s with EmptyString => true | _ => false end.

Lemma str_empty_false s : str_empty s = false <-> s <> "".
Proof. by destruct s. Qed.

(** ** Slices of lists

    [l[-n:]] for a positive [n]. *)
Definition py_last {A} (n : nat) (l : list A) : list A := drop (length l - n) l.

Lemma length_py_last {A} n (l : list A) : (length (py_last n l) <= n)%nat.
Proof. unfold py_last. rewrite length_drop. lia. Qed.

Lemma py_last_short {A} n (l : list A) :
  (length l <= n)%nat -> py_last n l = l.
Proof. intros H. unfold py_last. by replace (length l - n)%nat with 0%nat by lia. Qed.

Lemma py_last_snoc {A} n (l : list A) x :
  (0 < n)%nat -> exists l', py_last n (l ++ [x]) = l' ++ [x] /\ suffix l' l.
Proof.
  intros Hn. exists (drop (length (l ++ [x]) - n) l). unfold py_last. split.
  - rewrite drop_app_le; [done|]. rewrite length_app. simpl. lia.
  - apply suffix_drop.
Qed.

Lemma elem_of_py_last {A} n (l : list A) x : x ∈ py_last n l -> x ∈ l.
Proof. intros H. eapply elem_of_sublist, sublist_drop. exact H. Qed.

Lemma forallb_same {A} (f g : A -> bool) l :
  (forall x, f x = g x) -> forallb f l = forallb g l.
Proof. intros H. induction l as [|x l IH]; simpl; [done|]. by rewrite H, IH. Qed.

(** ** Decisions as booleans *)
Lemma bool_decide_in_true {A} `{EqDecision A} (x : A) (l : list A) :
  bool_decide (x ∈ l) = true <-> x ∈ l.
Proof. apply bool_decide_eq_true. Qed.

(** Split every [&&] and [negb] of the context into separate facts. *)
Ltac split_bools :=
  repeat match goal with
  | H : _ && _ = true |- _ => apply andb_prop in H as [? ?]
  | H : andb _ _ = true |- _ => apply andb_prop in H as [? ?]
  | H : negb _ = true |- _ => apply negb_true_iff in H
  | H : negb _ = false |- _ => apply negb_false_iff in H
  | H : orb _ _ = false |- _ => apply orb_false_iff in H as [? ?]
  | H : bool_decide _ = true |- _ => apply bool_decide_eq_true in H
  | H : bool_decide _ = false |- _ => apply bool_decide_eq_false in H
  end.

(** Look a literal key up in a literal dictionary, or in one updated at literal
    keys. *)
Ltac dict_lookup :=
  rewrite ?list_to_map_cons;
  repeat first [ rewrite lookup_insert_eq | rewrite lookup_insert_ne by done ].
