(* ===== verification/PyFloat.v ===== *)
(** * Python floats

    A Python [float] is an IEEE 754 binary64 value. It is represented by the
    Standard Library's [spec_float], whose operations [SFadd], [SFsub], ... are
    the correctly rounded ones at precision 53 and maximal exponent 1024, so
    every comparison and every sum of the program computes the value CPython
    computes. This file gives the operators, the conversions between [int] and
    [float] and the order laws of [<] and [<=] on values that are not NaN. *)

From Stdlib Require Export SpecFloat.
From S2P Require Import Prelude.

Abbreviation float := spec_float.

Definition prec : Z := 53.
Definition emax : Z := 1024.

Definition fadd (a b : float) : float := SFadd prec emax a b.
Definition fsub (a b : float) : float := SFsub prec emax a b.
Definition fmul (a b : float) : float := SFmul prec emax a b.
Definition fdiv (a b : float) : float := SFdiv prec emax a b.
Definition flt (a b : float) : bool := SFltb a b.
Definition fle (a b : float) : bool := SFleb a b.
Definition feq (a b : float) : bool := SFeqb a b.

Definition is_nan (f : float) : bool :=
  match f with S754_nan => true | _ => false end.

(** [math.isfinite] *)
Definition is_finite (f : float) : bool :=
  match f with S754_nan | S754_infinity _ => false | _ => true end.

(** The nearest double of an integer; an infinity when it overflows. *)
Definition of_Z (z : Z) : float := binary_normalize prec emax z 0 false.

Definition fzero : float := S754_zero false.
Definition fone : float := of_Z 1.

(** [a/b] of two integer literals is the double nearest to the decimal
    literal, e.g. [fratio 2 10] is [0.2]. *)
Definition fratio (a b : Z) : float := fdiv (of_Z a) (of_Z b).

(** Python's [max(a, b)] and [min(a, b)] keep the first argument on ties. *)
Definition fmax (a b : float) : float := if flt a b then b else a.
Definition fmin (a b : float) : float := if flt b a then b else a.

(** [math.ceil] of a finite float. *)
Definition fceil (f : float) : Z :=
  match f with
  | S754_finite s m e =>
      let z := if s then Z.neg m else Z.pos m in
      if 0 <=? e then z * 2 ^ e else - ((- z) / 2 ^ (- e))
  | _ => 0
  end.

(** Exact comparison of a float with an [int] ([==]). *)
Definition feq_Z (f : float) (z : Z) : bool :=
  match f with
  | S754_zero _ => z =? 0
  | S754_finite s m e =>
      let x := if s then Z.neg m else Z.pos m in
      if 0 <=? e then z =? x * 2 ^ e else z * 2 ^ (- e) =? x
  | _ => false
  end.

(** ** Order laws

    [SFcompare] is lexicographic on a class (sign and kind), the signed
    exponent and the signed mantissa: [fkey] is that triple, and every order
    fact is then integer arithmetic. *)
Definition fkey (f : float) : Z * Z * Z :=
  match f with
  | S754_infinity true => (-2, 0, 0)
  | S754_finite true m e => (-1, - e, Z.neg m)
  | S754_zero _ | S754_nan => (0, 0, 0)
  | S754_finite false m e => (1, e, Z.pos m)
  | S754_infinity false => (2, 0, 0)
  end.

Definition key_lt (x y : Z * Z * Z) : Prop :=
  let '(a, b, c) := x in let '(a', b', c') := y in
  a < a' \/ a = a' /\ (b < b' \/ b = b' /\ c < c').

Definition key_le (x y : Z * Z * Z) : Prop := key_lt x y \/ x = y.

Lemma fcompare_key a b :
  is_nan a = false -> is_nan b = false ->
  exists c, SFcompare a b = Some c /\
    match c with
    | Lt => key_lt (fkey a) (fkey b)
    | Eq => fkey a = fkey b
    | Gt => key_lt (fkey b) (fkey a)
    end.
Proof.
  intros Ha Hb.
  destruct a as [[]|[]| |[] m e], b as [[]|[]| |[] m' e']; try discriminate; simpl;
    try (eexists; split; [reflexivity|simpl; first [reflexivity | lia]]).
  all: change (Pos.compare_cont Eq m m') with (Pos.compare m m');
    destruct (Z.compare_spec e e') as [->|H|H];
    [destruct (Pos.compare_spec m m') as [->|H|H]|..];
    (eexists; split; [reflexivity|simpl; first [reflexivity | lia]]).
Qed.

Lemma fle_key a b :
  is_nan a = false -> is_nan b = false ->
  fle a b = true <-> key_le (fkey a) (fkey b).
Proof.
  intros Ha Hb. destruct (fcompare_key a b Ha Hb) as (c & Hc & Hk).
  unfold fle, SFleb, key_le. rewrite Hc.
  destruct (fkey a) as [[a1 a2] a3], (fkey b) as [[b1 b2] b3], c; simpl in *;
    split; intros H; try done; try (by left); try (by right); exfalso.
  destruct H as [H|H]; [lia|]. simplify_eq. lia.
Qed.

Lemma flt_key a b :
  is_nan a = false -> is_nan b = false ->
  flt a b = true <-> key_lt (fkey a) (fkey b).
Proof.
  intros Ha Hb. destruct (fcompare_key a b Ha Hb) as (c & Hc & Hk).
  unfold flt, SFltb. rewrite Hc.
  destruct (fkey a) as [[a1 a2] a3], (fkey b) as [[b1 b2] b3], c; simpl in *;
    split; intros H; try done; exfalso; simplify_eq; lia.
Qed.

Lemma is_finite_not_nan f : is_finite f = true -> is_nan f = false.
Proof. by destruct f. Qed.
Create HintDb pyfloat.
#[export] Hint Resolve is_finite_not_nan : pyfloat.

Section order.
Context (a b c : float).
Hypotheses (Ha : is_nan a = false) (Hb : is_nan b = false) (Hc : is_nan c = false).

Lemma fle_refl : fle a a = true.
Proof using Ha. apply fle_key; [done..|]. by right. Qed.

Lemma fle_trans : fle a b = true -> fle b c = true -> fle a c = true.
Proof using Ha Hb Hc.
  rewrite !fle_key by done. unfold key_le.
  destruct (fkey a) as [[??]?], (fkey b) as [[??]?], (fkey c) as [[??]?]; simpl.
  intros [?|?] [?|?]; simplify_eq; try (by right); left; lia.
Qed.

Lemma flt_not_fle : flt a b = negb (fle b a).
Proof using Ha Hb.
  destruct (flt a b) eqn:H1, (fle b a) eqn:H2; try done; exfalso.
  - apply flt_key in H1; [|done..]. apply fle_key in H2; [|done..].
    unfold key_le in H2.
    destruct (fkey a) as [[??]?], (fkey b) as [[??]?]; simpl in *.
    destruct H2; simplify_eq; lia.
  - apply (not_true_iff_false (flt a b)) in H1.
    apply (not_true_iff_false (fle b a)) in H2.
    rewrite flt_key in H1 by done. rewrite fle_key in H2 by done.
    unfold key_le in H2. apply H2.
    destruct (fkey a) as [[x1 x2] x3], (fkey b) as [[y1 y2] y3]; simpl in *.
    destruct (decide ((y1, y2, y3) = (x1, x2, x3))) as [->|Hne]; [by right|left].
    destruct (decide (x1 = y1)), (decide (x2 = y2)), (decide (x3 = y3)); subst;
      try congruence; lia.
Qed.
End order.

Lemma fle_not_flt a b :
  is_nan a = false -> is_nan b = false -> fle a b = negb (flt b a).
Proof. intros. rewrite flt_not_fle by done. by rewrite negb_involutive. Qed.

Lemma flt_le_trans a b c :
  is_nan a = false -> is_nan b = false -> is_nan c = false ->
  flt a b = true -> fle b c = true -> flt a c = true.
Proof.
  intros Ha Hb Hc. rewrite !flt_not_fle by done. intros H1 H2.
  apply negb_true_iff in H1. apply negb_true_iff.
  destruct (fle c a) eqn:H3; [|done]. rewrite <- H1. symmetry.
  by apply (fle_trans b c a).
Qed.

Lemma flt_fle a b :
  is_nan a = false -> is_nan b = false -> flt a b = true -> fle a b = true.
Proof.
  intros Ha Hb. rewrite flt_key, fle_key by done. intros H. by left.
Qed.

(** Rounding a number that is not negative does not make it so. *)
Lemma round_nonneg m e l : flt (binary_round_aux prec emax false m e l) fzero = false.
Proof.
  unfold binary_round_aux. destruct (shr_fexp _ _ _ _ _) as [r1 e1].
  destruct (shr_fexp _ _ _ _ _) as [r2 e2]. destruct (shr_m r2); [done| |done].
  by destruct (e2 <=? emax - prec).
Qed.

Lemma fadd_nonneg a b :
  is_finite a = true -> is_finite b = true -> flt a fzero = false -> flt b fzero = false ->
  flt (fadd a b) fzero = false.
Proof.
  intros Ha Hb Ha' Hb'.
  destruct a as [sa| | |[] ma ea], b as [sb| | |[] mb eb]; try done; cbn; [by destruct sa, sb|].
  unfold fadd, SFadd, binary_normalize. cbn [cond_Zopp].
  destruct (_ + _) as [|p|p] eqn:E; [done| |lia]. unfold binary_round.
  destruct (shl_align p _ _) as [m' e']. apply round_nonneg.
Qed.

(** Literals evaluate. *)
Example float_literal_exact : fratio 1 4 = S754_finite false 4503599627370496 (-54).
Proof. reflexivity. Qed.

(** Above 2^53 the spacing of doubles exceeds one. *)
Example fadd_rounds : fadd (of_Z (2 ^ 53)) fone = of_Z (2 ^ 53).
Proof. reflexivity. Qed.
