(* ===== verification/Sha256.v ===== *)
(** * SHA-256 (FIPS 180-4), as [hashlib.sha256(...).hexdigest()] computes it

    Words are [Z] in [0, 2^32), additions are modulo [2^32]. A message is the list
    of its byte codes; a text is hashed in UTF-8, which is how [Prelude] represents
    it. The two [Example]s are the test vectors of the standard. *)

From S2P Require Import Prelude.

Definition word_mod : Z := 4294967296.
Definition add32 (a b : Z) : Z := (a + b) mod word_mod.
Definition not32 (a : Z) : Z := 4294967295 - a.
Definition rotr (n a : Z) : Z := Z.lor (Z.shiftr a n) (Z.shiftl a (32 - n) mod word_mod).
Definition shr (n a : Z) : Z := Z.shiftr a n.
Definition xor3 (a b c : Z) : Z := Z.lxor (Z.lxor a b) c.

Definition ch (x y z : Z) : Z := Z.lxor (Z.land x y) (Z.land (not32 x) z).
Definition maj (x y z : Z) : Z := xor3 (Z.land x y) (Z.land x z) (Z.land y z).
Definition big_sigma0 (x : Z) : Z := xor3 (rotr 2 x) (rotr 13 x) (rotr 22 x).
Definition big_sigma1 (x : Z) : Z := xor3 (rotr 6 x) (rotr 11 x) (rotr 25 x).
Definition small_sigma0 (x : Z) : Z := xor3 (rotr 7 x) (rotr 18 x) (shr 3 x).
Definition small_sigma1 (x : Z) : Z := xor3 (rotr 17 x) (rotr 19 x) (shr 10 x).

Definition round_constants : list Z :=
  [1116352408; 1899447441; 3049323471; 3921009573; 961987163; 1508970993; 2453635748;
   2870763221; 3624381080; 310598401; 607225278; 1426881987; 1925078388; 2162078206;
   2614888103; 3248222580; 3835390401; 4022224774; 264347078; 604807628; 770255983;
   1249150122; 1555081692; 1996064986; 2554220882; 2821834349; 2952996808; 3210313671;
   3336571891; 3584528711; 113926993; 338241895; 666307205; 773529912; 1294757372;
   1396182291; 1695183700; 1986661051; 2177026350; 2456956037; 2730485921; 2820302411;
   3259730800; 3345764771; 3516065817; 3600352804; 4094571909; 275423344; 430227734;
   506948616; 659060556; 883997877; 958139571; 1322822218; 1537002063; 1747873779;
   1955562222; 2024104815; 2227730452; 2361852424; 2428436474; 2756734187; 3204031479;
   3329325298].

Definition initial_hash : list Z :=
  [1779033703; 3144134277; 1013904242; 2773480762; 1359893119; 2600822924; 528734635;
   1541459225].

(** Big-endian bytes of an [n]-byte integer. *)
Fixpoint be_bytes (n : nat) (z : Z) : list Z :=
  match n with
  | O => []
  | S n' => Z.shiftr z (8 * Z.of_nat n') mod 256 :: be_bytes n' z
  end.

(** A one bit, zeros up to 56 modulo 64, the length in bits. *)
Definition pad (msg : list Z) : list Z :=
  let len := Z.of_nat (length msg) in
  msg ++ [128] ++ replicate (Z.to_nat ((55 - len) mod 64)) 0 ++ be_bytes 8 (8 * len).

Fixpoint words (l : list Z) : list Z :=
  match l with
  | a :: b :: c :: d :: l' => a * 16777216 + b * 65536 + c * 256 + d :: words l'
  | _ => []
  end.

(** The message schedule, newest word first. *)
Fixpoint schedule (n : nat) (w : list Z) : list Z :=
  match n with
  | O => w
  | S n' =>
      let at_ i := nth i w 0 in
      schedule n'
        (add32 (add32 (small_sigma1 (at_ 1%nat)) (at_ 6%nat))
               (add32 (small_sigma0 (at_ 14%nat)) (at_ 15%nat)) :: w)
  end.

Definition round (h : list Z) (kw : Z * Z) : list Z :=
  match h with
  | [a; b; c; d; e; f; g; hh] =>
      let t1 := add32 (add32 (add32 hh (big_sigma1 e)) (ch e f g)) (add32 kw.1 kw.2) in
      let t2 := add32 (big_sigma0 a) (maj a b c) in
      [add32 t1 t2; a; b; c; add32 d t1; e; f; g]
  | _ => h
  end.

Definition compress (h block : list Z) : list Z :=
  let w := reverse (schedule 48 (reverse block)) in
  zip_with add32 h (fold_left round (zip round_constants w) h).

Fixpoint blocks (n : nat) (h w : list Z) : list Z :=
  match n with
  | O => h
  | S n' => blocks n' (compress h (take 16 w)) (drop 16 w)
  end.

Definition sha256 (msg : list Z) : list Z :=
  let w := words (pad msg) in
  blocks (length w / 16)%nat initial_hash w.

(** Lower-case hexadecimal digits. *)
Definition hex_digit (z : Z) : Ascii.ascii :=
  nth (Z.to_nat (z mod 16)) (String.list_ascii_of_string "0123456789abcdef") "0"%char.

Fixpoint hex (n : nat) (z : Z) (rest : string) : string :=
  match n with
  | O => rest
  | S n' => String (hex_digit (Z.shiftr z (4 * Z.of_nat n'))) (hex n' z rest)
  end.

Definition hexdigest (ws : list Z) : string := foldr (hex 8) "" ws.

Definition bytes_of (s : string) : list Z := byte_code <$> String.list_ascii_of_string s.

Definition sha256_hex (s : string) : string := hexdigest (sha256 (bytes_of s)).

Example sha256_abc :
  sha256_hex "abc" = "ba7816bf8f01cfea414140de5dae2223b00361a396177a9cb410ff61f20015ad".
Proof. vm_compute. reflexivity. Qed.
Example sha256_two_blocks :
  sha256_hex "abcdbcdecdefdefgefghfghighijhijkijkljklmklmnlmnomnopnopq"
  = "248d6a61d20638b8e5c026930c3e6039a33ce45964ff2167f6ecedd419db06c1".
Proof. vm_compute. reflexivity. Qed.

(** ** HMAC *)
Definition sha256_bytes (msg : list Z) : list Z := sha256 msg ≫= be_bytes 4.

(** The key, cut down to a block and padded with zeros, for [hmac.new]. *)
Definition hmac_block (key : list Z) : list Z :=
  let k := if Nat.ltb 64 (length key) then sha256_bytes key else key in
  k ++ replicate (64 - length k) 0.

Definition hmac_sha256 (key msg : list Z) : list Z :=
  let k := hmac_block key in
  sha256 ((Z.lxor 92 <$> k) ++ sha256_bytes ((Z.lxor 54 <$> k) ++ msg)).

Example hmac_rfc4231_2 :
  hexdigest (hmac_sha256 (bytes_of "Jefe") (bytes_of "what do ya want for nothing?")) =
  "5bdcc146bf60754e6a042426089575c75a003f089d2739839dec58b964ec3843".
Proof. vm_compute. reflexivity. Qed.

(** ** The digest is 64 hexadecimal digits *)
Definition is_hex (c : Ascii.ascii) : bool :=
  bool_decide (c ∈ String.list_ascii_of_string "0123456789abcdef").

Fixpoint all_hex (s : string) : bool :=
  match s with EmptyString => true | String c s' => is_hex c && all_hex s' end.

Lemma hex_digit_hex z : is_hex (hex_digit z) = true.
Proof.
  unfold hex_digit. pose proof (Z.mod_pos_bound z 16 ltac:(lia)) as H.
  revert H. generalize (z mod 16). intros m H.
  assert (m = 0 \/ m = 1 \/ m = 2 \/ m = 3 \/ m = 4 \/ m = 5 \/ m = 6 \/ m = 7 \/ m = 8 \/
    m = 9 \/ m = 10 \/ m = 11 \/ m = 12 \/ m = 13 \/ m = 14 \/ m = 15) as Hm by lia.
  by repeat destruct Hm as [->|Hm]; [..|subst].
Qed.

Lemma hex_ascii c : is_hex c = true -> is_continuation c = false.
Proof.
  intros H. apply bool_decide_eq_true in H. cbn in H.
  repeat (apply elem_of_cons in H as [->|H]; [reflexivity|]). by apply elem_of_nil in H.
Qed.

Lemma hex_spec n z rest :
  py_len (hex n z rest) = (n + py_len rest)%nat /\ all_hex (hex n z rest) = all_hex rest.
Proof.
  induction n as [|n [IH1 IH2]]; [done|]. cbn [hex py_len all_hex].
  rewrite (hex_ascii _ (hex_digit_hex _)), hex_digit_hex, IH1, IH2. done.
Qed.

Lemma hexdigest_spec ws :
  py_len (hexdigest ws) = (8 * length ws)%nat /\ all_hex (hexdigest ws) = true.
Proof.
  induction ws as [|w ws [IH1 IH2]]; [done|]. cbn [hexdigest foldr length].
  destruct (hex_spec 8 w (hexdigest ws)) as [H1 H2]. unfold hexdigest in *.
  rewrite H1, H2, IH1, IH2. split; [lia|done].
Qed.

Lemma length_round h kw : length (round h kw) = length h.
Proof. do 9 (destruct h as [|? h]; [done|]). done. Qed.

Lemma length_rounds l h : length (fold_left round l h) = length h.
Proof. revert h. induction l as [|x l IH]; intros h; [done|]. cbn. by rewrite IH, length_round. Qed.

Lemma length_blocks n h w : length (blocks n h w) = length h.
Proof.
  revert h w. induction n as [|n IH]; intros h w; [done|]. cbn [blocks]. rewrite IH.
  unfold compress. rewrite length_zip_with, length_rounds. lia.
Qed.

Lemma sha256_hex_spec s :
  py_len (sha256_hex s) = 64%nat /\ all_hex (sha256_hex s) = true.
Proof.
  unfold sha256_hex. destruct (hexdigest_spec (sha256 (bytes_of s))) as [H1 H2].
  split; [|done]. rewrite H1. unfold sha256. by rewrite length_blocks.
Qed.
