(* ===== verification/PyValue.v ===== *)
(** * Python values, exceptions and results

    The dynamically typed values the stores keep (what [json.load] can return),
    [==], truthiness, dictionary access, and the exception classes of the
    modelled code. A [dict] is a [gmap]: Python's [==] on dictionaries ignores
    the order of insertion, and no modelled operation depends on it. *)

From S2P Require Import Prelude PyFloat.

#[warnings="-register-all"]
Inductive value : Type :=
| VNull
| VBool (b : bool)
| VInt (z : Z)
| VFloat (f : float)
| VStr (s : string)
| VList (l : list value)
| VDict (d : gmap string value).

Abbreviation dict := (gmap string value).

(** ** Exceptions

    One constructor per exception class the modelled code raises or catches.
    Messages are not modelled; an exception carries data only where a caller
    reads it. *)
Inductive exn : Type :=
| SessionStateError
| InvalidTransition
| EntitlementExceeded
| MediaControlIdempotencyConflict
| MediaControlVersionConflict (current : dict)
| MediaControlNotRunning
| ProvisioningInProgress
| OrphanCleanupInProgress
| IngestCredentialError
| EntitlementStateError
| IngestAuthGuardStateError
| ControlStateError
| ControlIdempotencyConflict
| ControlVersionConflict (current : dict)
| AuthRateLimitExceeded (retry_after_seconds : Z)
| AuthRateLimitUnavailable
| DestinationUrlSafetyError
| EgressDestinationError
| DeadlineClockError
| DestinationGuardError (reason_code : string) (terminal : bool)
| FileNotFoundError
| ProcessLookupError
| IngestObservationClockError
| AttemptSupervisorError
| InvalidAttemptResult
| InvalidChildMessage
| FakeProviderStateError
| AuthError
| EmailAlreadyRegistered
| InvalidCredentials
| AuthStateError
| CatalogStateError
| CatalogValidationError
| CatalogNotFound
| CatalogVerifyFailed
| DestinationSecretError
| DestinationSecretConfigurationError
| DestinationSecretNotFound
| NodeStateError
| HTTPException (status_code : Z)
| AssetUploadIntentError
| AssetProcessingError
| IndexError
| UserEventTypeError
| UserEventPayloadError
| KeyError
| ValueError
| TypeError
| OverflowError
| RuntimeError
| OSError.

Inductive result (A : Type) : Type :=
| Ok (a : A)
| Err (e : exn).
Arguments Ok {_} _.
Arguments Err {_} _.

#[export] Instance result_ret : MRet result := fun A a => Ok a.
#[export] Instance result_bind : MBind result := fun A B f m =>
  match m with Ok a => f a | Err e => Err e end.

(** [if b: raise e] is [raise_if b e;; ...]. *)
Definition raise_if (b : bool) (e : exn) : result unit := if b then Err e else Ok tt.

Definition is_ok {A} (r : result A) : bool :=
  match r with Ok _ => true | Err _ => false end.

Lemma result_bind_ok {A B} (m : result A) (f : A -> result B) b :
  (m ≫= f) = Ok b <-> exists a, m = Ok a /\ f a = Ok b.
Proof.
  destruct m; simpl; split; [by eauto|by intros (? & [= ->] & ?)|done|].
  by intros (? & ? & ?).
Qed.

Lemma raise_if_ok b e u : raise_if b e = Ok u <-> b = false.
Proof. destruct b, u; simpl; (split; congruence). Qed.

(** Invert a successful run in the result monad. *)
Ltac inv_result :=
  repeat match goal with
  | H : (_ ≫= _) = Ok _ |- _ =>
      apply result_bind_ok in H as (? & ? & H)
  | H : Ok _ = Ok _ |- _ => injection H as H; subst
  | H : Err _ = Ok _ |- _ => discriminate H
  | H : Ok _ = Err _ |- _ => discriminate H
  | H : mret _ = Ok _ |- _ => injection H as H; subst
  | H : raise_if _ _ = Ok _ |- _ => apply raise_if_ok in H
  end.

(** ** Dictionary access *)

(** [d.get(k)] *)
Definition py_get (d : dict) (k : string) : value := default VNull (d !! k).

(** [d.get(k, dflt)] *)
Definition py_get_or (d : dict) (k : string) (dflt : value) : value :=
  default dflt (d !! k).

Definition is_null (v : value) : bool := match v with VNull => true | _ => false end.
Definition as_dict (v : value) : option dict :=
  match v with VDict d => Some d | _ => None end.
Definition as_str (v : value) : option string :=
  match v with VStr s => Some s | _ => None end.
Definition as_list (v : value) : option (list value) :=
  match v with VList l => Some l | _ => None end.
Definition is_str (v : value) : bool := match v with VStr _ => true | _ => false end.
Definition is_bool (v : value) : bool := match v with VBool _ => true | _ => false end.
Definition is_dict (v : value) : bool := match v with VDict _ => true | _ => false end.

(** [None] of an optional string. *)
Definition opt_str (s : option string) : value :=
  match s with Some s => VStr s | None => VNull end.

(** [bool(v)] *)
Definition truthy (v : value) : bool :=
  match v with
  | VNull => false
  | VBool b => b
  | VInt z => negb (z =? 0)
  | VFloat f => match f with S754_zero _ => false | _ => true end
  | VStr s => negb (str_empty s)
  | VList l => negb (bool_decide (l = []))
  | VDict d => negb (bool_decide (size d = 0%nat))
  end.

(** [float(v)] for the values that pass
    [not isinstance(v, bool) and isinstance(v, (int, float))]; an [int] too large
    for a double raises [OverflowError]. [None] covers both refusals. *)
Definition number_as_float (v : value) : option float :=
  match v with
  | VInt z => let f := of_Z z in if is_finite f then Some f else None
  | VFloat f => Some f
  | _ => None
  end.

(** [int(v)]. A string is read as ASCII decimal digits, with an optional sign,
    single underscores between digits and blanks around; the decimal digits of
    other scripts, which [int] also accepts, are refused here. *)
Definition digit_of (c : Ascii.ascii) : option Z :=
  let n := byte_code c in if (48 <=? n) && (n <=? 57) then Some (n - 48) else None.

(** After a digit: more digits, up to trailing blanks. *)
Fixpoint digits_value (acc : Z) (s : string) : option Z :=
  match s with
  | EmptyString => Some acc
  | String c s1 =>
      match digit_of c with
      | Some d => digits_value (10 * acc + d) s1
      | None =>
          match s1 with
          | String c2 s2 =>
              match digit_of c2 with
              | Some d =>
                  if byte_code c =? 95 then digits_value (10 * acc + d) s2 else None
              | None => if py_blank s then Some acc else None
              end
          | EmptyString => if py_blank s then Some acc else None
          end
      end
  end.

Definition first_digit (s : string) : option Z :=
  match s with
  | String c s' => match digit_of c with Some d => digits_value d s' | None => None end
  | EmptyString => None
  end.

Definition int_of_text (s : string) : option Z :=
  match py_lstrip s with
  | String "-"%char s' => Z.opp <$> first_digit s'
  | String "+"%char s' => first_digit s'
  | s' => first_digit s'
  end.

Example int_of_text_blanks :
  (int_of_text " -1_000 ", int_of_text "12", int_of_text "1__0", int_of_text "_1",
   int_of_text "1 2", int_of_text "") = (Some (-1000), Some 12, None, None, None, None).
Proof. reflexivity. Qed.

Definition ftrunc (f : float) : Z :=
  match f with
  | S754_finite s m e =>
      let x := if 0 <=? e then Z.pos m * 2 ^ e else Z.pos m / 2 ^ (- e) in
      if s then - x else x
  | _ => 0
  end.

Definition py_int (v : value) : result Z :=
  match v with
  | VBool b => Ok (if b then 1 else 0)
  | VInt z => Ok z
  | VFloat S754_nan => Err ValueError
  | VFloat (S754_infinity _) => Err OverflowError
  | VFloat f => Ok (ftrunc f)
  | VStr s => match int_of_text s with Some z => Ok z | None => Err ValueError end
  | _ => Err TypeError
  end.

(** A finite number that is not negative, as every timestamp check wants it. *)
Definition nonneg_number (v : value) : option float :=
  match number_as_float v with
  | Some f => if is_finite f && negb (flt f fzero) then Some f else None
  | None => None
  end.

(** An [int] (not a [bool]) that is not negative. *)
Definition nonneg_int (v : value) : option Z :=
  match v with VInt z => if z <? 0 then None else Some z | _ => None end.

(** [str(v)] where the result is only compared with state names: the text of a
    [None], [bool], string is exact; the text of a number or of a container is
    never a state name, and is left empty, which is none either. *)
Definition name_text (v : value) : string :=
  match v with
  | VStr s => s
  | VNull => "None"
  | VBool true => "True"
  | VBool false => "False"
  | _ => ""
  end.

Lemma nonneg_number_spec v f :
  nonneg_number v = Some f -> is_finite f = true /\ flt f fzero = false.
Proof.
  unfold nonneg_number. destruct (number_as_float v) as [g|]; [|done].
  destruct (is_finite g && negb (flt g fzero)) eqn:E; [|done].
  intros [= <-]. by split_bools.
Qed.

Lemma nonneg_number_float f :
  is_finite f = true -> flt f fzero = false -> nonneg_number (VFloat f) = Some f.
Proof. intros H1 H2. unfold nonneg_number. simpl. by rewrite H1, H2. Qed.

(** ** Checks over all the records of a mapping

    [for key, record in mapping.items(): check(key, record)]. *)
Definition check_all {V} (check : string -> V -> result unit) (m : gmap string V)
    : result unit :=
  map_fold (fun k v acc => check k v ;; acc) (Ok tt) m.

Lemma check_all_ok {V} (check : string -> V -> result unit) m :
  check_all check m = Ok tt <-> map_Forall (fun k v => check k v = Ok tt) m.
Proof.
  unfold check_all. rewrite map_fold_foldr, map_Forall_to_list.
  induction (map_to_list m) as [|[k v] l IH]; simpl; [split; [constructor|done]|].
  rewrite Forall_cons. simpl. rewrite result_bind_ok. rewrite <- IH. split.
  - by intros ([] & ? & ?).
  - intros [? ?]. by exists tt.
Qed.

Definition check_each {V} (check : V -> result unit) (l : list V) : result unit :=
  foldr (fun v acc => check v ;; acc) (Ok tt) l.

Lemma check_each_ok {V} (check : V -> result unit) l :
  check_each check l = Ok tt <-> Forall (fun v => check v = Ok tt) l.
Proof.
  induction l as [|v l IH]; simpl; [split; [constructor|done]|].
  rewrite Forall_cons, result_bind_ok, <- IH. split.
  - by intros ([] & ? & ?).
  - intros [? ?]. by exists tt.
Qed.

(** The records of a mapping whose values have all been checked to be
    dictionaries. *)
Definition as_dicts (m : dict) : gmap string dict := omap as_dict m.
Definition of_dicts (m : gmap string dict) : dict := VDict <$> m.

Lemma as_of_dicts m : as_dicts (of_dicts m) = m.
Proof.
  unfold as_dicts, of_dicts. apply map_eq. intros k.
  rewrite lookup_omap, lookup_fmap. by destruct (m !! k).
Qed.

(** Keys in code-point order, which is the byte order of UTF-8
    ([sort_keys=True]). *)
Definition key_before {A} (p q : string * A) : Prop := String.leb p.1 q.1 = true.
#[export] Instance key_before_dec {A} (p q : string * A) : Decision (key_before p q).
Proof. unfold key_before. apply _. Defined.

(** [sorted(strings)] *)
Definition str_before (a b : string) : Prop := String.leb a b = true.
#[export] Instance str_before_dec a b : Decision (str_before a b).
Proof. unfold str_before. apply _. Defined.
Definition py_sorted (l : list string) : list string := merge_sort str_before l.

Definition sort_pairs {A} (l : list (string * A)) : list (string * A) :=
  merge_sort key_before l.

(** [list(mapping.values())] after a load: the file is written with sorted keys,
    so the records come in key order. *)
Definition sorted_records {V} (m : gmap string V) : list (string * V) :=
  sort_pairs (map_to_list m).

Lemma elem_of_sorted_records {V} (m : gmap string V) k v :
  (k, v) ∈ sorted_records m <-> m !! k = Some v.
Proof.
  unfold sorted_records, sort_pairs. rewrite <- elem_of_map_to_list.
  by rewrite (merge_sort_Permutation _ (map_to_list m)).
Qed.

(** ** Equality

    Python's [==]: numbers compare by value across [bool], [int] and [float]
    ([True == 1 == 1.0]), containers element by element, and values of
    different kinds are different. *)
Definition bool_Z (b : bool) : Z := if b then 1 else 0.

Definition num_eq (v w : value) : option bool :=
  match v, w with
  | VBool a, VBool b => Some (bool_Z a =? bool_Z b)
  | VBool a, VInt b => Some (bool_Z a =? b)
  | VBool a, VFloat b => Some (feq_Z b (bool_Z a))
  | VInt a, VBool b => Some (a =? bool_Z b)
  | VInt a, VInt b => Some (a =? b)
  | VInt a, VFloat b => Some (feq_Z b a)
  | VFloat a, VBool b => Some (feq_Z a (bool_Z b))
  | VFloat a, VInt b => Some (feq_Z a b)
  | VFloat a, VFloat b => Some (feq a b)
  | _, _ => None
  end.

Fixpoint py_eq (v w : value) {struct v} : bool :=
  match v, w with
  | VNull, VNull => true
  | VStr a, VStr b => String.eqb a b
  | VList l, VList k =>
      (fix go (l k : list value) : bool :=
         match l, k with
         | [], [] => true
         | x :: l, y :: k => py_eq x y && go l k
         | _, _ => false
         end) l k
  | VDict d, VDict e =>
      bool_decide (size d = size e) &&
      map_fold (fun k x acc =>
        match e !! k with Some y => py_eq x y | None => false end && acc) true d
  | _, _ => default false (num_eq v w)
  end.

(** ** Induction over values *)
Fixpoint vsize (v : value) : nat :=
  match v with
  | VList l => S (foldr (fun x acc => vsize x + acc)%nat 0%nat l)
  | VDict d => S (map_fold (fun _ x acc => vsize x + acc)%nat 0%nat d)
  | _ => 1%nat
  end.

Lemma vsize_list x l : x ∈ l -> (vsize x < vsize (VList l))%nat.
Proof.
  simpl. induction l as [|y l IH]; [by rewrite elem_of_nil|].
  rewrite elem_of_cons. simpl. intros [->|H]; [lia|]. specialize (IH H). lia.
Qed.

Lemma vsize_dict k x d : d !! k = Some x -> (vsize x < vsize (VDict d))%nat.
Proof.
  intros H. cbn [vsize].
  rewrite map_fold_foldr. apply elem_of_map_to_list in H.
  revert H. generalize (map_to_list d). intros l H.
  induction l as [|[k' y] l IH]; [by rewrite elem_of_nil in H|].
  rewrite elem_of_cons in H. cbn. destruct H as [H|H]; [simplify_eq; lia|].
  specialize (IH H). lia.
Qed.

Section value_ind.
Context (P : value -> Prop).
Hypotheses
  (HNull : P VNull) (HBool : forall b, P (VBool b)) (HInt : forall z, P (VInt z))
  (HFloat : forall f, P (VFloat f)) (HStr : forall s, P (VStr s))
  (HList : forall l, Forall P l -> P (VList l))
  (HDict : forall d : dict, map_Forall (fun _ => P) d -> P (VDict d)).

Lemma value_ind' v : P v.
Proof using All.
  remember (vsize v) as n eqn:Hn. revert v Hn.
  induction (Nat.lt_wf_0 n) as [n _ IH]; intros [] ->; auto.
  - apply HList, Forall_forall. intros x Hx.
    eapply IH; [by apply vsize_list|done].
  - apply HDict. intros k x Hx. eapply IH; [by eapply vsize_dict|done].
Qed.
End value_ind.

(** ** Serialisable values

    [json.dump(..., allow_nan=False)] raises [ValueError] on a NaN or an
    infinity anywhere in the value; every other value of this type is
    serialisable. *)
Fixpoint serializable (v : value) : bool :=
  match v with
  | VFloat f => is_finite f
  | VList l => forallb serializable l
  | VDict d => map_fold (fun _ x acc => serializable x && acc) true d
  | _ => true
  end.

Definition Serializable (d : dict) : Prop :=
  map_Forall (fun _ v => serializable v = true) d.

Lemma serializable_dict d : serializable (VDict d) = true <-> Serializable d.
Proof.
  cbn [serializable]. unfold Serializable.
  rewrite map_fold_foldr, map_Forall_to_list.
  induction (map_to_list d) as [|[k x] l IH]; simpl; [by split|].
  rewrite Forall_cons, <- IH. simpl. apply andb_true_iff.
Qed.

Lemma serializable_list l :
  serializable (VList l) = true <-> Forall (fun v => serializable v = true) l.
Proof.
  cbn [serializable]. induction l as [|x l IH]; simpl; [by split|].
  rewrite Forall_cons, <- IH. apply andb_true_iff.
Qed.

Lemma Serializable_insert d k v :
  serializable v = true -> Serializable d -> Serializable (<[k:=v]> d).
Proof. intros Hv Hd. by apply map_Forall_insert_2. Qed.

Lemma Serializable_union d e :
  Serializable d -> Serializable e -> Serializable (d ∪ e).
Proof.
  intros Hd He k v Hv. apply lookup_union_Some_raw in Hv as [Hv|[_ Hv]];
    [by apply (Hd k)|by apply (He k)].
Qed.

Lemma Serializable_lookup d k v :
  Serializable d -> d !! k = Some v -> serializable v = true.
Proof. intros H Hk. by apply (H k). Qed.

(** A value read back from the field of a serialisable record equals itself:
    the property a compare-and-set on a snapshot relies on. *)
Lemma feq_refl f : is_nan f = false -> feq f f = true.
Proof.
  intros Hf. destruct (fcompare_key f f Hf Hf) as ([] & Hc & Hk);
    unfold feq, SFeqb; rewrite Hc; try done; exfalso;
    destruct (fkey f) as [[??]?]; simpl in Hk; lia.
Qed.

Lemma py_eq_refl v : serializable v = true -> py_eq v v = true.
Proof.
  induction v as [| | |f| |l IH|d IH] using value_ind'; intros Hs; simpl; auto.
  - apply Z.eqb_refl.
  - apply Z.eqb_refl.
  - apply feq_refl, is_finite_not_nan. exact Hs.
  - apply String.eqb_refl.
  - apply serializable_list in Hs.
    induction IH as [|x l Hx _ IHl]; [done|].
    apply Forall_cons in Hs as [H1 H2]. by rewrite Hx, IHl.
  - apply serializable_dict in Hs. rewrite bool_decide_eq_true_2 by done. cbn [andb].
    rewrite map_fold_foldr.
    assert (Hl : Forall (fun p : string * value => d !! p.1 = Some p.2) (map_to_list d)).
    { apply Forall_forall. intros [k x]. apply elem_of_map_to_list. }
    induction Hl as [|[k x] l Hk _ IHl]; simpl; [done|]. simpl in Hk.
    rewrite IHl, andb_true_r. rewrite Hk.
    apply (IH k x Hk). by apply (Hs k).
Qed.

Create HintDb pyvalue.
#[export] Hint Resolve Serializable_insert Serializable_union Serializable_lookup
  py_eq_refl : pyvalue.

#[global] Arguments py_eq : simpl never.
