(* ===== verification/Json.v ===== *)
(** * Authority JSON (state_safety.py, the decoder hooks)

    [raw] is what the tokenizer of the [json] module delivers: objects as pair
    lists that may repeat a key, and the non-standard constants by name.
    [load_json_authority] is the decoder with the two hooks of
    [apps/control-api/state_safety.py]; [json_dump] is
    [json.dump(..., sort_keys=True, allow_nan=False)]. The round trip
    [load_json_authority_dump] is what every store relies on when it reloads
    the file it has just written. *)

From S2P Require Import Prelude PyFloat PyValue.

#[warnings="-register-all"]
Inductive raw : Type :=
| RNull
| RBool (b : bool)
| RInt (z : Z)
| RFloat (f : float)
| RConst (name : string)              (* NaN, Infinity, -Infinity *)
| RStr (s : string)
| RArr (l : list raw)
| RObj (l : list (string * raw)).

(** ** The hooks *)

Fixpoint reject_duplicates_from (result : dict) (pairs : list (string * value))
    : PyValue.result dict :=
  match pairs with
  | [] => Ok result
  | (key, v) :: pairs' =>
      match result !! key with
      | Some _ => Err ValueError
      | None => reject_duplicates_from (<[key := v]> result) pairs'
      end
  end.

Definition _reject_duplicate_json_object_pairs (pairs : list (string * value))
    : result dict := reject_duplicates_from ∅ pairs.

Definition _reject_non_finite_json_constant (name : string) : result value :=
  Err ValueError.

(** [json.load(handle, object_pairs_hook=..., parse_constant=...)] *)
Fixpoint load_json_authority (r : raw) : result value :=
  match r with
  | RNull => Ok VNull
  | RBool b => Ok (VBool b)
  | RInt z => Ok (VInt z)
  | RFloat f => Ok (VFloat f)
  | RConst name => _reject_non_finite_json_constant name
  | RStr s => Ok (VStr s)
  | RArr l =>
      vs ← (fix go (l : list raw) : result (list value) :=
              match l with
              | [] => Ok []
              | x :: l' => v ← load_json_authority x; vs ← go l'; Ok (v :: vs)
              end) l;
      Ok (VList vs)
  | RObj l =>
      ps ← (fix go (l : list (string * raw)) : result (list (string * value)) :=
              match l with
              | [] => Ok []
              | (k, x) :: l' =>
                  v ← load_json_authority x; vs ← go l'; Ok ((k, v) :: vs)
              end) l;
      d ← _reject_duplicate_json_object_pairs ps;
      Ok (VDict d)
  end.

(** ** Writing *)

(** Keys are written in the order of [sort_pairs]. *)
Fixpoint json_dump (v : value) : result raw :=
  match v with
  | VNull => Ok RNull
  | VBool b => Ok (RBool b)
  | VInt z => Ok (RInt z)
  | VFloat f => if is_finite f then Ok (RFloat f) else Err ValueError
  | VStr s => Ok (RStr s)
  | VList l =>
      rs ← (fix go (l : list value) : result (list raw) :=
              match l with
              | [] => Ok []
              | x :: l' => r ← json_dump x; rs ← go l'; Ok (r :: rs)
              end) l;
      Ok (RArr rs)
  | VDict d =>
      rs ← map_fold (fun k x (acc : result (list (string * raw))) =>
              r ← json_dump x; rs ← acc; Ok ((k, r) :: rs)) (Ok []) d;
      Ok (RObj (sort_pairs rs))
  end.

(** ** Facts *)

Lemma reject_duplicates_from_ok acc pairs :
  NoDup (pairs.*1) -> Forall (fun p => acc !! p.1 = None) pairs ->
  reject_duplicates_from acc pairs = Ok (acc ∪ list_to_map pairs).
Proof.
  revert acc. induction pairs as [|[k v] pairs IH]; intros acc Hnd Hacc.
  - simpl. by rewrite (right_id_L ∅ (∪)).
  - apply Forall_cons in Hacc as [Hk Hacc]. simpl in Hk |- *. rewrite Hk.
    apply NoDup_cons in Hnd as [Hin Hnd]. rewrite IH; [f_equal|done|].
    + rewrite <- insert_union_l, <- insert_union_r; done.
    + apply Forall_forall. intros [k' v'] H'. simpl.
      rewrite lookup_insert_ne; [by apply (proj1 (Forall_forall _ _) Hacc (k', v'))|].
      intros ->. apply Hin. apply list_elem_of_fmap. by exists (k', v').
Qed.

(** Duplicate keys are refused, wherever they are. *)
Lemma reject_duplicates_dup acc pairs d :
  reject_duplicates_from acc pairs = Ok d -> NoDup (pairs.*1).
Proof.
  revert acc. cut (forall acc, reject_duplicates_from acc pairs = Ok d ->
    NoDup (pairs.*1) /\ Forall (fun p => acc !! p.1 = None) pairs).
  { intros H acc Hr. by apply (H acc). }
  induction pairs as [|[k v] pairs IH]; intros acc; simpl; [by repeat constructor|].
  destruct (acc !! k) eqn:Hk; [done|]. intros Hr.
  destruct (IH _ Hr) as [Hnd Hall]. rewrite Forall_forall in Hall. split.
  - constructor; [|done]. intros (p & -> & Hp)%list_elem_of_fmap.
    specialize (Hall p Hp). by rewrite lookup_insert_eq in Hall.
  - constructor; [done|]. apply Forall_forall. intros p Hp.
    specialize (Hall p Hp). by rewrite lookup_insert_None in Hall; destruct Hall.
Qed.

Lemma sort_pairs_perm {A} (l : list (string * A)) : sort_pairs l ≡ₚ l.
Proof. apply merge_sort_Permutation. Qed.

Definition dump_pair (p : string * value) (q : string * raw) : Prop :=
  p.1 = q.1 /\ json_dump p.2 = Ok q.2.

Lemma json_dump_dict d r :
  json_dump (VDict d) = Ok r ->
  exists rs, r = RObj (sort_pairs rs) /\ Forall2 dump_pair (map_to_list d) rs.
Proof.
  cbn [json_dump]. rewrite map_fold_foldr. intros H. inv_result.
  eexists; split; [reflexivity|].
  match goal with H : foldr _ _ _ = Ok ?x |- _ => rename H into Hf; revert x Hf end.
  induction (map_to_list d) as [|[k v] l IH]; intros rs Hf; simpl in Hf; inv_result;
    [constructor|].
  constructor; [by split|]. by apply IH.
Qed.

Lemma load_pairs_ok ps rs :
  Forall2 (fun (p : string * value) (q : string * raw) =>
    p.1 = q.1 /\ load_json_authority q.2 = Ok p.2) ps rs ->
  load_json_authority (RObj rs) =
    (d ← _reject_duplicate_json_object_pairs ps; Ok (VDict d)).
Proof.
  intros H. cbn [load_json_authority].
  match goal with |- context [(?go rs) ≫= _] => assert (Hgo : go rs = Ok ps) end.
  { induction H as [|[k v] [k' q] ps rs [Hk Hq] _ IH]; [done|].
    simpl in *. subst. by rewrite Hq, IH. }
  by rewrite Hgo.
Qed.

(** The round trip: the file a store writes is the payload it reads back. *)
Lemma load_json_authority_dump v r :
  json_dump v = Ok r -> load_json_authority r = Ok v.
Proof.
  revert r. induction v as [| | |f| |l IH|d IH] using value_ind'; intros r Hr;
    simpl in Hr; inv_result; try done.
  - by destruct (is_finite f); inv_result.
  - rename x into rs. cbn [load_json_authority].
    match goal with |- context [(?go rs) ≫= _] => assert (Hgo : go rs = Ok l) end.
    { match goal with H : _ l = Ok rs |- _ => rename H into Hl; revert rs Hl end.
      induction IH as [|x l Hx _ IHl]; intros rs Hl; inv_result; [done|].
      by erewrite Hx, IHl. }
    by rewrite Hgo.
  - assert (Hr : json_dump (VDict d) = Ok (RObj (sort_pairs x))) by (simpl; by rewrite H).
    apply json_dump_dict in Hr as (rs & Hs & Hrs). rewrite Hs. clear H Hs x.
    assert (Hl : Forall2 (fun (p : string * value) (q : string * raw) =>
      p.1 = q.1 /\ load_json_authority q.2 = Ok p.2) (map_to_list d) rs).
    { assert (Hin : Forall (fun p => d !! p.1 = Some p.2) (map_to_list d)).
      { apply Forall_forall. intros [k x]. apply elem_of_map_to_list. }
      induction Hrs as [|[k x] [k' q] ps rs [Hk Hq] _ IHrs]; [constructor|].
      apply Forall_cons in Hin as [Hi Hin]. constructor; [|by apply IHrs].
      split; [done|]. by apply (IH k x Hi). }
    apply Forall2_flip in Hl.
    destruct (Permutation_Forall2 (symmetry (sort_pairs_perm rs)) Hl)
      as (ps & Hperm & Hps).
    apply Forall2_flip in Hps. rewrite (load_pairs_ok ps) by exact Hps.
    assert (Hnd : NoDup (ps.*1)) by (rewrite <- Hperm; apply NoDup_fst_map_to_list).
    unfold _reject_duplicate_json_object_pairs.
    rewrite reject_duplicates_from_ok;
      [|done|apply Forall_forall; intros; apply lookup_empty].
    simpl. rewrite (left_id_L ∅ (∪)). do 2 f_equal.
    symmetry. by apply list_to_map_flip.
Qed.

(** Writing succeeds exactly on the serialisable values. *)
Lemma json_dump_serializable v :
  serializable v = true <-> exists r, json_dump v = Ok r.
Proof.
  induction v as [| | |f| |l IH|d IH] using value_ind';
    try (split; [intros _; eexists; reflexivity|done]).
  - simpl. destruct (is_finite f); [split; [by eexists|done]|].
    split; [done|by intros (? & ?)].
  - rewrite serializable_list. cbn [json_dump].
    match goal with |- _ <-> exists _, (?go l ≫= _) = _ =>
      assert (Hgo : Forall (fun v => serializable v = true) l <->
                    exists rs, go l = Ok rs) end.
    { induction IH as [|x l Hx _ IHl]; [split; [by eexists|constructor]|].
      rewrite Forall_cons, Hx, IHl. split.
      - intros [[r Hr] [rs Hrs]]. exists (r :: rs). by rewrite Hr, Hrs.
      - intros [rs Hrs]. inv_result. eauto. }
    rewrite Hgo. split; intros [rs Hrs].
    + exists (RArr rs). by rewrite Hrs.
    + inv_result. eauto.
  - rewrite serializable_dict. cbn [json_dump]. unfold Serializable.
    rewrite map_fold_foldr, map_Forall_to_list.
    assert (Hin : Forall (fun p => d !! p.1 = Some p.2) (map_to_list d)).
    { apply Forall_forall. intros [k x]. apply elem_of_map_to_list. }
    match goal with |- _ <-> exists _, (?m ≫= _) = _ =>
      assert (Hgo : Forall (uncurry (fun _ v => serializable v = true)) (map_to_list d)
                    <-> exists rs, m = Ok rs) end.
    { induction Hin as [|[k x] l Hk _ IHl]; simpl; [split; [by eexists|constructor]|].
      rewrite Forall_cons, IHl. simpl. rewrite (IH k x Hk). split.
      - intros [[r Hr] [rs Hrs]]. exists ((k, r) :: rs). by rewrite Hr, Hrs.
      - intros [rs Hrs]. inv_result. eauto. }
    rewrite Hgo. split; intros [rs Hrs].
    + exists (RObj (sort_pairs rs)). by rewrite Hrs.
    + inv_result. eauto.
Qed.

(** A repeated key is refused at any nesting of the decoded object. *)
Lemma load_json_authority_obj_nodup l v :
  load_json_authority (RObj l) = Ok v -> NoDup (l.*1).
Proof.
  cbn [load_json_authority]. intros H. inv_result.
  match goal with H : _reject_duplicate_json_object_pairs ?x = Ok _ |- _ =>
    rename x into ps; apply reject_duplicates_dup in H as Hnd end.
  match goal with H : _ l = Ok ps |- _ => rename H into Hl end.
  assert (Hfst : l.*1 = ps.*1); [|by rewrite Hfst].
  clear -Hl. revert ps Hl. induction l as [|[k x] l IH]; intros ps Hl; inv_result; [done|].
  simpl. f_equal. by eapply IH.
Qed.

Lemma load_json_authority_const name : is_ok (load_json_authority (RConst name)) = false.
Proof. done. Qed.
