(* ===== verification/Effects.v ===== *)
(** * Effects: a state and exception monad over a durable world

    Every store of the control plane keeps an in-memory copy of its authority
    file, reloads it under a lock before each operation, and commits it with a
    fuse-then-rename protocol. [world A] is what such an operation can see: the
    copy ([mem : A]), the durable directory entry ([file], [fuse]) and the
    environment. The environment is a set of oracles indexed by a counter: the
    wall clock ([time.time()]), [uuid.uuid4()], and which I/O step fails with
    [OSError]. A theorem that does not mention an oracle holds for every clock,
    every identifier and every I/O failure or crash point. *)

From S2P Require Import Prelude PyFloat PyValue Json.

Inductive authority_file : Type :=
| Missing
| Unparsable                          (* not JSON at all *)
| Present (r : raw).

Record env : Type := Env {
  clock : nat -> float;
  ticks : nat;
  uuid : nat -> string;
  uuids : nat;
  io_fault : nat -> bool;
  ios : nat
}.

Record world (A : Type) : Type := World {
  mem : A;
  file : authority_file;
  fuse : bool;
  environment : env
}.
Arguments World {_} _ _ _ _.
Arguments mem {_} _.
Arguments file {_} _.
Arguments fuse {_} _.
Arguments environment {_} _.

Definition M (W A : Type) : Type := W -> result A * W.

#[export] Instance M_ret W : MRet (M W) := fun A a w => (Ok a, w).
#[export] Instance M_bind W : MBind (M W) := fun A B f m w =>
  match m w with
  | (Ok a, w') => f a w'
  | (Err e, w') => (Err e, w')
  end.

Definition raise {W A} (e : exn) : M W A := fun w => (Err e, w).

(** [try: m except e: h e]; the state reached by [m] is kept. *)
Definition catch {W A} (m : M W A) (h : exn -> M W A) : M W A := fun w =>
  match m w with
  | (Err e, w') => h e w'
  | r => r
  end.

(** [try: m finally: h]; an exception of [h] replaces the outcome. *)
Definition finally {W A} (m : M W A) (h : M W unit) : M W A := fun w =>
  let '(r, w1) := m w in
  match h w1 with
  | (Ok _, w2) => (r, w2)
  | (Err e, w2) => (Err e, w2)
  end.

Definition lift {W A} (r : result A) : M W A := fun w => (r, w).

Definition guard_err {W} (b : bool) (e : exn) : M W unit :=
  if b then raise e else mret tt.

Section primitives.
Context {A : Type}.
Local Abbreviation MA := (M (world A)).

Definition get_mem : MA A := fun w => (Ok (mem w), w).
Definition put_mem (a : A) : MA unit := fun w =>
  (Ok tt, World a (file w) (fuse w) (environment w)).

(** [time.time()] *)
Definition time_time : MA float := fun w =>
  let e := environment w in
  (Ok (clock e (ticks e)),
   World (mem w) (file w) (fuse w)
     (Env (clock e) (S (ticks e)) (uuid e) (uuids e) (io_fault e) (ios e))).

(** [str(uuid.uuid4())] *)
Definition uuid4 : MA string := fun w =>
  let e := environment w in
  (Ok (uuid e (uuids e)),
   World (mem w) (file w) (fuse w)
     (Env (clock e) (ticks e) (uuid e) (S (uuids e)) (io_fault e) (ios e))).

(** One I/O step: it may fail with [OSError], else it has its effect on the
    directory entry. *)
Definition io (eff : authority_file * bool -> authority_file * bool) : MA unit :=
  fun w =>
    let e := environment w in
    let e' := Env (clock e) (ticks e) (uuid e) (uuids e) (io_fault e) (S (ios e)) in
    if io_fault e (ios e) then (Err OSError, World (mem w) (file w) (fuse w) e')
    else let '(f, u) := eff (file w, fuse w) in (Ok tt, World (mem w) f u e').

(** Reading the directory entry. *)
Definition get_file : MA authority_file := fun w => (Ok (file w), w).
Definition get_fuse : MA bool := fun w => (Ok (fuse w), w).
End primitives.

(** [for x in l: f x] *)
Fixpoint mfor {W A} (l : list A) (f : A -> M W unit) : M W unit :=
  match l with
  | [] => mret tt
  | x :: l' => f x ;; mfor l' f
  end.

(** ** Running *)

Lemma bind_ok {W A B} (m : M W A) (f : A -> M W B) w b w' :
  (m ≫= f) w = (Ok b, w') <->
  exists a w1, m w = (Ok a, w1) /\ f a w1 = (Ok b, w').
Proof.
  unfold mbind, M_bind. destruct (m w) as [[a|e] w1]; split.
  - eauto.
  - by intros (? & ? & [= -> ->] & ?).
  - done.
  - by intros (? & ? & ? & ?).
Qed.

Lemma bind_err {W A B} (m : M W A) (f : A -> M W B) w e w' :
  (m ≫= f) w = (Err e, w') <->
  m w = (Err e, w') \/ exists a w1, m w = (Ok a, w1) /\ f a w1 = (Err e, w').
Proof.
  unfold mbind, M_bind. destruct (m w) as [[a|e'] w1]; split.
  - eauto.
  - by intros [?|(? & ? & [= -> ->] & ?)].
  - intros [= -> ->]. by left.
  - by intros [[= -> ->]|(? & ? & ? & ?)].
Qed.

Lemma bind_run {W A B} (m : M W A) (f : A -> M W B) w a w1 :
  m w = (Ok a, w1) -> (m ≫= f) w = f a w1.
Proof. intros H. unfold mbind, M_bind. by rewrite H. Qed.

Lemma ret_run {W A} (a : A) (w : W) : (mret a : M W A) w = (Ok a, w).
Proof. done. Qed.

Lemma guard_false {W B} b e (f : unit -> M W B) w :
  b = false -> (guard_err b e ≫= f) w = f tt w.
Proof. by intros ->. Qed.

Lemma guard_true {W B} b e (f : unit -> M W B) w :
  b = true -> (guard_err b e ≫= f) w = (Err e, w).
Proof. by intros ->. Qed.

Lemma ret_ok {W A} (a : A) (w : W) b w' :
  (mret a : M W A) w = (Ok b, w') -> b = a /\ w' = w.
Proof. by intros [= -> ->]. Qed.

Lemma lift_ok {W A} (r : result A) (w : W) a w' :
  lift r w = (Ok a, w') <-> r = Ok a /\ w' = w.
Proof. unfold lift. split; [by intros [= -> ->]|by intros [-> ->]]. Qed.

Lemma guard_err_ok {W} b e (w : W) u w' :
  guard_err b e w = (Ok u, w') <-> b = false /\ w' = w.
Proof.
  destruct b, u; simpl; split; try done; try (by intros [? ?]).
  - by intros [= ->].
  - by intros [_ ->].
Qed.

Lemma catch_ok {W A} (m : M W A) h (w : W) a w' :
  catch m h w = (Ok a, w') ->
  m w = (Ok a, w') \/ exists e w1, m w = (Err e, w1) /\ h e w1 = (Ok a, w').
Proof. unfold catch. destruct (m w) as [[?|?] ?]; eauto. Qed.

(** ** Step relations respected by a computation

    [Resp R m]: whatever the outcome, normal or exceptional, the world after [m]
    is related by [R] to the world before. For a preorder [R] this composes, and
    instance resolution finds the composition. *)
Class Resp {W A} (R : relation W) (m : M W A) : Prop := resp : forall w, R w (m w).2.

Section resp.
Context {W : Type} (R : relation W) `{!PreOrder R}.

#[export] Instance resp_ret {A} (a : A) : Resp R (mret a : M W A).
Proof using All. intros w. done. Qed.
#[export] Instance resp_raise {A} e : Resp R (raise e : M W A).
Proof using All. intros w. done. Qed.
#[export] Instance resp_lift {A} (r : result A) : Resp R (lift r : M W A).
Proof using All. intros w. done. Qed.
#[export] Instance resp_guard b e : Resp R (guard_err b e : M W unit).
Proof using All. intros w. by destruct b. Qed.

#[export] Instance resp_bind {A B} (m : M W A) (f : A -> M W B) :
  Resp R m -> (forall a, Resp R (f a)) -> Resp R (m ≫= f).
Proof using All.
  intros Hm Hf w. unfold mbind, M_bind. specialize (Hm w).
  destruct (m w) as [[a|e] w1]; simpl in *; [|done].
  etrans; [exact Hm|apply Hf].
Qed.

#[export] Instance resp_catch {A} (m : M W A) (h : exn -> M W A) :
  Resp R m -> (forall e, Resp R (h e)) -> Resp R (catch m h).
Proof using All.
  intros Hm Hh w. unfold catch. specialize (Hm w).
  destruct (m w) as [[a|e] w1]; simpl in *; [done|].
  etrans; [exact Hm|apply Hh].
Qed.

#[export] Instance resp_finally {A} (m : M W A) (h : M W unit) :
  Resp R m -> Resp R h -> Resp R (finally m h).
Proof using All.
  intros Hm Hh w. unfold finally. specialize (Hm w).
  destruct (m w) as [r w1]. specialize (Hh w1).
  destruct (h w1) as [[]]; simpl in *; by etrans.
Qed.

#[export] Instance resp_mfor {A} (l : list A) (f : A -> M W unit) :
  (forall x, Resp R (f x)) -> Resp R (mfor l f).
Proof using All.
  intros Hf. induction l as [|x l IH]; simpl; [apply resp_ret|].
  apply resp_bind; [apply Hf|done].
Qed.
End resp.

(** Decide [Resp R op] for an operation written with the combinators. *)
Ltac solve_resp_step :=
  cbv zeta;
  lazymatch goal with
  | |- Resp _ (_ ≫= _) => apply resp_bind; [apply _| |intros ?]
  | |- Resp _ (match ?x with _ => _ end) => destruct x
  | |- Resp _ _ =>
      first [ apply _
            | apply resp_catch; [apply _| |intros ?]
            | apply resp_finally; [apply _| |]
            | apply resp_mfor; [apply _|intros ?]
            | case_match ]
  end.
Ltac solve_resp := repeat solve_resp_step.

(** ** Inversion of a run *)

(** The oracles and their positions, all but the I/O counter. *)
Definition same_oracles {A} (w w' : world A) : Prop :=
  clock (environment w') = clock (environment w) /\
  ticks (environment w') = ticks (environment w) /\
  uuid (environment w') = uuid (environment w) /\
  uuids (environment w') = uuids (environment w) /\
  io_fault (environment w') = io_fault (environment w).

#[export] Instance same_oracles_preorder {A} : PreOrder (@same_oracles A).
Proof.
  split; [by repeat split|].
  intros w1 w2 w3 (? & ? & ? & ? & ?) (? & ? & ? & ? & ?). repeat split; congruence.
Qed.

Lemma io_ok {A} eff (w : world A) u w' :
  io eff w = (Ok u, w') ->
  (file w', fuse w') = eff (file w, fuse w) /\ mem w' = mem w /\ same_oracles w w'.
Proof.
  unfold io. destruct (io_fault _ _); [done|].
  destruct (eff (file w, fuse w)) as [f v]. intros [= <- <-]. by repeat split.
Qed.

Lemma io_err {A} eff (w : world A) e w' :
  io eff w = (Err e, w') ->
  e = OSError /\ file w' = file w /\ fuse w' = fuse w /\ mem w' = mem w /\
  same_oracles w w' /\ exists n, io_fault (environment w) n = true.
Proof.
  unfold io. destruct (io_fault _ _) eqn:Hf.
  - intros [= <- <-]. repeat split. eauto.
  - by destruct (eff (file w, fuse w)).
Qed.

Lemma io_run {A} eff (w : world A) :
  io_fault (environment w) (ios (environment w)) = false ->
  exists w', io eff w = (Ok tt, w') /\
    (file w', fuse w') = eff (file w, fuse w) /\ mem w' = mem w /\ same_oracles w w'.
Proof.
  intros Hf. unfold io. rewrite Hf. destruct (eff (file w, fuse w)) as [f v].
  eexists; by repeat split.
Qed.

Lemma time_time_ok {A} (w : world A) t w' :
  time_time w = (Ok t, w') ->
  t = clock (environment w) (ticks (environment w)) /\
  mem w' = mem w /\ file w' = file w /\ fuse w' = fuse w /\
  clock (environment w') = clock (environment w) /\
  ticks (environment w') = S (ticks (environment w)) /\
  uuid (environment w') = uuid (environment w) /\
  uuids (environment w') = uuids (environment w) /\
  io_fault (environment w') = io_fault (environment w).
Proof. intros [= <- <-]. by repeat split. Qed.

Lemma uuid4_ok {A} (w : world A) u w' :
  uuid4 w = (Ok u, w') ->
  u = uuid (environment w) (uuids (environment w)) /\
  mem w' = mem w /\ file w' = file w /\ fuse w' = fuse w /\
  clock (environment w') = clock (environment w) /\
  ticks (environment w') = ticks (environment w) /\
  uuid (environment w') = uuid (environment w) /\
  uuids (environment w') = S (uuids (environment w)) /\
  io_fault (environment w') = io_fault (environment w).
Proof. intros [= <- <-]. by repeat split. Qed.

Lemma catch_err {W A} (m : M W A) h (w : W) e w' :
  catch m h w = (Err e, w') ->
  exists e1 w1, m w = (Err e1, w1) /\ h e1 w1 = (Err e, w').
Proof. unfold catch. destruct (m w) as [[?|?] ?]; [done|eauto]. Qed.

(** Close equations between components of worlds related by [same_oracles]. *)
Ltac solve_same :=
  repeat match goal with
  | H : same_oracles _ _ |- _ => destruct H as (? & ? & ? & ? & ?)
  | H : (_, _) = id (_, _) |- _ => injection H as ? ?
  | H : (file _, fuse _) = (_, _) |- _ => injection H as ? ?
  end; repeat split; simpl in *; try congruence.

(** Invert hypotheses of the form [m w = (Ok a, w')], down to the primitives. *)
Ltac inv_run_step :=
  match goal with
  | H : (_ ≫= _) _ = (Ok _, _) |- _ => apply bind_ok in H as (? & ? & ? & H)
  | H : mret _ _ = (Ok _, _) |- _ => apply ret_ok in H as [? ?]; subst
  | H : raise _ _ = (Ok _, _) |- _ => discriminate H
  | H : raise _ _ = (Err _, _) |- _ => injection H as ? ?; subst
  | H : get_mem _ = (Ok _, _) |- _ => injection H as ? ?; subst
  | H : get_file _ = (Ok _, _) |- _ => injection H as ? ?; subst
  | H : get_fuse _ = (Ok _, _) |- _ => injection H as ? ?; subst
  | H : put_mem _ _ = (Ok _, _) |- _ => injection H as ? ?; subst
  | H : lift _ _ = (Ok _, _) |- _ => apply lift_ok in H as [? ?]; subst
  | H : guard_err _ _ _ = (Ok _, _) |- _ => apply guard_err_ok in H as [? ?]; subst
  | H : (if ?b then _ else _) _ = (_, _) |- _ => destruct b eqn:?
  | H : match ?x with _ => _ end _ = (_, _) |- _ => destruct x eqn:?
  end.
Ltac inv_run := repeat (inv_run_step; simpl in * |-).

(** ** Steps that depend on what came before *)

(** A step that establishes a fact for the rest of the program. *)
Lemma resp_bind_post {W A B} (R : relation W) `{!PreOrder R} (m : M W A) (f : A -> M W B) w :
  R w (m w).2 ->
  (forall a w1, m w = (Ok a, w1) -> R w1 (f a w1).2) ->
  R w ((m ≫= f) w).2.
Proof.
  intros Hm Hf. unfold mbind, M_bind. destruct (m w) as [[a|e] w1]; cbn in *; [|done].
  etrans; [exact Hm|by apply Hf].
Qed.

(** The same with an invariant that the steps keep. *)
Lemma resp_bind_inv {W A B} (R : relation W) `{!PreOrder R} (I : W -> Prop)
    (m : M W A) (f : A -> M W B) w :
  (forall w w', R w w' -> I w -> I w') -> I w -> R w (m w).2 ->
  (forall a w1, m w = (Ok a, w1) -> I w1 -> R w1 (f a w1).2) ->
  R w ((m ≫= f) w).2.
Proof.
  intros Hmono Hi Hm Hf. apply (resp_bind_post R); [exact Hm|]. intros a w1 E. apply Hf; [done|].
  rewrite E in Hm. by eapply Hmono.
Qed.

Lemma resp_catch_start {W A} (R : relation W) `{!PreOrder R} (m : M W A) h w :
  R w (m w).2 -> (forall e, Resp R (h e)) -> R w (catch m h w).2.
Proof.
  intros Hm Hh. unfold catch. destruct (m w) as [[a|e] w1]; cbn in *; [done|].
  etrans; [exact Hm|apply Hh].
Qed.

Lemma resp_finally_post {W A} (R : relation W) `{!PreOrder R} (m : M W A) h w :
  R w (m w).2 -> Resp R h -> R w (finally m h w).2.
Proof.
  intros Hm Hh. unfold finally. destruct (m w) as [r w1]. specialize (Hh w1).
  destruct (h w1) as [[]]; cbn in *; by etrans.
Qed.

Lemma finally_ok {W A} (m : M W A) h (w : W) a w' :
  finally m h w = (Ok a, w') <-> exists w1 u, m w = (Ok a, w1) /\ h w1 = (Ok u, w').
Proof.
  unfold finally. destruct (m w) as [r w1]. destruct (h w1) as [[u|e] w2] eqn:Hh; split.
  - intros [= -> ->]. eauto.
  - intros (? & ? & [= -> ->] & E). rewrite Hh in E. by injection E as -> ->.
  - done.
  - intros (? & ? & [= -> ->] & E). by rewrite Hh in E.
Qed.

(** ** The exceptions a computation may raise *)
Class Throws {W A} (P : exn -> Prop) (m : M W A) : Prop :=
  throws : forall w e w', m w = (Err e, w') -> P e.

Section throws.
Context {W : Type} (P : exn -> Prop).

#[export] Instance throws_ret {A} (a : A) : Throws P (mret a : M W A).
Proof. by intros w e w'. Qed.
Lemma throws_raise {A} e : P e -> Throws P (raise e : M W A).
Proof. by intros He w e' w' [= <- _]. Qed.
Lemma throws_guard b e : P e -> Throws P (guard_err b e : M W unit).
Proof. intros He w e' w'. destruct b; [|done]. by intros [= <- _]. Qed.

Lemma throws_bind {A B} (m : M W A) (f : A -> M W B) :
  Throws P m -> (forall a, Throws P (f a)) -> Throws P (m ≫= f).
Proof.
  intros Hm Hf w e w' [H|(a & w1 & _ & H)]%bind_err; [by apply (Hm w e w')|by apply (Hf a w1 e w')].
Qed.

Lemma throws_catch {A} (Q : exn -> Prop) (m : M W A) (h : exn -> M W A) :
  Throws Q m -> (forall e, Q e -> Throws P (h e)) -> Throws P (catch m h).
Proof.
  intros Hm Hh w e w' (e1 & w1 & H1 & H2)%catch_err. apply (Hh e1 (Hm _ _ _ H1) w1 e w' H2).
Qed.

Lemma throws_finally {A} (m : M W A) (h : M W unit) :
  Throws P m -> Throws P h -> Throws P (finally m h).
Proof.
  intros Hm Hh w e w'. unfold finally. destruct (m w) as [r w1] eqn:H1.
  destruct (h w1) as [[u|e2] w2] eqn:H2; intros [= -> ->]; [by apply (Hm _ _ _ H1)|by apply (Hh _ _ _ H2)].
Qed.
End throws.
