(* ===== verification/Authority.v ===== *)
(** * Authority files (state_safety.py and the stores' [_load]/[_persist])

    Every store of the control plane keeps its authority in one JSON file next
    to a durable marker, the fuse. An absent file is acceptable only while the
    fuse has never been armed; a commit arms the fuse before it publishes the
    file. [AuthorityFormat] is what one store promises to this protocol,
    [AuthorityLaws] what it must prove about its format; the protocol's
    guarantees are proved here once, for every store:

    - [view]: the state the next load delivers, the abstract state of a store;
    - [persist] publishes exactly the in-memory state ([persist_ok]), and when
      it fails, at whatever I/O step, the next load delivers the old state, the
      new state, or refuses ([persist_outcome]); it never delivers an empty
      state once a commit has been attempted ([commit_never_resurrects_empty]);
    - every operation built from these primitives keeps a readable file readable
      and never disarms the fuse ([evolves]). *)

From S2P Require Import Prelude PyFloat PyValue Json Effects.

Class AuthorityFormat (A : Type) := {
  af_error : exn;                     (* the store's error class *)
  af_fresh : A;                       (* in-memory state when no file exists *)
  af_decode : value -> result A;      (* the checks of [_load] on the payload *)
  af_validate : A -> result unit;     (* the checks of [_persist] *)
  af_encode : A -> value;             (* the payload written *)
  af_committed : A -> A               (* in-memory state after a commit *)
}.

Class AuthorityLaws (A : Type) `{AuthorityFormat A} : Prop := {
  af_roundtrip : forall a,
    af_validate a = Ok tt -> af_decode (af_encode a) = Ok (af_committed a)
}.

(** [mark_initialized]: create the marker unless it exists, then [fsync]. *)
Definition mark_initialized {A} : M (world A) unit :=
  io (fun '(f, _) => (f, true)) ;;
  io id.

(** [was_initialized] *)
Definition was_initialized {A} : M (world A) bool :=
  io id ;; get_fuse.

Section protocol.
Context {A : Type} `{AuthorityFormat A}.

(** [_load]; [OSError] of the read itself is caught by its [except] clause. *)
Definition load : M (world A) unit :=
  catch (io id) (fun _ => raise af_error) ;;
  f ← get_file;
  match f with
  | Missing =>
      was ← was_initialized;
      if was : bool then raise af_error else put_mem af_fresh
  | Unparsable => raise af_error
  | Present r =>
      payload ← catch (lift (load_json_authority r)) (fun _ => raise af_error);
      a ← lift (af_decode payload);
      put_mem a ;;
      mark_initialized
  end.

(** [_persist] *)
Definition persist : M (world A) unit :=
  a ← get_mem;
  lift (af_validate a) ;;
  io id ;;                                        (* mkdir, mkstemp *)
  r ← catch (lift (json_dump (af_encode a))) (fun _ => raise af_error);
  io id ;;                                        (* flush, fsync *)
  mark_initialized ;;
  io (fun '(_, u) => (Present r, u)) ;;           (* os.replace *)
  io id ;;                                        (* fsync of the directory *)
  put_mem (af_committed a).

(** [with self._state_lock(...)]: reload, run the body, turn an [OSError] of
    the lock, the load or the body into the store's error. *)
Definition locked {B} (body : M (world A) B) : M (world A) B :=
  catch (io id ;; load ;; body)
        (fun e => match e with OSError => raise af_error | _ => raise e end).

(** The state the next load delivers. *)
Definition view (w : world A) : option A :=
  match file w with
  | Missing => if fuse w then None else Some af_fresh
  | Unparsable => None
  | Present r =>
      match load_json_authority r with
      | Ok v => match af_decode v with Ok a => Some a | Err _ => None end
      | Err _ => None
      end
  end.

Definition no_faults (w : world A) : Prop := forall n, io_fault (environment w) n = false.

(** Two worlds with the same durable file, up to the fuse. *)
Definition same_file (w w' : world A) : Prop :=
  file w' = file w /\ (fuse w = true -> fuse w' = true) /\
  (file w = Missing -> fuse w' = fuse w) /\
  clock (environment w') = clock (environment w) /\
  io_fault (environment w') = io_fault (environment w) /\
  uuid (environment w') = uuid (environment w).

#[export] Instance same_file_preorder : PreOrder same_file.
Proof.
  split; [by repeat split|].
  intros w1 w2 w3 (? & ? & H3 & ? & ? & ?) (E & ? & H3' & ? & ? & ?).
  repeat split; try congruence; try tauto.
  intros Hm. rewrite H3' by congruence. auto.
Qed.

Lemma same_file_view w w' : same_file w w' -> view w' = view w.
Proof.
  intros (Hf & _ & Hm & _). unfold view. rewrite Hf.
  destruct (file w); [|done|done]. by rewrite Hm.
Qed.

Lemma mark_initialized_ok (w : world A) u w' :
  mark_initialized w = (Ok u, w') ->
  file w' = file w /\ fuse w' = true /\ mem w' = mem w /\ same_oracles w w'.
Proof.
  unfold mark_initialized. intros Hr. inv_run.
  repeat match goal with H : io _ _ = _ |- _ => apply io_ok in H as (? & ? & ?) end.
  solve_same.
Qed.

Lemma mark_initialized_err (w : world A) e w' :
  mark_initialized w = (Err e, w') ->
  e = OSError /\ file w' = file w /\ (fuse w = true -> fuse w' = true) /\
  mem w' = mem w /\ exists n, io_fault (environment w) n = true.
Proof.
  unfold mark_initialized. intros [Hr|(? & ? & H1 & Hr)]%bind_err.
  - apply io_err in Hr as (-> & ? & ? & ? & ? & ?). repeat split; congruence || done.
  - apply io_ok in H1 as (? & ? & H1). apply io_err in Hr as (-> & ? & ? & ? & ? & ?).
    destruct H1 as (_ & _ & _ & _ & Hio). simplify_eq.
    rewrite Hio in *. repeat split; congruence || done.
Qed.

Lemma view_missing (w : world A) :
  file w = Missing -> fuse w = false -> view w = Some af_fresh.
Proof. unfold view. by intros -> ->. Qed.

Lemma view_present (w : world A) r v a :
  file w = Present r -> load_json_authority r = Ok v -> af_decode v = Ok a ->
  view w = Some a.
Proof. unfold view. by intros -> -> ->. Qed.

Lemma view_gone (w : world A) : file w = Missing -> fuse w = true -> view w = None.
Proof. unfold view. by intros -> ->. Qed.

Lemma load_ok (w : world A) u w' :
  load w = (Ok u, w') ->
  view w = Some (mem w') /\ view w' = view w /\ file w' = file w /\
  (fuse w = true -> fuse w' = true) /\ same_oracles w w'.
Proof.
  unfold load. intros Hr. inv_run;
    repeat match goal with
    | H : catch _ _ _ = (Ok _, _) |- _ =>
        apply catch_ok in H as [H|(? & ? & ? & ?)]; [|done]; inv_run
    | H : was_initialized _ = _ |- _ => unfold was_initialized in H; inv_run
    | H : io _ _ = (Ok _, _) |- _ => apply io_ok in H as (? & ? & ?)
    | H : mark_initialized _ = (Ok _, _) |- _ =>
        apply mark_initialized_ok in H as (? & ? & ? & ?)
    end; simplify_eq/=.
  - assert (file w = Missing /\ fuse w = false) as [? ?] by solve_same.
    assert (file x1 = Missing /\ fuse x1 = false) as [? ?] by solve_same.
    rewrite !view_missing by done. solve_same.
  - assert (file w = Present r) by solve_same.
    assert (file w' = Present r) by solve_same.
    match goal with
    | Hv : load_json_authority _ = Ok ?v, Ha : af_decode _ = Ok ?a |- _ =>
        rewrite !(view_present _ r v a) by done
    end.
    solve_same.
Qed.
(** A failed load changes nothing a later load can see. *)
Lemma load_err (w : world A) e w' :
  load w = (Err e, w') ->
  view w' = view w /\ file w' = file w /\ (fuse w = true -> fuse w' = true).
Proof.
  assert (Hv : forall w1 : world A, file w1 = file w -> (fuse w = true -> fuse w1 = true) ->
    (file w = Missing -> fuse w1 = fuse w) -> view w1 = view w).
  { intros w1 Hf _ Hm. unfold view. rewrite Hf.
    destruct (file w); [by rewrite Hm|done|done]. }
  unfold load. intros [Hr|(u & w1 & H1 & Hr)]%bind_err.
  { apply catch_err in Hr as (? & ? & Hio & [= <- <-]).
    apply io_err in Hio as (-> & Hf & Hu & _). rewrite Hv; naive_solver congruence. }
  apply catch_ok in H1 as [H1|(? & ? & _ & ?)]; [|done].
  apply io_ok in H1 as (Heq & Hm1 & _). injection Heq as Hf1 Hu1.
  apply bind_err in Hr as [|(f & w2 & Hg & Hr)]; [done|]. injection Hg as Hg <-.
  destruct f as [| |r].
  - apply bind_err in Hr as [Hr|(b & w3 & Hb & Hr)].
    + unfold was_initialized in Hr. apply bind_err in Hr as [Hr|(? & ? & ? & ?)]; [|done].
      apply io_err in Hr as (-> & Hf & Hu & _). rewrite Hv; naive_solver congruence.
    + unfold was_initialized in Hb. apply bind_ok in Hb as (? & ? & Hio & [= <- <-]).
      apply io_ok in Hio as (? & ? & ?).
      destruct (fuse _) in Hr; [|done]. injection Hr as <- ->.
      assert (file w' = file w /\ fuse w' = fuse w) as [? ?] by solve_same.
      rewrite Hv; naive_solver congruence.
  - injection Hr as <- <-. rewrite Hv; naive_solver congruence.
  - apply bind_err in Hr as [Hr|(v & w3 & Hc & Hr)].
    { apply catch_err in Hr as (? & ? & [= ? <-] & [= <- <-]).
      rewrite Hv; naive_solver congruence. }
    apply catch_ok in Hc as [Hc|(? & ? & _ & ?)]; [|done]. apply lift_ok in Hc as [_ ->].
    apply bind_err in Hr as [[= _ <-]|(a & w4 & Hl & Hr)]; [rewrite Hv; naive_solver congruence|].
    apply lift_ok in Hl as [_ ->]. apply bind_err in Hr as [|(? & ? & [= <- <-] & Hr)]; [done|].
    apply mark_initialized_err in Hr as (-> & Hf & Hu & _). simpl in *.
    rewrite Hv; naive_solver congruence.
Qed.

End protocol.

Section commit.
Context {A : Type} `{AuthorityLaws A}.

(** The three things a commit can leave behind. *)
Definition commit_outcome (w w' : world A) : Prop :=
  (fuse w = true -> fuse w' = true) /\
  ((file w' = file w /\ (fuse w' = fuse w \/ fuse w' = true)) \/
   (view w' = Some (af_committed (mem w)) /\ fuse w' = true)).

Lemma persist_ok (w : world A) u w' :
  persist w = (Ok u, w') ->
  af_validate (mem w) = Ok tt /\ view w' = Some (af_committed (mem w)) /\
  mem w' = af_committed (mem w) /\ fuse w' = true /\ same_oracles w w'.
Proof using All.
  unfold persist. intros Hr. inv_run.
  repeat match goal with
  | H : catch _ _ _ = (Ok _, _) |- _ =>
      apply catch_ok in H as [H|(? & ? & ? & ?)]; [|done]; inv_run
  | H : io _ _ = (Ok _, _) |- _ => apply io_ok in H as (? & ? & ?)
  | H : mark_initialized _ = (Ok _, _) |- _ =>
      apply mark_initialized_ok in H as (? & ? & ? & ?)
  | H : json_dump _ = Ok _ |- _ => apply load_json_authority_dump in H
  | u : unit |- _ => destruct u
  end; simpl in *.
  match goal with Hj : load_json_authority ?r = Ok ?v, Hv : af_validate ?a = Ok _ |- _ =>
    pose proof (af_roundtrip a Hv) as Hd;
    split; [exact Hv|split; [apply (view_present _ r v); [|exact Hj|exact Hd]|]]
  end; solve_same.
Qed.

Lemma persist_ok_serializable (w : world A) u w' :
  persist w = (Ok u, w') -> serializable (af_encode (mem w)) = true.
Proof.
  unfold persist. intros Hr. inv_run.
  repeat match goal with
  | H : catch _ _ _ = (Ok _, _) |- _ =>
      apply catch_ok in H as [H|(? & ? & ? & ?)]; [|done]; inv_run
  end. apply json_dump_serializable. eauto.
Qed.

Lemma persist_outcome (w : world A) :
  commit_outcome w (persist w).2.
Proof using All.
  destruct (persist w) as [r w'] eqn:Hr. simpl.
  destruct r as [u|e].
  { apply persist_ok in Hr as (_ & Hv & _ & Hf & _). split; [done|]. by right. }
  unfold persist in Hr.
  apply bind_err in Hr as [|(? & ? & [= <- <-] & Hr)]; [done|].
  apply bind_err in Hr as [[= _ <-]|(? & ? & Hv & Hr)]; [split; auto|].
  apply lift_ok in Hv as [Hv ->]. destruct x.
  apply bind_err in Hr as [Hr|(? & w1 & H1 & Hr)].
  { apply io_err in Hr as (_ & Hf & Hu & _). split; [congruence|]. left. auto. }
  apply io_ok in H1 as (H1 & Hm1 & _). injection H1 as Hf1 Hu1.
  apply bind_err in Hr as [Hr|(r & w2 & H2 & Hr)].
  { apply catch_err in Hr as (? & ? & [= _ <-] & [= <- <-]).
    split; [congruence|]. left. auto. }
  apply catch_ok in H2 as [H2|(? & ? & _ & ?)]; [|done]. apply lift_ok in H2 as [Hj ->].
  apply bind_err in Hr as [Hr|(? & w3 & H3 & Hr)].
  { apply io_err in Hr as (_ & Hf & Hu & _). split; [congruence|]. left.
    split; [congruence|left; congruence]. }
  apply io_ok in H3 as (H3 & Hm3 & _). injection H3 as Hf3 Hu3.
  apply bind_err in Hr as [Hr|(? & w4 & H4 & Hr)].
  { apply mark_initialized_err in Hr as (_ & Hf & Hu & _). split.
    - intros. apply Hu. congruence.
    - left. split; [congruence|]. destruct (fuse w') eqn:E; [by right|left].
      destruct (fuse w) eqn:E'; [|done].
      assert (false = true) by (apply Hu; congruence). done. }
  apply mark_initialized_ok in H4 as (Hf4 & Hu4 & Hm4 & _).
  apply bind_err in Hr as [Hr|(? & w5 & H5 & Hr)].
  { apply io_err in Hr as (_ & Hf & Hu & _). split; [congruence|]. left.
    split; [congruence|right; congruence]. }
  apply io_ok in H5 as (H5 & Hm5 & _). injection H5 as Hf5 Hu5.
  apply bind_err in Hr as [Hr|(? & ? & ? & ?)]; [|done].
  apply io_err in Hr as (_ & Hf & Hu & _).
  split; [congruence|right]. split; [|congruence].
  apply load_json_authority_dump in Hj.
  apply (view_present _ r (af_encode (mem w))); [congruence|done|].
  by apply af_roundtrip.
Qed.
End commit.

(** ** Relations every store operation respects *)

Section relations.
Context {A : Type} `{AuthorityLaws A}.

(** Whatever is on disk is a valid authority file. *)
Definition sound (w : world A) : Prop := file w = Missing \/ is_Some (view w).

Definition evolves (w w' : world A) : Prop :=
  (fuse w = true -> fuse w' = true) /\ (sound w -> sound w') /\
  (file w' = Missing -> file w = Missing).

#[export] Instance evolves_preorder : PreOrder evolves.
Proof. split; [by repeat split|]. intros ??? (? & ? & ?) (? & ? & ?). repeat split; auto. Qed.

(** The oracles are those of the same environment. *)
Definition same_env (w w' : world A) : Prop :=
  io_fault (environment w') = io_fault (environment w) /\
  clock (environment w') = clock (environment w) /\
  uuid (environment w') = uuid (environment w).

#[export] Instance same_env_preorder : PreOrder same_env.
Proof.
  split; [by repeat split|]. intros ??? (? & ? & ?) (? & ? & ?). repeat split; congruence.
Qed.

(** The durable state is untouched. *)
Definition keeps (w w' : world A) : Prop :=
  file w' = file w /\ view w' = view w /\ (fuse w = true -> fuse w' = true) /\ same_env w w'.

#[export] Instance keeps_preorder : PreOrder keeps.
Proof.
  split; [by repeat split|].
  intros ??? (? & ? & ? & ?) (? & ? & ? & ?). split; [congruence|]. split; [congruence|].
  split; [auto|by etrans].
Qed.

Lemma keeps_evolves w w' : keeps w w' -> evolves w w'.
Proof.
  intros (Hf & Hv & Hu & _). split; [done|]. split; [|congruence].
  unfold sound. by rewrite Hf, Hv.
Qed.

Lemma resp_keeps_evolves {B} (m : M (world A) B) : Resp keeps m -> Resp evolves m.
Proof. intros Hm w. apply keeps_evolves, Hm. Qed.

#[export] Instance keeps_get_mem : Resp keeps (get_mem (A:=A)).
Proof. intros w. done. Qed.
#[export] Instance keeps_put_mem a : Resp keeps (put_mem a).
Proof. intros w. by repeat split. Qed.
#[export] Instance keeps_time : Resp keeps (time_time (A:=A)).
Proof. intros w. by repeat split. Qed.
#[export] Instance keeps_uuid : Resp keeps (uuid4 (A:=A)).
Proof. intros w. by repeat split. Qed.
#[export] Instance keeps_io_id : Resp keeps (io (A:=A) id).
Proof. intros w. unfold io. destruct (io_fault _ _); by repeat split. Qed.

(** Neither the durable state nor the copy in memory is touched. *)
Definition reads (w w' : world A) : Prop := keeps w w' /\ mem w' = mem w.

#[export] Instance reads_preorder : PreOrder reads.
Proof.
  split; [by repeat split|]. intros ??? [? ?] [? ?]. split; [by etrans|congruence].
Qed.
#[export] Instance reads_get_mem : Resp reads (get_mem (A:=A)).
Proof. intros w. done. Qed.
#[export] Instance reads_time : Resp reads (time_time (A:=A)).
Proof. intros w. by repeat split. Qed.
#[export] Instance reads_uuid : Resp reads (uuid4 (A:=A)).
Proof. intros w. by repeat split. Qed.

Lemma same_env_load (w : world A) : same_env w (load w).2.
Proof.
  assert (Hio : forall eff, Resp same_env (io (A:=A) eff)).
  { intros eff w1. unfold io. destruct (io_fault _ _) eqn:E; [done|].
    by destruct (eff (file w1, fuse w1)). }
  assert (Resp same_env (get_file (A:=A))) by done.
  assert (Resp same_env (get_fuse (A:=A))) by done.
  assert (forall a : A, Resp same_env (put_mem a)) by done.
  revert w. change (Resp same_env (load (A:=A))).
  unfold load, was_initialized, mark_initialized. solve_resp.
Qed.

#[export] Instance keeps_load : Resp keeps (load (A:=A)).
Proof using All.
  intros w. pose proof (same_env_load w) as Hio.
  destruct (load w) as [[u|e] w'] eqn:Hl; simpl in *.
  - apply load_ok in Hl as (? & ? & ? & ? & ?). done.
  - apply load_err in Hl as (? & ? & ?). done.
Qed.

#[export] Instance evolves_persist : Resp evolves (persist (A:=A)).
Proof using All.
  intros w. destruct (persist_outcome w) as (Hu & Ho). split; [done|]. unfold sound.
  destruct Ho as [[Hf Hfu]|[Hv Hfu]].
  - split; [|congruence]. intros [Hs|Hs]; [left; congruence|].
    destruct (file w) eqn:E; [by left| |]; right; unfold view in *; rewrite Hf, E in *; done.
  - split; [right; by rewrite Hv|]. intros Hm. unfold view in Hv.
    by rewrite Hm, Hfu in Hv.
Qed.

#[export] Instance resp_locked (R : relation (world A)) `{!PreOrder R} {B}
    (body : M (world A) B) :
  Resp R (io (A:=A) id) -> Resp R (load (A:=A)) -> Resp R body -> Resp R (locked body).
Proof using All.
  intros. unfold locked. apply resp_catch; [done|apply _|].
  intros []; apply _.
Qed.

#[export] Instance evolves_io_id : Resp evolves (io (A:=A) id).
Proof. apply resp_keeps_evolves, _. Qed.
#[export] Instance evolves_load : Resp evolves (load (A:=A)).
Proof using All. apply resp_keeps_evolves, _. Qed.
#[export] Instance evolves_get_mem : Resp evolves (get_mem (A:=A)).
Proof. apply resp_keeps_evolves, _. Qed.
#[export] Instance evolves_put_mem a : Resp evolves (put_mem a).
Proof. apply resp_keeps_evolves, _. Qed.
#[export] Instance evolves_time : Resp evolves (time_time (A:=A)).
Proof. apply resp_keeps_evolves, _. Qed.
#[export] Instance evolves_uuid : Resp evolves (uuid4 (A:=A)).
Proof. apply resp_keeps_evolves, _. Qed.
End relations.

(** ** Operations under the lock *)

Section under_lock.
Context {A : Type} `{AuthorityFormat A}.

Lemma locked_ok {B} (body : M (world A) B) w b w' :
  locked body w = (Ok b, w') ->
  exists w1, view w = Some (mem w1) /\ view w1 = view w /\ file w1 = file w /\
    (fuse w = true -> fuse w1 = true) /\ same_oracles w w1 /\ body w1 = (Ok b, w').
Proof using All.
  unfold locked. intros [Hr|(e & w1 & _ & Hr)]%catch_ok; [|by destruct e].
  apply bind_ok in Hr as (? & w0 & Hio & Hr). apply bind_ok in Hr as (? & w1 & Hl & Hr).
  apply io_ok in Hio as (Hio & _ & Ho). injection Hio as Hf Hu.
  apply load_ok in Hl as (Hv & Hv1 & Hf1 & Hu1 & Ho1).
  assert (Hv0 : view w0 = view w) by (unfold view; by rewrite Hf, Hu).
  exists w1. rewrite <- Hv0. repeat split; try congruence; solve_same.
  intros. apply Hu1. congruence.
Qed.

Lemma load_gone (w : world A) :
  file w = Missing -> fuse w = true ->
  exists e w', load w = (Err e, w') /\ (e = af_error \/ e = OSError) /\
    file w' = Missing /\ fuse w' = true.
Proof using All.
  intros Hf Hu. destruct (load w) as [[u|e] w'] eqn:Hl.
  { apply load_ok in Hl as (Hv & _). by rewrite view_gone in Hv. }
  exists e, w'. pose proof (load_err _ _ _ Hl) as (_ & Hf' & Hu').
  split; [done|]. split; [|split; [congruence|auto]]. clear Hf' Hu'.
  unfold load in Hl. apply bind_err in Hl as [Hl|(? & w1 & H1 & Hl)].
  { apply catch_err in Hl as (? & ? & _ & [= <- _]). by left. }
  apply catch_ok in H1 as [H1|(? & ? & _ & ?)]; [|done].
  apply io_ok in H1 as (H1 & _). injection H1 as Hf1 Hu1.
  apply bind_err in Hl as [|(f & w2 & [= <- <-] & Hl)]; [done|]. rewrite Hf1, Hf in Hl.
  apply bind_err in Hl as [Hl|(b & w3 & Hb & Hl)].
  - unfold was_initialized in Hl. apply bind_err in Hl as [Hl|(? & ? & ? & ?)]; [|done].
    apply io_err in Hl as (-> & _). by right.
  - destruct b; [injection Hl as <- _; by left|done].
Qed.

(** Fail closed: after a commit has been attempted, a missing file is an error
    of every operation, whatever its body, and nothing recreates it. *)
Lemma locked_fail_closed {B} (body : M (world A) B) w :
  file w = Missing -> fuse w = true ->
  exists w', locked body w = (Err af_error, w') /\ file w' = Missing /\ fuse w' = true.
Proof using All.
  intros Hf Hu. unfold locked, catch, mbind, M_bind.
  destruct (io id w) as [[u|e] w0] eqn:Hio.
  - apply io_ok in Hio as (Hio & _). injection Hio as Hf0 Hu0.
    destruct (load_gone w0) as (e & w' & Hl & He & Hf' & Hu'); [congruence..|].
    rewrite Hl. exists w'. split; [|done].
    destruct He as [->| ->]; [|done]. by destruct af_error.
  - apply io_err in Hio as (-> & Hf' & Hu' & _).
    eexists; split; [done|]. split; congruence.
Qed.

Lemma io_id_run (w : world A) :
  no_faults w -> exists w', io id w = (Ok tt, w') /\ file w' = file w /\
    fuse w' = fuse w /\ mem w' = mem w /\ same_oracles w w'.
Proof.
  intros Hnf. destruct (io_run id w (Hnf _)) as (w' & Hr & Hio & Hm & Ho).
  injection Hio as ? ?. eauto 10.
Qed.

Lemma no_faults_same (w w' : world A) : same_oracles w w' -> no_faults w -> no_faults w'.
Proof. intros (_ & _ & _ & _ & Hio) Hnf n. by rewrite Hio. Qed.

Lemma mark_initialized_run (w : world A) :
  no_faults w -> exists w', mark_initialized w = (Ok tt, w').
Proof using All.
  intros Hnf. unfold mark_initialized, mbind, M_bind.
  destruct (io_run (A:=A) (fun '(f, _) => (f, true)) w (Hnf _)) as (w1 & H1 & _ & _ & Ho).
  rewrite H1. destruct (io_id_run w1) as (w2 & H2 & _); [by eapply no_faults_same|].
  rewrite H2. by eexists.
Qed.

Lemma load_run (w : world A) a :
  no_faults w -> view w = Some a -> exists w', load w = (Ok tt, w') /\ mem w' = a.
Proof using All.
  intros Hnf Hv.
  cut (exists w', load w = (Ok tt, w')).
  { intros [w' Hl]. exists w'. split; [done|]. apply load_ok in Hl as (Hv' & _). congruence. }
  unfold load, mbind, M_bind, catch, lift.
  destruct (io_id_run w Hnf) as (w1 & H1 & Hf1 & Hu1 & _ & Ho). rewrite H1.
  assert (Hnf1 : no_faults w1) by (by eapply no_faults_same).
  unfold get_file. rewrite Hf1. unfold view in Hv. destruct (file w) as [| |r].
  - unfold was_initialized, mbind, M_bind, get_fuse.
    destruct (io_id_run w1 Hnf1) as (w2 & H2 & _ & Hu2 & _). rewrite H2.
    rewrite Hu2, Hu1. destruct (fuse w); [done|by eexists].
  - done.
  - destruct (load_json_authority r); [|done]. destruct (af_decode a0) eqn:Hd; [|done].
    unfold put_mem. apply mark_initialized_run. exact Hnf1.
Qed.

(** Without I/O faults an operation runs its body on the state of the file. *)
Lemma locked_run {B} (body : M (world A) B) w a :
  no_faults w -> view w = Some a ->
  exists w1, mem w1 = a /\ view w1 = view w /\ file w1 = file w /\
    same_oracles w w1 /\
    locked body w =
      match body w1 with (Err OSError, w2) => (Err af_error, w2) | r => r end.
Proof using All.
  intros Hnf Hv. destruct (io_id_run w Hnf) as (w0 & Hio & Hf0 & Hu0 & _ & Ho0).
  assert (Hv0 : view w0 = Some a) by (unfold view in *; by rewrite Hf0, Hu0).
  destruct (load_run w0 a) as (w1 & Hl & Hm1); [by eapply no_faults_same|done|].
  exists w1. pose proof (load_ok _ _ _ Hl) as (_ & Hv1 & Hf1 & _ & Ho1).
  repeat split; try congruence; [solve_same..|].
  unfold locked, catch, mbind, M_bind. rewrite Hio, Hl.
  destruct (body w1) as [[b|[]] w2]; done.
Qed.

(** The same as a rule: prove what the body returns from the loaded state. *)
Lemma locked_eval {B} (P : world A -> Prop) (body : M (world A) B) w a r :
  no_faults w -> view w = Some a -> r <> Err OSError ->
  (forall w1, mem w1 = a -> view w1 = view w -> no_faults w1 -> same_oracles w w1 ->
     exists w2, body w1 = (r, w2) /\ P w2) ->
  exists w2, locked body w = (r, w2) /\ P w2.
Proof using All.
  intros Hnf Hv Hr Hb. destruct (locked_run body w a Hnf Hv) as (w1 & Hm & Hv1 & _ & Ho & Hl).
  destruct (Hb w1 Hm Hv1 (no_faults_same _ _ Ho Hnf) Ho) as (w2 & Hw2 & HP).
  exists w2. split; [|done]. rewrite Hl, Hw2. destruct r as [|[]]; done.
Qed.

Lemma persist_run (w : world A) :
  no_faults w -> af_validate (mem w) = Ok tt -> serializable (af_encode (mem w)) = true ->
  exists w', persist w = (Ok tt, w').
Proof using All.
  intros Hnf Hv [r Hs]%json_dump_serializable.
  unfold persist, mbind, M_bind, catch, lift, get_mem. rewrite Hv.
  destruct (io_id_run w Hnf) as (w1 & H1 & _ & _ & _ & Ho1). rewrite H1, Hs.
  assert (Hnf1 : no_faults w1) by (by eapply no_faults_same).
  destruct (io_id_run w1 Hnf1) as (w2 & H2 & _ & _ & _ & Ho2). rewrite H2.
  assert (Hnf2 : no_faults w2) by (by eapply no_faults_same).
  destruct (mark_initialized_run w2 Hnf2) as (w3 & H3). rewrite H3.
  apply mark_initialized_ok in H3 as (_ & _ & _ & Ho3).
  assert (Hnf3 : no_faults w3) by (by eapply no_faults_same).
  destruct (io_run (A:=A) (fun '(_, u) => (Present r, u)) w3 (Hnf3 _))
    as (w4 & H4 & _ & _ & Ho4). rewrite H4.
  assert (Hnf4 : no_faults w4) by (by eapply no_faults_same).
  destruct (io_id_run w4 Hnf4) as (w5 & H5 & _). rewrite H5. by eexists.
Qed.

End under_lock.

Section atomicity.
Context {A : Type} `{AuthorityLaws A}.

(** Without I/O faults an operation that raises has not changed the authority. *)
Definition Atomic {B} (m : M (world A) B) : Prop :=
  forall w e w', no_faults w -> m w = (Err e, w') -> view w' = view w.

Lemma atomic_keeps {B} (m : M (world A) B) : Resp keeps m -> Atomic m.
Proof.
  intros Hm w e w' _ Hr. specialize (Hm w). rewrite Hr in Hm. by destruct Hm as (_ & ? & _).
Qed.

Lemma atomic_bind {B C} (m : M (world A) B) (f : B -> M (world A) C) :
  Resp keeps m -> (forall b, Atomic (f b)) -> Atomic (m ≫= f).
Proof.
  intros Hm Hf w e w' Hnf [Hr|(b & w1 & H1 & Hr)]%bind_err.
  - by apply (atomic_keeps m Hm w e).
  - specialize (Hm w). rewrite H1 in Hm. destruct Hm as (_ & Hv & _ & Hio & _). simpl in *.
    rewrite (Hf b w1 e w'); [done|intros n; by rewrite Hio|done].
Qed.

Lemma atomic_ret {B C} (m : M (world A) B) (g : B -> C) :
  Atomic m -> Atomic (m ≫= fun b => mret (g b)).
Proof. intros Hm w e w' Hnf [Hr|(b & w1 & _ & Hr)]%bind_err; [by eapply Hm|done]. Qed.

Lemma atomic_persist {B} (b : B) : Atomic (persist ;; mret b).
Proof using All.
  intros w e w' Hnf [Hr|(? & ? & _ & Hr)]%bind_err; [|done].
  destruct (af_validate (mem w)) as [[]|e1] eqn:Hv.
  - destruct (serializable (af_encode (mem w))) eqn:Hs.
    + destruct (persist_run w Hnf Hv Hs) as [w1 Hp]. by rewrite Hp in Hr.
    + assert (Hd : forall r, json_dump (af_encode (mem w)) <> Ok r).
      { intros r Hj. assert (Hx : exists r, json_dump (af_encode (mem w)) = Ok r) by eauto.
        apply json_dump_serializable in Hx. congruence. }
      unfold persist, mbind, M_bind, catch, lift, get_mem in Hr. rewrite Hv in Hr.
      destruct (io_id_run w Hnf) as (w1 & H1 & Hf1 & Hu1 & _). rewrite H1 in Hr.
      destruct (json_dump _) as [r|]; [by edestruct Hd|]. injection Hr as <- <-.
      unfold view. by rewrite Hf1, Hu1.
  - unfold persist, mbind, M_bind, lift, get_mem in Hr. rewrite Hv in Hr.
    by injection Hr as <- <-.
Qed.

Lemma atomic_persist_alone : Atomic (persist (A:=A)).
Proof using All.
  intros w e w' Hnf Hr. apply (atomic_persist tt w e w' Hnf). apply bind_err. by left.
Qed.

Lemma atomic_locked {B} (body : M (world A) B) : Atomic body -> Atomic (locked body).
Proof using All.
  intros Hb w e w' Hnf Hr. destruct (view w) as [a|] eqn:Hv.
  - destruct (locked_run body w a Hnf Hv) as (w1 & _ & Hv1 & _ & Ho & Hl).
    rewrite Hl in Hr. destruct (body w1) as [[b|e1] w2] eqn:Hb1; [done|].
    assert (w' = w2) as -> by (destruct e1; congruence).
    rewrite (Hb _ _ _ (no_faults_same _ _ Ho Hnf) Hb1). congruence.
  - unfold locked in Hr. apply catch_err in Hr as (e1 & w1 & Hr & He).
    assert (w' = w1) as -> by (destruct e1; unfold raise in He; congruence).
    apply bind_err in Hr as [Hr|(? & w2 & Hio & Hr)].
    + apply io_err in Hr as (_ & Hf & Hu & _). unfold view in *. by rewrite Hf, Hu.
    + apply io_ok in Hio as (Hio & _). injection Hio as Hf Hu.
      assert (Hv2 : view w2 = view w) by (unfold view; by rewrite Hf, Hu).
      apply bind_err in Hr as [Hr|(? & w3 & Hl & _)].
      * apply load_err in Hr as (Hv' & _). congruence.
      * apply load_ok in Hl as (Hv' & _). congruence.
Qed.

(** [m] fails, and recreates nothing, once the file of a store is gone. *)
Definition Closed {B} (m : M (world A) B) : Prop :=
  forall w, file w = Missing -> fuse w = true ->
    exists e w', m w = (Err e, w') /\ file w' = Missing /\ fuse w' = true.

Lemma closed_locked {B} (body : M (world A) B) : Closed (locked body).
Proof using All.
  intros w Hf Hu. destruct (locked_fail_closed body w Hf Hu) as (w' & ? & ? & ?). eauto.
Qed.

Lemma closed_bind {B C} (m : M (world A) B) (f : B -> M (world A) C) :
  Resp keeps m -> (forall b, Closed (f b)) -> Closed (m ≫= f).
Proof.
  intros Hm Hf w Hw Hu. destruct (Hm w) as (Hf1 & _ & Hu1 & _).
  unfold mbind, M_bind. destruct (m w) as [[b|e] w1]; simpl in *.
  - apply Hf; [congruence|auto].
  - exists e, w1. split; [done|]. split; [congruence|auto].
Qed.

Lemma closed_tail {B C} (m : M (world A) B) (f : B -> M (world A) C) :
  Closed m -> Closed (m ≫= f).
Proof.
  intros Hm w Hw Hu. destruct (Hm w Hw Hu) as (e & w' & Hr & ?). exists e, w'.
  split; [|done]. unfold mbind, M_bind. by rewrite Hr.
Qed.
End atomicity.

(** What a reading step leaves unchanged. *)
Lemma reads_run {A} `{AuthorityFormat A} {B} (m : M (world A) B) `{!Resp reads m} w r w' :
  m w = (r, w') ->
  mem w' = mem w /\ view w' = view w /\ same_env w w'.
Proof.
  intros E. pose proof (resp (R:=reads) (m:=m) w) as Hm. rewrite E in Hm.
  by destruct Hm as [(_ & ? & _ & ?) ?].
Qed.

(** Collect these facts for the reading steps of an inverted run. *)
Ltac use_reads :=
  repeat match goal with
  | H : ?m ?w = (Ok _, ?w') |- _ =>
      lazymatch goal with
      | _ : mem w' = mem w |- _ => fail
      | _ => pose proof (reads_run m w _ w' H) as (? & ? & ?)
      end
  end.

Create HintDb authority.
#[export] Hint Resolve same_file_view : authority.

(** Decide [Atomic op] for a body that ends in a commit, and [Closed op] for an
    operation that ends under the lock. *)
Ltac solve_atomic_step :=
  cbv beta zeta;
  lazymatch goal with
  | |- Atomic (locked _) => apply atomic_locked
  | |- Atomic persist => apply atomic_persist_alone
  | |- Atomic (persist ≫= _) => apply atomic_persist
  | |- Atomic (match ?x with _ => _ end) => destruct x
  | |- Atomic (_ ≫= _) =>
      first [ apply atomic_bind; [solve [solve_resp]|intros ?]
            | apply atomic_ret ]
  | |- Atomic _ => first [ solve [auto with authority]
                         | apply atomic_keeps; solve [solve_resp]]
  end.
Ltac solve_atomic := repeat solve_atomic_step.

Ltac solve_closed :=
  repeat first
    [ apply closed_locked
    | apply closed_bind; [solve [solve_resp]|intros ?]
    | apply closed_tail ].
