(* ===== verification/Steps.v ===== *)
(** * Following an operation from the state it loads

    A relation [Q] on the states of a store says what one operation may do.
    [stepped Q] is that relation on worlds, for every schedule of I/O faults: the
    durable state is the old one, or one [Q]-step away, or (only when nothing had
    ever been committed) the store is left fail-closed. [Stepping] is the proof
    rule: run the body from the loaded state [a], step over the parts that only
    read, and show [Q] at the commit. *)

From S2P Require Import Prelude PyFloat PyValue Json Effects Authority.

Section steps.
Context {A : Type} `{AuthorityLaws A} (Q : A -> A -> Prop).

Definition outcome (a : A) (f : authority_file) (w' : world A) : Prop :=
  view w' = Some a \/
  (exists a', view w' = Some a' /\ Q a a') \/
  (f = Missing /\ file w' = Missing /\ view w' = None).

Definition stepped (w w' : world A) : Prop :=
  match view w with
  | None => view w' = None
  | Some a => outcome a (file w) w'
  end.

Definition Stepping {B} (a : A) (m : M (world A) B) (w : world A) : Prop :=
  mem w = a -> view w = Some a -> outcome a (file w) (m w).2.

Definition Stepped {B} (m : M (world A) B) : Prop := forall w, stepped w (m w).2.

Lemma stepped_view w w' : view w' = view w -> stepped w w'.
Proof. unfold stepped, outcome. intros ->. destruct (view w); auto. Qed.

Lemma outcome_keeps a f w w' : outcome a f w -> keeps w w' -> outcome a f w'.
Proof. unfold outcome. intros Ho (-> & -> & _). exact Ho. Qed.

Lemma stepping_keeps {B} a (m : M (world A) B) w : Resp keeps m -> Stepping a m w.
Proof.
  intros Hm _ Hv. left. destruct (Hm w) as (_ & Hv' & _). by rewrite Hv'.
Qed.

Lemma stepping_bind {B C} a (m : M (world A) B) (f : B -> M (world A) C) w :
  Resp reads m ->
  (forall b w1, m w = (Ok b, w1) -> Stepping a (f b) w1) ->
  Stepping a (m ≫= f) w.
Proof.
  intros Hm Hf Hw Hv. destruct (Hm w) as [(Hf1 & Hv1 & _) Hm1].
  unfold mbind, M_bind. destruct (m w) as [[b|e] w1] eqn:E; simpl in *.
  - rewrite <- Hf1. apply Hf; congruence.
  - left. congruence.
Qed.

Lemma stepping_guard {C} a b e (f : unit -> M (world A) C) w :
  (b = false -> Stepping a (f tt) w) -> Stepping a (guard_err b e ≫= f) w.
Proof.
  intros Hf. destruct b; [by intros _ Hv; left|]. by apply Hf.
Qed.

Lemma stepping_get_mem {B} a (f : A -> M (world A) B) w :
  Stepping a (f a) w -> Stepping a (get_mem ≫= f) w.
Proof. intros Hf Hw Hv. unfold mbind, M_bind, get_mem. rewrite Hw. by apply Hf. Qed.

Lemma stepping_lift {B C} a (r : result B) (f : B -> M (world A) C) w :
  (forall b, r = Ok b -> Stepping a (f b) w) -> Stepping a (lift r ≫= f) w.
Proof.
  intros Hf. destruct r as [b|e]; [by apply Hf|by intros _ Hv; left].
Qed.

Lemma stepping_tail {B C} a (m : M (world A) B) (f : B -> M (world A) C) w :
  Stepping a m w -> (forall b, Resp keeps (f b)) -> Stepping a (m ≫= f) w.
Proof.
  intros Hm Hf Hw Hv. specialize (Hm Hw Hv). unfold mbind, M_bind.
  destruct (m w) as [[b|e] w1]; simpl in *; [|done].
  eapply outcome_keeps; [exact Hm|apply Hf].
Qed.

Lemma stepping_commit a a' w :
  (af_validate a' = Ok tt -> Q a (af_committed a')) ->
  Stepping a (put_mem a' ;; persist) w.
Proof using All.
  intros HQ Hw Hv. unfold mbind, M_bind, put_mem.
  set (w1 := World a' _ _ _).
  assert (Hv1 : view w1 = view w) by done.
  destruct (af_validate a') as [[]|e] eqn:Hva.
  2: { left. unfold persist, mbind, M_bind, lift, get_mem.
       change (mem w1) with a'. rewrite Hva. simpl. congruence. }
  destruct (persist_outcome w1) as (_ & [[Hf Hu]|[Hv2 Hu]]).
  - assert (Hfw : file w1 = file w) by done. assert (Huw : fuse w1 = fuse w) by done.
    destruct (file w) eqn:E; [|left; unfold view in *; rewrite Hf, Hfw, E in *; congruence..].
    destruct Hu as [Hu|Hu].
    + left. rewrite <- Hv, <- Hv1. unfold view. by rewrite Hf, Hu.
    + right. right. unfold view. by rewrite Hf, Hfw, Hu.
  - right. left. eexists. split; [exact Hv2|]. by apply HQ.
Qed.

(** Under the lock, from the state of the file, in the environment of the caller. *)
Lemma stepped_locked_from {B} (body : M (world A) B) w :
  (forall w' a, same_oracles w w' -> Stepping a body w') -> stepped w (locked body w).2.
Proof using All.
  intros Hb. unfold locked, catch.
  assert (Hl : forall (m : M (world A) B), (match m w with
    | (Err e, w') => (match e with OSError => raise af_error | _ => raise e end) w'
    | r => r end).2 = (m w).2).
  { intros m. by destruct (m w) as [[|[]] ?]. }
  rewrite Hl. clear Hl. unfold mbind, M_bind.
  destruct (io id w) as [[u|e] w0] eqn:Hio; simpl.
  2: { apply io_err in Hio as (_ & Hf & Hu & _). apply stepped_view.
       unfold view. by rewrite Hf, Hu. }
  apply io_ok in Hio as (Hio & _ & Ho0). injection Hio as Hf Hu.
  assert (Hv0 : view w0 = view w) by (unfold view; by rewrite Hf, Hu).
  destruct (load w0) as [[u1|e] w1] eqn:Hl; simpl.
  2: { apply load_err in Hl as (Hv & _). apply stepped_view. congruence. }
  apply load_ok in Hl as (Hv & Hv1 & Hf1 & _ & Ho1). unfold stepped. rewrite <- Hv0, Hv, <- Hf, <- Hf1.
  apply Hb; [by etrans|done|congruence].
Qed.

Lemma stepped_locked {B} (body : M (world A) B) :
  (forall w a, Stepping a body w) -> Stepped (locked body).
Proof using All. intros Hb w. apply stepped_locked_from. intros w' a _. apply Hb. Qed.

Lemma stepped_bind {B C} (m : M (world A) B) (f : B -> M (world A) C) :
  Resp keeps m -> (forall w b w1, m w = (Ok b, w1) -> Stepped (f b)) -> Stepped (m ≫= f).
Proof.
  intros Hm Hf w. destruct (Hm w) as (Hf1 & Hv1 & _). unfold mbind, M_bind.
  destruct (m w) as [[b|e] w1] eqn:E; simpl in *; [|by apply stepped_view].
  unfold stepped. rewrite <- Hv1, <- Hf1. eapply Hf, E.
Qed.

Lemma stepped_tail {B C} (m : M (world A) B) (f : B -> M (world A) C) :
  Stepped m -> (forall b, Resp keeps (f b)) -> Stepped (m ≫= f).
Proof.
  intros Hm Hf w. specialize (Hm w). unfold stepped, mbind, M_bind in *.
  destruct (m w) as [[b|e] w1]; simpl in *; [|done].
  pose proof (Hf b w1) as Hk. destruct (view w); [by eapply outcome_keeps|].
  destruct Hk as (_ & -> & _). done.
Qed.

Lemma stepped_keeps {B} (m : M (world A) B) : Resp keeps m -> Stepped m.
Proof.
  intros Hm w. apply stepped_view. by destruct (Hm w) as (_ & ? & _).
Qed.
End steps.
