(* ===== verification/SessionState.v ===== *)
(** * Session records and their validation (session_store.py, first half)

    The states of a Session, the transition table, the fields of a record and
    the checks [SessionStore._load] and [_persist] run on them. A Session record
    is a [dict]; the two checks below are the ones of the source, and
    [validate_session_iff] states what they amount to: a schema of per-field
    predicates plus the ordering of the event log. *)

From S2P Require Import Prelude PyFloat PyValue Json Effects Authority.

(** ** Constants *)
Definition SESSION_STATES : list string :=
  ["STOPPED"; "PROVISIONING"; "BOOTSTRAPPING"; "READY_WAIT_INGEST"; "LIVE";
   "DEGRADED"; "HOLDING"; "STOPPING"; "FINISHED"; "FAILED_CLEANUP"; "FAILED"].

Definition ACTIVE_STATES : list string :=
  ["PROVISIONING"; "BOOTSTRAPPING"; "READY_WAIT_INGEST"; "LIVE"; "DEGRADED"; "HOLDING"].

Definition TERMINAL_STATES : list string := ["STOPPED"; "FINISHED"; "FAILED"].

Definition CAPACITY_STATES : list string :=
  ACTIVE_STATES ++ ["STOPPING"; "FAILED_CLEANUP"].

Definition SESSION_EVENT_LIMIT : nat := 1000.

Definition MEDIA_CONTROL_AUDIO_DESIRED_MODES : list string := ["LIVE"; "MUTED"].
Definition MEDIA_CONTROL_AUDIO_ACTUAL_MODES : list string :=
  ["LIVE"; "MUTED"; "SILENT_FALLBACK"; "APPLYING"; "FAILED"].

Definition UNUSABLE_MEDIA_REASONS : list string := ["VIDEO_TIMEOUT"; "AUDIO_TIMEOUT"].
Definition FORMAT_REJECTION_REASONS : list string :=
  ["VIDEO_CODEC_UNSUPPORTED"; "AUDIO_CODEC_UNSUPPORTED"; "RESOLUTION_UNSUPPORTED";
   "AUDIO_CHANNELS_UNSUPPORTED"].

Definition SESSION_REQUIRED_TIMESTAMPS : list string := ["created_at"; "updated_at"].
Definition SESSION_OPTIONAL_TIMESTAMPS : list string :=
  ["relay_client_updated_at"; "node_registered_at"; "node_last_heartbeat_at";
   "provisioning_started_at"; "ready_at"; "first_ingest_at"; "last_ingest_at";
   "hold_deadline_at"; "recovery_candidate_since"; "absolute_deadline_at"].
Definition SESSION_TIMESTAMP_FIELDS : list string :=
  SESSION_REQUIRED_TIMESTAMPS ++ SESSION_OPTIONAL_TIMESTAMPS.

Definition TRANSITIONS (state : string) : list string :=
  match state with
  | "STOPPED" => ["PROVISIONING"]
  | "PROVISIONING" => ["BOOTSTRAPPING"; "STOPPING"; "FAILED_CLEANUP"]
  | "BOOTSTRAPPING" => ["READY_WAIT_INGEST"; "STOPPING"; "FAILED_CLEANUP"]
  | "READY_WAIT_INGEST" => ["LIVE"; "DEGRADED"; "STOPPING"; "FAILED_CLEANUP"]
  | "LIVE" => ["DEGRADED"; "HOLDING"; "STOPPING"; "FAILED_CLEANUP"]
  | "DEGRADED" => ["LIVE"; "HOLDING"; "STOPPING"; "FAILED_CLEANUP"]
  | "HOLDING" => ["LIVE"; "DEGRADED"; "STOPPING"; "FAILED_CLEANUP"]
  | "STOPPING" => ["FINISHED"; "FAILED_CLEANUP"]
  | "FAILED_CLEANUP" => ["FAILED"; "STOPPING"]
  | _ => []
  end.

(** [x in set] *)
Definition in_set (x : string) (l : list string) : bool := bool_decide (x ∈ l).

(** [value in set] for a value of any type: only a string can be a member. *)
Definition value_in (v : value) (l : list string) : bool :=
  match v with VStr s => in_set s l | _ => false end.

(** ** Validators *)
Definition _validated_timestamp (v : value) : result float :=
  match nonneg_number v with
  | Some number => Ok number
  | None => Err SessionStateError
  end.

Definition _validated_derived_timestamp (base offset : float) : result float :=
  _validated_timestamp (VFloat (fadd base offset)).

Definition _validate_timestamp_changes (changes : dict) : result unit :=
  check_each (fun field =>
    match changes !! field with
    | None => Ok tt
    | Some VNull =>
        raise_if (in_set field SESSION_REQUIRED_TIMESTAMPS) SessionStateError
    | Some v => _validated_timestamp v ;; Ok tt
    end) SESSION_TIMESTAMP_FIELDS.

Definition _require_nonempty_string (record : dict) (field : string) : result string :=
  match py_get record field with
  | VStr s => if str_empty s then Err SessionStateError else Ok s
  | _ => Err SessionStateError
  end.

Definition _require_finite_number (record : dict) (field : string) (optional : bool)
    : result (option float) :=
  let v := py_get record field in
  if is_null v && optional then Ok None
  else number ← _validated_timestamp v; Ok (Some number).

Definition _require_bool (record : dict) (field : string) (optional : bool)
    : result (option bool) :=
  match record !! field with
  | None => if optional then Ok None else Err SessionStateError
  | Some (VBool b) => Ok (Some b)
  | Some _ => Err SessionStateError
  end.

Definition _require_nonnegative_int (record : dict) (field : string) (optional : bool)
    : result (option Z) :=
  match record !! field with
  | None => if optional then Ok None else Err SessionStateError
  | Some v => match nonneg_int v with
              | Some z => Ok (Some z)
              | None => Err SessionStateError
              end
  end.

(** [if field in record: check] *)
Definition if_present (record : dict) (field : string) (check : result unit) : result unit :=
  match record !! field with None => Ok tt | Some _ => check end.

(** The loop over [record["events"]]; returns the last sequence number. *)
Fixpoint validate_events (previous_event_sequence : Z) (events : list value) : result Z :=
  match events with
  | [] => Ok previous_event_sequence
  | VDict event :: events' =>
      seq ← _require_nonnegative_int event "sequence" false;
      let event_sequence := default 0 seq in
      raise_if ((event_sequence =? 0) || (event_sequence <=? previous_event_sequence))
        SessionStateError ;;
      _require_nonempty_string event "type" ;;
      _require_nonempty_string event "origin" ;;
      _require_finite_number event "occurred_at" false ;;
      let reason_code := py_get event "reason_code" in
      raise_if (negb (is_null reason_code) && negb (is_str reason_code)) SessionStateError ;;
      raise_if (negb (is_dict (py_get event "payload"))) SessionStateError ;;
      validate_events event_sequence events'
  | _ :: _ => Err SessionStateError
  end.

(** The checks on [record["media_control"]]. *)
Definition validate_media_control (media_control : value) : result unit :=
  match media_control with
  | VNull => Ok tt
  | VDict mc =>
      match py_get mc "audio" with
      | VDict audio =>
          desired_mode ← _require_nonempty_string audio "desired_mode";
          raise_if (negb (in_set desired_mode MEDIA_CONTROL_AUDIO_DESIRED_MODES))
            SessionStateError ;;
          actual_mode ← _require_nonempty_string audio "actual_mode";
          raise_if (negb (in_set actual_mode MEDIA_CONTROL_AUDIO_ACTUAL_MODES))
            SessionStateError ;;
          _require_nonnegative_int audio "version" false ;;
          let command_id := py_get audio "command_id" in
          raise_if (negb (is_null command_id) && negb (is_str command_id))
            SessionStateError ;;
          match py_get audio "idempotency_key" with
          | VNull => Ok tt
          | VStr k => raise_if (str_empty k || (200 <? Z.of_nat (py_len k))) SessionStateError
          | _ => Err SessionStateError
          end ;;
          _require_finite_number audio "updated_at" false ;; Ok tt
      | _ => Err SessionStateError
      end
  | _ => Err SessionStateError
  end.

(** The body of the loop of [_validate_sessions]. *)
Definition validate_session (session_id : string) (v : value) : result unit :=
  match v with
  | VDict record =>
      raise_if (str_empty session_id) SessionStateError ;;
      stored_id ← _require_nonempty_string record "session_id";
      _require_nonempty_string record "user_id" ;;
      status ← _require_nonempty_string record "status";
      raise_if (negb (bool_decide (stored_id = session_id))) SessionStateError ;;
      raise_if (negb (in_set status SESSION_STATES)) SessionStateError ;;
      _require_nonnegative_int record "version" false ;;
      _require_bool record "cleanup_pending" false ;;
      check_each (fun field => _require_finite_number record field false ;; Ok tt)
        SESSION_REQUIRED_TIMESTAMPS ;;
      check_each (fun field => if_present record field
                    (_require_finite_number record field true ;; Ok tt))
        SESSION_OPTIONAL_TIMESTAMPS ;;
      check_each (fun field => if_present record field
                    (_require_bool record field true ;; Ok tt))
        ["entitlement_reserved"; "provisioning_in_progress";
         "provisioning_cancel_requested"; "relay_client_connected"] ;;
      if_present record "relay_client_reader_count"
        (_require_nonnegative_int record "relay_client_reader_count" true ;; Ok tt) ;;
      next_event_seq ← _require_nonnegative_int record "next_event_seq" true;
      raise_if (bool_decide (next_event_seq = Some 0)) SessionStateError ;;
      match py_get_or record "events" (VList []) with
      | VList events =>
          previous_event_sequence ← validate_events 0 events;
          raise_if
            match next_event_seq with
            | Some n => (0 <? previous_event_sequence) && (n <=? previous_event_sequence)
            | None => false
            end SessionStateError
      | _ => Err SessionStateError
      end ;;
      validate_media_control (py_get record "media_control")
  | _ => Err SessionStateError
  end.

Definition _validate_sessions (sessions : dict) : result unit :=
  check_all validate_session sessions.

(** The body of the loop of [_validate_cleanup_leases]. *)
Definition validate_lease (session_id : string) (v : value) : result unit :=
  match v with
  | VDict lease =>
      raise_if (str_empty session_id) SessionStateError ;;
      _require_nonempty_string lease "lease_id" ;;
      scope ← _require_nonempty_string lease "scope";
      raise_if (negb (in_set scope ["orphan"; "session"])) SessionStateError ;;
      created ← _require_finite_number lease "created_at" false;
      expires ← _require_finite_number lease "expires_at" false;
      match created, expires with
      | Some created_at, Some expires_at =>
          raise_if (fle expires_at created_at) SessionStateError
      | _, _ => Err SessionStateError
      end ;;
      if bool_decide (scope = "orphan") then
        _require_nonempty_string lease "resource_id" ;;
        _require_nonempty_string lease "resource_kind" ;; Ok tt
      else
        match py_get lease "expected_states" with
        | VList ((_ :: _) as l) =>
            raise_if (negb (forallb (fun s => value_in s SESSION_STATES) l)) SessionStateError
        | _ => Err SessionStateError
        end
  | _ => Err SessionStateError
  end.

Definition _validate_cleanup_leases (leases : dict) : result unit :=
  check_all validate_lease leases.

(** ** The store's in-memory state and file format *)
Record session_mem : Type := SessionMem {
  sessions : gmap string dict;
  leases : gmap string dict;          (* _orphan_cleanup_leases *)
  authoritative : bool
}.

Definition decode_sessions (payload : value) : result session_mem :=
  match payload with
  | VDict raw =>
      match raw !! "sessions" with
      | Some (VDict ss) =>
          _validate_sessions ss ;;
          match py_get_or raw "orphan_cleanup_leases" (VDict ∅) with
          | VDict ls =>
              _validate_cleanup_leases ls ;;
              Ok (SessionMem (as_dicts ss) (as_dicts ls) true)
          | _ => Err SessionStateError
          end
      | _ => Err SessionStateError
      end
  | _ => Err SessionStateError
  end.

Definition encode_sessions (m : session_mem) : value :=
  VDict (<["sessions" := VDict (of_dicts (sessions m))]>
         (<["orphan_cleanup_leases" := VDict (of_dicts (leases m))]> ∅)).

#[export] Instance session_format : AuthorityFormat session_mem := {|
  af_error := SessionStateError;
  af_fresh := SessionMem ∅ ∅ false;
  af_decode := decode_sessions;
  af_validate := fun m =>
    _validate_sessions (of_dicts (sessions m)) ;;
    _validate_cleanup_leases (of_dicts (leases m));
  af_encode := encode_sessions;
  af_committed := fun m => SessionMem (sessions m) (leases m) true
|}.

#[export] Instance session_laws : AuthorityLaws session_mem.
Proof.
  split. intros m Hv. cbn in Hv. apply result_bind_ok in Hv as ([] & Hs & Hl).
  cbn [af_decode session_format af_encode af_committed].
  unfold decode_sessions, encode_sessions, py_get_or.
  rewrite lookup_insert_eq, Hs. cbn [mbind result_bind].
  rewrite lookup_insert_ne, lookup_insert_eq by done. cbn [default from_option id].
  rewrite Hl. cbn. by rewrite !as_of_dicts.
Qed.
