(* ===== verification/SessionSpec.v ===== *)
(** * What a valid Session record is (specification of SessionState.v)

    [SessionOk] is the declarative reading of [validate_session]: a schema that
    constrains each field on its own, and the ordering constraint on the event
    log. [validate_session_iff] is the refinement theorem; the frame lemmas
    [SessionOk_insert] and [SessionOk_events] are what the operations use. *)

From S2P Require Import Prelude PyFloat PyValue Json Effects Authority SessionState.

(** ** The schema *)
Definition nonempty_str (v : option value) : bool :=
  match v with Some (VStr s) => negb (str_empty s) | _ => false end.
Definition state_name (v : option value) : bool :=
  match v with Some v => value_in v SESSION_STATES | None => false end.
Definition timestamp (v : option value) : bool :=
  match v with Some v => bool_decide (nonneg_number v <> None) | None => false end.
Definition optional_timestamp (v : option value) : bool :=
  match v with None | Some VNull => true | Some v => bool_decide (nonneg_number v <> None) end.
Definition boolean (v : option value) : bool :=
  match v with Some v => is_bool v | None => false end.
Definition optional_boolean (v : option value) : bool :=
  match v with Some v => is_bool v | None => true end.
Definition count (v : option value) : bool :=
  match v with Some v => bool_decide (nonneg_int v <> None) | None => false end.
Definition optional_count (v : option value) : bool :=
  match v with Some v => bool_decide (nonneg_int v <> None) | None => true end.
Definition media_control_ok (v : option value) : bool :=
  is_ok (validate_media_control (default VNull v)).

Definition session_schema : list (string * (option value -> bool)) :=
  [("user_id", nonempty_str); ("status", state_name); ("version", count);
   ("cleanup_pending", boolean);
   ("entitlement_reserved", optional_boolean);
   ("provisioning_in_progress", optional_boolean);
   ("provisioning_cancel_requested", optional_boolean);
   ("relay_client_connected", optional_boolean);
   ("relay_client_reader_count", optional_count);
   ("media_control", media_control_ok)] ++
  ((fun k => (k, timestamp)) <$> SESSION_REQUIRED_TIMESTAMPS) ++
  ((fun k => (k, optional_timestamp)) <$> SESSION_OPTIONAL_TIMESTAMPS).

Definition fits (schema : list (string * (option value -> bool))) (r : dict) : Prop :=
  Forall (fun p => p.2 (r !! p.1) = true) schema.

(** ** The event log *)
Definition events_of (r : dict) : option (list value) :=
  as_list (py_get_or r "events" (VList [])).

Definition seq_of (r : dict) : option value := r !! "next_event_seq".

(** The retained events are valid and numbered increasingly, and the next
    number, when recorded, is positive and above them. *)
Definition events_ok (events : option (list value)) (next_seq : option value) : Prop :=
  exists l last, events = Some l /\ validate_events 0 l = Ok last /\
    match next_seq with
    | None => True
    | Some v => exists n, nonneg_int v = Some n /\ 0 < n /\ (0 < last -> last < n)
    end.

Record SessionOk (sid : string) (r : dict) : Prop := {
  ok_key : sid <> "";
  ok_id : r !! "session_id" = Some (VStr sid);
  ok_schema : fits session_schema r;
  ok_events : events_ok (events_of r) (seq_of r)
}.

(** ** Readings of the single checks *)
Lemma seq_ok {A B} (m : result A) (k : result B) b :
  (m ;; k) = Ok b <-> is_ok m = true /\ k = Ok b.
Proof.
  destruct m; simpl; split; [done|by intros [_ ?]|done|by intros [? _]].
Qed.

Lemma require_nonempty_string_ok r k s :
  _require_nonempty_string r k = Ok s <-> r !! k = Some (VStr s) /\ s <> "".
Proof.
  unfold _require_nonempty_string, py_get.
  destruct (r !! k) as [[| | | |t| |]|]; simpl;
    try (split; [done|by intros [? _]]).
  destruct (str_empty t) eqn:E.
  - split; [done|]. intros [[= ->] Hs]. by apply str_empty_false in Hs; congruence.
  - apply str_empty_false in E. split; [by intros [= ->]|by intros [[= ->] _]].
Qed.

Lemma is_ok_nonempty_string r k :
  is_ok (_require_nonempty_string r k) = nonempty_str (r !! k).
Proof.
  unfold _require_nonempty_string, py_get.
  destruct (r !! k) as [[| | | |t| |]|]; simpl; try done. by destruct (str_empty t).
Qed.

Lemma is_ok_finite_number r k :
  is_ok (_require_finite_number r k false ;; Ok tt) = timestamp (r !! k).
Proof.
  unfold _require_finite_number, _validated_timestamp, py_get. rewrite andb_false_r.
  destruct (r !! k) as [v|]; simpl; [|done]. by destruct (nonneg_number v).
Qed.

Lemma is_ok_optional_number r k :
  is_ok (if_present r k (_require_finite_number r k true ;; Ok tt)) =
  optional_timestamp (r !! k).
Proof.
  unfold if_present, _require_finite_number, _validated_timestamp, py_get.
  destruct (r !! k) as [v|]; [|done]. rewrite andb_true_r. cbn [default from_option id].
  destruct v; cbn [is_null optional_timestamp]; [done|..];
    match goal with |- context [nonneg_number ?v] => by destruct (nonneg_number v) end.
Qed.

Lemma is_ok_bool r k : is_ok (_require_bool r k false) = boolean (r !! k).
Proof. unfold _require_bool. by destruct (r !! k) as [[]|]. Qed.

Lemma is_ok_optional_bool r k :
  is_ok (if_present r k (_require_bool r k true ;; Ok tt)) = optional_boolean (r !! k).
Proof. unfold if_present, _require_bool. by destruct (r !! k) as [[]|]. Qed.

Lemma is_ok_int r k : is_ok (_require_nonnegative_int r k false) = count (r !! k).
Proof.
  unfold _require_nonnegative_int. destruct (r !! k) as [v|]; simpl; [|done].
  by destruct (nonneg_int v).
Qed.

Lemma is_ok_optional_int r k :
  is_ok (if_present r k (_require_nonnegative_int r k true ;; Ok tt)) =
  optional_count (r !! k).
Proof.
  unfold if_present, _require_nonnegative_int. destruct (r !! k) as [v|]; simpl; [|done].
  by destruct (nonneg_int v).
Qed.

Lemma require_optional_int r k o :
  _require_nonnegative_int r k true = Ok o <->
  match r !! k with
  | None => o = None
  | Some v => exists n, nonneg_int v = Some n /\ o = Some n
  end.
Proof.
  unfold _require_nonnegative_int. destruct (r !! k) as [v|]; simpl.
  - destruct (nonneg_int v) as [n|]; split.
    + intros [= <-]. eauto.
    + by intros (? & [= ->] & ->).
    + done.
    + by intros (? & ? & _).
  - split; [by intros [= <-]|by intros ->].
Qed.

Lemma is_ok_check_each {V} (check : V -> result unit) l :
  is_ok (check_each check l) = forallb (fun v => is_ok (check v)) l.
Proof. induction l as [|v l IH]; simpl; [done|]. rewrite <- IH. by destruct (check v). Qed.

Lemma is_ok_unit (m : result unit) : is_ok m = true <-> m = Ok tt.
Proof. by destruct m as [[]|]. Qed.

Lemma nonneg_int_spec v n : nonneg_int v = Some n -> v = VInt n /\ 0 <= n.
Proof.
  destruct v; simpl; try done. destruct (z <? 0) eqn:E; [done|].
  intros [= <-]. split; [done|]. by apply Z.ltb_ge.
Qed.

(** ** Refinement *)
Lemma fits_session_schema r :
  fits session_schema r <->
  nonempty_str (r !! "user_id") = true /\ state_name (r !! "status") = true /\
  count (r !! "version") = true /\ boolean (r !! "cleanup_pending") = true /\
  forallb (fun k => timestamp (r !! k)) SESSION_REQUIRED_TIMESTAMPS = true /\
  forallb (fun k => optional_timestamp (r !! k)) SESSION_OPTIONAL_TIMESTAMPS = true /\
  forallb (fun k => optional_boolean (r !! k))
    ["entitlement_reserved"; "provisioning_in_progress";
     "provisioning_cancel_requested"; "relay_client_connected"] = true /\
  optional_count (r !! "relay_client_reader_count") = true /\
  media_control_ok (r !! "media_control") = true.
Proof.
  unfold fits, session_schema, SESSION_REQUIRED_TIMESTAMPS, SESSION_OPTIONAL_TIMESTAMPS.
  cbn [fmap list_fmap app forallb]. rewrite !Forall_cons. cbn [fst snd].
  rewrite !andb_true_iff. split; [tauto|]. intros H. repeat split; try apply H.
  apply Forall_nil. done.
Qed.

Lemma state_name_text (r : dict) :
  state_name (r !! "status") = true <->
  exists s, r !! "status" = Some (VStr s) /\ in_set s SESSION_STATES = true.
Proof.
  destruct (r !! "status") as [[]|]; simpl; split; try done; try (by intros (? & ? & ?)).
  - eauto.
  - by intros (? & [= ->] & ?).
Qed.

Lemma events_part_iff r (mc : result unit) :
  (next_event_seq ← _require_nonnegative_int r "next_event_seq" true;
   raise_if (bool_decide (next_event_seq = Some 0)) SessionStateError ;;
   match py_get_or r "events" (VList []) with
   | VList events =>
       previous_event_sequence ← validate_events 0 events;
       raise_if
         match next_event_seq with
         | Some n => (0 <? previous_event_sequence) && (n <=? previous_event_sequence)
         | None => false
         end SessionStateError
   | _ => Err SessionStateError
   end ;; mc) = Ok tt <-> events_ok (events_of r) (seq_of r) /\ mc = Ok tt.
Proof.
  rewrite result_bind_ok. unfold events_ok, events_of, seq_of. split.
  - intros (o & Ho & H). apply require_optional_int in Ho.
    apply seq_ok in H as [Hz H]. apply is_ok_unit, raise_if_ok in Hz.
    apply seq_ok in H as [He Hmc]. split; [|done].
    destruct (py_get_or r "events" (VList [])) as [| | | | |l|]; try done.
    apply is_ok_unit, result_bind_ok in He as (last & Hl & Hlast).
    apply raise_if_ok in Hlast. exists l, last. split; [done|]. split; [done|].
    destruct (r !! "next_event_seq") as [v|]; [|done].
    destruct Ho as (n & Hn & ->). exists n. split; [done|].
    apply nonneg_int_spec in Hn as [-> Hn]. apply bool_decide_eq_false in Hz.
    apply andb_false_iff in Hlast as [Hlast|Hlast].
    + apply Z.ltb_ge in Hlast. split; [|lia]. destruct (decide (n = 0)); [congruence|lia].
    + apply Z.leb_gt in Hlast. split; [|lia]. destruct (decide (n = 0)); [congruence|lia].
  - intros [(l & last & He & Hl & Hn) Hmc].
    assert (Hev : py_get_or r "events" (VList []) = VList l).
    { destruct (py_get_or r "events" (VList [])); simplify_eq/=; done. }
    rewrite Hev, Hl. cbn [mbind result_bind].
    destruct (r !! "next_event_seq") as [v|] eqn:Hv.
    + destruct Hn as (n & Hv' & Hpos & Hlast). exists (Some n). split.
      * apply require_optional_int. rewrite Hv. eauto.
      * rewrite bool_decide_eq_false_2 by (intros [= ->]; lia). cbn [raise_if mbind result_bind].
        replace ((0 <? last) && (n <=? last)) with false; [done|].
        symmetry. apply andb_false_iff. destruct (decide (0 < last)).
        -- right. apply Z.leb_gt. auto.
        -- left. apply Z.ltb_ge. lia.
    + exists None. split; [|done]. apply require_optional_int. by rewrite Hv.
Qed.

Lemma validate_session_iff sid r :
  validate_session sid (VDict r) = Ok tt <-> SessionOk sid r.
Proof.
  cbn [validate_session]. split.
  - intros H. apply seq_ok in H as [Hk H]. apply is_ok_unit, raise_if_ok, str_empty_false in Hk.
    apply result_bind_ok in H as (stored & Hid & H). apply require_nonempty_string_ok in Hid as [Hid _].
    apply seq_ok in H as [Hu H]. rewrite is_ok_nonempty_string in Hu.
    apply result_bind_ok in H as (status & Hs & H). apply require_nonempty_string_ok in Hs as [Hs _].
    apply seq_ok in H as [Hm H]. apply is_ok_unit, raise_if_ok in Hm. split_bools. subst stored.
    apply seq_ok in H as [Hst H]. apply is_ok_unit, raise_if_ok, negb_false_iff in Hst.
    apply seq_ok in H as [Hv H]. rewrite is_ok_int in Hv.
    apply seq_ok in H as [Hc H]. rewrite is_ok_bool in Hc.
    apply seq_ok in H as [Hrt H]. rewrite is_ok_check_each in Hrt.
    apply seq_ok in H as [Hot H]. rewrite is_ok_check_each in Hot.
    apply seq_ok in H as [Hob H]. rewrite is_ok_check_each in Hob.
    apply seq_ok in H as [Hrc H]. rewrite is_ok_optional_int in Hrc.
    apply events_part_iff in H as [He Hmc].
    split; [done|done| |done]. apply fits_session_schema.
    repeat split; try done.
    + apply state_name_text. eauto.
    + erewrite forallb_same; [exact Hrt|]. intros k. symmetry. apply is_ok_finite_number.
    + erewrite forallb_same; [exact Hot|]. intros k. symmetry. apply is_ok_optional_number.
    + erewrite forallb_same; [exact Hob|]. intros k. symmetry. apply is_ok_optional_bool.
    + by apply is_ok_unit.
  - intros [Hk Hid Hf He]. apply fits_session_schema in Hf
      as (Hu & Hs & Hv & Hc & Hrt & Hot & Hob & Hrc & Hmc).
    apply state_name_text in Hs as (status & Hs & Hst).
    apply seq_ok. split; [apply is_ok_unit, raise_if_ok, str_empty_false, Hk|].
    apply result_bind_ok. exists sid. split; [by apply require_nonempty_string_ok|].
    apply seq_ok. split; [by rewrite is_ok_nonempty_string|].
    apply result_bind_ok. exists status. split.
    { apply require_nonempty_string_ok. split; [done|]. by intros ->. }
    apply seq_ok. split; [by rewrite bool_decide_eq_true_2|].
    apply seq_ok. split; [by rewrite Hst|].
    apply seq_ok. split; [by rewrite is_ok_int|].
    apply seq_ok. split; [by rewrite is_ok_bool|].
    apply seq_ok. split.
    { rewrite is_ok_check_each. erewrite forallb_same; [exact Hrt|].
      intros k. apply is_ok_finite_number. }
    apply seq_ok. split.
    { rewrite is_ok_check_each. erewrite forallb_same; [exact Hot|].
      intros k. apply is_ok_optional_number. }
    apply seq_ok. split.
    { rewrite is_ok_check_each. erewrite forallb_same; [exact Hob|].
      intros k. apply is_ok_optional_bool. }
    apply seq_ok. split; [by rewrite is_ok_optional_int|].
    apply events_part_iff. split; [done|]. by apply is_ok_unit.
Qed.

(** ** Frame lemmas *)

(** Writing a field keeps the schema when every constraint on that field accepts
    the value; the side condition is closed by computation. *)
Lemma fits_insert schema (r : dict) k v :
  fits schema r ->
  Forall (fun p => p.1 = k -> p.2 (Some v) = true) schema ->
  fits schema (<[k := v]> r).
Proof.
  unfold fits. rewrite !Forall_forall. intros Hr Hv [k' p] Hin. simpl.
  destruct (decide (k = k')) as [->|Hne].
  - rewrite lookup_insert_eq. by apply (Hv (k', p)).
  - rewrite lookup_insert_ne by done. by apply (Hr (k', p)).
Qed.

Lemma SessionOk_insert sid (r : dict) k v :
  SessionOk sid r -> k ∉ ["session_id"; "events"; "next_event_seq"] ->
  Forall (fun p => p.1 = k -> p.2 (Some v) = true) session_schema ->
  SessionOk sid (<[k := v]> r).
Proof.
  intros [Hk Hid Hf He] Hnin Hv.
  assert (Hne : forall k', k' ∈ ["session_id"; "events"; "next_event_seq"] -> k <> k').
  { intros k' Hk' ->. by apply Hnin. }
  split; [done| |by apply fits_insert|].
  - rewrite lookup_insert_ne; [done|apply Hne; set_solver].
  - unfold events_of, seq_of, py_get_or in *.
    rewrite !lookup_insert_ne by (apply Hne; set_solver). done.
Qed.

(** The constraint on one field, decided without looking at the others. *)
Ltac schema_field :=
  unfold session_schema, SESSION_REQUIRED_TIMESTAMPS, SESSION_OPTIONAL_TIMESTAMPS;
  cbn [fmap list_fmap app];
  repeat (apply Forall_cons; split; [cbn [fst snd]; intros ?|]);
  try apply Forall_nil; try done.

Lemma session_field sid (r : dict) k p :
  SessionOk sid r -> (k, p) ∈ session_schema -> p (r !! k) = true.
Proof. intros [_ _ Hf _] Hin. exact (proj1 (Forall_forall _ _) Hf (k, p) Hin). Qed.

Lemma session_status sid (r : dict) :
  SessionOk sid r ->
  exists s, r !! "status" = Some (VStr s) /\ in_set s SESSION_STATES = true.
Proof.
  intros H. apply state_name_text. apply (session_field sid r "status" state_name H).
  unfold session_schema. set_solver.
Qed.
