(* ===== verification/SessionStore.v ===== *)
(** * The Session store (session_store.py, second half)

    One definition per method of [SessionStore]. A method runs under the store's
    lock ([Authority.locked]): it reloads [sessions.json], works on the in-memory
    copy and commits it with [persist]. A method that mutates
    [self._sessions[id]] in place writes the updated record back with
    [put_session]; when it raises before [persist] the mutation is in memory only
    and the next load discards it, as in the source. Keyword changes
    ([**changes]) are a [dict]; optional timestamps passed by a caller are
    [option value]. *)

From S2P Require Import Prelude PyFloat PyValue Json Effects Authority SessionState.

Abbreviation SM := (M (world session_mem)).

(** ** Access to [self._sessions] and [self._orphan_cleanup_leases] *)
Definition find_session (sid : string) : SM (option dict) :=
  m ← get_mem; mret (sessions m !! sid).

(** [self._sessions.get(id)], [KeyError] when absent. *)
Definition require_session (sid : string) : SM dict :=
  o ← find_session sid;
  match o with Some s => mret s | None => raise KeyError end.

Definition put_session (sid : string) (s : dict) : SM unit :=
  m ← get_mem;
  put_mem (SessionMem (<[sid := s]> (sessions m)) (leases m) (authoritative m)).

Definition put_lease (sid : string) (l : dict) : SM unit :=
  m ← get_mem;
  put_mem (SessionMem (sessions m) (<[sid := l]> (leases m)) (authoritative m)).

Definition pop_lease (sid : string) : SM unit :=
  m ← get_mem;
  put_mem (SessionMem (sessions m) (delete sid (leases m)) (authoritative m)).

(** Write a record back, commit and return it. *)
Definition commit_session (sid : string) (s : dict) : SM dict :=
  put_session sid s ;; persist ;; mret s.

Definition status_of (s : dict) : string := name_text (py_get s "status").

(** [session.update(changes)] *)
Definition py_update (s changes : dict) : dict := changes ∪ s.

(** ** Clocks *)
Definition _validated_now : SM float :=
  t ← time_time; lift (_validated_timestamp (VFloat t)).

Definition now_or (given : option value) : SM float :=
  match given with
  | None => _validated_now
  | Some v => lift (_validated_timestamp v)
  end.

(** ** New records *)
Definition _default_media_control (now : float) : value :=
  VDict {[ "audio" := VDict (list_to_map
    [("desired_mode", VStr "LIVE"); ("actual_mode", VStr "LIVE"); ("version", VInt 0);
     ("command_id", VNull); ("idempotency_key", VNull); ("updated_at", VFloat now)]) ]}.

Definition new_session (user_id environment egress_mode : string)
    (absolute_deadline_hours : option float) : SM dict :=
  now ← _validated_now;
  absolute_deadline_at ←
    match absolute_deadline_hours with
    | Some hours =>
        if truthy (VFloat hours) then
          d ← lift (_validated_derived_timestamp now (fmul hours (of_Z 3600)));
          mret (VFloat d)
        else mret VNull
    | None => mret VNull
    end;
  session_id ← uuid4;
  mret (list_to_map
    [("session_id", VStr session_id); ("user_id", VStr user_id);
     ("environment", VStr environment); ("egress_mode", VStr egress_mode);
     ("status", VStr "STOPPED"); ("relay_client_status", VNull);
     ("relay_client_connected", VBool false); ("relay_client_reader_count", VInt 0);
     ("relay_client_last_reason", VNull); ("relay_client_updated_at", VNull);
     ("idempotency_key", VNull); ("prepare_request", VNull); ("version", VInt 0);
     ("destination_id", VNull); ("provider", VNull); ("provider_volume_id", VNull);
     ("provider_server_id", VNull); ("provider_public_ipv4", VNull);
     ("node_id", VNull); ("node_boot_id", VNull); ("node_registered_at", VNull);
     ("node_last_heartbeat_at", VNull); ("provisioning_started_at", VNull);
     ("provisioning_operation_id", VNull); ("provisioning_in_progress", VBool false);
     ("provisioning_cancel_requested", VBool false); ("ready_at", VNull);
     ("first_ingest_at", VNull); ("last_ingest_at", VNull); ("hold_deadline_at", VNull);
     ("recovery_candidate_since", VNull); ("recovery_candidate_source_id", VNull);
     ("absolute_deadline_at", absolute_deadline_at); ("entitlement_id", VNull);
     ("entitlement_reserved", VBool false); ("cleanup_pending", VBool false);
     ("failure_reason", VNull); ("events", VList []); ("next_event_seq", VInt 1);
     ("media_control", _default_media_control now); ("created_at", VFloat now);
     ("updated_at", VFloat now)] : dict).

(** ** Events *)
Definition max_sequence (maximum : Z) (event : value) : Z :=
  match event with
  | VDict e => match py_int (py_get_or e "sequence" (VInt 0)) with
               | Ok n => Z.max maximum n
               | Err _ => maximum
               end
  | _ => maximum
  end.

(** The [OverflowError] of [int(inf)] is not caught by the source; a validated
    record holds integers there. *)
Definition _next_event_sequence (session : dict) : Z :=
  let configured := match py_int (py_get_or session "next_event_seq" (VInt 0)) with
                    | Ok n => n
                    | Err _ => 0
                    end in
  if 0 <? configured then configured
  else
    let events := default [] (as_list (py_get_or session "events" (VList []))) in
    fold_left max_sequence events 0 + 1.

Definition _clear_recovery_candidate (session : dict) : dict :=
  <["recovery_candidate_source_id" := VNull]>
    (<["recovery_candidate_since" := VNull]> session).

(** [reason[:100] if reason else None] *)
Definition short_reason (reason : option string) : value :=
  match reason with
  | Some s => if str_empty s then VNull else VStr (py_take 100 s)
  | None => VNull
  end.

Definition make_event (sequence : Z) (event_type : string) (reason_code : option string)
    (payload : dict) (origin : string) (occurred_at : float) : dict :=
  list_to_map
    [("sequence", VInt sequence); ("type", VStr (py_take 100 event_type));
     ("reason_code", short_reason reason_code); ("payload", VDict payload);
     ("occurred_at", VFloat occurred_at); ("origin", VStr (py_take 50 origin))].

(** Returns the updated session and the event. *)
Definition _append_event_locked (session : dict) (event_type : string)
    (reason_code : option string) (payload : dict) (origin : string) (occurred_at : value)
    : result (dict * dict) :=
  occurred_at ← _validated_timestamp occurred_at;
  let sequence := _next_event_sequence session in
  let event := make_event sequence event_type reason_code payload origin occurred_at in
  let events := default [] (as_list (py_get_or session "events" (VList []))) ++ [VDict event] in
  Ok (<["next_event_seq" := VInt (sequence + 1)]>
        (<["events" := VList (py_last SESSION_EVENT_LIMIT events)]> session), event).

(** ** Cleanup leases *)
Definition _active_cleanup_lease_locked (sid : string) : SM (option dict) :=
  m ← get_mem;
  match leases m !! sid with
  | None => mret None
  | Some lease =>
      now ← _validated_now;
      expires_at ← lift (_validated_timestamp (py_get lease "expires_at"));
      if fle expires_at now then mret None else mret (Some lease)
  end.

Definition _reject_active_cleanup_lease_locked (sid : string) : SM unit :=
  lease ← _active_cleanup_lease_locked sid;
  match lease with Some _ => raise OrphanCleanupInProgress | None => mret tt end.

(** [all(session.get(f) == e for f, e in expected.items())] *)
Definition _matches_fields (session expected : dict) : bool :=
  map_fold (fun field e acc => py_eq (py_get session field) e && acc) true expected.

(** ** Creation and capacity *)
Definition create (session_id : option string) (user_id environment egress_mode : string)
    (absolute_deadline_hours : option float) : SM dict :=
  locked (
    session ← new_session user_id environment egress_mode absolute_deadline_hours;
    match session_id with
    | Some sid =>
        _reject_active_cleanup_lease_locked sid ;;
        existing ← find_session sid;
        match existing with
        | Some s => mret s
        | None => commit_session sid (<["session_id" := VStr sid]> session)
        end
    | None => commit_session (name_text (py_get session "session_id")) session
    end).

(** A Session that holds one of its user's concurrent slots. *)
Definition holds_slot (s : dict) : bool :=
  truthy (py_get s "entitlement_reserved") || value_in (py_get s "status") CAPACITY_STATES.

Definition owned_by (user_id : string) (s : dict) : bool :=
  py_eq (py_get s "user_id") (VStr user_id).

(** The other Sessions of the user that hold a slot. *)
Definition occupied_slots (sid user_id : string) (ss : gmap string dict) : Z :=
  Z.of_nat (size (filter (fun p : string * dict =>
    (negb (bool_decide (p.1 = sid)) && owned_by user_id p.2 && holds_slot p.2) = true) ss)).

Definition reserve_prepare_slot (sid user_id environment entitlement_id : string)
    (max_concurrent_sessions : Z) : SM dict :=
  guard_err (max_concurrent_sessions <? 1) EntitlementExceeded ;;
  locked (
    _reject_active_cleanup_lease_locked sid ;;
    m ← get_mem;
    let existing := sessions m !! sid in
    guard_err match existing with
              | Some s => negb (owned_by user_id s) | None => false end KeyError ;;
    match existing with
    | Some s =>
        if value_in (py_get s "status") ["FINISHED"; "FAILED"] then mret s
        else if holds_slot s then
          updated_at ← _validated_now;
          commit_session sid
            (<["updated_at" := VFloat updated_at]>
              (<["entitlement_reserved" := VBool true]>
                (<["entitlement_id" := VStr entitlement_id]> s)))
        else
          guard_err (max_concurrent_sessions <=? occupied_slots sid user_id (sessions m))
            EntitlementExceeded ;;
          updated_at ← _validated_now;
          commit_session sid
            (<["updated_at" := VFloat updated_at]>
              (<["entitlement_reserved" := VBool true]>
                (<["entitlement_id" := VStr entitlement_id]> s)))
    | None =>
        guard_err (max_concurrent_sessions <=? occupied_slots sid user_id (sessions m))
          EntitlementExceeded ;;
        s ← new_session user_id environment "DIRECT_PUSH" (Some (of_Z 12));
        updated_at ← _validated_now;
        commit_session sid
          (<["updated_at" := VFloat updated_at]>
            (<["entitlement_reserved" := VBool true]>
              (<["entitlement_id" := VStr entitlement_id]>
                (<["session_id" := VStr sid]> s))))
    end).

Definition prepare_request (environment : string) (destination_id : option string)
    (egress_mode : string) : dict :=
  list_to_map [("environment", VStr environment); ("destination_id", opt_str destination_id);
               ("egress_mode", VStr egress_mode)].

(** [existing.get("prepare_request")], rebuilt from the record when it is not a
    dictionary. *)
Definition configured_request (s : dict) : dict :=
  match py_get s "prepare_request" with
  | VDict d => d
  | _ => list_to_map [("environment", py_get s "environment");
                      ("destination_id", py_get s "destination_id");
                      ("egress_mode", py_get_or s "egress_mode" (VStr "DIRECT_PUSH"))]
  end.

(** Returns [(session, replay)]. *)
Definition begin_prepare (sid user_id environment entitlement_id : string)
    (max_concurrent_sessions : Z) (destination_id : option string)
    (egress_mode idempotency_key : string) : SM (dict * bool) :=
  guard_err (max_concurrent_sessions <? 1) EntitlementExceeded ;;
  let request := prepare_request environment destination_id egress_mode in
  locked (
    _reject_active_cleanup_lease_locked sid ;;
    m ← get_mem;
    let existing := sessions m !! sid in
    guard_err match existing with
              | Some s => negb (owned_by user_id s) | None => false end KeyError ;;
    guard_err match existing with
              | Some s => value_in (py_get s "status") ["FINISHED"; "FAILED"]
              | None => false end InvalidTransition ;;
    match existing with
    | Some s =>
        if negb (is_null (py_get s "idempotency_key")) then
          let configured := configured_request s in
          guard_err (negb (py_eq (VDict configured) (VDict request))) InvalidTransition ;;
          guard_err (negb (py_eq (py_get s "idempotency_key") (VStr idempotency_key)))
            InvalidTransition ;;
          mret (s, true)
        else
          guard_err (max_concurrent_sessions <=? occupied_slots sid user_id (sessions m))
            EntitlementExceeded ;;
          updated_at ← _validated_now;
          s' ← commit_session sid
            (py_update s (list_to_map
              [("environment", VStr environment); ("destination_id", opt_str destination_id);
               ("egress_mode", VStr egress_mode); ("prepare_request", VDict request);
               ("idempotency_key", VStr idempotency_key);
               ("entitlement_id", VStr entitlement_id);
               ("entitlement_reserved", VBool true); ("updated_at", VFloat updated_at)]));
          mret (s', false)
    | None =>
        guard_err (max_concurrent_sessions <=? occupied_slots sid user_id (sessions m))
          EntitlementExceeded ;;
        s ← new_session user_id environment egress_mode (Some (of_Z 12));
        updated_at ← _validated_now;
        s' ← commit_session sid
          (py_update (<["session_id" := VStr sid]> s) (list_to_map
            [("environment", VStr environment); ("destination_id", opt_str destination_id);
             ("egress_mode", VStr egress_mode); ("prepare_request", VDict request);
             ("idempotency_key", VStr idempotency_key);
             ("entitlement_id", VStr entitlement_id);
             ("entitlement_reserved", VBool true); ("updated_at", VFloat updated_at)]));
        mret (s', false)
    end).

Definition get_prepare_replay (sid user_id environment : string)
    (destination_id : option string) (egress_mode idempotency_key : string)
    : SM (option dict) :=
  let request := prepare_request environment destination_id egress_mode in
  locked (
    existing ← find_session sid;
    match existing with
    | None => mret None
    | Some s =>
        guard_err (negb (owned_by user_id s)) KeyError ;;
        if negb (py_eq (py_get s "idempotency_key") (VStr idempotency_key)) then mret None
        else
          guard_err (negb (py_eq (VDict (configured_request s)) (VDict request)))
            InvalidTransition ;;
          mret (Some s)
    end).

(** ** Reads *)

(** [SessionStore(...)]: the constructor loads the file under the lock. *)
Definition open_store : SM unit := locked (mret tt).

Definition get (sid : string) : SM (option dict) :=
  locked (
    value ← find_session sid;
    match value with
    | Some s => if truthy (VDict s) then mret (Some s) else mret None
    | None => mret None
    end).

Definition list_sessions : SM (list dict) :=
  locked (m ← get_mem; mret ((sorted_records (sessions m)).*2)).

Definition authoritative_snapshot : SM (list dict) :=
  locked (
    m ← get_mem;
    guard_err (negb (authoritative m)) SessionStateError ;;
    mret ((sorted_records (sessions m)).*2)).

Definition find_by_provider_server_id (provider_server_id : string)
    (states : option (list string)) : SM (list dict) :=
  locked (
    m ← get_mem;
    mret (List.filter (fun s =>
      py_eq (py_get s "provider_server_id") (VStr provider_server_id) &&
      match states with None => true | Some l => value_in (py_get s "status") l end)
      ((sorted_records (sessions m)).*2))).

Definition sessions_in_states (states : list string) : SM (list dict) :=
  locked (
    m ← get_mem;
    mret (List.filter (fun s => value_in (py_get s "status") states)
      ((sorted_records (sessions m)).*2))).

Definition is_authoritative : SM bool :=
  locked (m ← get_mem; mret (authoritative m)).

(** ** Plain updates and the provisioning lease *)
Definition update (sid : string) (changes : dict) : SM dict :=
  lift (_validate_timestamp_changes changes) ;;
  locked (
    session ← require_session sid;
    updated_at ← _validated_now;
    commit_session sid (<["updated_at" := VFloat updated_at]> (py_update session changes))).

Definition claim_provisioning (sid operation_id : string) (started_at : value) : SM dict :=
  started_at ← lift (_validated_timestamp started_at);
  locked (
    _reject_active_cleanup_lease_locked sid ;;
    session ← require_session sid;
    let current := status_of session in
    let existing := py_get session "provisioning_operation_id" in
    guard_err (negb (in_set current ["STOPPED"; "PROVISIONING"; "BOOTSTRAPPING"]))
      InvalidTransition ;;
    guard_err (truthy existing && negb (py_eq existing (VStr operation_id)))
      ProvisioningInProgress ;;
    updated_at ← _validated_now;
    commit_session sid (py_update session (list_to_map
      [("status", VStr "PROVISIONING"); ("provisioning_operation_id", VStr operation_id);
       ("provisioning_in_progress", VBool true);
       ("provisioning_cancel_requested", VBool false);
       ("provisioning_started_at", VFloat started_at);
       ("cleanup_pending", VBool false); ("updated_at", VFloat updated_at)]))).

Definition CANCELLED_STATES : list string :=
  ["STOPPING"; "FAILED_CLEANUP"; "FINISHED"; "FAILED"].

Definition provisioning_checkpoint (sid operation_id : string) (next_state : option string)
    (complete : bool) (changes : dict) : SM dict :=
  lift (_validate_timestamp_changes changes) ;;
  locked (
    session ← require_session sid;
    guard_err (negb (py_eq (py_get session "provisioning_operation_id") (VStr operation_id)))
      ProvisioningInProgress ;;
    updated_at ← _validated_now;
    let session := py_update session changes in
    let current := status_of session in
    let cancelled := truthy (py_get session "provisioning_cancel_requested")
                     || in_set current CANCELLED_STATES in
    session ←
      match next_state with
      | Some st =>
          if cancelled then mret session
          else
            guard_err (negb (in_set st (TRANSITIONS current))) InvalidTransition ;;
            mret (_clear_recovery_candidate (<["status" := VStr st]> session))
      | None => mret session
      end : SM dict;
    let session :=
      if complete && negb cancelled then
        <["provisioning_cancel_requested" := VBool false]>
          (<["provisioning_in_progress" := VBool false]>
            (<["provisioning_operation_id" := VNull]> session))
      else session in
    commit_session sid (<["updated_at" := VFloat updated_at]> session)).

(** ** Stopping *)
Definition stopping_record (session : dict) (updated_at : float) : dict :=
  _clear_recovery_candidate (py_update session (list_to_map
    [("status", VStr "STOPPING"); ("provisioning_cancel_requested", VBool true);
     ("cleanup_pending", VBool true); ("updated_at", VFloat updated_at)])).

Definition request_stop (sid : string) : SM dict :=
  locked (
    session ← require_session sid;
    let current := status_of session in
    if in_set current TERMINAL_STATES then mret session
    else
      guard_err (negb (in_set current (ACTIVE_STATES ++ ["STOPPING"; "FAILED_CLEANUP"])))
        InvalidTransition ;;
      updated_at ← _validated_now;
      commit_session sid (stopping_record session updated_at)).

Definition request_stop_if_current (sid expected_status : string) (expected_fields : dict)
    : SM (option dict) :=
  locked (
    o ← find_session sid;
    match o with
    | None => mret None
    | Some session =>
        if negb (bool_decide (status_of session = expected_status)) ||
           negb (_matches_fields session expected_fields) then mret None
        else
          updated_at ← _validated_now;
          s ← commit_session sid (stopping_record session updated_at);
          mret (Some s)
    end).

(** ** Cleanup leases *)
Definition claim_orphan_cleanup (sid resource_id resource_kind : string)
    (lease_seconds : float) : SM (option string) :=
  locked (
    o ← find_session sid;
    if match o with
       | Some session => negb (in_set (status_of session) TERMINAL_STATES)
       | None => false
       end then mret None
    else
      lease ← _active_cleanup_lease_locked sid;
      match lease with
      | Some _ => mret None
      | None =>
          now ← _validated_now;
          expires_at ← lift (_validated_derived_timestamp now (fmax fone lease_seconds));
          lease_id ← uuid4;
          put_lease sid (list_to_map
            [("lease_id", VStr lease_id); ("scope", VStr "orphan");
             ("resource_id", VStr resource_id); ("resource_kind", VStr resource_kind);
             ("created_at", VFloat now); ("expires_at", VFloat expires_at)]) ;;
          persist ;;
          mret (Some lease_id)
      end).

Definition orphan_cleanup_still_owned (sid lease_id : string) : SM bool :=
  locked (
    o ← find_session sid;
    lease ← _active_cleanup_lease_locked sid;
    mret match lease with
         | Some l =>
             py_eq (py_get l "lease_id") (VStr lease_id) &&
             py_eq (py_get_or l "scope" (VStr "orphan")) (VStr "orphan") &&
             match o with
             | None => true
             | Some session => in_set (status_of session) TERMINAL_STATES
             end
         | None => false
         end).

Definition release_orphan_cleanup (sid lease_id : string) : SM unit :=
  locked (
    m ← get_mem;
    match leases m !! sid with
    | Some l =>
        if negb (py_eq (py_get l "lease_id") (VStr lease_id)) then mret tt
        else pop_lease sid ;; persist
    | None => mret tt
    end).

(** [expected_states or {"STOPPING", "FAILED_CLEANUP"}] *)
Definition cleanup_states (expected_states : list string) : list string :=
  if bool_decide (expected_states = []) then ["STOPPING"; "FAILED_CLEANUP"]
  else expected_states.

Definition claim_session_cleanup (sid : string) (expected_states : list string)
    (lease_seconds : float) : SM (option string) :=
  let allowed := cleanup_states expected_states in
  locked (
    o ← find_session sid;
    match o with
    | None => mret None
    | Some session =>
        if negb (in_set (status_of session) allowed) then mret None
        else
          lease ← _active_cleanup_lease_locked sid;
          match lease with
          | Some _ => mret None
          | None =>
              now ← _validated_now;
              expires_at ← lift (_validated_derived_timestamp now (fmax fone lease_seconds));
              lease_id ← uuid4;
              put_lease sid (list_to_map
                [("lease_id", VStr lease_id); ("scope", VStr "session");
                 ("expected_states", VList (VStr <$> py_sorted allowed));
                 ("created_at", VFloat now); ("expires_at", VFloat expires_at)]) ;;
              persist ;;
              mret (Some lease_id)
          end
    end).

Definition session_cleanup_still_owned (sid lease_id : string) : SM bool :=
  locked (
    o ← find_session sid;
    lease ← _active_cleanup_lease_locked sid;
    mret match o, lease with
         | Some session, Some l =>
             py_eq (py_get l "lease_id") (VStr lease_id) &&
             py_eq (py_get l "scope") (VStr "session") &&
             existsb (py_eq (VStr (status_of session)))
               (default [] (as_list (py_get_or l "expected_states" (VList []))))
         | _, _ => false
         end).

Definition release_session_cleanup (sid lease_id : string) : SM unit :=
  locked (
    m ← get_mem;
    match leases m !! sid with
    | Some l =>
        if negb (py_eq (py_get l "lease_id") (VStr lease_id)) ||
           negb (py_eq (py_get l "scope") (VStr "session")) then mret tt
        else pop_lease sid ;; persist
    | None => mret tt
    end).

(** ** Events and media control *)
Definition append_event (sid event_type : string) (reason_code : option string)
    (payload : option dict) (origin : string) (occurred_at : option value) : SM dict :=
  current ← now_or occurred_at;
  locked (
    session ← require_session sid;
    r ← lift (_append_event_locked session event_type reason_code (default ∅ payload)
                origin (VFloat current));
    let '(session, event) := r : dict * dict in
    commit_session sid (<["updated_at" := VFloat current]> session) ;;
    mret event).

(** [d[k]] *)
Definition py_getitem (d : dict) (k : string) : SM value :=
  match d !! k with Some v => mret v | None => raise KeyError end.

Definition audio_response (desired actual version command : value) : dict :=
  list_to_map [("desired_mode", desired); ("actual_mode", actual); ("version", version);
               ("command_id", command)].

(** The [audio] dictionary of a record, created when it is not one; the second
    component is the enclosing [media_control] dictionary. *)
Definition audio_of (session : dict) (current : float) : dict * dict :=
  let media_control :=
    match py_get session "media_control" with
    | VDict mc => mc
    | _ => default ∅ (as_dict (_default_media_control current))
    end in
  match py_get media_control "audio" with
  | VDict audio => (audio, media_control)
  | _ => (default ∅ (as_dict (py_get (default ∅ (as_dict (_default_media_control current)))
                                "audio")), media_control)
  end.

Definition set_audio_desired (sid mode : string) (expected_version : Z)
    (idempotency_key operator : string) (occurred_at : option value) : SM dict :=
  guard_err (negb (in_set mode MEDIA_CONTROL_AUDIO_DESIRED_MODES)) ValueError ;;
  guard_err (expected_version <? 0) ValueError ;;
  guard_err (str_empty idempotency_key || (200 <? Z.of_nat (py_len idempotency_key)))
    ValueError ;;
  current ← now_or occurred_at;
  locked (
    session ← require_session sid;
    guard_err (value_in (py_get session "status") TERMINAL_STATES) MediaControlNotRunning ;;
    let '(audio, media_control) := audio_of session current in
    desired_mode ← py_getitem audio "desired_mode";
    actual_mode ← py_getitem audio "actual_mode";
    version ← py_getitem audio "version";
    command_id ← py_getitem audio "command_id";
    key ← py_getitem audio "idempotency_key";
    let response := audio_response desired_mode actual_mode version command_id in
    if py_eq key (VStr idempotency_key) then
      guard_err (negb (py_eq desired_mode (VStr mode))) MediaControlIdempotencyConflict ;;
      mret response
    else
      guard_err (negb (py_eq (VInt expected_version) version))
        (MediaControlVersionConflict response) ;;
      version ← lift match nonneg_int version with
                     | Some n => Ok (n + 1) | None => Err TypeError end;
      command_id ← uuid4;
      let actual_mode := if py_eq actual_mode (VStr mode) then actual_mode
                         else VStr "APPLYING" in
      let audio :=
        <["actual_mode" := actual_mode]>
          (<["updated_at" := VFloat current]>
            (<["idempotency_key" := VStr idempotency_key]>
              (<["command_id" := VStr command_id]>
                (<["version" := VInt version]>
                  (<["desired_mode" := VStr mode]> audio))))) in
      let session :=
        <["updated_at" := VFloat current]>
          (<["media_control" := VDict (<["audio" := VDict audio]> media_control)]> session) in
      r ← lift (_append_event_locked session "media_control.audio.requested" None
            (list_to_map
              [("command_id", VStr command_id); ("desired_mode", VStr mode);
               ("version", VInt version); ("operator_user_id", VStr operator)])
            "control-api" (VFloat current));
      commit_session sid r.1 ;;
      mret (audio_response (VStr mode) actual_mode (VInt version) (VStr command_id))).

(** ** Nodes *)
Definition bind_node (sid node_id boot_id provider_server_id : string)
    (registered_at : option value) : SM dict :=
  current ← now_or registered_at;
  locked (
    session ← require_session sid;
    guard_err (negb (py_eq (py_get session "provider_server_id") (VStr provider_server_id)))
      RuntimeError ;;
    guard_err (negb (value_in (py_get session "status") ACTIVE_STATES)) RuntimeError ;;
    commit_session sid
      (<["updated_at" := VFloat current]>
        (<["node_last_heartbeat_at" := VNull]>
          (<["node_registered_at" := VFloat current]>
            (<["node_boot_id" := VStr boot_id]>
              (<["node_id" := VStr node_id]> session)))))).

(** [float(previous) > observed_at] for a recorded previous heartbeat. *)
Definition heartbeat_is_newer (session : dict) (observed_at : float) : bool :=
  match py_get session "node_last_heartbeat_at" with
  | VNull => false
  | v => match number_as_float v with Some previous => flt observed_at previous | None => true end
  end.

Definition record_node_heartbeat (sid node_id boot_id : string) (observed_at : value)
    (node_ready : bool) : SM bool :=
  observed_at ← lift (_validated_timestamp observed_at);
  locked (
    o ← find_session sid;
    match o with
    | None => mret false
    | Some session =>
        if negb (value_in (py_get session "status") ACTIVE_STATES) ||
           negb (py_eq (py_get session "node_id") (VStr node_id)) ||
           negb (py_eq (py_get session "node_boot_id") (VStr boot_id)) then mret false
        else if heartbeat_is_newer session observed_at then mret false
        else
          let session := <["node_last_heartbeat_at" := VFloat observed_at]> session in
          let session :=
            if node_ready && py_eq (py_get session "status") (VStr "BOOTSTRAPPING") then
              <["ready_at" := VFloat observed_at]>
                (<["status" := VStr "READY_WAIT_INGEST"]> session)
            else session in
          commit_session sid session ;;
          mret true
    end).

(** The [event] argument of [update_if_current], with the keys its callers set. *)
Record audit_event : Type := AuditEvent {
  ev_type : option string;
  ev_reason : option string;
  ev_payload : option dict;
  ev_origin : option string;
  ev_occurred_at : option value
}.

Definition update_if_current (sid expected_status : string) (expected_fields : dict)
    (event : option audit_event) (changes : dict) : SM (option dict) :=
  lift (_validate_timestamp_changes changes) ;;
  locked (
    o ← find_session sid;
    match o with
    | None => mret None
    | Some session =>
        if negb (bool_decide (status_of session = expected_status)) ||
           negb (_matches_fields session expected_fields) then mret None
        else
          current ← _validated_now;
          match event with
          | None =>
              s ← commit_session sid
                (<["updated_at" := VFloat current]> (py_update session changes));
              mret (Some s)
          | Some ev =>
              event_occurred_at ←
                lift (_validated_timestamp (default (VFloat current) (ev_occurred_at ev)));
              r ← lift (_append_event_locked (py_update session changes)
                    (default "session.updated" (ev_type ev)) (ev_reason ev)
                    (default ∅ (ev_payload ev)) (default "control-api" (ev_origin ev))
                    (VFloat event_occurred_at));
              s ← commit_session sid (<["updated_at" := VFloat event_occurred_at]> r.1);
              mret (Some s)
          end
    end).

(** ** Ingest observations

    [observation] is the mapping of the Node's request; its [reasons] are strings
    (node_internal.py, [IngestObservationRequest]). *)
Definition obs (observation : dict) (k : string) : value := py_get observation k.

Definition ingest_payload (node_id : string) (observation : dict) : dict :=
  list_to_map
    [("node_id", VStr node_id); ("status", obs observation "status");
     ("path", obs observation "path");
     ("online", VBool (truthy (py_get_or observation "online" (VBool false))));
     ("source_type", obs observation "source_type");
     ("source_id", obs observation "source_id");
     ("bitrate_bps", obs observation "bitrate_bps");
     ("max_bitrate_bps", obs observation "max_bitrate_bps");
     ("tracks", py_get_or observation "tracks" (VList []));
     ("quality", obs observation "quality");
     ("reasons", py_get_or observation "reasons" (VList []));
     ("warnings", py_get_or observation "warnings" (VList []));
     ("enforced", py_get_or observation "enforced" (VBool false));
     ("observed_at", obs observation "observed_at")].

(** [payload.get("reasons") or []], each as [str(reason)] *)
Definition payload_reasons (payload : dict) : list string :=
  name_text <$> default [] (as_list (py_get payload "reasons")).

(** The reason recorded with an appended ingest event. *)
Definition event_reason (event_type : string) (payload : dict) : option string :=
  match payload_reasons payload with
  | r :: _ => if in_set event_type ["ingest.rejected"; "ingest.degraded"]
              then Some (py_take 100 r) else None
  | [] => None
  end.

Fixpoint append_ingest_events (session : dict) (event_types : list string)
    (payload : dict) (current : float) : result dict :=
  match event_types with
  | [] => Ok session
  | event_type :: rest =>
      r ← _append_event_locked session event_type (event_reason event_type payload)
            payload "node-agent" (VFloat current);
      append_ingest_events r.1 rest payload current
  end.

Section recovery.
(** [self.recovery_stable_seconds] *)
Context (recovery_stable_seconds : float).

(** Returns whether the candidate is ready and the updated session. *)
Definition _recovery_candidate_ready (session : dict) (source_id : value) (current : float)
    : bool * dict :=
  let candidate_since := number_as_float (py_get session "recovery_candidate_since") in
  let candidate_source := py_get session "recovery_candidate_source_id" in
  let restart :=
    (fle recovery_stable_seconds fzero,
     <["recovery_candidate_source_id" := source_id]>
       (<["recovery_candidate_since" := VFloat current]> session)) in
  match candidate_since with
  | None => restart
  | Some since =>
      if negb (py_eq candidate_source source_id) || flt current since then restart
      else (fle recovery_stable_seconds (fsub current since), session)
  end.

(** A lifecycle change: target state, event type and reason. *)
Definition lifecycle : Type := (string * string * option string)%type.

(** The state, event and reason an observation asks for, and the session with
    its recovery candidate updated. *)
Definition ingest_target (session : dict) (online : bool) (ingest_status : string)
    (reasons : list string) (source_id : value) (current : float)
    : option lifecycle * dict :=
  let state := status_of session in
  let degraded_reason := head reasons in
  let unusable_reason := List.find (fun r => in_set r UNUSABLE_MEDIA_REASONS) reasons in
  let format_changed := existsb (fun r => in_set r FORMAT_REJECTION_REASONS) reasons in
  if bool_decide (state = "HOLDING") then
    let recovery :=
      if online && in_set ingest_status ["ACCEPTED"; "WARNING"] then
        Some ("LIVE", None)
      else if online && bool_decide (ingest_status = "DEGRADED") &&
              bool_decide (unusable_reason = None) then
        Some ("DEGRADED", degraded_reason)
      else None in
    match recovery with
    | None => (None, _clear_recovery_candidate session)
    | Some (recovery_target, recovery_reason) =>
        let '(ready, session) := _recovery_candidate_ready session source_id current in
        (if ready : bool then Some (recovery_target, "session.recovered", recovery_reason)
         else None, session)
    end
  else if online && bool_decide (ingest_status = "DEGRADED") &&
          in_set state ["READY_WAIT_INGEST"; "LIVE"; "DEGRADED"] then
    match unusable_reason with
    | Some r =>
        (if in_set state ["LIVE"; "DEGRADED"]
         then Some ("HOLDING", "session.holding", Some r) else None, session)
    | None => (Some ("DEGRADED", "session.degraded", degraded_reason), session)
    end
  else if online && bool_decide (ingest_status = "REJECTED") &&
          in_set state ["LIVE"; "DEGRADED"] then
    (Some ("HOLDING", "session.holding",
           Some (if format_changed then "FORMAT_CHANGED"
                 else match degraded_reason with
                      | Some r => if str_empty r then "INGEST_REJECTED" else r
                      | None => "INGEST_REJECTED"
                      end)), session)
  else if online && in_set ingest_status ["ACCEPTED"; "WARNING"] &&
          in_set state ["READY_WAIT_INGEST"; "DEGRADED"] then
    (Some ("LIVE",
           if bool_decide (state = "READY_WAIT_INGEST") then "session.live"
           else "session.recovered", None), session)
  else if negb online && in_set state ["LIVE"; "DEGRADED"] then
    (Some ("HOLDING", "session.holding", Some "INGEST_DISCONNECTED"), session)
  else (None, session).

(** The timestamps written with a change to [target_state]. *)
Definition stamp_ingest (session : dict) (target_state : string) (online : bool)
    (current : float) : dict :=
  if bool_decide (target_state = "HOLDING") then
    <["last_ingest_at" := VFloat current]> session
  else if online then
    let session :=
      if is_null (py_get session "first_ingest_at")
      then <["first_ingest_at" := VFloat current]> session else session in
    <["hold_deadline_at" := VNull]> (<["last_ingest_at" := VFloat current]> session)
  else <["last_ingest_at" := VFloat current]> session.

Definition apply_ingest_observation (sid node_id : string) (event_types : list string)
    (observation : dict) (occurred_at : option value) : SM dict :=
  current ← now_or occurred_at;
  locked (
    session ← require_session sid;
    guard_err (negb (is_null (py_get session "node_id") ||
                     py_eq (py_get session "node_id") (VStr node_id))) RuntimeError ;;
    if negb (value_in (py_get session "status") ACTIVE_STATES) then mret session
    else
      let payload := ingest_payload node_id observation in
      session ← lift (append_ingest_events session event_types payload current);
      let online := truthy (py_get_or observation "online" (VBool false)) in
      let ingest_status := name_text (py_get_or observation "status" (VStr "")) in
      let state := status_of session in
      let reasons := py_take 100 <$> payload_reasons payload in
      let '(target, session) :=
        ingest_target session online ingest_status reasons
          (py_get payload "source_id") current in
      session ←
        match target with
        | Some (target_state, lifecycle_event, lifecycle_reason) =>
            if bool_decide (target_state = state) then
              mret (if bool_decide (state = "HOLDING") then session
                    else _clear_recovery_candidate session)
            else
              let session :=
                stamp_ingest
                  (_clear_recovery_candidate (<["status" := VStr target_state]> session))
                  target_state online current in
              let lifecycle_payload :=
                <["to_state" := VStr target_state]> (<["from_state" := VStr state]> payload) in
              r ← lift (_append_event_locked session lifecycle_event lifecycle_reason
                    lifecycle_payload "node-agent" (VFloat current));
              mret r.1
        | None =>
            mret (if bool_decide (state = "HOLDING") then session
                  else _clear_recovery_candidate session)
        end : SM dict;
      commit_session sid
        (<["updated_at" := VFloat current]> (<["node_id" := VStr node_id]> session))).
End recovery.

(** ** Relay clients *)
Fixpoint append_relay_events (session : dict) (event_types : list string)
    (reason_code : option string) (payload : dict) (current : float) : result dict :=
  match event_types with
  | [] => Ok session
  | event_type :: rest =>
      r ← _append_event_locked session event_type reason_code payload "node-agent"
            (VFloat current);
      append_relay_events r.1 rest reason_code payload current
  end.

Definition apply_relay_client_observation (sid node_id : string) (event_types : list string)
    (observation : dict) : SM dict :=
  current ← _validated_now;
  observed_at ← lift match obs observation "observed_at" with
                     | VNull => Ok VNull
                     | v => t ← _validated_timestamp v; Ok (VFloat t)
                     end;
  locked (
    session ← require_session sid;
    guard_err (negb (is_null (py_get session "node_id") ||
                     py_eq (py_get session "node_id") (VStr node_id))) RuntimeError ;;
    if negb (value_in (py_get session "status") ACTIVE_STATES) then mret session
    else
      let raw_count := py_get_or observation "reader_count" (VInt 0) in
      reader_count ← lift (py_int (if truthy raw_count then raw_count else VInt 0));
      let connected := VBool (truthy (py_get_or observation "connected" (VBool false))) in
      let reason := obs observation "reason_code" in
      let payload : dict := list_to_map
        [("node_id", VStr node_id); ("status", obs observation "status");
         ("connected", connected); ("reader_count", VInt (Z.max 0 reader_count));
         ("reason_code", reason); ("observed_at", observed_at)] in
      let reason_code :=
        if truthy reason then Some (py_take 100 (name_text reason)) else None in
      session ← lift (append_relay_events session event_types reason_code payload current);
      commit_session sid (py_update session (list_to_map
        [("relay_client_status", obs observation "status");
         ("relay_client_connected", connected);
         ("relay_client_reader_count", VInt (Z.max 0 reader_count));
         ("relay_client_last_reason", reason);
         ("relay_client_updated_at", observed_at);
         ("node_id", VStr node_id); ("updated_at", VFloat current)]))).

(** ** Transitions *)
Definition transitioned (session changes : dict) (new_state : string) (updated_at : float)
    : dict :=
  let session :=
    _clear_recovery_candidate (<["status" := VStr new_state]> (py_update session changes)) in
  let session :=
    if in_set new_state ["FINISHED"; "FAILED"] then
      <["entitlement_reserved" := VBool false]> session else session in
  <["updated_at" := VFloat updated_at]> session.

Definition transition (sid new_state : string) (allow_from : option (list string))
    (changes : dict) : SM dict :=
  guard_err (negb (in_set new_state SESSION_STATES)) InvalidTransition ;;
  lift (_validate_timestamp_changes changes) ;;
  locked (
    session ← require_session sid;
    let current := status_of session in
    guard_err match allow_from with
              | Some l => negb (in_set current l)
              | None => negb (in_set new_state (TRANSITIONS current))
              end InvalidTransition ;;
    updated_at ← _validated_now;
    commit_session sid (transitioned session changes new_state updated_at)).

Definition transition_if_current (sid new_state : string) (allow_from : list string)
    (expected_fields changes : dict) : SM (option dict) :=
  guard_err (negb (in_set new_state SESSION_STATES)) InvalidTransition ;;
  lift (_validate_timestamp_changes changes) ;;
  locked (
    o ← find_session sid;
    match o with
    | None => mret None
    | Some session =>
        if negb (in_set (status_of session) allow_from) ||
           negb (_matches_fields session expected_fields) then mret None
        else
          updated_at ← _validated_now;
          s ← commit_session sid (transitioned session changes new_state updated_at);
          mret (Some s)
    end).
