(* ===== verification/SessionFacts.v ===== *)
(** * The Session store: what its operations do

    Success specifications of the operations over [view], the durable state of
    the store, and the properties that follow. *)

From S2P Require Import Prelude PyFloat PyValue Json Effects Authority SessionState SessionSpec.
From S2P Require Import SessionStore.

(** ** Running the building blocks *)

(** The durable state after [sid] has been written. *)
Definition put_view (a : session_mem) (sid : string) (s : dict) : session_mem :=
  SessionMem (<[sid := s]> (sessions a)) (leases a) true.

Lemma commit_session_ok sid s (w : world session_mem) s' w' :
  commit_session sid s w = (Ok s', w') ->
  s' = s /\ view w' = Some (put_view (mem w) sid s) /\ SessionOk sid s /\
  mem w' = put_view (mem w) sid s /\ same_oracles w w'.
Proof.
  unfold commit_session, put_session. intros H. inv_run.
  match goal with Hp : persist _ = _ |- _ => apply persist_ok in Hp as (Hv & Hw & Hm & _ & Ho) end.
  simpl in *. split; [done|]. split; [done|]. split; [|split; [done|solve_same]].
  apply result_bind_ok in Hv as ([] & Hv & _). unfold _validate_sessions in Hv.
  apply check_all_ok in Hv. apply validate_session_iff, Hv.
  unfold of_dicts. by rewrite lookup_fmap, lookup_insert_eq.
Qed.

Lemma validated_now_ok (w : world session_mem) t w' :
  _validated_now w = (Ok t, w') ->
  is_finite t = true /\ flt t fzero = false /\
  t = clock (environment w) (ticks (environment w)) /\
  mem w' = mem w /\ file w' = file w /\ fuse w' = fuse w /\ view w' = view w /\
  clock (environment w') = clock (environment w) /\
  io_fault (environment w') = io_fault (environment w) /\
  ticks (environment w') = S (ticks (environment w)).
Proof.
  unfold _validated_now, _validated_timestamp. intros H. inv_run.
  match goal with Ht : time_time _ = _ |- _ =>
    apply time_time_ok in Ht as (-> & ? & Hf & Hu & ? & ? & ? & ? & ?) end.
  destruct (nonneg_number _) eqn:Hn; [|done]. injection H as <-.
  pose proof (nonneg_number_spec _ _ Hn) as [? ?]. unfold nonneg_number in Hn.
  simpl in Hn. case_match; simplify_eq.
  repeat split; try congruence. unfold view. by rewrite Hf, Hu.
Qed.

#[export] Instance keeps_validated_now : Resp keeps _validated_now.
Proof. unfold _validated_now. apply _. Qed.
#[export] Instance keeps_now_or v : Resp keeps (now_or v).
Proof. unfold now_or. solve_resp. Qed.
#[export] Instance keeps_find sid : Resp keeps (find_session sid).
Proof. unfold find_session. apply _. Qed.
#[export] Instance keeps_require sid : Resp keeps (require_session sid).
Proof. unfold require_session. solve_resp. Qed.
#[export] Instance keeps_put sid s : Resp keeps (put_session sid s).
Proof. unfold put_session. apply _. Qed.
#[export] Instance keeps_put_lease sid s : Resp keeps (put_lease sid s).
Proof. unfold put_lease. apply _. Qed.
#[export] Instance keeps_pop_lease sid : Resp keeps (pop_lease sid).
Proof. unfold pop_lease. apply _. Qed.
#[export] Instance keeps_active_lease sid : Resp keeps (_active_cleanup_lease_locked sid).
Proof. unfold _active_cleanup_lease_locked. solve_resp. Qed.
#[export] Instance keeps_reject sid : Resp keeps (_reject_active_cleanup_lease_locked sid).
Proof. unfold _reject_active_cleanup_lease_locked. solve_resp. Qed.
#[export] Instance keeps_new_session u e g h : Resp keeps (new_session u e g h).
Proof. unfold new_session. solve_resp. Qed.
#[export] Instance keeps_getitem d k : Resp keeps (py_getitem d k).
Proof. unfold py_getitem. solve_resp. Qed.

(** The blocks that only read. *)
#[export] Instance reads_validated_now : Resp reads _validated_now.
Proof. unfold _validated_now. apply _. Qed.
#[export] Instance reads_now_or v : Resp reads (now_or v).
Proof. unfold now_or. solve_resp. Qed.
#[export] Instance reads_find sid : Resp reads (find_session sid).
Proof. unfold find_session. apply _. Qed.
#[export] Instance reads_require sid : Resp reads (require_session sid).
Proof. unfold require_session. solve_resp. Qed.
#[export] Instance reads_active_lease sid : Resp reads (_active_cleanup_lease_locked sid).
Proof. unfold _active_cleanup_lease_locked. solve_resp. Qed.
#[export] Instance reads_reject sid : Resp reads (_reject_active_cleanup_lease_locked sid).
Proof. unfold _reject_active_cleanup_lease_locked. solve_resp. Qed.
#[export] Instance reads_new_session u e g h : Resp reads (new_session u e g h).
Proof. unfold new_session. solve_resp. Qed.
#[export] Instance reads_getitem d k : Resp reads (py_getitem d k).
Proof. unfold py_getitem. solve_resp. Qed.

(** A new record is stopped, and belongs to its user. *)
Lemma new_session_ok u e g h (w : world session_mem) s w' :
  new_session u e g h w = (Ok s, w') ->
  s !! "status" = Some (VStr "STOPPED") /\ s !! "user_id" = Some (VStr u) /\
  s !! "idempotency_key" = Some VNull.
Proof.
  unfold new_session. intros H. apply bind_ok in H as (t & w1 & _ & H).
  apply bind_ok in H as (d & w2 & _ & H). apply bind_ok in H as (i & w3 & _ & H).
  apply ret_ok in H as [-> _]. split; [|split]; dict_lookup; done.
Qed.

Lemma atomic_commit sid s : Atomic (commit_session sid s).
Proof. unfold commit_session. apply atomic_bind; [apply _|intros _]. apply atomic_persist. Qed.

(** ** The operations as data *)
Inductive session_op : Type :=
| OpCreate (sid : option string) (user environment mode : string) (hours : option float)
| OpReserve (sid user environment entitlement : string) (limit : Z)
| OpBeginPrepare (sid user environment entitlement : string) (limit : Z)
    (destination : option string) (mode key : string)
| OpPrepareReplay (sid user environment : string) (destination : option string)
    (mode key : string)
| OpGet (sid : string)
| OpList
| OpSnapshot
| OpFindByServer (server : string) (states : option (list string))
| OpInStates (states : list string)
| OpUpdate (sid : string) (changes : dict)
| OpClaimProvisioning (sid operation : string) (started : value)
| OpCheckpoint (sid operation : string) (next : option string) (complete : bool)
    (changes : dict)
| OpStop (sid : string)
| OpStopIfCurrent (sid status : string) (fields : dict)
| OpClaimOrphan (sid resource kind : string) (seconds : float)
| OpOrphanOwned (sid lease : string)
| OpReleaseOrphan (sid lease : string)
| OpClaimCleanup (sid : string) (states : list string) (seconds : float)
| OpCleanupOwned (sid lease : string)
| OpReleaseCleanup (sid lease : string)
| OpAppendEvent (sid type : string) (reason : option string) (payload : option dict)
    (origin : string) (at_ : option value)
| OpAudio (sid mode : string) (version : Z) (key operator : string) (at_ : option value)
| OpBindNode (sid node boot server : string) (at_ : option value)
| OpHeartbeat (sid node boot : string) (at_ : value) (ready : bool)
| OpUpdateIfCurrent (sid status : string) (fields : dict) (event : option audit_event)
    (changes : dict)
| OpIngest (stable : float) (sid node : string) (types : list string) (observation : dict)
    (at_ : option value)
| OpRelay (sid node : string) (types : list string) (observation : dict)
| OpTransition (sid state : string) (allow : option (list string)) (changes : dict)
| OpTransitionIfCurrent (sid state : string) (allow : list string) (fields changes : dict).

Definition discard {A} (m : SM A) : SM unit := m ;; mret tt.

Definition run_op (op : session_op) : SM unit :=
  match op with
  | OpCreate a b c d e => discard (create a b c d e)
  | OpReserve a b c d e => discard (reserve_prepare_slot a b c d e)
  | OpBeginPrepare a b c d e f g h => discard (begin_prepare a b c d e f g h)
  | OpPrepareReplay a b c d e f => discard (get_prepare_replay a b c d e f)
  | OpGet a => discard (get a)
  | OpList => discard list_sessions
  | OpSnapshot => discard authoritative_snapshot
  | OpFindByServer a b => discard (find_by_provider_server_id a b)
  | OpInStates a => discard (sessions_in_states a)
  | OpUpdate a b => discard (update a b)
  | OpClaimProvisioning a b c => discard (claim_provisioning a b c)
  | OpCheckpoint a b c d e => discard (provisioning_checkpoint a b c d e)
  | OpStop a => discard (request_stop a)
  | OpStopIfCurrent a b c => discard (request_stop_if_current a b c)
  | OpClaimOrphan a b c d => discard (claim_orphan_cleanup a b c d)
  | OpOrphanOwned a b => discard (orphan_cleanup_still_owned a b)
  | OpReleaseOrphan a b => discard (release_orphan_cleanup a b)
  | OpClaimCleanup a b c => discard (claim_session_cleanup a b c)
  | OpCleanupOwned a b => discard (session_cleanup_still_owned a b)
  | OpReleaseCleanup a b => discard (release_session_cleanup a b)
  | OpAppendEvent a b c d e f => discard (append_event a b c d e f)
  | OpAudio a b c d e f => discard (set_audio_desired a b c d e f)
  | OpBindNode a b c d e => discard (bind_node a b c d e)
  | OpHeartbeat a b c d e => discard (record_node_heartbeat a b c d e)
  | OpUpdateIfCurrent a b c d e => discard (update_if_current a b c d e)
  | OpIngest a b c d e f => discard (apply_ingest_observation a b c d e f)
  | OpRelay a b c d => discard (apply_relay_client_observation a b c d)
  | OpTransition a b c d => discard (transition a b c d)
  | OpTransitionIfCurrent a b c d e => discard (transition_if_current a b c d e)
  end.

(** [Resp evolves] for the blocks that do not commit comes from [keeps]. *)
#[export] Instance evolves_of_keeps {B} (m : SM B) : Resp keeps m -> Resp evolves m | 50.
Proof. apply resp_keeps_evolves. Qed.
#[export] Instance evolves_commit sid s : Resp evolves (commit_session sid s).
Proof. unfold commit_session. apply _. Qed.

Create HintDb session_ops.
#[export] Hint Unfold discard create reserve_prepare_slot begin_prepare get_prepare_replay
  get list_sessions authoritative_snapshot find_by_provider_server_id sessions_in_states
  update claim_provisioning provisioning_checkpoint request_stop request_stop_if_current
  claim_orphan_cleanup orphan_cleanup_still_owned release_orphan_cleanup
  claim_session_cleanup session_cleanup_still_owned release_session_cleanup append_event
  set_audio_desired bind_node record_node_heartbeat update_if_current
  apply_ingest_observation apply_relay_client_observation transition
  transition_if_current : session_ops.

#[export] Hint Resolve atomic_commit : authority.

Lemma run_op_evolves op : Resp evolves (run_op op).
Proof.
  destruct op; cbn [run_op]; autounfold with session_ops; solve_resp.
Qed.

Lemma run_op_closed op : Closed (run_op op).
Proof.
  destruct op; cbn [run_op]; unfold discard; apply closed_tail;
    autounfold with session_ops; solve_closed.
Qed.

Lemma run_op_atomic op : Atomic (run_op op).
Proof.
  destruct op; cbn [run_op]; autounfold with session_ops; apply atomic_ret.
  all: solve_atomic.
Qed.

Lemma py_eq_str v s : py_eq v (VStr s) = true -> v = VStr s.
Proof. destruct v; try done. by intros ->%String.eqb_eq. Qed.

Lemma value_in_str v l : value_in v l = true -> exists st, v = VStr st /\ in_set st l = true.
Proof. destruct v; try done. eauto. Qed.

Lemma require_ok sid (w : world session_mem) s w' :
  require_session sid w = (Ok s, w') -> sessions (mem w) !! sid = Some s /\ w' = w.
Proof.
  unfold require_session, find_session, mbind, M_bind, get_mem, mret, M_ret, raise.
  destruct (_ !! _); [|done]. by intros [= -> ->].
Qed.

Lemma find_ok sid (w : world session_mem) o w' :
  find_session sid w = (Ok o, w') -> sessions (mem w) !! sid = o /\ w' = w.
Proof.
  unfold find_session, mbind, M_bind, get_mem, mret, M_ret. by intros [= -> ->].
Qed.

Lemma py_update_insert s k v (d : dict) :
  py_update s (<[k := v]> d) = <[k := v]> (py_update s d).
Proof. unfold py_update. by rewrite insert_union_l. Qed.
Lemma py_update_empty s : py_update s ∅ = s.
Proof. unfold py_update. apply (left_id_L _ _). Qed.

(** Use the commits of an inverted run, and what the reading steps left unchanged
    before them. *)
Ltac use_commit :=
  repeat match goal with
  | H : commit_session _ _ _ = (Ok _, _) |- _ =>
      apply commit_session_ok in H as (? & ? & ? & ? & ?); simplify_eq
  end;
  repeat match goal with H : mem _ = mem _ |- _ => rewrite H in * end.

(** Invert a successful run of a body of the store. *)
Ltac inv_store :=
  inv_run;
  repeat match goal with
  | H : require_session _ _ = (Ok _, _) |- _ => apply require_ok in H as [H ->]
  | H : find_session _ _ = (Ok _, _) |- _ => apply find_ok in H as [H ->]
  end; use_reads; simplify_eq; use_commit.

(** ** Running a body forward *)
Lemma reject_free sid (w : world session_mem) :
  leases (mem w) !! sid = None -> _reject_active_cleanup_lease_locked sid w = (Ok tt, w).
Proof.
  intros H. unfold _reject_active_cleanup_lease_locked, _active_cleanup_lease_locked,
    mbind, M_bind, get_mem. by rewrite H.
Qed.

Lemma find_run sid (w : world session_mem) :
  find_session sid w = (Ok (sessions (mem w) !! sid), w).
Proof. done. Qed.

Lemma require_run sid (w : world session_mem) s :
  sessions (mem w) !! sid = Some s -> require_session sid w = (Ok s, w).
Proof. intros H. unfold require_session, mbind, M_bind. by rewrite find_run, H. Qed.
