(* ===== verification/SessionLifecycle.v ===== *)
(** * The abstract machine of a Session, and its refinement by the store

    [Advances s s'] is what one operation of the store may do to one record: keep
    its owner and its creation time, move its status along the lifecycle, extend
    its event log, and not lower the version of its desired audio state.
    [records_step] is the same over the state of the store, with a birth rule for
    new records. [run_op_stepped] is the refinement: every operation, for every
    clock and every schedule of I/O faults, is one [records_step] of the durable
    state, a stutter, or the fail-closed outcome of [Steps.stepped]. *)

From S2P Require Import Prelude PyFloat PyValue Json Effects Authority Steps SessionState.
From S2P Require Import SessionSpec SessionStore SessionFacts.

(** ** The abstract machine *)

(** The table, and the retry of [claim_provisioning] from [BOOTSTRAPPING]. *)
Definition lifecycle_edge (a b : string) : Prop :=
  b = a \/ b ∈ TRANSITIONS a \/ (a = "BOOTSTRAPPING" /\ b = "PROVISIONING").

Definition event_number (e : value) : option Z :=
  match e with VDict d => match d !! "sequence" with Some v => nonneg_int v | None => None end
             | _ => None end.

Definition log_of (s : dict) : list value := default [] (events_of s).

(** The log grows at its end, may forget its head, and numbers the new events
    from the next sequence number on. *)
Definition log_extends (s s' : dict) : Prop :=
  _next_event_sequence s <= _next_event_sequence s' /\
  exists new, log_of s' `suffix_of` (log_of s ++ new) /\
    Forall (fun e => exists n, event_number e = Some n /\
      _next_event_sequence s <= n < _next_event_sequence s') new.

Definition audio_version (s : dict) : Z :=
  match py_get s "media_control" with
  | VDict mc => match py_get mc "audio" with
                | VDict audio => default 0 (nonneg_int (py_get audio "version"))
                | _ => 0
                end
  | _ => 0
  end.

Record Advances (s s' : dict) : Prop := {
  adv_user : s' !! "user_id" = s !! "user_id";
  adv_created : s' !! "created_at" = s !! "created_at";
  adv_status : lifecycle_edge (status_of s) (status_of s');
  adv_log : log_extends s s';
  adv_audio : audio_version s <= audio_version s'
}.

(** The fields the machine watches. *)
Definition TRACKED : list string :=
  ["user_id"; "created_at"; "status"; "events"; "next_event_seq"; "media_control"].

(** The records of two states of the store, one operation apart. *)
Definition records_step (a a' : session_mem) : Prop :=
  forall sid,
    match sessions a !! sid, sessions a' !! sid with
    | Some s, Some s' => Advances s s'
    | Some _, None => False
    | None, Some s' => status_of s' = "STOPPED"
    | None, None => True
    end.

(** ** Closure properties of [Advances] *)
Lemma log_extends_refl s : log_extends s s.
Proof. split; [lia|]. exists []. rewrite app_nil_r. by split. Qed.

Lemma log_extends_trans s1 s2 s3 :
  log_extends s1 s2 -> log_extends s2 s3 -> log_extends s1 s3.
Proof.
  intros (Hn1 & new1 & [k1 H1] & Hf1) (Hn2 & new2 & [k2 H2] & Hf2).
  split; [lia|]. exists (new1 ++ new2). split.
  - rewrite app_assoc, H1, <- app_assoc. apply suffix_app_r. by exists k2.
  - apply Forall_app. split; eapply Forall_impl; eauto; simpl;
      intros e (n & ? & ?); exists n; (split; [done|lia]).
Qed.

(** Two records that agree on the tracked fields but the status. *)
Definition same_tracked (s s' : dict) : Prop :=
  forall k, k ∈ TRACKED -> s' !! k = s !! k.

Lemma log_same s1 s1' s2 s2' :
  s1' !! "events" = s1 !! "events" -> s1' !! "next_event_seq" = s1 !! "next_event_seq" ->
  s2' !! "events" = s2 !! "events" -> s2' !! "next_event_seq" = s2 !! "next_event_seq" ->
  log_extends s1 s2 -> log_extends s1' s2'.
Proof.
  intros E1 N1 E2 N2. unfold log_extends, log_of, events_of, _next_event_sequence, py_get_or.
  by rewrite E1, N1, E2, N2.
Qed.

Lemma advances_refl s : Advances s s.
Proof. split; [done|done|by left|apply log_extends_refl|lia]. Qed.

Lemma advances_same s s1 s2 : Advances s s1 -> same_tracked s1 s2 -> Advances s s2.
Proof.
  intros [Hu Hc Hs Hl Ha] Hsame.
  assert (Hget : forall k, k ∈ TRACKED -> py_get s2 k = py_get s1 k).
  { intros k Hk. unfold py_get. by rewrite (Hsame k Hk). }
  unfold status_of, audio_version in *.
  split.
  - rewrite Hsame; [done|]. unfold TRACKED. set_solver.
  - rewrite Hsame; [done|]. unfold TRACKED. set_solver.
  - unfold status_of. rewrite Hget; [done|]. unfold TRACKED. set_solver.
  - eapply log_same; [done|done| | |exact Hl]; apply Hsame; unfold TRACKED; set_solver.
  - unfold audio_version. rewrite (Hget "media_control"); [done|]. unfold TRACKED. set_solver.
Qed.

Lemma advances_insert s s1 k v :
  Advances s s1 -> k ∉ TRACKED -> Advances s (<[k := v]> s1).
Proof.
  intros H Hk. eapply advances_same; [exact H|]. intros k' Hk'.
  apply lookup_insert_ne. by intros ->.
Qed.

(** [changes] leaves the tracked fields alone. *)
Definition untracked (changes : dict) : Prop := Forall (fun k => changes !! k = None) TRACKED.

Lemma untracked_lookup changes k : untracked changes -> k ∈ TRACKED -> changes !! k = None.
Proof. unfold untracked. rewrite Forall_forall. auto. Qed.

Lemma advances_update s s1 changes :
  Advances s s1 -> untracked changes -> Advances s (py_update s1 changes).
Proof.
  intros H Hc. eapply advances_same; [exact H|]. intros k Hk.
  unfold py_update. by rewrite lookup_union, (untracked_lookup _ _ Hc Hk), (left_id_L _ _).
Qed.

Lemma advances_status s s1 st :
  Advances s s1 -> lifecycle_edge (status_of s) st ->
  Advances s (<["status" := VStr st]> s1).
Proof.
  intros [Hu Hc Hs Hl Ha] He. split.
  - by rewrite lookup_insert_ne.
  - by rewrite lookup_insert_ne.
  - unfold status_of at 2, py_get. by rewrite lookup_insert_eq.
  - eapply log_same; [done|done| | |exact Hl]; by rewrite lookup_insert_ne.
  - unfold audio_version, py_get in *. by rewrite lookup_insert_ne.
Qed.

Lemma py_update_cons s k v l :
  py_update s (list_to_map ((k, v) :: l)) = <[k := v]> (py_update s (list_to_map l)).
Proof. unfold py_update. cbn. by rewrite insert_union_l. Qed.
Lemma py_update_nil s : py_update s (list_to_map []) = s.
Proof. unfold py_update. cbn. apply (left_id_L _ _). Qed.

Lemma status_insert_ne (s : dict) k v :
  k <> "status" -> status_of (<[k := v]> s) = status_of s.
Proof. intros Hk. unfold status_of, py_get. by rewrite lookup_insert_ne. Qed.

(** ** Appending an event *)
Lemma next_event_sequence_pos s : 0 < _next_event_sequence s.
Proof.
  unfold _next_event_sequence. case_match eqn:E; [by apply Z.ltb_lt|].
  enough (forall l z, 0 <= z -> 0 <= fold_left max_sequence l z) as Hf.
  { pose proof (Hf (default [] (as_list (py_get_or s "events" (VList [])))) 0). lia. }
  clear E. induction l as [|e l IH]; intros z Hz; cbn [fold_left]; [done|]. apply IH.
  destruct e; cbn [max_sequence]; try done. destruct (py_int _); lia.
Qed.

Lemma append_event_ok s ty r p o v s' ev :
  _append_event_locked s ty r p o v = Ok (s', ev) ->
  exists t, nonneg_number v = Some t /\
    ev = make_event (_next_event_sequence s) ty r p o t /\
    s' = <["next_event_seq" := VInt (_next_event_sequence s + 1)]>
           (<["events" := VList (py_last SESSION_EVENT_LIMIT (log_of s ++ [VDict ev]))]> s).
Proof.
  unfold _append_event_locked, _validated_timestamp. intros H.
  apply result_bind_ok in H as (t & Ht & H). destruct (nonneg_number v); [|done].
  simplify_eq. eauto.
Qed.

Lemma event_number_make n ty r p o t :
  0 <= n -> event_number (VDict (make_event n ty r p o t)) = Some n.
Proof.
  intros H. unfold event_number, make_event. rewrite list_to_map_cons, lookup_insert_eq.
  cbn [nonneg_int]. by rewrite (proj2 (Z.ltb_ge _ _) H).
Qed.

Lemma next_seq_insert (s : dict) n :
  0 < n -> _next_event_sequence (<["next_event_seq" := VInt n]> s) = n.
Proof.
  intros H. unfold _next_event_sequence, py_get_or. rewrite lookup_insert_eq. cbn.
  by rewrite (proj2 (Z.ltb_lt _ _) H).
Qed.

Lemma log_insert_events (s : dict) l k v :
  k <> "events" -> log_of (<[k := v]> (<["events" := VList l]> s)) = l.
Proof.
  intros H. unfold log_of, events_of, py_get_or. by rewrite lookup_insert_ne, lookup_insert_eq.
Qed.

Lemma advances_append s0 s ty r p o v s' ev :
  _append_event_locked s ty r p o v = Ok (s', ev) -> Advances s0 s -> Advances s0 s'.
Proof.
  intros (t & _ & -> & ->)%append_event_ok [Hu Hc Hs Hl Ha].
  pose proof (next_event_sequence_pos s). split.
  - by rewrite !lookup_insert_ne.
  - by rewrite !lookup_insert_ne.
  - by rewrite !status_insert_ne.
  - eapply log_extends_trans; [exact Hl|]. unfold log_extends.
    rewrite next_seq_insert by lia. split; [lia|].
    eexists [_]. rewrite log_insert_events by done. split; [apply suffix_drop|].
    apply Forall_singleton. exists (_next_event_sequence s).
    split; [by apply event_number_make; lia|lia].
  - unfold audio_version, py_get in *. by rewrite !lookup_insert_ne.
Qed.

Lemma status_append s ty r p o v s' ev :
  _append_event_locked s ty r p o v = Ok (s', ev) -> status_of s' = status_of s.
Proof. intros (t & _ & -> & ->)%append_event_ok. by rewrite !status_insert_ne. Qed.

Lemma append_ingest_events_ok types s payload t s' :
  append_ingest_events s types payload t = Ok s' ->
  status_of s' = status_of s /\ forall s0, Advances s0 s -> Advances s0 s'.
Proof.
  revert s. induction types as [|ty types IH]; intros s H; cbn in H; [by simplify_eq|].
  apply result_bind_ok in H as ([s1 ev] & H1 & H). apply IH in H as [Hs Ha]; cbn [fst] in *.
  split; [by rewrite Hs, (status_append _ _ _ _ _ _ _ _ H1)|].
  intros s0 H0. by eapply Ha, advances_append.
Qed.

Lemma append_relay_events_ok types s r payload t s' :
  append_relay_events s types r payload t = Ok s' ->
  status_of s' = status_of s /\ forall s0, Advances s0 s -> Advances s0 s'.
Proof.
  revert s. induction types as [|ty types IH]; intros s H; cbn in H; [by simplify_eq|].
  apply result_bind_ok in H as ([s1 ev] & H1 & H). apply IH in H as [Hs Ha]; cbn [fst] in *.
  split; [by rewrite Hs, (status_append _ _ _ _ _ _ _ _ H1)|].
  intros s0 H0. by eapply Ha, advances_append.
Qed.

(** ** The media-control version *)
Lemma advances_audio s0 s now audio mc n v :
  Advances s0 s -> audio_of s now = (audio, mc) ->
  nonneg_int (py_get audio "version") = Some n ->
  nonneg_int (py_get v "version") = Some (n + 1) ->
  Advances s0 (<["media_control" := VDict (<["audio" := VDict v]> mc)]> s).
Proof.
  intros [Hu Hc Hs Hl Ha] Hof Hn Hv. split.
  - by rewrite lookup_insert_ne.
  - by rewrite lookup_insert_ne.
  - by rewrite status_insert_ne.
  - eapply log_same; [done|done| | |exact Hl]; by rewrite lookup_insert_ne.
  - assert (Hver : audio_version (<["media_control" := VDict (<["audio" := VDict v]> mc)]> s)
      = n + 1).
    { unfold audio_version, py_get in *. rewrite lookup_insert_eq. cbn [default from_option id].
      rewrite lookup_insert_eq. cbn [default from_option id]. by rewrite Hv. }
    rewrite Hver. assert (0 <= n) by (destruct (py_get audio "version"); simpl in Hn;
      try done; case_match eqn:E; [done|]; simplify_eq; by apply Z.ltb_ge).
    enough (audio_version s <= n) by lia.
    unfold audio_of in Hof. unfold audio_version.
    destruct (py_get s "media_control") as [| | | | | |m]; try lia.
    destruct (py_get m "audio") as [| | | | | |a]; try lia.
    simplify_eq. rewrite Hn. simpl. lia.
Qed.

(** ** The rules of [Steps], for a commit of one record *)
Lemma records_step_put a sid s' :
  match sessions a !! sid with
  | Some s => Advances s s' | None => status_of s' = "STOPPED" end ->
  records_step a (put_view a sid s').
Proof.
  intros H sid'. simpl. destruct (decide (sid = sid')) as [<-|Hne].
  - rewrite lookup_insert_eq. by destruct (sessions a !! sid).
  - rewrite lookup_insert_ne by done.
    destruct (sessions a !! sid'); [apply advances_refl|done].
Qed.

(** A relation that a change of the leases alone respects. *)
Class LeaseStep (Q : session_mem -> session_mem -> Prop) : Prop :=
  lease_step a a' : sessions a' = sessions a -> Q a a'.

#[export] Instance records_step_leases : LeaseStep records_step.
Proof.
  intros a a' E sid. rewrite E. destruct (sessions a !! sid); [apply advances_refl|done].
Qed.

Definition same_sessions (a a' : session_mem) : Prop := sessions a' = sessions a.

#[export] Instance same_sessions_leases : LeaseStep same_sessions.
Proof. by intros a a'. Qed.

Lemma stepping_commit_session a sid s' w :
  match sessions a !! sid with
  | Some s => Advances s s' | None => status_of s' = "STOPPED" end ->
  Stepping records_step a (commit_session sid s') w.
Proof.
  intros HQ Hw Hv.
  pose (m := put_mem (SessionMem (<[sid := s']> (sessions (mem w))) (leases (mem w))
    (authoritative (mem w))) ;; persist).
  change (commit_session sid s' w) with ((m ≫= fun _ => mret s') w).
  apply (stepping_tail records_step); [|apply _|done|done].
  apply stepping_commit. intros _. rewrite Hw. exact (records_step_put a sid s' HQ).
Qed.

Section lease_steps.
Context (Q : session_mem -> session_mem -> Prop) `{!LeaseStep Q}.

Lemma stepping_commit_leases a (m : SM unit) ls w :
  m = put_mem (SessionMem (sessions a) ls (authoritative a)) ->
  Stepping Q a (m ;; persist) w.
Proof using All.
  intros ->. apply stepping_commit. intros _. by apply lease_step.
Qed.

Lemma stepping_put_lease {B} a sid l (k : SM B) w :
  Resp keeps k -> Stepping Q a (put_lease sid l ;; persist ;; k) w.
Proof using All.
  intros Hk Hw Hv. subst a.
  change ((put_lease sid l ;; persist ;; k) w) with
    (((put_mem (SessionMem (sessions (mem w)) (<[sid := l]> (leases (mem w)))
         (authoritative (mem w))) ;; persist) ;; k) w).
  apply (stepping_tail Q); [|by intros _|done|done].
  exact (stepping_commit_leases _ _ _ _ eq_refl).
Qed.

Lemma stepping_pop_lease a sid w : Stepping Q a (pop_lease sid ;; persist) w.
Proof using All.
  intros Hw Hv. subst a.
  change ((pop_lease sid ;; persist) w) with
    ((put_mem (SessionMem (sessions (mem w)) (delete sid (leases (mem w)))
         (authoritative (mem w))) ;; persist) w).
  exact (stepping_commit_leases _ _ _ _ eq_refl eq_refl Hv).
Qed.
End lease_steps.

Lemma stepping_find {B} Q a sid (f : option dict -> SM B) w :
  Stepping Q a (f (sessions a !! sid)) w -> Stepping Q a (find_session sid ≫= f) w.
Proof.
  intros Hf Hw Hv. subst a. exact (Hf eq_refl Hv).
Qed.

Lemma stepping_require {B} Q a sid (f : dict -> SM B) w :
  (forall s, sessions a !! sid = Some s -> Stepping Q a (f s) w) ->
  Stepping Q a (require_session sid ≫= f) w.
Proof.
  intros Hf Hw Hv. subst a.
  assert (E : (require_session sid ≫= f) w =
    match sessions (mem w) !! sid with Some s => f s w | None => (Err KeyError, w) end).
  { unfold require_session, find_session, mbind, M_bind, get_mem, mret, M_ret, raise.
    by destruct (_ !! _). }
  rewrite E. destruct (_ !! _) as [s|]; [by apply (Hf s)|by left].
Qed.

(** Follow a body down to its commits. *)
Ltac follow_step :=
  cbv beta zeta;
  lazymatch goal with
  | |- Stepping _ _ (guard_err _ _ ≫= _) _ => apply stepping_guard; intros ?
  | |- Stepping _ _ (get_mem ≫= _) _ => apply stepping_get_mem
  | |- Stepping _ _ (find_session _ ≫= _) _ => apply stepping_find
  | |- Stepping _ _ (require_session _ ≫= _) _ => apply stepping_require; intros ? ?
  | |- Stepping _ _ (lift _ ≫= _) _ => apply stepping_lift; intros ? ?
  | |- Stepping _ _ (commit_session _ _ ≫= _) _ =>
      apply stepping_tail; [|solve [intros; apply _]]
  | |- Stepping _ _ (commit_session _ _) _ => apply stepping_commit_session
  | |- Stepping _ _ (put_lease _ _ ≫= _) _ => apply stepping_put_lease; [apply _..]
  | |- Stepping _ _ (pop_lease _ ≫= _) _ => apply (stepping_pop_lease _)
  | |- Stepping _ _ (mret _) _ => apply stepping_keeps, _
  | |- Stepping _ _ (raise _) _ => apply stepping_keeps, _
  | |- Stepping _ _ (_ ≫= _) _ => apply stepping_bind; [solve [solve_resp]|intros ? ? ?]
  | |- Stepping _ _ (match ?x with _ => _ end) _ => destruct x eqn:?
  end.
Ltac follow := repeat follow_step.

(** Close [Advances] for a record built from the loaded one by inserts. *)
Ltac solve_advances :=
  rewrite ?py_update_cons, ?py_update_nil;
  repeat first
    [ apply advances_refl
    | apply advances_insert; [|by apply (bool_decide_unpack _)]
    | apply advances_update; [|done]
    | apply advances_status
    | match goal with |- Advances _ (if ?b then _ else _) => destruct b eqn:? end
    | match goal with |- Advances _ (<[_ := _]> (if ?b then _ else _)) => destruct b eqn:? end ].

(** The goal of a commit on a record that was found. *)
Ltac at_record :=
  match goal with
  | E : sessions ?m !! ?sid = _ |- context [sessions ?m !! ?sid] => rewrite E
  end.

(** ** The operations *)
Lemma status_new u e g h (w : world session_mem) s w' :
  new_session u e g h w = (Ok s, w') -> status_of s = "STOPPED".
Proof. intros (H & _)%new_session_ok. unfold status_of, py_get. by rewrite H. Qed.

Ltac new_record :=
  match goal with
  | H : new_session _ _ _ _ _ = (Ok _, _) |- _ => apply status_new in H
  end; rewrite ?py_update_cons, ?py_update_nil, ?status_insert_ne by done; done.

Lemma create_stepped sid b c d e : Stepped records_step (create (Some sid) b c d e).
Proof.
  unfold create. apply stepped_locked. intros w m. follow. at_record. new_record.
Qed.

Lemma reserve_stepped a b c d e : Stepped records_step (reserve_prepare_slot a b c d e).
Proof.
  unfold reserve_prepare_slot. apply stepped_bind; [apply _|intros _ _ _ _].
  apply stepped_locked. intros w m. follow; at_record.
  - solve_advances.
  - solve_advances.
  - new_record.
Qed.

Lemma begin_prepare_stepped a b c d e f g h :
  Stepped records_step (begin_prepare a b c d e f g h).
Proof.
  unfold begin_prepare. apply stepped_bind; [apply _|intros _ _ _ _].
  apply stepped_locked. intros w m. follow; at_record.
  - solve_advances.
  - new_record.
Qed.

Lemma update_stepped a changes :
  untracked changes -> Stepped records_step (update a changes).
Proof.
  intros Hc. unfold update. apply stepped_bind; [apply _|intros _ _ _ _].
  apply stepped_locked. intros w m. follow; at_record. solve_advances.
Qed.

(** Discharge an edge from a guard on the current state. *)
#[export] Instance lifecycle_edge_dec a b : Decision (lifecycle_edge a b).
Proof. unfold lifecycle_edge. apply _. Defined.

Lemma edge_from l s st :
  negb (in_set s l) = false -> forallb (fun a => bool_decide (lifecycle_edge a st)) l = true ->
  lifecycle_edge s st.
Proof.
  unfold in_set. intros Hs Hl. split_bools. rewrite forallb_forall in Hl.
  eapply bool_decide_eq_true, Hl. by apply list_elem_of_In.
Qed.

Lemma edge_table s st : negb (in_set st (TRANSITIONS s)) = false -> lifecycle_edge s st.
Proof. unfold in_set. intros H. split_bools. right. by left. Qed.

Lemma status_update s changes : untracked changes -> status_of (py_update s changes) = status_of s.
Proof.
  intros Hc. unfold status_of, py_get, py_update.
  rewrite lookup_union, (untracked_lookup _ "status" Hc) by (unfold TRACKED; set_solver).
  by rewrite (left_id_L _ _).
Qed.

Lemma status_is s st : py_eq (py_get s "status") (VStr st) = true -> status_of s = st.
Proof.
  unfold status_of. destruct (py_get s "status"); try done. by intros ->%String.eqb_eq.
Qed.

Ltac solve_edge :=
  match goal with
  | H : negb (in_set ?s ?l) = false |- lifecycle_edge ?s _ => by apply (edge_from l _ _ H)
  | H : negb (in_set ?st (TRANSITIONS ?s)) = false |- lifecycle_edge ?s ?st =>
      by apply edge_table
  end.

Lemma claim_provisioning_stepped a b c : Stepped records_step (claim_provisioning a b c).
Proof.
  unfold claim_provisioning. apply stepped_bind; [apply _|intros ? ? ? _].
  apply stepped_locked. intros w' m. follow; at_record. solve_advances. solve_edge.
Qed.

Lemma checkpoint_stepped a b c d changes :
  untracked changes -> Stepped records_step (provisioning_checkpoint a b c d changes).
Proof.
  intros Hc. unfold provisioning_checkpoint. apply stepped_bind; [apply _|intros _ _ _ _].
  apply stepped_locked. intros w m. follow; at_record;
    match goal with H : match _ with _ => _ end _ = (Ok _, _) |- _ => inv_run end;
    rewrite ?(status_update _ _ Hc) in *; unfold _clear_recovery_candidate;
    solve_advances; solve_edge.
Qed.

Lemma stopping_advances s t :
  lifecycle_edge (status_of s) "STOPPING" -> Advances s (stopping_record s t).
Proof. intros H. unfold stopping_record, _clear_recovery_candidate. by solve_advances. Qed.

Lemma request_stop_stepped a : Stepped records_step (request_stop a).
Proof.
  unfold request_stop. apply stepped_locked. intros w m. follow; at_record.
  apply stopping_advances. solve_edge.
Qed.

Lemma stop_if_current_stepped a b c :
  lifecycle_edge b "STOPPING" -> Stepped records_step (request_stop_if_current a b c).
Proof.
  intros He. unfold request_stop_if_current. apply stepped_locked. intros w m. follow; at_record.
  apply stopping_advances. split_bools. by subst.
Qed.

Lemma transitioned_advances s changes st t :
  untracked changes -> lifecycle_edge (status_of s) st ->
  Advances s (transitioned s changes st t).
Proof.
  intros Hc He. unfold transitioned, _clear_recovery_candidate.
  destruct (in_set _ _); by solve_advances.
Qed.

Lemma transition_stepped a st allow changes :
  untracked changes ->
  match allow with None => True | Some l => Forall (fun s => lifecycle_edge s st) l end ->
  Stepped records_step (transition a st allow changes).
Proof.
  intros Hc Ha. unfold transition. do 2 (apply stepped_bind; [apply _|intros _ _ _ _]).
  apply stepped_locked. intros w m. follow; at_record. apply transitioned_advances; [done|].
  destruct allow as [l|]; [|solve_edge].
  unfold in_set in *. split_bools. by eapply Forall_forall in Ha.
Qed.

Lemma transition_if_current_stepped a st allow fields changes :
  untracked changes -> Forall (fun s => lifecycle_edge s st) allow ->
  Stepped records_step (transition_if_current a st allow fields changes).
Proof.
  intros Hc Ha. unfold transition_if_current. do 2 (apply stepped_bind; [apply _|intros _ _ _ _]).
  apply stepped_locked. intros w m. follow; at_record. apply transitioned_advances; [done|].
  unfold in_set in *. split_bools. by eapply Forall_forall in Ha.
Qed.

Lemma update_if_current_stepped a b fields ev changes :
  untracked changes -> Stepped records_step (update_if_current a b fields ev changes).
Proof.
  intros Hc. unfold update_if_current. apply stepped_bind; [apply _|intros _ _ _ _].
  apply stepped_locked. intros w m. follow; at_record.
  - apply advances_insert; [|by apply (bool_decide_unpack _)].
    match goal with r : (dict * dict)%type, H : _append_event_locked _ _ _ _ _ _ = Ok ?r |- _ =>
      destruct r as [s1 e1]; eapply advances_append; [exact H|] end.
    solve_advances.
  - solve_advances.
Qed.

Lemma claim_orphan_steps Q `{!LeaseStep Q} a b c d : Stepped Q (claim_orphan_cleanup a b c d).
Proof. unfold claim_orphan_cleanup. apply stepped_locked. intros w m. follow. Qed.

Lemma claim_orphan_stepped a b c d : Stepped records_step (claim_orphan_cleanup a b c d).
Proof. apply claim_orphan_steps, _. Qed.

Lemma claim_cleanup_steps Q `{!LeaseStep Q} a b c : Stepped Q (claim_session_cleanup a b c).
Proof. unfold claim_session_cleanup. apply stepped_locked. intros w m. follow. Qed.

Lemma claim_cleanup_stepped a b c : Stepped records_step (claim_session_cleanup a b c).
Proof. apply claim_cleanup_steps, _. Qed.

Lemma release_orphan_steps Q `{!LeaseStep Q} a b : Stepped Q (release_orphan_cleanup a b).
Proof. unfold release_orphan_cleanup. apply stepped_locked. intros w m. follow. Qed.

Lemma release_orphan_stepped a b : Stepped records_step (release_orphan_cleanup a b).
Proof. apply release_orphan_steps, _. Qed.

Lemma release_cleanup_steps Q `{!LeaseStep Q} a b : Stepped Q (release_session_cleanup a b).
Proof. unfold release_session_cleanup. apply stepped_locked. intros w m. follow. Qed.

Lemma release_cleanup_stepped a b : Stepped records_step (release_session_cleanup a b).
Proof. apply release_cleanup_steps, _. Qed.

Lemma append_event_stepped a b c d e f : Stepped records_step (append_event a b c d e f).
Proof.
  unfold append_event. apply stepped_bind; [apply _|intros ? t ? _].
  apply stepped_locked. intros w' m. follow; at_record.
  apply advances_insert; [|by apply (bool_decide_unpack _)].
  eapply advances_append; [eassumption|apply advances_refl].
Qed.

Lemma bind_node_stepped a b c d e : Stepped records_step (bind_node a b c d e).
Proof.
  unfold bind_node. apply stepped_bind; [apply _|intros ? ? ? _].
  apply stepped_locked. intros w' m. follow; at_record. solve_advances.
Qed.

Lemma heartbeat_stepped a b c d e : Stepped records_step (record_node_heartbeat a b c d e).
Proof.
  unfold record_node_heartbeat. apply stepped_bind; [apply _|intros ? ? ? _].
  apply stepped_locked. intros w' m. follow; at_record.
  solve_advances.
  match goal with H : _ && py_eq _ _ = true |- _ => apply andb_prop in H as [_ H] end.
  rewrite (status_is _ "BOOTSTRAPPING"); [by apply (bool_decide_unpack _)|].
  match goal with H : py_eq _ _ = true |- _ => unfold py_get in *; rewrite lookup_insert_ne in H by done end.
  done.
Qed.

Lemma getitem_ok (d : dict) k (w : world session_mem) v w' :
  py_getitem d k w = (Ok v, w') -> d !! k = Some v /\ w' = w.
Proof. unfold py_getitem. destruct (d !! k); [|done]. by intros [-> ->]%ret_ok. Qed.

Lemma nonneg_int_nonneg v n : nonneg_int v = Some n -> 0 <= n.
Proof. destruct v; simpl; try done. case_match eqn:E; [done|]. intros [= <-]. by apply Z.ltb_ge. Qed.

Lemma audio_stepped a b c d e f : Stepped records_step (set_audio_desired a b c d e f).
Proof.
  unfold set_audio_desired. do 3 (apply stepped_bind; [apply _|intros _ _ _ _]).
  apply stepped_bind; [apply _|intros ? ? ? _].
  apply stepped_locked. intros w' m. follow; at_record.
  match goal with r : (dict * dict)%type, H : _append_event_locked _ _ _ _ _ _ = Ok ?r |- _ =>
    destruct r as [s1 e1]; eapply advances_append; [exact H|] end.
  solve_advances.
  match goal with H : py_getitem _ "version" _ = _ |- _ => apply getitem_ok in H as [Hver _] end.
  destruct (nonneg_int _) as [n|] eqn:Hn; [|done]. simplify_eq.
  pose proof (nonneg_int_nonneg _ _ Hn).
  eapply (advances_audio _ _ _ _ _ n); [apply advances_refl|eassumption| |].
  - unfold py_get. by rewrite Hver.
  - unfold py_get. dict_lookup. cbn. by rewrite (proj2 (Z.ltb_ge _ _)) by lia.
Qed.

Lemma relay_stepped a b c d : Stepped records_step (apply_relay_client_observation a b c d).
Proof.
  unfold apply_relay_client_observation. apply stepped_bind; [apply _|intros ? ? ? _].
  apply stepped_bind; [apply _|intros ? ? ? _].
  apply stepped_locked. intros w' m. follow; at_record.
  match goal with H : append_relay_events _ _ _ _ _ = Ok _ |- _ =>
    apply append_relay_events_ok in H as [_ Ha] end.
  pose proof (Ha _ (advances_refl _)). rewrite ?py_update_cons, ?py_update_nil.
  by repeat (apply advances_insert; [|by apply (bool_decide_unpack _)]).
Qed.

(** ** Ingest observations *)
Lemma recovery_advances rs s src t ready s1 s0 :
  _recovery_candidate_ready rs s src t = (ready, s1) ->
  status_of s1 = status_of s /\ (Advances s0 s -> Advances s0 s1).
Proof.
  unfold _recovery_candidate_ready. intros H.
  assert (s1 = s \/ s1 = <["recovery_candidate_source_id" := src]>
         (<["recovery_candidate_since" := VFloat t]> s)) as [->| ->]; [|done|].
  { destruct (number_as_float _); [|simplify_eq; by right].
    case_match; simplify_eq; [by right|by left]. }
  split; [by rewrite !status_insert_ne|]. intros. by solve_advances.
Qed.

(** Every target of an observation is reachable in one step of the table. *)
Lemma ingest_target_edge rs s online st reasons src t tgt s1 :
  ingest_target rs s online st reasons src t = (tgt, s1) ->
  (forall s0, Advances s0 s -> Advances s0 s1) /\
  match tgt with
  | Some (new, _, _) => lifecycle_edge (status_of s) new
  | None => True
  end.
Proof.
  unfold ingest_target. intros H.
  assert (Hin : forall l new, in_set (status_of s) l = true ->
    forallb (fun a => bool_decide (lifecycle_edge a new)) l = true ->
    lifecycle_edge (status_of s) new).
  { intros l new Hl. apply edge_from. by rewrite Hl. }
  repeat match goal with
  | H : match ?x with _ => _ end = (_, _) |- _ => destruct x eqn:?
  end; simplify_eq; split_bools;
  repeat match goal with
  | H : _recovery_candidate_ready _ _ _ _ = _ |- _ =>
      pose proof (fun s0 => proj2 (recovery_advances _ _ _ _ _ _ s0 H)); clear H
  end; try (split; [done|]); try done; try (by eapply Hin).
  - match goal with Hs : status_of s = _, Ho : _ = Some (_, _), ready : bool |- _ =>
      rewrite Hs; destruct ready; [|done];
      repeat case_match; simplify_eq; by apply (bool_decide_unpack _) end.
  - split; [|done]. intros. unfold _clear_recovery_candidate. by solve_advances.
  - destruct (in_set _ ["LIVE"; "DEGRADED"]) eqn:E; [by eapply Hin|done].
Qed.

Lemma clear_advances s0 s : Advances s0 s -> Advances s0 (_clear_recovery_candidate s).
Proof. intros. unfold _clear_recovery_candidate. by solve_advances. Qed.

Lemma clear_if_advances s0 s (b : bool) :
  Advances s0 s -> Advances s0 (if b then s else _clear_recovery_candidate s).
Proof. destruct b; [done|apply clear_advances]. Qed.

Lemma stamp_advances s0 s st online t : Advances s0 s -> Advances s0 (stamp_ingest s st online t).
Proof.
  intros. unfold stamp_ingest. destruct (bool_decide _), online; [by solve_advances..|].
  by solve_advances.
Qed.

Lemma ingest_stepped rs a b c d e : Stepped records_step (apply_ingest_observation rs a b c d e).
Proof.
  unfold apply_ingest_observation. apply stepped_bind; [apply _|intros ? t ? _].
  apply stepped_locked. intros w' m. follow; at_record.
  repeat (apply advances_insert; [|by apply (bool_decide_unpack _)]).
  match goal with H : append_ingest_events _ _ _ _ = Ok _ |- _ =>
    apply append_ingest_events_ok in H as [Hst Ha] end.
  match goal with H : ingest_target _ _ _ _ _ _ _ = _ |- _ =>
    apply ingest_target_edge in H as [Hg Hedge] end.
  specialize (Hg _ (Ha _ (advances_refl _))). rewrite Hst in Hedge.
  match goal with H : match ?o with _ => _ end _ = (Ok _, _) |- _ =>
    destruct o as [[[st ev] reason]|] end; [case_match|].
  - match goal with H : mret _ _ = _ |- _ => apply ret_ok in H as [-> _] end.
    by apply clear_if_advances.
  - inv_run. destruct x as [s1 e1]. eapply advances_append; [eassumption|].
    by apply stamp_advances, clear_advances, advances_status.
  - match goal with H : mret _ _ = _ |- _ => apply ret_ok in H as [-> _] end.
    by apply clear_if_advances.
Qed.

(** ** All operations *)

(** How the control plane calls the store: keyword changes leave the watched
    fields to the store, a caller that names the source states itself names only
    states with an edge to the target, and the identifier of a new record is
    given (a generated one could hit an existing record, which [create] does not
    check). *)
Definition well_used (op : session_op) : Prop :=
  match op with
  | OpCreate None _ _ _ _ => False
  | OpUpdate _ changes | OpCheckpoint _ _ _ _ changes
  | OpUpdateIfCurrent _ _ _ _ changes => untracked changes
  | OpStopIfCurrent _ status _ => lifecycle_edge status "STOPPING"
  | OpTransition _ st allow changes =>
      untracked changes /\
      match allow with None => True | Some l => Forall (fun s => lifecycle_edge s st) l end
  | OpTransitionIfCurrent _ st allow _ changes =>
      untracked changes /\ Forall (fun s => lifecycle_edge s st) allow
  | _ => True
  end.

#[export] Instance well_used_dec op : Decision (well_used op).
Proof.
  destruct op as [[]| | | | | | | | | | | | | | | | | | | | | | | | | | |? ? []|];
    cbn [well_used]; unfold untracked; apply _.
Defined.

Lemma discard_stepped {A} Q (m : SM A) : Stepped Q m -> Stepped Q (discard m).
Proof. intros Hm. unfold discard. apply stepped_tail; [done|]. intros. apply _. Qed.

Create HintDb stepped.
#[export] Hint Resolve create_stepped reserve_stepped begin_prepare_stepped update_stepped
  claim_provisioning_stepped checkpoint_stepped request_stop_stepped stop_if_current_stepped
  transition_stepped transition_if_current_stepped update_if_current_stepped
  claim_orphan_stepped claim_cleanup_stepped release_orphan_stepped release_cleanup_stepped
  append_event_stepped bind_node_stepped heartbeat_stepped audio_stepped relay_stepped
  ingest_stepped : stepped.

Lemma run_op_stepped op : well_used op -> Stepped records_step (run_op op).
Proof.
  destruct op; cbn [run_op well_used]; intros Hw; try apply discard_stepped;
    try (destruct sid; [|done]);
    try match type of Hw with _ /\ _ => destruct Hw end; auto with stepped;
    apply stepped_keeps; autounfold with session_ops; solve_resp.
Qed.
