(* ===== verification/SessionTheorems.v ===== *)
(** * The Session store: theorems about histories of operations

    [run_ops] runs a sequence of operations, whatever each returns, on a durable
    world; between two of them anything may have happened to the in-memory copy,
    which every operation reloads. The theorems hold for every clock and every
    schedule of I/O faults. *)

From S2P Require Import Prelude PyFloat PyValue Json Effects Authority Steps SessionState.
From S2P Require Import SessionSpec SessionStore SessionFacts SessionLifecycle.

Definition run_ops (ops : list session_op) (w : world session_mem) : world session_mem :=
  fold_left (fun w op => (run_op op w).2) ops w.

(** ** Histories *)
Lemma run_ops_cons op ops w : run_ops (op :: ops) w = run_ops ops (run_op op w).2.
Proof. done. Qed.

Lemma run_ops_closed ops w :
  Forall well_used ops -> view w = None -> view (run_ops ops w) = None.
Proof.
  intros Hw. revert w. induction Hw as [|op ops Hop _ IH]; intros w Hv; [done|].
  rewrite run_ops_cons. apply IH. pose proof (run_op_stepped op Hop w) as Hs.
  unfold stepped in Hs. by rewrite Hv in Hs.
Qed.

(** The states a history goes through. *)
Lemma run_ops_reach ops w a a' :
  Forall well_used ops -> view w = Some a -> view (run_ops ops w) = Some a' ->
  rtc records_step a a'.
Proof.
  intros Hw. revert w a. induction Hw as [|op ops Hop Hops IH]; intros w a Hv Hv'.
  { cbn in Hv'. rewrite Hv in Hv'. by simplify_eq. }
  rewrite run_ops_cons in Hv'.
  pose proof (run_op_stepped op Hop w) as Hs. unfold stepped in Hs. rewrite Hv in Hs.
  destruct Hs as [H1|[(a1 & H1 & Hq)|(_ & _ & H1)]].
  - by eapply IH.
  - eapply rtc_l; [exact Hq|by eapply IH].
  - by rewrite (run_ops_closed ops _ Hops H1) in Hv'.
Qed.

(** A record is never lost, and only advances. *)
Lemma records_rtc a a' sid s :
  rtc records_step a a' -> sessions a !! sid = Some s ->
  exists s', sessions a' !! sid = Some s' /\ rtc Advances s s'.
Proof.
  intros Hr. revert s. induction Hr as [|a b c Hab _ IH]; intros s Hs; [by exists s|].
  specialize (Hab sid). rewrite Hs in Hab.
  destruct (sessions b !! sid) as [s1|] eqn:E; [|done].
  destruct (IH _ eq_refl) as (s' & Hs' & Hr). exists s'.
  split; [done|eapply rtc_l; [exact Hab|done]].
Qed.

Lemma run_ops_record ops w sid a a' s :
  Forall well_used ops -> view w = Some a -> view (run_ops ops w) = Some a' ->
  sessions a !! sid = Some s ->
  exists s', sessions a' !! sid = Some s' /\ rtc Advances s s'.
Proof. intros. eapply records_rtc; [by apply (run_ops_reach ops w)|done]. Qed.

(** ** A scenario for the witnesses

    A store on an empty directory, a clock that advances by a second at each
    reading, no I/O faults. *)
Definition demo_env : env :=
  Env (fun n => of_Z (1000 + Z.of_nat n)) 0 (fun n => String.append "id-" (pretty.pretty n)) 0
      (fun _ => false) 0.

Definition demo_world : world session_mem := World (SessionMem ∅ ∅ false) Missing false demo_env.

Definition state_of (w : world session_mem) : session_mem :=
  default (SessionMem ∅ ∅ false) (view w).
Definition record_of (w : world session_mem) (sid : string) : dict :=
  default ∅ (sessions (state_of w) !! sid).

(** Reading a concrete world by computation of a boolean. *)
Definition readable (w : world session_mem) : bool :=
  match view w with Some _ => true | None => false end.
Definition known (w : world session_mem) (sid : string) : bool :=
  match sessions (state_of w) !! sid with Some _ => true | None => false end.

Lemma view_state w : readable w = true -> view w = Some (state_of w).
Proof. unfold readable, state_of. by destruct (view w). Qed.
Lemma known_record w sid : known w sid = true -> sessions (state_of w) !! sid = Some (record_of w sid).
Proof. unfold known, record_of. by destruct (sessions (state_of w) !! sid). Qed.

(** Run an operation on a concrete world and keep only that it returned, with a
    property of what it returned. *)
Lemma ran {W A} (test : A -> bool) (m : M W A) (w : W) :
  match (m w).1 with Ok x => test x | Err _ => false end = true ->
  exists x w', m w = (Ok x, w') /\ test x = true.
Proof. destruct (m w) as [[x|e] w']; [eauto|done]. Qed.

(** Close such a goal. *)
Ltac by_eval :=
  lazymatch goal with
  | |- view _ = Some (state_of _) => apply view_state; vm_compute; reflexivity
  | |- sessions (state_of _) !! _ = Some (record_of _ _) =>
      apply known_record; vm_compute; reflexivity
  | |- ?P => apply (bool_decide_unpack P); vm_compute; exact I
  end.

(** The world of [w] seen by a process whose clock stands at [t]. *)
Definition at_time (t : Z) (w : world session_mem) : world session_mem :=
  World (mem w) (file w) (fuse w) (Env (fun _ => of_Z t) 0 (fun _ => "id") 0 (fun _ => false) 0).

Definition demo_start : list session_op :=
  [OpBeginPrepare "s1" "u1" "prod" "ent-1" 1 None "DIRECT_PUSH" "key-1";
   OpClaimProvisioning "s1" "op-1" (VInt 1001);
   OpCheckpoint "s1" "op-1" (Some "BOOTSTRAPPING") true {[ "provider_server_id" := VStr "srv-1" ]};
   OpBindNode "s1" "node-1" "boot-1" "srv-1" None;
   OpHeartbeat "s1" "node-1" "boot-1" (VInt 1010) true;
   OpAppendEvent "s1" "session.ready" None None "control-api" None].

Definition demo_finish : list session_op :=
  [OpStop "s1"; OpTransition "s1" "FINISHED" (Some ["STOPPING"]) ∅].

Definition demo_late : list session_op :=
  [OpStop "s1"; OpReserve "s1" "u1" "prod" "ent-2" 1;
   OpTransition "s1" "PROVISIONING" None ∅;
   OpAppendEvent "s1" "late" None None "cli" None].

Definition demo_prepared : world session_mem := run_ops (take 1 demo_start) demo_world.
Definition demo_provisioning : world session_mem := run_ops (take 2 demo_start) demo_world.
Definition demo_live : world session_mem := run_ops demo_start demo_world.
Definition demo_finished : world session_mem := run_ops demo_finish demo_live.

(** ** The theorems *)

(** C4: Refinement. Whatever operation of the store runs, with whatever clock,
    identifiers and I/O failures, the next load delivers the old state or a state
    one step of the abstract machine away: every record keeps its owner and its
    creation time, its status moves along the lifecycle table (or the retry edge
    of a provisioning claim), its event log grows at the end under fresh numbers,
    its audio version does not go down, no record is lost, and a new record is
    STOPPED. Only a store that never committed can be left fail-closed instead. *)
Theorem session_operation_refines_machine op w a :
  well_used op -> view w = Some a ->
  let w' := (run_op op w).2 in
  view w' = Some a \/
  (exists a', view w' = Some a' /\ records_step a a') \/
  (file w = Missing /\ file w' = Missing /\ view w' = None).
Proof.
  intros Hop Hv. pose proof (run_op_stepped op Hop w) as H. unfold stepped in H.
  by rewrite Hv in H.
Qed.

Lemma session_operation_refines_machine_witness :
  let w := demo_live in let op := OpStop "s1" in
  status_of (record_of (run_op op w).2 "s1") = "STOPPING" /\
  (view (run_op op w).2 = Some (state_of w) \/
   (exists a', view (run_op op w).2 = Some a' /\ records_step (state_of w) a') \/
   (file w = Missing /\ file (run_op op w).2 = Missing /\ view (run_op op w).2 = None)).
Proof.
  split; [vm_compute; reflexivity|].
  apply (session_operation_refines_machine (OpStop "s1") demo_live (state_of demo_live)).
  - exact I.
  - by_eval.
Defined.

Lemma terminal_edge a b : lifecycle_edge a b -> a ∈ ["FINISHED"; "FAILED"] -> b = a.
Proof.
  intros [->|[H|[-> _]]] Ha; [done| |].
  - apply elem_of_cons in Ha as [->|[->|Ha%elem_of_nil]%elem_of_cons]; [..|done];
      by apply elem_of_nil in H.
  - by apply bool_decide_in_true in Ha.
Qed.

(** C10: A finished or failed Session is final: after any history of operations,
    with retries, late heartbeats, stops, failed I/O, its record is still there,
    with the same status. *)
Theorem terminal_session_is_final ops w sid a a' s :
  Forall well_used ops -> view w = Some a -> view (run_ops ops w) = Some a' ->
  sessions a !! sid = Some s -> status_of s ∈ ["FINISHED"; "FAILED"] ->
  exists s', sessions a' !! sid = Some s' /\ status_of s' = status_of s.
Proof.
  intros Hw Hv Hv' Hs Hst.
  destruct (run_ops_record ops w sid a a' s) as (s' & Hs' & Hr); [done..|].
  exists s'. split; [done|]. clear Hs Hs'. induction Hr as [|s s1 s' [_ _ He _ _] _ IH]; [done|].
  pose proof (terminal_edge _ _ He Hst) as Heq. rewrite IH; congruence.
Qed.

Lemma terminal_session_is_final_witness :
  exists s', sessions (state_of (run_ops demo_late demo_finished)) !! "s1" = Some s' /\
    status_of s' = status_of (record_of demo_finished "s1").
Proof.
  apply (terminal_session_is_final demo_late demo_finished "s1" (state_of demo_finished)); by_eval.
Defined.

Lemma log_rtc s s' : rtc Advances s s' -> log_extends s s'.
Proof.
  induction 1 as [|s s1 s' [_ _ _ Hl _] _ IH]; [apply log_extends_refl|].
  by eapply log_extends_trans.
Qed.

(** ** Event numbers *)
Lemma event_number_seq e n :
  event_number e = Some n -> exists d, e = VDict d /\ d !! "sequence" = Some (VInt n) /\ 0 <= n.
Proof.
  destruct e as [| | | | | |d]; try done. cbn. destruct (d !! "sequence") as [v|] eqn:E; [|done].
  intros [-> Hn]%nonneg_int_spec. eauto.
Qed.

Lemma validate_events_numbers p l q :
  validate_events p l = Ok q ->
  p <= q /\
  Forall (fun e => exists n, event_number e = Some n /\ p < n <= q) l /\
  (forall e e', e ∈ l -> e' ∈ l -> event_number e = event_number e' -> e = e').
Proof.
  revert p. induction l as [|v l IH]; intros p H.
  { cbn in H. simplify_eq. split; [lia|]. split; [constructor|]. intros ?? []%elem_of_nil. }
  destruct v as [| | | | | |d]; try done. cbn [validate_events] in H.
  apply result_bind_ok in H as (o & Ho & H). apply seq_ok in H as [Hlt H].
  apply is_ok_unit, raise_if_ok in Hlt.
  do 3 (apply seq_ok in H as [_ H]). do 2 (apply seq_ok in H as [_ H]).
  assert (Hd : event_number (VDict d) = Some (default 0 o)).
  { unfold _require_nonnegative_int in Ho. cbn. destruct (d !! "sequence"); [|done].
    destruct (nonneg_int v); [|done]. by simplify_eq. }
  set (n := default 0 o) in *. apply orb_false_iff in Hlt as [_ Hlt]. apply Z.leb_gt in Hlt.
  destruct (IH _ H) as (Hq & Hf & Hinj). split; [lia|]. split.
  - apply Forall_cons. split; [exists n; split; [done|lia]|].
    eapply Forall_impl; [exact Hf|]. intros e (k & ? & ?). exists k. split; [done|lia].
  - assert (Hhd : forall e, e ∈ l -> event_number e <> Some n).
    { intros e He. rewrite Forall_forall in Hf. destruct (Hf e He) as (k & -> & ?).
      intros [= ->]. lia. }
    intros e e' He He' Heq.
    apply elem_of_cons in He as [->|He]; apply elem_of_cons in He' as [->|He']; [done| | |].
    + by destruct (Hhd e' He'); rewrite <- Heq.
    + by destruct (Hhd e He); rewrite Heq.
    + by apply Hinj.
Qed.

Lemma max_sequence_le m e : m <= max_sequence m e.
Proof. destruct e; cbn [max_sequence]; try lia. destruct (py_int _); lia. Qed.

Lemma fold_max_sequence l z :
  z <= fold_left max_sequence l z /\
  Forall (fun e => forall n, event_number e = Some n -> n <= fold_left max_sequence l z) l.
Proof.
  revert z. induction l as [|e l IH]; intros z; cbn [fold_left]; [split; [lia|constructor]|].
  destruct (IH (max_sequence z e)) as [H1 H2]. pose proof (max_sequence_le z e).
  split; [lia|]. apply Forall_cons. split; [|done].
  intros n (d & -> & Hd & Hn)%event_number_seq. etrans; [|exact H1].
  cbn [max_sequence]. unfold py_get_or. rewrite Hd. cbn [default from_option id py_int]. lia.
Qed.

(** In a valid record a number identifies an event, and lies below the next. *)
Lemma SessionOk_numbers sid s :
  SessionOk sid s ->
  Forall (fun e => exists n, event_number e = Some n /\ n < _next_event_sequence s) (log_of s) /\
  (forall e e', e ∈ log_of s -> e' ∈ log_of s -> event_number e = event_number e' -> e = e').
Proof.
  intros [_ _ _ (l & last & Hl & Hv & Hn)]. unfold log_of. rewrite Hl.
  cbn [default from_option id]. apply validate_events_numbers in Hv as (_ & Hf & Hinj).
  split; [|done]. rewrite Forall_forall in *. intros e Hin.
  destruct (Hf e Hin) as (n & He & Hlt). exists n.
  split; [done|]. unfold seq_of in Hn. unfold _next_event_sequence, py_get_or.
  destruct (s !! "next_event_seq") as [v|].
  - destruct Hn as (k & Hk & Hpos & Hlast). apply nonneg_int_spec in Hk as [-> _].
    cbn [default from_option id py_int]. rewrite (proj2 (Z.ltb_lt _ _) Hpos). lia.
  - cbn [default from_option id py_int]. rewrite Z.ltb_irrefl.
    unfold events_of, py_get_or in Hl. rewrite Hl.
    cbn [default from_option id]. pose proof (proj2 (fold_max_sequence l 0)) as Hmax.
    rewrite Forall_forall in Hmax. specialize (Hmax e Hin n He). lia.
Qed.

(** What a load delivers is valid. *)
Lemma view_valid (w : world session_mem) a sid s :
  view w = Some a -> sessions a !! sid = Some s -> SessionOk sid s.
Proof.
  unfold view. intros Hv Hs. destruct (file w) as [| |r]; [|done|].
  { destruct (fuse w); [done|]. simplify_eq. }
  destruct (load_json_authority r) as [v|]; [|done].
  cbn [af_decode session_format] in Hv. unfold decode_sessions in Hv.
  destruct v as [| | | | | |d]; try done. destruct (d !! "sessions") as [[| | | | | |ss]|]; try done.
  destruct (_validate_sessions ss) as [[]|] eqn:Hval; [|done]. cbn [mbind result_bind] in Hv.
  destruct (py_get_or _ _ _) as [| | | | | |ls]; try done.
  destruct (_validate_cleanup_leases ls); [|done]. cbn [mbind result_bind] in Hv. simplify_eq.
  cbn in Hs. unfold as_dicts in Hs. rewrite lookup_omap in Hs.
  destruct (ss !! sid) as [v|] eqn:E; [|done]. destruct v; try done. cbn in Hs. simplify_eq.
  apply validate_session_iff. unfold _validate_sessions in Hval.
  by apply (proj1 (check_all_ok _ _) Hval).
Qed.

(** C11: The event log is append only. After any history of operations the log of
    a Session is a suffix of its old log followed by new events, the new events
    are numbered from the old next number on and below the new one, and so an
    event number identifies one event for ever: an event found later under the
    number of an earlier one is that event. *)
Theorem event_log_is_append_only ops w sid a a' s :
  Forall well_used ops -> view w = Some a -> view (run_ops ops w) = Some a' ->
  sessions a !! sid = Some s ->
  exists s', sessions a' !! sid = Some s' /\ log_extends s s' /\
    forall e e', e ∈ log_of s -> e' ∈ log_of s' -> event_number e' = event_number e -> e' = e.
Proof.
  intros Hw Hv Hv' Hs.
  destruct (run_ops_record ops w sid a a' s) as (s' & Hs' & Hr); [done..|].
  exists s'. split; [done|]. apply log_rtc in Hr. split; [done|].
  destruct (SessionOk_numbers sid s) as [Hlt Hinj]; [by apply (view_valid w a)|].
  destruct Hr as (_ & new & Hsuf & Hnew). intros e e' He He' Heq.
  rewrite Forall_forall in *. destruct (Hlt e He) as (n & Hn & Hn').
  assert (Hin : e' ∈ log_of s ++ new) by (destruct Hsuf as [k ->]; apply elem_of_app; by right).
  apply elem_of_app in Hin as [Hin|Hin]; [by apply Hinj|].
  destruct (Hnew e' Hin) as (n' & Hn1 & Hn2). rewrite Heq, Hn in Hn1. simplify_eq. lia.
Qed.

Lemma event_log_is_append_only_witness :
  let w := demo_live in
  exists s', sessions (state_of (run_ops demo_finish w)) !! "s1" = Some s' /\
    log_extends (record_of w "s1") s' /\
    forall e e', e ∈ log_of (record_of w "s1") -> e' ∈ log_of s' ->
      event_number e' = event_number e -> e' = e.
Proof.
  apply (event_log_is_append_only demo_finish demo_live "s1" (state_of demo_live)); by_eval.
Defined.

(** ** Errors *)

(** C25: Atomicity. When the disk works, an operation that raises, whatever the
    exception and wherever in the operation it is raised, leaves the durable state
    as it was. *)
Theorem failed_operation_changes_nothing op w e w' :
  no_faults w -> run_op op w = (Err e, w') -> view w' = view w.
Proof. apply run_op_atomic. Qed.

Lemma failed_operation_changes_nothing_witness :
  let op := OpTransition "s1" "LIVE" None ∅ in
  exists w', run_op op demo_finished = (Err InvalidTransition, w') /\
    view w' = view demo_finished.
Proof.
  intros op. destruct (run_op op demo_finished) as [[u|e] w'] eqn:E.
  - exfalso. assert (Hb : is_ok (run_op op demo_finished).1 = false) by (vm_compute; reflexivity).
    rewrite E in Hb. discriminate Hb.
  - exists w'. assert (He : e = InvalidTransition).
    { assert (Hb : match (run_op op demo_finished).1 with
        Err InvalidTransition => true | _ => false end = true) by (vm_compute; reflexivity).
      rewrite E in Hb. destruct e; solve [reflexivity|discriminate Hb]. }
    subst e. split; [reflexivity|].
    apply (failed_operation_changes_nothing op demo_finished InvalidTransition w'); [|exact E].
    intros n. vm_compute. reflexivity.
Defined.

(** C26: Fail closed. Once a commit has been attempted the fuse is armed, and from
    then on a missing file is an error of every operation: no operation returns,
    none recreates the file, none disarms the fuse, so the store never restarts
    from an empty state. *)
Theorem missing_file_fails_closed ops w op :
  Forall well_used ops -> file w = Missing -> fuse w = true ->
  file (run_ops ops w) = Missing /\ fuse (run_ops ops w) = true /\
  exists e w', run_op op (run_ops ops w) = (Err e, w').
Proof.
  intros Hw. revert w. induction Hw as [|op1 ops _ _ IH]; intros w Hf Hu.
  - split; [done|]. split; [done|]. destruct (run_op_closed op w Hf Hu) as (e & w' & ? & _). eauto.
  - rewrite run_ops_cons. destruct (run_op_closed op1 w Hf Hu) as (e & w' & Hr & Hf' & Hu').
    apply IH; by rewrite Hr.
Qed.

(** The directory entry of [w] lost, for instance by a restore without the file. *)
Definition lose_file (w : world session_mem) : world session_mem :=
  World (mem w) Missing (fuse w) (environment w).

Lemma missing_file_fails_closed_witness :
  exists e w', run_op OpList (run_ops demo_start (lose_file demo_live)) = (Err e, w').
Proof.
  apply (missing_file_fails_closed demo_start (lose_file demo_live) OpList).
  - by_eval.
  - reflexivity.
  - vm_compute. reflexivity.
Defined.

(** ** Validity *)

(** Validation refines its specification: the check that every load and every
    commit runs accepts exactly the mappings whose records satisfy the schema and
    the ordering of the event log ([SessionSpec.SessionOk]). *)
Theorem validate_sessions_refines_spec (ss : gmap string dict) :
  _validate_sessions (of_dicts ss) = Ok tt <-> map_Forall SessionOk ss.
Proof.
  unfold _validate_sessions. rewrite check_all_ok. unfold of_dicts. split.
  - intros H sid s Hs. apply validate_session_iff. apply H. by rewrite lookup_fmap, Hs.
  - intros H sid v Hv. rewrite lookup_fmap in Hv. destruct (ss !! sid) as [s|] eqn:Hs; [|done].
    injection Hv as <-. apply validate_session_iff. by apply H.
Qed.
