(* ===== verification/SessionPrepare.v ===== *)
(** * The Session store: capacity and idempotence of a prepare request *)

From S2P Require Import Prelude PyFloat PyValue Json Effects Authority Steps SessionState.
From S2P Require Import SessionSpec SessionStore SessionFacts SessionLifecycle SessionTheorems.

(** ** Capacity *)

(** The Sessions of a user that hold one of its concurrent slots. *)
Definition slots_used (user_id : string) (a : session_mem) : Z :=
  Z.of_nat (size (filter (fun p : string * dict =>
    (owned_by user_id p.2 && holds_slot p.2) = true) (sessions a))).

Lemma slots_used_put u sid (s : dict) a :
  slots_used u (put_view a sid s) <= occupied_slots sid u (sessions a) + 1.
Proof.
  unfold slots_used, occupied_slots. cbn [sessions put_view].
  set (P := fun p : string * dict => (owned_by u p.2 && holds_slot p.2) = true).
  set (Q := fun p : string * dict =>
    (negb (bool_decide (p.1 = sid)) && owned_by u p.2 && holds_slot p.2) = true).
  enough (filter P (<[sid := s]> (sessions a)) ⊆ <[sid := s]> (filter Q (sessions a))) as Hsub.
  { apply map_subseteq_size in Hsub. rewrite map_size_insert in Hsub.
    destruct (filter Q (sessions a) !! sid); simpl in Hsub; lia. }
  apply map_subseteq_spec. intros k v Hk.
  apply map_lookup_filter_Some in Hk as [Hk HP].
  apply lookup_insert_Some in Hk as [[<- <-]|[Hne Hk]]; [by rewrite lookup_insert_eq|].
  rewrite lookup_insert_ne by done. apply map_lookup_filter_Some. split; [done|].
  unfold Q. cbn. rewrite bool_decide_eq_false_2 by done. exact HP.
Qed.

(** What a prepare writes on the record. *)
Definition prepared (u env ent : string) (dest : option string) (mode key : string) (s : dict)
    : Prop :=
  owned_by u s = true /\ holds_slot s = true /\
  py_get s "idempotency_key" = VStr key /\ py_get s "entitlement_id" = VStr ent /\
  configured_request s = prepare_request env dest mode /\
  value_in (py_get s "status") ["FINISHED"; "FAILED"] = false.

Lemma prepared_update u env ent dest mode key t (s : dict) :
  owned_by u s = true -> value_in (py_get s "status") ["FINISHED"; "FAILED"] = false ->
  prepared u env ent dest mode key (py_update s (list_to_map
    [("environment", VStr env); ("destination_id", opt_str dest); ("egress_mode", VStr mode);
     ("prepare_request", VDict (prepare_request env dest mode)); ("idempotency_key", VStr key);
     ("entitlement_id", VStr ent); ("entitlement_reserved", VBool true);
     ("updated_at", VFloat t)])).
Proof.
  intros Hu Hs. rewrite !py_update_cons, py_update_nil.
  unfold prepared, owned_by, holds_slot, configured_request, py_get in *.
  repeat (split; [dict_lookup; try done|]); dict_lookup; done.
Qed.

Lemma begin_prepare_new sid u env ent limit dest mode key w s w' :
  begin_prepare sid u env ent limit dest mode key w = (Ok (s, false), w') ->
  exists a, view w = Some a /\ view w' = Some (put_view a sid s) /\
    occupied_slots sid u (sessions a) < limit /\ prepared u env ent dest mode key s /\
    (forall s0, sessions a !! sid = Some s0 -> is_null (py_get s0 "idempotency_key") = true).
Proof.
  unfold begin_prepare. intros H. apply bind_ok in H as (? & ? & Hg & H).
  apply guard_err_ok in Hg as [_ ->]. apply locked_ok in H as (w1 & Hv & Hv1 & _ & _ & _ & H).
  inv_store; split_bools;
    (eexists; split; [done|split; [done|split; [lia|split; [|]]]]).
  - by apply prepared_update.
  - intros. simplify_eq. done.
  - match goal with H : new_session _ _ _ _ _ = _ |- _ => apply new_session_ok in H as (Hst & Hu & _) end.
    apply (prepared_update u env ent dest mode key _ (<["session_id" := VStr sid]> _));
      unfold owned_by, py_get in *; rewrite lookup_insert_ne by done;
      [rewrite Hu; apply String.eqb_refl|by rewrite Hst].
  - intros. simplify_eq.
Qed.

(** C27: A prepare request never exceeds the entitlement: when it claims a slot for
    a Session, the user holds at most [limit] slots in the committed state,
    counting every Session reserved or in a running or cleaning-up state, and the
    committed record carries the request it will be replayed against. *)
Theorem begin_prepare_respects_capacity sid u env ent limit dest mode key w s w' :
  begin_prepare sid u env ent limit dest mode key w = (Ok (s, false), w') ->
  exists a', view w' = Some a' /\ sessions a' !! sid = Some s /\
    prepared u env ent dest mode key s /\ slots_used u a' <= limit.
Proof.
  intros (a & _ & Hv & Ho & Hp & _)%begin_prepare_new. exists (put_view a sid s).
  split; [done|]. split; [apply lookup_insert_eq|]. split; [done|].
  pose proof (slots_used_put u sid s a). lia.
Qed.

Lemma begin_prepare_respects_capacity_witness :
  exists s w' a',
    begin_prepare "s2" "u1" "prod" "ent-1" 2 None "DIRECT_PUSH" "key-2" demo_live
      = (Ok (s, false), w') /\
    view w' = Some a' /\ slots_used "u1" a' <= 2.
Proof.
  destruct (ran (fun r => negb r.2)
    (begin_prepare "s2" "u1" "prod" "ent-1" 2 None "DIRECT_PUSH" "key-2") demo_live)
    as ([s []] & w' & E & Ht); [vm_compute; reflexivity|discriminate Ht|].
  destruct (begin_prepare_respects_capacity _ _ _ _ _ _ _ _ _ _ _ E)
    as (a' & Hv & _ & _ & Hle). exists s, w', a'. exact (conj E (conj Hv Hle)).
Defined.

(** ** Idempotence *)

(** The record answers to the request and its key. *)
Definition replayable (u env : string) (dest : option string) (mode key : string) (s : dict)
    : Prop :=
  owned_by u s = true /\ py_get s "idempotency_key" = VStr key /\
  py_eq (VDict (configured_request s)) (VDict (prepare_request env dest mode)) = true /\
  value_in (py_get s "status") ["FINISHED"; "FAILED"] = false.

Lemma request_refl env dest mode :
  py_eq (VDict (prepare_request env dest mode)) (VDict (prepare_request env dest mode)) = true.
Proof.
  apply py_eq_refl. destruct dest; vm_compute; reflexivity.
Qed.

Lemma begin_prepare_accepted sid u env ent limit dest mode key w s b w' :
  begin_prepare sid u env ent limit dest mode key w = (Ok (s, b), w') ->
  (limit <? 1) = false /\
  exists a, view w' = Some a /\ sessions a !! sid = Some s /\ replayable u env dest mode key s.
Proof.
  intros H. assert (Hlim : (limit <? 1) = false).
  { unfold begin_prepare in H. apply bind_ok in H as (? & ? & Hg & _).
    by apply guard_err_ok in Hg as [? _]. }
  split; [done|]. destruct b.
  - unfold begin_prepare in H. apply bind_ok in H as (? & ? & Hg & H).
    apply guard_err_ok in Hg as [_ ->]. apply locked_ok in H as (w1 & Hv & Hv1 & _ & _ & _ & H).
    inv_run; use_reads; simplify_eq; split_bools; use_commit.
    exists (mem w1). split; [congruence|]. split; [congruence|].
    repeat split; try done. by apply py_eq_str.
  - apply begin_prepare_new in H as (a & _ & Hv & _ & (Hu & _ & Hk & _ & Hc & Hs) & _).
    eexists. split; [done|]. split; [apply lookup_insert_eq|].
    unfold replayable. rewrite Hc. auto using request_refl.
Qed.

(** A prepare request is idempotent under its key. Once it has been accepted,
    repeating it, from any later moment at which the durable state is the same,
    answers with the same record and changes nothing; so does the replay query;
    and the same Session refuses any other key. *)
Theorem begin_prepare_replays sid u env ent limit dest mode key w s b w1 w2 :
  begin_prepare sid u env ent limit dest mode key w = (Ok (s, b), w1) ->
  view w2 = view w1 -> no_faults w2 ->
  (forall a, view w1 = Some a -> leases a !! sid = None) ->
  (begin_prepare sid u env ent limit dest mode key w2).1 = Ok (s, true) /\
  view (begin_prepare sid u env ent limit dest mode key w2).2 = view w2 /\
  (get_prepare_replay sid u env dest mode key w2).1 = Ok (Some s) /\
  forall key', key' <> key ->
    (begin_prepare sid u env ent limit dest mode key' w2).1 = Err InvalidTransition.
Proof.
  intros (Hlim & a & Hv1 & Hs & Hu & Hk & Hc & Hst)%begin_prepare_accepted Hv Hnf Hl.
  rewrite Hv1 in Hv. specialize (Hl a Hv1).
  assert (Hk' : forall k, exists w3,
    begin_prepare sid u env ent limit dest mode k w2 =
      (if bool_decide (k = key) then Ok (s, true) else Err InvalidTransition, w3) /\
    view w3 = view w2).
  { intros k. unfold begin_prepare. rewrite guard_false by done. cbv zeta.
    apply (locked_eval (fun w3 => view w3 = view w2) _ _ a); [done|done|by case_bool_decide|].
    intros w3 Hm Hv3 _ _. exists w3. split; [|done].
    rewrite (bind_run _ _ _ _ _ (reject_free sid w3 ltac:(by rewrite Hm))).
    rewrite (bind_run get_mem _ _ _ _ eq_refl), Hm, Hs.
    rewrite guard_false by (by rewrite Hu). rewrite guard_false by done.
    rewrite Hk. cbn [is_null negb]. rewrite guard_false by (by rewrite Hc).
    unfold py_eq at 1. case_bool_decide as Hkk.
    - subst. by rewrite String.eqb_refl.
    - by rewrite (proj2 (String.eqb_neq _ _)) by done. }
  destruct (Hk' key) as (w3 & Hr & Hv3). rewrite Hr. rewrite bool_decide_eq_true_2 by done.
  split; [done|]. split; [done|]. split.
  - cut (exists w4, get_prepare_replay sid u env dest mode key w2 = (Ok (Some s), w4) /\ True).
    { by intros (w4 & -> & _). }
    unfold get_prepare_replay. cbv zeta. apply (locked_eval _ _ _ a); [done..|].
    intros w4 Hm _ _ _. exists w4. split; [|done].
    rewrite (bind_run _ _ _ _ _ (find_run sid w4)), Hm, Hs.
    rewrite guard_false by (by rewrite Hu). rewrite Hk. unfold py_eq at 1.
    rewrite String.eqb_refl. cbn [negb]. by rewrite guard_false by (by rewrite Hc).
  - intros k Hne. destruct (Hk' k) as (w4 & -> & _). by rewrite bool_decide_eq_false_2.
Qed.

Lemma begin_prepare_replays_witness :
  exists s w1,
    begin_prepare "s1" "u1" "prod" "ent-1" 1 None "DIRECT_PUSH" "key-1" demo_world
      = (Ok (s, false), w1) /\
    (begin_prepare "s1" "u1" "prod" "ent-1" 1 None "DIRECT_PUSH" "key-1" w1).1 = Ok (s, true) /\
    (begin_prepare "s1" "u1" "prod" "ent-1" 1 None "DIRECT_PUSH" "other" w1).1
      = Err InvalidTransition.
Proof.
  destruct (ran (fun r => negb r.2)
    (begin_prepare "s1" "u1" "prod" "ent-1" 1 None "DIRECT_PUSH" "key-1") demo_world)
    as ([s []] & w1 & E & Ht); [vm_compute; reflexivity|discriminate Ht|].
  assert (Hnf : no_faults w1) by
    (intros n; replace w1 with (snd (Ok (s, false), w1)) by reflexivity;
     rewrite <- E; vm_compute; reflexivity).
  assert (Hl : forall a, view w1 = Some a -> leases a !! "s1" = None).
  { replace w1 with (snd (Ok (s, false), w1)) by reflexivity. rewrite <- E.
    intros a Ha. assert (Hb : match view (begin_prepare "s1" "u1" "prod" "ent-1" 1 None
      "DIRECT_PUSH" "key-1" demo_world).2 with Some a => bool_decide (leases a !! "s1" = None)
      | None => false end = true) by (vm_compute; reflexivity).
    rewrite Ha in Hb. by apply bool_decide_eq_true in Hb. }
  destruct (begin_prepare_replays _ _ _ _ _ _ _ _ _ _ _ w1 w1 E eq_refl Hnf Hl)
    as (H1 & _ & _ & H2).
  exists s, w1. refine (conj E (conj H1 (H2 "other" _))). discriminate.
Defined.
