(* ===== verification/SessionLeases.v ===== *)
(** * The Session store: the provisioning lease and the cleanup leases *)

From S2P Require Import Prelude PyFloat PyValue Json Effects Authority Steps SessionState.
From S2P Require Import SessionSpec SessionStore SessionFacts SessionLifecycle SessionTheorems.

(** ** Provisioning *)
Lemma claim_provisioning_ok sid op t w s w' :
  claim_provisioning sid op t w = (Ok s, w') ->
  exists a s0, view w = Some a /\ sessions a !! sid = Some s0 /\
    view w' = Some (put_view a sid s) /\
    (truthy (py_get s0 "provisioning_operation_id") = true ->
     py_get s0 "provisioning_operation_id" = VStr op) /\
    py_get s "provisioning_operation_id" = VStr op /\ status_of s = "PROVISIONING" /\
    in_set (status_of s0) ["STOPPED"; "PROVISIONING"; "BOOTSTRAPPING"] = true.
Proof.
  unfold claim_provisioning. intros H. apply bind_ok in H as (st & w0 & Ht & H).
  apply lift_ok in Ht as [_ ->]. apply locked_ok in H as (w1 & Hv & Hv1 & _ & _ & _ & H).
  inv_store. split_bools.
  eexists _, _. split; [done|]. split; [eassumption|]. split; [eassumption|].
  rewrite !py_update_insert, py_update_empty. split.
  - intros Htr. match goal with H : _ && _ = false |- _ => rewrite Htr in H; cbn [andb] in H end.
    split_bools. match goal with H : py_eq (py_get ?s ?k) (VStr _) = true |- _ =>
      unfold py_eq in H; destruct (py_get s k); try done; by apply String.eqb_eq in H as -> end.
  - unfold status_of, py_get. split; [by dict_lookup|]. split; [by dict_lookup|done].
Qed.

(** The lease shields the record from every other operation id. *)
Lemma lease_refuses a sid s op op2 :
  sessions a !! sid = Some s -> py_get s "provisioning_operation_id" = VStr op ->
  op <> "" -> op2 <> op -> forall w, view w = Some a ->
  (forall t r w', claim_provisioning sid op2 t w <> (Ok r, w')) /\
  (forall next complete changes r w',
     provisioning_checkpoint sid op2 next complete changes w <> (Ok r, w')).
Proof.
  intros Hs Hop Hne Hne2 w Hv. split.
  - intros t r w' (a1 & s0 & Hv1 & Hs0 & _ & Htr & _)%claim_provisioning_ok.
    assert (Htrue : truthy (VStr op) = true) by (by destruct op).
    simplify_eq. rewrite Hop in Htr. by specialize (Htr Htrue) as [= ->].
  - intros next complete changes r w' H. unfold provisioning_checkpoint in H.
    apply bind_ok in H as (? & ? & Hl & H). apply lift_ok in Hl as [_ ->].
    apply locked_ok in H as (w1 & Hv1 & _ & _ & _ & _ & H).
    apply bind_ok in H as (s1 & ? & Hr & H). apply require_ok in Hr as [Hr ->].
    apply bind_ok in H as (? & ? & Hg & _). apply guard_err_ok in Hg as [Hg _].
    rewrite Hv in Hv1. simplify_eq. rewrite Hop in Hg.
    unfold py_eq in Hg. split_bools. apply String.eqb_eq in Hg. congruence.
Qed.

(** A provisioning lease is exclusive. After an operation has claimed a
    Session, no other operation id can claim it or checkpoint on it from the same
    durable state, whatever the clock, the I/O failures and the arguments; and
    without I/O failures a claim under another id is refused as such. *)
Theorem provisioning_lease_is_exclusive sid op op2 t w s w1 w2 :
  claim_provisioning sid op t w = (Ok s, w1) -> op <> "" -> op2 <> op ->
  view w2 = view w1 ->
  (forall t2 r w', claim_provisioning sid op2 t2 w2 <> (Ok r, w')) /\
  (forall next complete changes r w',
     provisioning_checkpoint sid op2 next complete changes w2 <> (Ok r, w')) /\
  (forall t2 a, nonneg_number t2 <> None -> view w2 = Some a -> leases a !! sid = None ->
     no_faults w2 -> (claim_provisioning sid op2 t2 w2).1 = Err ProvisioningInProgress).
Proof.
  intros (a & s0 & Hv & Hs0 & Hv1 & _ & Hop & Hst & _)%claim_provisioning_ok Hne Hne2 Hv2.
  rewrite Hv1 in Hv2.
  assert (Hs : sessions (put_view a sid s) !! sid = Some s) by apply lookup_insert_eq.
  destruct (lease_refuses _ sid s op op2 Hs Hop Hne Hne2 w2 Hv2) as [H1 H2].
  split; [done|]. split; [done|]. intros t2 a2 Ht Hva Hl Hnf. rewrite Hv2 in Hva. simplify_eq.
  cut (exists w4, claim_provisioning sid op2 t2 w2 = (Err ProvisioningInProgress, w4) /\ True).
  { by intros (w4 & -> & _). }
  unfold claim_provisioning, _validated_timestamp. destruct (nonneg_number t2) as [f|]; [|done].
  unfold lift. rewrite (bind_run _ _ _ f w2 eq_refl).
  apply (locked_eval _ _ _ _ _ Hnf Hv2); [done|]. intros w3 Hm _ _ _. exists w3. split; [|done].
  rewrite (bind_run _ _ _ _ _ (reject_free sid w3 ltac:(by rewrite Hm))).
  rewrite (bind_run _ _ _ _ _ (require_run sid w3 s ltac:(by rewrite Hm))). cbv zeta.
  rewrite Hst. rewrite guard_false by done. rewrite Hop. apply guard_true.
  unfold truthy, py_eq. rewrite (proj2 (String.eqb_neq op op2)) by congruence. by destruct op.
Qed.

Lemma provisioning_lease_is_exclusive_witness :
  exists s w1, claim_provisioning "s1" "op-1" (VInt 5) demo_prepared = (Ok s, w1) /\
    (claim_provisioning "s1" "op-2" (VInt 6) w1).1 = Err ProvisioningInProgress.
Proof.
  destruct (ran (fun _ => true) (claim_provisioning "s1" "op-1" (VInt 5)) demo_prepared)
    as (s & w1 & E & _); [vm_compute; reflexivity|].
  exists s, w1. split; [exact E|].
  assert (H : w1 = (claim_provisioning "s1" "op-1" (VInt 5) demo_prepared).2) by (by rewrite E).
  destruct (provisioning_lease_is_exclusive "s1" "op-1" "op-2" (VInt 5) demo_prepared s w1 w1)
    as (_ & _ & Hx); [exact E|discriminate|discriminate|reflexivity|].
  apply (Hx (VInt 6) (state_of w1)).
  - vm_compute. discriminate.
  - rewrite H. by_eval.
  - rewrite H. by_eval.
  - intros n. rewrite H. vm_compute. reflexivity.
Defined.

(** ** Cancellation *)
Lemma request_stop_cancels sid w s w' :
  request_stop sid w = (Ok s, w') -> status_of s <> "STOPPED" ->
  exists a, view w' = Some a /\ sessions a !! sid = Some s /\ in_set (status_of s) CANCELLED_STATES = true.
Proof.
  unfold request_stop. intros (w1 & Hv & Hv1 & _ & _ & _ & H)%locked_ok Hn.
  apply bind_ok in H as (s0 & w2 & [Hs ->]%require_ok & H). cbv zeta in H.
  destruct (in_set (status_of s0) TERMINAL_STATES) eqn:Ht.
  - apply ret_ok in H as [-> ->]. exists (mem w1). split; [congruence|]. split; [done|].
    unfold in_set in *. apply bool_decide_eq_true in Ht. apply bool_decide_eq_true.
    revert Ht. unfold TERMINAL_STATES, CANCELLED_STATES. rewrite !elem_of_cons. tauto.
  - inv_store. eexists. split; [eassumption|]. split; [apply lookup_insert_eq|].
    unfold stopping_record, _clear_recovery_candidate, status_of, py_get.
    rewrite !py_update_cons, py_update_nil. by dict_lookup.
Qed.

(** No edge of the lifecycle leads out of the cancelled states. *)
Lemma cancelled_advances s s' :
  rtc Advances s s' -> in_set (status_of s) CANCELLED_STATES = true ->
  in_set (status_of s') CANCELLED_STATES = true.
Proof.
  induction 1 as [|s s1 s' [_ _ He _ _] _ IH]; [done|]. intros Hs. apply IH. clear IH.
  revert He. generalize (status_of s1). intros st He.
  unfold in_set in *. apply bool_decide_eq_true in Hs. unfold CANCELLED_STATES in Hs.
  rewrite !elem_of_cons in Hs. destruct He as [->|[He|[He _]]].
  - apply bool_decide_eq_true. unfold CANCELLED_STATES. by rewrite !elem_of_cons.
  - destruct_or?; try (by apply elem_of_nil in Hs); rewrite Hs in He; cbn in He;
      rewrite ?elem_of_cons in He; destruct_or?; try (by apply elem_of_nil in He); by subst.
  - rewrite He in Hs. destruct_or?; try done. by apply elem_of_nil in Hs.
Qed.

(** A checkpoint on a cancelled record. *)
Lemma checkpoint_cancelled sid op next complete changes w a s s2 w2 :
  view w = Some a -> sessions a !! sid = Some s -> in_set (status_of s) CANCELLED_STATES = true ->
  untracked changes -> changes !! "provisioning_operation_id" = None ->
  provisioning_checkpoint sid op next complete changes w = (Ok s2, w2) ->
  status_of s2 = status_of s /\ py_get s2 "provisioning_operation_id" = VStr op /\
  view w2 = Some (put_view a sid s2).
Proof.
  intros Hv Hs Hst Hu Hco H. unfold provisioning_checkpoint in H.
  apply bind_ok in H as (? & ? & Hl & H). apply lift_ok in Hl as [_ ->].
  apply locked_ok in H as (w4 & Hv4 & _ & _ & _ & _ & H). rewrite Hv in Hv4.
  apply bind_ok in H as (s1 & ? & Hr & H). apply require_ok in Hr as [Hr ->]. simplify_eq.
  apply bind_ok in H as (? & ? & Hg & H). apply guard_err_ok in Hg as [Hg ->].
  apply negb_false_iff, py_eq_str in Hg.
  apply bind_ok in H as (t & w5 & Hn & H). use_reads. cbv zeta in H.
  rewrite (status_update _ _ Hu), Hst, orb_true_r in H.
  apply bind_ok in H as (s3 & w6 & H3 & H).
  assert (s3 = py_update s changes /\ w6 = w5) as [-> ->].
  { destruct next; by apply ret_ok in H3 as [-> ->]. }
  rewrite andb_false_r in H. apply commit_session_ok in H as (-> & Hv3 & _).
  rewrite status_insert_ne, status_update by done. split; [done|]. split; [|rewrite Hv3; congruence].
  unfold py_get in *. rewrite lookup_insert_ne by done. unfold py_update.
  by rewrite lookup_union, Hco, (left_id_L _ _).
Qed.

(** C12: A cancelled provisioning never advances. After a stop request of a Session that
    had left its initial state STOPPED has returned, and after any history of operations of the store, whatever the
    clock, the I/O failures and the results of the operations: the Session is still
    in a cancelled state (STOPPING, FAILED_CLEANUP, FINISHED or FAILED), no operation
    id can claim its provisioning again, and a checkpoint of a provisioning that is
    still running neither moves the status, whatever state it asks for, nor gives the
    operation's lease up, even when it reports completion. The changes of the
    checkpoint leave the watched fields and the operation id to the store
    ([well_used]). *)
Theorem cancelled_provisioning_never_advances sid ops w s w1 a :
  request_stop sid w = (Ok s, w1) -> status_of s <> "STOPPED" ->
  Forall well_used ops -> view (run_ops ops w1) = Some a ->
  exists s1, sessions a !! sid = Some s1 /\ in_set (status_of s1) CANCELLED_STATES = true /\
    (forall op t r w2, claim_provisioning sid op t (run_ops ops w1) <> (Ok r, w2)) /\
    (forall op next complete changes s2 w2,
       untracked changes -> changes !! "provisioning_operation_id" = None ->
       provisioning_checkpoint sid op next complete changes (run_ops ops w1) = (Ok s2, w2) ->
       status_of s2 = status_of s1 /\ py_get s2 "provisioning_operation_id" = VStr op /\
       view w2 = Some (put_view a sid s2)).
Proof.
  intros Hstop Hn Hw Hv. destruct (request_stop_cancels _ _ _ _ Hstop Hn) as (a1 & Hv1 & Hs & Hc).
  destruct (run_ops_record ops w1 sid a1 a s Hw Hv1 Hv Hs) as (s1 & Hs1 & Hr).
  pose proof (cancelled_advances _ _ Hr Hc) as Hst. exists s1. split; [done|]. split; [done|]. split.
  - intros op t r w2 (a2 & s2 & Hv2 & Hs2 & _ & _ & _ & _ & Hst2)%claim_provisioning_ok. simplify_eq.
    unfold in_set in *. apply bool_decide_eq_true in Hst, Hst2. revert Hst Hst2.
    unfold CANCELLED_STATES. rewrite !elem_of_cons, !elem_of_nil. intros. destruct_or?; congruence.
  - intros op next complete changes s2 w2 Hu Hco H. by eapply checkpoint_cancelled.
Qed.

(** In the witness the stop request comes while the provisioning runs, then an event
    and a late heartbeat, then the checkpoint that would complete it. *)
Definition demo_meanwhile : list session_op :=
  [OpAppendEvent "s1" "late" None None "cli" None; OpHeartbeat "s1" "node-1" "boot-1" (VInt 1010) true].

Lemma cancelled_provisioning_never_advances_witness :
  exists s2 w2 s1,
    provisioning_checkpoint "s1" "op-1" (Some "BOOTSTRAPPING") true ∅
      (run_ops demo_meanwhile (request_stop "s1" demo_provisioning).2) = (Ok s2, w2) /\
    status_of s2 = status_of s1 /\ py_get s2 "provisioning_operation_id" = VStr "op-1".
Proof.
  destruct (ran (fun s => bool_decide (status_of s = "STOPPING")) (request_stop "s1") demo_provisioning) as (s & w1 & E & Hs);
    [vm_compute; reflexivity|]. apply bool_decide_eq_true in Hs.
  assert (H1 : (request_stop "s1" demo_provisioning).2 = w1) by (by rewrite E).
  rewrite H1. destruct (ran (fun _ => true) (provisioning_checkpoint "s1" "op-1" (Some "BOOTSTRAPPING") true ∅)
    (run_ops demo_meanwhile w1)) as (s2 & w3 & E2 & _); [rewrite <- H1; vm_compute; reflexivity|].
  destruct (cancelled_provisioning_never_advances "s1" demo_meanwhile demo_provisioning s w1
    (state_of (run_ops demo_meanwhile w1))) as (s1 & _ & _ & _ & H).
  - exact E.
  - by rewrite Hs.
  - by_eval.
  - rewrite <- H1. by_eval.
  - exists s2, w3, s1. split; [exact E2|].
    destruct (H "op-1" (Some "BOOTSTRAPPING") true ∅ s2 w3) as (Ha & Hb & _);
      [by_eval|reflexivity|exact E2|]. exact (conj Ha Hb).
Defined.

(** ** Cleanup leases *)

(** The lease held on [sid] and when it expires. *)
Definition lease_at (a : session_mem) (sid : string) (l : dict) (expires : float) : Prop :=
  leases a !! sid = Some l /\ nonneg_number (py_get l "expires_at") = Some expires.

(** Every reading of the clock from [w] on precedes [expires]. *)
Definition before_expiry (w : world session_mem) (expires : float) : Prop :=
  forall n, fle expires (clock (environment w) n) = false.

Lemma active_lease_held sid l expires (w : world session_mem) o w' :
  lease_at (mem w) sid l expires -> before_expiry w expires ->
  _active_cleanup_lease_locked sid w = (Ok o, w') -> o = Some l.
Proof.
  intros [Hl He] Hb H. unfold _active_cleanup_lease_locked, _validated_timestamp in H.
  apply bind_ok in H as (m & w0 & Hm & H). injection Hm as <- <-. rewrite Hl in H.
  apply bind_ok in H as (t & w1 & Hn & H). apply validated_now_ok in Hn as (_ & _ & -> & _).
  rewrite He in H. cbn [lift] in H. apply bind_ok in H as (x & w2 & Hx & H).
  injection Hx as <- <-. rewrite Hb in H. by apply ret_ok in H as [-> _].
Qed.

Lemma reject_held sid l expires (w : world session_mem) r w' :
  lease_at (mem w) sid l expires -> before_expiry w expires ->
  _reject_active_cleanup_lease_locked sid w <> (Ok r, w').
Proof.
  intros Hl Hb H. unfold _reject_active_cleanup_lease_locked in H.
  apply bind_ok in H as (o & w1 & Ho & H).
  by rewrite (active_lease_held _ _ _ _ _ _ Hl Hb Ho) in H.
Qed.

Lemma before_expiry_same w w' e : same_oracles w w' -> before_expiry w e -> before_expiry w' e.
Proof. intros (Hc & _) H n. by rewrite Hc. Qed.

Section held.
Context (sid : string) (w : world session_mem) (a : session_mem) (l : dict) (expires : float).
Hypotheses (Hv : view w = Some a) (Hl : lease_at a sid l expires)
  (Hb : before_expiry w expires).

Lemma locked_reject_held {B} (k : unit -> SM B) r w' :
  locked (_reject_active_cleanup_lease_locked sid ≫= k) w <> (Ok r, w').
Proof using All.
  intros (w1 & Hv1 & _ & _ & _ & Ho & H)%locked_ok. rewrite Hv in Hv1. simplify_eq.
  apply bind_ok in H as (u & w2 & Hr & _). revert Hr.
  eapply reject_held; [exact Hl|by eapply before_expiry_same].
Qed.

Lemma claim_provisioning_held op t r w' : claim_provisioning sid op t w <> (Ok r, w').
Proof using All.
  intros H. apply bind_ok in H as (t' & w1 & Ht & H). apply lift_ok in Ht as [_ ->].
  by eapply locked_reject_held.
Qed.

Lemma begin_prepare_held u e n c d m k r w' : begin_prepare sid u e n c d m k w <> (Ok r, w').
Proof using All.
  intros H. apply bind_ok in H as (t' & w1 & Ht & H). apply guard_err_ok in Ht as [_ ->].
  by eapply locked_reject_held.
Qed.

Lemma reserve_held u e n c r w' : reserve_prepare_slot sid u e n c w <> (Ok r, w').
Proof using All.
  intros H. apply bind_ok in H as (t' & w1 & Ht & H). apply guard_err_ok in Ht as [_ ->].
  by eapply locked_reject_held.
Qed.

Lemma claim_cleanup_held sts secs r w' :
  claim_session_cleanup sid sts secs w <> (Ok (Some r), w').
Proof using All.
  intros (w1 & Hv1 & _ & _ & _ & Ho & H)%locked_ok. rewrite Hv in Hv1. simplify_eq.
  apply bind_ok in H as (o & w2 & Hf & H). apply find_ok in Hf as [_ ->].
  destruct o as [s|]; [|done]. destruct (negb _); [done|].
  apply bind_ok in H as (o & w3 & Hr & H).
  rewrite (active_lease_held sid l expires w1 o w3 Hl) in H; [done| |done].
  by eapply before_expiry_same.
Qed.

Lemma claim_orphan_held i k secs r w' :
  claim_orphan_cleanup sid i k secs w <> (Ok (Some r), w').
Proof using All.
  intros (w1 & Hv1 & _ & _ & _ & Ho & H)%locked_ok. rewrite Hv in Hv1. simplify_eq.
  apply bind_ok in H as (o & w2 & Hf & H). apply find_ok in Hf as [_ ->].
  match type of H with (if ?b then _ else _) _ = _ => destruct b; [done|] end.
  apply bind_ok in H as (o' & w3 & Hr & H).
  rewrite (active_lease_held sid l expires w1 o' w3 Hl) in H; [done| |done].
  by eapply before_expiry_same.
Qed.
End held.

Definition session_lease (id : string) (allowed : list string) (now expires : float) : dict :=
  list_to_map
    [("lease_id", VStr id); ("scope", VStr "session");
     ("expected_states", VList (VStr <$> py_sorted allowed));
     ("created_at", VFloat now); ("expires_at", VFloat expires)].

Lemma active_ticks sid (w : world session_mem) o w' :
  _active_cleanup_lease_locked sid w = (Ok o, w') ->
  (ticks (environment w) <= ticks (environment w') <= S (ticks (environment w)))%nat.
Proof.
  unfold _active_cleanup_lease_locked. intros H. apply bind_ok in H as (m & w0 & Hm & H).
  injection Hm as <- <-. destruct (leases (mem w) !! sid).
  - apply bind_ok in H as (t & w1 & Hn & H). apply validated_now_ok in Hn.
    apply bind_ok in H as (e & w2 & Hl & H). apply lift_ok in Hl as [_ ->].
    assert (w' = w1) as -> by (case_match; by apply ret_ok in H as [_ ->]).
    destruct_and?. lia.
  - apply ret_ok in H as [_ ->]. lia.
Qed.

Lemma claim_session_cleanup_ok sid sts secs w id w' :
  claim_session_cleanup sid sts secs w = (Ok (Some id), w') ->
  exists a s n, let now := clock (environment w) n in
    let expires := fadd now (fmax fone secs) in
    (ticks (environment w) <= n <= S (ticks (environment w)))%nat /\
    view w = Some a /\ sessions a !! sid = Some s /\
    in_set (status_of s) (cleanup_states sts) = true /\
    nonneg_number (VFloat expires) = Some expires /\
    view w' = Some (SessionMem (sessions a)
      (<[sid := session_lease id (cleanup_states sts) now expires]> (leases a)) true).
Proof.
  unfold claim_session_cleanup. intros (w1 & Hv & Hv1 & _ & _ & Ho & H)%locked_ok.
  apply bind_ok in H as (o & w2 & Hf & H). apply find_ok in Hf as [Hs ->].
  destruct o as [s|]; [|done]. destruct (negb _) eqn:Hst; [done|]. apply negb_false_iff in Hst.
  apply bind_ok in H as (l & w3 & Hl & H). destruct l; [done|].
  use_reads. apply bind_ok in H as (now & w4 & Hn & H). use_reads.
  assert (exists n, (ticks (environment w) <= n <= S (ticks (environment w)))%nat /\
    now = clock (environment w) n) as (n & Hle & ->).
  { apply active_ticks in Hl. apply validated_now_ok in Hn as (_ & _ & -> & _). exists (ticks (environment w3)).
    unfold same_env, same_oracles in *.
    destruct_and?. split; [lia|congruence]. }
  apply bind_ok in H as (e & w5 & He & H). apply lift_ok in He as [He ->].
  apply bind_ok in H as (i & w6 & Hu & H). use_reads.
  inv_run.
  match goal with Hp : persist _ = _ |- _ => apply persist_ok in Hp as (_ & Hv' & _) end.
  assert (Hx0 : mem x0 = SessionMem (sessions (mem w6))
    (<[sid := session_lease i (cleanup_states sts) (clock (environment w) n) e]> (leases (mem w6)))
    (authoritative (mem w6))).
  { unfold put_lease in *. inv_run. done. }
  rewrite Hx0 in Hv'. unfold _validated_derived_timestamp, _validated_timestamp in He.
  destruct (nonneg_number _) as [e'|] eqn:He'; [|done]. injection He as ->.
  assert (e = fadd (clock (environment w) n) (fmax fone secs)) as ->.
  { unfold nonneg_number in He'. cbn [number_as_float] in He'. case_match; by simplify_eq. }
  simplify_eq. eexists _, s, n. split; [exact Hle|]. split; [exact Hv|]. split; [done|]. split; [done|].
  split; [exact He'|]. rewrite Hv'. cbn. congruence.
Qed.

Lemma elem_of_py_sorted x l : x ∈ py_sorted l <-> x ∈ l.
Proof. unfold py_sorted. by rewrite (merge_sort_Permutation _ l). Qed.

Lemma existsb_text st l : existsb (py_eq (VStr st)) (VStr <$> l) = in_set st l.
Proof.
  unfold in_set. induction l as [|x l IH]; [done|]. cbn [fmap list_fmap existsb]. rewrite IH.
  unfold py_eq. destruct (String.eqb_spec st x) as [->|Hne]; cbn [orb].
  - symmetry. apply bool_decide_eq_true, elem_of_cons. by left.
  - apply bool_decide_ext. rewrite elem_of_cons. tauto.
Qed.

Lemma expected_states_member st l : existsb (py_eq (VStr st)) (VStr <$> py_sorted l) = in_set st l.
Proof. rewrite existsb_text. unfold in_set. apply bool_decide_ext, elem_of_py_sorted. Qed.

(** A commit of [release_session_cleanup] means the lease id was the recorded one. *)
Lemma release_stepped sid id :
  Stepped (fun a _ => exists l, leases a !! sid = Some l /\ py_get l "lease_id" = VStr id)
    (release_session_cleanup sid id).
Proof.
  apply stepped_locked. intros w a. apply stepping_get_mem.
  destruct (leases a !! sid) as [l|] eqn:Hl; [|apply stepping_keeps, _].
  destruct (negb _ || _) eqn:Hg; [apply stepping_keeps, _|]. split_bools.
  intros Hw Hv. subst a.
  change ((pop_lease sid ;; persist) w) with
    ((put_mem (SessionMem (sessions (mem w)) (delete sid (leases (mem w)))
         (authoritative (mem w))) ;; persist) w).
  apply (stepping_commit _ (mem w)); [|done|done].
  intros _. exists l. split; [done|]. by apply py_eq_str.
Qed.

Lemma still_owned_holds sid id w b w' a l s :
  session_cleanup_still_owned sid id w = (Ok b, w') ->
  view w = Some a -> sessions a !! sid = Some s ->
  (exists expires, lease_at a sid l expires /\ before_expiry w expires) ->
  b = py_eq (py_get l "lease_id") (VStr id) && py_eq (py_get l "scope") (VStr "session") &&
      existsb (py_eq (VStr (status_of s)))
        (default [] (as_list (py_get_or l "expected_states" (VList [])))).
Proof.
  intros (w1 & Hv1 & _ & _ & _ & Ho & H)%locked_ok Hv Hs (e & Hl & Hb).
  rewrite Hv in Hv1. simplify_eq.
  apply bind_ok in H as (o & w2 & Hf & H). apply find_ok in Hf as [Hf ->].
  apply bind_ok in H as (o' & w3 & Hr & H). apply ret_ok in H as [-> _].
  rewrite Hs in Hf. subst o.
  by rewrite (active_lease_held sid l e w1 o' w3 Hl (before_expiry_same _ _ _ Ho Hb) Hr).
Qed.

(** ** Operations of many processes

    Between two operations on the store another process may run: each operation has
    its own memory, which it reloads, its own clock, identifiers and I/O faults; what
    the operations share is the directory. *)
Record process_step : Type := ProcessStep {
  step_memory : session_mem; step_environment : env; step_op : session_op }.

Definition in_process (m : session_mem) (e : env) (w : world session_mem) : world session_mem :=
  World m (file w) (fuse w) e.

Definition run_step (w : world session_mem) (s : process_step) : world session_mem :=
  (run_op (step_op s) (in_process (step_memory s) (step_environment s) w)).2.

Definition run_steps (steps : list process_step) (w : world session_mem) : world session_mem :=
  fold_left run_step steps w.

(** Every reading of this clock precedes [expires]. *)
Definition reads_before (e : env) (expires : float) : Prop := forall n, fle expires (clock e n) = false.

(** The operations that give the lease [id] of [sid] back. *)
Definition releases (sid id : string) (op : session_op) : Prop :=
  op = OpReleaseCleanup sid id \/ op = OpReleaseOrphan sid id.

(** The lease [l] stays where it is. *)
Definition lease_kept (sid : string) (l : dict) (a a' : session_mem) : Prop :=
  leases a !! sid = Some l -> leases a' !! sid = Some l.

Section kept.
Context (sid : string) (l : dict) (expires : float) (id : string).
Hypotheses (Hexpires : nonneg_number (py_get l "expires_at") = Some expires)
  (Hid : py_get l "lease_id" = VStr id).

Lemma kept_commit a k s w : Stepping (lease_kept sid l) a (commit_session k s) w.
Proof using.
  intros Hw Hv.
  pose (m := put_mem (SessionMem (<[k := s]> (sessions (mem w))) (leases (mem w))
    (authoritative (mem w))) ;; persist).
  change (commit_session k s w) with ((m ≫= fun _ => mret s) w).
  apply (stepping_tail (lease_kept sid l)); [|apply _|done|done].
  apply stepping_commit. intros _ Hl. cbn. by rewrite Hw.
Qed.

Lemma kept_put {B} a k l' (m : SM B) w :
  Resp keeps m -> k <> sid \/ leases a !! sid <> Some l ->
  Stepping (lease_kept sid l) a (put_lease k l' ;; persist ;; m) w.
Proof using.
  intros Hm Hk Hw Hv. subst a.
  change ((put_lease k l' ;; persist ;; m) w) with
    (((put_mem (SessionMem (sessions (mem w)) (<[k := l']> (leases (mem w)))
         (authoritative (mem w))) ;; persist) ;; m) w).
  apply (stepping_tail (lease_kept sid l)); [|by intros _|done|done].
  apply stepping_commit. intros _ Hl. cbn. destruct Hk as [Hk|Hk]; [by rewrite lookup_insert_ne|done].
Qed.

Lemma kept_pop a k w :
  k <> sid \/ leases a !! sid <> Some l -> Stepping (lease_kept sid l) a (pop_lease k ;; persist) w.
Proof using.
  intros Hk Hw Hv. subst a.
  change ((pop_lease k ;; persist) w) with
    ((put_mem (SessionMem (sessions (mem w)) (delete k (leases (mem w)))
         (authoritative (mem w))) ;; persist) w).
  apply (stepping_commit _ (mem w)); [|done|done].
  intros _ Hl. cbn. destruct Hk as [Hk|Hk]; [by rewrite lookup_delete_ne|done].
Qed.

(** A claim meets the lease while the clock reads before its expiry. *)
Lemma active_kept k a (w : world session_mem) o w1 :
  mem w = a -> before_expiry w expires -> _active_cleanup_lease_locked k w = (Ok o, w1) -> o = None ->
  k <> sid \/ leases a !! sid <> Some l.
Proof using Hexpires.
  intros Hw Hb Ho ->. destruct (decide (k = sid)) as [->|]; [right|by left]. intros Hl. subst a.
  discriminate (active_lease_held sid l expires w None w1 (conj Hl Hexpires) Hb Ho).
Qed.

Lemma stepping_active {B} a k (f : option dict -> SM B) w :
  before_expiry w expires ->
  (forall o w1, (o = None -> k <> sid \/ leases a !! sid <> Some l) -> Stepping (lease_kept sid l) a (f o) w1) ->
  Stepping (lease_kept sid l) a (_active_cleanup_lease_locked k ≫= f) w.
Proof using Hexpires.
  intros Hb Hf Hw Hv. revert Hw Hv. apply stepping_bind; [apply _|]. intros o w1 Ho Hw1 Hv1. apply Hf; [|done..].
  assert (Hm : mem w1 = mem w).
  { pose proof (reads_active_lease k w) as [_ Hm]. by rewrite Ho in Hm. }
  eapply (active_kept k a w); [congruence|exact Hb|exact Ho].
Qed.

Lemma claim_cleanup_keeps k sts secs w :
  before_expiry w expires -> stepped (lease_kept sid l) w (claim_session_cleanup k sts secs w).2.
Proof using Hexpires.
  intros Hb. unfold claim_session_cleanup. apply stepped_locked_from. intros w' a Ho.
  apply stepping_find. destruct (sessions a !! k) as [s|]; [|apply stepping_keeps, _].
  destruct (negb _); [apply stepping_keeps, _|].
  apply stepping_active; [by eapply before_expiry_same|]. intros [l'|] w1 Hk; [apply stepping_keeps, _|].
  do 3 (apply stepping_bind; [apply _|intros ? ? ?]). apply kept_put; [apply _|auto].
Qed.

Lemma claim_orphan_keeps k i kind secs w :
  before_expiry w expires -> stepped (lease_kept sid l) w (claim_orphan_cleanup k i kind secs w).2.
Proof using Hexpires.
  intros Hb. unfold claim_orphan_cleanup. apply stepped_locked_from. intros w' a Ho.
  apply stepping_find. match goal with |- context [if ?b then _ else _] => destruct b end; [apply stepping_keeps, _|].
  apply stepping_active; [by eapply before_expiry_same|]. intros [l'|] w1 Hk; [apply stepping_keeps, _|].
  do 3 (apply stepping_bind; [apply _|intros ? ? ?]). apply kept_put; [apply _|auto].
Qed.

Lemma other_lease k id' (a : session_mem) (l' : dict) :
  (k, id') <> (sid, id) -> leases a !! k = Some l' -> py_eq (py_get l' "lease_id") (VStr id') = true ->
  k <> sid \/ leases a !! sid <> Some l.
Proof using All.
  intros Hne Hl' He%py_eq_str. destruct (decide (k = sid)) as [->|]; [right|by left].
  intros Hl. simplify_eq. rewrite Hid in He. congruence.
Qed.

Lemma release_cleanup_keeps k id' : (k, id') <> (sid, id) -> Stepped (lease_kept sid l) (release_session_cleanup k id').
Proof using All.
  intros Hne. apply stepped_locked. intros w a. apply stepping_get_mem.
  destruct (leases a !! k) as [l'|] eqn:Hl; [|apply stepping_keeps, _].
  destruct (negb _ || _) eqn:Hg; [apply stepping_keeps, _|]. split_bools. apply kept_pop. by eapply other_lease.
Qed.

Lemma release_orphan_keeps k id' : (k, id') <> (sid, id) -> Stepped (lease_kept sid l) (release_orphan_cleanup k id').
Proof using All.
  intros Hne. apply stepped_locked. intros w a. apply stepping_get_mem.
  destruct (leases a !! k) as [l'|] eqn:Hl; [|apply stepping_keeps, _].
  destruct (negb _) eqn:Hg; [apply stepping_keeps, _|]. split_bools. apply kept_pop. by eapply other_lease.
Qed.

Lemma stepped_discard {B} Q (m : SM B) w : stepped Q w (m w).2 -> stepped Q w (discard m w).2.
Proof using.
  intros Hm. unfold discard, mbind, M_bind. by destruct (m w) as [[b|e] w1].
Qed.

(** Every other operation commits Sessions only. *)
Ltac follow_kept := repeat first [apply kept_commit | follow_step].
Ltac kept_op :=
  repeat (apply stepped_bind; [solve [solve_resp]|intros ? ? ? ?]); apply stepped_locked; intros ? ?; follow_kept.

Lemma run_op_keeps_lease op w :
  before_expiry w expires -> ~ releases sid id op -> stepped (lease_kept sid l) w (run_op op w).2.
Proof using All.
  intros Hb Hr. destruct op; cbn [run_op]; apply stepped_discard;
    first [by apply claim_cleanup_keeps | by apply claim_orphan_keeps
      |apply release_cleanup_keeps; intros [= -> ->]; apply Hr; by left
      |apply release_orphan_keeps; intros [= -> ->]; apply Hr; by right
      |clear Hr Hb; revert w; match goal with |- forall w, stepped ?Q w (?m w).2 => change (Stepped Q m) end;
       autounfold with session_ops; first [apply stepped_keeps; solve [solve_resp] | kept_op]].
Qed.

(** The lease is on disk. *)
Definition lease_held (w : world session_mem) : Prop := exists a, view w = Some a /\ leases a !! sid = Some l.

Lemma stepped_held w w' : lease_held w -> stepped (lease_kept sid l) w w' -> lease_held w'.
Proof using.
  intros (a & Hv & Hl) Hs. unfold stepped in Hs. rewrite Hv in Hs.
  destruct Hs as [Hv'|[(a' & Hv' & Hk)|(Hm & _ & _)]]; [by exists a|exists a'; eauto|].
  exfalso. unfold view in Hv. rewrite Hm in Hv. destruct (fuse w); [done|]. by simplify_eq.
Qed.

Lemma run_steps_held steps w :
  Forall (fun s => reads_before (step_environment s) expires /\ ~ releases sid id (step_op s)) steps ->
  lease_held w -> lease_held (run_steps steps w).
Proof using All.
  intros Hs. revert w. induction Hs as [|s steps [Hb Hr] _ IH]; intros w Hw; [done|]. apply IH.
  eapply stepped_held; [|exact (run_op_keeps_lease _ (in_process _ _ w) Hb Hr)]. exact Hw.
Qed.
End kept.

(** C28: Cleanup is exclusive until the lease expires. When a worker has claimed the
    cleanup of a Session, then through every history of operations of the store by
    any processes, whatever their memory, I/O failures and results, as long as their
    clocks read earlier than the expiry ([lease_seconds], at least one second, after
    the clock reading of the claim) and nobody gives this lease back: no other worker
    can claim the cleanup, be it as a Session or as an orphan, and no prepare,
    reservation or provisioning claim of the Session gets through; a release with
    another lease id changes nothing; and the holder is confirmed as the owner
    exactly while the Session is in one of the states it claimed it for. *)
Theorem cleanup_lease_is_exclusive sid sts secs w id w1 :
  claim_session_cleanup sid sts secs w = (Ok (Some id), w1) ->
  exists n, (ticks (environment w) <= n <= S (ticks (environment w)))%nat /\
  let expires := fadd (clock (environment w) n) (fmax fone secs) in
  forall steps m e,
    Forall (fun s => reads_before (step_environment s) expires /\ ~ releases sid id (step_op s)) steps ->
    reads_before e expires ->
    let w2 := in_process m e (run_steps steps w1) in
    (forall sts' secs' id' w3, claim_session_cleanup sid sts' secs' w2 <> (Ok (Some id'), w3)) /\
    (forall i k secs' id' w3, claim_orphan_cleanup sid i k secs' w2 <> (Ok (Some id'), w3)) /\
    (forall op t s w3, claim_provisioning sid op t w2 <> (Ok s, w3)) /\
    (forall u e en c d m k s w3, begin_prepare sid u e en c d m k w2 <> (Ok s, w3)) /\
    (forall u e en c s w3, reserve_prepare_slot sid u e en c w2 <> (Ok s, w3)) /\
    (forall id', id' <> id -> view (release_session_cleanup sid id' w2).2 = view w2) /\
    (forall b w3 a s, session_cleanup_still_owned sid id w2 = (Ok b, w3) ->
       view w2 = Some a -> sessions a !! sid = Some s -> b = in_set (status_of s) (cleanup_states sts)).
Proof.
  intros (a0 & s0 & n & Hle & _ & _ & _ & He & Hv1)%claim_session_cleanup_ok. exists n.
  split; [exact Hle|]. intros expires steps m e Hsteps Hb w2.
  set (l := session_lease id _ _ _) in *.
  assert (Hid : py_get l "lease_id" = VStr id) by (unfold py_get, l; by dict_lookup).
  assert (Hex : nonneg_number (py_get l "expires_at") = Some expires).
  { unfold py_get, l, session_lease. dict_lookup. exact He. }
  assert (Hheld : lease_held sid l (run_steps steps w1)).
  { apply (run_steps_held sid l expires id Hex Hid); [exact Hsteps|].
    eexists. split; [exact Hv1|apply lookup_insert_eq]. }
  destruct Hheld as (a & Hv2 & Hla). change (view w2 = Some a) in Hv2.
  assert (Hl : lease_at a sid l expires) by done. change (before_expiry w2 expires) in Hb.
  clearbody w2. clear Hv1 Hsteps.
  split; [intros; by eapply claim_cleanup_held|].
  split; [intros; by eapply claim_orphan_held|].
  split; [intros; by eapply claim_provisioning_held|].
  split; [intros; by eapply begin_prepare_held|].
  split; [intros; by eapply reserve_held|]. split.
  - intros id' Hne. pose proof (release_stepped sid id' w2) as Hstep. unfold stepped in Hstep.
    rewrite Hv2 in Hstep |- *. destruct Hstep as [->|[(a' & _ & l' & Hl' & Hid')|(Hm & _ & _)]]; [done| |].
    + rewrite Hla in Hl'. simplify_eq. rewrite Hid in Hid'. congruence.
    + exfalso. unfold view in Hv2. rewrite Hm in Hv2. destruct (fuse w2); [done|]. by simplify_eq.
  - intros b w3 a' s H Hva Hs. rewrite Hv2 in Hva. injection Hva as <-.
    rewrite (still_owned_holds _ _ _ _ _ _ l s H Hv2 Hs) by eauto.
    rewrite Hid. unfold py_eq at 1. rewrite String.eqb_refl.
    unfold l, session_lease, py_get, py_get_or. dict_lookup. cbn [default from_option Datatypes.id as_list].
    apply expected_states_member.
Qed.

(** In the witness another worker tries in vain to claim the cleanup, an event is
    appended, and the Session is stopped again. *)
Definition demo_steps : list process_step :=
  ProcessStep (SessionMem ∅ ∅ false) (environment (at_time 2050 demo_world)) <$>
    [OpClaimCleanup "s1" [] (of_Z 300); OpAppendEvent "s1" "late" None None "cli" None; OpStop "s1"].

Lemma cleanup_lease_is_exclusive_witness :
  let w := at_time 2000 (run_op (OpStop "s1") demo_live).2 in
  exists id w1, claim_session_cleanup "s1" [] (of_Z 120) w = (Ok (Some id), w1) /\
    let w2 := in_process (mem w1) (environment (at_time 2100 w1)) (run_steps demo_steps w1) in
    (forall sts' secs' id' w3, claim_session_cleanup "s1" sts' secs' w2 <> (Ok (Some id'), w3)) /\
    (forall op t s w3, claim_provisioning "s1" op t w2 <> (Ok s, w3)).
Proof.
  intros w.
  destruct (ran (fun o => match o with Some _ => true | None => false end)
    (claim_session_cleanup "s1" [] (of_Z 120)) w) as ([id|] & w1 & E & Ht);
    [vm_compute; reflexivity| |discriminate Ht].
  exists id, w1. split; [exact E|].
  destruct (cleanup_lease_is_exclusive "s1" [] (of_Z 120) w id w1 E) as (n & _ & H).
  destruct (H demo_steps (mem w1) (environment (at_time 2100 w1))) as (H1 & _ & H3 & _).
  - unfold demo_steps. repeat apply Forall_cons_2; [..|apply Forall_nil_2];
      (split; [intros k; vm_compute; reflexivity|intros [Hx|Hx]; discriminate Hx]).
  - intros k. vm_compute. reflexivity.
  - exact (conj H1 H3).
Defined.
