(* ===== verification/SessionIngest.v ===== *)
(** * The Session store: what an ingest observation does to the status

    The specification is a Mealy machine over a six-valued signal: [signal_of]
    reads an observation, [next_state] is the table. The machine also keeps the
    source that is a candidate to end the hold, and since when: [next_candidate]. The
    theorem says that [apply_ingest_observation] runs this machine at the time of the
    observation. *)

From S2P Require Import Prelude PyFloat PyValue Json Effects Authority Steps SessionState.
From S2P Require Import SessionSpec SessionStore SessionFacts SessionLifecycle SessionTheorems.

(** ** Specification *)
Inductive signal : Type :=
| Healthy | DegradedUsable | DegradedUnusable | Rejected | Offline | NoSignal.

Definition signal_of (online : bool) (status : string) (reasons : list string) : signal :=
  if negb online then Offline
  else if in_set status ["ACCEPTED"; "WARNING"] then Healthy
  else if bool_decide (status = "DEGRADED") then
    if existsb (fun r => in_set r UNUSABLE_MEDIA_REASONS) reasons then DegradedUnusable
    else DegradedUsable
  else if bool_decide (status = "REJECTED") then Rejected
  else NoSignal.

(** [stable]: the recovery candidate has been there for the stable period. *)
Definition next_state (stable : bool) (state : string) (s : signal) : string :=
  if bool_decide (state = "READY_WAIT_INGEST") then
    match s with Healthy => "LIVE" | DegradedUsable => "DEGRADED" | _ => state end
  else if bool_decide (state = "LIVE") then
    match s with
    | DegradedUsable => "DEGRADED"
    | DegradedUnusable | Rejected | Offline => "HOLDING"
    | _ => state
    end
  else if bool_decide (state = "DEGRADED") then
    match s with
    | Healthy => "LIVE"
    | DegradedUnusable | Rejected | Offline => "HOLDING"
    | _ => state
    end
  else if bool_decide (state = "HOLDING") then
    match s with
    | Healthy => if stable then "LIVE" else state
    | DegradedUsable => if stable then "DEGRADED" else state
    | _ => state
    end
  else state.

(** The source that may end a hold and the time since when it is heard. *)
Definition candidate (s : dict) : value * value :=
  (py_get s "recovery_candidate_source_id", py_get s "recovery_candidate_since").
Definition no_candidate : value * value := (VNull, VNull).

(** Since when [source] has been the candidate, if it is and the clock has not gone
    back behind that time. *)
Definition candidate_since (s : dict) (source : value) (now : float) : option float :=
  match number_as_float (candidate s).2 with
  | Some since => if py_eq (candidate s).1 source && negb (flt now since) then Some since else None
  | None => None
  end.

(** [source] has been the candidate for the stable period [rs] at the time [now]. *)
Definition stable_source (rs : float) (s : dict) (source : value) (now : float) : bool :=
  fle rs (match candidate_since s source now with Some since => fsub now since | None => fzero end).

(** A signal that can end a hold keeps its source as the candidate, with the time of
    its first observation in a row; every other observation forgets the candidate. *)
Definition next_candidate (rs : float) (s : dict) (sig : signal) (source : value) (now : float)
    : value * value :=
  match sig with
  | Healthy | DegradedUsable =>
      if bool_decide (status_of s = "HOLDING") && negb (stable_source rs s source now) then
        match candidate_since s source now with
        | Some _ => candidate s
        | None => (source, VFloat now)
        end
      else no_candidate
  | _ => no_candidate
  end.

(** The time of an observation: the one it names, or the reading of the clock. *)
Definition observed_time (at_ : option value) (w : world session_mem) : option float :=
  match at_ with
  | None => Some (clock (environment w) (ticks (environment w)))
  | Some v => nonneg_number v
  end.

(** ** The parts of the handler *)
Lemma find_existsb {A} (f : A -> bool) l :
  existsb f l = match List.find f l with Some _ => true | None => false end.
Proof. induction l as [|x l IH]; simpl; [done|]. by destruct (f x). Qed.

Lemma candidate_clear s : candidate (_clear_recovery_candidate s) = no_candidate.
Proof. unfold candidate, _clear_recovery_candidate, py_get. by dict_lookup. Qed.

Lemma recovery_ready rs s source now ready s1 :
  _recovery_candidate_ready rs s source now = (ready, s1) ->
  ready = stable_source rs s source now /\
  candidate s1 = match candidate_since s source now with Some _ => candidate s | None => (source, VFloat now) end.
Proof.
  unfold _recovery_candidate_ready, stable_source, candidate_since, candidate, py_get. cbn [fst snd].
  destruct (number_as_float _) as [since|]; [|intros [= <- <-]; by dict_lookup].
  destruct (py_eq _ _), (flt now since); cbn [negb orb andb]; intros [= <- <-]; (split; [done|by dict_lookup]).
Qed.

(** The state an observation leads to. *)
Definition target_state (state : string) (tgt : option lifecycle) : string :=
  match tgt with Some (st, _, _) => st | None => state end.

Lemma in_set_false x l : x ∉ l -> in_set x l = false.
Proof. unfold in_set. apply bool_decide_eq_false_2. Qed.

Lemma not_elem_pair {A} (x a b : A) : x <> a -> x <> b -> x ∉ [a; b].
Proof. rewrite !not_elem_of_cons. auto using not_elem_of_nil. Qed.

(** The holding branch. *)
Lemma ingest_target_holding rs s online st reasons src now tgt s1 :
  status_of s = "HOLDING" ->
  ingest_target rs s online st reasons src now = (tgt, s1) ->
  target_state "HOLDING" tgt = next_state (stable_source rs s src now) "HOLDING" (signal_of online st reasons) /\
  (tgt = None -> candidate s1 = next_candidate rs s (signal_of online st reasons) src now) /\
  (tgt <> None -> target_state "HOLDING" tgt <> "HOLDING" /\
     next_candidate rs s (signal_of online st reasons) src now = no_candidate).
Proof.
  intros Hs. unfold ingest_target, signal_of, next_candidate. rewrite !find_existsb, Hs. cbn [negb].
  rewrite bool_decide_eq_true_2 by done. cbn [andb].
  destruct online; cbn [andb negb]; [|intros [= <- <-]; by rewrite candidate_clear].
  destruct (in_set st ["ACCEPTED"; "WARNING"]) eqn:Hst.
  { destruct (_recovery_candidate_ready _ _ _ _) as [ready s2] eqn:Hr. apply recovery_ready in Hr as [<- Hc].
    intros [= <- <-]. by destruct ready. }
  destruct (bool_decide (st = "DEGRADED")) eqn:Hd; cbn [andb].
  - destruct (List.find _ reasons); cbn; [intros [= <- <-]; by rewrite candidate_clear|].
    destruct (_recovery_candidate_ready _ _ _ _) as [ready s2] eqn:Hr. apply recovery_ready in Hr as [<- Hc].
    intros [= <- <-]. by destruct ready.
  - intros [= <- <-]. rewrite candidate_clear. by destruct (bool_decide (st = "REJECTED")).
Qed.

(** The three families of ingest statuses are disjoint. *)
Lemma ingest_status_cases st :
  (in_set st ["ACCEPTED"; "WARNING"] = true /\ bool_decide (st = "DEGRADED") = false /\
   bool_decide (st = "REJECTED") = false) \/
  (in_set st ["ACCEPTED"; "WARNING"] = false /\
   (bool_decide (st = "DEGRADED") = false \/ bool_decide (st = "REJECTED") = false)).
Proof.
  destruct (decide (st = "DEGRADED")) as [->|Hd]; [right; split; [done|by right]|].
  destruct (decide (st = "REJECTED")) as [->|Hr]; [right; split; [done|by left]|].
  rewrite !bool_decide_eq_false_2 by done. destruct (in_set _ _); [by left|right; auto].
Qed.

(** The other branches do not look at the recovery window. *)
Lemma ingest_target_other rs s online st reasons src now tgt s1 :
  status_of s <> "HOLDING" ->
  ingest_target rs s online st reasons src now = (tgt, s1) ->
  target_state (status_of s) tgt =
    next_state false (status_of s) (signal_of online st reasons).
Proof.
  intros Hs. unfold ingest_target, signal_of, next_state. rewrite !find_existsb.
  rewrite !(bool_decide_eq_false_2 (status_of s = "HOLDING")) by done.
  generalize dependent (status_of s). intros state Hs.
  destruct (ingest_status_cases st) as [(-> & -> & ->)|(-> & Hst)];
    destruct (List.find (fun r => in_set r UNUSABLE_MEDIA_REASONS) reasons);
    (destruct (decide (state = "READY_WAIT_INGEST")) as [->|H1];
      [|destruct (decide (state = "LIVE")) as [->|H2];
        [|destruct (decide (state = "DEGRADED")) as [->|H3]]]);
    rewrite ?(in_set_false state) by (rewrite ?not_elem_of_cons; auto using not_elem_of_nil);
    rewrite ?(bool_decide_eq_false_2 (state = _)) by done;
    destruct (bool_decide (st = "DEGRADED")), (bool_decide (st = "REJECTED")), online;
    try (by destruct Hst); intros [= <- _]; done.
Qed.

Lemma append_ingest_events_frame types s payload t s' k :
  append_ingest_events s types payload t = Ok s' -> k <> "events" -> k <> "next_event_seq" ->
  s' !! k = s !! k.
Proof.
  intros H Hk Hk'. revert s H. induction types as [|ty types IH]; intros s H; cbn in H;
    [by simplify_eq|].
  apply result_bind_ok in H as ([s1 ev] & H1 & H). rewrite (IH _ H). cbn [fst].
  apply append_event_ok in H1 as (t' & _ & _ & ->). by rewrite !lookup_insert_ne.
Qed.

Lemma stamp_status s st online t : status_of (stamp_ingest s st online t) = status_of s.
Proof.
  unfold stamp_ingest. destruct (bool_decide _), online; try destruct (is_null _);
    by rewrite ?status_insert_ne.
Qed.

Lemma clear_status s : status_of (_clear_recovery_candidate s) = status_of s.
Proof. unfold _clear_recovery_candidate. by rewrite !status_insert_ne. Qed.

Lemma active_status s :
  value_in (py_get s "status") ACTIVE_STATES = in_set (status_of s) ACTIVE_STATES.
Proof. unfold status_of. by destruct (py_get s "status") as [|[]| | | | |]. Qed.

Lemma ingest_target_status rs s online st reasons src now tgt s1 :
  ingest_target rs s online st reasons src now = (tgt, s1) -> status_of s1 = status_of s.
Proof.
  unfold ingest_target. intros H.
  repeat match goal with
  | H : match ?x with _ => _ end = (_, _) |- _ => destruct x eqn:?
  end; simplify_eq; try done; try apply clear_status;
  by match goal with H : _recovery_candidate_ready _ _ _ _ = _ |- _ =>
    exact (proj1 (recovery_advances _ _ _ _ _ _ s H)) end.
Qed.

(** The observation the handler works on. *)
Definition obs_online (o : dict) : bool := truthy (py_get_or o "online" (VBool false)).
Definition obs_signal (o : dict) : signal :=
  signal_of (obs_online o) (name_text (py_get_or o "status" (VStr "")))
    (py_take 100 <$> payload_reasons (ingest_payload "" o)).
Definition obs_source (o : dict) : value := py_get o "source_id".

Lemma payload_reasons_node n o :
  payload_reasons (ingest_payload n o) = payload_reasons (ingest_payload "" o).
Proof.
  assert (py_get (ingest_payload n o) "reasons" = py_get (ingest_payload "" o) "reasons") as E.
  { unfold ingest_payload, py_get. by dict_lookup. }
  unfold payload_reasons. by rewrite E.
Qed.
Lemma payload_source n o : py_get (ingest_payload n o) "source_id" = obs_source o.
Proof. unfold ingest_payload, py_get. by dict_lookup. Qed.

(** The time the handler works with. *)
Lemma observed_now at_ (w : world session_mem) now w' :
  now_or at_ w = (Ok now, w') -> observed_time at_ w = Some now.
Proof.
  unfold now_or, observed_time. destruct at_ as [v|].
  - intros [H _]%lift_ok. unfold _validated_timestamp in H. destruct (nonneg_number v); by simplify_eq.
  - intros (_ & _ & -> & _)%validated_now_ok. done.
Qed.

Lemma candidate_same s s' :
  s' !! "recovery_candidate_source_id" = s !! "recovery_candidate_source_id" ->
  s' !! "recovery_candidate_since" = s !! "recovery_candidate_since" -> candidate s' = candidate s.
Proof. intros H1 H2. unfold candidate, py_get. by rewrite H1, H2. Qed.

Lemma candidate_insert_ne (s : dict) k v :
  k ∉ ["recovery_candidate_source_id"; "recovery_candidate_since"] -> candidate (<[k := v]> s) = candidate s.
Proof.
  intros Hk. apply candidate_same; apply lookup_insert_ne; intros ->; apply Hk; set_solver.
Qed.

Lemma append_ingest_events_same types s payload t s' :
  append_ingest_events s types payload t = Ok s' -> status_of s' = status_of s /\ candidate s' = candidate s.
Proof.
  intros H. split; [exact (proj1 (append_ingest_events_ok _ _ _ _ _ H))|].
  apply candidate_same; by apply (append_ingest_events_frame _ _ _ _ _ _ H).
Qed.

(** The machine reads the status and the candidate of a record only. *)
Lemma stable_same rs s s' source now :
  candidate s' = candidate s -> stable_source rs s' source now = stable_source rs s source now.
Proof. intros H. unfold stable_source, candidate_since. by rewrite H. Qed.

Lemma next_candidate_same rs s s' sig source now :
  candidate s' = candidate s -> status_of s' = status_of s ->
  next_candidate rs s' sig source now = next_candidate rs s sig source now.
Proof. intros H Hs. unfold next_candidate, stable_source, candidate_since. by rewrite Hs, H. Qed.

Lemma stamp_candidate s st online t : candidate (stamp_ingest s st online t) = candidate s.
Proof.
  unfold stamp_ingest. destruct (bool_decide _), online; try destruct (is_null _);
    by rewrite ?candidate_insert_ne by (by apply (bool_decide_unpack _)).
Qed.

(** The record after the change of state the observation asks for. *)
Lemma target_written session s2 s3 (tgt : option lifecycle) online now payload (w w2 : world session_mem) :
  (match tgt with
   | Some (target_state, lifecycle_event, lifecycle_reason) =>
       if bool_decide (target_state = status_of session) then
         mret (if bool_decide (status_of session = "HOLDING") then s2 else _clear_recovery_candidate s2)
       else
         r ← lift (_append_event_locked
               (stamp_ingest (_clear_recovery_candidate (<["status" := VStr target_state]> s2)) target_state online now)
               lifecycle_event lifecycle_reason
               (<["to_state" := VStr target_state]> (<["from_state" := VStr (status_of session)]> payload))
               "node-agent" (VFloat now));
         mret r.1
   | None => mret (if bool_decide (status_of session = "HOLDING") then s2 else _clear_recovery_candidate s2)
   end : SM dict) w = (Ok s3, w2) -> status_of s2 = status_of session ->
  w2 = w /\ status_of s3 = target_state (status_of session) tgt /\
  candidate s3 =
    if match tgt with Some (st, _, _) => bool_decide (st = status_of session) | None => true end &&
       bool_decide (status_of session = "HOLDING") then candidate s2 else no_candidate.
Proof.
  intros H Hs. destruct tgt as [[[st ev] reason]|]; cbn [target_state].
  - destruct (bool_decide (st = status_of session)) eqn:E; cbn [andb].
    + apply ret_ok in H as [-> ->]. apply bool_decide_eq_true in E as ->.
      by destruct (bool_decide _); rewrite ?clear_status, ?candidate_clear.
    + apply bind_ok in H as ([s4 ev4] & w3 & Ha & H). apply lift_ok in Ha as [Ha ->].
      apply ret_ok in H as [-> ->]. cbn [fst]. rewrite (status_append _ _ _ _ _ _ _ _ Ha).
      apply append_event_ok in Ha as (t & _ & _ & ->).
      rewrite !candidate_insert_ne by (by apply (bool_decide_unpack _)).
      rewrite stamp_status, stamp_candidate, clear_status, candidate_clear.
      unfold status_of at 1, py_get. by rewrite lookup_insert_eq.
  - apply ret_ok in H as [-> ->]. by destruct (bool_decide _); rewrite ?clear_status, ?candidate_clear.
Qed.

(** C29: Status after an ingest observation. On an active Session whose Node it is,
    the handler commits exactly one record, whose status is the next state of the
    signal machine at the time of the observation (the one it names or the reading of
    the clock), and whose recovery candidate is the machine's. In HOLDING a signal
    that can end the hold does so exactly when its source has been the candidate, in
    a row, for the stable period. On any other Session it changes nothing. *)
Theorem ingest_observation_runs_signal_machine rs sid node types o at_ w s' w' :
  apply_ingest_observation rs sid node types o at_ w = (Ok s', w') ->
  exists a s now, view w = Some a /\ sessions a !! sid = Some s /\ observed_time at_ w = Some now /\
    (py_get s "node_id" = VNull \/ py_get s "node_id" = VStr node) /\
    if in_set (status_of s) ACTIVE_STATES then
      view w' = Some (put_view a sid s') /\
      status_of s' = next_state (stable_source rs s (obs_source o) now) (status_of s) (obs_signal o) /\
      candidate s' = next_candidate rs s (obs_signal o) (obs_source o) now
    else s' = s /\ view w' = view w.
Proof.
  unfold apply_ingest_observation. intros H. apply bind_ok in H as (now & w0 & Hnow & H).
  pose proof (reads_run _ _ _ _ Hnow) as (_ & Hv0 & _). apply observed_now in Hnow.
  apply locked_ok in H as (w1 & Hv & Hv1 & _ & _ & _ & H). rewrite Hv0 in Hv, Hv1.
  apply bind_ok in H as (s & w2 & Hs & H). apply require_ok in Hs as [Hs ->].
  apply bind_ok in H as (u & w2 & Hg & H). apply guard_err_ok in Hg as [Hg ->].
  exists (mem w1), s, now. split; [done|]. split; [done|]. split; [done|]. split.
  { apply negb_false_iff, orb_true_iff in Hg as [Hg|Hg%py_eq_str]; [left|by right].
    by destruct (py_get s "node_id"). }
  rewrite active_status in H. destruct (in_set (status_of s) ACTIVE_STATES); cbn [negb] in H;
    [|apply ret_ok in H as [-> ->]; by rewrite Hv1].
  cbv zeta in H. apply bind_ok in H as (s1 & w2 & Hs1 & H). apply lift_ok in Hs1 as [Hs1 ->].
  destruct (append_ingest_events_same _ _ _ _ _ Hs1) as [Hst Hcand].
  rewrite payload_reasons_node, payload_source in H. fold (obs_online o) in H.
  destruct (ingest_target _ _ _ _ _ _ _) as [tgt s2] eqn:Ht.
  apply bind_ok in H as (s3 & w2 & Hs3 & H).
  pose proof (ingest_target_status _ _ _ _ _ _ _ _ _ Ht) as Hs2.
  destruct (target_written s1 s2 s3 tgt (obs_online o) now _ w1 w2 Hs3 Hs2) as (-> & Hs3' & Hc3).
  apply commit_session_ok in H as (-> & Hw' & _). split; [done|].
  rewrite !status_insert_ne by done. rewrite !candidate_insert_ne by (by apply (bool_decide_unpack _)).
  rewrite Hs3', Hc3, <- (stable_same rs s s1), <- (next_candidate_same rs s s1), <- Hst by done. clear Hs3' Hc3 Hs3.
  destruct (decide (status_of s1 = "HOLDING")) as [Hh|Hh].
  - destruct (ingest_target_holding _ _ _ _ _ _ _ _ _ Hh Ht) as (Hns & Hnone & Hsome).
    fold (obs_signal o) in Hns, Hnone, Hsome. rewrite Hh. split; [exact Hns|].
    destruct tgt as [[[st ev] reason]|]; cbn [target_state] in *.
    + destruct Hsome as [Hne ->]; [done|]. by rewrite (bool_decide_eq_false_2 (st = "HOLDING")).
    + by apply Hnone.
  - pose proof (ingest_target_other _ _ _ _ _ _ _ _ _ Hh Ht) as Hns. fold (obs_signal o) in Hns.
    split; [rewrite Hns; unfold next_state; by rewrite !(bool_decide_eq_false_2 (status_of s1 = "HOLDING"))|].
    unfold next_candidate. rewrite !(bool_decide_eq_false_2 (status_of s1 = "HOLDING")) by done.
    rewrite andb_false_r. by destruct (obs_signal o).
Qed.

Definition demo_observation : dict :=
  list_to_map [("status", VStr "ACCEPTED"); ("online", VBool true); ("source_id", VStr "src-1");
               ("reasons", VList [])].

(** In the witness the Session has gone live, has been cut, and is heard again from
    the same source for six seconds. *)
Definition demo_cut : dict := list_to_map [("status", VStr "OFFLINE"); ("online", VBool false); ("reasons", VList [])].
Definition demo_recovering : world session_mem :=
  run_ops [OpIngest (of_Z 5) "s1" "node-1" [] demo_observation (Some (VInt 2000));
           OpIngest (of_Z 5) "s1" "node-1" [] demo_cut (Some (VInt 2001));
           OpIngest (of_Z 5) "s1" "node-1" [] demo_observation (Some (VInt 2002))] demo_live.

Lemma ingest_observation_runs_signal_machine_witness :
  exists s' w' s,
    apply_ingest_observation (of_Z 5) "s1" "node-1" ["ingest.accepted"] demo_observation (Some (VInt 2008))
      demo_recovering = (Ok s', w') /\ status_of s = "HOLDING" /\
    status_of s' = next_state (stable_source (of_Z 5) s (VStr "src-1") (of_Z 2008)) (status_of s) Healthy.
Proof.
  destruct (ran (fun _ => true) (apply_ingest_observation (of_Z 5) "s1" "node-1"
    ["ingest.accepted"] demo_observation (Some (VInt 2008))) demo_recovering) as (s' & w' & E & _);
    [vm_compute; reflexivity|].
  destruct (ingest_observation_runs_signal_machine _ _ _ _ _ _ _ _ _ E)
    as (a & s & now & Hv & Hs & Hn & _ & H).
  exists s', w', s. split; [exact E|].
  assert (Ha : a = state_of demo_recovering) by (unfold state_of; by rewrite Hv).
  assert (Hst : status_of s = "HOLDING").
  { replace s with (record_of demo_recovering "s1") by (unfold record_of; by rewrite <- Ha, Hs).
    vm_compute. reflexivity. }
  split; [exact Hst|]. rewrite Hst in *. destruct H as (_ & H & _).
  assert (Hnow : now = of_Z 2008).
  { assert (Hx : observed_time (Some (VInt 2008)) demo_recovering = Some (of_Z 2008)) by (vm_compute; reflexivity).
    rewrite Hx in Hn. injection Hn as Hn. symmetry. exact Hn. }
  rewrite Hnow in H. exact H.
Defined.

(** After four seconds the hold goes on, after six it is over. *)
Example demo_recovered :
  status_of (record_of (run_op (OpIngest (of_Z 5) "s1" "node-1" [] demo_observation (Some (VInt 2006))) demo_recovering).2 "s1") = "HOLDING" /\
  status_of (record_of (run_op (OpIngest (of_Z 5) "s1" "node-1" [] demo_observation (Some (VInt 2008))) demo_recovering).2 "s1") = "LIVE".
Proof. split; vm_compute; reflexivity. Qed.
