(* ===== verification/SessionControl.v ===== *)
(** * The Session store: heartbeats, media control, compare-and-set, stopping *)

From S2P Require Import Prelude PyFloat PyValue Json Effects Authority Steps SessionState.
From S2P Require Import SessionSpec SessionStore SessionFacts SessionLifecycle SessionTheorems.

(** ** Heartbeats *)

(** The heartbeat a record carries, when it carries one. *)
Definition heartbeat_of (s : dict) : option float :=
  number_as_float (py_get s "node_last_heartbeat_at").

(** Heartbeats never go back. A heartbeat that is accepted comes from the bound
    Node of an active Session, is recorded as it was observed, and is not earlier
    than the one recorded before; it completes bootstrapping exactly when the Node
    reports it is ready. A heartbeat that is refused changes nothing. *)
Theorem heartbeat_is_monotone sid node boot at_ ready w b w' :
  record_node_heartbeat sid node boot at_ ready w = (Ok b, w') ->
  if b then
    exists a s s' t, view w = Some a /\ sessions a !! sid = Some s /\
      view w' = Some (put_view a sid s') /\ nonneg_number at_ = Some t /\
      heartbeat_of s' = Some t /\
      (forall t0, heartbeat_of s = Some t0 -> flt t t0 = false) /\
      py_get s "node_id" = VStr node /\ py_get s "node_boot_id" = VStr boot /\
      status_of s ∈ ACTIVE_STATES /\
      status_of s' = (if ready && bool_decide (status_of s = "BOOTSTRAPPING")
                      then "READY_WAIT_INGEST" else status_of s)
  else view w' = view w.
Proof.
  unfold record_node_heartbeat, _validated_timestamp. intros H.
  apply bind_ok in H as (t & w0 & Ht & H). apply lift_ok in Ht as [Ht ->].
  destruct (nonneg_number at_) as [t'|]; [|done]. injection Ht as ->.
  apply locked_ok in H as (w1 & Hv & Hv1 & _ & _ & _ & H).
  apply bind_ok in H as (o & w2 & Hf & H). apply find_ok in Hf as [Hs ->].
  destruct o as [s|]; [|apply ret_ok in H as [-> ->]; exact Hv1].
  destruct (negb _ || _ || _) eqn:Hg; [apply ret_ok in H as [-> ->]; exact Hv1|].
  destruct (heartbeat_is_newer s t) eqn:Hn; [apply ret_ok in H as [-> ->]; exact Hv1|].
  split_bools. cbv zeta in H. apply bind_ok in H as (s' & w2 & Hc & H).
  apply ret_ok in H as [-> ->]. apply commit_session_ok in Hc as (-> & Hw' & _).
  eexists (mem w1), s, _, t. split; [done|]. split; [done|]. split; [exact Hw'|].
  split; [done|].
  match goal with H : value_in _ _ = true |- _ => apply value_in_str in H as (st & Hst & Hin) end.
  match goal with H : py_eq (py_get s "node_id") _ = true |- _ => apply py_eq_str in H end.
  match goal with H : py_eq (py_get s "node_boot_id") _ = true |- _ => apply py_eq_str in H end.
  assert (Hso : status_of s = st) by (unfold status_of; by rewrite Hst).
  assert (Hb : py_eq (py_get (<["node_last_heartbeat_at" := VFloat t]> s) "status")
    (VStr "BOOTSTRAPPING") = bool_decide (st = "BOOTSTRAPPING")).
  { unfold py_get in *. rewrite lookup_insert_ne, Hst by done. unfold py_eq.
    destruct (String.eqb_spec st "BOOTSTRAPPING").
    - by rewrite bool_decide_eq_true_2.
    - by rewrite bool_decide_eq_false_2. }
  rewrite Hb, Hso. clear Hw'. split.
  { unfold heartbeat_of, py_get. destruct (ready && bool_decide _); by dict_lookup. }
  split.
  { unfold heartbeat_is_newer, heartbeat_of in *. intros t0 Ht0.
    destruct (py_get s "node_last_heartbeat_at"); try done; by rewrite Ht0 in Hn. }
  split; [done|]. split; [done|]. split; [by apply bool_decide_eq_true in Hin|].
  destruct (ready && bool_decide _); rewrite ?status_insert_ne by done; [|done].
  unfold status_of, py_get. by dict_lookup.
Qed.

Lemma heartbeat_is_monotone_witness :
  exists w', record_node_heartbeat "s1" "node-1" "boot-1" (VInt 2000) true demo_live
      = (Ok true, w') /\
    exists a s s', view demo_live = Some a /\ sessions a !! "s1" = Some s /\
      view w' = Some (put_view a "s1" s') /\ heartbeat_of s' = Some (of_Z 2000).
Proof.
  destruct (ran (fun b => b) (record_node_heartbeat "s1" "node-1" "boot-1" (VInt 2000) true)
    demo_live) as (b & w' & E & ->); [vm_compute; reflexivity|].
  exists w'. split; [exact E|].
  destruct (heartbeat_is_monotone _ _ _ _ _ _ _ _ E)
    as (a & s & s' & t & Hv & Hs & Hv' & Ht & Hh & _).
  exists a, s, s'. split; [exact Hv|]. split; [exact Hs|]. split; [exact Hv'|].
  rewrite Hh. vm_compute in Ht. by injection Ht as <-.
Defined.

(** ** The desired audio state *)

(** The audio entry a request finds, and the same entry once recorded. *)
Definition audio_entry (s : dict) (now : float) : dict := (audio_of s now).1.

Definition recorded_audio (s audio : dict) : Prop :=
  exists mc, py_get s "media_control" = VDict mc /\ py_get mc "audio" = VDict audio.

Lemma audio_of_recorded s audio now :
  recorded_audio s audio -> exists mc, audio_of s now = (audio, mc).
Proof. intros (mc & Hm & Ha). exists mc. unfold audio_of. by rewrite Hm, Ha. Qed.

Lemma recorded_version s audio n :
  recorded_audio s audio -> py_get audio "version" = VInt n -> 0 <= n -> audio_version s = n.
Proof.
  intros (mc & Hm & Ha) Hv Hn. unfold audio_version. rewrite Hm, Ha, Hv. cbn.
  by rewrite (proj2 (Z.ltb_ge _ _)).
Qed.

Lemma audio_version_entry s now n :
  nonneg_int (py_get (audio_entry s now) "version") = Some n -> audio_version s = n.
Proof.
  assert (exists a0, py_get (default ∅ (as_dict (_default_media_control now))) "audio" = VDict a0 /\
    nonneg_int (py_get a0 "version") = Some 0) as (a0 & Ha & Hd)
    by (eexists; split; reflexivity).
  unfold audio_entry, audio_of, audio_version. destruct (py_get s "media_control") as [| | | | | |d];
    try (rewrite Ha; cbn [fst]; rewrite Hd; by intros [= <-]).
  destruct (py_get d "audio"); try (rewrite Ha; cbn [default from_option as_dict id fst];
    rewrite Hd; by intros [= <-]).
  cbn [fst]. by intros ->.
Qed.

Definition audio_answer (audio : dict) : dict :=
  audio_response (py_get audio "desired_mode") (py_get audio "actual_mode")
    (py_get audio "version") (py_get audio "command_id").

(** What an accepted request leaves: a replay changes nothing, a new request is the
    next version. *)
Lemma set_audio_ok sid mode ver key op at_ w r w' :
  set_audio_desired sid mode ver key op at_ w = (Ok r, w') ->
  exists a s now, view w = Some a /\ sessions a !! sid = Some s /\
    value_in (py_get s "status") TERMINAL_STATES = false /\
    let audio := audio_entry s now in
    (py_get audio "idempotency_key" = VStr key /\ py_get audio "desired_mode" = VStr mode /\
     r = audio_answer audio /\ view w' = view w) \/
    (audio_version s = ver /\ 0 <= ver /\ exists s' audio',
       view w' = Some (put_view a sid s') /\ recorded_audio s' audio' /\
       py_get s' "status" = py_get s "status" /\
       py_get audio' "version" = VInt (ver + 1) /\ py_get audio' "desired_mode" = VStr mode /\
       py_get audio' "idempotency_key" = VStr key /\ r = audio_answer audio' /\
       Forall (fun k => k ∈ dom audio')
         ["desired_mode"; "actual_mode"; "version"; "command_id"; "idempotency_key"]).
Proof.
  unfold set_audio_desired. intros H.
  do 3 (apply bind_ok in H as (? & ? & Hg & H); apply guard_err_ok in Hg as [_ ->]).
  apply bind_ok in H as (now & w0 & Hnow & H).
  pose proof (reads_run _ _ _ _ Hnow) as (_ & Hv0 & _).
  apply locked_ok in H as (w1 & Hv & Hv1 & _ & _ & _ & H). rewrite Hv0 in Hv, Hv1.
  apply bind_ok in H as (s & w2 & Hs & H). apply require_ok in Hs as [Hs ->].
  apply bind_ok in H as (u & w2 & Hg & H). apply guard_err_ok in Hg as [Hg ->].
  exists (mem w1), s, now. split; [done|]. split; [done|]. split; [done|]. cbv zeta.
  unfold audio_entry. destruct (audio_of s now) as [audio mc] eqn:Hof. cbn [fst].
  do 5 (apply bind_ok in H as (? & ? & Hget & H); apply getitem_ok in Hget as [? ->]).
  cbv zeta in H. unfold audio_answer, py_get at 1 2 3 4 5 6.
  repeat match goal with E : audio !! _ = Some _ |- _ => rewrite E; revert E end. intros.
  destruct (py_eq _ (VStr key)) eqn:Hkey; apply bind_ok in H as (? & ? & Hg2 & H);
    apply guard_err_ok in Hg2 as [Hg2 ->]; apply negb_false_iff in Hg2.
  - left. apply ret_ok in H as [-> ->]. apply py_eq_str in Hkey, Hg2. by subst.
  - right. apply bind_ok in H as (n & w2 & Hn & H). apply lift_ok in Hn as [Hn ->].
    destruct (nonneg_int _) as [k|] eqn:Hk; [|done]. injection Hn as <-.
    pose proof (nonneg_int_spec _ _ Hk) as [-> Hpos]. unfold py_eq in Hg2. cbn in Hg2.
    apply Z.eqb_eq in Hg2 as ->.
    apply bind_ok in H as (c & w2 & Hu & H). pose proof (reads_run _ _ _ _ Hu) as (Hm & _).
    apply bind_ok in H as ([s' ev] & w3 & Ha & H). apply lift_ok in Ha as [Ha ->].
    apply bind_ok in H as (s2 & w3 & Hc & H). apply ret_ok in H as [-> ->].
    apply commit_session_ok in Hc as (-> & Hw' & _). rewrite Hm in Hw'. cbn [fst] in *.
    split. { apply (audio_version_entry s now). unfold audio_entry, py_get.
             rewrite Hof. cbn [fst]. by match goal with E : audio !! "version" = _ |- _ => rewrite E end. }
    split; [done|]. eexists s', _. split; [exact Hw'|].
    apply append_event_ok in Ha as (t & _ & _ & ->). split.
    { eexists. unfold py_get. split; dict_lookup; [reflexivity|].
      cbn [default from_option id]. dict_lookup. reflexivity. }
    unfold py_get. split; [by dict_lookup|]. do 3 (split; [by dict_lookup|]).
    split; [unfold audio_answer, py_get; by dict_lookup|].
    rewrite !dom_insert_L. repeat apply Forall_cons_2; [set_solver..|apply Forall_nil_2].
Qed.

Lemma dom_get (d : dict) k : k ∈ dom d -> d !! k = Some (py_get d k).
Proof. rewrite elem_of_dom. intros [v Hv]. unfold py_get. by rewrite Hv. Qed.

Lemma getitem_run (d : dict) k (w : world session_mem) v :
  d !! k = Some v -> py_getitem d k w = (Ok v, w).
Proof. unfold py_getitem. by intros ->. Qed.

(** Desired audio state is versioned and idempotent. An accepted request either
    repeats a recorded one (same key and mode) and changes nothing, or it named the
    current version and becomes the next one. Repeating an accepted request later,
    with any version, operator and time, gives the same answer and changes nothing;
    another key with any version but the current one is a version conflict that
    reports the current entry. *)
Theorem audio_request_is_versioned sid mode ver key op at_ w r w' :
  set_audio_desired sid mode ver key op at_ w = (Ok r, w') ->
  exists a s, view w = Some a /\ sessions a !! sid = Some s /\
    (view w' = view w \/
     (audio_version s = ver /\ exists s' audio',
        view w' = Some (put_view a sid s') /\ recorded_audio s' audio' /\
        audio_version s' = ver + 1 /\ py_get audio' "desired_mode" = VStr mode /\
        r = audio_answer audio' /\
        forall w2 ver2 key2 op2 t2, view w2 = view w' -> no_faults w2 ->
          nonneg_number t2 <> None -> 0 <= ver2 ->
          (set_audio_desired sid mode ver2 key op2 (Some t2) w2).1 = Ok r /\
          (key2 <> key -> str_empty key2 = false -> (py_len key2 <= 200)%nat ->
           ver2 <> ver + 1 ->
           (set_audio_desired sid mode ver2 key2 op2 (Some t2) w2).1
             = Err (MediaControlVersionConflict r)))).
Proof.
  intros H. assert (Hpre : in_set mode MEDIA_CONTROL_AUDIO_DESIRED_MODES = true /\
    (str_empty key || (200 <? Z.of_nat (py_len key))) = false).
  { unfold set_audio_desired in H. apply bind_ok in H as (? & ? & Hg & H).
    apply guard_err_ok in Hg as [Hg ->]. apply bind_ok in H as (? & ? & Hg2 & H).
    apply guard_err_ok in Hg2 as [Hg2 ->]. apply bind_ok in H as (? & ? & Hg3 & H).
    apply guard_err_ok in Hg3 as [Hg3 ->]. by apply negb_false_iff in Hg. }
  destruct Hpre as [Hmode Hkey].
  apply set_audio_ok in H as (a & s & now & Hv & Hs & Hst & [(_ & _ & _ & Hr)|Hr]).
  { exists a, s. auto. }
  destruct Hr as (Hver & Hpos & s' & audio & Hw' & Hrec & Hss & Hv' & Hd & Hk & Hr & Hdom).
  exists a, s. split; [done|]. split; [done|]. right. split; [done|]. exists s', audio.
  split; [done|]. split; [done|]. split; [by apply (recorded_version s' audio); [|done|lia]|].
  split; [done|]. split; [done|]. intros w2 ver2 key2 op2 t2 Hv2 Hnf Ht2 Hpos2.
  rewrite Hw' in Hv2.
  assert (Hrun : forall k, (str_empty k || (200 <? Z.of_nat (py_len k))) = false ->
    (k = key \/ (k <> key /\ ver2 <> ver + 1)) ->
    (set_audio_desired sid mode ver2 k op2 (Some t2) w2).1 =
      if bool_decide (k = key) then Ok r else Err (MediaControlVersionConflict r)).
  { intros k Hlen Hcase.
    cut (exists w3, set_audio_desired sid mode ver2 k op2 (Some t2) w2 =
      (if bool_decide (k = key) then Ok r else Err (MediaControlVersionConflict r), w3) /\ True).
    { by intros (w3 & -> & _). }
    unfold set_audio_desired. rewrite guard_false by (by rewrite Hmode).
    rewrite guard_false by (by apply Z.ltb_ge). rewrite guard_false by done.
    unfold now_or, _validated_timestamp. destruct (nonneg_number t2) as [t|]; [|done].
    unfold lift at 1. rewrite (bind_run _ _ _ t w2 eq_refl).
    apply (locked_eval _ _ _ _ _ Hnf Hv2); [by case_bool_decide|].
    intros w3 Hm _ _ _. exists w3. split; [|done].
    rewrite (bind_run _ _ _ _ _ (require_run sid w3 s' ltac:(rewrite Hm; apply lookup_insert_eq))).
    rewrite guard_false by (by rewrite Hss).
    destruct (audio_of_recorded s' audio t Hrec) as [mc ->].
    rewrite !Forall_cons in Hdom. destruct Hdom as (D1 & D2 & D3 & D4 & D5 & _).
    do 5 (erewrite bind_run by (apply getitem_run, dom_get; eassumption)).
    cbv zeta. fold (audio_answer audio). rewrite Hk. unfold py_eq at 1.
    destruct Hcase as [->|[Hne Hvne]].
    - rewrite String.eqb_refl, bool_decide_eq_true_2 by done.
      rewrite guard_false by (rewrite Hd; unfold py_eq; by rewrite String.eqb_refl).
      by rewrite Hr.
    - rewrite (proj2 (String.eqb_neq key k)), bool_decide_eq_false_2 by congruence.
      rewrite Hr. apply guard_true. rewrite Hv'. unfold py_eq. cbn.
      by rewrite (proj2 (Z.eqb_neq _ _)). }
  split.
  - rewrite Hrun by auto. by rewrite bool_decide_eq_true_2.
  - intros Hne He Hlen Hvne. rewrite Hrun; [by rewrite bool_decide_eq_false_2| |auto].
    rewrite He. apply Z.ltb_ge. lia.
Qed.

Lemma audio_request_is_versioned_witness :
  exists r w', set_audio_desired "s1" "MUTED" 0 "k1" "op" None demo_live = (Ok r, w') /\
    exists a s, view demo_live = Some a /\ sessions a !! "s1" = Some s /\
      (view w' = view demo_live \/ audio_version s = 0).
Proof.
  destruct (ran (fun _ => true) (set_audio_desired "s1" "MUTED" 0 "k1" "op" None) demo_live)
    as (r & w' & E & _); [vm_compute; reflexivity|].
  exists r, w'. split; [exact E|].
  destruct (audio_request_is_versioned _ _ _ _ _ _ _ _ _ E) as (a & s & Hv & Hs & [H|(H & _)]);
    exists a, s; (split; [exact Hv|]); (split; [exact Hs|]); [left|right]; exact H.
Defined.

(** ** Compare and set *)

(** [transition_if_current] is a compare-and-set. It commits only when the
    record is in one of the allowed states and every expected field still has its
    expected value, and then the committed record is in the new state, outside the
    recovery window, and has given its slot back if it is final; otherwise, and
    when there is no such Session, it returns [None] and changes nothing. *)
Theorem transition_if_current_is_cas sid st allow fields changes w o w' :
  transition_if_current sid st allow fields changes w = (Ok o, w') ->
  exists a, view w = Some a /\
    match o with
    | None => view w' = view w /\
        (forall s, sessions a !! sid = Some s ->
           status_of s ∉ allow \/ _matches_fields s fields = false)
    | Some s' => exists s, sessions a !! sid = Some s /\
        status_of s ∈ allow /\ _matches_fields s fields = true /\
        view w' = Some (put_view a sid s') /\ status_of s' = st /\
        py_get s' "recovery_candidate_since" = VNull /\
        (st ∈ ["FINISHED"; "FAILED"] -> py_get s' "entitlement_reserved" = VBool false) /\
        forall k v, changes !! k = Some v ->
          k ∉ ["status"; "updated_at"; "recovery_candidate_since";
               "recovery_candidate_source_id"; "entitlement_reserved"] -> s' !! k = Some v
    end.
Proof.
  unfold transition_if_current. intros H.
  apply bind_ok in H as (? & ? & Hg & H). apply guard_err_ok in Hg as [_ ->].
  apply bind_ok in H as (? & ? & Hg & H). apply lift_ok in Hg as [_ ->].
  apply locked_ok in H as (w1 & Hv & Hv1 & _ & _ & _ & H). exists (mem w1). split; [done|].
  apply bind_ok in H as (o' & w2 & Hf & H). apply find_ok in Hf as [Hs ->].
  destruct o' as [s|]; [|apply ret_ok in H as [-> ->]; split; [done|congruence]].
  destruct (negb (in_set (status_of s) allow) || negb (_matches_fields s fields)) eqn:Hg.
  { apply ret_ok in H as [-> ->]. split; [done|]. intros s0 Hs0.
    assert (s0 = s) as -> by congruence.
    apply orb_true_iff in Hg as [Hg|Hg]; apply negb_true_iff in Hg; [left|by right].
    by apply bool_decide_eq_false in Hg. }
  apply orb_false_iff in Hg as [Hin Hm]. apply negb_false_iff in Hin, Hm.
  apply bind_ok in H as (t & w2 & Hn & H). pose proof (reads_run _ _ _ _ Hn) as (Hmem & _).
  apply bind_ok in H as (s' & w3 & Hc & H). apply ret_ok in H as [-> ->].
  apply commit_session_ok in Hc as (-> & Hw' & _). rewrite Hmem in Hw'.
  exists s. split; [done|]. split; [by apply bool_decide_eq_true in Hin|]. split; [done|].
  split; [exact Hw'|]. unfold transitioned, _clear_recovery_candidate, status_of, py_get, py_update.
  split; [destruct (in_set st _); by dict_lookup|].
  split; [destruct (in_set st _); by dict_lookup|]. split.
  - intros Hf. unfold in_set. rewrite bool_decide_eq_true_2 by done. by dict_lookup.
  - intros k v Hk Hnin. rewrite !not_elem_of_cons in Hnin. destruct_and! Hnin.
    destruct (in_set st _); rewrite !lookup_insert_ne by done; by apply lookup_union_Some_l.
Qed.

Lemma transition_if_current_is_cas_witness :
  exists o w', transition_if_current "s1" "FAILED_CLEANUP" ["READY_WAIT_INGEST"]
      {[ "node_id" := VStr "node-1" ]} {[ "cleanup_pending" := VBool true ]} demo_live
      = (Ok (Some o), w') /\ status_of o = "FAILED_CLEANUP" /\
      o !! "cleanup_pending" = Some (VBool true).
Proof.
  destruct (ran (fun o => match o with Some _ => true | None => false end)
    (transition_if_current "s1" "FAILED_CLEANUP" ["READY_WAIT_INGEST"]
      {[ "node_id" := VStr "node-1" ]} {[ "cleanup_pending" := VBool true ]}) demo_live)
    as ([s'|] & w' & E & Ht); [vm_compute; reflexivity| |discriminate Ht].
  exists s', w'. split; [exact E|].
  destruct (transition_if_current_is_cas _ _ _ _ _ _ _ _ E)
    as (a & _ & s & _ & _ & _ & _ & Hst & _ & _ & Hch).
  split; [exact Hst|]. apply Hch; [reflexivity|]. by_eval.
Defined.

(** ** Stopping *)
Lemma view_validates (w : world session_mem) a : view w = Some a -> af_validate a = Ok tt.
Proof.
  unfold view. intros Hv. destruct (file w) as [| |r]; [|done|].
  { destruct (fuse w); [done|]. by simplify_eq. }
  destruct (load_json_authority r) as [v|]; [|done].
  cbn [af_decode af_validate session_format] in *. unfold decode_sessions in Hv.
  destruct v as [| | | | | |d]; try done. destruct (d !! "sessions") as [[| | | | | |ss]|]; try done.
  destruct (_validate_sessions ss) as [[]|] eqn:Hval; [|done]. cbn [mbind result_bind] in Hv.
  destruct (py_get_or _ _ _) as [| | | | | |ls]; try done.
  destruct (_validate_cleanup_leases ls) as [[]|] eqn:Hls; [|done].
  cbn [mbind result_bind] in Hv. simplify_eq. cbn [sessions leases].
  assert (Hof : forall (check : string -> value -> result unit) (m : dict),
    (forall k v, check k v = Ok tt -> is_dict v = true) ->
    check_all check m = Ok tt -> of_dicts (as_dicts m) = m).
  { intros check m Hc Hm. apply check_all_ok in Hm. apply map_eq. intros k.
    unfold of_dicts, as_dicts. rewrite lookup_fmap, lookup_omap.
    destruct (m !! k) as [v|] eqn:Hk; [|done]. specialize (Hc k v (Hm k v Hk)). by destruct v. }
  rewrite (Hof validate_session _ ltac:(by intros k []) Hval),
    (Hof validate_lease _ ltac:(by intros k []) Hls), Hval. exact Hls.
Qed.

Lemma validate_put (a : session_mem) sid s :
  af_validate a = Ok tt -> SessionOk sid s ->
  af_validate (SessionMem (<[sid := s]> (sessions a)) (leases a) (authoritative a)) = Ok tt.
Proof.
  cbn [af_validate session_format sessions leases]. intros H Hs.
  apply result_bind_ok in H as ([] & H & Hl). rewrite Hl. apply seq_ok. split; [|done].
  apply is_ok_unit. unfold _validate_sessions in *. rewrite check_all_ok in *.
  unfold of_dicts in *. rewrite fmap_insert. apply map_Forall_insert_2; [|done].
  by apply validate_session_iff.
Qed.

Lemma serializable_put (a : session_mem) sid (s : dict) b :
  serializable (encode_sessions a) = true -> Serializable s ->
  serializable (encode_sessions (SessionMem (<[sid := s]> (sessions a)) (leases a) b)) = true.
Proof.
  unfold encode_sessions. rewrite !serializable_dict. intros H Hs.
  assert (Hss : serializable (VDict (of_dicts (sessions a))) = true).
  { by apply (Serializable_lookup _ "sessions" _ H), lookup_insert_eq. }
  assert (Hls : serializable (VDict (of_dicts (leases a))) = true).
  { by apply (Serializable_lookup _ "orphan_cleanup_leases" _ H); dict_lookup. }
  cbn [sessions leases]. apply Serializable_insert.
  - rewrite serializable_dict in *. unfold of_dicts in *. rewrite fmap_insert.
    apply Serializable_insert; [by apply serializable_dict|done].
  - apply Serializable_insert; [done|]. apply map_Forall_empty.
Qed.

Lemma commit_run sid s (w : world session_mem) :
  no_faults w -> af_validate (mem w) = Ok tt -> serializable (encode_sessions (mem w)) = true ->
  SessionOk sid s -> Serializable s ->
  exists w', commit_session sid s w = (Ok s, w') /\ view w' = Some (put_view (mem w) sid s).
Proof.
  intros Hnf Hval Hser Hs Hss.
  set (w1 := World (SessionMem (<[sid := s]> (sessions (mem w))) (leases (mem w))
    (authoritative (mem w))) (file w) (fuse w) (environment w)).
  destruct (persist_run w1) as [w' Hp]; [done|by apply validate_put|by apply serializable_put|].
  exists w'. assert (H : commit_session sid s w = (Ok s, w')).
  { unfold commit_session, put_session, mbind, M_bind, get_mem, put_mem. fold w1. by rewrite Hp. }
  split; [exact H|]. by apply commit_session_ok in H as (_ & ? & _).
Qed.

Lemma serializable_session (a : session_mem) sid (s : dict) :
  serializable (encode_sessions a) = true -> sessions a !! sid = Some s -> Serializable s.
Proof.
  unfold encode_sessions. rewrite serializable_dict. intros H Hs.
  assert (Hss : serializable (VDict (of_dicts (sessions a))) = true).
  { by apply (Serializable_lookup _ "sessions" _ H), lookup_insert_eq. }
  apply serializable_dict in Hss. apply serializable_dict.
  apply (Serializable_lookup _ sid _ Hss). unfold of_dicts. by rewrite lookup_fmap, Hs.
Qed.

Lemma timestamp_float t :
  is_finite t = true -> flt t fzero = false -> timestamp (Some (VFloat t)) = true.
Proof.
  intros Hf Hn. unfold timestamp. by rewrite (nonneg_number_float t Hf Hn), bool_decide_eq_true_2.
Qed.

Lemma stopping_ok sid s t :
  SessionOk sid s -> is_finite t = true -> flt t fzero = false ->
  SessionOk sid (stopping_record s t).
Proof.
  intros Hs Hf Hn. unfold stopping_record, _clear_recovery_candidate.
  rewrite !py_update_cons, py_update_nil.
  repeat (apply SessionOk_insert; [|by apply (bool_decide_unpack _)|schema_field]); try done.
  - by apply timestamp_float.
Qed.

Lemma stopping_serializable s t :
  Serializable s -> is_finite t = true -> Serializable (stopping_record s t).
Proof.
  intros Hs Hf. unfold stopping_record, _clear_recovery_candidate.
  rewrite !py_update_cons, py_update_nil. by repeat apply Serializable_insert.
Qed.

Lemma not_terminal_can_stop s :
  in_set s SESSION_STATES = true -> in_set s TERMINAL_STATES = false ->
  in_set s (ACTIVE_STATES ++ ["STOPPING"; "FAILED_CLEANUP"]) = true.
Proof.
  intros H1 H2. apply bool_decide_eq_true in H1.
  assert (Hall : forallb (fun s => in_set s TERMINAL_STATES ||
    in_set s (ACTIVE_STATES ++ ["STOPPING"; "FAILED_CLEANUP"])) SESSION_STATES = true)
    by reflexivity.
  rewrite forallb_forall in Hall. specialize (Hall s). rewrite H2 in Hall.
  apply Hall. by apply list_elem_of_In.
Qed.

Lemma validated_now_run (w : world session_mem) :
  (forall n, is_finite (clock (environment w) n) = true /\
     flt (clock (environment w) n) fzero = false) ->
  exists t w', _validated_now w = (Ok t, w') /\ is_finite t = true /\ flt t fzero = false /\
    mem w' = mem w /\ (no_faults w -> no_faults w').
Proof.
  intros Hc. destruct (Hc (ticks (environment w))) as [H1 H2].
  eexists _, _. split.
  { unfold _validated_now, time_time, mbind, M_bind, lift, _validated_timestamp.
    rewrite (nonneg_number_float _ H1 H2). reflexivity. }
  auto.
Qed.

(** C30: A stop request always succeeds. For every known Session, whatever valid
    state it is in, a stop request returns when the disk works and the clock is
    sane: a stopped, finished or failed Session is returned as it is, any other is
    committed in STOPPING with its provisioning cancelled and cleanup pending. *)
Theorem request_stop_is_total sid w a s :
  no_faults w -> view w = Some a -> sessions a !! sid = Some s ->
  serializable (encode_sessions a) = true ->
  (forall n, is_finite (clock (environment w) n) = true /\
     flt (clock (environment w) n) fzero = false) ->
  exists s' w', request_stop sid w = (Ok s', w') /\
    if in_set (status_of s) TERMINAL_STATES then s' = s /\ view w' = view w
    else view w' = Some (put_view a sid s') /\ status_of s' = "STOPPING" /\
      s' !! "provisioning_cancel_requested" = Some (VBool true) /\
      s' !! "cleanup_pending" = Some (VBool true).
Proof.
  intros Hnf Hv Hs Hser Hclk. pose proof (view_valid w a sid s Hv Hs) as Hok.
  pose proof (view_validates w a Hv) as Hval.
  destruct (session_status _ _ Hok) as (st & Hst & Hin).
  assert (Hso : status_of s = st) by (unfold status_of, py_get; by rewrite Hst).
  unfold request_stop. rewrite Hso.
  destruct (in_set st TERMINAL_STATES) eqn:Hterm.
  - exists s. apply (locked_eval (fun w' => s = s /\ view w' = view w) _ _ a); [done..|].
    intros w1 Hm Hv1 _ _. exists w1. split; [|exact (conj eq_refl Hv1)].
    rewrite (bind_run _ _ _ _ _ (require_run sid w1 s ltac:(by rewrite Hm))). cbv zeta.
    by rewrite Hso, Hterm.
  - assert (Hex : exists t, is_finite t = true /\ flt t fzero = false /\
      exists w', locked (session ← require_session sid;
        (if in_set (status_of session) TERMINAL_STATES then mret session
         else guard_err (negb (in_set (status_of session)
                (ACTIVE_STATES ++ ["STOPPING"; "FAILED_CLEANUP"]))) InvalidTransition ;;
              updated_at ← _validated_now;
              commit_session sid (stopping_record session updated_at))) w
        = (Ok (stopping_record s t), w') /\ view w' = Some (put_view a sid (stopping_record s t))).
    { exists (clock (environment w) (ticks (environment w))).
      destruct (Hclk (ticks (environment w))) as [Hf Hn]. split; [done|]. split; [done|].
      apply (locked_eval (fun w' => view w' = Some _) _ _ a); [done..|].
      intros w1 Hm Hv1 Hnf1 Ho1.
      rewrite (bind_run _ _ _ _ _ (require_run sid w1 s ltac:(by rewrite Hm))).
      rewrite Hso, Hterm, not_terminal_can_stop by done. rewrite guard_false by done.
      assert (Hn1 : exists w2, _validated_now w1 =
        (Ok (clock (environment w) (ticks (environment w))), w2) /\ mem w2 = a /\ no_faults w2).
      { destruct Ho1 as (Hc & Ht & _). unfold _validated_now, time_time, mbind, M_bind, lift,
          _validated_timestamp. rewrite Hc, Ht, (nonneg_number_float _ Hf Hn). eauto. }
      destruct Hn1 as (w2 & Hn2 & Hm2 & Hnf2). rewrite (bind_run _ _ _ _ _ Hn2).
      pose proof (serializable_session _ _ _ Hser Hs) as Hss. rewrite <- Hm2 in Hval, Hser |- *.
      exact (commit_run sid _ w2 Hnf2 Hval Hser (stopping_ok _ _ _ Hok Hf Hn)
        (stopping_serializable _ _ Hss Hf)). }
    destruct Hex as (t & _ & _ & w' & Hr & Hw'). exists (stopping_record s t), w'.
    split; [exact Hr|]. split; [exact Hw'|].
    unfold stopping_record, _clear_recovery_candidate, status_of, py_get.
    rewrite !py_update_cons, py_update_nil. split; [by dict_lookup|]. split; by dict_lookup.
Qed.

Lemma request_stop_is_total_witness :
  exists s' w', request_stop "s1" (at_time 2000 demo_live) = (Ok s', w') /\
    status_of s' = "STOPPING".
Proof.
  destruct (request_stop_is_total "s1" (at_time 2000 demo_live)
    (state_of demo_live) (record_of demo_live "s1")) as (s' & w' & Hr & H).
  - intros n. vm_compute. reflexivity.
  - change (view (at_time 2000 demo_live)) with (view demo_live). by_eval.
  - by_eval.
  - vm_compute. reflexivity.
  - intros n. vm_compute. split; reflexivity.
  - exists s', w'. split; [exact Hr|].
    assert (Ht : in_set (status_of (record_of demo_live "s1")) TERMINAL_STATES = false)
      by (vm_compute; reflexivity).
    rewrite Ht in H. exact (proj1 (proj2 H)).
Defined.
