(* ===== verification/Ingest.v ===== *)
(** * Ingest credentials (ingest_store.py)

    The store of publish and relay credentials: only the SHA-256 digest of a secret
    is kept, issuing rotates, revocation is final. [IngestCredentialStore] is the
    authority protocol of [Authority] with this format; a record is a [dict]. *)

From S2P Require Import Prelude PyFloat Sha256 PyValue Json Effects Authority.

(** ** Constants and validators *)
Definition CREDENTIAL_SCOPES : list string := ["INGEST"; "RELAY_CLIENT"].
Definition SUPPORTED_PROTOCOLS : list string := ["rtmp"; "srt"].
Definition DEFAULT_TTL_SECONDS : Z := 12 * 3600.

Definition str_in (x : string) (l : list string) : bool := bool_decide (x ∈ l).

Definition _finite_argument (v : value) : result float :=
  match number_as_float v with
  | Some number => if is_finite number then Ok number else Err ValueError
  | None => Err ValueError
  end.

Definition checked_timestamp (v : value) : result float :=
  number ← _finite_argument v;
  raise_if (flt number fzero) ValueError ;;
  Ok number.

Definition ingest_nonempty_string (record : dict) (field : string) : result string :=
  match py_get record field with
  | VStr s => if str_empty s then Err IngestCredentialError else Ok s
  | _ => Err IngestCredentialError
  end.

Definition ingest_finite_number (record : dict) (field : string) : result float :=
  match _finite_argument (py_get record field) with
  | Ok number => Ok number
  | Err _ => Err IngestCredentialError
  end.

Definition _optional_finite_number (record : dict) (field : string) : result (option float) :=
  if is_null (py_get record field) then Ok None
  else number ← ingest_finite_number record field; Ok (Some number).

(** [sorted(set(l))] *)
Definition sorted_set (l : list string) : list string := py_sorted (remove_dups l).

(** The strings of a list that has only strings in it. *)
Definition strings_of (v : value) : option (list string) :=
  match v with VList l => mapM as_str l | _ => None end.

(** The body of the loop of [_validate_credentials]. *)
Definition validate_credential (credential_id : string) (v : value) : result unit :=
  match v with
  | VDict record =>
      raise_if (str_empty credential_id) IngestCredentialError ;;
      stored_id ← ingest_nonempty_string record "id";
      session_id ← ingest_nonempty_string record "session_id";
      ingest_nonempty_string record "user_id" ;;
      username ← ingest_nonempty_string record "username";
      digest ← ingest_nonempty_string record "secret_sha256";
      raise_if (negb (String.eqb stored_id credential_id)) IngestCredentialError ;;
      raise_if (negb (String.eqb username session_id)) IngestCredentialError ;;
      raise_if (negb (Nat.eqb (py_len digest) 64) || negb (all_hex digest))
        IngestCredentialError ;;
      match py_get_or record "scope" (VStr "INGEST") with
      | VStr scope => raise_if (negb (str_in scope CREDENTIAL_SCOPES)) IngestCredentialError
      | _ => Err IngestCredentialError
      end ;;
      match strings_of (py_get record "protocols") with
      | Some protocols =>
          raise_if (bool_decide (protocols = []) ||
                    negb (forallb (fun p => str_in p SUPPORTED_PROTOCOLS) protocols))
            IngestCredentialError ;;
          raise_if (negb (bool_decide (protocols = sorted_set protocols))) IngestCredentialError
      | None => Err IngestCredentialError
      end ;;
      created_at ← ingest_finite_number record "created_at";
      expires_at ← ingest_finite_number record "expires_at";
      raise_if (flt created_at fzero) IngestCredentialError ;;
      raise_if (fle expires_at created_at) IngestCredentialError ;;
      check_each (fun field =>
        optional_timestamp ← _optional_finite_number record field;
        raise_if match optional_timestamp with Some t => flt t fzero | None => false end
          IngestCredentialError) ["revoked_at"; "last_authenticated_at"]
  | _ => Err IngestCredentialError
  end.

Definition _validate_credentials (credentials : dict) : result unit :=
  check_all validate_credential credentials.

(** ** State and file format *)
Record ingest_mem : Type := IngestMem { credentials : gmap string dict }.

Definition decode_credentials (payload : value) : result ingest_mem :=
  match payload with
  | VDict raw =>
      match raw !! "credentials" with
      | Some (VDict cs) => _validate_credentials cs ;; Ok (IngestMem (as_dicts cs))
      | _ => Err IngestCredentialError
      end
  | _ => Err IngestCredentialError
  end.

#[export] Instance ingest_format : AuthorityFormat ingest_mem := {|
  af_error := IngestCredentialError;
  af_fresh := IngestMem ∅;
  af_decode := decode_credentials;
  af_validate := fun m => _validate_credentials (of_dicts (credentials m));
  af_encode := fun m => VDict {[ "credentials" := VDict (of_dicts (credentials m)) ]};
  af_committed := id
|}.

#[export] Instance ingest_laws : AuthorityLaws ingest_mem.
Proof.
  split. intros [m] Hv. cbn in Hv |- *. rewrite lookup_singleton_eq, Hv. cbn.
  by rewrite as_of_dicts.
Qed.

(** ** Operations *)
Abbreviation IM := (M (world ingest_mem)).

(** [time.time() if value is None else value], checked. *)
Definition _runtime_timestamp (v : option value) : IM float :=
  match v with
  | None => t ← time_time; lift (checked_timestamp (VFloat t))
  | Some v => lift (checked_timestamp v)
  end.

(** [secrets.token_urlsafe(32)]: another text of the identifier oracle. *)
Definition token_urlsafe : IM string := uuid4.

Definition _digest (secret : string) : string := sha256_hex secret.

Definition _normalize_protocols (protocols : list string) : result (list string) :=
  let values := sorted_set (py_lower <$> protocols) in
  if bool_decide (values = []) || negb (forallb (fun p => str_in p SUPPORTED_PROTOCOLS) values)
  then Err ValueError else Ok values.

Definition public_record (record : dict) : dict := delete "secret_sha256" record.

Definition put_credentials (cs : gmap string dict) : IM unit := put_mem (IngestMem cs).

Definition has_session (session_id : string) (record : dict) : bool :=
  py_eq (py_get record "session_id") (VStr session_id).
Definition has_scope (scope : string) (record : dict) : bool :=
  py_eq (py_get_or record "scope" (VStr "INGEST")) (VStr scope).
Definition unrevoked (record : dict) : bool := is_null (py_get record "revoked_at").

(** [float(record["expires_at"]) <= current]; a validated record has the field. *)
Definition expired (record : dict) (current : float) : bool :=
  match number_as_float (py_get record "expires_at") with
  | Some expires_at => fle expires_at current
  | None => true
  end.

Definition revoke_record (at_ : float) (record : dict) : dict :=
  <["revoked_at" := VFloat at_]> record.

Definition credential_record (credential_id session_id user_id scope digest : string)
    (protocols : list string) (issued_at expires_at : float) : dict :=
  list_to_map
    [("id", VStr credential_id); ("session_id", VStr session_id); ("user_id", VStr user_id);
     ("scope", VStr scope); ("username", VStr session_id); ("secret_sha256", VStr digest);
     ("protocols", VList (VStr <$> protocols)); ("created_at", VFloat issued_at);
     ("expires_at", VFloat expires_at); ("revoked_at", VNull);
     ("last_authenticated_at", VNull)].

(** Returns the public record and the secret. *)
Definition issue (session_id user_id scope : string) (protocols : list string)
    (ttl_seconds : value) (now : option value) : IM (dict * string) :=
  ttl ← lift (_finite_argument ttl_seconds);
  guard_err (fle ttl fzero) ValueError ;;
  guard_err (negb (str_in scope CREDENTIAL_SCOPES)) ValueError ;;
  normalized ← lift (_normalize_protocols protocols);
  issued_at ← _runtime_timestamp now;
  expires_at ← _runtime_timestamp (Some (VFloat (fadd issued_at ttl)));
  secret ← token_urlsafe;
  credential_id ← uuid4;
  let record := credential_record credential_id session_id user_id scope (_digest secret)
                  normalized issued_at expires_at in
  locked (
    m ← get_mem;
    let rotated :=
      (fun existing =>
         if has_session session_id existing && has_scope scope existing && unrevoked existing
         then revoke_record issued_at existing else existing) <$> credentials m in
    put_credentials (<[credential_id := record]> rotated) ;;
    persist) ;;
  mret (public_record record, secret).

(** The conditions of the loop of [verify], on one record. *)
Definition accepts (username protocol scope candidate : string) (current : float)
    (record : dict) : bool :=
  py_eq (py_get record "username") (VStr username) &&
  has_scope scope record &&
  unrevoked record &&
  negb (expired record current) &&
  existsb (py_eq (VStr protocol)) (default [] (as_list (py_get record "protocols"))) &&
  py_eq (py_get record "secret_sha256") (VStr candidate).

Definition verify (username secret protocol : string) (now : option value) (scope : string)
    : IM (option dict) :=
  current ← _runtime_timestamp now;
  let protocol := py_lower protocol in
  if negb (str_in protocol SUPPORTED_PROTOCOLS) || negb (str_in scope CREDENTIAL_SCOPES) ||
     str_empty username || str_empty secret then mret None
  else
    let candidate := _digest secret in
    locked (
      m ← get_mem;
      match List.find (fun p => accepts username protocol scope candidate current p.2)
              (sorted_records (credentials m)) with
      | Some (credential_id, record) =>
          let record := <["last_authenticated_at" := VFloat current]> record in
          put_credentials (<[credential_id := record]> (credentials m)) ;;
          persist ;;
          mret (Some (public_record record))
      | None => mret None
      end).

Definition revoke (credential_id : string) (user_id : option string) : IM dict :=
  locked (
    m ← get_mem;
    match credentials m !! credential_id with
    | None => raise KeyError
    | Some record =>
        guard_err match user_id with
                  | Some u => negb (py_eq (py_get record "user_id") (VStr u))
                  | None => false
                  end KeyError ;;
        if unrevoked record then
          at_ ← _runtime_timestamp None;
          put_credentials (<[credential_id := revoke_record at_ record]> (credentials m)) ;;
          persist ;;
          mret (public_record (revoke_record at_ record))
        else mret (public_record record)
    end).

Definition revoke_session (session_id : string) (now : option value) : IM Z :=
  revoked_at ← _runtime_timestamp now;
  locked (
    m ← get_mem;
    let hit := fun record => has_session session_id record && unrevoked record in
    let changed := Z.of_nat (size (filter (fun p : string * dict => hit p.2 = true)
                                     (credentials m))) in
    put_credentials ((fun record => if hit record then revoke_record revoked_at record
                                    else record) <$> credentials m) ;;
    (if 0 <? changed then persist else mret tt) ;;
    mret changed).

Definition active_for_session (session_id : string) (now : option value) (scope : string)
    : IM (option dict) :=
  current ← _runtime_timestamp now;
  locked (
    m ← get_mem;
    mret (public_record ∘ snd <$>
      List.find (fun p => has_session session_id p.2 && has_scope scope p.2 &&
                          unrevoked p.2 && negb (expired p.2 current))
        (reverse (sorted_records (credentials m))))).

Definition get_credential (credential_id : string) : IM (option dict) :=
  locked (m ← get_mem; mret (public_record <$> credentials m !! credential_id)).
