(* ===== verification/IngestTheorems.v ===== *)
(** * Ingest credentials: rotation, verification, revocation *)

From S2P Require Import Prelude PyFloat Sha256 PyValue Json Effects Authority Steps Ingest.

#[local] Opaque sha256_hex.

(** ** Reading steps *)
#[export] Instance reads_runtime v : Resp reads (_runtime_timestamp v).
Proof. unfold _runtime_timestamp. solve_resp. Qed.
#[export] Instance keeps_runtime v : Resp keeps (_runtime_timestamp v).
Proof. unfold _runtime_timestamp. solve_resp. Qed.
#[export] Instance keeps_put_credentials cs : Resp keeps (put_credentials cs).
Proof. unfold put_credentials. apply _. Qed.
#[export] Instance reads_token : Resp reads token_urlsafe.
Proof. unfold token_urlsafe. apply _. Qed.
#[export] Instance keeps_token : Resp keeps token_urlsafe.
Proof. unfold token_urlsafe. apply _. Qed.

Lemma runtime_ok v w t w' :
  _runtime_timestamp v w = (Ok t, w') -> is_finite t = true /\ flt t fzero = false.
Proof.
  unfold _runtime_timestamp. intros H.
  assert (Hc : exists v, checked_timestamp v = Ok t).
  { destruct v as [v|]; [by apply lift_ok in H as [H _]; exists v|].
    apply bind_ok in H as (x & w1 & _ & H). apply lift_ok in H as [H _]. by eexists. }
  destruct Hc as [v' Hc]. unfold checked_timestamp, _finite_argument in Hc.
  apply result_bind_ok in Hc as (n & Hn & Hc). apply result_bind_ok in Hc as ([] & Hneg & Hc).
  injection Hc as ->. apply raise_if_ok in Hneg. split; [|done].
  destruct (number_as_float v') as [x|]; [|done].
  destruct (is_finite x) eqn:E; by simplify_eq.
Qed.

(** ** The operations as data *)
Inductive ingest_op : Type :=
| OpIssue (session user scope : string) (protocols : list string) (ttl : value)
    (now : option value)
| OpVerify (username secret protocol : string) (now : option value) (scope : string)
| OpRevoke (id : string) (user : option string)
| OpRevokeSession (session : string) (now : option value)
| OpActive (session : string) (now : option value) (scope : string)
| OpGetCredential (id : string).

Definition run_ingest (op : ingest_op) : IM unit :=
  match op with
  | OpIssue a b c d e f => issue a b c d e f ;; mret tt
  | OpVerify a b c d e => verify a b c d e ;; mret tt
  | OpRevoke a b => revoke a b ;; mret tt
  | OpRevokeSession a b => revoke_session a b ;; mret tt
  | OpActive a b c => active_for_session a b c ;; mret tt
  | OpGetCredential a => get_credential a ;; mret tt
  end.

Definition run_ingests (ops : list ingest_op) (w : world ingest_mem) : world ingest_mem :=
  fold_left (fun w op => (run_ingest op w).2) ops w.

(** ** At most one active credential *)
Definition active_in (session scope : string) (r : dict) : bool :=
  has_session session r && has_scope scope r && unrevoked r.

Definition one_active (a : ingest_mem) : Prop :=
  forall session scope id1 r1 id2 r2,
    credentials a !! id1 = Some r1 -> credentials a !! id2 = Some r2 ->
    active_in session scope r1 = true -> active_in session scope r2 = true -> id1 = id2.

Definition keeps_one (a a' : ingest_mem) : Prop := one_active a -> one_active a'.

(** A change that activates no record keeps the invariant. *)
Lemma one_active_sub a a' :
  (forall id r', credentials a' !! id = Some r' -> exists r, credentials a !! id = Some r /\
     forall s c, active_in s c r' = true -> active_in s c r = true) ->
  keeps_one a a'.
Proof.
  intros Hsub Ha s c id1 r1 id2 r2 H1 H2 A1 A2.
  destruct (Hsub _ _ H1) as (r1' & H1' & A1'), (Hsub _ _ H2) as (r2' & H2' & A2'). eauto.
Qed.

Lemma unrevoked_revoke t r : unrevoked (revoke_record t r) = false.
Proof. unfold unrevoked, revoke_record, py_get. by rewrite lookup_insert_eq. Qed.

Lemma active_revoke t r s c : active_in s c (revoke_record t r) = false.
Proof. unfold active_in. by rewrite unrevoked_revoke, andb_false_r. Qed.

Lemma active_insert r k v s c :
  k <> "session_id" -> k <> "scope" -> k <> "revoked_at" ->
  active_in s c (<[k := v]> r) = active_in s c r.
Proof.
  intros. unfold active_in, has_session, has_scope, unrevoked, py_get, py_get_or.
  by rewrite !lookup_insert_ne by done.
Qed.

(** The commit of [issue]. *)
Definition rotate (session scope : string) (t : float) (cs : gmap string dict)
    : gmap string dict :=
  (fun r => if has_session session r && has_scope scope r && unrevoked r
            then revoke_record t r else r) <$> cs.

Lemma active_record id s u c d ps t e s' c' :
  active_in s' c' (credential_record id s u c d ps t e) = String.eqb s s' && String.eqb c c'.
Proof.
  unfold active_in, has_session, has_scope, unrevoked, credential_record, py_get, py_get_or.
  dict_lookup. cbn [default from_option Datatypes.id is_null]. by rewrite andb_true_r.
Qed.

Lemma issue_keeps_one a id session u scope d ps t e :
  keeps_one a (IngestMem (<[id := credential_record id session u scope d ps t e]>
                 (rotate session scope t (credentials a)))).
Proof.
  intros Ha s c id1 r1 id2 r2 H1 H2 A1 A2. cbn [credentials] in *.
  assert (Hold : forall i r, rotate session scope t (credentials a) !! i = Some r ->
    active_in s c r = true -> exists r0, credentials a !! i = Some r0 /\
      active_in s c r0 = true /\ active_in session scope r0 = false).
  { intros i r Hi Hr. unfold rotate in Hi. rewrite lookup_fmap in Hi.
    destruct (credentials a !! i) as [r0|]; [|done]. cbn in Hi. injection Hi as <-.
    change (has_session session r0 && has_scope scope r0 && unrevoked r0)
      with (active_in session scope r0) in Hr.
    destruct (active_in session scope r0) eqn:E; [by rewrite active_revoke in Hr|eauto]. }
  assert (Hslot : forall r0, active_in s c r0 = true -> active_in session scope r0 = false ->
    String.eqb session s && String.eqb scope c = true -> False).
  { intros r0 H H' [->%String.eqb_eq ->%String.eqb_eq]%andb_prop. congruence. }
  apply lookup_insert_Some in H1 as [[<- <-]|[Hn1 H1]];
    apply lookup_insert_Some in H2 as [[<- <-]|[Hn2 H2]]; [done| | |].
  - exfalso. rewrite active_record in A1. destruct (Hold _ _ H2 A2) as (r0 & _ & B & C). eauto.
  - exfalso. rewrite active_record in A2. destruct (Hold _ _ H1 A1) as (r0 & _ & B & C). eauto.
  - destruct (Hold _ _ H1 A1) as (ra & Ha1 & Ba & _), (Hold _ _ H2 A2) as (rb & Hb1 & Bb & _).
    by eapply Ha.
Qed.

Lemma stepping_put_credentials {B} Q a cs (k : IM B) w :
  Q a (IngestMem cs) -> Resp keeps k -> Stepping Q a (put_credentials cs ;; persist ;; k) w.
Proof.
  intros HQ Hk.
  intros Hw Hv.
  change ((put_credentials cs ;; persist ;; k) w) with (((put_credentials cs ;; persist) ;; k) w).
  apply (stepping_tail Q); [|by intros _|done|done]. by apply stepping_commit.
Qed.

Lemma stepping_put_alone Q a cs w :
  Q a (IngestMem cs) -> Stepping Q a (put_credentials cs ;; persist) w.
Proof. intros HQ. by apply stepping_commit. Qed.

Lemma issue_stepped a b c d e f : Stepped keeps_one (issue a b c d e f).
Proof.
  unfold issue. do 8 (apply stepped_bind; [apply _|intros ? ? ? _]).
  apply stepped_tail; [|intros; apply _]. apply stepped_locked. intros w' m.
  apply stepping_get_mem. apply stepping_put_alone. apply issue_keeps_one.
Qed.

Lemma find_record {V} (P : string * V -> bool) (m : gmap string V) k v :
  List.find P (sorted_records m) = Some (k, v) -> m !! k = Some v /\ P (k, v) = true.
Proof.
  intros H. apply List.find_some in H as [Hin HP]. split; [|done].
  by apply elem_of_sorted_records, list_elem_of_In.
Qed.

Lemma verify_stepped a b c d e : Stepped keeps_one (verify a b c d e).
Proof.
  unfold verify. apply stepped_bind; [apply _|intros ? t ? _]. cbv zeta.
  destruct (_ || _); [apply stepped_keeps, _|]. apply stepped_locked. intros w' m.
  apply stepping_get_mem. destruct (List.find _ _) as [[id r]|] eqn:Hf; [|apply stepping_keeps, _].
  apply find_record in Hf as [Hr _]. apply stepping_put_credentials; [|apply _].
  apply one_active_sub. intros id' r'. cbn [credentials]. intros [[<- <-]|[_ H']]%lookup_insert_Some.
  - exists r. split; [done|]. intros s' c'. by rewrite active_insert.
  - eauto.
Qed.

Lemma revoke_stepped a b : Stepped keeps_one (revoke a b).
Proof.
  unfold revoke. apply stepped_locked. intros w' m. apply stepping_get_mem.
  destruct (credentials m !! a) as [r|] eqn:Hr; [|apply stepping_keeps, _].
  apply stepping_guard. intros _. destruct (unrevoked r); [|apply stepping_keeps, _].
  apply stepping_bind; [apply _|intros t w1 _]. apply stepping_put_credentials; [|apply _].
  apply one_active_sub. intros id' r'. cbn [credentials].
  intros [[<- <-]|[_ H']]%lookup_insert_Some; [|eauto].
  exists r. split; [done|]. intros s' c'. by rewrite active_revoke.
Qed.

Lemma revoke_session_stepped a b : Stepped keeps_one (revoke_session a b).
Proof.
  unfold revoke_session. apply stepped_bind; [apply _|intros ? t ? _].
  apply stepped_locked. intros w' m. apply stepping_get_mem. cbv zeta.
  destruct (0 <? _); [|apply stepping_keeps, _].
  apply stepping_put_credentials; [|apply _]. apply one_active_sub.
  intros id' r'. cbn [credentials]. rewrite lookup_fmap.
  destruct (credentials m !! id') as [r|]; [|done]. intros [= <-]. exists r. split; [done|].
  intros s c. destruct (_ && _); [by rewrite active_revoke|done].
Qed.

Lemma run_ingest_stepped op : Stepped keeps_one (run_ingest op).
Proof.
  destruct op; cbn [run_ingest]; (apply stepped_tail; [|intros; apply _]).
  - apply issue_stepped.
  - apply verify_stepped.
  - apply revoke_stepped.
  - apply revoke_session_stepped.
  - apply stepped_keeps. unfold active_for_session. solve_resp.
  - apply stepped_keeps. unfold get_credential. solve_resp.
Qed.

Lemma run_ingests_one ops w :
  (forall a, view w = Some a -> one_active a) ->
  forall a, view (run_ingests ops w) = Some a -> one_active a.
Proof.
  revert w. induction ops as [|op ops IH]; intros w Hw a Ha; [by apply Hw|].
  apply (IH (run_ingest op w).2); [|exact Ha].
  intros a1 Ha1. pose proof (run_ingest_stepped op w) as Hs. unfold stepped in Hs.
  destruct (view w) as [a0|] eqn:Hv; [|congruence].
  destruct Hs as [H|[(a2 & H & HQ)|(_ & _ & H)]]; [| |congruence].
  - apply Hw. congruence.
  - assert (a2 = a1) as <- by congruence. by apply HQ, Hw.
Qed.

(** ** What a verification finds *)
Lemma verify_some u s p now sc w pub w' :
  verify u s p now sc w = (Ok (Some pub), w') ->
  exists a id r t, view w = Some a /\ credentials a !! id = Some r /\
    accepts u (py_lower p) sc (_digest s) t r = true /\
    is_finite t = true /\ flt t fzero = false /\
    pub = public_record (<["last_authenticated_at" := VFloat t]> r) /\
    view w' = Some (IngestMem (<[id := <["last_authenticated_at" := VFloat t]> r]> (credentials a))).
Proof.
  unfold verify. intros H. apply bind_ok in H as (t & w0 & Ht & H).
  pose proof (reads_run _ _ _ _ Ht) as (_ & Hv0 & _). apply runtime_ok in Ht as [Hf Hn].
  cbv zeta in H. destruct (_ || _) in H; [done|].
  apply locked_ok in H as (w1 & Hv & _ & _ & _ & _ & H). rewrite Hv0 in Hv.
  apply bind_ok in H as (m & w2 & Hm & H). injection Hm as <- <-.
  destruct (List.find _ _) as [[id r]|] eqn:Hfind; [|done].
  apply find_record in Hfind as [Hr Hacc]. apply bind_ok in H as (? & w2 & Hp & H).
  injection Hp as <- <-. apply bind_ok in H as (? & w3 & Hp & H).
  apply ret_ok in H as [Hpub ->]. injection Hpub as ->.
  apply persist_ok in Hp as (_ & Hv' & _). exists (mem w1), id, r, t. done.
Qed.

Lemma accepts_spec u p sc cand t r :
  accepts u p sc cand t r = true ->
  py_get r "username" = VStr u /\ has_scope sc r = true /\ unrevoked r = true /\
  expired r t = false /\ py_get r "secret_sha256" = VStr cand.
Proof.
  unfold accepts. intros H. split_bools.
  assert (Hs : forall v s, py_eq v (VStr s) = true -> v = VStr s)
    by (intros [] ?; try done; by intros ->%String.eqb_eq).
  repeat split; auto.
Qed.

Lemma ingest_string_ok r k x : ingest_nonempty_string r k = Ok x -> py_get r k = VStr x.
Proof.
  unfold ingest_nonempty_string. destruct (py_get r k); try done.
  destruct (str_empty s); [done|]. by intros [= ->].
Qed.

(** The record of an accepted credential carries its user name as session. *)
Lemma credential_username id r :
  validate_credential id (VDict r) = Ok tt -> py_get r "username" = py_get r "session_id".
Proof.
  cbn [validate_credential]. intros H. do 2 (apply result_bind_ok in H as (? & ? & H)).
  apply result_bind_ok in H as (sess & Hs & H). apply result_bind_ok in H as (? & ? & H).
  apply result_bind_ok in H as (user & Hu & H). apply result_bind_ok in H as (? & ? & H).
  apply result_bind_ok in H as (? & ? & H). apply result_bind_ok in H as (? & Heq & H).
  apply raise_if_ok, negb_false_iff, String.eqb_eq in Heq. rewrite Heq in Hu.
  apply ingest_string_ok in Hs as ->. by apply ingest_string_ok in Hu as ->.
Qed.

(** ** Recording an authentication keeps the store valid *)
Lemma py_get_ne (r : dict) k k' v : k <> k' -> py_get (<[k := v]> r) k' = py_get r k'.
Proof. intros H. unfold py_get. by rewrite lookup_insert_ne. Qed.

Lemma finite_float t : is_finite t = true -> _finite_argument (VFloat t) = Ok t.
Proof. intros H. unfold _finite_argument. cbn. by rewrite H. Qed.

Lemma validate_last id r t :
  validate_credential id (VDict r) = Ok tt -> is_finite t = true -> flt t fzero = false ->
  validate_credential id (VDict (<["last_authenticated_at" := VFloat t]> r)) = Ok tt.
Proof.
  intros H Hf Hn. cbn [validate_credential check_each foldr] in *.
  unfold _optional_finite_number, py_get_or in *.
  unfold ingest_nonempty_string, ingest_finite_number in *.
  assert (Hget : Forall (fun k => forall v, py_get (<["last_authenticated_at" := v]> r) k = py_get r k)
    ["id"; "session_id"; "user_id"; "username"; "secret_sha256"; "protocols"; "created_at";
     "expires_at"; "revoked_at"]) by (repeat constructor; intros; by apply py_get_ne).
  rewrite !Forall_cons in Hget. destruct_and! Hget.
  repeat match goal with E : forall v, py_get _ _ = _ |- _ => rewrite E; clear E end.
  rewrite lookup_insert_ne by done.
  repeat (apply result_bind_ok in H as (? & ? & H); apply result_bind_ok; eexists;
          split; [eassumption|]).
  unfold py_get. rewrite lookup_insert_eq. cbn [default from_option Datatypes.id is_null].
  by rewrite finite_float; [cbn; rewrite Hn|].
Qed.

Lemma validate_put_credential (cs : gmap string dict) id r :
  _validate_credentials (of_dicts cs) = Ok tt -> validate_credential id (VDict r) = Ok tt ->
  _validate_credentials (of_dicts (<[id := r]> cs)) = Ok tt.
Proof.
  unfold _validate_credentials. rewrite !check_all_ok. unfold of_dicts. rewrite fmap_insert.
  intros H Hr. by apply map_Forall_insert_2.
Qed.

Lemma serializable_put_credential (cs : gmap string dict) id r :
  serializable (af_encode (IngestMem cs)) = true -> Serializable r ->
  serializable (af_encode (IngestMem (<[id := r]> cs))) = true.
Proof.
  cbn [af_encode ingest_format credentials]. rewrite !serializable_dict. intros H Hr.
  assert (Hc : serializable (VDict (of_dicts cs)) = true)
    by (by apply (Serializable_lookup _ "credentials" _ H), lookup_singleton_eq).
  apply serializable_dict in Hc. intros k v [<- <-]%lookup_singleton_Some.
  apply serializable_dict. unfold of_dicts. rewrite fmap_insert.
  apply Serializable_insert; [by apply serializable_dict|exact Hc].
Qed.

Lemma serializable_credential (cs : gmap string dict) id r :
  serializable (af_encode (IngestMem cs)) = true -> cs !! id = Some r -> Serializable r.
Proof.
  cbn [af_encode ingest_format credentials]. rewrite serializable_dict. intros H Hr.
  assert (Hc : serializable (VDict (of_dicts cs)) = true)
    by (by apply (Serializable_lookup _ "credentials" _ H), lookup_singleton_eq).
  apply serializable_dict in Hc. apply serializable_dict.
  apply (Serializable_lookup _ id _ Hc). unfold of_dicts. by rewrite lookup_fmap, Hr.
Qed.

(** ** Issuing *)
Lemma issue_ok session user scope ps ttl now w pub secret w1 :
  issue session user scope ps ttl now w = (Ok (pub, secret), w1) ->
  exists a id norm t e,
    let r := credential_record id session user scope (_digest secret) norm t e in
    let cs := <[id := r]> (rotate session scope t (credentials a)) in
    view w = Some a /\ view w1 = Some (IngestMem cs) /\ pub = public_record r /\
    _normalize_protocols ps = Ok norm /\ str_in scope CREDENTIAL_SCOPES = true /\
    _validate_credentials (of_dicts cs) = Ok tt /\
    serializable (af_encode (IngestMem cs)) = true.
Proof.
  unfold issue. intros H. apply bind_ok in H as (tv & w2 & Ht & H). apply lift_ok in Ht as [_ ->].
  apply bind_ok in H as (? & w2 & Hg & H). apply guard_err_ok in Hg as [_ ->].
  apply bind_ok in H as (? & w2 & Hg & H). apply guard_err_ok in Hg as [Hsc ->].
  apply bind_ok in H as (norm & w2 & Hn & H). apply lift_ok in Hn as [Hn ->].
  apply bind_ok in H as (t & w2 & H1 & H). apply bind_ok in H as (e & w3 & H2 & H).
  apply bind_ok in H as (sec & w4 & H3 & H). apply bind_ok in H as (id & w5 & H4 & H).
  pose proof (reads_run _ _ _ _ H1) as (_ & E1 & _).
  pose proof (reads_run _ _ _ _ H2) as (_ & E2 & _).
  pose proof (reads_run _ _ _ _ H3) as (_ & E3 & _).
  pose proof (reads_run _ _ _ _ H4) as (_ & E4 & _).
  cbv zeta in H. apply bind_ok in H as (? & w6 & H & Hr). apply ret_ok in Hr as [Hr ->].
  injection Hr as -> ->.
  apply locked_ok in H as (w7 & Hv & _ & _ & _ & _ & H).
  apply bind_ok in H as (m & w8 & Hm & H). injection Hm as <- <-.
  apply bind_ok in H as (? & w8 & Hp & H). injection Hp as _ <-.
  pose proof (persist_ok_serializable _ _ _ H) as Hser. apply persist_ok in H as (Hval & Hv' & _).
  exists (mem w7), id, norm, t, e. cbv zeta. split; [congruence|]. split; [exact Hv'|].
  split; [done|]. split; [done|]. split; [by apply negb_false_iff in Hsc|]. split; [exact Hval|].
  exact Hser.
Qed.

(** In the store that [issue] commits, only the new record is active in its slot. *)
Lemma issued_slot session scope t cs id r id' r' :
  <[id := r]> (rotate session scope t cs) !! id' = Some r' ->
  active_in session scope r' = true -> id' = id /\ r' = r.
Proof.
  intros [[-> ->]|[_ H]]%lookup_insert_Some Ha; [done|]. exfalso. unfold rotate in H.
  rewrite lookup_fmap in H. destruct (cs !! id') as [r0|]; [|done]. cbn in H. injection H as <-.
  change (has_session session r0 && has_scope scope r0 && unrevoked r0)
    with (active_in session scope r0) in Ha.
  destruct (active_in session scope r0) eqn:E; [by rewrite active_revoke in Ha|congruence].
Qed.

(** What is accepted under a name is an active credential of that Session. *)
Lemma accepts_active id u p sc cand t r :
  validate_credential id (VDict r) = Ok tt -> accepts u p sc cand t r = true ->
  active_in u sc r = true.
Proof.
  intros Hv (Hu & Hs & Hn & _ & _)%accepts_spec. unfold active_in. rewrite Hs, Hn.
  unfold has_session. rewrite <- (credential_username id r Hv), Hu. unfold py_eq.
  by rewrite String.eqb_refl.
Qed.

Lemma valid_credential (cs : gmap string dict) id r :
  _validate_credentials (of_dicts cs) = Ok tt -> cs !! id = Some r ->
  validate_credential id (VDict r) = Ok tt.
Proof.
  unfold _validate_credentials. rewrite check_all_ok. intros H Hr. apply H.
  unfold of_dicts. by rewrite lookup_fmap, Hr.
Qed.

Lemma issued_accepted session user scope secret norm t e id p now :
  p ∈ norm -> expired (credential_record id session user scope (_digest secret) norm t e) now = false ->
  accepts session p scope (_digest secret) now
    (credential_record id session user scope (_digest secret) norm t e) = true.
Proof.
  intros Hp He. unfold accepts. rewrite He.
  unfold has_scope, unrevoked, credential_record, py_get, py_get_or. dict_lookup.
  cbn [default from_option Datatypes.id is_null negb as_list]. unfold py_eq at 1 2 4.
  rewrite !String.eqb_refl, !andb_true_r. cbn [andb]. apply existsb_exists. exists (VStr p). split.
  - by apply list_elem_of_In, list_elem_of_fmap; eauto.
  - unfold py_eq. apply String.eqb_refl.
Qed.

Lemma serializable_last (r : dict) t :
  Serializable r -> is_finite t = true ->
  Serializable (<["last_authenticated_at" := VFloat t]> r).
Proof. intros. by apply Serializable_insert. Qed.

(** A verification that finds a record answers when the disk works. *)
Lemma verify_run u s p t f sc w cs id r :
  no_faults w -> view w = Some (IngestMem cs) ->
  checked_timestamp t = Ok f -> is_finite f = true -> flt f fzero = false ->
  str_in (py_lower p) SUPPORTED_PROTOCOLS = true -> str_in sc CREDENTIAL_SCOPES = true ->
  u <> "" -> s <> "" ->
  _validate_credentials (of_dicts cs) = Ok tt ->
  serializable (af_encode (IngestMem cs)) = true ->
  cs !! id = Some r -> accepts u (py_lower p) sc (_digest s) f r = true ->
  exists pub w', verify u s p (Some t) sc w = (Ok (Some pub), w').
Proof.
  intros Hnf Hv Ht Hfin Hneg Hp Hsc Hu Hs Hval Hser Hr Hacc. unfold verify, _runtime_timestamp.
  rewrite Ht. unfold lift. rewrite (bind_run _ _ _ f w eq_refl). cbv zeta. rewrite Hp, Hsc.
  apply str_empty_false in Hu, Hs. rewrite Hu, Hs. cbn [negb orb].
  set (P := fun q : string * dict => accepts u (py_lower p) sc (_digest s) f q.2).
  destruct (List.find P (sorted_records cs)) as [[id' r']|] eqn:Hfind.
  - pose proof Hfind as Hf2. apply find_record in Hfind as [Hr' Hacc'].
    exists (public_record (<["last_authenticated_at" := VFloat f]> r')).
    destruct (locked_eval (fun _ => True) (m ← get_mem;
      match List.find P (sorted_records (credentials m)) with
      | Some (credential_id, record) =>
          put_credentials (<[credential_id := <["last_authenticated_at" := VFloat f]> record]>
            (credentials m)) ;; persist ;;
          mret (Some (public_record (<["last_authenticated_at" := VFloat f]> record)))
      | None => mret None
      end) w (IngestMem cs) (Ok (Some (public_record (<["last_authenticated_at" := VFloat f]> r')))))
      as (w' & Hw' & _); [done|done|done| |by exists w'].
    intros w1 Hm _ Hnf1 _. rewrite (bind_run get_mem _ _ _ _ eq_refl), Hm. cbn [credentials].
    rewrite Hf2.
    destruct (persist_run (World (IngestMem (<[id' := <["last_authenticated_at" := VFloat f]> r']> cs))
      (file w1) (fuse w1) (environment w1))) as [w2 Hp2].
    + exact Hnf1.
    + apply validate_put_credential; [done|].
      by apply validate_last; [apply (valid_credential cs)| |].
    + apply serializable_put_credential; [done|]. apply serializable_last; [|done].
      by eapply serializable_credential.
    + exists w2. split; [|done]. unfold put_credentials.
      rewrite (bind_run (put_mem _) _ w1 tt _ eq_refl).
      by rewrite (bind_run _ _ _ _ _ Hp2).
  - exfalso. assert (Hin : In (id, r) (sorted_records cs))
      by (by apply list_elem_of_In, elem_of_sorted_records).
    apply (List.find_none _ _ Hfind) in Hin. unfold P in Hin. cbn in Hin. congruence.
Qed.

(** C13: Rotation invariant. Over any history of issuing, verifying and revoking,
    with any I/O failures, a Session never has two active credentials of the same
    scope in the durable state. *)
Theorem at_most_one_active_credential ops w a :
  (forall a0, view w = Some a0 -> one_active a0) ->
  view (run_ingests ops w) = Some a -> one_active a.
Proof. intros Hw Ha. by apply (run_ingests_one ops w). Qed.

Definition demo_ingest : world ingest_mem :=
  World (IngestMem ∅) Missing false
    (Env (fun _ => of_Z 1000) 0 (fun n => String.append "id-" (pretty.pretty n)) 0
         (fun _ => false) 0).

Definition demo_issues : list ingest_op :=
  [OpIssue "s1" "u1" "INGEST" ["rtmp"; "SRT"] (VInt 60) None;
   OpIssue "s1" "u1" "INGEST" ["rtmp"] (VInt 60) None].

Lemma at_most_one_active_credential_witness :
  exists a, view (run_ingests demo_issues demo_ingest) = Some a /\
    size (credentials a) = 2%nat /\ one_active a.
Proof.
  destruct (view (run_ingests demo_issues demo_ingest)) as [a|] eqn:E.
  - exists a. split; [reflexivity|]. split.
    + assert (Hb : match view (run_ingests demo_issues demo_ingest) with
        Some a => Nat.eqb (size (credentials a)) 2 | None => false end = true)
        by (vm_compute; reflexivity).
      rewrite E in Hb. by apply Nat.eqb_eq.
    + apply (at_most_one_active_credential demo_issues demo_ingest a); [|exact E].
      intros a0 Ha0 s c id1 r1 id2 r2 H1. injection Ha0 as <-. discriminate H1.
  - exfalso. assert (Hb : match view (run_ingests demo_issues demo_ingest) with
        Some _ => true | None => false end = true) by (vm_compute; reflexivity).
    rewrite E in Hb. discriminate Hb.
Defined.

(** The issued secret is the one that works. After a credential is issued, in
    any later world with that durable state: whatever verifies under that Session
    and scope has the digest of the new secret, so every earlier secret is dead;
    and the new secret verifies, for each of its protocols, until it expires. *)
Theorem issued_secret_is_the_only_one session user scope ps ttl now w pub secret w1 w2 :
  issue session user scope ps ttl now w = (Ok (pub, secret), w1) -> view w2 = view w1 ->
  (forall secret' p now' pub' w3,
     verify session secret' p now' scope w2 = (Ok (Some pub'), w3) ->
     _digest secret' = _digest secret) /\
  (forall p t f, no_faults w2 -> session <> "" -> secret <> "" ->
     (exists norm, _normalize_protocols ps = Ok norm /\ py_lower p ∈ norm) ->
     checked_timestamp t = Ok f -> is_finite f = true -> flt f fzero = false ->
     expired pub f = false ->
     exists pub' w3, verify session secret p (Some t) scope w2 = (Ok (Some pub'), w3)).
Proof.
  intros (a & id & norm & t0 & e & Hv & Hv1 & -> & Hnorm & Hscope & Hval & Hser)%issue_ok Hv2.
  rewrite Hv1 in Hv2. split.
  - intros secret' p now' pub' w3 (a' & id' & r' & t & Ha' & Hr' & Hacc & _)%verify_some.
    rewrite Hv2 in Ha'. injection Ha' as <-. cbn [credentials] in Hr'.
    pose proof (accepts_active id' _ _ _ _ _ _ (valid_credential _ _ _ Hval Hr') Hacc) as Hact.
    destruct (issued_slot _ _ _ _ _ _ _ _ Hr' Hact) as [-> ->].
    apply accepts_spec in Hacc as (_ & _ & _ & _ & Hd). unfold credential_record, py_get in Hd.
    revert Hd. dict_lookup. by intros [= ->].
  - intros p t f Hnf Hsess Hsec (norm' & Hn & Hp) Ht Hfin Hneg Hexp.
    rewrite Hnorm in Hn. injection Hn as <-.
    refine (verify_run session secret p t f scope w2 _ id _ Hnf Hv2 Ht Hfin Hneg _ Hscope Hsess
      Hsec Hval Hser (lookup_insert_eq _ _ _) _).
    + unfold _normalize_protocols in Hnorm. destruct (_ || _) eqn:E in Hnorm; [discriminate Hnorm|].
      injection Hnorm as <-. apply orb_false_iff in E as [_ E]. apply negb_false_iff in E.
      rewrite forallb_forall in E. apply E. apply list_elem_of_In. exact Hp.
    + apply issued_accepted; [exact Hp|]. rewrite <- Hexp. unfold expired, public_record, py_get.
      rewrite lookup_delete_ne by discriminate. reflexivity.
Qed.

Lemma issued_secret_is_the_only_one_witness :
  exists pub w1,
    issue "s1" "u1" "INGEST" ["rtmp"; "SRT"] (VInt 60) None demo_ingest = (Ok (pub, "id-0"), w1) /\
    (exists pub' w3, verify "s1" "id-0" "RTMP" (Some (VInt 1059)) "INGEST" w1 = (Ok (Some pub'), w3)).
Proof.
  destruct (issue "s1" "u1" "INGEST" ["rtmp"; "SRT"] (VInt 60) None demo_ingest)
    as [[[pub secret]|e] w1] eqn:E.
  - exists pub, w1.
    assert (Hsec : secret = "id-0").
    { assert (Hb : match (issue "s1" "u1" "INGEST" ["rtmp"; "SRT"] (VInt 60) None demo_ingest).1
        with Ok (_, s) => String.eqb s "id-0" | Err _ => false end = true)
        by (vm_compute; reflexivity).
      rewrite E in Hb. by apply String.eqb_eq. }
    subst secret. split; [reflexivity|].
    destruct (issued_secret_is_the_only_one _ _ _ _ _ _ _ _ _ w1 w1 E eq_refl) as [_ H].
    apply (H "RTMP" (VInt 1059) (of_Z 1059)).
    + intros n. replace w1 with (snd (Ok (pub, "id-0"), w1)) by reflexivity.
      rewrite <- E. vm_compute. reflexivity.
    + discriminate.
    + discriminate.
    + exists ["rtmp"; "srt"]. split; [vm_compute; reflexivity|].
      apply (bool_decide_unpack _). vm_compute. exact I.
    + vm_compute. reflexivity.
    + vm_compute. reflexivity.
    + vm_compute. reflexivity.
    + assert (Hb : match (issue "s1" "u1" "INGEST" ["rtmp"; "SRT"] (VInt 60) None demo_ingest).1
        with Ok (p, _) => expired p (of_Z 1059) | Err _ => true end = false)
        by (vm_compute; reflexivity).
      rewrite E in Hb. exact Hb.
  - exfalso. assert (Hb : is_ok (issue "s1" "u1" "INGEST" ["rtmp"; "SRT"] (VInt 60) None
      demo_ingest).1 = true) by (vm_compute; reflexivity).
    rewrite E in Hb. discriminate Hb.
Defined.

(** ** Revocation *)
Lemma revoke_session_ok session now w n w1 :
  revoke_session session now w = (Ok n, w1) ->
  exists a, view w = Some a /\ 0 <= n /\
    (forall cs, view w1 = Some cs ->
       forall id r, credentials cs !! id = Some r -> has_session session r = true ->
       unrevoked r = false).
Proof.
  unfold revoke_session. intros H. apply bind_ok in H as (t & w0 & Ht & H).
  pose proof (reads_run _ _ _ _ Ht) as (_ & Hv0 & _).
  apply locked_ok in H as (w2 & Hv & Hv2 & _ & _ & _ & H). rewrite Hv0 in Hv, Hv2.
  apply bind_ok in H as (m & w3 & Hm & H). injection Hm as <- <-. cbv zeta in H.
  apply bind_ok in H as (? & w3 & Hp & H). injection Hp as _ <-.
  apply bind_ok in H as (? & w3 & Hp & H). apply ret_ok in H as [-> ->].
  exists (mem w2). split; [done|]. split; [lia|]. intros cs Hcs id r Hr Hsess.
  destruct (0 <? _) eqn:Hn in Hp.
  - apply persist_ok in Hp as (_ & Hv3 & _). rewrite Hv3 in Hcs. injection Hcs as <-.
    cbn in Hr. rewrite lookup_fmap in Hr. destruct (credentials (mem w2) !! id) as [r0|]; [|done].
    cbn in Hr. injection Hr as <-. destruct (has_session session r0 && unrevoked r0) eqn:E.
    + apply unrevoked_revoke.
    + apply andb_false_iff in E as [E|E]; [congruence|done].
  - apply ret_ok in Hp as [_ ->].
    assert (Hcs' : Some cs = Some (mem w2)).
    { rewrite <- Hcs, <- Hv, <- Hv2. unfold view. reflexivity. }
    injection Hcs' as ->. apply Z.ltb_ge in Hn.
    destruct (unrevoked r) eqn:Hu; [|done]. exfalso.
    assert (Hin : filter (fun p : string * dict => (has_session session p.2 && unrevoked p.2) = true)
      (credentials (mem w2)) !! id = Some r).
    { apply map_lookup_filter_Some. split; [done|]. cbn. by rewrite Hsess, Hu. }
    assert (Hz : size (filter (fun p : string * dict => (has_session session p.2 && unrevoked p.2) = true)
      (credentials (mem w2))) = 0%nat) by lia.
    apply map_size_empty_inv in Hz. by rewrite Hz, lookup_empty in Hin.
Qed.

Lemma ingest_view_valid (w : world ingest_mem) a :
  view w = Some a -> _validate_credentials (of_dicts (credentials a)) = Ok tt.
Proof.
  unfold view. intros Hv. destruct (file w) as [| |r]; [|discriminate Hv|].
  { destruct (fuse w); [discriminate Hv|]. by injection Hv as <-. }
  destruct (load_json_authority r) as [v|]; [|discriminate Hv].
  cbn [af_decode ingest_format] in Hv. unfold decode_credentials in Hv.
  destruct v as [| | | | | |d]; try discriminate Hv.
  destruct (d !! "credentials") as [[| | | | | |cs]|]; try discriminate Hv.
  destruct (_validate_credentials cs) as [[]|] eqn:Hval; [|discriminate Hv].
  injection Hv as <-. cbn [credentials]. rewrite <- Hval. f_equal.
  unfold _validate_credentials in Hval. rewrite check_all_ok in Hval.
  apply map_eq. intros k. unfold of_dicts, as_dicts. rewrite lookup_fmap, lookup_omap.
  destruct (cs !! k) as [v|] eqn:Hk; [|reflexivity]. specialize (Hval k v Hk).
  destruct v; try discriminate Hval. reflexivity.
Qed.

(** Revoking a Session is final for its credentials: afterwards no secret
    verifies under that Session, in any scope and protocol and at any time,
    whatever the I/O failures, until a new credential is issued. *)
Theorem revoked_session_rejects_every_secret session now w n w1 w2 :
  revoke_session session now w = (Ok n, w1) -> view w2 = view w1 ->
  forall secret p now' scope pub w3,
    verify session secret p now' scope w2 <> (Ok (Some pub), w3).
Proof.
  intros (a & Hv & _ & Hrev)%revoke_session_ok Hv2 secret p now' scope pub w3 H.
  apply verify_some in H as (a' & id & r & t & Ha' & Hr & Hacc & _).
  rewrite Hv2 in Ha'. specialize (Hrev _ Ha' id r Hr).
  assert (Hval : validate_credential id (VDict r) = Ok tt).
  { apply (valid_credential (credentials a')); [|done]. by apply (ingest_view_valid w1). }
  pose proof (accepts_active _ _ _ _ _ _ _ Hval Hacc) as Hact. unfold active_in in Hact.
  apply andb_prop in Hact as [Hact Hu]. apply andb_prop in Hact as [Hs _].
  specialize (Hrev Hs). congruence.
Qed.

Lemma revoked_session_rejects_every_secret_witness :
  exists n w1, revoke_session "s1" None (run_ingests demo_issues demo_ingest) = (Ok n, w1) /\
    forall secret p now' scope pub w3,
      verify "s1" secret p now' scope w1 <> (Ok (Some pub), w3).
Proof.
  destruct (revoke_session "s1" None (run_ingests demo_issues demo_ingest)) as [[n|e] w1] eqn:E.
  - exists n, w1. split; [reflexivity|].
    exact (revoked_session_rejects_every_secret "s1" None _ n w1 w1 E eq_refl).
  - exfalso. assert (Hb : is_ok (revoke_session "s1" None
      (run_ingests demo_issues demo_ingest)).1 = true) by (vm_compute; reflexivity).
    rewrite E in Hb. discriminate Hb.
Defined.
