(* ===== verification/Entitlements.v ===== *)
(** * Entitlements (entitlement_store.py)

    The store of the number of concurrent Sessions each user may hold:
    [EntitlementStore] is the authority protocol of [Authority] with this format.
    The environment variable of the default limit is an argument, [default_limit]. *)

From S2P Require Import Prelude PyFloat PyValue Json Effects Authority.

Definition DEFAULT_PLAN : string := "default".
Definition DEFAULT_MAX_CONCURRENT_SESSIONS : Z := 1.

(** ** Validators *)
Definition entitlement_nonempty_string (record : dict) (field : string) : result string :=
  match py_get record field with
  | VStr s => if str_empty s then Err EntitlementStateError else Ok s
  | _ => Err EntitlementStateError
  end.

Definition entitlement_nonnegative_int (record : dict) (field : string) : result Z :=
  match nonneg_int (py_get record field) with
  | Some n => Ok n
  | None => Err EntitlementStateError
  end.

Definition _normalize_timestamp (v : value) : result float :=
  match nonneg_number v with Some f => Ok f | None => Err EntitlementStateError end.

Definition _require_timestamp (record : dict) (field : string) : result float :=
  _normalize_timestamp (py_get record field).

(** [raw] is [os.getenv("IRLIGHT_DEFAULT_MAX_CONCURRENT_SESSIONS")]. *)
Definition _default_limit (raw : option string) : result Z :=
  match raw with
  | None => Ok DEFAULT_MAX_CONCURRENT_SESSIONS
  | Some s => match py_int (VStr s) with
              | Ok n => Ok (Z.max 0 n)
              | Err _ => Err EntitlementStateError
              end
  end.

(** The body of the loop of [_validate_entitlements]. *)
Definition validate_entitlement (user_id : string) (v : value) : result unit :=
  match v with
  | VDict record =>
      raise_if (str_empty user_id) EntitlementStateError ;;
      stored_id ← entitlement_nonempty_string record "id";
      stored_user_id ← entitlement_nonempty_string record "user_id";
      plan ← entitlement_nonempty_string record "plan";
      raise_if (py_blank plan) EntitlementStateError ;;
      entitlement_nonnegative_int record "max_concurrent_sessions" ;;
      _require_timestamp record "updated_at" ;;
      raise_if (negb (String.eqb stored_user_id user_id)) EntitlementStateError ;;
      raise_if (negb (String.eqb stored_id (String.append "user:" user_id)))
        EntitlementStateError
  | _ => Err EntitlementStateError
  end.

Definition _validate_entitlements (entitlements : dict) : result unit :=
  check_all validate_entitlement entitlements.

(** ** State and file format *)
Record entitlement_mem : Type := EntitlementMem { entitlements : gmap string dict }.

Definition decode_entitlements (payload : value) : result entitlement_mem :=
  match payload with
  | VDict raw =>
      match py_get raw "entitlements" with
      | VDict es => _validate_entitlements es ;; Ok (EntitlementMem (as_dicts es))
      | _ => Err EntitlementStateError
      end
  | _ => Err EntitlementStateError
  end.

#[export] Instance entitlement_format : AuthorityFormat entitlement_mem := {|
  af_error := EntitlementStateError;
  af_fresh := EntitlementMem ∅;
  af_decode := decode_entitlements;
  af_validate := fun m => _validate_entitlements (of_dicts (entitlements m));
  af_encode := fun m => VDict {[ "entitlements" := VDict (of_dicts (entitlements m)) ]};
  af_committed := id
|}.

#[export] Instance entitlement_laws : AuthorityLaws entitlement_mem.
Proof.
  split. intros [m] Hv. cbn in Hv |- *. unfold py_get. rewrite lookup_singleton_eq.
  cbn. rewrite Hv. cbn. by rewrite as_of_dicts.
Qed.

(** ** Operations *)
Abbreviation EM := (M (world entitlement_mem)).

Definition default_entitlement (user_id : string) (limit : Z) : dict :=
  list_to_map
    [("id", VStr (String.append "default:" user_id)); ("user_id", VStr user_id);
     ("plan", VStr DEFAULT_PLAN); ("max_concurrent_sessions", VInt limit);
     ("updated_at", VNull)].

Definition get_entitlement (default_limit : option string) (user_id : string) : EM dict :=
  locked (
    m ← get_mem;
    match entitlements m !! user_id with
    | None => limit ← lift (_default_limit default_limit);
              mret (default_entitlement user_id limit)
    | Some stored => mret stored
    end).

Definition entitlement_record (user_id plan : string) (limit : Z) (updated_at : float) : dict :=
  list_to_map
    [("id", VStr (String.append "user:" user_id)); ("user_id", VStr user_id);
     ("plan", VStr plan); ("max_concurrent_sessions", VInt limit);
     ("updated_at", VFloat updated_at)].

Definition set_entitlement (user_id max_concurrent_sessions plan : value) : EM dict :=
  user_id ← lift match user_id with
                 | VStr s => if str_empty s then Err ValueError else Ok s
                 | _ => Err ValueError
                 end;
  limit ← lift match nonneg_int max_concurrent_sessions with
               | Some n => Ok n
               | None => Err ValueError
               end;
  plan ← lift match plan with
              | VStr s => if py_blank s then Err ValueError else Ok s
              | _ => Err ValueError
              end;
  locked (
    now ← time_time;
    updated_at ← lift (_normalize_timestamp (VFloat now));
    let entitlement := entitlement_record user_id plan limit updated_at in
    m ← get_mem;
    put_mem (EntitlementMem (<[user_id := entitlement]> (entitlements m))) ;;
    persist ;;
    mret entitlement).

(** ** What the operations do *)
Lemma entitlements_view_valid (w : world entitlement_mem) a :
  view w = Some a -> _validate_entitlements (of_dicts (entitlements a)) = Ok tt.
Proof.
  unfold view. destruct (file w) as [| |r]; [by destruct (fuse w); intros [= <-]|done|].
  destruct (load_json_authority r) as [v|]; [|done]. cbn.
  destruct v as [| | | | | |d]; try done. cbn. destruct (py_get d "entitlements") as [| | | | | |es]; try done.
  cbn. destruct (_validate_entitlements es) as [[]|] eqn:Hv; [|done]. intros [= <-]. cbn.
  unfold _validate_entitlements in *. apply check_all_ok. rewrite check_all_ok in Hv.
  intros k v. unfold of_dicts, as_dicts. rewrite lookup_fmap, lookup_omap.
  destruct (es !! k) as [u|] eqn:E; [|done]. destruct u; try done. cbn. intros [= <-].
  by apply Hv.
Qed.

Lemma nonneg_int_ok v n : nonneg_int v = Some n -> v = VInt n /\ 0 <= n.
Proof. destruct v; try done. cbn. destruct (z <? 0) eqn:E; [done|]. intros [= <-]. split; [done|lia]. Qed.

Lemma validate_entitlement_ok user record :
  validate_entitlement user (VDict record) = Ok tt ->
  exists n, py_get record "user_id" = VStr user /\
    py_get record "max_concurrent_sessions" = VInt n /\ 0 <= n.
Proof.
  cbn. intros H. inv_result.
  match goal with
  | H1 : entitlement_nonempty_string record "user_id" = Ok ?s, H2 : negb (String.eqb ?s user) = false,
    H3 : entitlement_nonnegative_int record _ = Ok ?n |- _ =>
      unfold entitlement_nonempty_string in H1; unfold entitlement_nonnegative_int in H3;
      destruct (py_get record "user_id") eqn:Hu; try done;
      destruct (str_empty _) in H1; [done|]; injection H1 as ->;
      apply negb_false_iff, String.eqb_eq in H2 as ->;
      destruct (nonneg_int _) eqn:Hn in H3; [|done]; injection H3 as ->;
      apply nonneg_int_ok in Hn as [? ?]
  end. eauto.
Qed.

(** What the durable state grants a user. *)
Definition entitled (default_limit : option string) (a : entitlement_mem) (user_id : string)
    : result dict :=
  match entitlements a !! user_id with
  | Some record => Ok record
  | None => limit ← _default_limit default_limit; Ok (default_entitlement user_id limit)
  end.

Lemma entitled_not_os_error env a user : entitled env a user <> Err OSError.
Proof.
  unfold entitled. destruct (_ !! _); [done|]. unfold _default_limit.
  destruct env; [|done]. by destruct (py_int _).
Qed.

Lemma get_entitlement_run env user (w : world entitlement_mem) a :
  no_faults w -> view w = Some a -> (get_entitlement env user w).1 = entitled env a user.
Proof.
  intros Hnf Hv. unfold get_entitlement.
  edestruct (locked_eval (B:=dict) (fun _ => True)) as (w2 & Hr & _);
    [exact Hnf|exact Hv|apply (entitled_not_os_error env a user)| |by rewrite Hr].
  intros w1 Hm _ _ _. exists w1. split; [|done].
  unfold entitled, mbind, M_bind, get_mem. rewrite Hm. destruct (_ !! _); [done|].
  unfold lift. by destruct (_default_limit env).
Qed.

Lemma get_entitlement_ok env user (w : world entitlement_mem) r w' :
  get_entitlement env user w = (Ok r, w') ->
  exists a, view w = Some a /\ entitled env a user = Ok r.
Proof.
  intros (w1 & Hv & _ & _ & _ & _ & Hb)%locked_ok. exists (mem w1). split; [done|].
  apply bind_ok in Hb as (m & w2 & [= <- <-] & Hb). unfold entitled.
  destruct (_ !! _); [by injection Hb as -> _|]. inv_run.
  by match goal with H : _default_limit env = Ok _ |- _ => rewrite H end.
Qed.

Lemma set_entitlement_ok user limit plan (w : world entitlement_mem) r w' :
  set_entitlement user limit plan w = (Ok r, w') ->
  exists s n a, user = VStr s /\ limit = VInt n /\ 0 <= n /\ view w = Some a /\
    py_get r "max_concurrent_sessions" = VInt n /\
    view w' = Some (EntitlementMem (<[s := r]> (entitlements a))).
Proof.
  unfold set_entitlement. intros H.
  apply bind_ok in H as (s & w1 & [Hs ->]%lift_ok & H).
  apply bind_ok in H as (n & w1 & [Hn ->]%lift_ok & H).
  apply bind_ok in H as (p & w1 & [_ ->]%lift_ok & H).
  destruct user; try done. destruct (str_empty _) in Hs; [done|]. injection Hs as ->.
  destruct (nonneg_int limit) eqn:E; [|done]. injection Hn as ->.
  apply nonneg_int_ok in E as [-> ?].
  apply locked_ok in H as (w2 & Hv & Hv2 & _ & _ & _ & Hb).
  apply bind_ok in Hb as (t & w3 & Ht & Hb).
  apply bind_ok in Hb as (u & w4 & [_ ->]%lift_ok & Hb). cbv zeta in Hb.
  apply bind_ok in Hb as (m & w4 & [= <- <-] & Hb).
  apply bind_ok in Hb as ([] & w5 & [= <-] & Hb).
  apply bind_ok in Hb as ([] & w6 & Hp & Hb). apply ret_ok in Hb as [-> ->].
  apply persist_ok in Hp as (_ & Hw & _). cbn in Hw.
  exists s, n, (mem w2). repeat split; try done.
  rewrite Hw. apply time_time_ok in Ht as (_ & -> & _). done.
Qed.

(** ** The theorems *)

(** An entitlement that has been set is the one that is read, for that user and
    no other: in every later world with the same durable state, the user gets the
    stored record, with the limit that was asked for, and every other user gets what
    the state before granted. *)
Theorem entitlement_set_is_read user limit plan w r w1 w2 :
  set_entitlement user limit plan w = (Ok r, w1) -> view w2 = view w1 -> no_faults w2 ->
  exists s n a, user = VStr s /\ limit = VInt n /\ view w = Some a /\
    py_get r "max_concurrent_sessions" = VInt n /\
    forall env s', (get_entitlement env s' w2).1 =
      (if bool_decide (s' = s) then Ok r else entitled env a s').
Proof.
  intros (s & n & a & -> & -> & _ & Hv & Hr & Hw)%set_entitlement_ok Hv2 Hnf.
  exists s, n, a. repeat split; try done. intros env s'.
  rewrite (get_entitlement_run env s' w2 _ Hnf (eq_trans Hv2 Hw)).
  unfold entitled. cbn. destruct (bool_decide_reflect (s' = s)) as [->|Hne].
  - by rewrite lookup_insert_eq.
  - by rewrite lookup_insert_ne.
Qed.

Definition entitlement_demo : world entitlement_mem :=
  World (EntitlementMem ∅) Missing false
    (Env (fun _ => of_Z 1000) 0 (fun _ => "id") 0 (fun _ => false) 0).

Lemma entitlement_set_is_read_witness :
  exists r, (get_entitlement None "u1"
    (set_entitlement (VStr "u1") (VInt 3) (VStr "pro") entitlement_demo).2).1 = Ok r.
Proof.
  destruct (set_entitlement (VStr "u1") (VInt 3) (VStr "pro") entitlement_demo)
    as [[r|e] w1] eqn:E.
  - exists r. destruct (entitlement_set_is_read (VStr "u1") (VInt 3) (VStr "pro")
      entitlement_demo r w1 w1 E eq_refl) as (s & n & a & [= <-] & _ & _ & _ & H).
    + intros k. apply (f_equal snd) in E. cbn [snd] in E. subst w1. vm_compute. reflexivity.
    + exact (H None "u1").
  - exfalso. assert (Hok : match (set_entitlement (VStr "u1") (VInt 3) (VStr "pro") entitlement_demo).1 with
      | Ok _ => true | Err _ => false end = true) by (vm_compute; reflexivity).
    rewrite E in Hok. discriminate Hok.
Defined.

(** Whatever entitlement the store answers with, stored or default, is a limit of
    that user and is not negative, so a slot count compared with it is bounded. *)
Theorem entitlement_limit_is_nonnegative env user w r w' :
  get_entitlement env user w = (Ok r, w') ->
  exists n, py_get r "user_id" = VStr user /\
    py_get r "max_concurrent_sessions" = VInt n /\ 0 <= n.
Proof.
  intros (a & Hv & Hr)%get_entitlement_ok. unfold entitled in Hr.
  destruct (entitlements a !! user) as [record|] eqn:E.
  - injection Hr as <-. apply validate_entitlement_ok.
    pose proof (entitlements_view_valid w a Hv) as Hva. unfold _validate_entitlements in Hva.
    rewrite check_all_ok in Hva. apply Hva. unfold of_dicts. by rewrite lookup_fmap, E.
  - apply result_bind_ok in Hr as (n & Hn & [= <-]). exists n.
    split; [by vm_compute|]. split; [by vm_compute|].
    unfold _default_limit in Hn. destruct env; [|injection Hn as <-; done].
    destruct (py_int _); [|done]. injection Hn as <-. lia.
Qed.
