(* ===== verification/Calendar.v ===== *)
(** * Provider timestamps (provider/conoha.py)

    [format_timestamp] and [parse_timestamp], the text form of the creation and
    deletion times that tag every provider resource. The calendar is that of
    Python's [datetime] (proleptic Gregorian): [days_before_year] and
    [days_before_month] are its own functions, [civil_from_days] inverts them, and
    [timestamp_roundtrip] proves it, for every second from 1970 to 9999. *)

From S2P Require Import Prelude PyFloat PyValue.

(** ** The calendar *)
Definition is_leap (y : Z) : bool :=
  (y mod 4 =? 0) && (negb (y mod 100 =? 0) || (y mod 400 =? 0)).

Definition days_before_year (y : Z) : Z :=
  let y := y - 1 in y * 365 + y / 4 - y / 100 + y / 400.

Definition month_lengths (leap : bool) : list Z :=
  [31; if leap then 29 else 28; 31; 30; 31; 30; 31; 31; 30; 31; 30; 31].

Definition days_in_month (y m : Z) : Z :=
  nth (Z.to_nat (m - 1)) (month_lengths (is_leap y)) 0.

Definition days_before_month (y m : Z) : Z :=
  foldr Z.add 0 (take (Z.to_nat (m - 1)) (month_lengths (is_leap y))).

(** [datetime.date(y, m, d).toordinal()]; 1 January of year 1 is day 1. *)
Definition toordinal (y m d : Z) : Z := days_before_year y + days_before_month y m + d.

Definition EPOCH_ORD : Z := 719163.

Example epoch_ord : toordinal 1970 1 1 = EPOCH_ORD.
Proof. reflexivity. Qed.

(** ** [time.gmtime]

    The year of a day number: at most two candidates around the mean year. *)
Definition year_of_ordinal (n : Z) : Z :=
  let y := (n - 1) * 400 / 146097 + 1 in
  if days_before_year (y + 1) <? n then y + 1
  else if n <=? days_before_year y then y - 1 else y.

(** The month and day of the [n]-th day of a year, from the month lengths. *)
Fixpoint month_day (m n : Z) (lengths : list Z) : Z * Z :=
  match lengths with
  | [] => (m, n)
  | l :: rest => if n <=? l then (m, n) else month_day (m + 1) (n - l) rest
  end.

Definition civil_from_days (n : Z) : Z * Z * Z :=
  let y := year_of_ordinal n in
  let '(m, d) := month_day 1 (n - days_before_year y) (month_lengths (is_leap y)) in
  (y, m, d).

Example civil_examples :
  (civil_from_days EPOCH_ORD, civil_from_days (EPOCH_ORD + 20512),
   civil_from_days (toordinal 2000 2 29), civil_from_days (toordinal 9999 12 31))
  = ((1970, 1, 1), (2026, 2, 28), (2000, 2, 29), (9999, 12, 31)).
Proof. reflexivity. Qed.

(** ** Text *)
Definition digit (n : Z) : Ascii.ascii := Ascii.ascii_of_N (Z.to_N (48 + n mod 10)).

Definition two_digits (n : Z) (rest : string) : string :=
  String (digit (n / 10)) (String (digit n) rest).

Definition four_digits (n : Z) (rest : string) : string :=
  two_digits (n / 100) (two_digits n rest).

(** [%Y] does not pad (glibc); from 1000 on it has four digits, from 10000 on
    more. *)
Definition year_digits (y : Z) (rest : string) : string :=
  String.append (pretty.pretty y) rest.

Definition format_civil (y mo d h mi s : Z) : string :=
  year_digits y (String "-" (two_digits mo (String "-" (two_digits d (String "T"
    (two_digits h (String ":" (two_digits mi (String ":" (two_digits s "Z")))))))))).

(** [time.gmtime] rounds a fractional second down. *)
Definition gmtime_seconds (epoch : float) : Z :=
  match epoch with
  | S754_finite true m e => - fceil (S754_finite false m e)
  | _ => ftrunc epoch
  end.

Definition format_seconds (n : Z) : string :=
  let day := n / 86400 in
  let second := n mod 86400 in
  let '(y, mo, d) := civil_from_days (EPOCH_ORD + day) in
  format_civil y mo d (second / 3600) (second / 60 mod 60) (second mod 60).

(** [time.strftime("%Y-%m-%dT%H:%M:%SZ", time.gmtime(epoch))]; an infinite epoch
    raises [OverflowError], a NaN [ValueError]. *)
Definition format_timestamp (epoch : float) : result string :=
  match epoch with
  | S754_nan => Err ValueError
  | S754_infinity _ => Err OverflowError
  | _ => Ok (format_seconds (gmtime_seconds epoch))
  end.

(** A field of [time.strptime]: two digits when they follow one another, else one,
    within bounds. [%d] also takes a blank and a digit. *)
Definition field (lo hi : Z) (blank : bool) (s : string) : option (Z * string) :=
  let bounded n rest := if (lo <=? n) && (n <=? hi) then Some (n, rest) else None in
  match s with
  | String a (String b rest as s1) =>
      match digit_of a, digit_of b with
      | Some x, Some y => bounded (10 * x + y) rest
      | Some x, None => bounded x s1
      | None, Some y =>
          if blank && (byte_code a =? 32) && (1 <=? y) then bounded y rest else None
      | None, None => None
      end
  | String a EmptyString =>
      match digit_of a with Some x => bounded x EmptyString | None => None end
  | EmptyString => None
  end.

Definition year_field (s : string) : option (Z * string) :=
  match s with
  | String a (String b (String c (String d rest))) =>
      match digit_of a, digit_of b, digit_of c, digit_of d with
      | Some w, Some x, Some y, Some z => Some (1000 * w + 100 * x + 10 * y + z, rest)
      | _, _, _, _ => None
      end
  | _ => None
  end.

(** A literal of the format; matching ignores case. *)
Definition literal (c : Ascii.ascii) (s : string) : option string :=
  match s with
  | String a rest => if Ascii.eqb (lower_ascii a) (lower_ascii c) then Some rest else None
  | EmptyString => None
  end.

(** [float(calendar.timegm(time.strptime(value, ...)))] *)
Definition parse_timestamp (value : string) : result float :=
  let parsed :=
    '(y, s) ← year_field value; s ← literal "-" s;
    '(mo, s) ← field 1 12 false s; s ← literal "-" s;
    '(d, s) ← field 1 31 true s; s ← literal "T" s;
    '(h, s) ← field 0 23 false s; s ← literal ":" s;
    '(mi, s) ← field 0 59 false s; s ← literal ":" s;
    '(sec, s) ← field 0 61 false s; s ← literal "Z" s;
    if str_empty s && (1 <=? y) && (d <=? days_in_month y mo) then
      Some ((toordinal y mo d - EPOCH_ORD) * 86400 + h * 3600 + mi * 60 + sec)
    else None in
  match parsed with Some n => Ok (of_Z n) | None => Err ValueError end.

Example parse_examples :
  (parse_timestamp "2026-02-28T01:02:03Z", parse_timestamp "2026-2-8t1:2:3z",
   parse_timestamp "2026-02-30T00:00:00Z", parse_timestamp "2026-02-28 00:00:00Z")
  = (Ok (of_Z 1772240523), Ok (of_Z 1770512523), Err ValueError, Err ValueError).
Proof. vm_compute. reflexivity. Qed.

(** ** The calendar inverts *)
Lemma leap_year_length y :
  1 <= y -> days_before_year (y + 1) = days_before_year y + if is_leap y then 366 else 365.
Proof.
  intros Hy. unfold days_before_year, is_leap.
  destruct (Z.eqb_spec (y mod 4) 0), (Z.eqb_spec (y mod 100) 0), (Z.eqb_spec (y mod 400) 0);
    simpl; Z.div_mod_to_equations; lia.
Qed.

Lemma year_of_ordinal_bounds n :
  1 <= n -> let y := year_of_ordinal n in
  1 <= y /\ days_before_year y < n <= days_before_year (y + 1).
Proof.
  intros Hn y. subst y. unfold year_of_ordinal.
  set (y := (n - 1) * 400 / 146097 + 1).
  assert (Hlo : days_before_year (y - 1) < n \/ y = 1)
    by (unfold days_before_year; subst y; Z.div_mod_to_equations; lia).
  assert (Hhi : n <= days_before_year (y + 2))
    by (unfold days_before_year; subst y; Z.div_mod_to_equations; lia).
  assert (Hy : 1 <= y) by (subst y; Z.div_mod_to_equations; lia).
  assert (H1 : days_before_year 1 = 0) by reflexivity.
  destruct (Z.ltb_spec (days_before_year (y + 1)) n).
  - replace (y + 1 + 1) with (y + 2) by lia. lia.
  - destruct (Z.leb_spec n (days_before_year y)); [|lia].
    destruct Hlo as [Hlo|Hy1]; [|rewrite Hy1 in *; lia].
    replace (y - 1 + 1) with y by lia.
    assert (y <> 1) by (intros E; rewrite E in *; lia). lia.
Qed.

Lemma days_before_year_mono y z : y <= z -> days_before_year y <= days_before_year z.
Proof. intros H. unfold days_before_year. Z.div_mod_to_equations. lia. Qed.

Definition month_day_ok (leap : bool) (n : Z) : bool :=
  let '(m, d) := month_day 1 n (month_lengths leap) in
  (1 <=? m) && (m <=? 12) && (1 <=? d) &&
  (d <=? nth (Z.to_nat (m - 1)) (month_lengths leap) 0) &&
  (foldr Z.add 0 (take (Z.to_nat (m - 1)) (month_lengths leap)) + d =? n).

Lemma month_day_spec (leap : bool) n :
  1 <= n <= (if leap then 366 else 365) -> month_day_ok leap n = true.
Proof.
  intros Hn.
  assert (H : forallb (fun k => month_day_ok leap (Z.of_nat k))
    (seq 1 (if leap then 366 else 365)) = true) by (destruct leap; vm_compute; reflexivity).
  rewrite forallb_forall in H. specialize (H (Z.to_nat n)).
  rewrite Z2Nat.id in H by lia. apply H, in_seq. destruct leap; lia.
Qed.

Lemma civil_from_days_spec n y m d :
  1 <= n -> civil_from_days n = (y, m, d) ->
  toordinal y m d = n /\ 1 <= y /\ days_before_year y < n <= days_before_year (y + 1) /\
  1 <= m <= 12 /\ 1 <= d <= days_in_month y m.
Proof.
  intros Hn. unfold civil_from_days.
  pose proof (year_of_ordinal_bounds n Hn) as (Hy & Hlo & Hhi).
  set (y0 := year_of_ordinal n) in *.
  rewrite (leap_year_length y0 Hy) in Hhi.
  pose proof (month_day_spec (is_leap y0) (n - days_before_year y0)) as Hmd.
  unfold month_day_ok in Hmd.
  destruct (month_day 1 _ _) as [m0 d0]. intros [= <- <- <-].
  rewrite (leap_year_length y0 Hy).
  unfold toordinal, days_before_month, days_in_month.
  specialize (Hmd ltac:(destruct (is_leap y0); lia)). split_bools.
  repeat match goal with
  | H : (_ <=? _) = true |- _ => apply Z.leb_le in H
  | H : (_ =? _) = true |- _ => apply Z.eqb_eq in H
  end. lia.
Qed.

(** ** The text inverts *)
Lemma byte_code_small n : 0 <= n < 256 -> byte_code (Ascii.ascii_of_N (Z.to_N n)) = n.
Proof. intros Hn. unfold byte_code. rewrite Ascii.N_ascii_embedding; lia. Qed.

Lemma digit_of_digit n : digit_of (digit n) = Some (n mod 10).
Proof.
  pose proof (Z.mod_pos_bound n 10 ltac:(lia)). unfold digit_of, digit.
  rewrite byte_code_small by lia.
  destruct (Z.leb_spec 48 (48 + n mod 10)); [|lia].
  destruct (Z.leb_spec (48 + n mod 10) 57); [|lia]. simpl. f_equal. lia.
Qed.

Lemma field_two_digits lo hi blank n rest :
  0 <= n < 100 -> lo <= n <= hi -> field lo hi blank (two_digits n rest) = Some (n, rest).
Proof.
  intros Hn Hb. unfold field, two_digits. rewrite !digit_of_digit.
  replace (10 * ((n / 10) mod 10) + n mod 10) with n by (Z.div_mod_to_equations; lia).
  destruct (Z.leb_spec lo n), (Z.leb_spec n hi); try lia. done.
Qed.

Lemma literal_hit c rest : literal c (String c rest) = Some rest.
Proof. unfold literal. by rewrite Ascii.eqb_refl. Qed.

Lemma year_field_four_digits y rest :
  0 <= y < 10000 -> year_field (four_digits y rest) = Some (y, rest).
Proof.
  intros Hy. unfold year_field, four_digits, two_digits. rewrite !digit_of_digit.
  do 2 f_equal. Z.div_mod_to_equations; lia.
Qed.

Lemma four_digits_app y rest : four_digits y rest = String.append (four_digits y "") rest.
Proof. done. Qed.

Lemma year_digits_four y rest :
  1000 <= y < 10000 -> year_digits y rest = four_digits y rest.
Proof.
  intros Hy. rewrite four_digits_app. unfold year_digits. f_equal.
  assert (H : forallb (fun k => String.eqb (pretty.pretty k) (four_digits k ""))
    (seqZ 1000 9000) = true) by (vm_compute; reflexivity).
  rewrite forallb_forall in H. apply String.eqb_eq, H, list_elem_of_In, elem_of_seqZ. lia.
Qed.

Definition LAST_SECOND : Z := 253402300799.

Lemma parse_format_seconds n :
  0 <= n <= LAST_SECOND -> parse_timestamp (format_seconds n) = Ok (of_Z n).
Proof.
  unfold LAST_SECOND. intros Hn. unfold format_seconds.
  destruct (civil_from_days (EPOCH_ORD + n / 86400)) as [[y mo] d] eqn:Hc.
  assert (Hday : 0 <= n / 86400 <= 2932896) by (Z.div_mod_to_equations; lia).
  apply civil_from_days_spec in Hc as (Hord & Hy & [Hlo Hhi] & Hm & Hd); [|unfold EPOCH_ORD; lia].
  assert (Hyr : 1970 <= y <= 9999).
  { pose proof (days_before_year_mono 10000 y) as H1.
    pose proof (days_before_year_mono (y + 1) 1970) as H2.
    change (days_before_year 10000) with 3652059 in H1.
    change (days_before_year 1970) with 719162 in H2. unfold EPOCH_ORD in *. lia. }
  assert (Hdm : days_in_month y mo <= 31).
  { unfold days_in_month, month_lengths. destruct (is_leap y);
      generalize (Z.to_nat (mo - 1)); do 13 (intros [|k]; [simpl; lia|revert k]); simpl; lia. }
  unfold format_civil, parse_timestamp. rewrite year_digits_four by lia.
  rewrite year_field_four_digits by lia. cbn [mbind option_bind].
  assert (Hs : 0 <= n mod 86400 < 86400) by (apply Z.mod_pos_bound; lia).
  pose proof (Z.div_mod n 86400 ltac:(lia)) as Hdiv.
  set (s := n mod 86400) in *.
  repeat (first [ rewrite literal_hit
                | rewrite field_two_digits by (Z.div_mod_to_equations; lia) ];
          cbn [mbind option_bind]).
  rewrite Hord.
  destruct (Z.leb_spec 1 y), (Z.leb_spec d (days_in_month y mo)); try lia.
  cbn [str_empty andb]. do 2 f_equal. unfold EPOCH_ORD. clearbody s. clear Hord.
  revert Hdiv. generalize (n / 86400). intros k ->. Z.div_mod_to_equations. lia.
Qed.

(** The floor of the seconds in a non-negative time. *)
Lemma gmtime_seconds_floor m e :
  e <= 0 -> let n := gmtime_seconds (S754_finite false m e) in
  n * 2 ^ (- e) <= Z.pos m < (n + 1) * 2 ^ (- e).
Proof.
  intros He n. subst n. unfold gmtime_seconds, ftrunc.
  assert (Hp : 0 < 2 ^ (- e)) by (apply Z.pow_pos_nonneg; lia).
  destruct (Z.leb_spec 0 e).
  - assert (e = 0) as -> by lia. rewrite !Z.mul_1_r. lia.
  - pose proof (Z.div_mod (Z.pos m) (2 ^ (- e)) ltac:(lia)).
    pose proof (Z.mod_pos_bound (Z.pos m) (2 ^ (- e)) Hp). nia.
Qed.

(** A resource's time tag is read back. Every finite time of the years 1970 to 9999
    is written as a tag that parses to the whole second it falls in: the time read
    back is never later than the one written, and less than a second earlier. *)
Theorem tag_timestamp_roundtrip epoch :
  is_finite epoch = true -> 0 <= gmtime_seconds epoch <= LAST_SECOND ->
  exists tag, format_timestamp epoch = Ok tag /\
    parse_timestamp tag = Ok (of_Z (gmtime_seconds epoch)) /\
    forall m e, epoch = S754_finite false m e -> e <= 0 ->
      gmtime_seconds epoch * 2 ^ (- e) <= Z.pos m < (gmtime_seconds epoch + 1) * 2 ^ (- e).
Proof.
  intros Hf Hn. exists (format_seconds (gmtime_seconds epoch)).
  split; [by destruct epoch|]. split; [by apply parse_format_seconds|].
  intros m e -> He. by apply gmtime_seconds_floor.
Qed.

Lemma tag_timestamp_roundtrip_witness :
  let t := fratio 3544481047 2 in
  format_timestamp t = Ok "2026-02-28T01:02:03Z" /\
  exists tag, format_timestamp t = Ok tag /\ parse_timestamp tag = Ok (of_Z 1772240523).
Proof.
  split; [vm_compute; reflexivity|].
  destruct (tag_timestamp_roundtrip (fratio 3544481047 2)) as (tag & H1 & H2 & _).
  - vm_compute. reflexivity.
  - vm_compute. split; discriminate.
  - exists tag. split; [exact H1|]. rewrite H2. vm_compute. reflexivity.
Defined.
