(* ===== verification/Uuid.v ===== *)
(** * Identifiers and resource metadata (provider/conoha.py)

    [uuid.UUID] as the source uses it, the checks of Session and user ids, the
    deterministic request id, the tags attached to every provider resource, and
    their reading back. *)

From S2P Require Import Prelude PyFloat Sha256 PyValue Calendar.

(** ** [uuid.UUID(text)] *)

(** [s.replace(pat, "")]; [skip] counts the characters of a match still to drop. *)
Fixpoint remove_from (pat : string) (skip : nat) (s : string) : string :=
  match s with
  | EmptyString => EmptyString
  | String c s' =>
      match skip with
      | S n => remove_from pat n s'
      | O => if String.prefix pat s then remove_from pat (String.length pat - 1) s'
             else String c (remove_from pat 0 s')
      end
  end.

Definition py_remove (pat s : string) : string := remove_from pat 0 s.

Fixpoint lstrip_chars (f : Ascii.ascii -> bool) (s : string) : string :=
  match s with
  | String c s' => if f c then lstrip_chars f s' else s
  | EmptyString => EmptyString
  end.

Fixpoint rstrip_chars (f : Ascii.ascii -> bool) (s : string) : string :=
  match s with
  | String c s' =>
      let r := rstrip_chars f s' in if str_empty r && f c then EmptyString else String c r
  | EmptyString => EmptyString
  end.

Definition is_brace (c : Ascii.ascii) : bool := Ascii.eqb c "{" || Ascii.eqb c "}".

Definition hex_value (c : Ascii.ascii) : option Z :=
  let n := byte_code c in
  if (48 <=? n) && (n <=? 57) then Some (n - 48)
  else if (97 <=? n) && (n <=? 102) then Some (n - 87)
  else if (65 <=? n) && (n <=? 70) then Some (n - 55) else None.

(** After a digit of [int(text, 16)]: as [digits_value] in base 16. *)
Fixpoint hex_digits_value (acc : Z) (s : string) : option Z :=
  match s with
  | EmptyString => Some acc
  | String c s1 =>
      match hex_value c with
      | Some d => hex_digits_value (16 * acc + d) s1
      | None =>
          match s1 with
          | String c2 s2 =>
              match hex_value c2 with
              | Some d =>
                  if byte_code c =? 95 then hex_digits_value (16 * acc + d) s2 else None
              | None => if py_blank s then Some acc else None
              end
          | EmptyString => if py_blank s then Some acc else None
          end
      end
  end.

Definition first_hex_digit (s : string) : option Z :=
  match s with
  | String c s' => match hex_value c with Some d => hex_digits_value d s' | None => None end
  | EmptyString => None
  end.

(** [int(text, 16)], which also takes a sign and the prefix [0x] (and an underscore
    after it). The callers have removed every minus sign. *)
Definition int_of_hex (s : string) : option Z :=
  let s := py_lstrip s in
  let s := match s with String "+"%char s' => s' | _ => s end in
  match s with
  | String "0"%char (String x s') =>
      if Ascii.eqb (lower_ascii x) "x" then
        match s' with
        | String "_"%char s'' => first_hex_digit s''
        | _ => first_hex_digit s'
        end
      else first_hex_digit s
  | _ => first_hex_digit s
  end.

Definition parse_uuid (text : string) : option Z :=
  let hex := py_remove "uuid:" (py_remove "urn:" text) in
  let hex := py_remove "-" (rstrip_chars is_brace (lstrip_chars is_brace hex)) in
  if Nat.eqb (py_len hex) 32 then int_of_hex hex else None.

(** [str(uuid.UUID(int=n))] *)
Definition uuid_text (n : Z) : string :=
  hex 8 (Z.shiftr n 96) (String "-" (hex 4 (Z.shiftr n 80) (String "-"
    (hex 4 (Z.shiftr n 64) (String "-" (hex 4 (Z.shiftr n 48) (String "-"
      (hex 12 n "")))))))).

(** [.version]; only a UUID of the RFC 4122 variant has one. *)
Definition uuid_version (n : Z) : option Z :=
  if Z.testbit n 63 && negb (Z.testbit n 62) then Some (Z.land (Z.shiftr n 76) 15) else None.

(** [uuid.UUID(text)] is a canonical UUID4. *)
Definition is_uuid4_text (value : string) : bool :=
  match parse_uuid value with
  | Some n => String.eqb (uuid_text n) (py_lower value) &&
              bool_decide (uuid_version n = Some 4)
  | None => false
  end.

(** ** Ids *)
Definition is_safe_session_id (value : string) : bool := is_uuid4_text value.

Definition is_safe_user_id (value : string) : bool :=
  if str_empty value || negb (Nat.leb (py_len value) 128) then false
  else if is_uuid4_text value then true
  else all_hex value.

Example id_examples :
  (is_safe_session_id "6ba7b810-9dad-41d1-80b4-00c04fd430c8",
   is_safe_session_id "6BA7B810-9DAD-41D1-80B4-00C04FD430C8",
   is_safe_session_id "6ba7b810-9dad-11d1-80b4-00c04fd430c8",
   is_safe_session_id "6ba7b8109dad41d180b400c04fd430c8",
   is_safe_session_id "{6ba7b810-9dad-41d1-80b4-00c04fd430c8}",
   is_safe_user_id "cafe01", is_safe_user_id "Cafe01", is_safe_user_id "")
  = (true, true, false, false, false, true, false, false).
Proof. vm_compute. reflexivity. Qed.

(** [value.encode("ascii")]; [UnicodeEncodeError] is a [ValueError]. *)
Definition is_ascii_text (s : string) : bool :=
  forallb (fun c => byte_code c <? 128) (String.list_ascii_of_string s).

Definition request_id_for (scope session_id : string) : result string :=
  raise_if (negb (bool_decide (scope ∈ ["volume"; "server"]))) ValueError ;;
  raise_if (negb (is_ascii_text session_id)) ValueError ;;
  Ok (String.append "irlight-" (String.append scope (String "-"
        (String.substring 0 24 (sha256_hex session_id))))).

(** ** Tags *)
Abbreviation tags := (gmap string string).

Definition ENVIRONMENT_VALUES : list string := ["dev"; "beta"; "prod"].

Record SessionMetadata : Type := Metadata {
  md_session_id : string;
  md_user_id : string;
  md_environment : string;
  md_created_at : float;
  md_delete_after : option float
}.

(** [__post_init__] *)
Definition check_metadata (m : SessionMetadata) : result SessionMetadata :=
  raise_if (negb (is_safe_session_id (md_session_id m))) ValueError ;;
  raise_if (negb (is_safe_user_id (md_user_id m))) ValueError ;;
  raise_if (negb (bool_decide (md_environment m ∈ ENVIRONMENT_VALUES))) ValueError ;;
  Ok m.

Definition as_tags (m : SessionMetadata) : result tags :=
  created ← format_timestamp (md_created_at m);
  let base : tags := list_to_map
    [("irlight-managed", "true"); ("irlight-session-id", md_session_id m);
     ("irlight-user-id", md_user_id m); ("irlight-environment", md_environment m);
     ("irlight-created-at", created)] in
  match md_delete_after m with
  | Some delete_after =>
      text ← format_timestamp delete_after;
      Ok (<["irlight-delete-after" := text]> base)
  | None => Ok base
  end.

(** A time tag, when it is present, not empty and well formed. *)
Definition time_tag (key : string) (t : tags) : option float :=
  match t !! key with
  | Some raw =>
      if str_empty raw then None
      else match parse_timestamp raw with Ok f => Some f | Err _ => None end
  | None => None
  end.

Definition managed_since (t : tags) : option float := time_tag "irlight-created-at" t.
Definition _parse_delete_after (t : tags) : option float := time_tag "irlight-delete-after" t.

Definition is_managed (t : tags) : bool := bool_decide (t !! "irlight-managed" = Some "true").

(** ** Facts *)
Definition id_char (c : Ascii.ascii) : bool := is_hex c || Ascii.eqb c "-".

Lemma hex_chars n z rest :
  forallb id_char (String.list_ascii_of_string (hex n z rest)) =
  forallb id_char (String.list_ascii_of_string rest).
Proof.
  induction n as [|n IH]; [done|]. cbn [hex String.list_ascii_of_string forallb].
  rewrite IH. unfold id_char at 1. by rewrite hex_digit_hex.
Qed.

Lemma hex_length n z rest : String.length (hex n z rest) = (n + String.length rest)%nat.
Proof. induction n as [|n IH]; [done|]. cbn. by rewrite IH. Qed.

Lemma uuid_text_chars n :
  forallb id_char (String.list_ascii_of_string (uuid_text n)) = true /\
  String.length (uuid_text n) = 36%nat.
Proof.
  unfold uuid_text. split.
  - repeat (rewrite hex_chars; cbn [String.list_ascii_of_string forallb];
            try change (id_char "-") with true; cbn [andb]). done.
  - repeat (rewrite hex_length; cbn [String.length]). done.
Qed.

(** What a Session id is allowed to be. An accepted id has exactly 36 bytes, each
    a hexadecimal digit or a hyphen in either case, so no other character can reach
    a resource name or a tag; and it is the text of one UUID of version 4. *)
Theorem safe_session_id_shape value :
  is_safe_session_id value = true ->
  String.length value = 36%nat /\
  forallb (fun c => id_char (lower_ascii c)) (String.list_ascii_of_string value) = true /\
  exists n, parse_uuid value = Some n /\ py_lower value = uuid_text n /\
    uuid_version n = Some 4.
Proof.
  unfold is_safe_session_id, is_uuid4_text. destruct (parse_uuid value) as [n|]; [|done].
  intros H. split_bools.
  match goal with E : String.eqb _ _ = true |- _ => apply String.eqb_eq in E end.
  destruct (uuid_text_chars n) as [Hc Hl].
  destruct (py_lower_forall id_char value) as [Hv Hlen]; [done|done|congruence|].
  split; [congruence|]. split; [exact Hv|]. by exists n.
Qed.

Lemma safe_session_id_shape_witness :
  String.length "6BA7B810-9DAD-41D1-80B4-00C04FD430C8" = 36%nat.
Proof.
  destruct (safe_session_id_shape "6BA7B810-9DAD-41D1-80B4-00C04FD430C8") as [H _].
  - vm_compute. reflexivity.
  - exact H.
Defined.

Definition taggable (epoch : float) : Prop :=
  is_finite epoch = true /\ 0 <= gmtime_seconds epoch <= LAST_SECOND.

Lemma format_taggable epoch :
  taggable epoch -> exists tag, format_timestamp epoch = Ok tag /\ str_empty tag = false /\
    parse_timestamp tag = Ok (of_Z (gmtime_seconds epoch)).
Proof.
  intros [Hf Hn]. pose proof (parse_format_seconds _ Hn) as Hp.
  exists (format_seconds (gmtime_seconds epoch)). split; [by destruct epoch|].
  split; [|exact Hp]. by destruct (format_seconds _).
Qed.

(** The metadata of a resource is recovered from its tags: the resource is
    recognised as managed, its Session, user and environment are read back exactly,
    and its creation and deletion times to the second. *)
Theorem metadata_tags_roundtrip m :
  taggable (md_created_at m) ->
  (forall f, md_delete_after m = Some f -> taggable f) ->
  exists t, as_tags m = Ok t /\ is_managed t = true /\
    t !! "irlight-session-id" = Some (md_session_id m) /\
    t !! "irlight-user-id" = Some (md_user_id m) /\
    t !! "irlight-environment" = Some (md_environment m) /\
    managed_since t = Some (of_Z (gmtime_seconds (md_created_at m))) /\
    _parse_delete_after t = of_Z ∘ gmtime_seconds <$> md_delete_after m.
Proof.
  intros Hc Hd. unfold as_tags. destruct (format_taggable _ Hc) as (c & -> & Hce & Hcp).
  destruct (md_delete_after m) as [f|].
  - destruct (format_taggable f (Hd f eq_refl)) as (d & -> & Hde & Hdp). cbn.
    eexists. split; [done|]. unfold is_managed, managed_since, _parse_delete_after, time_tag.
    dict_lookup. rewrite Hce, Hcp, Hde, Hdp. done.
  - cbn. eexists. split; [done|]. unfold is_managed, managed_since, _parse_delete_after, time_tag.
    dict_lookup. rewrite Hce, Hcp. done.
Qed.

Definition demo_metadata : SessionMetadata :=
  Metadata "6ba7b810-9dad-41d1-80b4-00c04fd430c8" "cafe01" "prod" (fratio 3544481047 2)
    (Some (of_Z 1772250000)).

Lemma metadata_tags_roundtrip_witness :
  exists t, as_tags demo_metadata = Ok t /\ managed_since t = Some (of_Z 1772240523).
Proof.
  destruct (metadata_tags_roundtrip demo_metadata) as (t & H1 & _ & _ & _ & _ & H2 & _).
  - vm_compute. repeat split; discriminate.
  - intros f [= <-]. vm_compute. repeat split; discriminate.
  - exists t. split; [exact H1|]. rewrite H2. vm_compute. reflexivity.
Defined.
