(* ===== verification/Provider.v ===== *)
(** * The cloud provider (provider/conoha.py, provider/fake_provider.py)

    [Provider] is the protocol the workflow and the reaper use
    ([session_workflow.Provider]); [ProviderLaws] is what they rely on: listing
    changes nothing, a creation adds at most the resource it names, and a deletion
    removes at most the one it names. A deletion that returns has been accepted: the
    resource may be gone by then, or it may still be there for a while and be on the
    provider's list of deletions ([provider_client.py] only sends the request). A
    resource that is gone before the next question to the provider counts as gone
    when the deletion returned. Nothing is said of how far a call that raises has
    got: a deletion may have been accepted or not, a creation may have left its
    resource behind. [FakeProvider], the in-memory twin, is an instance, and
    its file format ([FileFakeProvider]) is at the end. *)

From S2P Require Import Prelude PyFloat PyValue Json Effects Calendar Uuid.

(** ** Resources *)
Record ProviderVolume : Type := Volume {
  volume_id : string;
  volume_name : string;
  volume_size_gb : Z;
  volume_status : string;
  volume_tags : tags
}.

Record ProviderServer : Type := Server {
  server_id : string;
  server_name : string;
  server_status : string;
  server_public_ipv4 : option string;
  server_tags : tags
}.

(** [kind] is ["volume"] or ["server"]. The [details] are not read by the code. *)
Record ManagedResource : Type := Managed {
  res_kind : string;
  res_provider_id : string;
  res_session_id : option string;
  res_user_id : option string;
  res_created_at : option float;
  res_delete_after : option float
}.

Definition managed_of (kind id : string) (t : tags) : ManagedResource :=
  Managed kind id (t !! "irlight-session-id") (t !! "irlight-user-id")
    (managed_since t) (_parse_delete_after t).

Definition managed_volume (v : ProviderVolume) : ManagedResource :=
  managed_of "volume" (volume_id v) (volume_tags v).
Definition managed_server (s : ProviderServer) : ManagedResource :=
  managed_of "server" (server_id s) (server_tags s).

(** ** The protocol *)
Class Provider (P : Type) := {
  list_volumes : M P (list ProviderVolume);
  list_servers : M P (list ProviderServer);
  create_volume : string -> Z -> tags -> M P ProviderVolume;
  create_server : string -> string -> string -> string -> tags -> M P ProviderServer;
  delete_volume : string -> M P unit;
  delete_server : string -> M P unit;
  list_managed_resources : M P (list ManagedResource);
  (* the resources that exist and the deletions that were accepted, for the laws only *)
  volumes_of : P -> list ProviderVolume;
  servers_of : P -> list ProviderServer;
  deleting : P -> list (string * string)
}.

Section inventory.
Context {P : Type} `{Provider P}.

Definition inventory (p : P) : list ManagedResource :=
  (managed_volume <$> List.filter (fun v => is_managed (volume_tags v)) (volumes_of p)) ++
  (managed_server <$> List.filter (fun s => is_managed (server_tags s)) (servers_of p)).

Definition same_cloud (p p' : P) : Prop :=
  volumes_of p' = volumes_of p /\ servers_of p' = servers_of p /\ deleting p' = deleting p.

(** At most the deletion of this resource was accepted. *)
Definition accepts (kind id : string) (p p' : P) : Prop :=
  deleting p' = deleting p \/ deleting p' = (kind, id) :: deleting p.

(** Nothing but deletions from [p] to [p']. *)
Definition shrinks (p p' : P) : Prop :=
  (forall v, v ∈ volumes_of p' -> v ∈ volumes_of p) /\
  (forall s, s ∈ servers_of p' -> s ∈ servers_of p).

#[export] Instance shrinks_preorder : PreOrder shrinks.
Proof. split; [by split|]. intros ??? [? ?] [? ?]. split; auto. Qed.

(** What a call has left in place: everything but volumes and servers of these
    ids. *)
Definition spares (volumes servers : list string) (p p' : P) : Prop :=
  (forall v, v ∈ volumes_of p -> volume_id v ∉ volumes -> v ∈ volumes_of p') /\
  (forall s, s ∈ servers_of p -> server_id s ∉ servers -> s ∈ servers_of p').
End inventory.

Class ProviderLaws (P : Type) `{Provider P} : Prop := {
  list_volumes_law p : same_cloud p (list_volumes p).2 /\
    forall l, (list_volumes p).1 = Ok l -> l = volumes_of p;
  list_servers_law p : same_cloud p (list_servers p).2 /\
    forall l, (list_servers p).1 = Ok l -> l = servers_of p;
  list_managed_law p : same_cloud p (list_managed_resources p).2 /\
    forall l, (list_managed_resources p).1 = Ok l -> l = inventory p;
  create_volume_law name size t p :
    let p' := (create_volume name size t p).2 in
    servers_of p' = servers_of p /\ deleting p' = deleting p /\
    match (create_volume name size t p).1 with
    | Ok v => volume_name v = name /\ volume_tags v = t /\ spares [volume_id v] [] p p' /\
        v ∈ volumes_of p' /\ forall x, x ∈ volumes_of p' -> x ∈ volumes_of p \/ x = v
    | Err _ =>
        forall v, v ∈ volumes_of p' -> v ∈ volumes_of p \/ volume_tags v = t
    end;
  create_server_law name image flavor volume t p :
    let p' := (create_server name image flavor volume t p).2 in
    volumes_of p' = volumes_of p /\ deleting p' = deleting p /\
    match (create_server name image flavor volume t p).1 with
    | Ok s => server_name s = name /\ server_tags s = t /\ spares [] [server_id s] p p' /\
        s ∈ servers_of p' /\ forall x, x ∈ servers_of p' -> x ∈ servers_of p \/ x = s
    | Err _ =>
        forall s, s ∈ servers_of p' -> s ∈ servers_of p \/ server_tags s = t
    end;
  delete_volume_law id p :
    let p' := (delete_volume id p).2 in
    shrinks p p' /\ spares [id] [] p p' /\ accepts "volume" id p p' /\
    ((delete_volume id p).1 = Ok tt ->
     forall v, v ∈ volumes_of p' -> volume_id v = id -> ("volume", id) ∈ deleting p');
  delete_server_law id p :
    let p' := (delete_server id p).2 in
    shrinks p p' /\ spares [] [id] p p' /\ accepts "server" id p p' /\
    ((delete_server id p).1 = Ok tt ->
     forall s, s ∈ servers_of p' -> server_id s = id -> ("server", id) ∈ deleting p')
}.

(** ** The in-memory twin

    Python's dictionaries keep the order of insertion; [volumes] and [servers] are
    keyed by the id of their records. [fresh] and [used] are the oracle of
    [uuid.uuid4()]. *)
Record FakeProvider : Type := Fake {
  volumes : list ProviderVolume;
  servers : list ProviderServer;
  server_volume_links : gmap string string;
  fresh : nat -> string;
  used : nat
}.

Definition has_volume (id : string) (p : FakeProvider) : bool :=
  existsb (fun v => String.eqb (volume_id v) id) (volumes p).
Definition has_server (id : string) (p : FakeProvider) : bool :=
  existsb (fun s => String.eqb (server_id s) id) (servers p).

(** [d[key(x)] = x]: in place when the key is there, else at the end. *)
Definition keyed_set {A} (key : A -> string) (x : A) (l : list A) : list A :=
  if existsb (fun y => String.eqb (key y) (key x)) l
  then (fun y => if String.eqb (key y) (key x) then x else y) <$> l
  else l ++ [x].

(** [del d[k]] *)
Definition keyed_del {A} (key : A -> string) (k : string) (l : list A) : list A :=
  List.filter (fun y => negb (String.eqb (key y) k)) l.

Definition get_fake : M FakeProvider FakeProvider := fun p => (Ok p, p).
Definition put_fake (p : FakeProvider) : M FakeProvider unit := fun _ => (Ok tt, p).
Definition fresh_id : M FakeProvider string := fun p =>
  (Ok (fresh p (used p)), Fake (volumes p) (servers p) (server_volume_links p) (fresh p) (S (used p))).

Definition fake_get_volume (id : string) : M FakeProvider ProviderVolume :=
  p ← get_fake;
  match List.find (fun v => String.eqb (volume_id v) id) (volumes p) with
  | Some v => mret v
  | None => raise KeyError
  end.

Definition fake_get_server (id : string) : M FakeProvider ProviderServer :=
  p ← get_fake;
  match List.find (fun s => String.eqb (server_id s) id) (servers p) with
  | Some s => mret s
  | None => raise KeyError
  end.

Definition fake_create_volume (name : string) (size_gb : Z) (metadata : tags)
    : M FakeProvider ProviderVolume :=
  id ← fresh_id;
  p ← get_fake;
  let volume := Volume id name size_gb "available" metadata in
  put_fake (Fake (keyed_set volume_id volume (volumes p)) (servers p)
              (server_volume_links p) (fresh p) (used p)) ;;
  mret volume.

Definition fake_delete_volume (id : string) : M FakeProvider unit :=
  p ← get_fake;
  guard_err (negb (has_volume id p)) KeyError ;;
  guard_err (bool_decide (server_volume_links p !! id <> None)) RuntimeError ;;
  put_fake (Fake (keyed_del volume_id id (volumes p)) (servers p)
              (server_volume_links p) (fresh p) (used p)).

Definition fake_create_server (name image_ref flavor_ref volume_id_ : string) (metadata : tags)
    : M FakeProvider ProviderServer :=
  p ← get_fake;
  guard_err (negb (has_volume volume_id_ p)) KeyError ;;
  id ← fresh_id;
  p ← get_fake;
  let server := Server id name "ACTIVE" (Some "198.51.100.7") metadata in
  put_fake (Fake (volumes p) (keyed_set server_id server (servers p))
              (<[volume_id_ := id]> (server_volume_links p)) (fresh p) (used p)) ;;
  mret server.

Definition fake_delete_server (id : string) : M FakeProvider unit :=
  p ← get_fake;
  guard_err (negb (has_server id p)) KeyError ;;
  put_fake (Fake (volumes p) (keyed_del server_id id (servers p))
              (filter (fun q : string * string => q.2 <> id) (server_volume_links p))
              (fresh p) (used p)).

Definition fake_list_managed_resources : M FakeProvider (list ManagedResource) :=
  p ← get_fake;
  mret ((managed_volume <$> List.filter (fun v => is_managed (volume_tags v)) (volumes p)) ++
        (managed_server <$> List.filter (fun s => is_managed (server_tags s)) (servers p))).

#[export] Instance fake_provider : Provider FakeProvider := {|
  list_volumes := p ← get_fake; mret (volumes p);
  list_servers := p ← get_fake; mret (servers p);
  create_volume := fake_create_volume;
  create_server := fake_create_server;
  delete_volume := fake_delete_volume;
  delete_server := fake_delete_server;
  list_managed_resources := fake_list_managed_resources;
  volumes_of := volumes;
  servers_of := servers;
  deleting _ := []
|}.

(** ** The twin keeps the laws *)
Section keyed.
Context {A : Type} (key : A -> string).

Lemma elem_of_keyed_del k l x : x ∈ keyed_del key k l <-> x ∈ l /\ key x <> k.
Proof.
  unfold keyed_del. rewrite !list_elem_of_In, filter_In, negb_true_iff, String.eqb_neq. done.
Qed.

Lemma not_in_singleton (k k' : string) : k ∉ [k'] -> k <> k'.
Proof. intros H ->. apply H. by left. Qed.

Lemma keyed_set_new x l : x ∈ keyed_set key x l.
Proof.
  unfold keyed_set. destruct (existsb _ l) eqn:E; [|apply elem_of_app; right; by left].
  apply existsb_exists in E as (y & Hy & Hk). apply list_elem_of_fmap.
  exists y. rewrite Hk. split; [done|by apply list_elem_of_In].
Qed.

Lemma keyed_set_old x y l : y ∈ l -> key y <> key x -> y ∈ keyed_set key x l.
Proof.
  intros Hy Hk. unfold keyed_set. destruct (existsb _ l); [|apply elem_of_app; by left].
  apply list_elem_of_fmap. exists y. apply String.eqb_neq in Hk. by rewrite Hk.
Qed.

Lemma keyed_set_only x y l : y ∈ keyed_set key x l -> y ∈ l \/ y = x.
Proof.
  unfold keyed_set. destruct (existsb _ l).
  2: { rewrite elem_of_app, list_elem_of_singleton. tauto. }
  rewrite list_elem_of_fmap. intros (z & -> & Hz). destruct (String.eqb _ _); auto.
Qed.
End keyed.

#[export] Instance fake_laws : ProviderLaws FakeProvider.
Proof.
  split; try (intros p; split; [done|by intros l [= <-]]).
  - intros name size t p. cbn. do 4 (split; [done|]).
    split; [|split; [apply keyed_set_new|intros x; apply keyed_set_only]].
    split; [|done]. intros v Hv Hk. apply keyed_set_old; [done|by apply not_in_singleton].
  - intros name image flavor volume t p. cbn. unfold fake_create_server, mbind, M_bind, get_fake.
    destruct (has_volume volume p); cbn; [|do 2 (split; [done|]); by left].
    do 4 (split; [done|]).
    split; [|split; [apply keyed_set_new|intros x; apply keyed_set_only]].
    split; [done|]. intros v Hv Hk. apply keyed_set_old; [done|by apply not_in_singleton].
  - intros id p. cbn. unfold fake_delete_volume, mbind, M_bind, get_fake.
    destruct (has_volume id p); cbn; [|repeat split; try done; by left].
    destruct (bool_decide _); cbn; [repeat split; try done; by left|].
    repeat split; try done; try (by left); cbn in *; intros;
      rewrite ?elem_of_keyed_del, ?list_elem_of_singleton in *; naive_solver.
  - intros id p. cbn. unfold fake_delete_server, mbind, M_bind, get_fake.
    destruct (has_server id p); cbn; [|repeat split; try done; by left].
    repeat split; try done; try (by left); cbn in *; intros;
      rewrite ?elem_of_keyed_del, ?list_elem_of_singleton in *; naive_solver.
Qed.
