(* ===== verification/FakeFile.v ===== *)
(** * The file-backed fake provider (provider/fake_provider.py, [FileFakeProvider])

    The twin of [Provider] whose tables survive in a JSON file. Each operation works
    on the tables in memory and then saves them; the next process loads them. There
    is no lock and no fuse here: [world FakeProvider] is used for its file and its
    I/O faults only. *)

From S2P Require Import Prelude PyFloat PyValue Json Effects Calendar Uuid Provider.

(** ** Decoding *)
Definition _require_string (v : value) : result string :=
  match v with VStr s => Ok s | _ => Err FakeProviderStateError end.

(** Every value of the map has been checked to be a string. *)
Definition _require_string_map (v : value) : result tags :=
  match v with
  | VDict d =>
      check_all (fun _ item => raise_if (negb (is_str item)) FakeProviderStateError) d ;;
      Ok (omap as_str d)
  | _ => Err FakeProviderStateError
  end.

Definition decode_volume (item : value) : result ProviderVolume :=
  match item with
  | VDict item =>
      id ← _require_string (py_get item "volume_id");
      name ← _require_string (py_get item "name");
      size_gb ← match py_get item "size_gb" with
                | VInt z => Ok z | _ => Err FakeProviderStateError end;
      status ← _require_string (py_get_or item "status" (VStr "available"));
      metadata ← _require_string_map (py_get_or item "metadata" (VDict ∅));
      Ok (Volume id name size_gb status metadata)
  | _ => Err FakeProviderStateError
  end.

Definition decode_server (item : value) : result ProviderServer :=
  match item with
  | VDict item =>
      id ← _require_string (py_get item "server_id");
      name ← _require_string (py_get item "name");
      status ← _require_string (py_get_or item "status" (VStr "ACTIVE"));
      public_ipv4 ← match py_get item "public_ipv4" with
                    | VNull => Ok None
                    | VStr s => Ok (Some s)
                    | _ => Err FakeProviderStateError
                    end;
      metadata ← _require_string_map (py_get_or item "metadata" (VDict ∅));
      Ok (Server id name status public_ipv4 metadata)
  | _ => Err FakeProviderStateError
  end.

(** The loop over the records of a table, which refuses a repeated id. *)
Fixpoint decode_table {A} (key : A -> string) (decode : value -> result A)
    (seen : list A) (items : list value) : result (list A) :=
  match items with
  | [] => Ok seen
  | item :: rest =>
      x ← decode item;
      raise_if (existsb (fun y => String.eqb (key y) (key x)) seen) FakeProviderStateError ;;
      decode_table key decode (seen ++ [x]) rest
  end.

Definition _decode_state (state : value)
    : result (list ProviderVolume * list ProviderServer * tags) :=
  match state with
  | VDict state =>
      match py_get_or state "volumes" (VList []), py_get_or state "servers" (VList []) with
      | VList raw_volumes, VList raw_servers =>
          vs ← decode_table volume_id decode_volume [] raw_volumes;
          ss ← decode_table server_id decode_server [] raw_servers;
          links ← _require_string_map (py_get_or state "server_volume_links" (VDict ∅));
          Ok (vs, ss, links)
      | _, _ => Err FakeProviderStateError
      end
  | _ => Err FakeProviderStateError
  end.

(** ** Encoding *)
Definition string_map (m : tags) : value := VDict (VStr <$> m).

Definition encode_volume (v : ProviderVolume) : value :=
  VDict (list_to_map
    [("volume_id", VStr (volume_id v)); ("name", VStr (volume_name v));
     ("size_gb", VInt (volume_size_gb v)); ("status", VStr (volume_status v));
     ("metadata", string_map (volume_tags v))]).

Definition encode_server (s : ProviderServer) : value :=
  VDict (list_to_map
    [("server_id", VStr (server_id s)); ("name", VStr (server_name s));
     ("status", VStr (server_status s)); ("public_ipv4", opt_str (server_public_ipv4 s));
     ("metadata", string_map (server_tags s))]).

Definition encode_state (p : FakeProvider) : value :=
  VDict (list_to_map
    [("volumes", VList (encode_volume <$> volumes p));
     ("servers", VList (encode_server <$> servers p));
     ("server_volume_links", string_map (server_volume_links p))]).

(** ** The file *)
Abbreviation FM := (M (world FakeProvider)).

(** The constructor: [super().__init__()], then [_load]. *)
Definition open_file_provider : FM unit :=
  p ← get_mem;
  put_mem (Fake [] [] ∅ (fresh p) (used p)) ;;
  f ← get_file;
  match f with
  | Missing => mret tt
  | Unparsable => catch (io id) (fun _ => raise FakeProviderStateError) ;;
                  raise FakeProviderStateError
  | Present r =>
      catch (io id) (fun _ => raise FakeProviderStateError) ;;
      state ← catch (lift (load_json_authority r)) (fun _ => raise FakeProviderStateError);
      '(vs, ss, links) ← lift (_decode_state state);
      put_mem (Fake vs ss links (fresh p) (used p))
  end.

Definition _save : FM unit :=
  io id ;;                                            (* mkdir *)
  p ← get_mem;
  lift (_decode_state (encode_state p)) ;;
  io id ;;                                            (* mkstemp *)
  r ← catch (lift (json_dump (encode_state p))) (fun _ => raise FakeProviderStateError);
  io id ;;                                            (* close *)
  io (fun '(_, u) => (Present r, u)).                 (* os.replace *)

(** An operation of the base class, on the tables in memory. *)
Definition on_tables {A} (m : M FakeProvider A) : FM A := fun w =>
  let '(r, p) := m (mem w) in (r, World p (file w) (fuse w) (environment w)).

Definition file_create_volume (name : string) (size_gb : Z) (metadata : tags)
    : FM ProviderVolume :=
  volume ← on_tables (fake_create_volume name size_gb metadata);
  _save ;;
  mret volume.

Definition file_delete_volume (id : string) : FM unit :=
  on_tables (fake_delete_volume id) ;; _save.

Definition file_create_server (name image_ref flavor_ref volume_id_ : string) (metadata : tags)
    : FM ProviderServer :=
  server ← on_tables (fake_create_server name image_ref flavor_ref volume_id_ metadata);
  _save ;;
  mret server.

Definition file_delete_server (id : string) : FM unit :=
  on_tables (fake_delete_server id) ;; _save.

#[export] Instance file_provider : Provider (world FakeProvider) := {|
  list_volumes := on_tables list_volumes;
  list_servers := on_tables list_servers;
  create_volume := file_create_volume;
  create_server := file_create_server;
  delete_volume := file_delete_volume;
  delete_server := file_delete_server;
  list_managed_resources := on_tables list_managed_resources;
  volumes_of := fun w => volumes (mem w);
  servers_of := fun w => servers (mem w);
  deleting _ := []
|}.

(** ** Saving touches no table *)
Lemma io_mem {A} eff (w : world A) : mem (io eff w).2 = mem w.
Proof. unfold io. destruct (io_fault _ _); [done|]. by destruct (eff (file w, fuse w)). Qed.

Definition same_tables (w w' : world FakeProvider) : Prop := mem w' = mem w.

#[export] Instance same_tables_preorder : PreOrder same_tables.
Proof. split; [done|]. unfold same_tables. intros ??? ? ?. congruence. Qed.
#[export] Instance same_tables_io eff : Resp same_tables (io (A:=FakeProvider) eff).
Proof. intros w. apply io_mem. Qed.
#[export] Instance same_tables_get : Resp same_tables (get_mem (A:=FakeProvider)).
Proof. done. Qed.

Lemma save_mem : Resp same_tables _save.
Proof. unfold _save. solve_resp. Qed.

Lemma tables_then_save {A} (m : M FakeProvider A) (w : world FakeProvider) :
  let r := (a ← on_tables m; _save ;; mret a) w in
  mem r.2 = (m (mem w)).2 /\ (forall a, r.1 = Ok a -> (m (mem w)).1 = Ok a).
Proof.
  unfold mbind, M_bind, on_tables. destruct (m (mem w)) as [[a|e] p] eqn:E; cbn; [|done].
  pose proof (save_mem (World p (file w) (fuse w) (environment w))) as Hs.
  unfold same_tables in Hs. destruct (_save _) as [[[]|e] w']; cbn in *; naive_solver.
Qed.

Lemma tables_then_save_unit (m : M FakeProvider unit) (w : world FakeProvider) :
  let r := (on_tables m ;; _save) w in
  mem r.2 = (m (mem w)).2 /\ (r.1 = Ok tt -> (m (mem w)).1 = Ok tt).
Proof.
  unfold mbind, M_bind, on_tables. destruct (m (mem w)) as [[[]|e] p] eqn:E; cbn; [|done].
  pose proof (save_mem (World p (file w) (fuse w) (environment w))) as Hs.
  unfold same_tables in Hs. destruct (_save _) as [[[]|e] w']; cbn in *; naive_solver.
Qed.

#[export] Instance file_laws : ProviderLaws (world FakeProvider).
Proof.
  split; try (intros p; split; [done|by intros l [= <-]]).
  - intros name size t w.
    pose proof (tables_then_save (fake_create_volume name size t) w) as [Hm Hr].
    destruct (create_volume_law (P:=FakeProvider) name size t (mem w)) as (Hs & _ & Hc).
    cbn in Hs, Hc |- *. unfold spares in *. cbn in *. unfold file_create_volume. rewrite Hm.
    split; [exact Hs|]. split; [done|]. destruct (_ w).1 as [v|e].
    + injection (Hr v eq_refl) as <-. exact Hc.
    + intros v Hv. destruct Hc as (_ & Ht & _ & _ & Hc).
      destruct (Hc v Hv) as [?| ->]; [by left|by right].
  - intros name image flavor volume t w.
    pose proof (tables_then_save (fake_create_server name image flavor volume t) w) as [Hm Hr].
    destruct (create_server_law (P:=FakeProvider) name image flavor volume t (mem w)) as (Hs & _ & Hc).
    cbn in Hs, Hc |- *. unfold spares in *. cbn in *. unfold file_create_server. rewrite Hm.
    split; [exact Hs|]. split; [done|]. destruct (_ w).1 as [v|e].
    + rewrite (Hr v eq_refl) in Hc. exact Hc.
    + intros v Hv. destruct (fake_create_server _ _ _ _ _ _).1 as [x|e']; [|by apply Hc].
      destruct Hc as (_ & Ht & _ & _ & Hc).
      destruct (Hc v Hv) as [?| ->]; [by left|by right].
  - intros id w. pose proof (tables_then_save_unit (fake_delete_volume id) w) as [Hm Hr].
    destruct (delete_volume_law (P:=FakeProvider) id (mem w)) as (H1 & H2 & _ & H3).
    unfold shrinks, spares, accepts in *. cbn in *. unfold file_delete_volume. rewrite Hm. do 2 (split; [done|]). split; [by left|eauto].
  - intros id w. pose proof (tables_then_save_unit (fake_delete_server id) w) as [Hm Hr].
    destruct (delete_server_law (P:=FakeProvider) id (mem w)) as (H1 & H2 & _ & H3).
    unfold shrinks, spares, accepts in *. cbn in *. unfold file_delete_server. rewrite Hm. do 2 (split; [done|]). split; [by left|eauto].
Qed.

(** ** The file format round trips *)
Lemma string_map_ok t : _require_string_map (string_map t) = Ok t.
Proof.
  unfold _require_string_map, string_map. cbn.
  replace (check_all _ _) with (Ok tt : result unit).
  2: { symmetry. apply check_all_ok. intros k v. rewrite lookup_fmap.
       destruct (t !! k); [|done]. by intros [= <-]. }
  cbn. f_equal. apply map_eq. intros k. rewrite lookup_omap, lookup_fmap. by destruct (t !! k).
Qed.

#[local] Arguments _require_string_map : simpl never.

Lemma decode_encode_volume v : decode_volume (encode_volume v) = Ok v.
Proof.
  unfold decode_volume, encode_volume, py_get, py_get_or. dict_lookup. unfold default, id. cbn. rewrite string_map_ok. by destruct v.
Qed.

Lemma decode_encode_server s : decode_server (encode_server s) = Ok s.
Proof.
  unfold decode_server, encode_server, py_get, py_get_or. dict_lookup.
  unfold default, id. cbn. rewrite string_map_ok. destruct s as [? ? ? [?|] ?]; done.
Qed.

Lemma decode_table_encoded {A} (key : A -> string) decode (encode : A -> value) seen l :
  (forall x, decode (encode x) = Ok x) -> NoDup (key <$> (seen ++ l)) ->
  decode_table key decode seen (encode <$> l) = Ok (seen ++ l).
Proof.
  intros Hd. revert seen. induction l as [|x l IH]; intros seen Hn; cbn.
  { by rewrite app_nil_r. }
  rewrite Hd. cbn. replace (existsb _ seen) with false.
  - cbn. rewrite IH; by rewrite <- app_assoc.
  - symmetry. apply not_true_iff_false. intros (y & Hy & Hk)%existsb_exists.
    apply String.eqb_eq in Hk. rewrite fmap_app, NoDup_app in Hn.
    destruct Hn as (_ & Hn & _). apply (Hn (key y)).
    + by apply list_elem_of_fmap_2, list_elem_of_In.
    + rewrite Hk. cbn. by left.
Qed.

Lemma decode_table_nodup {A} (key : A -> string) decode seen items l :
  NoDup (key <$> seen) -> decode_table key decode seen items = Ok l -> NoDup (key <$> l).
Proof.
  revert seen. induction items as [|v items IH]; intros seen Hn H; cbn in H; [by simplify_eq|].
  inv_result. eapply IH; [|exact H]. rewrite fmap_app. apply NoDup_app. split; [done|].
  split; [|cbn; apply NoDup_singleton]. intros k (y & -> & Hy)%list_elem_of_fmap.
  cbn. rewrite list_elem_of_singleton. intros Hk.
  match goal with E : existsb _ seen = false |- _ =>
    rewrite <- not_true_iff_false in E; apply E, existsb_exists end.
  exists y. split; [by apply list_elem_of_In|]. by apply String.eqb_eq.
Qed.

Definition distinct_ids (p : FakeProvider) : Prop :=
  NoDup (volume_id <$> volumes p) /\ NoDup (server_id <$> servers p).

Lemma decode_encode_state p :
  distinct_ids p ->
  _decode_state (encode_state p) = Ok (volumes p, servers p, server_volume_links p).
Proof.
  intros [Hv Hs]. unfold _decode_state, encode_state, py_get_or. dict_lookup.
  unfold default, id. cbn.
  rewrite (decode_table_encoded _ _ _ [] _ decode_encode_volume Hv). cbn.
  rewrite (decode_table_encoded _ _ _ [] _ decode_encode_server Hs). cbn.
  by rewrite string_map_ok.
Qed.

Lemma decode_table_only {A} (key : A -> string) decode (encode : A -> value) l seen r :
  (forall y, decode (encode y) = Ok y) ->
  decode_table key decode seen (encode <$> l) = Ok r -> r = seen ++ l.
Proof.
  intros Hd. revert seen. induction l as [|y l IH]; intros seen Hr; cbn in Hr.
  - inv_result. by rewrite app_nil_r.
  - rewrite Hd in Hr. cbn in Hr. inv_result. apply IH in Hr as ->. by rewrite <- app_assoc.
Qed.

Lemma decode_state_distinct p x :
  _decode_state (encode_state p) = Ok x -> distinct_ids p.
Proof.
  unfold _decode_state, encode_state, py_get_or. dict_lookup. unfold default, id. cbn.
  intros (vs & Hv & H)%result_bind_ok. apply result_bind_ok in H as (ss & Hs & _).
  pose proof (decode_table_only _ _ _ _ _ _ decode_encode_volume Hv) as ->.
  pose proof (decode_table_only _ _ _ _ _ _ decode_encode_server Hs) as ->.
  split; [eapply (decode_table_nodup volume_id), Hv|eapply (decode_table_nodup server_id), Hs];
    apply NoDup_nil_2.
Qed.

#[local] Arguments _decode_state : simpl never.
#[local] Arguments encode_state : simpl never.
#[local] Arguments json_dump : simpl never.

Lemma save_ok (w : world FakeProvider) w' :
  _save w = (Ok tt, w') ->
  distinct_ids (mem w) /\ exists r, file w' = Present r /\
    load_json_authority r = Ok (encode_state (mem w)).
Proof.
  unfold _save. intros H. inv_run.
  repeat match goal with
  | H : catch _ _ _ = (Ok _, _) |- _ =>
      apply catch_ok in H as [H|(? & ? & ? & ?)]; [|done]; inv_run
  | H : io _ _ = (Ok _, _) |- _ => apply io_ok in H as (? & ? & ?)
  end. simpl in *.
  repeat match goal with Hm : mem _ = mem _ |- _ => rewrite Hm in *; clear Hm end.
  split; [by eapply decode_state_distinct|].
  match goal with Hj : json_dump _ = Ok ?r |- _ => exists r; split; [|by apply load_json_authority_dump] end.
  solve_same.
Qed.

(** ** The theorem *)

(** What the file-backed provider saves is what the next process loads: the same
    volumes and servers in the same order and the same attachments; and tables in
    which an id occurs twice are never saved. *)
Theorem saved_tables_are_reloaded w w1 w2 :
  _save w = (Ok tt, w1) -> file w2 = file w1 ->
  (forall n, io_fault (environment w2) n = false) ->
  distinct_ids (mem w) /\
  exists w3, open_file_provider w2 = (Ok tt, w3) /\
    volumes (mem w3) = volumes (mem w) /\ servers (mem w3) = servers (mem w) /\
    server_volume_links (mem w3) = server_volume_links (mem w).
Proof.
  intros (Hd & r & Hf & Hl)%save_ok Hf2 Hio. split; [done|].
  unfold open_file_provider, mbind, M_bind, get_mem, put_mem, get_file. cbn.
  rewrite Hf2, Hf. cbn. unfold catch at 1, io. cbn. rewrite Hio. cbn.
  unfold catch, lift. rewrite Hl. cbn. rewrite (decode_encode_state _ Hd). cbn.
  eexists. split; [reflexivity|]. by repeat split.
Qed.

Definition demo_cloud : FakeProvider :=
  (fake_create_server "n1" "img" "flavor" "id-0" {["irlight-managed" := "true"]}
    (fake_create_volume "v1" 20 {["irlight-managed" := "true"]}
      (Fake [] [] ∅ (fun n => String.append "id-" (pretty.pretty n)) 0)).2).2.

Definition demo_file : world FakeProvider :=
  World demo_cloud Missing false (Env (fun _ => of_Z 0) 0 (fun _ => "") 0 (fun _ => false) 0).

Lemma saved_tables_are_reloaded_witness :
  exists w3, open_file_provider (_save demo_file).2 = (Ok tt, w3) /\
    servers (mem w3) = servers demo_cloud.
Proof.
  destruct (saved_tables_are_reloaded demo_file (_save demo_file).2 (_save demo_file).2)
    as (_ & w3 & H & _ & Hs & _).
  - vm_compute. reflexivity.
  - reflexivity.
  - intros n. vm_compute. reflexivity.
  - exists w3. split; [exact H|exact Hs].
Defined.
