(* ===== verification/Site.v ===== *)
(** * A process of the control plane: two stores and a provider

    The workflow and the reaper act on the Session store, the credential store and
    the cloud. [site] is the three together; [on_store], [on_creds] and [on_cloud]
    run an operation of one of them. The Session store's environment is the clock
    and the identifier source of the process. *)

From S2P Require Import Prelude PyFloat PyValue Json Effects Authority Calendar Uuid Provider.
From S2P Require Import SessionState SessionStore Ingest.

Record site (P : Type) : Type := Site {
  site_store : world session_mem;
  site_creds : world ingest_mem;
  site_cloud : P
}.
Arguments Site {_} _ _ _.
Arguments site_store {_} _.
Arguments site_creds {_} _.
Arguments site_cloud {_} _.

Section site.
Context {P : Type}.

Definition on_store {A} (m : SM A) : M (site P) A := fun s =>
  let '(r, w) := m (site_store s) in (r, Site w (site_creds s) (site_cloud s)).

Definition on_creds {A} (m : IM A) : M (site P) A := fun s =>
  let '(r, w) := m (site_creds s) in (r, Site (site_store s) w (site_cloud s)).

Definition on_cloud {A} (m : M P A) : M (site P) A := fun s =>
  let '(r, p) := m (site_cloud s) in (r, Site (site_store s) (site_creds s) p).
End site.

(** The outcome of a [try] block, for the handlers that depend on how far the block
    got. *)
Definition attempt {W A} (m : M W A) : M W (result A) := fun w =>
  let '(r, w') := m w in (Ok r, w').

(** [try: m except Exception: pass] *)
Definition swallow {W A} (m : M W A) : M W (option A) :=
  r ← attempt m; mret match r with Ok a => Some a | Err _ => None end.

(** [x] of the elements for which the test, itself a computation, answers true. *)
Fixpoint mfilter {W A} (test : A -> M W bool) (l : list A) : M W (list A) :=
  match l with
  | [] => mret []
  | x :: l' => b ← test x; rest ← mfilter test l'; mret (if b : bool then x :: rest else rest)
  end.

(** The loop of both cleanups over the ids of one kind of resource: before each
    deletion the lease is checked ([None] is the early [return False]); a deletion
    that raises is logged and remembered. *)
Fixpoint delete_each {W} (owned : M W bool) (delete : string -> M W unit)
    (ids : list string) (ok : bool) : M W (option bool) :=
  match ids with
  | [] => mret (Some ok)
  | id :: rest =>
      still ← owned;
      if negb still then mret None
      else
        r ← attempt (delete id);
        delete_each owned delete rest (ok && match r with Ok _ => true | Err _ => false end)
  end.

(** The default of [lease_seconds] in both claims. *)
Definition CLEANUP_LEASE_SECONDS : float := of_Z 900.

Definition lease_owned {P} (session_id : string) (lease_id : option string) : M (site P) bool :=
  match lease_id with
  | None => mret true
  | Some id => on_store (session_cleanup_still_owned session_id id)
  end.

Definition ids_of_kind (kind : string) (resources : list ManagedResource) : list string :=
  res_provider_id <$> List.filter (fun r => String.eqb (res_kind r) kind) resources.

(** [provisioning_in_progress=False, provisioning_operation_id=None] *)
Definition lease_given_up : dict :=
  list_to_map [("provisioning_in_progress", VBool false); ("provisioning_operation_id", VNull)].

Definition cancel_common : dict :=
  <["provisioning_cancel_requested" := VBool false]> lease_given_up.
