(* ===== verification/Workflow.v ===== *)
(** * The provisioning workflow (session_workflow.py)

    [ProvisioningWorkflow]: [prepare] allocates a volume and a server for a Session
    under its provisioning lease, [stop] gives everything back. The text of an
    exception, which becomes a failure reason, and the environment variable of the
    ready handshake are parameters. *)

From S2P Require Import Prelude PyFloat PyValue Json Effects Authority Calendar Uuid Provider.
From S2P Require Import SessionState SessionStore Ingest Site.

Record WorkflowConfig : Type := Config {
  size_gb : Z;
  image_ref : string;
  flavor_ref : string
}.

Definition default_config : WorkflowConfig := Config 20 "ubuntu-24.04" "g2".

Section workflow.
Context {P : Type} `{Provider P}.
Context (config : WorkflowConfig).
(* [str(exc)]; [os.getenv("IRLIGHT_REQUIRE_NODE_READY_HANDSHAKE")] *)
Context (exc_text : exn -> string) (handshake : option string).

Abbreviation WM := (M (site P)).

(** [self._metadata(...)]; [created_at] is the clock. *)
Definition _metadata (user_id environment session_id : string) : WM tags :=
  now ← on_store time_time;
  m ← lift (check_metadata (Metadata session_id user_id environment now None));
  lift (as_tags m).

Definition _provisioning_cancelled (session : dict) : bool :=
  truthy (py_get session "provisioning_cancel_requested") ||
  in_set (status_of session) ["STOPPING"; "FAILED_CLEANUP"; "FINISHED"; "FAILED"].

(** The expected tags; the user and the environment only when they are given. *)
Definition expected_tags (session_id : string) (user_id environment : option string)
    : list (string * string) :=
  ("irlight-session-id", session_id) ::
  match user_id with Some u => [("irlight-user-id", u)] | None => [] end ++
  match environment with Some e => [("irlight-environment", e)] | None => [] end.

Definition tags_mismatch (t : tags) (expected : list (string * string)) : bool :=
  existsb (fun p => negb (bool_decide (t !! p.1 = Some p.2))) expected.

Fixpoint pick_managed {R} (tags_of : R -> tags) (session_id : string)
    (expected : list (string * string)) (resources : list R) : result (option R) :=
  match resources with
  | [] => Ok None
  | resource :: rest =>
      let t := tags_of resource in
      if negb (bool_decide (t !! "irlight-session-id" = Some session_id)) ||
         negb (is_managed t) then pick_managed tags_of session_id expected rest
      else if tags_mismatch t expected then Err RuntimeError
      else Ok (Some resource)
  end.

Definition _find_managed_volume (session_id : string) (user_id environment : option string)
    : WM (option ProviderVolume) :=
  resources ← on_cloud list_volumes;
  lift (pick_managed volume_tags session_id (expected_tags session_id user_id environment)
          resources).

Definition _find_managed_server (session_id : string) (user_id environment : option string)
    : WM (option ProviderServer) :=
  resources ← on_cloud list_servers;
  lift (pick_managed server_tags session_id (expected_tags session_id user_id environment)
          resources).

(** ** Cleanup *)

(** The environment tag of the first resource with this id, servers first. *)
Definition environment_of (id : string) (ss : list ProviderServer) (vs : list ProviderVolume)
    : option string :=
  match List.find (fun p => String.eqb p.1 id)
          (((fun s => (server_id s, server_tags s)) <$> ss) ++
           ((fun v => (volume_id v, volume_tags v)) <$> vs)) with
  | Some (_, t) => t !! "irlight-environment"
  | None => None
  end.

Definition _resource_environment (resource : ManagedResource) (expected : string) : WM bool :=
  if str_empty expected then mret false
  else
    ss ← on_cloud list_servers;
    vs ← on_cloud list_volumes;
    mret (bool_decide (environment_of (res_provider_id resource) ss vs = Some expected)).

(** The managed resources of the Session, its user and its environment. *)
Definition owned_resources (session_id expected_user expected_environment : string)
    : WM (list ManagedResource) :=
  resources ← on_cloud list_managed_resources;
  mfilter (fun resource =>
      if bool_decide (res_session_id resource = Some session_id) &&
         bool_decide (res_user_id resource = Some expected_user)
      then _resource_environment resource expected_environment
      else mret false) resources.

(** [str(...)] of the record's user and environment, which are texts. *)
Definition _cleanup_resources (session_id : string) (lease_id : option string) : WM bool :=
  current ← on_store (get session_id);
  let current := default ∅ current in
  let expected_user := name_text (py_get_or current "user_id" (VStr "")) in
  let expected_environment := name_text (py_get_or current "environment" (VStr "")) in
  resources ← owned_resources session_id expected_user expected_environment;
  deleted ← delete_each (lease_owned session_id lease_id)
              (fun id => on_cloud (delete_server id)) (ids_of_kind "server" resources) true;
  match deleted with
  | None | Some false => mret false
  | Some true =>
      remaining ← owned_resources session_id expected_user expected_environment;
      if existsb (fun r => String.eqb (res_kind r) "server") remaining then mret false
      else
        deleted ← delete_each (lease_owned session_id lease_id)
                    (fun id => on_cloud (delete_volume id)) (ids_of_kind "volume" remaining) true;
        mret (default false deleted)
  end.

Definition _finish_cancelled_provisioning (session_id : string) : WM dict :=
  current ← on_store (get session_id);
  match current with
  | None => raise KeyError
  | Some current =>
      if negb (in_set (status_of current) ["STOPPING"; "FAILED_CLEANUP"]) then mret current
      else
        on_creds (revoke_session session_id None) ;;
        lease ← on_store (claim_session_cleanup session_id [] CLEANUP_LEASE_SECONDS);
        match lease with
        | None => mret current
        | Some lease_id =>
            finally (
              cleaned ← _cleanup_resources session_id (Some lease_id);
              current ← on_store (get session_id);
              match current with
              | None => raise KeyError
              | Some current =>
                  let status := status_of current in
                  if bool_decide (status = "STOPPING") then
                    if cleaned : bool then
                      on_store (transition session_id "FINISHED" (Some ["STOPPING"])
                        (<["cleanup_pending" := VBool false]> cancel_common))
                    else
                      on_store (transition session_id "FAILED_CLEANUP" (Some ["STOPPING"])
                        (<["failure_reason" :=
                             VStr "resource cleanup failed after provisioning cancellation"]>
                          (<["cleanup_pending" := VBool true]> cancel_common)))
                  else if bool_decide (status = "FAILED_CLEANUP") then
                    if cleaned : bool then
                      on_store (transition session_id "FAILED" (Some ["FAILED_CLEANUP"])
                        (<["cleanup_pending" := VBool false]> cancel_common))
                    else
                      on_store (update session_id
                        (<["cleanup_pending" := VBool true]> cancel_common))
                  else mret current
              end)
            (on_store (release_session_cleanup session_id lease_id))
        end
  end.

(** ** [stop] *)
Definition stop (session_id : string) : WM dict :=
  session ← on_store (get session_id);
  match session with
  | None => raise KeyError
  | Some session =>
      if in_set (status_of session) ["STOPPED"; "FINISHED"; "FAILED"] then
        on_creds (revoke_session session_id None) ;;
        mret session
      else
        session ← on_store (request_stop session_id);
        on_creds (revoke_session session_id None) ;;
        if truthy (py_get session "provisioning_in_progress") then mret session
        else
          lease ← on_store (claim_session_cleanup session_id [] CLEANUP_LEASE_SECONDS);
          match lease with
          | None => current ← on_store (get session_id); mret (default session current)
          | Some lease_id =>
              finally (
                cleaned ← _cleanup_resources session_id (Some lease_id);
                if cleaned : bool then
                  on_store (transition session_id "FINISHED" (Some ["STOPPING"])
                    (<["cleanup_pending" := VBool false]> cancel_common))
                else
                  on_store (transition session_id "FAILED_CLEANUP" (Some ["STOPPING"])
                    (<["failure_reason" := VStr "resource cleanup failed"]>
                      (<["cleanup_pending" := VBool true]> lease_given_up))))
              (on_store (release_session_cleanup session_id lease_id))
          end
  end.

(** ** [prepare] *)
Definition resource_name (session_id suffix : string) : string :=
  String.append "irlight-" (String.append session_id suffix).

Definition require_handshake (environment : string) : bool :=
  bool_decide (environment = "prod") && negb (bool_decide (default "1" handshake = "0")).

(** The body of the [try] block after the claim. *)
Definition provision (session_id user_id environment operation_id : string) : WM dict :=
  volume ← _find_managed_volume session_id None None;
  volume ← match volume with
           | Some v => mret v
           | None =>
               t ← _metadata user_id environment session_id;
               on_cloud (create_volume (resource_name session_id "-boot") (size_gb config) t)
           end;
  session ← on_store (provisioning_checkpoint session_id operation_id None false
                        {[ "provider_volume_id" := VStr (volume_id volume) ]});
  if _provisioning_cancelled session then _finish_cancelled_provisioning session_id
  else
    server ← _find_managed_server session_id None None;
    server ← match server with
             | Some s => mret s
             | None =>
                 t ← _metadata user_id environment session_id;
                 on_cloud (create_server (resource_name session_id "-node")
                   (image_ref config) (flavor_ref config) (volume_id volume) t)
             end;
    session ← on_store (provisioning_checkpoint session_id operation_id None false
      (list_to_map [("provider_server_id", VStr (server_id server));
                    ("provider_public_ipv4", opt_str (server_public_ipv4 server))]));
    if _provisioning_cancelled session then _finish_cancelled_provisioning session_id
    else
      session ← on_store (provisioning_checkpoint session_id operation_id
                            (Some "BOOTSTRAPPING") false ∅);
      if _provisioning_cancelled session then _finish_cancelled_provisioning session_id
      else if require_handshake environment then mret session
      else
        ready_at ← on_store time_time;
        on_store (provisioning_checkpoint session_id operation_id
          (Some "READY_WAIT_INGEST") true {[ "ready_at" := VFloat ready_at ]}).

(** [except Exception as exc], with its final [raise]. *)
Definition fail_provisioning (session_id : string) (e : exn) : WM dict :=
  current ← on_store (get session_id);
  if match current with Some c => _provisioning_cancelled c | None => false end
  then _finish_cancelled_provisioning session_id
  else
    failed ← swallow (on_store (transition session_id "FAILED_CLEANUP"
      (Some ["PROVISIONING"; "BOOTSTRAPPING"])
      (<["failure_reason" := VStr (py_take 500 (exc_text e))]>
        (<["cleanup_pending" := VBool true]> lease_given_up))));
    match failed with
    | None => mret tt
    | Some _ =>
        swallow (on_creds (revoke_session session_id None)) ;;
        lease ← on_store (claim_session_cleanup session_id [] CLEANUP_LEASE_SECONDS);
        match lease with
        | None => mret tt
        | Some lease_id =>
            finally (
              cleaned ← _cleanup_resources session_id (Some lease_id);
              if cleaned : bool then
                swallow (on_store (transition session_id "FAILED" (Some ["FAILED_CLEANUP"])
                  {[ "cleanup_pending" := VBool false ]})) ;;
                mret tt
              else mret tt)
            (on_store (release_session_cleanup session_id lease_id))
        end
    end ;;
    raise e.

(** The handlers of the [try] statement; [claimed] as in the source. *)
Definition provisioning_failed (session_id : string) (claimed : bool) (e : exn) : WM dict :=
  match e with
  | ProvisioningInProgress =>
      if claimed then
        current ← on_store (get session_id);
        if match current with Some c => _provisioning_cancelled c | None => false end
        then _finish_cancelled_provisioning session_id
        else raise e
      else raise e
  | _ => fail_provisioning session_id e
  end.

Definition prepare (session_id : string) (user_id : option string) (environment : string)
    : WM dict :=
  (* [user_id or "unknown"] *)
  let owner := match user_id with
               | Some u => if str_empty u then "unknown" else u
               | None => "unknown"
               end in
  session ← on_store (get session_id);
  session ← match session with
            | Some s => mret s
            | None => on_store (create (Some session_id) owner environment "DIRECT_PUSH"
                                  (Some (of_Z 12)))
            end;
  let current := status_of session in
  if in_set current ["READY_WAIT_INGEST"; "LIVE"; "DEGRADED"; "HOLDING"] then mret session
  else if in_set current ["FINISHED"; "FAILED"; "STOPPING"; "FAILED_CLEANUP"]
  then raise RuntimeError
  else
    operation_id ← on_store uuid4;
    claim ← attempt (
      started_at ← on_store time_time;
      on_store (claim_provisioning session_id operation_id (VFloat started_at)));
    match claim with
    | Err e => provisioning_failed session_id false e
    | Ok _ => catch (provision session_id owner environment operation_id)
                    (provisioning_failed session_id true)
    end.

(** [_ensure_resources]; no caller is left in the source. *)
Definition _ensure_resources (session_id user_id environment : string)
    : WM (ProviderVolume * ProviderServer) :=
  now ← on_store time_time;
  m ← lift (check_metadata (Metadata session_id user_id environment now None));
  t ← lift (as_tags m);
  volume ← _find_managed_volume session_id (Some user_id) (Some environment);
  volume ← match volume with
           | Some v => mret v
           | None => on_cloud (create_volume (resource_name session_id "-boot") (size_gb config) t)
           end;
  server ← _find_managed_server session_id (Some user_id) (Some environment);
  server ← match server with
           | Some s => mret s
           | None => on_cloud (create_server (resource_name session_id "-node")
                       (image_ref config) (flavor_ref config) (volume_id volume) t)
           end;
  mret (volume, server).
End workflow.
