(* ===== verification/Reaper.v ===== *)
(** * The reaper (reaper.py)

    [run] is one sweep of the scheduled reaper: it times out stuck provisioning,
    enforces the absolute, no-ingest and holding deadlines and the Node heartbeat,
    retries the cleanups that failed, and deletes provider resources no Session owns.
    [node_state] is what [read_node_authority_snapshot] answers, [None] when it
    raises. Logging is not modelled. *)

From S2P Require Import Prelude PyFloat PyValue Json Effects Authority Calendar Uuid Provider.
From S2P Require Import SessionState SessionStore Ingest Site.

(** ** Numbers *)

(** [float(v)]. No text is stored where it is used; one would raise here. *)
Definition py_float (v : value) : result float :=
  match v with
  | VBool b => Ok (of_Z (if b then 1 else 0))
  | VInt z => let f := of_Z z in if is_finite f then Ok f else Err OverflowError
  | VFloat f => Ok f
  | VStr _ => Err ValueError
  | _ => Err TypeError
  end.

(** [float(v)] under [except (TypeError, ValueError)]. *)
Definition try_float (v : value) : result (option float) :=
  match py_float v with
  | Ok f => Ok (Some f)
  | Err OverflowError => Err OverflowError
  | Err _ => Ok None
  end.

(** The same, of a field that may be absent or [None]. *)
Definition optional_float (v : value) : result (option float) :=
  if is_null v then Ok None else try_float v.

Definition _validated_reaper_number (v : value) : result float :=
  match nonneg_number v with Some f => Ok f | None => Err ValueError end.

Record ReaperConfig : Type := RConfig {
  provisioning_timeout_seconds : float;
  no_ingest_timeout_seconds : float;
  hold_timeout_seconds : float;
  heartbeat_grace_seconds : float;
  orphan_grace_seconds : float
}.

Definition default_reaper_config : ReaperConfig :=
  RConfig (of_Z 600) (of_Z 3600) (of_Z 1800) (of_Z 120) (of_Z 300).

(** [ReaperConfig.__post_init__] *)
Definition make_reaper_config (provisioning no_ingest hold heartbeat orphan : value)
    : result ReaperConfig :=
  a ← _validated_reaper_number provisioning;
  b ← _validated_reaper_number no_ingest;
  c ← _validated_reaper_number hold;
  d ← _validated_reaper_number heartbeat;
  e ← _validated_reaper_number orphan;
  Ok (RConfig a b c d e).

(** [str(o)] of an optional text. *)
Definition opt_text (o : option string) : string := default "None" o.

(** The first of the fields that is not [None]. *)
Fixpoint first_field (session : dict) (fields : list string) : value :=
  match fields with
  | [] => VNull
  | f :: rest =>
      if is_null (py_get session f) then first_field session rest else py_get session f
  end.

(** [str(session["session_id"])], a text in every validated record. *)
Definition id_of (session : dict) : string := name_text (py_get session "session_id").

Definition _has_holding_event_since (session : dict) (started : float) : result bool :=
  foldr (fun event acc =>
      match event with
      | VDict e =>
          if py_eq (py_get e "type") (VStr "session.holding") then
            occurred_at ← try_float (py_get e "occurred_at");
            match occurred_at with
            | Some t => if fle started t then Ok true else acc
            | None => acc
            end
          else acc
      | _ => acc
      end) (Ok false) (reverse (default [] (as_list (py_get_or session "events" (VList []))))).

(** [str(v or "")] *)
Definition text_or_empty (v : value) : string := if truthy v then name_text v else "".

(** Returns [(baseline, last_heartbeat)]. *)
Definition _heartbeat_baseline (session node_state : dict)
    : result (option float * option float) :=
  let node_id := text_or_empty (py_get session "node_id") in
  if str_empty node_id then Ok (None, None)
  else
    session_last ← optional_float (py_get session "node_last_heartbeat_at");
    let node := py_get (default ∅ (as_dict (py_get node_state "nodes"))) node_id in
    last_heartbeat ←
      match session_last, node with
      | None, VDict n =>
          if String.eqb (text_or_empty (py_get n "session_id"))
               (text_or_empty (py_get session "session_id"))
          then optional_float (py_get n "last_heartbeat_at") else Ok None
      | _, _ => Ok session_last
      end;
    registered_at ← optional_float (py_get session "node_registered_at");
    Ok (match last_heartbeat with Some t => Some t | None => registered_at end, last_heartbeat).

Record sweep : Type := Sweep {
  timeout_failures : Z;
  heartbeat_failures : Z;
  deadline_stops : Z;
  hold_deadlines_recovered : Z;
  orphan_cleanup : Z;
  failed_cleanup_retries : Z
}.

(** Sum what a loop body counts: [for x in l: if f(x): n += 1]. *)
Fixpoint mcount {W A} (f : A -> M W Z) (l : list A) : M W Z :=
  match l with
  | [] => mret 0
  | x :: l' => n ← f x; k ← mcount f l'; mret (n + k)
  end.

Definition one_if (b : bool) : Z := if b then 1 else 0.

Section reaper.
Context {P : Type} `{Provider P}.
Context (config : ReaperConfig).

Abbreviation RM := (M (site P)).

(** [self.now()]; [given] is the clock fixed by a test, else [time.time()]. *)
Definition reaper_now (given : option value) : RM float :=
  match given with
  | Some v => lift (_validated_reaper_number v)
  | None => t ← on_store time_time; lift (_validated_reaper_number (VFloat t))
  end.

Definition ids_of (kind : string) (session_id : string) (resources : list ManagedResource)
    : list string :=
  ids_of_kind kind
    (List.filter (fun r => bool_decide (res_session_id r = Some session_id)) resources).

Definition _cleanup_resources (session_id : string) (lease_id : option string) : RM bool :=
  resources ← on_cloud list_managed_resources;
  deleted ← delete_each (lease_owned session_id lease_id)
              (fun id => on_cloud (delete_server id)) (ids_of "server" session_id resources) true;
  match deleted with
  | None | Some false => mret false
  | Some true =>
      remaining ← on_cloud list_managed_resources;
      if negb (bool_decide (ids_of "server" session_id remaining = [])) then mret false
      else
        deleted ← delete_each (lease_owned session_id lease_id)
                    (fun id => on_cloud (delete_volume id))
                    (ids_of "volume" session_id remaining) true;
        mret (default false deleted)
  end.

(** The end of a cleanup that has claimed its lease: on success the Session reaches
    [state] and the event is recorded. *)
Definition finish_cleanup (session_id lease_id state from reason_code : string)
    (changes payload : dict) (on_failure : RM unit) (sweep_now : float) : RM unit :=
  finally (
    cleaned ← _cleanup_resources session_id (Some lease_id);
    if cleaned : bool then
      on_store (transition session_id state (Some [from]) changes) ;;
      on_store (append_event session_id
        (if bool_decide (state = "FAILED") then "session.failed" else "session.finished")
        (Some reason_code) (Some payload) "reaper" (Some (VFloat sweep_now))) ;;
      mret tt
    else on_failure)
  (on_store (release_session_cleanup session_id lease_id)).

Definition _fail_missing_heartbeat (session : dict) (last_heartbeat_at : option float)
    (detected_at : float) : RM bool :=
  let session_id := id_of session in
  transitioned ← attempt (on_store (transition_if_current session_id "FAILED_CLEANUP"
    ACTIVE_STATES
    (list_to_map
      [("node_id", py_get session "node_id"); ("node_boot_id", py_get session "node_boot_id");
       ("node_registered_at", py_get session "node_registered_at");
       ("node_last_heartbeat_at", py_get session "node_last_heartbeat_at")])
    (list_to_map
      [("cleanup_pending", VBool true); ("failure_reason", VStr "node heartbeat timed out");
       ("failure_reason_code", VStr "NODE_SHUTDOWN")])));
  match transitioned with
  | Err _ | Ok None => mret false
  | Ok (Some _) =>
      on_store (append_event session_id "session.failure_detected" (Some "NODE_SHUTDOWN")
        (Some (list_to_map
          [("node_id", py_get session "node_id");
           ("from_state", VStr (name_text (py_get_or session "status" (VStr ""))));
           ("to_state", VStr "FAILED_CLEANUP"); ("cleanup_pending", VBool true);
           ("last_heartbeat_at",
              match last_heartbeat_at with Some t => VFloat t | None => VNull end);
           ("node_registered_at", py_get session "node_registered_at");
           ("heartbeat_grace_seconds", VFloat (fmax fzero (heartbeat_grace_seconds config)))]))
        "reaper" (Some (VFloat detected_at))) ;;
      revoked ← attempt (on_creds (revoke_session session_id None));
      mret match revoked with Ok _ => true | Err _ => false end
  end.

(** The fields that cancel a provisioning lease with a failure. *)
Definition failing_changes (reason reason_code : string) : dict :=
  list_to_map
    [("cleanup_pending", VBool true); ("failure_reason", VStr reason);
     ("failure_reason_code", VStr reason_code); ("provisioning_cancel_requested", VBool true);
     ("provisioning_in_progress", VBool false); ("provisioning_operation_id", VNull)].

Definition _fail_and_cleanup (session_id reason reason_code : string)
    (expected_status : option string) (expected_fields : option dict) (sweep_now : float)
    : RM bool :=
  failed ← attempt (on_store
    match expected_status with
    | None => s ← transition session_id "FAILED_CLEANUP"
                    (Some ["PROVISIONING"; "BOOTSTRAPPING"]) (failing_changes reason reason_code);
              mret (Some s)
    | Some st => transition_if_current session_id "FAILED_CLEANUP" [st]
                   (default ∅ expected_fields) (failing_changes reason reason_code)
    end);
  match failed with
  | Err _ | Ok None => mret false
  | Ok (Some _) =>
      revoked ← attempt (on_creds (revoke_session session_id None));
      match revoked with
      | Err _ => mret true
      | Ok _ =>
          lease ← on_store (claim_session_cleanup session_id [] CLEANUP_LEASE_SECONDS);
          match lease with
          | None => mret true
          | Some lease_id =>
              finish_cleanup session_id lease_id "FAILED" "FAILED_CLEANUP" reason_code
                {[ "cleanup_pending" := VBool false ]}
                (list_to_map [("failure_reason", VStr reason); ("cleanup_pending", VBool false)])
                (mret tt) sweep_now ;;
              mret true
          end
      end
  end.

(** Whether a stop must still wait for the provisioning that it cancelled. *)
Definition still_provisioning (stopping : dict) (sweep_now : float) : result bool :=
  let started_value :=
    if truthy (py_get stopping "provisioning_started_at")
    then py_get stopping "provisioning_started_at"
    else if truthy (py_get stopping "updated_at") then py_get stopping "updated_at"
    else VFloat sweep_now in
  started ← try_float started_value;
  Ok (fle (fsub sweep_now (default sweep_now started)) (provisioning_timeout_seconds config)).

(** The cleanup of a Session in STOPPING, from the claim of the lease on. *)
Definition cleanup_stopping (session_id reason_code : string) (sweep_now : float) : RM unit :=
  lease ← on_store (claim_session_cleanup session_id [] CLEANUP_LEASE_SECONDS);
  match lease with
  | None => mret tt
  | Some lease_id =>
      finish_cleanup session_id lease_id "FINISHED" "STOPPING" reason_code
        (<["cleanup_pending" := VBool false]> cancel_common)
        (list_to_map [("from_state", VStr "STOPPING"); ("to_state", VStr "FINISHED")])
        (on_store (transition session_id "FAILED_CLEANUP" (Some ["STOPPING"])
           (<["failure_reason_code" := VStr "RESOURCE_CLEANUP_FAILED"]>
             (<["failure_reason" := VStr "resource cleanup failed"]>
               (<["cleanup_pending" := VBool true]> lease_given_up)))) ;; mret tt)
        sweep_now
  end.

Definition _stop_and_cleanup (session_id reason_code : string)
    (expected_status : option string) (expected_fields : dict) (sweep_now : float)
    : RM bool :=
  before ← match expected_status with
           | None => on_store (get session_id)
           | Some _ => mret None
           end;
  (* [expected_status or (str(before.get("status")) if before else None)] *)
  let from_state :=
    match expected_status with Some st => Some st | None => status_of <$> before end in
  stopping ← attempt (on_store
    match expected_status with
    | None => s ← request_stop session_id; mret (Some s)
    | Some st => request_stop_if_current session_id st expected_fields
    end);
  match stopping with
  | Err _ | Ok None => mret false
  | Ok (Some stopping) =>
      if in_set (status_of stopping) TERMINAL_STATES then mret false
      else
        revoked ← attempt (on_creds (revoke_session session_id None));
        match revoked with
        | Err _ => mret true
        | Ok _ =>
            (if bool_decide (from_state = Some "STOPPING") then mret tt
             else
               on_store (append_event session_id "session.stopping" (Some reason_code)
                 (Some (list_to_map [("from_state", opt_str from_state);
                                     ("to_state", VStr "STOPPING")]))
                 "reaper" (Some (VFloat sweep_now))) ;; mret tt) ;;
            if truthy (py_get stopping "provisioning_in_progress") then
              wait ← lift (still_provisioning stopping sweep_now);
              if wait : bool then mret true
              else
                on_store (update session_id lease_given_up) ;;
                cleanup_stopping session_id reason_code sweep_now ;;
                mret true
            else
              cleanup_stopping session_id reason_code sweep_now ;;
              mret true
        end
  end.

(** ** Orphans *)
Definition _orphan_delete_allowed (resource : ManagedResource) (known : gmap string dict)
    (sweep_now : float) : bool :=
  match res_session_id resource with
  | None => false
  | Some session_id =>
      if match known !! session_id with
         | Some session => negb (in_set (status_of session) TERMINAL_STATES)
         | None => false
         end then false
      else if match res_delete_after resource with
              | Some t => fle t sweep_now
              | None => false
              end then true
      else match res_created_at resource with
           | Some created_at => fle (orphan_grace_seconds config) (fsub sweep_now created_at)
           | None => false
           end
  end.

Definition same_resource (resource candidate : ManagedResource) : bool :=
  String.eqb (res_provider_id candidate) (res_provider_id resource) &&
  String.eqb (res_kind candidate) (res_kind resource) &&
  String.eqb (opt_text (res_session_id candidate)) (opt_text (res_session_id resource)).

(** [except SessionStateError]: anything else goes on. *)
Definition except_state_error {A} (m : RM A) (h : RM A) : RM A :=
  catch m (fun e => match e with SessionStateError => h | _ => raise e end).

Definition _cleanup_orphan_resource (resource : ManagedResource) : RM bool :=
  let session_id := opt_text (res_session_id resource) in
  lease ← except_state_error
    (on_store (claim_orphan_cleanup session_id (res_provider_id resource) (res_kind resource)
                 CLEANUP_LEASE_SECONDS)) (mret None);
  match lease with
  | None => mret false
  | Some lease_id =>
      finally (catch (
        latest_resources ← on_cloud list_managed_resources;
        match List.find (same_resource resource) latest_resources with
        | None => mret false
        | Some _ =>
            owned ← on_store (orphan_cleanup_still_owned session_id lease_id);
            if negb owned then mret false
            else if bool_decide (res_kind resource = "volume") &&
                    existsb (fun c => String.eqb (opt_text (res_session_id c)) session_id &&
                                      String.eqb (res_kind c) "server") latest_resources
            then mret false
            else if bool_decide (res_kind resource = "server") then
              on_cloud (delete_server (res_provider_id resource)) ;; mret true
            else if bool_decide (res_kind resource = "volume") then
              on_cloud (delete_volume (res_provider_id resource)) ;; mret true
            else mret false
        end) (fun _ => mret false))
      (except_state_error (on_store (release_orphan_cleanup session_id lease_id)) (mret tt))
  end.

(** [{str(s["session_id"]): s for s in sessions}] *)
Definition by_id (sessions : list dict) : gmap string dict :=
  fold_left (fun m s => <[id_of s := s]> m) sessions ∅.

Definition sweep_orphans (kind : string) (known : gmap string dict) (sweep_now : float)
    (resources : list ManagedResource) : RM Z :=
  mcount (fun resource =>
      if negb (String.eqb (res_kind resource) kind) ||
         negb (_orphan_delete_allowed resource known sweep_now) then mret 0
      else cleaned ← _cleanup_orphan_resource resource; mret (one_if cleaned))
    resources.

Definition _cleanup_orphans (sweep_now : float) : RM Z :=
  snapshot ← except_state_error (l ← on_store authoritative_snapshot; mret (Some l)) (mret None);
  match snapshot with
  | None => mret 0
  | Some sessions =>
      resources ← on_cloud list_managed_resources;
      n ← sweep_orphans "server" (by_id sessions) sweep_now resources;
      k ← sweep_orphans "volume" (by_id sessions) sweep_now resources;
      mret (n + k)
  end.

(** [_orphan_still_unowned]; no caller is left in the source. *)
Definition _orphan_still_unowned (session_id : string) : RM bool :=
  snapshot ← except_state_error (l ← on_store authoritative_snapshot; mret (Some l)) (mret None);
  mret match snapshot with
       | None => false
       | Some sessions => match by_id sessions !! session_id with
                          | Some s => in_set (status_of s) TERMINAL_STATES
                          | None => true
                          end
       end.

(** ** The sweep *)
Definition sweep_provisioning (now : float) (session : dict) : RM Z :=
  started ← lift (let v := first_field session ["provisioning_started_at"; "created_at"] in
                  if is_null v then Ok now else py_float v);
  if flt (provisioning_timeout_seconds config) (fsub now started) then
    failed ← _fail_and_cleanup (id_of session) "provisioning timeout" "PROVISIONING_TIMEOUT"
      (Some (status_of session))
      (Some (list_to_map
        [("provisioning_started_at", py_get session "provisioning_started_at");
         ("provisioning_operation_id", py_get session "provisioning_operation_id")])) now;
    mret (one_if failed)
  else mret 0.

Definition sweep_deadline (now : float) (session : dict) : RM Z :=
  let deadline := py_get session "absolute_deadline_at" in
  limit ← lift (optional_float deadline);
  match limit with
  | None => mret 0
  | Some t =>
      if fle t now then
        stopped ← _stop_and_cleanup (id_of session) "ABSOLUTE_DEADLINE_EXCEEDED"
          (Some (status_of session)) {[ "absolute_deadline_at" := deadline ]} now;
        mret (one_if stopped)
      else mret 0
  end.

Definition sweep_heartbeat (now : float) (node_state : dict) (session : dict) : RM Z :=
  b ← lift (_heartbeat_baseline session node_state);
  let '(baseline, last_heartbeat) := b : option float * option float in
  let grace := fmax fzero (heartbeat_grace_seconds config) in
  match baseline with
  | None => mret 0
  | Some t =>
      if flt now t || flt (fsub now t) grace then mret 0
      else failed ← _fail_missing_heartbeat session last_heartbeat now; mret (one_if failed)
  end.

Definition sweep_no_ingest (now : float) (session : dict) : RM Z :=
  let ready_value := py_get session "ready_at" in
  ready ← lift (if is_null ready_value then Ok now else py_float ready_value);
  if flt (no_ingest_timeout_seconds config) (fsub now ready) then
    stopped ← _stop_and_cleanup (id_of session) "NO_INGEST_TIMEOUT" (Some "READY_WAIT_INGEST")
      {[ "ready_at" := ready_value ]} now;
    mret (one_if stopped)
  else mret 0.

(** The session to judge and its deadline: as recorded, or recovered from the start of
    the hold ([None] when the record changed meanwhile). *)
Definition recover_hold (now : float) (session : dict) : RM (option (dict * value * Z)) :=
  let hold_deadline := py_get session "hold_deadline_at" in
  if negb (is_null hold_deadline) then mret (Some (session, hold_deadline, 0))
  else
    started ← lift (let v := first_field session ["last_ingest_at"; "updated_at"] in
                    if is_null v then Ok now else py_float v);
    let hold_deadline := fadd started (hold_timeout_seconds config) in
    audited ← lift (_has_holding_event_since session started);
    let event :=
      if audited : bool then None
      else Some (AuditEvent (Some "session.holding") (Some "INGEST_DISCONNECTED")
             (Some (list_to_map [("hold_started_at", VFloat started);
                                 ("hold_deadline_at", VFloat hold_deadline)]))
             (Some "reaper") (Some (VFloat now))) in
    recovered ← on_store (update_if_current (id_of session) "HOLDING"
      (list_to_map [("hold_deadline_at", VNull);
                    ("last_ingest_at", py_get session "last_ingest_at");
                    ("updated_at", py_get session "updated_at")])
      event {[ "hold_deadline_at" := VFloat hold_deadline ]});
    mret ((fun s => (s, VFloat hold_deadline, 1)) <$> recovered).

(** Returns the two counts of the loop over the Sessions in HOLDING. *)
Definition sweep_holding (now : float) (session : dict) : RM (Z * Z) :=
  held ← recover_hold now session;
  match held with
  | None => mret (0, 0)
  | Some (session, hold_deadline, recovered) =>
      limit ← lift (py_float hold_deadline);
      if flt limit now then
        stopped ← _stop_and_cleanup (id_of session) "HOLD_TIMEOUT" (Some "HOLDING")
          (list_to_map [("hold_deadline_at", hold_deadline);
                        ("last_ingest_at", py_get session "last_ingest_at")]) now;
        mret (recovered, one_if stopped)
      else mret (recovered, 0)
  end.

Fixpoint mcount2 {A} (f : A -> RM (Z * Z)) (l : list A) : RM (Z * Z) :=
  match l with
  | [] => mret (0, 0)
  | x :: l' => n ← f x; k ← mcount2 f l'; mret (n.1 + k.1, n.2 + k.2)
  end.

Definition sweep_stopping (now : float) (session : dict) : RM unit :=
  _stop_and_cleanup (id_of session) "STOP_REQUESTED" None ∅ now ;; mret tt.

Definition sweep_failed_cleanup (now : float) (session : dict) : RM unit :=
  let session_id := id_of session in
  revoked ← attempt (on_creds (revoke_session session_id None));
  match revoked with
  | Err _ => mret tt
  | Ok _ =>
      lease ← on_store (claim_session_cleanup session_id [] CLEANUP_LEASE_SECONDS);
      match lease with
      | None => mret tt
      | Some lease_id =>
          let code := py_get session "failure_reason_code" in
          finish_cleanup session_id lease_id "FAILED" "FAILED_CLEANUP"
            (py_take 100 (if truthy code then name_text code else "RESOURCE_CLEANUP_FAILED"))
            {[ "cleanup_pending" := VBool false ]}
            (list_to_map [("failure_reason", py_get session "failure_reason");
                          ("cleanup_pending", VBool false)])
            (mret tt) now
      end
  end.

Definition run (given_now : option value) (node_state : option dict) : RM sweep :=
  now ← reaper_now given_now;
  l ← on_store (sessions_in_states ["PROVISIONING"; "BOOTSTRAPPING"]);
  timeouts ← mcount (sweep_provisioning now) l;
  l ← on_store (sessions_in_states ACTIVE_STATES);
  deadlines ← mcount (sweep_deadline now) l;
  heartbeats ← match node_state with
               | None => mret 0
               | Some nodes =>
                   l ← on_store (sessions_in_states ACTIVE_STATES);
                   mcount (sweep_heartbeat now nodes) l
               end;
  l ← on_store (sessions_in_states ["READY_WAIT_INGEST"]);
  no_ingest ← mcount (sweep_no_ingest now) l;
  l ← on_store (sessions_in_states ["HOLDING"]);
  held ← mcount2 (sweep_holding now) l;
  l ← on_store (sessions_in_states ["STOPPING"]);
  mfor l (sweep_stopping now) ;;
  failed ← on_store (sessions_in_states ["FAILED_CLEANUP"]);
  mfor failed (sweep_failed_cleanup now) ;;
  orphans ← _cleanup_orphans now;
  mret (Sweep timeouts heartbeats (deadlines + no_ingest + held.2) held.1 orphans
          (Z.of_nat (length failed))).
End reaper.
