(* ===== verification/SiteFacts.v ===== *)
(** * What the processes do to Sessions and resources

    [Sweeps G sid] relates two sites when nothing but deletions happened to the cloud,
    the condition [G] on the Session store, once true, stayed true, and every resource
    of the Session [sid] has been kept unless [G] holds. [G] says that the resources
    of the Session may go: it is given up, or it is not alive. It is a
    preorder, so it is proved of a program by following its calls ([Resp]). *)

From S2P Require Import Prelude PyFloat PyValue Json Effects Authority Steps Calendar Uuid.
From S2P Require Import Provider SessionState SessionSpec SessionStore SessionFacts.
From S2P Require Import SessionLifecycle Ingest Site.

(** ** Sessions that are given up *)
Definition GIVEN_UP : list string := ["STOPPING"; "FAILED_CLEANUP"; "FINISHED"; "FAILED"].

Definition given_up (w : world session_mem) (sid : string) : Prop :=
  exists a s, view w = Some a /\ sessions a !! sid = Some s /\ status_of s ∈ GIVEN_UP.

Lemma given_up_edge a b : lifecycle_edge a b -> a ∈ GIVEN_UP -> b ∈ GIVEN_UP.
Proof.
  unfold GIVEN_UP. intros [->|[H|[-> _]]] Ha; [done| |by apply bool_decide_in_true in Ha].
  revert H. rewrite !elem_of_cons, elem_of_nil in Ha.
  destruct Ha as [->|[->|[->|[->|[]]]]]; cbn; rewrite ?elem_of_cons, ?elem_of_nil; tauto.
Qed.

Lemma given_up_outcome a f w' sid s :
  outcome records_step a f w' -> (f = Missing -> a = af_fresh) ->
  sessions a !! sid = Some s -> status_of s ∈ GIVEN_UP -> given_up w' sid.
Proof.
  intros [Hv|[(a' & Hv & Hq)|(-> & _ & Hv)]] Hf Hs Hst.
  - by exists a, s.
  - specialize (Hq sid). rewrite Hs in Hq. destruct (sessions a' !! sid) as [s'|] eqn:E; [|done].
    exists a', s'. split; [done|]. split; [done|]. eapply given_up_edge; [apply Hq|done].
  - rewrite (Hf eq_refl) in Hs. done.
Qed.

Lemma given_up_stepped {A} (m : SM A) w sid :
  Stepped records_step m -> given_up w sid -> given_up (m w).2 sid.
Proof.
  intros Hm (a & s & Hv & Hs & Hst). specialize (Hm w). unfold stepped in Hm. rewrite Hv in Hm.
  eapply given_up_outcome; [exact Hm| |exact Hs|exact Hst].
  intros Hf. unfold view in Hv. rewrite Hf in Hv. destruct (fuse w); [done|].
  by injection Hv as <-.
Qed.

(** ** Resources of a Session *)
Section resources.
Context {P : Type} `{ProviderLaws P}.

Definition tagged (sid : string) (t : tags) : Prop := t !! "irlight-session-id" = Some sid.

(** Two resources of one kind with the same id are the same resource, as far as
    their tags go. *)
Definition ids_agree (p : P) : Prop :=
  (forall v v', v ∈ volumes_of p -> v' ∈ volumes_of p -> volume_id v = volume_id v' ->
     volume_tags v = volume_tags v') /\
  (forall s s', s ∈ servers_of p -> s' ∈ servers_of p -> server_id s = server_id s' ->
     server_tags s = server_tags s').

Lemma ids_agree_shrinks p p' : shrinks p p' -> ids_agree p -> ids_agree p'.
Proof. intros [Hv Hs] [H1 H2]. split; eauto. Qed.

Definition kept (sid : string) (p p' : P) : Prop :=
  (forall v, v ∈ volumes_of p -> tagged sid (volume_tags v) -> v ∈ volumes_of p') /\
  (forall s, s ∈ servers_of p -> tagged sid (server_tags s) -> s ∈ servers_of p').

#[export] Instance kept_preorder sid : PreOrder (kept sid).
Proof. split; [by split|]. intros ??? [? ?] [? ?]. split; auto. Qed.

Lemma same_cloud_kept sid p p' : same_cloud p p' -> kept sid p p'.
Proof. intros (Hv & Hs & _). unfold kept. by rewrite Hv, Hs. Qed.

Lemma same_cloud_shrinks p p' : same_cloud p p' -> shrinks p p'.
Proof. intros (Hv & Hs & _). unfold shrinks. by rewrite Hv, Hs. Qed.

(** No resource of this kind and id belongs to the Session. *)
Definition foreign (sid kind id : string) (p : P) : Prop :=
  (kind = "volume" -> forall v, v ∈ volumes_of p -> volume_id v = id -> ~ tagged sid (volume_tags v)) /\
  (kind = "server" -> forall s, s ∈ servers_of p -> server_id s = id -> ~ tagged sid (server_tags s)).

Lemma foreign_shrinks sid kind id p p' : shrinks p p' -> foreign sid kind id p -> foreign sid kind id p'.
Proof. intros [Hv Hs] [H1 H2]. split; eauto. Qed.

(** ** The relation *)
Section sweeps.
Context (G : world session_mem -> Prop) (sid : string).

Record Swept (s s' : site P) : Prop := {
  sw_given_up : G (site_store s) -> G (site_store s');
  sw_shrinks : shrinks (site_cloud s) (site_cloud s');
  sw_kept : G (site_store s') \/ kept sid (site_cloud s) (site_cloud s')
}.

Definition Sweeps (s s' : site P) : Prop :=
  ids_agree (site_cloud s) -> Swept s s'.

#[export] Instance sweeps_preorder : PreOrder Sweeps.
Proof.
  split; [intros s _; split; [done|done|by right]|].
  intros s1 s2 s3 H1 H2 Ha. destruct (H1 Ha) as [Hg1 Hs1 Hk1].
  destruct (H2 (ids_agree_shrinks _ _ Hs1 Ha)) as [Hg2 Hs2 Hk2]. split; [auto|by etrans|].
  destruct Hk1 as [?|?]; [left; auto|]. destruct Hk2 as [?|?]; [by left|right; by etrans].
Qed.

Lemma sweeps_intro s s' : (ids_agree (site_cloud s) -> Sweeps s s') -> Sweeps s s'.
Proof. intros Hs Ha. by apply Hs. Qed.

Lemma sweeps_store {A} (m : SM A) :
  (forall w, G w -> G (m w).2) -> Resp Sweeps (on_store (P:=P) m).
Proof.
  intros Hm s _. unfold on_store. specialize (Hm (site_store s)).
  destruct (m (site_store s)) as [r w]. split; cbn; [done|done|by right].
Qed.

#[export] Instance sweeps_creds {A} (m : IM A) : Resp Sweeps (on_creds (P:=P) m).
Proof.
  intros s _. unfold on_creds. destruct (m (site_creds s)) as [r w]. split; [done|done|by right].
Qed.

Lemma sweeps_cloud {A} (m : M P A) s :
  shrinks (site_cloud s) (m (site_cloud s)).2 ->
  G (site_store s) \/ kept sid (site_cloud s) (m (site_cloud s)).2 ->
  Sweeps s (on_cloud m s).2.
Proof. unfold on_cloud. destruct (m (site_cloud s)) as [r p]. by intros Hs Hk _. Qed.

#[export] Instance sweeps_list_managed : Resp Sweeps (on_cloud (P:=P) list_managed_resources).
Proof using All.
  intros s. destruct (list_managed_law (site_cloud s)) as [Hc _].
  apply sweeps_cloud; [by apply same_cloud_shrinks|right; by apply same_cloud_kept].
Qed.

(** A deletion is allowed when [G] holds, or when the resource is not
    one of its own. *)
Definition deletable (kind : string) (s : site P) (id : string) : Prop :=
  ids_agree (site_cloud s) /\
  (G (site_store s) \/ foreign sid kind id (site_cloud s)).

Lemma deletable_sweeps kind s s' id :
  Sweeps s s' -> deletable kind s id -> deletable kind s' id.
Proof.
  intros Hs [Ha Hd]. destruct (Hs Ha) as [Hg Hsh _]. split; [by eapply ids_agree_shrinks|].
  destruct Hd as [?|?]; [left; auto|right; by eapply foreign_shrinks].
Qed.

Lemma sweeps_delete_server s id :
  deletable "server" s id -> Sweeps s (on_cloud (delete_server id) s).2.
Proof using All.
  intros [_ Hd]. destruct (delete_server_law id (site_cloud s)) as (Hs & [Hv Hsp] & _).
  apply sweeps_cloud; [exact Hs|]. destruct Hd as [?|[_ Hf]]; [by left|right]. split.
  - intros v Hin _. apply Hv; [done|]. apply not_elem_of_nil.
  - intros x Hin Ht. apply Hsp; [done|]. rewrite list_elem_of_singleton.
    intros Heq. by apply (Hf eq_refl x).
Qed.

Lemma sweeps_delete_volume s id :
  deletable "volume" s id -> Sweeps s (on_cloud (delete_volume id) s).2.
Proof using All.
  intros [_ Hd]. destruct (delete_volume_law id (site_cloud s)) as (Hs & [Hv Hsp] & _).
  apply sweeps_cloud; [exact Hs|]. destruct Hd as [?|[Hf _]]; [by left|right]. split.
  - intros x Hin Ht. apply Hv; [done|]. rewrite list_elem_of_singleton.
    intros Heq. by apply (Hf eq_refl x).
  - intros x Hin _. apply Hsp; [done|]. apply not_elem_of_nil.
Qed.
End sweeps.

Lemma inventory_elem (p : P) r :
  r ∈ inventory p <->
  (exists v, r = managed_volume v /\ v ∈ volumes_of p /\ is_managed (volume_tags v) = true) \/
  (exists s, r = managed_server s /\ s ∈ servers_of p /\ is_managed (server_tags s) = true).
Proof.
  unfold inventory. rewrite elem_of_app, !list_elem_of_fmap.
  setoid_rewrite list_elem_of_In. setoid_rewrite filter_In. naive_solver.
Qed.

(** What the inventory lists for another Session is foreign to this one. *)
Lemma inventory_foreign (p : P) r sid sid' :
  ids_agree p -> r ∈ inventory p -> res_session_id r = Some sid' -> sid' <> sid ->
  foreign sid (res_kind r) (res_provider_id r) p.
Proof.
  intros [Hv Hs] Hin Hr Hne. apply inventory_elem in Hin as [(v & -> & Hi & _)|(x & -> & Hi & _)];
    (split; cbn in *; intros E; [try discriminate E|try discriminate E]).
  - intros v' Hi' He Ht. rewrite (Hv _ _ Hi' Hi He) in Ht. unfold tagged in Ht. congruence.
  - intros x' Hi' He Ht. rewrite (Hs _ _ Hi' Hi He) in Ht. unfold tagged in Ht. congruence.
Qed.
End resources.

(** ** Running *)
Lemma on_store_ok {P A} (m : SM A) (s : site P) a s' :
  on_store m s = (Ok a, s') ->
  exists w, m (site_store s) = (Ok a, w) /\ s' = Site w (site_creds s) (site_cloud s).
Proof.
  unfold on_store. destruct (m (site_store s)) as [r w]. intros [= -> <-]. by exists w.
Qed.

Lemma on_creds_ok {P A} (m : IM A) (s : site P) a s' :
  on_creds m s = (Ok a, s') ->
  exists w, m (site_creds s) = (Ok a, w) /\ s' = Site (site_store s) w (site_cloud s).
Proof.
  unfold on_creds. destruct (m (site_creds s)) as [r w]. intros [= -> <-]. by exists w.
Qed.

Lemma on_cloud_ok {P A} (m : M P A) (s : site P) a s' :
  on_cloud m s = (Ok a, s') ->
  exists p, m (site_cloud s) = (Ok a, p) /\ s' = Site (site_store s) (site_creds s) p.
Proof.
  unfold on_cloud. destruct (m (site_cloud s)) as [r p]. intros [= -> <-]. by exists p.
Qed.

(** An operation of the Session store, as one of [session_op]. *)
Lemma stepped_of_op {A} (m : SM A) op :
  run_op op = discard m -> well_used op -> Stepped records_step m.
Proof.
  intros E Hop w. pose proof (run_op_stepped op Hop w) as Hs. rewrite E in Hs.
  unfold discard, mbind, M_bind in Hs. by destruct (m w) as [[?|?] ?].
Qed.

#[export] Instance resp_attempt {W A} (R : relation W) `{!PreOrder R} (m : M W A) :
  Resp R m -> Resp R (attempt m).
Proof. intros Hm w. unfold attempt. specialize (Hm w). by destruct (m w). Qed.

Lemma attempt_ok {W A} (m : M W A) w r w' : attempt m w = (Ok r, w') -> m w = (r, w').
Proof. unfold attempt. destruct (m w). congruence. Qed.

#[export] Instance resp_mfilter {W A} (R : relation W) `{!PreOrder R} (test : A -> M W bool) l :
  (forall x, Resp R (test x)) -> Resp R (mfilter test l).
Proof. intros Ht. induction l as [|x l IH]; cbn; solve_resp. Qed.

#[export] Instance resp_delete_each {W} (R : relation W) `{!PreOrder R} (owned : M W bool)
    (delete : string -> M W unit) ids ok :
  Resp R owned -> (forall id, Resp R (delete id)) -> Resp R (delete_each owned delete ids ok).
Proof.
  intros Ho Hd. revert ok. induction ids as [|id ids IH]; intros ok; cbn; [apply _|].
  apply resp_bind; [apply _..|intros still]. destruct (negb still); [apply _|].
  apply resp_bind; [apply _..|intros r]. apply IH.
Qed.

(** ** The deletion loop *)
Section deletions.
Context {W : Type} (R : relation W) `{!PreOrder R} (owned : M W bool) `{!Resp R owned}.
Context (delete : string -> M W unit).

(** Each deletion keeps [R], given a fact that [R] maintains about its id. *)
Lemma delete_each_resp (I : W -> string -> Prop) ids ok w :
  (forall w w' id, R w w' -> I w id -> I w' id) ->
  (forall w id, I w id -> R w (delete id w).2) ->
  (forall id, id ∈ ids -> I w id) ->
  R w (delete_each owned delete ids ok w).2.
Proof using All.
  intros Hmono Hdel. revert ok w. induction ids as [|id ids IH]; intros ok w Hids; [done|].
  cbn [delete_each]. apply (resp_bind_post R); [apply (resp (m:=owned))|].
  intros still w1 Ho. assert (R01 : R w w1).
  { pose proof (resp (m:=owned) w) as Hx. by rewrite Ho in Hx. }
  destruct still; [|done]. cbn [negb].
  assert (Hid : I w1 id) by (eapply Hmono; [exact R01|apply Hids; by left]).
  apply (resp_bind_post R).
  - unfold attempt. specialize (Hdel w1 id Hid). by destruct (delete id w1).
  - intros r w2 Hr%attempt_ok. apply IH. intros id' Hid'.
    specialize (Hdel w1 id Hid). rewrite Hr in Hdel.
    eapply Hmono; [exact Hdel|]. eapply Hmono; [exact R01|]. apply Hids. by right.
Qed.

(** When the loop reports success, every deletion has returned. *)
Lemma delete_each_done (K : W -> string -> Prop) ids ok w w' :
  (forall w w' id, R w w' -> K w id -> K w' id) ->
  (forall id, Resp R (delete id)) ->
  (forall w id w', delete id w = (Ok tt, w') -> K w' id) ->
  delete_each owned delete ids ok w = (Ok (Some true), w') ->
  R w w' /\ ok = true /\ forall id, id ∈ ids -> K w' id.
Proof using All.
  intros Hmono Hdel HK. revert ok w. induction ids as [|id ids IH]; intros ok w Hr.
  { injection Hr as -> ->. split; [done|]. split; [done|]. by intros id ?%elem_of_nil. }
  cbn [delete_each] in Hr. apply bind_ok in Hr as (still & w1 & Ho & Hr).
  destruct still; [|by injection Hr]. cbn [negb] in Hr.
  apply bind_ok in Hr as (r & w2 & Hd%attempt_ok & Hr).
  apply IH in Hr as (R2 & [-> Hok]%andb_prop & Hids).
  destruct r as [[]|e]; [|done].
  pose proof (resp (m:=owned) w) as R0. rewrite Ho in R0.
  pose proof (resp (R:=R) (m:=delete id) w1) as R1. rewrite Hd in R1. cbn in R0, R1.
  split; [etrans; [exact R0|]; by etrans|]. split; [done|].
  intros id' [->|Hin]%elem_of_cons; [|by apply Hids].
  eapply Hmono; [exact R2|]. by eapply HK.
Qed.
End deletions.

(** ** Deletions only *)
Section only_deletions.
Context {P : Type} `{ProviderLaws P}.

Definition cloud_shrinks (s s' : site P) : Prop := shrinks (site_cloud s) (site_cloud s').

#[export] Instance cloud_shrinks_preorder : PreOrder cloud_shrinks.
Proof. split; [intros s; apply shrinks_preorder|]. intros s1 s2 s3. apply shrinks_preorder. Qed.

#[export] Instance shrinks_store {A} (m : SM A) : Resp cloud_shrinks (on_store m).
Proof.
  intros s. unfold on_store. destruct (m (site_store s)) as [r w]. apply shrinks_preorder.
Qed.

#[export] Instance shrinks_creds {A} (m : IM A) : Resp cloud_shrinks (on_creds m).
Proof.
  intros s. unfold on_creds. destruct (m (site_creds s)) as [r w]. apply shrinks_preorder.
Qed.

Lemma shrinks_cloud {A} (m : M P A) : (forall p, shrinks p (m p).2) -> Resp cloud_shrinks (on_cloud m).
Proof.
  intros Hm s. specialize (Hm (site_cloud s)). unfold on_cloud.
  by destruct (m (site_cloud s)) as [r w].
Qed.

#[export] Instance shrinks_list_managed : Resp cloud_shrinks (on_cloud list_managed_resources).
Proof using All. apply shrinks_cloud. intros p. apply same_cloud_shrinks, list_managed_law. Qed.
#[export] Instance shrinks_list_servers : Resp cloud_shrinks (on_cloud list_servers).
Proof using All. apply shrinks_cloud. intros p. apply same_cloud_shrinks, list_servers_law. Qed.
#[export] Instance shrinks_list_volumes : Resp cloud_shrinks (on_cloud list_volumes).
Proof using All. apply shrinks_cloud. intros p. apply same_cloud_shrinks, list_volumes_law. Qed.
#[export] Instance shrinks_delete_server id : Resp cloud_shrinks (on_cloud (delete_server id)).
Proof using All. apply shrinks_cloud. intros p. apply delete_server_law. Qed.
#[export] Instance shrinks_delete_volume id : Resp cloud_shrinks (on_cloud (delete_volume id)).
Proof using All. apply shrinks_cloud. intros p. apply delete_volume_law. Qed.
#[export] Instance shrinks_lease_owned i l : Resp cloud_shrinks (lease_owned i l).
Proof. unfold lease_owned. destruct l; apply _. Qed.

(** Deletions only, and those that were accepted stay accepted. *)
Definition cloud_deletes (s s' : site P) : Prop :=
  cloud_shrinks s s' /\ deleting (site_cloud s) ⊆ deleting (site_cloud s').

#[export] Instance cloud_deletes_preorder : PreOrder cloud_deletes.
Proof. split; [by intros s|]. intros s1 s2 s3 [? ?] [? ?]. split; by etrans. Qed.

#[export] Instance deletes_store {A} (m : SM A) : Resp cloud_deletes (on_store m).
Proof. intros s. split; [apply shrinks_store|]. unfold on_store. by destruct (m (site_store s)). Qed.
#[export] Instance deletes_lease_owned i l : Resp cloud_deletes (lease_owned i l).
Proof. unfold lease_owned. destruct l; apply _. Qed.
#[export] Instance deletes_delete_volume id : Resp cloud_deletes (on_cloud (delete_volume id)).
Proof using All.
  intros s. split; [apply shrinks_delete_volume|].
  destruct (delete_volume_law id (site_cloud s)) as (_ & _ & Ha & _). unfold on_cloud.
  destruct (delete_volume id (site_cloud s)) as [r p]. cbn in *. destruct Ha as [->| ->]; [done|].
  intros x Hx. by right.
Qed.

(** A resource of a kind and an id is gone, or its deletion has been accepted. *)
Definition volume_given_up (s : site P) (id : string) : Prop :=
  forall v, v ∈ volumes_of (site_cloud s) -> volume_id v = id -> ("volume", id) ∈ deleting (site_cloud s).

(** A deletion loop that succeeds. *)
Lemma delete_servers_done owned `{!Resp cloud_shrinks owned} ids s s' :
  delete_each owned (fun id => on_cloud (delete_server id)) ids true s = (Ok (Some true), s') ->
  cloud_shrinks s s'.
Proof using All.
  intros Hd. apply (delete_each_done cloud_shrinks _ _ (fun _ _ => True)) in Hd as (? & _ & _);
    [done|done|apply _|done].
Qed.

Lemma delete_volumes_done owned `{!Resp cloud_deletes owned} ids s s' :
  delete_each owned (fun id => on_cloud (delete_volume id)) ids true s = (Ok (Some true), s') ->
  cloud_shrinks s s' /\ forall id, id ∈ ids -> volume_given_up s' id.
Proof using All.
  intros Hd. apply (delete_each_done cloud_deletes _ _ volume_given_up) in Hd as ([? _] & _ & ?);
    [done|..|apply _|].
  - intros w w' id [[Hs _] Ha] Hn x Hx Hid. apply Ha. by eapply Hn; [apply Hs|].
  - intros w id w' (p & Hp & ->)%on_cloud_ok.
    destruct (delete_volume_law id (site_cloud w)) as (_ & _ & _ & Hl). rewrite Hp in Hl. exact (Hl eq_refl).
Qed.
End only_deletions.
