(* ===== verification/ReaperTheorems.v ===== *)
(** * The reaper: theorems

    A sweep never deletes a resource of a Session that is alive, and a cleanup that
    reports success has left nothing. *)

From S2P Require Import Prelude PyFloat PyValue Json Effects Authority Steps Calendar Uuid.
From S2P Require Import Provider SessionState SessionSpec SessionStore SessionFacts.
From S2P Require Import SessionLifecycle SessionLeases SessionTheorems Ingest IngestTheorems.
From S2P Require Import Site Reaper SiteFacts.

Lemma claimed_given_up sid secs w id w' :
  claim_session_cleanup sid [] secs w = (Ok (Some id), w') -> given_up w' sid.
Proof.
  intros (a & s & n & _ & _ & Hs & Hst & _ & Hv)%claim_session_cleanup_ok.
  eexists _, s. split; [exact Hv|]. split; [exact Hs|].
  apply bool_decide_in_true in Hst. cbn in Hst. unfold GIVEN_UP.
  rewrite !elem_of_cons, elem_of_nil in Hst. rewrite !elem_of_cons, elem_of_nil. tauto.
Qed.

Section safety.
Context {P : Type} `{ProviderLaws P}.
Context (sid : string).

Local Abbreviation R := (Sweeps (P:=P) (fun w => given_up w sid) sid).

Lemma sw_stepped {A} (m : SM A) : Stepped records_step m -> Resp R (on_store m).
Proof. intros Hm. apply sweeps_store. intros w. by apply given_up_stepped. Qed.

#[local] Ltac store_op op := apply sw_stepped, (stepped_of_op _ op); [reflexivity|].

#[local] Instance sw_get i : Resp R (on_store (get i)).
Proof. by store_op (OpGet i). Qed.
#[local] Instance sw_states l : Resp R (on_store (sessions_in_states l)).
Proof. by store_op (OpInStates l). Qed.
#[local] Instance sw_snapshot : Resp R (on_store authoritative_snapshot).
Proof. by store_op OpSnapshot. Qed.
#[local] Instance sw_stop i : Resp R (on_store (request_stop i)).
Proof. by store_op (OpStop i). Qed.
#[local] Instance sw_append a b c d e f : Resp R (on_store (append_event a b c d e f)).
Proof. by store_op (OpAppendEvent a b c d e f). Qed.
#[local] Instance sw_owned i l : Resp R (on_store (session_cleanup_still_owned i l)).
Proof. by store_op (OpCleanupOwned i l). Qed.
#[local] Instance sw_claim i l t : Resp R (on_store (claim_session_cleanup i l t)).
Proof. by store_op (OpClaimCleanup i l t). Qed.
#[local] Instance sw_release i l : Resp R (on_store (release_session_cleanup i l)).
Proof. by store_op (OpReleaseCleanup i l). Qed.
#[local] Instance sw_update i : Resp R (on_store (update i lease_given_up)).
Proof. store_op (OpUpdate i lease_given_up). by apply (bool_decide_unpack _). Qed.
#[local] Instance sw_time : Resp R (on_store time_time).
Proof. apply sw_stepped, stepped_keeps, _. Qed.
#[local] Instance sw_lease_owned i l : Resp R (lease_owned i l).
Proof. unfold lease_owned. destruct l; apply _. Qed.

Lemma sw_transition i st allow changes :
  untracked changes -> Forall (fun s => lifecycle_edge s st) allow ->
  Resp R (on_store (transition i st (Some allow) changes)).
Proof. intros. by store_op (OpTransition i st (Some allow) changes). Qed.

Lemma ids_of_elem kind i l id :
  id ∈ ids_of kind i l <->
  exists r, r ∈ l /\ res_session_id r = Some i /\ res_kind r = kind /\ res_provider_id r = id.
Proof.
  unfold ids_of, ids_of_kind. rewrite list_elem_of_fmap. setoid_rewrite list_elem_of_In.
  setoid_rewrite filter_In. setoid_rewrite filter_In. setoid_rewrite String.eqb_eq.
  setoid_rewrite bool_decide_eq_true. split.
  - intros (r & -> & (? & ?) & ?). eauto.
  - intros (r & ? & ? & ? & <-). eauto.
Qed.

(** What the reaper is about to delete for the Session [i]. *)
Lemma listed_deletable i kind l id s :
  (i = sid -> given_up (site_store s) sid) -> ids_agree (site_cloud s) ->
  l = inventory (site_cloud s) -> id ∈ ids_of kind i l -> deletable (fun w => given_up w sid) sid kind s id.
Proof.
  intros Hi Ha -> (r & Hr & Hrs & <- & <-)%ids_of_elem. split; [done|].
  destruct (decide (i = sid)) as [E|E]; [left; auto|right].
  by eapply inventory_foreign.
Qed.

Lemma list_managed_run s l s' :
  on_cloud list_managed_resources s = (Ok l, s') ->
  l = inventory (site_cloud s) /\ site_store s' = site_store s /\
  same_cloud (site_cloud s) (site_cloud s').
Proof using All.
  intros (p & Hl & ->)%on_cloud_ok. destruct (list_managed_law (site_cloud s)) as [Hc Hi].
  rewrite Hl in Hc, Hi. split; [by apply Hi|]. by split.
Qed.

Lemma same_cloud_inventory (p p' : P) : same_cloud p p' -> inventory p' = inventory p.
Proof. intros (Hv & Hs & _). unfold inventory. by rewrite Hv, Hs. Qed.

(** A Session that is being cleaned up, when it is the one watched, is given up. *)
Definition cleaning (i : string) (s : site P) : Prop :=
  ids_agree (site_cloud s) /\ (i = sid -> given_up (site_store s) sid).

Lemma cleaning_sweeps i s s' : R s s' -> cleaning i s -> cleaning i s'.
Proof.
  intros Hs [Ha Hi]. destruct (Hs Ha) as [Hg Hsh _].
  split; [by eapply ids_agree_shrinks|auto].
Qed.

Lemma delete_listed_sweeps kind delete owned i l ok s1 s2 :
  (kind = "server" /\ delete = (fun id => on_cloud (delete_server id))) \/
  (kind = "volume" /\ delete = (fun id => on_cloud (delete_volume id))) ->
  Resp R owned -> cleaning i s2 -> on_cloud list_managed_resources s1 = (Ok l, s2) ->
  R s2 (delete_each owned delete (ids_of kind i l) ok s2).2.
Proof using All.
  intros Hk Ho [Ha Hi] (-> & _ & Hc)%list_managed_run.
  apply (delete_each_resp R owned delete (deletable (fun w => given_up w sid) sid kind)).
  - intros. by eapply deletable_sweeps.
  - intros w id Hd. destruct Hk as [[-> ->]|[-> ->]];
      [by apply sweeps_delete_server|by apply sweeps_delete_volume].
  - intros id Hid. eapply listed_deletable; [exact Hi|exact Ha| |exact Hid].
    symmetry. by apply same_cloud_inventory.
Qed.

(** The cleanup of one Session, for the Session [sid] that is watched. *)
Lemma cleanup_sweeps i lease s :
  (i = sid -> given_up (site_store s) sid) -> R s (_cleanup_resources i lease s).2.
Proof using All.
  intros Hi Ha. assert (Hc : cleaning i s) by done. revert Ha.
  change (R s (_cleanup_resources i lease s).2). unfold _cleanup_resources.
  apply (resp_bind_inv R (cleaning i)); [apply cleaning_sweeps|exact Hc|apply (resp (R:=R))|].
  intros l s1 Hl Hc1.
  apply (resp_bind_inv R (cleaning i)); [apply cleaning_sweeps|exact Hc1| |].
  { eapply delete_listed_sweeps; [by left|apply _|exact Hc1|exact Hl]. }
  intros o s2 _ Hc2. destruct o as [[]|]; [|apply sweeps_preorder..].
  apply (resp_bind_inv R (cleaning i)); [apply cleaning_sweeps|exact Hc2|apply (resp (R:=R))|].
  intros l2 s3 Hl2 Hc3. destruct (negb _); [apply sweeps_preorder|].
  apply (resp_bind_post R); [|intros; apply sweeps_preorder].
  eapply delete_listed_sweeps; [by right|apply _|exact Hc3|exact Hl2].
Qed.

Lemma finish_cleanup_sweeps i lease st from code changes payload (k : M (site P) unit) now s :
  untracked changes -> lifecycle_edge from st -> Resp R k ->
  (i = sid -> given_up (site_store s) sid) ->
  R s (finish_cleanup i lease st from code changes payload k now s).2.
Proof using All.
  intros Hc He Hk Hi. unfold finish_cleanup. apply (resp_finally_post R); [|apply _].
  apply (resp_bind_post R); [by apply cleanup_sweeps|]. intros ok s1 _.
  pose proof (sw_transition i st [from] changes Hc ltac:(by apply Forall_singleton)).
  revert s1. change (Resp R (if ok : bool then
    on_store (transition i st (Some [from]) changes) ;;
    on_store (append_event i (if bool_decide (st = "FAILED") then "session.failed"
      else "session.finished") (Some code) (Some payload) "reaper" (Some (VFloat now))) ;;
    mret tt else k)).
  solve_resp.
Qed.

(** Once the lease is claimed the Session is given up. *)
Lemma claim_sweeps {B} i (body : string -> M (site P) B) (r : B) :
  (forall id s, (i = sid -> given_up (site_store s) sid) -> R s (body id s).2) ->
  Resp R (lease ← on_store (claim_session_cleanup i [] CLEANUP_LEASE_SECONDS);
          match lease with None => mret r | Some lease_id => body lease_id end).
Proof using All.
  intros Hb s. apply (resp_bind_post R); [apply (resp (R:=R))|].
  intros [id|] s1 Hcl; [|apply sweeps_preorder]. apply Hb. intros <-.
  apply on_store_ok in Hcl as (w & Hcl & ->). by eapply claimed_given_up.
Qed.

#[local] Ltac untracked := unfold untracked; repeat constructor; reflexivity.

Lemma fail_and_cleanup_sweeps i reason code status fields now :
  match status with Some st => lifecycle_edge st "FAILED_CLEANUP" | None => True end ->
  Resp R (_fail_and_cleanup i reason code status fields now).
Proof using All.
  intros He. unfold _fail_and_cleanup. apply resp_bind; [apply _| |intros o].
  - apply resp_attempt; [apply _|].
    assert (Hu : untracked (failing_changes reason code)) by untracked.
    destruct status as [st|].
    + store_op (OpTransitionIfCurrent i "FAILED_CLEANUP" [st] (default ∅ fields)
        (failing_changes reason code)).
      split; [exact Hu|by apply Forall_singleton].
    + apply sw_stepped, stepped_tail; [|intros; apply _].
      apply (stepped_of_op _ (OpTransition i "FAILED_CLEANUP"
        (Some ["PROVISIONING"; "BOOTSTRAPPING"]) (failing_changes reason code)));
        [reflexivity|split; [exact Hu|by apply (bool_decide_unpack _)]].
  - destruct o as [[s|]|]; try apply _. apply resp_bind; [apply _..|intros [|]]; [|apply _].
    apply claim_sweeps. intros id x Hx. apply (resp_bind_post R); [|intros; apply sweeps_preorder].
    apply finish_cleanup_sweeps; [untracked|by apply (bool_decide_unpack _)|apply _|exact Hx].
Qed.

Lemma cleanup_stopping_sweeps i code now : Resp R (cleanup_stopping i code now).
Proof using All.
  assert (H1 : Resp R (on_store (transition i "FAILED_CLEANUP" (Some ["STOPPING"])
    (<["failure_reason_code" := VStr "RESOURCE_CLEANUP_FAILED"]>
      (<["failure_reason" := VStr "resource cleanup failed"]>
        (<["cleanup_pending" := VBool true]> lease_given_up)))) ;; mret tt)).
  { apply resp_bind; [apply _| |intros; apply _].
    apply sw_transition; [untracked|by apply (bool_decide_unpack _)]. }
  unfold cleanup_stopping. apply claim_sweeps. intros id x Hx.
  apply finish_cleanup_sweeps; [untracked|by apply (bool_decide_unpack _)|exact H1|exact Hx].
Qed.

Context (config : ReaperConfig).

Lemma heartbeat_failure_sweeps session last now :
  Resp R (_fail_missing_heartbeat config session last now).
Proof using All.
  unfold _fail_missing_heartbeat. cbv zeta.
  match goal with |- context [transition_if_current ?a ?b ?c ?d ?e] =>
    assert (Resp R (on_store (transition_if_current a b c d e))) end.
  { store_op (OpTransitionIfCurrent (id_of session) "FAILED_CLEANUP" ACTIVE_STATES
      (list_to_map
        [("node_id", py_get session "node_id"); ("node_boot_id", py_get session "node_boot_id");
         ("node_registered_at", py_get session "node_registered_at");
         ("node_last_heartbeat_at", py_get session "node_last_heartbeat_at")])
      (list_to_map
        [("cleanup_pending", VBool true); ("failure_reason", VStr "node heartbeat timed out");
         ("failure_reason_code", VStr "NODE_SHUTDOWN")])).
    split; [untracked|]. by apply (bool_decide_unpack _). }
  solve_resp.
Qed.

Lemma stop_and_cleanup_sweeps i code status fields now :
  match status with Some st => lifecycle_edge st "STOPPING" | None => True end ->
  Resp R (_stop_and_cleanup config i code status fields now).
Proof using All.
  intros He. pose proof (cleanup_stopping_sweeps i code now). unfold _stop_and_cleanup.
  apply resp_bind; [apply _|destruct status; apply _|intros before]. cbv zeta.
  apply resp_bind; [apply _| |intros o].
  - apply resp_attempt; [apply _|]. destruct status as [st|].
    + store_op (OpStopIfCurrent i st fields). exact He.
    + apply sw_stepped, stepped_tail; [|intros; apply _].
      by apply (stepped_of_op _ (OpStop i)).
  - solve_resp.
Qed.

(** ** The sweeps by status *)
Lemma listed_status sts (w : world session_mem) l w' :
  sessions_in_states sts w = (Ok l, w') ->
  forall s, s ∈ l -> status_of s ∈ sts.
Proof.
  unfold sessions_in_states. intros (w1 & _ & _ & _ & _ & _ & Hb)%locked_ok s Hs.
  apply bind_ok in Hb as (m & w2 & _ & Hb). apply ret_ok in Hb as [-> _].
  apply list_elem_of_In, filter_In in Hs as [_ Hst].
  destruct (value_in_str _ _ Hst) as (st & Hv & Hin). unfold status_of. rewrite Hv.
  by apply bool_decide_in_true.
Qed.
End safety.

(** Loops over a list whose elements have a property. *)
Lemma resp_mcount {W A} (R : relation W) `{!PreOrder R} (f : A -> M W Z) l :
  (forall x, x ∈ l -> Resp R (f x)) -> Resp R (mcount f l).
Proof.
  induction l as [|x l IH]; intros Hf; cbn; [apply _|].
  apply resp_bind; [apply _|apply Hf; by left|intros n].
  apply resp_bind; [apply _|apply IH; intros; apply Hf; by right|apply _].
Qed.

Lemma resp_mcount2 {P A} (R : relation (site P)) `{!PreOrder R} (f : A -> M (site P) (Z * Z)) l :
  (forall x, x ∈ l -> Resp R (f x)) -> Resp R (mcount2 f l).
Proof.
  induction l as [|x l IH]; intros Hf; cbn; [apply _|].
  apply resp_bind; [apply _|apply Hf; by left|intros n].
  apply resp_bind; [apply _|apply IH; intros; apply Hf; by right|apply _].
Qed.

Section sweep.
Context {P : Type} `{ProviderLaws P}.
Context (config : ReaperConfig) (sid : string).

Local Abbreviation R := (Sweeps (P:=P) (fun w => given_up w sid) sid).

(** A loop over the Sessions in some states. *)
Lemma states_loop {B} sts (k : list dict -> M (site P) B) :
  (forall l, (forall s, s ∈ l -> status_of s ∈ sts) -> Resp R (k l)) ->
  Resp R (l ← on_store (sessions_in_states sts); k l).
Proof using All.
  intros Hk s. apply (resp_bind_post R); [apply sw_states|].
  intros l s1 (w & Hl & ->)%on_store_ok. apply Hk. by eapply listed_status.
Qed.

Lemma edges_to st sts s :
  Forall (fun a => lifecycle_edge a st) sts -> s ∈ sts -> lifecycle_edge s st.
Proof. rewrite Forall_forall. auto. Qed.

Lemma sweep_provisioning_sweeps now s :
  status_of s ∈ ["PROVISIONING"; "BOOTSTRAPPING"] -> Resp R (sweep_provisioning config now s).
Proof using All.
  intros Hs. unfold sweep_provisioning. apply resp_bind; [apply _..|intros t].
  destruct (flt _ _); [|apply _]. apply resp_bind; [apply _| |intros; apply _].
  apply fail_and_cleanup_sweeps. eapply edges_to; [|exact Hs]. by apply (bool_decide_unpack _).
Qed.

Lemma stop_sweeps {B} i code st fields now (k : bool -> B) :
  lifecycle_edge st "STOPPING" ->
  Resp R (b ← _stop_and_cleanup config i code (Some st) fields now; mret (k b)).
Proof using All.
  intros He. apply resp_bind; [apply _| |intros; apply _]. by apply stop_and_cleanup_sweeps.
Qed.

Lemma sweep_deadline_sweeps now s :
  status_of s ∈ ACTIVE_STATES -> Resp R (sweep_deadline config now s).
Proof using All.
  intros Hs. unfold sweep_deadline. apply resp_bind; [apply _..|intros [t|]]; [|apply _].
  destruct (fle _ _); [|apply _]. apply stop_sweeps.
  eapply edges_to; [|exact Hs]. by apply (bool_decide_unpack _).
Qed.

Lemma sweep_heartbeat_sweeps now nodes s : Resp R (sweep_heartbeat config now nodes s).
Proof using All.
  unfold sweep_heartbeat. apply resp_bind; [apply _..|intros [[t|] last]]; [|apply _].
  destruct (_ || _); [apply _|]. apply resp_bind; [apply _| |intros; apply _].
  apply heartbeat_failure_sweeps.
Qed.

Lemma sweep_no_ingest_sweeps now s : Resp R (sweep_no_ingest config now s).
Proof using All.
  unfold sweep_no_ingest. apply resp_bind; [apply _..|intros t].
  destruct (flt _ _); [|apply _]. apply stop_sweeps. by apply (bool_decide_unpack _).
Qed.

Lemma sweep_holding_sweeps now s : Resp R (sweep_holding config now s).
Proof using All.
  unfold sweep_holding, recover_hold. apply resp_bind; [apply _| |intros [[[s1 d] n]|]].
  - destruct (negb _); [apply _|]. apply resp_bind; [apply _..|intros t]. cbv zeta.
    apply resp_bind; [apply _..|intros b]. apply resp_bind; [apply _| |intros; apply _].
    match goal with |- Resp _ (on_store (update_if_current ?a ?b ?c ?d ?e)) =>
      apply sw_stepped, (stepped_of_op _ (OpUpdateIfCurrent a b c d e)); [reflexivity|] end.
    unfold well_used, untracked. repeat constructor; reflexivity.
  - apply resp_bind; [apply _..|intros t]. destruct (flt _ _); [|apply _].
    apply stop_sweeps. by apply (bool_decide_unpack _).
  - apply _.
Qed.

Lemma sweep_stopping_sweeps now s : Resp R (sweep_stopping config now s).
Proof using All.
  unfold sweep_stopping. apply resp_bind; [apply _| |intros; apply _].
  by apply stop_and_cleanup_sweeps.
Qed.

Lemma sweep_failed_cleanup_sweeps now s : Resp R (sweep_failed_cleanup now s).
Proof using All.
  unfold sweep_failed_cleanup. cbv zeta. apply resp_bind; [apply _..|intros [|]]; [|apply _].
  apply claim_sweeps. intros id x Hx.
  apply finish_cleanup_sweeps; [|by apply (bool_decide_unpack _)|apply _|exact Hx].
  unfold untracked. repeat constructor; reflexivity.
Qed.
End sweep.

(** ** Orphans *)
Definition alive (w : world session_mem) (sid : string) : Prop :=
  exists a s, view w = Some a /\ sessions a !! sid = Some s /\ status_of s ∉ "STOPPED" :: GIVEN_UP.

Lemma given_up_not_alive w sid : given_up w sid -> ~ alive w sid.
Proof.
  intros (a & s & Hv & Hs & Hst) (a' & s' & Hv' & Hs' & Hn). simplify_eq. apply Hn. by right.
Qed.

Lemma alive_same_sessions {A} (m : SM A) w sid :
  Stepped same_sessions m -> ~ alive w sid -> ~ alive (m w).2 sid.
Proof.
  intros Hm Hw (a' & s & Hv' & Hs & Hst). apply Hw. specialize (Hm w). unfold stepped in Hm.
  destruct (view w) as [a|] eqn:Hv; [|congruence].
  destruct Hm as [E|[(a1 & E & Hq)|(_ & _ & E)]]; rewrite Hv' in E; simplify_eq.
  - by exists a, s.
  - exists a, s. rewrite <- Hq. done.
Qed.

Lemma claim_orphan_not_alive sid res kind secs w id w' :
  claim_orphan_cleanup sid res kind secs w = (Ok (Some id), w') -> ~ alive w' sid.
Proof.
  unfold claim_orphan_cleanup. intros (w1 & Hv & Hv1 & _ & _ & Ho & H)%locked_ok.
  apply bind_ok in H as (o & w2 & Hf & H). apply find_ok in Hf as [Hs ->].
  destruct (match o with Some s => _ | None => _ end) eqn:Hst; [done|].
  apply bind_ok in H as (l & w3 & Hl & H). destruct l; [done|]. use_reads.
  inv_run. use_reads.
  match goal with Hp : persist _ = _ |- _ => apply persist_ok in Hp as (_ & Hv' & _) end.
  intros (a' & s & Hva & Hsa & Hna). rewrite Hva in Hv'. simplify_eq.
  match goal with Hp : put_lease _ _ _ = _ |- _ => unfold put_lease in Hp; inv_run end.
  cbn in Hsa. assert (Hsame : sessions (mem w1) !! sid = Some s) by congruence.
  rewrite Hsame in Hst. apply negb_false_iff, bool_decide_in_true in Hst. apply Hna.
  unfold TERMINAL_STATES, GIVEN_UP in *. rewrite !elem_of_cons, elem_of_nil in *. tauto.
Qed.

Section orphans.
Context {P : Type} `{ProviderLaws P}.
Context (config : ReaperConfig) (sid : string).

Local Abbreviation G := (fun w => ~ alive w sid).
Local Abbreviation R := (Sweeps (P:=P) G sid).

Lemma or_stepped {A} (m : SM A) : Stepped same_sessions m -> Resp R (on_store m).
Proof. intros Hm. apply sweeps_store. intros w. by apply alive_same_sessions. Qed.

#[local] Instance or_keeps {A} (m : SM A) : Resp keeps m -> Resp R (on_store m).
Proof. intros Hm. by apply or_stepped, stepped_keeps. Qed.

#[local] Instance or_except {A} (m h : M (site P) A) :
  Resp R m -> Resp R h -> Resp R (except_state_error m h).
Proof. intros Hm Hh. unfold except_state_error. apply resp_catch; [apply _..|]. intros []; apply _. Qed.

#[local] Instance or_snapshot : Resp R (on_store authoritative_snapshot).
Proof. apply or_keeps. unfold authoritative_snapshot. apply _. Qed.
#[local] Instance or_owned i l : Resp R (on_store (orphan_cleanup_still_owned i l)).
Proof. apply or_keeps. unfold orphan_cleanup_still_owned. apply _. Qed.
#[local] Instance or_claim a b c d : Resp R (on_store (claim_orphan_cleanup a b c d)).
Proof. apply or_stepped, claim_orphan_steps, _. Qed.
#[local] Instance or_release a b : Resp R (on_store (release_orphan_cleanup a b)).
Proof. apply or_stepped, release_orphan_steps, _. Qed.

(** The resource may go when its Session is not the one watched, or that one is not
    alive. *)
Definition orphan_target (r : ManagedResource) (s : site P) : Prop :=
  ids_agree (site_cloud s) /\
  (opt_text (res_session_id r) = sid -> G (site_store s)) /\
  (opt_text (res_session_id r) <> sid ->
     foreign sid (res_kind r) (res_provider_id r) (site_cloud s)).

Lemma orphan_target_deletable r s :
  orphan_target r s -> deletable G sid (res_kind r) s (res_provider_id r).
Proof.
  intros (Ha & Hg & Hf). split; [done|].
  destruct (decide (opt_text (res_session_id r) = sid)); [left; auto|right; auto].
Qed.

Lemma orphan_target_sweeps r s s' : R s s' -> orphan_target r s -> orphan_target r s'.
Proof.
  intros Hs (Ha & Hg & Hf). destruct (Hs Ha) as [Hg' Hsh _].
  split; [by eapply ids_agree_shrinks|]. split; [auto|].
  intros Hne. eapply foreign_shrinks; [exact Hsh|auto].
Qed.

(** Everything but the claim's knowledge about the watched Session. *)
Definition orphan_listed (r : ManagedResource) (s : site P) : Prop :=
  ids_agree (site_cloud s) /\
  (opt_text (res_session_id r) <> sid ->
     foreign sid (res_kind r) (res_provider_id r) (site_cloud s)).

Lemma orphan_listed_sweeps r s s' : R s s' -> orphan_listed r s -> orphan_listed r s'.
Proof.
  intros Hs (Ha & Hf). destruct (Hs Ha) as [_ Hsh _].
  split; [by eapply ids_agree_shrinks|]. intros. eapply foreign_shrinks; eauto.
Qed.

Lemma orphan_resource_sweeps r s :
  orphan_listed r s -> R s (_cleanup_orphan_resource r s).2.
Proof using All.
  intros Hl. unfold _cleanup_orphan_resource. cbv zeta.
  apply (resp_bind_inv R (orphan_listed r)); [apply orphan_listed_sweeps|exact Hl|apply (resp (R:=R))|].
  intros [id|] s1 Hc Hl1; [|apply sweeps_preorder].
  assert (Ht : orphan_target r s1).
  { destruct Hl1 as [Ha Hf]. split; [done|]. split; [|done]. intros <-.
    unfold except_state_error in Hc. apply catch_ok in Hc as [Hc|(e & s0 & _ & Hc)].
    - apply on_store_ok in Hc as (w & Hc & ->). by eapply claim_orphan_not_alive.
    - by destruct e. }
  apply (resp_finally_post R); [|apply _]. apply resp_catch_start; [apply _| |intros; apply _].
  apply (resp_bind_inv R (orphan_target r)); [apply orphan_target_sweeps|exact Ht|apply (resp (R:=R))|].
  intros latest s2 _ Ht2. destruct (List.find _ _); [|apply sweeps_preorder].
  apply (resp_bind_inv R (orphan_target r)); [apply orphan_target_sweeps|exact Ht2|apply (resp (R:=R))|].
  intros [] s3 _ Ht3; [|apply sweeps_preorder]. cbn [negb].
  destruct (_ && _); [apply sweeps_preorder|]. apply orphan_target_deletable in Ht3.
  destruct (bool_decide_reflect (res_kind r = "server")) as [E|E].
  { apply (resp_bind_post R); [|intros; apply sweeps_preorder].
    rewrite E in Ht3. by apply sweeps_delete_server. }
  destruct (bool_decide_reflect (res_kind r = "volume")) as [E'|E']; [|apply sweeps_preorder].
  apply (resp_bind_post R); [|intros; apply sweeps_preorder].
  rewrite E' in Ht3. by apply sweeps_delete_volume.
Qed.

Lemma orphan_allowed_tagged r known now :
  _orphan_delete_allowed config r known now = true -> res_session_id r <> None.
Proof. unfold _orphan_delete_allowed. by destruct (res_session_id r). Qed.

Lemma sweep_orphans_sweeps kind known now l s :
  (forall r, r ∈ l -> res_session_id r <> None -> orphan_listed r s) -> R s (sweep_orphans config kind known now l s).2.
Proof using All.
  unfold sweep_orphans. revert s. induction l as [|r l IH]; intros s Hl; cbn; [apply sweeps_preorder|].
  set (I := fun s : site P =>
    forall r', r' ∈ r :: l -> res_session_id r' <> None -> orphan_listed r' s).
  apply (resp_bind_inv R I); [|exact Hl| |].
  - intros w w' Hw Hi r' Hr' Hn. eapply orphan_listed_sweeps; [exact Hw|by apply Hi].
  - destruct (_orphan_delete_allowed config r known now) eqn:Ha;
      [|rewrite orb_true_r; apply sweeps_preorder].
    destruct (_ || _); [apply sweeps_preorder|].
    apply (resp_bind_post R); [|intros; apply sweeps_preorder].
    apply orphan_resource_sweeps, Hl; [by left|by eapply orphan_allowed_tagged].
  - intros n s1 _ Hi. apply (resp_bind_post R); [|intros; apply sweeps_preorder].
    apply IH. intros r' Hr'. apply Hi. by right.
Qed.

Lemma listed_orphans l s :
  ids_agree (site_cloud s) -> l = inventory (site_cloud s) ->
  forall r, r ∈ l -> res_session_id r <> None -> orphan_listed r s.
Proof.
  intros Ha -> r Hr Hn. split; [done|]. intros Hne.
  destruct (res_session_id r) as [i|] eqn:E; [|done].
  eapply inventory_foreign; [exact Ha|exact Hr|exact E|exact Hne].
Qed.

Lemma cleanup_orphans_sweeps now : Resp R (_cleanup_orphans config now).
Proof using All.
  unfold _cleanup_orphans. apply resp_bind; [apply _..|intros [sessions|]]; [|apply _].
  intros s. apply sweeps_intro. intros Ha.
  apply (resp_bind_inv R (fun s => ids_agree (site_cloud s))); [|exact Ha|apply (resp (R:=R))|].
  { intros s1 s2 Hs Ha1. destruct (Hs Ha1) as [_ Hsh _]. by eapply ids_agree_shrinks. }
  intros l s1 (-> & _ & Hc)%(list_managed_run sid) Ha1. apply same_cloud_inventory in Hc.
  assert (Hl : forall r, r ∈ inventory (site_cloud s) -> res_session_id r <> None ->
    orphan_listed r s1) by (apply listed_orphans; [exact Ha1|by symmetry]).
  apply (resp_bind_inv R (fun s1 => forall r, r ∈ inventory (site_cloud s) ->
    res_session_id r <> None -> orphan_listed r s1));
    [|exact Hl|by apply sweep_orphans_sweeps|].
  { intros w w' Hw Hi r' Hr' Hn. eapply orphan_listed_sweeps; [exact Hw|by apply Hi]. }
  intros n s2 _ Hl2. apply (resp_bind_post R); [|intros; apply sweeps_preorder].
  by apply sweep_orphans_sweeps.
Qed.
End orphans.

(** ** The whole sweep *)
Section run.
Context {P : Type} `{ProviderLaws P}.
Context (config : ReaperConfig) (sid : string).

Local Abbreviation R1 := (Sweeps (P:=P) (fun w => given_up w sid) sid).
Local Abbreviation R2 := (Sweeps (P:=P) (fun w => ~ alive w sid) sid).

(** Two phases, each for its own reason, one after the other. *)
Definition spared (s s' : site P) : Prop :=
  ids_agree (site_cloud s) -> alive (site_store s') sid -> kept sid (site_cloud s) (site_cloud s').

Lemma sweeps_spared s s' : R1 s s' -> spared s s'.
Proof.
  intros Hs Ha Hal. destruct (Hs Ha) as [_ _ [Hg|]]; [|done]. by apply given_up_not_alive in Hg.
Qed.

Lemma sweeps_then_spared s s1 s2 : R1 s s1 -> R2 s1 s2 -> spared s s2.
Proof.
  intros H1 H2 Ha Hal. destruct (H1 Ha) as [_ Hsh Hk1].
  destruct (H2 (ids_agree_shrinks _ _ Hsh Ha)) as [Hg [Hv Hx] [Hk2|Hk2]]; [done|].
  destruct Hk1 as [Hk1%given_up_not_alive|Hk1]; [by apply Hg in Hk1|]. by etrans.
Qed.

(** A first phase of [R1]-steps before a program that ends in an [R2]-phase. *)
Lemma spared_bind {A B} (m : M (site P) A) (f : A -> M (site P) B) s0 s :
  R1 s0 s -> Resp R1 m ->
  (forall a s1, m s = (Ok a, s1) -> R1 s0 s1 -> spared s0 (f a s1).2) ->
  spared s0 ((m ≫= f) s).2.
Proof.
  intros Hs Hm Hf. specialize (Hm s). unfold mbind, M_bind.
  destruct (m s) as [[a|e] s1]; cbn in *; [apply Hf; [done|]|apply sweeps_spared]; by etrans.
Qed.

(** One of the loops of [run]: it only sees Sessions in the states it asked for. *)
Lemma spared_loop {A B} sts (loop : list dict -> M (site P) A) (f : A -> M (site P) B) s0 s :
  R1 s0 s ->
  (forall l, (forall x, x ∈ l -> status_of x ∈ sts) -> Resp R1 (loop l)) ->
  (forall a s1, R1 s0 s1 -> spared s0 (f a s1).2) ->
  spared s0 ((l ← on_store (sessions_in_states sts); a ← loop l; f a) s).2.
Proof using All.
  intros Hs Hl Hf. apply spared_bind; [exact Hs|apply sw_states|].
  intros l s1 (w & Hw & ->)%on_store_ok Hs1. apply spared_bind; [exact Hs1| |by intros; apply Hf].
  apply Hl. by eapply listed_status.
Qed.

Lemma run_spared given nodes s : spared s (run config given nodes s).2.
Proof using All.
  unfold run. apply spared_bind; [reflexivity| |].
  { unfold reaper_now. destruct given; [apply _|].
    apply resp_bind; [apply _|apply sw_time|intros; apply _]. }
  intros now s1 _ Hs. apply spared_loop; [exact Hs| |].
  { intros l Hl. apply resp_mcount; [apply _|]. intros x Hx. by apply sweep_provisioning_sweeps, Hl. }
  clear s1 Hs. intros n1 s1 Hs. apply spared_loop; [exact Hs| |].
  { intros l Hl. apply resp_mcount; [apply _|]. intros x Hx. by apply sweep_deadline_sweeps, Hl. }
  clear s1 Hs. intros n2 s1 Hs. apply spared_bind; [exact Hs| |].
  { destruct nodes; [|apply _]. apply (states_loop config). intros l _. apply resp_mcount; [apply _|].
    intros x _. apply sweep_heartbeat_sweeps. }
  intros n3 s2 _ Hs2. clear s1 Hs. rename s2 into s1, Hs2 into Hs. apply spared_loop; [exact Hs| |].
  { intros l _. apply resp_mcount; [apply _|]. intros x _. apply sweep_no_ingest_sweeps. }
  clear s1 Hs. intros n4 s1 Hs. apply spared_loop; [exact Hs| |].
  { intros l _. apply resp_mcount2; [apply _|]. intros x _. apply sweep_holding_sweeps. }
  clear s1 Hs. intros n5 s1 Hs. apply spared_loop; [exact Hs| |].
  { intros l _. apply resp_mfor; [apply _|]. intros x. apply sweep_stopping_sweeps. }
  clear s1 Hs. intros [] s1 Hs. apply spared_bind; [exact Hs|apply sw_states|].
  intros l s2 _ Hs2. clear s1 Hs. rename s2 into s1, Hs2 into Hs. apply spared_bind; [exact Hs| |].
  { apply resp_mfor; [apply _|]. intros x. apply (sweep_failed_cleanup_sweeps config). }
  intros [] s2 _ Hs2. clear s1 Hs. rename s2 into s1, Hs2 into Hs. eapply sweeps_then_spared; [exact Hs|].
  apply resp_bind; [apply _|apply cleanup_orphans_sweeps|intros; apply _].
Qed.
End run.

(** C1: whatever fails on the way, a sweep of the reaper keeps every volume and every
    server of a Session that the store, after the sweep, still holds as being
    provisioned, ready, live, degraded or holding: resources are only deleted after
    their Session has durably been given up. The provider is any that keeps the laws
    of [ProviderLaws]; [ids_agree] says that it does not use one id for two
    resources. *)
Theorem reaper_spares_live_sessions {P} `{ProviderLaws P} (config : ReaperConfig)
    (given : option value) (nodes : option dict) (sid : string) (s : site P) :
  let s' := (run config given nodes s).2 in
  ids_agree (site_cloud s) -> alive (site_store s') sid ->
  (forall v, v ∈ volumes_of (site_cloud s) ->
     volume_tags v !! "irlight-session-id" = Some sid -> v ∈ volumes_of (site_cloud s')) /\
  (forall x, x ∈ servers_of (site_cloud s) ->
     server_tags x !! "irlight-session-id" = Some sid -> x ∈ servers_of (site_cloud s')).
Proof. intros s'. apply run_spared. Qed.

(** A cloud with the resources of the Session [s1] and of [s9], which no store knows. *)
Definition demo_tags (sid : string) : tags :=
  list_to_map [("irlight-managed", "true"); ("irlight-session-id", sid);
               ("irlight-user-id", "u1"); ("irlight-environment", "prod");
               ("irlight-created-at", "1970-01-01T00:16:40Z")].
Definition demo_cloud : FakeProvider :=
  Fake [Volume "v1" "boot" 20 "available" (demo_tags "s1");
        Volume "v9" "boot" 20 "available" (demo_tags "s9")]
       [Server "x1" "node" "ACTIVE" None (demo_tags "s1");
        Server "x9" "node" "ACTIVE" None (demo_tags "s9")]
       {["v1" := "x1"; "v9" := "x9"]} (fun _ => "id") 0.
Definition demo_site : site FakeProvider := Site demo_live demo_ingest demo_cloud.

Lemma demo_ids_agree : ids_agree demo_cloud.
Proof.
  split; intros a b Ha%list_elem_of_In Hb%list_elem_of_In;
    destruct Ha as [<-|[<-|[]]], Hb as [<-|[<-|[]]]; intros Hid; (reflexivity || discriminate Hid).
Qed.

Lemma reaper_spares_live_sessions_witness :
  let s' := (run default_reaper_config (Some (VInt 1400)) None demo_site).2 in
  server_id <$> servers (site_cloud s') = ["x1"] /\
  forall x, x ∈ servers_of demo_cloud ->
     server_tags x !! "irlight-session-id" = Some "s1" -> x ∈ servers_of (site_cloud s').
Proof.
  intros s'. split; [vm_compute; reflexivity|].
  apply (reaper_spares_live_sessions default_reaper_config (Some (VInt 1400)) None "s1" demo_site).
  - apply demo_ids_agree.
  - exists (state_of (site_store s')), (record_of (site_store s') "s1").
    split; [by_eval|split; [by_eval|]]. by_eval.
Defined.

(** ** What a cleanup leaves *)

(** When the cleanup of a Session reports success, with or without a lease, no
    server of the Session under the application's management is left, and the deletion
    of every volume that is left has been accepted: servers go first, and volumes are
    only touched once a second listing shows no server. *)
Theorem reaper_cleanup_is_complete {P} `{ProviderLaws P} (sid : string)
    (lease : option string) (s s' : site P) :
  _cleanup_resources sid lease s = (Ok true, s') ->
  (forall x, x ∈ servers_of (site_cloud s') -> is_managed (server_tags x) = true ->
     server_tags x !! "irlight-session-id" <> Some sid) /\
  (forall v, v ∈ volumes_of (site_cloud s') -> is_managed (volume_tags v) = true ->
     volume_tags v !! "irlight-session-id" = Some sid -> ("volume", volume_id v) ∈ deleting (site_cloud s')).
Proof.
  unfold _cleanup_resources. intros (l & s1 & _ & Hr)%bind_ok.
  apply bind_ok in Hr as (o & s2 & _ & Hr). destruct o as [[]|]; [|by apply ret_ok in Hr as [? _]..].
  apply bind_ok in Hr as (l2 & s3 & (-> & _ & Hc)%(list_managed_run sid) & Hr).
  destruct (bool_decide_reflect (ids_of "server" sid (inventory (site_cloud s2)) = [])) as [En|];
    [|by apply ret_ok in Hr as [? _]].
  cbn [negb] in Hr. apply bind_ok in Hr as (o & s4 & Hd & [Ho ->]%ret_ok).
  destruct o as [[]|]; [|done..]. apply delete_volumes_done in Hd as [[Hv Hs] Hno]; [|apply _].
  destruct Hc as (Ev & Es & _). split.
  - intros x Hx%Hs Hm Ht. rewrite Es in Hx.
    assert (Hin : server_id x ∈ ids_of "server" sid (inventory (site_cloud s2))).
    { apply ids_of_elem. exists (managed_server x). split; [|done].
      apply inventory_elem. right. by exists x. }
    rewrite En in Hin. by apply elem_of_nil in Hin.
  - intros v Hv' Hm Ht. apply (Hno (volume_id v)) with (v := v); [|done..].
    apply ids_of_elem. exists (managed_volume v). split; [|done].
    apply inventory_elem. left. exists v. by rewrite <- Ev; auto.
Qed.

Lemma reaper_cleanup_is_complete_witness :
  exists s', _cleanup_resources "s9" None demo_site = (Ok true, s') /\
    forall x, x ∈ servers_of (site_cloud s') -> is_managed (server_tags x) = true ->
      server_tags x !! "irlight-session-id" <> Some "s9".
Proof.
  destruct (_cleanup_resources "s9" None demo_site) as [[b|e] s'] eqn:E.
  - assert (Hb : b = true).
    { assert (Hc : (_cleanup_resources "s9" None demo_site).1 = Ok true)
        by (vm_compute; reflexivity). rewrite E in Hc. by injection Hc. }
    subst b. exists s'. split; [done|].
    by apply (reaper_cleanup_is_complete "s9" None demo_site).
  - exfalso. assert (Hc : is_ok (_cleanup_resources "s9" None demo_site).1 = true)
      by (vm_compute; reflexivity). by rewrite E in Hc.
Defined.
