(* ===== verification/WorkflowTheorems.v ===== *)
(** * The provisioning workflow: theorems

    A stop that reports FINISHED has given everything back; provisioning adds only
    resources that carry the Session's own tags. *)

From S2P Require Import Prelude PyFloat PyValue Json Effects Authority Steps Calendar Uuid.
From S2P Require Import Provider SessionState SessionSpec SessionStore SessionFacts.
From S2P Require Import SessionLifecycle SessionLeases SessionTheorems Ingest IngestTheorems.
From S2P Require Import Site Workflow Reaper SiteFacts ReaperTheorems.

(** ** What the stores report *)
Lemma get_ok sid w o w' :
  get sid w = (Ok o, w') ->
  exists a, view w = Some a /\ view w' = Some a /\ o = sessions a !! sid.
Proof.
  unfold get. intros (w1 & Hv & Hv1 & _ & _ & _ & H)%locked_ok. exists (mem w1). split; [done|].
  apply bind_ok in H as (v & w2 & [Hf ->]%find_ok & H). rewrite Hf.
  destruct v as [s|]; [|apply ret_ok in H as [-> ->]; split; [congruence|done]].
  destruct (truthy (VDict s)) eqn:E; [apply ret_ok in H as [-> ->]; split; [congruence|done]|].
  exfalso. pose proof (view_valid _ _ _ _ Hv Hf) as [_ Hid _ _].
  apply negb_false_iff, bool_decide_eq_true, map_size_empty_inv in E. by rewrite E in Hid.
Qed.

Lemma transition_ok sid st allow changes w s w' :
  transition sid st allow changes w = (Ok s, w') ->
  exists a a' s0, view w = Some a /\ sessions a !! sid = Some s0 /\
    view w' = Some a' /\ sessions a' !! sid = Some s /\ status_of s = st /\
    forall k, changes !! k = None -> k ∉ ["status"; "updated_at"; "entitlement_reserved";
      "recovery_candidate_since"; "recovery_candidate_source_id"] -> s !! k = s0 !! k.
Proof.
  unfold transition. intros H. apply bind_ok in H as ([] & w1 & [Hst ->]%guard_err_ok & H).
  apply bind_ok in H as ([] & w2 & [_ ->]%lift_ok & H).
  apply locked_ok in H as (w2 & Hv & Hv1 & _ & _ & _ & H).
  apply bind_ok in H as (s0 & w3 & [Hs ->]%require_ok & H). cbv zeta in H.
  apply bind_ok in H as ([] & w4 & [_ ->]%guard_err_ok & H).
  apply bind_ok in H as (t & w5 & Ht & H). use_reads.
  apply commit_session_ok in H as (-> & Hv' & _ & _ & _).
  eexists _, _, s0. split; [exact Hv|]. split; [done|].
  split; [exact Hv'|]. split; [apply lookup_insert_eq|].
  unfold status_of, transitioned, _clear_recovery_candidate, py_get.
  split; [destruct (in_set st ["FINISHED"; "FAILED"]); by dict_lookup|]. intros k Hk Hno.
  rewrite !not_elem_of_cons in Hno.
  destruct (in_set st ["FINISHED"; "FAILED"]); rewrite ?lookup_insert_ne by naive_solver;
    by apply lookup_union_r.
Qed.

Lemma request_stop_stopping sid w s w' a r :
  request_stop sid w = (Ok s, w') -> view w = Some a -> sessions a !! sid = Some r ->
  status_of r ∉ TERMINAL_STATES ->
  status_of s = "STOPPING" /\ exists a', view w' = Some a' /\ sessions a' !! sid = Some s.
Proof.
  unfold request_stop. intros (w1 & Hv & _ & _ & _ & _ & Hrun)%locked_ok Hva Hr Hst.
  rewrite Hva in Hv. injection Hv as ->.
  apply bind_ok in Hrun as (s0 & w2 & [Hs ->]%require_ok & Hrun). cbv zeta in Hrun.
  rewrite Hr in Hs. injection Hs as <-. unfold in_set at 1 in Hrun.
  rewrite bool_decide_eq_false_2 in Hrun by done.
  apply bind_ok in Hrun as ([] & w2 & [_ ->]%guard_err_ok & Hrun).
  apply bind_ok in Hrun as (t & w3 & Ht & Hrun). apply commit_session_ok in Hrun as (-> & Hv' & _).
  split; [|eexists; split; [exact Hv'|apply lookup_insert_eq]].
  unfold stopping_record, _clear_recovery_candidate, status_of, py_get.
  rewrite !py_update_cons, py_update_nil. by dict_lookup.
Qed.

Lemma same_sessions_ok {A} (m : SM A) w r w' a sid s :
  Stepped same_sessions m -> m w = (Ok r, w') -> view w = Some a -> sessions a !! sid = Some s ->
  forall a', view w' = Some a' -> sessions a' !! sid = Some s.
Proof.
  intros Hm Hr Hv Hs a' Hv'. specialize (Hm w). rewrite Hr in Hm. unfold stepped in Hm.
  rewrite Hv in Hm. destruct Hm as [E|[(a1 & E & Hq)|(_ & _ & E)]]; cbn in E; rewrite Hv' in E.
  - by injection E as ->.
  - injection E as <-. unfold same_sessions in Hq. congruence.
  - done.
Qed.
(** A release keeps every record. *)
Lemma release_keeps sid lease w u w' a s :
  release_session_cleanup sid lease w = (Ok u, w') -> view w = Some a ->
  sessions a !! sid = Some s ->
  exists a', view w' = Some a' /\ sessions a' !! sid = Some s.
Proof.
  intros Hrel Hv Hs. pose proof (release_cleanup_steps same_sessions sid lease) as Hstep.
  pose proof (same_sessions_ok _ _ _ _ _ _ _ Hstep Hrel Hv Hs) as Hs'.
  specialize (Hstep w). unfold stepped in Hstep. rewrite Hv, Hrel in Hstep. cbn in Hstep.
  destruct Hstep as [E|[(a9 & E & _)|(Hm & _ & E)]]; [by eauto..|].
  exfalso. unfold view in Hv. rewrite Hm in Hv. destruct (fuse w); [done|].
  injection Hv as <-. exact (lookup_empty_Some _ _ Hs).
Qed.

(** ** The cleanup of a Session *)
Section cleanup.
Context {P : Type} `{ProviderLaws P}.

(** No id is used twice, within a kind or across the two. *)
Definition ids_unique (p : P) : Prop :=
  ids_agree p /\
  forall v x, v ∈ volumes_of p -> x ∈ servers_of p -> volume_id v <> server_id x.

Lemma ids_unique_shrinks p p' : shrinks p p' -> ids_unique p -> ids_unique p'.
Proof.
  intros Hs [Ha Hd]. split; [by eapply ids_agree_shrinks|]. destruct Hs as [Hv Hx]. auto.
Qed.

(** The tags of a resource of this Session, user and environment. *)
Definition owned_tags (sid user env : string) (t : tags) : Prop :=
  is_managed t = true /\ t !! "irlight-session-id" = Some sid /\
  t !! "irlight-user-id" = Some user /\ t !! "irlight-environment" = Some env.

Lemma environment_of_unique (p : P) id t :
  ids_unique p ->
  (exists x, x ∈ servers_of p /\ server_id x = id /\ server_tags x = t) \/
  (exists v, v ∈ volumes_of p /\ volume_id v = id /\ volume_tags v = t) ->
  environment_of id (servers_of p) (volumes_of p) = t !! "irlight-environment".
Proof.
  intros [[Hv Hs] Hd] Hin. unfold environment_of.
  set (l := ((fun s => (server_id s, server_tags s)) <$> servers_of p) ++
            ((fun v => (volume_id v, volume_tags v)) <$> volumes_of p)).
  assert (Hl : forall i t', (i, t') ∈ l <->
    (exists x, x ∈ servers_of p /\ server_id x = i /\ server_tags x = t') \/
    (exists v, v ∈ volumes_of p /\ volume_id v = i /\ volume_tags v = t')).
  { intros i t'. unfold l. rewrite elem_of_app, !list_elem_of_fmap. naive_solver. }
  destruct (List.find _ l) as [[i t']|] eqn:E.
  - apply List.find_some in E as [Hi He%String.eqb_eq]. cbn in He. subst i.
    apply list_elem_of_In, Hl in Hi.
    destruct Hi as [(x & ? & Hx & <-)|(v & ? & Hx & <-)], Hin as [(y & ? & Hy & <-)|(y & ? & Hy & <-)].
    + by rewrite (Hs x y) by congruence.
    + exfalso. apply (Hd y x); congruence.
    + exfalso. apply (Hd v y); congruence.
    + by rewrite (Hv v y) by congruence.
  - exfalso. apply Hl in Hin. apply list_elem_of_In in Hin.
    pose proof (List.find_none _ _ E _ Hin) as Hn. cbn in Hn. by rewrite String.eqb_refl in Hn.
Qed.

(** Listings leave the site as it is, but for the provider's bookkeeping. *)
Definition same_site (s s' : site P) : Prop :=
  site_store s' = site_store s /\ same_cloud (site_cloud s) (site_cloud s').

#[local] Instance same_site_preorder : PreOrder same_site.
Proof.
  split; [by split|]. intros s1 s2 s3 [? (? & ? & ?)] [? (? & ? & ?)].
  split; [congruence|]. split_and!; congruence.
Qed.

Lemma on_cloud_same {A} (m : M P A) s :
  same_cloud (site_cloud s) (m (site_cloud s)).2 -> same_site s (on_cloud m s).2.
Proof. unfold on_cloud. by destruct (m (site_cloud s)). Qed.

#[local] Instance same_servers : Resp same_site (on_cloud list_servers).
Proof using All. intros s. apply on_cloud_same, list_servers_law. Qed.
#[local] Instance same_volumes : Resp same_site (on_cloud list_volumes).
Proof using All. intros s. apply on_cloud_same, list_volumes_law. Qed.
#[local] Instance same_managed : Resp same_site (on_cloud list_managed_resources).
Proof using All. intros s. apply on_cloud_same, list_managed_law. Qed.
#[local] Instance same_environment r e : Resp same_site (_resource_environment r e).
Proof using All. unfold _resource_environment. solve_resp. Qed.

(** What passes the test is kept. *)
Lemma mfilter_keeps {A} (test : A -> M (site P) bool) (good : A -> Prop) l s l' s' :
  (forall x, Resp same_site (test x)) ->
  (forall x s1 b s2, same_site s s1 -> test x s1 = (Ok b, s2) -> good x -> b = true) ->
  mfilter test l s = (Ok l', s') -> forall x, x ∈ l -> good x -> x ∈ l'.
Proof.
  intros Hr Ht. assert (Hs : same_site s s) by reflexivity. revert Hs. generalize s at 2 3.
  revert l'. induction l as [|y l IH]; intros l' s0 Hs Hm x Hx Hg; [by apply elem_of_nil in Hx|].
  cbn in Hm. apply bind_ok in Hm as (b & s1 & Hb & Hm). apply bind_ok in Hm as (r & s2 & Hm & Hret).
  apply ret_ok in Hret as [-> ->]. pose proof (resp (R:=same_site) (m:=test y) s0) as Hy.
  rewrite Hb in Hy. cbn in Hy. apply elem_of_cons in Hx as [->|Hx].
  - rewrite (Ht _ _ _ _ Hs Hb Hg). by left.
  - assert (Hin : x ∈ r) by (eapply IH; [by etrans|exact Hm|done|done]).
    destruct b; [by right|done].
Qed.

Lemma listing_ok {A} (m : M P A) (value : P -> A) (s : site P) l s' :
  (forall p, same_cloud p (m p).2 /\ forall l, (m p).1 = Ok l -> l = value p) ->
  on_cloud m s = (Ok l, s') -> l = value (site_cloud s) /\ same_site s s'.
Proof.
  intros Hm (p & Hl & ->)%on_cloud_ok. destruct (Hm (site_cloud s)) as [Hc Hi].
  rewrite Hl in Hc, Hi. split; [by apply Hi|by split].
Qed.

#[local] Instance same_owned sid u e : Resp same_site (owned_resources sid u e).
Proof using All.
  unfold owned_resources. apply resp_bind; [apply _..|intros l]. apply resp_mfilter; [apply _|].
  intros r. cbv beta. destruct (_ && _); apply _.
Qed.

(** What [owned_resources] finds. *)
Lemma owned_found sid user env s l s' :
  ids_unique (site_cloud s) -> env <> "" ->
  owned_resources sid user env s = (Ok l, s') ->
  same_site s s' /\
  (forall x, x ∈ servers_of (site_cloud s) -> owned_tags sid user env (server_tags x) ->
     server_id x ∈ ids_of_kind "server" l) /\
  (forall v, v ∈ volumes_of (site_cloud s) -> owned_tags sid user env (volume_tags v) ->
     volume_id v ∈ ids_of_kind "volume" l).
Proof using All.
  intros Hu He Hr. assert (Hsame : same_site s s').
  { pose proof (resp (R:=same_site) (m:=owned_resources sid user env) s) as Hx. by rewrite Hr in Hx. }
  split; [done|]. unfold owned_resources in Hr.
  apply bind_ok in Hr as (r & s1 & [-> H1]%(listing_ok _ inventory _ _ _ list_managed_law) & Hm).
  set (good r := (exists x, r = managed_server x /\ x ∈ servers_of (site_cloud s) /\
                    owned_tags sid user env (server_tags x)) \/
                 (exists v, r = managed_volume v /\ v ∈ volumes_of (site_cloud s) /\
                    owned_tags sid user env (volume_tags v))).
  assert (Hk : forall r, r ∈ inventory (site_cloud s) -> good r -> r ∈ l).
  { eapply (mfilter_keeps _ good); [..|exact Hm].
    - intros r. cbv beta. destruct (_ && _); apply _.
    - intros r s2 b s3 H2 Hb Hg.
      assert (Hres : res_session_id r = Some sid /\ res_user_id r = Some user).
      { destruct Hg as [(x & -> & _ & _ & ? & ? & _)|(x & -> & _ & _ & ? & ? & _)]; by split. }
      destruct Hres as [Hrs Hru]. cbv beta in Hb. rewrite !bool_decide_eq_true_2 in Hb by done.
      cbn [andb] in Hb. unfold _resource_environment in Hb.
      destruct (str_empty env) eqn:E; [by destruct env|].
      apply bind_ok in Hb as (ss & s4 & [-> H4]%(listing_ok _ servers_of _ _ _ list_servers_law) & Hb).
      apply bind_ok in Hb as (vs & s5 & [-> H5]%(listing_ok _ volumes_of _ _ _ list_volumes_law) & Hb).
      apply ret_ok in Hb as [-> _].
      assert (Hs4 : same_site s s4) by (etrans; [exact H1|etrans; [exact H2|exact H4]]).
      assert (Hs2 : same_site s s2) by (etrans; [exact H1|exact H2]).
      destruct Hs4 as [_ [-> _]], Hs2 as [_ (_ & -> & _)]. apply bool_decide_eq_true.
      destruct Hg as [(x & -> & Hx & _ & _ & _ & <-)|(x & -> & Hx & _ & _ & _ & <-)];
        (apply environment_of_unique; [done|]); [left|right]; by exists x. }
  assert (Hid : forall r, r ∈ inventory (site_cloud s) -> good r ->
    res_provider_id r ∈ ids_of_kind (res_kind r) l).
  { intros r Hr Hg. unfold ids_of_kind. apply list_elem_of_fmap. exists r. split; [done|].
    apply list_elem_of_In, filter_In. rewrite String.eqb_eq. split; [|done].
    apply list_elem_of_In. by apply Hk. }
  split; intros x Hx Ht.
  - apply (Hid (managed_server x)); [|left; by exists x]. apply inventory_elem. right.
    exists x. by destruct Ht.
  - apply (Hid (managed_volume x)); [|right; by exists x]. apply inventory_elem. left.
    exists x. by destruct Ht.
Qed.

(** The Session store's durable state and the credentials are the same. *)
Definition views (s s' : site P) : Prop :=
  view (site_store s') = view (site_store s) /\ site_creds s' = site_creds s.

#[local] Instance views_preorder : PreOrder views.
Proof. split; [done|]. intros s1 s2 s3 [? ?] [? ?]. split; congruence. Qed.

#[local] Instance views_store {A} (m : SM A) : Resp keeps m -> Resp views (on_store (P:=P) m).
Proof.
  intros Hm s. unfold views, on_store. pose proof (Hm (site_store s)) as (_ & Hv & _).
  by destruct (m (site_store s)).
Qed.
#[local] Instance views_cloud {A} (m : M P A) : Resp views (on_cloud m).
Proof. intros s. unfold views, on_cloud. by destruct (m (site_cloud s)). Qed.
#[local] Instance views_get i : Resp views (on_store (P:=P) (get i)).
Proof. apply views_store. unfold get. solve_resp. Qed.
#[local] Instance views_owned i l : Resp views (on_store (P:=P) (session_cleanup_still_owned i l)).
Proof. apply views_store. unfold session_cleanup_still_owned. solve_resp. Qed.
#[local] Instance views_lease_owned i l : Resp views (lease_owned (P:=P) i l).
Proof. unfold lease_owned. destruct l; apply _. Qed.
#[local] Instance views_environment r e : Resp views (_resource_environment (P:=P) r e).
Proof. unfold _resource_environment. solve_resp. Qed.
#[local] Instance views_resources i u e : Resp views (owned_resources (P:=P) i u e).
Proof.
  unfold owned_resources. apply resp_bind; [apply _..|intros l]. apply resp_mfilter; [apply _|].
  intros r. cbv beta. destruct (_ && _); apply _.
Qed.
#[local] Instance views_cleanup i l : Resp views (Workflow._cleanup_resources (P:=P) i l).
Proof. unfold Workflow._cleanup_resources. cbv zeta. solve_resp. Qed.

(** No server of the Session, the user and the environment is left, and the provider
    has accepted the deletion of every volume of theirs that is. *)
Definition given_back (sid user env : string) (p : P) : Prop :=
  (forall x, x ∈ servers_of p -> ~ owned_tags sid user env (server_tags x)) /\
  (forall v, v ∈ volumes_of p -> owned_tags sid user env (volume_tags v) ->
     ("volume", volume_id v) ∈ deleting p).

Lemma text_of_record a sid r k text :
  sessions a !! sid = Some r -> r !! k = Some (VStr text) ->
  name_text (py_get_or (default ∅ (sessions a !! sid)) k (VStr "")) = text.
Proof. intros -> Hk. cbn. unfold py_get_or. by rewrite Hk. Qed.

Lemma workflow_cleanup_complete sid lease s s' a r user env :
  ids_unique (site_cloud s) -> view (site_store s) = Some a -> sessions a !! sid = Some r ->
  r !! "user_id" = Some (VStr user) -> r !! "environment" = Some (VStr env) -> env <> "" ->
  Workflow._cleanup_resources sid lease s = (Ok true, s') -> given_back sid user env (site_cloud s').
Proof using All.
  intros Hu Hv Hr Huser Henv He Hc. unfold Workflow._cleanup_resources in Hc.
  apply bind_ok in Hc as (o & s1 & (w & Hg & ->)%on_store_ok & Hc).
  apply get_ok in Hg as (a' & Hv1 & _ & ->). rewrite Hv in Hv1. injection Hv1 as <-.
  cbv zeta in Hc. rewrite (text_of_record a sid r "user_id" user) in Hc by done.
  rewrite (text_of_record a sid r "environment" env) in Hc by done.
  set (s1 := Site w _ _) in Hc. assert (Hu1 : ids_unique (site_cloud s1)) by done.
  apply bind_ok in Hc as (l & s2 & Hl & Hc). destruct (owned_found _ _ _ _ _ _ Hu1 He Hl) as [[_ H2] _].
  assert (Hu2 : ids_unique (site_cloud s2)).
  { eapply ids_unique_shrinks; [by apply same_cloud_shrinks|done]. }
  apply bind_ok in Hc as (o & s3 & Hd & Hc). destruct o as [[]|]; [|by apply ret_ok in Hc as [? _]..].
  apply delete_servers_done in Hd; [|apply _]. rename Hd into H3.
  assert (Hu3 : ids_unique (site_cloud s3)) by (eapply ids_unique_shrinks; [exact H3|done]).
  apply bind_ok in Hc as (l2 & s4 & Hl2 & Hc).
  destruct (owned_found _ _ _ _ _ _ Hu3 He Hl2) as ([_ H4] & Hsv & Hvol).
  destruct (existsb _ l2) eqn:Ex; [by apply ret_ok in Hc as [? _]|].
  apply bind_ok in Hc as (o & s5 & Hd & [Ho ->]%ret_ok). destruct o as [[]|]; [|done..].
  apply delete_volumes_done in Hd as [[Hsh Hsh'] Hno]; [|apply _]. destruct H4 as (E1 & E2 & _). split.
  - intros x Hx%Hsh' Ht. rewrite E2 in Hx. specialize (Hsv x Hx Ht).
    apply list_elem_of_fmap in Hsv as (r2 & _ & Hr2%list_elem_of_In%filter_In).
    assert (Hex : existsb (fun r => String.eqb (res_kind r) "server") l2 = true).
    { apply existsb_exists. by exists r2. }
    congruence.
  - intros v Hv' Ht. apply (Hno (volume_id v)) with (v := v); [|done..].
    apply Hvol; [|done]. rewrite <- E1. by apply Hsh.
Qed.

End cleanup.

(** ** [stop] *)
(** C2: when a stop of a Session that had not ended reports it FINISHED, then the
    store durably holds it as FINISHED, all its credentials are revoked, and of the
    resources tagged with the Session, its owner and its environment the provider has
    no server left, and has accepted the deletion of every volume that is left:
    resources first, the record after. A resource that carries the Session's id under
    another owner or environment may stay ([stop_leaves_other_users_volume] below).
    The provider uses an id once ([ids_unique]). Nothing is said when a call of [stop]
    fails; it can then be repeated. *)
Theorem workflow_stop_is_complete {P} `{ProviderLaws P} (sid : string) (s s' : site P)
    (a : session_mem) (r0 r : dict) :
  ids_unique (site_cloud s) -> view (site_store s) = Some a -> sessions a !! sid = Some r0 ->
  status_of r0 ∉ ["STOPPED"; "FINISHED"; "FAILED"] ->
  stop sid s = (Ok r, s') -> status_of r = "FINISHED" ->
  (exists a', view (site_store s') = Some a' /\ sessions a' !! sid = Some r) /\
  (forall cs id c, view (site_creds s') = Some cs -> credentials cs !! id = Some c ->
     has_session sid c = true -> unrevoked c = false) /\
  (forall user env, r !! "user_id" = Some (VStr user) -> r !! "environment" = Some (VStr env) ->
     env <> "" -> given_back sid user env (site_cloud s')).
Proof.
  intros Hu Hv Hr0 Hst Hrun Hfin. unfold stop in Hrun.
  apply bind_ok in Hrun as (o & s1 & (w1 & Hg & ->)%on_store_ok & Hrun).
  apply get_ok in Hg as (a1 & Hv1 & Hv2 & ->). rewrite Hv in Hv1. injection Hv1 as <-.
  rewrite Hr0 in Hrun. unfold in_set at 1 in Hrun. rewrite bool_decide_eq_false_2 in Hrun by done.
  apply bind_ok in Hrun as (s1 & st1 & (w2 & Hstop & ->)%on_store_ok & Hrun). cbn [site_store] in Hstop.
  destruct (request_stop_stopping _ _ _ _ _ _ Hstop Hv2 Hr0 Hst) as (Hs1 & a3 & Hv3 & Hr3).
  apply bind_ok in Hrun as (n & st2 & (c & Hrev & ->)%on_creds_ok & Hrun).
  cbn [site_store site_creds site_cloud] in *.
  destruct (truthy _); [apply ret_ok in Hrun as [-> _]; congruence|].
  apply bind_ok in Hrun as (lease & st3 & (w3 & Hclaim & ->)%on_store_ok & Hrun).
  cbn [site_store site_creds site_cloud] in *.
  pose proof (same_sessions_ok _ _ _ _ _ _ _ (claim_cleanup_steps same_sessions _ _ _) Hclaim Hv3 Hr3)
    as Hsame.
  destruct lease as [lease|].
  2: { exfalso. apply bind_ok in Hrun as (o & st4 & (w4 & Hg & ->)%on_store_ok & Hrun).
       apply get_ok in Hg as (a4 & Hv4 & _ & ->). cbn [site_store] in Hv4.
       rewrite (Hsame _ Hv4) in Hrun. apply ret_ok in Hrun as [-> _]. cbn in Hfin. congruence. }
  apply finally_ok in Hrun as (st4 & [] & Hbody & (w5 & Hrel & ->)%on_store_ok).
  cbn [site_store site_creds site_cloud].
  apply bind_ok in Hbody as (b & st5 & Hclean & Hbody).
  set (st3 := Site w3 c (site_cloud s)) in Hclean.
  pose proof (views_cleanup sid (Some lease) st3) as [Hv5 Hc5].
  rewrite Hclean in Hv5, Hc5. cbn in Hv5, Hc5.
  destruct b; apply on_store_ok in Hbody as (w6 & Htr & ->);
    apply transition_ok in Htr as (a5 & a6 & s0 & Hv6 & Hs0 & Hv7 & Hs7 & Hst7 & Hfields);
    [|congruence]. cbn [site_store site_creds site_cloud] in *.
  rewrite Hv5 in Hv6. pose proof (Hsame _ Hv6) as Hs8.
  split; [|split].
  - by eapply release_keeps.
  - intros cs id cr Hcs Hcr Hsess. rewrite Hc5 in Hcs.
    apply revoke_session_ok in Hrev as (_ & _ & _ & Hrev). by eapply Hrev.
  - intros user env Huser Henv He.
    rewrite Hfields in Huser, Henv
      by (first [reflexivity|apply (bool_decide_unpack _); vm_compute; exact I]).
    eapply (workflow_cleanup_complete sid _ st3); [exact Hu|exact Hv6|exact Hs0|done..|exact Hclean].
Qed.

(** ** [prepare] *)
Section prepare.
Context {P : Type} `{ProviderLaws P}.
Context (sid owner env : string).

(** The provider has no managed volume, or server, of the Session. *)
Definition lacks_volume (p : P) : Prop :=
  forall v, v ∈ volumes_of p -> ~ (is_managed (volume_tags v) = true /\ tagged sid (volume_tags v)).
Definition lacks_server (p : P) : Prop :=
  forall x, x ∈ servers_of p -> ~ (is_managed (server_tags x) = true /\ tagged sid (server_tags x)).

Section adds.
Context (Lv Ls : Prop).

(** What is new carries the tags of the Session, under a condition. *)
Definition Adds (s s' : site P) : Prop :=
  (forall v, v ∈ volumes_of (site_cloud s') ->
     v ∈ volumes_of (site_cloud s) \/ owned_tags sid owner env (volume_tags v) /\ Lv) /\
  (forall x, x ∈ servers_of (site_cloud s') ->
     x ∈ servers_of (site_cloud s) \/ owned_tags sid owner env (server_tags x) /\ Ls).

#[export] Instance adds_preorder : PreOrder Adds.
Proof.
  split; [split; auto|]. intros s1 s2 s3 [H1 H2] [H3 H4]. split.
  - intros v [Hv|?]%H3; [by apply H1|by right].
  - intros x [Hx|?]%H4; [by apply H2|by right].
Qed.

Lemma shrinks_adds s s' : cloud_shrinks s s' -> Adds s s'.
Proof. intros [Hv Hs]. split; auto. Qed.

#[export] Instance adds_of_shrinks {A} (m : M (site P) A) : Resp cloud_shrinks m -> Resp Adds m.
Proof. intros Hm s. by apply shrinks_adds. Qed.

Lemma create_volume_adds name size t s :
  owned_tags sid owner env t -> Lv -> Adds s (on_cloud (create_volume name size t) s).2.
Proof using All.
  intros Ht Hl. pose proof (create_volume_law name size t (site_cloud s)) as (Hs & _ & Hv).
  unfold on_cloud. destruct (create_volume name size t (site_cloud s)) as [[v|e] p]; cbn in *.
  - destruct Hv as (_ & Hvt & _ & _ & Hv). split; cbn; [|rewrite Hs; by left].
    intros x [Hx| ->]%Hv; [by left|right; by rewrite Hvt].
  - split; cbn; [|rewrite Hs; by left]. intros x [Hx|Hx]%Hv; [by left|right; by rewrite Hx].
Qed.

Lemma create_server_adds name image flavor volume t s :
  owned_tags sid owner env t -> Ls -> Adds s (on_cloud (create_server name image flavor volume t) s).2.
Proof using All.
  intros Ht Hl. pose proof (create_server_law name image flavor volume t (site_cloud s)) as (Hs & _ & Hv).
  unfold on_cloud.
  destruct (create_server name image flavor volume t (site_cloud s)) as [[v|e] p]; cbn in *.
  - destruct Hv as (_ & Hvt & _ & _ & Hv). split; cbn; [rewrite Hs; by left|].
    intros x [Hx| ->]%Hv; [by left|right; by rewrite Hvt].
  - split; cbn; [rewrite Hs; by left|]. intros x [Hx|Hx]%Hv; [by left|right; by rewrite Hx].
Qed.
End adds.

Lemma metadata_owned s t s' :
  _metadata (P:=P) owner env sid s = (Ok t, s') -> owned_tags sid owner env t.
Proof.
  unfold _metadata. intros (now & s1 & _ & Hm)%bind_ok.
  apply bind_ok in Hm as (m & s2 & [Hc ->]%lift_ok & [Ht _]%lift_ok).
  unfold check_metadata in Hc. repeat apply result_bind_ok in Hc as (? & _ & Hc).
  injection Hc as <-. apply result_bind_ok in Ht as (created & _ & Ht). cbn in Ht.
  injection Ht as <-. unfold owned_tags, is_managed.
  repeat split; try apply bool_decide_eq_true; dict_lookup; done.
Qed.

(** A search that finds nothing proves that there is nothing. *)
Lemma pick_managed_none {R} (tags_of : R -> tags) (l : list R) :
  pick_managed tags_of sid (expected_tags sid None None) l = Ok None ->
  forall x, x ∈ l -> ~ (is_managed (tags_of x) = true /\ tagged sid (tags_of x)).
Proof.
  induction l as [|y l IH]; intros Hp x Hx [Hm Ht]; [by apply elem_of_nil in Hx|].
  cbn [pick_managed] in Hp. apply elem_of_cons in Hx as [<-|Hx].
  - unfold tagged in Ht. rewrite bool_decide_eq_true_2, Hm in Hp by done. cbn in Hp.
    rewrite bool_decide_eq_true_2 in Hp by done. done.
  - destruct (_ || _); [by apply (IH Hp x)|]. by destruct (tags_mismatch _ _).
Qed.

Lemma find_volume_run s o s' :
  _find_managed_volume sid None None s = (Ok o, s') ->
  same_site s s' /\ (o = None -> lacks_volume (site_cloud s)).
Proof using All.
  unfold _find_managed_volume. intros (l & s1 & Hl & [Hp ->]%lift_ok)%bind_ok.
  apply (listing_ok _ volumes_of _ _ _ list_volumes_law) in Hl as [-> Hs].
  split; [done|]. intros ->. intros v. by eapply pick_managed_none.
Qed.

Lemma find_server_run s o s' :
  _find_managed_server sid None None s = (Ok o, s') ->
  same_site s s' /\ (o = None -> lacks_server (site_cloud s)).
Proof using All.
  unfold _find_managed_server. intros (l & s1 & Hl & [Hp ->]%lift_ok)%bind_ok.
  apply (listing_ok _ servers_of _ _ _ list_servers_law) in Hl as [-> Hs].
  split; [done|]. intros ->. intros v. by eapply pick_managed_none.
Qed.

#[local] Instance sh_environment r e : Resp cloud_shrinks (_resource_environment (P:=P) r e).
Proof using All. unfold _resource_environment. solve_resp. Qed.
#[local] Instance sh_owned i u e : Resp cloud_shrinks (owned_resources (P:=P) i u e).
Proof using All.
  unfold owned_resources. apply resp_bind; [apply _..|intros l]. apply resp_mfilter; [apply _|].
  intros r. cbv beta. destruct (_ && _); apply _.
Qed.
#[local] Instance sh_cleanup i l : Resp cloud_shrinks (Workflow._cleanup_resources (P:=P) i l).
Proof using All. unfold Workflow._cleanup_resources. cbv zeta. solve_resp. Qed.
#[local] Instance sh_finish i : Resp cloud_shrinks (_finish_cancelled_provisioning (P:=P) i).
Proof using All. unfold _finish_cancelled_provisioning. cbv zeta. solve_resp. Qed.

Context (config : WorkflowConfig) (exc_text : exn -> string) (handshake : option string).

#[local] Instance sh_swallow {A} (m : M (site P) A) : Resp cloud_shrinks m -> Resp cloud_shrinks (swallow m).
Proof. intros Hm. unfold swallow. apply _. Qed.
#[local] Instance sh_fail i e : Resp cloud_shrinks (fail_provisioning (P:=P) exc_text i e).
Proof using All. unfold fail_provisioning. solve_resp. Qed.
#[local] Instance sh_failed i c e : Resp cloud_shrinks (provisioning_failed (P:=P) exc_text i c e).
Proof using All. unfold provisioning_failed. destruct e; solve_resp. Qed.

Local Abbreviation lacking s := (Adds (lacks_volume (site_cloud s)) (lacks_server (site_cloud s))).

(** The cloud is untouched. *)
Definition cloud_eq (s s' : site P) : Prop := site_cloud s' = site_cloud s.

#[local] Instance cloud_eq_preorder : PreOrder cloud_eq.
Proof. split; [done|]. intros s1 s2 s3. unfold cloud_eq. congruence. Qed.
#[local] Instance cloud_eq_store {A} (m : SM A) : Resp cloud_eq (on_store (P:=P) m).
Proof. intros s. unfold cloud_eq, on_store. by destruct (m (site_store s)). Qed.
#[local] Instance cloud_eq_metadata : Resp cloud_eq (_metadata (P:=P) owner env sid).
Proof. unfold _metadata. apply _. Qed.

Lemma on_store_cloud {A} (m : SM A) (s : site P) r s' : on_store m s = (r, s') -> cloud_eq s s'.
Proof. intros E. pose proof (cloud_eq_store m s) as Hc. by rewrite E in Hc. Qed.

Lemma lacking_eq s0 s s' : cloud_eq s s' -> lacking s0 s s'.
Proof. unfold cloud_eq. intros E. split; rewrite E; by left. Qed.

(** The volume of the Session: found, or created when there is none. *)
Lemma volume_step (s s1 : site P) o :
  _find_managed_volume sid None None s = (Ok o, s1) ->
  let m := match o with
           | Some v => mret v
           | None => t ← _metadata owner env sid;
                     on_cloud (create_volume (resource_name sid "-boot") (size_gb config) t)
           end in
  lacking s s1 (m s1).2 /\ servers_of (site_cloud (m s1).2) = servers_of (site_cloud s).
Proof using All.
  intros ([_ (Hv & Hs & _)] & Hnone)%find_volume_run m. subst m.
  destruct o as [v|]; [split; [apply adds_preorder|done]|]. specialize (Hnone eq_refl).
  pose proof (resp (R:=cloud_eq) (m:=_metadata owner env sid) s1) as Hc.
  unfold mbind, M_bind. destruct (_metadata owner env sid s1) as [[t|e] s2] eqn:Hm; cbn in *.
  2: { split; [by apply lacking_eq|]. unfold cloud_eq in Hc. congruence. }
  apply metadata_owned in Hm. split.
  - etrans; [by apply lacking_eq|by apply create_volume_adds].
  - pose proof (create_volume_law (resource_name sid "-boot") (size_gb config) t (site_cloud s2))
      as [Hsv _]. unfold on_cloud. destruct (create_volume _ _ _ _). cbn in *.
    unfold cloud_eq in Hc. congruence.
Qed.

(** The server, once the volume is there. *)
Lemma server_step (s0 s s1 : site P) o volume :
  servers_of (site_cloud s) = servers_of (site_cloud s0) ->
  _find_managed_server sid None None s = (Ok o, s1) ->
  lacking s0 s1 (match o with
                 | Some x => mret x
                 | None => t ← _metadata owner env sid;
                           on_cloud (create_server (resource_name sid "-node")
                             (image_ref config) (flavor_ref config) volume t)
                 end s1).2.
Proof using All.
  intros Heq ([_ (Hv & Hs & _)] & Hnone)%find_server_run.
  destruct o as [x|]; [apply adds_preorder|]. specialize (Hnone eq_refl).
  pose proof (resp (R:=cloud_eq) (m:=_metadata owner env sid) s1) as Hc.
  unfold mbind, M_bind. destruct (_metadata owner env sid s1) as [[t|e] s2] eqn:Hm; cbn in *;
    [|by apply lacking_eq].
  apply metadata_owned in Hm. etrans; [by apply lacking_eq|]. apply create_server_adds; [done|].
  unfold lacks_server in *. by rewrite <- Heq.
Qed.

Lemma provision_adds op (s : site P) :
  lacking s s (provision config handshake sid owner env op s).2.
Proof using All.
  unfold provision. apply (resp_bind_post (lacking s)); [apply (resp (R:=lacking s))|].
  intros o s1 Hf. destruct (volume_step _ _ _ Hf) as [Ha Heq].
  apply (resp_bind_post (lacking s)); [exact Ha|]. intros v s2 Hm. rewrite Hm in Heq.
  apply (resp_bind_post (lacking s)); [apply (resp (R:=lacking s))|].
  intros c s3 Hc. pose proof (on_store_cloud _ _ _ _ Hc) as H23.
  destruct (_provisioning_cancelled c); [apply (resp (R:=lacking s))|].
  apply (resp_bind_post (lacking s)); [apply (resp (R:=lacking s))|].
  intros o' s4 Hf'. apply (resp_bind_post (lacking s)).
  { eapply server_step; [|exact Hf']. cbn in *. unfold cloud_eq in H23. congruence. }
  intros x s5 _. apply shrinks_adds. revert s5.
  lazymatch goal with |- forall s5, cloud_shrinks s5 (?m s5).2 => change (Resp cloud_shrinks m) end.
  solve_resp.
Qed.

Lemma adds_eq_cloud s0 s s1 s' :
  site_cloud s = site_cloud s0 -> lacking s s1 s' -> lacking s0 s1 s'.
Proof. by intros ->. Qed.

Lemma prepare_lacking (s : site P) user :
  owner = match user with
          | Some u => if str_empty u then "unknown" else u
          | None => "unknown"
          end ->
  lacking s s (prepare config exc_text handshake sid user env s).2.
Proof using All.
  intros Ho. unfold prepare. rewrite <- Ho. cbv zeta.
  apply (resp_bind_post (lacking s)); [apply (resp (R:=lacking s))|].
  intros o s1 H01%on_store_cloud. apply (resp_bind_post (lacking s)).
  { destruct o; apply (resp (R:=lacking s)). }
  intros r s2 H12. assert (H02 : cloud_eq s s2).
  { destruct o; [by apply ret_ok in H12 as [_ ->]|]. apply on_store_cloud in H12. by etrans. }
  destruct (in_set _ _); [apply (resp (R:=lacking s))|].
  destruct (in_set _ _); [apply (resp (R:=lacking s))|].
  apply (resp_bind_post (lacking s)); [apply (resp (R:=lacking s))|].
  intros op s3 H23%on_store_cloud. apply (resp_bind_post (lacking s)); [apply (resp (R:=lacking s))|].
  intros c s4 H34. assert (H04 : cloud_eq s s4).
  { etrans; [exact H02|]. etrans; [exact H23|].
    pose proof (resp (R:=cloud_eq) (m:=attempt (started_at ← on_store time_time;
      on_store (claim_provisioning sid op (VFloat started_at)))) s3) as Hc. by rewrite H34 in Hc. }
  destruct c as [c|e]; [|apply (resp (R:=lacking s))].
  apply resp_catch_start; [apply _| |intros; apply _].
  eapply adds_eq_cloud; [exact H04|apply provision_adds].
Qed.
End prepare.

(** C3: however it ends, a [prepare] adds to the provider only resources that carry
    the tags of this Session, of its owner and of its environment, and it adds a
    volume, or a server, only when the provider listed no managed one of the Session:
    a repeated [prepare] reuses what the first one has left. *)
Theorem prepare_adds_no_duplicate {P} `{ProviderLaws P} (config : WorkflowConfig)
    (exc_text : exn -> string) (handshake : option string) (sid env user : string) (s : site P) :
  user <> "" ->
  let s' := (prepare config exc_text handshake sid (Some user) env s).2 in
  (forall v, v ∈ volumes_of (site_cloud s') -> v ∉ volumes_of (site_cloud s) ->
     owned_tags sid user env (volume_tags v) /\ lacks_volume sid (site_cloud s)) /\
  (forall x, x ∈ servers_of (site_cloud s') -> x ∉ servers_of (site_cloud s) ->
     owned_tags sid user env (server_tags x) /\ lacks_server sid (site_cloud s)).
Proof.
  intros Hu s'. assert (Ho : user = if str_empty user then "unknown" else user) by (by destruct user).
  destruct (prepare_lacking sid user env config exc_text handshake s (Some user) Ho) as [Hv Hx].
  split; intros r Hr Hn; [by destruct (Hv r Hr)|by destruct (Hx r Hr)].
Qed.

Lemma demo_ids_unique : ids_unique demo_cloud.
Proof.
  split; [apply demo_ids_agree|]. intros v x Hv%list_elem_of_In Hx%list_elem_of_In.
  destruct Hv as [<-|[<-|[]]], Hx as [<-|[<-|[]]]; discriminate.
Qed.

(** The Session that [m] returns at the demonstration site. *)
Definition returned (r : result dict * site FakeProvider) : dict :=
  match r.1 with Ok d => d | Err _ => ∅ end.

Lemma returned_ok (m : M (site FakeProvider) dict) s :
  is_ok (m s).1 = true -> m s = (Ok (returned (m s)), (m s).2).
Proof. unfold returned. by destruct (m s) as [[d|e] s']. Qed.

Lemma workflow_stop_is_complete_witness :
  let r := stop "s1" demo_site in
  server_id <$> servers (site_cloud r.2) = ["x9"] /\
  exists a', view (site_store r.2) = Some a' /\ sessions a' !! "s1" = Some (returned r).
Proof.
  intros r. split; [vm_compute; reflexivity|].
  apply (workflow_stop_is_complete "s1" demo_site r.2 (state_of demo_live)
    (record_of demo_live "s1") (returned r)).
  - apply demo_ids_unique.
  - by_eval.
  - by_eval.
  - by_eval.
  - apply returned_ok. vm_compute. reflexivity.
  - vm_compute. reflexivity.
Defined.

(** A provider without resources, before the first [prepare]. *)
Definition empty_site : site FakeProvider :=
  Site demo_world demo_ingest
    (Fake [] [] ∅ (fun n => match n with 0%nat => "v1" | _ => "x1" end) 0).

Definition demo_sid : string := "3f2504e0-4f89-41d3-9a0c-0305e82c3301".

Lemma prepare_adds_no_duplicate_witness :
  let s' := (prepare default_config (fun _ => "") (Some "0") demo_sid (Some "cafe01") "prod"
               empty_site).2 in
  volume_id <$> volumes (site_cloud s') = ["v1"] /\
  forall v, v ∈ volumes_of (site_cloud s') -> v ∉ volumes_of (site_cloud empty_site) ->
     owned_tags demo_sid "cafe01" "prod" (volume_tags v) /\
     lacks_volume demo_sid (site_cloud empty_site).
Proof.
  intros s'. split; [vm_compute; reflexivity|].
  apply (prepare_adds_no_duplicate default_config (fun _ => "") (Some "0") demo_sid "prod" "cafe01"
    empty_site). discriminate.
Defined.

(** The search of [prepare] does not look at the user or the environment: a volume
    tagged with this Session's id, but another user's, is taken for its own. *)
Definition foreign_site : site FakeProvider :=
  Site demo_world demo_ingest
    (Fake [Volume "v2" "boot" 20 "available"
             (<["irlight-session-id" := demo_sid]>
               (<["irlight-user-id" := "cafe02"]>
                 (<["irlight-environment" := "beta"]> (demo_tags "s1"))))]
       [] ∅ (fun _ => "x1") 0).

Example prepare_adopts_other_users_volume :
  let r := prepare default_config (fun _ => "") (Some "0") demo_sid (Some "cafe01") "prod"
             foreign_site in
  py_get (returned r) "status" = VStr "READY_WAIT_INGEST" /\
  py_get (returned r) "user_id" = VStr "cafe01" /\
  py_get (returned r) "provider_volume_id" = VStr "v2" /\
  length (volumes (site_cloud r.2)) = 1%nat.
Proof. vm_compute. repeat split. Qed.

(** A stop leaves it to its owner. *)
Definition shared_id_site : site FakeProvider :=
  Site demo_live demo_ingest
    (Fake (Volume "v2" "boot" 20 "available" (<["irlight-user-id" := "cafe02"]> (demo_tags "s1")) :: volumes demo_cloud)
       (servers demo_cloud) (server_volume_links demo_cloud) (fun _ => "id") 0).

Example stop_leaves_other_users_volume :
  let r := stop "s1" shared_id_site in
  py_get (returned r) "status" = VStr "FINISHED" /\ volume_id <$> volumes (site_cloud r.2) = ["v2"; "v9"].
Proof. vm_compute. repeat split. Qed.
