(* ===== verification/ControlStore.v ===== *)
(** * The audio command authority (control_store.py)

    One JSON file holds the current audio command. Unlike the stores of
    [Authority] it keeps nothing in memory and it never starts empty: [ensure]
    creates the first command, every other operation reads the file under the
    lock. The document itself is the authority, so the world's memory is
    [unit]. *)

From S2P Require Import Prelude PyFloat PyValue Json Effects Authority Uuid.

Record control : Type := Control {
  audio_mode : string;
  version : Z;
  command_id : option string;
  idempotency_key : option string;
  updated_at : float
}.

Abbreviation CM := (M (world unit)).

Definition AUDIO_MODES : list string := ["LIVE"; "MUTED"].

Definition _normalize_update_time (v : value) : result float :=
  match nonneg_number v with Some f => Ok f | None => Err ControlStateError end.

Definition encode_control (c : control) : dict :=
  list_to_map
    [("audio_mode", VStr (audio_mode c)); ("version", VInt (version c));
     ("command_id", opt_str (command_id c)); ("idempotency_key", opt_str (idempotency_key c));
     ("updated_at", VFloat (updated_at c))].

Definition default_control (now : option value) : CM control :=
  effective_now ← match now with
                  | Some v => mret v
                  | None => t ← time_time; mret (VFloat t)
                  end;
  t ← lift (_normalize_update_time effective_now);
  mret (Control "LIVE" 0 None None t).

(** ["not isinstance(key, str) or not key or len(key) > 200"] *)
Definition bad_key (key : string) : bool := str_empty key || Nat.ltb 200 (py_len key).

Definition optional_text (v : value) (refused : string -> bool) : result (option string) :=
  match v with
  | VNull => Ok None
  | VStr s => if refused s then Err ControlStateError else Ok (Some s)
  | _ => Err ControlStateError
  end.

Definition _validate_control (v : value) : result control :=
  match v with
  | VDict d =>
      mode ← match py_get d "audio_mode" with
             | VStr m => if bool_decide (m ∈ AUDIO_MODES) then Ok m else Err ControlStateError
             | _ => Err ControlStateError
             end;
      version ← match nonneg_int (py_get d "version") with
                | Some n => Ok n
                | None => Err ControlStateError
                end;
      command_id ← optional_text (py_get d "command_id")
                     (fun s => negb (bool_decide (is_Some (parse_uuid s))));
      idempotency_key ← optional_text (py_get d "idempotency_key") bad_key;
      updated_at ← _normalize_update_time (py_get d "updated_at");
      Ok (Control mode version command_id idempotency_key updated_at)
  | _ => Err ControlStateError
  end.

(** [with self._lock(...)]: the store's own errors pass, an [OSError] of the lock
    or of the body becomes one of them. *)
Definition _lock {B} (body : CM B) : CM B :=
  catch (io id ;; body)
        (fun e => match e with OSError => raise ControlStateError | _ => raise e end).

Definition _read : CM control :=
  catch (io id) (fun _ => raise ControlStateError) ;;          (* open, read *)
  f ← get_file;
  match f with
  | Missing => was_initialized ;; raise ControlStateError
  | Unparsable => raise ControlStateError
  | Present r =>
      v ← catch (lift (load_json_authority r)) (fun _ => raise ControlStateError);
      lift (_validate_control v)
  end.

Definition _write (c : control) : CM unit :=
  validated ← lift (_validate_control (VDict (encode_control c)));
  io id ;;                                                     (* mkstemp, fchmod *)
  r ← catch (lift (json_dump (VDict (encode_control validated))))
            (fun _ => raise ControlStateError);
  io id ;;                                                     (* flush, fsync *)
  mark_initialized ;;
  io (fun '(_, u) => (Present r, u)) ;;                        (* os.replace *)
  io id.                                                       (* fsync of the directory *)

Definition ensure : CM unit :=
  _lock (
    f ← get_file;
    match f with
    | Missing =>
        was ← was_initialized;
        if was : bool then raise ControlStateError
        else c ← default_control None; _write c
    | _ => _read ;; mark_initialized
    end).

Definition get_control : CM control := _lock _read.

(** The command that replaces [current]. *)
Definition next_control (current : control) (mode key command : string) (now : float) : control :=
  Control mode (version current + 1) (Some command) (Some key) now.

Definition update_control (mode key : string) (expected_version : option Z) (now : option value)
    : CM control :=
  guard_err (negb (bool_decide (mode ∈ AUDIO_MODES))) ValueError ;;
  guard_err (bad_key key) ValueError ;;
  guard_err (match expected_version with Some n => n <? 0 | None => false end) ValueError ;;
  effective_now ← match now with
                  | Some v => mret v
                  | None => t ← time_time; mret (VFloat t)
                  end;
  effective_now ← lift (_normalize_update_time effective_now);
  _lock (
    current ← _read;
    if bool_decide (idempotency_key current = Some key) then
      guard_err (negb (String.eqb (audio_mode current) mode)) ControlIdempotencyConflict ;;
      mret current
    else
      guard_err (match expected_version with
                 | Some n => negb (n =? version current)
                 | None => false
                 end) (ControlVersionConflict (encode_control current)) ;;
      command ← uuid4;
      let next := next_control current mode key command effective_now in
      _write next ;;
      mret next).

(** ** The durable command *)

(** What the next read delivers. *)
Definition decode_file (f : authority_file) : option control :=
  match f with
  | Present r =>
      match load_json_authority r with
      | Ok v => match _validate_control v with Ok c => Some c | Err _ => None end
      | Err _ => None
      end
  | _ => None
  end.

Definition command (w : world unit) : option control := decode_file (file w).

Lemma py_get_encoded c :
  py_get (encode_control c) "audio_mode" = VStr (audio_mode c) /\
  py_get (encode_control c) "version" = VInt (version c) /\
  py_get (encode_control c) "command_id" = opt_str (command_id c) /\
  py_get (encode_control c) "idempotency_key" = opt_str (idempotency_key c) /\
  py_get (encode_control c) "updated_at" = VFloat (updated_at c).
Proof. unfold py_get, encode_control. repeat split; by dict_lookup. Qed.

Lemma optional_text_opt o p o' : optional_text (opt_str o) p = Ok o' -> o' = o.
Proof. destruct o as [s|]; cbn; [destruct (p s)|]; congruence. Qed.

Lemma optional_text_again v p o : optional_text v p = Ok o -> optional_text (opt_str o) p = Ok o.
Proof.
  destruct v; try done; cbn; [by intros [= <-]|]. destruct (p s) eqn:E; [done|].
  intros [= <-]. cbn. by rewrite E.
Qed.

Lemma normalize_again v t : _normalize_update_time v = Ok t -> _normalize_update_time (VFloat t) = Ok t.
Proof.
  unfold _normalize_update_time. destruct (nonneg_number v) as [f|] eqn:E; [|done].
  intros [= <-]. apply nonneg_number_spec in E as [Hf Hp]. by rewrite nonneg_number_float.
Qed.

Lemma normalize_float t t' : _normalize_update_time (VFloat t) = Ok t' -> t' = t.
Proof.
  unfold _normalize_update_time, nonneg_number. cbn. destruct (_ && _); [|done]. congruence.
Qed.

(** What passes is what was checked. *)
Lemma validate_control_ok v c :
  _validate_control v = Ok c <-> exists d, v = VDict d /\
    py_get d "audio_mode" = VStr (audio_mode c) /\ audio_mode c ∈ AUDIO_MODES /\
    py_get d "version" = VInt (version c) /\ 0 <= version c /\
    optional_text (py_get d "command_id")
      (fun s => negb (bool_decide (is_Some (parse_uuid s)))) = Ok (command_id c) /\
    optional_text (py_get d "idempotency_key") bad_key = Ok (idempotency_key c) /\
    _normalize_update_time (py_get d "updated_at") = Ok (updated_at c).
Proof.
  split.
  - destruct v as [| | | | | |d]; try done. cbn. intros Hc.
    apply result_bind_ok in Hc as (m & Hm & Hc). apply result_bind_ok in Hc as (n & Hn & Hc).
    apply result_bind_ok in Hc as (ci & Hci & Hc). apply result_bind_ok in Hc as (k & Hk & Hc).
    apply result_bind_ok in Hc as (t & Ht & Hc). injection Hc as <-. exists d. cbn.
    destruct (py_get d "audio_mode"); try done. case_bool_decide; [|done]. injection Hm as <-.
    destruct (py_get d "version"); try done. cbn in Hn. destruct (z <? 0) eqn:E; [done|].
    injection Hn as <-. apply Z.ltb_ge in E. done.
  - intros (d & -> & Em & Hm & En & Hn & Hci & Hk & Ht). cbn. rewrite Em, bool_decide_eq_true_2 by done.
    cbn. rewrite En. cbn. apply Z.ltb_ge in Hn. rewrite Hn. cbn. rewrite Hci. cbn. rewrite Hk.
    cbn. rewrite Ht. cbn. by destruct c.
Qed.

(** A document that validates reads back as itself. *)
Lemma validate_encoded c c' : _validate_control (VDict (encode_control c)) = Ok c' -> c' = c.
Proof.
  destruct (py_get_encoded c) as (E1 & E2 & E3 & E4 & E5).
  intros (d & [= <-] & Em & _ & En & _ & Hci & Hk & Ht)%validate_control_ok.
  rewrite E1 in Em. rewrite E2 in En. rewrite E3 in Hci. rewrite E4 in Hk. rewrite E5 in Ht.
  apply optional_text_opt in Hci, Hk. apply normalize_float in Ht. injection Em as Em.
  injection En as En. destruct c, c'. cbn in *. congruence.
Qed.

Lemma validated_again v c : _validate_control v = Ok c -> _validate_control (VDict (encode_control c)) = Ok c.
Proof.
  destruct (py_get_encoded c) as (E1 & E2 & E3 & E4 & E5).
  intros (d & -> & _ & Hm & _ & Hn & Hci & Hk & Ht)%validate_control_ok.
  apply validate_control_ok. exists (encode_control c). rewrite E1, E2, E3, E4, E5.
  split; [done|]. split; [done|]. split; [done|]. split; [done|]. split; [done|].
  split; [by eapply optional_text_again|]. split; [by eapply optional_text_again|].
  by eapply normalize_again.
Qed.

(** ** What the operations do to it *)

(** The file is the same, or it holds [c]. *)
Definition may_write (c : control) (w w' : world unit) : Prop :=
  file w' = file w \/ command w' = Some c.

#[export] Instance may_write_preorder c : PreOrder (may_write c).
Proof.
  split; [by left|]. intros w1 w2 w3 [H1|H1] [H2|H2]; [left; congruence|by right|right|by right].
  unfold command in *. by rewrite H2.
Qed.

Definition keeps_file (w w' : world unit) : Prop := file w' = file w.

#[export] Instance keeps_file_preorder : PreOrder keeps_file.
Proof. split; [done|]. intros w1 w2 w3. unfold keeps_file. congruence. Qed.

Lemma keeps_file_io eff :
  (forall f u, (eff (f, u)).1 = f) -> Resp keeps_file (io (A:=unit) eff).
Proof.
  intros He w. unfold io, keeps_file. destruct (io_fault _ _); [done|].
  specialize (He (file w) (fuse w)). by destruct (eff (file w, fuse w)).
Qed.

#[export] Instance keeps_file_id : Resp keeps_file (io (A:=unit) id).
Proof. by apply keeps_file_io. Qed.
#[export] Instance keeps_file_mark : Resp keeps_file (mark_initialized (A:=unit)).
Proof.
  unfold mark_initialized. apply resp_bind; [apply _|by apply keeps_file_io|apply _].
Qed.
#[export] Instance keeps_file_was : Resp keeps_file (was_initialized (A:=unit)).
Proof. unfold was_initialized. apply resp_bind; [apply _..|]. intros _ w. done. Qed.
#[export] Instance keeps_file_get : Resp keeps_file (get_file (A:=unit)).
Proof. by intros w. Qed.
#[export] Instance keeps_file_time : Resp keeps_file (time_time (A:=unit)).
Proof. by intros w. Qed.
#[export] Instance keeps_file_uuid : Resp keeps_file (uuid4 (A:=unit)).
Proof. by intros w. Qed.
#[export] Instance keeps_file_read : Resp keeps_file _read.
Proof. unfold _read. solve_resp. Qed.

#[export] Instance may_write_keeps {B} c (m : CM B) : Resp keeps_file m -> Resp (may_write c) m.
Proof. intros Hm w. left. apply Hm. Qed.

Lemma decode_encoded c r :
  json_dump (VDict (encode_control c)) = Ok r -> _validate_control (VDict (encode_control c)) = Ok c ->
  decode_file (Present r) = Some c.
Proof. intros Hr Hc. unfold decode_file. by rewrite (load_json_authority_dump _ _ Hr), Hc. Qed.


Lemma replace_writes c r :
  decode_file (Present r) = Some c -> Resp (may_write c) (io (fun '(_, u) => (Present r, u))).
Proof.
  intros Hr w. unfold io, may_write, command. destruct (io_fault _ _); [by left|by right].
Qed.

(** A write, whether it succeeds or fails, leaves the old command or the new one. *)
#[export] Instance write_outcome c : Resp (may_write c) (_write c).
Proof.
  intros w. unfold _write.
  apply (resp_bind_post (may_write c)); [apply (resp (R:=may_write c))|].
  intros v w1 [Hv ->]%lift_ok. pose proof (validate_encoded _ _ Hv) as ->.
  apply (resp_bind_post (may_write c)); [apply (resp (R:=may_write c))|]. intros [] w2 _.
  apply (resp_bind_post (may_write c)); [apply (resp (R:=may_write c))|].
  intros r w3 [Hr|(e & w4 & _ & Hr)]%catch_ok; [|done]. apply lift_ok in Hr as [Hr ->].
  pose proof (replace_writes _ _ (decode_encoded _ _ Hr Hv)) as Hw. revert w2.
  lazymatch goal with |- forall w3, may_write c w3 (?m w3).2 => change (Resp (may_write c) m) end.
  solve_resp.
Qed.

Lemma write_ok c w u w' : _write c w = (Ok u, w') -> command w' = Some c.
Proof.
  unfold _write. intros Hw. apply bind_ok in Hw as (v & w1 & [Hv ->]%lift_ok & Hw).
  pose proof (validate_encoded _ _ Hv) as ->. apply bind_ok in Hw as ([] & w2 & _ & Hw).
  apply bind_ok in Hw as (r & w3 & [Hr|(e & w4 & _ & Hr)]%catch_ok & Hw); [|done].
  apply lift_ok in Hr as [Hr ->]. apply bind_ok in Hw as ([] & w4 & _ & Hw).
  apply bind_ok in Hw as ([] & w5 & _ & Hw). apply bind_ok in Hw as ([] & w6 & Hio & Hw).
  apply io_ok in Hio as ([= Hf _] & _). apply io_ok in Hw as ([= Hf' _] & _).
  unfold command. rewrite Hf', Hf. by apply decode_encoded.
Qed.

Lemma read_ok w c w' : _read w = (Ok c, w') -> command w = Some c.
Proof.
  unfold _read. intros Hr. apply bind_ok in Hr as ([] & w1 & Hio & Hr).
  apply catch_ok in Hio as [Hio|(e & w2 & _ & Hio)]; [|done]. apply io_ok in Hio as ([= Hf _] & _).
  apply bind_ok in Hr as (f & w2 & Hg & Hr). injection Hg as <- <-. unfold command. rewrite <- Hf.
  destruct (file w1) as [| |r].
  - apply bind_ok in Hr as (? & ? & _ & Hr). done.
  - done.
  - apply bind_ok in Hr as (v & w3 & Hl & [Hv _]%lift_ok).
    apply catch_ok in Hl as [[Hl _]%lift_ok|(e & w4 & _ & Hl)]; [|done].
    cbn. by rewrite Hl, Hv.
Qed.

Lemma lock_ok {B} (body : CM B) w b w' :
  _lock body w = (Ok b, w') -> exists w1, command w1 = command w /\ body w1 = (Ok b, w').
Proof.
  unfold _lock. intros [Hr|(e & w1 & _ & Hr)]%catch_ok; [|by destruct e].
  apply bind_ok in Hr as ([] & w1 & Hio & Hr). apply io_ok in Hio as ([= Hf _] & _).
  exists w1. unfold command. by rewrite Hf.
Qed.

(** ** Histories *)
Inductive control_op : Type :=
| OpEnsure
| OpGetControl
| OpUpdateControl (mode key : string) (expected_version : option Z) (now : option value).

Definition run_control (op : control_op) : CM unit :=
  match op with
  | OpEnsure => ensure
  | OpGetControl => get_control ;; mret tt
  | OpUpdateControl a b c d => update_control a b c d ;; mret tt
  end.

Definition run_controls (ops : list control_op) (w : world unit) : world unit :=
  fold_left (fun w op => (run_control op w).2) ops w.

(** The command of [w] is kept, or followed by the next version. *)
Definition succeeds (w w' : world unit) : Prop :=
  forall c, command w = Some c ->
  exists c', command w' = Some c' /\ (c' = c \/ version c' = version c + 1).

Lemma same_succeeds w w' : command w' = command w -> succeeds w w'.
Proof. intros E c Hc. exists c. split; [congruence|by left]. Qed.

Lemma keeps_succeeds {B} (m : CM B) w : Resp keeps_file m -> succeeds w (m w).2.
Proof. intros Hm. apply same_succeeds. unfold command. by rewrite (Hm w). Qed.

Lemma succeeds_same w0 w w' : command w0 = command w -> succeeds w w' -> succeeds w0 w'.
Proof. intros E Hs c Hc. apply Hs. congruence. Qed.

(** A body that reads the current command and may then write its successor. *)
Lemma write_succeeds c cur w :
  command w = Some cur -> version c = version cur + 1 -> succeeds w (_write c w).2.
Proof.
  intros Hc Hv. destruct (write_outcome c w) as [Hf|Hw].
  - apply same_succeeds. unfold command. by rewrite Hf.
  - intros c0 Hc0. rewrite Hc in Hc0. injection Hc0 as <-. exists c. split; [done|by right].
Qed.

Lemma succeeds_step {B C} (m : CM B) (f : B -> CM C) w :
  Resp keeps_file m ->
  (forall b w1, m w = (Ok b, w1) -> command w1 = command w -> succeeds w1 (f b w1).2) ->
  succeeds w ((m ≫= f) w).2.
Proof.
  intros Hm Hf. specialize (Hm w). unfold mbind, M_bind.
  destruct (m w) as [[b|e] w1] eqn:E; cbn in *.
  - assert (Hc : command w1 = command w) by (unfold command; by rewrite Hm).
    eapply succeeds_same; [by symmetry|by apply Hf].
  - apply same_succeeds. unfold command. by rewrite Hm.
Qed.

Lemma succeeds_tail {B C} (m : CM B) (c : B -> C) w :
  succeeds w (m w).2 -> succeeds w ((x ← m; mret (c x)) w).2.
Proof. unfold mbind, M_bind. by destruct (m w) as [[b|e] w1]. Qed.

Lemma lock_succeeds {B} (body : CM B) w :
  (forall w, succeeds w (body w).2) -> succeeds w (_lock body w).2.
Proof.
  intros Hb. unfold _lock, catch.
  assert (Hs : succeeds w ((io id ;; body) w).2) by (apply succeeds_step; [apply _|auto]).
  by destruct ((io id ;; body) w) as [[b|[]] w1].
Qed.

Lemma update_body_succeeds mode key ver t w :
  succeeds w ((current ← _read;
    if bool_decide (idempotency_key current = Some key) then
      guard_err (negb (String.eqb (audio_mode current) mode)) ControlIdempotencyConflict ;;
      mret current
    else
      guard_err (match ver with Some n => negb (n =? version current) | None => false end)
        (ControlVersionConflict (encode_control current)) ;;
      command ← uuid4;
      let next := next_control current mode key command t in
      _write next ;;
      mret next) w).2.
Proof.
  apply succeeds_step; [apply _|]. intros cur w1 Hr%read_ok Hc1. rewrite <- Hc1 in Hr.
  destruct (bool_decide _); [apply keeps_succeeds, _|].
  apply succeeds_step; [apply _|]. intros [] w2 _ Hc2.
  apply succeeds_step; [apply _|]. intros u w3 _ Hc3. cbv zeta.
  apply succeeds_tail, (write_succeeds _ cur); [congruence|done].
Qed.

Lemma run_control_succeeds op w : succeeds w (run_control op w).2.
Proof.
  destruct op as [| |mode key ver now]; cbn [run_control].
  - unfold ensure. apply lock_succeeds. clear w. intros w.
    apply succeeds_step; [apply _|]. intros f w1 Hf _. injection Hf as <- ->.
    destruct (file w1) eqn:Ef; [|apply keeps_succeeds, _..].
    intros c Hc. unfold command in Hc. by rewrite Ef in Hc.
  - apply succeeds_tail. unfold get_control. apply lock_succeeds. intros. apply keeps_succeeds, _.
  - apply succeeds_tail. unfold update_control.
    do 3 (apply succeeds_step; [apply _|]; intros _ ? _ _).
    apply succeeds_step; [destruct now; apply _|]. intros v w4 _ _.
    apply succeeds_step; [apply _|]. intros t w5 _ _.
    apply lock_succeeds. intros. apply update_body_succeeds.
Qed.

(** An accepted update. *)
Lemma update_control_ok mode key ver now w c w' :
  update_control mode key ver now w = (Ok c, w') ->
  exists cur, command w = Some cur /\ command w' = Some c /\
    audio_mode c = mode /\ idempotency_key c = Some key /\
    ((idempotency_key cur = Some key /\ c = cur) \/
     (idempotency_key cur <> Some key /\ version c = version cur + 1 /\
      (forall n, ver = Some n -> n = version cur))).
Proof.
  unfold update_control. intros Hu.
  do 3 (apply bind_ok in Hu as ([] & ? & [_ ->]%guard_err_ok & Hu)).
  apply bind_ok in Hu as (v & w1 & Hn & Hu).
  assert (Hc1 : command w1 = command w).
  { destruct now; [by apply ret_ok in Hn as [_ ->]|].
    apply bind_ok in Hn as (t & w2 & Ht & [_ ->]%ret_ok). apply time_time_ok in Ht.
    unfold command. by destruct Ht as (_ & _ & -> & _). }
  apply bind_ok in Hu as (t & w2 & [_ ->]%lift_ok & Hu).
  apply lock_ok in Hu as (w2 & Hc2 & Hu). apply bind_ok in Hu as (cur & w3 & Hr & Hu).
  pose proof (resp (R:=keeps_file) (m:=_read) w2) as Hf. rewrite Hr in Hf.
  apply read_ok in Hr. exists cur. split; [congruence|].
  assert (Hc3 : command w3 = Some cur) by (unfold command in *; cbn in Hf; congruence).
  case_bool_decide as Hk.
  - apply bind_ok in Hu as ([] & w4 & [Hm ->]%guard_err_ok & [-> ->]%ret_ok).
    apply negb_false_iff, String.eqb_eq in Hm. auto 10.
  - apply bind_ok in Hu as ([] & w4 & [Hv ->]%guard_err_ok & Hu).
    apply bind_ok in Hu as (u & w5 & _ & Hu). cbv zeta in Hu.
    apply bind_ok in Hu as ([] & w6 & Hw & [-> ->]%ret_ok). apply write_ok in Hw.
    split; [done|]. split; [done|]. split; [done|]. right. split; [done|]. split; [done|].
    intros n ->. by apply negb_false_iff, Z.eqb_eq in Hv.
Qed.

(** ** The theorems *)

(** C14: Over every history of operations of the audio authority, with any clock,
    identifiers and I/O failures at any step, a durable command is never lost and a
    version number names one command: there is a command to read afterwards, its
    version is not lower, and if it is the same version it is the very same command. *)
Theorem control_version_names_one_command ops w c :
  command w = Some c ->
  exists c', command (run_controls ops w) = Some c' /\ version c <= version c' /\
    (version c' = version c -> c' = c).
Proof.
  revert w c. induction ops as [|op ops IH]; intros w c Hc; cbn; [by exists c|].
  destruct (run_control_succeeds op w c Hc) as (c1 & Hc1 & Hs).
  destruct (IH _ _ Hc1) as (c' & Hc' & Hle & He). exists c'. split; [done|].
  destruct Hs as [->|Hv]; [done|]. split; lia.
Qed.

(** An accepted update is a compare-and-set with an idempotent replay. Either the
    current command already carries the key: it has the requested mode, it is
    returned and nothing is written; or the expected version, when one is given, is
    the current one, and the durable command is now the returned one: the requested
    mode and key, under the next version. *)
Theorem control_update_is_cas mode key ver now w c w' :
  update_control mode key ver now w = (Ok c, w') ->
  exists cur, command w = Some cur /\ command w' = Some c /\
    audio_mode c = mode /\ idempotency_key c = Some key /\
    ((idempotency_key cur = Some key /\ c = cur) \/
     (idempotency_key cur <> Some key /\ version c = version cur + 1 /\
      (forall n, ver = Some n -> n = version cur))).
Proof. apply update_control_ok. Qed.

(** A directory where the authority has just been created, then used. *)
Definition demo_control_env : env :=
  Env (fun _ => of_Z 1000) 0 (fun _ => "6ba7b810-9dad-41d1-80b4-00c04fd430c8") 0 (fun _ => false) 0.
Definition demo_control_world : world unit := World tt Missing false demo_control_env.
Definition demo_control : world unit := run_controls [OpEnsure] demo_control_world.
Definition demo_updates : list control_op :=
  [OpUpdateControl "MUTED" "key-1" (Some 0) None; OpUpdateControl "MUTED" "key-1" (Some 0) None;
   OpUpdateControl "LIVE" "key-2" None None; OpUpdateControl "LIVE" "key-3" (Some 0) None].

Definition command_of (w : world unit) : control :=
  default (Control "" 0 None None fzero) (command w).

Lemma command_known w : bool_decide (is_Some (command w)) = true -> command w = Some (command_of w).
Proof. unfold command_of. by destruct (command w). Qed.

Lemma control_version_names_one_command_witness :
  exists c', command (run_controls demo_updates demo_control) = Some c' /\
    version (command_of demo_control) <= version c'.
Proof.
  destruct (control_version_names_one_command demo_updates demo_control (command_of demo_control))
    as (c' & Hc & Hle & _); [apply command_known; vm_compute; reflexivity|].
  exists c'. exact (conj Hc Hle).
Defined.

Example demo_control_versions :
  (version (command_of demo_control), version (command_of (run_controls demo_updates demo_control))) = (0, 2).
Proof. vm_compute. reflexivity. Qed.

Lemma control_update_is_cas_witness :
  let r := update_control "MUTED" "key-1" (Some 0) None demo_control in
  exists c, r.1 = Ok c /\ command r.2 = Some c /\ audio_mode c = "MUTED".
Proof.
  intros r. destruct r as [[c|e] w'] eqn:E; subst r.
  - exists c. split; [done|].
    destruct (control_update_is_cas "MUTED" "key-1" (Some 0) None demo_control c w' E)
      as (cur & _ & Hc & Hm & _). by split.
  - exfalso. assert (Hb : is_ok (update_control "MUTED" "key-1" (Some 0) None demo_control).1 = true)
      by (vm_compute; reflexivity). by rewrite E in Hb.
Defined.
