(* ===== verification/ControlReader.v ===== *)
(** * The media side's reader of the audio authority (continuity/control_state.py)

    The continuity process reads the file that [ControlStore] writes, from another
    process and with a validator of its own. It keeps the last valid command and
    starts muted. The two hooks of its decoder do what those of state_safety.py do
    ([load_json_authority]). *)

From S2P Require Import Prelude PyFloat PyValue Json Effects Authority Uuid ControlStore.

Record ControlCommandState : Type := CommandState {
  cmd_audio_mode : string;
  cmd_version : Z;
  cmd_command_id : option string
}.

Definition _reject_duplicate_keys (pairs : list (string * value)) : result dict :=
  reject_duplicates_from ∅ pairs.

Definition _reject_non_finite_constant (name : string) : result value := Err ValueError.

Definition is_text (v : value) : bool := match v with VStr _ => true | _ => false end.
Definition text_of (v : value) : string := match v with VStr s => s | _ => "" end.

(** [ControlStateReader._validate]; every refusal is a [ValueError]. *)
Definition _validate (v : value) : result ControlCommandState :=
  match v with
  | VDict d =>
      let mode := py_get d "audio_mode" in
      let command_id := py_get d "command_id" in
      let key := py_get d "idempotency_key" in
      raise_if (negb (is_text mode) || negb (bool_decide (text_of mode ∈ ["LIVE"; "MUTED"])))
        ValueError ;;
      version ← match py_get d "version" with
                | VInt n => if n <? 0 then Err ValueError else Ok n
                | _ => Err ValueError
                end;
      raise_if (negb (is_null command_id) &&
                (negb (is_text command_id) ||
                 match parse_uuid (text_of command_id) with Some _ => false | None => true end))
        ValueError ;;
      raise_if (negb (is_null key) &&
                (negb (is_text key) || str_empty (text_of key) || Nat.ltb 200 (py_len (text_of key))))
        ValueError ;;
      normalized ← match number_as_float (py_get d "updated_at") with
                   | Some f => Ok f
                   | None => Err ValueError
                   end;
      raise_if (negb (is_finite normalized) || flt normalized fzero) ValueError ;;
      Ok (CommandState (text_of mode) version
            (if is_null command_id then None else Some (text_of command_id)))
  | _ => Err ValueError
  end.

Definition _fallback (last_valid : option ControlCommandState) : ControlCommandState :=
  default (CommandState "MUTED" 0 None) last_valid.

(** What opening the file meets: [Missing] is [FileNotFoundError]; [unreadable] is any
    other [OSError]. *)
Record observation : Type := Observe { unreadable : bool; found : authority_file }.

(** The valid command of an observation, if any. *)
Definition current (o : observation) : option ControlCommandState :=
  if unreadable o then None
  else match found o with
       | Present r =>
           match (v ← load_json_authority r; _validate v) with
           | Ok s => Some s
           | Err _ => None
           end
       | _ => None
       end.

(** [read]: the command with the error code, and the new [_last_valid]. *)
Definition read (last_valid : option ControlCommandState) (o : observation)
    : (ControlCommandState * option string) * option ControlCommandState :=
  match current o with
  | Some s => ((s, None), Some s)
  | None =>
      ((_fallback last_valid,
        Some match unreadable o, found o with
             | false, Missing => "CONTROL_STATE_UNAVAILABLE"
             | _, _ => "CONTROL_STATE_INVALID"
             end), last_valid)
  end.

(** A reader that has made these reads, from its start. *)
Definition after_reads (os : list observation) : option ControlCommandState :=
  fold_left (fun last o => (read last o).2) os None.

(** ** The two validators *)
Definition seen (c : control) : ControlCommandState :=
  CommandState (audio_mode c) (version c) (command_id c).

Lemma optional_text_cases v p :
  optional_text v p =
    if negb (is_null v) && (negb (is_text v) || p (text_of v)) then Err ControlStateError
    else Ok (if is_null v then None else Some (text_of v)).
Proof. by destruct v. Qed.

Lemma update_time_cases v :
  _normalize_update_time v =
    match number_as_float v with
    | Some f => if negb (is_finite f) || flt f fzero then Err ControlStateError else Ok f
    | None => Err ControlStateError
    end.
Proof.
  unfold _normalize_update_time, nonneg_number. destruct (number_as_float v) as [f|]; [|done].
  destruct (is_finite f), (flt f fzero); done.
Qed.

Lemma validators_agree v :
  _validate v =
    match _validate_control v with
    | Ok c => Ok (seen c)
    | Err _ => Err ValueError
    end.
Proof.
  destruct v as [| | | | | |d]; try done. unfold _validate, _validate_control.
  rewrite !optional_text_cases, update_time_cases. unfold AUDIO_MODES, bad_key.
  destruct (py_get d "audio_mode") as [| | | |m| |]; try done. cbn [is_text text_of negb orb].
  destruct (bool_decide (m ∈ _)); [|done].
  destruct (py_get d "version") as [| |n| | | |]; try done. cbn.
  destruct (n <? 0); [done|]. cbn. generalize (py_get d "command_id"), (py_get d "idempotency_key").
  intros ci key.
  replace (negb (bool_decide (is_Some (parse_uuid (text_of ci)))))
    with (match parse_uuid (text_of ci) with Some _ => false | None => true end)
    by (destruct (parse_uuid _); [by rewrite bool_decide_eq_true_2|by rewrite bool_decide_eq_false_2]).
  destruct (negb (is_null ci) && _); [done|]. cbn. rewrite <- orb_assoc.
  destruct (negb (is_null key) && _); [done|]. cbn.
  destruct (number_as_float _) as [f|]; [|done]. cbn. by destruct (negb (is_finite f) || _).
Qed.

(** the validator of the continuity process and the one of the control plane, two
    separate pieces of code, accept exactly the same documents and read the same
    command from them. *)
Theorem reader_validates_like_the_store v :
  _validate v =
    match _validate_control v with
    | Ok c => Ok (seen c)
    | Err _ => Err ValueError
    end.
Proof. apply validators_agree. Qed.

(** ** What it reports *)

(** The last valid command of a history. *)
Definition last_valid_of (os : list observation) : option ControlCommandState :=
  last (omap current os).

Lemma after_reads_last os : after_reads os = last_valid_of os.
Proof.
  unfold after_reads, last_valid_of. induction os as [|o os IH] using rev_ind; [done|].
  rewrite fold_left_app, omap_app. cbn [fold_left]. unfold read at 1. rewrite IH.
  cbn. destruct (current o) as [s|]; cbn; [by rewrite last_snoc|by rewrite app_nil_r].
Qed.

(** whatever files it has met, a read reports the current command when it is
    readable and valid; otherwise the last valid command it has seen, and before
    any, muted; the error code is absent exactly when the command is current. An
    unreadable authority therefore never unmutes the stream. *)
Theorem reader_reports_the_last_valid_command os o :
  let '((s, error), last') := read (after_reads os) o in
  (error = None <-> current o = Some s) /\
  s = default (CommandState "MUTED" 0 None) (last_valid_of (os ++ [o])) /\
  last' = last_valid_of (os ++ [o]).
Proof.
  pose proof (after_reads_last (os ++ [o])) as Hl. unfold after_reads in Hl.
  rewrite fold_left_app in Hl. cbn in Hl. fold (after_reads os) in Hl. rewrite <- Hl.
  unfold read. destruct (current o) as [s|]; cbn; [done|]. by split.
Qed.

(** from one process to the other: what an accepted update of the control plane
    returned is what the reader of the continuity process reports next, as long as the
    file is readable. *)
Theorem updated_command_is_read mode key ver now w c w' last :
  update_control mode key ver now w = (Ok c, w') ->
  (read last (Observe false (file w'))).1 = (CommandState mode (version c) (command_id c), None).
Proof.
  intros (cur & _ & Hc & <- & _)%update_control_ok.
  assert (Hcur : current (Observe false (file w')) = Some (seen c)).
  { unfold command, decode_file in Hc. unfold current. cbn. destruct (file w') as [| |r]; try done.
    destruct (load_json_authority r) as [v|]; [|done]. cbn. rewrite validators_agree.
    destruct (_validate_control v); [|done]. by injection Hc as ->. }
  unfold read. rewrite Hcur. done.
Qed.

Lemma updated_command_is_read_witness :
  let r := update_control "MUTED" "key-1" (Some 0) None demo_control in
  exists c, r.1 = Ok c /\
    (read None (Observe false (file r.2))).1 = (CommandState "MUTED" (version c) (command_id c), None).
Proof.
  intros r. destruct r as [[c|e] w'] eqn:E; subst r.
  - exists c. split; [done|].
    apply (updated_command_is_read "MUTED" "key-1" (Some 0) None demo_control c w' None E).
  - exfalso. assert (Hb : is_ok (update_control "MUTED" "key-1" (Some 0) None demo_control).1 = true)
      by (vm_compute; reflexivity). by rewrite E in Hb.
Defined.
