(* ===== verification/Continuity.v ===== *)
(** * The continuity decision (continuity/state.py)

    Buffer probes report video and audio buffers, a reconciliation loop asks what to
    show: the live input, or the standby asset. [step] is the whole object as a
    machine over these events; the lock makes each of them atomic. Times are
    doubles, compared and subtracted as the code does, whatever the clock. *)

From S2P Require Import Prelude PyFloat PyValue.

Inductive AudioMode : Type := AudioLive | AudioMuted.
Inductive VideoSource : Type := VideoLive | VideoStandby.
Inductive ActualAudio : Type := ActualLive | ActualMuted | SilentFallback.
Inductive SessionStatus : Type := Holding | Stabilizing | StatusLive.

(** [AudioMode(mode)] of a text. *)
Definition audio_mode_of (mode : string) : result AudioMode :=
  if String.eqb mode "LIVE" then Ok AudioLive
  else if String.eqb mode "MUTED" then Ok AudioMuted
  else Err ValueError.

Record Decision : Type := Decided {
  session_status : SessionStatus;
  video_source : VideoSource;
  actual_audio : ActualAudio;
  video_recent : bool;
  audio_recent : bool
}.

Record ContinuityState : Type := Continuity {
  input_timeout : float;
  stable_window : float;
  desired_audio : AudioMode;
  last_video_at : option float;
  last_audio_at : option float;
  video_stable_since : option float
}.

(** [__init__] *)
Definition make_continuity (input_timeout stable_window : float) : result ContinuityState :=
  raise_if (negb (is_finite input_timeout) || fle input_timeout fzero) ValueError ;;
  raise_if (negb (is_finite stable_window) || flt stable_window fzero) ValueError ;;
  Ok (Continuity input_timeout stable_window AudioLive None None None).

Definition set_audio_mode (mode : string) (s : ContinuityState) : result ContinuityState :=
  m ← audio_mode_of mode;
  Ok (Continuity (input_timeout s) (stable_window s) m
        (last_video_at s) (last_audio_at s) (video_stable_since s)).

Definition observe_video (now : float) (s : ContinuityState) : ContinuityState :=
  let broken := match last_video_at s with
                | None => true
                | Some t => flt (input_timeout s) (fsub now t)
                end in
  Continuity (input_timeout s) (stable_window s) (desired_audio s)
    (Some now) (last_audio_at s) (if broken then Some now else video_stable_since s).

Definition observe_audio (now : float) (s : ContinuityState) : ContinuityState :=
  Continuity (input_timeout s) (stable_window s) (desired_audio s)
    (last_video_at s) (Some now) (video_stable_since s).

(** [last is not None and now - last <= timeout] *)
Definition recent (timeout now : float) (last : option float) : bool :=
  match last with Some t => fle (fsub now t) timeout | None => false end.

Definition decide (now : float) (s : ContinuityState) : Decision * ContinuityState :=
  let video_recent := recent (input_timeout s) now (last_video_at s) in
  let audio_recent := recent (input_timeout s) now (last_audio_at s) in
  let stable := match video_stable_since s with
                | Some t => fle (stable_window s) (fsub now t)
                | None => false
                end in
  let source := if video_recent && stable then VideoLive else VideoStandby in
  let status := if negb video_recent then Holding
                else if stable then StatusLive else Stabilizing in
  let audio := match desired_audio s, source with
               | AudioMuted, _ => ActualMuted
               | AudioLive, VideoLive => if audio_recent then ActualLive else SilentFallback
               | AudioLive, VideoStandby => SilentFallback
               end in
  (Decided status source audio video_recent audio_recent,
   if video_recent then s
   else Continuity (input_timeout s) (stable_window s) (desired_audio s)
          (last_video_at s) (last_audio_at s) None).

(** ** Runs *)
Inductive event : Type :=
| SetAudio (mode : string)
| Video (at_ : float)
| Audio (at_ : float)
| Decide (at_ : float).

Definition step (s : ContinuityState) (e : event) : ContinuityState :=
  match e with
  | SetAudio mode => match set_audio_mode mode s with Ok s' => s' | Err _ => s end
  | Video t => observe_video t s
  | Audio t => observe_audio t s
  | Decide t => (decide t s).2
  end.

Definition steps (s : ContinuityState) (es : list event) : ContinuityState := fold_left step es s.

(** The times of the video buffers, oldest first. *)
Fixpoint videos (es : list event) : list float :=
  match es with
  | [] => []
  | Video t :: es' => t :: videos es'
  | _ :: es' => videos es'
  end.

(** No two consecutive buffers are further apart than the timeout. *)
Fixpoint unbroken (timeout t : float) (ts : list float) : Prop :=
  match ts with
  | [] => True
  | t' :: ts' => flt timeout (fsub t' t) = false /\ unbroken timeout t' ts'
  end.

Lemma steps_app s es es' : steps s (es ++ es') = steps (steps s es) es'.
Proof. apply fold_left_app. Qed.

Lemma step_config s e :
  input_timeout (step s e) = input_timeout s /\ stable_window (step s e) = stable_window s.
Proof.
  destruct e; cbn; [|done..|by destruct (recent _ _ _)].
  unfold set_audio_mode, audio_mode_of. by repeat destruct (String.eqb _ _).
Qed.

Lemma steps_config s es :
  input_timeout (steps s es) = input_timeout s /\ stable_window (steps s es) = stable_window s.
Proof.
  induction es as [|e es IH] using rev_ind; [done|]. rewrite steps_app. cbn.
  destruct (step_config (steps s es) e) as [-> ->]. done.
Qed.

Lemma videos_app es es' : videos (es ++ es') = videos es ++ videos es'.
Proof. induction es as [|[] es IH]; cbn; congruence. Qed.

(** The time of the last of these buffers, after one at [t]. *)
Definition final (t : float) (ts : list float) : float := fold_left (fun _ x => x) ts t.

Lemma final_snoc t ts t' : final t (ts ++ [t']) = t'.
Proof. unfold final. by rewrite fold_left_app. Qed.

Lemma unbroken_snoc timeout t ts t' :
  unbroken timeout t (ts ++ [t']) <->
  unbroken timeout t ts /\ flt timeout (fsub t' (final t ts)) = false.
Proof.
  revert t. induction ts as [|x ts IH]; intros t; cbn; [tauto|]. rewrite IH. unfold final. cbn. tauto.
Qed.

(** ** Going live needs an unbroken run *)
Definition fresh (s : ContinuityState) : Prop :=
  last_video_at s = None /\ video_stable_since s = None.

Definition runs (timeout : float) (es : list event) (s : ContinuityState) : Prop :=
  match video_stable_since s with
  | None => True
  | Some t0 => exists pre run, es = pre ++ Video t0 :: run /\
      unbroken timeout t0 (videos run) /\
      last_video_at s = Some (final t0 (videos run))
  end.

Lemma runs_other timeout es e s s' :
  runs timeout es s -> videos [e] = [] ->
  (video_stable_since s' = video_stable_since s \/ video_stable_since s' = None) ->
  last_video_at s' = last_video_at s -> runs timeout (es ++ [e]) s'.
Proof.
  unfold runs. intros Hr Hv [E|E] El; rewrite E; [|done]. destruct (video_stable_since s) as [t0|]; [|done].
  destruct Hr as (pre & run & -> & Hu & Hl). exists pre, (run ++ [e]).
  rewrite videos_app, Hv, app_nil_r, El. split; [by rewrite <- app_assoc|done].
Qed.

Lemma steps_runs s es : fresh s -> runs (input_timeout s) es (steps s es).
Proof.
  intros [Hl Hs]. induction es as [|e es IH] using rev_ind.
  { unfold runs. cbn. by rewrite Hs. }
  rewrite steps_app. cbn. destruct (steps_config s es) as [Ht _]. destruct e as [mode|t|t|t].
  - eapply runs_other; [exact IH|done| |]; cbn;
      unfold set_audio_mode, audio_mode_of; repeat destruct (String.eqb _ _); auto.
  - unfold runs. cbn. rewrite Ht. destruct (last_video_at (steps s es)) as [t1|] eqn:E1.
    2: { by exists es, []. }
    destruct (flt (input_timeout s) (fsub t t1)) eqn:Eg; [by exists es, []|].
    unfold runs in IH. destruct (video_stable_since (steps s es)) as [t0|]; [|done].
    destruct IH as (pre & run & Hes & Hu & Hf). rewrite E1 in Hf. injection Hf as Hf.
    exists pre, (run ++ [Video t]). rewrite videos_app. cbn [videos].
    rewrite unbroken_snoc, final_snoc, <- Hf, Hes, <- app_assoc. done.
  - eapply runs_other; [exact IH|done| |]; cbn; auto.
  - eapply runs_other; [exact IH|done| |]; cbn; destruct (recent _ _ _); auto.
Qed.

(** C15: the programme only goes live on a stable input. When a decision at [now] says
    LIVE, the history contains a run of video buffers, from one at [t0] to the last
    one, without a gap above the input timeout; the last is not older than the timeout,
    and the first is at least as old as the stability window. *)
Theorem live_needs_an_unbroken_run s es now :
  fresh s ->
  session_status (decide now (steps s es)).1 = StatusLive ->
  exists pre t0 run, es = pre ++ Video t0 :: run /\
    unbroken (input_timeout s) t0 (videos run) /\
    fle (fsub now (final t0 (videos run))) (input_timeout s) = true /\
    fle (stable_window s) (fsub now t0) = true.
Proof.
  intros Hf Hd. pose proof (steps_runs s es Hf) as Hr. destruct (steps_config s es) as [Ht Hw].
  unfold decide in Hd. cbn in Hd. rewrite Ht, Hw in Hd.
  destruct (recent _ _ _) eqn:Er; [|done]. cbn in Hd. unfold runs in Hr.
  destruct (video_stable_since (steps s es)) as [t0|]; [|done].
  destruct (fle (stable_window s) (fsub now t0)) eqn:Es; [|done].
  destruct Hr as (pre & run & Hes & Hu & Hl). exists pre, t0, run. rewrite Hl in Er. done.
Qed.

(** ** An unbroken run goes live *)

(** The decisions taken during the run found its video recent. *)
Fixpoint watched (timeout t : float) (run : list event) : Prop :=
  match run with
  | [] => True
  | Video t' :: run' => watched timeout t' run'
  | Decide now :: run' => recent timeout now (Some t) = true /\ watched timeout t run'
  | _ :: run' => watched timeout t run'
  end.

Lemma run_stays_stable s t0 t run :
  unbroken (input_timeout s) t (videos run) -> watched (input_timeout s) t run ->
  video_stable_since s = Some t0 -> last_video_at s = Some t ->
  video_stable_since (steps s run) = Some t0 /\
  last_video_at (steps s run) = Some (final t (videos run)).
Proof.
  revert s t. induction run as [|e run IH]; intros s t Hu Hw Hs Hl; [done|].
  destruct (step_config s e) as [Ht _].
  change (steps s (e :: run)) with (steps (step s e) run). destruct e as [mode|t'|t'|t'].
  - apply (IH (step s (SetAudio mode)) t); rewrite ?Ht; try done; cbn;
      unfold set_audio_mode, audio_mode_of; by repeat destruct (String.eqb _ _).
  - destruct Hu as [Hg Hu]. apply (IH (step s (Video t')) t'); rewrite ?Ht; try done; cbn.
    by rewrite Hl, Hg.
  - by apply (IH (step s (Audio t')) t); rewrite ?Ht.
  - destruct Hw as [Hr Hw]. apply (IH (step s (Decide t')) t); rewrite ?Ht; try done; cbn;
      by rewrite Hl, Hr.
Qed.

(** an input that comes back is shown again. From any state, once a video buffer
    at [t0] has started a new run (it is the first one, or comes after a gap above the
    timeout), if buffers keep coming without such a gap, then a decision taken at
    least a stability window after [t0] and no later than the timeout after the last
    buffer says LIVE and selects the live video. *)
Theorem stable_input_goes_live s t0 run now :
  (forall t, last_video_at s = Some t -> flt (input_timeout s) (fsub t0 t) = true) ->
  unbroken (input_timeout s) t0 (videos run) -> watched (input_timeout s) t0 run ->
  fle (fsub now (final t0 (videos run))) (input_timeout s) = true ->
  fle (stable_window s) (fsub now t0) = true ->
  let d := (decide now (steps s (Video t0 :: run))).1 in
  session_status d = StatusLive /\ video_source d = VideoLive.
Proof.
  intros Hgap Hu Hw Hr Hs. change (steps s (Video t0 :: run)) with (steps (step s (Video t0)) run).
  destruct (step_config s (Video t0)) as [Ht Hwin].
  destruct (steps_config (step s (Video t0)) run) as [Ht' Hwin'].
  destruct (run_stays_stable (step s (Video t0)) t0 t0 run) as [Es El]; rewrite ?Ht; try done.
  { cbn. destruct (last_video_at s) as [t|]; [|done]. by rewrite (Hgap t). }
  unfold decide. cbn [fst session_status video_source]. rewrite Es, El, Ht', Hwin', Ht, Hwin.
  unfold recent. by rewrite Hr, Hs.
Qed.

(** ** Audio *)

(** The last mode that was accepted. *)
Definition mode_after (m : AudioMode) (es : list event) : AudioMode :=
  fold_left (fun m e => match e with
                        | SetAudio text => match audio_mode_of text with Ok m' => m' | Err _ => m end
                        | _ => m
                        end) es m.

Lemma steps_mode s es : desired_audio (steps s es) = mode_after (desired_audio s) es.
Proof.
  induction es as [|e es IH] using rev_ind; [done|]. unfold mode_after.
  rewrite steps_app, fold_left_app. cbn. fold (mode_after (desired_audio s) es). rewrite <- IH.
  destruct e; cbn; [|done..|by destruct (recent _ _ _)].
  unfold set_audio_mode. by destruct (audio_mode_of mode).
Qed.

(** sound follows the operator and the picture. After any history the audio that is
    sent is muted exactly when the last accepted audio mode is MUTED, whatever the
    input has done in between; live sound is only sent under live video, and then only
    with a recent audio buffer. *)
Theorem audio_follows_the_last_mode s es now :
  let d := (decide now (steps s es)).1 in
  (actual_audio d = ActualMuted <-> mode_after (desired_audio s) es = AudioMuted) /\
  (actual_audio d = ActualLive -> video_source d = VideoLive /\ session_status d = StatusLive /\
     audio_recent d = true).
Proof.
  intros d. subst d. rewrite <- steps_mode. unfold decide. cbn.
  destruct (desired_audio (steps s es)), (recent _ _ (last_video_at _)), (recent _ _ (last_audio_at _)),
    (match video_stable_since (steps s es) with Some _ => _ | None => _ end); cbn; by intuition.
Qed.

(** Two seconds of timeout, three of stability, a buffer a second. *)
Definition demo_state : ContinuityState :=
  Continuity (of_Z 2) (of_Z 3) AudioLive None None None.
Definition demo_run : list event :=
  [Audio (of_Z 1); Video (of_Z 2); Decide (of_Z 2); Video (of_Z 3); Video (of_Z 4)].

Lemma live_needs_an_unbroken_run_witness :
  exists pre t0 run, Video (of_Z 1) :: demo_run = pre ++ Video t0 :: run /\
    unbroken (of_Z 2) t0 (videos run).
Proof.
  destruct (live_needs_an_unbroken_run demo_state (Video (of_Z 1) :: demo_run) (of_Z 5))
    as (pre & t0 & run & He & Hu & _); [done|vm_compute; reflexivity|].
  by exists pre, t0, run.
Defined.

Lemma stable_input_goes_live_witness :
  session_status (decide (of_Z 5) (steps demo_state (Video (of_Z 1) :: demo_run))).1 = StatusLive.
Proof.
  apply (stable_input_goes_live demo_state (of_Z 1) demo_run (of_Z 5)); [done|..].
  - repeat split; vm_compute; reflexivity.
  - repeat split; vm_compute; reflexivity.
  - vm_compute. reflexivity.
  - vm_compute. reflexivity.
Defined.
