(* ===== verification/PyText.v ===== *)
(** * Python texts

    [str.strip], [float(text)], and the settings read from the environment. The
    variables of the environment are a function from names to texts. *)

From S2P Require Import Prelude PyFloat PyValue.

(** [s.rstrip()] and [s.strip()] *)
Fixpoint py_rstrip (s : string) : string :=
  match s with
  | EmptyString => EmptyString
  | String c s' => if py_blank s then EmptyString else String c (py_rstrip s')
  end.

Definition py_strip (s : string) : string := py_rstrip (py_lstrip s).

(** ** Concatenation *)
Lemma append_assoc a b c : String.append a (String.append b c) = String.append (String.append a b) c.
Proof.
  induction a as [|x a IH]; [done|].
  change (String x (String.append a (String.append b c)) = String x (String.append (String.append a b) c)).
  by rewrite IH.
Qed.

Lemma append_nil a : String.append a EmptyString = a.
Proof.
  induction a as [|x a IH]; [done|].
  change (String x (String.append a EmptyString) = String x a). by rewrite IH.
Qed.

Lemma length_append a b : String.length (String.append a b) = (String.length a + String.length b)%nat.
Proof.
  induction a as [|x a IH]; [done|].
  change (S (String.length (String.append a b)) = S (String.length a + String.length b)). by rewrite IH.
Qed.

(** ** [float(text)]

    Digits with single underscores between them: their value, their number, and
    what follows. *)
Fixpoint digit_run (acc : Z) (n : nat) (s : string) : Z * nat * string :=
  match s with
  | EmptyString => (acc, n, s)
  | String c s1 =>
      match digit_of c with
      | Some d => digit_run (10 * acc + d) (S n) s1
      | None =>
          match s1 with
          | String c2 s2 =>
              match digit_of c2 with
              | Some d => if (byte_code c =? 95) && negb (Nat.eqb n 0)
                          then digit_run (10 * acc + d) (S n) s2 else (acc, n, s)
              | None => (acc, n, s)
              end
          | EmptyString => (acc, n, s)
          end
      end
  end.

(** The double nearest to [m * 10^e]. *)
Definition of_decimal (negative : bool) (m e : Z) : float :=
  match m with
  | Zpos p =>
      if 0 <=? e
      then binary_normalize prec emax ((if negative then -1 else 1) * m * 10 ^ e) 0 negative
      else let '(q, e', l) := SFdiv_core_binary prec emax m 0 (10 ^ (- e)) 0 in
           binary_round_aux prec emax negative q e' l
  | _ => S754_zero negative
  end.

(** The exponent, if any, up to the end of the text. *)
Definition exponent_of (s : string) : option Z :=
  match s with
  | EmptyString => Some 0
  | String c s1 =>
      if Ascii.eqb (lower_ascii c) "e" then
        let '(negative, s2) := match s1 with
                               | String "-"%char s2 => (true, s2)
                               | String "+"%char s2 => (false, s2)
                               | _ => (false, s1)
                               end in
        match digit_run 0 0 s2 with
        | (e, S _, EmptyString) => Some (if negative : bool then - e else e)
        | _ => None
        end
      else None
  end.

Definition unsigned_float (negative : bool) (s : string) : option float :=
  let word := py_lower s in
  if String.eqb word "inf" || String.eqb word "infinity" then Some (S754_infinity negative)
  else if String.eqb word "nan" then Some S754_nan
  else
    let '(whole, n, rest) := digit_run 0 0 s in
    let '(m, k, rest) := match rest with
                         | String "."%char s' => digit_run whole 0 s'
                         | _ => (whole, 0%nat, rest)
                         end in
    if Nat.eqb (n + k) 0 then None
    else e ← exponent_of rest; Some (of_decimal negative m (e - Z.of_nat k)).

(** The decimal digits of other scripts, which [float] also accepts, are refused, as
    in [int_of_text]. *)
Definition float_of_text (s : string) : option float :=
  match py_strip s with
  | String "-"%char s' => unsigned_float true s'
  | String "+"%char s' => unsigned_float false s'
  | s' => unsigned_float false s'
  end.

Example float_of_text_examples :
  (float_of_text "60", float_of_text " 0.1 ", float_of_text "1_0.5e-1", float_of_text ".5",
   float_of_text "-Infinity", float_of_text "1e400") =
  (Some (of_Z 60), Some (fratio 1 10), Some (fratio 105 100), Some (fratio 1 2),
   Some (S754_infinity true), Some (S754_infinity false)).
Proof. vm_compute. reflexivity. Qed.
Example float_of_text_refused :
  (float_of_text "", float_of_text ".", float_of_text "1e", float_of_text "1._5",
   float_of_text "1__0", float_of_text "0x10") = (None, None, None, None, None, None).
Proof. vm_compute. reflexivity. Qed.

(** ** The environment *)
Abbreviation environ := (string -> option string).

(** [os.getenv(name, str(default))]: what the text of the default reads as is given
    with it. *)
Definition getenv_int (env : environ) (name : string) (dflt : Z) : option Z :=
  match env name with Some text => int_of_text text | None => Some dflt end.
Definition getenv_float (env : environ) (name : string) (dflt : float) : option float :=
  match env name with Some text => float_of_text text | None => Some dflt end.
