(* ===== verification/TextFacts.v ===== *)
(** * [strip] and [lower]

    What stripping and lowering a text do to each other: a text that was stripped and
    lowered is not changed by it again, which is what a reader of stored emails
    checks. *)

From Stdlib Require Import ZifyBool.
From S2P Require Import Prelude PyFloat PyValue PyText.

(** ** [lower] and [strip] together *)
Lemma lower_ascii_code c :
  byte_code (lower_ascii c) = if (65 <=? byte_code c) && (byte_code c <=? 90) then byte_code c + 32 else byte_code c.
Proof. destruct c as [[] [] [] [] [] [] [] []]; reflexivity. Qed.

(** The shape of a text and of its lower case. *)
Inductive lowers : string -> string -> Prop :=
| lowers_nil : lowers EmptyString EmptyString
| lowers_dotted s t : lowers s t ->
    lowers (String "196" (String "176" s)) (String "i" (String "204" (String "135" t)))
| lowers_kelvin s t : lowers s t ->
    lowers (String "226" (String "132" (String "170" s))) (String "k" t)
| lowers_plain a s t : lowers s t ->
    (forall s', a = "196"%char -> s <> String "176" s') ->
    (forall s', a = "226"%char -> s <> String "132" (String "170" s')) ->
    lowers (String a s) (String (lower_ascii a) t).

Lemma byte_code_inj c n : byte_code c = Z.of_N n -> (n < 256)%N -> c = Ascii.ascii_of_N n.
Proof. unfold byte_code. intros H%N2Z.inj _. by rewrite <- H, Ascii.ascii_N_embedding. Qed.

Lemma py_lower_lowers s : lowers s (py_lower s).
Proof.
  remember (String.length s) as n eqn:Hn. revert s Hn.
  induction (Nat.lt_wf_0 n) as [n _ IH]. intros s ->.
  destruct s as [|a s1]; [constructor|]. cbn [py_lower].
  assert (IH' : forall t, (String.length t < S (String.length s1))%nat -> lowers t (py_lower t)).
  { intros t Ht. by eapply IH. }
  destruct s1 as [|b s2].
  { apply lowers_plain; [apply IH'; cbn; lia|done|done]. }
  destruct ((byte_code a =? 196) && (byte_code b =? 176)) eqn:E1.
  { apply andb_prop in E1 as [Ea%Z.eqb_eq Eb%Z.eqb_eq].
    apply (byte_code_inj a 196) in Ea as ->; [|done]. apply (byte_code_inj b 176) in Eb as ->; [|done].
    apply lowers_dotted, IH'. cbn. lia. }
  destruct s2 as [|c s3].
  { apply lowers_plain; [apply IH'; cbn; lia| |done]. intros s' -> [= -> _]. done. }
  destruct ((byte_code a =? 226) && (byte_code b =? 132) && (byte_code c =? 170)) eqn:E2.
  { apply andb_prop in E2 as [[Ea%Z.eqb_eq Eb%Z.eqb_eq]%andb_prop Ec%Z.eqb_eq].
    apply (byte_code_inj a 226) in Ea as ->; [|done]. apply (byte_code_inj b 132) in Eb as ->; [|done].
    apply (byte_code_inj c 170) in Ec as ->; [|done]. apply lowers_kelvin, IH'. cbn. lia. }
  apply lowers_plain; [apply IH'; cbn; lia| |].
  - intros s' -> [= -> _]. done.
  - intros s' -> [= -> -> _]. done.
Qed.

(** What a byte below 128 or above keeps of itself. *)
Lemma lower_ascii_high a n : 128 <= n -> (byte_code (lower_ascii a) =? n) = (byte_code a =? n).
Proof.
  intros Hn. rewrite lower_ascii_code. destruct (_ && _) eqn:E; [|done].
  rewrite !(proj2 (Z.eqb_neq _ _)); [done|lia..].
Qed.

Lemma lower_ascii_space a : ascii_space (lower_ascii a) = ascii_space a.
Proof. destruct a as [[] [] [] [] [] [] [] []]; reflexivity. Qed.

Lemma lower_ascii_again a : lower_ascii (lower_ascii a) = lower_ascii a.
Proof. destruct a as [[] [] [] [] [] [] [] []]; reflexivity. Qed.

Lemma space_plain a : ascii_space a = true -> lower_ascii a = a.
Proof. destruct a as [[] [] [] [] [] [] [] []]; done. Qed.

(** The blanks of two and three bytes, byte by byte. *)
Definition space_second (c : Ascii.ascii) : bool := (byte_code c =? 133) || (byte_code c =? 160).

Lemma lower_space2 b c : space2 (lower_ascii b) (lower_ascii c) = space2 b c.
Proof. unfold space2. by rewrite !lower_ascii_high by lia. Qed.

Lemma byte_bound c : 0 <= byte_code c < 256.
Proof. unfold byte_code. pose proof (Ascii.N_ascii_bounded c). lia. Qed.

(** The bytes of a blank of three bytes are all above 127. *)
Lemma space3_high b c d : space3 b c d = true -> 128 <= byte_code b /\ 128 <= byte_code c /\ 128 <= byte_code d.
Proof.
  unfold space3. pose proof (byte_bound b). pose proof (byte_bound c). pose proof (byte_bound d).
  cbv zeta. intros Hs.
  assert (Hn : let n := 65536 * byte_code b + 256 * byte_code c + byte_code d in
    n = 14785152 \/ 14844032 <= n <= 14844042 \/ n = 14844072 \/ n = 14844073 \/ n = 14844079 \/
    n = 14844319 \/ n = 14909568) by (cbv zeta; lia).
  cbv zeta in Hn. clear Hs. lia.
Qed.

Lemma lower_ascii_same a : 128 <= byte_code a -> lower_ascii a = a.
Proof.
  intros Ha. unfold lower_ascii. destruct (_ && _) eqn:E; [lia|done].
Qed.
Lemma lower_high a : 128 <= byte_code (lower_ascii a) -> lower_ascii a = a.
Proof. rewrite lower_ascii_code. destruct (_ && _) eqn:E; [lia|]. intros. by apply lower_ascii_same. Qed.

Lemma lower_space3 b c d : space3 (lower_ascii b) (lower_ascii c) (lower_ascii d) = space3 b c d.
Proof.
  destruct (space3 b c d) eqn:E.
  - apply space3_high in E as H. destruct H as (H1 & H2 & H3). by rewrite !lower_ascii_same.
  - destruct (space3 (lower_ascii b) _ _) eqn:E'; [|done]. apply space3_high in E' as H.
    destruct H as (H1 & H2 & H3). apply lower_high in H1, H2, H3. congruence.
Qed.

(** The blank at the start of a text: how many bytes it has, if there is one. *)
Definition lead (s : string) : nat :=
  match s with
  | EmptyString => 0
  | String b s1 =>
      if ascii_space b then 1
      else match s1 with
           | String c s2 =>
               if space2 b c then 2
               else match s2 with String d _ => if space3 b c d then 3 else 0 | EmptyString => 0 end
           | EmptyString => 0
           end
  end%nat.

Fixpoint cut (n : nat) (s : string) : string :=
  match n, s with S n', String _ s' => cut n' s' | _, _ => s end.

Lemma lstrip_lead s : py_lstrip s = match lead s with O => s | n => py_lstrip (cut n s) end.
Proof.
  destruct s as [|b s1]; [done|]. cbn [py_lstrip lead]. destruct (ascii_space b); [done|].
  destruct s1 as [|c s2]; [done|]. destruct (space2 b c); [done|].
  destruct s2 as [|d s3]; [done|]. by destruct (space3 b c d).
Qed.

Lemma blank_lead s : py_blank s = match lead s with O => str_empty s | n => py_blank (cut n s) end.
Proof.
  destruct s as [|b s1]; [done|]. cbn [py_blank lead]. destruct (ascii_space b); [done|].
  destruct s1 as [|c s2]; [done|]. destruct (space2 b c); [done|].
  destruct s2 as [|d s3]; [done|]. by destruct (space3 b c d).
Qed.

Lemma lead_none c s : ascii_space c = false -> (byte_code c < 194 \/ 194 < byte_code c < 225 \/ 227 < byte_code c) ->
  lead (String c s) = 0%nat.
Proof.
  intros Hc Hn. cbn [lead]. rewrite Hc. destruct s as [|b s]; [done|].
  assert (space2 c b = false) as -> by (unfold space2; lia). destruct s as [|d s]; [done|].
  destruct (space3 c b d) eqn:E; [|done]. exfalso. unfold space3 in E.
  pose proof (byte_bound b). pose proof (byte_bound d). lia.
Qed.

Lemma rstrip_none c s : ascii_space c = false -> (byte_code c < 194 \/ 194 < byte_code c < 225 \/ 227 < byte_code c) ->
  py_rstrip (String c s) = String c (py_rstrip s).
Proof. intros Hc Hn. cbn [py_rstrip]. by rewrite blank_lead, lead_none. Qed.

(** A letter that is no byte of a blank hides what is behind. *)
Definition solid (c : Ascii.ascii) : Prop := 65 <= byte_code c < 128.

Lemma solid_space2 b c : solid c -> space2 b c = false.
Proof. unfold solid, space2. lia. Qed.
Lemma solid_space3_2 b c d : solid c -> space3 b c d = false.
Proof. intros Hc. destruct (space3 b c d) eqn:E; [|done]. apply space3_high in E. unfold solid in Hc. lia. Qed.
Lemma solid_space3_3 b c d : solid d -> space3 b c d = false.
Proof. intros Hd. destruct (space3 b c d) eqn:E; [|done]. apply space3_high in E. unfold solid in Hd. lia. Qed.
Lemma solid_i : solid "i". Proof. done. Qed.
Lemma solid_k : solid "k". Proof. done. Qed.

Lemma lead_lower s t : lowers s t ->
  lead t = lead s /\ str_empty t = str_empty s /\ (lead s <> 0%nat -> lowers (cut (lead s) s) (cut (lead s) t)).
Proof.
  assert (Hd : forall a b : Ascii.ascii, space3 a "196" b = false /\ space3 "196" a b = false /\ space3 a "226" b = false /\
    space3 a b "196" = false /\ space3 a b "226" = false).
  { intros a b. pose proof (byte_bound a). pose proof (byte_bound b).
    repeat split; (destruct (space3 _ _ _) eqn:E; [|done]); exfalso; unfold space3 in E;
      change (byte_code "196") with 196 in E; change (byte_code "226") with 226 in E; lia. }
  assert (Hd2 : forall a, space2 a "196" = false /\ space2 a "226" = false).
  { intros a. unfold space2. change (byte_code "196") with 196. change (byte_code "226") with 226. lia. }
  assert (Hk : forall a b, space2 "k" a = false /\ space3 "k" a b = false).
  { intros a b. split; [by unfold space2|]. destruct (space3 _ _ _) eqn:E; [|done]. by apply space3_high in E as []. }
  intros [|s1 t1 H|s1 t1 H|a s1 t1 H Hi Hk']; [done|..].
  { destruct s1 as [|d s1]; [done|]. cbn [lead]. by destruct (Hd "176"%char d) as (_ & -> & _). }
  { destruct t1 as [|x [|y t1]]; cbn [lead]; [done|by destruct (Hk x "0"%char) as [-> _]|].
    destruct (Hk x y) as [-> ->]. done. }
  cbn [lead cut str_empty]. rewrite lower_ascii_space. destruct (ascii_space a); [done|].
  destruct H as [|s2 t2 H|s2 t2 H|b s2 t2 H Hi2 Hk2].
  - done.
  - destruct (Hd2 a) as [-> _]. destruct (Hd a "176"%char) as (-> & _ & _).
    by rewrite (solid_space2 _ _ solid_i), (solid_space3_2 _ _ _ solid_i).
  - destruct (Hd2 a) as [_ ->]. destruct (Hd a "132"%char) as (_ & _ & -> & _).
    rewrite (solid_space2 _ _ solid_k). by destruct t2; [|rewrite (solid_space3_2 _ _ _ solid_k)].
  - rewrite lower_space2. destruct (space2 a b); [done|].
    destruct H as [|s3 t3 H|s3 t3 H|c s3 t3 H Hi3 Hk3].
    + done.
    + destruct (Hd a b) as (_ & _ & _ & -> & _). by rewrite (solid_space3_3 _ _ _ solid_i).
    + destruct (Hd a b) as (_ & _ & _ & _ & ->). by rewrite (solid_space3_3 _ _ _ solid_k).
    + rewrite lower_space3. by destruct (space3 a b c).
Qed.

Lemma cut_shorter n s : lead s <> 0%nat -> n = lead s -> (String.length (cut n s) < String.length s)%nat.
Proof.
  intros Hl ->. destruct s as [|b s1]; [done|].
  assert (Hc : forall m s, (String.length (cut m s) <= String.length s)%nat).
  { clear. induction m as [|m IH]; intros [|x s]; cbn; try lia. specialize (IH s). lia. }
  destruct (lead _) as [|m]; [done|]. cbn. specialize (Hc m s1). lia.
Qed.

Lemma lowers_blank_lstrip s t : lowers s t -> py_blank t = py_blank s /\ lowers (py_lstrip s) (py_lstrip t).
Proof.
  remember (String.length s) as n eqn:Hn. revert s t Hn.
  induction (Nat.lt_wf_0 n) as [n _ IH]. intros s t -> H.
  destruct (lead_lower s t H) as (H1 & H2 & H3).
  rewrite (blank_lead t), (blank_lead s), (lstrip_lead t), (lstrip_lead s), H1, H2.
  destruct (lead s) as [|m] eqn:E; [done|].
  eapply IH; [|done|by apply H3]. apply cut_shorter; [lia|done].
Qed.

Lemma lowers_fun s t t' : lowers s t -> lowers s t' -> t = t'.
Proof.
  intros H. revert t'. induction H as [|s t H IH|s t H IH|a s t H IH Hi Hk]; intros t' H'.
  - by inversion H'.
  - inversion H' as [|? ? H2|? ? H2|? ? ? H2 Hi2 Hk2]; subst; [by rewrite (IH _ H2)|].
    by destruct (Hi2 s).
  - inversion H' as [|? ? H2|? ? H2|? ? ? H2 Hi2 Hk2]; subst; [by rewrite (IH _ H2)|].
    by destruct (Hk2 s).
  - inversion H' as [|? ? H2|? ? H2|? ? ? H2 Hi2 Hk2]; subst.
    + by destruct (Hi s0).
    + by destruct (Hk s0).
    + by rewrite (IH _ H2).
Qed.

Lemma py_lower_eq s t : lowers s t -> py_lower s = t.
Proof. intros H. by eapply lowers_fun; [apply py_lower_lowers|]. Qed.

(** A first byte of the lower case, where it matters for the letters of several bytes. *)
Lemma lowers_head s t x t' : lowers s t -> t = String x t' -> 128 <= byte_code x ->
  exists s', s = String x s' /\ lowers s' t'.
Proof.
  intros H. destruct H as [|s t H|s t H|a s t H Hi Hk]; intros E Hx; [done|..].
  - injection E as <- _. done.
  - injection E as <- _. done.
  - injection E as <- ->. apply lower_high in Hx as Ha. rewrite Ha in *. by exists s.
Qed.

Lemma lowers_again s t : lowers s t -> lowers t t.
Proof.
  assert (Hp : forall a x y, lower_ascii a = a -> (byte_code a =? 196) = false -> (byte_code a =? 226) = false ->
    lowers x y -> lowers (String a x) (String a y)).
  { intros a x y Ha H1 H2 H. rewrite <- Ha at 2. apply lowers_plain; [done|..]; by intros s' ->. }
  induction 1 as [|s t H IH|s t H IH|a s t H IH Hi Hk]; [constructor|..].
  - by do 3 (apply Hp; [done..|]).
  - by apply Hp.
  - rewrite <- (lower_ascii_again a) at 2. apply lowers_plain; [done|..].
    + intros s' Ea ->. assert (Ha : a = "196"%char) by (rewrite <- Ea; symmetry; apply lower_high; by rewrite Ea).
      destruct (lowers_head _ _ _ _ H eq_refl) as (s1 & -> & _); [done|]. by destruct (Hi s1).
    + intros s' Ea ->. assert (Ha : a = "226"%char) by (rewrite <- Ea; symmetry; apply lower_high; by rewrite Ea).
      destruct (lowers_head _ _ _ _ H eq_refl) as (s1 & -> & H1); [done|].
      destruct (lowers_head _ _ _ _ H1 eq_refl) as (s2 & -> & _); [done|]. by destruct (Hk s2).
Qed.

Lemma py_lower_lower s : py_lower (py_lower s) = py_lower s.
Proof. apply py_lower_eq. eapply lowers_again, py_lower_lowers. Qed.

(** [rstrip] keeps a start of the text, and what it drops is blank. *)
Lemma rstrip_split s : exists b, s = String.append (py_rstrip s) b /\ py_blank b = true.
Proof.
  induction s as [|c s (b & Hs & Hb)]; [by exists EmptyString|]. cbn [py_rstrip].
  destruct (py_blank (String c s)) eqn:E; [by exists (String c s)|].
  exists b. split; [|done]. change (String c s = String c (String.append (py_rstrip s) b)). by rewrite <- Hs.
Qed.

Lemma lowers_rstrip s t : lowers s t -> lowers (py_rstrip s) (py_rstrip t).
Proof.
  induction 1 as [|s t H IH|s t H IH|a s t H IH Hi Hk].
  - constructor.
  - rewrite !rstrip_none by (done || by vm_compute; auto). by apply lowers_dotted.
  - assert (E : py_rstrip (String "226" (String "132" (String "170" s))) =
      String "226" (py_rstrip (String "132" (String "170" s)))) by done.
    rewrite E, !rstrip_none by (done || by vm_compute; auto). by apply lowers_kelvin.
  - assert (Hl : lowers (String a s) (String (lower_ascii a) t)) by by apply lowers_plain.
    cbn [py_rstrip]. destruct (lowers_blank_lstrip _ _ Hl) as [-> _].
    destruct (py_blank _); [constructor|]. destruct (rstrip_split s) as (b & Hs & _).
    apply lowers_plain; [done|..]; intros s' -> E; rewrite E in Hs.
    + by apply (Hi (String.append s' b)).
    + by apply (Hk (String.append s' b)).
Qed.

Lemma lead_lstrip s : lead (py_lstrip s) = 0%nat.
Proof.
  remember (String.length s) as n eqn:Hn. revert s Hn.
  induction (Nat.lt_wf_0 n) as [n _ IH]. intros s ->. rewrite lstrip_lead.
  destruct (lead s) as [|m] eqn:E; [done|]. eapply IH; [|done]. apply cut_shorter; [lia|done].
Qed.

Lemma lead_prefix x b : lead (String.append x b) = 0%nat -> lead x = 0%nat.
Proof.
  destruct x as [|c x]; [done|].
  change (lead (String c (String.append x b)) = 0%nat -> lead (String c x) = 0%nat). cbn [lead].
  destruct (ascii_space c); [done|]. destruct x as [|d x]; [done|].
  change (String.append (String d x) b) with (String d (String.append x b)). cbv beta iota. destruct (space2 c d); [done|].
  destruct x as [|e x]; [done|]. change (String.append (String e x) b) with (String e (String.append x b)). done.
Qed.

Lemma lead_rstrip s : lead s = 0%nat -> lead (py_rstrip s) = 0%nat.
Proof. destruct (rstrip_split s) as (b & Hs & _). rewrite Hs at 1. apply lead_prefix. Qed.

Lemma blank_append x b : py_blank x = true -> py_blank (String.append x b) = py_blank b.
Proof.
  remember (String.length x) as n eqn:Hn. revert x Hn.
  induction (Nat.lt_wf_0 n) as [n _ IH]. intros x -> Hx. destruct x as [|c x]; [done|].
  change (py_blank (String c (String.append x b)) = py_blank b). cbn [py_blank] in Hx |- *.
  destruct (ascii_space c); [by apply (IH (String.length x)); [cbn; lia|..]|].
  destruct x as [|d x]; [done|]. change (String.append (String d x) b) with (String d (String.append x b)). cbv beta iota.
  destruct (space2 c d); [by apply (IH (String.length x)); [cbn; lia|..]|].
  destruct x as [|e x]; [done|]. change (String.append (String e x) b) with (String e (String.append x b)). cbv beta iota.
  apply andb_prop in Hx as [-> Hx]. by apply (IH (String.length x)); [cbn; lia|..].
Qed.

Lemma rstrip_rstrip s : py_rstrip (py_rstrip s) = py_rstrip s.
Proof.
  induction s as [|c s IH]; [done|]. cbn [py_rstrip]. destruct (py_blank (String c s)) eqn:E; [done|].
  cbn [py_rstrip]. destruct (py_blank (String c (py_rstrip s))) eqn:E'; [|by rewrite IH]. exfalso.
  destruct (rstrip_split s) as (b & Hs & Hb). rewrite Hs in E.
  change (String c (String.append (py_rstrip s) b)) with (String.append (String c (py_rstrip s)) b) in E.
  rewrite blank_append in E by done. congruence.
Qed.

Lemma strip_strip s : py_strip (py_strip s) = py_strip s.
Proof.
  unfold py_strip. rewrite (lstrip_lead (py_rstrip _)), lead_rstrip by apply lead_lstrip.
  apply rstrip_rstrip.
Qed.

Lemma strip_lower s : py_strip (py_lower s) = py_lower (py_strip s).
Proof.
  unfold py_strip. symmetry. apply py_lower_eq, lowers_rstrip, lowers_blank_lstrip, py_lower_lowers.
Qed.

(** A text that was stripped and lowered is not changed by it again. *)
Lemma normal_again s : py_lower (py_strip (py_lower (py_strip s))) = py_lower (py_strip s).
Proof. by rewrite strip_lower, strip_strip, py_lower_lower. Qed.

(** A text is equal to itself only. *)
Lemma py_eq_text v s : py_eq v (VStr s) = true <-> v = VStr s.
Proof.
  split; [|intros ->; apply String.eqb_refl].
  destruct v; unfold py_eq; cbn; try done. by intros ->%String.eqb_eq.
Qed.

Lemma py_get_insert (d : dict) k v : py_get (<[k := v]> d) k = v.
Proof. unfold py_get. by rewrite lookup_insert_eq. Qed.

Lemma py_get_insert_ne (d : dict) k k' v : k <> k' -> py_get (<[k := v]> d) k' = py_get d k'.
Proof. intros H. unfold py_get. by rewrite lookup_insert_ne. Qed.

(** Read literal fields of a record that was updated at literal keys. *)
Ltac record_fields :=
  repeat first [ rewrite py_get_insert | rewrite py_get_insert_ne by discriminate ].
