(* ===== verification/JsonText.v ===== *)
(** * JSON texts without hooks

    [json.loads] with its defaults (a repeated key keeps its last value, the
    non-standard constants are accepted), and the length of what [json.dumps] writes
    with [ensure_ascii=False], [allow_nan=False] and the compact separators. *)

From S2P Require Import Prelude PyFloat PyValue Json.

(** ** The length of a text

    The shortest decimal text of a double, [float.__repr__], is a parameter; the
    order of the keys does not matter for the length. *)
Definition escaped_size (c : Ascii.ascii) : Z :=
  let n := byte_code c in
  if (n =? 34) || (n =? 92) || ((8 <=? n) && (n <=? 10)) || (n =? 12) || (n =? 13) then 2
  else if n <? 32 then 6 else 1.

Fixpoint text_size (s : string) : Z :=
  match s with EmptyString => 0 | String c s' => escaped_size c + text_size s' end.

(** Decimal digits of a natural number; the fuel is its number of bits. *)
Fixpoint digits (fuel : nat) (n : Z) : Z :=
  match fuel with
  | O => 1
  | S fuel' => if n <? 10 then 1 else 1 + digits fuel' (n / 10)
  end.

Definition int_digits (z : Z) : Z := digits (Z.to_nat (Z.log2 (Z.abs z))) (Z.abs z).

(** [str(int)] refuses integers of more than 4300 digits. *)
Definition INT_MAX_STR_DIGITS : Z := 4300.

Section encoding.
Context (float_repr : float -> string).

(** The length of the encoding, or [None] where [json.dumps] raises. *)
Fixpoint json_size (v : value) : option Z :=
  match v with
  | VNull => Some 4
  | VBool b => Some (if b then 4 else 5)
  | VInt z => if INT_MAX_STR_DIGITS <? int_digits z then None
              else Some (int_digits z + (if z <? 0 then 1 else 0))
  | VFloat f => if is_finite f then Some (Z.of_nat (String.length (float_repr f))) else None
  | VStr s => Some (2 + text_size s)
  | VList l =>
      n ← foldr (fun x acc => a ← json_size x; n ← acc; Some (a + n)) (Some 0) l;
      Some (2 + n + Z.max 0 (Z.of_nat (length l) - 1))
  | VDict d =>
      n ← map_fold (fun k x acc => a ← json_size x; n ← acc; Some (3 + text_size k + a + n))
            (Some 0) d;
      Some (2 + n + Z.max 0 (Z.of_nat (size d) - 1))
  end.

Lemma json_size_item x l n : json_size (VList l) = Some n -> x ∈ l -> is_Some (json_size x).
Proof.
  cbn [json_size]. intros Hs Hx.
  destruct (foldr _ (Some 0) l) as [m|] eqn:Hm; [|done]. clear Hs. revert m Hm.
  induction l as [|y l IH]; intros m Hm; [by apply elem_of_nil in Hx|]. cbn in Hm.
  destruct (json_size y) eqn:Hy; [|done]. cbn in Hm. destruct (foldr _ _ l); [|done].
  apply elem_of_cons in Hx as [->|Hx]; [done|by eapply IH].
Qed.

Lemma json_size_member k x (d : dict) n :
  json_size (VDict d) = Some n -> d !! k = Some x -> is_Some (json_size x).
Proof.
  cbn [json_size]. rewrite map_fold_foldr, <- elem_of_map_to_list. intros Hs Hx.
  destruct (foldr _ (Some 0) (map_to_list d)) as [m|] eqn:Hm; [|done]. clear Hs. revert m Hm.
  induction (map_to_list d) as [|[k' y] l IH]; intros m Hm; [by apply elem_of_nil in Hx|]. cbn in Hm.
  destruct (json_size y) eqn:Hy; [|done]. cbn in Hm. destruct (foldr _ _ l); [|done].
  apply elem_of_cons in Hx as [[= -> ->]|Hx]; [done|by eapply IH].
Qed.
End encoding.

(** ** Reading *)
Definition json_constant (name : string) : float :=
  if String.eqb name "NaN" then S754_nan
  else S754_infinity (String.eqb name "-Infinity").

(** [dict(pairs)] *)
Definition last_wins (pairs : list (string * value)) : dict :=
  foldl (fun d p => <[p.1 := p.2]> d) ∅ pairs.

Fixpoint json_loads (r : raw) : result value :=
  match r with
  | RNull => Ok VNull
  | RBool b => Ok (VBool b)
  | RInt z => if INT_MAX_STR_DIGITS <? int_digits z then Err ValueError else Ok (VInt z)
  | RFloat f => Ok (VFloat f)
  | RConst name => Ok (VFloat (json_constant name))
  | RStr s => Ok (VStr s)
  | RArr l =>
      vs ← foldr (fun x acc => v ← json_loads x; vs ← acc; Ok (v :: vs)) (Ok []) l;
      Ok (VList vs)
  | RObj l =>
      ps ← foldr (fun p acc => v ← json_loads p.2; vs ← acc; Ok ((p.1, v) :: vs)) (Ok []) l;
      Ok (VDict (last_wins ps))
  end.

Example json_loads_last_wins :
  json_loads (RObj [("a", RInt 1); ("b", RConst "-Infinity"); ("a", RArr [RNull])]) =
  Ok (VDict {["a" := VList [VNull]; "b" := VFloat (S754_infinity true)]}).
Proof. vm_compute. reflexivity. Qed.

Fixpoint raw_weight (r : raw) : nat :=
  match r with
  | RArr l => S (foldr (fun x acc => raw_weight x + acc)%nat 0%nat l)
  | RObj l => S (foldr (fun p acc => raw_weight p.2 + acc)%nat 0%nat l)
  | _ => 1%nat
  end.

Lemma raw_weight_item x l : x ∈ l -> (raw_weight x < raw_weight (RArr l))%nat.
Proof.
  cbn. induction l as [|y l IH]; [by rewrite elem_of_nil|]. rewrite elem_of_cons. cbn.
  intros [->|H]; [lia|]. specialize (IH H). lia.
Qed.

Lemma raw_weight_member p l : p ∈ l -> (raw_weight p.2 < raw_weight (RObj l))%nat.
Proof.
  cbn. induction l as [|y l IH]; [by rewrite elem_of_nil|]. rewrite elem_of_cons. cbn.
  intros [->|H]; [lia|]. specialize (IH H). lia.
Qed.

(** Without a repeated key the last one is the only one. *)
Lemma no_duplicates_inserted pairs acc d :
  reject_duplicates_from acc pairs = Ok d ->
  foldl (fun d p => <[p.1 := p.2]> d) acc pairs = d /\
  (forall k v, acc !! k = Some v -> d !! k = Some v) /\
  (forall k v, (k, v) ∈ pairs -> d !! k = Some v).
Proof.
  revert acc. induction pairs as [|[k v] pairs IH]; intros acc; cbn.
  - intros [= ->]. split; [done|]. split; [done|]. intros k v H. by apply elem_of_nil in H.
  - destruct (acc !! k) eqn:Hk; [done|]. intros (H1 & H2 & H3)%IH. split; [done|]. split.
    + intros k' v' Hk'. apply H2. rewrite lookup_insert_ne; [done|]. congruence.
    + intros k' v' [[= -> ->]|Hin]%elem_of_cons; [|by apply H3]. apply H2, lookup_insert_eq.
Qed.

(** A text the authority decoder accepts is read as the same value. *)
Lemma json_loads_authority float_repr r v n :
  load_json_authority r = Ok v -> json_size float_repr v = Some n -> json_loads r = Ok v.
Proof.
  remember (raw_weight r) as m eqn:Hm. revert r Hm v n.
  induction (Nat.lt_wf_0 m) as [m _ IH]; intros r -> v n Hl Hs.
  assert (IH' : forall q w, (raw_weight q < raw_weight r)%nat -> load_json_authority q = Ok w ->
    is_Some (json_size float_repr w) -> json_loads q = Ok w).
  { intros q w Hq Hw [k Hk]. by eapply IH. }
  clear IH. destruct r as [|b|z|f|c|s|l|l]; cbn in Hl; inv_result; try done.
  - cbn in Hs |- *. by destruct (INT_MAX_STR_DIGITS <? int_digits z).
  - match goal with H : _ l = Ok ?x |- _ => rename x into vs, H into Hvs end. cbn [json_loads].
    assert (Hall : forall x, x ∈ vs -> is_Some (json_size float_repr x)).
    { intros x. by eapply json_size_item. }
    assert (Hin : forall x, x ∈ l -> (raw_weight x < raw_weight (RArr l))%nat) by (intros x; apply raw_weight_item).
    clear Hs. revert vs Hvs Hall Hin IH'. generalize (RArr l). intros top.
    intros vs Hvs Hall Hin IH'.
    assert (Hgo : foldr (fun x acc => v ← json_loads x; vs ← acc; Ok (v :: vs)) (Ok []) l = Ok vs);
      [|by rewrite Hgo].
    revert vs Hvs Hall. induction l as [|x l IHl]; intros vs Hvs Hall; inv_result; [done|]. cbn.
    rewrite (IH' x x0); [|by apply Hin, list_elem_of_here|done|by apply Hall, list_elem_of_here].
    cbn. rewrite (IHl ltac:(intros; by apply Hin, list_elem_of_further) x1); [done|done|].
    intros; by apply Hall, list_elem_of_further.
  - match goal with H : _ l = Ok ?x |- _ => rename x into vs, H into Hvs end.
    match goal with H : _reject_duplicate_json_object_pairs vs = Ok ?x |- _ => rename x into d, H into Hd end.
    apply no_duplicates_inserted in Hd as (Hd & _ & Hmem). cbn [json_loads].
    assert (Hall : forall p, p ∈ vs -> is_Some (json_size float_repr p.2)).
    { intros [k x] Hx. eapply json_size_member; [exact Hs|by apply Hmem]. }
    assert (Hin : forall p, p ∈ l -> (raw_weight p.2 < raw_weight (RObj l))%nat) by (intros p; apply raw_weight_member).
    unfold last_wins. rewrite <- Hd. clear Hs Hd Hmem. revert vs Hvs Hall Hin IH'. generalize (RObj l).
    intros top vs Hvs Hall Hin IH'.
    assert (Hgo : foldr (fun p acc => v ← json_loads p.2; vs ← acc; Ok ((p.1, v) :: vs)) (Ok []) l = Ok vs);
      [|by rewrite Hgo].
    revert vs Hvs Hall. induction l as [|[k x] l IHl]; intros vs Hvs Hall; inv_result; [done|]. cbn.
    rewrite (IH' x x0); [|by apply (Hin (k, x)), list_elem_of_here|done|].
    2: { by apply (Hall (k, x0)), list_elem_of_here. }
    cbn. rewrite (IHl ltac:(intros; by apply Hin, list_elem_of_further) x1); [done|done|].
    intros; by apply Hall, list_elem_of_further.
Qed.

(** What [json.dumps] has written, [json.loads] reads back. *)
Lemma json_loads_dump float_repr v r n :
  json_dump v = Ok r -> json_size float_repr v = Some n -> json_loads r = Ok v.
Proof. intros H. by eapply json_loads_authority, load_json_authority_dump. Qed.
