(* ===== verification/EventPolicy.v ===== *)
(** * Limits on user-authored events (session_event_policy.py)

    Three checks in front of the Session's event log: the size of the raw request
    body, before anything parses it ([middleware]); the event's type
    ([validate_user_event_type]); the nesting, the number of elements, the scalars
    and the encoded size of its payload ([validate_user_event_payload]). *)

From S2P Require Import Prelude PyFloat PyValue PyText JsonText.

Definition USER_EVENT_MAX_PAYLOAD_BYTES : Z := 8 * 1024.
Definition USER_EVENT_MAX_REQUEST_BYTES : Z := 64 * 1024.
Definition USER_EVENT_MAX_DEPTH : Z := 8.
Definition USER_EVENT_MAX_ELEMENTS : Z := 128.
Definition USER_EVENT_RESERVED_TYPE_PREFIXES : list string :=
  ["session."; "ingest."; "egress."; "relay."; "media_control."].

(** ** The event's type *)

Definition validate_user_event_type (event_type : string) : result unit :=
  let normalized := py_lower (py_strip event_type) in
  raise_if (existsb (fun p => String.prefix p normalized) USER_EVENT_RESERVED_TYPE_PREFIXES)
    UserEventTypeError.

Example reserved_types :
  (is_ok (validate_user_event_type "custom"), is_ok (validate_user_event_type "  Session.ready"),
   is_ok (validate_user_event_type "sessions.ready"), is_ok (validate_user_event_type "RELAY."))
  = (true, false, true, false).
Proof. vm_compute. reflexivity. Qed.

(** ** The payload's structure *)
Definition _validate_scalar (v : value) : result unit :=
  match v with
  | VFloat f => raise_if (negb (is_finite f)) UserEventPayloadError
  | _ => Ok tt
  end.

(** The values of a dict or the items of a list. *)
Definition children (v : value) : option (list value) :=
  match v with
  | VDict d => Some (map_to_list d).*2
  | VList l => Some l
  | _ => None
  end.

(** The inner loop: containers go on the stack, scalars are checked. *)
Fixpoint push_children (cs : list value) (depth : Z) (stack : list (value * Z))
    : result (list (value * Z)) :=
  match cs with
  | [] => Ok stack
  | c :: cs' =>
      match children c with
      | Some _ => push_children cs' depth ((c, depth + 1) :: stack)
      | None => _validate_scalar c ;; push_children cs' depth stack
      end
  end.

(** [while stack: ...]; [None] when the fuel is used up. *)
Fixpoint walk (fuel : nat) (stack : list (value * Z)) (elements : Z) : option (result unit) :=
  match fuel with
  | O => None
  | S fuel' =>
      match stack with
      | [] => Some (Ok tt)
      | (v, depth) :: rest =>
          match children v with
          | Some cs =>
              if USER_EVENT_MAX_DEPTH <? depth then Some (Err UserEventPayloadError)
              else
                let elements := elements + Z.of_nat (length cs) in
                if USER_EVENT_MAX_ELEMENTS <? elements then Some (Err UserEventPayloadError)
                else
                  match push_children cs depth rest with
                  | Ok stack => walk fuel' stack elements
                  | Err e => Some (Err e)
                  end
          | None =>
              match _validate_scalar v with
              | Ok _ => walk fuel' rest elements
              | Err e => Some (Err e)
              end
          end
      end
  end.

(** ** Its encoding

    [len(json.dumps(payload, ensure_ascii=False, allow_nan=False,
    separators=(",", ":")).encode("utf-8"))]. The shortest decimal text of a double,
    [float.__repr__], is a parameter; the order of the keys does not matter for the
    length. *)
Section encoding.
Context (float_repr : float -> string).

Definition validate_user_event_payload (payload : value) : option (result unit) :=
  match payload with
  | VDict _ =>
      checked ← walk (S (vsize payload)) [(payload, 1)] 0;
      Some (checked ;;
            match json_size float_repr payload with
            | None => Err UserEventPayloadError
            | Some n => raise_if (USER_EVENT_MAX_PAYLOAD_BYTES <? n) UserEventPayloadError
            end)
  | _ => Some (Err UserEventPayloadError)
  end.

Example sizes :
  json_size float_repr (VDict {["a" := VList [VInt (-10); VStr (String "034" "y"); VNull]; "b" := VBool true]}) = Some 31.
Proof. vm_compute. reflexivity. Qed.
End encoding.

(** ** Containers and their children *)
Fixpoint vdepth (v : value) : Z :=
  match v with
  | VList l => 1 + foldr (fun x acc => Z.max (vdepth x) acc) 0 l
  | VDict d => 1 + map_fold (fun _ x acc => Z.max (vdepth x) acc) 0 d
  | _ => 0
  end.

(** Entries of all the dicts and items of all the lists. *)
Fixpoint velements (v : value) : Z :=
  match v with
  | VList l => Z.of_nat (length l) + foldr (fun x acc => velements x + acc) 0 l
  | VDict d => Z.of_nat (size d) + map_fold (fun _ x acc => velements x + acc) 0 d
  | _ => 0
  end.

Lemma foldr_values {B} (f : value -> B -> B) (b : B) (l : list (string * value)) :
  foldr (fun p acc => f p.2 acc) b l = foldr f b l.*2.
Proof. induction l as [|p l IH]; cbn; congruence. Qed.

Lemma children_spec v cs :
  children v = Some cs ->
  vdepth v = 1 + foldr (fun x acc => Z.max (vdepth x) acc) 0 cs /\
  velements v = Z.of_nat (length cs) + foldr (fun x acc => velements x + acc) 0 cs /\
  vsize v = S (foldr (fun x acc => vsize x + acc)%nat 0%nat cs) /\
  serializable v = forallb serializable cs.
Proof.
  destruct v as [| | | | |l|d]; try done; cbn [children]; intros [= <-]; [done|].
  cbn [vdepth velements vsize serializable]. rewrite !map_fold_foldr.
  assert (Hlen : length (map_to_list d).*2 = size d) by (rewrite length_fmap; apply length_map_to_list).
  rewrite Hlen. generalize (map_to_list d). intros l.
  split; [f_equal|split; [f_equal|split; [f_equal|]]].
  - rewrite <- (foldr_values (fun x acc => Z.max (vdepth x) acc)). induction l as [|[k x] l IH]; cbn; congruence.
  - rewrite <- (foldr_values (fun x acc => velements x + acc)). induction l as [|[k x] l IH]; cbn; congruence.
  - rewrite <- (foldr_values (fun x acc => vsize x + acc)%nat). induction l as [|[k x] l IH]; cbn; congruence.
  - clear. induction l as [|[k x] l IH]; cbn; congruence.
Qed.

Lemma no_children v :
  children v = None ->
  vdepth v = 0 /\ velements v = 0 /\ is_ok (_validate_scalar v) = serializable v.
Proof. destruct v; try done. cbn. by destruct (is_finite f). Qed.

Lemma velements_nonneg v : 0 <= velements v.
Proof.
  induction v as [| | | | |l IH|d IH] using value_ind'; cbn [velements]; try lia.
  - assert (0 <= foldr (fun x acc => velements x + acc) 0 l); [|lia].
    induction IH; cbn; lia.
  - rewrite map_fold_foldr. apply map_Forall_to_list in IH.
    revert IH. generalize (map_to_list d). intros l Hl.
    assert (0 <= foldr (uncurry (fun (_ : string) x acc => velements x + acc)) 0 l); [|lia].
    induction Hl as [|[k x] l Hx _ IHl]; cbn in *; lia.
Qed.

Lemma sum_nonneg (l : list value) : 0 <= foldr (fun x acc => velements x + acc) 0 l.
Proof. induction l as [|x l IHl]; cbn; [lia|]. pose proof (velements_nonneg x). lia. Qed.

Lemma max_nonneg (l : list value) : 0 <= foldr (fun x acc => Z.max (vdepth x) acc) 0 l.
Proof. induction l; cbn; lia. Qed.

(** ** What the walk accepts *)
Definition good (p : value * Z) : Prop := p.2 + vdepth p.1 <= USER_EVENT_MAX_DEPTH + 1 /\ serializable p.1 = true.

Definition pending (stack : list (value * Z)) : Z := foldr (fun p acc => velements p.1 + acc) 0 stack.
Definition work (stack : list (value * Z)) : nat := foldr (fun p acc => vsize p.1 + acc)%nat 0%nat stack.

Definition container (p : value * Z) : Prop := is_Some (children p.1).

Lemma pending_nonneg stack : 0 <= pending stack.
Proof.
  unfold pending. induction stack as [|p rest IHr]; cbn; [lia|].
  pose proof (velements_nonneg p.1). lia.
Qed.

Lemma push_children_spec cs depth stack :
  depth <= USER_EVENT_MAX_DEPTH ->
  match push_children cs depth stack with
  | Ok stack' =>
      (Forall good stack' <-> Forall good stack /\ Forall (fun c => good (c, depth + 1)) cs) /\
      pending stack' = pending stack + foldr (fun x acc => velements x + acc) 0 cs /\
      (work stack' <= work stack + foldr (fun x acc => vsize x + acc) 0 cs)%nat /\
      (Forall container stack -> Forall container stack')
  | Err e => e = UserEventPayloadError /\ ~ Forall (fun c => good (c, depth + 1)) cs
  end.
Proof.
  intros Hd. revert stack. induction cs as [|c cs IH]; intros stack; cbn [push_children].
  { rewrite Forall_nil. cbn. split; [tauto|]. split; [lia|]. split; [lia|done]. }
  destruct (children c) as [cc|] eqn:Ec.
  - specialize (IH ((c, depth + 1) :: stack)). destruct (push_children _ _ _) as [st|e].
    + destruct IH as (Hg & Hp & Hw & Hc). rewrite Hg, !Forall_cons, Hp. cbn in *.
      unfold pending, work in *.
      split; [tauto|]. split; [lia|]. split; [lia|]. intros Hst. apply Hc. constructor; [by exists cc|done].
    + rewrite Forall_cons. tauto.
  - destruct (no_children c Ec) as (Hv & He & Hs).
    destruct (_validate_scalar c) as [[]|e] eqn:Esc; cbn [mbind result_bind].
    + specialize (IH stack). destruct (push_children _ _ _) as [st|e].
      * destruct IH as (Hg & Hp & Hw & Hct). rewrite Forall_cons, Hg, Hp. cbn. rewrite He.
        split; [|split; [lia|split; [lia|done]]].
        assert (Hc : good (c, depth + 1)); [|tauto]. split; cbn; [lia|]. by rewrite <- Hs.
      * rewrite Forall_cons. tauto.
    + split; [|rewrite Forall_cons; intros [[_ Hc] _]; cbn in Hc, Hs; by rewrite Hc in Hs].
      destruct c; try done. cbn in Esc. destruct (negb _); cbn in Esc; congruence.
Qed.

Lemma forall_good_children depth v cs :
  children v = Some cs -> depth <= USER_EVENT_MAX_DEPTH ->
  (Forall (fun c => good (c, depth + 1)) cs <-> good (v, depth)).
Proof.
  intros Hc Hd. destruct (children_spec _ _ Hc) as (Hv & _ & _ & Hs). unfold good. cbn.
  rewrite Hv, Hs. clear -Hd. induction cs as [|c cs IH]; cbn.
  { rewrite Forall_nil. split; [|done]. intros _. split; [lia|done]. }
  rewrite Forall_cons, IH, andb_true_iff. cbn. split.
  - intros ([? ?] & [? ?]). repeat split; try done; lia.
  - intros [? [? ?]]. repeat split; try done; lia.
Qed.

Lemma walk_spec fuel stack elements :
  (work stack < fuel)%nat -> elements <= USER_EVENT_MAX_ELEMENTS -> Forall container stack ->
  exists r, walk fuel stack elements = Some r /\
    (r = Ok tt <-> Forall good stack /\ elements + pending stack <= USER_EVENT_MAX_ELEMENTS) /\
    (r <> Ok tt -> r = Err UserEventPayloadError).
Proof.
  revert stack elements. induction fuel as [|fuel IH]; intros stack elements Hf He Hct; [lia|].
  cbn [walk]. destruct stack as [|[v depth] rest].
  { exists (Ok tt). split; [done|]. cbn. split; [|done]. split; [|done]. split; [constructor|lia]. }
  apply Forall_cons in Hct as [[cs Ec] Hct]. cbn in Ec.
  cbn [work foldr fst] in Hf. fold (work rest) in Hf. setoid_rewrite Forall_cons. cbn [pending foldr fst].
  fold (pending rest). rewrite Ec. destruct (children_spec _ _ Ec) as (Hv & Hel & Hsz & _).
  assert (Hstop : ~ (good (v, depth) /\ elements + velements v <= USER_EVENT_MAX_ELEMENTS) ->
    exists r, Some (Err UserEventPayloadError) = Some r /\
      (r = Ok tt <-> (good (v, depth) /\ Forall good rest) /\
         elements + (velements v + pending rest) <= USER_EVENT_MAX_ELEMENTS) /\
      (r <> Ok tt -> r = Err UserEventPayloadError)).
  { intros Hb. eexists; split; [done|]. split; [|done]. split; [done|].
    pose proof (pending_nonneg rest). intros [[? _] ?]. destruct Hb. split; [done|lia]. }
  pose proof (max_nonneg cs). pose proof (sum_nonneg cs).
  destruct (Z.ltb_spec USER_EVENT_MAX_DEPTH depth) as [Hd|Hd].
  { apply Hstop. intros [[Hg _] _]. cbn in Hg. lia. }
  cbv zeta. destruct (Z.ltb_spec USER_EVENT_MAX_ELEMENTS (elements + Z.of_nat (length cs))) as [Hm|Hm].
  { apply Hstop. intros [_ Hle]. lia. }
  pose proof (forall_good_children _ _ _ Ec Hd) as Hgc.
  pose proof (push_children_spec cs depth rest Hd) as Hpush.
  destruct (push_children cs depth rest) as [st|e].
  - destruct Hpush as (Hg & Hp & Hw & Hc).
    destruct (IH st (elements + Z.of_nat (length cs))) as (r & Hr & Hok & Herr); [lia|lia|auto|].
    exists r. split; [done|]. split; [|done]. rewrite Hok, Hg, Hp, Hel.
    split; intros [? ?]; split; try tauto; lia.
  - destruct Hpush as [-> Hbad]. eexists; split; [done|]. split; [|done]. split; [done|]. tauto.
Qed.

(** the walk over a payload terminates. Its measure is the number of values still
    on the stack: with more fuel than that it never runs out, and the result does not
    depend on the fuel; it accepts or raises [UserEventPayloadError]. *)
Theorem payload_walk_terminates stack :
  Forall container stack ->
  exists r, (r = Ok tt \/ r = Err UserEventPayloadError) /\
    forall fuel, (work stack < fuel)%nat -> walk fuel stack 0 = Some r.
Proof.
  intros Hc. destruct (walk_spec (S (work stack)) stack 0) as (r & Hr & Hok & Herr);
    [lia|unfold USER_EVENT_MAX_ELEMENTS; lia|done|].
  assert (Hcases : r = Ok tt \/ r = Err UserEventPayloadError).
  { destruct r as [[]|e]; [by left|right; by apply Herr]. }
  exists r. split; [done|]. intros fuel Hf.
  destruct (walk_spec fuel stack 0) as (r' & Hr' & Hok' & Herr');
    [lia|unfold USER_EVENT_MAX_ELEMENTS; lia|done|]. rewrite Hr'. f_equal.
  destruct r' as [[]|e']; [symmetry; tauto|]. specialize (Herr' ltac:(done)).
  destruct Hcases as [->| ->]; [|done]. tauto.
Qed.

(** C16: the iterative check is the budget. A payload is accepted exactly when it is an
    object nested at most eight deep, with at most 128 entries and items in all, whose
    numbers are finite, and whose compact encoding has at most 8192 bytes; the depth
    and the count are those of the recursive definitions [vdepth] and [velements]. *)
Theorem payload_check_is_the_budget float_repr payload :
  validate_user_event_payload float_repr payload = Some (Ok tt) <->
  is_dict payload = true /\ vdepth payload <= 8 /\ velements payload <= 128 /\
  serializable payload = true /\
  exists n, json_size float_repr payload = Some n /\ n <= 8192.
Proof.
  destruct payload as [| | | | | |d]; try (split; [done|by intros [? _]]).
  unfold validate_user_event_payload. cbn [is_dict]. generalize (json_size float_repr (VDict d)). intros size_.
  destruct (walk_spec (S (vsize (VDict d))) [(VDict d, 1)] 0) as (r & Hr & Hok & _).
  { cbn [work foldr fst]. lia. }
  { unfold USER_EVENT_MAX_ELEMENTS. lia. }
  { constructor; [by eexists|constructor]. }
  rewrite Forall_singleton in Hok. unfold good in Hok. cbn [fst snd pending foldr] in Hok.
  unfold USER_EVENT_MAX_DEPTH, USER_EVENT_MAX_ELEMENTS in Hok.
  rewrite Hr. cbn [mbind option_bind]. split.
  - intros H. injection H as H. apply result_bind_ok in H as ([] & -> & H).
    destruct (proj1 Hok eq_refl) as [[Hd Hs] Hp]. split; [done|]. split; [lia|]. split; [lia|].
    split; [done|]. destruct size_ as [n|]; [|done]. exists n. split; [done|].
    apply raise_if_ok, Z.ltb_ge in H. exact H.
  - intros (_ & Hd & Hp & Hs & n & Hn & Hle). rewrite (proj2 Hok) by (split; [split; [lia|done]|lia]).
    cbn [mbind result_bind]. subst size_. f_equal. apply raise_if_ok, Z.ltb_ge. exact Hle.
Qed.

(** A list within a list. *)
Definition nested : value := VList [VList [VInt 1; VNull]; VStr "x"].

Lemma payload_walk_terminates_witness :
  exists r, (r = Ok tt \/ r = Err UserEventPayloadError) /\ walk 6 [(nested, 1)] 0 = Some r.
Proof.
  destruct (payload_walk_terminates [(nested, 1)]) as (r & Hr & Hw).
  - constructor; [eexists; reflexivity|constructor].
  - exists r. split; [exact Hr|]. apply Hw. cbn. lia.
Defined.

(** ** The body of the request *)

(** What the server delivers: [http.request] with a chunk ([None] when it is not
    [bytes]; an absent body is empty), [http.disconnect], or anything else. *)
Inductive asgi_message : Type :=
| HttpRequest (body : option string) (more_body : bool)
| HttpDisconnect
| OtherMessage (type : string).

Record scope : Type := Scope {
  scope_type : string;
  scope_method : string;
  scope_path : string;
  scope_headers : list (string * string)
}.

(** [s.split("/")] *)
Fixpoint split_slash (s : string) : list string :=
  match s with
  | EmptyString => [""]
  | String c s' =>
      if Ascii.eqb c "/" then "" :: split_slash s'
      else match split_slash s' with
           | [] => [String c ""]
           | part :: parts => String c part :: parts
           end
  end.

Definition upper_ascii (c : Ascii.ascii) : Ascii.ascii :=
  let n := byte_code c in
  if (97 <=? n) && (n <=? 122) then Ascii.ascii_of_N (Z.to_N (n - 32)) else c.

(** [path[:-1]] of a path that ends in a slash and is longer than one. *)
Definition drop_last (s : string) : string := String.substring 0 (String.length s - 1) s.
Definition ends_in_slash (s : string) : bool :=
  match String.get (String.length s - 1) s with Some c => Ascii.eqb c "/" | None => false end.

Fixpoint map_text (f : Ascii.ascii -> Ascii.ascii) (s : string) : string :=
  match s with EmptyString => EmptyString | String c s' => String (f c) (map_text f s') end.

(** The method of a request is an ASCII token. *)
Definition _is_user_event_post (s : scope) : bool :=
  if negb (String.eqb (scope_type s) "http") ||
     negb (String.eqb (map_text upper_ascii (scope_method s)) "POST") then false
  else
    let path := scope_path s in
    let path := if ends_in_slash path && negb (String.eqb path "/") then drop_last path else path in
    match split_slash path with
    | [a; b; c; d; e] =>
        str_empty a && String.eqb b "v1" && String.eqb c "sessions" &&
        negb (str_empty d) && String.eqb e "events"
    | _ => false
    end.

(** [int(raw.strip())] of bytes: only the ASCII blanks of C are blanks, other bytes
    and more than 4300 digits are refused. *)
Definition int_of_bytes (raw : string) : option Z :=
  let bytes := String.list_ascii_of_string raw in
  let plain c := (byte_code c <? 128) && negb ((28 <=? byte_code c) && (byte_code c <=? 31)) in
  let is_digit c := match digit_of c with Some _ => true | None => false end in
  if forallb plain bytes &&
     (Z.of_nat (length (List.filter is_digit bytes)) <=? INT_MAX_STR_DIGITS)
  then int_of_text raw else None.

Definition _declared_body_exceeds_limit (s : scope) (limit : Z) : bool :=
  existsb (fun h =>
      String.eqb (map_text lower_ascii h.1) "content-length" &&
      match int_of_bytes h.2 with Some declared => limit <? declared | None => false end)
    (scope_headers s).

Inductive admission : Type :=
| PassThrough                                   (* not a user event: the app reads on *)
| TooLarge                                      (* answered with 413 *)
| Deliver (body : string) (disconnected : bool) (unread : list asgi_message)
                                                (* handed to the application *)
| Receiving.                                    (* the client has not finished *)

(** [while True: message = await receive() ...]; the list is what arrives. *)
Fixpoint receive_body (limit : Z) (buffered : string) (messages : list asgi_message) : admission :=
  match messages with
  | [] => Receiving
  | HttpDisconnect :: rest => Deliver buffered true rest
  | OtherMessage _ :: rest => receive_body limit buffered rest
  | HttpRequest None _ :: _ => TooLarge
  | HttpRequest (Some chunk) more_body :: rest =>
      if limit - Z.of_nat (String.length buffered) <? Z.of_nat (String.length chunk) then TooLarge
      else
        let buffered := String.append buffered chunk in
        if more_body then receive_body limit buffered rest else Deliver buffered false rest
  end.

Definition middleware (limit : Z) (s : scope) (messages : list asgi_message) : admission :=
  if negb (_is_user_event_post s) then PassThrough
  else if _declared_body_exceeds_limit s limit then TooLarge
  else receive_body limit "" messages.

(** [buffered_receive]: what the application receives, when it asks. *)
Definition replayed (body : string) (disconnected : bool) (unread : list asgi_message)
    : list asgi_message :=
  HttpRequest (Some body) disconnected ::
  (if disconnected then [HttpDisconnect] else []) ++ unread.

(** The chunks of these messages, joined. *)
Fixpoint bodies (messages : list asgi_message) : string :=
  match messages with
  | [] => ""
  | HttpRequest (Some chunk) _ :: rest => String.append chunk (bodies rest)
  | _ :: rest => bodies rest
  end.

Lemma receive_body_spec limit buffered ms :
  Z.of_nat (String.length buffered) <= limit ->
  match receive_body limit buffered ms with
  | Deliver body disconnected unread =>
      Z.of_nat (String.length body) <= limit /\
      exists pre m, ms = pre ++ m :: unread /\ body = String.append buffered (bodies (pre ++ [m])) /\
        (if disconnected then m = HttpDisconnect else exists chunk, m = HttpRequest (Some chunk) false)
  | TooLarge => exists pre m unread, ms = pre ++ m :: unread /\
      ((exists more, m = HttpRequest None more) \/
       limit < Z.of_nat (String.length (String.append buffered (bodies (pre ++ [m])))))
  | Receiving => Z.of_nat (String.length (String.append buffered (bodies ms))) <= limit
  | PassThrough => False
  end.
Proof.
  revert buffered. induction ms as [|m ms IH]; intros buffered Hb; cbn [receive_body bodies].
  { by rewrite append_nil. }
  destruct m as [[chunk|] more| |type].
  - destruct (Z.ltb_spec (limit - Z.of_nat (String.length buffered)) (Z.of_nat (String.length chunk))) as [Hl|Hl].
    { exists [], (HttpRequest (Some chunk) more), ms. split; [done|]. right. cbn.
      rewrite append_nil, length_append. lia. }
    cbv zeta. assert (Hb' : Z.of_nat (String.length (String.append buffered chunk)) <= limit)
      by (rewrite length_append; lia).
    destruct more.
    + specialize (IH _ Hb'). destruct (receive_body _ _ ms) as [| |body d unread|]; try done.
      * destruct IH as (pre & m & unread & -> & Hm). exists (HttpRequest (Some chunk) true :: pre), m, unread.
        split; [done|]. cbn [app bodies]. by rewrite append_assoc.
      * destruct IH as (Hlen & pre & m & -> & -> & Hd). split; [done|].
        exists (HttpRequest (Some chunk) true :: pre), m. cbn [app bodies]. by rewrite append_assoc.
      * by rewrite append_assoc.
    + split; [done|]. exists [], (HttpRequest (Some chunk) false). cbn.
      rewrite append_nil. split; [done|]. split; [done|]. by exists chunk.
  - exists [], (HttpRequest None more), ms. split; [done|]. left. by exists more.
  - split; [done|]. exists [], HttpDisconnect. cbn. by rewrite append_nil.
  - specialize (IH _ Hb). destruct (receive_body _ _ ms) as [| |body d unread|]; try done.
    + destruct IH as (pre & m & unread & -> & Hm). by exists (OtherMessage type :: pre), m, unread.
    + destruct IH as (Hlen & pre & m & -> & -> & Hd). split; [done|].
      by exists (OtherMessage type :: pre), m.
Qed.

(** the application never sees more than the limit of the body of a user event. What
    it is handed is exactly what the client sent up to its last chunk or its
    disconnection, and fits the limit; a request is refused only if its declared length
    exceeds the limit, a chunk is not bytes, or what was received exceeds it. *)
Theorem user_event_body_is_bounded limit s ms :
  0 <= limit -> _is_user_event_post s = true ->
  match middleware limit s ms with
  | Deliver body disconnected unread =>
      Z.of_nat (String.length body) <= limit /\
      exists pre m, ms = pre ++ m :: unread /\ body = bodies (pre ++ [m]) /\
        (if disconnected then m = HttpDisconnect else exists chunk, m = HttpRequest (Some chunk) false)
  | TooLarge => _declared_body_exceeds_limit s limit = true \/
      exists pre m unread, ms = pre ++ m :: unread /\
      ((exists more, m = HttpRequest None more) \/
       limit < Z.of_nat (String.length (bodies (pre ++ [m]))))
  | Receiving => Z.of_nat (String.length (bodies ms)) <= limit
  | PassThrough => False
  end.
Proof.
  intros Hl Hs. unfold middleware. rewrite Hs. cbn [negb].
  destruct (_declared_body_exceeds_limit s limit); [by left|].
  pose proof (receive_body_spec limit "" ms ltac:(cbn; lia)) as Hr.
  destruct (receive_body limit "" ms); try done. by right.
Qed.

Definition demo_scope : scope :=
  Scope "http" "post" "/v1/sessions/s1/events/" [("Content-Length", " 3 ")].

Lemma user_event_body_is_bounded_witness :
  exists pre m, [HttpRequest (Some "{") true; OtherMessage "x"; HttpRequest (Some "}") false] = pre ++ [m] /\
    "{}" = bodies (pre ++ [m]).
Proof.
  destruct (user_event_body_is_bounded 65536 demo_scope
    [HttpRequest (Some "{") true; OtherMessage "x"; HttpRequest (Some "}") false])
    as (_ & pre & m & He & Hb & _); [lia|vm_compute; reflexivity|].
  by exists pre, m.
Defined.
