(* ===== verification/RateLimit.v ===== *)
(** * Authentication rate limit (auth_rate_limit.py)

    Two fixed windows per client address and account bound the attempts that may
    reach the password verification. The counters of all processes are in sharded
    files under a directory whose owner and mode are checked on the way; the key of
    a pair is an HMAC under a secret of that directory.

    [host] is what one call sees of the operating system: the shards, the secret, and
    oracles indexed by a step counter for everything else: which system call fails
    and how, what [stat] answers, what an interrupted write leaves behind, what
    another process does to the secret during a wait. The lock on a shard makes the
    reading, charging and writing of one call a unit, so the calls of all processes
    are one sequence. *)

From S2P Require Import Prelude PyFloat Sha256 PyValue Json Effects Uuid PyText JsonText.

(** ** Configuration *)
Definition DEFAULT_BURST_LIMIT : Z := 10.
Definition DEFAULT_BURST_WINDOW_SECONDS : float := of_Z 60.
Definition DEFAULT_SUSTAINED_LIMIT : Z := 30.
Definition DEFAULT_SUSTAINED_WINDOW_SECONDS : float := of_Z 600.
Definition MAX_ATTEMPT_LIMIT : Z := 10000.
Definition MIN_WINDOW_SECONDS : float := fone.
Definition MAX_WINDOW_SECONDS : float := of_Z 86400.
Definition DEFAULT_SHARD_COUNT : Z := 16.
Definition MAX_SHARD_COUNT : Z := 256.
Definition DEFAULT_MAX_TRACKED_KEYS_PER_SHARD : Z := 4096.
Definition MAX_TRACKED_KEYS_PER_SHARD_LIMIT : Z := 65536.
Definition DEFAULT_ADMISSION_DIR : string := "/tmp/irlight-auth-rate-limit".
Definition SECRET_HEX_LENGTH : nat := 64.
Definition SECRET_READ_ATTEMPTS : nat := 50.
Definition CREATE_RETRY_ATTEMPTS : nat := 25.
Definition MAX_STATE_FILE_BYTES : Z := 4 * 1024 * 1024.
Definition ATTEMPT_KEY_CHARS : nat := 32.
Definition WINDOW_COUNT : nat := 2.

Definition _validated_bounded_int (v : value) (minimum maximum : Z) : result Z :=
  match v with
  | VInt z => if (z <? minimum) || (maximum <? z) then Err ValueError else Ok z
  | _ => Err ValueError
  end.

Definition _validated_limit (v : value) : result Z := _validated_bounded_int v 1 MAX_ATTEMPT_LIMIT.

(** [float(value)] of an [int] beyond the doubles raises [OverflowError]. *)
Definition _validated_window (v : value) : result float :=
  match v with
  | VInt _ | VFloat _ =>
      match number_as_float v with
      | None => Err OverflowError
      | Some window =>
          if negb (is_finite window) || flt window MIN_WINDOW_SECONDS || flt MAX_WINDOW_SECONDS window
          then Err ValueError else Ok window
      end
  | _ => Err ValueError
  end.

Definition is_absolute (path : string) : bool := String.prefix "/" path.

Record AuthRateLimitConfig : Type := Config {
  burst_limit : Z;
  burst_window_seconds : float;
  sustained_limit : Z;
  sustained_window_seconds : float;
  shard_count : Z;
  max_tracked_keys_per_shard : Z;
  directory : string
}.

(** The constructor, with [__post_init__]. The windows are kept as [windows] reads
    them, converted to [float]. *)
Definition make_config (burst burst_seconds sustained sustained_seconds shards tracked : value)
    (directory : string) : result AuthRateLimitConfig :=
  b ← _validated_limit burst;
  s ← _validated_limit sustained;
  bw ← _validated_window burst_seconds;
  sw ← _validated_window sustained_seconds;
  n ← _validated_bounded_int shards 1 MAX_SHARD_COUNT;
  k ← _validated_bounded_int tracked 1 MAX_TRACKED_KEYS_PER_SHARD_LIMIT;
  raise_if (negb (is_absolute directory)) ValueError ;;
  Ok (Config b bw s sw n k directory).

Definition windows (c : AuthRateLimitConfig) : list (Z * float) :=
  [(burst_limit c, burst_window_seconds c); (sustained_limit c, sustained_window_seconds c)].

Definition _env_int (env : environ) (name : string) (dflt minimum maximum : Z) : Z :=
  match getenv_int env name dflt with
  | Some parsed => if (parsed <? minimum) || (maximum <? parsed) then dflt else parsed
  | None => dflt
  end.

Definition _env_float (env : environ) (name : string) (dflt minimum maximum : float) : float :=
  match getenv_float env name dflt with
  | Some parsed => if negb (is_finite parsed) || flt parsed minimum || flt maximum parsed
                   then dflt else parsed
  | None => dflt
  end.

Definition _env_directory (env : environ) (name dflt : string) : string :=
  let candidate := default dflt (env name) in
  if is_absolute candidate then candidate else dflt.

Definition config_from_env (env : environ) : result AuthRateLimitConfig :=
  make_config
    (VInt (_env_int env "IRLIGHT_AUTH_RATE_LIMIT_BURST_LIMIT" DEFAULT_BURST_LIMIT 1 MAX_ATTEMPT_LIMIT))
    (VFloat (_env_float env "IRLIGHT_AUTH_RATE_LIMIT_BURST_WINDOW_SECONDS"
               DEFAULT_BURST_WINDOW_SECONDS MIN_WINDOW_SECONDS MAX_WINDOW_SECONDS))
    (VInt (_env_int env "IRLIGHT_AUTH_RATE_LIMIT_SUSTAINED_LIMIT" DEFAULT_SUSTAINED_LIMIT 1
             MAX_ATTEMPT_LIMIT))
    (VFloat (_env_float env "IRLIGHT_AUTH_RATE_LIMIT_SUSTAINED_WINDOW_SECONDS"
               DEFAULT_SUSTAINED_WINDOW_SECONDS MIN_WINDOW_SECONDS MAX_WINDOW_SECONDS))
    (VInt DEFAULT_SHARD_COUNT) (VInt DEFAULT_MAX_TRACKED_KEYS_PER_SHARD)
    (_env_directory env "IRLIGHT_AUTH_RATE_LIMIT_DIR" DEFAULT_ADMISSION_DIR).

(** ** The key of a client and an account *)

Definition _normalize_email (email : value) : string :=
  match email with VStr s => py_lower (py_strip s) | _ => EmptyString end.

Definition _attempt_key (secret : list Z) (address : option string) (email : value) : string :=
  let client := match address with Some a => if str_empty a then "-" else a | None => "-" end in
  let material := String.append client (String "000"%char (_normalize_email email)) in
  py_take ATTEMPT_KEY_CHARS (hexdigest (hmac_sha256 secret (bytes_of material))).

Definition _shard_name (key : string) (shard_count : Z) : string :=
  let n := default 0 (int_of_hex (py_take 8 key)) in
  String.append "shard-" (String.append (pretty.pretty (n mod shard_count)) ".json").

(** ** The counters of a shard *)
Record window : Type := Window { reset_at : float; count : Z }.
Abbreviation table := (gmap string (list window)).

Definition _validated_window_record (v : value) : option window :=
  match v with
  | VDict record =>
      reset ← nonneg_number (py_get record "reset_at");
      count ← nonneg_int (py_get record "count");
      Some (Window reset count)
  | _ => None
  end.

(** One entry of [keys]; [None] makes the whole table empty. *)
Definition validated_entry (key : string) (v : value) : option (list window) :=
  match v with
  | VList ws =>
      if str_empty key || Nat.ltb ATTEMPT_KEY_CHARS (py_len key) ||
         negb (Nat.eqb (length ws) WINDOW_COUNT) then None
      else mapM _validated_window_record ws
  | _ => None
  end.

Definition _validated_state (payload : value) : table :=
  match payload with
  | VDict payload =>
      match py_get payload "keys" with
      | VDict keys =>
          if forallb (fun p => bool_decide (is_Some (validated_entry p.1 p.2))) (map_to_list keys)
          then map_imap validated_entry keys else ∅
      | _ => ∅
      end
  | _ => ∅
  end.

Definition encode_window (r : window) : value :=
  VDict (list_to_map [("reset_at", VFloat (reset_at r)); ("count", VInt (count r))]).

Definition encode_table (keys : table) : value :=
  VDict {["keys" := VDict ((fun ws => VList (encode_window <$> ws)) <$> keys)]}.

Definition expired (now : float) (r : window) : bool := fle (reset_at r) now.

Definition _purge_expired (keys : table) (now : float) : table :=
  omap (fun ws => if forallb (expired now) ws then None else Some ws) keys.

(** [max] of a non-empty list. *)
Definition max_float (l : list float) : float :=
  match l with x :: l' => foldl fmax x l' | [] => fzero end.

(** [max(1, math.ceil(release - now))] *)
Definition retry_delay (release now : float) : Z := Z.max 1 (fceil (fsub release now)).

(** Called on a full table, which is not empty: a configured table has room for one
    key at least. *)
Definition _earliest_release (keys : table) (now : float) : Z :=
  let releases := map_fold (fun _ ws acc => max_float (reset_at <$> ws) :: acc) [] keys in
  match releases with
  | x :: l => retry_delay (foldl fmin x l) now
  | [] => 1
  end.

(** The loop over the configured windows: the records, what blocks, whether one was
    opened again. *)
Fixpoint open_windows (now : float) (limits : list (Z * float)) (ws : list window)
    : list window * list float * bool :=
  match limits, ws with
  | (limit, window_seconds) :: limits', record :: ws' =>
      let again := expired now record in
      let record := if again then Window (fadd now window_seconds) 0 else record in
      let '(ws', blocked_until, changed) := open_windows now limits' ws' in
      (record :: ws', if limit <=? count record then reset_at record :: blocked_until else blocked_until,
       again || changed)
  | _, _ => (ws, [], false)
  end.

Definition charge (r : window) : window := Window (reset_at r) (count r + 1).

(** Whether the attempt is allowed, the retry delay, whether the table changed, and
    the table, which the source updates in place. *)
Definition _register_attempt (keys : table) (key : string) (now : float)
    (config : AuthRateLimitConfig) : bool * Z * bool * table :=
  let live := _purge_expired keys now in
  let purged := negb (Nat.eqb (size live) (size keys)) in
  let '(tracked, added) := match live !! key with
                           | Some ws => (Some ws, false)
                           | None =>
                               if max_tracked_keys_per_shard config <=? Z.of_nat (size live)
                               then (None, false)
                               else (Some (replicate WINDOW_COUNT (Window now 0)), true)
                           end in
  match tracked with
  | None => (false, _earliest_release live now, purged, live)
  | Some ws =>
      let '(ws, blocked_until, opened) := open_windows now (windows config) ws in
      match blocked_until with
      | [] => (true, 0, true, <[key := charge <$> ws]> live)
      | _ => (false, retry_delay (max_float blocked_until) now, purged || added || opened,
              <[key := ws]> live)
      end
  end.

(** ** The operating system *)
Inductive os_error : Type := ENOENT | EEXIST | OtherError.
Inductive target : Type := Directory | Entry (name : string).

Record stat_result : Type := Stat { st_mode : Z; st_uid : Z; st_dev : Z; st_ino : Z }.

(** The bytes of a shard: blank, not the text of a JSON document, or a document and
    its size. *)
Inductive content : Type :=
| Blank
| Damaged
| Document (r : raw) (size : Z).

Record host : Type := Host {
  shards : gmap string content;
  secret : option string;
  steps : nat;
  euid : Z;
  wall : nat -> float;
  fault : nat -> option os_error;
  stat_of : nat -> target -> stat_result;
  token_hex : nat -> string;
  torn : nat -> content;
  cut : nat -> nat;
  peer : nat -> option string -> option string
}.

Abbreviation HM := (M host).

Definition set_shard (name : string) (c : content) (h : host) : host :=
  Host (<[name := c]> (shards h)) (secret h) (steps h) (euid h) (wall h) (fault h) (stat_of h)
    (token_hex h) (torn h) (cut h) (peer h).
Definition set_secret (s : option string) (h : host) : host :=
  Host (shards h) s (steps h) (euid h) (wall h) (fault h) (stat_of h)
    (token_hex h) (torn h) (cut h) (peer h).
Definition next_step (h : host) : host :=
  Host (shards h) (secret h) (S (steps h)) (euid h) (wall h) (fault h) (stat_of h)
    (token_hex h) (torn h) (cut h) (peer h).

(** One system call: its error, if it fails. *)
Definition attempt : HM (option os_error) := fun h => (Ok (fault h (steps h)), next_step h).
Definition syscall : HM unit :=
  e ← attempt; match e with Some _ => raise OSError | None => mret tt end.
Definition read_host {A} (f : host -> A) : HM A := fun h => (Ok (f h), h).
Definition change_host (f : host -> host) : HM unit := fun h => (Ok tt, f h).

Definition os_stat (t : target) : HM stat_result :=
  syscall ;; read_host (fun h => stat_of h (steps h) t).

Definition os_close : HM unit := syscall.

(** [time.sleep] while another process may be writing the secret. *)
Definition wait_for_peers : HM unit :=
  change_host (fun h => next_step (set_secret (peer h (steps h) (secret h)) h)).

Definition unavailable {A} : HM A := raise AuthRateLimitUnavailable.

(** ** The boundary *)
Definition file_type (st : stat_result) : Z := Z.land (st_mode st) 61440.
Definition private (uid : Z) (st : stat_result) : bool :=
  (st_uid st =? uid) && (Z.land (st_mode st) 63 =? 0).

(** [S_ISLNK], [S_ISDIR], [S_ISREG] *)
Definition _safe_directory (uid : Z) (st : stat_result) : bool :=
  negb (file_type st =? 40960) && (file_type st =? 16384) && private uid st.
Definition _safe_file (uid : Z) (st : stat_result) : bool :=
  (file_type st =? 32768) && private uid st.

Definition _same_file (left right : stat_result) : bool :=
  (st_dev left =? st_dev right) && (st_ino left =? st_ino right).

(** The handlers around an open descriptor: close it, and fail closed. *)
Definition close_on_error {A} (body : HM A) : HM A :=
  catch body (fun e =>
    match e with
    | AuthRateLimitUnavailable => os_close ;; raise e
    | OSError => catch os_close (fun e' => match e' with OSError => mret tt | _ => raise e' end) ;;
                 unavailable
    | _ => raise e
    end).

Definition os_error_unavailable {A} (body : HM A) : HM A :=
  catch body (fun e => match e with OSError => unavailable | _ => raise e end).

Definition _open_directory : HM unit :=
  path_stat ← os_error_unavailable (syscall ;; os_stat Directory);     (* mkdir, lstat *)
  uid ← read_host euid;
  guard_err (negb (_safe_directory uid path_stat)) AuthRateLimitUnavailable ;;
  os_error_unavailable syscall ;;                                      (* open *)
  close_on_error (
    opened_stat ← os_stat Directory;
    guard_err (negb (_safe_directory uid opened_stat) || negb (_same_file path_stat opened_stat))
      AuthRateLimitUnavailable).

(** [os.open(name, O_CREAT ...)] until it does not report [ENOENT]: the error that is
    raised, or [None] for a descriptor. *)
Fixpoint create_in (attempts : nat) (open : HM (option os_error)) : HM (option os_error) :=
  match attempts with
  | O => mret (Some ENOENT)
  | S attempts' =>
      e ← open;
      match e with
      | Some ENOENT => create_in attempts' open
      | _ => mret e
      end
  end.

Definition _create_in_directory (open : HM (option os_error)) : HM (option os_error) :=
  create_in CREATE_RETRY_ATTEMPTS open.

Definition open_shard_file (name : string) : HM (option os_error) :=
  e ← attempt;
  match e with
  | Some _ => mret e
  | None =>
      change_host (fun h => match shards h !! name with
                            | Some _ => h
                            | None => set_shard name Blank h
                            end) ;;
      mret None
  end.

Definition _open_shard (name : string) : HM unit :=
  e ← _create_in_directory (open_shard_file name);
  match e with
  | Some _ => unavailable
  | None =>
      close_on_error (
        uid ← read_host euid;
        st ← os_stat (Entry name);
        guard_err (negb (_safe_file uid st)) AuthRateLimitUnavailable ;;
        directory_stat ← os_stat Directory;
        path_stat ← os_stat (Entry name);
        st ← (if _safe_directory uid directory_stat && _safe_file uid path_stat
              then s ← os_stat (Entry name); mret (Some s) else mret None);
        guard_err (match st with Some s => negb (_same_file s path_stat) | None => true end)
          AuthRateLimitUnavailable)
  end.

(** ** The secret *)

(** [bytes.fromhex(raw.decode("ascii"))], which skips blanks between the bytes. *)
Fixpoint from_hex (s : string) : option (list Z) :=
  match s with
  | EmptyString => Some []
  | String c s1 =>
      let n := byte_code c in
      if ((9 <=? n) && (n <=? 13)) || (n =? 32) then from_hex s1
      else match hex_value c, s1 with
           | Some a, String d s2 =>
               b ← hex_value d; rest ← from_hex s2; Some (16 * a + b :: rest)
           | _, _ => None
           end
  end.

(** [None] is [FileNotFoundError]. *)
Definition _read_secret_file : HM (option string) :=
  e ← attempt;
  match e with
  | Some ENOENT => mret None
  | Some _ => raise OSError
  | None =>
      s ← read_host secret;
      match s with
      | None => mret None
      | Some _ =>
          finally (
            uid ← read_host euid;
            st ← os_stat (Entry "rate-limit.secret");
            guard_err (negb (_safe_file uid st)) AuthRateLimitUnavailable ;;
            syscall ;;
            s ← read_host secret;
            mret (String.substring 0 (S SECRET_HEX_LENGTH) <$> s))
            os_close
      end
  end.

Definition open_new_secret : HM (option os_error) :=
  e ← attempt;
  match e with
  | Some _ => mret e
  | None =>
      s ← read_host secret;
      match s with
      | Some _ => mret (Some EEXIST)
      | None => change_host (set_secret (Some EmptyString)) ;; mret None
      end
  end.

(** Write the token: interrupted, it leaves the beginning of it. *)
Definition write_secret (token : string) : HM unit :=
  e ← attempt;
  match e with
  | None => change_host (set_secret (Some token))
  | Some _ =>
      change_host (fun h => set_secret (Some (String.substring 0 (cut h (steps h)) token)) h) ;;
      raise OSError
  end.

Definition create_secret : HM (list Z) :=
  finally (os_error_unavailable (
    uid ← read_host euid;
    st ← os_stat (Entry "rate-limit.secret");
    guard_err (negb (_safe_file uid st)) AuthRateLimitUnavailable ;;
    token ← read_host (fun h => token_hex h (steps h));
    write_secret token ;;
    syscall ;;                                                         (* fsync *)
    match from_hex token with Some bytes => mret bytes | None => unavailable end))
    os_close.

Fixpoint await_secret (attempts : nat) : HM (list Z) :=
  match attempts with
  | O => unavailable
  | S attempts' =>
      raw ← os_error_unavailable _read_secret_file;
      let raw := default EmptyString raw in
      if Nat.eqb (String.length raw) SECRET_HEX_LENGTH then
        match from_hex raw with Some bytes => mret bytes | None => unavailable end
      else
        (if Nat.eqb attempts' 0 then mret tt else wait_for_peers) ;;
        await_secret attempts'
  end.

Definition _load_secret : HM (list Z) :=
  e ← _create_in_directory open_new_secret;
  match e with
  | None => create_secret
  | Some EEXIST => await_secret SECRET_READ_ATTEMPTS
  | Some _ => unavailable
  end.

(** ** One attempt *)
Definition table_of (c : option content) : table :=
  match c with
  | Some (Document r size) =>
      if MAX_STATE_FILE_BYTES <? size then ∅
      else match json_loads r with Ok v => _validated_state v | Err _ => ∅ end
  | _ => ∅
  end.

(** The loop of reads is one step. *)
Definition _read_shard (name : string) : HM table :=
  syscall ;; syscall ;; read_host (fun h => table_of (shards h !! name)).

Definition _validated_now (now : option value) : HM float :=
  candidate ← match now with
              | Some v => mret v
              | None => t ← read_host (fun h => wall h (steps h)); mret (VFloat t)
              end;
  match nonneg_number candidate with Some f => mret f | None => unavailable end.

Section enforce.
Context (float_repr : float -> string).

(** Until the file has been cut to its new length, what it holds is anything. *)
Definition _write_shard (name : string) (keys : table) : HM unit :=
  match json_dump (encode_table keys), json_size float_repr (encode_table keys) with
  | Ok r, Some size =>
      syscall ;;                                                       (* lseek *)
      e ← attempt;                                                     (* write *)
      change_host (fun h => set_shard name (torn h (steps h)) h) ;;
      guard_err (bool_decide (is_Some e)) OSError ;;
      syscall ;;                                                       (* ftruncate *)
      change_host (set_shard name (Document r size)) ;;
      syscall                                                          (* fsync *)
  | _, _ => unavailable
  end.

Definition _enforce_rate_limit (cfg : AuthRateLimitConfig) (client_address : option string)
    (email : value) (current : float) : HM unit :=
  _open_directory ;;
  outcome ← finally (
    secret ← _load_secret;
    let key := _attempt_key secret client_address email in
    let shard_name := _shard_name key (shard_count cfg) in
    _open_shard shard_name ;;
    finally (
      syscall ;;                                                       (* flock *)
      finally (
        keys ← _read_shard shard_name;
        let '(allowed, retry_after, changed, keys) := _register_attempt keys key current cfg in
        (if changed : bool then _write_shard shard_name keys else mret tt) ;;
        mret (allowed, retry_after))
        syscall)
      os_close)
    os_close;
  guard_err (negb outcome.1) (AuthRateLimitExceeded outcome.2).

Definition enforce_authentication_rate_limit (cfg : AuthRateLimitConfig)
    (client_address : option string) (email : value) (now : option value) : HM unit :=
  current ← _validated_now now;
  os_error_unavailable (_enforce_rate_limit cfg client_address email current).
End enforce.
