(* ===== verification/RateLimitTheorems.v ===== *)
(** * Authentication rate limit: theorems

    What a call does to the counters, whatever the operating system answers; how many
    attempts a key can make; when it can make them again. *)

From S2P Require Import Prelude PyFloat Sha256 PyValue Json Effects Uuid PyText JsonText.
From S2P Require Import RateLimit.

(** ** Tables that validate *)
Definition window_ok (r : window) : Prop :=
  is_finite (reset_at r) = true /\ flt (reset_at r) fzero = false /\ 0 <= count r.

Definition entry_ok (key : string) (ws : list window) : Prop :=
  key <> EmptyString /\ (py_len key <= ATTEMPT_KEY_CHARS)%nat /\
  length ws = WINDOW_COUNT /\ Forall window_ok ws.

Definition table_ok (keys : table) : Prop := map_Forall entry_ok keys.

Lemma validated_window_ok v r : _validated_window_record v = Some r -> window_ok r.
Proof.
  destruct v as [| | | | | |d]; try done. cbn. destruct (nonneg_number _) as [f|] eqn:Hf; [|done]. cbn.
  destruct (nonneg_int _) as [n|] eqn:Hn; [|done]. intros [= <-].
  apply nonneg_number_spec in Hf as [??]. split; [done|]. split; [done|]. cbn.
  destruct (py_get d "count"); try done. cbn in Hn. destruct (z <? 0) eqn:E; [done|].
  injection Hn as <-. by apply Z.ltb_ge.
Qed.

Lemma py_get_window r :
  let d := list_to_map [("reset_at", VFloat (reset_at r)); ("count", VInt (count r))] in
  py_get d "reset_at" = VFloat (reset_at r) /\ py_get d "count" = VInt (count r).
Proof. split; unfold py_get; by dict_lookup. Qed.

Lemma validated_window_encoded r : window_ok r -> _validated_window_record (encode_window r) = Some r.
Proof.
  intros (Hf & Hp & Hn). destruct (py_get_window r) as [E1 E2].
  unfold encode_window in *. cbn [_validated_window_record]. rewrite E1, E2, nonneg_number_float by done. cbn. apply Z.ltb_ge in Hn. rewrite Hn. by destruct r.
Qed.

Lemma validated_entry_ok k v ws : validated_entry k v = Some ws -> entry_ok k ws.
Proof.
  destruct v as [| | | | |l|]; try done. cbn [validated_entry].
  destruct (str_empty k) eqn:Hk; [done|]. destruct (Nat.ltb _ _) eqn:Hl; [done|].
  destruct (Nat.eqb _ _) eqn:Hw; [|done]. cbn. intros H.
  apply str_empty_false in Hk. apply Nat.ltb_ge in Hl. apply Nat.eqb_eq in Hw.
  apply mapM_Some in H. repeat split; try done.
  - by rewrite <- (Forall2_length _ _ _ H).
  - apply Forall_forall. intros r Hr. apply list_elem_of_lookup in Hr as [i Hr].
    destruct (Forall2_lookup_r _ _ _ _ _ H Hr) as (x & _ & Hx). by eapply validated_window_ok.
Qed.

Lemma validated_entry_encoded k ws :
  entry_ok k ws -> validated_entry k (VList (encode_window <$> ws)) = Some ws.
Proof.
  intros (Hk & Hl & Hw & Hr). cbn [validated_entry].
  apply str_empty_false in Hk. apply Nat.ltb_ge in Hl. rewrite Hk, Hl, length_fmap, Hw.
  cbn [orb negb Nat.eqb WINDOW_COUNT].
  clear Hw. induction Hr as [|r ws Hok _ IH]; [done|]. rewrite fmap_cons. cbn [mapM].
  rewrite validated_window_encoded by done. change (mbind ?f (Some r)) with (f r). cbv beta.
  by rewrite IH.
Qed.

Lemma validated_state_ok v : table_ok (_validated_state v).
Proof.
  assert (H0 : table_ok ∅) by apply map_Forall_empty.
  destruct v as [| | | | | |d]; try done. cbn. destruct (py_get d "keys") as [| | | | | |keys]; try done.
  destruct (forallb _ _); [|done]. intros k ws. rewrite map_lookup_imap.
  destruct (keys !! k) as [v|]; [|done]. cbn. apply validated_entry_ok.
Qed.

Lemma validated_state_encoded keys : table_ok keys -> _validated_state (encode_table keys) = keys.
Proof.
  intros Hok. unfold encode_table. cbn [_validated_state]. unfold py_get. rewrite lookup_singleton_eq.
  cbn [default id].
  assert (Hall : forall k ws, keys !! k = Some ws ->
    validated_entry k (VList (encode_window <$> ws)) = Some ws).
  { intros k ws Hk. apply validated_entry_encoded. by apply (Hok k). }
  match goal with |- (if ?b then _ else _) = _ => assert (Hb : b = true) end.
  { apply forallb_forall. intros [k v] Hin. apply bool_decide_eq_true.
    apply list_elem_of_In, elem_of_map_to_list in Hin. rewrite lookup_fmap in Hin.
    destruct (keys !! k) as [ws|] eqn:Hk; [|done]. injection Hin as <-. cbn [fst snd]. by rewrite (Hall _ _ Hk). }
  rewrite Hb. apply map_eq. intros k. rewrite map_lookup_imap, lookup_fmap.
  destruct (keys !! k) as [ws|] eqn:Hk; [|done]. cbn [fmap option_fmap option_map mbind option_bind].
  by rewrite (Hall _ _ Hk).
Qed.

(** The document that holds a table reads back as it. *)
Lemma table_of_written float_repr keys r size :
  table_ok keys -> json_dump (encode_table keys) = Ok r ->
  json_size float_repr (encode_table keys) = Some size -> size <= MAX_STATE_FILE_BYTES ->
  table_of (Some (Document r size)) = keys.
Proof.
  intros Hok Hr Hs Hsize. cbn. rewrite (proj2 (Z.ltb_ge _ _)) by done.
  rewrite (json_loads_dump float_repr _ _ _ Hr Hs). by apply validated_state_encoded.
Qed.

Lemma table_of_ok c : table_ok (table_of c).
Proof.
  assert (H0 : table_ok ∅) by apply map_Forall_empty.
  destruct c as [[| |r size]|]; try done. cbn. destruct (_ <? _); [done|].
  destruct (json_loads r); [apply validated_state_ok|done].
Qed.

(** ** A configuration that was accepted *)
Definition config_ok (c : AuthRateLimitConfig) : Prop :=
  1 <= max_tracked_keys_per_shard c /\
  Forall (fun p => 1 <= p.1 /\ is_finite p.2 = true /\ flt p.2 fzero = false) (windows c).

Lemma bounded_int_ok v a b n : _validated_bounded_int v a b = Ok n -> a <= n <= b.
Proof.
  destruct v; try done. cbn. destruct (z <? a) eqn:H1, (b <? z) eqn:H2; try done.
  intros [= <-]. apply Z.ltb_ge in H1, H2. done.
Qed.

Lemma validated_window_bounds v w :
  _validated_window v = Ok w -> is_finite w = true /\ flt w fzero = false.
Proof.
  assert (H : forall f, is_finite f = true -> flt f MIN_WINDOW_SECONDS = false -> flt f fzero = false).
  { intros f Hf Hm. destruct (flt f fzero) eqn:E; [|done]. rewrite <- Hm. symmetry.
    apply (flt_le_trans _ fzero); auto with pyfloat. }
  assert (H' : forall f, (if negb (is_finite f) || flt f MIN_WINDOW_SECONDS || flt MAX_WINDOW_SECONDS f
     then Err ValueError else Ok f) = Ok w -> is_finite w = true /\ flt w fzero = false).
  { intros f. destruct (is_finite f) eqn:E1; [|done]. destruct (flt f _) eqn:E2; [done|].
    destruct (flt _ f); [done|]. intros [= <-]. split; [done|by apply H]. }
  destruct v; try done; cbn [_validated_window].
  - destruct (number_as_float _); [apply H'|done].
  - apply H'.
Qed.

Lemma make_config_ok b bw s sw n k d c : make_config b bw s sw n k d = Ok c -> config_ok c.
Proof.
  unfold make_config. intros Hc. inv_result. cbn. unfold config_ok, windows. cbn.
  repeat match goal with
  | H : _validated_limit _ = Ok _ |- _ => apply bounded_int_ok in H
  | H : _validated_bounded_int _ _ _ = Ok _ |- _ => apply bounded_int_ok in H
  | H : _validated_window _ = Ok _ |- _ => apply validated_window_bounds in H
  end.
  split; [lia|]. repeat constructor; cbn; try tauto; lia.
Qed.

(** ** The loop over the windows *)
Lemma length_open_windows now limits ws :
  length (open_windows now limits ws).1.1 = length ws.
Proof.
  revert ws. induction limits as [|[l s] limits IH]; intros [|r ws]; try done. cbn.
  specialize (IH ws). by destruct (open_windows now limits ws) as [[ws' bl] ch]; cbn in *; rewrite IH.
Qed.

Lemma open_windows_lookup now limits ws i limit secs r :
  limits !! i = Some (limit, secs) -> ws !! i = Some r ->
  let '(ws', blocked, _) := open_windows now limits ws in
  let r' := if expired now r then Window (fadd now secs) 0 else r in
  ws' !! i = Some r' /\ (blocked = [] -> count r' < limit).
Proof.
  revert limits ws. induction i as [|i IH]; intros [|[l s] limits] [|r0 ws]; try done; cbn.
  - intros [= -> ->] [= ->]. destruct (open_windows now limits ws) as [[ws' bl] ch]. split; [done|].
    destruct (limit <=? _) eqn:E; [done|]. intros _. by apply Z.leb_gt in E.
  - intros Hl Hr. specialize (IH limits ws Hl Hr).
    destruct (open_windows now limits ws) as [[ws' bl] ch]. cbn in *. destruct IH as [H1 H2].
    split; [done|]. destruct (l <=? _); [done|exact H2].
Qed.

Lemma open_windows_unchanged now limits ws ws' bl :
  open_windows now limits ws = (ws', bl, false) -> ws' = ws.
Proof.
  revert ws ws' bl. induction limits as [|[l s] limits IH]; intros [|r ws] ws' bl; cbn; try congruence.
  destruct (open_windows now limits ws) as [[ws1 bl1] ch] eqn:E. intros [= <- _ [Hr Hc]%orb_false_iff].
  rewrite Hr. subst ch. f_equal. by eapply IH.
Qed.

(** Times that are not negative, as [validated_state] wants them. *)
Definition window_nonneg (r : window) : Prop := flt (reset_at r) fzero = false /\ 0 <= count r.

Lemma open_windows_nonneg now limits ws :
  is_finite now = true -> flt now fzero = false ->
  Forall (fun p => 1 <= p.1 /\ is_finite p.2 = true /\ flt p.2 fzero = false) limits ->
  Forall window_nonneg ws -> Forall window_nonneg (open_windows now limits ws).1.1.
Proof.
  intros Hf Hp Hl. revert ws. induction Hl as [|[l s] limits (_ & Hs & Hs') _ IH]; intros [|r ws] Hw; try done.
  apply Forall_cons in Hw as [Hr Hw]. specialize (IH ws Hw). cbn.
  destruct (open_windows now limits ws) as [[ws' bl] ch]. constructor; [|done].
  destruct (expired now r); [|done]. split; [|done]. by apply fadd_nonneg.
Qed.

(** ** The live part of a table *)
Lemma lookup_purge keys now k ws :
  _purge_expired keys now !! k = Some ws <-> keys !! k = Some ws /\ forallb (expired now) ws = false.
Proof.
  unfold _purge_expired. rewrite lookup_omap. destruct (keys !! k) as [ws0|]; cbn; [|by split; [|intros [??]]].
  destruct (forallb (expired now) ws0) eqn:E; split; try done.
  - intros [[= ->] H]. congruence.
  - by intros [= ->].
  - by intros [[= ->] _].
Qed.

Lemma purge_subseteq keys now : _purge_expired keys now ⊆ keys.
Proof. apply map_subseteq_spec. intros k ws H. by apply lookup_purge in H as [??]. Qed.

Lemma purge_unchanged keys now : size (_purge_expired keys now) = size keys -> _purge_expired keys now = keys.
Proof. intros H. apply map_subseteq_size_eq; [apply purge_subseteq|lia]. Qed.

(** An attempt that reports no change has changed nothing. *)
Lemma register_unchanged keys key now cfg a n keys' :
  _register_attempt keys key now cfg = (a, n, false, keys') -> keys' = keys.
Proof.
  unfold _register_attempt. destruct (Nat.eqb_spec (size (_purge_expired keys now)) (size keys)) as [Hs|_].
  - apply purge_unchanged in Hs. rewrite Hs. cbn [negb orb].
    destruct (keys !! key) as [ws|] eqn:Hk.
    + destruct (open_windows _ _ ws) as [[ws' bl] ch] eqn:Ho. destruct bl; intros [= _ _ -> <-].
      apply open_windows_unchanged in Ho as ->. by apply insert_id.
    + destruct (_ <=? _); [by intros [= _ _ <-]|].
      destruct (open_windows _ _ _) as [[ws' bl] ch]. by destruct bl.
  - cbn [negb orb]. destruct (_purge_expired keys now !! key) as [ws|]; [|destruct (_ <=? _); [done|]].
    all: destruct (open_windows _ _ _) as [[ws' bl] ch]; by destruct bl.
Qed.

(** The cases of an attempt. *)
Lemma register_cases keys key now cfg a n ch keys' :
  _register_attempt keys key now cfg = (a, n, ch, keys') ->
  let live := _purge_expired keys now in
  (live !! key = None /\ max_tracked_keys_per_shard cfg <= Z.of_nat (size live) /\
   a = false /\ n = _earliest_release live now /\ keys' = live) \/
  exists ws ws' blocked opened,
    (live !! key = Some ws \/
     live !! key = None /\ Z.of_nat (size live) < max_tracked_keys_per_shard cfg /\
     ws = replicate WINDOW_COUNT (Window now 0)) /\
    open_windows now (windows cfg) ws = (ws', blocked, opened) /\
    ((blocked = [] /\ a = true /\ keys' = <[key := charge <$> ws']> live) \/
     (blocked <> [] /\ a = false /\ n = retry_delay (max_float blocked) now /\
      keys' = <[key := ws']> live)).
Proof.
  unfold _register_attempt. cbv zeta. destruct (_purge_expired keys now !! key) as [ws|] eqn:Hk.
  - destruct (open_windows now (windows cfg) ws) as [[ws' bl] op] eqn:Ho. intros H. right.
    exists ws, ws', bl, op. split; [by left|]. split; [done|].
    destruct bl; injection H as <- <- _ <-; [by left|by right].
  - destruct (max_tracked_keys_per_shard cfg <=? _) eqn:Hm.
    + intros [= <- <- _ <-]. left. apply Z.leb_le in Hm. done.
    + destruct (open_windows now (windows cfg) (replicate _ _)) as [[ws' bl] op] eqn:Ho. intros H. right.
      apply Z.leb_gt in Hm. eexists _, ws', bl, op. split; [by right|]. split; [done|].
      destruct bl; injection H as <- <- _ <-; [by left|by right].
Qed.

Lemma charge_nonneg r : window_nonneg r -> window_nonneg (charge r).
Proof. intros [H1 H2]. split; [exact H1|]. cbn. lia. Qed.

Lemma new_window_nonneg now : flt now fzero = false -> window_nonneg (Window now 0).
Proof. done. Qed.
#[local] Hint Resolve charge_nonneg new_window_nonneg : core.

Definition entry_shape (key : string) (ws : list window) : Prop :=
  key <> EmptyString /\ (py_len key <= ATTEMPT_KEY_CHARS)%nat /\
  length ws = WINDOW_COUNT /\ Forall window_nonneg ws.

(** An attempt keeps the table valid, up to the finiteness of the new times. *)
Lemma register_entries keys key now cfg a n ch keys' :
  config_ok cfg -> table_ok keys -> is_finite now = true -> flt now fzero = false ->
  key <> EmptyString -> (py_len key <= ATTEMPT_KEY_CHARS)%nat ->
  _register_attempt keys key now cfg = (a, n, ch, keys') ->
  map_Forall entry_shape keys'.
Proof.
  intros [_ Hc] Hok Hf Hp Hkey Hlen H. apply register_cases in H.
  assert (Hlive : map_Forall entry_shape (_purge_expired keys now)).
  { intros k ws [Hk _]%lookup_purge. destruct (Hok k ws Hk) as (? & ? & ? & Hw). repeat split; try done.
    eapply Forall_impl; [exact Hw|]. by intros r (_ & ? & ?). }
  destruct H as [(_ & _ & _ & _ & ->)|(ws & ws' & bl & op & Hws & Ho & H)]; [done|].
  assert (Hnew : length ws = WINDOW_COUNT /\ Forall window_nonneg ws).
  { destruct Hws as [Hws|(_ & _ & ->)]; [by destruct (Hlive key ws Hws) as (_ & _ & ? & ?)|].
    split; [done|]. apply Forall_replicate. auto. }
  pose proof (length_open_windows now (windows cfg) ws) as Hl.
  pose proof (open_windows_nonneg now (windows cfg) ws Hf Hp Hc (proj2 Hnew)) as Hn.
  rewrite Ho in Hl, Hn. cbn in Hl, Hn. rewrite (proj1 Hnew) in Hl.
  destruct H as [(_ & _ & ->)|(_ & _ & _ & ->)]; (apply map_Forall_insert_2; [|exact Hlive]);
    (split; [done|]; split; [done|]; rewrite ?length_fmap; split; [done|]); [|exact Hn].
  apply Forall_fmap. eapply Forall_impl; [exact Hn|]. intros r. apply charge_nonneg.
Qed.

(** A table that can be written holds finite times only. *)
Lemma written_finite keys r k ws w :
  json_dump (encode_table keys) = Ok r -> keys !! k = Some ws -> w ∈ ws -> is_finite (reset_at w) = true.
Proof.
  intros Hr Hk Hw.
  assert (Hs : serializable (encode_table keys) = true) by (apply json_dump_serializable; eauto).
  apply serializable_dict in Hs. specialize (Hs "keys" _ (lookup_singleton_eq _ _)). cbv beta in Hs.
  apply serializable_dict in Hs. specialize (Hs k (VList (encode_window <$> ws))).
  rewrite lookup_fmap, Hk in Hs. specialize (Hs eq_refl). apply serializable_list in Hs.
  rewrite Forall_forall in Hs. specialize (Hs (encode_window w) (list_elem_of_fmap_2 _ _ _ Hw)).
  apply serializable_dict in Hs. specialize (Hs "reset_at" (VFloat (reset_at w))).
  rewrite list_to_map_cons, lookup_insert_eq in Hs. exact (Hs eq_refl).
Qed.

Lemma written_table_ok keys key now cfg a n ch keys' r :
  config_ok cfg -> table_ok keys -> is_finite now = true -> flt now fzero = false ->
  key <> EmptyString -> (py_len key <= ATTEMPT_KEY_CHARS)%nat ->
  _register_attempt keys key now cfg = (a, n, ch, keys') ->
  json_dump (encode_table keys') = Ok r -> table_ok keys'.
Proof.
  intros Hc Hok Hf Hp Hkey Hlen H Hr k ws Hk.
  destruct (register_entries _ _ _ _ _ _ _ _ Hc Hok Hf Hp Hkey Hlen H k ws Hk) as (? & ? & ? & Hw).
  clear H Hok. split; [done|]. split; [done|]. split; [done|]. apply Forall_forall. intros w Hin.
  rewrite Forall_forall in Hw. destruct (Hw w Hin) as [Hn1 Hn2].
  exact (conj (written_finite _ _ _ _ _ Hr Hk Hin) (conj Hn1 Hn2)).
Qed.

(** ** How many attempts a key has left

    [allowance] is what one window leaves to a key until the time [b]: the room of
    its record, and the whole limit once more when the record ends before [b]. *)
Section allowance.
Context (cfg : AuthRateLimitConfig) (k : string) (i : nat) (limit : Z) (secs b : float).
Hypotheses (Hi : windows cfg !! i = Some (limit, secs)) (Hlimit : 1 <= limit).
Hypothesis (Hb : is_nan b = false).

Definition record_allowance (r : window) : Z :=
  Z.max 0 (limit - count r) + (if fle b (reset_at r) then 0 else limit).

Definition allowance (keys : table) : Z :=
  match keys !! k with
  | Some ws => match ws !! i with Some r => record_allowance r | None => limit end
  | None => limit
  end.

Lemma allowance_bounds keys : table_ok keys -> 0 <= allowance keys <= 2 * limit.
Proof using Hlimit.
  intros Hok. unfold allowance, record_allowance. destruct (keys !! k) as [ws|] eqn:Hk; [|lia].
  destruct (ws !! i) as [r|] eqn:Hr; [|lia].
  destruct (Hok k ws Hk) as (_ & _ & _ & Hw). rewrite Forall_lookup in Hw.
  destruct (Hw i r Hr) as (_ & _ & Hn). destruct (fle b (reset_at r)); lia.
Qed.

Variable (now : float).
Hypotheses (Hnow : is_finite now = true) (Hlt : flt now b = true) (Hle : fle b (fadd now secs) = true).

(** A window that lasts until [b] has not ended. *)
Lemma lasting_not_expired r :
  is_finite (reset_at r) = true -> fle b (reset_at r) = true -> expired now r = false.
Proof using Hb Hnow Hlt.
  intros Hr Hl. unfold expired.
  assert (H : flt now (reset_at r) = true) by (eapply flt_le_trans; [..|exact Hlt|exact Hl]; auto with pyfloat).
  rewrite flt_not_fle in H by auto with pyfloat. by apply negb_true_iff in H.
Qed.

(** A record after the loop: opened again, or the same. *)
Lemma opened_allowance r :
  is_finite (reset_at r) = true ->
  record_allowance (if expired now r then Window (fadd now secs) 0 else r) <= record_allowance r /\
  (expired now r = true -> record_allowance (Window (fadd now secs) 0) = limit).
Proof using All.
  intros Hr. destruct (expired now r) eqn:E; [|split; [lia|done]]. unfold record_allowance. cbn.
  rewrite Hle. destruct (fle b (reset_at r)) eqn:Hl; [|lia].
  rewrite lasting_not_expired in E by done. done.
Qed.

Lemma purge_allowance keys : table_ok keys -> allowance (_purge_expired keys now) <= allowance keys.
Proof using All.
  intros Hok. unfold allowance. destruct (keys !! k) as [ws|] eqn:Hk.
  - destruct (_purge_expired keys now !! k) as [ws'|] eqn:Hp.
    + apply lookup_purge in Hp as [Hp _]. by replace ws' with ws by congruence.
    + destruct (ws !! i) as [r|] eqn:Hr; [|done].
      assert (Hex : forallb (expired now) ws = true).
      { destruct (forallb _ ws) eqn:E; [done|]. exfalso.
        assert (_purge_expired keys now !! k = Some ws) by (by apply lookup_purge). congruence. }
      assert (Er : expired now r = true).
      { rewrite forallb_forall in Hex. apply Hex, list_elem_of_In. by eapply list_elem_of_lookup_2. }
      destruct (Hok k ws Hk) as (_ & _ & _ & Hw). rewrite Forall_lookup in Hw.
      destruct (Hw i r Hr) as (Hf & _ & _). destruct (opened_allowance r Hf) as [H1 H2].
      rewrite Er in H1. specialize (H2 Er). unfold allowance. lia.
  - destruct (_purge_expired keys now !! k) as [ws'|] eqn:Hp; [|done].
    apply lookup_purge in Hp as [Hp _]. congruence.
Qed.

Lemma charge_allowance r : count r < limit -> record_allowance (charge r) = record_allowance r - 1.
Proof using Hlimit. intros H. unfold record_allowance, charge. cbn [count reset_at]. lia. Qed.

Lemma register_allowance keys key a n ch keys' :
  table_ok keys -> _register_attempt keys key now cfg = (a, n, ch, keys') ->
  allowance keys' <= allowance keys - (if a && String.eqb key k then 1 else 0).
Proof using All.
  intros Hok H. pose proof (purge_allowance keys Hok) as Hp. revert Hp.
  apply register_cases in H as [(Hk & _ & -> & _ & ->)|(ws & ws' & bl & op & Hws & Ho & H)]; [cbn; lia|].
  destruct (String.eqb_spec key k) as [->|Hne].
  2: { rewrite andb_false_r. intros Hp. destruct H as [(_ & _ & ->)|(_ & _ & _ & ->)];
       unfold allowance in *; rewrite lookup_insert_ne by congruence; lia. }
  rewrite andb_true_r. intros Hp.
  assert (Hr : exists r, ws !! i = Some r /\ is_finite (reset_at r) = true /\
    (expired now r = true \/ record_allowance r <= allowance (_purge_expired keys now))).
  { destruct Hws as [Hws|(_ & _ & ->)].
    - pose proof Hws as [Hk _]%lookup_purge. destruct (Hok k ws Hk) as (_ & _ & Hl & Hw).
      rewrite Forall_lookup in Hw. destruct (ws !! i) as [r|] eqn:Er.
      + exists r. split; [done|]. split; [by destruct (Hw i r Er)|]. right.
        unfold allowance. rewrite Hws, Er. lia.
      + exfalso. apply lookup_ge_None in Er. apply lookup_lt_Some in Hi. cbn in Hi. unfold WINDOW_COUNT in Hl. lia.
    - exists (Window now 0). split; [|split; [done|left]].
      + apply lookup_lt_Some in Hi. apply lookup_replicate_2. exact Hi.
      + unfold expired. cbn. apply fle_refl. auto with pyfloat. }
  destruct Hr as (r & Er & Hf & Hr).
  pose proof (open_windows_lookup now (windows cfg) ws i limit secs r Hi Er) as Hl. rewrite Ho in Hl.
  destruct Hl as [Hl Hc]. destruct (opened_allowance r Hf) as [H1 H2].
  assert (Hle' : record_allowance (if expired now r then Window (fadd now secs) 0 else r) <= allowance keys).
  { destruct (expired now r) eqn:Ex; [|destruct Hr; [done|lia]].
    etrans; [|exact Hp]. unfold allowance.
    destruct Hws as [Hws|(Hws & _)]; rewrite Hws; [by rewrite Er|]. by rewrite H2. }
  destruct H as [(-> & -> & ->)|(_ & -> & _ & ->)]; unfold allowance at 1; rewrite lookup_insert_eq.
  - rewrite list_lookup_fmap, Hl. cbn [fmap option_fmap option_map].
    rewrite charge_allowance by auto. lia.
  - rewrite Hl. lia.
Qed.
End allowance.

(** ** What the system calls leave alone *)
Definition stored (h : host) (name : string) : table := table_of (shards h !! name).

Definition same_host (h h' : host) : Prop :=
  euid h' = euid h /\ wall h' = wall h /\ fault h' = fault h /\ stat_of h' = stat_of h /\
  token_hex h' = token_hex h /\ torn h' = torn h /\ cut h' = cut h /\ peer h' = peer h.

(** The counters and the secret are as they were. *)
Definition keeps (h h' : host) : Prop :=
  same_host h h' /\ (forall name, stored h' name = stored h name) /\ secret h' = secret h.

(** The counters are as they were. *)
Definition keeps_tables (h h' : host) : Prop :=
  same_host h h' /\ (forall name, stored h' name = stored h name).

#[export] Instance same_host_preorder : PreOrder same_host.
Proof.
  split; [by repeat split|]. intros h1 h2 h3 (? & ? & ? & ? & ? & ? & ? & ?) (? & ? & ? & ? & ? & ? & ? & ?).
  repeat split; congruence.
Qed.
#[export] Instance limit_keeps_preorder : PreOrder keeps.
Proof.
  split; [by repeat split|]. intros h1 h2 h3 (Ha & Hb & Hc) (Hd & He & Hf).
  split; [by etrans|]. split; [intros name; by rewrite He|congruence].
Qed.
#[export] Instance keeps_tables_preorder : PreOrder keeps_tables.
Proof.
  split; [by repeat split|]. intros h1 h2 h3 (Ha & Hb) (Hd & He).
  split; [by etrans|]. intros name; by rewrite He.
Qed.

Lemma resp_weaken {W A} (R R' : relation W) (m : M W A) :
  (forall w w', R w w' -> R' w w') -> Resp R m -> Resp R' m.
Proof. intros H Hm w. apply H, Hm. Qed.

#[export] Instance keeps_attempt : Resp keeps attempt.
Proof. by intros h. Qed.
#[export] Instance keeps_read {A} (f : host -> A) : Resp keeps (read_host f).
Proof. by intros h. Qed.
#[export] Instance keeps_syscall : Resp keeps syscall.
Proof. unfold syscall. solve_resp. Qed.
#[export] Instance keeps_stat t : Resp keeps (os_stat t).
Proof. unfold os_stat. solve_resp. Qed.
#[export] Instance keeps_close : Resp keeps os_close := keeps_syscall.
#[export] Instance keeps_unavailable {A} : Resp keeps (unavailable (A:=A)).
Proof. unfold unavailable. solve_resp. Qed.
#[export] Instance keeps_close_on_error {A} (m : HM A) : Resp keeps m -> Resp keeps (close_on_error m).
Proof. intros Hm. unfold close_on_error. solve_resp. Qed.
#[export] Instance keeps_os_error {A} (m : HM A) : Resp keeps m -> Resp keeps (os_error_unavailable m).
Proof. intros Hm. unfold os_error_unavailable. solve_resp. Qed.

Lemma keeps_open_directory : Resp keeps _open_directory.
Proof. unfold _open_directory. solve_resp. Qed.

Lemma keeps_create_in n (open : HM (option os_error)) : Resp keeps open -> Resp keeps (create_in n open).
Proof. intros Ho. induction n as [|n IH]; cbn [create_in]; solve_resp. Qed.

Lemma keeps_open_shard_file name : Resp keeps (open_shard_file name).
Proof.
  unfold open_shard_file. apply resp_bind; [apply _..|]. intros [e|]; [apply _|].
  apply resp_bind; [apply _| |intros _; apply _]. intros h. cbn.
  destruct (shards h !! name) as [c|] eqn:Hn; [done|]. split; [by repeat split|]. split; [|done].
  intros m. unfold stored. cbn. destruct (decide (m = name)) as [->|Hne].
  - by rewrite lookup_insert_eq, Hn.
  - by rewrite lookup_insert_ne.
Qed.

Lemma keeps_open_shard name : Resp keeps (_open_shard name).
Proof.
  unfold _open_shard, _create_in_directory. apply resp_bind; [apply _| |].
  - apply keeps_create_in, keeps_open_shard_file.
  - intros e. solve_resp.
Qed.

Lemma keeps_read_shard name : Resp keeps (_read_shard name).
Proof. unfold _read_shard. solve_resp. Qed.

Lemma keeps_limit_now now : Resp keeps (_validated_now now).
Proof. unfold _validated_now. solve_resp. Qed.

(** *** The secret *)
Lemma keeps_weak {A} (m : HM A) : Resp keeps m -> Resp keeps_tables m.
Proof. apply resp_weaken. by intros h h' (? & ? & _). Qed.

#[local] Instance weak_attempt : Resp keeps_tables attempt := keeps_weak _ keeps_attempt.
#[local] Instance weak_read {A} (f : host -> A) : Resp keeps_tables (read_host f) := keeps_weak _ _.
#[local] Instance weak_syscall : Resp keeps_tables syscall := keeps_weak _ keeps_syscall.
#[local] Instance weak_stat t : Resp keeps_tables (os_stat t) := keeps_weak _ _.
#[local] Instance weak_unavailable {A} : Resp keeps_tables (unavailable (A:=A)) := keeps_weak _ _.

Lemma keeps_change_secret f : (forall h, shards (f h) = shards h /\ same_host h (f h)) ->
  Resp keeps_tables (change_host f).
Proof. intros H h. destruct (H h) as [Hs Hh]. split; [done|]. intros n. unfold stored. cbn. by rewrite Hs. Qed.

#[local] Instance weak_os_error {A} (m : HM A) : Resp keeps_tables m -> Resp keeps_tables (os_error_unavailable m).
Proof. intros Hm. unfold os_error_unavailable. solve_resp. Qed.

#[export] Instance keeps_read_secret : Resp keeps _read_secret_file.
Proof. unfold _read_secret_file. solve_resp. Qed.

Lemma keeps_await_secret n : Resp keeps_tables (await_secret n).
Proof.
  induction n as [|n IH]; cbn [await_secret]; [apply _|].
  apply resp_bind; [apply _|by apply weak_os_error, keeps_weak, _|intros raw].
  cbv zeta. destruct (Nat.eqb _ _); [case_match; apply _|].
  apply resp_bind; [apply _| |done].
  destruct (Nat.eqb n 0); [apply _|]. by apply keeps_change_secret.
Qed.

Lemma keeps_create_secret : Resp keeps_tables create_secret.
Proof.
  unfold create_secret, write_secret, os_close. solve_resp; by apply keeps_change_secret.
Qed.

Lemma keeps_open_new_secret : Resp keeps_tables open_new_secret.
Proof. unfold open_new_secret. solve_resp; by apply keeps_change_secret. Qed.

Lemma keeps_load_secret : Resp keeps_tables _load_secret.
Proof.
  unfold _load_secret, _create_in_directory. apply resp_bind; [apply _| |].
  - generalize CREATE_RETRY_ATTEMPTS. intros n. induction n as [|n IH]; cbn [create_in]; [apply _|].
    apply resp_bind; [apply _|apply keeps_open_new_secret|]. intros e. solve_resp.
  - intros [[]|]; first [apply keeps_await_secret | apply keeps_create_secret | apply _].
Qed.

(** ** What a call may raise *)
Definition boundary_error (e : exn) : Prop := e = OSError \/ e = AuthRateLimitUnavailable.

#[local] Hint Extern 1 (boundary_error _) => (by left) || (by right) : core.
#[local] Hint Extern 5 (Throws _ (guard_err _ _)) => apply throws_guard : typeclass_instances.

Ltac solve_throws :=
  repeat (cbv zeta; lazymatch goal with
  | |- Throws _ (mret _) => apply _
  | |- Throws _ (raise _) => apply throws_raise; auto
  | |- Throws _ (unavailable) => apply throws_raise; auto
  | |- Throws _ (guard_err _ _) => apply throws_guard; auto
  | |- Throws _ (read_host _) => by intros ? ? ?
  | |- Throws _ (change_host _) => by intros ? ? ?
  | |- Throws _ attempt => by intros ? ? ?
  | |- Throws _ syscall => unfold syscall
  | |- Throws _ os_close => unfold os_close
  | |- Throws _ (os_stat _) => unfold os_stat
  | |- Throws _ (_ ≫= _) => apply throws_bind; [|intros ?]
  | |- Throws _ (finally _ _) => apply throws_finally
  | |- Throws _ (os_error_unavailable _) =>
      apply (throws_catch _ boundary_error); [|intros ? [-> | ->]]
  | |- Throws _ (close_on_error _) =>
      apply (throws_catch _ boundary_error); [|intros ? [-> | ->]]
  | |- Throws _ (catch os_close _) =>
      apply (throws_catch _ boundary_error); [|intros ? [-> | ->]]
  | |- Throws _ (match ?x with _ => _ end) => destruct x
  end).

Lemma throws_create_in P n open : Throws P open -> Throws P (create_in n open).
Proof. intros Ho. induction n as [|n IH]; cbn [create_in]; solve_throws; done. Qed.

Lemma throws_open_directory : Throws boundary_error _open_directory.
Proof. unfold _open_directory. solve_throws. Qed.

Lemma throws_load_secret : Throws boundary_error _load_secret.
Proof.
  unfold _load_secret. apply throws_bind; [|intros e].
  - apply throws_create_in. unfold open_new_secret. solve_throws.
  - assert (Ha : Throws boundary_error (await_secret SECRET_READ_ATTEMPTS)).
    { generalize SECRET_READ_ATTEMPTS. intros n. induction n as [|n IH]; cbn [await_secret];
        unfold _read_secret_file, wait_for_peers; solve_throws; done. }
    unfold create_secret, write_secret. solve_throws; done.
Qed.

Lemma throws_open_shard name : Throws boundary_error (_open_shard name).
Proof.
  unfold _open_shard. apply throws_bind; [|intros e].
  - apply throws_create_in. unfold open_shard_file. solve_throws.
  - solve_throws.
Qed.

Lemma throws_write_shard float_repr name keys : Throws boundary_error (_write_shard float_repr name keys).
Proof. unfold _write_shard. solve_throws. Qed.

(** ** One call

    [charged] is what a call that decided has done: one attempt of [key] registered
    in the shard of [key], and nothing else. *)
Section one_call.
Context (float_repr : float -> string) (cfg : AuthRateLimitConfig).

Definition shard_of (key : string) : string := _shard_name key (shard_count cfg).

(** The file holds the table [keys]. *)
Definition holds (h : host) (name : string) (keys : table) : Prop :=
  exists r size, shards h !! name = Some (Document r size) /\
    json_dump (encode_table keys) = Ok r /\ json_size float_repr (encode_table keys) = Some size.

Definition charged (key : string) (current : float) (h : host) (allowed : bool) (retry : Z)
    (h' : host) : Prop :=
  exists changed keys,
    _register_attempt (stored h (shard_of key)) key current cfg = (allowed, retry, changed, keys) /\
    (forall name, name <> shard_of key -> stored h' name = stored h name) /\
    (if changed then holds h' (shard_of key) keys
     else stored h' (shard_of key) = stored h (shard_of key)).

Lemma syscall_ok h u h' : syscall h = (Ok u, h') -> h' = next_step h.
Proof.
  unfold syscall. intros (e & h1 & [= <- <-] & H)%bind_ok. destruct (fault h (steps h)); [done|].
  by injection H.
Qed.

Lemma write_shard_ok name keys h u h' :
  _write_shard float_repr name keys h = (Ok u, h') ->
  holds h' name keys /\ (forall m, m <> name -> stored h' m = stored h m) /\ secret h' = secret h /\
  same_host h h'.
Proof.
  unfold _write_shard. destruct (json_dump _) as [r|] eqn:Hr; [|done].
  destruct (json_size _ _) as [size|] eqn:Hs; [|done].
  intros (? & h1 & ->%syscall_ok & H)%bind_ok. apply bind_ok in H as (e & h2 & [= _ <-] & H).
  apply bind_ok in H as (? & h3 & [= _ <-] & H). apply bind_ok in H as (? & h4 & [_ ->]%guard_err_ok & H).
  apply bind_ok in H as (? & h5 & ->%syscall_ok & H). apply bind_ok in H as (? & h6 & [= _ <-] & ->%syscall_ok).
  split; [exists r, size; cbn [shards next_step set_shard]; rewrite lookup_insert_eq; repeat split; assumption|]. split; [|by repeat split].
  intros m Hm. unfold stored. cbn [shards next_step set_shard]. rewrite !lookup_insert_ne by congruence. reflexivity.
Qed.

(** The part under the lock. *)
Lemma locked_attempt_ok key current h o h' :
  (keys ← _read_shard (shard_of key);
   let '(allowed, retry_after, changed, keys) := _register_attempt keys key current cfg in
   (if changed : bool then _write_shard float_repr (shard_of key) keys else mret tt) ;;
   mret (allowed, retry_after)) h = (Ok o, h') ->
  charged key current h o.1 o.2 h' /\ secret h' = secret h /\ same_host h h'.
Proof.
  intros (keys & h1 & H1 & H)%bind_ok.
  pose proof (keeps_read_shard (shard_of key) h) as (S1 & T1 & E1). rewrite H1 in S1, T1, E1. cbn in S1, T1, E1.
  assert (keys = stored h (shard_of key)) as ->.
  { unfold _read_shard in H1. apply bind_ok in H1 as (? & ? & ->%syscall_ok & H1).
    apply bind_ok in H1 as (? & ? & ->%syscall_ok & H1). by injection H1 as <- _. }
  destruct (_register_attempt _ key current cfg) as [[[a n] ch] keys] eqn:Hreg.
  apply bind_ok in H as (? & h2 & H2 & H). apply ret_ok in H as [-> ->].
  destruct ch.
  - apply write_shard_ok in H2 as (Hh & Ho & E2 & S2). split; [|split; [congruence|by etrans]].
    exists true, keys. split; [exact Hreg|]. split; [|exact Hh]. intros m Hm. by rewrite Ho, T1.
  - apply ret_ok in H2 as [_ ->]. split; [|done]. exists false, keys.
    split; [exact Hreg|]. split; [intros m _; apply T1|apply T1].
Qed.

Lemma charged_before key current h0 h a n h' :
  keeps_tables h0 h -> charged key current h a n h' -> charged key current h0 a n h'.
Proof.
  intros [_ T] (ch & keys & Hr & Ho & Hc). exists ch, keys. rewrite T in Hr. split; [exact Hr|].
  split; [intros m Hm; by rewrite Ho|]. destruct ch; [exact Hc|by rewrite Hc].
Qed.

Lemma keeps_tables_of h h' : keeps h h' -> keeps_tables h h'.
Proof. intros (? & ? & _). done. Qed.

Lemma resp_run {A} (R : relation host) (m : HM A) h r h' : Resp R m -> m h = (r, h') -> R h h'.
Proof. intros Hm H. specialize (Hm h). by rewrite H in Hm. Qed.

(** A directory and a shard the call has found safe. *)
Definition safe_boundary (h : host) (name : string) : Prop :=
  exists n m, _safe_directory (euid h) (stat_of h n Directory) = true /\
    _safe_file (euid h) (stat_of h m (Entry name)) = true.

Lemma open_directory_safe h u h' :
  _open_directory h = (Ok u, h') -> exists n, _safe_directory (euid h) (stat_of h n Directory) = true.
Proof.
  intros (st & h1 & H1 & H)%bind_ok. apply catch_ok in H1 as [H1|(e & ? & _ & H1)]; [|by destruct e].
  apply bind_ok in H1 as (? & h2 & ->%syscall_ok & H1). apply bind_ok in H1 as (? & h3 & ->%syscall_ok & H1).
  injection H1 as <- <-. apply bind_ok in H as (uid & h4 & [= <- <-] & H). cbn in H.
  apply bind_ok in H as (? & h5 & [Hs _]%guard_err_ok & _). apply negb_false_iff in Hs. by exists (S (S (steps h))).
Qed.

Lemma open_shard_safe name h u h' :
  _open_shard name h = (Ok u, h') -> exists m, _safe_file (euid h) (stat_of h m (Entry name)) = true.
Proof.
  intros (e & h1 & H1 & H)%bind_ok. destruct e as [e|]; [done|].
  apply (resp_run keeps) in H1 as ((Eu & _ & _ & Es & _) & _ & _);
    [|unfold _create_in_directory; apply keeps_create_in, keeps_open_shard_file].
  apply catch_ok in H as [H|(e & h2 & _ & H)].
  2: { destruct e; try done; by apply bind_ok in H as (? & ? & _ & H). }
  apply bind_ok in H as (uid & h2 & [= <- <-] & H). apply bind_ok in H as (st & h3 & H3 & H).
  apply bind_ok in H3 as (? & h4 & ->%syscall_ok & [= <- <-]).
  apply bind_ok in H as (? & h5 & [Hs _]%guard_err_ok & _). apply negb_false_iff in Hs.
  cbn in Hs. rewrite Eu, Es in Hs. by eexists.
Qed.

(** The decision of a call, if it comes to one, and what it has done by then. *)
Definition decided (client_address : option string) (email : value) (current : float)
    (h : host) (allowed : bool) (retry : Z) (h' : host) : Prop :=
  exists h0 bytes h1, keeps h h0 /\ _load_secret h0 = (Ok bytes, h1) /\
    safe_boundary h (shard_of (_attempt_key bytes client_address email)) /\
    charged (_attempt_key bytes client_address email) current h allowed retry h' /\
    secret h' = secret h1 /\ same_host h h'.

Lemma enforce_decided client_address email current h r h' :
  _enforce_rate_limit float_repr cfg client_address email current h = (r, h') ->
  (exists e, r = Err e /\ boundary_error e) \/
  exists a n, decided client_address email current h a n h' /\
    r = if a then Ok tt else Err (AuthRateLimitExceeded n).
Proof.
  unfold _enforce_rate_limit. unfold mbind at 1, M_bind at 1.
  destruct (_open_directory h) as [[u|e] h0] eqn:H0.
  2: { intros [= <- <-]. left. exists e. split; [done|]. by eapply throws_open_directory. }
  apply open_directory_safe in H0 as Hsafe.
  apply (resp_run keeps) in H0; [|apply keeps_open_directory].
  unfold mbind at 1, M_bind at 1.
  match goal with |- (match ?m with _ => _ end = _) -> _ => destruct m as [[o|e] h4] eqn:H4 end.
  2: { intros [= <- <-]. left. exists e. split; [done|]. revert H4. apply throws_finally.
       - apply throws_bind; [apply throws_load_secret|intros bytes]. cbv zeta.
         apply throws_bind; [apply throws_open_shard|intros _]. unfold os_close.
         solve_throws; first [apply throws_write_shard | unfold _read_shard; solve_throws].
       - unfold os_close. solve_throws. }
  apply finally_ok in H4 as (h3 & u3 & H4 & ->%syscall_ok).
  apply bind_ok in H4 as (bytes & h1 & H1 & H4). cbv zeta in H4.
  apply bind_ok in H4 as (u1 & h2 & H2 & H4). apply open_shard_safe in H2 as Hfile.
  apply (resp_run keeps) in H2; [|apply keeps_open_shard].
  apply finally_ok in H4 as (h5 & u5 & H4 & ->%syscall_ok).
  apply bind_ok in H4 as (u6 & h6 & ->%syscall_ok & H4).
  apply finally_ok in H4 as (h7 & u7 & H4 & ->%syscall_ok).
  pose proof (resp_run _ _ _ _ _ keeps_load_secret H1) as K1.
  apply locked_attempt_ok in H4 as (Hc & Es & Sh). intros H. right. exists o.1, o.2.
  assert (E : h' = next_step (next_step (next_step h7)) /\
    r = if o.1 then Ok tt else Err (AuthRateLimitExceeded o.2)).
  { by destruct (o.1); cbn in H; injection H as <- <-. }
  clear H. destruct E as [-> ->]. split; [|done].
  exists h0, bytes, h1. split; [done|]. split; [done|]. split; [|split; [|split]].
  - destruct Hsafe as [n Hn], Hfile as [m Hm]. exists n, m. split; [done|].
    destruct H0 as ((E1 & _ & _ & E2 & _) & _), K1 as ((E3 & _ & _ & E4 & _) & _). rewrite E3, E4, E1, E2 in Hm. exact Hm.
  - eapply charged_before; [|exact Hc]. etrans; [by apply keeps_tables_of|]. etrans; [exact K1|].
    etrans; [by apply keeps_tables_of|]. by repeat split.
  - transitivity (secret h2); [exact Es|]. by destruct H2 as (_ & _ & ->).
  - destruct H0 as [S0 _], K1 as [S1 _], H2 as [S2 _]. etrans; [exact S0|]. etrans; [exact S1|].
    etrans; [exact S2|]. etrans; [|etrans; [exact Sh|]]; by repeat split.
Qed.
End one_call.

(** ** The key and the secret *)
Lemma attempt_key_shape bytes address email :
  _attempt_key bytes address email <> EmptyString /\
  (py_len (_attempt_key bytes address email) <= ATTEMPT_KEY_CHARS)%nat.
Proof.
  unfold _attempt_key. split; [|apply py_len_take].
  generalize (bytes_of (String.append match address with
    | Some a => if str_empty a then "-" else a | None => "-" end
    (String "000" (_normalize_email email)))). intros msg.
  set (d := hexdigest (hmac_sha256 bytes msg)).
  assert (Hd : py_len d = 64%nat /\ all_hex d = true).
  { subst d. destruct (hexdigest_spec (hmac_sha256 bytes msg)) as [H1 H2]. split; [|done]. rewrite H1.
    unfold hmac_sha256, sha256. by rewrite length_blocks. }
  destruct Hd as [H1 H2]. destruct d as [|c d]; [done|]. cbn in H2. apply andb_prop in H2 as [Hc _].
  cbn. by rewrite (hex_ascii c Hc).
Qed.

Lemma substring_short s n : (String.length s <= n)%nat -> String.substring 0 n s = s.
Proof.
  revert n. induction s as [|c s IH]; intros [|n] H; cbn in *; try done; [lia|]. rewrite IH; [done|lia].
Qed.

(** A complete secret that the other processes leave alone is the one every call uses. *)
Section known_secret.
Context (s : string).

Definition knows (h : host) : Prop := secret h = Some s /\ forall n, peer h n (Some s) = Some s.

Lemma keeps_knows h h' : keeps h h' -> knows h -> knows h'.
Proof.
  intros ((_ & _ & _ & _ & _ & _ & _ & Hp) & _ & Hs) [H1 H2]. split; [congruence|]. by rewrite Hp.
Qed.

Lemma create_in_known n h e h' :
  knows h -> create_in n open_new_secret h = (Ok e, h') -> knows h' /\ e <> None.
Proof.
  revert h. induction n as [|n IH]; intros h Hk; cbn [create_in].
  - intros [-> ->]%ret_ok. done.
  - intros (e1 & h1 & H1 & H)%bind_ok.
    assert (Hk1 : knows h1 /\ e1 <> None).
    { unfold open_new_secret in H1. apply bind_ok in H1 as (e2 & h2 & [= <- <-] & H1).
      destruct (fault h (steps h)) as [e2|]; [by apply ret_ok in H1 as [-> ->]|].
      apply bind_ok in H1 as (s' & h3 & [= <- <-] & H1). cbn in H1. rewrite (proj1 Hk) in H1.
      by apply ret_ok in H1 as [-> ->]. }
    destruct Hk1 as [Hk1 Hne]. destruct e1 as [[]|]; [by apply (IH h1)|..];
      by apply ret_ok in H as [-> ->].
Qed.

Lemma read_secret_known h raw h' :
  (String.length s <= SECRET_HEX_LENGTH)%nat -> knows h -> os_error_unavailable _read_secret_file h = (Ok raw, h') ->
  knows h' /\ (raw = None \/ raw = Some s).
Proof.
  intros Hlen Hk H. split; [eapply keeps_knows; [|exact Hk]; eapply (resp_run keeps); [|exact H]; apply _|].
  apply catch_ok in H as [H|(e & h1 & _ & H)]; [|by destruct e].
  unfold _read_secret_file in H. apply bind_ok in H as (e & h1 & [= <- <-] & H).
  destruct (fault h (steps h)) as [[]|]; [left; by apply ret_ok in H as [-> _]|done|done|].
  apply bind_ok in H as (s' & h2 & [= <- <-] & H). cbn in H. rewrite (proj1 Hk) in H.
  apply finally_ok in H as (h3 & u & H & _).
  apply bind_ok in H as (uid & h4 & [= _ <-] & H). apply bind_ok in H as (st & h5 & H5 & H).
  apply (resp_run keeps) in H5; [|apply _]. apply bind_ok in H as (? & h6 & [_ ->]%guard_err_ok & H).
  apply bind_ok in H as (? & h7 & ->%syscall_ok & H). apply bind_ok in H as (s' & h8 & [= <- <-] & H).
  apply ret_ok in H as [-> _]. right. destruct H5 as (_ & _ & E). cbn in *. rewrite E, (proj1 Hk).
  cbn. f_equal. apply substring_short. lia.
Qed.

Lemma load_secret_known bytes h x h' :
  String.length s = SECRET_HEX_LENGTH -> from_hex s = Some bytes -> knows h ->
  _load_secret h = (Ok x, h') -> x = bytes /\ knows h'.
Proof.
  intros Hlen Hbytes Hk (e & h1 & H1 & H)%bind_ok. apply create_in_known in H1 as [Hk1 Hne]; [|exact Hk].
  destruct e as [[]|]; [done| |done|done]. clear Hk Hne. revert h1 Hk1 H. generalize SECRET_READ_ATTEMPTS.
  intros n. induction n as [|n IH]; intros h1 Hk; cbn [await_secret]; [done|].
  intros (raw & h2 & H2 & H)%bind_ok. apply read_secret_known in H2 as [Hk2 Hraw]; [|lia|exact Hk].
  cbv zeta in H. destruct Hraw as [-> | ->].
  - change (Nat.eqb (String.length (default EmptyString None)) SECRET_HEX_LENGTH) with false in H.
    apply bind_ok in H as (u & h3 & H3 & H). eapply IH; [|exact H].
    destruct (Nat.eqb n 0); [by apply ret_ok in H3 as [_ ->]|]. injection H3 as _ <-.
    split; [|apply Hk2]. cbn. rewrite (proj1 Hk2). apply Hk2.
  - change (default EmptyString (Some s)) with s in H.
    rewrite Hlen, Nat.eqb_refl, Hbytes in H. by apply ret_ok in H as [-> ->].
Qed.

(** A secret whose writing was interrupted is never completed and never replaced. *)
Lemma incomplete_secret_unusable h x h' :
  (String.length s < SECRET_HEX_LENGTH)%nat -> knows h -> _load_secret h <> (Ok x, h').
Proof.
  intros Hlen Hk (e & h1 & H1 & H)%bind_ok. apply create_in_known in H1 as [Hk1 Hne]; [|exact Hk].
  destruct e as [[]|]; [done| |done|done]. clear Hk Hne. revert h1 Hk1 H. generalize SECRET_READ_ATTEMPTS.
  intros n. induction n as [|n IH]; intros h1 Hk; cbn [await_secret]; [done|].
  intros (raw & h2 & H2 & H)%bind_ok. apply read_secret_known in H2 as [Hk2 Hraw]; [|lia|exact Hk].
  cbv zeta in H.
  assert (Hneq : Nat.eqb (String.length (default EmptyString raw)) SECRET_HEX_LENGTH = false).
  { apply Nat.eqb_neq. destruct Hraw as [-> | ->]; [done|].
    change (default EmptyString (Some s)) with s. lia. }
  rewrite Hneq in H. apply bind_ok in H as (u & h3 & H3 & H). eapply IH; [|exact H].
  destruct (Nat.eqb n 0); [by apply ret_ok in H3 as [_ ->]|]. injection H3 as _ <-.
  split; [|apply Hk2]. cbn. rewrite (proj1 Hk2). apply Hk2.
Qed.
End known_secret.

(** ** Calls *)
Record call : Type := Call { c_address : option string; c_email : value; c_now : option value }.

Section calls.
Context (float_repr : float -> string) (cfg : AuthRateLimitConfig).

Definition enforce (c : call) : HM unit :=
  enforce_authentication_rate_limit float_repr cfg (c_address c) (c_email c) (c_now c).

Definition call_key (bytes : list Z) (c : call) : string := _attempt_key bytes (c_address c) (c_email c).

(** The clock a call reads. *)
Definition call_time (c : call) (h : host) : value :=
  match c_now c with Some v => v | None => VFloat (wall h (steps h)) end.

Lemma limit_now_run now h r h' :
  _validated_now now h = (r, h') ->
  h' = h /\
  match nonneg_number (match now with Some v => v | None => VFloat (wall h (steps h)) end) with
  | Some t => r = Ok t
  | None => r = Err AuthRateLimitUnavailable
  end.
Proof.
  unfold _validated_now. unfold mbind, M_bind.
  assert (H : forall f : option float,
    (match f with Some f => mret f | None => unavailable end : HM float) h = (r, h') -> h' = h /\
    match f with Some t => r = Ok t | None => r = Err AuthRateLimitUnavailable end).
  { intros [f|]; cbn; by intros [= <- <-]. }
  destruct now as [v|]; apply H.
Qed.

(** The outcomes of a call. *)
Lemma enforce_outcome c h r h' :
  enforce c h = (r, h') ->
  r = Err AuthRateLimitUnavailable \/
  exists t a n, nonneg_number (call_time c h) = Some t /\
    decided float_repr cfg (c_address c) (c_email c) t h a n h' /\
    r = if a then Ok tt else Err (AuthRateLimitExceeded n).
Proof.
  unfold enforce, enforce_authentication_rate_limit. unfold mbind, M_bind.
  destruct (_validated_now (c_now c) h) as [r0 h0] eqn:H0. apply limit_now_run in H0 as [-> H0].
  fold (call_time c h) in H0. destruct (nonneg_number (call_time c h)) as [t|]; subst r0.
  2: { intros [= <- _]. by left. }
  unfold os_error_unavailable, catch.
  destruct (_enforce_rate_limit _ _ _ _ _ _) as [r1 h1] eqn:H1.
  apply enforce_decided in H1 as [(e & -> & [-> | ->])|(a & n & Hd & ->)].
  - intros [= <- _]. by left.
  - intros [= <- _]. by left.
  - intros H. right. exists t, a, n. destruct a; injection H as <- <-; done.
Qed.

Lemma register_retry keys key now a n ch keys' :
  _register_attempt keys key now cfg = (a, n, ch, keys') -> a = false -> 1 <= n.
Proof.
  intros [(_ & _ & _ & -> & _)|(ws & ws' & bl & op & _ & _ & [(_ & -> & _)|(_ & _ & -> & _)])]%register_cases Ha;
    [|done|unfold retry_delay; lia].
  unfold _earliest_release. destruct (map_fold _ _ _); [done|]. unfold retry_delay. lia.
Qed.

Lemma register_admitted keys key now n ch keys' :
  _register_attempt keys key now cfg = (true, n, ch, keys') -> n = 0.
Proof.
  unfold _register_attempt. destruct (_purge_expired keys now !! key) as [ws|]; [|destruct (_ <=? _); [done|]].
  all: destruct (open_windows _ _ _) as [[ws' bl] op]; destruct bl; congruence.
Qed.

(** *** Histories of calls *)
Fixpoint run_calls (cs : list call) (h : host) : list (call * result unit * host) :=
  match cs with
  | [] => []
  | c :: cs' => let '(r, h') := enforce c h in (c, r, h') :: run_calls cs' h'
  end.

(** The admitted attempts of a key. *)
Fixpoint admitted (bytes : list Z) (k : string) (run : list (call * result unit * host)) : Z :=
  match run with
  | [] => 0
  | (c, r, _) :: run' =>
      (if is_ok r && String.eqb (call_key bytes c) k then 1 else 0) + admitted bytes k run'
  end.

(** No document of a shard is too large to be read back. *)
Definition fits (h : host) : Prop :=
  forall name r size, shards h !! name = Some (Document r size) -> size <= MAX_STATE_FILE_BYTES.

(** Whenever the call reads its clock, the time is before [b], and a window of [secs]
    seconds opened then lasts until [b] at least. *)
Definition timely (clock : nat -> float) (secs b : float) (c : call) : Prop :=
  forall n, exists t,
    nonneg_number (match c_now c with Some v => v | None => VFloat (clock n) end) = Some t /\
    flt t b = true /\ fle b (fadd t secs) = true.

Section bounded.
Context (s : string) (bytes : list Z) (k : string) (i : nat) (limit : Z) (secs b : float).
Hypotheses (Hc : config_ok cfg) (Hlen : String.length s = SECRET_HEX_LENGTH) (Hbytes : from_hex s = Some bytes)
  (Hi : windows cfg !! i = Some (limit, secs)) (Hb : is_nan b = false).

Lemma configured_limit : 1 <= limit.
Proof using Hc Hi.
  destruct Hc as [_ Hw]. rewrite Forall_lookup in Hw. by destruct (Hw i _ Hi).
Qed.

Abbreviation left_of h := (allowance k i limit b (stored h (shard_of cfg k))).

Lemma call_allowance c h r h' t :
  knows s h -> enforce c h = (r, h') -> nonneg_number (call_time c h) = Some t ->
  flt t b = true -> fle b (fadd t secs) = true -> r <> Err AuthRateLimitUnavailable -> fits h' ->
  knows s h' /\ wall h' = wall h /\
  left_of h' <= left_of h - (if is_ok r && String.eqb (call_key bytes c) k then 1 else 0).
Proof using All.
  intros Hk H Ht Hlt Hle Hr Hfits. apply enforce_outcome in H as [H|(t' & a & n & Ht' & Hd & ->)]; [done|].
  assert (t' = t) as -> by congruence. apply nonneg_number_spec in Ht as [Hfin Hpos].
  destruct Hd as (h0 & bytes' & h1 & K0 & Hload & _ & Hch & Hsec & Hsame).
  destruct (load_secret_known s bytes h0 bytes' h1 Hlen Hbytes) as [-> Hk1];
    [by eapply keeps_knows|exact Hload|].
  split. { split; [by rewrite Hsec; apply Hk1|]. destruct Hsame as (_ & _ & _ & _ & _ & _ & _ & Hp).
    rewrite Hp. apply Hk. }
  split; [apply Hsame|]. destruct Hch as (ch & keys & Hreg & Hother & Hnew). fold (call_key bytes c) in *.
  replace (is_ok _) with a by (by destruct a).
  destruct (attempt_key_shape bytes (c_address c) (c_email c)) as [Hk0 Hk32].
  fold (call_key bytes c) in Hk0, Hk32.
  destruct (decide (shard_of cfg k = shard_of cfg (call_key bytes c))) as [Es|Es].
  2: { rewrite (Hother _ Es). destruct (String.eqb_spec (call_key bytes c) k) as [E|_]; [congruence|].
       rewrite andb_false_r. lia. }
  assert (Hst : stored h' (shard_of cfg (call_key bytes c)) = keys).
  { destruct ch; [|rewrite Hnew; symmetry; by eapply register_unchanged].
    destruct Hnew as (rw & size & Hs & Hdump & Hsize). unfold stored. rewrite Hs.
    apply (table_of_written float_repr); [|exact Hdump|exact Hsize|by eapply Hfits].
    eapply written_table_ok; [exact Hc| |exact Hfin|exact Hpos|exact Hk0|exact Hk32|exact Hreg|exact Hdump].
    apply table_of_ok. }
  rewrite Es, Hst. eapply (register_allowance cfg k i limit secs b Hi configured_limit Hb t Hfin Hlt Hle);
    [|exact Hreg]. apply table_of_ok.
Qed.

Lemma run_allowance cs h :
  knows s h ->
  Forall (fun '(c, r, h') => r <> Err AuthRateLimitUnavailable /\ fits h') (run_calls cs h) ->
  Forall (timely (wall h) secs b) cs ->
  admitted bytes k (run_calls cs h) <= left_of h.
Proof using All.
  intros Hk Hrun Hcs. remember (wall h) as wl eqn:Hwl. revert h Hk Hwl Hrun.
  induction Hcs as [|c cs Hc0 _ IH]; intros h Hk Hwl; cbn [run_calls].
  - intros _. cbn. apply allowance_bounds; [exact configured_limit|apply table_of_ok].
  - destruct (enforce c h) as [r h'] eqn:He. intros [[Hr Hf] Hrun]%Forall_cons. cbn [admitted].
    destruct (Hc0 (steps h)) as (t & Ht & Hlt & Hle).
    apply (call_allowance c h r h' t) in He as (Hk' & Hw' & Ha); try done.
    + specialize (IH h' Hk' ltac:(congruence) Hrun). lia.
    + unfold call_time. by rewrite <- Hwl.
Qed.
End bounded.
End calls.

(** C23: The rate limit. Take any sequence of calls, of any processes, for any clients
    and accounts and in any order of their clocks, made before a time [b] and such
    that a window opened by one of them lasts until [b]. As long as no call fails
    closed and no shard outgrows the size that is read back, the admitted attempts of
    one key are at most the limit of the window if the key was not tracked at the
    start, and at most twice the limit if it was. This holds of each of the two
    windows, burst and sustained. *)
Theorem attempts_are_bounded float_repr b_lim b_secs s_lim s_secs n_shards n_keys dir cfg
    s bytes k i limit secs b cs h :
  make_config b_lim b_secs s_lim s_secs n_shards n_keys dir = Ok cfg ->
  windows cfg !! i = Some (limit, secs) ->
  String.length s = SECRET_HEX_LENGTH -> from_hex s = Some bytes -> knows s h ->
  is_nan b = false ->
  Forall (timely (wall h) secs b) cs ->
  Forall (fun '(c, r, h') => r <> Err AuthRateLimitUnavailable /\ fits h') (run_calls float_repr cfg cs h) ->
  admitted bytes k (run_calls float_repr cfg cs h) <=
    match stored h (shard_of cfg k) !! k with None => limit | Some _ => 2 * limit end.
Proof.
  intros Hc%make_config_ok Hi Hlen Hbytes Hk Hb Hcs Hrun.
  etrans; [by eapply (run_allowance float_repr cfg s bytes k i limit secs b)|].
  pose proof (configured_limit cfg i limit secs Hc Hi) as Hl.
  unfold allowance. destruct (stored h _ !! k) as [ws|] eqn:Hs; [|done].
  pose proof (allowance_bounds k i limit b Hl (stored h (shard_of cfg k)) (table_of_ok _)) as Hbd.
  unfold allowance in Hbd. rewrite Hs in Hbd. lia.
Qed.

(** From then on every call fails closed: nothing but the removal of the file helps. *)
Lemma incomplete_secret_fails_closed float_repr cfg s c h :
  (String.length s < SECRET_HEX_LENGTH)%nat -> knows s h ->
  (enforce float_repr cfg c h).1 = Err AuthRateLimitUnavailable.
Proof.
  intros Hlen Hk. destruct (enforce float_repr cfg c h) as [r h'] eqn:He.
  apply enforce_outcome in He as [->|(t & a & n & _ & (h0 & bytes & h1 & K0 & Hload & _) & _)]; [done|].
  exfalso. eapply incomplete_secret_unusable; [exact Hlen| |exact Hload]. by eapply keeps_knows.
Qed.

(** The outcomes of a call, whatever the operating system answers and wherever
    a system call fails. Admitted: the directory and the shard have been found to be the
    owner's and private, the attempt has been charged to its key in the shard of
    the key, and no other shard has changed. Denied: a window of the key
    is exhausted or the table is full, nobody is charged, and the delay is a second
    at least. Every other outcome, an I/O error, an unsafe directory or file, a
    broken clock, is the one fail-closed error. *)
Theorem rate_limit_fails_closed float_repr cfg c h :
  let '(r, h') := enforce float_repr cfg c h in
  match r with
  | Ok _ => exists t, nonneg_number (call_time c h) = Some t /\
      decided float_repr cfg (c_address c) (c_email c) t h true 0 h'
  | Err (AuthRateLimitExceeded n) => 1 <= n /\ exists t, nonneg_number (call_time c h) = Some t /\
      decided float_repr cfg (c_address c) (c_email c) t h false n h'
  | Err e => e = AuthRateLimitUnavailable
  end.
Proof.
  destruct (enforce float_repr cfg c h) as [r h'] eqn:He.
  apply enforce_outcome in He as [->|(t & a & n & Ht & Hd & ->)]; [done|].
  pose proof Hd as (h0 & bytes & h1 & _ & _ & _ & (ch & keys & Hreg & _) & _). destruct a.
  - exists t. split; [done|]. assert (n = 0) as -> by (by eapply register_admitted). exact Hd.
  - split; [by eapply register_retry|]. by exists t.
Qed.

(** ** When an attempt is denied *)

(** A record whose window goes on and has no room left. *)
Definition exhausted (now : float) (p : Z * float) (r : window) : Prop :=
  expired now r = false /\ p.1 <= count r.

Definition some_exhausted (now : float) (limits : list (Z * float)) (ws : list window) : Prop :=
  exists i p r, limits !! i = Some p /\ ws !! i = Some r /\ exhausted now p r.

Lemma some_exhausted_cons now p limits r ws :
  some_exhausted now (p :: limits) (r :: ws) <-> exhausted now p r \/ some_exhausted now limits ws.
Proof.
  split.
  - intros ([|i] & p' & r' & Hp & Hr & Hx); [|right; by exists i, p', r'].
    injection Hp as ->. injection Hr as ->. by left.
  - intros [Hx|(i & p' & r' & Hp & Hr & Hx)]; [by exists 0%nat, p, r|by exists (S i), p', r'].
Qed.

Lemma open_windows_blocked now limits ws :
  Forall (fun p => 1 <= p.1) limits ->
  (open_windows now limits ws).1.2 <> [] <-> some_exhausted now limits ws.
Proof.
  intros Hl. revert ws. induction Hl as [|[l s] limits Hl0 Hl IH]; intros [|r ws];
    try (by split; [|intros ([] & ? & ? & ? & ? & _)]).
  rewrite some_exhausted_cons, <- IH. cbn [open_windows].
  destruct (open_windows now limits ws) as [[ws' bl] ch]. cbn in *.
  assert (Hr : (l <=? count (if expired now r then Window (fadd now s) 0 else r)) = true <->
    exhausted now (l, s) r).
  { unfold exhausted. destruct (expired now r); cbn; rewrite Z.leb_le; [split; [lia|by intros [??]]|].
    split; [done|by intros [_ ?]]. }
  rewrite <- Hr. destruct (l <=? _); split; try done; [by left|by right|by intros [?|?]].
Qed.

(** An attempt is denied exactly when the key is new and the table is full of keys
    with a window that goes on, or when one of the key's own windows goes on and has
    counted its limit: nobody else's attempts exhaust it, and it has room again as
    soon as its windows have ended. *)
Theorem attempt_is_denied_iff b_lim b_secs s_lim s_secs n_shards n_keys dir cfg keys key now :
  make_config b_lim b_secs s_lim s_secs n_shards n_keys dir = Ok cfg ->
  is_finite now = true ->
  let '(allowed, retry_after, _, keys') := _register_attempt keys key now cfg in
  let live := _purge_expired keys now in
  (allowed = false <->
   (live !! key = None /\ max_tracked_keys_per_shard cfg <= Z.of_nat (size live)) \/
   exists ws, live !! key = Some ws /\ some_exhausted now (windows cfg) ws) /\
  (forall k, k <> key -> keys' !! k = live !! k).
Proof.
  intros Hc%make_config_ok Hnow. destruct (_register_attempt keys key now cfg) as [[[a n] ch] keys'] eqn:H.
  cbv zeta. set (live := _purge_expired keys now).
  assert (Hl : Forall (fun p => 1 <= p.1) (windows cfg)).
  { destruct Hc as [_ Hc]. eapply Forall_impl; [exact Hc|]. by intros p (? & _). }
  apply register_cases in H. fold live in H.
  destruct H as [(Hk & Hm & -> & _ & ->)|(ws & ws' & bl & op & Hws & Ho & H)].
  { split; [split; [by left|done]|done]. }
  assert (Hother : forall k, k <> key -> keys' !! k = live !! k).
  { intros k Hne. destruct H as [(_ & _ & ->)|(_ & _ & _ & ->)]; by rewrite lookup_insert_ne. }
  split; [|exact Hother].
  pose proof (open_windows_blocked now (windows cfg) ws Hl) as Hbl. rewrite Ho in Hbl. cbn in Hbl.
  assert (Hiff : a = false <-> some_exhausted now (windows cfg) ws).
  { rewrite <- Hbl. destruct H as [(-> & -> & _)|(Hne & -> & _)]; done. }
  rewrite Hiff. destruct Hws as [Hws|(Hws & Hlt & ->)]; split.
  - intros Hx. right. by exists ws.
  - intros [[Hk _]|(ws0 & Hk & Hx)]; [congruence|]. by replace ws with ws0 by congruence.
  - intros (i & p & r & _ & Hr & [Hx _]). apply lookup_replicate_1 in Hr as [-> _].
    unfold expired in Hx. cbn in Hx. rewrite fle_refl in Hx by auto with pyfloat. done.
  - intros [[_ Hm]|(ws0 & Hk & _)]; [lia|congruence].
Qed.

(** ** A history, evaluated *)
Definition demo_repr (f : float) : string := "1700000060.0".

Definition demo_limits : result AuthRateLimitConfig :=
  make_config (VInt 2) (VInt 60) (VInt 30) (VFloat (of_Z 600)) (VInt 16) (VInt 4096) DEFAULT_ADMISSION_DIR.

Definition demo_limit_config : AuthRateLimitConfig :=
  match demo_limits with Ok c => c | Err _ => Config 0 fzero 0 fzero 0 0 EmptyString end.

Definition demo_secret : string := "000102030405060708090a0b0c0d0e0f101112131415161718191a1b1c1d1e1f".
Definition demo_secret_bytes : list Z := default [] (from_hex demo_secret).

Definition demo_host : host :=
  Host ∅ (Some demo_secret) 0 1000 (fun _ => of_Z 1700000000)
    (fun n => if Nat.eqb n 4 then Some ENOENT else None)
    (fun _ t => match t with Directory => Stat 16832 1000 1 2 | Entry _ => Stat 33152 1000 1 3 end)
    (fun _ => demo_secret) (fun _ => Damaged) (fun _ => 0%nat) (fun _ s => s).

Definition demo_call (email : string) (t : Z) : call := Call (Some "192.0.2.1") (VStr email) (Some (VInt t)).

Definition demo_calls : list call :=
  [demo_call "a@example.com" 1700000000; demo_call "b@example.com" 1700000001;
   demo_call " A@Example.com" 1700000002; demo_call "a@example.com" 1700000003].

Definition demo_run := run_calls demo_repr demo_limit_config demo_calls demo_host.

Example demo_run_results :
  (fun '(_, r, _) => r) <$> demo_run = [Ok tt; Ok tt; Ok tt; Err (AuthRateLimitExceeded 57)].
Proof. vm_compute. reflexivity. Qed.

Definition decisive (x : call * result unit * host) : bool :=
  match x.1.2 with Err AuthRateLimitUnavailable => false | _ => true end &&
  forallb (fun p => match p.2 with Document _ size => size <=? MAX_STATE_FILE_BYTES | _ => true end)
    (map_to_list (shards x.2)).

Lemma decisive_run run :
  forallb decisive run = true ->
  Forall (fun '(c, r, h') => r <> Err AuthRateLimitUnavailable /\ fits h') run.
Proof.
  intros H. apply Forall_forall. intros [[c r] h] Hin. rewrite forallb_forall in H.
  apply list_elem_of_In, H in Hin. unfold decisive in Hin. cbn in Hin. split_bools.
  split; [by destruct r as [|[]]|]. intros name rw size Hs.
  match goal with H : forallb _ _ = true |- _ => rewrite forallb_forall in H; rename H into Hall end.
  specialize (Hall (name, Document rw size)). cbn in Hall. apply Z.leb_le, Hall.
  by apply list_elem_of_In, elem_of_map_to_list.
Qed.

Definition demo_key : string := call_key demo_secret_bytes (demo_call "a@example.com" 0).

Lemma attempts_are_bounded_witness :
  admitted demo_secret_bytes demo_key demo_run = 2 /\
  admitted demo_secret_bytes demo_key demo_run <=
    match stored demo_host (shard_of demo_limit_config demo_key) !! demo_key with
    | None => 2 | Some _ => 2 * 2 end.
Proof.
  split; [vm_compute; reflexivity|].
  apply (attempts_are_bounded demo_repr (VInt 2) (VInt 60) (VInt 30) (VFloat (of_Z 600)) (VInt 16)
    (VInt 4096) DEFAULT_ADMISSION_DIR demo_limit_config demo_secret demo_secret_bytes demo_key 0 2 (of_Z 60)
    (of_Z 1700000060)); try reflexivity.
  - split; reflexivity.
  - repeat constructor; intros n; eexists; (split; [reflexivity|]); split; vm_compute; reflexivity.
  - apply decisive_run. vm_compute. reflexivity.
Defined.

Lemma attempt_is_denied_iff_witness :
  let '(allowed, retry_after, _, keys') :=
    _register_attempt {["k" := [Window (of_Z 60) 2; Window (of_Z 600) 2]]} "k" (of_Z 50) demo_limit_config in
  (allowed, retry_after, keys' !! "other") = (false, 10, None).
Proof.
  pose proof (attempt_is_denied_iff (VInt 2) (VInt 60) (VInt 30) (VFloat (of_Z 600)) (VInt 16)
    (VInt 4096) DEFAULT_ADMISSION_DIR demo_limit_config
    {["k" := [Window (of_Z 60) 2; Window (of_Z 600) 2]]} "k" (of_Z 50) eq_refl eq_refl) as H.
  destruct (_register_attempt _ _ _ _) as [[[allowed retry] ch] keys'] eqn:E. cbv zeta in H.
  destruct H as [Hd Ho].
  assert (Ha : allowed = false).
  { apply Hd. right. eexists. split; [reflexivity|]. by exists 0%nat, (2, of_Z 60), (Window (of_Z 60) 2). }
  rewrite Ho, Ha by done. vm_compute in E. injection E as _ <- _ _. reflexivity.
Defined.
