(* ===== verification/IpAddress.v ===== *)
(** * IP addresses (Python's [ipaddress])

    [ip_address(text)] and [str] of its result, as the program uses them: to refuse
    what is not an address and to give every address one text. *)

From S2P Require Import Prelude PyFloat Sha256 PyValue Uuid PyText.

(** [s.split(sep)] for a separator of one character. *)
Fixpoint split_on (sep : Ascii.ascii) (s : string) : list string :=
  match s with
  | EmptyString => [EmptyString]
  | String c s' =>
      if Ascii.eqb c sep then EmptyString :: split_on sep s'
      else match split_on sep s' with
           | [] => [String c EmptyString]
           | part :: parts => String c part :: parts
           end
  end.

Fixpoint join_with (sep : string) (l : list string) : string :=
  match l with
  | [] => EmptyString
  | [s] => s
  | s :: l' => String.append s (String.append sep (join_with sep l'))
  end.

Definition chars (s : string) : list Ascii.ascii := String.list_ascii_of_string s.

(** ** Version 4 *)
Definition parse_octet (s : string) : option Z :=
  if str_empty s || Nat.ltb 3 (String.length s) ||
     negb (forallb (fun c => match digit_of c with Some _ => true | None => false end) (chars s)) ||
     (negb (String.eqb s "0") && String.prefix "0" s) then None
  else v ← first_digit s; if 255 <? v then None else Some v.

Definition parse_ipv4 (s : string) : option Z :=
  match split_on "." s with
  | [a; b; c; d] =>
      a ← parse_octet a; b ← parse_octet b; c ← parse_octet c; d ← parse_octet d;
      Some (((a * 256 + b) * 256 + c) * 256 + d)
  | _ => None
  end.

Definition ipv4_text (n : Z) : string :=
  join_with "." ((fun k => pretty.pretty (Z.shiftr n k mod 256)) <$> [24; 16; 8; 0]).

(** ** Version 6 *)
Definition parse_hextet (s : string) : option Z :=
  if str_empty s || Nat.ltb 4 (String.length s) ||
     negb (forallb (fun c => match hex_value c with Some _ => true | None => false end) (chars s))
  then None else first_hex_digit s.

(** ['%x' % n] *)
Definition hex_text (n : Z) : string :=
  let strip := fix strip (fuel : nat) (s : string) : string :=
    match fuel, s with
    | S fuel', String "0"%char s' => strip fuel' s'
    | _, _ => s
    end in
  strip 3%nat (hex 4 n EmptyString).

Definition hextets (parts : list string) : option Z :=
  foldl (fun acc p => n ← acc; v ← parse_hextet p; Some (n * 65536 + v)) (Some 0) parts.

(** The last part may be a version 4 address: it counts for two. *)
Definition expand_ipv4 (parts : list string) : option (list string) :=
  match last parts with
  | Some p =>
      if existsb (Ascii.eqb ".") (chars p) then
        n ← parse_ipv4 p;
        Some (removelast parts ++ [hex_text (Z.shiftr n 16 mod 65536); hex_text (n mod 65536)])
      else Some parts
  | None => None
  end.

(** The index of the empty part among the inner ones, [None] for two of them. *)
Fixpoint skip_index (i : nat) (inner : list string) (found : option nat) : option (option nat) :=
  match inner with
  | [] => Some found
  | p :: inner' =>
      if str_empty p then match found with
                          | Some _ => None
                          | None => skip_index (S i) inner' (Some i)
                          end
      else skip_index (S i) inner' found
  end.

Definition parse_ipv6_parts (parts : list string) : option Z :=
  let n := length parts in
  let first := default EmptyString (head parts) in
  let final := default EmptyString (last parts) in
  if Nat.ltb 9 n then None
  else
    skip ← skip_index 1 (removelast (tail parts)) None;
    match skip with
    | Some i =>
        let hi := if str_empty first then (i - 1)%nat else i in
        let lo := (n - i - 1)%nat in
        let lo := if str_empty final then (lo - 1)%nat else lo in
        if (str_empty first && negb (Nat.eqb hi 0)) || (str_empty final && negb (Nat.eqb lo 0)) ||
           Nat.ltb 7 (hi + lo) then None
        else
          a ← hextets (take hi parts);
          b ← hextets (drop (n - lo) parts);
          Some (a * 2 ^ (16 * Z.of_nat (8 - hi)) + b)
    | None =>
        if negb (Nat.eqb n 8) || str_empty first || str_empty final then None else hextets parts
    end.

Definition parse_ipv6_int (s : string) : option Z :=
  if str_empty s then None
  else
    let parts := split_on ":" s in
    if Nat.ltb (length parts) 3 then None
    else parts ← expand_ipv4 parts; parse_ipv6_parts parts.

(** [addr.partition("%")]: the number and the scope. *)
Definition parse_ipv6 (s : string) : option (Z * option string) :=
  match split_on "%" s with
  | [a] => n ← parse_ipv6_int a; Some (n, None)
  | [a; scope_id] =>
      if str_empty scope_id then None else n ← parse_ipv6_int a; Some (n, Some scope_id)
  | _ => None
  end.

(** The longest run of zeros, the first of several: its start and its length. *)
Fixpoint zero_runs (i start len : nat) (l : list Z) (best : nat * nat) : nat * nat :=
  match l with
  | [] => best
  | h :: l' =>
      if h =? 0 then
        let start := if Nat.eqb len 0 then i else start in
        let len := S len in
        zero_runs (S i) start len l' (if Nat.ltb best.2 len then (start, len) else best)
      else zero_runs (S i) i 0 l' best
  end.

Definition ipv6_hextets (n : Z) : list Z :=
  (fun k => Z.shiftr n k mod 65536) <$> [112; 96; 80; 64; 48; 32; 16; 0].

Definition ipv6_number_text (n : Z) : string :=
  let hs := ipv6_hextets n in
  let '(start, len) := zero_runs 0 0 0 hs (0%nat, 0%nat) in
  let texts := hex_text <$> hs in
  if Nat.ltb 1 len then
    let rest := drop (start + len) texts in
    let rest := if Nat.eqb (start + len) 8 then rest ++ [EmptyString] else rest in
    let parts := take start texts ++ [EmptyString] ++ rest in
    join_with ":" (if Nat.eqb start 0 then EmptyString :: parts else parts)
  else join_with ":" texts.

(** Since Python 3.13 a version 4 address mapped into version 6 is [dotted]. *)
Definition ipv6_text (dotted : bool) (n : Z) (scope_id : option string) : string :=
  let text := if dotted && (Z.shiftr n 32 =? 65535)
              then String.append (ipv6_number_text 65535) (String.append ":" (ipv4_text (n mod 2 ^ 32)))
              else ipv6_number_text n in
  match scope_id with
  | Some s => String.append text (String "%" s)
  | None => text
  end.

(** ** [ipaddress.ip_address(text)]

    [None] is [ValueError]. A slash is refused by both versions. *)
Inductive ip_addr : Type :=
| V4 (n : Z)
| V6 (n : Z) (scope_id : option string).

Definition ip_address (s : string) : option ip_addr :=
  if existsb (Ascii.eqb "/") (chars s) then None
  else match parse_ipv4 s with
       | Some n => Some (V4 n)
       | None => '(n, scope_id) ← parse_ipv6 s; Some (V6 n scope_id)
       end.

Definition ip_text (dotted : bool) (a : ip_addr) : string :=
  match a with V4 n => ipv4_text n | V6 n scope_id => ipv6_text dotted n scope_id end.

(** [str(ipaddress.ip_address(text))] *)
Definition ip_address_text (s : string) : option string := ip_text true <$> ip_address s.

(** ** Classes of addresses

    The networks of the IANA registries that Python's [is_private] goes by: their
    first address and the length of the prefix. *)
Definition ip4 (a b c d : Z) : Z := ((a * 256 + b) * 256 + c) * 256 + d.

(** The first three groups of an address, zeros after them. *)
Definition ip6 (a b c : Z) : Z := ((a * 65536 + b) * 65536 + c) * 2 ^ 80.

Definition in_network (width n : Z) (network : Z * Z) : bool :=
  let '(first, prefix) := network in
  Z.shiftr n (width - prefix) =? Z.shiftr first (width - prefix).

Definition in_networks (width n : Z) (networks : list (Z * Z)) : bool :=
  existsb (in_network width n) networks.

Definition v4_private_networks : list (Z * Z) :=
  [(ip4 0 0 0 0, 8); (ip4 10 0 0 0, 8); (ip4 127 0 0 0, 8); (ip4 169 254 0 0, 16); (ip4 172 16 0 0, 12);
   (ip4 192 0 0 0, 24); (ip4 192 0 0 170, 31); (ip4 192 0 2 0, 24); (ip4 192 168 0 0, 16);
   (ip4 198 18 0 0, 15); (ip4 198 51 100 0, 24); (ip4 203 0 113 0, 24); (ip4 240 0 0 0, 4);
   (ip4 255 255 255 255, 32)].
Definition v4_private_exceptions : list (Z * Z) := [(ip4 192 0 0 9, 32); (ip4 192 0 0 10, 32)].

Definition v6_private_networks : list (Z * Z) :=
  [(1, 128); (0, 128); (65535 * 2 ^ 32, 96); (ip6 100 65435 1, 48); (ip6 256 0 0, 64);
   (ip6 8193 0 0, 23); (ip6 8193 3512 0, 32); (ip6 8194 0 0, 16); (ip6 64512 0 0, 7); (ip6 65152 0 0, 10)].
Definition v6_private_exceptions : list (Z * Z) :=
  [(ip6 8193 1 0 + 1, 128); (ip6 8193 1 0 + 2, 128); (ip6 8193 3 0, 32); (ip6 8193 4 274, 48);
   (ip6 8193 32 0, 28); (ip6 8193 48 0, 28)].

Definition v4_is_private (n : Z) : bool :=
  in_networks 32 n v4_private_networks && negb (in_networks 32 n v4_private_exceptions).
Definition v4_is_global (n : Z) : bool :=
  negb (in_network 32 n (ip4 100 64 0 0, 10)) && negb (v4_is_private n).
Definition v4_is_multicast (n : Z) : bool := in_network 32 n (ip4 224 0 0 0, 4).

Definition ipv4_mapped (n : Z) : option Z := if Z.shiftr n 32 =? 65535 then Some (n mod 2 ^ 32) else None.

Definition v6_is_private (n : Z) : bool :=
  match ipv4_mapped n with
  | Some m => v4_is_private m
  | None => in_networks 128 n v6_private_networks && negb (in_networks 128 n v6_private_exceptions)
  end.

(** [mapped]: whether the version 4 address decides for all the properties of an
    address that maps it, and not for [is_private] alone. It does from Python 3.13 on,
    and in the later releases of 3.12. *)
Definition is_global (mapped : bool) (a : ip_addr) : bool :=
  match a with
  | V4 n => v4_is_global n
  | V6 n _ => match ipv4_mapped n with
              | Some m => if mapped then v4_is_global m else negb (v4_is_private m)
              | None => negb (v6_is_private n)
              end
  end.

Definition is_multicast (mapped : bool) (a : ip_addr) : bool :=
  match a with
  | V4 n => v4_is_multicast n
  | V6 n _ => match ipv4_mapped n with
              | Some m => if mapped then v4_is_multicast m else false
              | None => in_network 128 n (ip6 65280 0 0, 8)
              end
  end.

Definition is_unspecified (mapped : bool) (a : ip_addr) : bool :=
  match a with
  | V4 n => n =? 0
  | V6 n _ => match ipv4_mapped n with
              | Some m => if mapped then m =? 0 else false
              | None => n =? 0
              end
  end.

Example global_addresses :
  (fun s => is_global false <$> ip_address s) <$>
    ["8.8.8.8"; "192.168.1.1"; "100.64.0.1"; "2606:4700::1"; "fd00::1"; "::ffff:10.0.0.1"; "::ffff:8.8.8.8";
     "2001:20::1"; "2001:db8::1"] =
  Some <$> [true; false; false; true; false; false; true; true; false].
Proof. vm_compute. reflexivity. Qed.

Example ip_texts :
  ip_address_text <$> ["192.0.2.1"; "2001:DB8:0:0:0:0:0:1"; "::"; "::ffff:192.0.2.1"; "1:0:0:2::";
                       "fe80::1%eth0"; "0:0:0:0:0:0:13.1.68.3"; "1:2:3:4:5:6:7::"] =
  [Some "192.0.2.1"; Some "2001:db8::1"; Some "::"; Some "::ffff:192.0.2.1"; Some "1:0:0:2::";
   Some "fe80::1%eth0"; Some "::d01:4403"; Some "1:2:3:4:5:6:7:0"].
Proof. vm_compute. reflexivity. Qed.
Example ip_texts_refused :
  ip_address_text <$> ["192.0.2"; "192.0.2.256"; "192.0.02.1"; "1::2::3"; ":1:2:3:4:5:6:7"; "12345::";
                       "1:2:3:4:5:6:7"; "192.0.2.1/32"; "fe80::1%"; "localhost"] = replicate 10 None.
Proof. vm_compute. reflexivity. Qed.
