(* ===== verification/AuthGuard.v ===== *)
(** * Ingest authentication guard (ingest_auth_guard.py)

    Failed authentications of media publishers are counted per address and per
    credential; too many of them in a window lock the scope out for a while. Every
    operation reloads the state file under a lock between processes. The buckets are
    kept in the order of the [dict]: the file is written with sorted keys, a new
    bucket goes to the end, and the order decides which of several equally old
    buckets an overflow drops. *)

From S2P Require Import Prelude PyFloat Sha256 PyValue Json Effects Authority Uuid PyText IpAddress.

(** ** Configuration *)
Record IngestAuthGuardConfig : Type := GuardConfig {
  enabled : bool;
  failure_window_seconds : float;
  max_failures_per_ip : Z;
  max_failures_per_credential : Z;
  lockout_seconds : float;
  event_limit : Z;
  bucket_limit : Z;
  blocked_event_interval_seconds : float
}.

Definition guard_env_float (env : environ) (name : string) (dflt minimum maximum : float) : float :=
  let value := default dflt (getenv_float env name dflt) in
  let value := if negb (is_finite value) then dflt else value in
  fmin maximum (fmax minimum value).

Definition guard_env_int (env : environ) (name : string) (dflt minimum maximum : Z) : Z :=
  Z.min maximum (Z.max minimum (default dflt (getenv_int env name dflt))).

Definition guard_config_from_env (env : environ) : IngestAuthGuardConfig :=
  GuardConfig
    (negb (String.eqb (default "1" (env "IRLIGHT_INGEST_AUTH_GUARD_ENABLED")) "0"))
    (guard_env_float env "IRLIGHT_INGEST_AUTH_FAILURE_WINDOW_SECONDS" (of_Z 60) fone (of_Z 3600))
    (guard_env_int env "IRLIGHT_INGEST_AUTH_MAX_FAILURES_PER_IP" 20 1 10000)
    (guard_env_int env "IRLIGHT_INGEST_AUTH_MAX_FAILURES_PER_CREDENTIAL" 8 1 10000)
    (guard_env_float env "IRLIGHT_INGEST_AUTH_LOCKOUT_SECONDS" (of_Z 120) fone (of_Z 86400))
    (guard_env_int env "IRLIGHT_INGEST_AUTH_EVENT_LIMIT" 200 1 5000)
    (guard_env_int env "IRLIGHT_INGEST_AUTH_BUCKET_LIMIT" 4096 32 100000)
    (guard_env_float env "IRLIGHT_INGEST_AUTH_BLOCKED_EVENT_INTERVAL_SECONDS" (of_Z 5) (fratio 1 10)
       (of_Z 3600)).

Record AuthGuardDecision : Type := Decision {
  blocked : bool;
  locked_scopes : list string;
  retry_after_seconds : Z
}.

(** ** Texts *)
Definition _safe_text (v : string) (limit : nat) : option string :=
  let normalized := py_strip v in
  if str_empty normalized then None else Some (py_take limit normalized).

Definition _normalize_ip (v : string) : option string :=
  raw ← _safe_text v 128; Some (default raw (ip_address_text raw)).

Definition _session_id (v : string) : option string :=
  raw ← _safe_text v 128; n ← parse_uuid raw; Some (uuid_text n).

Definition _fingerprint (v : string) : option string :=
  raw ← _safe_text v 256; Some (py_take 16 (sha256_hex raw)).

Definition guard_number (v : value) : result float :=
  match nonneg_number v with Some f => Ok f | None => Err IngestAuthGuardStateError end.

Definition _bucket_key (scope text : string) : string :=
  String.append scope (String ":" (sha256_hex text)).

(** ** State *)
Record bucket : Type := Bucket {
  failures : list float;
  locked_until : float;
  last_seen_at : float;
  last_blocked_event_at : option float
}.

Record guard_state : Type := GuardState {
  buckets : list (string * bucket);
  events : list value;
  next_sequence : Z
}.

(** [l[-n:]] for any [n]. *)
Definition py_tail {A} (n : Z) (l : list A) : list A :=
  if n =? 0 then l else if n <? 0 then drop (Z.to_nat (- n)) l else py_last (Z.to_nat n) l.

(** [key.partition(":")] has a known scope and 64 hexadecimal digits. *)
Definition bucket_key_ok (key : string) : bool :=
  existsb (fun scope =>
      String.prefix (String.append scope ":") key &&
      let digest := String.substring (S (String.length scope)) (String.length key) key in
      Nat.eqb (py_len digest) 64 && all_hex digest)
    ["ip"; "credential"].

Definition BUCKET_FIELDS : list string :=
  ["failures"; "locked_until"; "last_seen_at"; "last_blocked_event_at"].

Definition validate_bucket (key : string) (v : value) : result bucket :=
  match v with
  | VDict record =>
      raise_if (negb (bucket_key_ok key)) IngestAuthGuardStateError ;;
      raise_if (existsb (fun p => negb (bool_decide (p.1 ∈ BUCKET_FIELDS))) (map_to_list record))
        IngestAuthGuardStateError ;;
      match py_get record "failures" with
      | VList fs =>
          failures ← mapM guard_number fs;
          locked ← guard_number (py_get_or record "locked_until" (VFloat fzero));
          seen ← guard_number (py_get_or record "last_seen_at" (VFloat fzero));
          blocked_at ← guard_number (py_get_or record "last_blocked_event_at" (VFloat fzero));
          Ok (Bucket failures locked seen
                (match record !! "last_blocked_event_at" with Some _ => Some blocked_at | None => None end))
      | _ => Err IngestAuthGuardStateError
      end
  | _ => Err IngestAuthGuardStateError
  end.

Definition EVENT_FIELDS : list string := ["sequence"; "type"; "occurred_at"; "payload"].
Definition EVENT_TYPES : list string := ["ingest.auth_failed"; "ingest.auth_locked"; "ingest.auth_blocked"].

(** The sequence number of a valid event. A [list] or a [dict] is not hashable: as a
    type it raises [TypeError]. *)
Definition validate_event (v : value) : result Z :=
  match v with
  | VDict event =>
      raise_if (negb (Nat.eqb (size event) 4) ||
                existsb (fun p => negb (bool_decide (p.1 ∈ EVENT_FIELDS))) (map_to_list event))
        IngestAuthGuardStateError ;;
      sequence ← match py_get event "sequence" with
                 | VInt n => if n <? 1 then Err IngestAuthGuardStateError else Ok n
                 | _ => Err IngestAuthGuardStateError
                 end;
      match py_get event "type" with
      | VStr t => raise_if (negb (bool_decide (t ∈ EVENT_TYPES))) IngestAuthGuardStateError
      | VList _ | VDict _ => Err TypeError
      | _ => Err IngestAuthGuardStateError
      end ;;
      raise_if (negb (is_dict (py_get event "payload"))) IngestAuthGuardStateError ;;
      guard_number (py_get event "occurred_at") ;;
      Ok sequence
  | _ => Err IngestAuthGuardStateError
  end.

(** [_validate_state]: the normalized buckets, the events, the next number. *)
Definition _validate_state (raw : value) : result guard_state :=
  match raw with
  | VDict raw =>
      match py_get raw "buckets", py_get raw "events" with
      | VDict bs, VList es =>
          next ← match py_get raw "next_sequence" with
                 | VInt n => if n <? 1 then Err IngestAuthGuardStateError else Ok n
                 | _ => Err IngestAuthGuardStateError
                 end;
          bs ← mapM (fun p => b ← validate_bucket p.1 p.2; Ok (p.1, b)) (sorted_records bs);
          sequences ← mapM validate_event es;
          raise_if (next <=? foldl Z.max 0 sequences) IngestAuthGuardStateError ;;
          Ok (GuardState bs es next)
      | _, _ => Err IngestAuthGuardStateError
      end
  | _ => Err IngestAuthGuardStateError
  end.

Definition encode_bucket (b : bucket) : dict :=
  let d : dict := list_to_map
    [("failures", VList (VFloat <$> failures b)); ("locked_until", VFloat (locked_until b));
     ("last_seen_at", VFloat (last_seen_at b))] in
  match last_blocked_event_at b with
  | Some t => <["last_blocked_event_at" := VFloat t]> d
  | None => d
  end.

(** ** Buckets in the order of the dict *)
Definition get_bucket (key : string) (bs : list (string * bucket)) : option bucket :=
  snd <$> List.find (fun p => String.eqb p.1 key) bs.

(** [bs[key] = b]: in place, or at the end. *)
Fixpoint set_bucket (key : string) (b : bucket) (bs : list (string * bucket)) : list (string * bucket) :=
  match bs with
  | [] => [(key, b)]
  | p :: bs' => if String.eqb p.1 key then (key, b) :: bs' else p :: set_bucket key b bs'
  end.

Definition pop_bucket (key : string) (bs : list (string * bucket)) : list (string * bucket) :=
  List.filter (fun p => negb (String.eqb p.1 key)) bs.

(** [sorted(items, key=...)] is stable. *)
Fixpoint insert_by (f : string * bucket -> float) (x : string * bucket) (l : list (string * bucket))
    : list (string * bucket) :=
  match l with
  | [] => [x]
  | y :: l' => if flt (f y) (f x) then y :: insert_by f x l' else x :: l
  end.
Definition sorted_by (f : string * bucket -> float) (l : list (string * bucket)) : list (string * bucket) :=
  foldr (insert_by f) [] l.

(** [not x] of a float *)
Definition is_zero (f : float) : bool := match f with S754_zero _ => true | _ => false end.

(** [x or 0.0] *)
Definition or_zero (f : float) : float := if is_zero f then fzero else f.

Section guard.
Context (config : IngestAuthGuardConfig).

Definition decode_guard (raw : value) : result guard_state :=
  st ← _validate_state raw;
  Ok (GuardState (buckets st) (py_tail (event_limit config) (events st)) (next_sequence st)).

Definition encode_guard (st : guard_state) : value :=
  VDict (list_to_map
    [("buckets", VDict (list_to_map ((fun p => (p.1, VDict (encode_bucket p.2))) <$> buckets st)));
     ("events", VList (py_tail (event_limit config) (events st)));
     ("next_sequence", VInt (next_sequence st))]).

(** What [persist] leaves in memory is read by nothing: every operation reloads. It
    is given as the next load reads it, with sorted buckets. *)
#[local] Instance guard_format : AuthorityFormat guard_state := {|
  af_error := IngestAuthGuardStateError;
  af_fresh := GuardState [] [] 1;
  af_decode := decode_guard;
  af_validate := fun st => _validate_state (encode_guard st) ;; Ok tt;
  af_encode := encode_guard;
  af_committed := fun st =>
    GuardState (sorted_records (list_to_map (buckets st) : gmap string bucket)) (py_tail (event_limit config) (events st)) (next_sequence st)
|}.

Abbreviation GM := (M (world guard_state)).

Definition _reload : GM unit :=
  catch (io id) (fun _ => raise IngestAuthGuardStateError) ;;
  f ← get_file;
  match f with
  | Missing =>
      was ← was_initialized;
      if was : bool then raise IngestAuthGuardStateError else put_mem af_fresh
  | Unparsable => raise IngestAuthGuardStateError
  | Present r =>
      payload ← catch (lift (load_json_authority r)) (fun _ => raise IngestAuthGuardStateError);
      st ← lift (decode_guard payload);
      put_mem st
  end.

(** [with self._state_lock(...): self._reload(); ...] *)
Definition guarded {B} (body : GM B) : GM B :=
  catch (io id ;; _reload ;; body)
        (fun e => match e with OSError => raise IngestAuthGuardStateError | _ => raise e end).

(** The constructor. *)
Definition open_guard : GM unit :=
  guarded (f ← get_file; match f with Missing => mret tt | _ => mark_initialized end).

Definition _runtime_timestamp (now : option value) : GM float :=
  v ← match now with Some v => mret v | None => t ← time_time; mret (VFloat t) end;
  lift (guard_number v).

Definition _scope_specs (source_ip username : string) : list (string * string * Z) :=
  match _normalize_ip source_ip with
  | Some ip => [("ip", ip, max_failures_per_ip config)]
  | None => []
  end ++
  match _safe_text username 256 with
  | Some name => [("credential", name, max_failures_per_credential config)]
  | None => []
  end.

Definition spec_key (spec : string * string * Z) : string := _bucket_key spec.1.1 spec.1.2.

Definition _prune_bucket (b : bucket) (now : float) : bucket :=
  let locked := or_zero (locked_until b) in
  let lock_expired := flt fzero locked && fle locked now in
  let cutoff := fsub now (failure_window_seconds config) in
  Bucket (if lock_expired then []
          else List.filter (fun t => fle cutoff t && fle t (fadd now fone)) (failures b))
         (if lock_expired then fzero else locked) (last_seen_at b) (last_blocked_event_at b).

Definition stale (b : bucket) : bool := bool_decide (failures b = []) && is_zero (locked_until b).

Definition _compact_buckets (bs : list (string * bucket)) (now : float) : list (string * bucket) :=
  let pruned := (fun p => (p.1, _prune_bucket p.2 now)) <$> bs in
  let live := List.filter (fun p => negb (stale p.2)) pruned in
  let overflow := Z.of_nat (length live) - bucket_limit config in
  if 0 <? overflow then
    let oldest := take (Z.to_nat overflow) (sorted_by (fun p => last_seen_at p.2) live) in
    List.filter (fun p => negb (existsb (fun q => String.eqb q.1 p.1) oldest)) live
  else live.

(** The loop of [_decision]: the buckets, which it prunes, and what is locked. *)
Fixpoint decide_scopes (specs : list (string * string * Z)) (bs : list (string * bucket)) (now : float)
    (scopes : list string) (retry_after : Z) : list (string * bucket) * AuthGuardDecision :=
  match specs with
  | [] => (bs, Decision (negb (bool_decide (scopes = []))) scopes retry_after)
  | spec :: specs' =>
      match get_bucket (spec_key spec) bs with
      | None => decide_scopes specs' bs now scopes retry_after
      | Some b =>
          let b := _prune_bucket b now in
          let bs := set_bucket (spec_key spec) b bs in
          if flt now (locked_until b)
          then decide_scopes specs' bs now (scopes ++ [spec.1.1])
                 (Z.max retry_after (Z.max 1 (fceil (fsub (locked_until b) now))))
          else decide_scopes specs' bs now scopes retry_after
      end
  end.

Definition _decision (specs : list (string * string * Z)) (bs : list (string * bucket)) (now : float)
    : list (string * bucket) * AuthGuardDecision := decide_scopes specs bs now [] 0.

Definition _event_payload (source_ip username protocol publisher_id : string)
    (decision : AuthGuardDecision) : dict :=
  list_to_map
    [("session_id", opt_str (_session_id username));
     ("credential_fingerprint", opt_str (_fingerprint username));
     ("source_ip", opt_str (_normalize_ip source_ip));
     ("protocol", opt_str (_safe_text (py_lower protocol) 32));
     ("publisher_id", opt_str (_safe_text publisher_id 128));
     ("locked_scopes", VList (VStr <$> locked_scopes decision));
     ("retry_after_seconds", VInt (retry_after_seconds decision))].

Definition _append_event (event_type : string) (occurred_at : float) (payload : dict) (st : guard_state)
    : guard_state :=
  let event := VDict (list_to_map
    [("sequence", VInt (next_sequence st)); ("type", VStr event_type);
     ("occurred_at", VFloat occurred_at); ("payload", VDict payload)]) in
  GuardState (buckets st) (py_tail (event_limit config) (events st ++ [event])) (next_sequence st + 1).
(** One turn of the loop of [record_failure]. *)
Definition count_failure (current : float) (spec : string * string * Z)
    (acc : list (string * bucket) * list string) : list (string * bucket) * list string :=
  let '(bs, newly_locked) := acc in
  let key := spec_key spec in
  let b := default (Bucket [] fzero current None) (get_bucket key bs) in
  let b := _prune_bucket b current in
  let was_locked := flt current (locked_until b) in
  let failures := failures b ++ [current] in
  let lock := negb was_locked && (spec.2 <=? Z.of_nat (length failures)) in
  (set_bucket key
     (Bucket failures (if lock then fadd current (lockout_seconds config) else locked_until b) current
        (last_blocked_event_at b)) bs,
   if lock then newly_locked ++ [spec.1.1] else newly_locked).

Definition unguarded : AuthGuardDecision := Decision false [] 0.

Definition guard_check (source_ip username : string) (now : option value) : GM AuthGuardDecision :=
  if negb (enabled config) then mret unguarded
  else
    current ← _runtime_timestamp now;
    let specs := _scope_specs source_ip username in
    guarded (
      st ← get_mem;
      let '(bs, decision) := _decision specs (_compact_buckets (buckets st) current) current in
      put_mem (GuardState bs (events st) (next_sequence st)) ;;
      mret decision).

(** The state after a failure, and what is decided. *)
Definition failed_state (source_ip username protocol publisher_id : string) (current : float)
    (st : guard_state) : guard_state * AuthGuardDecision :=
  let specs := _scope_specs source_ip username in
  let bs := _compact_buckets (buckets st) current in
  let '(bs, newly_locked) := foldl (fun acc spec => count_failure current spec acc) (bs, []) specs in
  let '(bs, decision) := _decision specs (_compact_buckets bs current) current in
  let payload := _event_payload source_ip username protocol publisher_id decision in
  let st := _append_event "ingest.auth_failed" current payload
              (GuardState bs (events st) (next_sequence st)) in
  (if bool_decide (newly_locked = []) then st
   else _append_event "ingest.auth_locked" current
          (<["newly_locked_scopes" := VList (VStr <$> py_sorted newly_locked)]> payload) st,
   decision).

Definition record_failure (source_ip username protocol publisher_id : string) (now : option value)
    : GM AuthGuardDecision :=
  if negb (enabled config) then mret unguarded
  else
    current ← _runtime_timestamp now;
    guarded (
      st ← get_mem;
      let '(st, decision) := failed_state source_ip username protocol publisher_id current st in
      put_mem st ;;
      persist ;;
      mret decision).

(** Whether the refusal of a locked scope is due for an event. *)
Definition blocked_event_due (current : float) (scopes : list string) (bs : list (string * bucket))
    (spec : string * string * Z) : bool :=
  bool_decide (spec.1.1 ∈ scopes) &&
  match get_bucket (spec_key spec) bs with
  | Some b => fle (blocked_event_interval_seconds config)
                  (fsub current (default fzero (last_blocked_event_at b)))
  | None => false
  end.

Definition stamp_blocked (current : float) (bs : list (string * bucket)) (spec : string * string * Z)
    : list (string * bucket) :=
  match get_bucket (spec_key spec) bs with
  | Some b => set_bucket (spec_key spec)
                (Bucket (failures b) (locked_until b) (last_seen_at b) (Some current)) bs
  | None => bs
  end.

Definition record_blocked (source_ip username protocol publisher_id : string) (now : option value)
    : GM AuthGuardDecision :=
  if negb (enabled config) then mret unguarded
  else
    current ← _runtime_timestamp now;
    let specs := _scope_specs source_ip username in
    guarded (
      st ← get_mem;
      let '(bs, decision) := _decision specs (_compact_buckets (buckets st) current) current in
      let due := List.filter (blocked_event_due current (locked_scopes decision) bs) specs in
      if negb (blocked decision) || bool_decide (due = []) then
        put_mem (GuardState bs (events st) (next_sequence st)) ;;
        mret decision
      else
        let bs := foldl (stamp_blocked current) bs due in
        put_mem (_append_event "ingest.auth_blocked" current
          (_event_payload source_ip username protocol publisher_id decision)
          (GuardState bs (events st) (next_sequence st))) ;;
        persist ;;
        mret decision).

Definition record_success (username : string) (now : option value) : GM unit :=
  if negb (enabled config) then mret tt
  else
    match _safe_text username 256 with
    | None => mret tt
    | Some normalized =>
        current ← _runtime_timestamp now;
        let key := _bucket_key "credential" normalized in
        guarded (
          st ← get_mem;
          let changed := bool_decide (is_Some (get_bucket key (buckets st))) in
          let bs := _compact_buckets (pop_bucket key (buckets st)) current in
          put_mem (GuardState bs (events st) (next_sequence st)) ;;
          if changed then persist else mret tt)
    end.

Definition guard_snapshot : GM guard_state := guarded get_mem.
End guard.
