(* ===== verification/AuthGuardTheorems.v ===== *)
(** * Ingest authentication guard: theorems

    What the guard writes it reads back; a lockout holds until its time; a scope is
    locked out by exactly the configured number of failures. *)

From S2P Require Import Prelude PyFloat Sha256 PyValue Json Effects Authority Steps Uuid PyText IpAddress.
From S2P Require Import AuthGuard.

(** ** Records in key order *)
Lemma string_leb_trans a b c : String.leb a b = true -> String.leb b c = true -> String.leb a c = true.
Proof.
  revert b c. induction a as [|x a IH]; intros [|y b] [|z c]; try done.
  unfold String.leb in *. cbn [String.compare]. unfold Ascii.compare.
  destruct (N.compare_spec (Ascii.N_of_ascii x) (Ascii.N_of_ascii y)) as [E1|E1|E1]; try done;
    destruct (N.compare_spec (Ascii.N_of_ascii y) (Ascii.N_of_ascii z)) as [E2|E2|E2]; try done;
    destruct (N.compare_spec (Ascii.N_of_ascii x) (Ascii.N_of_ascii z)) as [E3|E3|E3];
    try done; try (exfalso; lia).
  apply IH.
Qed.

#[local] Instance key_before_trans {A} : Transitive (key_before (A:=A)).
Proof. intros p q r. apply string_leb_trans. Qed.
#[local] Instance key_before_total {A} : Total (key_before (A:=A)).
Proof. intros p q. apply String.leb_total. Qed.

(** Lists sorted by distinct keys are equal when they are permutations. *)
Lemma sorted_pairs_unique {A} (l1 l2 : list (string * A)) :
  NoDup l1.*1 -> StronglySorted key_before l1 -> StronglySorted key_before l2 -> l1 ≡ₚ l2 -> l1 = l2.
Proof.
  intros Hnd H1 H2 Hp. eapply StronglySorted_unique_strong; [|exact H1|exact H2|exact Hp].
  intros [k1 x1] [k2 x2] Hin1 Hin2 Ha Hb. rewrite <- Hp in Hin2.
  assert (k1 = k2) as -> by (by apply String.leb_antisym). f_equal.
  apply (elem_of_list_to_map_1 (M:=gmap string) l1) in Hin1, Hin2; [|done..]. congruence.
Qed.

Lemma sorted_records_sorted {A} (m : gmap string A) : StronglySorted key_before (sorted_records m).
Proof. apply StronglySorted_merge_sort; apply _. Qed.

Lemma sorted_records_perm {A} (m : gmap string A) : sorted_records m ≡ₚ map_to_list m.
Proof. apply sort_pairs_perm. Qed.

Lemma sorted_records_nodup {A} (m : gmap string A) : NoDup (sorted_records m).*1.
Proof. rewrite sorted_records_perm. apply NoDup_fst_map_to_list. Qed.

Lemma sorted_records_fmap {A B} (f : A -> B) (m : gmap string A) :
  sorted_records (f <$> m) = prod_map id f <$> sorted_records m.
Proof.
  apply sorted_pairs_unique; [apply sorted_records_nodup|apply sorted_records_sorted| |].
  - induction (sorted_records_sorted m) as [|p l _ IH Hp]; [constructor|]. cbn. constructor; [done|].
    apply Forall_fmap. exact Hp.
  - by rewrite !sorted_records_perm, map_to_list_fmap.
Qed.

(** ** What is written is read back *)
Lemma guard_number_float f g : guard_number (VFloat f) = Ok g -> g = f.
Proof.
  unfold guard_number, nonneg_number. cbn. destruct (_ && _); [|done]. congruence.
Qed.

Lemma guard_numbers_floats l l' : mapM guard_number (VFloat <$> l) = Ok l' -> l' = l.
Proof.
  revert l'. induction l as [|f l IH]; intros l'; cbn [fmap list_fmap mapM]; [by intros [= <-]|].
  intros H. apply result_bind_ok in H as (g & Hg & H). apply result_bind_ok in H as (gs & Hgs & H).
  apply guard_number_float in Hg as ->. apply IH in Hgs as ->. by injection H.
Qed.

Lemma py_get_bucket b :
  py_get (encode_bucket b) "failures" = VList (VFloat <$> failures b) /\
  py_get_or (encode_bucket b) "locked_until" (VFloat fzero) = VFloat (locked_until b) /\
  py_get_or (encode_bucket b) "last_seen_at" (VFloat fzero) = VFloat (last_seen_at b) /\
  encode_bucket b !! "last_blocked_event_at" = VFloat <$> last_blocked_event_at b.
Proof.
  unfold py_get, py_get_or, encode_bucket. destruct (last_blocked_event_at b); repeat split; by dict_lookup.
Qed.

Lemma validate_bucket_encoded k b b' : validate_bucket k (VDict (encode_bucket b)) = Ok b' -> b' = b.
Proof.
  destruct (py_get_bucket b) as (E1 & E2 & E3 & E4). unfold validate_bucket.
  intros (? & _ & H)%result_bind_ok. apply result_bind_ok in H as (? & _ & H). rewrite E1 in H.
  apply result_bind_ok in H as (fs & Hfs & H). apply result_bind_ok in H as (l & Hl & H).
  apply result_bind_ok in H as (sn & Hsn & H). apply result_bind_ok in H as (bl & Hbl & H).
  rewrite E2 in Hl. rewrite E3 in Hsn. unfold py_get_or in Hbl. rewrite E4 in Hbl, H.
  apply guard_numbers_floats in Hfs as ->. apply guard_number_float in Hl as ->, Hsn as ->.
  injection H as <-. destruct (last_blocked_event_at b) as [t|] eqn:Et; cbn in *;
    [apply guard_number_float in Hbl as ->|]; destruct b; cbn in *; congruence.
Qed.

Lemma py_tail_tail {A} n (l : list A) : 0 <= n -> py_tail n (py_tail n l) = py_tail n l.
Proof.
  intros Hn. unfold py_tail. destruct (Z.eqb_spec n 0) as [->|Hne]; [done|].
  destruct (Z.ltb_spec n 0); [lia|]. apply py_last_short, length_py_last.
Qed.

(** A table that validates gives its own records. *)
Lemma validate_buckets_encoded (bs bs' : list (string * bucket)) :
  mapM (fun p => b ← validate_bucket p.1 p.2; Ok (p.1, b))
    (prod_map id (fun b => VDict (encode_bucket b)) <$> bs) = Ok bs' -> bs' = bs.
Proof.
  revert bs'. induction bs as [|[k b] bs IH]; intros bs'; cbn [fmap list_fmap mapM]; [by intros [= <-]|].
  intros (q & Hq & H)%result_bind_ok. apply result_bind_ok in H as (qs & Hqs & H).
  apply result_bind_ok in Hq as (b' & Hb & Hq). cbn [prod_map fst snd id] in Hb, Hq.
  apply validate_bucket_encoded in Hb as ->. apply IH in Hqs as ->.
  injection Hq as <-. by injection H.
Qed.

Section guard.
Context (config : IngestAuthGuardConfig).
Hypothesis (Hlimit : 0 <= event_limit config).

#[local] Instance this_format : AuthorityFormat guard_state := guard_format config.

Definition canonical (st : guard_state) : guard_state :=
  GuardState (sorted_records (list_to_map (buckets st) : gmap string bucket))
    (py_tail (event_limit config) (events st)) (next_sequence st).

Lemma guard_validate_encoded st st' : _validate_state (encode_guard config st) = Ok st' -> st' = canonical st.
Proof.
  unfold encode_guard, _validate_state.
  assert (E : forall d1 d2 d3, let d : dict := list_to_map [("buckets", d1); ("events", d2); ("next_sequence", d3)] in
    py_get d "buckets" = d1 /\ py_get d "events" = d2 /\ py_get d "next_sequence" = d3).
  { intros. unfold py_get, d. repeat split; by dict_lookup. }
  specialize (E (VDict (list_to_map ((fun p => (p.1, VDict (encode_bucket p.2))) <$> buckets st)))
    (VList (py_tail (event_limit config) (events st))) (VInt (next_sequence st))).
  destruct E as (-> & -> & ->). intros (next & Hn & H)%result_bind_ok.
  apply result_bind_ok in H as (bs & Hbs & H). apply result_bind_ok in H as (sq & _ & H).
  apply result_bind_ok in H as (u & _ & H). destruct (next_sequence st <? 1); [done|]. injection Hn as <-.
  assert (Hm : list_to_map ((fun p => (p.1, VDict (encode_bucket p.2))) <$> buckets st) =
    (fun b => VDict (encode_bucket b)) <$> (list_to_map (buckets st) : gmap string bucket)).
  { rewrite <- list_to_map_fmap. reflexivity. }
  rewrite Hm, sorted_records_fmap in Hbs. apply validate_buckets_encoded in Hbs as ->. by injection H as <-.
Qed.

#[local] Instance guard_laws : AuthorityLaws guard_state.
Proof using Hlimit.
  split. intros st Hv. cbn in Hv |- *. apply result_bind_ok in Hv as (st' & Hv & _). unfold decode_guard.
  rewrite Hv. cbn. apply guard_validate_encoded in Hv as ->. unfold canonical. cbn. by rewrite py_tail_tail.
Qed.

(** ** The lock and the reload *)
Lemma io_id_same (w : world guard_state) r w' :
  io id w = (r, w') -> file w' = file w /\ fuse w' = fuse w /\ mem w' = mem w.
Proof.
  destruct r as [u|e]; intros H.
  - apply io_ok in H as (H & Hm & _). by injection H as -> ->.
  - apply io_err in H as (_ & ? & ? & ? & _). done.
Qed.

Lemma same_view (w w' : world guard_state) : file w' = file w -> fuse w' = fuse w -> view w' = view w.
Proof. unfold view. by intros -> ->. Qed.

Lemma reload_view (w : world guard_state) r w' :
  _reload config w = (r, w') ->
  file w' = file w /\ fuse w' = fuse w /\ (r = Ok tt -> view w = Some (mem w')).
Proof.
  unfold _reload, mbind, M_bind, catch. destruct (io id w) as [[u|e] w1] eqn:H1;
    apply io_id_same in H1 as (Hf & Hu & _); [|by intros [= <- <-]].
  unfold get_file. unfold view. rewrite <- Hf. destruct (file w1) as [| |rw] eqn:Ef.
  - unfold was_initialized, mbind, M_bind. destruct (io id w1) as [[u'|e] w2] eqn:H2;
      apply io_id_same in H2 as (Hf2 & Hu2 & _); [|intros [= <- <-]; split; [congruence|split; congruence]].
    unfold get_fuse. rewrite <- Hu, <- Hu2. destruct (fuse w2) eqn:Eu; intros [= <- <-];
      cbn; (split; [congruence|split; congruence]).
  - intros [= <- <-]. done.
  - unfold lift. destruct (load_json_authority rw) as [v|]; [|intros [= <- <-]; done].
    cbn [af_decode this_format guard_format]. destruct (decode_guard config v) as [st|e]; intros [= <- <-]; done.
Qed.

Lemma guarded_start {B} (body : world guard_state -> result B * world guard_state) w r w' :
  guarded config body w = (r, w') ->
  (exists e, r = Err e /\ file w' = file w /\ fuse w' = fuse w) \/
  exists w1 r1, view w = Some (mem w1) /\ file w1 = file w /\ fuse w1 = fuse w /\ body w1 = (r1, w') /\
    (r = r1 \/ exists e, r = Err e /\ r1 = Err OSError).
Proof.
  unfold guarded, catch, mbind, M_bind. destruct (io id w) as [[u|e] w1] eqn:H1;
    apply io_id_same in H1 as (Hf & Hu & _).
  2: { intros H. left. destruct e; injection H as <- <-; eauto. }
  destruct (_reload config w1) as [[u1|e] w2] eqn:H2; apply reload_view in H2 as (Hf2 & Hu2 & Hv).
  2: { intros H. left. assert (file w2 = file w /\ fuse w2 = fuse w) as [??] by (split; congruence).
       destruct e; injection H as <- <-; eauto. }
  destruct u1. specialize (Hv eq_refl). rewrite (same_view w w1) in Hv by done.
  destruct (body w2) as [[b|e] w3] eqn:H3; intros H; right.
  - injection H as <- <-. exists w2, (Ok b). split; [done|]. split; [congruence|].
    split; [congruence|]. split; [done|by left].
  - exists w2, (Err e). split; [done|]. split; [congruence|]. split; [congruence|].
    destruct e; injection H as <- <-; (split; [done|]); first [by left | right; eauto].
Qed.

Lemma stepped_guarded (Q : guard_state -> guard_state -> Prop) {B} (body : M (world guard_state) B) :
  (forall w a, Stepping Q a body w) -> Stepped Q (guarded config body).
Proof.
  intros Hb w. destruct (guarded config body w) as [r w'] eqn:H.
  apply guarded_start in H as [(e & _ & Hf & Hu)|(w1 & r1 & Hv & Hf & Hu & H & _)].
  - by apply stepped_view, same_view.
  - unfold stepped. cbn. rewrite Hv, <- Hf.
    specialize (Hb w1 (mem w1) eq_refl). rewrite H in Hb. apply Hb. by rewrite (same_view w w1).
Qed.
End guard.

(** ** Buckets *)
Definition keys_of (bs : list (string * bucket)) : list string := bs.*1.

Lemma get_bucket_cons k p bs :
  get_bucket k (p :: bs) = if String.eqb p.1 k then Some p.2 else get_bucket k bs.
Proof. unfold get_bucket. cbn. by destruct (String.eqb p.1 k). Qed.

#[local] Arguments get_bucket : simpl never.

Lemma get_bucket_map k bs : get_bucket k bs = (list_to_map bs : gmap string bucket) !! k.
Proof.
  induction bs as [|[k' b] bs IH]; [done|]. rewrite get_bucket_cons, list_to_map_cons. cbn.
  destruct (String.eqb_spec k' k) as [->|Hne]; [by rewrite lookup_insert_eq|by rewrite lookup_insert_ne].
Qed.

Lemma get_bucket_canonical config k st : get_bucket k (buckets (canonical config st)) = get_bucket k (buckets st).
Proof.
  unfold canonical. cbn [buckets]. rewrite !get_bucket_map. f_equal. set (m := list_to_map (buckets st)).
  rewrite <- (list_to_map_to_list m) at 2. apply list_to_map_proper; [apply sorted_records_nodup|].
  apply sorted_records_perm.
Qed.

Lemma get_bucket_set k k' b bs :
  get_bucket k (set_bucket k' b bs) = if String.eqb k' k then Some b else get_bucket k bs.
Proof.
  induction bs as [|[k0 b0] bs IH]; cbn [set_bucket]; [by rewrite get_bucket_cons|]. cbn [fst].
  destruct (String.eqb_spec k0 k') as [->|Hne]; rewrite !get_bucket_cons; cbn; [by destruct (String.eqb k' k)|].
  rewrite IH. destruct (String.eqb_spec k0 k), (String.eqb_spec k' k); congruence.
Qed.

Lemma length_set_bucket k b bs : (length (set_bucket k b bs) <= S (length bs))%nat.
Proof. induction bs as [|p bs IH]; cbn; [lia|]. destruct (String.eqb p.1 k); cbn; lia. Qed.

Lemma keys_set_bucket k b bs : keys_of (set_bucket k b bs) = keys_of bs \/
  k ∉ keys_of bs /\ keys_of (set_bucket k b bs) = keys_of bs ++ [k].
Proof.
  unfold keys_of. induction bs as [|[k0 b0] bs IH]; cbn; [right; split; [apply not_elem_of_nil|done]|].
  destruct (String.eqb_spec k0 k) as [->|Hne]; [by left|].
  destruct IH as [IH|[Hni IH]]; [left; by apply (f_equal (cons k0))|right].
  split; [|by apply (f_equal (cons k0))]. apply not_elem_of_cons. split; [congruence|done].
Qed.

Lemma nodup_set_bucket k b bs : NoDup (keys_of bs) -> NoDup (keys_of (set_bucket k b bs)).
Proof.
  intros Hnd. destruct (keys_set_bucket k b bs) as [->|[Hni ->]]; [done|].
  apply NoDup_app. split; [done|]. split; [|apply NoDup_singleton].
  intros x Hx ->%list_elem_of_singleton. done.
Qed.

Lemma filter_keys (P : string * bucket -> bool) bs : NoDup (keys_of bs) -> NoDup (keys_of (List.filter P bs)).
Proof.
  unfold keys_of. induction bs as [|p bs IH]; cbn; [done|]. intros [Hni Hnd]%NoDup_cons.
  destruct (P p); cbn; [|by apply IH]. apply NoDup_cons. split; [|by apply IH].
  intros (q & Hq & Hin)%list_elem_of_fmap. apply Hni, list_elem_of_fmap. exists q. split; [done|].
  apply list_elem_of_In, filter_In in Hin as [Hin _]. by apply list_elem_of_In.
Qed.

Lemma length_filter_le {A} (P : A -> bool) l : (length (List.filter P l) <= length l)%nat.
Proof. induction l as [|x l IH]; cbn; [lia|]. destruct (P x); cbn; lia. Qed.

Lemma get_bucket_filter (P : string * bucket -> bool) k bs :
  NoDup (keys_of bs) ->
  get_bucket k (List.filter P bs) =
    match get_bucket k bs with Some b => if P (k, b) then Some b else None | None => None end.
Proof.
  unfold keys_of. induction bs as [|[k0 b0] bs IH]; [done|]. cbn. intros [Hni Hnd]%NoDup_cons.
  rewrite get_bucket_cons. cbn. destruct (String.eqb_spec k0 k) as [->|Hne].
  - destruct (P (k, b0)); [by rewrite get_bucket_cons; cbn; rewrite String.eqb_refl|].
    rewrite IH by done. destruct (get_bucket k bs) as [b|] eqn:E; [|done]. exfalso. apply Hni.
    rewrite get_bucket_map in E. apply elem_of_list_to_map_2 in E.
    apply list_elem_of_fmap. by exists (k, b).
  - destruct (P (k0, b0)); [|by apply IH]. rewrite get_bucket_cons. cbn.
    destruct (String.eqb_spec k0 k); [done|by apply IH].
Qed.

Lemma get_bucket_fmap (f : bucket -> bucket) k bs :
  get_bucket k ((fun p => (p.1, f p.2)) <$> bs) = f <$> get_bucket k bs.
Proof.
  induction bs as [|[k0 b0] bs IH]; [done|]. cbn [fmap list_fmap]. rewrite !get_bucket_cons. cbn [fst snd].
  destruct (String.eqb k0 k); [done|exact IH].
Qed.

Lemma keys_fmap (f : bucket -> bucket) bs : keys_of ((fun p => (p.1, f p.2)) <$> bs) = keys_of bs.
Proof. unfold keys_of. rewrite <- list_fmap_compose. by apply list_fmap_ext. Qed.

Section compaction.
Context (config : IngestAuthGuardConfig).

(** Without an overflow, compaction prunes each bucket and drops the stale ones. *)
Lemma compact_spec bs now :
  NoDup (keys_of bs) -> Z.of_nat (length bs) <= bucket_limit config ->
  let bs' := _compact_buckets config bs now in
  NoDup (keys_of bs') /\ (length bs' <= length bs)%nat /\
  forall k, get_bucket k bs' =
    match get_bucket k bs with
    | Some b => if stale (_prune_bucket config b now) then None else Some (_prune_bucket config b now)
    | None => None
    end.
Proof.
  intros Hnd Hlen. unfold _compact_buckets. cbv zeta.
  set (pruned := (fun p => (p.1, _prune_bucket config p.2 now)) <$> bs).
  assert (Hk : keys_of pruned = keys_of bs) by apply (keys_fmap (fun b => _prune_bucket config b now)).
  pose proof (length_filter_le (fun p => negb (stale p.2)) pruned) as Hl.
  assert (Hl' : length pruned = length bs) by (unfold pruned; by rewrite length_fmap).
  destruct (Z.ltb_spec 0 (Z.of_nat (length (List.filter (fun p => negb (stale p.2)) pruned)) -
    bucket_limit config)) as [H|_]; [lia|].
  split; [by apply filter_keys; rewrite Hk|]. split; [lia|]. intros k.
  rewrite get_bucket_filter by (by rewrite Hk). cbn. unfold pruned.
  rewrite (get_bucket_fmap (fun b => _prune_bucket config b now)).
  destruct (get_bucket k bs) as [b|]; [|done]. cbn. by destruct (stale _).
Qed.

(** ** A lock that goes on *)
Section locked.
Context (L now : float).
Hypotheses (Hnow : is_finite now = true) (Hpos : flt now fzero = false) (Hlt : flt now L = true).

Lemma lock_not_expired : fle L now = false /\ is_zero L = false /\ is_nan L = false.
Proof using All.
  assert (Hn : is_nan L = false) by (destruct L; try done; by destruct now as [| | |]).
  split; [|split; [|done]].
  - rewrite flt_not_fle in Hlt by auto with pyfloat. by apply negb_true_iff.
  - destruct L as [sg| | |]; try done. exfalso. assert (flt now fzero = true); [|congruence].
    rewrite <- Hlt. by destruct now as [[]|[]| |[]].
Qed.

Lemma prune_locked b : locked_until b = L ->
  locked_until (_prune_bucket config b now) = L /\ stale (_prune_bucket config b now) = false.
Proof using All.
  intros Hb. destruct lock_not_expired as (He & Hz & Hn). unfold stale, _prune_bucket. cbn. rewrite Hb.
  unfold or_zero. rewrite Hz, He, andb_false_r. cbn. by rewrite Hz, andb_false_r.
Qed.

(** The bucket [k] is locked until [L]. *)
Definition locked_at (k : string) (bs : list (string * bucket)) : Prop :=
  exists b, get_bucket k bs = Some b /\ locked_until b = L.

Lemma compact_locked k bs :
  NoDup (keys_of bs) -> Z.of_nat (length bs) <= bucket_limit config -> locked_at k bs ->
  locked_at k (_compact_buckets config bs now).
Proof using All.
  intros Hnd Hlen (b & Hb & HL). destruct (compact_spec bs now Hnd Hlen) as (_ & _ & Hg).
  destruct (prune_locked b HL) as [H1 H2]. exists (_prune_bucket config b now).
  rewrite Hg, Hb, H2. done.
Qed.

Lemma set_locked k k' b bs :
  locked_at k bs -> (k' = k -> locked_until b = L) -> locked_at k (set_bucket k' b bs).
Proof.
  intros (b0 & Hb & HL) H. unfold locked_at. rewrite get_bucket_set.
  destruct (String.eqb_spec k' k) as [->|_]; eauto.
Qed.

Lemma decide_locked specs bs scopes retry k :
  locked_at k bs ->
  locked_at k (decide_scopes config specs bs now scopes retry).1 /\
  (scopes <> [] \/ Exists (fun spec => spec_key spec = k) specs ->
   blocked (decide_scopes config specs bs now scopes retry).2 = true).
Proof using All.
  revert bs scopes retry. induction specs as [|spec specs IH]; intros bs scopes retry Hk; cbn [decide_scopes].
  - split; [done|]. intros [H|H]; [|by apply Exists_nil in H]. by destruct scopes.
  - destruct (get_bucket (spec_key spec) bs) as [b|] eqn:Hb.
    + assert (Hset : locked_at k (set_bucket (spec_key spec) (_prune_bucket config b now) bs)).
      { apply set_locked; [done|]. intros E. destruct Hk as (b' & Hb' & HL). rewrite <- E, Hb in Hb'.
        injection Hb' as ->. by apply prune_locked. }
      destruct (flt now (locked_until (_prune_bucket config b now))) eqn:Hf.
      * destruct (IH _ (scopes ++ [spec.1.1])
          (Z.max retry (Z.max 1 (fceil (fsub (locked_until (_prune_bucket config b now)) now)))) Hset) as [H1 H2].
        split; [exact H1|]. intros _. apply H2. left. by destruct scopes.
      * destruct (IH _ scopes retry Hset) as [H1 H2]. split; [exact H1|]. intros [H|H]; apply H2; [by left|].
        apply Exists_cons in H as [E|H]; [|by right]. exfalso. destruct Hk as (b' & Hb' & HL).
        rewrite <- E, Hb in Hb'. injection Hb' as ->. destruct (prune_locked b' HL) as [HL' _].
        rewrite HL' in Hf. congruence.
    + destruct (IH bs scopes retry Hk) as [H1 H2]. split; [exact H1|]. intros [H|H]; apply H2; [by left|].
      apply Exists_cons in H as [E|H]; [|by right]. exfalso. destruct Hk as (b' & Hb' & _). congruence.
Qed.

Lemma count_locked spec acc k :
  NoDup (keys_of acc.1) -> locked_at k acc.1 ->
  let acc' := count_failure config now spec acc in
  NoDup (keys_of acc'.1) /\ locked_at k acc'.1 /\ (length acc'.1 <= S (length acc.1))%nat.
Proof using All.
  destruct acc as [bs nl]. cbn [fst]. intros Hnd Hk. unfold count_failure. cbv zeta. cbn [fst].
  split; [by apply nodup_set_bucket|]. split; [|apply length_set_bucket].
  apply set_locked; [done|]. intros E. destruct Hk as (b & Hb & HL). rewrite E, Hb. cbn [default locked_until].
  destruct (prune_locked b HL) as [HL' _]. change (id b) with b. rewrite HL', Hlt. done.
Qed.
End locked.
End compaction.

(** ** Lockouts over histories *)
Section lockout.
Context (config : IngestAuthGuardConfig) (Hlimit : 0 <= event_limit config).
#[local] Instance lockout_format : AuthorityFormat guard_state := guard_format config.
#[local] Instance lockout_laws : AuthorityLaws guard_state := guard_laws config Hlimit.

(** There is room for the buckets of one more failure. *)
Definition roomy (st : guard_state) : Prop := Z.of_nat (length (buckets st)) + 2 <= bucket_limit config.

Definition keeps_lock (k : string) (L : float) (a a' : guard_state) : Prop :=
  NoDup (keys_of (buckets a)) -> roomy a -> locked_at L k (buckets a) -> locked_at L k (buckets a').

Lemma length_scope_specs ip user : (length (_scope_specs config ip user) <= 2)%nat.
Proof. unfold _scope_specs. destruct (_normalize_ip ip), (_safe_text user 256); cbn; lia. Qed.

Lemma count_all_locked (L now : float) specs acc k :
  is_finite now = true -> flt now fzero = false -> flt now L = true ->
  NoDup (keys_of acc.1) -> locked_at L k acc.1 ->
  let acc' := foldl (fun acc spec => count_failure config now spec acc) acc specs in
  NoDup (keys_of acc'.1) /\ locked_at L k acc'.1 /\ (length acc'.1 <= length specs + length acc.1)%nat.
Proof.
  intros Hf Hp Hlt. cbv zeta. revert acc. induction specs as [|spec specs IH]; intros acc Hnd Hk; [done|].
  destruct (count_locked config L now Hf Hp Hlt spec acc k Hnd Hk) as (H1 & H2 & H3). cbn [foldl length].
  destruct (IH _ H1 H2) as (H4 & H5 & H6). split; [done|]. split; [done|]. lia.
Qed.

Lemma buckets_append ty t p st : buckets (_append_event config ty t p st) = buckets st.
Proof. done. Qed.

Lemma failed_locked (L now : float) ip user proto pub st k :
  is_finite now = true -> flt now fzero = false -> flt now L = true ->
  keeps_lock k L st (failed_state config ip user proto pub now st).1.
Proof.
  intros Hf Hp Hlt Hnd Hroom Hk. unfold failed_state, roomy in *.
  destruct (compact_spec config (buckets st) now Hnd ltac:(lia)) as (Hnd1 & Hl1 & _).
  apply (compact_locked config L now Hf Hp Hlt) in Hk; [|done|lia].
  destruct (count_all_locked L now (_scope_specs config ip user) (_compact_buckets config (buckets st) now, []) k
    Hf Hp Hlt Hnd1 Hk) as (Hnd2 & Hk2 & Hl2).
  pose proof (length_scope_specs ip user) as Hs.
  destruct (foldl _ _ _) as [bs nl]. cbn [fst] in *.
  apply (compact_locked config L now Hf Hp Hlt) in Hk2; [|done|lia].
  apply (decide_locked config L now Hf Hp Hlt (_scope_specs config ip user) _ [] 0) in Hk2 as [Hk3 _].
  unfold _decision. destruct (decide_scopes _ _ _ _ _ _) as [bs' d]. cbn [fst] in *.
  destruct (bool_decide (nl = [])); exact Hk3.
Qed.

Lemma stamp_locked (L now : float) due bs k :
  locked_at L k bs -> locked_at L k (foldl (stamp_blocked now) bs due).
Proof.
  revert bs. induction due as [|spec due IH]; intros bs Hk; [done|]. cbn [foldl]. apply IH.
  unfold stamp_blocked. destruct (get_bucket (spec_key spec) bs) as [b|] eqn:Hb; [|done].
  apply set_locked; [done|]. intros E. destruct Hk as (b' & Hb' & HL). cbn. congruence.
Qed.

Lemma pop_locked (L : float) k k' bs :
  k' <> k -> NoDup (keys_of bs) -> locked_at L k bs ->
  NoDup (keys_of (pop_bucket k' bs)) /\ locked_at L k (pop_bucket k' bs) /\
  (length (pop_bucket k' bs) <= length bs)%nat.
Proof.
  intros Hne Hnd (b & Hb & HL). unfold pop_bucket. split; [by apply filter_keys|]. split; [|apply length_filter_le].
  exists b. rewrite get_bucket_filter, Hb by done. cbn. by destruct (String.eqb_spec k k').
Qed.

(** Every state that loads has one bucket per key. *)
Lemma view_keys (w : world guard_state) st : view w = Some st -> NoDup (keys_of (buckets st)).
Proof.
  unfold view. destruct (file w) as [| |r]; [destruct (fuse w); [done|]; intros [= <-]; constructor|done|].
  destruct (load_json_authority r) as [v|]; [|done]. cbn [af_decode lockout_format guard_format].
  unfold decode_guard. destruct (_validate_state v) as [st0|] eqn:Hv; [|done]. intros [= <-]. cbn [buckets].
  unfold _validate_state in Hv. destruct v as [| | | | | |d]; try done.
  destruct (py_get d "buckets") as [| | | | | |bs]; try done. destruct (py_get d "events"); try done.
  apply result_bind_ok in Hv as (n & _ & Hv). apply result_bind_ok in Hv as (bs' & Hbs & Hv).
  apply result_bind_ok in Hv as (sq & _ & Hv). apply result_bind_ok in Hv as (u & _ & Hv). injection Hv as <-.
  cbn [buckets]. assert (E : keys_of bs' = (sorted_records bs).*1); [|rewrite E; apply sorted_records_nodup].
  revert bs' Hbs. unfold keys_of. generalize (sorted_records bs). intros rs. clear.
  induction rs as [|[k v] rs IH]; intros bs' Hbs; cbn [mapM] in Hbs; [by injection Hbs as <-|].
  apply result_bind_ok in Hbs as (p & Hp & Hbs). apply result_bind_ok in Hbs as (ps & Hps & Hbs).
  apply result_bind_ok in Hp as (b & _ & Hp). injection Hp as <-. injection Hbs as <-. cbn. f_equal. by apply IH.
Qed.

Inductive guard_op : Type :=
| OpCheck (source_ip username : string) (now : option value)
| OpFailure (source_ip username protocol publisher_id : string) (now : option value)
| OpBlocked (source_ip username protocol publisher_id : string) (now : option value)
| OpSuccess (username : string) (now : option value)
| OpOpen
| OpSnapshot.

Definition run_guard_op (op : guard_op) : M (world guard_state) unit :=
  match op with
  | OpCheck ip user now => guard_check config ip user now ;; mret tt
  | OpFailure ip user proto pub now => record_failure config ip user proto pub now ;; mret tt
  | OpBlocked ip user proto pub now => record_blocked config ip user proto pub now ;; mret tt
  | OpSuccess user now => record_success config user now
  | OpOpen => open_guard config
  | OpSnapshot => guard_snapshot config ;; mret tt
  end.

Definition op_time (op : guard_op) : option (option value) :=
  match op with
  | OpCheck _ _ now | OpFailure _ _ _ _ now | OpBlocked _ _ _ _ now | OpSuccess _ now => Some now
  | _ => None
  end.

(** The time of an operation, whenever it reads the clock, is before [L]. *)
Definition before (L : float) (clk : nat -> float) (now : option value) : Prop :=
  forall n t, guard_number (match now with Some v => v | None => VFloat (clk n) end) = Ok t -> flt t L = true.

(** The operation comes before [L] and does not clear the bucket [k]. *)
Definition leaves_locked (k : string) (L : float) (clk : nat -> float) (op : guard_op) : Prop :=
  (forall now, op_time op = Some now -> before L clk now) /\
  (forall user now name, op = OpSuccess user now -> _safe_text user 256 = Some name ->
     _bucket_key "credential" name <> k).

Lemma guard_number_ok v t : guard_number v = Ok t -> is_finite t = true /\ flt t fzero = false.
Proof.
  unfold guard_number. destruct (nonneg_number v) as [f|] eqn:E; [|done]. intros [= <-].
  by apply nonneg_number_spec in E.
Qed.

Lemma timestamp_run now (w : world guard_state) r w' :
  _runtime_timestamp now w = (r, w') ->
  keeps w w' /\ file w' = file w /\
  forall t, r = Ok t -> exists n,
    guard_number (match now with Some v => v | None => VFloat (clock (environment w) n) end) = Ok t.
Proof.
  unfold _runtime_timestamp. destruct now as [v|].
  - unfold mbind, M_bind, lift. cbn. intros [= <- <-]. split; [done|]. split; [done|]. intros t Ht. by exists 0%nat.
  - unfold mbind, M_bind, lift, time_time. cbn. intros [= <- <-]. split; [by repeat split|]. split; [done|].
    intros t Ht. by exists (ticks (environment w)).
Qed.

(** An operation that takes its time and then works under the lock. *)
Lemma timed_stepped {B} Q now (f : float -> M (world guard_state) B) w :
  (forall n t, guard_number (match now with Some v => v | None => VFloat (clock (environment w) n) end) = Ok t ->
     Stepped Q (f t)) ->
  stepped Q w ((_runtime_timestamp now ≫= f) w).2.
Proof.
  intros Hf. unfold mbind, M_bind. destruct (_runtime_timestamp now w) as [[t|e] w1] eqn:H1;
    apply timestamp_run in H1 as ((Hfl & Hv & _) & _ & Ht).
  - destruct (Ht t eq_refl) as [n Hn]. specialize (Hf n t Hn w1). unfold stepped in *. by rewrite <- Hv, <- Hfl.
  - by apply stepped_view.
Qed.

Lemma stepping_put {B} Q a st (k : M (world guard_state) B) w :
  Q a (canonical config st) -> Resp keeps k -> Stepping Q a (put_mem st ;; persist ;; k) w.
Proof using All.
  intros HQ Hk Hw Hv.
  change ((put_mem st ;; persist ;; k) w) with (((put_mem st ;; persist) ;; k) w).
  apply (stepping_tail Q); [|by intros _|done|done]. by apply stepping_commit.
Qed.

Lemma keeps_lock_canonical k L a st : keeps_lock k L a st -> keeps_lock k L a (canonical config st).
Proof.
  intros H H1 H2 H3. destruct (H H1 H2 H3) as (b & Hb & HL). exists b. by rewrite get_bucket_canonical.
Qed.

Section history.
Context (k : string) (L : float).
Abbreviation Q := (keeps_lock k L).

Lemma failure_stepped clk ip user proto pub now w :
  clock (environment w) = clk -> before L clk now ->
  stepped Q w (record_failure config ip user proto pub now w).2.
Proof using All.
  intros Hc Hb. unfold record_failure. destruct (negb (enabled config)); [by apply stepped_view|].
  apply timed_stepped. intros n t Ht. rewrite Hc in Ht. specialize (Hb n t Ht).
  apply guard_number_ok in Ht as [Hf Hp]. apply stepped_guarded. intros w1 a. apply stepping_get_mem.
  pose proof (failed_locked L t ip user proto pub a k Hf Hp Hb) as Hl.
  destruct (failed_state config ip user proto pub t a) as [st d]. apply stepping_put; [|apply _].
  by apply keeps_lock_canonical.
Qed.

Lemma blocked_stepped clk ip user proto pub now w :
  clock (environment w) = clk -> before L clk now ->
  stepped Q w (record_blocked config ip user proto pub now w).2.
Proof using All.
  intros Hc Hb. unfold record_blocked. destruct (negb (enabled config)); [by apply stepped_view|].
  apply timed_stepped. intros n t Ht. rewrite Hc in Ht. specialize (Hb n t Ht).
  apply guard_number_ok in Ht as [Hf Hp]. apply stepped_guarded. intros w1 a. apply stepping_get_mem.
  set (specs := _scope_specs config ip user).
  assert (Hl : keeps_lock k L a (GuardState (_decision config specs (_compact_buckets config (buckets a) t) t).1
    (events a) (next_sequence a))).
  { intros Hnd Hroom Hk. apply (compact_locked config L t Hf Hp Hb) in Hk; [|done|unfold roomy in Hroom; lia].
    by apply (decide_locked config L t Hf Hp Hb specs _ [] 0) in Hk as [Hk _]. }
  destruct (_decision _ _ _ _) as [bs d]. cbv zeta.
  destruct (negb (blocked d) || _); [apply stepping_keeps; apply _|]. apply stepping_put; [|apply _].
  apply keeps_lock_canonical. intros Hnd Hroom Hk. cbn. apply stamp_locked. by apply Hl.
Qed.

Lemma success_stepped clk user now w :
  clock (environment w) = clk -> before L clk now ->
  (forall name, _safe_text user 256 = Some name -> _bucket_key "credential" name <> k) ->
  stepped Q w (record_success config user now w).2.
Proof using All.
  intros Hc Hb Hne. unfold record_success. destruct (negb (enabled config)); [by apply stepped_view|].
  destruct (_safe_text user 256) as [name|]; [|by apply stepped_view]. specialize (Hne name eq_refl).
  apply timed_stepped. intros n t Ht. rewrite Hc in Ht. specialize (Hb n t Ht).
  apply guard_number_ok in Ht as [Hf Hp]. apply stepped_guarded. intros w1 a. apply stepping_get_mem. cbv zeta.
  destruct (bool_decide _); [|apply stepping_keeps; apply _]. apply stepping_commit. intros _.
  change (af_committed ?x) with (canonical config x).
  apply keeps_lock_canonical. intros Hnd Hroom Hk. cbn.
  apply (pop_locked L k (_bucket_key "credential" name)) in Hk as (Hnd' & Hk' & Hl); [|done|done].
  apply compact_locked; try done. unfold roomy in Hroom. lia.
Qed.

Lemma check_stepped ip user now w : stepped Q w (guard_check config ip user now w).2.
Proof.
  unfold guard_check. destruct (negb (enabled config)); [by apply stepped_view|].
  apply timed_stepped. intros n t _. apply stepped_guarded. intros w1 a. apply stepping_keeps.
  apply resp_bind; [apply _..|]. intros st. destruct (_decision _ _ _ _). apply _.
Qed.

Lemma open_stepped w : stepped Q w (open_guard config w).2.
Proof.
  apply stepped_guarded. intros w1 a Hw Hv. left. rewrite <- Hv. unfold get_file, mbind, M_bind.
  destruct (file w1) as [| |r] eqn:Ef; [done|unfold view in Hv; by rewrite Ef in Hv|].
  destruct (mark_initialized w1) as [[u|e] w2] eqn:H;
    [apply mark_initialized_ok in H as (Hf & _)|apply mark_initialized_err in H as (_ & Hf & _)];
    cbn; unfold view; by rewrite Hf, Ef.
Qed.

Lemma op_stepped clk op w :
  clock (environment w) = clk -> leaves_locked k L clk op -> stepped Q w (run_guard_op op w).2.
Proof using All.
  intros Hc [Ht Hn].
  assert (Htail : forall (B : Type) (m : M (world guard_state) B), stepped Q w (m w).2 ->
    stepped Q w ((m ;; mret tt) w).2).
  { intros B m H. unfold mbind, M_bind. by destruct (m w) as [[b|e] w1]. }
  destruct op; cbn [run_guard_op op_time] in *.
  - by apply Htail, check_stepped.
  - apply Htail. eapply failure_stepped; [exact Hc|by apply Ht].
  - apply Htail. eapply blocked_stepped; [exact Hc|by apply Ht].
  - eapply success_stepped; [exact Hc|by apply Ht|]. intros name. by eapply Hn.
  - apply open_stepped.
  - apply Htail. apply stepped_guarded. intros w1 a. apply stepping_keeps, _.
Qed.
End history.

(** The clock is the same for every operation. *)
Definition same_clock (w w' : world guard_state) : Prop :=
  clock (environment w') = clock (environment w).

#[local] Instance same_clock_preorder : PreOrder same_clock.
Proof. split; [done|]. intros w1 w2 w3. unfold same_clock. congruence. Qed.
#[local] Instance same_clock_io eff : Resp same_clock (io (A:=guard_state) eff).
Proof.
  intros w. unfold io. destruct (io_fault _ _); [done|]. by destruct (eff (file w, fuse w)).
Qed.
#[local] Instance same_clock_get : Resp same_clock (get_mem (A:=guard_state)). Proof. done. Qed.
#[local] Instance same_clock_put st : Resp same_clock (put_mem (A:=guard_state) st). Proof. done. Qed.
#[local] Instance same_clock_file : Resp same_clock (get_file (A:=guard_state)). Proof. done. Qed.
#[local] Instance same_clock_fuse : Resp same_clock (get_fuse (A:=guard_state)). Proof. done. Qed.
#[local] Instance same_clock_time : Resp same_clock (time_time (A:=guard_state)). Proof. done. Qed.
#[local] Instance same_clock_mark : Resp same_clock (mark_initialized (A:=guard_state)).
Proof. unfold mark_initialized. solve_resp. Qed.
#[local] Instance same_clock_reload : Resp same_clock (_reload config).
Proof. unfold _reload, was_initialized. solve_resp. Qed.
#[local] Instance same_clock_guarded {B} (body : M (world guard_state) B) :
  Resp same_clock body -> Resp same_clock (guarded config body).
Proof. intros Hb. unfold guarded. solve_resp. Qed.
#[local] Instance same_clock_persist : Resp same_clock (persist (A:=guard_state)).
Proof. unfold persist. solve_resp. Qed.
#[local] Instance same_clock_timestamp now : Resp same_clock (_runtime_timestamp now).
Proof. unfold _runtime_timestamp. solve_resp. Qed.

Lemma same_clock_op op : Resp same_clock (run_guard_op op).
Proof.
  destruct op; cbn [run_guard_op];
    unfold guard_check, record_failure, record_blocked, record_success, open_guard, guard_snapshot;
    repeat first [apply same_clock_guarded | solve_resp_step].
Qed.

(** A sequence of operations of any processes; whatever each of them returns. *)
Fixpoint run_guard_ops (ops : list guard_op) (w : world guard_state) : world guard_state :=
  match ops with
  | [] => w
  | op :: ops' => run_guard_ops ops' (run_guard_op op w).2
  end.

(** Before every operation the table has room. *)
Fixpoint stays_roomy (ops : list guard_op) (w : world guard_state) : Prop :=
  (forall st, view w = Some st -> roomy st) /\
  match ops with
  | [] => True
  | op :: ops' => stays_roomy ops' (run_guard_op op w).2
  end.

(** The next load finds the bucket locked. *)
Definition locked_on_disk (k : string) (L : float) (w : world guard_state) : Prop :=
  exists st, view w = Some st /\ locked_at L k (buckets st).

Lemma op_keeps_locked k L clk op w :
  clock (environment w) = clk -> leaves_locked k L clk op ->
  (forall st, view w = Some st -> roomy st) ->
  locked_on_disk k L w -> locked_on_disk k L (run_guard_op op w).2.
Proof using All.
  intros Hc Hop Hroom (st & Hv & Hk). pose proof (op_stepped k L clk op w Hc Hop) as H.
  unfold stepped in H. rewrite Hv in H. destruct H as [H|[(st' & H & HQ)|(Hf & _)]].
  - by exists st.
  - exists st'. split; [exact H|]. apply HQ; [by eapply view_keys|by apply Hroom|done].
  - exfalso. unfold view in Hv. rewrite Hf in Hv. destruct (fuse w); [done|]. injection Hv as <-.
    by destruct Hk as (b & Hb & _).
Qed.

Lemma ops_keep_locked k L ops w :
  Forall (leaves_locked k L (clock (environment w))) ops -> stays_roomy ops w ->
  locked_on_disk k L w ->
  locked_on_disk k L (run_guard_ops ops w) /\
  clock (environment (run_guard_ops ops w)) = clock (environment w) /\
  (forall st, view (run_guard_ops ops w) = Some st -> roomy st).
Proof using All.
  revert w. induction ops as [|op ops IH]; intros w Hops Hroom Hk; cbn [run_guard_ops];
    [by destruct Hroom|].
  apply Forall_cons in Hops as [Hop Hops]. destruct Hroom as [Hr Hroom].
  pose proof (same_clock_op op w) as Hc. unfold same_clock in Hc.
  destruct (IH (run_guard_op op w).2) as (H1 & H2 & H3); [by rewrite Hc|exact Hroom| |].
  - eapply op_keeps_locked; [reflexivity|exact Hop|exact Hr|exact Hk].
  - split; [done|]. split; [congruence|done].
Qed.

Lemma check_locked k L ip user now w :
  enabled config = true -> locked_on_disk k L w -> before L (clock (environment w)) now ->
  (forall st, view w = Some st -> roomy st) ->
  Exists (fun spec => spec_key spec = k) (_scope_specs config ip user) ->
  match (guard_check config ip user now w).1 with Ok d => blocked d = true | Err _ => True end.
Proof.
  intros Hen (st & Hv & Hk) Hb Hroom Hspec. destruct (guard_check config ip user now w) as [[d|e] w'] eqn:H; [|done].
  unfold guard_check in H. rewrite Hen in H. cbn [negb] in H. apply bind_ok in H as (t & w1 & H1 & H).
  apply timestamp_run in H1 as ((_ & Hv1 & _) & _ & Ht). destruct (Ht t eq_refl) as [n Hn].
  specialize (Hb n t Hn). apply guard_number_ok in Hn as [Hf Hp].
  apply guarded_start in H as [(e & ? & _)|(w2 & r1 & Hv2 & _ & _ & H & Hr)]; [done|].
  assert (r1 = Ok d) as -> by (by destruct Hr as [<-|(e & ? & _)]).
  assert (E : Some (mem w2) = Some st).
  { rewrite <- Hv, <- Hv1. symmetry. exact Hv2. }
  injection E as E. apply bind_ok in H as (a & w3 & [= <- <-] & H).
  rewrite E in H. assert (Hnd := view_keys w st Hv). specialize (Hroom st Hv). unfold roomy in Hroom.
  apply (compact_locked config L t Hf Hp Hb) in Hk; [|done|lia].
  apply (decide_locked config L t Hf Hp Hb (_scope_specs config ip user) _ [] 0) in Hk as [_ Hd].
  unfold _decision in H. destruct (decide_scopes _ _ _ _ _ _) as [bs d']. cbn [snd] in Hd.
  apply bind_ok in H as (u & w4 & _ & H). apply ret_ok in H as [-> _]. apply Hd. by right.
Qed.
End lockout.

(** What a caller of [check] learns when the publisher is locked out. *)
Definition blocked_or_failed (r : result AuthGuardDecision) : Prop :=
  match r with Ok d => blocked d = true | Err _ => True end.

(** C24: A lockout holds. Once the state file says that an address or a credential is
    locked out until [L], it says so after any sequence of operations of any
    processes made before [L], whatever they are told, whatever they return and
    whatever I/O fails, as long as no success is recorded for that credential and the
    table of buckets is not full; and a check of a publisher under that scope before
    [L] answers that it is blocked, or fails. *)
Theorem lockout_holds config k L ops ip user now w :
  0 <= event_limit config -> enabled config = true ->
  locked_on_disk config k L w ->
  Forall (leaves_locked k L (clock (environment w))) ops ->
  stays_roomy config ops w ->
  before L (clock (environment w)) now ->
  Exists (fun spec => spec_key spec = k) (_scope_specs config ip user) ->
  let w' := run_guard_ops config ops w in
  locked_on_disk config k L w' /\
  blocked_or_failed (guard_check config ip user now w').1.
Proof.
  intros Hlimit Hen Hk Hops Hroom Hb Hspec. cbv zeta.
  destruct (ops_keep_locked config Hlimit k L ops w Hops Hroom Hk) as (H1 & H2 & H3).
  split; [exact H1|]. apply (check_locked config k L); try done. by rewrite H2.
Qed.

(** ** The failure that locks *)
Section threshold.
Context (config : IngestAuthGuardConfig) (now : float).

(** What of a bucket counts at [now]; of a missing one, nothing. *)
Definition recent (b : option bucket) : bucket :=
  _prune_bucket config (default (Bucket [] fzero now None) b) now.

Definition reached (limit : Z) (b : bucket) : bool := limit <=? Z.of_nat (length (failures b)) + 1.

(** The bucket after one more failure. *)
Definition counted (limit : Z) (b : bucket) : bucket :=
  Bucket (failures b ++ [now])
    (if negb (flt now (locked_until b)) && reached limit b
     then fadd now (lockout_seconds config) else locked_until b) now (last_blocked_event_at b).

Lemma filter_filter {A} (P : A -> bool) l : List.filter P (List.filter P l) = List.filter P l.
Proof. induction l as [|x l IH]; [done|]. cbn. destruct (P x) eqn:E; cbn; [rewrite E; by f_equal|done]. Qed.

Lemma or_zero_again f : or_zero (or_zero f) = or_zero f.
Proof. unfold or_zero. by destruct f. Qed.

Lemma prune_prune b : _prune_bucket config (_prune_bucket config b now) now = _prune_bucket config b now.
Proof.
  unfold _prune_bucket. cbn [failures locked_until last_seen_at last_blocked_event_at].
  destruct (flt fzero (or_zero (locked_until b)) && fle (or_zero (locked_until b)) now) eqn:E; [done|].
  by rewrite or_zero_again, E, filter_filter.
Qed.

(** A bucket that is stale counts as a missing one. *)
Lemma recent_stale b :
  stale (_prune_bucket config b now) = true ->
  failures (recent None) = failures (recent (Some b)) /\ locked_until (recent None) = locked_until (recent (Some b)).
Proof.
  unfold stale. intros [Hf%bool_decide_eq_true Hz]%andb_prop. unfold recent. cbn [default].
  change (id b) with b. rewrite Hf. split; [done|]. cbn in Hz |- *.
  destruct (flt fzero (or_zero (locked_until b)) && _); [done|]. revert Hz. unfold or_zero. by destruct (locked_until b).
Qed.

Hypotheses (Hcut : fle (fsub now (failure_window_seconds config)) now = true)
  (Hnext : fle now (fadd now fone) = true) (Hlock : flt now (fadd now (lockout_seconds config)) = true)
  (Hnow : is_finite now = true) (Hpos : flt now fzero = false).

Lemma later_not_expired x : flt now x = true -> flt fzero (or_zero x) && fle (or_zero x) now = false.
Proof using All.
  intros Hx. assert (Hn : is_nan x = false) by (destruct x; try done; by destruct now).
  destruct (flt fzero (or_zero x)) eqn:E; [|done]. cbn. unfold or_zero in *.
  destruct (is_zero x) eqn:Ez; [done|]. rewrite flt_not_fle in Hx by auto with pyfloat. by apply negb_true_iff.
Qed.

(** Pruning at the same time leaves a counted bucket alone. *)
Lemma prune_counted limit ob :
  let b := counted limit (recent ob) in
  failures (_prune_bucket config b now) = failures b /\
  flt now (locked_until (_prune_bucket config b now)) = flt now (locked_until b) /\
  (locked_until (_prune_bucket config b now) = locked_until b) /\ stale (_prune_bucket config b now) = false.
Proof using All.
  cbv zeta. set (b0 := recent ob).
  assert (Hp : _prune_bucket config b0 now = b0) by apply prune_prune.
  clearbody b0. set (b := counted limit b0).
  assert (He : flt fzero (or_zero (locked_until b)) && fle (or_zero (locked_until b)) now = false /\
    or_zero (locked_until b) = locked_until b).
  { unfold b, counted. cbn [locked_until]. destruct (negb (flt now (locked_until b0)) && reached limit b0) eqn:El.
    - split; [by apply later_not_expired|]. unfold or_zero.
      destruct (lock_not_expired config (fadd now (lockout_seconds config)) now Hnow Hpos Hlock) as (_ & Hz & _).
      by rewrite Hz.
    - assert (Hf : locked_until b0 = locked_until (_prune_bucket config b0 now)) by (by rewrite Hp).
      unfold _prune_bucket in Hf. cbn [locked_until] in Hf.
      destruct (flt fzero (or_zero (locked_until b0)) && fle (or_zero (locked_until b0)) now) eqn:Ex.
      + exfalso. rewrite Hf in Ex. discriminate Ex.
      + split; [done|]. congruence. }
  destruct He as [He Hz].
  assert (Hff : failures (_prune_bucket config b now) = failures b).
  { unfold _prune_bucket. cbn [failures]. rewrite He. unfold b, counted. cbn [failures].
    rewrite List.filter_app. cbn [List.filter]. rewrite Hcut, Hnext. cbn [andb]. f_equal.
    assert (Hf : failures b0 = failures (_prune_bucket config b0 now)) by (by rewrite Hp).
    rewrite Hf. unfold _prune_bucket. cbn [failures].
    destruct (flt fzero (or_zero (locked_until b0)) && _); [done|]. apply filter_filter. }
  assert (Hll : locked_until (_prune_bucket config b now) = locked_until b).
  { unfold _prune_bucket. cbn [locked_until]. by rewrite He. }
  split; [done|]. split; [by rewrite Hll|]. split; [done|]. unfold stale. rewrite Hff. unfold b, counted.
  cbn [failures]. rewrite bool_decide_eq_false_2; [done|]. by destruct (failures b0).
Qed.

Lemma count_failure_bucket spec acc k :
  get_bucket k (count_failure config now spec acc).1 =
    if String.eqb (spec_key spec) k then Some (counted spec.2 (recent (get_bucket k acc.1))) else get_bucket k acc.1.
Proof.
  destruct acc as [bs nl]. unfold count_failure. cbv zeta. cbn [fst]. rewrite get_bucket_set.
  destruct (String.eqb_spec (spec_key spec) k) as [<-|_]; [|done]. unfold counted, reached, recent. f_equal.
  set (b := _prune_bucket config (default _ _) now).
  replace (Z.of_nat (length (failures b ++ [now]))) with (Z.of_nat (length (failures b)) + 1); [done|].
  rewrite length_app. cbn [length]. lia.
Qed.

Lemma count_all_bucket specs acc k :
  NoDup (spec_key <$> specs) ->
  get_bucket k (foldl (fun acc spec => count_failure config now spec acc) acc specs).1 =
    match List.find (fun spec => String.eqb (spec_key spec) k) specs with
    | Some spec => Some (counted spec.2 (recent (get_bucket k acc.1)))
    | None => get_bucket k acc.1
    end.
Proof.
  revert acc. induction specs as [|spec specs IH]; intros acc; [done|]. intros [Hni Hnd]%NoDup_cons.
  cbn [foldl List.find]. rewrite IH, count_failure_bucket by done.
  destruct (String.eqb_spec (spec_key spec) k) as [E|_]; [|done].
  destruct (List.find _ specs) as [spec'|] eqn:Hf; [|done]. exfalso. apply Hni.
  apply find_some in Hf as [Hin E']. apply String.eqb_eq in E'. apply list_elem_of_fmap.
  exists spec'. split; [congruence|by apply list_elem_of_In].
Qed.

Lemma count_all_shape specs acc :
  NoDup (keys_of acc.1) ->
  let acc' := foldl (fun acc spec => count_failure config now spec acc) acc specs in
  NoDup (keys_of acc'.1) /\ (length acc'.1 <= length specs + length acc.1)%nat.
Proof.
  cbv zeta. revert acc. induction specs as [|spec specs IH]; intros [bs nl] Hnd; [done|]. cbn [foldl length].
  destruct (IH (count_failure config now spec (bs, nl))) as [H1 H2]; [by apply nodup_set_bucket|].
  split; [done|]. etrans; [exact H2|].
  unfold count_failure. cbv zeta. cbn [fst].
  etrans; [apply Nat.add_le_mono_l, length_set_bucket|]. lia.
Qed.

(** The decision, scope by scope. *)
Lemma decide_scopes_spec specs bs scopes retry :
  NoDup (spec_key <$> specs) ->
  (forall k, get_bucket k (decide_scopes config specs bs now scopes retry).1 =
     match get_bucket k bs with
     | Some b => Some (if bool_decide (k ∈ spec_key <$> specs) then _prune_bucket config b now else b)
     | None => None
     end) /\
  (forall scope, scope ∈ locked_scopes (decide_scopes config specs bs now scopes retry).2 <->
     scope ∈ scopes \/ exists spec b, spec ∈ specs /\ spec.1.1 = scope /\ get_bucket (spec_key spec) bs = Some b /\
       flt now (locked_until (_prune_bucket config b now)) = true).
Proof.
  clear Hcut Hnext Hlock Hnow Hpos.
  revert bs scopes retry. induction specs as [|spec specs IH]; intros bs scopes retry Hnd; cbn [decide_scopes].
  { split; [intros k; cbn; by destruct (get_bucket k bs)|]. intros scope. split; [by left|].
    intros [H|(spec & _ & H & _)]; [done|by apply not_elem_of_nil in H]. }
  rewrite fmap_cons in *. apply NoDup_cons in Hnd as [Hni Hnd].
  assert (Hother : forall spec', spec' ∈ specs -> spec_key spec' <> spec_key spec).
  { intros spec' Hin E. apply Hni, list_elem_of_fmap. by exists spec'. }
  destruct (get_bucket (spec_key spec) bs) as [b|] eqn:Hb.
  - set (bs1 := set_bucket (spec_key spec) (_prune_bucket config b now) bs).
    assert (Hkeys : forall sc rt k,
      get_bucket k (decide_scopes config specs bs1 now sc rt).1 =
      match get_bucket k bs with
      | Some b => Some (if bool_decide (k ∈ spec_key spec :: (spec_key <$> specs))
                        then _prune_bucket config b now else b)
      | None => None
      end).
    { intros sc rt k. destruct (IH bs1 sc rt Hnd) as [Hk _]. rewrite Hk. unfold bs1. rewrite get_bucket_set.
      destruct (String.eqb_spec (spec_key spec) k) as [<-|Hne].
      - rewrite Hb, bool_decide_eq_false_2, bool_decide_eq_true_2; [done|by left|done].
      - destruct (get_bucket k bs) as [b'|]; [|done]. f_equal.
        repeat case_bool_decide; try done; exfalso; rewrite elem_of_cons in *; naive_solver. }
    assert (Hrest : forall scope,
      (exists spec' b', spec' ∈ specs /\ spec'.1.1 = scope /\ get_bucket (spec_key spec') bs1 = Some b' /\
         flt now (locked_until (_prune_bucket config b' now)) = true) <->
      (exists spec' b', spec' ∈ specs /\ spec'.1.1 = scope /\ get_bucket (spec_key spec') bs = Some b' /\
         flt now (locked_until (_prune_bucket config b' now)) = true)).
    { intros scope. split; intros (spec' & b' & Hin & Hs & Hg & Hl); exists spec', b'; (split; [done|]);
        (split; [done|]); (split; [|done]); revert Hg; unfold bs1; rewrite get_bucket_set;
        destruct (String.eqb_spec (spec_key spec) (spec_key spec')) as [E|_]; try done;
        by destruct (Hother spec' Hin). }
    destruct (flt now (locked_until (_prune_bucket config b now))) eqn:Hf; (split; [by apply Hkeys|]); intros scope.
    + destruct (IH bs1 (scopes ++ [spec.1.1])
        (Z.max retry (Z.max 1 (fceil (fsub (locked_until (_prune_bucket config b now)) now)))) Hnd) as [_ H].
      rewrite H, Hrest, elem_of_app, list_elem_of_singleton. split.
      * intros [[Hs|Hs]|(spec' & b' & Hin & ?)]; [by left|right|right].
        -- exists spec, b. split; [by left|]. done.
        -- exists spec', b'. split; [by right|done].
      * intros [Hs|(spec' & b' & [->|Hin]%elem_of_cons & Hs & ?)]; [by left; left|by left; right|right].
        by exists spec', b'.
    + destruct (IH bs1 scopes retry Hnd) as [_ H]. rewrite H, Hrest. split.
      * intros [Hs|(spec' & b' & Hin & ?)]; [by left|right]. exists spec', b'. split; [by right|done].
      * intros [Hs|(spec' & b' & [->|Hin]%elem_of_cons & Hs & Hg & Hl)]; [by left|congruence|right].
        by exists spec', b'.
  - destruct (IH bs scopes retry Hnd) as [Hk Hs]. split.
    + intros k. rewrite Hk. destruct (get_bucket k bs) as [b'|] eqn:Hg; [|done]. f_equal.
      repeat case_bool_decide; try done; exfalso; rewrite elem_of_cons in *; naive_solver congruence.
    + intros scope. rewrite Hs. split.
      * intros [H|(spec' & b' & Hin & ?)]; [by left|right]. exists spec', b'. split; [by right|done].
      * intros [H|(spec' & b' & [->|Hin]%elem_of_cons & Hs' & Hg & Hl)]; [by left|congruence|right].
        by exists spec', b'.
Qed.

Lemma find_spec (specs : list (string * string * Z)) spec :
  NoDup (spec_key <$> specs) -> spec ∈ specs ->
  List.find (fun s => String.eqb (spec_key s) (spec_key spec)) specs = Some spec.
Proof.
  induction specs as [|s specs IH]; [by intros _ H%not_elem_of_nil|].
  rewrite fmap_cons. intros [Hni Hnd]%NoDup_cons [->|Hin]%elem_of_cons; cbn [List.find].
  - by rewrite String.eqb_refl.
  - destruct (String.eqb_spec (spec_key s) (spec_key spec)) as [E|_]; [|by apply IH].
    exfalso. apply Hni, list_elem_of_fmap. by exists spec.
Qed.

Lemma scope_specs_nodup ip user :
  NoDup (spec_key <$> _scope_specs config ip user) /\
  forall s1 s2, s1 ∈ _scope_specs config ip user -> s2 ∈ _scope_specs config ip user ->
    s1.1.1 = s2.1.1 -> s1 = s2.
Proof.
  unfold _scope_specs. destruct (_normalize_ip ip) as [a|], (_safe_text user 256) as [u|]; cbn;
    (split; [|intros s1 s2; rewrite ?elem_of_cons, ?elem_of_nil; naive_solver]);
    repeat (apply NoDup_cons; split); try apply NoDup_nil_2; try apply not_elem_of_nil.
  intros [H|H]%elem_of_cons; [|by apply not_elem_of_nil in H]. discriminate H.
Qed.

Lemma recent_compacted bs k :
  NoDup (keys_of bs) -> Z.of_nat (length bs) <= bucket_limit config ->
  failures (recent (get_bucket k (_compact_buckets config bs now))) = failures (recent (get_bucket k bs)) /\
  locked_until (recent (get_bucket k (_compact_buckets config bs now))) = locked_until (recent (get_bucket k bs)).
Proof.
  intros Hnd Hlen. destruct (compact_spec config bs now Hnd Hlen) as (_ & _ & ->).
  destruct (get_bucket k bs) as [b|]; [|done]. destruct (stale (_prune_bucket config b now)) eqn:Hs.
  - by apply recent_stale.
  - unfold recent. cbn [default]. change (id ?x) with x. by rewrite prune_prune.
Qed.

Lemma counted_same limit b1 b2 :
  failures b1 = failures b2 -> locked_until b1 = locked_until b2 ->
  failures (counted limit b1) = failures (counted limit b2) /\
  locked_until (counted limit b1) = locked_until (counted limit b2).
Proof. unfold counted, reached. cbn. by intros -> ->. Qed.

Lemma failed_state_spec ip user proto pub st spec :
  NoDup (keys_of (buckets st)) -> roomy config st -> spec ∈ _scope_specs config ip user ->
  let b := counted spec.2 (recent (get_bucket (spec_key spec) (buckets st))) in
  let '(st', d) := failed_state config ip user proto pub now st in
  (spec.1.1 ∈ locked_scopes d <-> flt now (locked_until b) = true) /\
  exists b', get_bucket (spec_key spec) (buckets st') = Some b' /\ failures b' = failures b /\
    locked_until b' = locked_until b.
Proof using All.
  intros Hnd Hroom Hspec. cbv zeta. unfold failed_state, roomy in *.
  set (specs := _scope_specs config ip user) in *. set (k := spec_key spec).
  destruct (scope_specs_nodup ip user) as [Hsp Hinj]. fold specs in Hsp, Hinj.
  destruct (compact_spec config (buckets st) now Hnd ltac:(lia)) as (Hnd1 & Hl1 & _).
  destruct (recent_compacted (buckets st) k Hnd ltac:(lia)) as [Hr1 Hr2].
  set (bs1 := _compact_buckets config (buckets st) now) in *.
  pose proof (count_all_bucket specs (bs1, []) k Hsp) as Hc. unfold k in Hc at 2. rewrite find_spec in Hc by done.
  assert (Hnd2 : NoDup (keys_of (foldl (fun acc spec => count_failure config now spec acc) (bs1, []) specs).1) /\
    (length (foldl (fun acc spec => count_failure config now spec acc) (bs1, []) specs).1 <= length specs + length bs1)%nat).
  { apply count_all_shape. exact Hnd1. }
  destruct (foldl _ (bs1, []) specs) as [bs2 nl]. cbn [fst] in *. destruct Hnd2 as [Hnd2 Hl2].
  pose proof (length_scope_specs config ip user) as Hs2. fold specs in Hs2.
  destruct (compact_spec config bs2 now Hnd2 ltac:(lia)) as (_ & _ & Hg).
  destruct (counted_same spec.2 _ _ Hr1 Hr2) as [Hc1 Hc2].
  set (b1 := counted spec.2 (recent (get_bucket k bs1))) in *.
  destruct (prune_counted spec.2 (get_bucket k bs1)) as (Hp1 & Hp2 & Hp3 & Hp4). fold b1 in Hp1, Hp2, Hp3, Hp4.
  specialize (Hg k). rewrite Hc, Hp4 in Hg.
  destruct (decide_scopes_spec specs (_compact_buckets config bs2 now) [] 0 Hsp) as [Hd1 Hd2].
  unfold _decision. destruct (decide_scopes config specs _ now [] 0) as [bs3 d]. cbn [fst snd] in *.
  specialize (Hd1 k). rewrite Hg in Hd1. rewrite bool_decide_eq_true_2, prune_prune in Hd1
    by (by apply list_elem_of_fmap; exists spec).
  split.
  - rewrite Hd2. rewrite <- Hc2, <- Hp2. split.
    + intros [H|(s' & b' & Hin & Hsc & Hgb & Hl)]; [by apply not_elem_of_nil in H|].
      assert (s' = spec) as -> by (by apply Hinj). fold k in Hgb. rewrite Hg in Hgb. injection Hgb as <-.
      by rewrite prune_prune in Hl.
    + intros Hl. right. exists spec, (_prune_bucket config b1 now). split; [done|]. split; [done|].
      split; [exact Hg|]. by rewrite prune_prune.
  - exists (_prune_bucket config b1 now). rewrite Hp1, Hp3, Hc1, Hc2. split; [|done].
    destruct (bool_decide (nl = [])); exact Hd1.
Qed.
End threshold.

(** The failure that locks. An accepted record of a failure at [t] adds [t] to the
    failures that count for the address and for the credential, those of the failure
    window since the last lockout. A scope is reported as locked exactly when it was
    locked out already, or when this failure reaches its configured number; then, and
    only then, it is locked out from [t] for the configured time, and the state file
    says so. *)
Theorem failures_lock_at_the_limit config ip user proto pub v t w d w' st spec :
  0 <= event_limit config -> enabled config = true ->
  guard_number v = Ok t ->
  fle (fsub t (failure_window_seconds config)) t = true -> fle t (fadd t fone) = true ->
  flt t (fadd t (lockout_seconds config)) = true ->
  record_failure config ip user proto pub (Some v) w = (Ok d, w') ->
  view (H:=guard_format config) w = Some st -> roomy config st ->
  spec ∈ _scope_specs config ip user ->
  let b := recent config t (get_bucket (spec_key spec) (buckets st)) in
  let was_locked := flt t (locked_until b) in
  (spec.1.1 ∈ locked_scopes d <-> was_locked || reached spec.2 b = true) /\
  exists st' b', view (H:=guard_format config) w' = Some st' /\
    get_bucket (spec_key spec) (buckets st') = Some b' /\ failures b' = failures b ++ [t] /\
    locked_until b' = if negb was_locked && reached spec.2 b then fadd t (lockout_seconds config)
                      else locked_until b.
Proof.
  intros Hlimit Hen Hv Hcut Hnext Hlock H Hst Hroom Hspec. cbv zeta.
  pose proof (guard_number_ok v t Hv) as [Hf Hp].
  unfold record_failure in H. rewrite Hen in H. cbn [negb] in H. apply bind_ok in H as (t' & w1 & H1 & H).
  assert (t' = t) as ->.
  { unfold _runtime_timestamp in H1. apply bind_ok in H1 as (v' & w2 & [= <- <-] & H1).
    apply lift_ok in H1 as [H1 _]. congruence. }
  apply (timestamp_run config) in H1 as ((_ & Hv1 & _) & _ & _).
  apply guarded_start in H as [(e & ? & _)|(w2 & r1 & Hv2 & _ & _ & H & Hr)]; [done|].
  assert (r1 = Ok d) as -> by (by destruct Hr as [<-|(e & ? & _)]).
  assert (E : Some (mem w2) = Some st).
  { exact (eq_trans (eq_sym Hv2) (eq_trans Hv1 Hst)). }
  injection E as E. apply bind_ok in H as (a & w3 & [= <- <-] & H). rewrite E in H.
  pose proof (failed_state_spec config t Hcut Hnext Hlock Hf Hp ip user proto pub st spec
    (view_keys config w st Hst) Hroom Hspec) as Hspecs. cbv zeta in Hspecs.
  destruct (failed_state config ip user proto pub t st) as [st' d']. destruct Hspecs as [Hd (b' & Hb & Hff & Hll)].
  apply bind_ok in H as (u1 & w4 & [= _ <-] & H). apply bind_ok in H as (u2 & w5 & H5 & H).
  apply ret_ok in H as [-> ->].
  apply (persist_ok (H:=guard_format config) (H0:=guard_laws config Hlimit)) in H5 as (_ & Hv5 & _).
  split.
  - rewrite Hd. unfold counted. cbn [locked_until].
    destruct (flt t (locked_until (recent config t _))) eqn:El; cbn [negb andb orb]; [by rewrite El|].
    destruct (reached spec.2 _); [by rewrite Hlock|by rewrite El].
  - exists (canonical config st'), b'. split; [exact Hv5|]. rewrite get_bucket_canonical. done.
Qed.

(** ** A history, evaluated *)
Definition demo_guard : IngestAuthGuardConfig :=
  GuardConfig true (of_Z 60) 20 2 (of_Z 120) 200 4096 (of_Z 5).

Definition demo_guard_world : world guard_state :=
  World (GuardState [] [] 1) Missing false
    (Env (fun _ => of_Z 1050) 0 (fun _ => EmptyString) 0 (fun _ => false) 0).

Definition demo_failure (t : Z) : guard_op := OpFailure "192.0.2.1" " cafe" "RTMP" "p" (Some (VInt t)).

(** Two failures of one credential within a minute. *)
Definition demo_once := (run_guard_op demo_guard (demo_failure 1000) demo_guard_world).2.
Definition demo_locked := (run_guard_op demo_guard (demo_failure 1040) demo_once).2.
Definition demo_guard_key : string := _bucket_key "credential" "cafe".

Fixpoint stays_roomy_check (config : IngestAuthGuardConfig) (ops : list guard_op) (w : world guard_state) : bool :=
  match view (H:=guard_format config) w with
  | Some st => Z.of_nat (length (buckets st)) + 2 <=? bucket_limit config
  | None => true
  end &&
  match ops with
  | [] => true
  | op :: ops' => stays_roomy_check config ops' (run_guard_op config op w).2
  end.

Lemma stays_roomy_checked config ops w : stays_roomy_check config ops w = true -> stays_roomy config ops w.
Proof.
  revert w. induction ops as [|op ops IH]; intros w; cbn [stays_roomy_check stays_roomy];
    intros [H1 H2]%andb_prop; (split; [|by try apply IH]); intros st Hst;
    change (view (H:=guard_format config) w = Some st) in Hst; rewrite Hst in H1; by apply Z.leb_le.
Qed.

Lemma before_literal (L : float) clk z : flt (of_Z z) L = true -> before L clk (Some (VInt z)).
Proof.
  intros H n t. unfold guard_number, nonneg_number. cbn. destruct (is_finite (of_Z z)); [|done].
  destruct (_ && _); [|done]. by intros [= <-].
Qed.

Lemma before_constant (L : float) clk : (forall n, clk n = of_Z 1050) -> flt (of_Z 1050) L = true -> before L clk None.
Proof.
  intros Hc H n t. rewrite Hc. intros Ht. apply guard_number_float in Ht. by subst t.
Qed.

Definition demo_ops : list guard_op :=
  [OpBlocked "192.0.2.1" "cafe" "rtmp" "p" (Some (VInt 1041)); OpSuccess "other" None; demo_failure 1100; OpOpen].

Definition demo_later : world guard_state := run_guard_ops demo_guard demo_ops demo_locked.

Lemma lockout_holds_witness :
  locked_on_disk demo_guard demo_guard_key (of_Z 1160) demo_later /\
  blocked_or_failed (guard_check demo_guard "198.51.100.7" "cafe" (Some (VInt 1159)) demo_later).1.
Proof.
  apply (lockout_holds demo_guard demo_guard_key (of_Z 1160) demo_ops).
  - done.
  - reflexivity.
  - eexists. split; [vm_compute; reflexivity|]. eexists. split; vm_compute; reflexivity.
  - apply Forall_cons_2; [|apply Forall_cons_2; [|apply Forall_cons_2; [|apply Forall_cons_2; [|apply Forall_nil_2]]]].
    + split; [|intros ? ? ? Hop; discriminate Hop]. intros now [= <-]. apply before_literal. vm_compute. reflexivity.
    + split; [intros now [= <-]; apply before_constant; [intros n; vm_compute|vm_compute]; reflexivity|].
      intros user now name [= <- <-] Hname. vm_compute in Hname. injection Hname as <-. vm_compute. discriminate.
    + split; [|intros ? ? ? Hop; discriminate Hop]. intros now [= <-]. apply before_literal. vm_compute. reflexivity.
    + split; [intros ? Hop; discriminate Hop|intros ? ? ? Hop; discriminate Hop].
  - apply stays_roomy_checked. vm_compute. reflexivity.
  - apply before_literal. vm_compute. reflexivity.
  - apply Exists_cons. right. apply Exists_cons. left. vm_compute. reflexivity.
Defined.

Definition demo_decision : AuthGuardDecision := Decision true ["credential"] 120.

Lemma failures_lock_at_the_limit_witness :
  exists d w' st,
    record_failure demo_guard "192.0.2.1" " cafe" "RTMP" "p" (Some (VInt 1040)) demo_once = (Ok d, w') /\
    view (H:=guard_format demo_guard) demo_once = Some st /\
    ("credential" ∈ locked_scopes d <->
     (flt (of_Z 1040) (locked_until (recent demo_guard (of_Z 1040) (get_bucket demo_guard_key (buckets st))))
      || reached 2 (recent demo_guard (of_Z 1040) (get_bucket demo_guard_key (buckets st)))) = true).
Proof.
  exists demo_decision, (record_failure demo_guard "192.0.2.1" " cafe" "RTMP" "p" (Some (VInt 1040)) demo_once).2,
    (default (GuardState [] [] 1) (view (H:=guard_format demo_guard) demo_once)).
  assert (H1 : record_failure demo_guard "192.0.2.1" " cafe" "RTMP" "p" (Some (VInt 1040)) demo_once =
    (Ok demo_decision,
     (record_failure demo_guard "192.0.2.1" " cafe" "RTMP" "p" (Some (VInt 1040)) demo_once).2)).
  { vm_compute. reflexivity. }
  assert (H2 : view (H:=guard_format demo_guard) demo_once =
    Some (default (GuardState [] [] 1) (view (H:=guard_format demo_guard) demo_once))) by (vm_compute; reflexivity).
  split; [exact H1|]. split; [exact H2|].
  refine (proj1 (failures_lock_at_the_limit demo_guard "192.0.2.1" " cafe" "RTMP" "p" (VInt 1040) (of_Z 1040)
    demo_once demo_decision _ _ ("credential", "cafe", 2) _ _ _ _ _ _ H1 H2 _ _)).
  - vm_compute. discriminate.
  - vm_compute. reflexivity.
  - vm_compute. reflexivity.
  - vm_compute. reflexivity.
  - vm_compute. reflexivity.
  - vm_compute. reflexivity.
  - vm_compute. discriminate.
  - apply elem_of_cons. right. apply elem_of_cons. left. vm_compute. reflexivity.
Defined.

(** The second failure is the one that locks. *)
Example demo_lock :
  (record_failure demo_guard "192.0.2.1" " cafe" "RTMP" "p" (Some (VInt 1040)) demo_once).1 = Ok demo_decision /\
  (guard_check demo_guard "198.51.100.7" "cafe" (Some (VInt 1159)) demo_locked).1 = Ok (Decision true ["credential"] 1) /\
  (guard_check demo_guard "198.51.100.7" "cafe" (Some (VInt 1160)) demo_locked).1 = Ok (Decision false [] 0).
Proof. vm_compute. done. Qed.
