(* ===== verification/Url.v ===== *)
(** * URLs (Python's [urllib.parse])

    [urlsplit] and the parts of its result, [urlunsplit] for a URL with a network
    location, [quote], [unquote_plus] and [parse_qsl], as the program uses them. A
    text is its UTF-8 encoding, so that percent-encoding works on its bytes.

    [nfkc] is [unicodedata.normalize("NFKC", _)], which [urlsplit] applies to a
    network location with characters outside ASCII: its tables are not modelled. *)

From S2P Require Import Prelude PyFloat Sha256 PyValue Uuid PyText IpAddress.

(** ** Characters and pieces of texts *)
Definition is_ascii (c : Ascii.ascii) : bool := byte_code c <? 128.
Definition is_alpha (c : Ascii.ascii) : bool :=
  let n := byte_code (lower_ascii c) in (97 <=? n) && (n <=? 122).
Definition is_digit (c : Ascii.ascii) : bool := let n := byte_code c in (48 <=? n) && (n <=? 57).
Definition is_hex_char (c : Ascii.ascii) : bool :=
  match hex_value c with Some _ => true | None => false end.
Definition all_chars (f : Ascii.ascii -> bool) (s : string) : bool := forallb f (chars s).

(** [s.partition(c)]: what precedes the first [c] and what follows it, if any. *)
Fixpoint partition (c : Ascii.ascii) (s : string) : string * option string :=
  match s with
  | EmptyString => (EmptyString, None)
  | String x s' =>
      if Ascii.eqb x c then (EmptyString, Some s')
      else let '(before, rest) := partition c s' in (String x before, rest)
  end.

(** [s.rpartition(c)]: what precedes the last [c], if any, and what follows it. *)
Fixpoint rpartition (c : Ascii.ascii) (s : string) : option string * string :=
  match s with
  | EmptyString => (None, EmptyString)
  | String x s' =>
      match rpartition c s' with
      | (Some before, rest) => (Some (String x before), rest)
      | (None, rest) => if Ascii.eqb x c then (Some EmptyString, rest) else (None, String x rest)
      end
  end.

Definition has_char (c : Ascii.ascii) (s : string) : bool := existsb (Ascii.eqb c) (chars s).

(** The longest prefix with [f] and the rest. *)
Fixpoint span_chars (f : Ascii.ascii -> bool) (s : string) : string * string :=
  match s with
  | EmptyString => (EmptyString, EmptyString)
  | String x s' => if f x then let '(a, b) := span_chars f s' in (String x a, b) else (EmptyString, s)
  end.

Fixpoint drop_chars (f : Ascii.ascii -> bool) (s : string) : string :=
  match s with
  | EmptyString => EmptyString
  | String x s' => if f x then drop_chars f s' else String x (drop_chars f s')
  end.

(** ** [urlsplit] *)
Record SplitResult : Type := Split {
  scheme : string; netloc : string; path : string; query : string; fragment : string
}.

Definition scheme_char (c : Ascii.ascii) : bool :=
  is_alpha c || is_digit c || Ascii.eqb c "+" || Ascii.eqb c "-" || Ascii.eqb c ".".
Definition removed_char (c : Ascii.ascii) : bool :=
  let n := byte_code c in (n =? 9) || (n =? 10) || (n =? 13).
Definition netloc_end (c : Ascii.ascii) : bool :=
  Ascii.eqb c "/" || Ascii.eqb c "?" || Ascii.eqb c "#".

Definition split_scheme (url : string) : string * string :=
  match partition ":" url with
  | (before, Some rest) =>
      match before with
      | String c _ => if is_alpha c && all_chars scheme_char before then (py_lower before, rest)
                      else (EmptyString, url)
      | EmptyString => (EmptyString, url)
      end
  | (_, None) => (EmptyString, url)
  end.

(** The host part of a network location: the text after the last at sign. *)
Definition host_part (netloc : string) : string := (rpartition "@" netloc).2.

Definition check_bracketed_host (hostname : string) : bool :=
  match hostname with
  | String "v"%char s =>
      let '(digits, rest) := span_chars is_hex_char s in
      negb (str_empty digits) &&
      match rest with String "."%char s' => negb (str_empty s') | _ => false end
  | _ => negb (has_char "/" hostname) &&
         match parse_ipv4 hostname with
         | Some _ => false
         | None => match parse_ipv6 hostname with Some _ => true | None => false end
         end
  end.

Definition check_bracketed_netloc (netloc : string) : bool :=
  match partition "[" (host_part netloc) with
  | (before, Some bracketed) =>
      let '(hostname, rest) := partition "]" bracketed in
      str_empty before &&
      match rest with
      | None | Some EmptyString | Some (String ":"%char _) => true
      | _ => false
      end && check_bracketed_host hostname
  | (hostname_and_port, None) => check_bracketed_host (partition ":" hostname_and_port).1
  end.

Definition netloc_char (c : Ascii.ascii) : bool :=
  Ascii.eqb c "/" || Ascii.eqb c "?" || Ascii.eqb c "#" || Ascii.eqb c "@" || Ascii.eqb c ":".

(** What follows [//]. *)
Definition after_slashes (url : string) : option string :=
  match url with
  | String a (String b rest) => if Ascii.eqb a "/" && Ascii.eqb b "/" then Some rest else None
  | _ => None
  end.

Definition brackets_ok (netloc : string) : bool :=
  if has_char "[" netloc then has_char "]" netloc && check_bracketed_netloc netloc
  else negb (has_char "]" netloc).

Section normalized.
Context (nfkc : string -> string).

Definition check_netloc (netloc : string) : bool :=
  if all_chars is_ascii netloc then true
  else
    let n := drop_chars (fun c => Ascii.eqb c "@" || Ascii.eqb c ":" || Ascii.eqb c "#" ||
                                  Ascii.eqb c "?") netloc in
    let n' := nfkc n in
    String.eqb n n' || negb (existsb netloc_char (chars n')).

(** [None] is [ValueError]. *)
Definition urlsplit (url : string) : option SplitResult :=
  let url := lstrip_chars (fun c => byte_code c <=? 32) url in
  let url := drop_chars removed_char url in
  let '(scheme, url) := split_scheme url in
  let '(netloc, url) :=
    match after_slashes url with
    | Some rest => span_chars (fun c => negb (netloc_end c)) rest
    | None => (EmptyString, url)
    end in
  let '(url, fragment) := partition "#" url in
  let '(url, query) := partition "?" url in
  if brackets_ok netloc && check_netloc netloc
  then Some (Split scheme netloc url (default EmptyString query) (default EmptyString fragment))
  else None.
End normalized.

(** ** The parts of the network location *)
Definition username (u : SplitResult) : option string :=
  info ← (rpartition "@" (netloc u)).1; Some (partition ":" info).1.
Definition password (u : SplitResult) : option string :=
  info ← (rpartition "@" (netloc u)).1; (partition ":" info).2.

Definition host_info (u : SplitResult) : string * option string :=
  let hostinfo := host_part (netloc u) in
  let '(hostname, port) :=
    match partition "[" hostinfo with
    | (_, Some bracketed) =>
        let '(hostname, rest) := partition "]" bracketed in
        (hostname, (partition ":" (default EmptyString rest)).2)
    | (_, None) => partition ":" hostinfo
    end in
  (hostname, match port with Some EmptyString => None | p => p end).

(** The zone of a scoped address keeps its letters. *)
Definition hostname (u : SplitResult) : option string :=
  let h := (host_info u).1 in
  if str_empty h then None
  else match partition "%" h with
       | (h, Some zone) => Some (String.append (py_lower h) (String "%" zone))
       | (h, None) => Some (py_lower h)
       end.

(** [ValueError] for a port that is not one; [int] refuses more than 4300 digits, all
    of them out of range unless they are zeros. *)
Definition port (u : SplitResult) : result (option Z) :=
  match (host_info u).2 with
  | None => Ok None
  | Some text =>
      if all_chars is_digit text && Nat.leb (String.length text) 4300 then
        match first_digit text with
        | Some n => if n <=? 65535 then Ok (Some n) else Err ValueError
        | None => Err ValueError
        end
      else Err ValueError
  end.

(** [urlunsplit] of parts with a network location and no fragment. *)
Definition urlunsplit (u : SplitResult) : string :=
  let url := path u in
  let url := match url with
             | EmptyString => url
             | String c _ => if Ascii.eqb c "/" then url else String "/" url
             end in
  let url := String.append "//" (String.append (netloc u) url) in
  let url := if str_empty (scheme u) then url else String.append (scheme u) (String ":" url) in
  let url := if str_empty (query u) then url else String.append url (String "?" (query u)) in
  if str_empty (fragment u) then url else String.append url (String "#" (fragment u)).

(** ** [quote(text, safe="")] *)
Definition always_safe (c : Ascii.ascii) : bool :=
  is_alpha c || is_digit c || Ascii.eqb c "_" || Ascii.eqb c "." || Ascii.eqb c "-" || Ascii.eqb c "~".

Definition upper_hex (d : Z) : Ascii.ascii := Ascii.ascii_of_N (Z.to_N (if d <? 10 then 48 + d else 55 + d)).

Fixpoint quote (s : string) : string :=
  match s with
  | EmptyString => EmptyString
  | String c s' =>
      if always_safe c then String c (quote s')
      else String "%" (String (upper_hex (byte_code c / 16)) (String (upper_hex (byte_code c mod 16)) (quote s')))
  end.

(** ** [unquote_plus]

    [bytes.decode("utf-8", errors="replace")]: the length of the next character and
    whether it is one; what is not counts as one U+FFFD. *)
Definition continuation_in (lo hi : Z) (s : string) : bool :=
  match s with String c _ => (lo <=? byte_code c) && (byte_code c <=? hi) | EmptyString => false end.

Definition tail_text (n : nat) (s : string) : string := String.substring n (String.length s - n) s.

(** [more] continuation bytes, the first in a range of its own: how many of them are there. *)
Fixpoint continuations (more : nat) (lo hi : Z) (s : string) : nat :=
  match more, s with
  | S more', String _ s' => if continuation_in lo hi s then S (continuations more' 128 191 s') else O
  | _, _ => O
  end.

(** Continuation bytes after a leading byte, and the range of the first. *)
Definition leading (b : Z) : option (nat * Z * Z) :=
  if b <? 128 then Some (0%nat, 0, 0)
  else if (194 <=? b) && (b <=? 223) then Some (1%nat, 128, 191)
  else if b =? 224 then Some (2%nat, 160, 191)
  else if b =? 237 then Some (2%nat, 128, 159)
  else if (225 <=? b) && (b <=? 239) then Some (2%nat, 128, 191)
  else if b =? 240 then Some (3%nat, 144, 191)
  else if (241 <=? b) && (b <=? 243) then Some (3%nat, 128, 191)
  else if b =? 244 then Some (3%nat, 128, 143)
  else None.

Definition replacement : string := String "239" (String "191" (String "189" EmptyString)).

(** [skip] bytes still belong to the last character; they were copied, or dropped. *)
Fixpoint utf8_replace (skip : nat) (keep : bool) (s : string) : string :=
  match s with
  | EmptyString => EmptyString
  | String c s' =>
      match skip with
      | S skip' => if keep then String c (utf8_replace skip' keep s') else utf8_replace skip' keep s'
      | O =>
          match leading (byte_code c) with
          | None => String.append replacement (utf8_replace 0 true s')
          | Some (more, lo, hi) =>
              let found := continuations more lo hi s' in
              if Nat.eqb found more then String c (utf8_replace more true s')
              else String.append replacement (utf8_replace found false s')
          end
      end
  end.

(** [unquote_to_bytes] *)
Fixpoint unquote_bytes (s : string) : string :=
  match s with
  | String "%"%char ((String a (String b s')) as rest) =>
      match hex_value a, hex_value b with
      | Some x, Some y => String (Ascii.ascii_of_N (Z.to_N (16 * x + y))) (unquote_bytes s')
      | _, _ => String "%" (unquote_bytes rest)
      end
  | String c s' => String c (unquote_bytes s')
  | EmptyString => EmptyString
  end.

(** A run of ASCII characters is decoded on its own; [run] is the run so far. *)
Fixpoint unquote_runs (run : string) (s : string) : string :=
  match s with
  | EmptyString => utf8_replace 0 true (unquote_bytes run)
  | String c s' =>
      if is_ascii c then unquote_runs (String.append run (String c EmptyString)) s'
      else String.append (utf8_replace 0 true (unquote_bytes run)) (String c (unquote_runs EmptyString s'))
  end.

Definition unquote (s : string) : string := if has_char "%" s then unquote_runs EmptyString s else s.

Fixpoint plus_to_space (s : string) : string :=
  match s with
  | EmptyString => EmptyString
  | String c s' => String (if Ascii.eqb c "+" then " "%char else c) (plus_to_space s')
  end.

Definition unquote_plus (s : string) : string := unquote (plus_to_space s).

(** ** [parse_qsl(query, keep_blank_values=True)] *)
Definition parse_field (field : string) : string * string :=
  let '(name, value) := partition "=" field in
  (unquote_plus name, unquote_plus (default EmptyString value)).

Definition parse_qsl (query : string) : list (string * string) :=
  if str_empty query then []
  else parse_field <$> List.filter (fun s => negb (str_empty s)) (split_on "&" query).

(** ** Pieces of texts *)
Lemma chars_append a b : chars (String.append a b) = chars a ++ chars b.
Proof. induction a as [|c a IH]; [done|]. change (c :: chars (String.append a b) = c :: (chars a ++ chars b)). by rewrite IH. Qed.

Lemma all_chars_append f a b : all_chars f (String.append a b) = all_chars f a && all_chars f b.
Proof. unfold all_chars. by rewrite chars_append, forallb_app. Qed.

Lemma all_chars_cons f c s : all_chars f (String c s) = f c && all_chars f s.
Proof. done. Qed.

Lemma all_chars_impl (f g : Ascii.ascii -> bool) s :
  (forall c, f c = true -> g c = true) -> all_chars f s = true -> all_chars g s = true.
Proof.
  intros H. unfold all_chars. rewrite !forallb_forall. auto.
Qed.

Lemma partition_none c s : all_chars (fun x => negb (Ascii.eqb x c)) s = true -> partition c s = (s, None).
Proof.
  induction s as [|x s IH]; [done|]. rewrite all_chars_cons. cbn [partition].
  intros [Hx Hs]%andb_prop. apply negb_true_iff in Hx. by rewrite Hx, IH.
Qed.

Lemma partition_hit c a b :
  all_chars (fun x => negb (Ascii.eqb x c)) a = true ->
  partition c (String.append a (String c b)) = (a, Some b).
Proof.
  induction a as [|x a IH].
  - intros _. change (partition c (String c b) = (EmptyString, Some b)). cbn. by rewrite Ascii.eqb_refl.
  - rewrite all_chars_cons. intros [Hx Ha]%andb_prop. apply negb_true_iff in Hx.
    change (partition c (String x (String.append a (String c b))) = (String x a, Some b)).
    cbn [partition]. by rewrite Hx, IH.
Qed.

(** What [partition] returns is made of characters of the text. *)
Lemma partition_parts c s a b :
  partition c s = (a, b) ->
  all_chars (fun x => negb (Ascii.eqb x c)) a = true /\
  forall f, all_chars f s = true -> all_chars f a = true /\ all_chars f (default EmptyString b) = true.
Proof.
  revert a b. induction s as [|x s IH]; intros a b; cbn [partition]; [by intros [= <- <-]|].
  destruct (Ascii.eqb x c) eqn:E.
  - intros [= <- <-]. split; [done|]. intros f. rewrite all_chars_cons. by intros [_ ?]%andb_prop.
  - destruct (partition c s) as [a' b'] eqn:Ep. intros [= <- <-]. destruct (IH _ _ eq_refl) as [H1 H2].
    split; [by rewrite all_chars_cons, E|]. intros f. rewrite all_chars_cons. intros [Hx Hs]%andb_prop.
    destruct (H2 f Hs). by rewrite all_chars_cons, Hx.
Qed.

Lemma span_parts g s a b :
  span_chars g s = (a, b) ->
  all_chars g a = true /\ match b with String c _ => g c = false | EmptyString => True end /\
  forall f, all_chars f s = true -> all_chars f a = true /\ all_chars f b = true.
Proof.
  revert a b. induction s as [|x s IH]; intros a b; cbn [span_chars]; [by intros [= <- <-]|].
  destruct (g x) eqn:E.
  - destruct (span_chars g s) as [a' b'] eqn:Ep. intros [= <- <-]. destruct (IH _ _ eq_refl) as (H1 & H2 & H3).
    split; [by rewrite all_chars_cons, E|]. split; [done|]. intros f. rewrite all_chars_cons.
    intros [Hx Hs]%andb_prop. destruct (H3 f Hs). by rewrite all_chars_cons, Hx.
  - intros [= <- <-]. split; [done|]. split; [done|]. intros f Hf. done.
Qed.

Lemma span_hit g a b :
  all_chars g a = true -> match b with String c _ => g c = false | EmptyString => True end ->
  span_chars g (String.append a b) = (a, b).
Proof.
  intros Ha Hb. induction a as [|x a IH].
  - change (span_chars g b = (EmptyString, b)). destruct b as [|c b]; [done|]. cbn. by rewrite Hb.
  - rewrite all_chars_cons in Ha. apply andb_prop in Ha as [Hx Ha].
    change (span_chars g (String x (String.append a b)) = (String x a, b)). cbn [span_chars].
    by rewrite Hx, IH.
Qed.

Lemma drop_chars_all f s : all_chars (fun c => negb (f c)) (drop_chars f s) = true.
Proof.
  induction s as [|c s IH]; [done|]. cbn [drop_chars]. destruct (f c) eqn:E; [done|].
  by rewrite all_chars_cons, E.
Qed.

Lemma drop_chars_id f s : all_chars (fun c => negb (f c)) s = true -> drop_chars f s = s.
Proof.
  induction s as [|c s IH]; [done|]. rewrite all_chars_cons. intros [Hc Hs]%andb_prop.
  apply negb_true_iff in Hc. cbn [drop_chars]. by rewrite Hc, IH.
Qed.

Lemma rstrip_parts g f s : all_chars f s = true -> all_chars f (rstrip_chars g s) = true.
Proof.
  induction s as [|c s IH]; [done|]. rewrite all_chars_cons. intros [Hc Hs]%andb_prop.
  cbn [rstrip_chars]. specialize (IH Hs). destruct (str_empty _ && _); [done|].
  by rewrite all_chars_cons, Hc.
Qed.
(** ** Splitting what was put together *)
Fixpoint map_text (f : Ascii.ascii -> Ascii.ascii) (s : string) : string :=
  match s with EmptyString => EmptyString | String c s' => String (f c) (map_text f s') end.

Ltac each_char c := destruct c as [[] [] [] [] [] [] [] []].

Lemma scheme_char_ascii c : scheme_char c = true -> is_ascii c = true.
Proof. each_char c; done. Qed.

Lemma scheme_char_lower c : scheme_char c = true ->
  scheme_char (lower_ascii c) = true /\ lower_ascii (lower_ascii c) = lower_ascii c.
Proof. each_char c; done. Qed.

Lemma scheme_char_kept c : scheme_char c = true ->
  negb (Ascii.eqb c ":") = true /\ negb (removed_char c) = true /\ (byte_code c <=? 32) = false.
Proof. each_char c; done. Qed.

Lemma is_alpha_lower c : is_alpha c = true -> is_alpha (lower_ascii c) = true.
Proof. each_char c; done. Qed.

Lemma netloc_end_slash c : negb (netloc_end c) = false -> Ascii.eqb c "/" = false ->
  Ascii.eqb c "?" = true \/ Ascii.eqb c "#" = true.
Proof. unfold netloc_end. intros H%negb_false_iff Hs. rewrite Hs in H. by apply orb_true_iff in H. Qed.

Lemma py_lower_ascii s : all_chars is_ascii s = true -> py_lower s = map_text lower_ascii s.
Proof.
  assert (Ha : forall c, is_ascii c = true -> (byte_code c =? 196) = false /\ (byte_code c =? 226) = false).
  { intros c. unfold is_ascii. intros H%Z.ltb_lt. split; apply Z.eqb_neq; lia. }
  induction s as [|a s1 IH]; [done|]. rewrite all_chars_cons. intros [Hc Hs]%andb_prop.
  specialize (IH Hs). apply Ha in Hc as [H1 H2]. cbn [py_lower map_text].
  destruct s1 as [|b s2]; [done|]. rewrite H1. cbn [andb].
  destruct s2 as [|c s3]; [by rewrite IH|]. rewrite H2. cbn [andb]. by rewrite IH.
Qed.

Lemma lower_scheme s : all_chars scheme_char s = true ->
  all_chars scheme_char (py_lower s) = true /\ py_lower (py_lower s) = py_lower s.
Proof.
  intros Hs. assert (Ha : all_chars is_ascii s = true) by exact (all_chars_impl _ _ s scheme_char_ascii Hs).
  rewrite (py_lower_ascii s Ha).
  assert (H : all_chars scheme_char (map_text lower_ascii s) = true /\
              map_text lower_ascii (map_text lower_ascii s) = map_text lower_ascii s).
  { clear Ha. induction s as [|c s IH]; [done|]. rewrite all_chars_cons in Hs. apply andb_prop in Hs as [Hc Hs].
    destruct (IH Hs) as [H1 H2]. apply scheme_char_lower in Hc as [H3 H4].
    cbn [map_text]. by rewrite all_chars_cons, H1, H3, H2, H4. }
  destruct H as [H1 H2]. split; [done|].
  by rewrite py_lower_ascii by exact (all_chars_impl _ _ _ scheme_char_ascii H1).
Qed.

Definition kept_char (c : Ascii.ascii) : bool := negb (removed_char c).
Definition differs (x c : Ascii.ascii) : bool := negb (Ascii.eqb c x).
Definition starts_with_slash (s : string) : Prop :=
  match s with String c _ => Ascii.eqb c "/" = true | EmptyString => True end.

(** The parts of a URL with a scheme and a network location. *)
Record well_split (nfkc : string -> string) (u : SplitResult) : Prop := WellSplit {
  split_scheme_ok : all_chars scheme_char (scheme u) = true /\ py_lower (scheme u) = scheme u;
  split_scheme_start : match scheme u with String c _ => is_alpha c = true | EmptyString => False end;
  split_netloc_ok : all_chars (fun c => negb (netloc_end c)) (netloc u) = true;
  split_netloc_checked : netloc u <> EmptyString /\ check_netloc nfkc (netloc u) = true /\
    brackets_ok (netloc u) = true;
  split_path_start : starts_with_slash (path u);
  split_path_ok : all_chars (differs "#") (path u) = true /\ all_chars (differs "?") (path u) = true;
  split_query_ok : all_chars (differs "#") (query u) = true;
  split_kept : all_chars kept_char (netloc u) = true /\ all_chars kept_char (path u) = true /\
    all_chars kept_char (query u) = true /\ all_chars kept_char (fragment u) = true
}.

Lemma split_scheme_parts url s rest :
  split_scheme url = (s, rest) -> s <> EmptyString ->
  (all_chars scheme_char s = true /\ py_lower s = s) /\
  match s with String c _ => is_alpha c = true | EmptyString => False end /\
  forall f, all_chars f url = true -> all_chars f rest = true.
Proof.
  unfold split_scheme. destruct (partition ":" url) as [before [r|]] eqn:Ep; [|by intros [= <- <-]].
  destruct before as [|c b]; [by intros [= <- <-]|].
  destruct (is_alpha c && all_chars scheme_char (String c b)) eqn:E; [|by intros [= <- <-]].
  intros H _. apply andb_prop in E as [Hc Hs]. apply pair_equal_spec in H as [<- <-].
  destruct (lower_scheme _ Hs) as [H1 H2]. split; [done|]. split.
  - rewrite (py_lower_ascii (String c b)) by exact (all_chars_impl _ _ _ scheme_char_ascii Hs).
    by apply is_alpha_lower.
  - intros f Hf. by apply (partition_parts _ _ _ _ Ep).
Qed.

Lemma path_starts tail p q f p' :
  match tail with String c _ => negb (netloc_end c) = false | EmptyString => True end ->
  partition "#" tail = (p, f) -> partition "?" p = (p', q) -> starts_with_slash p'.
Proof.
  intros Ht Hp Hq. destruct p' as [|c p']; [done|]. cbn.
  destruct p as [|c1 p1]; [cbn in Hq; congruence|]. cbn [partition] in Hq.
  destruct (Ascii.eqb c1 "?") eqn:E1; [done|]. destruct (partition "?" p1) as [a b]. injection Hq as <- _ _.
  destruct tail as [|c2 t]; [done|]. cbn [partition] in Hp. destruct (Ascii.eqb c2 "#") eqn:E2; [done|].
  destruct (partition "#" t) as [a' b']. injection Hp as <- _ _.
  destruct (Ascii.eqb c2 "/") eqn:E3; [done|]. destruct (netloc_end_slash _ Ht E3); congruence.
Qed.

Lemma urlsplit_well_split nfkc url u :
  urlsplit nfkc url = Some u -> scheme u <> EmptyString -> netloc u <> EmptyString -> well_split nfkc u.
Proof.
  unfold urlsplit. set (cleaned := drop_chars _ _).
  assert (Hk : all_chars kept_char cleaned = true) by apply drop_chars_all.
  destruct (split_scheme cleaned) as [s rest] eqn:Es.
  assert (Hrest : forall body, after_slashes rest = Some body -> all_chars kept_char rest = true ->
    all_chars kept_char body = true).
  { intros body. unfold after_slashes. destruct rest as [|a [|b r]]; [done|done|].
    destruct (_ && _); [|done]. intros [= <-]. rewrite !all_chars_cons. by intros [_ [_ ?]%andb_prop]%andb_prop. }
  destruct (after_slashes rest) as [body|].
  2: { intros H Hs Hn. exfalso. destruct (partition "#" rest) as [p f]. destruct (partition "?" p) as [p' q].
       destruct (_ && _); [|done]. injection H as <-. done. }
  destruct (span_chars _ body) as [n tail] eqn:En. destruct (partition "#" tail) as [p f] eqn:Ep.
  destruct (partition "?" p) as [p' q] eqn:Eq. destruct (brackets_ok n && check_netloc nfkc n) eqn:Eok; [|done].
  intros [= <-] Hs Hn. cbn [scheme netloc] in Hs, Hn. apply andb_prop in Eok as [Hb Hc].
  destruct (split_scheme_parts _ _ _ Es Hs) as (Hs1 & Hs2 & Hs3).
  destruct (span_parts _ _ _ _ En) as (Hn1 & Ht & Hn2).
  destruct (partition_parts _ _ _ _ Ep) as [Hp1 Hp2]. destruct (partition_parts _ _ _ _ Eq) as [Hq1 Hq2].
  destruct (Hn2 _ (Hrest body eq_refl (Hs3 _ Hk))) as [Kn Kt].
  destruct (Hp2 _ Kt) as [Kp Kf]. destruct (Hq2 _ Kp) as [Kp' Kq]. destruct (Hq2 _ Hp1) as [Dp Dq].
  constructor; cbn; try done. by eapply path_starts.
Qed.

(** The text after the scheme, and after the path. *)
Lemma append_cons c a b : String.append (String c a) b = String c (String.append a b).
Proof. done. Qed.

Lemma split_tail u : all_chars (differs "#") (path u) = true -> all_chars (differs "?") (path u) = true ->
  all_chars (differs "#") (query u) = true ->
  let url := path u in
  let url := if str_empty (query u) then url else String.append url (String "?" (query u)) in
  let url := if str_empty (fragment u) then url else String.append url (String "#" (fragment u)) in
  exists f q, partition "#" url = (if str_empty (query u) then path u
                                   else String.append (path u) (String "?" (query u)), f) /\
    default EmptyString f = fragment u /\
    partition "?" (if str_empty (query u) then path u else String.append (path u) (String "?" (query u))) =
      (path u, q) /\ default EmptyString q = query u.
Proof.
  intros Hp1 Hp2 Hq. cbv zeta. set (url := if str_empty (query u) then _ else _).
  assert (Hurl : all_chars (differs "#") url = true).
  { subst url. destruct (str_empty (query u)); [done|]. by rewrite all_chars_append, all_chars_cons, Hp1, Hq. }
  assert (Hf : exists f, partition "#" (if str_empty (fragment u) then url
      else String.append url (String "#" (fragment u))) = (url, f) /\ default EmptyString f = fragment u).
  { destruct (fragment u) as [|c f] eqn:E; cbn [str_empty].
    - exists None. split; [by apply partition_none|done].
    - exists (Some (String c f)). split; [by apply partition_hit|done]. }
  assert (Hq' : exists q, partition "?" url = (path u, q) /\ default EmptyString q = query u).
  { subst url. destruct (query u) as [|c q] eqn:E; cbn [str_empty].
    - exists None. split; [by apply partition_none|done].
    - exists (Some (String c q)). split; [by apply partition_hit|done]. }
  destruct Hf as (f & Hf1 & Hf2), Hq' as (q & Hq1 & Hq2). by exists f, q.
Qed.

(** A URL that [urlsplit] took apart is put together and taken apart again. *)
Lemma urlsplit_urlunsplit nfkc u : well_split nfkc u -> urlsplit nfkc (urlunsplit u) = Some u.
Proof.
  intros W. pose proof (split_tail u (proj1 (split_path_ok _ _ W)) (proj2 (split_path_ok _ _ W)) (split_query_ok _ _ W))
    as Htail. cbv zeta in Htail. destruct Htail as (f & q & Hf & Hf' & Hq & Hq').
  destruct u as [s n p qu fr]. destruct W as [[Hs Hlow] Hstart Hn (Hne & Hc & Hb) Hp [Hp1 Hp2] Hq1 (Kn & Kp & Kq & Kf)].
  cbn [scheme netloc path query fragment] in *.
  set (rest := if str_empty fr then if str_empty qu then p else String.append p (String "?" qu)
               else String.append (if str_empty qu then p else String.append p (String "?" qu)) (String "#" fr)) in *.
  assert (E : urlunsplit (Split s n p qu fr) =
              String.append s (String ":" (String "/" (String "/" (String.append n rest))))).
  { unfold urlunsplit. cbn [scheme netloc path query fragment].
    assert (Hp' : match p with EmptyString => p | String c _ => if Ascii.eqb c "/" then p else String "/" p end = p).
    { destruct p as [|c p]; [done|]. cbn in Hp. by rewrite Hp. }
    rewrite Hp'. destruct s as [|c s]; [done|]. cbn [str_empty]. subst rest.
    destruct (str_empty qu), (str_empty fr); rewrite <- ?append_assoc, ?append_cons, <- ?append_assoc; done. }
  rewrite E.
  assert (Krest : all_chars kept_char rest = true).
  { subst rest. destruct (str_empty fr), (str_empty qu); rewrite ?all_chars_append, ?all_chars_cons, ?Kp, ?Kq, ?Kf; done. }
  assert (Kall : all_chars kept_char (String.append s (String ":" (String "/" (String "/" (String.append n rest))))) = true).
  { rewrite all_chars_append, !all_chars_cons, all_chars_append, Kn, Krest.
    rewrite (all_chars_impl scheme_char kept_char s); [done| |done]. intros c Hc'. by apply scheme_char_kept. }
  assert (Hstrip : lstrip_chars (fun c => byte_code c <=? 32)
      (String.append s (String ":" (String "/" (String "/" (String.append n rest))))) =
      String.append s (String ":" (String "/" (String "/" (String.append n rest))))).
  { destruct s as [|c s]; [done|]. rewrite all_chars_cons in Hs. apply andb_prop in Hs as [Hc' _].
    apply scheme_char_kept in Hc' as (_ & _ & Hc'). rewrite append_cons. cbn [lstrip_chars]. by rewrite Hc'. }
  unfold urlsplit. rewrite Hstrip, drop_chars_id by exact Kall.
  assert (Hsplit : split_scheme (String.append s (String ":" (String "/" (String "/" (String.append n rest))))) =
                   (s, String "/" (String "/" (String.append n rest)))).
  { unfold split_scheme. rewrite partition_hit.
    2: { apply (all_chars_impl scheme_char); [|done]. intros c Hc'. by apply scheme_char_kept. }
    destruct s as [|c s]; [done|]. by rewrite Hstart, Hs, Hlow. }
  rewrite Hsplit. cbn [after_slashes Ascii.eqb Bool.eqb andb].
  rewrite span_hit; [|done|].
  2: { subst rest. destruct p as [|c p]; cbn in Hp.
       - destruct (str_empty qu), (str_empty fr); done.
       - apply Ascii.eqb_eq in Hp as ->. destruct (str_empty qu), (str_empty fr); done. }
  rewrite Hf, Hq, Hb, Hc. cbn [andb]. by rewrite Hf', Hq'.
Qed.

(** ** What [quote] gives *)
Definition quoted_char (c : Ascii.ascii) : bool := always_safe c || Ascii.eqb c "%".

Lemma quoted_char_safe c : quoted_char c = true ->
  kept_char c = true /\ differs "#" c = true /\ differs "?" c = true /\ differs "/" c = true /\ is_ascii c = true.
Proof. each_char c; done. Qed.

Lemma upper_hex_quoted c :
  quoted_char (upper_hex (byte_code c / 16)) = true /\ quoted_char (upper_hex (byte_code c mod 16)) = true /\
  hex_value (upper_hex (byte_code c / 16)) = Some (byte_code c / 16) /\
  hex_value (upper_hex (byte_code c mod 16)) = Some (byte_code c mod 16).
Proof. each_char c; done. Qed.

Lemma quote_chars s : all_chars quoted_char (quote s) = true.
Proof.
  induction s as [|c s IH]; [done|]. cbn [quote]. destruct (always_safe c) eqn:E.
  - rewrite all_chars_cons, IH. unfold quoted_char. by rewrite E.
  - destruct (upper_hex_quoted c) as (H1 & H2 & _). by rewrite !all_chars_cons, H1, H2, IH.
Qed.

Lemma unquote_bytes_quote s : unquote_bytes (quote s) = s.
Proof.
  induction s as [|c s IH]; [done|]. cbn [quote]. destruct (always_safe c) eqn:E.
  - assert (Hc : Ascii.eqb c "%" = false) by (revert E; each_char c; done).
    destruct c as [[] [] [] [] [] [] [] []]; try discriminate Hc; cbn [unquote_bytes]; by rewrite IH.
  - destruct (upper_hex_quoted c) as (_ & _ & H3 & H4). cbn [unquote_bytes]. rewrite H3, H4, IH.
    f_equal. rewrite <- Z.div_mod by lia. unfold byte_code. by rewrite N2Z.id, Ascii.ascii_N_embedding.
Qed.

(** A text is well-formed UTF-8 when decoding replaces nothing of it. *)
Definition utf8_text (s : string) : Prop := utf8_replace 0 true s = s.

Lemma unquote_runs_ascii s run : all_chars is_ascii s = true ->
  unquote_runs run s = utf8_replace 0 true (unquote_bytes (String.append run s)).
Proof.
  revert run. induction s as [|c s IH]; intros run; [by rewrite append_nil|].
  rewrite all_chars_cons. intros [Hc Hs]%andb_prop. cbn [unquote_runs]. rewrite Hc, IH by done.
  by rewrite <- append_assoc.
Qed.

Lemma has_char_cons x c s : has_char x (String c s) = Ascii.eqb x c || has_char x s.
Proof. done. Qed.

Lemma quote_plain s : has_char "%" (quote s) = false -> quote s = s.
Proof.
  induction s as [|c s IH]; [done|]. cbn [quote]. destruct (always_safe c); rewrite has_char_cons.
  - intros [_ H]%orb_false_iff. by rewrite IH.
  - done.
Qed.

Lemma unquote_quote s : utf8_text s -> unquote (quote s) = s.
Proof.
  intros Hs. unfold unquote. destruct (has_char "%" (quote s)) eqn:E; [|by apply quote_plain].
  rewrite unquote_runs_ascii.
  { change (String.append EmptyString (quote s)) with (quote s). by rewrite unquote_bytes_quote. }
  apply (all_chars_impl quoted_char); [|apply quote_chars]. intros c Hc. by apply quoted_char_safe.
Qed.

Lemma starts_with_slash_rstrip f a b :
  starts_with_slash a -> starts_with_slash (String.append (rstrip_chars f a) (String "/" b)).
Proof.
  intros Ha. destruct a as [|c a]; [done|]. cbn [rstrip_chars]. destruct (str_empty _ && _); done.
Qed.

Section examples.
Definition demo_split (url : string) := urlsplit (fun s => s) url.

Example split_examples :
  (demo_split " RTMP://u:p@Host.Example:1935/live/a?x=1#f") =
  Some (Split "rtmp" "u:p@Host.Example:1935" "/live/a" "x=1" "f").
Proof. reflexivity. Qed.
Example split_parts :
  ((fun u => (username u, password u, hostname u, port u)) <$> demo_split "rtmp://u:p@[FE80::1%Eth0]:80/") =
  Some (Some "u", Some "p", Some "fe80::1%Eth0", Ok (Some 80)).
Proof. reflexivity. Qed.
Example split_refused :
  demo_split <$> ["rtmp://[1.2.3.4]/"; "rtmp://[::1/"; "rtmp://a[::1]/"; "rtmp://[::1]a/"] = replicate 4 None.
Proof. reflexivity. Qed.
Example quote_example : quote "a/b c~%" = "a%2Fb%20c~%25".
Proof. reflexivity. Qed.
Example unquote_examples :
  unquote_plus <$> ["a+b%20c"; "%zz%4"; "%C3%A9"; "%C3x%E2%82"] =
  ["a b c"; "%zz%4"; String "195" (String "169" EmptyString);
   String.append replacement (String "x" replacement)].
Proof. reflexivity. Qed.
Example query_example :
  parse_qsl "a=1&&b=%3D=+&c" = [("a", "1"); ("b", "== "); ("c", EmptyString)].
Proof. reflexivity. Qed.
End examples.

(** ** Splitting at a character *)
Lemma split_on_append sep a b :
  split_on sep (String.append a (String sep b)) = split_on sep a ++ split_on sep b.
Proof.
  induction a as [|c a IH].
  - change (split_on sep (String sep b) = [EmptyString] ++ split_on sep b). cbn [split_on].
    by rewrite Ascii.eqb_refl.
  - rewrite append_cons. cbn [split_on]. rewrite IH. destruct (Ascii.eqb c sep); [done|].
    destruct (split_on sep a) as [|p ps] eqn:E; [|done].
    exfalso. destruct a as [|x a]; [done|]. cbn [split_on] in E. destruct (Ascii.eqb x sep); [done|].
    by destruct (split_on sep a).
Qed.

Lemma split_on_plain sep s : has_char sep s = false -> split_on sep s = [s].
Proof.
  induction s as [|c s IH]; [done|]. rewrite has_char_cons. intros [Hc Hs]%orb_false_iff.
  cbn [split_on]. rewrite Ascii.eqb_sym, Hc, IH by done. done.
Qed.

Lemma split_on_join sep l x : Forall (fun s => has_char sep s = false) (x :: l) ->
  split_on sep (join_with (String sep EmptyString) (x :: l)) = x :: l.
Proof.
  revert x. induction l as [|y l IH]; intros x H; apply Forall_cons in H as [Hx H].
  - by apply split_on_plain.
  - change (split_on sep (String.append x (String sep (join_with (String sep EmptyString) (y :: l)))) = x :: y :: l).
    by rewrite split_on_append, split_on_plain, IH.
Qed.

(** [s.endswith(c)] for one character *)
Fixpoint ends_with (c : Ascii.ascii) (s : string) : bool :=
  match s with
  | EmptyString => false
  | String a EmptyString => Ascii.eqb a c
  | String _ s' => ends_with c s'
  end.
