(* ===== verification/UrlSafety.v ===== *)
(** * Secret safety of destination URLs

    [apps/control-api/destination_url_safety.py]: which URLs a user may store as the
    address of a destination. A URL of an RTMP or another scheme must carry no
    credentials; one of SRT is accepted only in the forms that are known to be
    public. The theorem gives the accepted SRT URLs as a grammar of their decoded
    query. *)

From S2P Require Import Prelude PyFloat Sha256 PyValue Uuid PyText IpAddress Url.

Definition SENSITIVE_SRT_QUERY_KEYS : list string := ["passphrase"].
Definition PUBLIC_SRT_QUERY_KEYS : list string := ["conntimeo"; "latency"; "mode"; "streamid"].

(** [ROUTING_VALUE_RE.fullmatch]: [[A-Za-z0-9._/-]{1,200}] *)
Definition routing_char (c : Ascii.ascii) : bool :=
  is_alpha c || is_digit c || Ascii.eqb c "." || Ascii.eqb c "_" || Ascii.eqb c "/" || Ascii.eqb c "-".

Definition ROUTING_VALUE_RE (s : string) : bool :=
  all_chars routing_char s && Nat.leb 1 (String.length s) && Nat.leb (String.length s) 200.

(** [s.casefold()], exact where its result has ASCII characters only: besides the
    capital letters, LATIN SMALL LETTER LONG S, KELVIN SIGN, the sharp s and the
    Latin ligatures fold to ASCII letters. *)
Definition folded2 (b c : Ascii.ascii) : option string :=
  match byte_code b, byte_code c with
  | 197, 191 => Some "s"
  | 195, 159 => Some "ss"
  | _, _ => None
  end.

Definition folded3 (b c d : Ascii.ascii) : option string :=
  match byte_code b, byte_code c, byte_code d with
  | 226, 132, 170 => Some "k"
  | 225, 186, 158 => Some "ss"
  | 239, 172, 128 => Some "ff"
  | 239, 172, 129 => Some "fi"
  | 239, 172, 130 => Some "fl"
  | 239, 172, 131 => Some "ffi"
  | 239, 172, 132 => Some "ffl"
  | 239, 172, 133 => Some "st"
  | 239, 172, 134 => Some "st"
  | _, _, _ => None
  end.

Fixpoint py_casefold (s : string) : string :=
  match s with
  | EmptyString => EmptyString
  | String b s1 =>
      let plain := String (lower_ascii b) (py_casefold s1) in
      match s1 with
      | String c s2 =>
          match folded2 b c with
          | Some t => String.append t (py_casefold s2)
          | None =>
              match s2 with
              | String d s3 =>
                  match folded3 b c d with
                  | Some t => String.append t (py_casefold s3)
                  | None => plain
                  end
              | EmptyString => plain
              end
          end
      | EmptyString => plain
      end
  end.

(** The loop of [_decode_repeated]. *)
Fixpoint decode_rounds (rounds : nat) (decoded : string) : result string :=
  match rounds with
  | O => Err DestinationUrlSafetyError
  | S rounds' =>
      let next_value := unquote_plus decoded in
      if String.eqb next_value decoded then Ok decoded else decode_rounds rounds' next_value
  end.

Definition _decode_repeated (v : string) : result string := decode_rounds 8 v.

(** One turn of the loop of [_validate_structured_streamid]. *)
Definition structured_field (fields : gmap string string) (field : string) : result (gmap string string) :=
  let '(key, rest) := partition "=" field in
  let key := py_casefold (py_strip key) in
  match rest with
  | None => Err DestinationUrlSafetyError
  | Some rest =>
      let field_value := py_strip rest in
      raise_if (str_empty key || bool_decide (is_Some (fields !! key))) DestinationUrlSafetyError ;;
      raise_if (negb (bool_decide (key ∈ ["m"; "r"]))) DestinationUrlSafetyError ;;
      Ok (<[key := field_value]> fields)
  end.

Fixpoint structured_fields (fields : gmap string string) (l : list string) : result (gmap string string) :=
  match l with
  | [] => Ok fields
  | field :: l' => fields ← structured_field fields field; structured_fields fields l'
  end.

Definition _validate_structured_streamid (v : string) : result unit :=
  fields ← structured_fields ∅ (split_on "," (tail_text 4 v));
  raise_if (negb (String.eqb (py_casefold (default EmptyString (fields !! "m"))) "publish"))
    DestinationUrlSafetyError ;;
  raise_if (negb (ROUTING_VALUE_RE (default EmptyString (fields !! "r")))) DestinationUrlSafetyError.

Definition _validate_streamid (v : string) : result unit :=
  if String.prefix "#!::" v then _validate_structured_streamid v
  else
    match partition ":" v with
    | (prefix, Some route) =>
        raise_if (negb (String.eqb (py_casefold prefix) "publish") || negb (ROUTING_VALUE_RE route))
          DestinationUrlSafetyError
    | (_, None) => Err DestinationUrlSafetyError
    end.

Definition _validate_public_query_value (key v : string) : result unit :=
  if String.eqb key "streamid" then _validate_streamid v
  else if String.eqb key "mode" then
    raise_if (negb (String.eqb (py_casefold v) "caller")) DestinationUrlSafetyError
  else if bool_decide (key ∈ ["latency"; "conntimeo"]) then
    raise_if (str_empty v || negb (all_chars is_digit v)) DestinationUrlSafetyError
  else Err DestinationUrlSafetyError.

(** One turn of the loop over the query; the keys seen so far. *)
Definition check_parameter (seen_keys : list string) (field : string * string) : result (list string) :=
  key ← _decode_repeated field.1;
  let key := py_casefold (py_strip key) in
  v ← _decode_repeated field.2;
  let v := py_strip v in
  raise_if (bool_decide (key ∈ seen_keys)) DestinationUrlSafetyError ;;
  raise_if (bool_decide (key ∈ SENSITIVE_SRT_QUERY_KEYS)) DestinationUrlSafetyError ;;
  raise_if (negb (bool_decide (key ∈ PUBLIC_SRT_QUERY_KEYS))) DestinationUrlSafetyError ;;
  _validate_public_query_value key v ;;
  Ok (key :: seen_keys).

Fixpoint check_parameters (seen_keys : list string) (fields : list (string * string)) : result unit :=
  match fields with
  | [] => Ok tt
  | field :: fields' => seen ← check_parameter seen_keys field; check_parameters seen fields'
  end.

Section safety.
Context (nfkc : string -> string).

Definition validate_destination_url_secret_safety (url : string) : result unit :=
  match urlsplit nfkc url with
  | None => Err DestinationUrlSafetyError
  | Some parsed =>
      raise_if (bool_decide (is_Some (username parsed)) || bool_decide (is_Some (password parsed)))
        DestinationUrlSafetyError ;;
      if negb (String.eqb (py_casefold (scheme parsed)) "srt") then Ok tt
      else
        raise_if (negb (bool_decide (path parsed ∈ [EmptyString; "/"]))) DestinationUrlSafetyError ;;
        raise_if (negb (str_empty (fragment parsed))) DestinationUrlSafetyError ;;
        check_parameters [] (parse_qsl (query parsed))
  end.

(** ** What is accepted

    A text in which nothing is left to decode, after less than eight rounds. *)
Definition decodes_to (v d : string) : Prop :=
  exists n, (n < 8)%nat /\ Nat.iter n unquote_plus v = d /\ unquote_plus d = d.

Definition routing (s : string) : Prop :=
  (1 <= String.length s <= 200)%nat /\ Forall (fun c => routing_char c = true) (chars s).

(** The pairs of a structured stream id. *)
Definition structured_pair (field : string) (p : string * string) : Prop :=
  exists name text, partition "=" field = (name, Some text) /\
    p = (py_casefold (py_strip name), py_strip text).

(** [publish:<route>], or [#!::m=publish,r=<route>] in either order. *)
Inductive public_streamid (v : string) : Prop :=
| public_plain prefix route :
    String.prefix "#!::" v = false -> partition ":" v = (prefix, Some route) ->
    py_casefold prefix = "publish" -> routing route -> public_streamid v
| public_structured pairs m r :
    String.prefix "#!::" v = true -> Forall2 structured_pair (split_on "," (tail_text 4 v)) pairs ->
    pairs ≡ₚ [("m", m); ("r", r)] -> py_casefold m = "publish" -> routing r -> public_streamid v.

Inductive public_parameter : string -> string -> Prop :=
| public_id v : public_streamid v -> public_parameter "streamid" v
| public_mode v : py_casefold v = "caller" -> public_parameter "mode" v
| public_number k v :
    k ∈ ["latency"; "conntimeo"] -> v <> EmptyString -> Forall (fun c => is_digit c = true) (chars v) ->
    public_parameter k v.

(** A field of the query and the parameter it stands for. *)
Definition decoded_parameter (field p : string * string) : Prop :=
  exists k v, decodes_to field.1 k /\ decodes_to field.2 v /\
    p = (py_casefold (py_strip k), py_strip v).

Definition public_srt (u : SplitResult) : Prop :=
  path u ∈ [EmptyString; "/"] /\ fragment u = EmptyString /\
  exists ps, Forall2 decoded_parameter (parse_qsl (query u)) ps /\ NoDup ps.*1 /\
    Forall (fun p => public_parameter p.1 p.2) ps.

(** ** The checks, one by one *)
Lemma iter_fixed {A} (f : A -> A) a n : f a = a -> Nat.iter n f a = a.
Proof. clear nfkc. intros H. induction n as [|n IH]; [done|]. by rewrite Nat.iter_succ, IH. Qed.

Lemma decode_rounds_ok n v d :
  decode_rounds n v = Ok d <-> exists k, (k < n)%nat /\ Nat.iter k unquote_plus v = d /\ unquote_plus d = d.
Proof.
  clear nfkc. revert v. induction n as [|n IH]; intros v; cbn [decode_rounds].
  - split; [done|]. intros (k & Hk & _). lia.
  - destruct (String.eqb_spec (unquote_plus v) v) as [E|E].
    + split; [intros [= <-]; exists 0%nat; split; [lia|done]|]. intros (k & _ & Hk & _). f_equal.
      by rewrite <- Hk, iter_fixed.
    + rewrite IH. split; intros (k & Hk & H & Hd).
      * exists (S k). split; [lia|]. split; [|done]. by rewrite Nat.iter_succ_r.
      * destruct k as [|k]; [cbn in H; congruence|]. exists k. split; [lia|]. split; [|done].
        by rewrite <- Nat.iter_succ_r.
Qed.

Lemma decode_repeated_ok v d : _decode_repeated v = Ok d <-> decodes_to v d.
Proof. clear nfkc. apply decode_rounds_ok. Qed.

Lemma routing_ok s : ROUTING_VALUE_RE s = true <-> routing s.
Proof.
  clear nfkc. unfold ROUTING_VALUE_RE, routing, all_chars. rewrite !andb_true_iff, !Nat.leb_le.
  rewrite Forall_forall, forallb_forall. setoid_rewrite list_elem_of_In. tauto.
Qed.

Lemma digits_ok v : str_empty v || negb (all_chars is_digit v) = false <->
  v <> EmptyString /\ Forall (fun c => is_digit c = true) (chars v).
Proof.
  clear nfkc. rewrite orb_false_iff, negb_false_iff, str_empty_false. unfold all_chars.
  rewrite Forall_forall, forallb_forall. setoid_rewrite list_elem_of_In. tauto.
Qed.

Lemma structured_field_ok fields field fields' :
  structured_field fields field = Ok fields' <->
  exists p, structured_pair field p /\ p.1 ∈ ["m"; "r"] /\ fields !! p.1 = None /\
    fields' = <[p.1 := p.2]> fields.
Proof.
  clear nfkc. unfold structured_field, structured_pair.
  destruct (partition "=" field) as [name [text|]]; [|split; [done|intros (p & (? & ? & ? & _) & _); congruence]].
  set (key := py_casefold (py_strip name)). split.
  - intros (? & [Hk Hf]%raise_if_ok%orb_false_iff & H)%result_bind_ok.
    apply result_bind_ok in H as (? & H%raise_if_ok%negb_false_iff & [= <-]).
    apply bool_decide_eq_true in H. apply bool_decide_eq_false in Hf. exists (key, py_strip text).
    split; [eauto|]. split; [done|]. split; [by apply eq_None_not_Some|done].
  - intros (p & (? & ? & [= <- <-] & ->) & Hin & Hnone & ->). cbn [fst snd] in *. fold key in Hin, Hnone |- *.
    rewrite (bool_decide_eq_false_2 (is_Some _)) by (rewrite Hnone; by intros []).
    assert (str_empty key = false) as ->.
    { apply str_empty_false. intros ->. by repeat apply elem_of_cons in Hin as [?|Hin]; [..|apply elem_of_nil in Hin]. }
    rewrite (bool_decide_eq_true_2 _ Hin). done.
Qed.

Lemma structured_fields_ok l fields fields' :
  structured_fields fields l = Ok fields' <->
  exists pairs, Forall2 structured_pair l pairs /\ Forall (fun p => p.1 ∈ ["m"; "r"]) pairs /\
    NoDup pairs.*1 /\ Forall (fun p => fields !! p.1 = None) pairs /\
    fields' = list_to_map pairs ∪ fields.
Proof.
  clear nfkc. revert fields. induction l as [|field l IH]; intros fields; cbn [structured_fields].
  - split.
    + intros [= <-]. exists []. cbn. rewrite (left_id_L ∅ (∪)).
      split; [by constructor|]. split; [by constructor|]. split; [by constructor|]. split; [by constructor|done].
    + intros (pairs & ->%Forall2_nil_inv_l & _ & _ & _ & ->). cbn. by rewrite (left_id_L ∅ (∪)).
  - split.
    + intros (f1 & (p & Hp & Hin & Hnone & ->)%structured_field_ok & H)%result_bind_ok.
      apply IH in H as (pairs & H2 & Hins & Hnd & Hn & ->). exists (p :: pairs).
      split; [by constructor|]. split; [by constructor|].
      assert (Hfresh : Forall (fun q => q.1 <> p.1 /\ fields !! q.1 = None) pairs).
      { apply (Forall_impl _ _ _ Hn). intros q Hq. by apply lookup_insert_None in Hq as [? ?]. }
      split.
      { cbn. constructor; [|done]. rewrite list_elem_of_fmap. intros (q & Hq & Hqs).
        rewrite Forall_forall in Hfresh. destruct (Hfresh q Hqs). congruence. }
      split; [constructor; [done|]; apply (Forall_impl _ _ _ Hfresh); tauto|].
      cbn. apply map_eq. intros k. rewrite !lookup_union. destruct (decide (k = p.1)) as [->|Hk].
      * rewrite !lookup_insert_eq. replace ((list_to_map pairs : gmap string string) !! p.1) with (@None string).
        { by destruct (fields !! _). }
        symmetry. apply not_elem_of_list_to_map. rewrite list_elem_of_fmap. intros (q & Hq & Hqs).
        rewrite Forall_forall in Hfresh. destruct (Hfresh q Hqs). congruence.
      * by rewrite !lookup_insert_ne.
    + intros (pairs & H2 & Hins & Hnd & Hn & ->).
      apply Forall2_cons_inv_l in H2 as (p & pairs' & Hp & H2 & ->).
      apply Forall_cons in Hins as [Hin Hins]. apply Forall_cons in Hn as [Hnone Hn].
      cbn in Hnd. apply NoDup_cons in Hnd as [Hnew Hnd].
      assert (E : structured_field fields field = Ok (<[p.1 := p.2]> fields))
        by (apply structured_field_ok; eauto).
      rewrite E. cbn [mbind result_bind]. apply IH. exists pairs'.
      split; [done|]. split; [done|]. split; [done|]. split.
      * rewrite Forall_forall in Hn |- *. intros q Hq. rewrite lookup_insert_None. split; [by apply Hn|].
        intros E1. apply Hnew. rewrite E1. apply list_elem_of_fmap. eauto.
      * cbn. apply map_eq. intros k. rewrite !lookup_union. destruct (decide (k = p.1)) as [->|Hk].
        -- rewrite !lookup_insert_eq. rewrite (not_elem_of_list_to_map_1 pairs' p.1) by done.
           by destruct (fields !! _).
        -- by rewrite !lookup_insert_ne.
Qed.

Lemma pairs_shape (pairs : list (string * string)) m r :
  Forall (fun p => p.1 ∈ ["m"; "r"]) pairs -> NoDup pairs.*1 ->
  (list_to_map pairs : gmap string string) !! "m" = Some m ->
  (list_to_map pairs : gmap string string) !! "r" = Some r ->
  pairs ≡ₚ [("m", m); ("r", r)].
Proof.
  clear nfkc. intros Hins Hnd Hm Hr. apply NoDup_Permutation.
  - by apply NoDup_fmap_1 in Hnd.
  - apply NoDup_cons. split; [|apply NoDup_singleton]. rewrite list_elem_of_singleton. congruence.
  - intros [k v]. rewrite !elem_of_cons. rewrite (elem_of_list_to_map (M:=gmap string)) by done.
    split.
    + intros H. assert (Hk : k ∈ ["m"; "r"]).
      { rewrite Forall_forall in Hins. apply (Hins (k, v)). by apply elem_of_list_to_map_2 in H. }
      apply elem_of_cons in Hk as [->|Hk]; [left; congruence|].
      apply list_elem_of_singleton in Hk as ->. right. left. congruence.
    + intros [[= -> ->]|[[= -> ->]|H]]; [done|done|by apply elem_of_nil in H].
Qed.

Lemma default_some (f : string -> bool) (o : option string) :
  f EmptyString = false -> f (default EmptyString o) = true -> exists s, o = Some s /\ f s = true.
Proof. clear nfkc. intros H0 H. destruct o as [s|]; cbn in H; [eauto|congruence]. Qed.

Lemma structured_streamid_ok v :
  _validate_structured_streamid v = Ok tt <->
  exists pairs m r, Forall2 structured_pair (split_on "," (tail_text 4 v)) pairs /\
    pairs ≡ₚ [("m", m); ("r", r)] /\ py_casefold m = "publish" /\ routing r.
Proof.
  clear nfkc. unfold _validate_structured_streamid. split.
  - intros (fields & (pairs & H2 & Hins & Hnd & _ & ->)%structured_fields_ok & H)%result_bind_ok.
    rewrite (right_id_L ∅ (∪)) in H.
    apply result_bind_ok in H as (? & Hm%raise_if_ok%negb_false_iff & Hr%raise_if_ok%negb_false_iff).
    apply (default_some (fun s => String.eqb (py_casefold s) "publish")) in Hm as (m & Hm & Em); [|done].
    apply default_some in Hr as (r & Hr & Er); [|done].
    exists pairs, m, r. split; [done|]. split; [by apply pairs_shape|].
    split; [by apply String.eqb_eq|by apply routing_ok].
  - intros (pairs & m & r & H2 & Hp & Hm & Hr).
    assert (Hnd : NoDup pairs.*1).
    { rewrite Hp. cbn. apply NoDup_cons. split; [|apply NoDup_singleton].
      rewrite list_elem_of_singleton. done. }
    assert (E : structured_fields ∅ (split_on "," (tail_text 4 v)) = Ok (list_to_map pairs)).
    { apply structured_fields_ok. exists pairs. split; [done|]. split.
      { rewrite Hp. repeat apply Forall_cons_2; [apply list_elem_of_here|
          apply list_elem_of_further, list_elem_of_here|apply Forall_nil_2]. }
      split; [done|]. split; [|by rewrite (right_id_L ∅ (∪))].
      apply Forall_forall. intros q _. apply lookup_empty. }
    rewrite E. cbn [mbind result_bind].
    assert (Em : (list_to_map pairs : gmap string string) !! "m" = Some m).
    { apply elem_of_list_to_map; [done|]. rewrite Hp. apply list_elem_of_here. }
    assert (Er : (list_to_map pairs : gmap string string) !! "r" = Some r).
    { apply elem_of_list_to_map; [done|]. rewrite Hp. apply list_elem_of_further, list_elem_of_here. }
    rewrite Em, Er. change (default EmptyString (Some m)) with m.
    change (default EmptyString (Some r)) with r. by rewrite Hm, (proj2 (routing_ok r) Hr).
Qed.

Lemma streamid_ok v : _validate_streamid v = Ok tt <-> public_streamid v.
Proof.
  clear nfkc. unfold _validate_streamid. destruct (String.prefix "#!::" v) eqn:Hpre.
  - rewrite structured_streamid_ok. split.
    + intros (pairs & m & r & H & Hp & Hm & Hr). by eapply public_structured.
    + intros [? ? E| pairs m r _ H Hp Hm Hr]; [congruence|]. by exists pairs, m, r.
  - destruct (partition ":" v) as [prefix [route|]] eqn:Hpart.
    + rewrite raise_if_ok, orb_false_iff, !negb_false_iff, String.eqb_eq, routing_ok. split.
      * intros [Hp Hr]. by eapply public_plain.
      * intros [p r _ E Hp Hr|]; [|congruence]. rewrite Hpart in E. by injection E as <- <-.
    + split; [done|]. intros [p r _ E|]; congruence.
Qed.

Lemma public_value_ok k v : k ∈ PUBLIC_SRT_QUERY_KEYS ->
  _validate_public_query_value k v = Ok tt <-> public_parameter k v.
Proof.
  clear nfkc. intros Hk. unfold _validate_public_query_value.
  destruct (String.eqb_spec k "streamid") as [->|H1].
  { rewrite streamid_ok. split; [by constructor|]. intros H. inversion H as [? Hs| |? ? Hin]; [done|].
    exfalso. by do 2 (apply elem_of_cons in Hin as [?|Hin]; [done|]); apply elem_of_nil in Hin. }
  destruct (String.eqb_spec k "mode") as [->|H2].
  { rewrite raise_if_ok, negb_false_iff, String.eqb_eq. split; [by constructor|].
    intros H. inversion H as [|? Hs|? ? Hin]; [done|].
    exfalso. by do 2 (apply elem_of_cons in Hin as [?|Hin]; [done|]); apply elem_of_nil in Hin. }
  assert (Hin : k ∈ ["latency"; "conntimeo"]).
  { do 4 (apply elem_of_cons in Hk as [->|Hk]; [first [done|set_solver]|]). by apply elem_of_nil in Hk. }
  rewrite (bool_decide_eq_true_2 _ Hin), raise_if_ok, digits_ok. split.
  - intros [? ?]. by constructor.
  - intros H. by inversion H.
Qed.

Lemma check_parameter_ok seen field seen' :
  check_parameter seen field = Ok seen' <->
  exists p, decoded_parameter field p /\ p.1 ∉ seen /\ public_parameter p.1 p.2 /\ seen' = p.1 :: seen.
Proof.
  clear nfkc. unfold check_parameter. split.
  - intros (k & Hk%decode_repeated_ok & (v & Hv%decode_repeated_ok & H)%result_bind_ok)%result_bind_ok.
    apply result_bind_ok in H as (? & Hseen%raise_if_ok%bool_decide_eq_false & H).
    apply result_bind_ok in H as (? & _ & H).
    apply result_bind_ok in H as (? & Hpub%raise_if_ok%negb_false_iff%bool_decide_eq_true & H).
    apply result_bind_ok in H as ([] & Hval & [= <-]). apply public_value_ok in Hval; [|done].
    exists (py_casefold (py_strip k), py_strip v). split; [by exists k, v|]. done.
  - intros (p & (k & v & Hk & Hv & ->) & Hseen & Hpar & ->). cbn [fst snd] in *.
    rewrite (proj2 (decode_repeated_ok _ _) Hk), (proj2 (decode_repeated_ok _ _) Hv).
    cbn [mbind result_bind].
    assert (Hpub : py_casefold (py_strip k) ∈ PUBLIC_SRT_QUERY_KEYS).
    { destruct Hpar as [| |k' ? Hin]; [set_solver|set_solver|]. unfold PUBLIC_SRT_QUERY_KEYS. set_solver. }
    rewrite (bool_decide_eq_false_2 (_ ∈ seen)), (bool_decide_eq_true_2 (_ ∈ PUBLIC_SRT_QUERY_KEYS)) by done.
    rewrite (bool_decide_eq_false_2 (_ ∈ SENSITIVE_SRT_QUERY_KEYS)).
    2: { intros E%list_elem_of_singleton. rewrite E in Hpub.
         do 4 (apply elem_of_cons in Hpub as [?|Hpub]; [done|]). by apply elem_of_nil in Hpub. }
    cbn. by rewrite (proj2 (public_value_ok _ _ Hpub) Hpar).
Qed.

Lemma check_parameters_ok seen fields :
  check_parameters seen fields = Ok tt <->
  exists ps, Forall2 decoded_parameter fields ps /\ NoDup ps.*1 /\
    Forall (fun p => p.1 ∉ seen /\ public_parameter p.1 p.2) ps.
Proof.
  clear nfkc. revert seen. induction fields as [|field fields IH]; intros seen; cbn [check_parameters].
  - split; [|done]. intros _. exists []. split; [by constructor|]. split; by constructor.
  - split.
    + intros (seen1 & (p & Hp & Hseen & Hpub & ->)%check_parameter_ok & H)%result_bind_ok.
      apply IH in H as (ps & H2 & Hnd & Hall). exists (p :: ps). split; [by constructor|].
      split.
      * cbn. constructor; [|done]. rewrite list_elem_of_fmap. intros (q & E & Hq).
        rewrite Forall_forall in Hall. destruct (Hall q Hq) as [Hn _]. apply Hn. rewrite E. apply list_elem_of_here.
      * constructor; [done|]. apply (Forall_impl _ _ _ Hall). intros q [Hn ?]. split; [|done].
        intros Hq. by apply Hn, list_elem_of_further.
    + intros (ps & H2 & Hnd & Hall). apply Forall2_cons_inv_l in H2 as (p & ps' & Hp & H2 & ->).
      apply Forall_cons in Hall as [[Hseen Hpub] Hall]. cbn in Hnd. apply NoDup_cons in Hnd as [Hnew Hnd].
      assert (E : check_parameter seen field = Ok (p.1 :: seen)) by (apply check_parameter_ok; eauto).
      rewrite E. cbn [mbind result_bind]. apply IH. exists ps'. split; [done|]. split; [done|].
      rewrite Forall_forall in Hall |- *. intros q Hq. destruct (Hall q Hq). split; [|done].
      intros [Eq|?]%elem_of_cons; [|done]. apply Hnew. rewrite <- Eq. apply list_elem_of_fmap. eauto.
Qed.

(** Exactly the URLs without credentials are accepted and, of those of SRT, exactly
    the ones with no path, no fragment and a query that decodes, each field in less
    than eight rounds and with nothing left to decode, to distinct parameters of the
    public grammar: a stream id that publishes to a route, caller mode, and decimal
    latencies. So no parameter of an accepted SRT URL can carry a passphrase or any
    other secret, however it was encoded. *)
Theorem accepted_destination_urls (url : string) :
  validate_destination_url_secret_safety url = Ok tt <->
  exists u, urlsplit nfkc url = Some u /\ username u = None /\ password u = None /\
    (py_casefold (scheme u) = "srt" -> public_srt u).
Proof.
  unfold validate_destination_url_secret_safety. destruct (urlsplit nfkc url) as [u|].
  2: { split; [done|]. by intros (u & ? & _). }
  split.
  - intros (? & [Hu Hp]%raise_if_ok%orb_false_iff & H)%result_bind_ok. exists u. split; [done|].
    apply bool_decide_eq_false, eq_None_not_Some in Hu, Hp. split; [done|]. split; [done|].
    intros E%String.eqb_eq. rewrite E in H. cbn in H.
    apply result_bind_ok in H as (? & Hpath%raise_if_ok%negb_false_iff%bool_decide_eq_true & H).
    apply result_bind_ok in H as (? & Hf%raise_if_ok%negb_false_iff & H).
    apply check_parameters_ok in H as (ps & H2 & Hnd & Hall).
    split; [done|]. split; [by destruct (fragment u)|]. exists ps. split; [done|]. split; [done|].
    apply (Forall_impl _ _ _ Hall). tauto.
  - intros (u' & [= <-] & Hu & Hp & Hsrt). rewrite Hu, Hp. cbn.
    destruct (String.eqb_spec (py_casefold (scheme u)) "srt") as [E|]; [|done]. cbn.
    destruct (Hsrt E) as (Hpath & Hf & ps & H2 & Hnd & Hall).
    rewrite (bool_decide_eq_true_2 _ Hpath), Hf. cbn. apply check_parameters_ok.
    exists ps. split; [done|]. split; [done|]. apply (Forall_impl _ _ _ Hall). split; [|done].
    by intros ?%elem_of_nil.
Qed.
End safety.

Section examples.
Definition demo_check (url : string) : bool :=
  is_ok (validate_destination_url_secret_safety (fun s => s) url).

Example accepted_examples :
  demo_check <$> ["rtmp://live.example/app"; "srt://h:9?streamid=publish:live/x"; "SRT://h:9";
    "srt://h:9/?Mode=caller&latency=120&streamid=%23!::r=a,m=publish"] = replicate 4 true.
Proof. vm_compute. reflexivity. Qed.
Example refused_examples :
  demo_check <$> ["rtmp://u:p@live.example/app"; "srt://h:9?passphrase=x"; "srt://h:9?pass%2570hrase=x";
    "srt://h:9?streamid=publish:live:user:secret"; "srt://h:9?latency=1&latency=2"; "srt://h:9/x";
    "srt://h:9?streamid=#!::m=publish,r=a,u=b"] = replicate 7 false.
Proof. vm_compute. reflexivity. Qed.
End examples.
