(* ===== verification/EgressDestination.v ===== *)
(** * The publish URL of a destination

    [apps/control-api/egress_destination.py]: the URL of a destination and its stream
    key become the one-time URL that a Node publishes to. The theorem is that the
    key can only ever be the last segment of the path, whatever it contains. *)

From S2P Require Import Prelude PyFloat Sha256 PyValue Uuid PyText IpAddress Url.

(** [pat in s] and [s.replace(pat, by)] for a pattern that is not empty. *)
Fixpoint contains (pat s : string) : bool :=
  String.prefix pat s || match s with EmptyString => false | String _ s' => contains pat s' end.

Fixpoint replace_from (pat by_ : string) (skip : nat) (s : string) : string :=
  match s with
  | EmptyString => EmptyString
  | String c s' =>
      match skip with
      | S skip' => replace_from pat by_ skip' s'
      | O => if String.prefix pat s
             then String.append by_ (replace_from pat by_ (String.length pat - 1) s')
             else String c (replace_from pat by_ 0 s')
      end
  end.

Definition py_replace (pat by_ s : string) : string := replace_from pat by_ 0 s.

Definition PLACEHOLDER : string := "{stream_key}".
Definition is_slash (c : Ascii.ascii) : bool := Ascii.eqb c "/".

Section build.
Context (nfkc : string -> string).

(** [str(destination.get(...))] of what is no string is never the name of a protocol,
    and never has a scheme: [name_text] may stand for it. [urlsplit] may raise a
    [ValueError], which is not caught. *)
Definition build_egress_url (destination : dict) (stream_key : string) : result string :=
  raise_if (str_empty stream_key) EgressDestinationError ;;
  let destination_type := py_lower (name_text (py_get_or destination "type" (VStr EmptyString))) in
  raise_if (negb (bool_decide (destination_type ∈ ["rtmp"; "rtmps"]))) EgressDestinationError ;;
  let server_url := py_strip (name_text (py_get_or destination "server_url" (VStr EmptyString))) in
  match urlsplit nfkc server_url with
  | None => Err ValueError
  | Some parsed =>
      let scheme := py_lower (Url.scheme parsed) in
      raise_if (negb (bool_decide (scheme ∈ ["rtmp"; "rtmps"])) ||
                negb (bool_decide (is_Some (hostname parsed)))) EgressDestinationError ;;
      raise_if (negb (String.eqb scheme destination_type)) EgressDestinationError ;;
      raise_if (bool_decide (is_Some (username parsed)) || bool_decide (is_Some (password parsed)))
        EgressDestinationError ;;
      raise_if (negb (str_empty (fragment parsed))) EgressDestinationError ;;
      let encoded := quote stream_key in
      if contains PLACEHOLDER server_url then Ok (py_replace PLACEHOLDER encoded server_url)
      else
        let path := String.append (rstrip_chars is_slash (path parsed)) (String "/" encoded) in
        Ok (urlunsplit (Split (Url.scheme parsed) (netloc parsed) path (query parsed) EmptyString))
  end.

(** Where the stream key ends up. When a URL is built from a server URL without a
    placeholder, taking it apart gives back the protocol, the network location and
    the query of the server URL, no fragment, and the path of the server URL with one
    more segment, which is the encoded key: nothing in the key can change where the
    stream goes, and decoding that segment gives the key back. *)
Theorem stream_key_is_the_last_segment destination key url server :
  build_egress_url destination key = Ok url -> utf8_text key ->
  py_strip (name_text (py_get_or destination "server_url" (VStr EmptyString))) = server ->
  contains PLACEHOLDER server = false ->
  exists u segment, urlsplit nfkc server = Some u /\
    urlsplit nfkc url = Some (Split (scheme u) (netloc u)
      (String.append (rstrip_chars is_slash (path u)) (String "/" segment)) (query u) EmptyString) /\
    scheme u ∈ ["rtmp"; "rtmps"] /\ username u = None /\ password u = None /\ is_Some (hostname u) /\
    segment <> EmptyString /\ all_chars (fun c => negb (netloc_end c)) segment = true /\
    unquote segment = key.
Proof.
  intros H Hkey <- Hplain. unfold build_egress_url in H.
  apply result_bind_ok in H as (? & Hne%raise_if_ok & H). apply result_bind_ok in H as (? & _ & H).
  destruct (urlsplit nfkc _) as [u|] eqn:Hu; [|done].
  apply result_bind_ok in H as (? & [Hs Hh]%raise_if_ok%orb_false_iff & H).
  apply negb_false_iff, bool_decide_eq_true in Hs, Hh.
  apply result_bind_ok in H as (? & _ & H).
  apply result_bind_ok in H as (? & [Hn Hp]%raise_if_ok%orb_false_iff & H).
  apply bool_decide_eq_false, eq_None_not_Some in Hn, Hp.
  apply result_bind_ok in H as (? & Hf%raise_if_ok%negb_false_iff & H).
  rewrite Hplain in H. injection H as <-.
  assert (W : well_split nfkc u).
  { apply (urlsplit_well_split _ _ _ Hu).
    - intros E. rewrite E in Hs. by do 2 (apply elem_of_cons in Hs as [?|Hs]; [done|]); apply elem_of_nil in Hs.
    - intros E. destruct Hh as [h Hh]. unfold hostname, host_info, host_part in Hh. by rewrite E in Hh. }
  assert (Hq : forall f, (forall c, quoted_char c = true -> f c = true) -> all_chars f (quote key) = true).
  { intros f Hf'. apply (all_chars_impl quoted_char); [done|apply quote_chars]. }
  exists u, (quote key). split; [done|]. split.
  - apply urlsplit_urlunsplit. destruct W as [Hsc Hst Hnl Hnc Hps [Hp1 Hp2] Hqo (Kn & Kp & Kq & _)].
    constructor; cbn [scheme netloc path query fragment]; try done; [by apply starts_with_slash_rstrip| |].
    + rewrite !all_chars_append, !all_chars_cons, !(rstrip_parts is_slash) by done.
      split; apply Hq; intros c Hc; by apply quoted_char_safe.
    + rewrite all_chars_append, all_chars_cons, (rstrip_parts is_slash) by done.
      split; [done|]. split; [|done]. apply Hq. intros c Hc. by apply quoted_char_safe.
  - rewrite (proj2 (split_scheme_ok _ _ W)) in Hs. split; [done|]. split; [done|]. split; [done|]. split; [done|].
    split; [|split; [|by apply unquote_quote]].
    + destruct key as [|c k]; [done|]. cbn [quote]. by destruct (always_safe c).
    + apply Hq. intros c (_ & H2 & H3 & H4 & _)%quoted_char_safe. unfold differs in *.
      unfold netloc_end. by rewrite !negb_orb, H4, H3, H2.
Qed.
End build.

Section examples.
Definition demo_destination : dict :=
  {[ "type" := VStr "RTMP"; "server_url" := VStr "rtmp://live.example:1935/app/?x=1" ]}.

Lemma stream_key_is_the_last_segment_witness :
  exists u segment, urlsplit (fun s => s) "rtmp://live.example:1935/app/?x=1" = Some u /\
    urlsplit (fun s => s) "rtmp://live.example:1935/app/a%2F..%3Fb%40c?x=1" = Some (Split (scheme u) (netloc u)
      (String.append (rstrip_chars is_slash (path u)) (String "/" segment)) (query u) EmptyString) /\
    unquote segment = "a/..?b@c".
Proof.
  destruct (stream_key_is_the_last_segment (fun s => s) demo_destination "a/..?b@c"
    "rtmp://live.example:1935/app/a%2F..%3Fb%40c?x=1" "rtmp://live.example:1935/app/?x=1")
    as (u & segment & H1 & H2 & _ & _ & _ & _ & _ & _ & H3); [vm_compute; reflexivity..|].
  exists u, segment. split; [exact H1|]. split; [exact H2|exact H3].
Defined.

Example placeholder_example :
  build_egress_url (fun s => s) (<["server_url" := VStr " rtmp://h/{stream_key}/x "]> demo_destination) "a b" =
  Ok "rtmp://h/a%20b/x".
Proof. vm_compute. reflexivity. Qed.
End examples.
