(* ===== verification/DestinationGuard.v ===== *)
(** * The runtime guard of an egress destination

    [apps/egress-gateway/destination_guard.py]: before every attempt to publish, the
    name of the destination is resolved again; the attempt goes on only if every
    answer is a public address and the address seen when the destination was verified
    is still among them.

    The operating system is a transcript of the calls on the metadata file, and the
    resolver is a function: an answer is the list of the addresses in it. *)

From S2P Require Import Prelude PyFloat Sha256 PyValue Uuid PyText IpAddress Url.

Definition MAX_VERIFIED_PEER_FILE_BYTES : Z := 4 * 1024.

Definition guard_invalid : exn := DestinationGuardError "DESTINATION_GUARD_INVALID" true.
Definition destination_unsafe : exn := DestinationGuardError "DESTINATION_UNSAFE" true.
Definition dns_failed : exn := DestinationGuardError "DNS_FAILED" false.
Definition dns_changed : exn := DestinationGuardError "DESTINATION_DNS_CHANGED" true.

Record DestinationResolution : Type := Resolution {
  res_host : string; res_port : Z; res_addresses : list string
}.

(** ** The metadata file *)

(** What a call on the file returns; a missing file apart from the other errors. *)
Inductive sys (A : Type) : Type :=
| Done (a : A)
| FileNotFound
| OsFailure.
Arguments Done {_} _.
Arguments FileNotFound {_}.
Arguments OsFailure {_}.

Record metadata : Type := Metadata {
  st_regular : bool; st_dev : Z; st_ino : Z; st_size : Z; st_mtime_ns : Z; st_ctime_ns : Z
}.

(** The answers to [stat], [open], the two [fstat], and the [n]-th [read] of [size]
    bytes. *)
Record peer_file : Type := PeerFile {
  on_stat : sys metadata;
  on_open : sys unit;
  on_fstat : sys metadata;
  on_read : nat -> Z -> sys string;
  on_fstat_after : sys metadata
}.

Definition _metadata_snapshot (m : metadata) : Z * Z * Z * Z * Z :=
  (st_dev m, st_ino m, st_size m, st_mtime_ns m, st_ctime_ns m).

Definition os_call {A} (r : sys A) : result A :=
  match r with Done a => Ok a | FileNotFound => Err FileNotFoundError | OsFailure => Err OSError end.

Definition byte_length (s : string) : Z := Z.of_nat (String.length s).

(** The loop of reads, [n] of them done. A chunk that is not empty makes the payload
    longer, so that one turn more than the limit has bytes is enough. *)
Fixpoint read_chunks (f : peer_file) (fuel n : nat) (payload : string) : result string :=
  match fuel with
  | O => Ok payload
  | S fuel' =>
      if byte_length payload <=? MAX_VERIFIED_PEER_FILE_BYTES then
        chunk ← os_call (on_read f n (Z.min 1024 (MAX_VERIFIED_PEER_FILE_BYTES + 1 - byte_length payload)));
        if str_empty chunk then Ok payload else read_chunks f fuel' (S n) (String.append payload chunk)
      else Ok payload
  end.

Definition read_fuel : nat := S (S (Z.to_nat MAX_VERIFIED_PEER_FILE_BYTES)).

Definition utf8_valid (s : string) : bool := String.eqb (utf8_replace 0 true s) s.

Definition same_snapshot (a b : metadata) : bool := bool_decide (_metadata_snapshot a = _metadata_snapshot b).

(** A file that disappears between [stat] and [open] is reported as invalid. *)
Definition _read_verified_peer_text (f : peer_file) : result string :=
  inspected ← os_call (on_stat f);
  raise_if (negb (st_regular inspected)) guard_invalid ;;
  raise_if (MAX_VERIFIED_PEER_FILE_BYTES <? st_size inspected) guard_invalid ;;
  match on_open f with FileNotFound => Err guard_invalid | r => os_call r end ;;
  opened ← os_call (on_fstat f);
  raise_if (negb (st_regular opened)) guard_invalid ;;
  raise_if (negb (same_snapshot opened inspected)) guard_invalid ;;
  raise_if (MAX_VERIFIED_PEER_FILE_BYTES <? st_size opened) guard_invalid ;;
  payload ← read_chunks f read_fuel 0 EmptyString;
  raise_if (MAX_VERIFIED_PEER_FILE_BYTES <? byte_length payload) guard_invalid ;;
  after_read ← os_call (on_fstat_after f);
  raise_if (negb (same_snapshot after_read opened)) guard_invalid ;;
  if utf8_valid payload then Ok (py_strip payload) else Err guard_invalid.

(** [text.split("%", 1)[0]] *)
Definition unscoped (text : string) : string := (partition "%" text).1.

Section guard.
Context (nfkc : string -> string) (mapped dotted : bool).

Definition read_verified_peer_ip (f : option peer_file) : result (option string) :=
  match f with
  | None => Ok None
  | Some f =>
      match _read_verified_peer_text f with
      | Err FileNotFoundError => Ok None
      | Err (DestinationGuardError r t) => Err (DestinationGuardError r t)
      | Err _ => Err guard_invalid
      | Ok v =>
          if str_empty v then Ok None
          else match ip_address (unscoped v) with
               | Some a => Ok (Some (ip_text dotted a))
               | None => Err guard_invalid
               end
      end
  end.

(** An address that is not in the list yet. *)
Definition add_new (addresses : list string) (normalized : string) : list string :=
  if bool_decide (normalized ∈ addresses) then addresses else addresses ++ [normalized].

(** One turn of the loop over the answers; the addresses so far. *)
Definition check_answer (allow_private_targets : bool) (addresses : list string) (text : string)
    : result (list string) :=
  match ip_address (unscoped text) with
  | None => Err destination_unsafe
  | Some address =>
      raise_if (is_unspecified mapped address || is_multicast mapped address) destination_unsafe ;;
      raise_if (negb allow_private_targets && negb (is_global mapped address)) destination_unsafe ;;
      Ok (add_new addresses (ip_text dotted address))
  end.

Fixpoint check_answers (allow_private_targets : bool) (addresses : list string) (answers : list string)
    : result (list string) :=
  match answers with
  | [] => Ok addresses
  | text :: answers' =>
      addresses ← check_answer allow_private_targets addresses text;
      check_answers allow_private_targets addresses answers'
  end.

Definition check_expected (expected_peer_ip : option string) (addresses : list string) : result unit :=
  match expected_peer_ip with
  | None | Some EmptyString => Ok tt
  | Some expected =>
      match ip_address (unscoped expected) with
      | None => Err guard_invalid
      | Some a => raise_if (negb (bool_decide (ip_text dotted a ∈ addresses))) dns_changed
      end
  end.

(** The port of the URL, or the one of the protocol. *)
Definition destination_port (u : SplitResult) (scheme : string) : result Z :=
  match port u with
  | Err _ => Err guard_invalid
  | Ok (Some p) => Ok (if p =? 0 then if String.eqb scheme "rtmps" then 443 else 1935 else p)
  | Ok None => Ok (if String.eqb scheme "rtmps" then 443 else 1935)
  end.

Definition validate_destination_runtime (url : string) (expected_peer_ip : option string)
    (allow_private_targets : bool) (resolver : string -> Z -> result (list string))
    : result DestinationResolution :=
  match urlsplit nfkc url with
  | None => Err ValueError
  | Some parsed =>
      let scheme := py_lower (Url.scheme parsed) in
      match hostname parsed with
      | None => Err guard_invalid
      | Some host =>
          raise_if (negb (bool_decide (scheme ∈ ["rtmp"; "rtmps"]))) guard_invalid ;;
          port ← destination_port parsed scheme;
          resolved ← match resolver host port with Err OSError => Err dns_failed | r => r end;
          raise_if (bool_decide (resolved = [])) dns_failed ;;
          addresses ← check_answers allow_private_targets [] resolved;
          check_expected expected_peer_ip addresses ;;
          Ok (Resolution host port addresses)
      end
  end.

(** ** What the guard lets through

    An answer that may be connected to, and its normal text. *)
Definition public_answer (allow_private_targets : bool) (text : string) (normal : string) : Prop :=
  exists a, ip_address (unscoped text) = Some a /\ normal = ip_text dotted a /\
    is_unspecified mapped a = false /\ is_multicast mapped a = false /\
    (allow_private_targets = false -> is_global mapped a = true).

Lemma check_answer_ok allow acc text acc' :
  check_answer allow acc text = Ok acc' <-> exists n, public_answer allow text n /\ acc' = add_new acc n.
Proof.
  clear nfkc. unfold check_answer, public_answer. destruct (ip_address (unscoped text)) as [a|].
  2: { split; [done|]. by intros (n & (a & ? & _) & _). }
  split.
  - intros (? & [Hu Hm]%raise_if_ok%orb_false_iff & H)%result_bind_ok.
    apply result_bind_ok in H as (? & Hg%raise_if_ok & [= <-]). exists (ip_text dotted a). split; [|done].
    exists a. split; [done|]. split; [done|]. split; [done|]. split; [done|]. intros ->.
    by apply negb_false_iff.
  - intros (n & (a' & [= <-] & -> & Hu & Hm & Hg) & ->). rewrite Hu, Hm. cbn.
    destruct allow; [done|]. by rewrite Hg.
Qed.

Lemma check_answers_ok allow answers acc acc' :
  check_answers allow acc answers = Ok acc' <->
  exists ns, Forall2 (public_answer allow) answers ns /\ acc' = foldl add_new acc ns.
Proof.
  clear nfkc. revert acc. induction answers as [|text answers IH]; intros acc; cbn [check_answers].
  - split; [intros [= <-]; exists []; by split|]. by intros (ns & ->%Forall2_nil_inv_l & ->).
  - split.
    + intros (acc1 & (n & Hn & ->)%check_answer_ok & (ns & H2 & ->)%IH)%result_bind_ok.
      exists (n :: ns). split; [by constructor|done].
    + intros (ns & H2 & ->). apply Forall2_cons_inv_l in H2 as (n & ns' & Hn & H2 & ->).
      rewrite (proj2 (check_answer_ok allow acc text (add_new acc n))) by eauto.
      cbn [mbind result_bind]. apply IH. eauto.
Qed.

(** What a list of answers amounts to: each text once, in the order of the answers. *)
Lemma add_new_spec l acc :
  NoDup acc -> NoDup (foldl add_new acc l) /\ forall n, n ∈ foldl add_new acc l <-> n ∈ acc \/ n ∈ l.
Proof.
  clear nfkc mapped dotted. revert acc. induction l as [|x l IH]; intros acc Hnd; cbn [foldl].
  - split; [done|]. intros n. split; [by left|]. by intros [?|?%elem_of_nil].
  - assert (Hx : NoDup (add_new acc x) /\ forall n, n ∈ add_new acc x <-> n ∈ acc \/ n = x).
    { unfold add_new. destruct (bool_decide_reflect (x ∈ acc)) as [Hin|Hin].
      - split; [done|]. intros n. split; [by left|]. by intros [?| ->].
      - split.
        + apply NoDup_app. split; [done|]. split; [|apply NoDup_singleton].
          by intros y Hy ->%list_elem_of_singleton.
        + intros n. by rewrite elem_of_app, list_elem_of_singleton. }
    destruct Hx as [Hx1 Hx2]. destruct (IH _ Hx1) as [H1 H2]. split; [done|].
    intros n. rewrite H2, Hx2, elem_of_cons. tauto.
Qed.

(** Whether the address seen at the verification, if any, is among the answers. *)
Definition expected_found (expected_peer_ip : option string) (addresses : list string) : Prop :=
  forall expected, expected_peer_ip = Some expected -> expected <> EmptyString ->
    exists a, ip_address (unscoped expected) = Some a /\ ip_text dotted a ∈ addresses.

Lemma check_expected_ok expected addresses :
  check_expected expected addresses = Ok tt <-> expected_found expected addresses.
Proof.
  clear nfkc mapped. unfold check_expected, expected_found. destruct expected as [[|c e]|].
  - split; [|done]. by intros _ ? [= <-].
  - destruct (ip_address (unscoped (String c e))) as [a|] eqn:E.
    + rewrite raise_if_ok, negb_false_iff, bool_decide_eq_true. split.
      * intros H ? [= <-] _. eauto.
      * intros H. destruct (H _ eq_refl) as (a' & H1 & H2); [done|]. rewrite E in H1. by injection H1 as <-.
    + split; [done|]. intros H. destruct (H _ eq_refl) as (a' & H1 & _); [done|]. congruence.
  - by split.
Qed.

Definition default_port (scheme : string) : Z := if String.eqb scheme "rtmps" then 443 else 1935.

(** What an attempt to publish may connect to. The guard lets an attempt go on
    exactly when the URL names an RTMP or RTMPS host with a valid port, the resolver
    answers for that host and port now, every single answer is an address that is
    neither unspecified nor multicast and, unless private targets are allowed, a
    global one, and the address seen at the verification, if one is required, is
    among them. It returns that host, that port and the distinct addresses. *)
Theorem guard_accepts_public_destinations url expected allow resolver r :
  validate_destination_runtime url expected allow resolver = Ok r <->
  exists u host p answers normals,
    urlsplit nfkc url = Some u /\ py_lower (scheme u) ∈ ["rtmp"; "rtmps"] /\ hostname u = Some host /\
    (port u = Ok (Some p) /\ p <> 0 \/
     (port u = Ok None \/ port u = Ok (Some 0)) /\ p = default_port (py_lower (scheme u))) /\
    resolver host p = Ok answers /\ answers <> [] /\
    Forall2 (public_answer allow) answers normals /\
    NoDup (res_addresses r) /\ res_addresses r = foldl add_new [] normals /\
    expected_found expected (res_addresses r) /\ res_host r = host /\ res_port r = p.
Proof.
  unfold validate_destination_runtime. destruct (urlsplit nfkc url) as [u|].
  2: { split; [done|]. by intros (u & ? & ? & ? & ? & ? & _). }
  destruct (hostname u) as [host|] eqn:Hh.
  2: { split; [done|]. intros (u' & ? & ? & ? & ? & [= <-] & _ & ? & _). congruence. }
  assert (Hport : forall p, destination_port u (py_lower (scheme u)) = Ok p <->
    (port u = Ok (Some p) /\ p <> 0 \/
     (port u = Ok None \/ port u = Ok (Some 0)) /\ p = default_port (py_lower (scheme u)))).
  { intros p. unfold destination_port. fold (default_port (py_lower (scheme u))).
    destruct (port u) as [[q|]|e].
    - destruct (Z.eqb_spec q 0) as [->|Hq]; split; naive_solver.
    - split; naive_solver.
    - split; [done|]. by intros [[? _]|[[?|?] _]]. }
  split.
  - intros (? & Hs%raise_if_ok%negb_false_iff%bool_decide_eq_true & H)%result_bind_ok.
    apply result_bind_ok in H as (p & Hp%Hport & H). apply result_bind_ok in H as (answers & Hr & H).
    assert (resolver host p = Ok answers) as E by (by destruct (resolver host p) as [|[]]).
    apply result_bind_ok in H as (? & Hne%raise_if_ok%bool_decide_eq_false & H).
    apply result_bind_ok in H as (addresses & (ns & H2 & ->)%check_answers_ok & H).
    apply result_bind_ok in H as ([] & Hex%check_expected_ok & [= <-]).
    exists u, host, p, answers, ns. cbn. destruct (add_new_spec ns []) as [Hnd _]; [constructor|]. done.
  - intros (u' & host' & p & answers & ns & [= <-] & Hs & Hh' & Hp%Hport & Hr & Hne & H2 & _ & Ha & Hex & Hrh & Hrp).
    assert (host' = host) as -> by congruence.
    rewrite (bool_decide_eq_true_2 _ Hs). cbn [negb raise_if]. cbn [mbind result_bind]. rewrite Hp.
    cbn [mbind result_bind]. rewrite Hr. cbn [mbind result_bind]. rewrite (bool_decide_eq_false_2 _ Hne).
    cbn [raise_if mbind result_bind]. rewrite (proj2 (check_answers_ok allow answers [] (res_addresses r))) by eauto.
    cbn [mbind result_bind]. rewrite (proj2 (check_expected_ok _ _) Hex). cbn.
    destruct r. cbn in *. by subst.
Qed.

(** ** Addresses inside a network *)

(** This host's network, private, loopback and link-local version 4 addresses. *)
Definition internal_v4 (n : Z) : Prop :=
  ip4 0 0 0 0 <= n <= ip4 0 255 255 255 \/
  ip4 10 0 0 0 <= n <= ip4 10 255 255 255 \/ ip4 127 0 0 0 <= n <= ip4 127 255 255 255 \/
  ip4 169 254 0 0 <= n <= ip4 169 254 255 255 \/ ip4 172 16 0 0 <= n <= ip4 172 31 255 255 \/
  ip4 192 168 0 0 <= n <= ip4 192 168 255 255.

(** The version 4 addresses a provider shares among its customers, 100.64.0.0/10. *)
Definition shared_v4 (n : Z) : Prop := ip4 100 64 0 0 <= n <= ip4 100 127 255 255.

(** Those, the version 6 addresses that map one of them (a shared one only where the
    mapped address decides for all the properties), and the unspecified, loopback,
    unique local and link-local version 6 addresses. *)
Definition internal (a : ip_addr) : Prop :=
  match a with
  | V4 n => internal_v4 n \/ shared_v4 n
  | V6 n _ => (Z.shiftr n 32 = 65535 /\
                 (internal_v4 (n mod 2 ^ 32) \/ mapped = true /\ shared_v4 (n mod 2 ^ 32))) \/ n = 0 \/ n = 1 \/
              ip6 64512 0 0 <= n < ip6 65024 0 0 \/ ip6 65152 0 0 <= n < ip6 65216 0 0
  end.

Lemma in_network_range width n first prefix :
  0 <= width - prefix -> first mod 2 ^ (width - prefix) = 0 ->
  in_network width n (first, prefix) = true <-> first <= n < first + 2 ^ (width - prefix).
Proof.
  clear. intros Hw Hf. unfold in_network. rewrite Z.eqb_eq, !Z.shiftr_div_pow2 by done.
  set (k := 2 ^ (width - prefix)) in *. assert (Hk : 0 < k) by (by apply Z.pow_pos_nonneg).
  pose proof (Z.div_mod n k). pose proof (Z.div_mod first k). pose proof (Z.mod_pos_bound n k Hk).
  split; [intros E; nia|]. intros Hn. assert (n / k < first / k + 1) by nia. assert (first / k <= n / k) by nia. lia.
Qed.

Lemma in_networks_at i width n networks first prefix :
  networks !! i = Some (first, prefix) -> 0 <= width - prefix -> first mod 2 ^ (width - prefix) = 0 ->
  first <= n < first + 2 ^ (width - prefix) -> in_networks width n networks = true.
Proof.
  clear. intros Hi Hw Hf Hn. apply existsb_exists. exists (first, prefix). split.
  - apply list_elem_of_In. by eapply list_elem_of_lookup_2.
  - by apply in_network_range.
Qed.

Lemma not_in_network width n first prefix :
  0 <= width - prefix -> first mod 2 ^ (width - prefix) = 0 ->
  n < first \/ first + 2 ^ (width - prefix) <= n -> in_network width n (first, prefix) = false.
Proof.
  clear. intros Hw Hf Hn. apply not_true_is_false. rewrite in_network_range by done. lia.
Qed.

(** A range of addresses against a list of networks, all of them literals. *)
Ltac network_bound := unfold ip4, ip6 in *; lia.
Ltac outside_networks :=
  cbn [in_networks existsb v4_private_exceptions v6_private_exceptions];
  rewrite !not_in_network by first [reflexivity | network_bound]; reflexivity.
Ltac inside_network i :=
  eapply (in_networks_at i); [reflexivity|lia|vm_compute; reflexivity|network_bound].

Lemma internal_v4_private n : internal_v4 n -> v4_is_private n = true.
Proof.
  clear. intros H. unfold v4_is_private. rewrite andb_true_iff, negb_true_iff. split.
  - destruct H as [H|[H|[H|[H|[H|H]]]]];
      [inside_network 0%nat|inside_network 1%nat|inside_network 2%nat|inside_network 3%nat|inside_network 4%nat|inside_network 8%nat].
  - destruct H as [H|[H|[H|[H|[H|H]]]]]; outside_networks.
Qed.

Lemma internal_v4_not_global n : internal_v4 n \/ shared_v4 n -> v4_is_global n = false.
Proof.
  clear. intros [H|H]; unfold v4_is_global; [rewrite internal_v4_private by done; apply andb_false_r|].
  replace (in_network 32 n (ip4 100 64 0 0, 10)) with true; [done|]. symmetry.
  apply in_network_range; [done|vm_compute; reflexivity|]. unfold shared_v4 in H. network_bound.
Qed.

Lemma mapped_range n : ipv4_mapped n = None <-> n < 65535 * 2 ^ 32 \/ 65536 * 2 ^ 32 <= n.
Proof.
  clear. unfold ipv4_mapped. rewrite Z.shiftr_div_pow2 by done.
  pose proof (Z.div_mod n (2 ^ 32)) as E. pose proof (Z.mod_pos_bound n (2 ^ 32)) as B.
  destruct (Z.eqb_spec (n / 2 ^ 32) 65535) as [Eq|Hne]; split; [done| |intros _|done]; lia.
Qed.

Lemma internal_not_global a : internal a -> is_global mapped a = false.
Proof.
  clear nfkc dotted. destruct a as [n|n scope_id]; cbn [internal is_global].
  - apply internal_v4_not_global.
  - intros [[E H]|H].
    + unfold ipv4_mapped. rewrite (proj2 (Z.eqb_eq _ _) E). destruct mapped.
      * apply internal_v4_not_global. tauto.
      * destruct H as [H|[? _]]; [|done]. by rewrite internal_v4_private.
    + assert (Hm : ipv4_mapped n = None) by (apply mapped_range; network_bound).
      unfold v6_is_private. rewrite Hm, negb_false_iff, andb_true_iff, negb_true_iff. split.
      * destruct H as [H|[H|[H|H]]];
          [inside_network 1%nat|inside_network 0%nat|inside_network 8%nat|inside_network 9%nat].
      * destruct H as [H|[H|[H|H]]]; outside_networks.
Qed.

Lemma check_answers_refused answers acc :
  Exists (fun text => exists a, ip_address (unscoped text) = Some a /\ internal a) answers ->
  check_answers false acc answers = Err destination_unsafe.
Proof.
  clear nfkc. revert acc. induction answers as [|text answers IH]; intros acc; [by intros ?%Exists_nil|].
  intros H. cbn [check_answers].
  assert (Hcase : check_answer false acc text = Err destination_unsafe \/
    exists acc', check_answer false acc text = Ok acc').
  { unfold check_answer. destruct (ip_address _); [|by left]. destruct (_ || _); [by left|].
    cbn. destruct (negb _); [by left|right; eauto]. }
  apply Exists_cons in H as [(a & Ha & Hi)|H].
  - assert (E : check_answer false acc text = Err destination_unsafe); [|by rewrite E].
    unfold check_answer. rewrite Ha. destruct (_ || _); [done|]. cbn. by rewrite internal_not_global.
  - destruct Hcase as [->|[acc' ->]]; [done|]. by apply IH.
Qed.

(** C17: No way inside. If any answer of the resolver, whatever the others are, is a
    private, shared, loopback, link-local, unique local or unspecified address
    ([internal]), in version 4, version 6 or mapped from one to the other, a guard that
    is not told to allow private targets ends the attempt for good with
    DESTINATION_UNSAFE. *)
Theorem internal_addresses_are_refused url expected resolver u host p answers :
  urlsplit nfkc url = Some u -> py_lower (scheme u) ∈ ["rtmp"; "rtmps"] -> hostname u = Some host ->
  destination_port u (py_lower (scheme u)) = Ok p -> resolver host p = Ok answers ->
  Exists (fun text => exists a, ip_address (unscoped text) = Some a /\ internal a) answers ->
  validate_destination_runtime url expected false resolver =
    Err (DestinationGuardError "DESTINATION_UNSAFE" true).
Proof.
  intros Hu Hs Hh Hp Hr Hex. unfold validate_destination_runtime.
  rewrite Hu, Hh, (bool_decide_eq_true_2 _ Hs). cbn [negb raise_if mbind result_bind].
  rewrite Hp. cbn [mbind result_bind]. rewrite Hr. cbn [mbind result_bind].
  rewrite bool_decide_eq_false_2 by (intros ->; by apply Exists_nil in Hex).
  cbn [raise_if mbind result_bind]. by rewrite check_answers_refused.
Qed.
End guard.

Section examples.
Definition demo_resolver (answers : list string) (_ : string) (_ : Z) : result (list string) := Ok answers.
Definition demo_guard_run (expected : option string) (answers : list string) : result DestinationResolution :=
  validate_destination_runtime (fun s => s) false false "rtmps://live.example/app/key" expected false
    (demo_resolver answers).

Lemma internal_addresses_are_refused_witness :
  demo_guard_run None ["8.8.8.8"; "::ffff:10.1.2.3"] = Err (DestinationGuardError "DESTINATION_UNSAFE" true).
Proof.
  apply (internal_addresses_are_refused (fun s => s) false false "rtmps://live.example/app/key" None
    (demo_resolver ["8.8.8.8"; "::ffff:10.1.2.3"]) (Split "rtmps" "live.example" "/app/key" EmptyString EmptyString)
    "live.example" 443 ["8.8.8.8"; "::ffff:10.1.2.3"]).
  - vm_compute. reflexivity.
  - apply list_elem_of_further, list_elem_of_here.
  - vm_compute. reflexivity.
  - vm_compute. reflexivity.
  - reflexivity.
  - apply Exists_cons. right. apply Exists_cons. left. exists (V6 (65535 * 2 ^ 32 + ip4 10 1 2 3) None).
    split; [vm_compute; reflexivity|]. left. split; [reflexivity|]. left. right. left. vm_compute. split; discriminate.
Defined.

Example guard_examples :
  (demo_guard_run (Some "8.8.8.8") ["8.8.4.4"; "8.8.8.8"; "8.8.4.4"],
   demo_guard_run (Some "9.9.9.9") ["8.8.8.8"], demo_guard_run None [], demo_guard_run None ["169.254.169.254"]) =
  (Ok (Resolution "live.example" 443 ["8.8.4.4"; "8.8.8.8"]), Err dns_changed, Err dns_failed,
   Err destination_unsafe).
Proof. vm_compute. reflexivity. Qed.
End examples.
