(* ===== verification/ClientAddress.v ===== *)
(** * The address of a client

    [apps/control-api/auth_client_address.py]: which address the admission limits of
    authentication are keyed on. The header [X-Forwarded-For] is believed only when
    the peer is a configured proxy, and then only from its right end. *)

From S2P Require Import Prelude PyFloat Sha256 PyValue Uuid PyText IpAddress Url.

Definition DEFAULT_MAX_FORWARDED_HOPS : nat := 20.
Definition MAX_FORWARDED_HEADER_BYTES : nat := 2048.
Definition MAX_ADDRESS_CHARS : nat := 64.

(** The parts of a request that are read: its scope, and the values of the fields
    [X-Forwarded-For], if it has headers at all. *)
Record http_request : Type := HttpRequest {
  req_scope : value;
  req_forwarded_for : option (list value)
}.

Definition _normalized_address (v : value) : option string :=
  match v with
  | VStr s =>
      let candidate := py_strip s in
      if str_empty candidate || Nat.ltb MAX_ADDRESS_CHARS (py_len candidate) then None
      else ip_address_text candidate
  | _ => None
  end.

(** A set, as the list of its members. *)
Definition _normalized_addresses (values : list value) : list string := omap _normalized_address values.

Definition trusted_proxies_from_env (env : environ) : list string :=
  _normalized_addresses (VStr <$> split_on "," (default EmptyString (env "IRLIGHT_TRUSTED_PROXIES"))).

(** A pair, tuple or list, is a list here. *)
Definition _scope_address (scope : value) : option string :=
  match scope with
  | VDict d => match py_get d "client" with VList [host; _] => _normalized_address host | _ => None end
  | _ => None
  end.

Definition _forwarded_for_value (http_request : http_request) : option string :=
  match req_forwarded_for http_request with
  | Some [VStr v] => if Nat.ltb MAX_FORWARDED_HEADER_BYTES (String.length v) then None else Some v
  | _ => None
  end.

(** The address in one element of the header. *)
Definition hop_address (hop : string) : option string := _normalized_address (VStr (py_strip hop)).

(** [for candidate in reversed(candidates)], of which every one is an address. *)
Fixpoint first_untrusted (trusted : list string) (candidates : list string) : option string :=
  match candidates with
  | [] => None
  | candidate :: candidates' =>
      if bool_decide (candidate ∈ trusted) then first_untrusted trusted candidates' else Some candidate
  end.

Definition client_address (env : environ) (http_request : http_request)
    (trusted_proxies : option (list value)) : option string :=
  match _scope_address (req_scope http_request) with
  | None => None
  | Some peer =>
      let trusted := match trusted_proxies with
                     | None => trusted_proxies_from_env env
                     | Some values => _normalized_addresses values
                     end in
      if negb (bool_decide (peer ∈ trusted)) then Some peer
      else
        match _forwarded_for_value http_request with
        | None => Some peer
        | Some forwarded =>
            let hops := split_on "," forwarded in
            if Nat.ltb DEFAULT_MAX_FORWARDED_HOPS (length hops) then Some peer
            else
              match mapM hop_address hops with
              | None => Some peer
              | Some candidates => Some (default peer (first_untrusted trusted (rev candidates)))
              end
        end
  end.

Section examples.
Definition demo_request (peer : string) (forwarded : list string) : http_request :=
  HttpRequest (VDict {[ "client" := VList [VStr peer; VInt 1] ]}) (Some (VStr <$> forwarded)).
Definition demo_trusted : option (list value) := Some [VStr "10.0.0.1"; VStr " 10.0.0.2 "; VStr "x"].
Definition demo_client (peer : string) (forwarded : list string) : option string :=
  client_address (fun _ => None) (demo_request peer forwarded) demo_trusted.

Example client_examples :
  [demo_client "192.0.2.1" ["198.51.100.1"]; demo_client "10.0.0.1" ["1.1.1.1, 198.51.100.1,10.0.0.2"];
   demo_client "10.0.0.1" ["bad, 198.51.100.1"]; demo_client "10.0.0.1" ["10.0.0.2"];
   demo_client "10.0.0.1" ["1.1.1.1"; "2.2.2.2"]; demo_client "here" []] =
  [Some "192.0.2.1"; Some "198.51.100.1"; Some "10.0.0.1"; Some "10.0.0.1"; Some "10.0.0.1"; None].
Proof. vm_compute. reflexivity. Qed.
End examples.

(** ** Who decides *)
Lemma first_untrusted_app trusted l r :
  first_untrusted trusted (l ++ r) =
  match first_untrusted trusted l with Some c => Some c | None => first_untrusted trusted r end.
Proof.
  induction l as [|c l IH]; [done|]. cbn. by destruct (bool_decide _).
Qed.

Lemma first_untrusted_trusted trusted l :
  Forall (.∈ trusted) l -> first_untrusted trusted l = None.
Proof.
  induction 1 as [|c l Hc Hl IH]; [done|]. cbn. by rewrite (bool_decide_eq_true_2 _ Hc).
Qed.

(** The trusted addresses of a call. *)
Definition trusted_of (env : environ) (trusted_proxies : option (list value)) : list string :=
  match trusted_proxies with
  | None => trusted_proxies_from_env env
  | Some values => _normalized_addresses values
  end.

(** C22: A client cannot choose the address it is limited under. Whatever it sends in
    X-Forwarded-For itself: without a trusted peer the answer is the address of the
    peer; behind trusted proxies, of which the outermost appended the address [real]
    it saw and the further ones their own peers [hops], all trusted, the answer is
    [real], or the peer when the header as a whole cannot be used. *)
Theorem client_cannot_choose_its_address env request trusted peer :
  _scope_address (req_scope request) = Some peer ->
  (peer ∉ trusted_of env trusted -> client_address env request trusted = Some peer) /\
  forall forged real hops client,
    req_forwarded_for request = Some [VStr (String.append forged (String ","
      (join_with "," (real :: hops))))] ->
    Forall (fun hop => has_char "," hop = false) (real :: hops) ->
    hop_address real = Some client -> client ∉ trusted_of env trusted ->
    Forall (fun hop => exists a, hop_address hop = Some a /\ a ∈ trusted_of env trusted) hops ->
    client_address env request trusted = Some client \/ client_address env request trusted = Some peer.
Proof.
  intros Hp. unfold client_address. rewrite Hp. fold (trusted_of env trusted). split.
  - intros Hn. by rewrite (bool_decide_eq_false_2 _ Hn).
  - intros forged real hops client Hf Hcommas Hreal Hclient Hhops.
    destruct (bool_decide (peer ∈ trusted_of env trusted)); cbn [negb]; [|by right].
    unfold _forwarded_for_value. rewrite Hf. destruct (Nat.ltb _ (String.length _)); [by right|].
    destruct (Nat.ltb _ (length _)); [by right|].
    destruct (mapM hop_address _) as [candidates|] eqn:Hm; [left|by right]. f_equal.
    apply mapM_Some_1 in Hm. rewrite split_on_append, split_on_join in Hm by done.
    apply Forall2_app_inv_l in Hm as (cf & cr & _ & Hm & ->).
    apply Forall2_cons_inv_l in Hm as (c & ch & Hc & Hch & ->). rewrite Hreal in Hc. injection Hc as <-.
    rewrite rev_app_distr. cbn [rev]. rewrite <- app_assoc, first_untrusted_app, first_untrusted_trusted.
    + cbn. by rewrite (bool_decide_eq_false_2 _ Hclient).
    + apply List.Forall_rev, Forall_forall. intros a Ha.
      apply list_elem_of_lookup in Ha as [i Ha]. destruct (Forall2_lookup_r _ _ _ _ _ Hch Ha) as (hop & Hi & E).
      rewrite Forall_forall in Hhops. destruct (Hhops hop) as (a' & E' & Hin); [by eapply list_elem_of_lookup_2|].
      congruence.
Qed.

Lemma client_cannot_choose_its_address_witness :
  demo_client "10.0.0.1" ["1.1.1.1, 10.0.0.9,198.51.100.1,10.0.0.2"] = Some "198.51.100.1" \/
  demo_client "10.0.0.1" ["1.1.1.1, 10.0.0.9,198.51.100.1,10.0.0.2"] = Some "10.0.0.1".
Proof.
  destruct (client_cannot_choose_its_address (fun _ => None)
    (demo_request "10.0.0.1" ["1.1.1.1, 10.0.0.9,198.51.100.1,10.0.0.2"]) demo_trusted "10.0.0.1") as [_ H];
    [vm_compute; reflexivity|].
  apply (H "1.1.1.1, 10.0.0.9" "198.51.100.1" ["10.0.0.2"] "198.51.100.1").
  - reflexivity.
  - repeat (apply Forall_cons_2; [reflexivity|]). apply Forall_nil_2.
  - vm_compute. reflexivity.
  - apply (bool_decide_unpack _). vm_compute. exact I.
  - apply Forall_cons_2; [|apply Forall_nil_2]. exists "10.0.0.2". split; [vm_compute; reflexivity|].
    apply (bool_decide_unpack _). vm_compute. exact I.
Defined.
