(* ===== verification/EgressPolicy.v ===== *)
(** * Egress policy

    The pure parts of the egress gateway: the classification of transport errors and
    the retry delays ([egress_policy.py]), the nominal report cadence
    ([egress_report_cadence.py]) and the check of the timers that depend on it
    ([runtime_timer_config.py]), all under [apps/egress-gateway/].

    [libm_pow] is the [pow] of the C library, which Python's [**] on floats calls. *)

From S2P Require Import Prelude PyFloat Sha256 PyValue Uuid PyText IpAddress Url EgressDestination.

Definition TERMINAL_REASON_CODES : list string :=
  ["AUTH_FAILED"; "PUBLISH_CONFLICT"; "PUBLISH_REJECTED"; "LOCAL_PIPELINE_FAILED"].

(** ** Errors *)
Definition safe_destination (nfkc : string -> string) (url : string) : result (string * string) :=
  match urlsplit nfkc url with
  | None => Err ValueError
  | Some parsed => Ok (py_lower (scheme parsed), default EmptyString (hostname parsed))
  end.

Definition any_in (tokens : list string) (haystack : string) : bool :=
  existsb (fun token => contains token haystack) tokens.

Definition AUTH_TOKENS : list string :=
  ["unauthorized"; "forbidden"; "auth failed"; "authfailed"; "invalid stream key"; " 401 "; " 403 ";
   "code=401"; "code=403"].
Definition CONFLICT_TOKENS : list string :=
  ["badname"; "already publishing"; "publish conflict"; "stream already"].
Definition TLS_TOKENS : list string := ["certificate"; "tls"; "ssl"].
Definition DNS_TOKENS : list string :=
  ["could not resolve"; "name or service not known"; "temporary failure in name resolution"; "dns"].
Definition TIMEOUT_TOKENS : list string := ["timeout"; "timed out"].
Definition UNREACHABLE_TOKENS : list string :=
  ["connection refused"; "network is unreachable"; "no route to host"; "could not connect";
   "connection reset"].

Definition newline : Ascii.ascii := "010"%char.

Definition classify_error (source_name message : string) (debug : option string)
    (error_domain : option string) (error_code : option Z) (connected_once : bool) : string :=
  if String.prefix "src" source_name || contains "rtspsrc" source_name then "UPSTREAM_UNAVAILABLE"
  else
    let haystack := py_lower (String.append message (String newline (default EmptyString debug))) in
    if any_in AUTH_TOKENS haystack then "AUTH_FAILED"
    else if any_in CONFLICT_TOKENS haystack then "PUBLISH_CONFLICT"
    else if any_in TLS_TOKENS haystack then "TLS_FAILED"
    else if any_in DNS_TOKENS haystack then "DNS_FAILED"
    else if any_in TIMEOUT_TOKENS haystack then "TIMEOUT"
    else if any_in UNREACHABLE_TOKENS haystack then "UNREACHABLE"
    else if String.eqb source_name "egress_sink" && negb connected_once &&
            bool_decide (error_domain = Some "gst-resource-error-quark") &&
            bool_decide (error_code = Some 10)
    then "PUBLISH_REJECTED"
    else "EGRESS_PIPELINE_FAILED".

(** ** Retry delays *)
Record ReconnectPolicy : Type := Policy {
  initial_seconds : float;
  max_seconds : float;
  multiplier : float;
  jitter_ratio : float;
  max_attempts : Z;
  max_elapsed_seconds : float
}.

(** [__post_init__] *)
Definition make_policy (p : ReconnectPolicy) : result ReconnectPolicy :=
  raise_if (negb (forallb is_finite [initial_seconds p; max_seconds p; multiplier p; jitter_ratio p;
                                     max_elapsed_seconds p])) ValueError ;;
  raise_if (flt (initial_seconds p) fzero || flt (max_seconds p) fzero) ValueError ;;
  raise_if (flt (max_seconds p) (initial_seconds p)) ValueError ;;
  raise_if (flt (multiplier p) fone) ValueError ;;
  raise_if (negb (fle fzero (jitter_ratio p) && fle (jitter_ratio p) fone)) ValueError ;;
  raise_if ((max_attempts p <? 0) || flt (max_elapsed_seconds p) fzero) ValueError ;;
  Ok p.

Definition default_policy : ReconnectPolicy :=
  Policy fone (of_Z 30) (of_Z 2) (fratio 1 5) 0 fzero.

Definition is_infinite (f : float) : bool := match f with S754_infinity _ => true | _ => false end.

Section policy.
Context (libm_pow : float -> float -> float).

(** [x ** n] for a finite [x] and an [int] that is not negative: an infinite power is
    an [OverflowError]. *)
Definition py_pow (x : float) (n : Z) : result float :=
  if (n =? 0) || feq x fone then Ok fone
  else
    let r := libm_pow x (of_Z n) in
    if is_infinite r then Err OverflowError else Ok r.

Definition delay_for (p : ReconnectPolicy) (failure_count : Z) (random_value : float) : result float :=
  let exponent := Z.max 0 (failure_count - 1) in
  power ← py_pow (multiplier p) exponent;
  let base := fmin (max_seconds p) (fmul (initial_seconds p) power) in
  let bounded_random := fmin fone (fmax fzero random_value) in
  let factor := fadd fone (fmul (fsub (fmul bounded_random (of_Z 2)) fone) (jitter_ratio p)) in
  Ok (fmax fzero (fmul base factor)).

Definition exhausted (p : ReconnectPolicy) (failure_count : Z) (elapsed_seconds : float) : bool :=
  ((0 <? max_attempts p) && (max_attempts p <=? failure_count)) ||
  (flt fzero (max_elapsed_seconds p) && fle (max_elapsed_seconds p) elapsed_seconds).
End policy.

(** ** The report cadence *)
Definition SINK_POLL_MILLISECONDS : Z := 250.

(** [a % b] for a positive [b]: exact, with the sign of [b]. *)
Definition fmod (a b : float) : float :=
  match a, b with
  | S754_zero _, S754_finite false _ _ => fzero
  | S754_finite s ma ea, S754_finite false mb eb =>
      let k := Z.min ea eb in
      let x := (if s then -1 else 1) * Z.pos ma * 2 ^ (ea - k) in
      let y := Z.pos mb * 2 ^ (eb - k) in
      binary_normalize prec emax (x mod y) k false
  | _, _ => S754_nan
  end.

Definition heartbeat_report_interval_seconds (status_heartbeat_seconds : float) : float :=
  if fle status_heartbeat_seconds fzero then fzero
  else
    let poll_seconds := fdiv (of_Z SINK_POLL_MILLISECONDS) (of_Z 1000) in
    let remainder := fmod status_heartbeat_seconds poll_seconds in
    if feq remainder fzero then status_heartbeat_seconds
    else fadd status_heartbeat_seconds (fsub poll_seconds remainder).

Definition liveness_window_can_be_armed (liveness_timeout_seconds status_heartbeat_seconds : float) : bool :=
  flt fzero liveness_timeout_seconds && flt fzero status_heartbeat_seconds &&
  flt (heartbeat_report_interval_seconds status_heartbeat_seconds) liveness_timeout_seconds.

(** [RuntimeTimerConfigError] is a [ValueError]. *)
Definition finite_env_float (env : environ) (name : string) (dflt : float) : result float :=
  v ← match env name with
      | None => Ok dflt
      | Some raw => match float_of_text raw with Some f => Ok f | None => Err ValueError end
      end;
  raise_if (negb (is_finite v)) ValueError ;;
  Ok v.

Definition validate_liveness_window (liveness_timeout_seconds status_heartbeat_seconds : float) : result unit :=
  if fle liveness_timeout_seconds fzero then Ok tt
  else raise_if (negb (liveness_window_can_be_armed liveness_timeout_seconds status_heartbeat_seconds)) ValueError.

(** A [pow] that is right on powers of two, for the examples. *)
Definition pow_of_two (x y : float) : float :=
  if feq x (of_Z 2) then of_Z (2 ^ ftrunc y) else fmul x x.

Example classified :
  (classify_error "egress_sink" "Could not connect: 401 UNAUTHORIZED" None None None false,
   classify_error "egress_sink" "write failed" (Some "x") (Some "gst-resource-error-quark") (Some 10) false,
   classify_error "egress_sink" "write failed" (Some "x") (Some "gst-resource-error-quark") (Some 10) true,
   classify_error "src0" "forbidden" None None None false) =
  ("AUTH_FAILED", "PUBLISH_REJECTED", "EGRESS_PIPELINE_FAILED", "UPSTREAM_UNAVAILABLE").
Proof. vm_compute. reflexivity. Qed.
Example delays :
  (fun n => delay_for pow_of_two default_policy n (fratio 1 2)) <$> [1; 2; 5; 6; 1024; 1025] =
  [Ok (of_Z 1); Ok (of_Z 2); Ok (of_Z 16); Ok (of_Z 30); Ok (of_Z 30); Err OverflowError].
Proof. vm_compute. reflexivity. Qed.
Example cadence :
  heartbeat_report_interval_seconds <$> [of_Z 5; fratio 1 10; fratio 13 10; fratio (-1) 2] =
  [of_Z 5; fratio 1 4; fratio 3 2; fzero].
Proof. vm_compute. reflexivity. Qed.
