(* ===== verification/AttemptSupervisor.v ===== *)
(** * Supervision of a publish attempt

    The parent of an attempt in a child process: the bounded result a child may send
    ([apps/egress-gateway/attempt_supervisor.py]), the messages and the loop that owns
    the child until it is gone ([supervise_attempt_child] of [isolated_attempt.py]).

    The child, the pipe, the clock and the stop event are sequences of answers, one
    per call; every effect on the child is kept in a trace. A signal that is not
    delivered answers the exception it raises. *)

From S2P Require Import Prelude PyFloat Sha256 PyValue Effects Uuid PyText IpAddress Url EgressDestination EgressPolicy.

(** ** The result of a child *)
Record ChildAttemptResult : Type := AttemptResult {
  reason_code : string;
  connected_once : bool;
  rendered_buffers : Z;
  terminal : bool;
  error_domain : option string;
  error_code : option Z
}.

Record ChildReapResult : Type := ReapResult { disposition : string; exit_code : option Z }.

Definition upper_char (c : Ascii.ascii) : bool := let n := byte_code c in (65 <=? n) && (n <=? 90).
Definition reason_char (c : Ascii.ascii) : bool := upper_char c || is_digit c || Ascii.eqb c "_".
Definition domain_char (c : Ascii.ascii) : bool :=
  is_alpha c || is_digit c || Ascii.eqb c "_" || Ascii.eqb c "." || Ascii.eqb c "-".

(** [[A-Z][A-Z0-9_]{0,99}] and [[A-Za-z0-9_.-]{1,100}] *)
Definition _REASON_RE (s : string) : bool :=
  match s with
  | String c s' => upper_char c && all_chars reason_char s' && Nat.leb (String.length s') 99
  | EmptyString => false
  end.
Definition _ERROR_DOMAIN_RE (s : string) : bool :=
  all_chars domain_char s && Nat.leb 1 (String.length s) && Nat.leb (String.length s) 100.

Definition _ALLOWED_RESULT_KEYS : gset string :=
  {[ "reason_code"; "connected_once"; "rendered_buffers"; "terminal"; "error_domain"; "error_code" ]}.
Definition _REQUIRED_RESULT_KEYS : gset string :=
  {[ "reason_code"; "connected_once"; "rendered_buffers"; "terminal" ]}.

(** [float(value)] of what is no [bool]. *)
Definition float_value (v : value) : option float :=
  match v with
  | VInt z => let f := of_Z z in if is_finite f then Some f else None
  | VFloat f => Some f
  | VStr s => float_of_text s
  | _ => None
  end.

Definition _bounded_timeout (v : value) : result float :=
  match float_value v with
  | Some f => if is_finite f && negb (flt f fzero) then Ok f else Err ValueError
  | None => Err ValueError
  end.

Definition _finite_number (v : value) : result float :=
  match float_value v with
  | Some f => if is_finite f then Ok f else Err ValueError
  | None => Err ValueError
  end.

Definition _nonnegative_timeout (v : value) : result float :=
  f ← _finite_number v; raise_if (flt f fzero) ValueError ;; Ok f.

Definition _legacy_nonnegative_timer (v : value) : result float :=
  f ← _finite_number v; Ok (fmax fzero f).

(** The optional fields: absent and [None] alike. *)
Definition optional_domain (v : value) : result (option string) :=
  match v with
  | VNull => Ok None
  | VStr s => if _ERROR_DOMAIN_RE s then Ok (Some s) else Err InvalidAttemptResult
  | _ => Err InvalidAttemptResult
  end.
Definition optional_code (v : value) : result (option Z) :=
  match v with VNull => Ok None | VInt z => Ok (Some z) | _ => Err InvalidAttemptResult end.

Definition parse_child_attempt_result (payload : value) : result ChildAttemptResult :=
  match payload with
  | VDict d =>
      raise_if (negb (bool_decide (_REQUIRED_RESULT_KEYS ⊆ dom d)) ||
                negb (bool_decide (dom d ⊆ _ALLOWED_RESULT_KEYS))) InvalidAttemptResult ;;
      reason ← match py_get d "reason_code" with
               | VStr s => if _REASON_RE s then Ok s else Err InvalidAttemptResult
               | _ => Err InvalidAttemptResult
               end;
      match py_get d "connected_once", py_get d "terminal" with
      | VBool connected, VBool term =>
          match py_get d "rendered_buffers" with
          | VInt rendered =>
              raise_if (rendered <? 0) InvalidAttemptResult ;;
              domain ← optional_domain (py_get d "error_domain");
              code ← optional_code (py_get d "error_code");
              Ok (AttemptResult reason connected rendered term domain code)
          | _ => Err InvalidAttemptResult
          end
      | _, _ => Err InvalidAttemptResult
      end
  | _ => Err InvalidAttemptResult
  end.

(** ** The messages of a child *)
Inductive ChildMessage : Type :=
| MsgConnected (rendered_buffers : Z)
| MsgProgress (rendered_buffers : Z)
| MsgTeardown (result : ChildAttemptResult)
| MsgResult (result : ChildAttemptResult).

Definition parse_progress (d : dict) : result Z :=
  raise_if (negb (bool_decide (dom d = {[ "type"; "rendered_buffers" ]}))) InvalidChildMessage ;;
  match py_get d "rendered_buffers" with
  | VInt rendered => if rendered <? 0 then Err InvalidChildMessage else Ok rendered
  | _ => Err InvalidChildMessage
  end.

Definition parse_result (d : dict) : result ChildAttemptResult :=
  raise_if (negb (bool_decide (dom d = {[ "type"; "result" ]}))) InvalidChildMessage ;;
  match parse_child_attempt_result (py_get d "result") with
  | Ok r => Ok r
  | Err _ => Err InvalidChildMessage
  end.

(** [kind in {...}] hashes the kind: a list or a dict raises [TypeError]. *)
Definition parse_child_message (payload : value) : result ChildMessage :=
  match payload with
  | VDict d =>
      match py_get d "type" with
      | VStr kind =>
          if String.eqb kind "connected" then n ← parse_progress d; Ok (MsgConnected n)
          else if String.eqb kind "progress" then n ← parse_progress d; Ok (MsgProgress n)
          else if String.eqb kind "teardown" then r ← parse_result d; Ok (MsgTeardown r)
          else if String.eqb kind "result" then r ← parse_result d; Ok (MsgResult r)
          else Err InvalidChildMessage
      | VList _ | VDict _ => Err TypeError
      | _ => Err InvalidChildMessage
      end
  | _ => Err InvalidChildMessage
  end.

(** [_result_payload] of a result. *)
Definition _result_payload (r : ChildAttemptResult) : dict :=
  list_to_map
    [("reason_code", VStr (reason_code r)); ("connected_once", VBool (connected_once r));
     ("rendered_buffers", VInt (rendered_buffers r)); ("terminal", VBool (terminal r));
     ("error_domain", opt_str (error_domain r));
     ("error_code", match error_code r with Some z => VInt z | None => VNull end)].

(** ** The world of an attempt *)
Record attempt_env : Type := AttemptEnv {
  clock_at : nat -> float;
  stop_at : nat -> bool;
  (** [None]: [EOFError] or [OSError] *)
  poll_at : nat -> option bool;
  recv_at : nat -> option value;
  alive_at : nat -> bool;
  (** [Some e]: the signal raises [e] *)
  signal_at : nat -> option exn;
  child_exit : option Z
}.

Inductive action : Type :=
| Joined (timeout : float)
| SawAlive (alive : bool)
| SentTerminate
| SentKill
| ToldStop
| Reported (message : ChildMessage).

Record attempt_world : Type := AttemptWorld {
  attempt_oracle : attempt_env;
  n_clock : nat; n_stop : nat; n_poll : nat; n_recv : nat; n_alive : nat; n_signal : nat;
  trace : list action
}.

Abbreviation AM := (M attempt_world).

Definition note (a : action) (w : attempt_world) : attempt_world :=
  AttemptWorld (attempt_oracle w) (n_clock w) (n_stop w) (n_poll w) (n_recv w) (n_alive w) (n_signal w)
    (a :: trace w).

Definition monotonic : AM float := fun w =>
  (Ok (clock_at (attempt_oracle w) (n_clock w)),
   AttemptWorld (attempt_oracle w) (S (n_clock w)) (n_stop w) (n_poll w) (n_recv w) (n_alive w) (n_signal w) (trace w)).
Definition stop_is_set : AM bool := fun w =>
  (Ok (stop_at (attempt_oracle w) (n_stop w)),
   AttemptWorld (attempt_oracle w) (n_clock w) (S (n_stop w)) (n_poll w) (n_recv w) (n_alive w) (n_signal w) (trace w)).
(** A pipe that is closed or broken has nothing to receive. *)
Definition connection_poll : AM bool := fun w =>
  (Ok (default false (poll_at (attempt_oracle w) (n_poll w))),
   AttemptWorld (attempt_oracle w) (n_clock w) (n_stop w) (S (n_poll w)) (n_recv w) (n_alive w) (n_signal w) (trace w)).
Definition connection_recv : AM (option value) := fun w =>
  (Ok (recv_at (attempt_oracle w) (n_recv w)),
   AttemptWorld (attempt_oracle w) (n_clock w) (n_stop w) (n_poll w) (S (n_recv w)) (n_alive w) (n_signal w) (trace w)).
Definition is_alive : AM bool := fun w =>
  let b := alive_at (attempt_oracle w) (n_alive w) in
  (Ok b, AttemptWorld (attempt_oracle w) (n_clock w) (n_stop w) (n_poll w) (n_recv w) (S (n_alive w)) (n_signal w)
           (SawAlive b :: trace w)).
Definition join (timeout : float) : AM unit := fun w => (Ok tt, note (Joined timeout) w).
Definition told_stop : AM unit := fun w => (Ok tt, note ToldStop w).
Definition reported (m : ChildMessage) : AM unit := fun w => (Ok tt, note (Reported m) w).
Definition exitcode : AM (option Z) := fun w => (Ok (child_exit (attempt_oracle w)), w).

(** [process.terminate()] or [process.kill()]; whether it was sent. *)
Definition signal (a : action) : AM bool := fun w =>
  let w' := AttemptWorld (attempt_oracle w) (n_clock w) (n_stop w) (n_poll w) (n_recv w) (n_alive w)
              (S (n_signal w)) (trace w) in
  match signal_at (attempt_oracle w) (n_signal w) with
  | None => (Ok true, note a w')
  | Some ProcessLookupError => (Ok false, w')
  | Some e => (Err e, w')
  end.

Definition reap_child (natural_timeout_seconds terminate_timeout_seconds kill_timeout_seconds : value)
    : AM ChildReapResult :=
  natural_timeout ← lift (_bounded_timeout natural_timeout_seconds);
  terminate_timeout ← lift (_bounded_timeout terminate_timeout_seconds);
  kill_timeout ← lift (_bounded_timeout kill_timeout_seconds);
  join natural_timeout ;;
  alive ← is_alive;
  if negb alive then code ← exitcode; mret (ReapResult "exited" code)
  else
    terminate_sent ← signal SentTerminate;
    join terminate_timeout ;;
    alive ← is_alive;
    if negb alive then
      code ← exitcode; mret (ReapResult (if terminate_sent : bool then "terminated" else "exited") code)
    else
      kill_sent ← signal SentKill;
      join kill_timeout ;;
      alive ← is_alive;
      if alive : bool then raise AttemptSupervisorError
      else
        code ← exitcode;
        mret (ReapResult (if kill_sent : bool then "killed"
                          else if terminate_sent : bool then "terminated" else "exited") code).

(** ** The loop of [supervise_attempt_child] *)
Definition _local_failure (connected : bool) (rendered : Z) : ChildAttemptResult :=
  AttemptResult "LOCAL_PIPELINE_FAILED" connected rendered true None None.

Definition _NATURAL_REAP_SECONDS : float := fratio 1 2.

Record timers : Type := Timers {
  connect_timeout : float; liveness_timeout : float; status_heartbeat : float;
  teardown_timeout : float; terminate_timeout : float; kill_timeout : float
}.

Definition read_timers (connect liveness heartbeat teardown terminate kill poll : value) : result timers :=
  connect ← _legacy_nonnegative_timer connect;
  liveness ← _nonnegative_timeout liveness;
  heartbeat ← _legacy_nonnegative_timer heartbeat;
  teardown ← _nonnegative_timeout teardown;
  terminate ← _nonnegative_timeout terminate;
  kill ← _nonnegative_timeout kill;
  _nonnegative_timeout poll ;;
  Ok (Timers connect liveness heartbeat teardown terminate kill).

(** The local variables of the loop. *)
Record watch : Type := Watch {
  startup_deadline : option float;
  liveness_deadline : option float;
  teardown_deadline : option float;
  stop_deadline : option float;
  pending_result : option ChildAttemptResult;
  saw_connected : bool;
  saw_rendered : Z
}.

Section supervise.
Context (t : timers).
(** [on_connected] and [on_progress], when the caller gave them. *)
Context (on_connected on_progress : option (Z -> AM unit)).

Definition liveness_armed : bool := liveness_window_can_be_armed (liveness_timeout t) (status_heartbeat t).

Definition fence (natural_timeout : float) : AM unit :=
  reap_child (VFloat natural_timeout) (VFloat (terminate_timeout t)) (VFloat (kill_timeout t)) ;; mret tt.

Definition call_back (f : option (Z -> AM unit)) (m : ChildMessage) (n : Z) : AM unit :=
  match f with Some f => reported m ;; f n | None => mret tt end.

(** [now + timeout] *)
Definition deadline_after (timeout : float) : AM (option float) :=
  now ← monotonic; mret (Some (fadd now timeout)).

(** The user's stop, seen once. *)
Definition check_stop (now : float) (s : watch) : AM watch :=
  stopped ← stop_is_set;
  match stop_deadline s with
  | None =>
      if stopped : bool then
        told_stop ;;
        mret (Watch (startup_deadline s) (liveness_deadline s) (teardown_deadline s)
                (Some (fadd now (teardown_timeout t))) (pending_result s) (saw_connected s) (saw_rendered s))
      else mret s
  | Some _ => mret s
  end.

(** Any accepted message is evidence that the child lives. *)
Definition refresh_liveness (s : watch) : AM watch :=
  match liveness_deadline s with
  | None => mret s
  | Some _ =>
      d ← deadline_after (liveness_timeout t);
      mret (Watch (startup_deadline s) d (teardown_deadline s) (stop_deadline s) (pending_result s)
              (saw_connected s) (saw_rendered s))
  end.

(** One message: the variables after it, or the result that ends the loop. *)
Definition handle_message (m : ChildMessage) (s : watch) : AM (watch + ChildAttemptResult) :=
  match m with
  | MsgConnected n =>
      let rendered := Z.max (saw_rendered s) n in
      live ← if liveness_armed then deadline_after (liveness_timeout t) else mret (liveness_deadline s);
      let s := Watch None live (teardown_deadline s) (stop_deadline s) (pending_result s) true rendered in
      call_back on_connected m rendered ;;
      s ← refresh_liveness s; mret (inl s)
  | MsgProgress n =>
      let rendered := Z.max (saw_rendered s) n in
      let s := Watch (startup_deadline s) (liveness_deadline s) (teardown_deadline s) (stop_deadline s)
                 (pending_result s) (saw_connected s) rendered in
      call_back on_progress m rendered ;;
      s ← refresh_liveness s; mret (inl s)
  | MsgTeardown r =>
      let connected := saw_connected s || connected_once r in
      let rendered := Z.max (saw_rendered s) (rendered_buffers r) in
      teardown ← match teardown_deadline s with
                 | None => deadline_after (teardown_timeout t)
                 | d => mret d
                 end;
      s ← refresh_liveness (Watch (startup_deadline s) (liveness_deadline s) teardown (stop_deadline s)
                              (Some r) connected rendered);
      mret (inl s)
  | MsgResult r => fence _NATURAL_REAP_SECONDS ;; mret (inr r)
  end.

Definition receive_message (s : watch) : AM (watch + ChildAttemptResult) :=
  received ← connection_poll;
  if negb received then mret (inl s)
  else
    raw ← connection_recv;
    match raw with
    | None => fence fzero ;; mret (inr (_local_failure (saw_connected s) (saw_rendered s)))
    | Some payload =>
        match parse_child_message payload with
        | Err InvalidChildMessage => fence fzero ;; mret (inr (_local_failure (saw_connected s) (saw_rendered s)))
        | Err e => raise e
        | Ok m => handle_message m s
        end
    end.

Definition passed (now : float) (deadline : option float) : bool :=
  match deadline with Some d => fle d now | None => false end.

(** The deadlines after a message, and the child that exits by itself. *)
Definition check_deadlines (s : watch) : AM (watch + ChildAttemptResult) :=
  now ← monotonic;
  if passed now (stop_deadline s) then
    fence fzero ;; mret (inr (AttemptResult "STOPPED" (saw_connected s) (saw_rendered s) false None None))
  else if passed now (teardown_deadline s) then
    fence fzero ;;
    mret (inr (default (_local_failure (saw_connected s) (saw_rendered s)) (pending_result s)))
  else if passed now (startup_deadline s) then
    fence fzero ;; mret (inr (AttemptResult "TIMEOUT" false (saw_rendered s) false None None))
  else if passed now (liveness_deadline s) then
    fence fzero ;;
    mret (inr (default (AttemptResult "TIMEOUT" (saw_connected s) (saw_rendered s) false None None)
                 (pending_result s)))
  else
    alive ← is_alive;
    if alive : bool then mret (inl s)
    else
      more ← connection_poll;
      if more : bool then mret (inl s)
      else
        join fzero ;;
        mret (inr (default (_local_failure (saw_connected s) (saw_rendered s)) (pending_result s))).

(** One turn of the loop. *)
Definition turn (s : watch) : AM (watch + ChildAttemptResult) :=
  now ← monotonic;
  s ← check_stop now s;
  r ← receive_message s;
  match r with
  | inr result => mret (inr result)
  | inl s => check_deadlines s
  end.

(** [fuel] turns at most; [None] when the loop is still going on. *)
Fixpoint supervise_loop (fuel : nat) (s : watch) : AM (option ChildAttemptResult) :=
  match fuel with
  | O => mret None
  | S fuel' =>
      r ← turn s;
      match r with
      | inr result => mret (Some result)
      | inl s => supervise_loop fuel' s
      end
  end.

Definition first_watch (started_at : float) : watch :=
  Watch (if flt fzero (connect_timeout t)
         then Some (fadd (fadd started_at (connect_timeout t)) (teardown_timeout t)) else None)
    None None None None false 0.

Definition supervise (fuel : nat) : AM (option ChildAttemptResult) :=
  started_at ← monotonic; supervise_loop fuel (first_watch started_at).
End supervise.

Definition supervise_attempt_child (connect liveness heartbeat teardown terminate kill poll : value)
    (on_connected on_progress : option (Z -> AM unit)) (fuel : nat) : AM (option ChildAttemptResult) :=
  t ← lift (read_timers connect liveness heartbeat teardown terminate kill poll);
  supervise t on_connected on_progress fuel.
