(* ===== verification/AttemptTheorems.v ===== *)
(** * Supervision of a publish attempt: theorems

    A result of the loop means that the child is gone; a stop of the user ends the
    loop whatever the child sends; a result that a child may send is read back as it
    was. *)

From S2P Require Import Prelude PyFloat Sha256 PyValue Effects Uuid PyText IpAddress Url EgressDestination EgressPolicy AttemptSupervisor.

(** ** A child that is gone *)
Fixpoint last_alive (l : list action) : option bool :=
  match l with
  | [] => None
  | SawAlive b :: _ => Some b
  | _ :: l' => last_alive l'
  end.

Definition gone (w : attempt_world) : Prop := last_alive (trace w) = Some false.

Lemma is_alive_run w b w' : is_alive w = (Ok b, w') -> last_alive (trace w') = Some b.
Proof. by intros [= <- <-]. Qed.

Lemma reap_child_gone a b c w r w' : reap_child a b c w = (Ok r, w') -> gone w'.
Proof.
  unfold reap_child. intros (na & w1 & _ & H)%bind_ok. apply bind_ok in H as (nb & w2 & _ & H).
  apply bind_ok in H as (nc & w3 & _ & H). apply bind_ok in H as (u & w4 & _ & H).
  apply bind_ok in H as (alive & w5 & Ha%is_alive_run & H).
  assert (Hend : forall d w6, last_alive (trace w6) = Some false ->
    (exitcode ≫= fun code => mret (ReapResult d code)) w6 = (Ok r, w') -> gone w').
  { intros d w6 Hd (code & w7 & [= _ <-] & [_ <-]%ret_ok)%bind_ok. exact Hd. }
  destruct alive; cbn [negb] in H; [|by eapply Hend].
  apply bind_ok in H as (sent & w6 & _ & H). apply bind_ok in H as (u2 & w7 & _ & H).
  apply bind_ok in H as (alive & w8 & Ha2%is_alive_run & H).
  destruct alive; cbn [negb] in H; [|by eapply Hend].
  apply bind_ok in H as (killed & w9 & _ & H). apply bind_ok in H as (u3 & w10 & _ & H).
  apply bind_ok in H as (alive & w11 & Ha3%is_alive_run & H).
  destruct alive; [done|by eapply Hend].
Qed.

(** What ends the loop leaves no child behind. *)
Class Fences (m : AM (watch + ChildAttemptResult)) : Prop :=
  fences : forall w r w', m w = (Ok (inr r), w') -> gone w'.

#[export] Instance fences_continue s : Fences (mret (inl s)).
Proof. by intros w r w' [? _]%ret_ok. Qed.

#[export] Instance fences_fence t f r : Fences (fence t f ;; mret (inr r)).
Proof.
  intros w r' w' (u & w1 & H & [_ <-]%ret_ok)%bind_ok. unfold fence in H.
  apply bind_ok in H as (v & w2 & H & [_ <-]%ret_ok). by apply reap_child_gone in H.
Qed.

#[export] Instance fences_bind {A} (m : AM A) f : (forall a, Fences (f a)) -> Fences (m ≫= f).
Proof. intros Hf w r w' (a & w1 & _ & H)%bind_ok. by eapply Hf. Qed.

#[export] Instance fences_raise e : Fences (raise e).
Proof. by intros w r w'. Qed.

Section supervised.
Context (t : timers) (on_connected on_progress : option (Z -> AM unit)).

#[export] Instance fences_message m s : Fences (handle_message t on_connected on_progress m s).
Proof. destruct m; cbn [handle_message]; apply _. Qed.

#[export] Instance fences_receive s : Fences (receive_message t on_connected on_progress s).
Proof.
  unfold receive_message. apply fences_bind. intros []; cbn [negb]; [|apply _].
  apply fences_bind. intros [payload|]; [|apply _].
  destruct (parse_child_message payload) as [m|[]]; apply _.
Qed.

#[export] Instance fences_deadlines s : Fences (check_deadlines t s).
Proof.
  unfold check_deadlines. apply fences_bind. intros now.
  repeat (destruct (passed _ _); [apply _|]).
  intros w r w' (alive & w1 & Ha%is_alive_run & H)%bind_ok. destruct alive; [by apply ret_ok in H as [? _]|].
  apply bind_ok in H as (more & w2 & [= <- <-] & H). destruct (default _ _); [by apply ret_ok in H as [? _]|].
  apply bind_ok in H as (u & w3 & [= _ <-] & H). apply ret_ok in H as [_ ->]. exact Ha.
Qed.

#[export] Instance fences_turn s : Fences (turn t on_connected on_progress s).
Proof.
  unfold turn. apply fences_bind. intros now. apply fences_bind. intros s'.
  intros w r w' (x & w1 & H1 & H)%bind_ok. destruct x as [s''|r'].
  - by apply (fences_deadlines s'') in H.
  - apply ret_ok in H as [[= <-] ->]. by apply (fences_receive s') in H1.
Qed.

Lemma loop_gone fuel s w r w' :
  supervise_loop t on_connected on_progress fuel s w = (Ok (Some r), w') -> gone w'.
Proof.
  revert s w. induction fuel as [|fuel IH]; intros s w; cbn [supervise_loop]; [by intros [? _]%ret_ok|].
  intros (x & w1 & H1 & H)%bind_ok. destruct x as [s'|r'].
  - by apply IH in H.
  - apply ret_ok in H as [[= <-] ->]. by apply fences_turn in H1.
Qed.

(** ** A stop ends the loop

    Time goes on: the answers stay the same, and are used up in order. *)
Definition forward (w w' : attempt_world) : Prop :=
  attempt_oracle w' = attempt_oracle w /\ (n_clock w <= n_clock w')%nat /\ (n_stop w <= n_stop w')%nat.

#[export] Instance forward_preorder : PreOrder forward.
Proof. split; unfold forward; [done|]. intros a b c (-> & ? & ?) (-> & ? & ?). split; [done|lia]. Qed.

Definition going_on (f : option (Z -> AM unit)) : Prop :=
  match f with Some f => forall n, Resp forward (f n) | None => True end.

Ltac forward_step := intros w; unfold forward; cbn; split; [done|lia].

#[export] Instance forward_monotonic : Resp forward monotonic.
Proof. forward_step. Qed.
#[export] Instance forward_stop : Resp forward stop_is_set.
Proof. forward_step. Qed.
#[export] Instance forward_poll : Resp forward connection_poll.
Proof. forward_step. Qed.
#[export] Instance forward_recv : Resp forward connection_recv.
Proof. forward_step. Qed.
#[export] Instance forward_alive : Resp forward is_alive.
Proof. forward_step. Qed.
#[export] Instance forward_told : Resp forward told_stop.
Proof. forward_step. Qed.
#[export] Instance forward_exitcode : Resp forward exitcode.
Proof. forward_step. Qed.
#[export] Instance forward_join f : Resp forward (join f).
Proof. forward_step. Qed.
#[export] Instance forward_reported m : Resp forward (reported m).
Proof. forward_step. Qed.
#[export] Instance forward_signal a : Resp forward (signal a).
Proof.
  intros w. unfold signal. destruct (signal_at _ _) as [[]|]; unfold forward; cbn; (split; [done|lia]).
Qed.
#[export] Instance forward_deadline f : Resp forward (deadline_after f).
Proof. unfold deadline_after. solve_resp. Qed.
#[export] Instance forward_reap a b c : Resp forward (reap_child a b c).
Proof. unfold reap_child. solve_resp. Qed.
#[export] Instance forward_fence f : Resp forward (fence t f).
Proof. unfold fence. solve_resp. Qed.
#[export] Instance forward_refresh s : Resp forward (refresh_liveness t s).
Proof. unfold refresh_liveness. solve_resp. Qed.
#[export] Instance forward_check_stop now s : Resp forward (check_stop t now s).
Proof. unfold check_stop. solve_resp. Qed.

Lemma forward_call_back f m n : going_on f -> Resp forward (call_back f m n).
Proof. destruct f; cbn; [|apply _]. intros Hf. apply resp_bind; [apply _|apply _|intros _; apply Hf]. Qed.

Context (Hconnected : going_on on_connected) (Hprogress : going_on on_progress).

#[local] Instance forward_message m s : Resp forward (handle_message t on_connected on_progress m s).
Proof using All.
  pose proof (fun f m n => forward_call_back f m n) as Hcb.
  destruct m; cbn [handle_message]; solve_resp; by apply Hcb.
Qed.

#[local] Instance forward_receive s : Resp forward (receive_message t on_connected on_progress s).
Proof using All. unfold receive_message. solve_resp. Qed.

#[local] Instance forward_deadlines s : Resp forward (check_deadlines t s).
Proof. unfold check_deadlines. solve_resp. Qed.

(** The deadline of a stop stays once it is set. *)
Class Stops (d : option float) (m : AM (watch + ChildAttemptResult)) : Prop :=
  stops : forall w s w', m w = (Ok (inl s), w') -> stop_deadline s = d.

#[export] Instance stops_bind {A} d (m : AM A) f : (forall a, Stops d (f a)) -> Stops d (m ≫= f).
Proof. intros Hf w s w' (a & w1 & _ & H)%bind_ok. by eapply Hf. Qed.
#[export] Instance stops_result d r : Stops d (mret (inr r)).
Proof. by intros w s w' [? _]%ret_ok. Qed.
#[export] Instance stops_raise d e : Stops d (raise e).
Proof. by intros w s w'. Qed.
#[export] Instance stops_continue s : Stops (stop_deadline s) (mret (inl s)).
Proof. by intros w s' w' [[= <-] _]%ret_ok. Qed.

Lemma stops_refresh s : Stops (stop_deadline s) (s' ← refresh_liveness t s; mret (inl s')).
Proof.
  clear Hconnected Hprogress. unfold refresh_liveness.
  intros w s' w' (s1 & w1 & H & [[= <-] _]%ret_ok)%bind_ok. destruct (liveness_deadline s).
  - apply bind_ok in H as (d & w2 & _ & H). by apply ret_ok in H as [-> _].
  - by apply ret_ok in H as [-> _].
Qed.

#[export] Instance stops_message m s : Stops (stop_deadline s) (handle_message t on_connected on_progress m s).
Proof.
  clear Hconnected Hprogress. destruct m as [n|n|r|r]; cbn [handle_message]; try apply _.
  - apply stops_bind. intros live. apply stops_bind. intros _.
    exact (stops_refresh (Watch None live (teardown_deadline s) (stop_deadline s) (pending_result s) true
      (Z.max (saw_rendered s) n))).
  - apply stops_bind. intros _.
    exact (stops_refresh (Watch (startup_deadline s) (liveness_deadline s) (teardown_deadline s) (stop_deadline s)
      (pending_result s) (saw_connected s) (Z.max (saw_rendered s) n))).
  - apply stops_bind. intros d.
    exact (stops_refresh (Watch (startup_deadline s) (liveness_deadline s) d (stop_deadline s) (Some r)
      (saw_connected s || connected_once r) (Z.max (saw_rendered s) (rendered_buffers r)))).
Qed.

#[export] Instance stops_receive s : Stops (stop_deadline s) (receive_message t on_connected on_progress s).
Proof.
  clear Hconnected Hprogress. unfold receive_message. apply stops_bind. intros []; cbn [negb]; [|apply _].
  apply stops_bind. intros [payload|]; [|apply _].
  destruct (parse_child_message payload) as [m|[]]; apply _.
Qed.

(** A turn that leaves the loop going on: it used the clock and the stop event, it
    remembers a stop, and the deadline of a stop was not over. *)
Lemma turn_continues s w s' w' :
  turn t on_connected on_progress s w = (Ok (inl s'), w') ->
  attempt_oracle w' = attempt_oracle w /\ (n_clock w < n_clock w')%nat /\ (n_stop w < n_stop w')%nat /\
  stop_deadline s' = match stop_deadline s with
                     | Some d => Some d
                     | None => if stop_at (attempt_oracle w) (n_stop w)
                               then Some (fadd (clock_at (attempt_oracle w) (n_clock w)) (teardown_timeout t))
                               else None
                     end /\
  exists i, (n_clock w <= i)%nat /\ passed (clock_at (attempt_oracle w) i) (stop_deadline s') = false.
Proof using All.
  unfold turn. intros (now & w1 & [= <- <-] & H)%bind_ok.
  apply bind_ok in H as (s1 & w2 & H1 & H). unfold check_stop in H1.
  apply bind_ok in H1 as (st & w1' & [= <- <-] & H1). cbn [attempt_oracle n_stop] in H1.
  assert (Hs : attempt_oracle w2 = attempt_oracle w /\ n_clock w2 = S (n_clock w) /\ n_stop w2 = S (n_stop w) /\
    stop_deadline s1 = match stop_deadline s with
                       | Some d => Some d
                       | None => if stop_at (attempt_oracle w) (n_stop w)
                                 then Some (fadd (clock_at (attempt_oracle w) (n_clock w)) (teardown_timeout t))
                                 else None
                       end).
  { destruct (stop_deadline s) as [d|] eqn:Ed.
    - by apply ret_ok in H1 as [-> ->].
    - destruct (stop_at _ _).
      + apply bind_ok in H1 as (u & w3 & [= _ <-] & H1). by apply ret_ok in H1 as [-> ->].
      + by apply ret_ok in H1 as [-> ->]. }
  destruct Hs as (Ho & Hc & Hn & Hd). clear H1.
  apply bind_ok in H as (r & w3 & H1 & H). pose proof (forward_receive s1 w2) as F. rewrite H1 in F. cbn [snd] in F.
  destruct r as [s2|r]; [|by apply ret_ok in H as [? _]].
  apply stops_receive in H1. destruct F as (F1 & F2 & F3).
  unfold check_deadlines in H. apply bind_ok in H as (now & w4 & [= <- <-] & H).
  destruct (passed _ (stop_deadline s2)) eqn:Ep.
  { apply bind_ok in H as (u & w5 & _ & H). by apply ret_ok in H as [? _]. }
  assert (Hend : s' = s2 /\ forward (AttemptWorld (attempt_oracle w3) (S (n_clock w3)) (n_stop w3) (n_poll w3)
    (n_recv w3) (n_alive w3) (n_signal w3) (trace w3)) w').
  { repeat (destruct (passed _ _) in H;
      [apply bind_ok in H as (? & ? & _ & H); by apply ret_ok in H as [? _]|]).
    apply bind_ok in H as (alive & w5 & [= <- <-] & H). destruct (alive_at _ _).
    - apply ret_ok in H as [[= ->] ->]. split; [done|]. unfold forward. cbn. split; [done|lia].
    - apply bind_ok in H as (more & w6 & [= <- <-] & H). destruct (default _ _).
      + apply ret_ok in H as [[= ->] ->]. split; [done|]. unfold forward. cbn. split; [done|lia].
      + apply bind_ok in H as (u & w7 & _ & H). by apply ret_ok in H as [? _]. }
  destruct Hend as (-> & G1 & G2 & G3). cbn in G1, G2, G3.
  split; [congruence|]. split; [lia|]. split; [lia|]. split; [congruence|].
  exists (n_clock w3). split; [lia|]. by rewrite <- Ho, <- F1.
Qed.

(** When the deadline of a stop is over for good, the loop ends within as many turns
    as there are readings of the clock before that. *)
Lemma stopped_loop_ends N d fuel s w :
  stop_deadline s = Some d ->
  (forall i, (N <= i)%nat -> fle d (clock_at (attempt_oracle w) i) = true) ->
  (N - n_clock w < fuel)%nat ->
  (supervise_loop t on_connected on_progress fuel s w).1 <> Ok None.
Proof using All.
  revert s w. induction fuel as [|fuel IH]; intros s w Hd Hclk Hf; [lia|].
  cbn [supervise_loop]. destruct (turn t on_connected on_progress s w) as [[[s'|r]|e] w1] eqn:E;
    unfold mbind, M_bind; rewrite E; [|done|done].
  apply turn_continues in E as (Ho & Hc & _ & Hs & i & Hi & Hp). rewrite Hd in Hs. rewrite Hs in Hp. cbn in Hp.
  apply IH; [done|by rewrite Ho|].
  assert (i < N)%nat; [|lia]. destruct (Nat.lt_ge_cases i N) as [|Hge]; [done|]. rewrite Hclk in Hp by done. done.
Qed.

(** The clock eventually passes every deadline that a stop may get. *)
Definition time_passes (e : attempt_env) : Prop :=
  forall n, exists N, forall i, (N <= i)%nat ->
    fle (fadd (clock_at e n) (teardown_timeout t)) (clock_at e i) = true.

Definition deadline_set (e : attempt_env) (d : option float) : Prop :=
  match d with Some d => exists n, d = fadd (clock_at e n) (teardown_timeout t) | None => True end.

Lemma deadline_loop_ends e s w : time_passes e -> attempt_oracle w = e ->
  deadline_set e (stop_deadline s) -> is_Some (stop_deadline s) ->
  exists fuel, forall fuel', (fuel <= fuel')%nat ->
    (supervise_loop t on_connected on_progress fuel' s w).1 <> Ok None.
Proof using All.
  intros Hclk <- Hset [d Hd]. rewrite Hd in Hset. destruct Hset as [n ->]. destruct (Hclk n) as [N HN].
  exists (S N). intros fuel' Hf. eapply stopped_loop_ends; [exact Hd|exact HN|lia].
Qed.

(** From any state of the loop. *)
Lemma stop_ends_loop e j k s w :
  (forall i, (j <= i)%nat -> stop_at e i = true) -> time_passes e ->
  attempt_oracle w = e -> deadline_set e (stop_deadline s) -> (j - n_stop w <= k)%nat ->
  exists fuel, forall fuel', (fuel <= fuel')%nat ->
    (supervise_loop t on_connected on_progress fuel' s w).1 <> Ok None.
Proof using All.
  intros Hstop Hclk. revert s w.
  induction k as [|k IH]; intros s w He Hd Hk;
    (destruct (stop_deadline s) as [d|] eqn:Ed;
      [apply (deadline_loop_ends e); [done|done|by rewrite Ed|by rewrite Ed]|]);
    destruct (turn t on_connected on_progress s w) as [r w1] eqn:E.
  all: assert (Hone : (forall s', r <> Ok (inl s')) -> exists fuel, forall fuel', (fuel <= fuel')%nat ->
      (supervise_loop t on_connected on_progress fuel' s w).1 <> Ok None);
    [intros Hr; exists 1%nat; intros [|fuel'] Hf; [lia|]; cbn [supervise_loop]; unfold mbind, M_bind; rewrite E;
     destruct r as [[s'|r]|x]; [by destruct (Hr s')|done|done]|].
  all: destruct r as [[s'|r]|x]; [|by apply Hone|by apply Hone]; clear Hone.
  all: pose proof (turn_continues _ _ _ _ E) as (Ho & Hc & Hn & Hs & _); rewrite Ed, He in Hs.
  all: assert (Hnext : (exists fuel, forall fuel', (fuel <= fuel')%nat ->
      (supervise_loop t on_connected on_progress fuel' s' w1).1 <> Ok None) ->
      exists fuel, forall fuel', (fuel <= fuel')%nat ->
        (supervise_loop t on_connected on_progress fuel' s w).1 <> Ok None);
    [intros [fuel Hfuel]; exists (S fuel); intros [|fuel'] Hf; [lia|]; cbn [supervise_loop];
     unfold mbind, M_bind; rewrite E; apply Hfuel; lia|].
  - rewrite Hstop in Hs by lia. apply Hnext, (deadline_loop_ends e); [done|congruence| |by rewrite Hs].
    rewrite Hs. cbn. eauto.
  - apply Hnext. apply IH; [congruence| |lia]. rewrite Hs. destruct (stop_at _ _); cbn; eauto.
Qed.
End supervised.

(** C18: No attempt is abandoned alive. Whatever the child sends, whenever it hangs,
    crashes or floods the parent, and whatever the callbacks do: when the supervision
    of an attempt returns a result, the last thing the parent saw of the child is
    that it is not alive. *)
Theorem attempt_returns_fenced connect liveness heartbeat teardown terminate kill poll
    on_connected on_progress fuel w r w' :
  supervise_attempt_child connect liveness heartbeat teardown terminate kill poll
    on_connected on_progress fuel w = (Ok (Some r), w') ->
  last_alive (trace w') = Some false.
Proof.
  intros (t & w1 & _ & H)%bind_ok. unfold supervise in H. apply bind_ok in H as (now & w2 & _ & H).
  exact (loop_gone _ _ _ _ _ _ _ _ H).
Qed.

(** A stop ends the attempt. Once the user's stop stays set, and as long as the
    clock eventually passes the deadlines it sets and the callbacks do not turn time
    back, the supervision ends after finitely many turns, in a result or an exception,
    however many valid messages the child keeps sending. *)
Theorem stop_ends_the_attempt t on_connected on_progress j w :
  going_on on_connected -> going_on on_progress ->
  (forall i, (j <= i)%nat -> stop_at (attempt_oracle w) i = true) ->
  time_passes t (attempt_oracle w) ->
  exists fuel, forall fuel', (fuel <= fuel')%nat -> (supervise t on_connected on_progress fuel' w).1 <> Ok None.
Proof.
  intros Hc Hp Hstop Hclk. unfold supervise.
  set (w1 := AttemptWorld (attempt_oracle w) (S (n_clock w)) (n_stop w) (n_poll w) (n_recv w) (n_alive w)
    (n_signal w) (trace w)).
  exact (stop_ends_loop t on_connected on_progress Hc Hp (attempt_oracle w) j (j - n_stop w)
    (first_watch t (clock_at (attempt_oracle w) (n_clock w))) w1 Hstop Hclk eq_refl I (Nat.le_refl _)).
Qed.

(** ** The result of a child *)

(** The results that a child may send. *)
Definition sendable (r : ChildAttemptResult) : Prop :=
  _REASON_RE (reason_code r) = true /\ 0 <= rendered_buffers r /\
  match error_domain r with Some d => _ERROR_DOMAIN_RE d = true | None => True end.

Lemma payload_domain r : dom (_result_payload r) = _ALLOWED_RESULT_KEYS.
Proof.
  unfold _result_payload, _ALLOWED_RESULT_KEYS. rewrite dom_list_to_map_L. cbn. set_solver.
Qed.

Lemma payload_fields r :
  let d := _result_payload r in
  py_get d "reason_code" = VStr (reason_code r) /\ py_get d "connected_once" = VBool (connected_once r) /\
  py_get d "terminal" = VBool (terminal r) /\ py_get d "rendered_buffers" = VInt (rendered_buffers r) /\
  py_get d "error_domain" = opt_str (error_domain r) /\
  py_get d "error_code" = match error_code r with Some z => VInt z | None => VNull end.
Proof. cbv zeta. repeat apply conj; reflexivity. Qed.

Lemma parse_payload r : sendable r -> parse_child_attempt_result (VDict (_result_payload r)) = Ok r.
Proof.
  intros (Hr & Hb & Hd). unfold parse_child_attempt_result.
  rewrite (bool_decide_eq_true_2 (_REQUIRED_RESULT_KEYS ⊆ _)), (bool_decide_eq_true_2 (_ ⊆ _ALLOWED_RESULT_KEYS)).
  2-3: rewrite payload_domain; unfold _REQUIRED_RESULT_KEYS, _ALLOWED_RESULT_KEYS; set_solver.
  destruct (payload_fields r) as (E1 & E2 & E3 & E4 & E5 & E6). rewrite E1, E2, E3, E4, E5, E6, Hr.
  cbn [negb orb raise_if mbind result_bind]. rewrite (proj2 (Z.ltb_ge _ 0) Hb).
  cbn [raise_if mbind result_bind]. destruct r as [reason c n term [d|] [z|]]; cbn in Hd |- *; by rewrite ?Hd.
Qed.

Lemma parse_sendable v r : parse_child_attempt_result v = Ok r -> sendable r.
Proof.
  unfold parse_child_attempt_result. destruct v as [| | | | | |d]; try done.
  intros (? & _ & H)%result_bind_ok. apply result_bind_ok in H as (reason & Hr & H).
  destruct (py_get d "reason_code"); try done. destruct (_REASON_RE s) eqn:Er; [|done]. injection Hr as <-.
  destruct (py_get d "connected_once"); try done. destruct (py_get d "terminal"); try done.
  destruct (py_get d "rendered_buffers"); try done.
  apply result_bind_ok in H as (? & Hz%raise_if_ok%Z.ltb_ge & H).
  apply result_bind_ok in H as (dm & Hd & H). apply result_bind_ok in H as (code & _ & [= <-]).
  split; [done|]. split; [done|]. cbn.
  destruct (py_get d "error_domain"); try (injection Hd as <-; done); try done.
  cbn in Hd. destruct (_ERROR_DOMAIN_RE s0) eqn:Ee; [|done]. by injection Hd as <-.
Qed.

(** The child's report is read as it was sent. Every result that the child may
    send, in a teardown marker or as its final result, is parsed back to the same
    result, and whatever the parent accepts is such a result: a reason code of
    capital letters, a count that is not negative, a bounded error domain. *)
Theorem child_result_roundtrip (r : ChildAttemptResult) (kind : string) (payload : value) :
  (sendable r -> kind ∈ ["teardown"; "result"] ->
   parse_child_message (VDict {[ "type" := VStr kind; "result" := VDict (_result_payload r) ]}) =
   Ok (if String.eqb kind "result" then MsgResult r else MsgTeardown r)) /\
  (parse_child_message payload = Ok (MsgResult r) \/ parse_child_message payload = Ok (MsgTeardown r) ->
   sendable r).
Proof.
  split.
  - intros Hr Hk. unfold parse_child_message.
    assert (E1 : py_get {[ "type" := VStr kind; "result" := VDict (_result_payload r) ]} "type" = VStr kind) by done.
    assert (E2 : parse_result {[ "type" := VStr kind; "result" := VDict (_result_payload r) ]} = Ok r).
    { unfold parse_result. rewrite bool_decide_eq_true_2 by set_solver.
      change (py_get _ "result") with (VDict (_result_payload r)). cbn [negb raise_if mbind result_bind].
      by rewrite parse_payload. }
    rewrite E1. apply elem_of_cons in Hk as [->|Hk]; [|apply list_elem_of_singleton in Hk as ->]; by rewrite E2.
  - assert (Hp : forall d, parse_result d = Ok r -> sendable r).
    { intros d (u & _ & H)%result_bind_ok. destruct (parse_child_attempt_result _) as [r'|] eqn:E; [|done].
      injection H as ->. by apply parse_sendable in E. }
    unfold parse_child_message. destruct payload as [| | | | | |d]; [intros [?|?]; done..|].
    destruct (py_get d "type") as [| | | |kind'|l|d']; try (intros [?|?]; done).
    intros H.
    destruct (String.eqb kind' "connected"); [destruct H as [H|H]; by apply result_bind_ok in H as (? & _ & ?)|].
    destruct (String.eqb kind' "progress"); [destruct H as [H|H]; by apply result_bind_ok in H as (? & _ & ?)|].
    destruct (String.eqb kind' "teardown").
    { destruct H as [H|H]; apply result_bind_ok in H as (r' & ? & [= ->]); by apply (Hp d). }
    destruct (String.eqb kind' "result"); [|by destruct H].
    destruct H as [H|H]; apply result_bind_ok in H as (r' & ? & [= ->]); by apply (Hp d).
Qed.

(** ** Evaluated attempts *)
Definition demo_env (messages : list value) (stop_from : nat) (dies : nat) : attempt_env :=
  AttemptEnv (fun n => if Nat.ltb n 100 then of_Z (Z.of_nat n) else S754_infinity false)
    (fun n => Nat.leb stop_from n) (fun n => Some (Nat.ltb n (length messages)))
    (fun n => messages !! n) (fun n => Nat.ltb n dies) (fun _ => None) (Some 0).

Definition demo_attempt (messages : list value) (stop_from dies : nat) : attempt_world :=
  AttemptWorld (demo_env messages stop_from dies) 0 0 0 0 0 0 [].

Definition demo_timers : timers := Timers (of_Z 15) (of_Z 20) (of_Z 5) (of_Z 8) (of_Z 2) (of_Z 2).

Definition demo_supervise (w : attempt_world) :=
  supervise_attempt_child (VInt 15) (VInt 20) (VInt 5) (VInt 8) (VInt 2) (VInt 2) (VFloat (fratio 1 10))
    None None 50 w.

Definition demo_message (kind : string) (n : Z) : value :=
  VDict {[ "type" := VStr kind; "rendered_buffers" := VInt n ]}.

Definition demo_result : ChildAttemptResult := AttemptResult "TIMEOUT" true 7 false (Some "gst-resource-error") (Some 9).
Definition demo_final : value := VDict {[ "type" := VStr "result"; "result" := VDict (_result_payload demo_result) ]}.

Example supervised_runs :
  [(demo_supervise (demo_attempt [demo_message "connected" 3; demo_final] 90 3)).1;
   (demo_supervise (demo_attempt (replicate 40 (demo_message "progress" 1)) 2 90)).1;
   (demo_supervise (demo_attempt (replicate 40 (demo_message "progress" 1)) 2 8)).1;
   (demo_supervise (demo_attempt [] 90 2)).1;
   (demo_supervise (demo_attempt [demo_message "progress" (-1)] 90 1)).1;
   (demo_supervise (demo_attempt [VDict {[ "type" := VList [] ]}] 90 1)).1] =
  [Ok (Some demo_result); Err AttemptSupervisorError; Ok (Some (AttemptResult "STOPPED" false 1 false None None));
   Ok (Some (AttemptResult "LOCAL_PIPELINE_FAILED" false 0 true None None));
   Ok (Some (AttemptResult "LOCAL_PIPELINE_FAILED" false 0 true None None)); Err TypeError].
Proof. vm_compute. reflexivity. Qed.

Lemma attempt_returns_fenced_witness :
  exists w', demo_supervise (demo_attempt [demo_message "connected" 3; demo_final] 90 3) =
    (Ok (Some demo_result), w') /\ last_alive (trace w') = Some false.
Proof.
  destruct (demo_supervise (demo_attempt [demo_message "connected" 3; demo_final] 90 3)) as [r w'] eqn:E.
  assert (Hr : r = Ok (Some demo_result)).
  { change r with (r, w').1. rewrite <- E. vm_compute. reflexivity. }
  subst r. exists w'. split; [reflexivity|].
  exact (attempt_returns_fenced _ _ _ _ _ _ _ _ _ _ _ _ _ E).
Defined.

(** The pipe is never empty, and the stop is set at its third reading. *)
Definition demo_flood : attempt_world :=
  AttemptWorld (AttemptEnv (clock_at (demo_env [] 2 90)) (stop_at (demo_env [] 2 90)) (fun _ => Some true)
    (fun _ => Some (demo_message "progress" 1)) (fun _ => true) (fun _ => None) None) 0 0 0 0 0 0 [].

Lemma stop_ends_the_attempt_witness :
  exists fuel, forall fuel', (fuel <= fuel')%nat -> (supervise demo_timers None None fuel' demo_flood).1 <> Ok None.
Proof.
  apply (stop_ends_the_attempt demo_timers None None 2 demo_flood).
  - exact I.
  - exact I.
  - intros i Hi. apply Nat.leb_le. exact Hi.
  - intros n. exists 100%nat. intros i Hi. cbn [attempt_oracle demo_flood clock_at demo_env].
    rewrite (proj2 (Nat.ltb_ge i 100) Hi). destruct (Nat.ltb_spec n 100) as [Hn|Hn].
    + assert (Hall : Forall (fun k => fle (fadd (of_Z (Z.of_nat k)) (teardown_timeout demo_timers))
          (S754_infinity false) = true) (seq 0 100)).
      { apply Forall_forall. intros k Hk. apply (proj1 (forallb_forall (fun k => fle (fadd (of_Z (Z.of_nat k))
          (teardown_timeout demo_timers)) (S754_infinity false)) (seq 0 100))); [vm_compute; reflexivity|].
        by apply list_elem_of_In. }
      rewrite Forall_forall in Hall. apply Hall. apply elem_of_seq. lia.
    + vm_compute. reflexivity.
Defined.

Lemma child_result_roundtrip_witness :
  parse_child_message (VDict {[ "type" := VStr "result"; "result" := VDict (_result_payload demo_result) ]}) =
  Ok (MsgResult demo_result).
Proof.
  destruct (child_result_roundtrip demo_result "result" VNull) as [H _]. apply H.
  - split; [vm_compute; reflexivity|]. split; [vm_compute; discriminate|vm_compute; reflexivity].
  - apply list_elem_of_further, list_elem_of_here.
Defined.
