(* ===== verification/SinkPoll.v ===== *)
(** * The poll of the RTMP sink

    What a publish attempt concludes from the counters of its sink, four times a
    second: [apps/egress-gateway/rtmp_sink.py], [rtmp_session.py] and
    [EgressAttempt._poll_sink] of [egress.py]. The counters themselves come from
    GStreamer. *)

From S2P Require Import Prelude PyFloat Sha256 PyValue Effects Uuid PyText IpAddress Url EgressDestination EgressPolicy AttemptSupervisor.

(** ** Sinks *)
Definition DEFAULT_RTMP_SINK_FACTORY : string := "rtmpsink".
Definition RTMP2_SINK_FACTORY : string := "rtmp2sink".

Definition parse_rtmp_sink_factory (raw : option string) : result string :=
  let v := match raw with None => DEFAULT_RTMP_SINK_FACTORY | Some raw => py_lower (py_strip raw) end in
  let v := if str_empty v then DEFAULT_RTMP_SINK_FACTORY else v in
  raise_if (negb (bool_decide (v ∈ [DEFAULT_RTMP_SINK_FACTORY; RTMP2_SINK_FACTORY]))) ValueError ;;
  Ok v.

Definition DEFAULT_LIBRTMP_SESSION_TIMEOUT_SECONDS : Z := 20.
Definition MAX_LIBRTMP_SESSION_TIMEOUT_SECONDS : Z := 300.

Definition parse_librtmp_session_timeout (raw : option string) : result Z :=
  match raw with
  | None => Ok DEFAULT_LIBRTMP_SESSION_TIMEOUT_SECONDS
  | Some raw =>
      if py_blank raw then Ok DEFAULT_LIBRTMP_SESSION_TIMEOUT_SECONDS
      else match float_of_text raw with
           | None => Err ValueError
           | Some v =>
               raise_if (negb (is_finite v)) ValueError ;;
               if fle v fzero then Ok 0
               else Ok (Z.min MAX_LIBRTMP_SESSION_TIMEOUT_SECONDS (Z.max 1 (fceil v)))
           end
  end.

(** [any(character.isspace() for character in url)]: a character that [str.strip]
    would remove, somewhere. *)
Fixpoint has_space (s : string) : bool :=
  match s with
  | EmptyString => false
  | String b s1 =>
      ascii_space b ||
      match s1 with
      | String c s2 => space2 b c || match s2 with String d _ => space3 b c d | EmptyString => false end
      | EmptyString => false
      end || has_space s1
  end.

Definition with_librtmp_session_timeout (url : string) (timeout_seconds : Z) : result string :=
  raise_if (str_empty url || has_space url) ValueError ;;
  if timeout_seconds <=? 0 then Ok url
  else
    raise_if (MAX_LIBRTMP_SESSION_TIMEOUT_SECONDS <? timeout_seconds) ValueError ;;
    Ok (String.append url (String.append " timeout=" (pretty.pretty timeout_seconds))).

Definition destination_url_for_sink (url sink_factory : string) (librtmp_timeout_raw : option string)
    : result string :=
  factory ← parse_rtmp_sink_factory (Some sink_factory);
  if String.eqb factory RTMP2_SINK_FACTORY then Ok url
  else
    timeout_seconds ← parse_librtmp_session_timeout librtmp_timeout_raw;
    with_librtmp_session_timeout url timeout_seconds.

(** ** Progress *)
Definition _nonnegative_int (v : value) : Z := match v with VInt z => Z.max 0 z | _ => 0 end.

Definition progress_marker_advanced (previous current : Z * Z) : bool :=
  (previous.1 <=? current.1) && (previous.2 <=? current.2) && negb (bool_decide (current = previous)).

Record SinkProgress : Type := Progress {
  progress_rendered : Z; progress_ready : bool; progress_marker : Z * Z;
  transport_bytes_out : Z; transport_bytes_acked : Z
}.

Definition sink_progress (sink_factory : string) (stats : dict) (observed_sink_buffers : value)
    : result SinkProgress :=
  factory ← parse_rtmp_sink_factory (Some sink_factory);
  if String.eqb factory DEFAULT_RTMP_SINK_FACTORY then
    let rendered := _nonnegative_int (py_get stats "rendered") in
    Ok (Progress rendered (0 <? rendered) (rendered, 0) 0 0)
  else
    let out_bytes := _nonnegative_int (py_get stats "out-bytes-total") in
    let acked_bytes := _nonnegative_int (py_get stats "out-bytes-acked") in
    let observed_buffers := _nonnegative_int observed_sink_buffers in
    Ok (Progress observed_buffers ((0 <? observed_buffers) && (0 <? out_bytes)) (out_bytes, acked_bytes)
          out_bytes acked_bytes).

(** ** One poll *)
Record poll_config : Type := PollConfig {
  poll_connect_timeout : float; poll_heartbeat : float; connect_stability_seconds : float;
  output_stall_timeout_seconds : float; attempt_started : float
}.

Record sink_watch : Type := SinkWatch {
  poll_connected : bool;
  poll_rendered : Z;
  last_progress_marker : Z * Z;
  last_rendered_at : float;
  first_rendered_at : option float;
  last_progress_at : float
}.

(** [__init__] *)
Definition fresh_watch (c : poll_config) : sink_watch :=
  SinkWatch false 0 (0, 0) (attempt_started c) None (attempt_started c).

(** What one poll sees: the stop event, the clock when it checks the connection and
    after it read the counters, and the progress, [None] while there is no sink. *)
Record sample : Type := Sample {
  sample_stop : bool; sample_checked : float; sample_now : float; sample_progress : option SinkProgress
}.

Inductive poll_report : Type := ReportConnected (rendered : Z) | ReportProgress (rendered : Z).

Definition quit (reason : string) (s : sink_watch) : ChildAttemptResult :=
  AttemptResult reason (poll_connected s) (poll_rendered s) false None None.

(** The counters taken in. *)
Definition note_progress (now : float) (p : SinkProgress) (s : sink_watch) : sink_watch * bool :=
  let rendered := Z.max (poll_rendered s) (progress_rendered p) in
  let changed := progress_marker_advanced (last_progress_marker s) (progress_marker p) in
  (SinkWatch (poll_connected s) rendered (if changed then progress_marker p else last_progress_marker s)
     (if changed then now else last_rendered_at s)
     (if negb (poll_connected s) && negb (progress_ready p) then None else first_rendered_at s)
     (last_progress_at s), changed).

(** The last check: an output that stopped. *)
Definition check_stall (c : poll_config) (now : float) (s : sink_watch) : option ChildAttemptResult :=
  if poll_connected s && flt fzero (output_stall_timeout_seconds c) &&
     fle (output_stall_timeout_seconds c) (fsub now (last_rendered_at s))
  then Some (quit "TIMEOUT" s) else None.

Definition _poll_sink (c : poll_config) (x : sample) (s : sink_watch)
    : sink_watch * list poll_report * option ChildAttemptResult :=
  if sample_stop x then (s, [], Some (quit "STOPPED" s))
  else if negb (poll_connected s) && flt fzero (poll_connect_timeout c) &&
          fle (poll_connect_timeout c) (fsub (sample_checked x) (attempt_started c))
  then (s, [], Some (quit "TIMEOUT" s))
  else
    match sample_progress x with
    | None => (s, [], None)
    | Some p =>
        let now := sample_now x in
        let '(s, changed) := note_progress now p s in
        if progress_ready p && negb (poll_connected s) then
          let first := default now (first_rendered_at s) in
          if flt (fsub now first) (connect_stability_seconds c) then
            (SinkWatch (poll_connected s) (poll_rendered s) (last_progress_marker s) (last_rendered_at s)
               (Some first) (last_progress_at s), [], None)
          else
            let s := SinkWatch true (poll_rendered s) (last_progress_marker s) (last_rendered_at s) (Some first) now in
            (s, [ReportConnected (poll_rendered s)], check_stall c now s)
        else if poll_connected s && changed && flt fzero (poll_heartbeat c) &&
                fle (poll_heartbeat c) (fsub now (last_progress_at s)) then
          let s := SinkWatch (poll_connected s) (poll_rendered s) (last_progress_marker s) (last_rendered_at s)
                     (first_rendered_at s) now in
          (s, [ReportProgress (poll_rendered s)], check_stall c now s)
        else (s, [], check_stall c now s)
    end.

(** A sequence of polls, up to the one that ends the attempt. *)
Fixpoint poll_all (c : poll_config) (xs : list sample) (s : sink_watch)
    : sink_watch * list poll_report * option ChildAttemptResult :=
  match xs with
  | [] => (s, [], None)
  | x :: xs' =>
      match _poll_sink c x s with
      | (s1, reports, Some r) => (s1, reports, Some r)
      | (s1, reports, None) =>
          let '(s2, more, r) := poll_all c xs' s1 in (s2, reports ++ more, r)
      end
  end.

Example sinks :
  (parse_rtmp_sink_factory None, parse_rtmp_sink_factory (Some " RTMP2Sink "), parse_rtmp_sink_factory (Some "fakesink"),
   destination_url_for_sink "rtmp://h/k" "rtmpsink" (Some "4.2"), destination_url_for_sink "rtmp://h/ k" "rtmpsink" None,
   destination_url_for_sink "rtmp://h/k" "rtmp2sink" (Some "x")) =
  (Ok "rtmpsink", Ok "rtmp2sink", Err ValueError, Ok "rtmp://h/k timeout=5", Err ValueError, Ok "rtmp://h/k").
Proof. vm_compute. reflexivity. Qed.

(** ** A connection is reported after a stable run *)

(** The state after polls none of which ended the attempt. *)
Fixpoint watch_from (c : poll_config) (xs : list sample) (s : sink_watch) : option sink_watch :=
  match xs with
  | [] => Some s
  | x :: xs' => match _poll_sink c x s with
                | (s1, _, None) => watch_from c xs' s1
                | _ => None
                end
  end.

Definition watch_after (c : poll_config) (xs : list sample) : option sink_watch :=
  watch_from c xs (fresh_watch c).

(** Progress was made, as far as there was a sink to ask. *)
Definition ready_or_silent (x : sample) : Prop :=
  match sample_progress x with Some p => progress_ready p = true | None => True end.
Definition shows_progress (x : sample) : Prop := exists p, sample_progress x = Some p /\ progress_ready p = true.

(** [y] starts the run of polls with progress that ends [xs]. *)
Definition run_starts (xs : list sample) (y : sample) : Prop :=
  exists before after, xs = before ++ y :: after /\ shows_progress y /\ Forall ready_or_silent after.

Definition run_known (xs : list sample) (s : sink_watch) : Prop :=
  poll_connected s = false ->
  forall t, first_rendered_at s = Some t -> exists y, run_starts xs y /\ sample_now y = t.

Lemma run_extends xs x y : run_starts xs y -> ready_or_silent x -> run_starts (xs ++ [x]) y.
Proof.
  intros (before & after & -> & Hy & Ha) Hx. exists before, (after ++ [x]).
  split; [by rewrite <- app_assoc|]. split; [done|]. by apply Forall_app_2; [|apply Forall_singleton].
Qed.

Lemma run_begins xs x : shows_progress x -> run_starts (xs ++ [x]) x.
Proof. intros Hx. by exists xs, []. Qed.

(** One poll: what it reports as connected, and what it remembers of the run. *)
Lemma poll_run c xs x s s' reports r :
  run_known xs s -> _poll_sink c x s = (s', reports, r) ->
  (r = None -> run_known (xs ++ [x]) s') /\
  forall n, ReportConnected n ∈ reports ->
    poll_connected s = false /\
    exists y, run_starts (xs ++ [x]) y /\
      flt (fsub (sample_now x) (sample_now y)) (connect_stability_seconds c) = false.
Proof.
  intros Hk. unfold _poll_sink. destruct (sample_stop x).
  { intros [= <- <- <-]. split; [done|]. by intros n ?%elem_of_nil. }
  destruct (negb _ && _ && _).
  { intros [= <- <- <-]. split; [done|]. by intros n ?%elem_of_nil. }
  destruct (sample_progress x) as [p|] eqn:Ep.
  2: { intros [= <- <- <-]. split; [|by intros n ?%elem_of_nil]. intros _ Hc t Ht.
       destruct (Hk Hc t Ht) as (y & Hy & E). exists y. split; [|done]. apply run_extends; [done|].
       unfold ready_or_silent. by rewrite Ep. }
  unfold note_progress. set (changed := progress_marker_advanced _ _). cbv beta iota.
  cbn [poll_connected first_rendered_at last_progress_at poll_rendered last_progress_marker last_rendered_at].
  destruct (progress_ready p) eqn:Er; cbn [andb negb].
  - assert (Hx : shows_progress x) by (by exists p).
    assert (Hs : ready_or_silent x) by (unfold ready_or_silent; by rewrite Ep).
    destruct (poll_connected s) eqn:Ec; cbn [andb negb].
    + intros H. assert (Hc : poll_connected s' = true /\ forall n, ReportConnected n ∉ reports).
      { destruct (_ && _); injection H as <- <- _; (split; [done|]); intros n Hn.
        - by apply list_elem_of_singleton in Hn.
        - by apply elem_of_nil in Hn. }
      destruct Hc as [Hc Hn]. split; [intros _ Hc'; congruence|]. intros n Hin. by destruct (Hn n).
    + assert (Hrun : exists y, run_starts (xs ++ [x]) y /\ sample_now y = default (sample_now x) (first_rendered_at s)).
      { destruct (first_rendered_at s) as [t|] eqn:Ef; [|exists x; split; [by apply run_begins|done]].
        destruct (Hk Ec t Ef) as (y & Hy & E). exists y. split; [by apply run_extends|done]. }
      destruct Hrun as (y & Hy & E). destruct (flt _ _) eqn:Efl.
      * intros [= <- <- <-]. split; [|by intros n ?%elem_of_nil]. intros _ _ t [= <-]. by exists y.
      * intros [= <- <- _]. split; [done|]. intros n _. split; [done|]. exists y. split; [done|]. by rewrite E.
  - destruct (poll_connected s) eqn:Ec; cbn [andb negb]; intros H.
    + assert (Hc : poll_connected s' = true /\ forall n, ReportConnected n ∉ reports).
      { destruct (_ && _); injection H as <- <- _; (split; [done|]); intros n Hn.
        - by apply list_elem_of_singleton in Hn.
        - by apply elem_of_nil in Hn. }
      destruct Hc as [Hc Hn]. split; [intros _ Hc'; congruence|]. intros n Hin. by destruct (Hn n).
    + injection H as <- <- _. split; [|by intros n ?%elem_of_nil]. by intros _ _ t.
Qed.

Lemma watch_known c xs pre s0 s : run_known pre s0 -> watch_from c xs s0 = Some s -> run_known (pre ++ xs) s.
Proof.
  revert pre s0. induction xs as [|x xs IH]; intros pre s0 Hk; cbn [watch_from].
  - intros [= <-]. by rewrite app_nil_r.
  - destruct (_poll_sink c x s0) as [[s1 reports] [r|]] eqn:E; [done|]. intros H.
    destruct (poll_run _ _ _ _ _ _ _ Hk E) as [Hk1 _].
    rewrite cons_middle, app_assoc. by apply (IH _ s1); [apply Hk1|].
Qed.

(** CONNECTED means a stable connection. Over any sequence of polls, an attempt
    reports that it is connected only while it was not connected yet, and only when
    every poll since some earlier one showed progress of the sink, without a poll in
    between that did not, for at least the stability window. *)
Theorem connected_means_stable c xs x s s' reports r n :
  watch_after c xs = Some s -> _poll_sink c x s = (s', reports, r) -> ReportConnected n ∈ reports ->
  poll_connected s = false /\ poll_connected s' = true /\
  exists y, run_starts (xs ++ [x]) y /\
    flt (fsub (sample_now x) (sample_now y)) (connect_stability_seconds c) = false.
Proof.
  intros Hs Hp Hn.
  assert (Hk : run_known ([] ++ xs) s) by (by apply (watch_known c xs [] (fresh_watch c))).
  destruct (poll_run _ _ _ _ _ _ _ Hk Hp) as [_ H]. destruct (H n Hn) as [Hc Hy].
  split; [done|]. split; [|done]. revert Hp Hn. unfold _poll_sink.
  destruct (sample_stop x); [by intros [= <- <- <-] ?%elem_of_nil|].
  destruct (negb _ && _ && _); [by intros [= <- <- <-] ?%elem_of_nil|].
  destruct (sample_progress x) as [p|]; [|by intros [= <- <- <-] ?%elem_of_nil].
  unfold note_progress. cbv beta iota. cbn [poll_connected]. rewrite Hc. cbn [negb andb].
  destruct (progress_ready p); cbn [andb negb]; [|by intros [= <- <- <-] ?%elem_of_nil].
  destruct (flt _ (connect_stability_seconds c)); [by intros [= <- <- <-] ?%elem_of_nil|].
  by intros [= <- <- <-] _.
Qed.

Section examples.
Definition demo_poll : poll_config := PollConfig (of_Z 15) (of_Z 5) (of_Z 3) (of_Z 5) fzero.
Definition demo_sample (now rendered : Z) : sample :=
  Sample false (of_Z now) (of_Z now) (Some (Progress rendered (0 <? rendered) (rendered, 0) 0 0)).

Example polled :
  let run := poll_all demo_poll ((fun p => demo_sample p.1 p.2) <$>
    [(1, 1); (2, 0); (3, 2); (5, 3); (6, 4); (11, 5); (12, 5); (17, 5)]) (fresh_watch demo_poll) in
  (run.1.2, run.2) = ([ReportConnected 4; ReportProgress 5], Some (AttemptResult "TIMEOUT" true 5 false None None)).
Proof. vm_compute. reflexivity. Qed.

Lemma connected_means_stable_witness :
  exists y, run_starts (((fun p => demo_sample p.1 p.2) <$> [(1, 1); (2, 0); (3, 2); (5, 3)]) ++ [demo_sample 6 4]) y /\
    flt (fsub (of_Z 6) (sample_now y)) (of_Z 3) = false.
Proof.
  destruct (connected_means_stable demo_poll ((fun p => demo_sample p.1 p.2) <$> [(1, 1); (2, 0); (3, 2); (5, 3)])
    (demo_sample 6 4) (SinkWatch false 3 (3, 0) (of_Z 5) (Some (of_Z 3)) fzero)
    (SinkWatch true 4 (4, 0) (of_Z 6) (Some (of_Z 3)) (of_Z 6)) [ReportConnected 4] None 4) as (_ & _ & y & Hy & Hf).
  - vm_compute. reflexivity.
  - vm_compute. reflexivity.
  - apply list_elem_of_here.
  - exists y. split; [exact Hy|exact Hf].
Defined.
End examples.
