(* ===== verification/EgressGateway.v ===== *)
(** * The egress gateway

    [EgressGateway] of [apps/egress-gateway/egress.py]: the loop that guards the
    destination, attempts to publish, reports every change of state, and retries after
    growing delays until it is stopped, meets a terminal error or has tried enough.

    The clocks, the stop event, the random numbers, the metadata file, the resolver
    and the disk are sequences of answers. [attempt n] is the [run] of the [n]-th
    attempt: a computation that may call the two callbacks it is given; GStreamer is
    behind it, or the supervised child of AttemptSupervisor.v. *)

From S2P Require Import Prelude PyFloat Sha256 PyValue Effects Uuid PyText IpAddress Url EgressDestination DestinationGuard EgressPolicy AttemptSupervisor SinkPoll.

Definition ALLOWED_STATUSES : list string :=
  ["STARTING"; "CONNECTED"; "RECONNECTING"; "AUTH_FAILED"; "FAILED"; "STOPPED"].

Record egress_status : Type := EgressStatus {
  status_name : string; status_connected : bool; status_attempt : Z; status_reason : option string;
  status_rendered : Z; status_next_retry : option float; status_domain : option string;
  status_code : option Z; status_scheme : string; status_host : string;
  status_started : float; status_observed : float
}.

Record gateway_env : Type := GatewayEnv {
  wall_at : nat -> float;
  mono_at : nat -> float;
  stopped_at : nat -> bool;
  (** [stop_event.wait(delay)] *)
  waited_at : nat -> bool;
  random_at : nat -> float;
  peer_at : nat -> option peer_file;
  resolve_at : nat -> string -> Z -> result (list string);
  disk_full_at : nat -> bool
}.

Record gateway : Type := Gateway {
  gw_env : gateway_env;
  n_wall : nat; n_mono : nat; n_stopped : nat; n_waited : nat; n_random : nat; n_guard : nat; n_write : nat;
  n_attempt : nat;
  failure_count : Z;
  outage_started_monotonic : option float;
  (** newest first *)
  written : list egress_status
}.

Abbreviation GW := (M gateway).

Definition set_outage (count : Z) (outage : option float) (g : gateway) : gateway :=
  Gateway (gw_env g) (n_wall g) (n_mono g) (n_stopped g) (n_waited g) (n_random g) (n_guard g) (n_write g)
    (n_attempt g) count outage (written g).

Definition wall_time : GW float := fun g =>
  (Ok (wall_at (gw_env g) (n_wall g)),
   Gateway (gw_env g) (S (n_wall g)) (n_mono g) (n_stopped g) (n_waited g) (n_random g) (n_guard g) (n_write g)
     (n_attempt g) (failure_count g) (outage_started_monotonic g) (written g)).
Definition mono_time : GW float := fun g =>
  (Ok (mono_at (gw_env g) (n_mono g)),
   Gateway (gw_env g) (n_wall g) (S (n_mono g)) (n_stopped g) (n_waited g) (n_random g) (n_guard g) (n_write g)
     (n_attempt g) (failure_count g) (outage_started_monotonic g) (written g)).
Definition stop_requested : GW bool := fun g =>
  (Ok (stopped_at (gw_env g) (n_stopped g)),
   Gateway (gw_env g) (n_wall g) (n_mono g) (S (n_stopped g)) (n_waited g) (n_random g) (n_guard g) (n_write g)
     (n_attempt g) (failure_count g) (outage_started_monotonic g) (written g)).
Definition wait_for_stop : GW bool := fun g =>
  (Ok (waited_at (gw_env g) (n_waited g)),
   Gateway (gw_env g) (n_wall g) (n_mono g) (n_stopped g) (S (n_waited g)) (n_random g) (n_guard g) (n_write g)
     (n_attempt g) (failure_count g) (outage_started_monotonic g) (written g)).
Definition random : GW float := fun g =>
  (Ok (random_at (gw_env g) (n_random g)),
   Gateway (gw_env g) (n_wall g) (n_mono g) (n_stopped g) (n_waited g) (S (n_random g)) (n_guard g) (n_write g)
     (n_attempt g) (failure_count g) (outage_started_monotonic g) (written g)).
(** [atomic_write_json]: all or nothing. *)
Definition write_file (s : egress_status) : GW unit := fun g =>
  let fails := disk_full_at (gw_env g) (n_write g) in
  (if fails then Err OSError else Ok tt,
   Gateway (gw_env g) (n_wall g) (n_mono g) (n_stopped g) (n_waited g) (n_random g) (n_guard g) (S (n_write g))
     (n_attempt g) (failure_count g) (outage_started_monotonic g) (if fails then written g else s :: written g)).
Definition get_gateway : GW gateway := fun g => (Ok g, g).
Definition put_outage (count : Z) (outage : option float) : GW unit := fun g => (Ok tt, set_outage count outage g).
(** The number of this attempt. *)
Definition next_attempt : GW nat := fun g =>
  (Ok (n_attempt g),
   Gateway (gw_env g) (n_wall g) (n_mono g) (n_stopped g) (n_waited g) (n_random g) (n_guard g) (n_write g)
     (S (n_attempt g)) (failure_count g) (outage_started_monotonic g) (written g)).

(** A [RuntimeStatusWriteError] is a [ValueError]. *)
Definition _validated_status_timestamp (v : float) : result float :=
  if is_finite v && negb (flt v fzero) then Ok v else Err ValueError.

Section gateway.
Context (libm_pow : float -> float -> float) (nfkc : string -> string) (mapped dotted : bool).
Context (policy : ReconnectPolicy) (allow_private_targets : bool) (started_at : float).
Context (attempt : nat -> (Z -> GW unit) -> (Z -> GW unit) -> GW ChildAttemptResult).

Section destination.
Context (destination_scheme destination_host : string).

Definition _write_status (status : string) (connected : bool) (reason : option string) (rendered : Z)
    (next_retry_at : option float) (domain : option string) (code : option Z) : GW unit :=
  guard_err (negb (bool_decide (status ∈ ALLOWED_STATUSES))) ValueError ;;
  started ← lift (_validated_status_timestamp started_at);
  now ← wall_time;
  observed ← lift (_validated_status_timestamp now);
  next ← match next_retry_at with
         | None => mret None
         | Some t => t ← lift (_validated_status_timestamp t); mret (Some t)
         end;
  g ← get_gateway;
  write_file (EgressStatus status connected (failure_count g + 1) reason rendered next domain code
                destination_scheme destination_host started observed).

Definition connected (rendered : Z) : GW unit :=
  put_outage 0 None ;;
  _write_status "CONNECTED" true None rendered None None None.

Definition progress (rendered : Z) : GW unit :=
  _write_status "CONNECTED" true None rendered None None None.

(** The guard, and the attempt if it lets it go on. *)
Definition guarded_attempt (destination_url : string) : GW ChildAttemptResult :=
  n ← next_attempt;
  g ← get_gateway;
  let guard := (expected ← read_verified_peer_ip dotted (peer_at (gw_env g) n);
                validate_destination_runtime nfkc mapped dotted destination_url expected allow_private_targets
                  (resolve_at (gw_env g) n)) in
  match guard with
  | Err (DestinationGuardError reason term) => mret (AttemptResult reason false 0 term None None)
  | Err e => raise e
  | Ok _ => attempt n connected progress
  end.

(** The status of a terminal error. *)
Definition terminal_status (reason : string) : string :=
  if bool_decide (reason ∈ ["AUTH_FAILED"; "PUBLISH_CONFLICT"]) then "AUTH_FAILED" else "FAILED".

(** One turn of the loop: an exit code, or none to go on ([true]) or to leave it. *)
Definition gateway_turn (destination_url : string) : GW (Z + bool) :=
  result ← guarded_attempt destination_url;
  stopped ← stop_requested;
  if stopped || String.eqb (reason_code result) "STOPPED" then
    _write_status "STOPPED" false (Some "USER_STOPPED") (rendered_buffers result) None None None ;;
    mret (inl 0)
  else
    g ← get_gateway;
    let count := failure_count g + 1 in
    outage ← match outage_started_monotonic g with Some t => mret t | None => mono_time end;
    put_outage count (Some outage) ;;
    if terminal result then
      _write_status (terminal_status (reason_code result)) false (Some (reason_code result))
        (rendered_buffers result) None (error_domain result) (error_code result) ;;
      mret (inl 2)
    else
      now ← mono_time;
      if exhausted policy count (fsub now outage) then
        _write_status "FAILED" false (Some "RETRY_EXHAUSTED") (rendered_buffers result) None
          (error_domain result) (error_code result) ;;
        mret (inl 3)
      else
        r ← random;
        delay ← lift (delay_for libm_pow policy count r);
        now ← wall_time;
        now ← lift (_validated_status_timestamp now);
        next_retry_at ← lift (_validated_status_timestamp (fadd now delay));
        _write_status "RECONNECTING" false (Some (reason_code result)) (rendered_buffers result)
          (Some next_retry_at) (error_domain result) (error_code result) ;;
        waited ← wait_for_stop;
        mret (inr (negb waited)).

(** [while not self.stop_event.is_set()], at most [fuel] turns; [None] when the loop is
    still going on. *)
Fixpoint gateway_loop (fuel : nat) (destination_url : string) : GW (option Z) :=
  match fuel with
  | O => mret None
  | S fuel' =>
      stopped ← stop_requested;
      if stopped : bool then
        _write_status "STOPPED" false (Some "USER_STOPPED") 0 None None None ;; mret (Some 0)
      else
        r ← gateway_turn destination_url;
        match r with
        | inl code => mret (Some code)
        | inr true => gateway_loop fuel' destination_url
        | inr false => _write_status "STOPPED" false (Some "USER_STOPPED") 0 None None None ;; mret (Some 0)
        end
  end.
End destination.

(** [run]: the sink factory of the environment, and the destination that was read
    ([None] when the secret file is unavailable or invalid). *)
Definition run (sink_factory : option string) (destination_url : option string) (fuel : nat) : GW (option Z) :=
  match parse_rtmp_sink_factory sink_factory with
  | Err _ =>
      _write_status EmptyString EmptyString "FAILED" false (Some "LOCAL_PIPELINE_FAILED") 0 None None None ;;
      mret (Some 2)
  | Ok _ =>
      match destination_url with
      | None =>
          _write_status EmptyString EmptyString "FAILED" false (Some "SECRET_UNAVAILABLE") 0 None None None ;;
          mret (Some 1)
      | Some url =>
          '(scheme, host) ← lift (safe_destination nfkc url);
          _write_status scheme host "STARTING" false None 0 None None None ;;
          gateway_loop scheme host fuel url
      end
  end.
End gateway.
