(* ===== verification/EgressTheorems.v ===== *)
(** * The egress gateway: theorems

    How the gateway ends, how often it tries, and what a very long outage does. *)

From S2P Require Import Prelude PyFloat Sha256 PyValue Effects Uuid PyText IpAddress Url EgressDestination DestinationGuard EgressPolicy AttemptSupervisor SinkPoll EgressGateway.

Section theorems.
Context (libm_pow : float -> float -> float) (nfkc : string -> string) (mapped dotted : bool).
Context (policy : ReconnectPolicy) (allow : bool) (started_at : float).
Context (attempt : nat -> (Z -> GW unit) -> (Z -> GW unit) -> GW ChildAttemptResult).

Let write := _write_status started_at.
Let turn := gateway_turn libm_pow nfkc mapped dotted policy allow started_at attempt.
Let loop := gateway_loop libm_pow nfkc mapped dotted policy allow started_at attempt.
Let attempted := guarded_attempt nfkc mapped dotted allow started_at attempt.

(** ** How the gateway ends *)
Lemma write_status_ok scheme host status connected reason rendered next domain code g u g' :
  write scheme host status connected reason rendered next domain code g = (Ok u, g') ->
  exists s, written g' = s :: written g /\ status_name s = status /\ status_connected s = connected /\
    status_reason s = reason /\ status_rendered s = rendered.
Proof.
  clear. unfold write, _write_status. intros (? & g1 & [_ ->]%guard_err_ok & H)%bind_ok.
  apply bind_ok in H as (st & g2 & [_ ->]%lift_ok & H).
  apply bind_ok in H as (now & g3 & [= _ <-] & H). apply bind_ok in H as (ob & g4 & [_ ->]%lift_ok & H).
  apply bind_ok in H as (nx & g5 & Hn & H).
  assert (g5 = Gateway (gw_env g) (S (n_wall g)) (n_mono g) (n_stopped g) (n_waited g) (n_random g) (n_guard g)
    (n_write g) (n_attempt g) (failure_count g) (outage_started_monotonic g) (written g)) as ->.
  { destruct next as [t|]; [|by apply ret_ok in Hn as [_ ->]].
    apply bind_ok in Hn as (t' & g6 & [_ ->]%lift_ok & [_ ->]%ret_ok). done. }
  apply bind_ok in H as (g6 & g7 & [= <- <-] & H). unfold write_file in H. cbn in H.
  destruct (disk_full_at _ _); [done|]. injection H as _ <-. by eexists.
Qed.

(** A status that says how the gateway ended. *)
Definition final_status (code : Z) (s : egress_status) : Prop :=
  status_connected s = false /\
  (code = 0 /\ status_name s = "STOPPED" /\ status_reason s = Some "USER_STOPPED" \/
   code = 1 /\ status_name s = "FAILED" /\ status_reason s = Some "SECRET_UNAVAILABLE" \/
   code = 2 /\ (status_name s = "FAILED" \/
                status_name s = "AUTH_FAILED" /\
                (status_reason s = Some "AUTH_FAILED" \/ status_reason s = Some "PUBLISH_CONFLICT")) \/
   code = 3 /\ status_name s = "FAILED" /\ status_reason s = Some "RETRY_EXHAUSTED").

Definition ended (code : Z) (g : gateway) : Prop :=
  exists s rest, written g = s :: rest /\ final_status code s.

Lemma write_ended code {A} (a b : A) scheme host status reason rendered next domain ec g g' :
  (write scheme host status false reason rendered next domain ec ;; mret a) g = (Ok b, g') ->
  (forall s, status_name s = status -> status_connected s = false -> status_reason s = reason ->
     final_status code s) -> b = a /\ ended code g'.
Proof.
  intros (u & g1 & H & [-> ->]%ret_ok)%bind_ok Hs. split; [done|].
  apply write_status_ok in H as (s & Hw & H1 & H2 & H3 & _). exists s, (written g). split; [done|]. by apply Hs.
Qed.

Lemma stopped_final s : status_name s = "STOPPED" -> status_connected s = false ->
  status_reason s = Some "USER_STOPPED" -> final_status 0 s.
Proof. intros H1 H2 H3. split; [done|]. by left. Qed.

Lemma terminal_final reason s : status_name s = terminal_status reason -> status_connected s = false ->
  status_reason s = Some reason -> final_status 2 s.
Proof.
  intros H1 H2 H3. split; [done|]. right. right. left. split; [done|]. unfold terminal_status in H1.
  destruct (bool_decide_reflect (reason ∈ ["AUTH_FAILED"; "PUBLISH_CONFLICT"])) as [Hin|]; [right|by left].
  split; [done|]. apply elem_of_cons in Hin as [->|Hin]; [by left|]. apply list_elem_of_singleton in Hin as ->. by right.
Qed.

Lemma turn_ended scheme host url g code g' : turn scheme host url g = (Ok (inl code), g') -> ended code g'.
Proof.
  unfold turn, gateway_turn. intros (r & g1 & _ & H)%bind_ok. apply bind_ok in H as (st & g2 & _ & H).
  destruct (st || _).
  { by apply (write_ended 0) in H as [[= ->] H]; [|apply stopped_final]. }
  apply bind_ok in H as (g3 & g4 & _ & H). apply bind_ok in H as (out & g5 & _ & H).
  apply bind_ok in H as (u & g6 & _ & H). destruct (terminal r).
  { by apply (write_ended 2) in H as [[= ->] H]; [|apply terminal_final]. }
  apply bind_ok in H as (now & g7 & _ & H). destruct (exhausted _ _ _).
  { apply (write_ended 3) in H as [[= ->] H]; [done|]. intros s H1 H2 H3. split; [done|]. by do 3 right. }
  apply bind_ok in H as (rd & g8 & _ & H). apply bind_ok in H as (dl & g9 & _ & H).
  apply bind_ok in H as (nw & g10 & _ & H). apply bind_ok in H as (nw2 & g11 & _ & H).
  apply bind_ok in H as (nx & g12 & _ & H). apply bind_ok in H as (u2 & g13 & _ & H).
  apply bind_ok in H as (wt & g14 & _ & H). by apply ret_ok in H as [? _].
Qed.

Lemma loop_ended scheme host fuel url g code g' :
  loop scheme host fuel url g = (Ok (Some code), g') -> ended code g'.
Proof.
  unfold loop. revert g. induction fuel as [|fuel IH]; intros g; cbn [gateway_loop]; [by intros [? _]%ret_ok|].
  intros (st & g1 & _ & H)%bind_ok. destruct st.
  { by apply (write_ended 0) in H as [[= ->] H]; [|apply stopped_final]. }
  apply bind_ok in H as (r & g2 & Ht & H). destruct r as [c|[]].
  - apply ret_ok in H as [[= <-] ->]. by apply turn_ended in Ht.
  - by apply IH in H.
  - by apply (write_ended 0) in H as [[= ->] H]; [|apply stopped_final].
Qed.

(** An exit never leaves a stale status. Whenever [run] returns an exit code, the
    last status on disk is not connected and says why: STOPPED by the user for 0, the
    missing secret for 1, an authentication failure or another terminal error for 2,
    and the exhausted retries for 3. *)
Theorem gateway_exit_status sink_factory destination_url fuel g code g' :
  run libm_pow nfkc mapped dotted policy allow started_at attempt sink_factory destination_url fuel g =
    (Ok (Some code), g') ->
  exists s rest, written g' = s :: rest /\ final_status code s.
Proof.
  unfold run. destruct (parse_rtmp_sink_factory sink_factory).
  2: { intros H. apply (write_ended 2) in H as [[= ->] H]; [done|]. intros s H1 H2 H3.
       split; [done|]. right. right. left. by split; [|left]. }
  destruct destination_url as [url|].
  2: { intros H. apply (write_ended 1) in H as [[= ->] H]; [done|]. intros s H1 H2 H3.
       split; [done|]. right. by left. }
  intros ([scheme host] & g1 & _ & H)%bind_ok. apply bind_ok in H as (u & g2 & _ & H).
  by apply loop_ended in H.
Qed.

(** ** How often it tries *)

(** Attempts that never get connected: the count of failures is as it was. *)
Definition never_connects (scheme host url : string) : Prop :=
  forall g r g', attempted scheme host url g = (r, g') -> failure_count g' = failure_count g.

Lemma write_keeps_count scheme host status c reason rendered next domain ec g :
  failure_count (write scheme host status c reason rendered next domain ec g).2 = failure_count g.
Proof.
  clear. unfold write, _write_status, guard_err, mbind, M_bind, lift, wall_time, get_gateway, write_file, raise.
  destruct (negb _); [done|]. cbn. destruct (_validated_status_timestamp started_at); [|done]. cbn.
  destruct (_validated_status_timestamp _); [|done]. destruct next as [t|]; cbn; [|done].
  by destruct (_validated_status_timestamp t).
Qed.

Lemma write_count scheme host status c reason rendered next domain ec g u g' :
  write scheme host status c reason rendered next domain ec g = (Ok u, g') ->
  failure_count g' = failure_count g.
Proof. intros H. pose proof (write_keeps_count scheme host status c reason rendered next domain ec g) as E.
  by rewrite H in E. Qed.

(** A turn after which the gateway goes on: one more failure, and not too many yet. *)
Lemma turn_counts scheme host url g g' :
  never_connects scheme host url -> turn scheme host url g = (Ok (inr true), g') ->
  failure_count g' = failure_count g + 1 /\
  (0 < max_attempts policy -> failure_count g' < max_attempts policy).
Proof.
  intros Hn. unfold turn, gateway_turn. intros (r & g1 & Ha & H)%bind_ok. apply Hn in Ha.
  apply bind_ok in H as (st & g2 & [= _ <-] & H). destruct (st || _).
  { by apply bind_ok in H as (u & g3 & _ & [? _]%ret_ok). }
  apply bind_ok in H as (g3 & g4 & [= <- <-] & H). cbn [failure_count outage_started_monotonic] in H.
  apply bind_ok in H as (out & g5 & _ & H). apply bind_ok in H as (u & g6 & [= _ <-] & H).
  destruct (terminal r); [by apply bind_ok in H as (? & g7 & _ & [? _]%ret_ok)|].
  apply bind_ok in H as (now & g7 & [= _ <-] & H). destruct (exhausted _ _ _) eqn:Ex.
  { by apply bind_ok in H as (? & g8 & _ & [? _]%ret_ok). }
  apply bind_ok in H as (rd & g8 & [= _ <-] & H). apply bind_ok in H as (dl & g9 & [_ ->]%lift_ok & H).
  apply bind_ok in H as (nw & g10 & [= _ <-] & H). apply bind_ok in H as (nw2 & g11 & [_ ->]%lift_ok & H).
  apply bind_ok in H as (nx & g12 & [_ ->]%lift_ok & H). apply bind_ok in H as (u2 & g13 & Hw%write_count & H).
  apply bind_ok in H as (wt & g14 & [= _ <-] & H). apply ret_ok in H as [_ ->].
  cbn [failure_count set_outage] in *. rewrite Hw, Ha. split; [done|]. intros Hm.
  unfold exhausted in Ex. apply orb_false_iff in Ex as [Ex _]. rewrite Ha in Ex.
  rewrite (proj2 (Z.ltb_lt _ _) Hm) in Ex. by apply Z.leb_gt in Ex.
Qed.

(** C31: The retries are bounded. With a limit on the attempts, and as long as none of
    them gets connected, the loop ends within that many turns, whatever the errors are
    and however the clocks run. *)
Theorem retries_are_bounded scheme host url fuel g :
  0 < max_attempts policy -> never_connects scheme host url ->
  0 <= failure_count g < max_attempts policy ->
  max_attempts policy - failure_count g <= Z.of_nat fuel ->
  (gateway_loop libm_pow nfkc mapped dotted policy allow started_at attempt scheme host fuel url g).1 <> Ok None.
Proof.
  intros Hm Hn. fold loop. revert g. induction fuel as [|fuel IH]; intros g Hc Hf; [lia|].
  intros E. destruct (loop scheme host (S fuel) url g) as [r g'] eqn:H. cbn in E. subst r.
  unfold loop in H. cbn [gateway_loop] in H. apply bind_ok in H as (st & g1 & [= <- <-] & H).
  destruct (stopped_at _ _); [by apply bind_ok in H as (u & g2 & _ & [? _]%ret_ok)|].
  apply bind_ok in H as (r & g2 & Ht & H). destruct r as [c|[]].
  - by apply ret_ok in H as [? _].
  - apply turn_counts in Ht as [H1 H2]; [|done]. specialize (H2 Hm). cbn [failure_count] in H1.
    apply (IH g2); [lia|lia|]. fold loop in H. by rewrite H.
  - by apply bind_ok in H as (u & g3 & _ & [? _]%ret_ok).
Qed.

(** ** A very long outage *)

(** The retry delay overflows. When the power of the retry policy is too large for
    a double, a failed attempt that should be retried ends the gateway with an
    [OverflowError]: neither RECONNECTING nor any other status is written. *)
Theorem long_outage_crashes scheme host url g result g1 :
  attempted scheme host url g = (Ok result, g1) ->
  stopped_at (gw_env g1) (n_stopped g1) = false -> reason_code result <> "STOPPED" ->
  terminal result = false -> max_attempts policy = 0 -> max_elapsed_seconds policy = fzero ->
  feq (multiplier policy) fone = false -> 0 < failure_count g1 ->
  is_infinite (libm_pow (multiplier policy) (of_Z (failure_count g1))) = true ->
  (turn scheme host url g).1 = Err OverflowError /\ written (turn scheme host url g).2 = written g1.
Proof.
  intros Ha Hs Hr Ht Hm He Hmul Hc Hinf. unfold turn, gateway_turn.
  rewrite (bind_run _ _ _ _ _ Ha), (bind_run stop_requested _ _ _ _ eq_refl), Hs.
  rewrite (proj2 (String.eqb_neq _ _) Hr). cbn [orb].
  rewrite (bind_run get_gateway _ _ _ _ eq_refl).
  cbn [failure_count outage_started_monotonic].
  assert (Hout : exists t g2, (match outage_started_monotonic g1 with Some t => mret t | None => mono_time end : GW float)
      (Gateway (gw_env g1) (n_wall g1) (n_mono g1) (S (n_stopped g1)) (n_waited g1) (n_random g1) (n_guard g1)
         (n_write g1) (n_attempt g1) (failure_count g1) (outage_started_monotonic g1) (written g1)) = (Ok t, g2) /\
    written g2 = written g1).
  { destruct (outage_started_monotonic g1); by eexists _, _. }
  destruct Hout as (t & g2 & Ho & Hw). rewrite (bind_run _ _ _ _ _ Ho), (bind_run (put_outage _ _) _ _ _ _ eq_refl), Ht.
  assert (Hex : forall c e, exhausted policy c e = false) by (intros; unfold exhausted; by rewrite Hm, He).
  rewrite (bind_run mono_time _ _ _ _ eq_refl), Hex, (bind_run random _ _ _ _ eq_refl).
  assert (Hd : forall x, delay_for libm_pow policy (failure_count g1 + 1) x = Err OverflowError).
  { intros x. unfold delay_for, py_pow. replace (Z.max 0 (failure_count g1 + 1 - 1)) with (failure_count g1) by lia.
    by rewrite (proj2 (Z.eqb_neq _ 0)), Hmul, Hinf by lia. }
  rewrite Hd. unfold mbind, M_bind, lift. cbn [fst snd written set_outage]. done.
Qed.
End theorems.

(** ** Evaluated runs *)
Definition demo_gateway_env (disk_full : nat -> bool) : gateway_env :=
  GatewayEnv (fun n => of_Z (1000 + Z.of_nat n)) (fun n => of_Z (Z.of_nat n)) (fun _ => false) (fun _ => false)
    (fun _ => fratio 1 2) (fun _ => None) (fun _ _ _ => Ok ["8.8.8.8"]) disk_full.

Definition demo_gateway (count : Z) : gateway :=
  Gateway (demo_gateway_env (fun _ => false)) 0 0 0 0 0 0 0 0 count None [].

(** Every attempt fails like this. *)
Definition demo_attempts (result : ChildAttemptResult) (_ : nat) (_ _ : Z -> GW unit) : GW ChildAttemptResult :=
  mret result.

Definition demo_run (policy : ReconnectPolicy) (result : ChildAttemptResult) (fuel : nat) (count : Z) :=
  run pow_of_two (fun s => s) false false policy false (of_Z 999) (demo_attempts result) None
    (Some "rtmp://live.example/app/key") fuel (demo_gateway count).

Definition unreachable : ChildAttemptResult := AttemptResult "UNREACHABLE" false 0 false None None.
Definition three_attempts : ReconnectPolicy := Policy fone (of_Z 30) (of_Z 2) (fratio 1 5) 3 fzero.

Example demo_runs :
  ((demo_run default_policy (AttemptResult "AUTH_FAILED" false 0 true None None) 5 0).1,
   (demo_run three_attempts unreachable 5 0).1,
   status_name <$> written (demo_run three_attempts unreachable 5 0).2) =
  (Ok (Some 2), Ok (Some 3), ["FAILED"; "RECONNECTING"; "RECONNECTING"; "STARTING"]).
Proof. vm_compute. reflexivity. Qed.

(** From the start: 1024 attempts are followed by a delay, the 1025th is not. *)
Example demo_outage :
  (demo_run default_policy unreachable 2000 0).1 = Err OverflowError /\
  n_attempt (demo_run default_policy unreachable 2000 0).2 = 1025%nat.
Proof. vm_compute. done. Qed.

Lemma long_outage_crashes_witness :
  (gateway_turn pow_of_two (fun s => s) false false default_policy false (of_Z 999) (demo_attempts unreachable)
     "rtmp" "live.example" "rtmp://live.example/app/key" (demo_gateway 1024)).1 = Err OverflowError.
Proof.
  destruct (long_outage_crashes pow_of_two (fun s => s) false false default_policy false (of_Z 999)
    (demo_attempts unreachable) "rtmp" "live.example" "rtmp://live.example/app/key" (demo_gateway 1024) unreachable
    (Gateway (demo_gateway_env (fun _ => false)) 0 0 0 0 0 0 0 1 1024 None [])) as [H _].
  - vm_compute. reflexivity.
  - reflexivity.
  - vm_compute. discriminate.
  - reflexivity.
  - reflexivity.
  - reflexivity.
  - vm_compute. reflexivity.
  - reflexivity.
  - vm_compute. reflexivity.
  - exact H.
Defined.

Notation exhausted_run := (run pow_of_two (fun s => s) false false three_attempts false (of_Z 999)
  (demo_attempts unreachable) None (Some "rtmp://live.example/app/key") 5 (demo_gateway 0)) (only parsing).

Lemma gateway_exit_status_witness :
  exists s rest, written (exhausted_run).2 = s :: rest /\ final_status 3 s.
Proof.
  assert (Hr : (exhausted_run).1 = Ok (Some 3)) by (vm_compute; reflexivity).
  refine (gateway_exit_status pow_of_two (fun s => s) false false three_attempts false (of_Z 999)
    (demo_attempts unreachable) None (Some "rtmp://live.example/app/key") 5 (demo_gateway 0) 3 _ _).
  rewrite <- Hr. apply surjective_pairing.
Defined.

Lemma demo_never_connects scheme host url :
  never_connects (fun s => s) false false false (of_Z 999) (demo_attempts unreachable) scheme host url.
Proof.
  intros g r g'. unfold guarded_attempt. intros H.
  rewrite (bind_run next_attempt _ _ _ _ eq_refl), (bind_run get_gateway _ _ _ _ eq_refl) in H. cbv zeta in H.
  match type of H with (match ?x with _ => _ end) _ = _ => destruct x as [?|[]] end; by injection H as _ <-.
Qed.

Lemma retries_are_bounded_witness :
  (gateway_loop pow_of_two (fun s => s) false false three_attempts false (of_Z 999) (demo_attempts unreachable)
     "rtmp" "live.example" 3 "rtmp://live.example/app/key" (demo_gateway 0)).1 <> Ok None.
Proof.
  apply (retries_are_bounded pow_of_two (fun s => s) false false three_attempts false (of_Z 999)
    (demo_attempts unreachable)).
  - reflexivity.
  - apply demo_never_connects.
  - split; [vm_compute; discriminate|reflexivity].
  - vm_compute. discriminate.
Defined.
