(* ===== verification/StateFile.v ===== *)
(** * State files

    The protocol of [apps/control-api/auth_store.py] and [catalog_store.py], which
    both read a whole JSON document under a lock, check it, and replace it: the same
    fuse as in Authority.v, but nothing is kept in memory, a load does not arm the
    fuse, and a document is checked by the caller. [StateFormat] is what one file
    promises to this protocol; the memory of the world is [unit]. *)

From S2P Require Import Prelude PyFloat PyValue Json Effects Authority.

Class StateFormat := {
  sf_error : exn;                      (* the store's error class *)
  sf_default : dict;                   (* the document before the first write *)
  sf_validate : dict -> result unit    (* the checks of a document that was read *)
}.

Abbreviation FM := (M (world unit)).

(** The mapping in a field of a document that was validated. *)
Definition dict_field (document : dict) (field : string) : dict :=
  default ∅ (as_dict (py_get document field)).

Section protocol.
Context `{StateFormat}.

(** [with _state_lock(...)]: an [OSError] of the lock or of the body becomes the
    store's error. *)
Definition state_lock {B} (body : FM B) : FM B :=
  catch (io id ;; finally body (io id))
        (fun e => match e with OSError => raise sf_error | _ => raise e end).

Definition read_json : FM dict :=
  catch (io id) (fun _ => raise sf_error) ;;              (* open, read *)
  f ← get_file;
  match f with
  | Missing =>
      was ← was_initialized;
      if was : bool then raise sf_error else mret sf_default
  | Unparsable => raise sf_error
  | Present r =>
      v ← catch (lift (load_json_authority r)) (fun _ => raise sf_error);
      match v with VDict d => mret d | _ => raise sf_error end
  end.

(** [_validate(read_json(...))] *)
Definition read_valid : FM dict := d ← read_json; lift (sf_validate d) ;; mret d.

Definition atomic_write_json (payload : dict) : FM unit :=
  io id ;;                                                (* mkdir, mkstemp *)
  r ← catch (lift (json_dump (VDict payload))) (fun _ => raise sf_error);
  io id ;;                                                (* flush, fsync *)
  mark_initialized ;;
  io (fun '(_, u) => (Present r, u)) ;;                   (* os.replace *)
  io id.                                                  (* fsync of the directory *)

(** One file of [ensure_auth_state] and [ensure_catalog]. *)
Definition ensure_file : FM unit :=
  io id ;;                                                (* exists *)
  f ← get_file;
  match f with
  | Missing =>
      was ← was_initialized;
      if was : bool then raise sf_error else atomic_write_json sf_default
  | _ => read_valid ;; mark_initialized
  end.

(** ** The durable document *)
Definition decode_document (f : authority_file) : option dict :=
  match f with
  | Present r =>
      match load_json_authority r with
      | Ok (VDict d) => match sf_validate d with Ok _ => Some d | Err _ => None end
      | _ => None
      end
  | _ => None
  end.

Definition document (w : world unit) : option dict := decode_document (file w).

(** What a read answers: the document, or the default before the first write. *)
Definition visible (w : world unit) : option dict :=
  match file w with
  | Missing => if fuse w then None
               else match sf_validate sf_default with Ok _ => Some sf_default | Err _ => None end
  | f => decode_document f
  end.
End protocol.

(** ** What the steps do to the directory entry *)

(** The file is untouched; the fuse may have been armed. *)
Definition calm (w w' : world unit) : Prop :=
  file w' = file w /\ (fuse w = true -> fuse w' = true).

#[export] Instance calm_preorder : PreOrder calm.
Proof. split; [by split|]. intros ??? [??] [??]. split; [congruence|auto]. Qed.

Lemma calm_io eff :
  (forall f u, (eff (f, u)).1 = f) -> (forall f u, u = true -> (eff (f, u)).2 = true) ->
  Resp calm (io (A:=unit) eff).
Proof.
  intros Hf Hu w. unfold io, calm. destruct (io_fault _ _); [done|].
  specialize (Hf (file w) (fuse w)). specialize (Hu (file w) (fuse w)).
  by destruct (eff (file w, fuse w)).
Qed.

#[export] Instance calm_id : Resp calm (io (A:=unit) id).
Proof. by apply calm_io. Qed.
#[export] Instance calm_mark : Resp calm (mark_initialized (A:=unit)).
Proof. unfold mark_initialized. apply resp_bind; [apply _|by apply calm_io|apply _]. Qed.
#[export] Instance calm_was : Resp calm (was_initialized (A:=unit)).
Proof. unfold was_initialized. apply resp_bind; [apply _..|]. intros _ w. done. Qed.
#[export] Instance calm_get_file : Resp calm (get_file (A:=unit)).
Proof. by intros w. Qed.
#[export] Instance calm_time : Resp calm (time_time (A:=unit)).
Proof. by intros w. Qed.
#[export] Instance calm_uuid : Resp calm (uuid4 (A:=unit)).
Proof. by intros w. Qed.

(** Neither the file nor the fuse is touched. *)
Definition still (w w' : world unit) : Prop := file w' = file w /\ fuse w' = fuse w.

#[export] Instance still_preorder : PreOrder still.
Proof. split; [by split|]. intros ??? [??] [??]. split; congruence. Qed.
#[export] Instance still_id : Resp still (io (A:=unit) id).
Proof. intros w. unfold io. by destruct (io_fault _ _). Qed.
#[export] Instance still_was : Resp still (was_initialized (A:=unit)).
Proof. unfold was_initialized. apply resp_bind; [apply _..|]. intros _ w. done. Qed.
#[export] Instance still_get_file : Resp still (get_file (A:=unit)).
Proof. by intros w. Qed.
#[export] Instance still_time : Resp still (time_time (A:=unit)).
Proof. by intros w. Qed.
#[export] Instance still_uuid : Resp still (uuid4 (A:=unit)).
Proof. by intros w. Qed.

Lemma resp_ok {B} (R : relation (world unit)) (m : FM B) w r w' : Resp R m -> m w = (r, w') -> R w w'.
Proof. intros Hm E. specialize (Hm w). by rewrite E in Hm. Qed.

Section facts.
Context `{StateFormat}.

#[export] Instance still_read_valid : Resp still read_valid.
Proof. unfold read_valid, read_json. solve_resp. Qed.
#[export] Instance calm_read_valid : Resp calm read_valid.
Proof. unfold read_valid, read_json. solve_resp. Qed.

#[export] Instance resp_state_lock (R : relation (world unit)) `{!PreOrder R} {B} (body : FM B) :
  Resp R (io (A:=unit) id) -> Resp R body -> Resp R (state_lock body).
Proof.
  intros. unfold state_lock. apply resp_catch; [done| |intros []; apply _].
  apply resp_bind; [done|done|]. intros _. by apply resp_finally.
Qed.

(** A body that is a step from where an invariant holds. *)
Lemma lock_step (R : relation (world unit)) `{!PreOrder R} (I : world unit -> Prop) {B} (body : FM B) w :
  (forall w w', R w w' -> I w -> I w') -> Resp R (io (A:=unit) id) ->
  (forall w, I w -> R w (body w).2) -> I w -> R w (state_lock body w).2.
Proof.
  intros Hmono Hio Hb Hi. unfold state_lock.
  apply (resp_catch_start R); [|intros []; apply _].
  apply (resp_bind_inv R I); [done|done|apply Hio|]. intros [] w1 _ Hi1.
  apply (resp_finally_post R); [by apply Hb|done].
Qed.

Lemma calm_document w w' : calm w w' -> document w' = document w.
Proof. intros [Hf _]. unfold document. by rewrite Hf. Qed.

Lemma calm_visible w w' : calm w w' -> visible w' = visible w \/ visible w' = None.
Proof.
  intros [Hf Hu]. unfold visible. rewrite Hf. destruct (file w); [|by left..].
  destruct (fuse w); [by rewrite Hu by done; left|]. destruct (fuse w'); [by right|by left].
Qed.

Lemma still_visible w w' : still w w' -> visible w' = visible w.
Proof. intros [Hf Hu]. unfold visible. by rewrite Hf, Hu. Qed.

Lemma document_visible w d : document w = Some d -> visible w = Some d.
Proof. unfold document, visible. by destruct (file w). Qed.

Lemma document_valid w d : document w = Some d -> sf_validate d = Ok tt.
Proof.
  unfold document, decode_document. destruct (file w) as [| |r]; [done..|].
  destruct (load_json_authority r) as [[]|]; try done.
  destruct (sf_validate d0) as [[]|] eqn:E; [|done]. by intros [= <-].
Qed.

Lemma visible_valid w d : visible w = Some d -> sf_validate d = Ok tt.
Proof.
  unfold visible. destruct (file w) eqn:E.
  - destruct (fuse w); [done|]. destruct (sf_validate sf_default) as [[]|] eqn:Ev; [|done].
    by intros [= <-].
  - done.
  - rewrite <- E. apply document_valid.
Qed.

(** ** Reading *)
Lemma read_valid_ok w d w' : read_valid w = (Ok d, w') -> visible w = Some d /\ still w w'.
Proof.
  intros Hr. split; [|exact (resp_ok still read_valid w (Ok d) w' _ Hr)].
  unfold read_valid, read_json in Hr. apply bind_ok in Hr as (d0 & w1 & Hr & Hv).
  apply bind_ok in Hv as (u & w1' & [Hv ->]%lift_ok & [-> ->]%ret_ok). destruct u.
  apply bind_ok in Hr as (u & w2 & [Ho|(e & w3 & _ & Ho)]%catch_ok & Hr); [|done].
  apply io_ok in Ho as ([= Hf Hu] & _).
  apply bind_ok in Hr as (f & w3 & Hg & Hr). injection Hg as <- <-. unfold visible. rewrite <- Hf.
  destruct (file w2) as [| |r] eqn:Ef; [|done|].
  - apply bind_ok in Hr as (b & w3 & Hb & Hr). unfold was_initialized in Hb.
    apply bind_ok in Hb as (u1 & w4 & Ho & Hb). apply io_ok in Ho as ([= _ Hu2] & _).
    injection Hb as <- <-. rewrite <- Hu, <- Hu2. destruct (fuse w4); [done|].
    apply ret_ok in Hr as [-> _]. by rewrite Hv.
  - apply bind_ok in Hr as (v & w3 & [Hl|(e & w4 & _ & Hl)]%catch_ok & Hr); [|done].
    apply lift_ok in Hl as [Hl ->]. destruct v as [| | | | | |d1]; try done. apply ret_ok in Hr as [-> _].
    cbn. by rewrite Hl, Hv.
Qed.

(** ** Writing *)

(** A write, wherever it stops, leaves the file as it was or publishes the payload. *)
Definition wrote (d : dict) (w w' : world unit) : Prop :=
  calm w w' \/ (document w' = Some d /\ fuse w' = true).

#[export] Instance wrote_preorder d : PreOrder (wrote d).
Proof.
  split; [by left|]. intros w1 w2 w3 [H1|[H1 U1]] [H2|[H2 U2]].
  - left. by etrans.
  - by right.
  - right. split; [by rewrite (calm_document w2)|]. by apply H2.
  - by right.
Qed.

#[export] Instance wrote_calm {B} d (m : FM B) : Resp calm m -> Resp (wrote d) m.
Proof. intros Hm w. left. apply Hm. Qed.

Lemma document_dumped d r :
  json_dump (VDict d) = Ok r -> sf_validate d = Ok tt -> decode_document (Present r) = Some d.
Proof. intros Hr Hv. cbn. by rewrite (load_json_authority_dump _ _ Hr), Hv. Qed.

Lemma mark_arms w u w' : mark_initialized (A:=unit) w = (Ok u, w') -> fuse w' = true.
Proof. intros Hm. by apply mark_initialized_ok in Hm as (_ & ? & _). Qed.

Lemma replace_outcome d w :
  (serializable (VDict d) = true -> sf_validate d = Ok tt) -> wrote d w (atomic_write_json d w).2.
Proof.
  intros Hv. unfold atomic_write_json.
  apply (resp_bind_post (wrote d)); [apply (resp (R:=wrote d))|]. intros [] w1 _.
  apply (resp_bind_post (wrote d)); [apply (resp (R:=wrote d))|].
  intros r w2 [Hr|(e & w3 & _ & Hr)]%catch_ok; [|done]. apply lift_ok in Hr as [Hr ->].
  assert (Hd : decode_document (Present r) = Some d).
  { apply document_dumped; [done|]. apply Hv, json_dump_serializable. eauto. }
  apply (resp_bind_post (wrote d)); [apply (resp (R:=wrote d))|]. intros [] w3 _.
  apply (resp_bind_post (wrote d)); [apply (resp (R:=wrote d))|]. intros u w4 Hm%mark_arms.
  apply (resp_bind_post (wrote d)); [|intros; apply (resp (R:=wrote d))].
  unfold io. destruct (io_fault _ _); [by left|]. by right.
Qed.

Lemma replace_ok d w u w' :
  atomic_write_json d w = (Ok u, w') ->
  serializable (VDict d) = true /\ fuse w' = true /\
  (sf_validate d = Ok tt -> document w' = Some d).
Proof.
  unfold atomic_write_json. intros Hw. apply bind_ok in Hw as ([] & w1 & _ & Hw).
  apply bind_ok in Hw as (r & w2 & [Hr|(e & w3 & _ & Hr)]%catch_ok & Hw); [|done].
  apply lift_ok in Hr as [Hr ->]. apply bind_ok in Hw as ([] & w3 & _ & Hw).
  apply bind_ok in Hw as (u1 & w4 & Hm%mark_arms & Hw).
  apply bind_ok in Hw as ([] & w5 & Hio & Hw). apply io_ok in Hio as ([= Hf Hu] & _).
  apply io_ok in Hw as ([= Hf' Hu'] & _). split; [apply json_dump_serializable; eauto|].
  split; [congruence|]. intros Hv. unfold document. rewrite Hf', Hf. by apply document_dumped.
Qed.

Lemma write_ok_visible payload w u w' d :
  atomic_write_json payload w = (Ok u, w') -> visible w' = Some d -> d = payload.
Proof.
  unfold atomic_write_json. intros Hw. apply bind_ok in Hw as ([] & w1 & _ & Hw).
  apply bind_ok in Hw as (r & w2 & [Hr|(e & w3 & _ & Hr)]%catch_ok & Hw); [|done].
  apply lift_ok in Hr as [Hr ->]. apply bind_ok in Hw as ([] & w3 & _ & Hw).
  apply bind_ok in Hw as (u1 & w4 & _ & Hw). apply bind_ok in Hw as ([] & w5 & Hio & Hw).
  apply io_ok in Hio as ([= Hf _] & _). apply io_ok in Hw as ([= Hf' _] & _).
  unfold visible. rewrite Hf', Hf. cbn. rewrite (load_json_authority_dump _ _ Hr).
  destruct (sf_validate payload); [|done]. congruence.
Qed.

Lemma state_lock_ok {B} (body : FM B) w b w' :
  state_lock body w = (Ok b, w') ->
  exists w1 w2, (file w1 = file w /\ fuse w1 = fuse w /\ same_oracles w w1) /\
    body w1 = (Ok b, w2) /\ (file w' = file w2 /\ fuse w' = fuse w2 /\ same_oracles w2 w').
Proof.
  unfold state_lock. intros [Hr|(e & w1 & _ & Hr)]%catch_ok; [|by destruct e].
  apply bind_ok in Hr as ([] & w1 & Hio & Hr). apply io_ok in Hio as ([= Hf Hu] & _ & Ho).
  apply finally_ok in Hr as (w2 & u & Hb & Hio). apply io_ok in Hio as ([= Hf' Hu'] & _ & Ho').
  by exists w1, w2.
Qed.

(** A look at the document, with a working disk. *)
Lemma lookup_run {B} (f : dict -> B) w d :
  no_faults w -> document w = Some d ->
  exists w', state_lock (d ← read_valid; mret (f d)) w = (Ok (f d), w') /\ calm w w'.
Proof.
  intros Hn Hd. unfold state_lock, catch.
  destruct (io_run id w) as (w1 & H1 & E1 & _ & O1); [apply Hn|]. injection E1 as F1 U1.
  rewrite (bind_run _ _ _ _ _ H1). unfold finally.
  assert (Hr : exists w2, (d ← read_valid; mret (f d)) w1 = (Ok (f d), w2) /\ same_oracles w1 w2 /\ calm w1 w2).
  { unfold read_valid, read_json, catch.
    destruct (io_run id w1) as (w2 & H2 & E2 & _ & O2).
    { destruct O1 as (_ & _ & _ & _ & ->). apply Hn. }
    injection E2 as F2 U2. unfold document, decode_document in Hd.
    destruct (file w) as [| |r] eqn:Ef; [done..|].
    destruct (load_json_authority r) as [v|] eqn:El; [|done]. destruct v as [| | | | | |d1]; try done.
    destruct (sf_validate d1) as [[]|] eqn:Ev; [|done]. injection Hd as <-.
    exists w2. unfold mbind, M_bind. rewrite H2. cbn. rewrite F2, F1, El. cbn. rewrite Ev. cbn.
    split; [done|]. split; [done|]. split; congruence. }
  destruct Hr as (w2 & -> & O2 & C2). destruct (io_run id w2) as (w3 & H3 & E3 & _ & _).
  { destruct O1 as (_ & _ & _ & _ & E), O2 as (_ & _ & _ & _ & E'). rewrite E', E. apply Hn. }
  rewrite H3. exists w3. split; [done|]. injection E3 as F3 U3. destruct C2 as [F2 U2].
  split; [congruence|]. intros Hf. rewrite U3. apply U2. congruence.
Qed.

(** Whatever is read after a write was there before, or is the payload. *)
Lemma write_visible payload w d :
  visible (atomic_write_json payload w).2 = Some d -> visible w = Some d \/ d = payload.
Proof.
  set (R := fun w w' : world unit => calm w w' \/ exists r, file w' = Present r /\ json_dump (VDict payload) = Ok r).
  assert (HR : PreOrder R).
  { split; [by left|]. intros w1 w2 w3 [H1|(r & H1 & Hr)] [H2|(r' & H2 & Hr')].
    - left. by etrans.
    - right. eauto.
    - right. exists r. split; [|done]. destruct H2 as [-> _]. done.
    - right. eauto. }
  assert (Hc : forall B (m : FM B), Resp calm m -> Resp R m) by (intros B m Hm w1; left; apply Hm).
  assert (Hw : R w (atomic_write_json payload w).2).
  { unfold atomic_write_json. apply (resp_bind_post R); [apply Hc, _|]. intros _ w1 _.
    apply (resp_bind_post R); [apply Hc, _|]. intros r w2 [Hr|(e & w3 & _ & Hr)]%catch_ok; [|done].
    apply lift_ok in Hr as [Hr ->].
    apply (resp_bind_post R); [apply Hc, _|]. intros _ w3 _.
    apply (resp_bind_post R); [apply Hc, _|]. intros _ w4 _.
    apply (resp_bind_post R); [|intros; apply Hc, _].
    unfold io. destruct (io_fault _ _); [by left|]. right. by exists r. }
  destruct Hw as [Hw|(r & Hf & Hr)].
  - destruct (calm_visible _ _ Hw) as [E|E]; rewrite E; [by left|done].
  - unfold visible. rewrite Hf. cbn. rewrite (load_json_authority_dump _ _ Hr).
    destruct (sf_validate payload); [|done]. intros [= <-]. by right.
Qed.

(** ** Starting *)

(** Nothing is seen that was not seen before, and a document that was there stays. *)
Definition nothing_new (w w' : world unit) : Prop :=
  (forall d, visible w' = Some d -> visible w = Some d) /\ (is_Some (document w) -> is_Some (document w')).

#[export] Instance nothing_new_preorder : PreOrder nothing_new.
Proof. split; [by split|]. intros w1 w2 w3 [V1 D1] [V2 D2]. split; auto. Qed.

Lemma calm_nothing_new {B} (m : FM B) : Resp calm m -> Resp nothing_new m.
Proof.
  intros Hm w. specialize (Hm w). split; [|by rewrite (calm_document _ _ Hm)]. intros d Hd.
  destruct (calm_visible _ _ Hm) as [E|E]; congruence.
Qed.

Lemma ensure_file_start : Resp nothing_new ensure_file.
Proof.
  intros w. unfold ensure_file. apply (resp_bind_post nothing_new); [by apply calm_nothing_new, _|].
  intros _ w1 _. apply (resp_bind_post nothing_new); [by apply calm_nothing_new, _|].
  intros f w2 Hg. injection Hg as <- ->. destruct (file w2) as [| |r] eqn:E.
  2,3: apply calm_nothing_new; solve_resp.
  apply (resp_bind_post nothing_new); [by apply calm_nothing_new, _|]. intros was w3 Hwas.
  destruct was; [done|]. pose proof (resp_ok still _ _ _ _ _ Hwas) as [Hf _].
  assert (Hu : fuse w3 = false).
  { unfold was_initialized in Hwas. apply bind_ok in Hwas as ([] & w4 & _ & Hu). by injection Hu as Hu <-. }
  split.
  - intros d Hd. pose proof (visible_valid _ _ Hd) as Hv.
    apply write_visible in Hd as [Hd| ->]; [done|]. unfold visible. by rewrite Hf, E, Hu, Hv.
  - intros [d Hd]. unfold document in Hd. by rewrite Hf, E in Hd.
Qed.

End facts.

(** ** The oracles go forward *)
Definition later (w w' : world unit) : Prop :=
  clock (environment w') = clock (environment w) /\ uuid (environment w') = uuid (environment w) /\
  io_fault (environment w') = io_fault (environment w) /\ (uuids (environment w) <= uuids (environment w'))%nat.

#[export] Instance later_preorder : PreOrder later.
Proof.
  split; [by intros w; repeat split|]. intros ??? (?&?&?&?) (?&?&?&?).
  split; [congruence|]. split; [congruence|]. split; [congruence|lia].
Qed.

#[export] Instance later_io eff : Resp later (io (A:=unit) eff).
Proof.
  intros w. unfold io. destruct (io_fault _ _); [by repeat split|].
  destruct (eff _). by repeat split.
Qed.
#[export] Instance later_get_file : Resp later (get_file (A:=unit)).
Proof. intros w. by repeat split. Qed.
#[export] Instance later_get_fuse : Resp later (get_fuse (A:=unit)).
Proof. intros w. by repeat split. Qed.
#[export] Instance later_time : Resp later (time_time (A:=unit)).
Proof. intros w. by repeat split. Qed.
#[export] Instance later_uuid : Resp later (uuid4 (A:=unit)).
Proof. intros w. repeat split; cbn; lia. Qed.
#[export] Instance later_mark : Resp later (mark_initialized (A:=unit)).
Proof. unfold mark_initialized. solve_resp. Qed.
#[export] Instance later_was : Resp later (was_initialized (A:=unit)).
Proof. unfold was_initialized. solve_resp. Qed.
#[export] Instance later_read `{StateFormat} : Resp later read_valid.
Proof. unfold read_valid, read_json. solve_resp. Qed.
#[export] Instance later_write `{StateFormat} d : Resp later (atomic_write_json d).
Proof. unfold atomic_write_json. solve_resp. Qed.
#[export] Instance later_ensure `{StateFormat} : Resp later ensure_file.
Proof. unfold ensure_file. solve_resp. Qed.
