(* ===== verification/AuthStore.v ===== *)
(** * User accounts and their sessions

    [apps/control-api/auth_store.py] and [auth_session_gc.py]: accounts in one file,
    the sessions of the browsers in another, both under the protocol of StateFile.v.
    A password is kept as a PBKDF2 digest, a session token as its SHA-256 digest.

    The number of iterations of PBKDF2 ([PBKDF2_ITERATIONS], 260000 in the code) is a
    variable, so that runs with a small one can be evaluated. [secrets] draws its
    bytes from the identifier oracle. *)

From S2P Require Import Prelude PyFloat Sha256 PyValue Json Effects Authority PyText Uuid IpAddress Url StateFile.

(** ** Random texts and hexadecimal *)

(** [secrets.token_bytes(n)]: any [n] bytes can come out. *)
Definition token_bytes (n : nat) : FM (list Z) :=
  s ← uuid4; mret (take n (bytes_of s ++ replicate n 0)).

Definition TOKEN_URLSAFE_CHARS : string :=
  "ABCDEFGHIJKLMNOPQRSTUVWXYZabcdefghijklmnopqrstuvwxyz0123456789-_".
Definition url64_char (z : Z) : Ascii.ascii :=
  nth (Z.to_nat (z mod 64)) (String.list_ascii_of_string TOKEN_URLSAFE_CHARS) "A"%char.

(** [base64.urlsafe_b64encode] without the padding. *)
Fixpoint urlsafe_b64 (l : list Z) : string :=
  match l with
  | a :: b :: c :: l' =>
      String (url64_char (a / 4)) (String (url64_char (16 * (a mod 4) + b / 16))
        (String (url64_char (4 * (b mod 16) + c / 64)) (String (url64_char c) (urlsafe_b64 l'))))
  | [a; b] =>
      String (url64_char (a / 4)) (String (url64_char (16 * (a mod 4) + b / 16))
        (String (url64_char (4 * (b mod 16))) EmptyString))
  | [a] => String (url64_char (a / 4)) (String (url64_char (16 * (a mod 4))) EmptyString)
  | [] => EmptyString
  end.

Definition token_urlsafe (n : nat) : FM string := l ← token_bytes n; mret (urlsafe_b64 l).

Definition bytes_hex (l : list Z) : string := foldr (hex 2) EmptyString l.

(** [bytes.fromhex]: blanks are allowed between the bytes. *)
Definition hex_blank (c : Ascii.ascii) : bool :=
  let n := byte_code c in ((9 <=? n) && (n <=? 13)) || (n =? 32).
Fixpoint bytes_fromhex (s : string) : option (list Z) :=
  match s with
  | EmptyString => Some []
  | String c s1 =>
      if hex_blank c then bytes_fromhex s1
      else match s1 with
           | String d s2 =>
               match hex_value c, hex_value d with
               | Some h, Some l => cons (16 * h + l) <$> bytes_fromhex s2
               | _, _ => None
               end
           | EmptyString => None
           end
  end.

(** ** PBKDF2 with HMAC-SHA-256 and one block of output *)
Definition hmac_bytes (key msg : list Z) : list Z := hmac_sha256 key msg ≫= be_bytes 4.

Definition pbkdf2_step (password : list Z) (p : list Z * list Z) : list Z * list Z :=
  let u := hmac_bytes password p.1 in (u, zip_with Z.lxor p.2 u).

Definition pbkdf2_hmac (password salt : list Z) (iterations : Z) : list Z :=
  let u := hmac_bytes password (salt ++ be_bytes 4 1) in
  (Z.iter (iterations - 1) (pbkdf2_step password) (u, u)).2.

Example pbkdf2_vectors :
  (bytes_hex (pbkdf2_hmac (bytes_of "password") (bytes_of "salt") 1),
   bytes_hex (pbkdf2_hmac (bytes_of "password") (bytes_of "salt") 2)) =
  ("120fb6cffcf8b32c43e7225256c4f837a86548c92ccc35480805987cb70be17b",
   "ae4d0c95af6b46d32d0adff928f06dd02a303f8ef3c251dfd6e2d85a95474c43").
Proof. vm_compute. reflexivity. Qed.

(** ** Records *)
Definition PBKDF2_SALT_BYTES : nat := 16.
Definition PBKDF2_DIGEST_BYTES : nat := 32.
Definition SESSION_TOKEN_BYTES : nat := 32.
Definition CSRF_TOKEN_BYTES : nat := 24.
Definition CSRF_TOKEN_LENGTH : nat := (CSRF_TOKEN_BYTES * 4 + 2) / 3.
Definition DEFAULT_SESSION_TTL_SECONDS : Z := 7 * 24 * 3600.

Definition _default_users : dict := list_to_map [("users", VDict ∅); ("email_index", VDict ∅)].
Definition _default_sessions : dict := {[ "sessions" := VDict ∅ ]}.

Definition auth_nonempty_string (record : dict) (field : string) : result string :=
  match py_get record field with
  | VStr s => if str_empty s then Err AuthStateError else Ok s
  | _ => Err AuthStateError
  end.

Definition auth_finite_number (record : dict) (field : string) : result float :=
  match number_as_float (py_get record field) with
  | Some number => if is_finite number then Ok number else Err AuthStateError
  | None => Err AuthStateError
  end.

Definition checked_clock (current : float) : result float :=
  if is_finite current && negb (flt current fzero) then Ok current else Err AuthStateError.
Definition _validated_clock_now : FM float := candidate ← time_time; lift (checked_clock candidate).

Definition _normalize_email (email : string) : string := py_lower (py_strip email).

(** ["@" in email] and at neither end. *)
Definition email_shape (email : string) : bool :=
  has_char "@" email && negb (String.prefix "@" email) && negb (ends_with "@" email).

Section store.
Context (PBKDF2_ITERATIONS : Z).

Definition _parse_password_hash (v : string) : result (list Z * list Z) :=
  match split_on "$" v with
  | [algorithm; iterations_raw; salt_hex; digest_hex] =>
      raise_if (negb (String.eqb algorithm "pbkdf2_sha256") ||
                negb (String.eqb iterations_raw (pretty.pretty PBKDF2_ITERATIONS))) ValueError ;;
      raise_if (negb (Nat.eqb (py_len salt_hex) (PBKDF2_SALT_BYTES * 2)) ||
                negb (Nat.eqb (py_len digest_hex) (PBKDF2_DIGEST_BYTES * 2))) ValueError ;;
      match bytes_fromhex salt_hex, bytes_fromhex digest_hex with
      | Some salt, Some digest =>
          raise_if (negb (Nat.eqb (length salt) PBKDF2_SALT_BYTES) ||
                    negb (Nat.eqb (length digest) PBKDF2_DIGEST_BYTES)) ValueError ;;
          Ok (salt, digest)
      | _, _ => Err ValueError
      end
  | _ => Err ValueError
  end.

Definition _validate_password_hash (v : string) : result unit :=
  match _parse_password_hash v with Ok _ => Ok tt | Err _ => Err AuthStateError end.

(** One turn of the loop over the users. *)
Definition validate_user (email_index : dict) (user_id : string) (v : value) : result unit :=
  match v with
  | VDict item =>
      raise_if (str_empty user_id) AuthStateError ;;
      stored_id ← auth_nonempty_string item "id";
      email ← auth_nonempty_string item "email";
      password_hash ← auth_nonempty_string item "password_hash";
      role ← auth_nonempty_string item "role";
      raise_if (negb (String.eqb role (py_strip role))) AuthStateError ;;
      status ← auth_nonempty_string item "status";
      raise_if (negb (String.eqb status "active")) AuthStateError ;;
      created_at ← auth_finite_number item "created_at";
      updated_at ← auth_finite_number item "updated_at";
      raise_if (flt created_at fzero) AuthStateError ;;
      raise_if (flt updated_at created_at) AuthStateError ;;
      match py_get item "display_name" with
      | VNull | VStr _ => Ok tt
      | _ => Err AuthStateError
      end ;;
      raise_if (negb (String.eqb stored_id user_id)) AuthStateError ;;
      raise_if (negb (String.eqb (_normalize_email email) email) || negb (email_shape email)) AuthStateError ;;
      _validate_password_hash password_hash ;;
      raise_if (negb (py_eq (py_get email_index email) (VStr user_id))) AuthStateError
  | _ => Err AuthStateError
  end.

(** One turn of the loop over the index. *)
Definition validate_index (users : dict) (email : string) (v : value) : result unit :=
  match v with
  | VStr user_id =>
      match py_get users user_id with
      | VDict user => raise_if (negb (py_eq (py_get user "email") (VStr email))) AuthStateError
      | _ => Err AuthStateError
      end
  | _ => Err AuthStateError
  end.

Definition _validate_users (v : dict) : result unit :=
  match py_get v "users", py_get v "email_index" with
  | VDict users, VDict email_index =>
      check_all (validate_user email_index) users ;;
      check_all (validate_index users) email_index
  | _, _ => Err AuthStateError
  end.

Definition _validate_csrf_token (v : string) : result unit :=
  raise_if (negb (Nat.eqb (py_len v) CSRF_TOKEN_LENGTH) ||
            negb (all_chars (fun c => has_char c TOKEN_URLSAFE_CHARS) v)) AuthStateError.

Definition validate_auth_session (token_hash : string) (v : value) : result unit :=
  match v with
  | VDict item =>
      raise_if (negb (Nat.eqb (py_len token_hash) 64) || negb (all_hex token_hash)) AuthStateError ;;
      auth_nonempty_string item "user_id" ;;
      csrf_token ← auth_nonempty_string item "csrf_token";
      _validate_csrf_token csrf_token ;;
      created_at ← auth_finite_number item "created_at";
      expires_at ← auth_finite_number item "expires_at";
      raise_if (flt created_at fzero) AuthStateError ;;
      raise_if (flt expires_at created_at) AuthStateError
  | _ => Err AuthStateError
  end.

Definition _validate_auth_sessions (v : dict) : result unit :=
  match py_get v "sessions" with
  | VDict sessions => check_all validate_auth_session sessions
  | _ => Err AuthStateError
  end.

Definition users_format : StateFormat :=
  {| sf_error := AuthStateError; sf_default := _default_users; sf_validate := _validate_users |}.
Definition sessions_format : StateFormat :=
  {| sf_error := AuthStateError; sf_default := _default_sessions; sf_validate := _validate_auth_sessions |}.

(** ** Passwords *)
Definition _hash_password (password : string) (salt : list Z) : result string :=
  raise_if (negb (Nat.eqb (length salt) PBKDF2_SALT_BYTES)) ValueError ;;
  let digest := pbkdf2_hmac (bytes_of password) salt PBKDF2_ITERATIONS in
  Ok (join_with "$" ["pbkdf2_sha256"; pretty.pretty PBKDF2_ITERATIONS; bytes_hex salt; bytes_hex digest]).

Definition _verify_password (password stored : string) : bool :=
  match _parse_password_hash stored with
  | Ok (salt, expected) =>
      bool_decide (pbkdf2_hmac (bytes_of password) salt PBKDF2_ITERATIONS = expected)
  | Err _ => false
  end.

Definition _DUMMY_PASSWORD_HASH : string :=
  match _hash_password "placeholder" (replicate 16 0) with Ok s => s | Err _ => EmptyString end.

Definition _hash_token (token : string) : string := sha256_hex token.

(** A record that was validated has an id and an email. *)
Definition _public_user (user : dict) : dict :=
  list_to_map
    [("id", py_get user "id"); ("email", py_get user "email");
     ("display_name", py_get user "display_name"); ("role", py_get_or user "role" (VStr "user"));
     ("status", py_get_or user "status" (VStr "active"));
     ("created_at", py_get user "created_at"); ("updated_at", py_get user "updated_at")].

(** ** Accounts *)
Definition new_user (user_id email password_hash : string) (display_name : option string) (now : float) : dict :=
  list_to_map
    [("id", VStr user_id); ("email", VStr email); ("password_hash", VStr password_hash);
     ("display_name", opt_str display_name); ("role", VStr "user"); ("status", VStr "active");
     ("created_at", VFloat now); ("updated_at", VFloat now)].

Definition put_user (users : dict) (user_id email : string) (user : dict) : dict :=
  <["users" := VDict (<[user_id := VDict user]> (dict_field users "users"))]>
    (<["email_index" := VDict (<[email := VStr user_id]> (dict_field users "email_index"))]> users).

Definition register_user (email password : string) (display_name : option string) : FM dict :=
  let normalized := _normalize_email email in
  guard_err (negb (email_shape normalized)) AuthError ;;
  guard_err (Nat.ltb (py_len password) 8) AuthError ;;
  now ← _validated_clock_now;
  salt ← token_bytes PBKDF2_SALT_BYTES;
  password_hash ← lift (_hash_password password salt);
  @state_lock users_format _ (
    users ← @read_valid users_format;
    guard_err (bool_decide (is_Some (dict_field users "email_index" !! normalized))) EmailAlreadyRegistered ;;
    user_id ← uuid4;
    let user := new_user user_id normalized password_hash display_name now in
    @atomic_write_json users_format (put_user users user_id normalized user) ;;
    mret (_public_user user)).

(** The record behind an email. *)
Definition user_by_email (users : dict) (normalized : string) : option dict :=
  match py_get (dict_field users "email_index") normalized with
  | VStr user_id => if str_empty user_id then None else as_dict (py_get (dict_field users "users") user_id)
  | _ => None
  end.

Definition authenticate_user (email password : string) : FM dict :=
  let normalized := _normalize_email email in
  user ← @state_lock users_format _ (users ← @read_valid users_format; mret (user_by_email users normalized));
  let stored_hash := match user with
                     | Some u => match py_get u "password_hash" with VStr s => s | _ => EmptyString end
                     | None => _DUMMY_PASSWORD_HASH
                     end in
  let password_ok := _verify_password password stored_hash in
  match user with
  | Some u =>
      if negb password_ok || negb (py_eq (py_get u "status") (VStr "active")) then raise InvalidCredentials
      else mret (_public_user u)
  | None => raise InvalidCredentials
  end.

Definition get_user (user_id : string) : FM (option dict) :=
  @state_lock users_format _ (
    users ← @read_valid users_format;
    mret (_public_user <$> as_dict (py_get (dict_field users "users") user_id))).

(** ** Sessions *)
(** [now + max(ttl_seconds, 0)]: an [int] too large for a double is an error. *)
Definition session_expiry (now : float) (ttl_seconds : Z) : result float :=
  let ttl := of_Z (Z.max ttl_seconds 0) in
  if is_finite ttl then Ok (fadd now ttl) else Err OverflowError.

Definition session_record (user_id csrf_token : string) (now expires_at : float) : dict :=
  list_to_map
    [("user_id", VStr user_id); ("csrf_token", VStr csrf_token); ("created_at", VFloat now);
     ("expires_at", VFloat expires_at)].

Definition put_sessions (document sessions : dict) : dict := <["sessions" := VDict sessions]> document.

(** The token, the CSRF token and the expiry. *)
Definition create_session (user_id : string) (ttl_seconds : Z) : FM (string * string * float) :=
  now ← _validated_clock_now;
  token ← token_urlsafe SESSION_TOKEN_BYTES;
  csrf_token ← token_urlsafe CSRF_TOKEN_BYTES;
  expires_at ← lift (session_expiry now ttl_seconds);
  @state_lock sessions_format _ (
    document ← @read_valid sessions_format;
    @atomic_write_json sessions_format
      (put_sessions document
         (<[_hash_token token := VDict (session_record user_id csrf_token now expires_at)]>
            (dict_field document "sessions")))) ;;
  mret (token, csrf_token, expires_at).

(** [v <= f] for a finite [f]: an [int] is compared exactly. *)
Definition ffloor (f : float) : Z :=
  match f with
  | S754_finite s m e =>
      let x := if s then Z.neg m else Z.pos m in if 0 <=? e then x * 2 ^ e else x / 2 ^ (- e)
  | _ => 0
  end.
Definition number_le (v : value) (f : float) : bool :=
  match v with VInt z => z <=? ffloor f | VFloat g => fle g f | _ => false end.

(** The record of a token that has not expired. *)
Definition expired_at (record : dict) (current : float) : bool :=
  number_le (py_get record "expires_at") current.
Definition live_session (document : dict) (token : string) (current : float) : option dict :=
  match py_get (dict_field document "sessions") (_hash_token token) with
  | VDict record => if expired_at record current then None else Some record
  | _ => None
  end.

Definition revoke_session (token : string) : FM unit :=
  @state_lock sessions_format _ (
    document ← @read_valid sessions_format;
    let sessions := dict_field document "sessions" in
    if is_null (py_get sessions (_hash_token token)) then mret tt
    else @atomic_write_json sessions_format (put_sessions document (delete (_hash_token token) sessions))).

(** The two files of one process. *)
Record auth_site : Type := AuthSite { auth_users : world unit; auth_sessions : world unit }.
Definition on_users {A} (m : FM A) : M auth_site A := fun s =>
  let '(r, w) := m (auth_users s) in (r, AuthSite w (auth_sessions s)).
Definition on_sessions {A} (m : FM A) : M auth_site A := fun s =>
  let '(r, w) := m (auth_sessions s) in (r, AuthSite (auth_users s) w).

(** One lock around both files. *)
Definition ensure_auth_state : M auth_site unit :=
  catch (on_users (io id) ;;
         finally (on_users (@ensure_file users_format) ;; on_sessions (@ensure_file sessions_format))
                 (on_users (io id)))
        (fun e => match e with OSError => raise AuthStateError | _ => raise e end).

(** The user and the CSRF token of a session. *)
Definition get_session_user (token : string) : M auth_site (option (dict * value)) :=
  record ← on_sessions (
    current ← _validated_clock_now;
    @state_lock sessions_format _ (
      document ← @read_valid sessions_format;
      mret (live_session document token current)));
  match record with
  | None => mret None
  | Some record =>
      user ← match py_get record "user_id" with VStr u => on_users (get_user u) | _ => mret None end;
      match user with
      | Some user =>
          if py_eq (py_get user "status") (VStr "active") then
            mret (Some (user, py_get record "csrf_token"))
          else mret None
      | None => mret None
      end
  end.

(** ** Garbage collection of expired sessions *)
Definition DEFAULT_MAX_DELETIONS : Z := 1000.
Definition MAX_DELETIONS_PER_RUN : Z := 10000.

Record PruneResult : Type := Pruned { scanned : Z; deleted : Z; expired_remaining : Z; dry_run : bool }.

Definition prune_now (v : value) : result float :=
  match nonneg_number v with Some f => Ok f | None => Err ValueError end.
Definition _validated_now (v : option value) : FM float :=
  match v with
  | None => candidate ← time_time; lift (prune_now (VFloat candidate))
  | Some v => lift (prune_now v)
  end.

Definition _validated_max_deletions (v : value) : result Z :=
  match v with
  | VInt n => if (n <=? 0) || (MAX_DELETIONS_PER_RUN <? n) then Err ValueError else Ok n
  | _ => Err ValueError
  end.

(** The order of the tuples [(expires_at, token_hash)]. *)
Definition entry_leb (p q : float * string) : bool :=
  if feq p.1 q.1 then String.leb p.2 q.2 else flt p.1 q.1.
Definition entry_before (p q : float * string) : Prop := entry_leb p q = true.
#[export] Instance entry_before_dec p q : Decision (entry_before p q).
Proof. unfold entry_before. apply _. Defined.

Definition expired_entry (now : float) (p : string * value) : option (float * string) :=
  match p.2 with
  | VDict record =>
      match number_as_float (py_get record "expires_at") with
      | Some expires_at => if fle expires_at now then Some (expires_at, p.1) else None
      | None => None
      end
  | _ => None
  end.

Definition _expired_token_hashes (sessions : dict) (now : float) (max_deletions : Z) : list string * Z :=
  let entries := omap (expired_entry now) (sorted_records sessions) in
  (snd <$> take (Z.to_nat max_deletions) (merge_sort entry_before entries), Z.of_nat (length entries)).

Definition prune_expired_sessions (now : option value) (max_deletions : value) (dry : bool) : FM PruneResult :=
  effective_now ← _validated_now now;
  limit ← lift (_validated_max_deletions max_deletions);
  '(total, selected, expired_count) ← @state_lock sessions_format _ (
    state ← @read_valid sessions_format;
    let sessions := dict_field state "sessions" in
    let '(selected, expired_count) := _expired_token_hashes sessions effective_now limit in
    (if negb (bool_decide (selected = [])) && negb dry
     then @atomic_write_json sessions_format
            (put_sessions state (foldr delete sessions selected))
     else mret tt) ;;
    mret (Z.of_nat (size sessions), selected, expired_count));
  let n := Z.of_nat (length selected) in
  mret (Pruned total (if dry : bool then 0 else n)
          (if dry : bool then expired_count else expired_count - n) dry).
End store.
