(* ===== verification/AuthStoreFacts.v ===== *)
(** * User accounts: facts

    A password hash that was written is read back as its salt and digest, and what
    the operations write is accepted by the checks of the next reader. *)

From S2P Require Import Prelude PyFloat Sha256 PyValue Json Effects Authority PyText TextFacts Uuid IpAddress Url StateFile AuthStore.

(** ** Bytes *)
Definition Bytes (l : list Z) : Prop := Forall (fun z => 0 <= z < 256) l.

Lemma bytes_of_bytes s : Bytes (bytes_of s).
Proof. apply Forall_fmap, Forall_forall. intros c _. apply byte_bound. Qed.

Lemma be_bytes_bytes n z : Bytes (be_bytes n z) /\ length (be_bytes n z) = n.
Proof.
  induction n as [|n [H1 H2]]; [by split; [constructor|]|]. cbn [be_bytes length]. split; [|congruence].
  constructor; [|done]. apply Z.mod_pos_bound. done.
Qed.

Lemma be_bytes_all n l : Bytes (l ≫= be_bytes n) /\ length (l ≫= be_bytes n) = (length l * n)%nat.
Proof.
  induction l as [|z l [H1 H2]]; [by split; [constructor|]|]. destruct (be_bytes_bytes n z) as [H3 H4].
  cbn [mbind list_bind]. unfold mbind in *. split; [by apply Forall_app_2|]. rewrite length_app, H4, H2. cbn. lia.
Qed.

Lemma hmac_bytes_bytes key msg : Bytes (hmac_bytes key msg) /\ length (hmac_bytes key msg) = 32%nat.
Proof.
  unfold hmac_bytes. destruct (be_bytes_all 4 (hmac_sha256 key msg)) as [H1 H2]. split; [done|].
  rewrite H2. unfold hmac_sha256, sha256. by rewrite length_blocks.
Qed.

Lemma lxor_byte a b : 0 <= a < 256 -> 0 <= b < 256 -> 0 <= Z.lxor a b < 256.
Proof.
  intros Ha Hb. assert (0 <= Z.lxor a b) by (apply Z.lxor_nonneg; lia). split; [done|].
  destruct (Z.eq_dec (Z.lxor a b) 0) as [->|Hn]; [lia|].
  change 256 with (2 ^ 8). apply Z.log2_lt_pow2; [lia|].
  pose proof (Z.log2_lxor a b ltac:(lia) ltac:(lia)).
  assert (Hl : forall x, 0 <= x < 256 -> Z.log2 x < 8).
  { intros x Hx. destruct (Z.eq_dec x 0) as [->|]; [done|]. apply Z.log2_lt_pow2; lia. }
  pose proof (Hl a Ha). pose proof (Hl b Hb). lia.
Qed.

Lemma zip_lxor_bytes a b : Bytes a -> Bytes b -> Bytes (zip_with Z.lxor a b).
Proof.
  intros Ha. revert b. induction Ha as [|x a Hx Ha IH]; intros b Hb; [constructor|].
  destruct Hb as [|y b Hy Hb]; [constructor|]. cbn. constructor; [by apply lxor_byte|by apply IH].
Qed.

Lemma pbkdf2_bytes password salt n :
  Bytes (pbkdf2_hmac password salt n) /\ length (pbkdf2_hmac password salt n) = 32%nat.
Proof.
  unfold pbkdf2_hmac. set (u := hmac_bytes password _).
  assert (Hu : Bytes u /\ length u = 32%nat) by apply hmac_bytes_bytes.
  unfold Z.iter. destruct (n - 1) as [|p|p]; [exact Hu| |exact Hu].
  apply (Pos.iter_invariant p _ (pbkdf2_step password) (fun q : list Z * list Z => Bytes q.2 /\ length q.2 = 32%nat)); [|exact Hu].
  intros q [H1 H2]. unfold pbkdf2_step. cbn [snd]. destruct (hmac_bytes_bytes password q.1) as [H3 H4].
  split; [by apply zip_lxor_bytes|]. rewrite length_zip_with. lia.
Qed.

(** ** Hexadecimal *)
Lemma hex_digit_value z : hex_value (hex_digit z) = Some (z mod 16) /\ hex_blank (hex_digit z) = false.
Proof.
  unfold hex_digit. pose proof (Z.mod_pos_bound z 16 ltac:(lia)) as Hz.
  destruct (z mod 16) as [|p|p] eqn:E; [done| |lia].
  do 4 (destruct p as [p|p|]; try done); lia.
Qed.

Lemma bytes_hex_cons b l : bytes_hex (b :: l) = String (hex_digit (b / 16)) (String (hex_digit b) (bytes_hex l)).
Proof.
  unfold bytes_hex. cbn [foldr hex]. rewrite Z.shiftr_div_pow2 by done.
  change (4 * Z.of_nat 0) with 0. by rewrite Z.shiftr_0_r.
Qed.

Lemma fromhex_hex l : Bytes l -> bytes_fromhex (bytes_hex l) = Some l.
Proof.
  induction 1 as [|b l Hb _ IH]; [done|]. rewrite bytes_hex_cons. cbn [bytes_fromhex].
  destruct (hex_digit_value (b / 16)) as [-> ->], (hex_digit_value b) as [-> _]. rewrite IH. cbn.
  do 2 f_equal. rewrite (Z.mod_small (b / 16)) by (split; [by apply Z.div_pos; lia|apply Z.div_lt_upper_bound; lia]).
  pose proof (Z.div_mod b 16). lia.
Qed.

Lemma hex_char_plain z : is_continuation (hex_digit z) = false /\ Ascii.eqb "$" (hex_digit z) = false.
Proof.
  unfold hex_digit. pose proof (Z.mod_pos_bound z 16 ltac:(lia)) as Hz.
  destruct (z mod 16) as [|p|p] eqn:E; [done| |lia].
  do 4 (destruct p as [p|p|]; try done); lia.
Qed.

Lemma bytes_hex_shape l : py_len (bytes_hex l) = (2 * length l)%nat /\ has_char "$" (bytes_hex l) = false.
Proof.
  induction l as [|b l [H1 H2]]; [done|]. rewrite bytes_hex_cons, !has_char_cons, H2. cbn [py_len length].
  destruct (hex_char_plain (b / 16)) as [-> ->], (hex_char_plain b) as [-> ->]. rewrite H1. split; [lia|done].
Qed.

(** A decimal number has digits and a sign. *)
Lemma pretty_digits x s : has_char "$" s = false -> has_char "$" (pretty.pretty_N_go x s) = false.
Proof.
  revert s. induction (N.lt_wf_0 x) as [x _ IH]. intros s Hs. destruct (decide (0 < x)%N) as [Hx|Hx].
  - rewrite pretty.pretty_N_go_step by done. apply IH; [apply N.div_lt; lia|].
    rewrite has_char_cons, Hs, orb_false_r. unfold pretty.pretty_N_char.
    repeat case_match; done.
  - assert (x = 0%N) as -> by lia. by rewrite pretty.pretty_N_go_0.
Qed.

Lemma pretty_plain (z : Z) : has_char "$" (pretty.pretty z) = false.
Proof.
  assert (HN : forall n : N, has_char "$" (pretty.pretty n) = false).
  { intros n. unfold pretty.pretty, pretty.pretty_N. destruct (decide _); [done|]. by apply pretty_digits. }
  destruct z as [|p|p]; [done|apply (HN (Npos p))|].
  change (has_char "$" (String "-" (pretty.pretty (Npos p))) = false). by rewrite has_char_cons, HN.
Qed.

(** ** Password hashes *)
Lemma hash_password_parsed it password salt h :
  Bytes salt -> _hash_password it password salt = Ok h ->
  _parse_password_hash it h = Ok (salt, pbkdf2_hmac (bytes_of password) salt it).
Proof.
  intros Hb H. unfold _hash_password in H. apply result_bind_ok in H as ([] & Hl%raise_if_ok & [= <-]).
  apply negb_false_iff, Nat.eqb_eq in Hl. destruct (pbkdf2_bytes (bytes_of password) salt it) as [Hd Hdl].
  set (digest := pbkdf2_hmac _ _ _) in *. destruct (bytes_hex_shape salt) as [Hs1 Hs2].
  destruct (bytes_hex_shape digest) as [Hd1 Hd2]. unfold _parse_password_hash.
  pose proof (split_on_join "$" [pretty.pretty it; bytes_hex salt; bytes_hex digest] "pbkdf2_sha256") as E.
  cbn [join_with] in E. rewrite E by (repeat (constructor; [done || apply pretty_plain|]); constructor). clear E.
  rewrite !String.eqb_refl, Hs1, Hd1, Hl, Hdl. cbn [negb orb Nat.eqb Nat.mul raise_if].
  unfold mbind at 1. cbn [result_bind]. rewrite Nat.eqb_refl. cbn. rewrite !fromhex_hex, Hl, Hdl by done. done.
Qed.

Lemma hash_password_valid it password salt h :
  Bytes salt -> _hash_password it password salt = Ok h ->
  _validate_password_hash it h = Ok tt /\ h <> EmptyString /\
  forall password', _verify_password it password' h =
    bool_decide (pbkdf2_hmac (bytes_of password') salt it = pbkdf2_hmac (bytes_of password) salt it).
Proof.
  intros Hb H. apply hash_password_parsed in H as Hp; [|done]. unfold _validate_password_hash, _verify_password.
  rewrite Hp. split; [done|]. split; [|done]. by intros ->.
Qed.

(** ** The checks of the users *)
Lemma nonempty_string_ok record field s :
  auth_nonempty_string record field = Ok s <-> py_get record field = VStr s /\ s <> EmptyString.
Proof.
  unfold auth_nonempty_string. destruct (py_get record field); try (split; [done|by intros [??]]).
  destruct (str_empty s0) eqn:E.
  - destruct s0; [|done]. split; [done|]. by intros [[= <-] ?].
  - apply str_empty_false in E. split; [by intros [= <-]|]. by intros [[= ->] _].
Qed.

Lemma validate_user_same it index index' user_id v :
  (forall item s, v = VDict item -> py_get item "email" = VStr s -> py_get index s = py_get index' s) ->
  validate_user it index user_id v = validate_user it index' user_id v.
Proof.
  intros H. destruct v as [| | | | | |item]; try done. unfold validate_user.
  destruct (raise_if (str_empty user_id) _) as [[]|]; [|done]. cbn [mbind result_bind].
  destruct (auth_nonempty_string item "id"); [|done]. cbn [mbind result_bind].
  destruct (auth_nonempty_string item "email") as [s|] eqn:E; [|done]. apply nonempty_string_ok in E as [E _].
  cbn [mbind result_bind]. by rewrite (H item s eq_refl E).
Qed.

Lemma validate_user_index it index user_id v :
  validate_user it index user_id v = Ok tt ->
  exists item s, v = VDict item /\ py_get item "email" = VStr s /\ py_get index s = VStr user_id.
Proof.
  destruct v as [| | | | | |item]; try done. unfold validate_user. intros H.
  do 2 (apply result_bind_ok in H as (? & _ & H)). apply result_bind_ok in H as (email & He & H).
  apply nonempty_string_ok in He as [He _]. do 13 (apply result_bind_ok in H as (? & _ & H)).
  apply raise_if_ok in H. apply negb_false_iff, py_eq_text in H. by exists item, email.
Qed.

Lemma users_shape it doc : _validate_users it doc = Ok tt ->
  exists users index, py_get doc "users" = VDict users /\ py_get doc "email_index" = VDict index /\
    dict_field doc "users" = users /\ dict_field doc "email_index" = index /\
    map_Forall (fun k v => validate_user it index k v = Ok tt) users /\
    map_Forall (fun k v => validate_index users k v = Ok tt) index.
Proof.
  unfold _validate_users, dict_field. destruct (py_get doc "users") as [| | | | | |users]; try done.
  destruct (py_get doc "email_index") as [| | | | | |index]; try done. intros H.
  apply result_bind_ok in H as ([] & H1%check_all_ok & H2%check_all_ok).
  by exists users, index.
Qed.

Lemma users_valid it doc users index :
  py_get doc "users" = VDict users -> py_get doc "email_index" = VDict index ->
  map_Forall (fun k v => validate_user it index k v = Ok tt) users ->
  map_Forall (fun k v => validate_index users k v = Ok tt) index -> _validate_users it doc = Ok tt.
Proof.
  intros H1 H2 H3 H4. unfold _validate_users. rewrite H1, H2. apply result_bind_ok. exists tt.
  by rewrite !check_all_ok.
Qed.

Lemma put_user_fields doc user_id email user :
  py_get (put_user doc user_id email user) "users" = VDict (<[user_id := VDict user]> (dict_field doc "users")) /\
  py_get (put_user doc user_id email user) "email_index" =
    VDict (<[email := VStr user_id]> (dict_field doc "email_index")).
Proof. unfold put_user, py_get. split; by dict_lookup. Qed.

Lemma new_user_fields user_id email hash name now :
  let u := new_user user_id email hash name now in
  py_get u "id" = VStr user_id /\ py_get u "email" = VStr email /\ py_get u "password_hash" = VStr hash /\
  py_get u "display_name" = opt_str name /\ py_get u "role" = VStr "user" /\ py_get u "status" = VStr "active" /\
  py_get u "created_at" = VFloat now /\ py_get u "updated_at" = VFloat now.
Proof. unfold new_user, py_get. repeat split; by dict_lookup. Qed.

Lemma new_user_valid it index user_id email hash name now :
  user_id <> EmptyString -> email_shape email = true -> _normalize_email email = email ->
  _validate_password_hash it hash = Ok tt -> hash <> EmptyString ->
  is_finite now = true -> flt now fzero = false -> py_get index email = VStr user_id ->
  validate_user it index user_id (VDict (new_user user_id email hash name now)) = Ok tt.
Proof.
  intros Hid Hs Hn Hh Hh0 Hf Hp Hi.
  destruct (new_user_fields user_id email hash name now) as (E1 & E2 & E3 & E4 & E5 & E6 & E7 & E8).
  assert (He : email <> EmptyString) by by intros ->.
  assert (Hl : flt now now = false).
  { destruct (flt now now) eqn:E; [|done]. rewrite flt_not_fle, fle_refl in E by (by apply is_finite_not_nan). done. }
  unfold validate_user, auth_nonempty_string, auth_finite_number.
  rewrite E1, E2, E3, E4, E5, E6, E7, E8, !(proj2 (str_empty_false _)) by done. cbn [mbind result_bind raise_if].
  cbn [number_as_float]. rewrite Hf. cbn [mbind result_bind raise_if]. rewrite Hp, Hl, Hn, Hs, Hh, Hi.
  rewrite !String.eqb_refl, (proj2 (py_eq_text _ _)) by done. by destruct name.
Qed.

(** A new account next to the others. *)
Lemma put_user_valid it doc user_id email hash name now :
  _validate_users it doc = Ok tt -> user_id <> EmptyString -> dict_field doc "users" !! user_id = None ->
  dict_field doc "email_index" !! email = None ->
  email_shape email = true -> _normalize_email email = email ->
  _validate_password_hash it hash = Ok tt -> hash <> EmptyString ->
  is_finite now = true -> flt now fzero = false ->
  _validate_users it (put_user doc user_id email (new_user user_id email hash name now)) = Ok tt.
Proof.
  intros (users & index & _ & _ & Eu & Ei & Hu & Hi)%users_shape Hid Hfu Hfi Hs Hn Hh Hh0 Hf Hp.
  rewrite Eu in Hfu. rewrite Ei in Hfi. set (user := new_user user_id email hash name now).
  destruct (put_user_fields doc user_id email user) as [E1 E2]. rewrite Eu in E1. rewrite Ei in E2.
  eapply users_valid; [exact E1|exact E2|..].
  - apply map_Forall_insert_2.
    + apply new_user_valid; try done. unfold py_get. by rewrite lookup_insert_eq.
    + intros id v Hv. specialize (Hu id v Hv). rewrite <- Hu.
      destruct (validate_user_index _ _ _ _ Hu) as (item & s & -> & He & Hg).
      apply validate_user_same. intros item' s' [= <-] He'. assert (s' = s) as -> by congruence.
      unfold py_get in *. rewrite lookup_insert_ne; [done|]. intros ->. by rewrite Hfi in Hg.
  - apply map_Forall_insert_2.
    + destruct (new_user_fields user_id email hash name now) as (_ & E & _). fold user in E.
      unfold validate_index. by rewrite py_get_insert, E, (proj2 (py_eq_text _ _)).
    + intros e v Hv. specialize (Hi e v Hv). unfold validate_index, py_get in *.
      destruct v as [| | | |id| |]; try done. rewrite lookup_insert_ne; [done|]. intros ->. by rewrite Hfu in Hi.
Qed.

(** One account per email. *)
Lemma users_unique it doc id1 id2 u1 u2 :
  _validate_users it doc = Ok tt ->
  dict_field doc "users" !! id1 = Some (VDict u1) -> dict_field doc "users" !! id2 = Some (VDict u2) ->
  py_get u1 "email" = py_get u2 "email" -> id1 = id2.
Proof.
  intros (users & index & _ & _ & Eu & _ & Hu & _)%users_shape H1 H2 He. rewrite Eu in *.
  destruct (validate_user_index _ _ _ _ (Hu _ _ H1)) as (i1 & s1 & [= <-] & E1 & G1).
  destruct (validate_user_index _ _ _ _ (Hu _ _ H2)) as (i2 & s2 & [= <-] & E2 & G2).
  assert (s1 = s2) as -> by congruence. congruence.
Qed.

(** ** The checks of the sessions *)
Lemma sessions_shape doc : _validate_auth_sessions doc = Ok tt ->
  exists sessions, py_get doc "sessions" = VDict sessions /\ dict_field doc "sessions" = sessions /\
    map_Forall (fun k v => validate_auth_session k v = Ok tt) sessions.
Proof.
  unfold _validate_auth_sessions, dict_field. destruct (py_get doc "sessions") as [| | | | | |s]; try done.
  intros H%check_all_ok. by exists s.
Qed.

Lemma put_sessions_field doc sessions : dict_field (put_sessions doc sessions) "sessions" = sessions.
Proof. unfold dict_field, put_sessions. by rewrite py_get_insert. Qed.

Lemma put_sessions_valid doc sessions :
  map_Forall (fun k v => validate_auth_session k v = Ok tt) sessions ->
  _validate_auth_sessions (put_sessions doc sessions) = Ok tt.
Proof.
  intros H. unfold _validate_auth_sessions, put_sessions. rewrite py_get_insert. by apply check_all_ok.
Qed.
