(* ===== verification/AuthStoreTheorems.v ===== *)
(** * User accounts and sessions: theorems

    Who can log in, what a history of operations does to the accounts, and when a
    session ends. *)

From S2P Require Import Prelude PyFloat Sha256 PyValue Json Effects Authority PyText TextFacts Uuid IpAddress Url StateFile AuthStore AuthStoreFacts.

(** ** Accounts *)
Section accounts.
Context (it : Z).

Let users_of (d : dict) : dict := dict_field d "users".
Let seen (w : world unit) : option dict := @visible (users_format it) w.
Let stored (w : world unit) : option dict := @document (users_format it) w.

(** The identifiers to come are new: not empty, all different, and none of them is
    that of an account. *)
Definition fresh_ids (w : world unit) : Prop :=
  (forall n, uuid (environment w) n <> EmptyString) /\
  (forall n m, uuid (environment w) n = uuid (environment w) m -> n = m) /\
  (forall d n, @visible (users_format it) w = Some d -> (uuids (environment w) <= n)%nat ->
     dict_field d "users" !! uuid (environment w) n = None).

(** What a step may do to the accounts: they are kept, and the new ones have fresh
    identifiers. *)
Definition account_step (w w' : world unit) : Prop :=
  later w w' /\
  (forall d', @visible (users_format it) w' = Some d' -> exists d, @visible (users_format it) w = Some d /\
     dict_field d "users" ⊆ dict_field d' "users" /\
     forall id, is_Some (dict_field d' "users" !! id) -> is_Some (dict_field d "users" !! id) \/
       exists n, id = uuid (environment w) n /\ (uuids (environment w) <= n < uuids (environment w'))%nat) /\
  (is_Some (@document (users_format it) w) -> is_Some (@document (users_format it) w')).

#[export] Instance account_step_preorder : PreOrder account_step.
Proof.
  split.
  - intros w. split; [done|]. split; [|done]. intros d Hd. exists d. split; [done|]. split; [done|]. by left.
  - intros w1 w2 w3 (L1 & V1 & D1) (L2 & V2 & D2). split; [by etrans|]. split; [|auto].
    intros d3 (d2 & H2 & S2 & N2)%V2. destruct (V1 d2 H2) as (d1 & H1 & S1 & N1).
    exists d1. split; [done|]. split; [by etrans|].
    destruct L1 as (_ & Eu1 & _ & Hl1), L2 as (_ & Eu2 & _ & Hl2).
    intros id [Hid|(n & -> & Hn)]%N2.
    + destruct (N1 id Hid) as [?|(n & -> & Hn)]; [by left|right]. exists n. split; [done|lia].
    + right. exists n. split; [congruence|lia].
Qed.

Lemma calm_account_step {B} (m : FM B) : Resp calm m -> Resp later m -> Resp account_step m.
Proof.
  intros Hc Hl w. specialize (Hc w). split; [apply Hl|]. split.
  - intros d' Hd. destruct (@calm_visible (users_format it) _ _ Hc) as [E|E]; rewrite E in Hd; [|done].
    exists d'. split; [done|]. split; [done|]. by left.
  - by rewrite (@calm_document (users_format it) _ _ Hc).
Qed.

Lemma fresh_kept w w' : account_step w w' -> fresh_ids w -> fresh_ids w'.
Proof.
  intros ((_ & Eu & _ & Hl) & V & _) (H1 & H2 & H3). unfold fresh_ids. rewrite Eu. split; [done|]. split; [done|].
  intros d' n Hd Hn. destruct (V d' Hd) as (d & Hd0 & _ & HN).
  destruct (dict_field d' "users" !! _) as [v|] eqn:E; [|done]. exfalso.
  destruct (HN (uuid (environment w) n)) as [[x Hx]|(m & Em & Hm)]; [by eexists| |].
  - rewrite H3 in Hx by (done || lia). done.
  - apply H2 in Em. lia.
Qed.

Lemma token_bytes_ok n w l w' :
  token_bytes n w = (Ok l, w') -> Bytes l /\ length l = n.
Proof.
  unfold token_bytes. intros (s & w1 & _ & [-> ->]%ret_ok)%bind_ok. split.
  - apply Forall_take, Forall_app_2; [apply bytes_of_bytes|]. by apply Forall_replicate.
  - rewrite length_take, length_app, length_replicate. lia.
Qed.

#[local] Instance calm_token n : Resp calm (token_bytes n).
Proof. unfold token_bytes. solve_resp. Qed.
#[local] Instance later_token n : Resp later (token_bytes n).
Proof. unfold token_bytes. solve_resp. Qed.
#[local] Instance calm_clock : Resp calm _validated_clock_now.
Proof. unfold _validated_clock_now. solve_resp. Qed.
#[local] Instance later_clock : Resp later _validated_clock_now.
Proof. unfold _validated_clock_now. solve_resp. Qed.

Lemma checked_clock_ok f t : checked_clock f = Ok t -> t = f /\ is_finite t = true /\ flt t fzero = false.
Proof.
  unfold checked_clock. destruct (_ && _) eqn:E; [|done]. intros [= <-]. by split_bools.
Qed.

Lemma normal_email email : _normalize_email (_normalize_email email) = _normalize_email email.
Proof. apply normal_again. Qed.

(** The account that a registration writes. *)
Section body.
Context (email hash : string) (name : option string) (now : float).
Hypotheses (Hs : email_shape email = true) (Hn : _normalize_email email = email)
  (Hh : _validate_password_hash it hash = Ok tt) (Hh0 : hash <> EmptyString)
  (Hf : is_finite now = true) (Hp : flt now fzero = false).

Definition register_body : FM dict :=
  users ← @read_valid (users_format it);
  guard_err (bool_decide (is_Some (dict_field users "email_index" !! email))) EmailAlreadyRegistered ;;
  user_id ← uuid4;
  let user := new_user user_id email hash name now in
  @atomic_write_json (users_format it) (put_user users user_id email user) ;;
  mret (_public_user user).

Lemma put_user_users doc id u : dict_field (put_user doc id email u) "users" = <[id := VDict u]> (dict_field doc "users").
Proof. unfold dict_field at 1. destruct (put_user_fields doc id email u) as [-> _]. done. Qed.

Lemma register_body_valid w d n :
  fresh_ids w -> @visible (users_format it) w = Some d -> (uuids (environment w) <= n)%nat ->
  dict_field d "email_index" !! email = None ->
  _validate_users it (put_user d (uuid (environment w) n) email (new_user (uuid (environment w) n) email hash name now))
    = Ok tt.
Proof using All.
  intros (H1 & _ & H3) Hd Hle Hi. apply put_user_valid; try done; [|by apply H3].
  by apply (@visible_valid (users_format it)) in Hd.
Qed.

Lemma register_body_step w : fresh_ids w -> account_step w (register_body w).2.
Proof using All.
  intros Hw. unfold register_body.
  apply (resp_bind_inv account_step fresh_ids); [exact fresh_kept|done|by apply calm_account_step; apply _|].
  intros d w1 [Hd Hc]%read_valid_ok Hw1. rewrite <- (@still_visible (users_format it) _ _ Hc) in Hd.
  apply (resp_bind_inv account_step fresh_ids); [exact fresh_kept|done|by apply calm_account_step; apply _|].
  intros [] w2 [Hg%bool_decide_eq_false ->]%guard_err_ok Hw2. apply eq_None_not_Some in Hg.
  (* the identifier is drawn and the account written *)
  pose proof (register_body_valid w1 d _ Hw2 Hd (le_n _) Hg) as Hv.
  set (id := uuid (environment w1) (uuids (environment w1))) in *. cbv zeta.
  set (user := new_user id email hash name now) in *. set (w3 := (uuid4 w1).2).
  assert (E3 : uuid4 w1 = (Ok id, w3)) by done. rewrite (bind_run _ _ _ _ _ E3).
  cbv beta zeta. fold user.
  assert (Hd3 : @visible (users_format it) w3 = Some d) by done.
  assert (Ho : @wrote (users_format it) (put_user d id email user) w3
    (@atomic_write_json (users_format it) (put_user d id email user) w3).2).
  { apply (@replace_outcome (users_format it)). intros _. exact Hv. }
  assert (Hl : later w1 (@atomic_write_json (users_format it) (put_user d id email user) w3).2).
  { etrans; [apply (resp (R:=later) (m:=uuid4 (A:=unit)))|]. apply (resp (R:=later)). }
  assert (Hstep : forall w4, @wrote (users_format it) (put_user d id email user) w3 w4 -> later w1 w4 ->
    (S (uuids (environment w1)) <= uuids (environment w4))%nat -> account_step w1 w4).
  { intros w4 [Hc4|[Hd4 _]] Hl4 Hle.
    - split; [done|]. split; [|by rewrite (@calm_document (users_format it) _ _ Hc4)].
      intros d' Hd'. destruct (@calm_visible (users_format it) _ _ Hc4) as [E|E]; rewrite E in Hd'; [|done].
      exists d'. split; [done|]. split; [done|]. by left.
    - split; [done|]. split; [|by rewrite Hd4].
      intros d' Hd'. rewrite (@document_visible (users_format it) _ _ Hd4) in Hd'. injection Hd' as <-.
      exists d. split; [done|]. rewrite put_user_users. destruct Hw2 as (_ & _ & Hfr).
      split; [by apply insert_subseteq, Hfr|]. intros i Hi.
      destruct (decide (i = id)) as [->|Hne]; [|rewrite lookup_insert_ne in Hi by done; by left].
      right. exists (uuids (environment w1)). split; [done|lia]. }
  pose proof (resp (R:=later) (m:=@atomic_write_json (users_format it) (put_user d id email user)) w3) as Hl3.
  unfold mbind, M_bind. destruct (@atomic_write_json (users_format it) (put_user d id email user) w3) as [[[]|e] w4];
    cbn [fst snd mret M_ret] in *; (apply Hstep; [exact Ho|exact Hl|]); destruct Hl3 as (_ & _ & _ & Hl3); exact Hl3.
Qed.
End body.

#[local] Instance account_step_io : Resp account_step (io (A:=unit) id).
Proof. apply calm_account_step; apply _. Qed.

Ltac fresh_step :=
  apply (resp_bind_inv account_step fresh_ids); [exact fresh_kept|assumption|by apply calm_account_step; apply _|].

Lemma register_step email password name w :
  fresh_ids w -> account_step w (register_user it email password name w).2.
Proof.
  intros Hw. unfold register_user. cbv zeta. set (n := _normalize_email email).
  fresh_step. intros [] w1 [Hs%negb_false_iff ->]%guard_err_ok Hw1.
  fresh_step. intros [] w2 [_ ->]%guard_err_ok Hw2.
  fresh_step. intros now w3 (c & w3' & _ & [Hc ->]%lift_ok)%bind_ok Hw3.
  apply checked_clock_ok in Hc as (-> & Hf & Hp).
  fresh_step. intros salt w4 [Hb _]%token_bytes_ok Hw4.
  fresh_step. intros hash w5 [Hh ->]%lift_ok Hw5.
  destruct (hash_password_valid _ _ _ _ Hb Hh) as (Hv & Hh0 & _).
  apply (lock_step account_step fresh_ids); [exact fresh_kept|apply _| |done].
  intros w6 Hw6. apply (register_body_step n hash name c Hs (normal_email email) Hv Hh0 Hf Hp w6 Hw6).
Qed.

(** ** Histories *)
Inductive account_op : Type :=
| OpEnsureUsers
| OpRegister (email password : string) (display_name : option string)
| OpAuthenticate (email password : string)
| OpGetUser (user_id : string).

Definition run_account (op : account_op) : FM unit :=
  match op with
  | OpEnsureUsers => @state_lock (users_format it) _ (@ensure_file (users_format it))
  | OpRegister e p n => register_user it e p n ;; mret tt
  | OpAuthenticate e p => authenticate_user it e p ;; mret tt
  | OpGetUser id => get_user it id ;; mret tt
  end.

Definition run_accounts (ops : list account_op) (w : world unit) : world unit :=
  fold_left (fun w op => (run_account op w).2) ops w.

#[local] Instance account_step_read : Resp account_step (@read_valid (users_format it)).
Proof. apply calm_account_step; apply _. Qed.

#[local] Instance account_step_auth e p : Resp account_step (authenticate_user it e p).
Proof. unfold authenticate_user. solve_resp. Qed.
#[local] Instance account_step_get id : Resp account_step (get_user it id).
Proof. unfold get_user. solve_resp. Qed.

Lemma ensure_step w : account_step w (@ensure_file (users_format it) w).2.
Proof.
  destruct (@ensure_file_start (users_format it) w) as [V D]. split; [apply (resp (R:=later))|].
  split; [|exact D]. intros d' Hd'. exists d'. split; [by apply V|]. split; [done|]. by left.
Qed.

Lemma run_account_step op w : fresh_ids w -> account_step w (run_account op w).2.
Proof.
  intros Hw. destruct op as [|e p n|e p|id]; cbn [run_account].
  - apply (lock_step account_step fresh_ids); [exact fresh_kept|apply _|intros; apply ensure_step|done].
  - apply (resp_bind_post account_step); [by apply register_step|]. intros _ w1 _. done.
  - apply (resp (R:=account_step)).
  - apply (resp (R:=account_step)).
Qed.

Lemma run_accounts_step ops w : fresh_ids w -> account_step w (run_accounts ops w).
Proof.
  revert w. induction ops as [|op ops IH]; intros w Hw; cbn; [done|].
  pose proof (run_account_step op w Hw) as Hs. etrans; [exact Hs|]. apply IH. by eapply fresh_kept.
Qed.

(** C9: Accounts are never lost, replaced or shared. Over every history of operations
    on the accounts, with any clock and whatever I/O fails, as long as the identifiers
    [uuid4] draws are new ([fresh_ids]), the accounts of a readable file are all there
    afterwards, as they were, the file is still readable, every other account has an
    identifier that was drawn during the history, and no two accounts have the same
    email. *)
Theorem accounts_are_final ops w d :
  fresh_ids w -> @document (users_format it) w = Some d ->
  exists d', @document (users_format it) (run_accounts ops w) = Some d' /\
    dict_field d "users" ⊆ dict_field d' "users" /\
    (forall id, is_Some (dict_field d' "users" !! id) -> is_Some (dict_field d "users" !! id) \/
       exists n, id = uuid (environment w) n /\
         (uuids (environment w) <= n < uuids (environment (run_accounts ops w)))%nat) /\
    forall id1 id2 u1 u2,
      dict_field d' "users" !! id1 = Some (VDict u1) -> dict_field d' "users" !! id2 = Some (VDict u2) ->
      py_get u1 "email" = py_get u2 "email" -> id1 = id2.
Proof.
  intros Hw Hd. destruct (run_accounts_step ops w Hw) as (_ & V & D).
  destruct D as [d' Hd']; [by eexists|]. exists d'. split; [done|].
  destruct (V d') as (d0 & Hd0 & Hsub & Hnew); [by apply document_visible|].
  rewrite (@document_visible (users_format it) _ _ Hd) in Hd0. injection Hd0 as <-. split; [done|].
  split; [exact Hnew|]. intros id1 id2 u1 u2. apply (users_unique it). by apply (@document_valid (users_format it)) in Hd'.
Qed.

(** ** Logging in *)
#[local] Instance account_step_clock : Resp account_step _validated_clock_now.
Proof. apply calm_account_step; apply _. Qed.
#[local] Instance account_step_token n : Resp account_step (token_bytes n).
Proof. apply calm_account_step; apply _. Qed.

Lemma user_by_email_put doc id email hash name now :
  id <> EmptyString ->
  user_by_email (put_user doc id email (new_user id email hash name now)) email = Some (new_user id email hash name now).
Proof.
  intros Hid. unfold user_by_email, dict_field. destruct (put_user_fields doc id email (new_user id email hash name now)) as [E1 E2].
  rewrite E1, E2. cbn [as_dict default from_option Datatypes.id]. rewrite !py_get_insert.
  by rewrite (proj2 (str_empty_false _)).
Qed.

(** What a registration that returned has done. *)
Lemma register_ok email password name w user w1 :
  register_user it email password name w = (Ok user, w1) -> fresh_ids w ->
  exists salt hash u d, Bytes salt /\ _hash_password it password salt = Ok hash /\
    user = _public_user u /\ py_get u "password_hash" = VStr hash /\ py_get u "status" = VStr "active" /\
    @document (users_format it) w1 = Some d /\ user_by_email d (_normalize_email email) = Some u.
Proof.
  intros Hr Hw. unfold register_user in Hr. cbv zeta in Hr. set (n := _normalize_email email) in *.
  apply bind_ok in Hr as ([] & ? & [Hs%negb_false_iff ->]%guard_err_ok & Hr).
  apply bind_ok in Hr as ([] & ? & [_ ->]%guard_err_ok & Hr).
  apply bind_ok in Hr as (now & w2 & Hc & Hr). pose proof (resp_ok account_step _ _ _ _ _ Hc) as St2.
  apply bind_ok in Hc as (c & w2' & _ & [Hc ->]%lift_ok). apply checked_clock_ok in Hc as (-> & Hf & Hp).
  apply bind_ok in Hr as (salt & w3 & Hb & Hr). pose proof (resp_ok account_step _ _ _ _ _ Hb) as St3.
  apply token_bytes_ok in Hb as [Hb _]. apply bind_ok in Hr as (hash & w4 & [Hh ->]%lift_ok & Hr).
  destruct (hash_password_valid _ _ _ _ Hb Hh) as (Hv & Hh0 & _).
  apply state_lock_ok in Hr as (w5 & w6 & (F5 & U5 & (_ & _ & Eu5 & Ec5 & _)) & Hr & F1 & U1 & _).
  assert (Hw3 : fresh_ids w3) by by eapply fresh_kept, fresh_kept.
  assert (Hw5 : fresh_ids w5).
  { destruct Hw3 as (H1 & H2 & H3). unfold fresh_ids. rewrite Eu5, Ec5. split; [done|]. split; [done|].
    intros d k Hd5. apply H3. by rewrite <- (@still_visible (users_format it) w3 w5). }
  apply bind_ok in Hr as (d & w7 & Hrd & Hr). pose proof (resp_ok account_step _ _ _ _ _ Hrd) as St7.
  apply read_valid_ok in Hrd as [Hd Hst]. rewrite <- (@still_visible (users_format it) _ _ Hst) in Hd.
  apply bind_ok in Hr as ([] & w8 & [Hg%bool_decide_eq_false ->]%guard_err_ok & Hr). apply eq_None_not_Some in Hg.
  apply bind_ok in Hr as (id & w9 & Hid & Hr). apply uuid4_ok in Hid as (Eid & _).
  apply bind_ok in Hr as ([] & w10 & Hwr & [-> ->]%ret_ok).
  assert (Hw7 : fresh_ids w7) by by eapply fresh_kept.
  pose proof (register_body_valid n hash name c Hs (normal_email email) Hv Hh0 Hf Hp w7 d _ Hw7 Hd (le_n _) Hg) as Hval.
  rewrite <- Eid in Hval. apply (@replace_ok (users_format it)) in Hwr as (_ & _ & Hdoc). specialize (Hdoc Hval).
  destruct (new_user_fields id n hash name c) as (_ & _ & E3 & _ & _ & E6 & _).
  exists salt, hash, (new_user id n hash name c), (put_user d id n (new_user id n hash name c)).
  split; [done|]. split; [done|]. split; [done|]. split; [done|]. split; [done|]. split.
  - unfold document in *. by rewrite F1.
  - apply user_by_email_put. rewrite Eid. by destruct Hw7.
Qed.

(** C32: Registration and login. After a registration that returned, as long as the
    file is the one it wrote, the same email, however it is spelled, logs in to the
    new account with exactly the passwords that have the same PBKDF2 digest under the
    salt of the account, the registered one among them; the others are refused. *)
Theorem registered_user_logs_in email password name w user w1 :
  fresh_ids w -> register_user it email password name w = (Ok user, w1) ->
  exists salt, length salt = PBKDF2_SALT_BYTES /\
    forall email' password' w2, file w2 = file w1 -> no_faults w2 ->
      _normalize_email email' = _normalize_email email ->
      (authenticate_user it email' password' w2).1 =
      (if bool_decide (pbkdf2_hmac (bytes_of password') salt it = pbkdf2_hmac (bytes_of password) salt it)
       then Ok user else Err InvalidCredentials).
Proof.
  intros Hw Hr. destruct (register_ok _ _ _ _ _ _ Hr Hw) as (salt & hash & u & d & Hb & Hh & -> & Eh & Es & Hd & Hu).
  exists salt. split.
  { unfold _hash_password in Hh. apply result_bind_ok in Hh as ([] & Hl%raise_if_ok & _).
    by apply negb_false_iff, Nat.eqb_eq in Hl. }
  intros email' password' w2 Hf Hn He. unfold authenticate_user. cbv zeta. rewrite He.
  destruct (@lookup_run (users_format it) _ (fun users => user_by_email users (_normalize_email email)) w2 d Hn)
    as (w3 & Hl & _); [unfold document in *; by rewrite Hf|].
  rewrite (bind_run _ _ _ _ _ Hl), Hu, Eh. destruct (hash_password_valid _ _ _ _ Hb Hh) as (_ & _ & ->).
  rewrite (proj2 (py_eq_text _ _) Es). by case_bool_decide.
Qed.
End accounts.

(** ** Sessions *)
Section sessions.

(** No file that can be read has a session under this token. *)
Definition absent (token : string) (w : world unit) : Prop :=
  forall d, @visible sessions_format w = Some d -> dict_field d "sessions" !! _hash_token token = None.

(** No token that is still to be drawn has the digest of this one. *)
Definition never_drawn (token : string) (w : world unit) : Prop :=
  forall n, (uuids (environment w) <= n)%nat -> _hash_token (urlsafe_b64 (take SESSION_TOKEN_BYTES
    (bytes_of (uuid (environment w) n) ++ replicate SESSION_TOKEN_BYTES 0))) <> _hash_token token.

(** The token is out of use, and stays so. *)
Definition out (token : string) (w : world unit) : Prop := never_drawn token w /\ absent token w.
Definition stays_out (token : string) (w w' : world unit) : Prop := out token w -> out token w'.

#[export] Instance stays_out_preorder token : PreOrder (stays_out token).
Proof. split; [intros w Hw; exact Hw|]. intros w1 w2 w3 H1 H2 H. apply H2, H1, H. Qed.

Lemma out_mono token w w' : stays_out token w w' -> out token w -> out token w'.
Proof. auto. Qed.

Lemma later_drawn token w w' : later w w' -> never_drawn token w -> never_drawn token w'.
Proof. intros (_ & E & _ & Hle) H n Hn. rewrite E. apply H. lia. Qed.

Lemma calm_stays_out {B} token (m : FM B) : Resp calm m -> Resp later m -> Resp (stays_out token) m.
Proof.
  intros Hc Hl w [Hn Ha]. specialize (Hc w). split; [exact (later_drawn _ _ _ (Hl w) Hn)|]. intros d Hd.
  destruct (@calm_visible sessions_format _ _ Hc) as [E|E]; rewrite E in Hd; [by apply Ha|done].
Qed.

Ltac out_step :=
  match goal with |- stays_out ?t _ _ =>
    apply (resp_bind_inv (stays_out t) (out t)); [exact (out_mono t)|assumption|by apply calm_stays_out; apply _|]
  end.

#[local] Instance stays_out_read token : Resp (stays_out token) (@read_valid sessions_format).
Proof. apply calm_stays_out; apply _. Qed.
#[local] Instance stays_out_io token : Resp (stays_out token) (io (A:=unit) id).
Proof. apply calm_stays_out; apply _. Qed.

Lemma write_stays_out token payload w :
  out token w -> dict_field payload "sessions" !! _hash_token token = None ->
  stays_out token w (@atomic_write_json sessions_format payload w).2.
Proof.
  intros [Hn Ha] Hp _. split; [eapply later_drawn; [apply (resp (R:=later))|done]|].
  intros d Hd. by apply (@write_visible sessions_format) in Hd as [Hd| ->]; [apply Ha|].
Qed.

Lemma read_out token w d w' :
  out token w -> @read_valid sessions_format w = (Ok d, w') -> dict_field d "sessions" !! _hash_token token = None.
Proof. intros [_ Ha] [Hd _]%read_valid_ok. by apply Ha. Qed.

Inductive auth_session_op : Type :=
| OpEnsureSessions
| OpCreateSession (user_id : string) (ttl_seconds : Z)
| OpLookupSession (token : string)
| OpRevokeSession (token : string)
| OpPrune (now : option value) (max_deletions : value) (dry : bool).

Definition run_auth_session (op : auth_session_op) : FM unit :=
  match op with
  | OpEnsureSessions => @state_lock sessions_format _ (@ensure_file sessions_format)
  | OpCreateSession u ttl => create_session u ttl ;; mret tt
  | OpLookupSession t =>
      current ← _validated_clock_now;
      @state_lock sessions_format _ (document ← @read_valid sessions_format; mret (live_session document t current)) ;;
      mret tt
  | OpRevokeSession t => revoke_session t
  | OpPrune n m d => prune_expired_sessions n m d ;; mret tt
  end.

Definition run_auth_sessions (ops : list auth_session_op) (w : world unit) : world unit :=
  fold_left (fun w op => (run_auth_session op w).2) ops w.

#[local] Instance calm_clock' : Resp calm _validated_clock_now.
Proof. unfold _validated_clock_now. solve_resp. Qed.
#[local] Instance later_clock' : Resp later _validated_clock_now.
Proof. unfold _validated_clock_now. solve_resp. Qed.
#[local] Instance calm_prune_now v : Resp calm (_validated_now v).
Proof. unfold _validated_now. solve_resp. Qed.
#[local] Instance later_prune_now v : Resp later (_validated_now v).
Proof. unfold _validated_now. solve_resp. Qed.
#[local] Instance calm_urlsafe n : Resp calm (token_urlsafe n).
Proof. unfold token_urlsafe, token_bytes. solve_resp. Qed.
#[local] Instance later_urlsafe n : Resp later (token_urlsafe n).
Proof. unfold token_urlsafe, token_bytes. solve_resp. Qed.

(** A locked body that reads the sessions first. *)
Lemma locked_out {C} token (k : dict -> FM C) w :
  out token w ->
  (forall d w1, out token w1 -> dict_field d "sessions" !! _hash_token token = None -> stays_out token w1 (k d w1).2) ->
  stays_out token w (@state_lock sessions_format _ (d ← @read_valid sessions_format; k d) w).2.
Proof.
  intros Hw Hk. apply (lock_step (stays_out token) (out token)); [exact (out_mono token)|apply _| |done].
  clear dependent w. intros w Hw. apply (resp_bind_inv (stays_out token) (out token));
    [exact (out_mono token)|done|by apply calm_stays_out; apply _|].
  intros d w1 Hd Hw1. apply Hk; [done|]. exact (read_out token w d w1 Hw Hd).
Qed.

Lemma create_out token u ttl w : out token w -> stays_out token w (create_session u ttl w).2.
Proof.
  intros Hw. unfold create_session. out_step. intros now w1 _ Hw1. out_step. intros drawn w2 Ht Hw2.
  assert (Hne : _hash_token drawn <> _hash_token token).
  { unfold token_urlsafe, token_bytes in Ht. apply bind_ok in Ht as (l & w3 & Ht & [-> ->]%ret_ok).
    apply bind_ok in Ht as (x & w4 & Hx & [-> _]%ret_ok). apply uuid4_ok in Hx as [-> _]. by apply Hw1. }
  out_step. intros csrf w3 _ Hw3. out_step. intros e w4 _ Hw4.
  apply (resp_bind_post (stays_out token)); [|done].
  apply locked_out; [done|]. intros d w5 Hw5 Hd. apply write_stays_out; [done|].
  rewrite put_sessions_field. by rewrite lookup_insert_ne.
Qed.

Lemma delete_all (l : list string) (m : dict) k :
  foldr delete m l !! k = if bool_decide (k ∈ l) then None else m !! k.
Proof.
  induction l as [|x l IH]; cbn; [done|]. destruct (decide (x = k)) as [->|Hne].
  - rewrite lookup_delete_eq, bool_decide_eq_true_2; [done|by left].
  - rewrite lookup_delete_ne, IH by done.
    rewrite (bool_decide_ext (k ∈ x :: l) (k ∈ l)); [done|]. rewrite elem_of_cons. naive_solver.
Qed.

Lemma run_auth_session_out token op w : out token w -> stays_out token w (run_auth_session op w).2.
Proof.
  intros Hw. destruct op as [|u ttl|t|t|n m dry]; cbn [run_auth_session].
  - apply (lock_step (stays_out token) (out token)); [exact (out_mono token)|apply _| |done].
    clear dependent w. intros w Hw. unfold ensure_file. out_step. intros [] w1 _ Hw1.
    out_step. intros f w2 _ Hw2. destruct f; [|by apply calm_stays_out; apply _..].
    out_step. intros was w3 _ Hw3. destruct was; [by apply calm_stays_out; apply _|].
    apply write_stays_out; [done|]. by assert (dict_field (@sf_default sessions_format) "sessions" = ∅) as -> by reflexivity.
  - apply (resp_bind_post (stays_out token)); [by apply create_out|]. intros; apply (resp (R:=stays_out token)).
  - apply calm_stays_out; solve_resp.
  - apply locked_out; [done|]. intros d w1 Hw1 Hd. destruct (is_null _); [apply (resp (R:=stays_out token))|].
    apply write_stays_out; [done|]. rewrite put_sessions_field.
    rewrite lookup_delete_None. by right.
  - apply (resp_bind_post (stays_out token)); [|intros; apply (resp (R:=stays_out token))].
    unfold prune_expired_sessions.
    out_step. intros t w1 _ Hw1. out_step. intros limit w2 _ Hw2.
    apply (resp_bind_post (stays_out token)); [|intros [[? ?] ?] ? ?; apply (resp (R:=stays_out token))].
    apply locked_out; [done|]. intros d w3 Hw3 Hd. destruct (_expired_token_hashes _ _ _) as [sel count].
    apply (resp_bind_post (stays_out token)); [|intros; apply (resp (R:=stays_out token))].
    destruct (_ && _); [|apply (resp (R:=stays_out token))].
    apply write_stays_out; [done|]. rewrite put_sessions_field, delete_all, Hd. by case_bool_decide.
Qed.

Lemma run_auth_sessions_out token ops w : out token w -> out token (run_auth_sessions ops w).
Proof.
  revert w. induction ops as [|op ops IH]; intros w Hw; cbn; [done|]. by apply IH, (run_auth_session_out token op w).
Qed.

(** A revocation that returned. *)
Lemma revoked_absent token w u w1 : revoke_session token w = (Ok u, w1) -> absent token w1.
Proof.
  unfold revoke_session. intros (w2 & w3 & _ & Hr & F & U & _)%state_lock_ok.
  apply bind_ok in Hr as (d & w4 & Hd & Hr). apply read_valid_ok in Hd as [Hd Hst].
  intros d' Hd'. rewrite (@still_visible sessions_format w3 w1) in Hd' by done.
  revert Hr. destruct (is_null _) eqn:E.
  - intros [_ ->]%ret_ok. rewrite (@still_visible sessions_format _ _ Hst), Hd in Hd'. injection Hd' as <-.
    unfold py_get in E. destruct (dict_field d "sessions" !! _hash_token token) as [v|] eqn:El; [|done].
    cbn in E. apply (@visible_valid sessions_format) in Hd.
    destruct (sessions_shape d Hd) as (ss & _ & Es & Hall). rewrite Es in El. specialize (Hall _ _ El).
    by destruct v.
  - intros Hw. rewrite (@write_ok_visible sessions_format _ _ _ _ _ Hw Hd'), put_sessions_field.
    apply lookup_delete_eq.
Qed.

(** C21: Logging out is final. Once the revocation of a session has returned, its token
    opens no session: over every later history of operations on the sessions, with any
    clock and whatever I/O fails, the lookup of the token answers nobody, as long as
    no token drawn after the revocation has its digest. *)
Theorem logout_is_final it ops token w w1 s r s' :
  never_drawn token w1 -> revoke_session token w = (Ok tt, w1) ->
  auth_sessions s = run_auth_sessions ops w1 -> get_session_user it token s = (Ok r, s') -> r = None.
Proof.
  intros Hn Hr Hs Hg. apply revoked_absent in Hr.
  destruct (run_auth_sessions_out token ops w1) as [_ Ha]; [done|]. rewrite <- Hs in Ha.
  unfold get_session_user in Hg. apply bind_ok in Hg as (record & s1 & H1 & Hg).
  assert (record = None) as ->; [|by apply ret_ok in Hg as [-> _]].
  unfold on_sessions in H1. destruct ((current ← _validated_clock_now; _) _) as [res w2] eqn:E.
  injection H1 as -> <-. apply bind_ok in E as (t & w3 & Ht & E).
  apply (resp_ok still) in Ht; [|unfold _validated_clock_now; solve_resp].
  apply state_lock_ok in E as (w4 & w5 & (F & U & _) & E & _).
  apply bind_ok in E as (d & w6 & [Hd _]%read_valid_ok & [-> _]%ret_ok).
  rewrite (@still_visible sessions_format w3 w4), (@still_visible sessions_format _ _ Ht) in Hd by done.
  unfold live_session, py_get. by rewrite (Ha d Hd).
Qed.

(** ** Garbage collection *)
Lemma omap_snd_nodup now (l : list (string * value)) :
  NoDup l.*1 -> NoDup (omap (expired_entry now) l).*2.
Proof.
  assert (Hin : forall l k, k ∈ (omap (expired_entry now) l).*2 -> k ∈ l.*1).
  { intros l' k ([e k'] & -> & Hp)%list_elem_of_fmap. apply list_elem_of_omap in Hp as ([k2 v] & Hl & He).
    apply list_elem_of_fmap. exists (k2, v). split; [|done]. unfold expired_entry in He. cbn in He.
    destruct v; try done. destruct (number_as_float _); [|done]. destruct (fle _ _); [|done]. by injection He as _ <-. }
  induction l as [|[k v] l IH]; cbn; [constructor|]. intros [Hk Hl]%NoDup_cons.
  destruct (expired_entry now (k, v)) as [[e k']|] eqn:E; cbn; [|by apply IH].
  assert (k' = k) as ->.
  { unfold expired_entry in E. cbn in E. destruct v; try done. destruct (number_as_float _); [|done].
    destruct (fle _ _); [|done]. by injection E. }
  constructor; [|by apply IH]. intros Hin'. by apply Hk, Hin.
Qed.

Lemma expired_selection sessions now limit sel count :
  _expired_token_hashes sessions now limit = (sel, count) ->
  NoDup sel /\ (length sel <= Z.to_nat limit)%nat /\
  forall k, k ∈ sel -> exists record e, sessions !! k = Some (VDict record) /\
    number_as_float (py_get record "expires_at") = Some e /\ fle e now = true.
Proof.
  unfold _expired_token_hashes. intros [= <- _]. set (entries := omap _ _).
  assert (Hp : merge_sort entry_before entries ≡ₚ entries) by apply merge_sort_Permutation.
  split; [|split].
  - assert (Hn : NoDup (merge_sort entry_before entries).*2).
    { rewrite Hp. apply omap_snd_nodup. unfold sorted_records. rewrite sort_pairs_perm. apply NoDup_fst_map_to_list. }
    rewrite <- (take_drop (Z.to_nat limit) (merge_sort entry_before entries)), fmap_app in Hn.
    by apply NoDup_app in Hn as [Hn _].
  - rewrite length_fmap, length_take. lia.
  - intros k ([e k'] & -> & (i & Hk & _)%elem_of_take)%list_elem_of_fmap.
    apply list_elem_of_lookup_2 in Hk. rewrite Hp in Hk. apply list_elem_of_omap in Hk as ([k2 v] & Hin & He).
    apply elem_of_sorted_records in Hin. unfold expired_entry in He. cbn in He.
    destruct v as [| | | | | |record]; try done. destruct (number_as_float _) as [f|] eqn:Ef; [|done].
    destruct (fle f now) eqn:El; [|done]. injection He as <- <-. by exists record, f.
Qed.

Lemma delete_all_size (l : list string) (m : dict) :
  NoDup l -> (forall k, k ∈ l -> is_Some (m !! k)) -> (size (foldr delete m l) + length l = size m)%nat.
Proof.
  induction 1 as [|x l Hx Hnd IH]; intros Hin; cbn; [lia|].
  assert (Hl : is_Some (foldr delete m l !! x)).
  { rewrite delete_all, bool_decide_eq_false_2 by done. apply Hin. by left. }
  destruct Hl as [v Hv]. rewrite map_size_delete_Some by eauto. assert (0 < size (foldr delete m l))%nat.
  { destruct (size (foldr delete m l)) eqn:E; [|lia]. apply map_size_empty_inv in E. by rewrite E in Hv. }
  specialize (IH ltac:(intros; apply Hin; by right)). lia.
Qed.

(** What a collection that returned has read and left. *)
Lemma prune_ok now t max dry w r w' :
  nonneg_number now = Some t -> prune_expired_sessions (Some now) (VInt max) dry w = (Ok r, w') ->
  exists d sel count, @visible sessions_format w = Some d /\
    _expired_token_hashes (dict_field d "sessions") t max = (sel, count) /\
    r = Pruned (Z.of_nat (size (dict_field d "sessions"))) (if dry then 0 else Z.of_nat (length sel))
          (if dry then count else count - Z.of_nat (length sel)) dry /\
    @visible sessions_format w' = Some
      (if negb (bool_decide (sel = [])) && negb dry
       then put_sessions d (foldr delete (dict_field d "sessions") sel) else d).
Proof.
  intros Ht Hr. unfold prune_expired_sessions, _validated_now, prune_now in Hr. rewrite Ht in Hr.
  apply bind_ok in Hr as (t' & w1 & [[= <-] ->]%lift_ok & Hr). apply bind_ok in Hr as (limit & w2 & [Hm ->]%lift_ok & Hr).
  assert (limit = max) as -> by (cbn in Hm; destruct (_ || _); congruence). clear Hm.
  apply bind_ok in Hr as ([[total sel] count] & w3 & Hr & [-> ->]%ret_ok).
  apply state_lock_ok in Hr as (w4 & w5 & (F4 & U4 & _) & Hr & F & U & _).
  apply bind_ok in Hr as (d & w6 & [Hd Hst]%read_valid_ok & Hr).
  rewrite (@still_visible sessions_format w w4) in Hd by done.
  destruct (_expired_token_hashes _ _ _) as [sel' count'] eqn:E.
  apply bind_ok in Hr as (u & w7 & Hw & [[= -> -> ->] ->]%ret_ok).
  exists d, sel', count'. split; [done|]. split; [done|]. split; [done|].
  rewrite (@still_visible sessions_format w7 w3) by done. destruct (_ && _).
  - apply (@document_visible sessions_format).
    apply (@replace_ok sessions_format) in Hw as (_ & _ & Hdoc). apply Hdoc. apply put_sessions_valid.
    apply (@visible_valid sessions_format) in Hd. destruct (sessions_shape d Hd) as (ss & _ & -> & Hall).
    intros k v. rewrite delete_all. case_bool_decide; [done|]. apply Hall.
  - apply ret_ok in Hw as [_ ->]. by rewrite (@still_visible sessions_format _ _ Hst), (@still_visible sessions_format w w4).
Qed.

(** C33: The garbage collection is invisible. A collection that returns leaves a file
    in which every lookup at its time or later answers as before, it deletes at most
    as many sessions as it was allowed to and reports how many, and a dry run leaves
    the sessions as they were. (The expiry of a session is a float, which is what
    [create_session] writes.) *)
Theorem gc_is_invisible now t max dry w r w' d :
  @visible sessions_format w = Some d -> nonneg_number now = Some t ->
  prune_expired_sessions (Some now) (VInt max) dry w = (Ok r, w') ->
  exists d', @visible sessions_format w' = Some d' /\
    (forall token current,
       is_nan current = false -> fle t current = true ->
       (forall record, dict_field d "sessions" !! _hash_token token = Some (VDict record) ->
          exists f, py_get record "expires_at" = VFloat f) ->
       live_session d' token current = live_session d token current) /\
    Z.of_nat (size (dict_field d' "sessions")) = Z.of_nat (size (dict_field d "sessions")) - deleted r /\
    0 <= deleted r <= Z.max 0 max /\ (dry = true -> d' = d).
Proof.
  intros Hd Ht Hr. destruct (prune_ok _ _ _ _ _ _ _ Ht Hr) as (d0 & sel & count & Hd0 & Hs & -> & Hv).
  rewrite Hd in Hd0. injection Hd0 as <-. destruct (expired_selection _ _ _ _ _ Hs) as (Hnd & Hlen & Hsel).
  apply nonneg_number_spec in Ht as [Hft _]. eexists. split; [exact Hv|]. clear Hv Hr Hs.
  assert (Hle : 0 <= Z.of_nat (length sel) <= Z.max 0 max) by lia.
  destruct (negb (bool_decide (sel = [])) && negb dry) eqn:E.
  2: { split; [done|]. cbn [deleted]. destruct dry; [split; [lia|]; split; [lia|done]|].
       destruct (bool_decide_reflect (sel = [])) as [->|]; [|done]. cbn. split; [lia|]. split; [lia|done]. }
  apply andb_prop in E as [_ ->%negb_true_iff]. cbn [deleted]. rewrite put_sessions_field. split; [|split; [|by split]].
  - intros token current Hn Hc Hf. unfold live_session. rewrite put_sessions_field. unfold py_get at 1.
    rewrite delete_all. case_bool_decide as Hin; [|done]. cbn [default].
    destruct (Hsel _ Hin) as (record & e & Hk & He & Hle'). unfold py_get at 1. rewrite Hk. cbn [default].
    destruct (Hf record Hk) as [f Ef]. unfold expired_at. rewrite Ef in *. cbn in He |- *. injection He as ->.
    destruct (is_nan e) eqn:Ene.
    { exfalso. by destruct e. }
    rewrite Ef. cbn [number_le]. by rewrite (fle_trans e t current) by (done || by apply is_finite_not_nan).
  - pose proof (delete_all_size sel (dict_field d "sessions") Hnd) as Hsz. rewrite <- Hsz; [lia|].
    intros k Hk. destruct (Hsel k Hk) as (record & e & -> & _). eauto.
Qed.
End sessions.

(** ** Evaluated runs, with one iteration of PBKDF2 *)
Definition demo_auth_env : env :=
  Env (fun n => of_Z (1000 + Z.of_nat n)) 0 (fun n => String "u" (pretty.pretty n)) 0 (fun _ => false) 0.
Definition demo_users : world unit :=
  World tt (Present (RObj [("email_index", RObj []); ("users", RObj [])])) true demo_auth_env.
Definition demo_ops : list account_op :=
  [OpRegister " Bob@Example.COM" "correct horse" (Some "Bob"); OpRegister "bob@example.com" "another one" None;
   OpRegister "ann@example.com" "battery staple" None; OpAuthenticate "ann@example.com" "wrong"].

Example demo_accounts :
  (fun d => (size (dict_field d "users"), map_to_list (dict_field d "email_index"))) <$>
    @document (users_format 1) (run_accounts 1 demo_ops demo_users) =
  Some (2%nat, [("ann@example.com", VStr "u4"); ("bob@example.com", VStr "u1")]).
Proof. vm_compute. reflexivity. Qed.

Lemma demo_fresh : fresh_ids 1 demo_users.
Proof.
  split; [done|]. split; [by intros n m [= H%(inj pretty.pretty)]|].
  intros d n Hd _. assert (Hv : @visible (users_format 1) demo_users = Some _default_users) by (vm_compute; reflexivity).
  rewrite Hv in Hd. injection Hd as <-. assert (dict_field _default_users "users" = ∅) as -> by reflexivity.
  apply lookup_empty.
Qed.

Lemma accounts_are_final_witness :
  exists d', @document (users_format 1) (run_accounts 1 demo_ops demo_users) = Some d' /\
    dict_field _default_users "users" ⊆ dict_field d' "users".
Proof.
  destruct (accounts_are_final 1 demo_ops demo_users _default_users demo_fresh) as (d' & Hd & Hs & _).
  - vm_compute. reflexivity.
  - exists d'. split; [exact Hd|exact Hs].
Defined.

Definition demo_registration := register_user 1 " Bob@Example.COM" "correct horse" None demo_users.

Lemma registered_user_logs_in_witness :
  exists user, demo_registration.1 = Ok user /\
    (authenticate_user 1 "bob@EXAMPLE.com " "correct horse" demo_registration.2).1 = Ok user.
Proof.
  destruct demo_registration as [[user|e] w1] eqn:E; cbn [fst snd].
  - exists user. split; [reflexivity|].
    destruct (registered_user_logs_in 1 _ _ _ _ _ _ demo_fresh E) as (salt & _ & H).
    rewrite (H "bob@EXAMPLE.com " "correct horse" w1).
    + by rewrite bool_decide_eq_true_2.
    + reflexivity.
    + pose proof (register_step 1 " Bob@Example.COM" "correct horse" None demo_users demo_fresh) as ((_ & _ & Hio & _) & _).
      unfold demo_registration in E. rewrite E in Hio. cbn in Hio. intros n. by rewrite Hio.
    + vm_compute. reflexivity.
  - exfalso. assert (Hb : is_ok demo_registration.1 = true) by (vm_compute; reflexivity). by rewrite E in Hb.
Defined.

Definition demo_session_raw (user_id : string) (expires_at : Z) : raw :=
  RObj [("created_at", RFloat (of_Z 10)); ("csrf_token", RStr "ABCDEFGHIJKLMNOPQRSTUVWXYZ_-0123");
        ("expires_at", RFloat (of_Z expires_at)); ("user_id", RStr user_id)].
Definition demo_sessions : world unit :=
  World tt (Present (RObj [("sessions", RObj [(_hash_token "one", demo_session_raw "u1" 500);
    (_hash_token "two", demo_session_raw "u1" 5000); (_hash_token "three", demo_session_raw "u2" 400)])])) true
    (Env (fun n => of_Z (1000 + Z.of_nat n)) 0 (fun _ => "drawn") 0 (fun _ => false) 0).

Example demo_prune :
  ((prune_expired_sessions (Some (VInt 600)) (VInt 1) false demo_sessions).1,
   (prune_expired_sessions None (VInt 10) true demo_sessions).1,
   (prune_expired_sessions None (VInt 0) true demo_sessions).1) =
  (Ok (Pruned 3 1 1 false), Ok (Pruned 3 0 2 true), Err ValueError).
Proof. vm_compute. reflexivity. Qed.

Definition demo_later_ops : list auth_session_op :=
  [OpCreateSession "u1" 3600; OpLookupSession "two"; OpPrune None (VInt 10) false; OpRevokeSession "one"].
(** Bob logs in, logs out, and his token is tried again after some more logins. *)
Definition demo_login_world : world unit :=
  World tt (Present (RObj [("sessions", RObj [])])) true
    (Env (fun n => of_Z (1000 + Z.of_nat n)) 0
         (fun n => match n with 0%nat => "alpha" | 1%nat => "beta" | _ => "gamma" end) 0 (fun _ => false) 0).
Definition demo_login := create_session "u1" 3600 demo_login_world.
Definition demo_token : string := match demo_login.1 with Ok (token, _, _) => token | Err _ => EmptyString end.
Definition demo_accounts_world : world unit := run_accounts 1 demo_ops demo_users.
Definition demo_site : auth_site :=
  AuthSite demo_accounts_world (run_auth_sessions demo_later_ops (revoke_session demo_token demo_login.2).2).

Example demo_logged_in :
  match (get_session_user 1 demo_token (AuthSite demo_accounts_world demo_login.2)).1 with
  | Ok (Some _) => true | _ => false end = true.
Proof. vm_compute. reflexivity. Qed.

Lemma logout_is_final_witness :
  is_ok demo_login.1 = true /\ (get_session_user 1 demo_token demo_site).1 = Ok None.
Proof.
  split; [vm_compute; reflexivity|].
  destruct (get_session_user 1 demo_token demo_site) as [[r|e] s'] eqn:E; cbn [fst].
  - f_equal.
    apply (logout_is_final 1 demo_later_ops demo_token demo_login.2 (revoke_session demo_token demo_login.2).2 demo_site r s').
    + intros n Hn. destruct n as [|[|n]]; [exfalso; vm_compute in Hn; lia..|vm_compute; discriminate].
    + vm_compute. reflexivity.
    + reflexivity.
    + exact E.
  - exfalso. assert (Hb : is_ok (get_session_user 1 demo_token demo_site).1 = true) by (vm_compute; reflexivity).
    rewrite E in Hb. discriminate Hb.
Defined.

Definition demo_document : dict := default ∅ (@visible sessions_format demo_sessions).
Definition float_expiry (v : option value) : bool :=
  match v with
  | Some (VDict record) => match py_get record "expires_at" with VFloat _ => true | _ => false end
  | _ => true
  end.

Lemma float_expiry_spec v record :
  float_expiry v = true -> v = Some (VDict record) -> exists f, py_get record "expires_at" = VFloat f.
Proof. intros H ->. cbn in H. destruct (py_get record "expires_at"); try done. eauto. Qed.

Definition demo_collection := prune_expired_sessions (Some (VInt 600)) (VInt 1) false demo_sessions.

Lemma gc_is_invisible_witness :
  exists d', @visible sessions_format demo_collection.2 = Some d' /\
    bool_decide (is_Some (live_session d' "two" (of_Z 700))) = true.
Proof.
  destruct demo_collection as [[r|e] w'] eqn:E; cbn [snd].
  - destruct (gc_is_invisible (VInt 600) (of_Z 600) 1 false demo_sessions r w' demo_document) as (d' & Hd' & Hl & _).
    + vm_compute. reflexivity.
    + reflexivity.
    + exact E.
    + exists d'. split; [exact Hd'|]. rewrite Hl.
      * vm_compute. reflexivity.
      * reflexivity.
      * vm_compute. reflexivity.
      * intros record. apply float_expiry_spec. vm_compute. reflexivity.
  - exfalso. assert (Hb : is_ok demo_collection.1 = true) by (vm_compute; reflexivity). by rewrite E in Hb.
Defined.
