(* ===== verification/AssetUpload.v ===== *)
(** * Upload keys of standby assets

    [apps/control-api/asset_upload_intent.py]: the object keys that the control plane
    derives for an owner and an asset, and the checks of a finished upload. *)

From S2P Require Import Prelude PyFloat Sha256 PyValue PyText Uuid IpAddress Url.

Definition ASSET_NAMESPACE : string := "users".
Definition SOURCE_OBJECT_NAME : string := "source".
Definition VARIANTS_PREFIX : string := "variants".
Definition VARIANTS_PATH_SUFFIX : string := ".mp4".
(** the keys of the mapping *)
Definition SUPPORTED_IMAGE_CONTENT_TYPES : list string := ["image/jpeg"; "image/png"; "image/webp"].
Definition SUPPORTED_VARIANT_PROFILES : list string := ["720p30"; "1080p30"].
Definition MAX_UPLOAD_BYTES : Z := 32 * 1024 * 1024.
Definition _MAX_SEGMENT_LENGTH : nat := 200.
Definition _MAX_CONTENT_TYPE_LENGTH : nat := 200.
Definition _SHA256_HEX_LENGTH : nat := 64.

(** Printable ASCII without separators. *)
Definition segment_char (c : Ascii.ascii) : bool :=
  (33 <=? byte_code c) && (byte_code c <=? 126) && negb (Ascii.eqb c "/") && negb (Ascii.eqb c "\").

Definition _require_segment (v : value) : result string :=
  match v with
  | VStr s =>
      raise_if (str_empty s) AssetUploadIntentError ;;
      raise_if (Nat.ltb _MAX_SEGMENT_LENGTH (py_len s)) AssetUploadIntentError ;;
      raise_if (String.prefix "." s || ends_with "." s) AssetUploadIntentError ;;
      raise_if (negb (all_chars segment_char s)) AssetUploadIntentError ;;
      Ok s
  | _ => Err AssetUploadIntentError
  end.

Definition normalize_image_content_type (v : value) : result string :=
  match v with
  | VStr s =>
      raise_if (str_empty s) AssetUploadIntentError ;;
      raise_if (Nat.ltb _MAX_CONTENT_TYPE_LENGTH (py_len s)) AssetUploadIntentError ;;
      let base := py_lower (py_strip (partition ";" s).1) in
      raise_if (negb (bool_decide (base ∈ SUPPORTED_IMAGE_CONTENT_TYPES))) AssetUploadIntentError ;;
      Ok base
  | _ => Err AssetUploadIntentError
  end.

Definition normalize_variant_profile (v : value) : result string :=
  match v with
  | VStr s => if bool_decide (s ∈ SUPPORTED_VARIANT_PROFILES) then Ok s else Err AssetUploadIntentError
  | _ => Err AssetUploadIntentError
  end.

Definition source_object_key (user_id asset_id : value) : result string :=
  owner ← _require_segment user_id;
  asset ← _require_segment asset_id;
  Ok (join_with "/" [ASSET_NAMESPACE; owner; "assets"; asset; SOURCE_OBJECT_NAME]).

Definition variant_object_key (user_id asset_id profile : value) : result string :=
  owner ← _require_segment user_id;
  asset ← _require_segment asset_id;
  normalized ← normalize_variant_profile profile;
  Ok (join_with "/" [ASSET_NAMESPACE; owner; "assets"; asset; VARIANTS_PREFIX;
                     String.append normalized VARIANTS_PATH_SUFFIX]).

Definition is_owner_bound_source_object_key (user_id asset_id object_key : value) : bool :=
  match object_key with
  | VStr key =>
      if str_empty key then false
      else match source_object_key user_id asset_id with
           | Ok expected => String.eqb key expected
           | Err _ => false
           end
  | _ => false
  end.

Definition _validated_sha256 (v : value) : result string :=
  match v with
  | VStr s => if Nat.eqb (py_len s) _SHA256_HEX_LENGTH && all_hex s then Ok s else Err AssetUploadIntentError
  | _ => Err AssetUploadIntentError
  end.

Definition _validated_size_bytes (v : value) : result Z :=
  match v with
  | VInt n => if (n <=? 0) || (MAX_UPLOAD_BYTES <? n) then Err AssetUploadIntentError else Ok n
  | _ => Err AssetUploadIntentError
  end.

Record upload_completion : Type := UploadCompletion {
  completion_key : string; completion_type : string; completion_size : Z; completion_sha256 : string
}.

Definition validate_upload_completion (user_id asset_id content_type object_key size_bytes sha256 : value)
    : result upload_completion :=
  normalized_type ← normalize_image_content_type content_type;
  expected_key ← source_object_key user_id asset_id;
  match object_key with
  | VStr key => raise_if (negb (String.eqb key expected_key)) AssetUploadIntentError
  | _ => Err AssetUploadIntentError
  end ;;
  size ← _validated_size_bytes size_bytes;
  digest ← _validated_sha256 sha256;
  Ok (UploadCompletion expected_key normalized_type size digest).

Example upload_keys :
  (source_object_key (VStr "user-1") (VStr "a.b"), source_object_key (VStr "..") (VStr "a"),
   source_object_key (VStr "u/v") (VStr "a"), variant_object_key (VStr "u") (VStr "a") (VStr "720p30"),
   normalize_image_content_type (VStr "Image/PNG ; charset=binary"), normalize_image_content_type (VStr "image/svg+xml")) =
  (Ok "users/user-1/assets/a.b/source", Err AssetUploadIntentError, Err AssetUploadIntentError,
   Ok "users/u/assets/a/variants/720p30.mp4", Ok "image/png", Err AssetUploadIntentError).
Proof. vm_compute. reflexivity. Qed.

(** ** Every object has one owner *)
Lemma require_segment_ok v s : _require_segment v = Ok s -> v = VStr s /\ has_char "/" s = false.
Proof.
  destruct v as [| | | |t| |]; try done. unfold _require_segment. intros H.
  do 3 (apply result_bind_ok in H as (? & _ & H)). apply result_bind_ok in H as (? & Hc%raise_if_ok & [= <-]).
  split; [done|]. apply negb_false_iff in Hc. unfold all_chars in Hc. unfold has_char.
  apply not_true_is_false. intros (c & Hin & Hs)%existsb_exists. rewrite forallb_forall in Hc.
  specialize (Hc c Hin). apply Ascii.eqb_eq in Hs as <-. by vm_compute in Hc.
Qed.

Lemma split_source_key owner asset : has_char "/" owner = false -> has_char "/" asset = false ->
  split_on "/" (join_with "/" [ASSET_NAMESPACE; owner; "assets"; asset; SOURCE_OBJECT_NAME]) =
  [ASSET_NAMESPACE; owner; "assets"; asset; SOURCE_OBJECT_NAME].
Proof. intros Ho Ha. apply (split_on_join "/"). by repeat constructor. Qed.

Lemma variant_file_plain p : p ∈ SUPPORTED_VARIANT_PROFILES -> has_char "/" (String.append p VARIANTS_PATH_SUFFIX) = false.
Proof. intros [->|[->|[]%elem_of_nil]%elem_of_cons]%elem_of_cons; reflexivity. Qed.

Lemma split_variant_key owner asset p : has_char "/" owner = false -> has_char "/" asset = false ->
  p ∈ SUPPORTED_VARIANT_PROFILES ->
  split_on "/" (join_with "/" [ASSET_NAMESPACE; owner; "assets"; asset; VARIANTS_PREFIX; String.append p VARIANTS_PATH_SUFFIX]) =
  [ASSET_NAMESPACE; owner; "assets"; asset; VARIANTS_PREFIX; String.append p VARIANTS_PATH_SUFFIX].
Proof.
  intros Ho Ha Hp. apply (split_on_join "/"). pose proof (variant_file_plain p Hp). by repeat constructor.
Qed.

(** An object key names one owner, one asset and one role. Two derived keys that
    are equal were derived for the same owner and the same asset, whatever the ids
    are, and a key of a generated variant is never the key of a source: no id can
    reach into the objects of another owner. *)
Theorem object_keys_are_disjoint user asset user' asset' profile key :
  source_object_key user asset = Ok key ->
  (source_object_key user' asset' = Ok key -> user' = user /\ asset' = asset) /\
  variant_object_key user' asset' profile <> Ok key.
Proof.
  assert (Hsplit : forall k k' : string, Ok k = Ok k' -> split_on "/" k = split_on "/" k') by congruence.
  unfold source_object_key, variant_object_key.
  intros (o & [-> Ho]%require_segment_ok & (a & [-> Ha]%require_segment_ok & Hk)%result_bind_ok)%result_bind_ok.
  split.
  - intros (o' & [-> Ho']%require_segment_ok & (a' & [-> Ha']%require_segment_ok & Hk')%result_bind_ok)%result_bind_ok.
    rewrite <- Hk' in Hk. apply Hsplit in Hk. rewrite !split_source_key in Hk by done. by injection Hk as -> ->.
  - intros (o' & [-> Ho']%require_segment_ok & (a' & [-> Ha']%require_segment_ok &
      (p & Hp & Hk')%result_bind_ok)%result_bind_ok)%result_bind_ok.
    assert (Hin : p ∈ SUPPORTED_VARIANT_PROFILES).
    { destruct profile; try done. cbn in Hp. case_bool_decide; [|done]. by injection Hp as <-. }
    rewrite <- Hk' in Hk. apply Hsplit in Hk. by rewrite split_source_key, split_variant_key in Hk.
Qed.

Lemma object_keys_are_disjoint_witness :
  variant_object_key (VStr "user-2") (VStr "a1") (VStr "720p30") <> source_object_key (VStr "user-1") (VStr "a1").
Proof.
  exact (proj2 (object_keys_are_disjoint (VStr "user-1") (VStr "a1") (VStr "user-2") (VStr "a1") (VStr "720p30")
    "users/user-1/assets/a1/source" eq_refl)).
Defined.
