(* ===== verification/ImageProbe.v ===== *)
(** * The image probe of standby assets

    [apps/control-api/asset_processing.py]: the dimensions of PNG, JPEG and WebP files
    from their headers, the bounds of an accepted image, and the variant records. A
    file is the list of its bytes; an index outside raises [IndexError], a slice stops
    at the end. *)

From S2P Require Import Prelude PyFloat Sha256 PyValue PyText Uuid IpAddress Url AssetUpload.

Definition MAX_IMAGE_BYTES : Z := 32 * 1024 * 1024.
Definition MAX_IMAGE_PIXELS : Z := 16 * 1024 * 1024.
Definition MAX_IMAGE_DIMENSION : Z := 16384.
Definition PROCESSING_STATUSES : list string := ["UPLOADING"; "PROCESSING"; "READY"; "FAILED"; "DELETED"].

Definition normalize_processing_status (v : value) : result string :=
  match v with
  | VStr s => if bool_decide (s ∈ PROCESSING_STATUSES) then Ok s else Err AssetProcessingError
  | _ => Err AssetProcessingError
  end.

(** ** Bytes *)
Definition zlen (l : list Z) : Z := Z.of_nat (length l).

(** [payload[i]] and [payload[a:b]] *)
Definition byte_at (l : list Z) (i : nat) : result Z :=
  match l !! i with Some z => Ok z | None => Err IndexError end.
Definition slice (l : list Z) (a b : nat) : list Z := take (b - a) (drop a l).

(** [int.from_bytes] *)
Definition be_int (l : list Z) : Z := fold_left (fun acc b => 256 * acc + b) l 0.
Definition le_int (l : list Z) : Z := foldr (fun b acc => b + 256 * acc) 0 l.

Definition starts_with (l magic : list Z) : bool := bool_decide (take (length magic) l = magic).

(** [binascii.crc32] *)
Definition crc_bit (c : Z) : Z :=
  if Z.odd c then Z.lxor (Z.shiftr c 1) 3988292384 else Z.shiftr c 1.
Definition crc_byte (c b : Z) : Z := Nat.iter 8 crc_bit (Z.lxor c b).
Definition crc32 (l : list Z) : Z := Z.lxor (fold_left crc_byte l 4294967295) 4294967295.

Example crc32_check : crc32 (bytes_of "123456789") = 3421780262.
Proof. vm_compute. reflexivity. Qed.

Definition PNG_MAGIC : list Z := [137; 80; 78; 71; 13; 10; 26; 10].
Definition IHDR : list Z := bytes_of "IHDR".
Definition JPEG_MAGIC : list Z := [255; 216].
Definition RIFF : list Z := bytes_of "RIFF".
Definition WEBP : list Z := bytes_of "WEBP".

(** ** PNG *)
Definition allowed_depths (color_type : Z) : list Z :=
  match color_type with
  | 0 => [1; 2; 4; 8; 16]
  | 2 => [8; 16]
  | 3 => [1; 2; 4; 8]
  | 4 => [8; 16]
  | 6 => [8; 16]
  | _ => []
  end.

Definition _png_dimensions (payload : list Z) : result (option (Z * Z)) :=
  if Nat.ltb (length payload) 33 || negb (starts_with payload PNG_MAGIC) then Ok None
  else if negb (bool_decide (slice payload 8 12 = [0; 0; 0; 13])) || negb (bool_decide (slice payload 12 16 = IHDR))
  then Ok None
  else
    let ihdr := slice payload 16 29 in
    let expected_crc := be_int (slice payload 29 33) in
    let actual_crc := crc32 (IHDR ++ ihdr) in
    if negb (actual_crc =? expected_crc) then Ok None
    else
      let width := be_int (slice ihdr 0 4) in
      let height := be_int (slice ihdr 4 8) in
      bit_depth ← byte_at ihdr 8;
      color_type ← byte_at ihdr 9;
      compression ← byte_at ihdr 10;
      filter_method ← byte_at ihdr 11;
      interlace ← byte_at ihdr 12;
      if negb (bool_decide (bit_depth ∈ allowed_depths color_type)) then Ok None
      else if negb (compression =? 0) || negb (filter_method =? 0) || negb (bool_decide (interlace ∈ [0; 1]))
      then Ok None
      else Ok (Some (width, height)).

(** ** JPEG *)
Definition _JPEG_SOF_MARKERS : list Z :=
  [192; 193; 194; 195; 197; 198; 199; 201; 202; 203; 205; 206; 207].

(** [while offset < len(payload) and payload[offset] == 0xFF: offset += 1] *)
Fixpoint skip_fill (fuel : nat) (payload : list Z) (offset : nat) : nat :=
  match fuel with
  | O => offset
  | S fuel' =>
      match payload !! offset with
      | Some 255 => skip_fill fuel' payload (S offset)
      | _ => offset
      end
  end.

Definition sof_dimensions (payload : list Z) (offset : nat) (segment_length : Z) : result (option (Z * Z)) :=
  if segment_length <? 11 then Ok None
  else
    precision ← byte_at payload (offset + 2);
    let height := be_int (slice payload (offset + 3) (offset + 5)) in
    let width := be_int (slice payload (offset + 5) (offset + 7)) in
    component_count ← byte_at payload (offset + 7);
    if (precision <=? 0) || (16 <? precision) || (component_count <=? 0) then Ok None
    else if negb (segment_length =? 8 + 3 * component_count) then Ok None
    else Ok (Some (width, height)).

(** The loop from [offset]; every turn takes at least one byte, and [RuntimeError]
    stands for a loop that is still going on when the fuel is used up. *)
Fixpoint jpeg_loop (fuel : nat) (payload : list Z) (offset : nat) : result (option (Z * Z)) :=
  match fuel with
  | O => Err RuntimeError
  | S fuel' =>
      if negb (Nat.ltb offset (length payload)) then Ok None
      else
        first ← byte_at payload offset;
        if negb (first =? 255) then Ok None
        else
          let offset := skip_fill (length payload) payload offset in
          if negb (Nat.ltb offset (length payload)) then Ok None
          else
            marker ← byte_at payload offset;
            let offset := S offset in
            if marker =? 0 then Ok None
            else if marker =? 216 then jpeg_loop fuel' payload offset
            else if bool_decide (marker ∈ [217; 218]) then Ok None
            else if (marker =? 1) || ((208 <=? marker) && (marker <=? 215)) then jpeg_loop fuel' payload offset
            else if Nat.ltb (length payload) (offset + 2) then Ok None
            else
              let segment_length := be_int (slice payload offset (offset + 2)) in
              if segment_length <? 2 then Ok None
              else
                let segment_end := (offset + Z.to_nat segment_length)%nat in
                if Nat.ltb (length payload) segment_end then Ok None
                else if bool_decide (marker ∈ _JPEG_SOF_MARKERS) then sof_dimensions payload offset segment_length
                else jpeg_loop fuel' payload segment_end
  end.

Definition _jpeg_dimensions (payload : list Z) : result (option (Z * Z)) :=
  if Nat.ltb (length payload) 4 || negb (starts_with payload JPEG_MAGIC) then Ok None
  else jpeg_loop (length payload) payload 2.

(** ** WebP *)
Definition _webp_dimensions (payload : list Z) (file_size : Z) : result (option (Z * Z)) :=
  if Nat.ltb (length payload) 20 || negb (bool_decide (slice payload 0 4 = RIFF)) ||
     negb (bool_decide (slice payload 8 12 = WEBP)) then Ok None
  else
    let riff_size := le_int (slice payload 4 8) in
    if negb (riff_size + 8 =? file_size) then Ok None
    else
      let chunk_type := slice payload 12 16 in
      let chunk_size := le_int (slice payload 16 20) in
      let padded_chunk_size := chunk_size + Z.land chunk_size 1 in
      if file_size <? 20 + padded_chunk_size then Ok None
      else if bool_decide (chunk_type = bytes_of "VP8X") then
        if negb (chunk_size =? 10) || Nat.ltb (length payload) 30 then Ok None
        else Ok (Some (1 + le_int (slice payload 24 27), 1 + le_int (slice payload 27 30)))
      else if bool_decide (chunk_type = bytes_of "VP8L") then
        if (chunk_size <? 5) || Nat.ltb (length payload) 25 then Ok None
        else
          signature ← byte_at payload 20;
          if negb (signature =? 47) then Ok None
          else
            match slice payload 21 25 with
            | [b1; b2; b3; b4] =>
                let width := 1 + b1 + Z.shiftl (Z.land b2 63) 8 in
                let height := 1 + Z.shiftr (Z.land b2 192) 6 + Z.shiftl b3 2 + Z.shiftl (Z.land b4 15) 10 in
                Ok (Some (width, height))
            | _ => Err ValueError
            end
      else if bool_decide (chunk_type = bytes_of "VP8 ") then
        if (chunk_size <? 10) || Nat.ltb (length payload) 30 ||
           negb (bool_decide (slice payload 23 26 = [157; 1; 42])) then Ok None
        else Ok (Some (Z.land (le_int (slice payload 26 28)) 16383, Z.land (le_int (slice payload 28 30)) 16383))
      else Ok None.

(** ** The probe *)
Definition is_webp (payload : list Z) : bool :=
  bool_decide (slice payload 0 4 = RIFF) && bool_decide (slice payload 8 12 = WEBP).

Definition image_dimensions (payload : list Z) : result (option (Z * Z)) :=
  if MAX_IMAGE_BYTES <? zlen payload then Ok None
  else if starts_with payload PNG_MAGIC then _png_dimensions payload
  else if starts_with payload JPEG_MAGIC then _jpeg_dimensions payload
  else if is_webp payload then _webp_dimensions payload (zlen payload)
  else Ok None.

Record image_blob : Type := ImageBlob {
  blob_type : string; blob_width : Z; blob_height : Z; blob_size : Z; blob_sha256 : string
}.

Definition blob_content_type (data : list Z) : option string :=
  if starts_with data PNG_MAGIC then Some "image/png"
  else if starts_with data JPEG_MAGIC then Some "image/jpeg"
  else if is_webp data then Some "image/webp"
  else None.

Definition normalize_image_blob (data : list Z) : result image_blob :=
  raise_if (bool_decide (data = []) || (MAX_IMAGE_BYTES <? zlen data)) AssetProcessingError ;;
  match blob_content_type data with
  | None => Err AssetProcessingError
  | Some content_type =>
      dimensions ← image_dimensions data;
      match dimensions with
      | None => Err AssetProcessingError
      | Some (width, height) =>
          raise_if ((width <=? 0) || (height <=? 0)) AssetProcessingError ;;
          raise_if ((MAX_IMAGE_DIMENSION <? width) || (MAX_IMAGE_DIMENSION <? height)) AssetProcessingError ;;
          raise_if (MAX_IMAGE_PIXELS / height <? width) AssetProcessingError ;;
          Ok (ImageBlob content_type width height (zlen data) (hexdigest (sha256 data)))
      end
  end.

(** ** Variants *)

(** [None], or the elements of a sequence or of a set. *)
Definition normalize_variant_profile_set (profiles : option (list value)) : result (list string) :=
  match profiles with
  | None => Ok SUPPORTED_VARIANT_PROFILES
  | Some profiles =>
      normalized ← foldr (fun p acc => x ← normalize_variant_profile p; xs ← acc; Ok (x :: xs)) (Ok []) profiles;
      let result := List.filter (fun p => bool_decide (p ∈ normalized)) SUPPORTED_VARIANT_PROFILES in
      raise_if (bool_decide (result = [])) AssetProcessingError ;;
      Ok result
  end.

Definition optional_field (key : string) (v : value) (check : value -> bool) (record : dict) : result dict :=
  if is_null v then Ok record
  else raise_if (negb (check v)) AssetProcessingError ;; Ok (<[key := v]> record).

Definition build_variant_record (profile object_key sha256 size_bytes : value) : result dict :=
  normalized_profile ← normalize_variant_profile profile;
  let record := {[ "profile" := VStr normalized_profile ]} in
  record ← optional_field "object_key" object_key
             (fun v => match v with VStr s => negb (str_empty s) | _ => false end) record;
  record ← optional_field "sha256" sha256
             (fun v => match v with VStr s => Nat.eqb (py_len s) 64 && all_hex s | _ => false end) record;
  optional_field "size_bytes" size_bytes (fun v => match v with VInt n => 0 <? n | _ => false end) record.

(** ** Every file gets an answer *)
Definition answered {A} (r : result A) : Prop := exists a, r = Ok a.

Lemma answered_ok {A} (a : A) : answered (Ok a).
Proof. by exists a. Qed.

Lemma byte_at_answered {B} (l : list Z) i (k : Z -> result B) :
  (i < length l)%nat -> (forall z, answered (k z)) -> answered (z ← byte_at l i; k z).
Proof. intros Hi Hk. unfold byte_at. destruct (lookup_lt_is_Some_2 l i Hi) as [z ->]. apply Hk. Qed.

Lemma length_slice l a b : length (slice l a b) = ((b - a) `min` (length l - a))%nat.
Proof. unfold slice. by rewrite length_take, length_drop. Qed.

Lemma skip_fill_le fuel payload offset : (offset <= skip_fill fuel payload offset)%nat.
Proof.
  revert offset. induction fuel as [|fuel IH]; intros offset; cbn [skip_fill]; [done|].
  specialize (IH (S offset)). repeat case_match; lia.
Qed.

Lemma png_answered payload : answered (_png_dimensions payload).
Proof.
  unfold _png_dimensions. destruct (Nat.ltb_spec (length payload) 33) as [|Hl]; [apply answered_ok|]. cbn [orb].
  destruct (negb _); [apply answered_ok|]. destruct (_ || _); [apply answered_ok|]. cbv zeta. destruct (negb _); [apply answered_ok|].
  repeat (apply byte_at_answered; [rewrite length_slice; lia|intros ?]).
  repeat case_match; apply answered_ok.
Qed.

Lemma sof_answered payload offset n :
  (offset + Z.to_nat n <= length payload)%nat -> answered (sof_dimensions payload offset n).
Proof.
  intros Hl. unfold sof_dimensions. destruct (Z.ltb_spec n 11) as [|Hn]; [apply answered_ok|].
  apply byte_at_answered; [lia|intros ?]. cbv zeta. apply byte_at_answered; [lia|intros ?].
  repeat case_match; apply answered_ok.
Qed.

(** The offset grows at every turn, so a turn for each byte is enough. *)
Lemma jpeg_loop_answered fuel payload offset :
  (length payload - offset < fuel)%nat -> answered (jpeg_loop fuel payload offset).
Proof.
  revert offset. induction fuel as [|fuel IH]; intros offset Hf; [lia|]. cbn [jpeg_loop].
  destruct (Nat.ltb_spec offset (length payload)) as [Ho|]; [|apply answered_ok]. cbn [negb].
  apply byte_at_answered; [done|intros first]. destruct (negb _); [apply answered_ok|]. cbv zeta.
  pose proof (skip_fill_le (length payload) payload offset) as Hs.
  set (o := skip_fill _ _ _) in *. clearbody o.
  destruct (Nat.ltb_spec o (length payload)) as [Ho'|]; [|apply answered_ok]. cbn [negb].
  apply byte_at_answered; [done|intros marker].
  destruct (marker =? 0); [apply answered_ok|]. destruct (marker =? 216); [apply IH; lia|].
  destruct (bool_decide _); [apply answered_ok|]. destruct (_ || _); [apply IH; lia|].
  destruct (Nat.ltb _ _); [apply answered_ok|]. set (n := be_int _). clearbody n.
  destruct (Z.ltb_spec n 2) as [|Hn]; [apply answered_ok|].
  destruct (Nat.ltb_spec (length payload) (S o + Z.to_nat n)) as [|He]; [apply answered_ok|].
  destruct (bool_decide _); [by apply sof_answered|apply IH; lia].
Qed.

Lemma webp_answered payload n : answered (_webp_dimensions payload n).
Proof.
  unfold _webp_dimensions. destruct (_ || _); [apply answered_ok|]. cbv zeta.
  destruct (negb _); [apply answered_ok|]. destruct (n <? _); [apply answered_ok|].
  destruct (bool_decide _); [destruct (_ || _); apply answered_ok|].
  destruct (bool_decide _); [|repeat case_match; apply answered_ok].
  destruct (_ <? 5); [apply answered_ok|]. destruct (Nat.ltb_spec (length payload) 25) as [|Hl]; [apply answered_ok|]. cbn [orb].
  apply byte_at_answered; [lia|intros ?]. destruct (negb _); [apply answered_ok|].
  assert (Hs : length (slice payload 21 25) = 4%nat) by (rewrite length_slice; lia). destruct (slice payload 21 25) as [|? [|? [|? [|? [|]]]]]; try discriminate Hs; apply answered_ok.
Qed.

(** The header parser of uploaded images is total: on every file, however broken or
    truncated, [image_dimensions] answers a pair of dimensions or [None]. No index
    is out of range (no [IndexError]), and the loop over the segments of a JPEG
    file ends within one turn for each byte of the file. *)
Theorem image_probe_is_total payload : exists d, image_dimensions payload = Ok d.
Proof.
  change (answered (image_dimensions payload)). unfold image_dimensions.
  destruct (_ <? _); [apply answered_ok|]. destruct (starts_with payload PNG_MAGIC); [apply png_answered|].
  destruct (starts_with payload JPEG_MAGIC).
  { unfold _jpeg_dimensions. destruct (Nat.ltb_spec (length payload) 4) as [|Hl]; [apply answered_ok|]. cbn [orb].
    destruct (negb _); [apply answered_ok|]. apply jpeg_loop_answered. lia. }
  destruct (is_webp payload); [apply webp_answered|apply answered_ok].
Qed.

(** An accepted blob is a file of one of the three image types, by its first bytes, of
    at most 32 MiB; its width and height, those that its own header states, are
    between 1 and 16384 and cover at most 16 Mi pixels; the digest is that of the
    whole file. *)
Theorem accepted_images_are_bounded data blob :
  normalize_image_blob data = Ok blob ->
  Some (blob_type blob) = blob_content_type data /\
  image_dimensions data = Ok (Some (blob_width blob, blob_height blob)) /\
  1 <= blob_width blob <= MAX_IMAGE_DIMENSION /\ 1 <= blob_height blob <= MAX_IMAGE_DIMENSION /\
  blob_width blob * blob_height blob <= MAX_IMAGE_PIXELS /\
  blob_size blob = zlen data /\ 1 <= blob_size blob <= MAX_IMAGE_BYTES /\
  blob_sha256 blob = hexdigest (sha256 data).
Proof.
  unfold normalize_image_blob. intros ([] & [Hd Hs]%raise_if_ok%orb_false_iff & H)%result_bind_ok.
  destruct (blob_content_type data) as [t|] eqn:Et; [|done].
  apply result_bind_ok in H as ([[w h]|] & Hi & H); [|done].
  apply result_bind_ok in H as ([] & [Hw Hh]%raise_if_ok%orb_false_iff & H).
  apply result_bind_ok in H as ([] & [Hw' Hh']%raise_if_ok%orb_false_iff & H).
  apply result_bind_ok in H as ([] & Hp%raise_if_ok & [= <-]). cbn.
  apply bool_decide_eq_false in Hd. rewrite Hi. unfold zlen in *.
  assert (length data <> 0%nat) by (by destruct data).
  assert (w <= MAX_IMAGE_PIXELS / h) by lia.
  assert (w * h <= MAX_IMAGE_PIXELS).
  { pose proof (Z.mul_div_le MAX_IMAGE_PIXELS h). nia. }
  repeat split; lia || done.
Qed.

(** ** The dimensions of a JPEG file are those of its first frame header *)

(** A segment: a marker that stands for neither a frame, nor a restart, nor an end,
    and its body. *)
Definition plain_marker (m : Z) : bool :=
  (1 <? m) && (m <? 255) && negb ((208 <=? m) && (m <=? 218)) && negb (bool_decide (m ∈ _JPEG_SOF_MARKERS)).

Definition two_bytes (n : Z) : list Z := [n / 256; n mod 256].

Definition segment_bytes (s : nat * Z * list Z) : list Z :=
  let '(fill, marker, body) := s in
  replicate (S fill) 255 ++ marker :: two_bytes (2 + zlen body) ++ body.

Definition segment_fits (s : nat * Z * list Z) : Prop :=
  plain_marker s.1.2 = true /\ zlen s.2 <= 65533.

(** The frame header: precision, height, width and the components. *)
Definition frame_bytes (marker precision w h : Z) (components : list Z) : list Z :=
  255 :: marker :: two_bytes (8 + zlen components) ++
    precision :: two_bytes h ++ two_bytes w ++ (zlen components / 3) :: components.

Lemma be_int_two n : be_int (two_bytes n) = n.
Proof. cbn. pose proof (Z.div_mod n 256). lia. Qed.

Lemma skip_fill_app pre fill m rest fuel :
  (S fill <= fuel)%nat -> m <> 255 ->
  skip_fill fuel (pre ++ replicate fill 255 ++ m :: rest) (length pre) = (length pre + fill)%nat.
Proof.
  revert pre fill. induction fuel as [|fuel IH]; intros pre fill Hf Hm; [lia|]. cbn [skip_fill].
  rewrite lookup_app_r, Nat.sub_diag by lia. destruct fill as [|fill]; cbn [replicate app].
  - cbn [lookup list_lookup]. repeat case_match; lia || congruence.
  - cbn [lookup list_lookup].
    replace (pre ++ 255 :: replicate fill 255 ++ m :: rest)
      with ((pre ++ [255]) ++ replicate fill 255 ++ m :: rest) by (by rewrite <- app_assoc).
    replace (S (length pre)) with (length (pre ++ [255])) by (rewrite length_app; cbn; lia).
    rewrite IH by (done || lia). rewrite length_app. cbn. lia.
Qed.

Lemma slice_app (pre l rest : list Z) n :
  n = length l -> slice (pre ++ l ++ rest) (length pre) (length pre + n) = l.
Proof.
  intros ->. unfold slice. rewrite drop_app_length. replace (_ + _ - _)%nat with (length l) by lia.
  apply take_app_length.
Qed.

Lemma plain_marker_spec m : plain_marker m = true ->
  1 < m < 255 /\ ~ (208 <= m <= 218) /\ m ∉ _JPEG_SOF_MARKERS.
Proof. unfold plain_marker. intros H. split_bools. split; [lia|]. split; [lia|done]. Qed.

(** One turn over a marker that has a segment. *)
Lemma jpeg_turn fuel pre fill m n body rest :
  1 < m < 255 -> ~ (208 <= m <= 218) -> n = 2 + zlen body ->
  jpeg_loop (S fuel) (pre ++ replicate (S fill) 255 ++ m :: two_bytes n ++ body ++ rest) (length pre) =
  let payload := pre ++ replicate (S fill) 255 ++ m :: two_bytes n ++ body ++ rest in
  let offset := (length pre + S (S fill))%nat in
  if bool_decide (m ∈ _JPEG_SOF_MARKERS) then sof_dimensions payload offset n
  else jpeg_loop fuel payload (offset + Z.to_nat n).
Proof.
  intros Hm Hr Hn. cbv zeta. set (payload := pre ++ _).
  assert (Hlen : length payload = (length pre + S fill + 1 + 2 + length body + length rest)%nat).
  { unfold payload. rewrite !length_app, length_replicate. cbn. rewrite length_app. lia. }
  cbn [jpeg_loop]. rewrite (proj2 (Nat.ltb_lt _ _)) by lia. cbn [negb].
  assert (E1 : byte_at payload (length pre) = Ok 255).
  { unfold byte_at, payload. by rewrite lookup_app_r, Nat.sub_diag by lia. }
  rewrite E1. cbn [mbind result_bind]. rewrite Z.eqb_refl. cbn [negb]. cbv zeta.
  assert (E2 : skip_fill (length payload) payload (length pre) = (length pre + S fill)%nat).
  { apply skip_fill_app; lia. }
  rewrite E2, (proj2 (Nat.ltb_lt _ _)) by lia. cbn [negb].
  assert (E3 : byte_at payload (length pre + S fill) = Ok m).
  { unfold byte_at, payload. rewrite lookup_app_r by lia. replace (_ + _ - _)%nat with (S fill) by lia.
    rewrite lookup_app_r by (rewrite length_replicate; lia). by rewrite length_replicate, Nat.sub_diag. }
  rewrite E3. cbn [mbind result_bind].
  rewrite (proj2 (Z.eqb_neq m 0)), (proj2 (Z.eqb_neq m 216)) by lia.
  rewrite bool_decide_eq_false_2.
  2: { intros H. apply elem_of_cons in H as [->|H]; [lia|]. apply list_elem_of_singleton in H. lia. }
  rewrite (proj2 (Z.eqb_neq m 1)) by lia.
  assert ((208 <=? m) && (m <=? 215) = false) as -> by lia. cbn [orb].
  rewrite (proj2 (Nat.ltb_ge _ _)) by lia.
  assert (E4 : slice payload (S (length pre + S fill)) (S (length pre + S fill) + 2) = two_bytes n).
  { pose proof (slice_app (pre ++ replicate (S fill) 255 ++ [m]) (two_bytes n) (body ++ rest) 2 eq_refl) as H.
    rewrite !length_app, length_replicate in H. cbn [length] in H.
    replace (length pre + (S fill + 1))%nat with (S (length pre + S fill)) in H by lia.
    rewrite <- H. f_equal. unfold payload. by rewrite <- !app_assoc. }
  rewrite E4, be_int_two. rewrite (proj2 (Z.ltb_ge _ _)) by (unfold zlen in *; lia).
  rewrite (proj2 (Nat.ltb_ge _ _)) by (unfold zlen in *; lia).
  replace (S (length pre + S fill)) with (length pre + S (S fill))%nat by lia. done.
Qed.

Lemma byte_at_app (pre l : list Z) i : byte_at (pre ++ l) (length pre + i) = byte_at l i.
Proof. unfold byte_at. rewrite lookup_app_r by lia. by replace (_ + _ - _)%nat with i by lia. Qed.

Lemma slice_shift (pre l : list Z) a b : slice (pre ++ l) (length pre + a) (length pre + b) = slice l a b.
Proof. unfold slice. rewrite <- drop_drop, drop_app_length. f_equal. lia. Qed.

Section frame.
Context (marker precision w h : Z) (components rest : list Z).
Hypotheses (Hmarker : marker ∈ _JPEG_SOF_MARKERS) (Hp : 1 <= precision <= 16)
  (Hc : exists n, 1 <= n /\ zlen components = 3 * n).
Let frame := frame_bytes marker precision w h components.

Lemma frame_dimensions pre :
  sof_dimensions (pre ++ frame ++ rest) (length pre + 2) (8 + zlen components) = Ok (Some (w, h)).
Proof using Hp Hc.
  destruct Hc as (n & Hn & En). unfold sof_dimensions, frame. rewrite (proj2 (Z.ltb_ge _ _)) by lia.
  rewrite <- !Nat.add_assoc, !byte_at_app, !slice_shift. cbn.
  rewrite En, Z.mul_comm, Z.div_mul by lia.
  rewrite (proj2 (Z.leb_gt precision 0)), (proj2 (Z.ltb_ge 16 precision)), (proj2 (Z.leb_gt n 0)) by lia. cbn.
  rewrite (proj2 (Z.eqb_eq _ _)) by lia. cbn. do 3 f_equal.
  - pose proof (Z.div_mod w 256). lia.
  - pose proof (Z.div_mod h 256). lia.
Qed.

Lemma sof_marker : 1 < marker < 255 /\ ~ (208 <= marker <= 218).
Proof using Hmarker.
  clear - Hmarker. unfold _JPEG_SOF_MARKERS in Hmarker.
  repeat (apply elem_of_cons in Hmarker as [->|Hmarker]; [lia|]). by apply elem_of_nil in Hmarker.
Qed.

Lemma segments_skipped segments pre fuel :
  Forall segment_fits segments -> (length segments < fuel)%nat ->
  jpeg_loop fuel (pre ++ (segments ≫= segment_bytes) ++ frame ++ rest) (length pre) = Ok (Some (w, h)).
Proof using Hmarker Hp Hc.
  revert pre fuel. induction segments as [|[[fill m] body] segments IH]; intros pre [|fuel] Hs Hf; cbn in Hf; try lia.
  - change ([] ≫= segment_bytes) with (@nil Z). cbn [app]. destruct sof_marker as [H1 H2].
    pose proof (frame_dimensions pre) as Hd.
    pose proof (jpeg_turn fuel pre 0 marker (8 + zlen components)
      (precision :: two_bytes h ++ two_bytes w ++ (zlen components / 3) :: components) rest H1 H2) as Ht.
    cbv zeta in Ht. rewrite (bool_decide_eq_true_2 _ Hmarker) in Ht.
    exact (eq_trans (Ht ltac:(unfold zlen; cbn; lia)) Hd).
  - apply Forall_cons in Hs as [[Hm Hb] Hs]. cbn in Hm, Hb. apply plain_marker_spec in Hm as (H1 & H2 & H3).
    pose proof (jpeg_turn fuel pre fill m (2 + zlen body) body ((segments ≫= segment_bytes) ++ frame ++ rest) H1 H2 eq_refl) as Ht.
    cbv zeta in Ht. rewrite (bool_decide_eq_false_2 _ H3) in Ht.
    specialize (IH (pre ++ segment_bytes (fill, m, body)) fuel Hs ltac:(lia)).
    cbn [mbind list_bind]. unfold segment_bytes in IH |- * at 1.
    rewrite <- !app_assoc in IH |- *. cbn [app] in *. rewrite <- !app_assoc in *. rewrite Ht, <- IH. f_equal.
    rewrite !length_app. cbn. rewrite length_replicate. unfold zlen. lia.
Qed.
End frame.

(** The dimensions found in a JPEG file are those of its first frame header: after the
    magic number and any sequence of other segments (with any number of fill bytes
    before their markers), the height and the width of the first frame header are
    read back, whatever follows it, for every frame type, for every sample precision from
    1 to 16 bits and every number of components. *)
Theorem jpeg_header_is_found segments marker precision w h components rest :
  Forall segment_fits segments -> marker ∈ _JPEG_SOF_MARKERS ->
  1 <= precision <= 16 -> (exists n, 1 <= n /\ zlen components = 3 * n) ->
  zlen (JPEG_MAGIC ++ (segments ≫= segment_bytes) ++ frame_bytes marker precision w h components ++ rest) <= MAX_IMAGE_BYTES ->
  image_dimensions (JPEG_MAGIC ++ (segments ≫= segment_bytes) ++ frame_bytes marker precision w h components ++ rest)
    = Ok (Some (w, h)).
Proof.
  intros Hsegs Hmarker Hp Hc Hsize. unfold image_dimensions. rewrite (proj2 (Z.ltb_ge _ _)) by exact Hsize.
  change (starts_with (JPEG_MAGIC ++ ?l) PNG_MAGIC) with false.
  change (starts_with (JPEG_MAGIC ++ ?l) JPEG_MAGIC) with true. cbv iota. unfold _jpeg_dimensions.
  change (starts_with (JPEG_MAGIC ++ ?l) JPEG_MAGIC) with true.
  assert (Hb : (length segments <= length (segments ≫= segment_bytes))%nat).
  { clear. induction segments as [|[[fill m] body] l IH]; [done|]. cbn [mbind list_bind].
    rewrite length_app. cbn in *. lia. }
  rewrite (proj2 (Nat.ltb_ge _ _)) by (rewrite !length_app; cbn; lia). cbn [negb orb].
  apply (segments_skipped marker precision w h components rest Hmarker Hp Hc segments JPEG_MAGIC); [done|].
  rewrite !length_app. cbn. lia.
Qed.

(** A picture as an encoder writes it: an application segment, a quantisation table
    and a frame of three components. *)
Definition demo_jpeg (w h : Z) : list Z :=
  JPEG_MAGIC ++ ([(0%nat, 224, bytes_of "JFIF"); (2%nat, 219, replicate 5 1)] ≫= segment_bytes) ++
  frame_bytes 192 8 w h (replicate 9 17) ++ [255; 218].

Lemma jpeg_header_is_found_witness :
  Forall segment_fits [(0%nat, 224, bytes_of "JFIF"); (2%nat, 219, replicate 5 1)] /\
  image_dimensions (demo_jpeg 1280 720) = Ok (Some (1280, 720)).
Proof.
  split.
  - repeat constructor; vm_compute; reflexivity || discriminate.
  - apply jpeg_header_is_found.
    + repeat constructor; vm_compute; reflexivity || discriminate.
    + by left.
    + lia.
    + exists 3. vm_compute. split; [discriminate|reflexivity].
    + vm_compute. discriminate.
Defined.

Lemma accepted_images_are_bounded_witness :
  exists blob, normalize_image_blob (demo_jpeg 1280 720) = Ok blob /\
    1 <= blob_width blob <= MAX_IMAGE_DIMENSION /\ blob_width blob * blob_height blob <= MAX_IMAGE_PIXELS.
Proof.
  assert (H : exists blob, normalize_image_blob (demo_jpeg 1280 720) = Ok blob)
    by (eexists; vm_compute; reflexivity).
  destruct H as [blob H]. exists blob. split; [exact H|].
  destruct (accepted_images_are_bounded _ _ H) as (_ & _ & H1 & _ & H2 & _). split; assumption.
Defined.

(** Files at the edges: an image of 16384 by 1025 has too many pixels, one of 16384 by
    1024 has not, and a truncated one has no dimensions. *)
Example image_bounds :
  (is_ok (normalize_image_blob (demo_jpeg 16384 1024)), is_ok (normalize_image_blob (demo_jpeg 16384 1025)),
   is_ok (normalize_image_blob (demo_jpeg 16385 1)), is_ok (normalize_image_blob (take 30 (demo_jpeg 16 16)))) =
  (true, false, false, false).
Proof. vm_compute. reflexivity. Qed.

(** A PNG header with its checksum, and the same with one bit of it changed. *)
Example png_header :
  let ihdr := [0; 0; 5; 0; 0; 0; 2; 208; 8; 6; 0; 0; 0] in
  let crc := crc32 (IHDR ++ ihdr) in
  let file c := PNG_MAGIC ++ [0; 0; 0; 13] ++ IHDR ++ ihdr ++ be_bytes 4 c in
  (image_dimensions (file crc), image_dimensions (file (Z.lxor crc 1))) = (Ok (Some (1280, 720)), Ok None).
Proof. vm_compute. reflexivity. Qed.
