(* ===== verification/Catalog.v ===== *)
(** * Destinations and standby assets

    [apps/control-api/catalog_store.py]: the destinations and the standby assets of
    all owners, in one file under the protocol of StateFile.v. Every operation is one
    locked read or one locked read and write, but [verify_destination], which
    releases the lock while it probes the network. The probe is an argument of it, as
    in the code, and may leave any state behind: what other requests did meanwhile. *)

From S2P Require Import Prelude PyFloat Sha256 PyValue Json Effects Authority PyText Uuid IpAddress Url UrlSafety StateFile AssetUpload ImageProbe.

Definition _default_catalog : dict := list_to_map [("destinations", VDict ∅); ("assets", VDict ∅)].

(** ** Checks of one field *)
Definition _require_catalog_string (item : dict) (field : string) : result string :=
  match py_get item field with
  | VStr s => if str_empty s then Err CatalogStateError else Ok s
  | _ => Err CatalogStateError
  end.

Definition _validate_catalog_optional_bool (item : dict) (field : string) : result unit :=
  match item !! field with
  | None | Some (VBool _) => Ok tt
  | _ => Err CatalogStateError
  end.

Definition catalog_timestamp (v : value) : result float :=
  match nonneg_number v with Some f => Ok f | None => Err CatalogStateError end.

Definition _require_catalog_timestamp (item : dict) (field : string) : result float :=
  catalog_timestamp (py_get item field).

Definition _validated_catalog_now : FM float := now ← time_time; lift (catalog_timestamp (VFloat now)).

Definition _require_catalog_optional_timestamp (item : dict) (field : string) : result (option float) :=
  match item !! field with
  | None => Err CatalogStateError
  | Some VNull => Ok None
  | Some v => f ← catalog_timestamp v; Ok (Some f)
  end.

Definition _validate_catalog_optional_string (item : dict) (field : string) : result unit :=
  match item !! field with
  | None | Some VNull | Some (VStr _) => Ok tt
  | _ => Err CatalogStateError
  end.

Definition _validate_catalog_optional_int (item : dict) (field : string) (minimum maximum : Z) : result unit :=
  match item !! field with
  | None | Some VNull => Ok tt
  | Some (VInt n) => raise_if ((n <? minimum) || (maximum <? n)) CatalogStateError
  | _ => Err CatalogStateError
  end.

Definition _validate_catalog_optional_sha256 (item : dict) (field : string) : result unit :=
  match item !! field with
  | None | Some VNull => Ok tt
  | Some (VStr s) => raise_if (negb (Nat.eqb (py_len s) 64) || negb (all_hex s)) CatalogStateError
  | _ => Err CatalogStateError
  end.

Definition _validate_catalog_optional_timestamp_if_present (item : dict) (field : string) : result unit :=
  match item !! field with
  | None | Some VNull => Ok tt
  | Some v => catalog_timestamp v ;; Ok tt
  end.

Definition _validate_catalog_optional_dict (item : dict) (field : string) : result unit :=
  match item !! field with
  | None | Some VNull | Some (VDict _) => Ok tt
  | _ => Err CatalogStateError
  end.

Definition _validate_catalog_identity (item_id : string) (item : dict) : result unit :=
  stored_id ← _require_catalog_string item "id";
  _require_catalog_string item "user_id" ;;
  raise_if (negb (String.eqb stored_id item_id)) CatalogStateError.

(** One turn of the loop over the assets. *)
Definition validate_catalog_asset (asset_id : string) (v : value) : result unit :=
  match v with
  | VDict item =>
      raise_if (str_empty asset_id) CatalogStateError ;;
      _validate_catalog_identity asset_id item ;;
      _require_catalog_string item "source_object_key" ;;
      _require_catalog_string item "processing_status" ;;
      _require_catalog_timestamp item "created_at" ;;
      _require_catalog_timestamp item "updated_at" ;;
      _validate_catalog_optional_string item "content_type" ;;
      _validate_catalog_optional_int item "max_bytes" 1 MAX_UPLOAD_BYTES ;;
      _validate_catalog_optional_int item "uploaded_size_bytes" 1 MAX_UPLOAD_BYTES ;;
      _validate_catalog_optional_sha256 item "uploaded_sha256" ;;
      _validate_catalog_optional_sha256 item "processed_sha256" ;;
      _validate_catalog_optional_int item "processed_width" 1 MAX_IMAGE_DIMENSION ;;
      _validate_catalog_optional_int item "processed_height" 1 MAX_IMAGE_DIMENSION ;;
      _validate_catalog_optional_string item "failure_reason" ;;
      _validate_catalog_optional_dict item "variants" ;;
      _validate_catalog_optional_timestamp_if_present item "ready_at"
  | _ => Err CatalogStateError
  end.

(** ** Records *)

(** [catalog[kind][item_id] = item] and [del catalog[kind][item_id]] *)
Definition put_item (catalog : dict) (kind item_id : string) (item : dict) : dict :=
  <[kind := VDict (<[item_id := VDict item]> (dict_field catalog kind))]> catalog.
Definition del_item (catalog : dict) (kind item_id : string) : dict :=
  <[kind := VDict (delete item_id (dict_field catalog kind))]> catalog.

Definition owned_by (user_id : string) (item : dict) : bool := py_eq (py_get item "user_id") (VStr user_id).

Definition _get_owned (catalog : dict) (kind item_id user_id : string) : result dict :=
  match py_get (dict_field catalog kind) item_id with
  | VDict item => if owned_by user_id item then Ok item else Err CatalogNotFound
  | _ => Err CatalogNotFound
  end.

(** The items of an owner, in the order of the file. *)
Definition list_owned (catalog : dict) (kind user_id : string) : list dict :=
  List.filter (owned_by user_id) (omap (fun p => as_dict p.2) (sorted_records (dict_field catalog kind))).

Definition new_destination (item_id user_id type display_name server_url secret_ref : string) (now : float) : dict :=
  list_to_map
    [("id", VStr item_id); ("user_id", VStr user_id); ("type", VStr type);
     ("display_name", VStr display_name); ("server_url", VStr server_url); ("secret_ref", VStr secret_ref);
     ("enabled", VBool true); ("verification_status", VStr "UNVERIFIED"); ("last_verified_at", VNull);
     ("last_verification_error", VNull); ("verification_transport", VNull);
     ("created_at", VFloat now); ("updated_at", VFloat now)].

(** [if x is not None: item[field] = x] *)
Definition set_given (field : string) (x : option value) (item : dict) : dict :=
  match x with Some v => <[field := v]> item | None => item end.

Definition unverified (item : dict) : dict :=
  <["verification_transport" := VNull]> (<["last_verification_error" := VNull]>
    (<["last_verified_at" := VNull]> (<["verification_status" := VStr "UNVERIFIED"]> item))).

Definition updated_destination (item : dict) (display_name server_url secret_ref : option string)
    (enabled : option bool) (now : float) : dict :=
  let item := set_given "display_name" (VStr <$> display_name) item in
  let item := match server_url with
              | Some url =>
                  let item := if negb (py_eq (py_get item "server_url") (VStr url)) then unverified item else item in
                  <["server_url" := VStr url]> item
              | None => item
              end in
  let item := set_given "secret_ref" (VStr <$> secret_ref) item in
  let item := set_given "enabled" (VBool <$> enabled) item in
  <["updated_at" := VFloat now]> item.

Definition transport_of (result : dict) : dict :=
  list_to_map
    [("protocol", py_get result "protocol"); ("peer_ip", py_get result "peer_ip");
     ("peer_port", py_get result "peer_port"); ("elapsed_ms", py_get result "elapsed_ms")].

Definition verified_destination (item result : dict) (now : float) : dict :=
  <["updated_at" := VFloat now]> (<["verification_transport" := VDict (transport_of result)]>
    (<["last_verification_error" := VNull]> (<["last_verified_at" := VFloat now]>
      (<["verification_status" := VStr "VERIFIED"]> item)))).

Definition failed_destination (item : dict) (reason : string) (now : float) : dict :=
  <["updated_at" := VFloat now]> (<["verification_transport" := VNull]>
    (<["last_verification_error" := VStr (py_take 200 reason)]>
      (<["verification_status" := VStr "FAILED"]> item))).

Definition new_asset (asset_id user_id source_object_key status : string) (now : float) : dict :=
  list_to_map
    [("id", VStr asset_id); ("user_id", VStr user_id); ("source_object_key", VStr source_object_key);
     ("processing_status", VStr status); ("created_at", VFloat now); ("updated_at", VFloat now)].

Definition upload_intent (asset_id user_id key content_type : string) (now : float) : dict :=
  <["content_type" := VStr content_type]> (<["max_bytes" := VInt MAX_UPLOAD_BYTES]>
    (new_asset asset_id user_id key "UPLOADING" now)).

Definition uploaded_asset (asset : dict) (completion : upload_completion) (now : float) : dict :=
  <["updated_at" := VFloat now]> (<["uploaded_sha256" := VStr (completion_sha256 completion)]>
    (<["uploaded_size_bytes" := VInt (completion_size completion)]>
      (<["processing_status" := VStr "PROCESSING"]> asset))).

Definition failed_asset (asset : dict) (reason : string) (now : float) : dict :=
  <["updated_at" := VFloat now]> (<["failure_reason" := VStr (py_take 500 (py_strip reason))]>
    (<["processing_status" := VStr "FAILED"]> asset)).

(** What a probe that returns gives; another exception of it is an error of the
    monad. *)
Inductive probe_outcome : Type :=
| Probed (result : dict)
| Rejected (reason : string).          (* DestinationProbeError *)

(** The text of a field that is a string after validation. *)
Definition text_field (item : dict) (field : string) : string :=
  match py_get item field with VStr s => s | _ => EmptyString end.

(** [str(result.get("protocol", ""))]: exact for a string, for [None], the booleans
    and the floats that are no numbers; the text of another number or of a container
    is the name of no scheme, and is left empty. *)
Definition protocol_text (result : dict) : string :=
  match py_get_or result "protocol" (VStr EmptyString) with
  | VFloat S754_nan => "nan"
  | VFloat (S754_infinity false) => "inf"
  | v => name_text v
  end.

Definition opt_given (v : value) (check : value -> bool) : result unit :=
  if is_null v then Ok tt else raise_if (negb (check v)) CatalogValidationError.

Definition given_text (v : value) : bool := match v with VStr s => negb (str_empty (py_strip s)) | _ => false end.
Definition given_sha256 (v : value) : bool :=
  match v with VStr s => Nat.eqb (py_len s) 64 && all_hex s | _ => false end.
Definition given_dimension (v : value) : bool :=
  match v with VInt n => (1 <=? n) && (n <=? MAX_IMAGE_DIMENSION) | _ => false end.

(** [except (AssetUploadIntentError, ...) as exc: raise CatalogValidationError(...)] *)
Definition asset_errors {A} (m : FM A) : FM A :=
  catch m (fun e => match e with
                    | AssetUploadIntentError | AssetProcessingError => raise CatalogValidationError
                    | _ => raise e
                    end).

Section catalog.
Context (nfkc : string -> string).

Definition _validate_destination_server_url (server_url : string) : result unit :=
  match validate_destination_url_secret_safety nfkc server_url with
  | Err DestinationUrlSafetyError => Err CatalogValidationError
  | r => r
  end.

(** One turn of the loop over the destinations. *)
Definition validate_catalog_destination (destination_id : string) (v : value) : result unit :=
  match v with
  | VDict item =>
      raise_if (str_empty destination_id) CatalogStateError ;;
      _validate_catalog_identity destination_id item ;;
      _require_catalog_string item "type" ;;
      _require_catalog_string item "display_name" ;;
      server_url ← _require_catalog_string item "server_url";
      _require_catalog_string item "secret_ref" ;;
      match _validate_destination_server_url server_url with
      | Err CatalogValidationError => Err CatalogStateError
      | r => r
      end ;;
      _require_catalog_timestamp item "created_at" ;;
      _require_catalog_timestamp item "updated_at" ;;
      _validate_catalog_optional_bool item "enabled" ;;
      _require_catalog_string item "verification_status" ;;
      _require_catalog_optional_timestamp item "last_verified_at" ;;
      _validate_catalog_optional_string item "last_verification_error" ;;
      _validate_catalog_optional_dict item "verification_transport"
  | _ => Err CatalogStateError
  end.

Definition _validate_catalog_authority (catalog : dict) : result unit :=
  match py_get catalog "destinations", py_get catalog "assets" with
  | VDict destinations, VDict assets =>
      check_all validate_catalog_destination destinations ;;
      check_all validate_catalog_asset assets
  | _, _ => Err CatalogStateError
  end.

Definition catalog_format : StateFormat :=
  {| sf_error := CatalogStateError; sf_default := _default_catalog; sf_validate := _validate_catalog_authority |}.

Definition _catalog_lock {A} (body : FM A) : FM A := @state_lock catalog_format A body.
Definition _load : FM dict := @read_valid catalog_format.
Definition _save (catalog : dict) : FM unit :=
  lift (_validate_catalog_authority catalog) ;; @atomic_write_json catalog_format catalog.

Definition ensure_catalog : FM unit := _catalog_lock (io id ;; @ensure_file catalog_format).

(** ** Destinations *)
Definition create_destination (user_id type display_name server_url secret_ref : string) : FM dict :=
  lift (_validate_destination_server_url server_url) ;;
  _catalog_lock (
    catalog ← _load;
    now ← _validated_catalog_now;
    item_id ← uuid4;
    let item := new_destination item_id user_id type display_name server_url secret_ref now in
    _save (put_item catalog "destinations" item_id item) ;;
    mret item).

Definition list_destinations (user_id : string) : FM (list dict) :=
  _catalog_lock (catalog ← _load; mret (list_owned catalog "destinations" user_id)).

Definition get_destination (destination_id user_id : string) : FM dict :=
  _catalog_lock (catalog ← _load; lift (_get_owned catalog "destinations" destination_id user_id)).

Definition update_destination (destination_id user_id : string) (display_name server_url secret_ref : option string)
    (enabled : option bool) : FM dict :=
  match server_url with Some url => lift (_validate_destination_server_url url) | None => mret tt end ;;
  _catalog_lock (
    catalog ← _load;
    item ← lift (_get_owned catalog "destinations" destination_id user_id);
    now ← _validated_catalog_now;
    let item := updated_destination item display_name server_url secret_ref enabled now in
    _save (put_item catalog "destinations" destination_id item) ;;
    mret item).

Definition delete_destination (destination_id user_id : string) : FM unit :=
  _catalog_lock (
    catalog ← _load;
    lift (_get_owned catalog "destinations" destination_id user_id) ;;
    _save (del_item catalog "destinations" destination_id)).

Definition _record_verification_failure (destination_id user_id expected_url reason : string) : FM unit :=
  _catalog_lock (
    catalog ← _load;
    item ← lift (_get_owned catalog "destinations" destination_id user_id);
    if negb (py_eq (py_get item "server_url") (VStr expected_url)) then mret tt
    else
      now ← _validated_catalog_now;
      _save (put_item catalog "destinations" destination_id (failed_destination item reason now))).

(** The first and the last locked phase of a verification. *)
Definition verification_target (destination_id user_id : string) : FM (string * string) :=
  _catalog_lock (
    catalog ← _load;
    item ← lift (_get_owned catalog "destinations" destination_id user_id);
    mret (text_field item "server_url", py_lower (text_field item "type"))).

Definition record_verified (destination_id user_id url : string) (result : dict) : FM dict :=
  _catalog_lock (
    catalog ← _load;
    current ← lift (_get_owned catalog "destinations" destination_id user_id);
    guard_err (negb (py_eq (py_get current "server_url") (VStr url))) CatalogVerifyFailed ;;
    now ← _validated_catalog_now;
    let current := verified_destination current result now in
    _save (put_item catalog "destinations" destination_id current) ;;
    mret current).

Definition verify_destination (probe : string -> FM probe_outcome) (destination_id user_id : string) : FM dict :=
  '(url, destination_type) ← verification_target destination_id user_id;
  let fail reason := _record_verification_failure destination_id user_id url reason ;; raise CatalogVerifyFailed in
  url_scheme ← lift (match urlsplit nfkc url with Some u => Ok (py_lower (scheme u)) | None => Err ValueError end);
  if negb (String.eqb url_scheme destination_type)
  then fail "destination type does not match server URL scheme"
  else
    outcome ← catch (o ← probe url; mret (Some o)) (fun _ => mret None);
    match outcome with
    | Some (Rejected reason) => fail reason
    | None => fail "destination verification failed"
    | Some (Probed result) =>
        if negb (String.eqb (py_lower (protocol_text result)) destination_type)
        then fail "destination probe protocol does not match destination type"
        else record_verified destination_id user_id url result
    end.

(** ** Assets *)
Definition create_asset (user_id source_object_key : string) : FM dict :=
  _catalog_lock (
    catalog ← _load;
    now ← _validated_catalog_now;
    asset_id ← uuid4;
    let item := new_asset asset_id user_id source_object_key "PENDING" now in
    _save (put_item catalog "assets" asset_id item) ;;
    mret item).

Definition list_assets (user_id : string) : FM (list dict) :=
  _catalog_lock (catalog ← _load; mret (list_owned catalog "assets" user_id)).

Definition get_asset (asset_id user_id : string) : FM dict :=
  _catalog_lock (catalog ← _load; lift (_get_owned catalog "assets" asset_id user_id)).

Definition delete_asset (asset_id user_id : string) : FM unit :=
  _catalog_lock (
    catalog ← _load;
    lift (_get_owned catalog "assets" asset_id user_id) ;;
    _save (del_item catalog "assets" asset_id)).

Definition create_asset_upload_intent (user_id : string) (content_type : value) : FM dict :=
  asset_errors (
    normalized_type ← lift (normalize_image_content_type content_type);
    _catalog_lock (
      catalog ← _load;
      now ← _validated_catalog_now;
      asset_id ← uuid4;
      key ← lift (source_object_key (VStr user_id) (VStr asset_id));
      let item := upload_intent asset_id user_id key normalized_type now in
      _save (put_item catalog "assets" asset_id item) ;;
      mret item)).

Definition complete_asset_upload (asset_id user_id : string) (content_type object_key size_bytes sha256 : value)
    : FM dict :=
  asset_errors (
    normalized_type ← lift (normalize_image_content_type content_type);
    _catalog_lock (
      catalog ← _load;
      asset ← lift (_get_owned catalog "assets" asset_id user_id);
      guard_err (negb (py_eq (py_get asset "processing_status") (VStr "UPLOADING"))) CatalogValidationError ;;
      guard_err (negb (py_eq (py_get asset "content_type") (VStr normalized_type))) CatalogValidationError ;;
      completion ← lift (validate_upload_completion (VStr user_id) (VStr asset_id) (VStr normalized_type)
                           object_key size_bytes sha256);
      guard_err (negb (is_owner_bound_source_object_key (VStr user_id) (VStr asset_id)
                         (py_get asset "source_object_key"))) CatalogValidationError ;;
      now ← _validated_catalog_now;
      let asset := uploaded_asset asset completion now in
      _save (put_item catalog "assets" asset_id asset) ;;
      mret asset)).

(** The promotion to [READY] is behind an unconditional [raise]. *)
Definition complete_asset_processing (asset_id user_id : string)
    (processed_sha256 processed_width processed_height failure_reason : value) : FM dict :=
  asset_errors (
    lift (opt_given failure_reason given_text) ;;
    lift (opt_given processed_sha256 given_sha256) ;;
    lift (opt_given processed_width given_dimension) ;;
    lift (opt_given processed_height given_dimension) ;;
    _catalog_lock (
      catalog ← _load;
      asset ← lift (_get_owned catalog "assets" asset_id user_id);
      guard_err (negb (py_eq (py_get asset "processing_status") (VStr "PROCESSING"))) CatalogValidationError ;;
      now ← _validated_catalog_now;
      match failure_reason with
      | VStr reason =>
          let asset := failed_asset asset reason now in
          _save (put_item catalog "assets" asset_id asset) ;;
          mret asset
      | _ => raise CatalogValidationError
      end)).

Definition fail_asset_processing (asset_id user_id reason : string) : FM dict :=
  complete_asset_processing asset_id user_id VNull VNull VNull (VStr reason).
End catalog.
