(* ===== verification/CatalogTheorems.v ===== *)
(** * Destinations and assets: theorems

    Every operation on the catalog is a sequence of edits of single records
    ([item_step]), whatever fails on the way; the theorems follow from what the
    edits do. *)

From S2P Require Import Prelude PyFloat Sha256 PyValue Json Effects Authority PyText TextFacts Uuid IpAddress Url UrlSafety StateFile AssetUpload ImageProbe Catalog.

(** ** Edits of the catalog *)
Section edits.
Context (nfkc : string -> string).

(** Who acts; which identifiers may be drawn; what the probes have answered. *)
Context (who : string -> Prop) (drawn : string -> Prop) (answered : string -> dict -> Prop).

Definition url_scheme (url : string) : option string := (fun u => py_lower (scheme u)) <$> urlsplit nfkc url.

(** The protocol that was probed is the scheme of the URL. *)
Definition probe_matches (url : string) (result : dict) : Prop :=
  answered url result /\ url_scheme url = Some (py_lower (protocol_text result)).

(** The record [id] of [kind] before and after one edit. *)
Inductive item_step : string -> string -> option value -> option value -> Prop :=
| step_create_destination u id old type name url ref now :
    who u -> drawn id -> _validate_destination_server_url nfkc url = Ok tt ->
    item_step "destinations" id old (Some (VDict (new_destination id u type name url ref now)))
| step_update_destination u id item name url ref enabled now :
    who u -> owned_by u item = true ->
    item_step "destinations" id (Some (VDict item)) (Some (VDict (updated_destination item name url ref enabled now)))
| step_verify u id item result url now :
    who u -> owned_by u item = true -> py_get item "server_url" = VStr url -> probe_matches url result ->
    item_step "destinations" id (Some (VDict item)) (Some (VDict (verified_destination item result now)))
| step_verification_failed u id item reason now :
    who u -> owned_by u item = true ->
    item_step "destinations" id (Some (VDict item)) (Some (VDict (failed_destination item reason now)))
| step_create_asset u id old key now :
    who u -> drawn id -> item_step "assets" id old (Some (VDict (new_asset id u key "PENDING" now)))
| step_upload_intent u id old key type now :
    who u -> drawn id -> source_object_key (VStr u) (VStr id) = Ok key ->
    item_step "assets" id old (Some (VDict (upload_intent id u key type now)))
| step_uploaded u id item type key size sha completion now :
    who u -> owned_by u item = true -> py_get item "processing_status" = VStr "UPLOADING" ->
    py_get item "content_type" = VStr type ->
    validate_upload_completion (VStr u) (VStr id) (VStr type) key size sha = Ok completion ->
    py_get item "source_object_key" = VStr (completion_key completion) ->
    item_step "assets" id (Some (VDict item)) (Some (VDict (uploaded_asset item completion now)))
| step_processing_failed u id item reason now :
    who u -> owned_by u item = true -> py_get item "processing_status" = VStr "PROCESSING" ->
    item_step "assets" id (Some (VDict item)) (Some (VDict (failed_asset item reason now)))
| step_delete u kind id item :
    who u -> owned_by u item = true -> kind ∈ ["destinations"; "assets"] ->
    item_step kind id (Some (VDict item)) None.

(** One edit of the document: the records of the kind but this one stay. *)
Inductive doc_step (d d' : dict) : Prop :=
| one_item kind id old new :
    item_step kind id old new -> dict_field d kind !! id = old ->
    (forall k, dict_field d' k = if decide (k = kind) then partial_alter (fun _ => new) id (dict_field d k)
                                 else dict_field d k) ->
    doc_step d d'.

Lemma dict_field_insert d k k' e :
  dict_field (<[k := VDict e]> d) k' = if decide (k' = k) then e else dict_field d k'.
Proof.
  unfold dict_field, py_get. destruct (decide (k' = k)) as [->|]; [by rewrite lookup_insert_eq|].
  by rewrite lookup_insert_ne by done.
Qed.

Lemma put_item_step d kind id item old :
  dict_field d kind !! id = old -> item_step kind id old (Some (VDict item)) -> doc_step d (put_item d kind id item).
Proof.
  intros Ho Hs. refine (one_item _ _ _ _ _ _ Hs Ho _). intros k. unfold put_item. rewrite dict_field_insert.
  destruct (decide (k = kind)) as [->|]; done.
Qed.

Lemma del_item_step d kind id item :
  dict_field d kind !! id = Some (VDict item) -> item_step kind id (Some (VDict item)) None ->
  doc_step d (del_item d kind id).
Proof.
  intros Ho Hs. refine (one_item _ _ _ _ _ _ Hs Ho _). intros k. unfold del_item. rewrite dict_field_insert.
  destruct (decide (k = kind)) as [->|]; done.
Qed.

Lemma get_owned_ok d kind id u item :
  _get_owned d kind id u = Ok item -> dict_field d kind !! id = Some (VDict item) /\ owned_by u item = true.
Proof.
  unfold _get_owned, py_get at 1. destruct (dict_field d kind !! id) as [v|]; [|done]. cbn.
  destruct v as [| | | | | |e]; try done. destruct (owned_by u e) eqn:E; [|done]. by intros [= ->].
Qed.

(** ** Operations as edits *)

(** Up to a point of the identifier oracle. *)
Definition drawing (w : world unit) : Prop :=
  forall n, (uuids (environment w) <= n)%nat -> drawn (uuid (environment w) n).

Definition edits (w w' : world unit) : Prop :=
  later w w' /\
  (forall d', @visible (catalog_format nfkc) w' = Some d' ->
     exists d, @visible (catalog_format nfkc) w = Some d /\ rtc doc_step d d') /\
  (is_Some (@document (catalog_format nfkc) w) -> is_Some (@document (catalog_format nfkc) w')).

#[export] Instance edits_preorder : PreOrder edits.
Proof.
  split.
  - intros w. split; [done|]. split; [|done]. intros d Hd. by exists d.
  - intros w1 w2 w3 (L1 & V1 & D1) (L2 & V2 & D2). split; [by etrans|]. split; [|auto].
    intros d3 (d2 & H2 & S2)%V2. destruct (V1 d2 H2) as (d1 & H1 & S1). exists d1. split; [done|]. by etrans.
Qed.

Lemma drawing_kept w w' : edits w w' -> drawing w -> drawing w'.
Proof. intros ((_ & Eu & _ & Hl) & _) Hd n Hn. rewrite Eu. apply Hd. lia. Qed.

Lemma calm_edits {B} (m : FM B) : Resp calm m -> Resp later m -> Resp edits m.
Proof.
  intros Hc Hl w. specialize (Hc w). split; [apply Hl|]. split.
  - intros d' Hd. destruct (@calm_visible (catalog_format nfkc) _ _ Hc) as [E|E]; rewrite E in Hd; [|done].
    by exists d'.
  - by rewrite (@calm_document (catalog_format nfkc) _ _ Hc).
Qed.

#[local] Instance calm_now : Resp calm _validated_catalog_now.
Proof. unfold _validated_catalog_now. solve_resp. Qed.
#[local] Instance later_now : Resp later _validated_catalog_now.
Proof. unfold _validated_catalog_now. solve_resp. Qed.
#[local] Instance still_now : Resp still _validated_catalog_now.
Proof. unfold _validated_catalog_now. solve_resp. Qed.
#[export] Instance edits_io : Resp edits (io (A:=unit) id).
Proof. apply calm_edits; apply _. Qed.
#[export] Instance edits_load : Resp edits (_load nfkc).
Proof. unfold _load. apply calm_edits; apply _. Qed.
#[export] Instance edits_lock {B} (body : FM B) : Resp edits body -> Resp edits (_catalog_lock nfkc body).
Proof. intros Hb. unfold _catalog_lock. apply _. Qed.

(** A document that was read is the visible one while nothing is written. *)
Definition reading (d : dict) (w : world unit) : Prop :=
  @visible (catalog_format nfkc) w = Some d /\ drawing w.

Lemma locked_edit {B} (k : dict -> FM B) w :
  (forall d w1, reading d w1 -> edits w1 (k d w1).2) -> drawing w ->
  edits w (_catalog_lock nfkc (d ← _load nfkc; k d) w).2.
Proof.
  intros Hk Hw. unfold _catalog_lock.
  apply (lock_step edits drawing); [exact drawing_kept|apply _| |done]. clear w Hw. intros w Hw.
  apply (resp_bind_inv edits drawing); [exact drawing_kept|done|apply edits_load|].
  intros d w1 [Hd Hs]%read_valid_ok Hw1. apply Hk. split; [|done]. by rewrite (@still_visible (catalog_format nfkc) _ _ Hs).
Qed.

Lemma still_edit {A B} (m : FM A) (k : A -> FM B) d w :
  Resp still m -> Resp edits m -> reading d w ->
  (forall a w1, m w = (Ok a, w1) -> reading d w1 -> edits w1 (k a w1).2) -> edits w ((m ≫= k) w).2.
Proof.
  intros Hs He [Hd Hw] Hk. apply (resp_bind_inv edits drawing); [exact drawing_kept|done|apply He|].
  intros a w1 Hm Hw1. apply Hk; [done|]. split; [|done].
  rewrite (@still_visible (catalog_format nfkc) w w1); [done|]. exact (resp_ok still _ _ _ _ _ Hm).
Qed.

Lemma now_edit {B} (k : float -> FM B) d w :
  reading d w -> (forall now w1, reading d w1 -> edits w1 (k now w1).2) ->
  edits w ((_validated_catalog_now ≫= k) w).2.
Proof. intros Hr Hk. apply (still_edit _ _ d); [apply _|apply calm_edits; apply _|done|]. auto. Qed.

Lemma lift_edit {A B} (r : result A) (k : A -> FM B) d w :
  reading d w -> (forall a, r = Ok a -> edits w (k a w).2) -> edits w ((lift r ≫= k) w).2.
Proof. intros Hr Hk. destruct r as [a|e]; [by apply Hk|done]. Qed.

Lemma guard_edit {B} b e (k : unit -> FM B) d w :
  reading d w -> (b = false -> edits w (k tt w).2) -> edits w ((guard_err b e ≫= k) w).2.
Proof. intros Hr Hk. destruct b; [done|by apply Hk]. Qed.

Lemma uuid_edit {B} (k : string -> FM B) d w :
  reading d w -> (forall id w1, drawn id -> reading d w1 -> edits w1 (k id w1).2) ->
  edits w ((uuid4 ≫= k) w).2.
Proof.
  intros Hr Hk. apply (still_edit _ _ d); [apply _|apply calm_edits; apply _|done|].
  intros id w1 Hu Hr1. apply Hk; [|done]. apply uuid4_ok in Hu as [-> _]. by apply Hr.
Qed.

Lemma save_edit d d' w : reading d w -> doc_step d d' -> edits w (_save nfkc d' w).2.
Proof.
  intros [Hd Hw] Hs. unfold _save.
  apply (resp_bind_post edits); [apply resp_lift, _|]. intros [] w1 [Hv ->]%lift_ok.
  split; [apply (resp (R:=later))|].
  destruct (@replace_outcome (catalog_format nfkc) d' w (fun _ => Hv)) as [Hc|[Hdoc Hf]].
  - split; [|by rewrite (@calm_document (catalog_format nfkc) _ _ Hc)]. intros d2 Hd2.
    destruct (@calm_visible (catalog_format nfkc) _ _ Hc) as [E|E]; rewrite E in Hd2; [|done]. by exists d2.
  - split; [|by rewrite Hdoc]. intros d2 Hd2. rewrite (@document_visible (catalog_format nfkc) _ _ Hdoc) in Hd2.
    injection Hd2 as <-. exists d. split; [done|]. by apply rtc_once.
Qed.

Lemma save_ret_edit {B} d d' (a : B) w : reading d w -> doc_step d d' -> edits w ((_save nfkc d' ;; mret a) w).2.
Proof. intros Hr Hs. apply (resp_bind_post edits); [by apply (save_edit d)|done]. Qed.

(** An operation with one locked phase, on the record that its owner sees. *)
Lemma owned_edit {B} kind id u (k : dict -> dict -> FM B) w :
  (forall d item w1, reading d w1 -> dict_field d kind !! id = Some (VDict item) -> owned_by u item = true ->
     edits w1 (k d item w1).2) ->
  drawing w -> edits w (_catalog_lock nfkc (d ← _load nfkc; item ← lift (_get_owned d kind id u); k d item) w).2.
Proof.
  intros Hk Hw. apply locked_edit; [|done]. intros d w1 Hr. apply (lift_edit _ _ d); [done|].
  intros item [Ho Hu]%get_owned_ok. by apply Hk.
Qed.

Lemma create_destination_edits u type name url ref w :
  who u -> drawing w -> edits w (create_destination nfkc u type name url ref w).2.
Proof.
  intros Hu Hw. unfold create_destination. apply (resp_bind_post edits); [apply resp_lift, _|].
  intros [] w1 [Hv ->]%lift_ok. apply locked_edit; [|done]. clear w Hw. intros d w Hr.
  apply (now_edit _ d); [done|]. clear w Hr. intros now w Hr.
  apply (uuid_edit _ d); [done|]. clear w Hr. intros id w Hid Hr. cbv zeta.
  apply (save_ret_edit d); [done|]. by eapply put_item_step, step_create_destination.
Qed.

Lemma update_destination_edits id u name url ref enabled w :
  who u -> drawing w -> edits w (update_destination nfkc id u name url ref enabled w).2.
Proof.
  intros Hu Hw. unfold update_destination. apply (resp_bind_post edits); [destruct url; [by apply resp_lift, _|done]|].
  intros [] w1 Hv. assert (Hw1 : drawing w1) by (destruct url; [by apply lift_ok in Hv as [_ ->]|by apply ret_ok in Hv as [_ ->]]).
  clear w Hw Hv. apply owned_edit; [|done]. clear w1 Hw1. intros d item w Hr Ho Hown.
  apply (now_edit _ d); [done|]. clear w Hr. intros now w Hr. cbv zeta.
  apply (save_ret_edit d); [done|]. eapply put_item_step; [done|]. by eapply step_update_destination.
Qed.

Lemma delete_edits kind id u w :
  kind ∈ ["destinations"; "assets"] -> who u -> drawing w ->
  edits w (_catalog_lock nfkc (d ← _load nfkc; lift (_get_owned d kind id u) ;; _save nfkc (del_item d kind id)) w).2.
Proof.
  intros Hk Hu Hw. apply owned_edit; [|done]. clear w Hw. intros d item w Hr Ho Hown.
  apply (save_edit d); [done|]. eapply del_item_step; [done|]. by eapply step_delete.
Qed.

Lemma record_failure_edits id u url reason w :
  who u -> drawing w -> edits w (_record_verification_failure nfkc id u url reason w).2.
Proof.
  intros Hu Hw. unfold _record_verification_failure. apply owned_edit; [|done]. clear w Hw.
  intros d item w Hr Ho Hown. destruct (negb _); [done|].
  apply (now_edit _ d); [done|]. clear w Hr. intros now w Hr.
  apply (save_edit d); [done|]. eapply put_item_step; [done|]. by eapply step_verification_failed.
Qed.

Lemma record_verified_edits id u url result w :
  who u -> probe_matches url result -> drawing w -> edits w (record_verified nfkc id u url result w).2.
Proof.
  intros Hu Hp Hw. unfold record_verified. apply owned_edit; [|done]. clear w Hw.
  intros d item w Hr Ho Hown. apply (guard_edit _ _ _ d); [done|]. intros Hurl%negb_false_iff%py_eq_text.
  apply (now_edit _ d); [done|]. clear w Hr. intros now w Hr. cbv zeta.
  apply (save_ret_edit d); [done|]. eapply put_item_step; [done|]. by eapply step_verify.
Qed.

(** The probe may leave anything behind that other requests may. *)
Lemma verify_edits probe id u w :
  who u -> (forall url w, drawing w -> edits w (probe url w).2) ->
  (forall url w result w', probe url w = (Ok (Probed result), w') -> answered url result) ->
  drawing w -> edits w (verify_destination nfkc probe id u w).2.
Proof.
  intros Hu Hprobe Hans Hw. unfold verify_destination.
  apply (resp_bind_inv edits drawing); [exact drawing_kept|done|apply edits_lock; solve_resp|].
  intros [url type] w1 _ Hw1. clear w Hw.
  assert (Hfail : forall reason w, drawing w ->
    edits w ((_record_verification_failure nfkc id u url reason ;; raise (A:=dict) CatalogVerifyFailed) w).2).
  { intros reason w Hw. apply (resp_bind_post edits); [by apply record_failure_edits|done]. }
  cbv zeta. apply (resp_bind_post edits); [apply resp_lift, _|]. intros sch w2 [Hsch ->]%lift_ok.
  destruct (String.eqb_spec sch type) as [->|]; [|by apply Hfail]. cbn [negb].
  assert (Hcatch : edits w1 (catch (o ← probe url; mret (Some o)) (fun _ => mret None) w1).2).
  { apply (resp_catch_start edits); [|intros; apply _].
    apply (resp_bind_post edits); [by apply Hprobe|done]. }
  apply (resp_bind_inv edits drawing); [exact drawing_kept|done|done|]. intros o w2 Ho Hw2.
  apply catch_ok in Ho as [Ho|(e & w3 & _ & [-> ->]%ret_ok)]; [|by apply Hfail].
  apply bind_ok in Ho as (o1 & w3 & Ho & [-> ->]%ret_ok). destruct o1 as [result|reason]; [|by apply Hfail].
  destruct (String.eqb_spec (py_lower (protocol_text result)) type) as [E|]; [|by apply Hfail]. cbn [negb].
  apply record_verified_edits; [done| |done]. split; [by eapply Hans|]. unfold url_scheme.
  destruct (urlsplit nfkc url); [|done]. injection Hsch as Hsch. cbn. congruence.
Qed.

Lemma create_asset_edits u key w : who u -> drawing w -> edits w (create_asset nfkc u key w).2.
Proof.
  intros Hu Hw. unfold create_asset. apply locked_edit; [|done]. clear w Hw. intros d w Hr.
  apply (now_edit _ d); [done|]. clear w Hr. intros now w Hr.
  apply (uuid_edit _ d); [done|]. clear w Hr. intros id w Hid Hr. cbv zeta.
  apply (save_ret_edit d); [done|]. by eapply put_item_step, step_create_asset.
Qed.

Lemma asset_errors_edits {B} (m : FM B) w : edits w (m w).2 -> edits w (asset_errors m w).2.
Proof. intros Hm. unfold asset_errors. apply (resp_catch_start edits); [done|]. intros []; apply _. Qed.

Lemma upload_intent_edits u type w : who u -> drawing w -> edits w (create_asset_upload_intent nfkc u type w).2.
Proof.
  intros Hu Hw. apply asset_errors_edits. apply (resp_bind_post edits); [apply resp_lift, _|].
  intros t w1 [Ht ->]%lift_ok. apply locked_edit; [|done]. clear w Hw. intros d w Hr.
  apply (now_edit _ d); [done|]. clear w Hr. intros now w Hr.
  apply (uuid_edit _ d); [done|]. clear w Hr. intros id w Hid Hr.
  apply (lift_edit _ _ d); [done|]. intros key Hkey. cbv zeta.
  apply (save_ret_edit d); [done|]. by eapply put_item_step, step_upload_intent.
Qed.

Lemma completion_key_ok u id type key size sha c :
  validate_upload_completion u id type key size sha = Ok c -> source_object_key u id = Ok (completion_key c).
Proof.
  unfold validate_upload_completion. intros (t & _ & H)%result_bind_ok.
  apply result_bind_ok in H as (k & Hk & H). repeat (apply result_bind_ok in H as (? & _ & H)).
  by injection H as <-.
Qed.

Lemma bound_key_ok u id v key :
  is_owner_bound_source_object_key u id v = true -> source_object_key u id = Ok key -> v = VStr key.
Proof.
  destruct v as [| | | |s| |]; try done. cbn. destruct (str_empty s); [done|]. intros H E. rewrite E in H.
  by apply String.eqb_eq in H as ->.
Qed.

Lemma complete_upload_edits id u type key size sha w :
  who u -> drawing w -> edits w (complete_asset_upload nfkc id u type key size sha w).2.
Proof.
  intros Hu Hw. apply asset_errors_edits. apply (resp_bind_post edits); [apply resp_lift, _|].
  intros t w1 [Ht ->]%lift_ok. apply owned_edit; [|done]. clear w Hw. intros d item w Hr Ho Hown.
  apply (guard_edit _ _ _ d); [done|]. intros Hs%negb_false_iff%py_eq_text.
  apply (guard_edit _ _ _ d); [done|]. intros Ht'%negb_false_iff%py_eq_text.
  apply (lift_edit _ _ d); [done|]. intros c Hc.
  apply (guard_edit _ _ _ d); [done|]. intros Hb%negb_false_iff.
  apply (now_edit _ d); [done|]. clear w Hr. intros now w Hr. cbv zeta.
  apply (save_ret_edit d); [done|]. eapply put_item_step; [done|]. eapply step_uploaded; try done.
  eapply bound_key_ok; [done|]. by eapply completion_key_ok.
Qed.

Lemma complete_processing_edits id u sha width height reason w :
  who u -> drawing w -> edits w (complete_asset_processing nfkc id u sha width height reason w).2.
Proof.
  intros Hu Hw. apply asset_errors_edits.
  do 4 (apply (resp_bind_post edits); [apply resp_lift, _|]; intros ? ? [_ ->]%lift_ok).
  apply owned_edit; [|done]. clear w Hw. intros d item w Hr Ho Hown.
  apply (guard_edit _ _ _ d); [done|]. intros Hs%negb_false_iff%py_eq_text.
  apply (now_edit _ d); [done|]. clear w Hr. intros now w Hr. destruct reason; try done. cbv zeta.
  apply (save_ret_edit d); [done|]. eapply put_item_step; [done|]. by eapply step_processing_failed.
Qed.
End edits.

(** ** Histories *)
Inductive catalog_op : Type :=
| OpEnsureCatalog
| OpCreateDestination (user_id type display_name server_url secret_ref : string)
| OpListDestinations (user_id : string)
| OpGetDestination (destination_id user_id : string)
| OpUpdateDestination (destination_id user_id : string) (display_name server_url secret_ref : option string)
    (enabled : option bool)
| OpDeleteDestination (destination_id user_id : string)
| OpCreateAsset (user_id source_object_key : string)
| OpListAssets (user_id : string)
| OpGetAsset (asset_id user_id : string)
| OpDeleteAsset (asset_id user_id : string)
| OpUploadIntent (user_id : string) (content_type : value)
| OpCompleteUpload (asset_id user_id : string) (content_type object_key size_bytes sha256 : value)
| OpCompleteProcessing (asset_id user_id : string) (sha256 width height failure_reason : value)
| OpFailProcessing (asset_id user_id reason : string).

(** Who acts; [None] for the start of the process. *)
Definition op_user (op : catalog_op) : option string :=
  match op with
  | OpEnsureCatalog => None
  | OpCreateDestination u _ _ _ _ | OpListDestinations u | OpGetDestination _ u
  | OpUpdateDestination _ u _ _ _ _ | OpDeleteDestination _ u | OpCreateAsset u _ | OpListAssets u
  | OpGetAsset _ u | OpDeleteAsset _ u | OpUploadIntent u _ | OpCompleteUpload _ u _ _ _ _
  | OpCompleteProcessing _ u _ _ _ _ | OpFailProcessing _ u _ => Some u
  end.

Section histories.
Context (nfkc : string -> string).

Definition run_catalog (op : catalog_op) : FM unit :=
  match op with
  | OpEnsureCatalog => ensure_catalog nfkc
  | OpCreateDestination u t n url ref => create_destination nfkc u t n url ref ;; mret tt
  | OpListDestinations u => list_destinations nfkc u ;; mret tt
  | OpGetDestination id u => get_destination nfkc id u ;; mret tt
  | OpUpdateDestination id u n url ref en => update_destination nfkc id u n url ref en ;; mret tt
  | OpDeleteDestination id u => delete_destination nfkc id u
  | OpCreateAsset u key => create_asset nfkc u key ;; mret tt
  | OpListAssets u => list_assets nfkc u ;; mret tt
  | OpGetAsset id u => get_asset nfkc id u ;; mret tt
  | OpDeleteAsset id u => delete_asset nfkc id u
  | OpUploadIntent u t => create_asset_upload_intent nfkc u t ;; mret tt
  | OpCompleteUpload id u t key size sha => complete_asset_upload nfkc id u t key size sha ;; mret tt
  | OpCompleteProcessing id u sha w h reason => complete_asset_processing nfkc id u sha w h reason ;; mret tt
  | OpFailProcessing id u reason => fail_asset_processing nfkc id u reason ;; mret tt
  end.

(** The requests of the users in [who], one after the other, each ending well or in an
    exception; while a verification probes, any such requests may come in between. *)
Inductive history (who : string -> Prop) (answered : string -> dict -> Prop) : world unit -> world unit -> Prop :=
| history_nil w : history who answered w w
| history_op op w w1 :
    history who answered w w1 -> (forall u, op_user op = Some u -> who u) ->
    history who answered w (run_catalog op w1).2
| history_verify probe id u w w1 :
    history who answered w w1 -> who u ->
    (forall url w, history who answered w (probe url w).2) ->
    (forall url w result w', probe url w = (Ok (Probed result), w') -> answered url result) ->
    history who answered w (verify_destination nfkc probe id u w1).2.

Section steps.
Context (who : string -> Prop) (drawn : string -> Prop) (answered : string -> dict -> Prop).
Local Abbreviation Edits := (edits nfkc who drawn answered).

Lemma ensure_edits w : Edits w (ensure_catalog nfkc w).2.
Proof.
  revert w. change (Resp Edits (ensure_catalog nfkc)). unfold ensure_catalog. apply edits_lock.
  apply resp_bind; [apply _|apply edits_io|]. intros _ w1.
  destruct (@ensure_file_start (catalog_format nfkc) w1) as [V D]. split; [apply (resp (R:=later))|].
  split; [|exact D]. intros d Hd. exists d. split; [by apply V|done].
Qed.

Lemma reads {B} {m : FM B} : Resp Edits m -> forall w, drawing drawn w -> Edits w (m w).2.
Proof. auto. Qed.

Lemma run_edits op w :
  (forall u, op_user op = Some u -> who u) -> drawing drawn w -> Edits w (run_catalog op w).2.
Proof.
  intros Hu Hw. assert (Hread : Resp Edits (_load nfkc)) by apply edits_load.
  destruct op; cbn [run_catalog]; try specialize (Hu _ eq_refl); unfold fail_asset_processing;
    try (apply (resp_bind_post Edits); [|done]).
  - apply ensure_edits.
  - by apply create_destination_edits.
  - revert w Hw. apply (reads (m:=list_destinations nfkc user_id)), edits_lock. solve_resp.
  - revert w Hw. apply (reads (m:=get_destination nfkc destination_id user_id)), edits_lock. solve_resp.
  - by apply update_destination_edits.
  - by apply delete_edits; [left|..].
  - by apply create_asset_edits.
  - revert w Hw. apply (reads (m:=list_assets nfkc user_id)), edits_lock. solve_resp.
  - revert w Hw. apply (reads (m:=get_asset nfkc asset_id user_id)), edits_lock. solve_resp.
  - by apply delete_edits; [right; left|..].
  - by apply upload_intent_edits.
  - by apply complete_upload_edits.
  - by apply complete_processing_edits.
  - by apply complete_processing_edits.
Qed.

Lemma history_edits w w' : history who answered w w' -> drawing drawn w -> Edits w w'.
Proof.
  induction 1 as [w|op w w1 _ IH Hu|probe id u w w1 _ IH Hu _ IHp Hans]; intros Hw; [done|..].
  - etrans; [by apply IH|]. apply run_edits; [done|]. apply (drawing_kept nfkc who drawn answered w); auto.
  - etrans; [by apply IH|]. apply verify_edits; auto. apply (drawing_kept nfkc who drawn answered w); auto.
Qed.

(** An invariant of the records is an invariant of the histories. *)
Lemma history_records (P : string -> string -> value -> Prop) w w' :
  (forall kind id old new, item_step nfkc who drawn answered kind id old (Some new) ->
     (forall v, old = Some v -> P kind id v) -> P kind id new) ->
  history who answered w w' -> drawing drawn w ->
  (forall d, @visible (catalog_format nfkc) w = Some d ->
     forall kind id v, dict_field d kind !! id = Some v -> P kind id v) ->
  forall d', @visible (catalog_format nfkc) w' = Some d' ->
    forall kind id v, dict_field d' kind !! id = Some v -> P kind id v.
Proof.
  intros Hstep Hh Hw Hinit d' Hd'. destruct (history_edits w w' Hh Hw) as (_ & V & _).
  destruct (V d' Hd') as (d & Hd & Hs). specialize (Hinit d Hd). clear - Hstep Hs Hinit.
  induction Hs as [d|d1 d2 d3 [kind id old new Hi Ho Hf] _ IH]; [done|]. apply IH. intros k i v.
  rewrite Hf. destruct (decide (k = kind)) as [->|]; [|apply Hinit].
  destruct (decide (i = id)) as [->|]; [|rewrite lookup_partial_alter_ne by done; apply Hinit].
  rewrite lookup_partial_alter_eq. intros ->. apply (Hstep _ _ _ _ Hi). intros w1 ->. by apply Hinit.
Qed.
End steps.

(** ** Owners *)
Lemma owner_unique u v item : owned_by u item = true -> owned_by v item = true -> u = v.
Proof. clear nfkc. unfold owned_by. rewrite !py_eq_text. intros -> [= ->]. done. Qed.

Lemma owner_of_user u item : owned_by u item = true <-> py_get item "user_id" = VStr u.
Proof. clear nfkc. apply py_eq_text. Qed.

Lemma py_get_set_given f g x item : f <> g -> py_get (set_given f x item) g = py_get item g.
Proof. clear nfkc. intros Hne. destruct x; [by apply py_get_insert_ne|done]. Qed.

Lemma updated_owner item name url ref en now :
  py_get (updated_destination item name url ref en now) "user_id" = py_get item "user_id".
Proof.
  clear nfkc. unfold updated_destination. cbv zeta. rewrite py_get_insert_ne, !py_get_set_given by done.
  destruct url as [url|]; [|by rewrite py_get_set_given]. rewrite py_get_insert_ne by done.
  destruct (negb _); unfold unverified; record_fields; by rewrite py_get_set_given.
Qed.

(** Every edit is one of a record of a user who acts, or creates one. *)
Lemma item_step_owner who drawn answered kind id old new :
  item_step nfkc who drawn answered kind id old new ->
  exists u, who u /\ (drawn id \/ exists item, old = Some (VDict item) /\ owned_by u item = true) /\
    (forall item, new = Some (VDict item) -> owned_by u item = true).
Proof.
  intros H. assert (Hgoal : exists u, who u /\ (drawn id \/ exists item, old = Some (VDict item) /\ owned_by u item = true) /\
    (forall item, new = Some (VDict item) -> py_get item "user_id" = VStr u)).
  { destruct H; exists u; (split; [done|]); (split; [eauto|]); intros item' [= <-];
      repeat match goal with H : owned_by _ _ = true |- _ => apply owner_of_user in H end.
    all: rewrite ?updated_owner; unfold verified_destination, failed_destination, uploaded_asset, failed_asset;
      record_fields; done. }
  destruct Hgoal as (u & Hu & Ho & Hn). exists u. split; [done|]. split; [done|].
  intros item E. apply owner_of_user. by apply Hn.
Qed.

(** C5: The records of an owner are touched by nobody else: over any history of requests
    of other users, verifications and whatever comes in between them included, and
    whatever I/O step fails, every destination or asset that the owner finds
    afterwards is one that was there before, unchanged; and one that was there
    before is still found, unchanged, unless its identifier was drawn a second time for
    a new record. A catalog that could be read before can be read afterwards. *)
Theorem owners_are_isolated u answered w w' :
  history (fun v => v <> u) answered w w' ->
  (forall d', @visible (catalog_format nfkc) w' = Some d' ->
     exists d, @visible (catalog_format nfkc) w = Some d /\
     forall kind id item,
       (_get_owned d' kind id u = Ok item -> _get_owned d kind id u = Ok item) /\
       (_get_owned d kind id u = Ok item -> _get_owned d' kind id u = Ok item \/
          exists n, (uuids (environment w) <= n)%nat /\ id = uuid (environment w) n)) /\
  (is_Some (@document (catalog_format nfkc) w) -> is_Some (@document (catalog_format nfkc) w')).
Proof.
  intros Hh. set (drawn id := exists n, (uuids (environment w) <= n)%nat /\ id = uuid (environment w) n).
  destruct (history_edits _ drawn _ w w' Hh) as (_ & V & D); [by intros n Hn; exists n|]. split; [|done].
  intros d' (d & Hd & Hs)%V. exists d. split; [done|]. clear - Hs.
  induction Hs as [d|d1 d2 d3 [k0 i0 old new Hi Ho Hf] _ IH]; [by intros; split; [|left]|].
  intros kind id item. destruct (IH kind id item) as [IH1 IH2].
  assert (Hsame : _get_owned d2 kind id u = _get_owned d1 kind id u \/
    (drawn id /\ forall it, _get_owned d2 kind id u <> Ok it) \/
    (_get_owned d1 kind id u = Err CatalogNotFound /\ _get_owned d2 kind id u = Err CatalogNotFound)).
  { unfold _get_owned, py_get. rewrite !Hf. destruct (decide (kind = k0)) as [->|]; [|by left].
    destruct (decide (id = i0)) as [->|]; [|rewrite lookup_partial_alter_ne by done; by left].
    rewrite lookup_partial_alter_eq, Ho.
    apply item_step_owner in Hi as (v & Hv & Hor & Hn). right.
    assert (Hnew : match default VNull new with
      | VDict it => if owned_by u it then Ok it else Err CatalogNotFound | _ => Err CatalogNotFound end = Err CatalogNotFound).
    { destruct new as [[]|]; try done. cbn. specialize (Hn _ eq_refl). destruct (owned_by u d) eqn:E; [|done].
      destruct Hv. by apply (owner_unique _ _ d). }
    rewrite Hnew. destruct Hor as [Hdr|(it & -> & Hown)]; [by left|]. right. split; [|done]. cbn.
    destruct (owned_by u it) eqn:E; [|done]. destruct Hv. by apply (owner_unique _ _ it). }
  destruct Hsame as [E|[[Hdr Hno]|[E1 E2]]].
  - rewrite <- E. split; auto.
  - split; [|by right]. intros H%IH1. by destruct (Hno item).
  - rewrite E1. split; [|done]. intros H%IH1. congruence.
Qed.

(** ** Verification *)

(** A verified destination was probed: at the address that it has. *)
Definition probed_record (answered : string -> dict -> Prop) (item : dict) : Prop :=
  py_get item "verification_status" = VStr "VERIFIED" ->
  exists url result, py_get item "server_url" = VStr url /\ probe_matches nfkc answered url result /\
    py_get item "verification_transport" = VDict (transport_of result).

Definition all_probed (answered : string -> dict -> Prop) (d : dict) : Prop :=
  forall id item, dict_field d "destinations" !! id = Some (VDict item) -> probed_record answered item.

(** The fields that a verification is about, after an update. *)
Lemma updated_fields item name url ref en now :
  let item' := updated_destination item name url ref en now in
  py_get item' "verification_status" = VStr "UNVERIFIED" \/
  (forall f, f ∈ ["verification_status"; "server_url"; "verification_transport"] -> py_get item' f = py_get item f).
Proof.
  clear nfkc. cbv zeta. unfold updated_destination. cbv zeta.
  assert (Hset : forall f x y (it : dict), f ∈ ["verification_status"; "server_url"; "verification_transport"] ->
    py_get (<["updated_at" := VFloat now]> (set_given "enabled" x (set_given "secret_ref" y it))) f = py_get it f).
  { intros f x y it Hf. rewrite py_get_insert_ne, !py_get_set_given; [done|..];
      intros <-; by repeat apply elem_of_cons in Hf as [?|Hf]; [..|apply elem_of_nil in Hf]. }
  assert (Hname : forall f, f ∈ ["verification_status"; "server_url"; "verification_transport"] ->
    py_get (set_given "display_name" (VStr <$> name) item) f = py_get item f).
  { intros f Hf. apply py_get_set_given.
    intros <-; by repeat apply elem_of_cons in Hf as [?|Hf]; [..|apply elem_of_nil in Hf]. }
  destruct url as [url|]; [|right; intros f Hf; by rewrite Hset, Hname].
  destruct (py_eq _ _) eqn:E; cbn [negb].
  - right. intros f Hf. rewrite Hset by done. apply py_eq_text in E.
    destruct (decide (f = "server_url")) as [->|Hne]; [by rewrite py_get_insert, <- Hname, E|].
    by rewrite py_get_insert_ne, Hname by done.
  - left. rewrite Hset by by left. rewrite py_get_insert_ne by done. unfold unverified. by record_fields.
Qed.

Lemma probes_are_recorded answered w w' :
  history (fun _ => True) answered w w' ->
  (forall d, @visible (catalog_format nfkc) w = Some d -> all_probed answered d) ->
  forall d', @visible (catalog_format nfkc) w' = Some d' -> all_probed answered d'.
Proof.
  intros Hh Hinit d' Hd'.
  set (P (kind id : string) (v : value) := forall item, kind = "destinations" -> v = VDict item -> probed_record answered item).
  assert (HP : forall kind id v, dict_field d' kind !! id = Some v -> P kind id v).
  { apply (history_records (fun _ => True) (fun _ => True) answered P w w'); try done.
    2: { intros d Hd kind id v Hv item -> ->. by apply (Hinit d Hd id). }
    clear. intros kind id old new Hs Hold item -> [= ->]. remember "destinations" as kind eqn:Hk. remember (Some (VDict item)) as o eqn:Eo.
    destruct Hs; try done; injection Eo as <-.
    - intros [=].
    - destruct (updated_fields item0 name url ref enabled now) as [E|E]; [intros E'; by rewrite E in E'|].
      unfold probed_record. rewrite !E by set_solver. by apply (Hold (VDict item0)).
    - intros _. exists url, result. unfold verified_destination. record_fields. done.
    - intros E. unfold failed_destination in E. exfalso. revert E. record_fields. intros [=]. }
  intros id item Hi. by apply (HP _ _ _ Hi).
Qed.

(** C20: A destination says [VERIFIED] only for the address it has now: over any history of
    requests of all users, in which a verification releases the lock and anything
    may happen while it probes (the address may be edited, the destination deleted and
    others verified), if the status of a destination is [VERIFIED] then a probe was
    made of exactly the address that is stored, its answer named the scheme of that address
    as the protocol, and the transport that is stored is that answer. *)
Theorem verified_means_probed answered w w' :
  history (fun _ => True) answered w w' ->
  (forall d, @visible (catalog_format nfkc) w = Some d -> all_probed answered d) ->
  forall d', @visible (catalog_format nfkc) w' = Some d' -> all_probed answered d'.
Proof. apply probes_are_recorded. Qed.

(** ** The flow of an asset *)

(** The key of an owner and an asset, as it is stored. *)
Definition bound_key (id : string) (item : dict) : Prop :=
  exists u key, py_get item "user_id" = VStr u /\ source_object_key (VStr u) (VStr id) = Ok key /\
    py_get item "source_object_key" = VStr key.

(** What identifies an asset does not change. *)
Definition same_asset (item item' : dict) : Prop :=
  Forall (fun f => py_get item' f = py_get item f) ["id"; "user_id"; "source_object_key"; "content_type"; "created_at"].

(** The size, within the limit, and the digest of an upload. *)
Definition has_upload (item : dict) : Prop :=
  exists size sha, py_get item "uploaded_size_bytes" = VInt size /\ 1 <= size <= MAX_UPLOAD_BYTES /\
    py_get item "uploaded_sha256" = VStr sha /\ py_len sha = 64%nat /\ all_hex sha = true.

Definition asset_status (item : dict) : value := py_get item "processing_status".

(** The moves of the record stored under [id]: a new one, under an identifier that was
    drawn for it, is metadata only or waits for an upload to the key of its owner; the
    upload puts it in processing, from where it can only fail; it can be deleted. *)
Inductive asset_move (drawn : string -> Prop) (id : string) : option value -> option value -> Prop :=
| asset_registered old item :
    drawn id -> asset_status item = VStr "PENDING" -> asset_move drawn id old (Some (VDict item))
| asset_announced old item :
    drawn id -> asset_status item = VStr "UPLOADING" -> bound_key id item ->
    asset_move drawn id old (Some (VDict item))
| asset_completed item item' :
    asset_status item = VStr "UPLOADING" -> bound_key id item ->
    asset_status item' = VStr "PROCESSING" -> same_asset item item' -> has_upload item' ->
    asset_move drawn id (Some (VDict item)) (Some (VDict item'))
| asset_rejected item item' :
    asset_status item = VStr "PROCESSING" -> asset_status item' = VStr "FAILED" -> same_asset item item' ->
    asset_move drawn id (Some (VDict item)) (Some (VDict item'))
| asset_deleted item : asset_move drawn id (Some (VDict item)) None.

Lemma completion_checked u id type key size sha c :
  validate_upload_completion u id type key size sha = Ok c ->
  1 <= completion_size c <= MAX_UPLOAD_BYTES /\ py_len (completion_sha256 c) = 64%nat /\ all_hex (completion_sha256 c) = true.
Proof.
  clear nfkc. unfold validate_upload_completion. intros (t & _ & H)%result_bind_ok.
  apply result_bind_ok in H as (k & _ & H). apply result_bind_ok in H as (? & _ & H).
  apply result_bind_ok in H as (n & Hn & H). apply result_bind_ok in H as (s & Hs & [= <-]). cbn.
  unfold _validated_size_bytes in Hn. destruct size as [| |z| | | |]; try done.
  destruct (_ || _) eqn:E; [done|]. injection Hn as ->. apply orb_false_iff in E as [? ?].
  unfold _validated_sha256 in Hs. destruct sha as [| | | |s'| |]; try done.
  destruct (_ && _) eqn:E'; [|done]. injection Hs as ->. apply andb_prop in E' as [?%Nat.eqb_eq ?].
  split; [lia|done].
Qed.

Lemma uploaded_same item completion now : same_asset item (uploaded_asset item completion now).
Proof. clear nfkc. unfold same_asset, uploaded_asset. repeat constructor; by record_fields. Qed.

Lemma failed_same item reason now : same_asset item (failed_asset item reason now).
Proof. clear nfkc. unfold same_asset, failed_asset. repeat constructor; by record_fields. Qed.

(** The edits of an asset are moves. *)
Lemma item_step_move who drawn answered id old new :
  item_step nfkc who drawn answered "assets" id old new -> asset_move drawn id old new.
Proof.
  intros H. remember "assets" as kind eqn:Hk. destruct H; try discriminate Hk.
  - by apply asset_registered.
  - apply asset_announced; [done..|]. by exists u, key.
  - match goal with H : owned_by _ _ = true |- _ => apply owner_of_user in H end.
    match goal with H : validate_upload_completion _ _ _ _ _ _ = Ok _ |- _ =>
      pose proof (completion_checked _ _ _ _ _ _ _ H) as (? & ? & ?); apply completion_key_ok in H end.
    apply asset_completed; [done|by exists u, (completion_key completion)| |apply uploaded_same|].
    + unfold asset_status, uploaded_asset. by record_fields.
    + exists (completion_size completion), (completion_sha256 completion). unfold uploaded_asset. by record_fields.
  - apply asset_rejected; [done| |apply failed_same]. unfold asset_status, failed_asset. by record_fields.
  - by apply asset_deleted.
Qed.

(** C34: The life of a standby asset: over any history of requests of all users, with
    whatever I/O fails, the record under every identifier goes through the moves of
    [asset_move] only. So only an asset that waits for its upload, under the object key
    of its own owner and identifier, gets in processing, with the size, within the
    limit, and the digest of the upload; only one in processing fails; its owner and its
    key never change, and no move makes an asset [READY]. *)
Theorem assets_follow_the_upload_flow answered w w' :
  history (fun _ => True) answered w w' ->
  let drawn id := exists n, (uuids (environment w) <= n)%nat /\ id = uuid (environment w) n in
  forall d', @visible (catalog_format nfkc) w' = Some d' ->
    exists d, @visible (catalog_format nfkc) w = Some d /\
    forall id, rtc (asset_move drawn id) (dict_field d "assets" !! id) (dict_field d' "assets" !! id).
Proof.
  intros Hh drawn d' Hd'.
  destruct (history_edits (fun _ => True) drawn answered w w' Hh) as (_ & V & _); [by intros n Hn; exists n|].
  destruct (V d' Hd') as (d & Hd & Hs). exists d. split; [done|]. clear - Hs. intros id.
  induction Hs as [d|d1 d2 d3 [kind i old new Hi Ho Hf] _ IH]; [done|]. etrans; [|exact IH].
  rewrite (Hf "assets"). destruct (decide ("assets" = kind)) as [<-|]; [|done].
  destruct (decide (i = id)) as [->|]; [|by rewrite lookup_partial_alter_ne].
  rewrite lookup_partial_alter_eq, Ho. apply rtc_once. by eapply item_step_move.
Qed.
End histories.

(** ** A run *)
Definition demo_catalog_env : env :=
  Env (fun n => of_Z (1000 + Z.of_nat n)) 0 (fun n => String "i" (pretty.pretty n)) 0 (fun _ => false) 0.
Definition demo_catalog : world unit := World tt Missing false demo_catalog_env.

Definition demo_url : string := "rtmp://live.example.com/app".
Definition demo_answer : dict :=
  list_to_map [("protocol", VStr "RTMP"); ("peer_ip", VStr "203.0.113.7"); ("peer_port", VInt 1935);
               ("elapsed_ms", VFloat (of_Z 12))].
Definition demo_answered (url : string) (result : dict) : Prop := url = demo_url /\ result = demo_answer.

(** Ann's server answers; while it is probed, Bob stores a destination. *)
Definition demo_probe (url : string) : FM probe_outcome :=
  run_catalog id (OpCreateDestination "bob" "srt" "other" "srt://example.com:9000" "ref") ;;
  mret (if String.eqb url demo_url then Probed demo_answer else Rejected "unreachable").

Definition run_all (ops : list catalog_op) (w : world unit) : world unit :=
  fold_left (fun w op => (run_catalog id op w).2) ops w.

Definition demo_created : world unit :=
  run_all [OpEnsureCatalog; OpCreateDestination "ann" "rtmp" "live" demo_url "ref";
           OpUploadIntent "ann" (VStr "image/png"); OpUploadIntent "bob" (VStr "image/webp");
           OpCompleteUpload "i1" "ann" (VStr "image/png") (VStr "users/ann/assets/i1/source") (VInt 70)
             (VStr (sha256_hex "file"))] demo_catalog.
Definition demo_verified : world unit := (verify_destination id demo_probe "i0" "ann" demo_created).2.
Definition demo_edited : world unit :=
  run_all [OpUpdateDestination "i0" "ann" None (Some "rtmp://elsewhere.example.com/app") None None;
           OpFailProcessing "i1" "ann" " bad pixels "] demo_verified.

(** The texts of a field over the records of a kind. *)
Definition statuses (kind field : string) (w : world unit) : option (list (string * string)) :=
  (fun d => omap (fun p => match p.2 with VDict item => Some (p.1, text_field item field) | _ => None end)
              (sorted_records (dict_field d kind))) <$> @document (catalog_format id) w.

Example demo_statuses :
  (statuses "destinations" "verification_status" demo_verified, statuses "destinations" "verification_status" demo_edited,
   statuses "assets" "processing_status" demo_created, statuses "assets" "processing_status" demo_edited) =
  (Some [("i0", "VERIFIED"); ("i3", "UNVERIFIED")], Some [("i0", "UNVERIFIED"); ("i3", "UNVERIFIED")],
   Some [("i1", "PROCESSING"); ("i2", "UPLOADING")], Some [("i1", "FAILED"); ("i2", "UPLOADING")]).
Proof. vm_compute. reflexivity. Qed.

Lemma demo_history_ops who answered ops w w0 :
  (forall op u, In op ops -> op_user op = Some u -> who u) -> history id who answered w0 w ->
  history id who answered w0 (run_all ops w).
Proof.
  revert w. induction ops as [|op ops IH]; intros w Hu Hw; [done|]. cbn [run_all fold_left].
  apply IH; [intros o u Ho; apply Hu; by right|]. apply history_op; [done|]. intros u. apply Hu. by left.
Qed.

Lemma demo_history : history id (fun _ => True) demo_answered demo_catalog demo_verified.
Proof.
  apply history_verify; [by apply demo_history_ops; [|apply history_nil]|done| |].
  - intros url w. unfold demo_probe. pose proof (history_op id (fun _ => True) demo_answered
      (OpCreateDestination "bob" "srt" "other" "srt://example.com:9000" "ref") w w (history_nil _ _ _ _) (fun _ _ => I)) as H.
    set (m := run_catalog id _) in *. clearbody m. unfold mbind, M_bind. by destruct (m w) as [[[]|e] w1].
  - intros url w result w' (u & w1 & _ & H)%bind_ok. apply ret_ok in H as [H _].
    destruct (String.eqb_spec url demo_url) as [->|]; [|done]. by injection H as ->.
Qed.

Lemma demo_empty d : @visible (catalog_format id) demo_catalog = Some d -> d = _default_catalog.
Proof. intros H. assert (E : @visible (catalog_format id) demo_catalog = Some _default_catalog) by (vm_compute; reflexivity). congruence. Qed.

Lemma default_no_items kind id item : dict_field _default_catalog kind !! id <> Some (VDict item).
Proof.
  unfold dict_field, py_get, _default_catalog. rewrite !list_to_map_cons. cbn [fst snd].
  destruct (decide (kind = "destinations")) as [->|]; [rewrite lookup_insert_eq; done|].
  rewrite lookup_insert_ne by done.
  destruct (decide (kind = "assets")) as [->|]; [rewrite lookup_insert_eq; done|].
  rewrite lookup_insert_ne by done. done.
Qed.

Lemma verified_means_probed_witness :
  exists d, @visible (catalog_format id) demo_verified = Some d /\ all_probed id demo_answered d.
Proof.
  destruct (@visible (catalog_format id) demo_verified) as [d|] eqn:E.
  - exists d. split; [reflexivity|].
    apply (verified_means_probed id demo_answered demo_catalog demo_verified demo_history); [|exact E].
    intros d0 Hd0. rewrite (demo_empty d0 Hd0). intros i item Hi. destruct (default_no_items _ _ _ Hi).
  - exfalso. assert (Hb : (if @visible (catalog_format id) demo_verified then true else false) = true)
      by (vm_compute; reflexivity). rewrite E in Hb. discriminate Hb.
Defined.

Lemma demo_start_visible : @visible (catalog_format id) demo_catalog = Some _default_catalog.
Proof. vm_compute. reflexivity. Qed.

Lemma assets_follow_the_upload_flow_witness :
  exists d, @visible (catalog_format id) demo_verified = Some d /\
    forall i, rtc (asset_move (fun i => exists n, (0 <= n)%nat /\ i = String "i" (pretty.pretty n)) i) None
                (dict_field d "assets" !! i).
Proof.
  destruct (@visible (catalog_format id) demo_verified) as [d|] eqn:E.
  - exists d. split; [reflexivity|]. intros i.
    destruct (assets_follow_the_upload_flow id demo_answered demo_catalog demo_verified demo_history d E) as (d0 & Hd0 & H).
    rewrite demo_start_visible in Hd0. injection Hd0 as Hd0. specialize (H i). rewrite <- Hd0 in H. exact H.
  - exfalso. assert (Hb : (if @visible (catalog_format id) demo_verified then true else false) = true)
      by (vm_compute; reflexivity). rewrite E in Hb. discriminate Hb.
Defined.

(** Bob cannot delete, edit or complete what is Ann's. *)
Definition demo_intruder : list catalog_op :=
  [OpDeleteDestination "i0" "bob"; OpUpdateDestination "i0" "bob" (Some "mine") None None None;
   OpCompleteUpload "i1" "bob" (VStr "image/png") (VStr "users/ann/assets/i1/source") (VInt 70) (VStr (sha256_hex "file"));
   OpCreateAsset "bob" "users/ann/assets/i1/source"].

Lemma owners_are_isolated_witness :
  is_Some (@document (catalog_format id) demo_verified) /\
  is_Some (@document (catalog_format id) (run_all demo_intruder demo_verified)).
Proof.
  assert (Hd : is_Some (@document (catalog_format id) demo_verified)) by (vm_compute; eexists; reflexivity).
  split; [exact Hd|].
  apply (owners_are_isolated id "ann" demo_answered demo_verified (run_all demo_intruder demo_verified)); [|exact Hd].
  apply demo_history_ops; [|apply history_nil]. intros op u Ho Hu ->.
  repeat (destruct Ho as [<-|Ho]; [discriminate Hu|]). destruct Ho.
Defined.
