(* ===== verification/SecretStore.v ===== *)
(** * Secrets of destinations

    [apps/control-api/destination_secret_store.py]: the stream keys of the users,
    encrypted, under the digest of their owner and name. [DestinationSecretStore] is
    the authority protocol of Authority.v, but it writes without checking first.
    Fernet (package cryptography) is a pair of functions: [encrypt] takes its random
    part, which here comes from the identifier oracle, and [decrypt] answers [None] for
    an invalid token. *)

From S2P Require Import Prelude PyFloat Sha256 PyValue Json Effects Authority PyText TextFacts Uuid IpAddress Url.

Definition _finite_timestamp (v : value) : result float :=
  match nonneg_number v with Some f => Ok f | None => Err DestinationSecretError end.

(** [sha256(f"{user_id}\0{secret_ref}")] *)
Definition _key (user_id secret_ref : string) : string :=
  sha256_hex (String.append user_id (String (Ascii.ascii_of_nat 0) secret_ref)).

#[global] Arguments _key : simpl never.

Definition secret_text (record : dict) (field : string) : result string :=
  match py_get record field with
  | VStr s => if str_empty s then Err DestinationSecretError else Ok s
  | _ => Err DestinationSecretError
  end.

(** One turn of the loop of [_load]: the record with its timestamps as floats. *)
Definition validated_secret (record_key : string) (v : value) : result dict :=
  match v with
  | VDict record =>
      user_id ← secret_text record "user_id";
      secret_ref ← secret_text record "secret_ref";
      secret_text record "ciphertext" ;;
      raise_if (negb (String.eqb record_key (_key user_id secret_ref))) DestinationSecretError ;;
      created_at ← _finite_timestamp (py_get record "created_at");
      updated_at ← _finite_timestamp (py_get record "updated_at");
      Ok (<["updated_at" := VFloat updated_at]> (<["created_at" := VFloat created_at]> record))
  | _ => Err DestinationSecretError
  end.

#[global] Arguments validated_secret : simpl never.

Record secret_mem : Type := SecretMem { secrets : gmap string dict }.

(** The records that pass, and whether all did. *)
Definition checked_secrets (records : dict) : gmap string dict :=
  map_imap (fun k v => match validated_secret k v with Ok r => Some r | Err _ => None end) records.

Definition decode_secrets (payload : value) : result secret_mem :=
  match payload with
  | VDict raw =>
      match py_get raw "secrets" with
      | VDict records =>
          check_all (fun k v => validated_secret k v ;; Ok tt) records ;;
          Ok (SecretMem (checked_secrets records))
      | _ => Err DestinationSecretError
      end
  | _ => Err DestinationSecretError
  end.

#[export] Instance secret_format : AuthorityFormat secret_mem := {|
  af_error := DestinationSecretError;
  af_fresh := SecretMem ∅;
  af_decode := decode_secrets;
  af_validate := fun _ => Ok tt;
  af_encode := fun m => VDict {[ "secrets" := VDict (of_dicts (secrets m)) ]};
  af_committed := id
|}.

Abbreviation KM := (M (world secret_mem)).

(** What a caller of [put] is told. *)
Definition secret_metadata (secret_ref : string) (created_at updated_at : float) : dict :=
  list_to_map
    [("secret_ref", VStr secret_ref); ("configured", VBool true); ("created_at", VFloat created_at);
     ("updated_at", VFloat updated_at)].

Definition secret_record (user_id secret_ref ciphertext : string) (created_at updated_at : float) : dict :=
  list_to_map
    [("user_id", VStr user_id); ("secret_ref", VStr secret_ref); ("ciphertext", VStr ciphertext);
     ("created_at", VFloat created_at); ("updated_at", VFloat updated_at)].

(** [self._persist()], in which a failing [chmod] is ignored. *)
Definition persist_secrets : KM unit :=
  m ← get_mem;
  io id ;;                                        (* mkdir, mkstemp *)
  r ← catch (lift (json_dump (af_encode m))) (fun _ => raise DestinationSecretError);
  io id ;;                                        (* flush, fsync *)
  mark_initialized ;;
  io (fun '(_, u) => (Present r, u)) ;;           (* os.replace *)
  catch (io id) (fun _ => mret tt) ;;             (* chmod *)
  io id.                                          (* fsync of the directory *)

Section fernet.
Context (encrypt : string -> string -> string) (decrypt : string -> option string).

Definition put (user_id secret_ref plaintext : string) (now : option value) : KM dict :=
  guard_err (str_empty user_id || str_empty secret_ref || str_empty plaintext) ValueError ;;
  current ← match now with
            | None => t ← time_time; lift (_finite_timestamp (VFloat t))
            | Some v => lift (_finite_timestamp v)
            end;
  nonce ← uuid4;
  let record_key := _key user_id secret_ref in
  let ciphertext := encrypt nonce plaintext in
  locked (
    m ← get_mem;
    created_at ← match secrets m !! record_key with
                 | Some existing => lift (_finite_timestamp (py_get existing "created_at"))
                 | None => mret current
                 end;
    put_mem (SecretMem (<[record_key := secret_record user_id secret_ref ciphertext created_at current]> (secrets m))) ;;
    persist_secrets ;;
    mret (secret_metadata secret_ref created_at current)).

(** A record that was loaded has a text as its ciphertext. *)
Definition resolve (user_id secret_ref : string) : KM string :=
  ciphertext ← locked (
    m ← get_mem;
    match secrets m !! _key user_id secret_ref with
    | None => raise DestinationSecretNotFound
    | Some record => mret match py_get record "ciphertext" with VStr s => s | _ => EmptyString end
    end);
  match decrypt ciphertext with
  | Some plaintext => mret plaintext
  | None => raise DestinationSecretError
  end.

Definition configured (user_id secret_ref : string) : KM bool :=
  locked (m ← get_mem; mret (bool_decide (is_Some (secrets m !! _key user_id secret_ref)))).

Definition delete_secret (user_id secret_ref : string) : KM bool :=
  locked (
    m ← get_mem;
    match secrets m !! _key user_id secret_ref with
    | None => mret false
    | Some _ =>
        put_mem (SecretMem (delete (_key user_id secret_ref) (secrets m))) ;;
        persist_secrets ;;
        mret true
    end).

(** ** What is written is read *)

(** Records as [_load] leaves them: another load changes nothing. *)
Definition loaded (m : secret_mem) : Prop :=
  map_Forall (fun k r => validated_secret k (VDict r) = Ok r) (secrets m).

Lemma decode_loaded m : loaded m -> decode_secrets (af_encode m) = Ok m.
Proof.
  intros Hm. destruct m as [ss]. cbn. unfold py_get. rewrite lookup_singleton_eq. cbn.
  rewrite (proj2 (check_all_ok _ _)).
  - cbn. do 2 f_equal. apply map_eq. intros k. unfold checked_secrets.
    rewrite map_lookup_imap. unfold of_dicts. rewrite lookup_fmap. destruct (ss !! k) as [r|] eqn:E; [|done].
    cbn. by rewrite (Hm k r E).
  - intros k v. unfold of_dicts. rewrite lookup_fmap. destruct (ss !! k) as [r|] eqn:E; [|done].
    cbn. intros [= <-]. by rewrite (Hm k r E).
Qed.

Lemma secret_validated_again k v r : validated_secret k v = Ok r -> validated_secret k (VDict r) = Ok r.
Proof.
  destruct v as [| | | | | |d]; try done. unfold validated_secret. intros H.
  apply result_bind_ok in H as (u & Hu & H). apply result_bind_ok in H as (s & Hs & H).
  apply result_bind_ok in H as (c & Hc & H). apply result_bind_ok in H as ([] & Hk%raise_if_ok & H).
  apply result_bind_ok in H as (t1 & H1 & H). apply result_bind_ok in H as (t2 & H2 & [= <-]).
  assert (Htext : forall f, f <> "updated_at" -> f <> "created_at" ->
    secret_text (<["updated_at" := VFloat t2]> (<["created_at" := VFloat t1]> d)) f = secret_text d f).
  { intros f Hf1 Hf2. unfold secret_text. by rewrite !py_get_insert_ne. }
  rewrite !Htext, Hu by done. cbn. rewrite Hs. cbn. rewrite Hc. cbn. rewrite Hk. cbn.
  assert (Hnum : forall t v, _finite_timestamp v = Ok t -> _finite_timestamp (VFloat t) = Ok t).
  { clear. intros t v. unfold _finite_timestamp. destruct (nonneg_number v) as [f|] eqn:E; [|done].
    intros [= ->]. apply nonneg_number_spec in E as [E1 E2]. by rewrite nonneg_number_float. }
  record_fields. rewrite (Hnum _ _ H1). cbn. record_fields. rewrite (Hnum _ _ H2). cbn. f_equal.
  rewrite insert_insert_ne, insert_insert_eq by done.
  rewrite insert_insert_ne by done. by rewrite insert_insert_eq.
Qed.

Lemma view_loaded (w : world secret_mem) m : view w = Some m -> loaded m.
Proof.
  unfold view. destruct (file w) as [| |r].
  - destruct (fuse w); [done|]. intros [= <-]. apply map_Forall_empty.
  - done.
  - destruct (load_json_authority r) as [v|]; [|done]. cbn. unfold decode_secrets.
    destruct v as [| | | | | |d]; try done. destruct (py_get d "secrets") as [| | | | | |rs]; try done.
    destruct (check_all _ rs) as [[]|]; [|done]. intros [= <-] k r' Hr'. cbn in Hr'.
    unfold checked_secrets in Hr'. rewrite map_lookup_imap in Hr'. destruct (rs !! k) as [v|]; [|done].
    cbn in Hr'. destruct (validated_secret k v) as [r0|] eqn:E; [|done]. injection Hr' as <-.
    by eapply secret_validated_again.
Qed.

Lemma persist_secrets_ok (w : world secret_mem) u w' :
  persist_secrets w = (Ok u, w') -> loaded (mem w) -> view w' = Some (mem w).
Proof.
  unfold persist_secrets. intros Hr Hl. apply bind_ok in Hr as (m & w0 & [= <- <-] & Hr).
  apply bind_ok in Hr as ([] & w1 & _ & Hr).
  apply bind_ok in Hr as (r & w2 & [Hj|(e & w3 & _ & Hj)]%catch_ok & Hr); [|done].
  apply lift_ok in Hj as [Hj%load_json_authority_dump ->].
  apply bind_ok in Hr as ([] & w3 & _ & Hr). apply bind_ok in Hr as (u1 & w4 & _ & Hr).
  apply bind_ok in Hr as ([] & w5 & Hw & Hr). apply io_ok in Hw as (Hw & _). injection Hw as Hf _.
  apply bind_ok in Hr as ([] & w6 & Hc & Hr).
  assert (Hf6 : file w6 = file w5).
  { apply catch_ok in Hc as [Hc|(e & w7 & He & [_ ->]%ret_ok)].
    - apply io_ok in Hc as (Hc & _). by injection Hc.
    - by apply io_err in He as (_ & Hf7 & _). }
  apply io_ok in Hr as (Hr & _). injection Hr as Hf' _.
  apply (view_present _ r (af_encode (mem w))); [congruence|done|exact (decode_loaded _ Hl)].
Qed.

Lemma resolve_run u s (w : world secret_mem) m :
  no_faults w -> view w = Some m ->
  (resolve u s w).1 =
    match secrets m !! _key u s with
    | None => Err DestinationSecretNotFound
    | Some record =>
        match decrypt (match py_get record "ciphertext" with VStr c => c | _ => EmptyString end) with
        | Some text => Ok text | None => Err DestinationSecretError end
    end.
Proof.
  intros Hn Hv. unfold resolve.
  set (r := match secrets m !! _key u s with
            | None => Err DestinationSecretNotFound
            | Some record => Ok match py_get record "ciphertext" with VStr c => c | _ => EmptyString end end : result string).
  match goal with |- (?m0 ≫= _) w = _ => idtac | _ => idtac end.
  edestruct (locked_eval (B:=string) (fun _ => True)) as (w2 & Hr & _);
    [exact Hn|exact Hv|instantiate (1:=r); unfold r; by destruct (_ !! _)| |].
  2: { unfold mbind at 1, M_bind at 1. rewrite Hr. unfold r. destruct (_ !! _) as [rec|]; [|done].
       by destruct (decrypt _). }
  intros w1 Hm _ _ _. exists w1. split; [|done]. unfold mbind, M_bind, get_mem. rewrite Hm. unfold r.
  by destruct (_ !! _).
Qed.

(** A stored secret is the one that is resolved. After a successful [put], in every
    later world with the same file, the owner's name resolves to that text, and
    every name of another digest to what it resolved to before; the file holds only
    what [encrypt] made of the text. *)
Theorem stored_secret_is_resolved u s text now w d w1 w2 :
  (forall nonce m, decrypt (encrypt nonce m) = Some m) -> (forall nonce m, encrypt nonce m <> EmptyString) ->
  put u s text now w = (Ok d, w1) -> view w2 = view w1 -> no_faults w2 ->
  (resolve u s w2).1 = Ok text /\
  exists m, view w = Some m /\
    forall u' s', _key u' s' <> _key u s -> no_faults w -> (resolve u' s' w2).1 = (resolve u' s' w).1.
Proof.
  intros Hdec Hne Hput Hv2 Hn2. unfold put in Hput.
  apply bind_ok in Hput as ([] & w0 & [Hg ->]%guard_err_ok & Hput).
  apply orb_false_iff in Hg as [[Hu Hs]%orb_false_iff _].
  apply bind_ok in Hput as (current & wt & Ht & Hput).
  assert (Hcur : _finite_timestamp (VFloat current) = Ok current /\ view wt = view w).
  { destruct now as [v|].
    - apply lift_ok in Ht as [Ht ->]. split; [|done]. unfold _finite_timestamp in *.
      destruct (nonneg_number v) as [f|] eqn:E; [|done]. injection Ht as ->.
      apply nonneg_number_spec in E as [E1 E2]. by rewrite nonneg_number_float.
    - apply bind_ok in Ht as (t & w4 & Ht & [Hf ->]%lift_ok).
      apply time_time_ok in Ht as (_ & _ & Ef & Eu & _). split; [|unfold view; by rewrite Ef, Eu].
      unfold _finite_timestamp in *. destruct (nonneg_number (VFloat t)) as [f|] eqn:E; [|done]. injection Hf as ->.
      pose proof (nonneg_number_spec _ _ E) as [E1 E2]. by rewrite nonneg_number_float. }
  destruct Hcur as [Hcur Evt].
  apply bind_ok in Hput as (nonce & wn & Hnonce & Hput). cbv zeta in Hput.
  apply uuid4_ok in Hnonce as (_ & _ & Ef & Eu & _).
  assert (Evn : view wn = view w) by (rewrite <- Evt; unfold view; by rewrite Ef, Eu).
  apply locked_ok in Hput as (wl & Hvl & _ & _ & _ & _ & Hb). rewrite Evn in Hvl.
  apply bind_ok in Hb as (m & wm & [= <- <-] & Hb).
  apply bind_ok in Hb as (created & wc & Hc & Hb).
  assert (Hcr : wc = wl /\ _finite_timestamp (VFloat created) = Ok created).
  { destruct (secrets (mem wl) !! _) as [old|] eqn:E; [|by apply ret_ok in Hc as [-> ->]].
    apply lift_ok in Hc as [Hc ->]. split; [done|]. unfold _finite_timestamp in *.
    destruct (nonneg_number _) as [f|] eqn:En; [|done]. injection Hc as ->.
    apply nonneg_number_spec in En as [E1 E2]. by rewrite nonneg_number_float. }
  destruct Hcr as [-> Hcr]. apply bind_ok in Hb as ([] & wp & [= <-] & Hb).
  apply bind_ok in Hb as ([] & w3 & Hp & [_ ->]%ret_ok).
  set (rec := secret_record u s (encrypt nonce text) created current) in *.
  assert (Hl : loaded (SecretMem (<[_key u s := rec]> (secrets (mem wl))))).
  { intros k r. cbn. destruct (decide (k = _key u s)) as [->|Hk].
    - rewrite lookup_insert_eq. intros [= <-]. unfold rec, secret_record.
      rewrite ?list_to_map_cons. cbn [fst snd]. unfold validated_secret.
      unfold secret_text. record_fields. rewrite Hu. cbn. record_fields. rewrite Hs. cbn. record_fields.
      rewrite (proj2 (str_empty_false _) (Hne nonce text)). cbn. rewrite String.eqb_refl. cbn.
      record_fields. rewrite Hcr. cbn. record_fields. rewrite Hcur. done.
    - rewrite lookup_insert_ne by done. intros Hr. apply (view_loaded _ _ Hvl k r Hr). }
  pose proof (persist_secrets_ok _ _ _ Hp Hl) as Hv1. rewrite Hv1 in Hv2. split.
  - rewrite (resolve_run u s w2 _ Hn2 Hv2). cbn. rewrite lookup_insert_eq.
    unfold rec, secret_record. rewrite ?list_to_map_cons. cbn [fst snd]. record_fields. by rewrite Hdec.
  - exists (mem wl). split; [done|]. intros u' s' Hk Hn.
    rewrite (resolve_run u' s' w2 _ Hn2 Hv2), (resolve_run u' s' w _ Hn Hvl). cbn.
    by rewrite lookup_insert_ne by congruence.
Qed.
End fernet.

(** A toy cipher with the two laws, and a run with it. *)
Definition demo_encrypt (nonce plaintext : string) : string := String "!"%char plaintext.
Definition demo_decrypt (token : string) : option string :=
  match token with String _ s => Some s | EmptyString => None end.
Definition demo_secrets : world secret_mem :=
  World (SecretMem ∅) Missing false (Env (fun _ => of_Z 1000) 0 (fun _ => "nonce") 0 (fun _ => false) 0).

Example secret_run :
  let w1 := (put demo_encrypt "ann" "key-1" "s3cret" None demo_secrets).2 in
  ((resolve demo_decrypt "ann" "key-1" w1).1, (resolve demo_decrypt "bob" "key-1" w1).1,
   (delete_secret "ann" "key-1" w1).1, (configured "ann" "key-1" (delete_secret "ann" "key-1" w1).2).1) =
  (Ok "s3cret", Err DestinationSecretNotFound, Ok true, Ok false).
Proof. vm_compute. reflexivity. Qed.

Lemma stored_secret_is_resolved_witness :
  exists d w1, put demo_encrypt "ann" "key-1" "s3cret" None demo_secrets = (Ok d, w1) /\
    (resolve demo_decrypt "ann" "key-1" w1).1 = Ok "s3cret".
Proof.
  destruct (put demo_encrypt "ann" "key-1" "s3cret" None demo_secrets) as [[d|e] w1] eqn:E.
  - exists d, w1. split; [reflexivity|].
    apply (stored_secret_is_resolved demo_encrypt demo_decrypt "ann" "key-1" "s3cret" None demo_secrets d w1 w1).
    + intros nonce m. reflexivity.
    + intros nonce m. discriminate.
    + exact E.
    + reflexivity.
    + intros k. apply (f_equal snd) in E. cbn [snd] in E. subst w1. vm_compute. reflexivity.
  - exfalso. assert (Hok : is_ok (put demo_encrypt "ann" "key-1" "s3cret" None demo_secrets).1 = true)
      by (vm_compute; reflexivity). rewrite E in Hok. discriminate Hok.
Defined.
