(* ===== verification/NodeAuthority.v ===== *)
(** * The authority of the Nodes

    First half of [apps/control-api/node_internal.py]: the file of the Nodes with the
    ledger of their bootstrap tokens, the second file that keeps a consumed token
    consumed when the first could not be written, their checks and their protocol.
    Both files are written as in StateFile.v; they are only read when they exist. *)

From S2P Require Import Prelude PyFloat Sha256 PyValue Json Effects Authority PyText TextFacts Uuid IpAddress Url StateFile.

Definition NODE_STATUSES : list string := ["BOOTSTRAPPING"; "READY"; "STOPPING"; "STOPPED"; "FAILED"].
Definition NODE_DESIRED_STATES : list string := ["RUNNING"; "STOPPED"].
Definition NODE_EGRESS_MODES : list string := ["DIRECT_PUSH"; "RELAY_ONLY"].
Definition INGEST_STATUSES : list string :=
  ["OFFLINE"; "UNKNOWN"; "PENDING"; "ACCEPTED"; "WARNING"; "DEGRADED"; "REJECTED"].
Definition EGRESS_STATUSES : list string :=
  ["UNKNOWN"; "STARTING"; "CONNECTED"; "RECONNECTING"; "AUTH_FAILED"; "FAILED"; "STOPPED"].
Definition RELAY_CLIENT_STATUSES : list string := ["UNKNOWN"; "CONNECTED"; "DISCONNECTED"].

Definition _default_nodes : dict :=
  list_to_map [("nodes", VDict ∅); ("next_node_seq", VInt 1); ("tokens", VDict ∅)].
Definition _default_tokens : dict := {[ "tokens" := VDict ∅ ]}.

Definition text_in (v : value) (l : list string) : bool :=
  match v with VStr s => bool_decide (s ∈ l) | _ => false end.

(** ** Checks of one value *)
Definition node_nonempty_string (v : value) : result string :=
  match v with
  | VStr s => if str_empty s then Err NodeStateError else Ok s
  | _ => Err NodeStateError
  end.

Definition node_bool (v : value) : result bool :=
  match v with VBool b => Ok b | _ => Err NodeStateError end.

Definition _require_nonnegative_int (v : value) (minimum : Z) : result Z :=
  match v with
  | VInt n => if n <? minimum then Err NodeStateError else Ok n
  | _ => Err NodeStateError
  end.

(** [_require_finite_number(value, label, minimum=0)] *)
Definition _require_finite_number (v : value) : result float :=
  match nonneg_number v with Some f => Ok f | None => Err NodeStateError end.

(** [_reject_nonfinite_tree]: every number in the payload has a finite double. *)
Definition finite_number (v : value) : bool :=
  match number_as_float v with Some f => is_finite f | None => false end.

Fixpoint finite_tree (v : value) : bool :=
  match v with
  | VInt _ | VFloat _ => finite_number v
  | VList l => forallb finite_tree l
  | VDict d => map_fold (fun _ x acc => finite_tree x && acc) true d
  | _ => true
  end.

Definition _is_sha256 (v : value) : bool :=
  match v with VStr s => Nat.eqb (py_len s) 64 && all_hex s | _ => false end.

(** A field that may be missing, or that may be missing or [None]. *)
Definition when_present (record : dict) (check : value -> result unit) (field : string) : result unit :=
  match record !! field with Some v => check v | None => Ok tt end.
Definition when_given (record : dict) (check : value -> result unit) (field : string) : result unit :=
  match record !! field with Some VNull | None => Ok tt | Some v => check v end.

Definition finite_field (v : value) : result unit := _require_finite_number v ;; Ok tt.
Definition bool_field (v : value) : result unit := node_bool v ;; Ok tt.
Definition count_field (v : value) : result unit := _require_nonnegative_int v 0 ;; Ok tt.

(** ** Observations, events and records *)
Definition _validate_observation (observation : value) (statuses bool_fields int_fields finite_fields : list string)
    : result unit :=
  match observation with
  | VNull => Ok tt
  | VDict o =>
      raise_if (negb (text_in (py_get o "status") statuses)) NodeStateError ;;
      finite_field (py_get o "observed_at") ;;
      check_each (when_present o bool_field) bool_fields ;;
      check_each (when_given o count_field) int_fields ;;
      check_each (when_given o finite_field) finite_fields
  | _ => Err NodeStateError
  end.

(** The loop over the events: the number of the last one. *)
Fixpoint node_events (previous_sequence : Z) (events : list value) : result Z :=
  match events with
  | [] => Ok previous_sequence
  | VDict event :: rest =>
      sequence ← _require_nonnegative_int (py_get event "sequence") 1;
      raise_if (sequence <=? previous_sequence) NodeStateError ;;
      node_nonempty_string (py_get event "type") ;;
      finite_field (py_get event "occurred_at") ;;
      raise_if (negb (is_dict (py_get event "payload"))) NodeStateError ;;
      node_events sequence rest
  | _ :: _ => Err NodeStateError
  end.

(** The number of the last event, [0] when there is none. *)
Definition _validate_node_events (events : value) : result Z :=
  match events with
  | VNull => Ok 0
  | VList l => node_events 0 l
  | _ => Err NodeStateError
  end.

(** The number in ["node-<number>"]; the decimal digits of other scripts, which
    [str.isdecimal] also accepts, are none here. *)
Definition issued_sequence (node_id : string) : Z :=
  match partition "-" node_id with
  | (prefix, Some suffix) =>
      if String.eqb prefix "node" && negb (str_empty suffix) && all_chars is_digit suffix
      then default 0 (first_digit suffix) else 0
  | (_, None) => 0
  end.

(** One turn of the loop over the Nodes. *)
Definition validate_node (node_id : string) (v : value) : result unit :=
  match v with
  | VDict node =>
      raise_if (negb (py_eq (py_get node "node_id") (VStr node_id))) NodeStateError ;;
      check_each (fun f => node_nonempty_string (py_get node f) ;; Ok tt)
        ["session_id"; "provider_server_id"; "boot_id"; "agent_version"] ;;
      raise_if (negb (_is_sha256 (py_get node "access_token_sha256"))) NodeStateError ;;
      raise_if (negb (text_in (py_get node "status") NODE_STATUSES)) NodeStateError ;;
      raise_if (negb (text_in (py_get node "desired_state") NODE_DESIRED_STATES)) NodeStateError ;;
      when_present node (fun v => raise_if (negb (text_in v NODE_EGRESS_MODES)) NodeStateError) "egress_mode" ;;
      when_given node (fun v => node_nonempty_string v ;; Ok tt) "destination_id" ;;
      finite_field (py_get node "absolute_deadline") ;;
      finite_field (py_get node "created_at") ;;
      when_given node finite_field "last_heartbeat_at" ;;
      check_each (when_present node bool_field)
        ["session_assigned"; "active_publisher"; "egress_connected"; "ingest_ever_online";
         "egress_ever_connected"; "relay_client_ever_connected"] ;;
      check_each (when_given node finite_field)
        ["cpu_percent"; "memory_mb"; "deadline_remaining_seconds"; "media_unhealthy_since";
         "pipeline_failure_latched_at"] ;;
      last_sequence ← _validate_node_events (py_get node "events");
      when_present node (fun v =>
        next ← _require_nonnegative_int v 1;
        raise_if (next <=? last_sequence) NodeStateError) "next_event_seq" ;;
      _validate_observation (py_get node "ingest") INGEST_STATUSES ["online"; "enforced"]
        ["max_bitrate_bps"] ["bitrate_bps"] ;;
      _validate_observation (py_get node "egress") EGRESS_STATUSES ["connected"]
        ["attempt"; "rendered_buffers"] ["next_retry_at"] ;;
      _validate_observation (py_get node "relay_client") RELAY_CLIENT_STATUSES ["connected"]
        ["reader_count"] []
  | _ => Err NodeStateError
  end.

Definition highest_issued (nodes : dict) : Z :=
  map_fold (fun node_id _ highest => Z.max highest (issued_sequence node_id)) 0 nodes.

Definition _validate_nodes (payload : dict) : result unit :=
  match py_get payload "nodes" with
  | VDict nodes =>
      raise_if (negb (finite_tree (VDict payload))) NodeStateError ;;
      next_node_seq ← _require_nonnegative_int (py_get payload "next_node_seq") 1;
      check_all validate_node nodes ;;
      raise_if (next_node_seq <=? highest_issued nodes) NodeStateError
  | _ => Err NodeStateError
  end.

(** ** Bootstrap tokens *)
Definition canonical_fields : list string :=
  ["bootstrap_request_id"; "provider_server_id"; "boot_id"; "node_access_token_sha256"].

Definition has_field (record : dict) (field : string) : bool := bool_decide (is_Some (record !! field)).

Definition same_binding (node record : dict) : bool :=
  py_eq (py_get node "session_id") (py_get record "session_id") &&
  py_eq (py_get node "provider_server_id") (py_get record "provider_server_id") &&
  py_eq (py_get node "boot_id") (py_get record "boot_id") &&
  py_eq (py_get node "access_token_sha256") (py_get record "node_access_token_sha256").

(** One turn of the loop over the tokens; [nodes] is there in the file of the Nodes. *)
Definition validate_token (nodes : option dict) (digest : string) (v : value) : result unit :=
  match v with
  | VDict record =>
      raise_if (negb (_is_sha256 (VStr digest))) NodeStateError ;;
      raise_if (negb (match py_get record "consumed" with VBool b => b | _ => false end)) NodeStateError ;;
      finite_field (py_get record "consumed_at") ;;
      node_id ← node_nonempty_string (py_get record "node_id");
      node_nonempty_string (py_get record "session_id") ;;
      let present := List.filter (has_field record) canonical_fields in
      raise_if (negb (bool_decide (present = [])) && negb (bool_decide (present = canonical_fields))) NodeStateError ;;
      if bool_decide (present = []) then Ok tt
      else
        check_each (fun f => node_nonempty_string (py_get record f) ;; Ok tt)
          ["bootstrap_request_id"; "provider_server_id"; "boot_id"] ;;
        raise_if (negb (_is_sha256 (py_get record "node_access_token_sha256"))) NodeStateError ;;
        match nodes with
        | None => Ok tt
        | Some nodes =>
            match py_get nodes node_id with
            | VDict node => raise_if (negb (same_binding node record)) NodeStateError
            | _ => Err NodeStateError
            end
        end
  | _ => Err NodeStateError
  end.

Definition _validate_tokens (payload : dict) : result unit :=
  match py_get payload "tokens" with
  | VDict token_records => check_all (validate_token (as_dict (py_get payload "nodes"))) token_records
  | _ => Err NodeStateError
  end.

Definition validate_node_authority (payload : dict) : result unit :=
  _validate_nodes payload ;; _validate_tokens payload.

(** ** The two files *)
Definition nodes_format : StateFormat :=
  {| sf_error := NodeStateError; sf_default := _default_nodes; sf_validate := validate_node_authority |}.
Definition tokens_format : StateFormat :=
  {| sf_error := NodeStateError; sf_default := _default_tokens; sf_validate := _validate_tokens |}.

(** [path.exists()] *)
Definition file_exists : FM bool :=
  io id ;; f ← get_file; mret match f with Missing => false | _ => true end.

(** [read_json(path, default, required=True)] *)
Definition read_required : FM dict :=
  catch (io id) (fun _ => raise NodeStateError) ;;        (* open, read *)
  f ← get_file;
  match f with
  | Missing | Unparsable => raise NodeStateError
  | Present r =>
      v ← catch (lift (load_json_authority r)) (fun _ => raise NodeStateError);
      match v with VDict d => mret d | _ => raise NodeStateError end
  end.

Record node_files : Type := NodeFiles { nodes_file : world unit; tokens_file : world unit }.
Abbreviation NM := (M node_files).

Definition on_nodes {A} (m : FM A) : NM A := fun s =>
  let '(r, w) := m (nodes_file s) in (r, NodeFiles w (tokens_file s)).
Definition on_tokens {A} (m : FM A) : NM A := fun s =>
  let '(r, w) := m (tokens_file s) in (r, NodeFiles (nodes_file s) w).

(** What a read makes of the two ledgers: a record that the second file has as
    consumed and the first has not. *)
Definition is_consumed (v : value) : bool :=
  match v with VDict record => truthy (py_get record "consumed") | _ => false end.

Definition merge_fuse (tokens fuse_records : dict) : dict :=
  base.filter (fun p => is_consumed p.2 = true) tokens ∪
  base.filter (fun p => is_consumed p.2 = true) fuse_records ∪ tokens.

Definition with_fuse (authority legacy : dict) : dict :=
  <["tokens" := VDict (merge_fuse (dict_field authority "tokens") (dict_field legacy "tokens"))]> authority.

Definition read_fuse : NM dict :=
  legacy ← on_tokens read_required; lift (_validate_tokens legacy) ;; mret legacy.

Definition _read_authority : NM dict :=
  there ← on_nodes file_exists;
  if negb there then on_nodes was_initialized ;; raise NodeStateError
  else
    authority ← on_nodes read_required;
    lift (validate_node_authority authority) ;;
    fuse_there ← on_tokens file_exists;
    if fuse_there : bool then legacy ← read_fuse; mret (with_fuse authority legacy)
    else
      was ← on_tokens was_initialized;
      if was : bool then raise NodeStateError else mret authority.

Definition _write_authority (authority : dict) : NM unit :=
  lift (validate_node_authority authority) ;;
  on_nodes (@atomic_write_json nodes_format authority).

Definition fuse_record (node_id session_id : string) (consumed_at : float) : dict :=
  list_to_map
    [("consumed", VBool true); ("consumed_at", VFloat consumed_at); ("node_id", VStr node_id);
     ("session_id", VStr session_id)].

Definition _write_legacy_token_fuse (digest node_id session_id : string) (consumed_at : float) : NM unit :=
  consumed_at ← lift (_require_finite_number (VFloat consumed_at));
  there ← on_tokens file_exists;
  legacy ← if there : bool then read_fuse else mret _default_tokens;
  let legacy :=
    <["tokens" := VDict (<[digest := VDict (fuse_record node_id session_id consumed_at)]>
                           (dict_field legacy "tokens"))]> legacy in
  lift (_validate_tokens legacy) ;;
  on_tokens (@atomic_write_json tokens_format legacy).

(** [with node_state_lock(...)], for a body over any state that has the files. *)
Definition lock_errors {W A} (m : M W A) : M W A :=
  catch m (fun e => match e with OSError => raise NodeStateError | _ => raise e end).

Definition node_state_lock {A} (body : NM A) : NM A :=
  lock_errors (on_nodes (io id) ;; finally body (on_nodes (io id))).

Definition ensure_state : NM unit :=
  node_state_lock (
    on_nodes (io id) ;;
    there ← on_nodes file_exists;
    if negb there then
      lost ← on_nodes was_initialized;
      lost ← if lost : bool then mret true
             else fuse_there ← on_tokens file_exists;
                  (if fuse_there : bool then mret true else on_tokens was_initialized);
      if lost : bool then raise NodeStateError else _write_authority _default_nodes
    else
      authority ← on_nodes read_required;
      lift (_validate_nodes authority) ;;
      match py_get authority "tokens" with
      | VDict _ => lift (_validate_tokens authority) ;; on_nodes mark_initialized
      | _ =>
          fuse_there ← on_tokens file_exists;
          if fuse_there : bool then
            legacy ← read_fuse;
            _write_authority (<["tokens" := VDict (dict_field legacy "tokens")]> authority)
          else if negb (bool_decide (dict_field authority "nodes" = ∅)) then raise NodeStateError
          else _write_authority (<["tokens" := VDict ∅]> authority)
      end).

(** [read_node_authority_snapshot] *)
Definition read_node_authority_snapshot : FM dict :=
  authority ← read_required; lift (validate_node_authority authority) ;; mret authority.
