(* ===== verification/NodeEvents.v ===== *)
(** * What a Node reports: events and media health

    The middle of [apps/control-api/node_internal.py], from the observation of a
    heartbeat to the events of the Node, and [pipeline_health.py], which turns a
    media stack that stays down into one failure of the Session. A Node record is
    the dictionary that the handlers change in place; here it is passed along. *)

From S2P Require Import Prelude PyFloat Sha256 PyValue Json Effects Authority PyText TextFacts Uuid IpAddress Url SessionState SessionStore StateFile NodeAuthority.

Definition obs_dict (previous : value) : dict := default ∅ (as_dict previous).
Definition obs_bool (observation : dict) (field : string) : bool :=
  truthy (py_get_or observation field (VBool false)).
Definition obs_is (observation : dict) (field name : string) : bool := py_eq (py_get observation field) (VStr name).

(** ** Types of events *)
Definition _ingest_event_types (previous : value) (current : dict) (had_connection : bool) : list string :=
  let previous := obs_dict previous in
  let previous_online := obs_bool previous "online" in
  let current_online := obs_bool current "online" in
  if previous_online && negb current_online then ["ingest.disconnected"]
  else
    let connected := [if had_connection then "ingest.reconnected" else "ingest.connected"; "ingest.format_detected"] in
    let events :=
      if current_online && negb previous_online then connected
      else if current_online && negb (py_eq (py_get previous "source_id") (py_get current "source_id")) then connected
      else [] in
    events ++
    (if obs_is current "status" "REJECTED" && negb (obs_is previous "status" "REJECTED") then ["ingest.rejected"]
     else if obs_is current "status" "DEGRADED" && negb (obs_is previous "status" "DEGRADED") then ["ingest.degraded"]
     else if obs_is previous "status" "DEGRADED" && current_online &&
             text_in (py_get current "status") ["PENDING"; "ACCEPTED"; "WARNING"] then ["ingest.recovered"]
     else if negb (py_eq (py_get current "status") (py_get previous "status")) && bool_decide (events = [])
     then ["ingest.policy_changed"] else []).

Definition egress_mapping (status : string) : list string :=
  if String.eqb status "RECONNECTING" then ["egress.reconnecting"]
  else if String.eqb status "AUTH_FAILED" then ["egress.auth_failed"]
  else if String.eqb status "FAILED" then ["egress.failed"]
  else if String.eqb status "STOPPED" then ["egress.stopped"] else [].

(** The statuses are texts: requests and stored observations are checked. *)
Definition _egress_event_types (previous : value) (current : dict) (had_connection : bool) : list string :=
  let previous := obs_dict previous in
  let previous_status := name_text (py_get_or previous "status" (VStr EmptyString)) in
  let current_status := name_text (py_get_or current "status" (VStr EmptyString)) in
  let previous_connected := obs_bool previous "connected" in
  let current_connected := obs_bool current "connected" in
  if String.eqb current_status previous_status && Bool.eqb current_connected previous_connected then []
  else if String.eqb current_status "STARTING" then ["egress.starting"]
  else if current_connected && String.eqb current_status "CONNECTED"
  then [if had_connection then "egress.recovered" else "egress.connected"]
  else
    (if previous_connected && negb (String.eqb current_status "STOPPED") then ["egress.disconnected"] else []) ++
    egress_mapping current_status.

Definition relay_event_types (node : dict) (previous : value) (current : dict) : list string :=
  let previous_connected := obs_bool (obs_dict previous) "connected" in
  let current_connected := obs_bool current "connected" in
  if current_connected && negb previous_connected
  then [if truthy (py_get_or node "relay_client_ever_connected" (VBool false))
        then "relay.client.reconnected" else "relay.client.connected"]
  else if negb current_connected && previous_connected then ["relay.client.disconnected"] else [].

(** ** The log of a Node *)
Definition NODE_EVENT_LIMIT : nat := 100.

Definition node_event (sequence : Z) (event_type : string) (occurred_at : float) (payload : dict) : value :=
  VDict (list_to_map
    [("sequence", VInt sequence); ("type", VStr event_type); ("occurred_at", VFloat occurred_at);
     ("payload", VDict payload)]).

Fixpoint new_events (sequence : Z) (event_types : list string) (occurred_at : float) (payload : dict) : list value :=
  match event_types with
  | [] => []
  | t :: rest => node_event sequence t occurred_at payload :: new_events (sequence + 1) rest occurred_at payload
  end.

(** [list(node.get("events", []))] *)
Definition node_log (node : dict) : result (list value) :=
  match node !! "events" with
  | None => Ok []
  | Some (VList l) => Ok l
  | Some _ => Err TypeError
  end.

Definition next_sequence (node : dict) (events : list value) : result Z :=
  match node !! "next_event_seq" with
  | Some v => py_int v
  | None =>
      match last events with
      | Some (VDict event) => n ← py_int (py_get event "sequence"); Ok (n + 1)
      | Some _ => Err TypeError
      | None => Ok 1
      end
  end.

(** The common part of the three [_append_*_events], once there are events. *)
Definition append_node_events (node : dict) (event_types : list string) (payload : dict) (occurred_at : float)
    : result dict :=
  event_occurred_at ← _require_finite_number (VFloat occurred_at);
  events ← node_log node;
  sequence ← next_sequence node events;
  Ok (<["next_event_seq" := VInt (sequence + Z.of_nat (length event_types))]>
       (<["events" := VList (py_last NODE_EVENT_LIMIT (events ++ new_events sequence event_types event_occurred_at payload))]>
         node)).

Definition ingest_event_payload (current : dict) : dict :=
  list_to_map
    [("status", py_get current "status"); ("source_type", py_get current "source_type");
     ("source_id", py_get current "source_id"); ("bitrate_bps", py_get current "bitrate_bps");
     ("tracks", py_get_or current "tracks" (VList [])); ("quality", py_get current "quality");
     ("reasons", py_get_or current "reasons" (VList [])); ("warnings", py_get_or current "warnings" (VList []));
     ("enforced", py_get_or current "enforced" (VBool false))].

(** The changed Node and the types of the events. *)
Definition _append_ingest_events (node : dict) (previous : value) (current : dict) (occurred_at : float)
    : result (dict * list string) :=
  let event_types := _ingest_event_types previous current
                       (truthy (py_get_or node "ingest_ever_online" (VBool false))) in
  if bool_decide (event_types = []) then Ok (node, [])
  else
    node ← append_node_events node event_types (ingest_event_payload current) occurred_at;
    Ok (if truthy (py_get current "online") then <["ingest_ever_online" := VBool true]> node else node, event_types).

Definition _egress_payload (node_id : string) (current : dict) : dict :=
  list_to_map
    [("node_id", VStr node_id); ("status", py_get current "status");
     ("connected", VBool (obs_bool current "connected")); ("attempt", py_get current "attempt");
     ("reason_code", py_get current "reason_code"); ("rendered_buffers", py_get current "rendered_buffers");
     ("next_retry_at", py_get current "next_retry_at"); ("destination_scheme", py_get current "destination_scheme");
     ("destination_host", py_get current "destination_host"); ("observed_at", py_get current "observed_at")].

(** [str(node.get("node_id", ""))] of a validated Node *)
Definition node_text (node : dict) (field : string) : string :=
  match py_get node field with VStr s => s | _ => EmptyString end.

Definition _append_egress_events (node : dict) (previous : value) (current : dict) (occurred_at : float)
    : result (dict * list string) :=
  let event_types := _egress_event_types previous current
                       (truthy (py_get_or node "egress_ever_connected" (VBool false))) in
  if bool_decide (event_types = []) then Ok (node, [])
  else
    node ← append_node_events node event_types (_egress_payload (node_text node "node_id") current) occurred_at;
    Ok (if truthy (py_get current "connected") && obs_is current "status" "CONNECTED"
        then <["egress_ever_connected" := VBool true]> node else node, event_types).

Definition _relay_client_payload (node_id : string) (current : dict) : result dict :=
  let raw_count := py_get_or current "reader_count" (VInt 0) in
  reader_count ← py_int (if truthy raw_count then raw_count else VInt 0);
  Ok (list_to_map
    [("node_id", VStr node_id); ("status", py_get current "status");
     ("connected", VBool (obs_bool current "connected")); ("reader_count", VInt (Z.max 0 reader_count));
     ("reason_code", py_get current "reason_code"); ("observed_at", py_get current "observed_at")]).

Definition _append_relay_client_events (node : dict) (previous : value) (current : dict) (occurred_at : float)
    : result (dict * list string) :=
  let event_types := relay_event_types node previous current in
  if bool_decide (event_types = []) then Ok (node, [])
  else
    payload ← _relay_client_payload (node_text node "node_id") current;
    node ← append_node_events node event_types payload occurred_at;
    Ok (if obs_bool current "connected" then <["relay_client_ever_connected" := VBool true]> node else node, event_types).

(** ** Media health *)
Definition DEFAULT_MEDIA_HEALTH_FAILURE_GRACE_SECONDS : float := of_Z 30.
Definition _FATAL_MEDIA_HEALTH : list string := ["stopped"; "failed"; "crashed"].

(** [max(0.0, x)], which is [0.0] for a NaN. *)
Definition at_least_zero (x : float) : float := if flt fzero x then x else fzero.

Definition media_health_failure_grace_seconds (env : environ) : float :=
  at_least_zero (default DEFAULT_MEDIA_HEALTH_FAILURE_GRACE_SECONDS
    (getenv_float env "NODE_MEDIA_HEALTH_FAILURE_GRACE_SECONDS" DEFAULT_MEDIA_HEALTH_FAILURE_GRACE_SECONDS)).

Definition _validated_observed_at (v : value) : result float :=
  match nonneg_number v with Some f => Ok f | None => Err ValueError end.

(** [s.upper()] of ASCII letters; the status has passed the pattern of the request. *)
Definition upper_ascii (c : Ascii.ascii) : Ascii.ascii :=
  let n := byte_code c in
  if (97 <=? n) && (n <=? 122) then Ascii.ascii_of_N (Z.to_N (n - 32)) else c.
Fixpoint py_upper (s : string) : string :=
  match s with EmptyString => EmptyString | String c s' => String (upper_ascii c) (py_upper s') end.

(** What one observation does to the Node before the Session is looked at: the changed
    Node and, when the failure is to be latched, since when it lasts. *)
Definition health_step (node : dict) (node_status media_health : string) (current grace : float)
    : dict * option float :=
  let normalized_health := py_lower (py_strip media_health) in
  let explicitly_failed := String.eqb (py_upper (py_strip node_status)) "FAILED" in
  if String.eqb normalized_health "running"
  then (delete "media_failure_reason" (delete "media_unhealthy_since" node), None)
  else if negb explicitly_failed && negb (bool_decide (normalized_health ∈ _FATAL_MEDIA_HEALTH))
  then (node, None)
  else
    let since :=
      match number_as_float (py_get node "media_unhealthy_since") with
      | Some since => if flt current since then None else Some since
      | None => None
      end in
    let node :=
      match since with
      | Some _ => node
      | None => <["media_unhealthy_since" := VFloat current]> node
      end in
    let unhealthy_since := default current since in
    let node := <["media_failure_reason" := VStr "PIPELINE_CRASHED"]> node in
    if negb explicitly_failed && flt (fsub current unhealthy_since) grace then (node, None)
    else (node, Some unhealthy_since).

Definition latch_changes : dict :=
  list_to_map
    [("cleanup_pending", VBool true); ("failure_reason", VStr "media pipeline remained unavailable");
     ("failure_reason_code", VStr "PIPELINE_CRASHED")].

Definition latch_payload (node_id from_state media_health : string) (unhealthy_since : float) : dict :=
  list_to_map
    [("node_id", VStr node_id); ("from_state", VStr from_state); ("to_state", VStr "FAILED_CLEANUP");
     ("cleanup_pending", VBool true); ("media_health", VStr (py_take 100 media_health));
     ("unhealthy_since", VFloat unhealthy_since)].

Definition latched_node (node : dict) (current : float) : dict :=
  <["pipeline_failure_latched_at" := VFloat current]> (<["desired_state" := VStr "STOPPED"]> node).

(** The Node as it is left, and what the call returned or raised: changes of the Node
    made before an exception stay. *)
Definition apply_pipeline_health (node : dict) (node_id session_id node_status media_health : string)
    (observed_at : value) (grace : float) : SM (dict * result bool) :=
  match _validated_observed_at observed_at with
  | Err e => mret (node, Err e)
  | Ok current =>
      let '(node, latch) := health_step node node_status media_health current grace in
      match latch with
      | None => mret (node, Ok false)
      | Some unhealthy_since => fun w =>
          match get session_id w with
          | (Err e, w1) => (Ok (node, Err e), w1)
          | (Ok None, w1) => (Ok (node, Err KeyError), w1)
          | (Ok (Some session), w1) =>
              if negb (is_null (py_get session "node_id") || py_eq (py_get session "node_id") (VStr node_id))
              then (Ok (node, Err RuntimeError), w1)
              else
                let from_state := status_of session in
                if negb (in_set from_state ACTIVE_STATES) then (Ok (node, Ok false), w1)
                else
                  match transition session_id "FAILED_CLEANUP" (Some ACTIVE_STATES) latch_changes w1 with
                  | (Err e, w2) => (Ok (node, Err e), w2)
                  | (Ok _, w2) =>
                      let node := latched_node node current in
                      match append_event session_id "session.failure_detected" (Some "PIPELINE_CRASHED")
                              (Some (latch_payload node_id from_state media_health unhealthy_since)) "node-agent"
                              (Some (VFloat current)) w2 with
                      | (Err e, w3) => (Ok (node, Err e), w3)
                      | (Ok _, w3) => (Ok (node, Ok true), w3)
                      end
                  end
          end
      end
  end.
