(* ===== verification/NodeControl.v ===== *)
(** * The control plane and its Nodes

    Last part of [apps/control-api/node_internal.py]: who may call, the bootstrap of
    a Node, its heartbeats, and the stop of an operator. These handlers bring the
    stores together: the Node authority, the Sessions, the catalog of destinations and
    the secrets of destinations are the four parts of [node_site]. An
    [HTTPException] carries its status code.

    The text of the operator's token file ([_read_admin_token_file]) is an argument:
    [None] stands for a file that cannot be read safely. *)

From S2P Require Import Prelude PyFloat Sha256 PyValue Json Effects Authority PyText TextFacts Uuid IpAddress Url EgressDestination SessionState SessionStore StateFile AssetUpload ImageProbe Catalog SecretStore NodeAuthority NodeEvents.

Record node_site : Type := NodeSite {
  site_nodes : node_files;
  site_sessions : world session_mem;
  site_catalog : world unit;
  site_secrets : world secret_mem
}.

Abbreviation TM := (M node_site).

Definition on_files {A} (m : NM A) : TM A := fun s =>
  let '(r, f) := m (site_nodes s) in (r, NodeSite f (site_sessions s) (site_catalog s) (site_secrets s)).
Definition on_sessions {A} (m : SM A) : TM A := fun s =>
  let '(r, w) := m (site_sessions s) in (r, NodeSite (site_nodes s) w (site_catalog s) (site_secrets s)).
Definition on_catalog {A} (m : FM A) : TM A := fun s =>
  let '(r, w) := m (site_catalog s) in (r, NodeSite (site_nodes s) (site_sessions s) w (site_secrets s)).
Definition on_secrets {A} (m : KM A) : TM A := fun s =>
  let '(r, w) := m (site_secrets s) in (r, NodeSite (site_nodes s) (site_sessions s) (site_catalog s) w).

(** [with node_state_lock(...)] around a body that also uses the other stores. *)
Definition site_lock {A} (body : TM A) : TM A :=
  lock_errors (on_files (on_nodes (io id)) ;; finally body (on_files (on_nodes (io id)))).

Record BootstrapRequest : Type := MakeBootstrap {
  req_provider_server_id : string;
  req_boot_id : string;
  req_agent_version : string;
  bootstrap_request_id : string;
  req_node_access_token : string;
  req_public_address : option string;
  req_private_address : option string
}.

Record HeartbeatRequest : Type := MakeHeartbeat {
  req_status : string;
  req_media_health : string;
  req_active_publisher : bool;
  req_egress_connected : bool;
  req_cpu_percent : option float;
  req_memory_mb : option float;
  req_software_version : option string;
  req_deadline_remaining : option float;
  req_ingest : option dict;
  req_egress : option dict;
  req_relay_client : option dict
}.

Definition hash_token (token : string) : string := sha256_hex token.

(** The texts between the commas that are not blank. *)
Definition listed_tokens (raw : string) : list string :=
  List.filter (fun s => negb (str_empty s)) (py_strip <$> split_on "," raw).

Definition bearer_prefix : string := "Bearer ".

Definition _bearer (authorization : option string) : result string :=
  match authorization with
  | None => Err (HTTPException 401)
  | Some text =>
      raise_if (negb (String.prefix bearer_prefix text)) (HTTPException 401) ;;
      let token := py_strip (tail_text (String.length bearer_prefix) text) in
      raise_if (str_empty token) (HTTPException 401) ;;
      Ok token
  end.

(** [_require_node_access]: the digest of a validated Node is never empty. *)
Definition _require_node_access (node : dict) (authorization : option string) : result unit :=
  token ← _bearer authorization;
  let expected := node_text node "access_token_sha256" in
  raise_if (str_empty expected || negb (String.eqb expected (hash_token token))) (HTTPException 401).

Definition is_node_error (e : exn) : bool :=
  match e with
  | KeyError | RuntimeError | SessionStateError | InvalidTransition | EntitlementExceeded
  | MediaControlIdempotencyConflict | MediaControlVersionConflict _ | MediaControlNotRunning
  | ProvisioningInProgress | OrphanCleanupInProgress | NodeStateError | CatalogStateError | CatalogNotFound
  | DestinationSecretError | DestinationSecretConfigurationError | DestinationSecretNotFound => true
  | _ => false
  end.

Section control.
Context (nfkc : string -> string) (decrypt : string -> option string) (secret_store_configured : bool)
  (env : environ) (admin_token_file : option string) (exc_text : exn -> string)
  (recovery_stable_seconds : float).

Definition getenv (name dflt : string) : string := default dflt (env name).

Definition configured_token_digests : list string :=
  hash_token <$> listed_tokens (getenv "NODE_BOOTSTRAP_TOKENS" EmptyString).

Definition configured_admin_token_digests : result (list string) :=
  let values := listed_tokens (getenv "NODE_INTERNAL_ADMIN_TOKENS" EmptyString) in
  if str_empty (py_strip (getenv "NODE_INTERNAL_ADMIN_TOKEN_FILE" EmptyString)) then Ok (hash_token <$> values)
  else match admin_token_file with
       | None => Err (HTTPException 503)
       | Some text =>
           let token := py_strip text in
           Ok (hash_token <$> (if str_empty token then values else values ++ [token]))
       end.

Definition _require_admin_access (authorization : option string) : result unit :=
  token ← _bearer authorization;
  configured ← configured_admin_token_digests;
  raise_if (negb (bool_decide (hash_token token ∈ configured))) (HTTPException 401).

(** [for node in nodes.values(): if its digest is the supplied one: break] *)
Definition node_with_digest (nodes : dict) (supplied : string) : option dict :=
  match List.filter (fun node => negb (str_empty (node_text node "access_token_sha256")) &&
                       String.eqb (node_text node "access_token_sha256") supplied)
          (omap (fun p => as_dict p.2) (sorted_records nodes)) with
  | node :: _ => Some node
  | [] => None
  end.

Definition require_assigned_node (authorization : option string) (session_id : string) : NM dict :=
  token ← lift (_bearer authorization);
  node_state_lock (
    authority ← _read_authority;
    match node_with_digest (dict_field authority "nodes") (hash_token token) with
    | None => raise (HTTPException 401)
    | Some node =>
        guard_err (negb (truthy (py_get node "session_assigned")) ||
                   negb (String.eqb (node_text node "session_id") session_id) ||
                   negb (String.eqb (name_text (py_get_or node "desired_state" (VStr "RUNNING"))) "RUNNING"))
          (HTTPException 401) ;;
        mret node
    end).

(** ** Bootstrap *)

(** [f"node-{seq:04d}"] of a number that is not negative *)
Definition node_name (seq : Z) : string :=
  let digits := pretty.pretty seq in
  String.append "node-" (String.append (String.concat "" (repeat "0"%string (4 - String.length digits))) digits).

(** The id, and the authority with the next number. *)
Definition _issue_node_id (state : dict) : result (string * dict) :=
  seq ← py_int (py_get_or state "next_node_seq" (VInt 1));
  Ok (node_name seq, <["next_node_seq" := VInt (seq + 1)]> state).

Definition provider_mode : result string :=
  let mode := py_lower (py_strip (getenv "IRLIGHT_PROVIDER" "fake")) in
  raise_if (negb (bool_decide (mode ∈ ["fake"; "conoha"]))) RuntimeError ;;
  Ok mode.

Definition _require_session_assignment : result bool :=
  match env "NODE_BOOTSTRAP_REQUIRE_SESSION_ASSIGNMENT" with
  | Some configured => Ok (negb (bool_decide (py_lower (py_strip configured) ∈ ["0"; "false"; "no"; "off"])))
  | None => mode ← provider_mode; Ok (String.eqb mode "conoha")
  end.

Definition _resolve_assigned_session (provider_server_id : string) : TM (option dict) :=
  matches ← on_sessions (find_by_provider_server_id provider_server_id (Some ACTIVE_STATES));
  match matches with
  | _ :: _ :: _ => raise (HTTPException 409)
  | [session] => mret (Some session)
  | [] =>
      required ← lift _require_session_assignment;
      if required : bool then raise (HTTPException 409) else mret None
  end.

(** [default_destination_secret_store()]: its construction reads the file once. *)
Definition open_secret_store : KM unit :=
  guard_err (negb secret_store_configured) DestinationSecretConfigurationError ;; locked (mret tt).

Definition secret_errors {A} (m : KM A) : KM A :=
  catch m (fun e => match e with
                    | DestinationSecretConfigurationError => raise (HTTPException 503)
                    | DestinationSecretNotFound => raise (HTTPException 409)
                    | DestinationSecretError => raise (HTTPException 500)
                    | _ => raise e
                    end).

(** The URL to publish to and the address that was verified; [assigned_session] is a
    validated record, whose texts are strings. *)
Definition _resolve_egress_delivery (assigned_session : option dict) : TM (string * option string) :=
  let from_environment :=
    (getenv "NODE_EGRESS_URL" EmptyString, env "NODE_EGRESS_VERIFIED_PEER_IP") in
  match assigned_session with
  | None => mret from_environment
  | Some session =>
      if py_eq (py_get session "egress_mode") (VStr "RELAY_ONLY") then mret (EmptyString, None)
      else if negb (truthy (py_get session "destination_id")) then mret from_environment
      else
        let user_id := name_text (py_get_or session "user_id" (VStr EmptyString)) in
        destination ← on_catalog (
          catch (get_destination nfkc (name_text (py_get session "destination_id")) user_id)
                (fun e => match e with CatalogNotFound => raise (HTTPException 409) | _ => raise e end));
        guard_err (negb (py_eq (py_get_or destination "enabled" (VBool true)) (VBool true))) (HTTPException 409) ;;
        guard_err (negb (py_eq (py_get destination "verification_status") (VStr "VERIFIED"))) (HTTPException 409) ;;
        secret ← on_secrets (secret_errors (
          open_secret_store ;; resolve decrypt user_id (node_text destination "secret_ref")));
        let transport := default ∅ (as_dict (py_get destination "verification_transport")) in
        let peer_ip := py_strip (match py_get transport "peer_ip" with VStr s => s | _ => EmptyString end) in
        url ← lift (match build_egress_url nfkc destination secret with
                    | Err EgressDestinationError => Err (HTTPException 409)
                    | r => r
                    end);
        mret (url, if str_empty peer_ip then None else Some peer_ip)
  end.

Definition _bootstrap_response (node : dict) (assigned_session : option dict) (node_access_token : string)
    (audio_updated_at : value) : TM dict :=
  response_updated_at ← lift (_require_finite_number audio_updated_at);
  let egress_mode := name_text (py_get_or node "egress_mode" (VStr "DIRECT_PUSH")) in
  '(egress_url, peer_ip) ← _resolve_egress_delivery assigned_session;
  guard_err (String.eqb egress_mode "DIRECT_PUSH" && negb (str_empty egress_url) &&
             str_empty (default EmptyString peer_ip)) (HTTPException 409) ;;
  mret (list_to_map
    [("node_id", py_get node "node_id"); ("session_id", py_get node "session_id");
     ("session_assigned", VBool (truthy (py_get node "session_assigned"))); ("status", VStr "BOOTSTRAPPING");
     ("absolute_deadline", py_get node "absolute_deadline"); ("egress_url", VStr egress_url);
     ("egress_verified_peer_ip", opt_str peer_ip); ("audio_mode", VStr (getenv "NODE_INITIAL_AUDIO_MODE" "LIVE"));
     ("audio_version", VInt 0); ("audio_command_id", VNull); ("audio_idempotency_key", VNull);
     ("audio_updated_at", VFloat response_updated_at); ("egress_mode", VStr egress_mode);
     ("media_mtx_config_ref", VStr "config/mediamtx.yml"); ("node_access_token", VStr node_access_token)]).

(** The request that consumed the token, again. *)
Definition same_attempt (request : BootstrapRequest) (consumed : dict) (node : option dict) : bool :=
  let supplied := hash_token (req_node_access_token request) in
  match node with
  | None => false
  | Some node =>
      py_eq (py_get consumed "bootstrap_request_id") (VStr (bootstrap_request_id request)) &&
      py_eq (py_get consumed "provider_server_id") (VStr (req_provider_server_id request)) &&
      py_eq (py_get consumed "boot_id") (VStr (req_boot_id request)) &&
      String.eqb (node_text consumed "node_access_token_sha256") supplied &&
      String.eqb (node_text node "access_token_sha256") supplied
  end.

Definition egress_mode_of (assigned_session : option dict) : string :=
  match assigned_session with
  | Some session => if py_eq (py_get session "egress_mode") (VStr "RELAY_ONLY") then "RELAY_ONLY" else "DIRECT_PUSH"
  | None => "DIRECT_PUSH"
  end.

Definition new_node (node_id session_id : string) (assigned_session : option dict) (request : BootstrapRequest)
    (absolute_deadline bootstrap_at : float) : dict :=
  list_to_map
    [("node_id", VStr node_id); ("session_id", VStr session_id);
     ("session_assigned", VBool (bool_decide (is_Some assigned_session)));
     ("destination_id", match assigned_session with Some s => py_get s "destination_id" | None => VNull end);
     ("egress_mode", VStr (egress_mode_of assigned_session));
     ("provider_server_id", VStr (req_provider_server_id request)); ("boot_id", VStr (req_boot_id request));
     ("agent_version", VStr (req_agent_version request)); ("public_address", opt_str (req_public_address request));
     ("private_address", opt_str (req_private_address request)); ("status", VStr "BOOTSTRAPPING");
     ("desired_state", VStr "RUNNING"); ("absolute_deadline", VFloat absolute_deadline);
     ("last_heartbeat_at", VNull); ("ingest", VNull); ("ingest_ever_online", VBool false); ("egress", VNull);
     ("egress_ever_connected", VBool false); ("relay_client", VNull); ("relay_client_ever_connected", VBool false);
     ("events", VList []); ("next_event_seq", VInt 1); ("created_at", VFloat bootstrap_at);
     ("access_token_sha256", VStr (hash_token (req_node_access_token request)))].

Definition token_record (node_id session_id : string) (request : BootstrapRequest) (bootstrap_at : float) : dict :=
  list_to_map
    [("consumed", VBool true); ("consumed_at", VFloat bootstrap_at); ("node_id", VStr node_id);
     ("session_id", VStr session_id); ("bootstrap_request_id", VStr (bootstrap_request_id request));
     ("provider_server_id", VStr (req_provider_server_id request)); ("boot_id", VStr (req_boot_id request));
     ("node_access_token_sha256", VStr (hash_token (req_node_access_token request)))].

(** [authority["nodes"][node_id] = node] and [token_records[digest] = record] *)
Definition put_node (authority : dict) (node_id : string) (node : dict) : dict :=
  <["nodes" := VDict (<[node_id := VDict node]> (dict_field authority "nodes"))]> authority.
Definition put_token (authority : dict) (digest : string) (record : dict) : dict :=
  <["tokens" := VDict (<[digest := VDict record]> (dict_field authority "tokens"))]> authority.

Definition deadline_hours : result float :=
  match getenv_float env "NODE_ABSOLUTE_DEADLINE_HOURS" (of_Z 12) with
  | Some hours => Ok hours
  | None => Err NodeStateError
  end.

Definition consumed_token (authority : dict) (digest : string) : option dict :=
  match py_get (dict_field authority "tokens") digest with
  | VDict record => if truthy (py_get record "consumed") then Some record else None
  | _ => None
  end.

(** The retry of a request whose token is consumed. *)
Definition replay_bootstrap (request : BootstrapRequest) (authority consumed : dict) : TM dict :=
  let node := as_dict (py_get (dict_field authority "nodes") (node_text consumed "node_id")) in
  match node with
  | Some node =>
      guard_err (negb (same_attempt request consumed (Some node))) (HTTPException 409) ;;
      assigned_session ← (if truthy (py_get node "session_assigned")
                          then on_sessions (get (node_text node "session_id")) else mret None);
      guard_err (truthy (py_get node "session_assigned") && negb (bool_decide (is_Some assigned_session)))
        (HTTPException 409) ;;
      _bootstrap_response node assigned_session (req_node_access_token request) (py_get node "created_at")
  | None => raise (HTTPException 409)
  end.

(** [except (KeyError, RuntimeError) as exc: raise HTTPException(409, ...)] *)
Definition conflict_errors {A} (m : TM A) : TM A :=
  catch m (fun e => if is_node_error e then raise (HTTPException 409) else raise e).

Definition _bootstrap_locked (request : BootstrapRequest) (digest : string) : TM dict :=
  authority ← on_files _read_authority;
  match consumed_token authority digest with
  | Some consumed => replay_bootstrap request authority consumed
  | None =>
      now ← on_files (on_nodes time_time);
      bootstrap_at ← lift (_require_finite_number (VFloat now));
      hours ← lift deadline_hours;
      configured_deadline ← lift (_require_finite_number (VFloat (fadd bootstrap_at (fmul hours (of_Z 3600)))));
      assigned_session ← _resolve_assigned_session (req_provider_server_id request);
      '(node_id, authority) ← lift (_issue_node_id authority);
      session_id ← match assigned_session with
                   | Some session => mret (node_text session "session_id")
                   | None => on_files (on_nodes uuid4)
                   end;
      let absolute_deadline :=
        match assigned_session with
        | Some session => default configured_deadline (number_as_float (py_get session "absolute_deadline_at"))
        | None => configured_deadline
        end in
      absolute_deadline ← lift (_require_finite_number (VFloat absolute_deadline));
      match assigned_session with
      | Some _ => conflict_errors (on_sessions (
                    bind_node session_id node_id (req_boot_id request) (req_provider_server_id request) None)) ;;
                  mret tt
      | None => mret tt
      end ;;
      let node := new_node node_id session_id assigned_session request absolute_deadline bootstrap_at in
      let authority := put_token (put_node authority node_id node) digest
                         (token_record node_id session_id request bootstrap_at) in
      on_files (_write_legacy_token_fuse digest node_id session_id bootstrap_at) ;;
      on_files (_write_authority authority) ;;
      _bootstrap_response node assigned_session (req_node_access_token request) (VFloat bootstrap_at)
  end.

Definition bootstrap (request : BootstrapRequest) (authorization : option string) : TM dict :=
  token ← lift (_bearer authorization);
  guard_err (negb (bool_decide (hash_token token ∈ configured_token_digests))) (HTTPException 401) ;;
  site_lock (_bootstrap_locked request (hash_token token)).

(** ** Heartbeats *)
Definition reported_node (node : dict) (request : HeartbeatRequest) (observed_at : float) : dict :=
  let node :=
    <["egress_connected" := VBool (req_egress_connected request)]>
      (<["active_publisher" := VBool (req_active_publisher request)]>
        (<["media_health" := VStr (req_media_health request)]>
          (<["last_heartbeat_at" := VFloat observed_at]>
            (<["status" := VStr (req_status request)]> node)))) in
  let node := match req_software_version request with
              | Some s => if str_empty s then node else <["software_version" := VStr s]> node
              | None => node
              end in
  let node := set_given "cpu_percent" (VFloat <$> req_cpu_percent request) node in
  let node := set_given "memory_mb" (VFloat <$> req_memory_mb request) node in
  set_given "deadline_remaining_seconds" (VFloat <$> req_deadline_remaining request) node.

Definition session_assigned (node : dict) : bool := truthy (py_get node "session_assigned").

(** [try: m; node.pop(field, None) except (KeyError, RuntimeError) as exc:
    node[field] = str(exc)[:200]] *)
Definition noting {A} (field : string) (node : dict) (m : TM A) : TM dict := fun s =>
  match m s with
  | (Ok _, s') => (Ok (delete field node), s')
  | (Err e, s') => if is_node_error e then (Ok (<[field := VStr (py_take 200 (exc_text e))]> node), s') else (Err e, s')
  end.

Definition ingest_report (node_id : string) (node : dict) (current : dict) (observed_at : float) : TM dict :=
  '(node, event_types) ← lift (_append_ingest_events node (py_get node "ingest") current observed_at);
  let node := <["ingest" := VDict current]> node in
  if session_assigned node then
    noting "session_event_error" node (on_sessions (
      apply_ingest_observation recovery_stable_seconds (node_text node "session_id") node_id event_types current
        (Some (VFloat observed_at))))
  else mret node.

Fixpoint append_egress_to_session (session_id : string) (event_types : list string) (reason : option string)
    (payload : dict) (occurred_at : float) : SM unit :=
  match event_types with
  | [] => mret tt
  | event_type :: rest =>
      append_event session_id event_type reason (Some payload) "node-agent" (Some (VFloat occurred_at)) ;;
      append_egress_to_session session_id rest reason payload occurred_at
  end.

Definition _apply_egress_to_session (session_id node_id : string) (event_types : list string) (current : dict)
    (occurred_at : float) : SM unit :=
  found ← get session_id;
  match found with
  | None => raise KeyError
  | Some session =>
      guard_err (negb (is_null (py_get session "node_id") || py_eq (py_get session "node_id") (VStr node_id)))
        RuntimeError ;;
      if negb (value_in (py_get session "status") ACTIVE_STATES) then mret tt
      else
        let payload := _egress_payload node_id current in
        let reason := py_get payload "reason_code" in
        append_egress_to_session session_id event_types
          (if truthy reason then Some (py_take 100 (name_text reason)) else None) payload occurred_at ;;
        update session_id (list_to_map
          [("egress_status", py_get current "status"); ("egress_connected", VBool (obs_bool current "connected"));
           ("egress_last_reason", py_get current "reason_code"); ("egress_updated_at", py_get current "observed_at")]) ;;
        mret tt
  end.

Definition egress_report (node_id : string) (node : dict) (current : dict) (observed_at : float) : TM dict :=
  '(node, event_types) ← lift (_append_egress_events node (py_get node "egress") current observed_at);
  let node := <["egress_connected" := VBool (obs_bool current "connected")]> (<["egress" := VDict current]> node) in
  if session_assigned node && negb (bool_decide (event_types = [])) then
    noting "egress_session_event_error" node (on_sessions (
      _apply_egress_to_session (node_text node "session_id") node_id event_types current observed_at))
  else mret node.

Definition relay_report (node_id : string) (node : dict) (current : dict) (observed_at : float) : TM dict :=
  '(node, event_types) ← lift (_append_relay_client_events node (py_get node "relay_client") current observed_at);
  let node := <["relay_client" := VDict current]> node in
  if session_assigned node && negb (bool_decide (event_types = [])) then
    noting "relay_client_session_event_error" node (on_sessions (
      apply_relay_client_observation (node_text node "session_id") node_id event_types current))
  else mret node.

(** The Node as the observation of its media left it, with the note of an error. *)
Definition health_report (node_id : string) (node : dict) (request : HeartbeatRequest) : TM dict :=
  if session_assigned node then
    '(node, outcome) ← on_sessions (apply_pipeline_health node node_id (node_text node "session_id")
      (req_status request) (req_media_health request) (py_get node "last_heartbeat_at")
      (media_health_failure_grace_seconds env));
    noting "pipeline_session_event_error" node (lift outcome)
  else mret node.

Definition when_reported (observation : option dict) (node : dict) (report : dict -> dict -> TM dict) : TM dict :=
  match observation with Some current => report node current | None => mret node end.

Definition _heartbeat_locked (node_id : string) (request : HeartbeatRequest) (authorization : option string)
    : TM dict :=
  authority ← on_files _read_authority;
  match py_get (dict_field authority "nodes") node_id with
  | VDict node =>
      lift (_require_node_access node authorization) ;;
      now ← on_files (on_nodes time_time);
      observed_at ← lift (_require_finite_number (VFloat now));
      let node := reported_node node request observed_at in
      (if session_assigned node then
         recorded ← on_sessions (record_node_heartbeat (node_text node "session_id") node_id (node_text node "boot_id")
           (VFloat observed_at)
           (String.eqb (req_status request) "READY" && String.eqb (req_media_health request) "running"));
         guard_err (negb recorded) (HTTPException 409)
       else mret tt) ;;
      node ← when_reported (req_ingest request) node (fun n c => ingest_report node_id n c observed_at);
      node ← when_reported (req_egress request) node (fun n c => egress_report node_id n c observed_at);
      node ← when_reported (req_relay_client request) node (fun n c => relay_report node_id n c observed_at);
      node ← health_report node_id node request;
      on_files (_write_authority (put_node authority node_id node)) ;;
      mret {[ "desired_state" := py_get_or node "desired_state" (VStr "RUNNING") ]}
  | _ => raise (HTTPException 404)
  end.

Definition heartbeat (node_id : string) (request : HeartbeatRequest) (authorization : option string) : TM dict :=
  site_lock (_heartbeat_locked node_id request authorization).

(** ** Operators *)
Definition stop_node (node_id : string) (authorization : option string) : TM dict :=
  lift (_require_admin_access authorization) ;;
  site_lock (
    authority ← on_files _read_authority;
    match py_get (dict_field authority "nodes") node_id with
    | VDict node =>
        on_files (_write_authority (put_node authority node_id
          (<["status" := VStr "STOPPING"]> (<["desired_state" := VStr "STOPPED"]> node)))) ;;
        mret (list_to_map [("node_id", VStr node_id); ("desired_state", VStr "STOPPED")])
    | _ => raise (HTTPException 404)
    end).

(** The next number and the Nodes without their digests. *)
Definition list_nodes (authorization : option string) : TM (value * gmap string dict) :=
  lift (_require_admin_access authorization) ;;
  authority ← catch (site_lock (on_files _read_authority))
                    (fun e => match e with NodeStateError => raise (HTTPException 503) | _ => raise e end);
  mret (py_get authority "next_node_seq",
        delete "access_token_sha256" <$> omap as_dict (dict_field authority "nodes")).
End control.
