(* ===== verification/NodeFacts.v ===== *)
(** * Facts about the Node authority

    The names of the Nodes, the two files seen as one ledger of Nodes and consumed
    tokens ([holds_files], [ledger]), and how the steps of [node_internal.py] move it.
    [extends] is what every step respects, wherever an I/O error stops it. *)

From S2P Require Import Prelude PyFloat Sha256 PyValue Json Effects Authority PyText TextFacts Uuid IpAddress Url SessionState SessionStore StateFile Catalog SecretStore NodeAuthority NodeEvents NodeControl.

(** ** Names of Nodes *)
Lemma digit_char x : (x < 10)%N ->
  digit_of (pretty.pretty_N_char x) = Some (Z.of_N x) /\ is_digit (pretty.pretty_N_char x) = true.
Proof.
  intros Hx. assert (x = 0 \/ x = 1 \/ x = 2 \/ x = 3 \/ x = 4 \/ x = 5 \/ x = 6 \/ x = 7 \/ x = 8 \/ x = 9)%N as H by lia.
  destruct H as [->|[->|[->|[->|[->|[->|[->|[->|[->| ->]]]]]]]]]; by vm_compute.
Qed.

Lemma digits_value_pretty x s :
  digits_value 0 (pretty.pretty_N_go x s) = digits_value (Z.of_N x) s /\
  (all_chars is_digit s = true -> all_chars is_digit (pretty.pretty_N_go x s) = true).
Proof.
  revert s. induction (N.lt_wf_0 x) as [x _ IH]. intros s. destruct (decide (0 < x)%N) as [Hx|Hx].
  - rewrite pretty.pretty_N_go_step by done.
    destruct (IH (x / 10)%N) with (s := String (pretty.pretty_N_char (x mod 10)) s) as [E C]; [apply N.div_lt; lia|].
    destruct (digit_char (x mod 10)) as [Hd Hc]; [by apply N.mod_lt|]. rewrite E. split.
    + cbn [digits_value]. rewrite Hd. f_equal. rewrite N2Z.inj_div, N2Z.inj_mod. pose proof (Z.div_mod (Z.of_N x) 10). lia.
    + intros Hs. apply C. by rewrite all_chars_cons, Hc, Hs.
  - assert (x = 0%N) as -> by lia. by rewrite pretty.pretty_N_go_0.
Qed.

Lemma pretty_number n : 0 <= n ->
  digits_value 0 (pretty.pretty n) = Some n /\ all_chars is_digit (pretty.pretty n) = true /\ pretty.pretty n <> EmptyString.
Proof.
  intros Hn. destruct n as [|p|p]; [done| |lia].
  change (pretty.pretty (Z.pos p)) with (pretty.pretty (Npos p)). unfold pretty.pretty, pretty.pretty_N.
  destruct (decide _) as [|_]; [done|]. destruct (digits_value_pretty (Npos p) "") as [E C].
  split; [done|]. split; [by apply C|]. intros H. by rewrite H in E.
Qed.

Lemma first_digit_digits s : all_chars is_digit s = true -> s <> EmptyString -> first_digit s = digits_value 0 s.
Proof.
  destruct s as [|c s]; [done|]. rewrite all_chars_cons. unfold is_digit. intros Hc _. cbn [first_digit digits_value].
  unfold digit_of. cbv zeta. destruct (_ && (byte_code c <=? 57)); [f_equal; lia|done].
Qed.

Lemma padded_number k s :
  all_chars is_digit s = true ->
  let padded := String.append (String.concat "" (repeat "0"%string k)) s in
  all_chars is_digit padded = true /\ digits_value 0 padded = digits_value 0 s /\ (s <> EmptyString -> padded <> EmptyString).
Proof.
  intros Hs. cbv zeta.
  assert (E : forall k, String.append (String.concat "" (repeat "0"%string (S k))) s =
                        String "0" (String.append (String.concat "" (repeat "0"%string k)) s)) by (by intros []).
  induction k as [|k (H1 & H2 & H3)]; [done|]. rewrite E, all_chars_cons, H1. done.
Qed.

(** The number in a name that was issued. *)
Lemma issued_node_name seq : 0 <= seq -> issued_sequence (node_name seq) = seq.
Proof.
  intros Hs. destruct (pretty_number seq Hs) as (H1 & H2 & H3). unfold node_name. cbv zeta.
  destruct (padded_number (4 - String.length (pretty.pretty seq)) _ H2) as (P1 & P2 & P3).
  set (p := String.append (String.concat _ _) _) in *. unfold issued_sequence.
  change (partition "-" (String.append "node-" p)) with ("node"%string, Some p).
  cbv beta iota. rewrite String.eqb_refl, P1, (proj2 (str_empty_false p)) by auto. cbn [andb negb].
  rewrite first_digit_digits by auto. by rewrite P2, H1.
Qed.

Lemma highest_bound (nodes : dict) id v : nodes !! id = Some v -> issued_sequence id <= highest_issued nodes.
Proof.
  unfold highest_issued. induction nodes as [|k x m Hk IH] using map_ind; [done|].
  rewrite map_fold_insert_L; [|intros; lia|done]. destruct (decide (id = k)) as [->|].
  - lia.
  - rewrite lookup_insert_ne by done. intros H%IH. lia.
Qed.

Lemma fresh_name (nodes : dict) seq : 0 <= seq -> highest_issued nodes < seq -> nodes !! node_name seq = None.
Proof.
  intros Hs Hh. destruct (nodes !! node_name seq) eqn:E; [|done]. apply highest_bound in E.
  rewrite issued_node_name in E; lia.
Qed.

(** ** Checked authorities *)
Lemma node_int_ok v m n : _require_nonnegative_int v m = Ok n -> v = VInt n /\ m <= n.
Proof. destruct v; try done. cbn. destruct (_ <? _) eqn:E; [done|]. intros [= ->]. split; [done|lia]. Qed.

Lemma valid_authority d : validate_node_authority d = Ok tt -> exists n t k,
  py_get d "nodes" = VDict n /\ py_get d "tokens" = VDict t /\ py_get d "next_node_seq" = VInt k /\ 1 <= k /\
  highest_issued n < k /\
  map_Forall (fun id v => validate_node id v = Ok tt) n /\
  map_Forall (fun digest v => validate_token (Some n) digest v = Ok tt) t.
Proof.
  unfold validate_node_authority, _validate_nodes, _validate_tokens. intros H.
  apply result_bind_ok in H as (u & Hn & Ht). destruct (py_get d "nodes") as [| | | | | |n]; try done.
  destruct (py_get d "tokens") as [| | | | | |t]; try done. cbn [as_dict] in Ht.
  apply result_bind_ok in Hn as (u1 & _ & Hn). apply result_bind_ok in Hn as (k & Hk & Hn).
  apply result_bind_ok in Hn as ([] & Hc%check_all_ok & Hn%raise_if_ok).
  apply node_int_ok in Hk as [Hk H1]. apply check_all_ok in Ht. exists n, t, k.
  repeat split; try done. lia.
Qed.

Lemma dict_field_is (d : dict) f x : py_get d f = VDict x -> dict_field d f = x.
Proof. unfold dict_field. by intros ->. Qed.

Lemma token_is_consumed nodes digest v :
  validate_token nodes digest v = Ok tt -> is_consumed v = true /\ exists r, v = VDict r /\ truthy (py_get r "consumed") = true.
Proof.
  destruct v as [| | | | | |r]; try done. unfold validate_token. intros H.
  apply result_bind_ok in H as (u & _ & H). apply result_bind_ok in H as ([] & Hc%raise_if_ok & _).
  apply negb_false_iff in Hc. assert (Ht : truthy (py_get r "consumed") = true) by (by destruct (py_get r "consumed")).
  split; [exact Ht|]. by exists r.
Qed.

Lemma merge_consumed (t l : dict) :
  map_Forall (fun _ v => is_consumed v = true) t -> map_Forall (fun _ v => is_consumed v = true) l ->
  merge_fuse t l = t ∪ l.
Proof.
  intros Ht Hl. unfold merge_fuse. rewrite (map_filter_id _ t) by exact Ht. rewrite (map_filter_id _ l) by exact Hl.
  apply map_eq. intros k. rewrite !lookup_union. by destruct (t !! k), (l !! k).
Qed.

Lemma tokens_consumed p t :
  py_get p "tokens" = VDict t -> _validate_tokens p = Ok tt -> map_Forall (fun _ v => is_consumed v = true) t.
Proof.
  intros Ht. unfold _validate_tokens. rewrite Ht. intros H%check_all_ok k v E. by apply H, token_is_consumed in E as [? _].
Qed.

Lemma tokens_field p : _validate_tokens p = Ok tt -> py_get p "tokens" = VDict (dict_field p "tokens").
Proof. unfold _validate_tokens, dict_field. by destruct (py_get p "tokens"). Qed.

(** ** The two files as one ledger *)

(** [d] is in the file of the Nodes, and [f] are the tokens of the second file. *)
Definition holds_files (s : node_files) (d f : dict) : Prop :=
  @document nodes_format (nodes_file s) = Some d /\
  (file (tokens_file s) = Missing /\ f = ∅ \/
   exists p, @document tokens_format (tokens_file s) = Some p /\ f = dict_field p "tokens").

(** The Nodes, and every consumed token with its record. *)
Definition ledger (s : node_files) (n t : dict) : Prop :=
  exists d f, holds_files s d f /\ n = dict_field d "nodes" /\ t = dict_field d "tokens" ∪ f.

(** Reads, and what arms the fuse, leave the contents. *)
Definition same_content (s s' : node_files) : Prop :=
  file (nodes_file s') = file (nodes_file s) /\ file (tokens_file s') = file (tokens_file s).

#[export] Instance same_content_preorder : PreOrder same_content.
Proof. split; [by split|]. intros ??? [??] [??]. split; congruence. Qed.

Lemma same_content_holds s s' d f : same_content s s' -> holds_files s' d f <-> holds_files s d f.
Proof. intros [H1 H2]. unfold holds_files, document. by rewrite H1, H2. Qed.

#[export] Instance same_on_nodes {A} (m : FM A) : Resp calm m -> Resp same_content (on_nodes m).
Proof. intros Hm s. specialize (Hm (nodes_file s)). unfold on_nodes. destruct (m _) as [r w]. split; [apply Hm|done]. Qed.
#[export] Instance same_on_tokens {A} (m : FM A) : Resp calm m -> Resp same_content (on_tokens m).
Proof. intros Hm s. specialize (Hm (tokens_file s)). unfold on_tokens. destruct (m _) as [r w]. split; [done|apply Hm]. Qed.

Lemma on_nodes_ok {A} (m : FM A) s a s' :
  on_nodes m s = (Ok a, s') -> exists w, m (nodes_file s) = (Ok a, w) /\ s' = NodeFiles w (tokens_file s).
Proof. unfold on_nodes. destruct (m _) as [r w]. intros [= -> <-]. eauto. Qed.
Lemma on_tokens_ok {A} (m : FM A) s a s' :
  on_tokens m s = (Ok a, s') -> exists w, m (tokens_file s) = (Ok a, w) /\ s' = NodeFiles (nodes_file s) w.
Proof. unfold on_tokens. destruct (m _) as [r w]. intros [= -> <-]. eauto. Qed.

#[export] Instance calm_exists : Resp calm file_exists.
Proof. unfold file_exists. solve_resp. Qed.
#[export] Instance calm_required : Resp calm read_required.
Proof. unfold read_required. solve_resp. Qed.
#[export] Instance same_fuse : Resp same_content read_fuse.
Proof. unfold read_fuse. solve_resp. Qed.
#[export] Instance same_read : Resp same_content _read_authority.
Proof. unfold _read_authority. solve_resp. Qed.

Lemma exists_ok w b w' : file_exists w = (Ok b, w') -> file w' = file w /\ b = match file w with Missing => false | _ => true end.
Proof.
  unfold file_exists. intros Hr. apply bind_ok in Hr as ([] & w1 & Hio & Hr). apply io_ok in Hio as ([= Hf _] & _).
  apply bind_ok in Hr as (f & w2 & [= <- <-] & [-> ->]%ret_ok). split; [done|]. rewrite Hf. by destruct (file w).
Qed.

Lemma required_ok w d w' :
  read_required w = (Ok d, w') -> exists r, file w = Present r /\ load_json_authority r = Ok (VDict d).
Proof.
  unfold read_required. intros Hr. apply bind_ok in Hr as ([] & w1 & [Hio|(e & w2 & _ & He)]%catch_ok & Hr); [|done].
  apply io_ok in Hio as ([= Hf _] & _). apply bind_ok in Hr as (f & w2 & [= <- <-] & Hr). rewrite Hf in Hr.
  destruct (file w) as [| |r]; [done..|]. exists r. split; [done|].
  apply bind_ok in Hr as (v & w2 & [Hl|(e & w3 & _ & Hl)]%catch_ok & Hr); [|done].
  apply lift_ok in Hl as [Hl ->]. destruct v as [| | | | | |d1]; try done. by apply ret_ok in Hr as [-> _].
Qed.

Lemma required_document (fmt : StateFormat) w d w' :
  read_required w = (Ok d, w') -> sf_validate d = Ok tt -> document w = Some d.
Proof. intros (r & Hf & Hl)%required_ok Hv. unfold document. rewrite Hf. cbn. by rewrite Hl, Hv. Qed.

(** What a read found, whole or absent, in the second file. *)
Lemma read_fuse_ok s l s' :
  read_fuse s = (Ok l, s') ->
  @document tokens_format (tokens_file s) = Some l /\ _validate_tokens l = Ok tt /\ same_content s s'.
Proof.
  intros Hr. assert (Hs : same_content s s') by (pose proof (resp (R:=same_content) (m:=read_fuse) s) as H; by rewrite Hr in H).
  unfold read_fuse in Hr. apply bind_ok in Hr as (l' & s1 & (w & Hq & ->)%on_tokens_ok & Hr).
  apply bind_ok in Hr as ([] & s2 & [Hv ->]%lift_ok & [-> ->]%ret_ok).
  split; [|done]. by apply (required_document tokens_format _ _ _ Hq).
Qed.

Lemma read_authority_ok s a s' :
  _read_authority s = (Ok a, s') ->
  exists d f, holds_files s d f /\ holds_files s' d f /\ validate_node_authority d = Ok tt /\
    (f = ∅ \/ exists p, _validate_tokens p = Ok tt /\ f = dict_field p "tokens") /\
    py_get a "nodes" = py_get d "nodes" /\ py_get a "next_node_seq" = py_get d "next_node_seq" /\
    dict_field a "tokens" = dict_field d "tokens" ∪ f.
Proof.
  intros Hr. assert (Hs : same_content s s').
  { pose proof (resp (R:=same_content) (m:=_read_authority) s) as H. by rewrite Hr in H. }
  unfold _read_authority in Hr. apply bind_ok in Hr as (b & s1 & (w1 & He & ->)%on_nodes_ok & Hr).
  apply exists_ok in He as [Hf1 ->]. destruct (negb _).
  { apply bind_ok in Hr as (x & s2 & _ & Hr). done. }
  apply bind_ok in Hr as (d & s2 & (w2 & Hd & ->)%on_nodes_ok & Hr). cbn [nodes_file tokens_file] in *.
  apply bind_ok in Hr as ([] & s3 & [Hv ->]%lift_ok & Hr).
  assert (Hdoc : @document nodes_format (nodes_file s) = Some d).
  { unfold document. rewrite <- Hf1. by apply (required_document nodes_format _ _ _ Hd). }
  apply bind_ok in Hr as (b & s3 & (w3 & He & ->)%on_tokens_ok & Hr). cbn [nodes_file tokens_file] in *.
  apply exists_ok in He as [Hf3 Hb]. destruct b.
  2: { assert (Hm : file (tokens_file s) = Missing) by (by destruct (file (tokens_file s))).
    exists d, ∅. assert (Hh : holds_files s d ∅) by (split; [done|by left]).
    split; [done|]. split; [by apply (same_content_holds s)|]. split; [done|]. split; [by left|].
    apply bind_ok in Hr as (was & s4 & _ & Hr). destruct was; [done|]. apply ret_ok in Hr as [-> _].
    by rewrite (right_id_L ∅ (∪)). }
  { apply bind_ok in Hr as (l & s4 & Hl & [-> _]%ret_ok). apply read_fuse_ok in Hl as (Hl & Hvl & _).
    assert (Hh : holds_files s d (dict_field l "tokens")).
    { split; [done|]. right. exists l. split; [|done]. unfold document in *. cbn in Hl. by rewrite Hf3 in Hl. }
    exists d, (dict_field l "tokens"). split; [done|]. split; [by apply (same_content_holds s)|]. split; [done|].
    split; [right; eauto|]. unfold with_fuse. record_fields. split; [done|]. split; [done|].
    unfold dict_field at 1. record_fields. cbn.
    destruct (valid_authority _ Hv) as (n & t & k & _ & Ht & _ & _ & _ & _ & Hc). rewrite (dict_field_is _ _ _ Ht).
    apply merge_consumed; [|by apply (tokens_consumed l); [apply tokens_field|]].
    intros dg v E. by apply Hc, token_is_consumed in E as [? _]. }
Qed.

(** ** Writing the files *)
Lemma write_authority_outcome a s d f :
  holds_files s d f -> holds_files (_write_authority a s).2 d f \/ holds_files (_write_authority a s).2 a f.
Proof.
  intros [Hd Hf]. unfold _write_authority, mbind, M_bind, lift. destruct (validate_node_authority a) as [[]|e] eqn:Hv; [|by left].
  pose proof (@replace_outcome nodes_format a (nodes_file s) (fun _ => Hv)) as Hw. unfold on_nodes.
  destruct (atomic_write_json a (nodes_file s)) as [r w]. cbn [snd] in *.
  destruct Hw as [Hw|[Hw _]]; [left|right]; (split; [|done]); [|done]. cbn [nodes_file]. by rewrite (calm_document _ _ Hw).
Qed.

Lemma write_authority_ok a s u s' :
  _write_authority a s = (Ok u, s') ->
  validate_node_authority a = Ok tt /\ forall d f, holds_files s d f -> holds_files s' a f.
Proof.
  unfold _write_authority. intros Hr. apply bind_ok in Hr as ([] & s1 & [Hv ->]%lift_ok & (w & Hw & ->)%on_nodes_ok).
  split; [done|]. intros d f [_ Hf]. apply (@replace_ok nodes_format) in Hw as (_ & _ & Hw). split; [by apply Hw|done].
Qed.

(** What the second write adds to the contents, wherever it stops. *)
Definition fused (digest : string) (s s' : node_files) : Prop :=
  forall d f, holds_files s d f -> holds_files s' d f \/ exists v, holds_files s' d (<[digest := v]> f).

#[export] Instance fused_preorder digest : PreOrder (fused digest).
Proof.
  split; [by left|]. intros s1 s2 s3 H1 H2 d f Hh. destruct (H1 d f Hh) as [H|(v & H)].
  - by apply H2.
  - right. destruct (H2 _ _ H) as [H3|(v3 & H3)]; [by exists v|]. exists v3. by rewrite insert_insert_eq in H3.
Qed.

#[export] Instance fused_same {A} digest (m : NM A) : Resp same_content m -> Resp (fused digest) m.
Proof. intros Hm s d f Hh. left. by apply (same_content_holds s). Qed.

(** The payload of that write is what was read with one more token. *)
Lemma fuse_payload s s1 b l s2 d f :
  on_tokens file_exists s = (Ok b, s1) -> (if b : bool then read_fuse else mret _default_tokens) s1 = (Ok l, s2) ->
  holds_files s2 d f -> dict_field l "tokens" = f.
Proof.
  intros (w & [Hf Hb]%exists_ok & ->)%on_tokens_ok Hr [_ Hh]. destruct b.
  - apply read_fuse_ok in Hr as (Hl & _ & [_ Ht]). cbn [tokens_file] in *.
    unfold document in *. rewrite Ht in Hh. destruct Hh as [[Hm _]|(p & Hp & ->)]; [by rewrite Hm in Hl|].
    rewrite Hl in Hp. by injection Hp as ->.
  - apply ret_ok in Hr as [-> ->]. cbn [tokens_file] in Hh. rewrite Hf in Hh.
    destruct Hh as [[_ ->]|(p & Hp & _)]; [done|]. unfold document in Hp. rewrite Hf in Hp. by destruct (file (tokens_file s)).
Qed.

Lemma write_fuse_outcome digest node_id session_id t : Resp (fused digest) (_write_legacy_token_fuse digest node_id session_id t).
Proof.
  intros s. unfold _write_legacy_token_fuse.
  apply (resp_bind_post (fused digest)); [done|]. intros x s0 [_ ->]%lift_ok.
  apply (resp_bind_post (fused digest)); [apply fused_same, _|]. intros b s1 Hb.
  apply (resp_bind_post (fused digest)); [destruct b; apply fused_same, _|]. intros l s2 Hl. cbv zeta.
  apply (resp_bind_post (fused digest)); [done|]. intros [] s3 [Hv ->]%lift_ok. intros d f Hh.
  pose proof (fuse_payload _ _ _ _ _ _ _ Hb Hl Hh) as E. rewrite E in *. destruct Hh as [Hd Hf].
  set (p := <["tokens" := _]> l) in *.
  pose proof (@replace_outcome tokens_format p (tokens_file s2) (fun _ => Hv)) as Hw. unfold on_tokens.
  destruct (atomic_write_json p (tokens_file s2)) as [r w]. cbn [snd] in *. destruct Hw as [Hw|[Hw _]].
  - left. split; [done|]. cbn [tokens_file]. unfold document. destruct Hw as [-> _]. exact Hf.
  - right. eexists. split; [done|]. right. exists p. split; [done|]. unfold p, dict_field. by rewrite py_get_insert.
Qed.

Lemma write_fuse_ok digest node_id session_id t s u s' d f :
  _write_legacy_token_fuse digest node_id session_id t s = (Ok u, s') -> holds_files s d f ->
  exists v, holds_files s' d (<[digest := v]> f).
Proof.
  unfold _write_legacy_token_fuse. intros Hr Hh. apply bind_ok in Hr as (x & s0 & [_ ->]%lift_ok & Hr).
  apply bind_ok in Hr as (b & s1 & Hb & Hr). apply bind_ok in Hr as (l & s2 & Hl & Hr).
  assert (Hh2 : holds_files s2 d f).
  { assert (same_content s s1) by (pose proof (resp (R:=same_content) (m:=on_tokens file_exists) s) as H; by rewrite Hb in H).
    assert (same_content s1 s2).
    { destruct b; [by apply read_fuse_ok in Hl as (_ & _ & ?)|by apply ret_ok in Hl as [_ ->]]. }
    apply (same_content_holds s); [by etrans|done]. }
  pose proof (fuse_payload _ _ _ _ _ _ _ Hb Hl Hh2) as E. rewrite E in Hr.
  apply bind_ok in Hr as ([] & s3 & [Hv ->]%lift_ok & (w & Hw & ->)%on_tokens_ok).
  apply (@replace_ok tokens_format) in Hw as (_ & _ & Hw). eexists. split; [apply Hh2|]. right.
  eexists. split; [by apply Hw|]. unfold dict_field. by rewrite py_get_insert.
Qed.

(** ** What survives every step *)
Definition identity_fields : list string :=
  ["node_id"; "session_id"; "session_assigned"; "provider_server_id"; "boot_id"; "access_token_sha256"; "created_at"].

(** The same Node: its identity is unchanged, and a stop is not taken back. *)
Definition same_node (node node' : dict) : Prop :=
  (forall f, f ∈ identity_fields -> py_get node' f = py_get node f) /\
  (py_get node "desired_state" = VStr "STOPPED" -> py_get node' "desired_state" = VStr "STOPPED").

#[export] Instance same_node_preorder : PreOrder same_node.
Proof.
  split; [by split|]. intros n1 n2 n3 [H1 S1] [H2 S2]. split; [|auto]. intros f Hf. rewrite H2 by done. by apply H1.
Qed.

Definition kept (n n' : dict) : Prop :=
  forall id node, n !! id = Some (VDict node) -> exists node', n' !! id = Some (VDict node') /\ same_node node node'.

#[export] Instance same_nodes_preorder : PreOrder kept.
Proof.
  split; [by intros n id node E; exists node|]. intros n1 n2 n3 H1 H2 id node E.
  destruct (H1 _ _ E) as (node2 & E2 & S2). destruct (H2 _ _ E2) as (node3 & E3 & S3). exists node3. split; [done|by etrans].
Qed.

Definition extends (s s' : node_files) : Prop :=
  forall n t, ledger s n t -> exists n' t', ledger s' n' t' /\ kept n n' /\ t ⊆ t'.

#[export] Instance extends_preorder : PreOrder extends.
Proof.
  split; [by intros s n t H; exists n, t|]. intros s1 s2 s3 H1 H2 n t H.
  destruct (H1 _ _ H) as (n2 & t2 & L2 & K2 & T2). destruct (H2 _ _ L2) as (n3 & t3 & L3 & K3 & T3).
  exists n3, t3. split; [done|]. split; by etrans.
Qed.

Lemma ledger_of s d f : holds_files s d f -> ledger s (dict_field d "nodes") (dict_field d "tokens" ∪ f).
Proof. intros H. by exists d, f. Qed.

Lemma ledger_unique s n t n' t' : ledger s n t -> ledger s n' t' -> n' = n /\ t' = t.
Proof.
  intros (d & f & [Hd Hf] & -> & ->) (d' & f' & [Hd' Hf'] & -> & ->). rewrite Hd in Hd'. injection Hd' as <-.
  assert (f' = f) as ->; [|done].
  destruct Hf as [[Hm ->]|(p & Hp & ->)], Hf' as [[Hm' ->]|(p' & Hp' & ->)]; [done|..].
  - unfold document in Hp'. by rewrite Hm in Hp'.
  - unfold document in Hp. by rewrite Hm' in Hp.
  - rewrite Hp in Hp'. by injection Hp' as ->.
Qed.

Lemma extends_from s s' n t :
  ledger s n t -> (exists n' t', ledger s' n' t' /\ kept n n' /\ t ⊆ t') -> extends s s'.
Proof. intros H He n1 t1 H1. destruct (ledger_unique _ _ _ _ _ H H1) as [-> ->]. done. Qed.

Lemma same_content_extends s s' : same_content s s' -> extends s s'.
Proof.
  intros Hs n t (d & f & Hh & -> & ->). exists (dict_field d "nodes"), (dict_field d "tokens" ∪ f).
  split; [|done]. apply ledger_of. by apply (same_content_holds s).
Qed.

#[export] Instance extends_same {A} (m : NM A) : Resp same_content m -> Resp extends m.
Proof. intros Hm s. apply same_content_extends, Hm. Qed.

(** A write of an authority that keeps the ledger that was read. *)
Lemma write_extends a s n t :
  ledger s n t -> kept n (dict_field a "nodes") -> t ⊆ dict_field a "tokens" -> extends s (_write_authority a s).2.
Proof.
  intros HL Hk Ht. apply (extends_from s _ n t HL). destruct HL as (d & f & Hh & -> & ->).
  destruct (write_authority_outcome a s d f Hh) as [H|H]; apply ledger_of in H; eexists _, _; split; [exact H|done|exact H|].
  split; [done|]. etrans; [exact Ht|]. apply map_union_subseteq_l.
Qed.

(** ** What a heartbeat changes in its Node *)
Definition attribute (f : string) : Prop := f ∉ identity_fields /\ f <> "desired_state".

#[export] Instance attribute_dec f : Decision (attribute f).
Proof. unfold attribute. apply _. Defined.

Lemma same_insert node f v : attribute f -> same_node node (<[f := v]> node).
Proof. intros [Hf Hd]. split; [|by rewrite py_get_insert_ne]. intros g Hg. apply py_get_insert_ne. by intros ->. Qed.
Lemma same_delete node f : attribute f -> same_node node (delete f node).
Proof.
  intros [Hf Hd]. unfold same_node, py_get. split; [|by rewrite lookup_delete_ne]. intros g Hg.
  rewrite lookup_delete_ne; [done|]. by intros ->.
Qed.
Lemma same_stop node : same_node node (<["desired_state" := VStr "STOPPED"]> node).
Proof.
  split; [|by rewrite py_get_insert]. intros g Hg. apply py_get_insert_ne. intros <-.
  by apply (bool_decide_eq_false_1 ("desired_state" ∈ identity_fields)) in Hg.
Qed.

Ltac same_node_step :=
  first [ reflexivity
        | etrans; [|solve [apply same_stop]]
        | etrans; [|apply same_insert; apply (bool_decide_eq_true_1 _); reflexivity]
        | etrans; [|apply same_delete; apply (bool_decide_eq_true_1 _); reflexivity] ].
Ltac solve_same_node := repeat same_node_step.

Lemma same_given node f v : attribute f -> same_node node (set_given f v node).
Proof. intros Hf. destruct v; [by apply same_insert|done]. Qed.

Lemma reported_same node request t : same_node node (reported_node node request t).
Proof.
  unfold reported_node. cbv zeta. do 3 (etrans; [|apply same_given; apply (bool_decide_eq_true_1 _); reflexivity]).
  destruct (req_software_version request) as [v|]; [destruct (str_empty v)|]; solve_same_node.
Qed.

Lemma append_events_same node types payload t node' :
  append_node_events node types payload t = Ok node' -> same_node node node'.
Proof.
  unfold append_node_events. intros H. apply result_bind_ok in H as (x & _ & H). apply result_bind_ok in H as (l & _ & H).
  apply result_bind_ok in H as (n & _ & [= <-]). solve_same_node.
Qed.

Lemma append_ingest_same node previous current t node' types :
  _append_ingest_events node previous current t = Ok (node', types) -> same_node node node'.
Proof.
  unfold _append_ingest_events. case_bool_decide; [by intros [= <- _]|]. intros (n & Hn%append_events_same & [= <- _])%result_bind_ok.
  etrans; [exact Hn|]. case_match; solve_same_node.
Qed.
Lemma append_egress_same node previous current t node' types :
  _append_egress_events node previous current t = Ok (node', types) -> same_node node node'.
Proof.
  unfold _append_egress_events. case_bool_decide; [by intros [= <- _]|]. intros (n & Hn%append_events_same & [= <- _])%result_bind_ok.
  etrans; [exact Hn|]. case_match; solve_same_node.
Qed.
Lemma append_relay_same node previous current t node' types :
  _append_relay_client_events node previous current t = Ok (node', types) -> same_node node node'.
Proof.
  unfold _append_relay_client_events. case_bool_decide; [by intros [= <- _]|].
  intros (p & _ & (n & Hn%append_events_same & [= <- _])%result_bind_ok)%result_bind_ok.
  etrans; [exact Hn|]. case_match; solve_same_node.
Qed.

Lemma health_step_same node status health current grace : same_node node (health_step node status health current grace).1.
Proof.
  unfold health_step. cbv zeta. destruct (String.eqb _ "running"); [solve_same_node|].
  destruct (negb _ && _); [done|].
  set (since := match number_as_float _ with Some _ => _ | None => _ end).
  destruct since; destruct (_ && _); cbn [fst]; solve_same_node.
Qed.

Lemma pipeline_health_same node node_id session_id status health observed_at grace w node' out w' :
  apply_pipeline_health node node_id session_id status health observed_at grace w = (Ok (node', out), w') -> same_node node node'.
Proof.
  unfold apply_pipeline_health. destruct (_validated_observed_at observed_at) as [current|]; [|by intros [= <- _ _]].
  pose proof (health_step_same node status health current grace) as Hs.
  destruct (health_step _ _ _ _ _) as [n latch]. cbn [fst] in Hs. destruct latch; [|by intros [= <- _ _]].
  destruct (get session_id w) as [[[session|]|] w1]; [|by intros [= <- _ _]..]. destruct (negb _); [by intros [= <- _ _]|].
  destruct (negb _); [by intros [= <- _ _]|]. destruct (transition _ _ _ _ w1) as [[]]; [|by intros [= <- _ _]].
  destruct (append_event _ _ _ _ _ _ _) as [[]]; intros [= <- _ _]; (etrans; [exact Hs|]); unfold latched_node; solve_same_node.
Qed.

(** ** The four stores *)

(** The files of the Nodes have the content they had. *)
Definition quiet (s s' : node_site) : Prop := same_content (site_nodes s) (site_nodes s').
#[export] Instance quiet_preorder : PreOrder quiet.
Proof. unfold quiet. split; [by intros s; reflexivity|]. intros s1 s2 s3 H1 H2. by etrans. Qed.

Definition site_extends (s s' : node_site) : Prop := extends (site_nodes s) (site_nodes s').
#[export] Instance site_extends_preorder : PreOrder site_extends.
Proof. unfold site_extends. split; [by intros s; reflexivity|]. intros s1 s2 s3 H1 H2. by etrans. Qed.

Lemma quiet_extends s s' : quiet s s' -> site_extends s s'.
Proof. apply same_content_extends. Qed.
#[export] Instance site_extends_quiet {A} (m : TM A) : Resp quiet m -> Resp site_extends m.
Proof. intros Hm s. apply quiet_extends, Hm. Qed.

#[export] Instance quiet_sessions {A} (m : SM A) : Resp quiet (on_sessions m).
Proof. intros s. unfold on_sessions. by destruct (m _). Qed.
#[export] Instance quiet_catalog {A} (m : FM A) : Resp quiet (on_catalog m).
Proof. intros s. unfold on_catalog. by destruct (m _). Qed.
#[export] Instance quiet_secrets {A} (m : KM A) : Resp quiet (on_secrets m).
Proof. intros s. unfold on_secrets. by destruct (m _). Qed.
#[export] Instance quiet_files {A} (m : NM A) : Resp same_content m -> Resp quiet (on_files m).
Proof. intros Hm s. specialize (Hm (site_nodes s)). unfold on_files. by destruct (m _). Qed.
Lemma extends_files {A} (m : NM A) s : extends (site_nodes s) (m (site_nodes s)).2 -> site_extends s (on_files m s).2.
Proof. unfold on_files, site_extends. by destruct (m _). Qed.
#[export] Instance site_extends_files {A} (m : NM A) : Resp extends m -> Resp site_extends (on_files m).
Proof. intros Hm s. apply extends_files, Hm. Qed.

Lemma on_files_ok {A} (m : NM A) s a s' :
  on_files m s = (Ok a, s') -> m (site_nodes s) = (Ok a, site_nodes s').
Proof. unfold on_files. destruct (m _) as [r f]. by intros [= -> <-]. Qed.

#[export] Instance resp_lock_errors {W} (R : relation W) `{!PreOrder R} {A} (m : M W A) : Resp R m -> Resp R (lock_errors m).
Proof. intros Hm. unfold lock_errors. apply resp_catch; [done|done|]. intros []; apply _. Qed.
#[export] Instance quiet_noting {A} exc_text field node (m : TM A) : Resp quiet m -> Resp quiet (noting exc_text field node m).
Proof.
  intros Hm s. specialize (Hm s). unfold noting. destruct (m s) as [[a|e] s']; [done|]. by destruct (is_node_error e).
Qed.

Lemma quiet_ok {A} (m : TM A) s a s' : Resp quiet m -> m s = (Ok a, s') -> quiet s s'.
Proof. intros Hm E. specialize (Hm s). by rewrite E in Hm. Qed.

Lemma site_lock_ok {A} (body : TM A) s a s' :
  site_lock body s = (Ok a, s') -> exists s1 s2, quiet s s1 /\ body s1 = (Ok a, s2) /\ quiet s2 s'.
Proof.
  unfold site_lock, lock_errors. intros [Hr|(e & s1 & _ & Hr)]%catch_ok; [|by destruct e].
  apply bind_ok in Hr as ([] & s1 & H1 & Hr). apply finally_ok in Hr as (s2 & u & Hb & H2).
  exists s1, s2. split; [by eapply quiet_ok, H1; apply _|]. split; [done|]. by eapply quiet_ok, H2; apply _.
Qed.

Lemma site_lock_extends {A} (body : TM A) : Resp site_extends body -> Resp site_extends (site_lock body).
Proof.
  intros Hb. unfold site_lock. apply resp_lock_errors; [apply _|]. apply resp_bind; [apply _|apply _|intros _].
  apply resp_finally; [apply _|done|apply _].
Qed.
