(* ===== verification/NodeTheorems.v ===== *)
(** * What holds of the Nodes

    Histories of the handlers of [node_internal.py], in which every operation ends
    well or in an exception, any I/O step may fail, and the other handlers may change
    the Sessions, the catalog and the secrets in between. *)

From S2P Require Import Prelude PyFloat Sha256 PyValue Json Effects Authority PyText TextFacts Uuid IpAddress Url EgressDestination SessionState SessionStore StateFile Catalog SecretStore NodeAuthority NodeEvents NodeControl NodeFacts.

Section histories.
Context (nfkc : string -> string) (decrypt : string -> option string) (secret_store_configured : bool)
  (env : environ) (admin_token_file : option string) (exc_text : exn -> string) (recovery_stable_seconds : float).

Local Abbreviation bootstrap := (bootstrap nfkc decrypt secret_store_configured env).
Local Abbreviation heartbeat := (heartbeat env exc_text recovery_stable_seconds).
Local Abbreviation stop_node := (stop_node env admin_token_file).

(** ** Heartbeats keep the ledger *)
Definition Changes (node : dict) (m : TM dict) : Prop :=
  Resp quiet m /\ forall s node' s', m s = (Ok node', s') -> same_node node node'.

Lemma changes_ret node node' : same_node node node' -> Changes node (mret node').
Proof. intros H. split; [apply _|]. by intros s n s' [-> _]%ret_ok. Qed.

Lemma changes_bind_lift {A} node (r : result A) (k : A -> TM dict) :
  (forall a, r = Ok a -> Changes node (k a)) -> Changes node (lift r ≫= k).
Proof.
  intros Hk. split.
  - intros s. destruct r as [a|e]; [|done]. by apply (Hk a eq_refl).
  - intros s n s' H. apply bind_ok in H as (a & s1 & [-> ->]%lift_ok & H). by eapply Hk, H.
Qed.

Lemma changes_noting {A} field node node1 (m : TM A) :
  attribute field -> Resp quiet m -> same_node node node1 -> Changes node (noting exc_text field node1 m).
Proof.
  intros Hf Hm Hs. split; [by apply quiet_noting|]. intros s n s'. unfold noting. destruct (m s) as [[a|e] s1].
  - intros [= <- _]. etrans; [exact Hs|]. by apply same_delete.
  - destruct (is_node_error e); [|done]. intros [= <- _]. etrans; [exact Hs|]. by apply same_insert.
Qed.

Ltac by_attribute := apply (bool_decide_eq_true_1 _); reflexivity.

Lemma ingest_changes node_id node current t : Changes node (ingest_report exc_text recovery_stable_seconds node_id node current t).
Proof.
  unfold ingest_report. apply changes_bind_lift. intros [n types] Hn%append_ingest_same. cbv zeta.
  assert (same_node node (<["ingest" := VDict current]> n)) by (etrans; [exact Hn|]; solve_same_node).
  case_match; [apply changes_noting; [by_attribute|apply _|done]|by apply changes_ret].
Qed.
Lemma egress_changes node_id node current t : Changes node (egress_report exc_text node_id node current t).
Proof.
  unfold egress_report. apply changes_bind_lift. intros [n types] Hn%append_egress_same. cbv zeta.
  set (n' := <["egress_connected" := _]> _).
  assert (same_node node n') by (etrans; [exact Hn|]; unfold n'; solve_same_node).
  case_match; [apply changes_noting; [by_attribute|apply _|done]|by apply changes_ret].
Qed.
Lemma relay_changes node_id node current t : Changes node (relay_report exc_text node_id node current t).
Proof.
  unfold relay_report. apply changes_bind_lift. intros [n types] Hn%append_relay_same. cbv zeta.
  assert (same_node node (<["relay_client" := VDict current]> n)) by (etrans; [exact Hn|]; solve_same_node).
  case_match; [apply changes_noting; [by_attribute|apply _|done]|by apply changes_ret].
Qed.
Lemma health_changes node_id node request : Changes node (health_report env exc_text node_id node request).
Proof.
  unfold health_report. case_match; [|by apply changes_ret]. split.
  - apply resp_bind; [apply _..|]. intros [n out]. by apply quiet_noting, _.
  - intros s n s' Hr. apply bind_ok in Hr as ([n1 out] & s1 & H1 & Hr). unfold on_sessions in H1.
    destruct (apply_pipeline_health _ _ _ _ _ _ _ _) as [r w] eqn:E. injection H1 as -> <-.
    apply pipeline_health_same in E. revert Hr. by apply changes_noting; [by_attribute|apply _|].
Qed.
Lemma reported_changes observation node (report : dict -> dict -> TM dict) :
  (forall n c, Changes n (report n c)) -> Changes node (when_reported observation node report).
Proof. intros H. destruct observation; [apply H|by apply changes_ret]. Qed.

(** Steps that leave the files of the Nodes, before a step that depends on them. *)
Lemma bind_quiet {A B} (m : TM A) (k : A -> TM B) s :
  Resp quiet m -> (forall a s1, m s = (Ok a, s1) -> quiet s s1 -> site_extends s1 (k a s1).2) -> site_extends s ((m ≫= k) s).2.
Proof.
  intros Hm Hk. apply (resp_bind_post site_extends); [by apply quiet_extends, Hm|]. intros a s1 E. apply Hk; [done|].
  by eapply quiet_ok.
Qed.

Lemma bind_change {B} node (m : TM dict) (k : dict -> TM B) s :
  Changes node m ->
  (forall n s1, quiet s s1 -> same_node node n -> site_extends s1 (k n s1).2) -> site_extends s ((m ≫= k) s).2.
Proof. intros [Hq Hs] Hk. apply bind_quiet; [done|]. intros n s1 E Hq1. apply Hk; [done|]. by eapply Hs. Qed.

Lemma kept_node (n : dict) id node node' :
  n !! id = Some (VDict node) -> same_node node node' -> kept n (<[id := VDict node']> n).
Proof.
  intros Hn Hs id1 node1 E. destruct (decide (id1 = id)) as [->|].
  - rewrite Hn in E. injection E as <-. exists node'. by rewrite lookup_insert_eq.
  - exists node1. by rewrite lookup_insert_ne.
Qed.

Lemma put_node_nodes a id node : dict_field (put_node a id node) "nodes" = <[id := VDict node]> (dict_field a "nodes").
Proof. unfold put_node, dict_field at 1. by rewrite py_get_insert. Qed.
Lemma put_node_tokens a id node : dict_field (put_node a id node) "tokens" = dict_field a "tokens".
Proof. unfold put_node, dict_field. by rewrite py_get_insert_ne. Qed.

(** What an authority that was read says of the ledger. *)
Lemma read_ledger s a s' :
  _read_authority s = (Ok a, s') -> ledger s' (dict_field a "nodes") (dict_field a "tokens").
Proof.
  intros (d & f & _ & Hh & _ & _ & Hn & _ & Ht)%read_authority_ok. exists d, f. split; [done|]. split; [|done].
  unfold dict_field. by rewrite Hn.
Qed.

(** Reading the authority and writing it with one Node changed in attributes. *)
Lemma write_node_extends s0 s a id node node' :
  ledger (site_nodes s0) (dict_field a "nodes") (dict_field a "tokens") -> quiet s0 s ->
  py_get (dict_field a "nodes") id = VDict node -> same_node node node' ->
  site_extends s (on_files (_write_authority (put_node a id node')) s).2.
Proof.
  intros (d & f & Hh & Hn & Ht) Hq Hg Hs. apply extends_files.
  apply (write_extends _ _ (dict_field a "nodes") (dict_field a "tokens")).
  - exists d, f. split; [by apply (same_content_holds (site_nodes s0))|done].
  - rewrite put_node_nodes. apply (kept_node _ _ node); [|done]. unfold py_get in Hg.
    destruct (dict_field a "nodes" !! id); cbn in Hg; [by rewrite Hg|done].
  - by rewrite put_node_tokens.
Qed.

Lemma heartbeat_extends id request authorization : Resp site_extends (heartbeat id request authorization).
Proof.
  unfold NodeControl.heartbeat. apply site_lock_extends. intros s. unfold _heartbeat_locked.
  apply bind_quiet; [apply _|]. intros a s1 Ha%on_files_ok%read_ledger _.
  destruct (py_get (dict_field a "nodes") id) as [| | | | | |node] eqn:Hg; try done.
  apply bind_quiet; [apply _|]. intros [] s2 _ Q2. apply bind_quiet; [apply _|]. intros now s3 _ Q3.
  apply bind_quiet; [apply _|]. intros observed_at s4 _ Q4. cbv zeta.
  assert (Hn : same_node node (reported_node node request observed_at)) by apply reported_same.
  generalize dependent (reported_node node request observed_at). intros n0 S0.
  apply bind_quiet; [destruct (session_assigned n0); [|apply _]; apply resp_bind; apply _|]. intros [] s5 _ Q5.
  apply (bind_change n0); [apply reported_changes; intros; apply ingest_changes|]. intros n1 s6 Q6 S1.
  apply (bind_change n1); [apply reported_changes; intros; apply egress_changes|]. intros n2 s7 Q7 S2.
  apply (bind_change n2); [apply reported_changes; intros; apply relay_changes|]. intros n3 s8 Q8 S3.
  apply (bind_change n3); [apply health_changes|]. intros n4 s9 Q9 S4.
  apply (resp_bind_post site_extends); [|intros; done].
  apply (write_node_extends s1 s9 a id node); [done| |done|].
  - do 7 (etrans; [eassumption|]). done.
  - do 4 (etrans; [eassumption|]). done.
Qed.

Lemma stop_extends id authorization : Resp site_extends (stop_node id authorization).
Proof.
  unfold NodeControl.stop_node. apply resp_bind; [apply _|apply _|intros _]. apply site_lock_extends. intros s.
  apply bind_quiet; [apply _|]. intros a s1 Ha%on_files_ok%read_ledger _.
  destruct (py_get (dict_field a "nodes") id) as [| | | | | |node] eqn:Hg; try done.
  apply (resp_bind_post site_extends); [|intros; done].
  apply (write_node_extends s1 s1 a id node); [done|reflexivity|done|solve_same_node].
Qed.

(** ** Bootstrap *)
#[local] Instance delivery_quiet session : Resp quiet (_resolve_egress_delivery nfkc decrypt secret_store_configured env session).
Proof. unfold _resolve_egress_delivery. cbv zeta. solve_resp. Qed.
#[local] Instance response_quiet node session token v :
  Resp quiet (_bootstrap_response nfkc decrypt secret_store_configured env node session token v).
Proof. unfold _bootstrap_response. solve_resp. Qed.
#[local] Instance replay_quiet request a consumed :
  Resp quiet (replay_bootstrap nfkc decrypt secret_store_configured env request a consumed).
Proof. unfold replay_bootstrap. solve_resp. Qed.
#[local] Instance resolve_session_quiet id : Resp quiet (_resolve_assigned_session env id).
Proof. unfold _resolve_assigned_session. solve_resp. Qed.
#[local] Instance conflict_quiet {A} (m : TM A) : Resp quiet m -> Resp quiet (conflict_errors m).
Proof. intros Hm. unfold conflict_errors. apply resp_catch; [apply _|done|]. intros e. case_match; apply _. Qed.

Lemma response_fields node session token v s d s' :
  _bootstrap_response nfkc decrypt secret_store_configured env node session token v s = (Ok d, s') ->
  py_get d "node_id" = py_get node "node_id" /\ py_get d "session_id" = py_get node "session_id".
Proof.
  unfold _bootstrap_response. intros H. apply bind_ok in H as (t & s1 & _ & H). cbv zeta in H.
  apply bind_ok in H as ([url peer] & s2 & _ & H). apply bind_ok in H as ([] & s3 & _ & H). apply ret_ok in H as [-> _].
  rewrite ?list_to_map_cons. cbn [fst snd]. record_fields. done.
Qed.

(** The name a new Node gets is that of no Node of the authority. *)
Lemma issued_fresh s a s' id a' :
  _read_authority s = (Ok a, s') -> _issue_node_id a = Ok (id, a') ->
  dict_field a "nodes" !! id = None /\ dict_field a' "nodes" = dict_field a "nodes" /\
  dict_field a' "tokens" = dict_field a "tokens".
Proof.
  intros (d & f & _ & _ & Hv & _ & Hn & Hq & _)%read_authority_ok Hi.
  destruct (valid_authority d Hv) as (n & t & k & Hnd & _ & Hk & H1 & Hh & _). unfold _issue_node_id in Hi.
  assert (E : py_get_or a "next_node_seq" (VInt 1) = VInt k).
  { rewrite Hk in Hq. unfold py_get, py_get_or in *. by destruct (a !! "next_node_seq"). }
  rewrite E in Hi. injection Hi as <- <-. rewrite Hnd in Hn.
  rewrite (dict_field_is _ _ _ Hn). split; [apply fresh_name; lia|]. unfold dict_field. by rewrite !py_get_insert_ne, Hn by done.
Qed.

(** The first use of a token, from the authority that was read: the Node and the token
    record that are there afterwards, and what was answered. *)
Definition first_use (request : BootstrapRequest) (digest : string) (a : dict) (s' : node_site) (d : dict) : Prop :=
  exists id node record,
    dict_field a "nodes" !! id = None /\
    (py_get node "node_id" = VStr id /\ py_get record "node_id" = VStr id /\ same_attempt request record (Some node) = true) /\
    ledger (site_nodes s') (<[id := VDict node]> (dict_field a "nodes")) (<[digest := VDict record]> (dict_field a "tokens")) /\
    py_get d "node_id" = py_get node "node_id" /\ py_get d "session_id" = py_get node "session_id".

Lemma new_binding id session_id session request deadline t :
  let node := new_node id session_id session request deadline t in
  let record := token_record id session_id request t in
  py_get node "node_id" = VStr id /\ py_get record "node_id" = VStr id /\ same_attempt request record (Some node) = true.
Proof.
  cbv zeta. unfold same_attempt, node_text, new_node, token_record. rewrite ?list_to_map_cons. cbn [fst snd].
  record_fields. rewrite !(proj2 (py_eq_text _ _) eq_refl), !String.eqb_refl. done.
Qed.

(** The writes of a first use, in one authority: whatever stops them, the ledger grows. *)
Definition recorded_authority (a : dict) (id digest : string) (node record : dict) : dict :=
  put_token (put_node a id node) digest record.

Lemma recorded_fields a id digest node record :
  dict_field (recorded_authority a id digest node record) "nodes" = <[id := VDict node]> (dict_field a "nodes") /\
  dict_field (recorded_authority a id digest node record) "tokens" = <[digest := VDict record]> (dict_field a "tokens").
Proof.
  unfold recorded_authority, put_token. split.
  - unfold dict_field at 1. rewrite py_get_insert_ne by done. apply put_node_nodes.
  - unfold dict_field at 1. by rewrite py_get_insert, put_node_tokens.
Qed.

Lemma first_writes_extend s a id digest session_id t node record :
  ledger (site_nodes s) (dict_field a "nodes") (dict_field a "tokens") ->
  dict_field a "nodes" !! id = None -> dict_field a "tokens" !! digest = None ->
  forall (k : TM dict), Resp quiet k ->
  site_extends s ((on_files (_write_legacy_token_fuse digest id session_id t) ;;
                   on_files (_write_authority (recorded_authority a id digest node record)) ;; k) s).2.
Proof.
  intros HL Hid Hdg k Hk. destruct (recorded_fields a id digest node record) as [Hn Ht].
  set (b := recorded_authority a id digest node record) in *.
  assert (Hfrom : forall s', (exists n' t', ledger (site_nodes s') n' t' /\ kept (dict_field a "nodes") n' /\
    dict_field a "tokens" ⊆ t') -> site_extends s s') by (intros s'; by apply extends_from).
  destruct HL as (d & f & Hh & En & Et).
  assert (Ht' : dict_field a "tokens" ⊆ dict_field b "tokens").
  { rewrite Ht. by apply insert_subseteq. }
  assert (Hk' : kept (dict_field a "nodes") (dict_field b "nodes")).
  { rewrite Hn. intros i x E. exists x. rewrite lookup_insert_ne; [done|]. intros <-. congruence. }
  assert (Hd : forall v, dict_field a "tokens" ⊆ dict_field d "tokens" ∪ <[digest := v]> f).
  { intros v. rewrite Et in *. apply lookup_union_None in Hdg as [Hd1 Hd2].
    rewrite <- insert_union_r by done. apply insert_subseteq. by apply lookup_union_None. }
  assert (Hfuse : forall s1, holds_files (site_nodes s1) d f \/ (exists v, holds_files (site_nodes s1) d (<[digest := v]> f)) ->
    site_extends s s1 /\ site_extends s (on_files (_write_authority b) s1).2).
  { intros s1 H1. assert (E1 : forall f1, holds_files (site_nodes s1) d f1 -> dict_field a "tokens" ⊆ dict_field d "tokens" ∪ f1 ->
      site_extends s s1 /\ site_extends s (on_files (_write_authority b) s1).2).
    { intros f1 Hh1 Hs1. split; [apply Hfrom; eexists _, _; split; [by apply ledger_of|]; by rewrite <- En|].
      apply Hfrom. unfold on_files. destruct (write_authority_outcome b _ d f1 Hh1) as [Hw|Hw];
        destruct (_write_authority b (site_nodes s1)) as [r w]; cbn [snd site_nodes] in *; apply ledger_of in Hw;
        eexists _, _; (split; [exact Hw|]); [by rewrite <- En|]. split; [done|]. etrans; [exact Ht'|apply map_union_subseteq_l]. }
    destruct H1 as [H1|(v & H1)]; [apply (E1 f H1); by rewrite Et|apply (E1 _ H1), Hd]. }
  unfold mbind at 1, M_bind at 1. pose proof (write_fuse_outcome digest id session_id t (site_nodes s) d f Hh) as H1.
  unfold on_files at 1. destruct (_write_legacy_token_fuse _ _ _ _ _) as [r1 w1]. cbn [snd] in H1.
  set (s1 := NodeSite w1 _ _ _). destruct (Hfuse s1 H1) as [F1 F2]. destruct r1; [|done].
  unfold mbind at 1, M_bind at 1. destruct (on_files (_write_authority b) s1) as [r2 s2]. cbn [snd] in F2.
  destruct r2; [|done]. etrans; [exact F2|]. apply quiet_extends, Hk.
Qed.

Lemma read_node s a s' id v :
  _read_authority s = (Ok a, s') -> dict_field a "nodes" !! id = Some v ->
  exists node, v = VDict node /\ py_get node "node_id" = VStr id.
Proof.
  intros (d & f & _ & _ & Hv & _ & Hn & _ & _)%read_authority_ok E.
  destruct (valid_authority d Hv) as (n & _ & _ & Hnd & _ & _ & _ & _ & Hall & _). rewrite Hnd in Hn.
  rewrite (dict_field_is _ _ _ Hn) in E. apply Hall in E. destruct v as [| | | | | |node]; try done.
  exists node. split; [done|]. apply result_bind_ok in E as ([] & E%raise_if_ok & _). apply negb_false_iff in E.
  by apply py_eq_text.
Qed.

Lemma read_token s a s' digest :
  _read_authority s = (Ok a, s') ->
  (exists r, dict_field a "tokens" !! digest = Some (VDict r) /\ consumed_token a digest = Some r) \/
  (dict_field a "tokens" !! digest = None /\ consumed_token a digest = None).
Proof.
  intros (d & f & _ & _ & Hv & Hf & _ & _ & Ht)%read_authority_ok.
  destruct (valid_authority d Hv) as (n & t & _ & _ & Htd & _ & _ & _ & _ & Hall).
  rewrite (dict_field_is _ _ _ Htd) in Ht.
  assert (Hc : forall v, dict_field a "tokens" !! digest = Some v -> exists r, v = VDict r /\ truthy (py_get r "consumed") = true).
  { intros v. rewrite Ht, lookup_union_Some_raw. intros [E|[_ E]].
    - by apply Hall, token_is_consumed in E as [_ ?].
    - destruct Hf as [->|(p & Hp & ->)]; [by rewrite lookup_empty in E|]. pose proof (tokens_field _ Hp) as Ep.
      unfold _validate_tokens in Hp. rewrite Ep in Hp. apply check_all_ok in Hp. by apply Hp, token_is_consumed in E as [_ ?]. }
  unfold consumed_token, py_get at 1 3. destruct (dict_field a "tokens" !! digest) as [v|]; [|by right].
  destruct (Hc v eq_refl) as (r & -> & Hr). left. exists r. cbn. by rewrite Hr.
Qed.

Local Abbreviation locked_bootstrap := (_bootstrap_locked nfkc decrypt secret_store_configured env).

Lemma bootstrap_cases request digest s d s' :
  locked_bootstrap request digest s = (Ok d, s') ->
  exists a s1, _read_authority (site_nodes s) = (Ok a, site_nodes s1) /\ quiet s s1 /\
    ((exists record, consumed_token a digest = Some record /\
       replay_bootstrap nfkc decrypt secret_store_configured env request a record s1 = (Ok d, s')) \/
     consumed_token a digest = None /\ first_use request digest a s' d).
Proof.
  unfold _bootstrap_locked. intros Hr. apply bind_ok in Hr as (a & s1 & Ha & Hr). exists a, s1.
  split; [by apply on_files_ok|]. split; [by eapply quiet_ok, Ha; apply _|]. apply on_files_ok in Ha.
  destruct (consumed_token a digest) as [record|] eqn:Hc; [left; eauto|right]. split; [done|].
  assert (Hdg : dict_field a "tokens" !! digest = None) by (destruct (read_token _ _ _ digest Ha) as [(r & _ & E)|[E _]]; congruence).
  pose proof (read_ledger _ _ _ Ha) as HL.
  apply bind_ok in Hr as (now & s2 & H1 & Hr). apply (quiet_ok _ _ _ _ _) in H1 as Q1.
  apply bind_ok in Hr as (t & s3 & [_ ->]%lift_ok & Hr). apply bind_ok in Hr as (hours & s3 & [_ ->]%lift_ok & Hr).
  apply bind_ok in Hr as (dl & s3 & [_ ->]%lift_ok & Hr). apply bind_ok in Hr as (session & s3 & H2 & Hr).
  apply (quiet_ok _ _ _ _ _) in H2 as Q2. apply bind_ok in Hr as ([id a'] & s4 & [Hi ->]%lift_ok & Hr).
  destruct (issued_fresh _ _ _ _ _ Ha Hi) as (Hid & En & Et).
  apply bind_ok in Hr as (session_id & s4 & H3 & Hr).
  assert (Q3 : quiet s3 s4) by (destruct session; eapply quiet_ok, H3; apply _). cbv zeta in Hr.
  apply bind_ok in Hr as (dl2 & s5 & [_ ->]%lift_ok & Hr). apply bind_ok in Hr as ([] & s5 & H4 & Hr).
  assert (Q4 : quiet s4 s5) by (destruct session; eapply quiet_ok, H4; apply _).
  set (node := new_node _ _ _ _ _ _) in *. set (record := token_record _ _ _ _) in *.
  change (put_token (put_node a' id node) digest record) with (recorded_authority a' id digest node record) in Hr.
  apply bind_ok in Hr as (u1 & s6 & H5%on_files_ok & Hr). apply bind_ok in Hr as (u2 & s7 & H6%on_files_ok & Hr).
  apply response_fields in Hr as F. apply (quiet_ok _ _ _ _ _) in Hr as Q5.
  destruct HL as (dd & f & Hh & Hnn & Htt).
  assert (Q : quiet s1 s5) by (do 3 (etrans; [eassumption|]); done).
  apply (same_content_holds (site_nodes s1) (site_nodes s5)) in Hh; [|exact Q].
  destruct (write_fuse_ok _ _ _ _ _ _ _ _ _ H5 Hh) as (v & Hh6). apply write_authority_ok in H6 as [_ H6].
  apply H6 in Hh6. apply (same_content_holds (site_nodes s7) (site_nodes s')) in Hh6; [|exact Q5].
  destruct (recorded_fields a' id digest node record) as [Rn Rt]. rewrite En in Rn. rewrite Et in Rt.
  exists id, node, record. split; [done|]. split; [apply new_binding|]. split; [|exact F].
  eexists _, _. split; [exact Hh6|]. split; [done|]. rewrite Rt.
  apply map_eq. intros k. rewrite Htt, lookup_union. destruct (decide (k = digest)) as [->|].
  - by rewrite !lookup_insert_eq, union_Some_l.
  - rewrite !lookup_insert_ne, lookup_union by done. by destruct (dict_field dd "tokens" !! k), (f !! k).
Qed.

Lemma bootstrap_extends request authorization : Resp site_extends (bootstrap request authorization).
Proof.
  unfold NodeControl.bootstrap. apply resp_bind; [apply _..|]. intros token. apply resp_bind; [apply _..|]. intros [].
  apply site_lock_extends. intros s. unfold _bootstrap_locked. set (digest := hash_token token). clearbody digest.
  apply bind_quiet; [apply _|]. intros a s1 Ha%on_files_ok _. pose proof (read_ledger _ _ _ Ha) as HL.
  destruct (consumed_token a digest) as [record|] eqn:Hc; [by apply quiet_extends, (replay_quiet request a record)|].
  assert (Hdg : dict_field a "tokens" !! digest = None) by (destruct (read_token _ _ _ digest Ha) as [(r & _ & E)|[E _]]; congruence).
  apply bind_quiet; [apply _|]. intros now s2 _ Q2. apply bind_quiet; [apply _|]. intros t s3 _ Q3.
  apply bind_quiet; [apply _|]. intros hours s4 _ Q4. apply bind_quiet; [apply _|]. intros dl s5 _ Q5.
  apply bind_quiet; [apply _|]. intros session s6 _ Q6. apply bind_quiet; [apply _|]. intros [id a'] s7 [Hi _]%lift_ok Q7.
  destruct (issued_fresh _ _ _ _ _ Ha Hi) as (Hid & En & Et).
  apply bind_quiet; [destruct session; apply _|]. intros session_id s8 _ Q8. cbv zeta.
  apply bind_quiet; [apply _|]. intros dl2 s9 _ Q9.
  apply bind_quiet; [destruct session; apply _|]. intros [] s10 _ Q10.
  apply (first_writes_extend s10 a'); [|congruence..|apply _]. rewrite En, Et.
  destruct HL as (d & f & Hh & Hn & Ht). exists d, f. split; [|done].
  apply (same_content_holds (site_nodes s1)); [|done].
  change (quiet s1 s10). do 8 (etrans; [eassumption|]). done.
Qed.

(** ** Histories *)
Lemma ensure_extends : Resp extends ensure_state.
Proof.
  unfold ensure_state, node_state_lock. apply resp_lock_errors; [apply _|]. apply resp_bind; [apply _..|]. intros _.
  apply resp_finally; [apply _| |apply _]. intros s. apply (resp_bind_post extends); [apply (resp (R:=extends))|].
  intros [] s0 _. apply (resp_bind_post extends); [apply (resp (R:=extends))|]. intros b s1 (w & [Hf Hb]%exists_ok & ->)%on_nodes_ok.
  destruct b.
  - change (negb true) with false. cbv iota. apply (resp_bind_post extends); [apply (resp (R:=extends))|].
    intros a s2 (w2 & Ha & ->)%on_nodes_ok. cbn [nodes_file tokens_file] in *.
    apply (resp_bind_post extends); [apply (resp (R:=extends))|]. intros [] s3 [Hv ->]%lift_ok.
    destruct (py_get a "tokens") as [| | | | | |t] eqn:Ht; [..|apply (resp (R:=extends))].
    all: intros n t0 (d0 & f0 & [Hd _] & _); exfalso.
    all: assert (Hw : file w2 = file w) by (pose proof (calm_required w) as C; rewrite Ha in C; apply C).
    all: apply required_ok in Ha as (r & Hr & Hl); unfold document in Hd; cbn [nodes_file] in Hd.
    all: rewrite Hw, Hr in Hd; cbn in Hd; rewrite Hl in Hd.
    all: destruct (validate_node_authority a) as [[]|] eqn:Hva; [|done].
    all: destruct (valid_authority _ Hva) as (? & ? & ? & ? & E & _); congruence.
  - intros n t (d & f & [Hd _] & _). exfalso. unfold document in Hd. cbn [nodes_file] in Hd. rewrite Hf in Hd.
    by destruct (file (nodes_file s0)).
Qed.

Inductive node_op : Type :=
| OpEnsureState
| OpBootstrap (request : BootstrapRequest) (authorization : option string)
| OpHeartbeat (node_id : string) (request : HeartbeatRequest) (authorization : option string)
| OpStopNode (node_id : string) (authorization : option string)
| OpListNodes (authorization : option string)
| OpAssignedNode (authorization : option string) (session_id : string).

Definition run_node (op : node_op) : TM unit :=
  match op with
  | OpEnsureState => on_files ensure_state
  | OpBootstrap request authorization => bootstrap request authorization ;; mret tt
  | OpHeartbeat id request authorization => heartbeat id request authorization ;; mret tt
  | OpStopNode id authorization => stop_node id authorization ;; mret tt
  | OpListNodes authorization => list_nodes env admin_token_file authorization ;; mret tt
  | OpAssignedNode authorization session_id => on_files (require_assigned_node authorization session_id) ;; mret tt
  end.

(** One operation of the control plane on its Nodes, or anything that the other
    handlers do to the other stores. *)
Inductive node_step : relation node_site :=
| node_step_op op s : node_step s (run_node op s).2
| node_step_elsewhere s s' : site_nodes s' = site_nodes s -> node_step s s'.

Lemma history_extends s s' : rtc node_step s s' -> site_extends s s'.
Proof.
  induction 1 as [s|s1 s2 s3 H _ IH]; [done|]. etrans; [|exact IH]. clear IH. destruct H as [op s|s s' E].
  - destruct op; cbn [run_node]; try (apply (resp_bind_post site_extends); [|intros; done]).
    + apply site_extends_files, ensure_extends.
    + apply bootstrap_extends.
    + apply heartbeat_extends.
    + apply stop_extends.
    + revert s. change (Resp site_extends (list_nodes env admin_token_file authorization)). unfold list_nodes, site_lock.
      apply resp_bind; [apply _..|intros _]. apply resp_bind; [apply _| |intros; apply _].
      apply resp_catch; [apply _| |intros []; apply _]. apply site_lock_extends, _.
    + revert s. change (Resp site_extends (on_files (require_assigned_node authorization session_id))).
      apply site_extends_quiet, quiet_files. unfold require_assigned_node, node_state_lock.
      apply resp_bind; [apply _..|intros token]. apply resp_lock_errors; [apply _|]. solve_resp.
  - unfold site_extends. by rewrite E.
Qed.

(** What a bootstrap that was answered leaves in the ledger. *)
Definition bound (request : BootstrapRequest) (digest : string) (d : dict) (s : node_site) : Prop :=
  exists n t record node id,
    ledger (site_nodes s) n t /\ t !! digest = Some (VDict record) /\ node_text record "node_id" = id /\
    n !! id = Some (VDict node) /\ py_get node "node_id" = VStr id /\ same_attempt request record (Some node) = true /\
    py_get d "node_id" = py_get node "node_id" /\ py_get d "session_id" = py_get node "session_id".

Lemma same_attempt_node request record node node' :
  same_node node node' -> same_attempt request record (Some node) = true -> same_attempt request record (Some node') = true.
Proof.
  intros [H _]. unfold same_attempt, node_text. rewrite (H "access_token_sha256"); [done|].
  apply (bool_decide_eq_true_1 _); reflexivity.
Qed.

Lemma bound_kept request digest d s s' : site_extends s s' -> bound request digest d s -> bound request digest d s'.
Proof.
  intros He (n & t & record & node & id & HL & Ht & Hid & Hn & Hi & Hs & Hd & Hd').
  destruct (He n t HL) as (n' & t' & HL' & Hk & Hsub). destruct (Hk _ _ Hn) as (node' & Hn' & Hsame).
  exists n', t', record, node', id. split; [done|]. split; [by eapply lookup_weaken|]. split; [done|]. split; [done|].
  pose proof Hsame as [Hf _]. rewrite !Hf by (apply (bool_decide_eq_true_1 _); reflexivity).
  repeat split; try done. by eapply same_attempt_node.
Qed.

(** The answer to a request whose token is consumed is that of the recorded Node. *)
Lemma replay_ok request a s0 s1 record digest s d s' :
  _read_authority (site_nodes s0) = (Ok a, site_nodes s1) -> consumed_token a digest = Some record ->
  replay_bootstrap nfkc decrypt secret_store_configured env request a record s = (Ok d, s') ->
  exists node, dict_field a "nodes" !! node_text record "node_id" = Some (VDict node) /\
    py_get node "node_id" = VStr (node_text record "node_id") /\ same_attempt request record (Some node) = true /\
    py_get d "node_id" = py_get node "node_id" /\ py_get d "session_id" = py_get node "session_id".
Proof.
  intros Ha Hc. unfold replay_bootstrap, py_get at 1. destruct (dict_field a "nodes" !! _) as [v|] eqn:E; [|done].
  destruct (read_node _ _ _ _ _ Ha E) as (node & -> & Hid). cbn [default as_dict id from_option]. intros Hr.
  apply bind_ok in Hr as ([] & s2 & [Hs ->]%guard_err_ok & Hr). apply negb_false_iff in Hs.
  apply bind_ok in Hr as (session & s3 & _ & Hr). apply bind_ok in Hr as ([] & s4 & _ & Hr). apply response_fields in Hr.
  by exists node.
Qed.

Lemma bootstrap_token request authorization s d s' :
  bootstrap request authorization s = (Ok d, s') ->
  exists token s1 s2, _bearer authorization = Ok token /\ quiet s s1 /\
    locked_bootstrap request (hash_token token) s1 = (Ok d, s2) /\ quiet s2 s'.
Proof.
  unfold NodeControl.bootstrap. intros Hr. apply bind_ok in Hr as (token & s1 & [Ht ->]%lift_ok & Hr).
  apply bind_ok in Hr as ([] & s1 & [_ ->]%guard_err_ok & (s1 & s2 & Q1 & Hb & Q2)%site_lock_ok). by exists token, s1, s2.
Qed.

Lemma bootstrap_binds request authorization s d s' :
  bootstrap request authorization s = (Ok d, s') ->
  exists token, _bearer authorization = Ok token /\ bound request (hash_token token) d s'.
Proof.
  intros (token & s1 & s2 & Ht & _ & Hb & Q2)%bootstrap_token. exists token. split; [done|].
  apply (bound_kept _ _ _ s2); [by apply quiet_extends|]. generalize dependent (hash_token token). intros digest Hb.
  pose proof Hb as (a & s3 & Ha & _ & Hcase)%bootstrap_cases. pose proof (read_ledger _ _ _ Ha) as HL.
  destruct Hcase as [(record & Hc & Hr)|(_ & id & node & record & _ & (Hi & Hri & Hs) & HL' & Hd)].
  - apply (quiet_ok _ _ _ _ _) in Hr as Q. destruct (replay_ok _ _ _ _ _ _ _ _ _ Ha Hc Hr) as (node & Hn & Hi & Hs & Hd).
    destruct (read_token _ _ _ digest Ha) as [(r & Ht' & Hc')|[_ Hc']]; [|congruence].
    rewrite Hc in Hc'. injection Hc' as <-. destruct HL as (dd & f & Hh & En & Et).
    exists (dict_field a "nodes"), (dict_field a "tokens"), record, node, (node_text record "node_id").
    split; [|done]. exists dd, f. split; [by apply (same_content_holds (site_nodes s3))|done].
  - eexists _, _, record, node, id. split; [exact HL'|]. rewrite !lookup_insert_eq. unfold node_text at 1. by rewrite Hri.
Qed.

(** A second bootstrap finds the record of the first. *)
Lemma bootstrap_again request authorization token s d s' r1 d1 :
  bound r1 (hash_token token) d1 s -> _bearer authorization = Ok token -> bootstrap request authorization s = (Ok d, s') ->
  exists record node, same_attempt r1 record (Some node) = true /\ same_attempt request record (Some node) = true /\
    py_get d "node_id" = py_get d1 "node_id" /\ py_get d "session_id" = py_get d1 "session_id".
Proof.
  intros Hbd Ht (token' & s1 & s2 & Ht' & Q1 & Hb & _)%bootstrap_token. rewrite Ht in Ht'. injection Ht' as <-.
  apply (bound_kept _ _ _ _ s1) in Hbd; [|by apply quiet_extends].
  generalize dependent (hash_token token). intros digest Hbd Hb.
  pose proof Hb as (a & s3 & Ha & Q3 & Hcase)%bootstrap_cases. apply (bound_kept _ _ _ _ s3) in Hbd; [|by apply quiet_extends].
  destruct Hbd as (n & t & record & node & id & HL & Htk & Hid & Hn & Hi & Hs & Hd1 & Hd1').
  destruct (ledger_unique _ _ _ _ _ HL (read_ledger _ _ _ Ha)) as [<- <-].
  destruct (read_token _ _ _ digest Ha) as [(r & E & Hc)|[E _]]; [|congruence]. rewrite Htk in E. injection E as <-.
  destruct Hcase as [(record' & Hc' & Hr)|[Hc' _]]; [|congruence]. rewrite Hc in Hc'. injection Hc' as <-.
  destruct (replay_ok _ _ _ _ _ _ _ _ _ Ha Hc Hr) as (node' & Hn' & _ & Hs' & Hd & Hd').
  rewrite Hid, Hn in Hn'. injection Hn' as <-. exists record, node. rewrite Hd, Hd', Hd1, Hd1'. done.
Qed.

Lemma same_attempt_eq r1 r2 record node :
  same_attempt r1 record (Some node) = true -> same_attempt r2 record (Some node) = true ->
  bootstrap_request_id r2 = bootstrap_request_id r1 /\ req_provider_server_id r2 = req_provider_server_id r1 /\
  req_boot_id r2 = req_boot_id r1 /\
  hash_token (req_node_access_token r2) = hash_token (req_node_access_token r1).
Proof.
  unfold same_attempt. intros [[[[H1%py_eq_text H2%py_eq_text]%andb_true_iff H3%py_eq_text]%andb_true_iff H4]%andb_true_iff
    H5%String.eqb_eq]%andb_true_iff [[[[E1%py_eq_text E2%py_eq_text]%andb_true_iff E3%py_eq_text]%andb_true_iff E4]%andb_true_iff
    E5%String.eqb_eq]%andb_true_iff.
  rewrite H1 in E1. rewrite H2 in E2. rewrite H3 in E3. rewrite H5 in E5. by injection E1; injection E2; injection E3.
Qed.

Lemma changes_ok node (m : TM dict) s n s' : Changes node m -> m s = (Ok n, s') -> same_node node n.
Proof. intros [_ H]. apply H. Qed.

Lemma heartbeat_ok id request authorization s answer s' :
  heartbeat id request authorization s = (Ok answer, s') ->
  exists n t node node' token,
    ledger (site_nodes s) n t /\ n !! id = Some (VDict node) /\ _bearer authorization = Ok token /\
    node_text node "access_token_sha256" = hash_token token /\ same_node node node' /\
    answer = {[ "desired_state" := py_get_or node' "desired_state" (VStr "RUNNING") ]}.
Proof.
  unfold NodeControl.heartbeat. intros (s1 & s2 & Q1 & Hr & _)%site_lock_ok. unfold _heartbeat_locked in Hr.
  apply bind_ok in Hr as (a & s3 & Ha%on_files_ok & Hr).
  destruct (py_get (dict_field a "nodes") id) as [| | | | | |node] eqn:Hg; try done.
  apply bind_ok in Hr as ([] & s4 & [Hacc ->]%lift_ok & Hr). apply bind_ok in Hr as (now & s4 & _ & Hr).
  apply bind_ok in Hr as (t & s5 & _ & Hr). cbv zeta in Hr. apply bind_ok in Hr as ([] & s6 & _ & Hr).
  apply bind_ok in Hr as (n1 & s7 & H1 & Hr). apply bind_ok in Hr as (n2 & s8 & H2 & Hr).
  apply bind_ok in Hr as (n3 & s9 & H3 & Hr). apply bind_ok in Hr as (n4 & s10 & H4 & Hr).
  apply bind_ok in Hr as (u & s11 & _ & Hr). apply ret_ok in Hr as [-> _].
  unfold _require_node_access in Hacc. apply result_bind_ok in Hacc as (token & Ht & Hacc). cbv zeta in Hacc.
  apply raise_if_ok in Hacc. apply orb_false_iff in Hacc as [_ Hacc]. apply negb_false_iff, String.eqb_eq in Hacc.
  exists (dict_field a "nodes"), (dict_field a "tokens"), node, n4, token. split.
  { assert (Qa : quiet s s3).
    { etrans; [exact Q1|]. assert (H := resp (R:=same_content) (m:=_read_authority) (site_nodes s1)). by rewrite Ha in H. }
    destruct (read_ledger _ _ _ Ha) as (d & f & Hh & E). exists d, f. split; [by apply (same_content_holds _ (site_nodes s3))|done]. }
  split; [unfold py_get in Hg; destruct (dict_field a "nodes" !! id); cbn in Hg; [by rewrite Hg|done]|].
  split; [done|]. split; [done|]. split; [|done].
  etrans; [apply reported_same|]. etrans; [eapply changes_ok, H1; apply reported_changes; intros; apply ingest_changes|].
  etrans; [eapply changes_ok, H2; apply reported_changes; intros; apply egress_changes|].
  etrans; [eapply changes_ok, H3; apply reported_changes; intros; apply relay_changes|].
  eapply changes_ok, H4; apply health_changes.
Qed.

Lemma stop_ok id authorization s d s' :
  stop_node id authorization s = (Ok d, s') ->
  exists n t node, ledger (site_nodes s') n t /\ n !! id = Some (VDict node) /\ py_get node "desired_state" = VStr "STOPPED".
Proof.
  unfold NodeControl.stop_node. intros Hr. apply bind_ok in Hr as ([] & s0 & _ & (s1 & s2 & _ & Hr & Q2)%site_lock_ok).
  apply bind_ok in Hr as (a & s3 & Ha%on_files_ok%read_ledger & Hr).
  destruct (py_get (dict_field a "nodes") id) as [| | | | | |node] eqn:Hg; try done.
  apply bind_ok in Hr as (u & s4 & [_ Hw]%on_files_ok%write_authority_ok & [-> ->]%ret_ok).
  destruct Ha as (dd & f & Hh & _). apply Hw in Hh. apply (same_content_holds (site_nodes s4) (site_nodes s')) in Hh; [|done].
  eexists _, _, _. split; [by apply ledger_of|]. rewrite put_node_nodes, lookup_insert_eq. split; [done|].
  by rewrite py_get_insert_ne, py_get_insert.
Qed.

Lemma stopped_answer (node : dict) :
  py_get node "desired_state" = VStr "STOPPED" -> py_get_or node "desired_state" (VStr "RUNNING") = VStr "STOPPED".
Proof. unfold py_get, py_get_or. by destruct (node !! "desired_state"). Qed.

(** ** The theorems *)

(** C6: a bootstrap token is single use. Once a bootstrap with a token was answered,
    then through any history of the control plane, with I/O failing anywhere,
    [bootstrap] answers that token again only to the request it was consumed by: the
    same request id, server, boot and Node access token (by digest); and it answers
    with the same Node and Session. *)
Theorem token_is_single_use r1 a1 d1 s0 s1 r2 a2 d2 s2 s3 token :
  bootstrap r1 a1 s0 = (Ok d1, s1) -> rtc node_step s1 s2 -> bootstrap r2 a2 s2 = (Ok d2, s3) ->
  _bearer a1 = Ok token -> _bearer a2 = Ok token ->
  bootstrap_request_id r2 = bootstrap_request_id r1 /\ req_provider_server_id r2 = req_provider_server_id r1 /\
  req_boot_id r2 = req_boot_id r1 /\
  hash_token (req_node_access_token r2) = hash_token (req_node_access_token r1) /\
  py_get d2 "node_id" = py_get d1 "node_id" /\ py_get d2 "session_id" = py_get d1 "session_id".
Proof.
  intros (t & Ht & Hb)%bootstrap_binds Hh%history_extends H2 E1 E2. rewrite E1 in Ht. injection Ht as <-.
  apply (bound_kept _ _ _ _ _ Hh) in Hb. destruct (bootstrap_again _ _ _ _ _ _ _ _ Hb E2 H2) as (rec & node & S1 & S2 & ->& ->).
  by destruct (same_attempt_eq _ _ _ _ S1 S2) as (-> & -> & -> & ->).
Qed.

(** C19: only the agent that was bootstrapped speaks for a Node. After [bootstrap] has
    answered with a Node, and any history, [heartbeat] accepts a report for this Node
    only from a bearer of the access token (by digest) of that bootstrap. *)
Theorem only_the_agent_reports r1 a1 d1 s0 s1 id request authorization answer s2 s3 :
  bootstrap r1 a1 s0 = (Ok d1, s1) -> py_get d1 "node_id" = VStr id -> rtc node_step s1 s2 ->
  heartbeat id request authorization s2 = (Ok answer, s3) ->
  exists token, _bearer authorization = Ok token /\ hash_token token = hash_token (req_node_access_token r1).
Proof.
  intros (t & _ & Hb)%bootstrap_binds Hid Hh%history_extends H2.
  destruct (bound_kept _ _ _ _ _ Hh Hb) as (n & tk & record & node & id' & HL & _ & _ & Hn & Hi & Hs & Hd & _).
  rewrite Hd, Hi in Hid. injection Hid as ->.
  destruct (heartbeat_ok _ _ _ _ _ _ H2) as (n' & tk' & node' & _ & token & HL' & Hn' & Ht & Hacc & _).
  destruct (ledger_unique _ _ _ _ _ HL HL') as [-> ->]. rewrite Hn in Hn'. injection Hn' as ->.
  exists token. split; [done|]. rewrite <- Hacc. unfold same_attempt in Hs. by apply andb_true_iff in Hs as [_ Hs%String.eqb_eq].
Qed.

(** C8: an operator's stop is final. Once [stop_node] has answered, every heartbeat of
    this Node that is accepted afterwards, whatever it reports and whatever happened
    in between, is told to stop. *)
Theorem stop_is_final id authorization d s0 s1 request a2 answer s2 s3 :
  stop_node id authorization s0 = (Ok d, s1) -> rtc node_step s1 s2 ->
  heartbeat id request a2 s2 = (Ok answer, s3) ->
  answer = {[ "desired_state" := VStr "STOPPED" ]}.
Proof.
  intros (n & t & node & HL & Hn & Hd)%stop_ok Hh%history_extends H2.
  destruct (Hh n t HL) as (n2 & t2 & HL2 & Hk & _). destruct (Hk _ _ Hn) as (node2 & Hn2 & [_ S2]).
  destruct (heartbeat_ok _ _ _ _ _ _ H2) as (n' & t' & node' & node4 & _ & HL' & Hn' & _ & _ & [_ S4] & ->).
  destruct (ledger_unique _ _ _ _ _ HL2 HL') as [-> ->]. rewrite Hn2 in Hn'. injection Hn' as ->.
  f_equal. by apply stopped_answer; auto.
Qed.
End histories.

(** ** An evaluated history *)
Definition demo_node_env : environ := fun name =>
  if String.eqb name "NODE_BOOTSTRAP_TOKENS" then Some "first, t0k"
  else if String.eqb name "NODE_INTERNAL_ADMIN_TOKENS" then Some "adm" else None.

Definition demo_oracles : env :=
  Env (fun n => of_Z (1000 + Z.of_nat n)) 0 (fun n => String "i" (pretty.pretty n)) 0 (fun _ => false) 0.
Definition demo_empty_site : node_site :=
  NodeSite (NodeFiles (World tt Missing false demo_oracles) (World tt Missing false demo_oracles))
    (World (SessionMem ∅ ∅ false) Missing false demo_oracles) (World tt Missing false demo_oracles)
    (World (SecretMem ∅) Missing false demo_oracles).

Definition demo_run_node (op : node_op) (s : node_site) : node_site :=
  (run_node id Some false demo_node_env None (fun _ => EmptyString) fzero op s).2.

Definition demo_request : BootstrapRequest := MakeBootstrap "srv-1" "boot-1" "1.0" "req-1" "node-access" None None.
Definition demo_report (status : string) (online : bool) : HeartbeatRequest :=
  MakeHeartbeat status (if online then "running" else "stopped") online false None None None None
    (Some (list_to_map [("status", VStr (if online then "ACCEPTED" else "OFFLINE")); ("observed_at", VInt 5);
                        ("online", VBool online)])) None None.

Definition demo_site0 : node_site := demo_run_node OpEnsureState demo_empty_site.
Local Abbreviation demo_bootstrap := (bootstrap id Some false demo_node_env demo_request (Some "Bearer t0k")).
Definition demo_site1 : node_site := (demo_bootstrap demo_site0).2.
Local Abbreviation demo_heartbeat status online :=
  (heartbeat demo_node_env (fun _ => EmptyString) fzero "node-0001" (demo_report status online) (Some "Bearer node-access ")).
Definition demo_site2 : node_site := demo_run_node (OpHeartbeat "node-0001" (demo_report "READY" true) (Some "Bearer node-access")) demo_site1.
Local Abbreviation demo_stop := (stop_node demo_node_env None "node-0001" (Some "Bearer adm")).

(** The events of a Node that goes on line and off, and the refusal of another agent. *)
Example demo_node_events :
  let '(r1, s3) := demo_heartbeat "READY" false demo_site2 in
  (is_ok r1,
   (fun d => omap (fun v => as_str (py_get (default ∅ (as_dict v)) "type"))
       (default [] (as_list (py_get (dict_field (dict_field d "nodes") "node-0001") "events")))) <$>
     @document nodes_format (nodes_file (site_nodes s3)),
   (heartbeat demo_node_env (fun _ => EmptyString) fzero "node-0001" (demo_report "READY" true) (Some "Bearer other") s3).1,
   is_ok (bootstrap id Some false demo_node_env
      (MakeBootstrap "srv-2" "boot-1" "1.0" "req-1" "node-access" None None) (Some "Bearer t0k") s3).1) =
  (true, Some ["ingest.connected"; "ingest.format_detected"; "ingest.disconnected"], Err (HTTPException 401), false).
Proof. vm_compute. reflexivity. Qed.

Lemma demo_node_history : rtc (node_step id Some false demo_node_env None (fun _ => EmptyString) fzero) demo_site1 demo_site2.
Proof. apply rtc_once. constructor. Qed.

Lemma run_ok {W A} (p : result A * W) : is_ok p.1 = true -> exists a w, p = (Ok a, w).
Proof. destruct p as [[a|e] w]; [eauto|done]. Qed.

Lemma token_is_single_use_witness :
  exists d1 d2, (demo_bootstrap demo_site0).1 = Ok d1 /\ (demo_bootstrap demo_site2).1 = Ok d2 /\
    py_get d2 "node_id" = py_get d1 "node_id".
Proof.
  destruct (run_ok (demo_bootstrap demo_site0)) as (d1 & s1 & E1); [vm_compute; reflexivity|].
  destruct (run_ok (demo_bootstrap demo_site2)) as (d2 & s3 & E2); [vm_compute; reflexivity|].
  exists d1, d2. rewrite E1, E2. split; [reflexivity|]. split; [reflexivity|].
  assert (Es : demo_site1 = s1) by (unfold demo_site1; rewrite E1; reflexivity).
  pose proof demo_node_history as Hh. rewrite Es in Hh.
  apply (token_is_single_use id Some false demo_node_env None (fun _ => EmptyString) fzero
           demo_request (Some "Bearer t0k") d1 demo_site0 s1 demo_request (Some "Bearer t0k") d2 demo_site2 s3 "t0k" E1 Hh E2).
  - reflexivity.
  - reflexivity.
Defined.

Lemma only_the_agent_reports_witness :
  exists token, _bearer (Some "Bearer node-access ") = Ok token /\ hash_token token = hash_token "node-access".
Proof.
  destruct (run_ok (demo_bootstrap demo_site0)) as (d1 & s1 & E1); [vm_compute; reflexivity|].
  assert (Es : demo_site1 = s1) by (unfold demo_site1; rewrite E1; reflexivity).
  pose proof demo_node_history as Hh. rewrite Es in Hh.
  destruct (run_ok (demo_heartbeat "READY" true demo_site2)) as (answer & s3 & E2); [vm_compute; reflexivity|].
  apply (only_the_agent_reports id Some false demo_node_env None (fun _ => EmptyString) fzero
           demo_request (Some "Bearer t0k") d1 demo_site0 s1 "node-0001" (demo_report "READY" true)
           (Some "Bearer node-access ") answer demo_site2 s3 E1); [|exact Hh|exact E2].
  assert (Hb : match demo_bootstrap demo_site0 with
               | (Ok d, _) => match py_get d "node_id" with VStr s => String.eqb s "node-0001" | _ => false end
               | _ => false
               end = true) by (vm_compute; reflexivity).
  rewrite E1 in Hb. destruct (py_get d1 "node_id") as [| | | |text| |]; try discriminate Hb.
  apply String.eqb_eq in Hb. rewrite Hb. reflexivity.
Defined.

Lemma stop_is_final_witness :
  exists answer, (demo_heartbeat "READY" true (demo_stop demo_site2).2).1 = Ok answer /\
    answer = {[ "desired_state" := VStr "STOPPED" ]}.
Proof.
  destruct (run_ok (demo_stop demo_site2)) as (d & s1 & E1); [vm_compute; reflexivity|].
  destruct (run_ok (demo_heartbeat "READY" true (demo_stop demo_site2).2)) as (answer & s3 & E2); [vm_compute; reflexivity|].
  exists answer. rewrite E2. split; [reflexivity|].
  assert (Es : (demo_stop demo_site2).2 = s1) by (rewrite E1; reflexivity). rewrite Es in E2.
  apply (stop_is_final id Some false demo_node_env None (fun _ => EmptyString) fzero
           "node-0001" (Some "Bearer adm") d demo_site2 s1 (demo_report "READY" true) (Some "Bearer node-access ") answer s1 s3 E1);
    [constructor|exact E2].
Defined.
