(* ===== verification/NodeReports.v ===== *)
(** * Reports of the Nodes

    Two facts about NodeEvents.v: the log of a Node stays in order whatever is
    observed, and a media stack that is not well fails the Session only after the
    grace period, or when the Node itself says so. *)

From S2P Require Import Prelude PyFloat Sha256 PyValue Json Effects Authority PyText TextFacts Uuid IpAddress Url SessionState SessionStore StateFile NodeAuthority NodeEvents.

(** ** The log *)

(** The events of a Node, as its check has them: numbered upwards, and all numbers
    below the next one. *)
Definition log_in_order (node : dict) : Prop :=
  exists n, _validate_node_events (py_get node "events") = Ok n /\
    match node !! "next_event_seq" with
    | None => True
    | Some v => exists next, v = VInt next /\ 1 <= next /\ n < next
    end.

Lemma node_events_app p a b r :
  node_events p (a ++ b) = Ok r <-> exists m, node_events p a = Ok m /\ node_events m b = Ok r.
Proof.
  revert p. induction a as [|v a IH]; intros p; cbn [app node_events].
  - split; [by exists p|]. by intros (m & [= ->] & H).
  - destruct v as [| | | | | |e]; try (split; [done|by intros (m & ? & _)]).
    split.
    + intros H. apply result_bind_ok in H as (n & Hn & H). apply result_bind_ok in H as ([] & H1 & H).
      apply result_bind_ok in H as (s & H2 & H). apply result_bind_ok in H as ([] & H3 & H).
      apply result_bind_ok in H as ([] & H4 & H). apply IH in H as (m & Ha & Hb). exists m. split; [|done].
      rewrite Hn. cbn [mbind result_bind]. by rewrite H1, H2, H3, H4.
    + intros (m & H & Hb). apply result_bind_ok in H as (n & Hn & H). apply result_bind_ok in H as ([] & H1 & H).
      apply result_bind_ok in H as (s & H2 & H). apply result_bind_ok in H as ([] & H3 & H).
      apply result_bind_ok in H as ([] & H4 & H). rewrite Hn. cbn [mbind result_bind]. rewrite H1, H2, H3, H4.
      apply IH. by exists m.
Qed.

Lemma node_events_mono p l r : node_events p l = Ok r -> p <= r.
Proof.
  revert p. induction l as [|v l IH]; intros p; cbn [node_events]; [intros [= ->]; lia|].
  destruct v as [| | | | | |e]; try done. intros H. apply result_bind_ok in H as (n & Hn & H).
  apply result_bind_ok in H as ([] & H1%raise_if_ok & H). apply result_bind_ok in H as (s & _ & H).
  apply result_bind_ok in H as ([] & _ & H). apply result_bind_ok in H as ([] & _ & H%IH). lia.
Qed.

(** A start that is lower is as good. *)
Lemma node_events_lower p q l r : node_events p l = Ok r -> q <= p -> exists r', node_events q l = Ok r' /\ r' <= r.
Proof.
  destruct l as [|v l]; cbn [node_events]; [intros [= ->]; by exists q|].
  destruct v as [| | | | | |e]; try done. intros H Hq. exists r. split; [|done].
  apply result_bind_ok in H as (n & Hn & H). apply result_bind_ok in H as ([] & H1%raise_if_ok & H).
  rewrite Hn. cbn [mbind result_bind]. replace (n <=? q) with false by lia. exact H.
Qed.

Lemma node_events_last p l r : node_events p l = Ok r ->
  match last l with
  | Some v => exists e, v = VDict e /\ _require_nonnegative_int (py_get e "sequence") 1 = Ok r
  | None => r = p
  end.
Proof.
  destruct l as [|v l _] using rev_ind; [by intros [= ->]|]. rewrite last_snoc. intros (m & _ & H)%node_events_app.
  cbn [node_events] in H. destruct v as [| | | | | |e]; try done. exists e. split; [done|].
  apply result_bind_ok in H as (n & Hn & H). apply result_bind_ok in H as ([] & _ & H).
  apply result_bind_ok in H as (s & _ & H). apply result_bind_ok in H as ([] & _ & H).
  by apply result_bind_ok in H as ([] & _ & [= <-]).
Qed.

Lemma new_events_in_order seq types t payload p :
  _require_finite_number (VFloat t) = Ok t -> Forall (fun s => s <> EmptyString) types -> 1 <= seq -> p < seq ->
  exists r, node_events p (new_events seq types t payload) = Ok r /\ r < seq + Z.of_nat (length types).
Proof.
  intros Ht Hty. revert seq p. induction Hty as [|s types Hs _ IH]; intros seq p H1 Hp; [exists p; split; [done|cbn; lia]|].
  destruct (IH (seq + 1) seq) as (r & Hr & Hl); [lia..|]. exists r. split; [|cbn [length]; lia].
  cbn [new_events node_events]. unfold node_event at 1. rewrite ?list_to_map_cons. cbn [fst snd]. record_fields.
  cbn [_require_nonnegative_int]. replace (seq <? 1) with false by lia. cbn [mbind result_bind].
  replace (seq <=? p) with false by lia. cbn [raise_if mbind result_bind]. record_fields.
  cbn [node_nonempty_string]. rewrite (proj2 (str_empty_false s) Hs). cbn [mbind result_bind]. record_fields.
  unfold finite_field. rewrite Ht. cbn [mbind result_bind]. record_fields. exact Hr.
Qed.

Lemma finite_number_again v t : _require_finite_number v = Ok t -> _require_finite_number (VFloat t) = Ok t.
Proof.
  unfold _require_finite_number. destruct (nonneg_number v) as [f|] eqn:E; [|done]. intros [= ->].
  apply nonneg_number_spec in E as [E1 E2]. by rewrite nonneg_number_float.
Qed.

Lemma append_in_order node types payload t node' :
  Forall (fun s => s <> EmptyString) types -> log_in_order node ->
  append_node_events node types payload t = Ok node' ->
  log_in_order node' /\ exists old new, node_log node = Ok old /\
    py_get node' "events" = VList (py_last NODE_EVENT_LIMIT (old ++ new)) /\ length new = length types.
Proof.
  intros Hty (n & Hn & Hnext) H. unfold append_node_events in H.
  apply result_bind_ok in H as (t' & Ht%finite_number_again & H). apply result_bind_ok in H as (old & Ho & H).
  apply result_bind_ok in H as (seq & Hs & [= <-]).
  assert (Hold : node_events 0 old = Ok n).
  { unfold node_log in Ho. unfold py_get in Hn. destruct (node !! "events") as [[| | | | |l|]|]; try done.
    - by injection Ho as ->.
    - injection Ho as <-. exact Hn. }
  assert (Hseq : 1 <= seq /\ n < seq).
  { unfold next_sequence in Hs. destruct (node !! "next_event_seq") as [v|].
    - destruct Hnext as (next & -> & H1 & H2). injection Hs as <-. done.
    - pose proof (node_events_last _ _ _ Hold) as Hl. destruct (last old) as [v|].
      + destruct Hl as (e & -> & He). destruct (py_get e "sequence") as [| |z| | | |]; try done. cbn in He, Hs.
        destruct (z <? 1) eqn:E; [done|]. injection He as ->. injection Hs as <-. lia.
      + injection Hs as <-. subst n. lia. }
  destruct (new_events_in_order seq types t' payload n Ht Hty) as (r & Hr & Hlt); [lia..|].
  split.
  2: { exists old, (new_events seq types t' payload). split; [done|]. record_fields. split; [done|].
       clear. revert seq. induction types; intros; cbn; auto. }
  assert (Hall : node_events 0 (old ++ new_events seq types t' payload) = Ok r) by (apply node_events_app; eauto).
  unfold log_in_order. record_fields. unfold py_last.
  set (all := old ++ _) in *. rewrite <- (take_drop (length all - NODE_EVENT_LIMIT) all) in Hall.
  apply node_events_app in Hall as (m & Hm%node_events_mono & Hd).
  destruct (node_events_lower _ 0 _ _ Hd Hm) as (r' & Hr' & Hle). exists r'. split; [exact Hr'|].
  rewrite lookup_insert_eq. eexists. split; [done|]. lia.
Qed.

Lemma log_flag node f v : f <> "events" -> f <> "next_event_seq" -> log_in_order node -> log_in_order (<[f := v]> node).
Proof. intros H1 H2. unfold log_in_order. by rewrite py_get_insert_ne, lookup_insert_ne. Qed.

Lemma event_types_named :
  (forall previous current had, Forall (fun s => s <> EmptyString) (_ingest_event_types previous current had)) /\
  (forall previous current had, Forall (fun s => s <> EmptyString) (_egress_event_types previous current had)) /\
  (forall node previous current, Forall (fun s => s <> EmptyString) (relay_event_types node previous current)).
Proof.
  split; [|split]; intros; [unfold _ingest_event_types|unfold _egress_event_types, egress_mapping|unfold relay_event_types];
    cbv zeta; repeat case_match; repeat (constructor || apply Forall_app_2 || done).
Qed.

(** the log of a Node stays in order. Whatever a heartbeat reports of the ingest,
    the egress or the relay client, if the numbers of the events of a Node increase and
    are below its next number then they are so after the report has been added, also
    when the oldest events have been dropped; the log is the old one and the new events
    in this order, cut to its last [NODE_EVENT_LIMIT] entries. So the check of the
    authority never refuses a Node because of its log. *)
Theorem log_stays_in_order node previous current t node' types :
  log_in_order node ->
  _append_ingest_events node previous current t = Ok (node', types) \/
  _append_egress_events node previous current t = Ok (node', types) \/
  _append_relay_client_events node previous current t = Ok (node', types) ->
  log_in_order node' /\
  (types = [] /\ node' = node \/
   exists old new log, node_log node = Ok old /\ length new = length types /\
     py_get node' "events" = VList log /\ log = py_last NODE_EVENT_LIMIT (old ++ new) /\ (length log <= NODE_EVENT_LIMIT)%nat).
Proof.
  intros Hl H. destruct event_types_named as (T1 & T2 & T3).
  assert (Happ : forall types0 payload f (b : bool) x, Forall (fun s => s <> EmptyString) types0 ->
    f <> "events" -> f <> "next_event_seq" ->
    append_node_events node types0 payload t = Ok x -> node' = (if b then <[f := VBool true]> x else x) -> types = types0 ->
    log_in_order node' /\ (types = [] /\ node' = node \/
      exists old new log, node_log node = Ok old /\ length new = length types /\ py_get node' "events" = VList log /\
        log = py_last NODE_EVENT_LIMIT (old ++ new) /\ (length log <= NODE_EVENT_LIMIT)%nat)).
  { intros types0 payload f b x Hty Hf1 Hf2 Hx -> ->. destruct (append_in_order _ _ _ _ _ Hty Hl Hx) as (Hx' & old & new & Ho & He & Hlen).
    split; [destruct b; [by apply log_flag|done]|]. right. eexists old, new, _. split; [done|]. split; [done|].
    split; [destruct b; [rewrite py_get_insert_ne by done|]; exact He|]. split; [done|]. apply length_py_last. }
  destruct H as [H|[H|H]].
  - unfold _append_ingest_events in H. case_bool_decide as Et; [injection H as <- <-; by auto|].
    apply result_bind_ok in H as (x & Hx & H). injection H as H1 H2. symmetry in H1, H2.
    by eapply (Happ _ _ "ingest_ever_online"); [apply T1|done|done|exact Hx|exact H1|exact H2].
  - unfold _append_egress_events in H. case_bool_decide as Et; [injection H as <- <-; by auto|].
    apply result_bind_ok in H as (x & Hx & H). injection H as H1 H2. symmetry in H1, H2.
    by eapply (Happ _ _ "egress_ever_connected"); [apply T2|done|done|exact Hx|exact H1|exact H2].
  - unfold _append_relay_client_events in H. case_bool_decide as Et; [injection H as <- <-; by auto|].
    apply result_bind_ok in H as (p & _ & H).
    apply result_bind_ok in H as (x & Hx & H). injection H as H1 H2. symmetry in H1, H2.
    by eapply (Happ _ _ "relay_client_ever_connected"); [apply T3|done|done|exact Hx|exact H1|exact H2].
Qed.

(** A full log takes the next events. *)
Definition demo_full_node : dict :=
  list_to_map [("events", VList (new_events 1 (repeat "egress.starting"%string 100) (of_Z 5) ∅)); ("next_event_seq", VInt 101)].

Lemma log_stays_in_order_witness :
  exists node', _append_ingest_events demo_full_node VNull {[ "online" := VBool true ]} (of_Z 7) =
      Ok (node', ["ingest.connected"; "ingest.format_detected"]) /\ log_in_order node'.
Proof.
  destruct (_append_ingest_events demo_full_node VNull {[ "online" := VBool true ]} (of_Z 7)) as [[node' types]|e] eqn:E.
  2: { exfalso. assert (Hb : is_ok (_append_ingest_events demo_full_node VNull {[ "online" := VBool true ]} (of_Z 7)) = true)
         by (vm_compute; reflexivity). rewrite E in Hb. discriminate Hb. }
  exists node'. assert (Ht : types = ["ingest.connected"; "ingest.format_detected"]%string).
  { assert (Hb : match _append_ingest_events demo_full_node VNull {[ "online" := VBool true ]} (of_Z 7) with
                 | Ok p => bool_decide (p.2 = ["ingest.connected"; "ingest.format_detected"]%string) | Err _ => false end = true)
      by (vm_compute; reflexivity). rewrite E in Hb. apply bool_decide_eq_true_1 in Hb. exact Hb. }
  split; [rewrite Ht; reflexivity|].
  apply (log_stays_in_order demo_full_node VNull {[ "online" := VBool true ]} (of_Z 7) node' types).
  - exists 100. split; [vm_compute; reflexivity|]. exists 101. split; [vm_compute; reflexivity|lia].
  - left. exact E.
Defined.

(** ** The grace period *)
Definition observation : Type := string * string * float.      (* status, media health, time *)

Definition running (health : string) : bool := String.eqb (py_lower (py_strip health)) "running".
Definition says_failed (status : string) : bool := String.eqb (py_upper (py_strip status)) "FAILED".

(** The Node after a sequence of observations, as long as no failure is latched. *)
Definition watched (grace : float) (node : dict) (observations : list observation) : dict :=
  fold_left (fun node '(status, health, current) => (health_step node status health current grace).1) observations node.

(** Since when the Node has been seen not well, in the observations so far. *)
Definition unhealthy_for (observations : list observation) (since : float) : Prop :=
  exists pre status health rest, observations = pre ++ (status, health, since) :: rest /\
    Forall (fun o => running o.1.2 = false) ((status, health, since) :: rest).

Definition tracked (node : dict) (observations : list observation) : Prop :=
  forall since, number_as_float (py_get node "media_unhealthy_since") = Some since -> unhealthy_for observations since.

Lemma unhealthy_more observations since o :
  unhealthy_for observations since -> running o.1.2 = false -> unhealthy_for (observations ++ [o]) since.
Proof.
  intros (pre & s & h & rest & -> & Hf) Ho. exists pre, s, h, (rest ++ [o]). split; [by rewrite <- app_assoc|].
  change ((s, h, since) :: rest ++ [o]) with (((s, h, since) :: rest) ++ [o]). apply Forall_app_2; [done|]. by constructor.
Qed.

Lemma step_tracked node observations status health current grace :
  tracked node observations ->
  tracked (health_step node status health current grace).1 (observations ++ [(status, health, current)]) /\
  forall since, (health_step node status health current grace).2 = Some since ->
    unhealthy_for (observations ++ [(status, health, current)]) since /\
    (says_failed status = true \/ flt (fsub current since) grace = false /\
       py_lower (py_strip health) ∈ _FATAL_MEDIA_HEALTH).
Proof.
  intros Ht. unfold health_step. cbv zeta. fold (running health). fold (says_failed status).
  destruct (running health) eqn:Hr.
  { split; [|done]. cbn [fst]. intros since. unfold py_get. rewrite lookup_delete_ne, lookup_delete_eq by done. done. }
  set (o := (status, health, current)).
  assert (Hnow : unhealthy_for (observations ++ [o]) current).
  { exists observations, status, health, []. split; [done|]. by repeat constructor. }
  destruct (negb (says_failed status) && _) eqn:Hfatal.
  { split; [|done]. intros since Hs. apply unhealthy_more; [by apply Ht|done]. }
  assert (Hcause : says_failed status = true \/ py_lower (py_strip health) ∈ _FATAL_MEDIA_HEALTH).
  { apply andb_false_iff in Hfatal as [H|H]; [left; by apply negb_false_iff|right]. apply negb_false_iff in H.
    by apply bool_decide_eq_true_1 in H. }
  set (since := match number_as_float _ with Some _ => _ | None => _ end).
  assert (Hsince : unhealthy_for (observations ++ [o]) (default current since)).
  { unfold since. destruct (number_as_float _) as [s|] eqn:E; [|done]. destruct (flt current s); [done|].
    cbn. apply unhealthy_more; [by apply Ht|done]. }
  assert (Htr : forall n, number_as_float (py_get n "media_unhealthy_since") = Some (default current since) ->
    tracked (<["media_failure_reason" := VStr "PIPELINE_CRASHED"]> n) (observations ++ [o])).
  { intros n Hn s. rewrite py_get_insert_ne by done. rewrite Hn. by intros [= <-]. }
  set (node1 := match since with Some _ => node | None => _ end).
  assert (Hn1 : number_as_float (py_get node1 "media_unhealthy_since") = Some (default current since)).
  { unfold node1. destruct since as [s|] eqn:E; [|by rewrite py_get_insert]. unfold since in E.
    destruct (number_as_float _) as [s'|]; [|done]. destruct (flt current s'); [done|]. by injection E as ->. }
  destruct (negb (says_failed status) && flt _ _) eqn:Hg; (split; [by apply Htr|]); [done|].
  intros x [= <-]. split; [done|]. destruct (says_failed status); [by left|right]. split; [exact Hg|]. by destruct Hcause.
Qed.

(** C36: a media stack that stays down is given its grace period. In any sequence of
    observations of a Node that starts without a mark, [health_step], by which
    [apply_pipeline_health] decides whether to fail the Session, latches a failure only
    when the Node itself reports [FAILED], or when its media are in a fatal state and it
    was already not running at an observation made at least the grace period before,
    with no observation of a running stack in between. *)
Theorem latch_needs_grace grace node0 observations status health current node' since :
  py_get node0 "media_unhealthy_since" = VNull ->
  health_step (watched grace node0 observations) status health current grace = (node', Some since) ->
  unhealthy_for (observations ++ [(status, health, current)]) since /\
  (says_failed status = true \/
   flt (fsub current since) grace = false /\ py_lower (py_strip health) ∈ _FATAL_MEDIA_HEALTH).
Proof.
  intros H0 Hs. assert (Ht : tracked (watched grace node0 observations) observations).
  { clear Hs. induction observations as [|[[s h] c] observations IH] using rev_ind.
    - intros x. cbn. by rewrite H0.
    - unfold watched. rewrite fold_left_app. cbn [fold_left]. by apply (step_tracked _ _ s h c grace). }
  pose proof (step_tracked _ _ status health current grace Ht) as [_ H]. rewrite Hs in H. by apply H.
Qed.

Definition demo_watch : list observation :=
  [("READY", "stopped", of_Z 10); ("READY", "running", of_Z 20); ("READY", "crashed", of_Z 30); ("READY", "starting", of_Z 50)].

Lemma latch_needs_grace_witness :
  (health_step (watched (of_Z 30) ∅ demo_watch) "READY" "stopped" (of_Z 59) (of_Z 30)).2 = None /\
  unhealthy_for (demo_watch ++ [("READY", "stopped", of_Z 60)]) (of_Z 30).
Proof.
  split; [vm_compute; reflexivity|].
  destruct (health_step (watched (of_Z 30) ∅ demo_watch) "READY" "stopped" (of_Z 60) (of_Z 30)) as [node' latch] eqn:E.
  assert (Hl : latch = Some (of_Z 30)).
  { assert (Hb : (health_step (watched (of_Z 30) ∅ demo_watch) "READY" "stopped" (of_Z 60) (of_Z 30)).2 = Some (of_Z 30))
      by (vm_compute; reflexivity). rewrite E in Hb. exact Hb. }
  rewrite Hl in E. apply (latch_needs_grace (of_Z 30) ∅ demo_watch "READY" "stopped" (of_Z 60) node' (of_Z 30)).
  - reflexivity.
  - exact E.
Defined.
