(* ===== verification/NodeDelivery.v ===== *)
(** * The URL a Node publishes to

    [_resolve_egress_delivery] of [node_internal.py] composes the Session, the catalog
    of destinations, the store of their secrets and [egress_destination.py]. *)

From S2P Require Import Prelude PyFloat Sha256 PyValue Json Effects Authority PyText TextFacts Uuid IpAddress Url EgressDestination SessionState SessionStore StateFile Catalog CatalogTheorems SecretStore NodeAuthority NodeEvents NodeControl.

Lemma on_catalog_ok {A} (m : FM A) s a s' :
  on_catalog m s = (Ok a, s') -> m (site_catalog s) = (Ok a, site_catalog s') /\ site_secrets s' = site_secrets s.
Proof. unfold on_catalog. destruct (m _) as [r w]. by intros [= -> <-]. Qed.

Lemma on_secrets_ok {A} (m : KM A) s a s' :
  on_secrets m s = (Ok a, s') -> m (site_secrets s) = (Ok a, site_secrets s').
Proof. unfold on_secrets. destruct (m _) as [r w]. by intros [= -> <-]. Qed.

(** What [get_destination] answers is in the document, under its owner. *)
Lemma get_destination_ok nfkc id u w item w' :
  get_destination nfkc id u w = (Ok item, w') ->
  exists d, @visible (catalog_format nfkc) w = Some d /\ dict_field d "destinations" !! id = Some (VDict item) /\
    py_get item "user_id" = VStr u.
Proof.
  unfold get_destination. intros (w1 & w2 & (Hf & Hu & _) & Hb & _)%state_lock_ok.
  apply bind_ok in Hb as (d & w3 & [Hv _]%read_valid_ok & [Hg _]%lift_ok). exists d.
  split; [unfold visible in *; by rewrite <- Hf, <- Hu|]. unfold _get_owned, py_get at 1 in Hg.
  destruct (dict_field d "destinations" !! id) as [v|]; [|done]. destruct v as [| | | | | |it]; try done. cbn in Hg.
  destruct (owned_by u it) eqn:Eo; [|done]. injection Hg as ->. split; [done|]. by apply owner_of_user.
Qed.

(** A secret that is resolved is one that is stored for this owner and name. *)
Lemma resolve_ok decrypt u ref w text w' :
  resolve decrypt u ref w = (Ok text, w') ->
  exists m record, view w = Some m /\ secrets m !! _key u ref = Some record /\
    decrypt (match py_get record "ciphertext" with VStr s => s | _ => EmptyString end) = Some text.
Proof.
  unfold resolve. intros Hr. apply bind_ok in Hr as (c & w1 & Hl & Hr).
  apply locked_ok in Hl as (w2 & Hv & _ & _ & _ & _ & Hb). apply bind_ok in Hb as (m & w3 & [= <- <-] & Hb).
  destruct (secrets (mem w2) !! _key u ref) as [record|] eqn:E; [|done]. apply ret_ok in Hb as [-> _].
  destruct (decrypt _) as [t|] eqn:Ed; [|done]. apply ret_ok in Hr as [-> _]. by exists (mem w2), record.
Qed.

Lemma open_store_ok configured w u w' : open_secret_store configured w = (Ok u, w') -> view w' = view w.
Proof.
  unfold open_secret_store. intros Hr. apply bind_ok in Hr as ([] & w1 & [_ ->]%guard_err_ok & Hr).
  apply locked_ok in Hr as (w2 & _ & Hv & _ & _ & _ & [_ ->]%ret_ok). exact Hv.
Qed.

Section delivery.
Context (nfkc : string -> string) (decrypt : string -> option string) (secret_store_configured : bool) (env : environ).

Definition session_owner (session : dict) : string := name_text (py_get_or session "user_id" (VStr EmptyString)).

(** Where the URL for a Session comes from. *)
Record delivered (s : node_site) (session : dict) (url : string) (peer : option string) (destination : dict) : Prop := {
  delivered_stored : exists d id, @visible (catalog_format nfkc) (site_catalog s) = Some d /\
    dict_field d "destinations" !! id = Some (VDict destination);
  delivered_owner : py_get destination "user_id" = VStr (session_owner session);
  delivered_enabled : py_eq (py_get_or destination "enabled" (VBool true)) (VBool true) = true;
  delivered_verified : py_get destination "verification_status" = VStr "VERIFIED";
  delivered_peer : peer = let ip := py_strip match py_get (default ∅ (as_dict (py_get destination "verification_transport"))) "peer_ip" with
                                             | VStr ip => ip | _ => EmptyString end in
                          if str_empty ip then None else Some ip;
  delivered_secret : exists m record secret, view (site_secrets s) = Some m /\
    secrets m !! _key (session_owner session) (node_text destination "secret_ref") = Some record /\
    decrypt (match py_get record "ciphertext" with VStr c => c | _ => EmptyString end) = Some secret /\
    build_egress_url nfkc destination secret = Ok url
}.

Lemma delivery_ok s session url peer s' :
  py_get session "egress_mode" <> VStr "RELAY_ONLY" -> truthy (py_get session "destination_id") = true ->
  _resolve_egress_delivery nfkc decrypt secret_store_configured env (Some session) s = (Ok (url, peer), s') ->
  exists destination, delivered s session url peer destination.
Proof.
  intros Hm Hd Hr. unfold _resolve_egress_delivery in Hr. cbv zeta in Hr.
  destruct (py_eq _ (VStr "RELAY_ONLY")) eqn:E; [by apply py_eq_text in E|]. rewrite Hd in Hr. cbn [negb] in Hr.
  fold (session_owner session) in Hr.
  apply bind_ok in Hr as (item & s1 & [Hc Hs1]%on_catalog_ok & Hr).
  apply catch_ok in Hc as [Hc|(e & w1 & _ & Hc)]; [|by destruct e].
  apply get_destination_ok in Hc as (doc & Hv & Hi & Ho).
  apply bind_ok in Hr as ([] & s2 & [He ->]%guard_err_ok & Hr). apply bind_ok in Hr as ([] & s2 & [Hver ->]%guard_err_ok & Hr).
  apply bind_ok in Hr as (secret & s2 & Hs%on_secrets_ok & Hr). rewrite Hs1 in Hs.
  apply catch_ok in Hs as [Hs|(e & w1 & _ & Hs)]; [|by destruct e].
  apply bind_ok in Hs as ([] & w1 & Hop%open_store_ok & (m & record & Hvw & Hk & Hdec)%resolve_ok). rewrite Hop in Hvw.
  apply bind_ok in Hr as (u & s3 & [Hu ->]%lift_ok & Hr). apply ret_ok in Hr as [[= -> ->] _].
  exists item. split; [by eexists _, _|exact Ho|by apply negb_false_iff|by apply py_eq_text, negb_false_iff|done|].
  exists m, record, secret. split; [exact Hvw|]. split; [exact Hk|]. split; [exact Hdec|].
  destruct (build_egress_url nfkc item secret) as [|[]]; done.
Qed.

(** A verified destination of the Session's user, at the address that was probed. *)
Definition verified_delivery answered (s : node_site) (session : dict) (url : string) (peer : option string) : Prop :=
  exists destination server_url result,
    delivered s session url peer destination /\
    py_get destination "server_url" = VStr server_url /\ probe_matches nfkc answered server_url result /\
    py_get destination "verification_transport" = VDict (transport_of result).

(** C7: what a Node is told to publish to. After any history of the catalog, a
    bootstrap that answers hands out, for a Session that has a destination, the URL of
    an enabled destination of the Session's user, the address of which was probed with
    success ([answered]), built from the secret that is stored encrypted for this user
    and destination, and as the address to connect to that of the probe; for a relayed
    Session it hands out nothing; and only without a Session, or for one without a
    destination, it hands out the URL and the address the operator has configured.
    In each case a Node that publishes directly to a URL gets an address with it. *)
Theorem only_verified_destinations_are_delivered answered w s node assigned token v d s' :
  history nfkc (fun _ => True) answered w (site_catalog s) ->
  (forall doc, @visible (catalog_format nfkc) w = Some doc -> all_probed nfkc answered doc) ->
  _bootstrap_response nfkc decrypt secret_store_configured env node assigned token v s = (Ok d, s') ->
  exists url peer,
    py_get d "egress_url" = VStr url /\ py_get d "egress_verified_peer_ip" = opt_str peer /\
    (py_get d "egress_mode" = VStr "DIRECT_PUSH" -> url = EmptyString \/ exists ip, peer = Some ip /\ ip <> EmptyString) /\
    let operator := url = getenv env "NODE_EGRESS_URL" EmptyString /\ peer = env "NODE_EGRESS_VERIFIED_PEER_IP" in
    match assigned with
    | None => operator
    | Some session =>
        if py_eq (py_get session "egress_mode") (VStr "RELAY_ONLY") then url = EmptyString /\ peer = None
        else if truthy (py_get session "destination_id") then verified_delivery answered s session url peer
        else operator
    end.
Proof.
  intros Hh Hinit Hr. unfold _bootstrap_response in Hr. cbv zeta in Hr.
  apply bind_ok in Hr as (t & s1 & [_ ->]%lift_ok & Hr). apply bind_ok in Hr as ([url peer] & s2 & Hdel & Hr).
  apply bind_ok in Hr as ([] & s3 & [Hg ->]%guard_err_ok & Hr). apply ret_ok in Hr as [-> _].
  exists url, peer. rewrite ?list_to_map_cons. cbn [fst snd]. record_fields.
  split; [done|]. split; [done|]. split.
  { intros [= Hmode]. rewrite Hmode in Hg. change (String.eqb "DIRECT_PUSH" "DIRECT_PUSH") with true in Hg. cbn [andb] in Hg.
    destruct (str_empty url) eqn:Eu; [left; by destruct url|right]. cbn [negb andb] in Hg.
    destruct peer as [ip|]; [|done]. exists ip. split; [done|]. by apply str_empty_false. }
  destruct assigned as [session|]; [|by apply ret_ok in Hdel as [[= -> ->] _]].
  unfold _resolve_egress_delivery in Hdel. cbv zeta in Hdel.
  destruct (py_eq (py_get session "egress_mode") (VStr "RELAY_ONLY")) eqn:Em; [by apply ret_ok in Hdel as [[= -> ->] _]|].
  destruct (truthy (py_get session "destination_id")) eqn:Hd; cbn [negb] in Hdel;
    [|by apply ret_ok in Hdel as [[= -> ->] _]].
  destruct (delivery_ok s session url peer s2) as (item & Hitem); [by intros Hm; rewrite Hm in Em|done| |].
  { unfold _resolve_egress_delivery. cbv zeta. rewrite Em, Hd. exact Hdel. }
  pose proof Hitem as [(doc & i & Hv & Hi) _ _ Hver Hp _].
  destruct (probes_are_recorded nfkc answered w (site_catalog s) Hh Hinit doc Hv i item Hi Hver) as (su & result & Hsu & Hpm & Htr).
  by exists item, su, result.
Qed.
End delivery.

(** ** A run: Ann's destination of CatalogTheorems.v *)
Definition demo_delivery_site : node_site :=
  NodeSite (NodeFiles (World tt Missing false demo_catalog_env) (World tt Missing false demo_catalog_env))
    (World (SessionMem ∅ ∅ false) Missing false demo_catalog_env) demo_verified
    (put demo_encrypt "ann" "ref" "s3cret" None demo_secrets).2.

Definition demo_owned (user_id : string) : dict :=
  list_to_map [("user_id", VStr user_id); ("destination_id", VStr "i0"); ("egress_mode", VStr "DIRECT_PUSH")].
Definition demo_direct_node : dict := list_to_map [("node_id", VStr "node-0001"); ("session_assigned", VBool true)].

Local Abbreviation demo_response user_id :=
  (_bootstrap_response id demo_decrypt true (fun _ => None) demo_direct_node (Some (demo_owned user_id)) "access" (VInt 1)
     demo_delivery_site).

Example demo_delivery :
  ((fun d => (py_get d "egress_url", py_get d "egress_verified_peer_ip")) <$> (match (demo_response "ann").1 with Ok d => Some d | _ => None end),
   is_ok (demo_response "bob").1) =
  (Some (VStr "rtmp://live.example.com/app/s3cret", VStr "203.0.113.7"), false).
Proof. vm_compute. reflexivity. Qed.

Lemma only_verified_destinations_are_delivered_witness :
  exists d url peer, (demo_response "ann").1 = Ok d /\ py_get d "egress_url" = VStr url /\
    verified_delivery id demo_decrypt demo_answered demo_delivery_site (demo_owned "ann") url peer.
Proof.
  destruct (demo_response "ann") as [[d|e] s'] eqn:E.
  2: { exfalso. assert (Hb : is_ok (demo_response "ann").1 = true) by (vm_compute; reflexivity). rewrite E in Hb. discriminate Hb. }
  destruct (only_verified_destinations_are_delivered id demo_decrypt true (fun _ => None) demo_answered demo_catalog
              demo_delivery_site demo_direct_node (Some (demo_owned "ann")) "access" (VInt 1) d s') as (url & peer & Hu & _ & _ & Hdel).
  - exact demo_history.
  - intros d0 Hd0. rewrite (demo_empty d0 Hd0). intros i item Hi. destruct (default_no_items _ _ _ Hi).
  - exact E.
  - exists d, url, peer. split; [reflexivity|]. split; [exact Hu|]. exact Hdel.
Defined.

(** Without a Session the Node is sent to the operator's URL. *)
Example demo_operator_egress :
  ((fun d => (py_get d "egress_url", py_get d "egress_verified_peer_ip")) <$> (match (
     _bootstrap_response id demo_decrypt true
       (fun k => if String.eqb k "NODE_EGRESS_URL" then Some "rtmp://o.example.com/live"
                 else if String.eqb k "NODE_EGRESS_VERIFIED_PEER_IP" then Some "203.0.113.9" else None)
       demo_direct_node None "access" (VInt 1) demo_delivery_site).1 with Ok d => Some d | _ => None end)) =
  Some (VStr "rtmp://o.example.com/live", VStr "203.0.113.9").
Proof. vm_compute. reflexivity. Qed.
