(* ===== verification/EgressStatus.v ===== *)
(** * What a Node sees of its output

    [apps/node-agent/egress_status.py] reads the status file of the egress gateway,
    [apps/node-agent/relay_client.py] counts the readers of the relay path. Both make
    a report of a heartbeat, the shape of which [EgressObservationRequest] and
    [RelayClientObservationRequest] of [node_internal.py] declare.

    The text of a value that is no string, [str(v)], is an argument. *)

From S2P Require Import Prelude PyFloat Sha256 PyValue Json Effects Authority PyText TextFacts Uuid IpAddress Url StateFile NodeAuthority AttemptSupervisor.

(** ** Declared request bodies

    [StrictRequest] with its fields: an unknown field is refused, and so is a value that
    pydantic does not take for the declared type. In its default mode pydantic also
    converts: a text of digits, a float without fraction or a [bool] passes for an [int].
    Which values it takes, and as what, is the [Conversions] of the model; what its
    documentation says of a value that has the declared type already is [ConversionLaws]. *)
Class Conversions : Type := { as_int : value -> option Z; as_float : value -> option float; as_bool : value -> option bool }.
Class ConversionLaws `{Conversions} : Prop := {
  as_int_int z : as_int (VInt z) = Some z;
  as_float_number v f : number_as_float v = Some f -> as_float v = Some f;
  as_bool_bool b : as_bool (VBool b) = Some b }.

(** No conversion at all, as in the strict mode. *)
Definition strict : Conversions :=
  {| as_int v := match v with VInt z => Some z | _ => None end; as_float := number_as_float;
     as_bool v := match v with VBool b => Some b | _ => None end |}.

Lemma strict_laws : @ConversionLaws strict.
Proof. by split. Qed.

Definition field_spec : Type := string * (bool * (value -> bool)).       (* name, required, check *)

Definition accepts (fields : list field_spec) (body : dict) : bool :=
  forallb (fun p => bool_decide (p.1 ∈ fields.*1)) (map_to_list body) &&
  forallb (fun '(name, (required, check)) =>
             match body !! name with Some v => check v | None => negb required end) fields.

Definition nullable (check : value -> bool) (v : value) : bool := is_null v || check v.
Definition text_up_to (n : nat) (v : value) : bool :=
  match v with VStr s => Nat.leb (py_len s) n | _ => false end.
Section declared.
Context `{Conversions}.

Definition boolean (v : value) : bool := bool_decide (is_Some (as_bool v)).
Definition int_at_least (n : Z) (v : value) : bool := match as_int v with Some z => n <=? z | None => false end.
Definition float_at_least_zero (v : value) : bool :=
  match as_float v with Some f => is_finite f && negb (flt f fzero) | None => false end.

Definition EgressObservationRequest : list field_spec :=
  [("status", (true, fun v => text_in v EGRESS_STATUSES)); ("connected", (false, boolean));
   ("attempt", (false, int_at_least 0)); ("reason_code", (false, nullable (text_up_to 100)));
   ("rendered_buffers", (false, int_at_least 0)); ("next_retry_at", (false, nullable float_at_least_zero));
   ("destination_scheme", (false, nullable (text_up_to 20))); ("destination_host", (false, nullable (text_up_to 253)));
   ("observed_at", (true, float_at_least_zero))].

Definition RelayClientObservationRequest : list field_spec :=
  [("status", (true, fun v => text_in v RELAY_CLIENT_STATUSES)); ("connected", (false, boolean));
   ("reader_count", (false, int_at_least 0)); ("reason_code", (false, nullable (text_up_to 100)));
   ("observed_at", (true, float_at_least_zero))].
End declared.

(** ** The status file *)
Definition ALLOWED_STATUSES : list string :=
  ["STARTING"; "CONNECTED"; "RECONNECTING"; "AUTH_FAILED"; "FAILED"; "STOPPED"].
Definition TERMINAL_STATUSES : list string := ["AUTH_FAILED"; "FAILED"; "STOPPED"].
Definition DEFAULT_MAX_AGE_SECONDS : float := of_Z 30.

Definition _validated_now (v : value) : result float :=
  match nonneg_number v with Some f => Ok f | None => Err RuntimeError end.

Definition _unknown (reason_code : string) (observed_at : float) : dict :=
  list_to_map
    [("status", VStr "UNKNOWN"); ("connected", VBool false); ("attempt", VInt 0); ("reason_code", VStr reason_code);
     ("rendered_buffers", VInt 0); ("next_retry_at", VNull); ("destination_scheme", VNull);
     ("destination_host", VNull); ("observed_at", VFloat observed_at)].

Definition _optional_boolean_field (raw : dict) (key : string) : result bool :=
  match raw !! key with
  | None => Ok false
  | Some (VBool b) => Ok b
  | Some _ => Err ValueError
  end.

Definition _optional_nonnegative_int_field (raw : dict) (key : string) : result Z :=
  match raw !! key with
  | None => Ok 0
  | Some (VInt n) => if n <? 0 then Err ValueError else Ok n
  | Some _ => Err ValueError
  end.

(** The value itself, when it is a number of this kind. *)
Definition _nonnegative_finite_number (v : value) : option value :=
  match nonneg_number v with Some _ => Some v | None => None end.

(** [float(value)], also of a [bool]. *)
Definition _max_age_seconds (v : value) : float :=
  match (match v with VBool b => Some (if b then fone else fzero) | v => float_value v end) with
  | Some f => if is_finite f then f else DEFAULT_MAX_AGE_SECONDS
  | None => DEFAULT_MAX_AGE_SECONDS
  end.

(** What reading the file gives: an [OSError], bytes that are no UTF-8 text, a text
    that is no JSON, or what the tokenizer delivers. *)
Inductive status_file : Type :=
| Unreadable
| NotText
| NotJson
| StatusJson (r : raw).

Section observers.
Context (str_of : value -> string).

(** [str(v)[:n] if v else None] *)
Definition bounded_text (n : nat) (v : value) : value :=
  if truthy v then VStr (py_take n (str_of v)) else VNull.

(** The body after the JSON has been read. *)
Definition status_report (raw : dict) (current max_age_seconds : float) : dict :=
  let status := name_text (py_get_or raw "status" (VStr "UNKNOWN")) in
  let invalid := _unknown "STATUS_INVALID" current in
  if negb (bool_decide (status ∈ ALLOWED_STATUSES)) then invalid
  else
    match _optional_boolean_field raw "connected", _optional_nonnegative_int_field raw "attempt",
          _optional_nonnegative_int_field raw "rendered_buffers" with
    | Ok connected, Ok attempt, Ok rendered_buffers =>
        match (match raw !! "observed_at" with None => Some current | Some v => nonneg_number v end) with
        | None => invalid
        | Some observed_at =>
            if negb (bool_decide (status ∈ TERMINAL_STATUSES)) && flt fzero max_age_seconds &&
               flt max_age_seconds (fsub current observed_at)
            then _unknown "STATUS_STALE" observed_at
            else list_to_map
              [("status", VStr status); ("connected", VBool (String.eqb status "CONNECTED" && connected));
               ("attempt", VInt attempt); ("reason_code", bounded_text 100 (py_get raw "reason_code"));
               ("rendered_buffers", VInt rendered_buffers);
               ("next_retry_at", default VNull (_nonnegative_finite_number (py_get raw "next_retry_at")));
               ("destination_scheme", bounded_text 20 (py_get raw "destination_scheme"));
               ("destination_host", bounded_text 253 (py_get raw "destination_host"));
               ("observed_at", VFloat observed_at)]
        end
    | _, _, _ => invalid
    end.

Definition read_egress_status (file : status_file) (now : value) (max_age_seconds : option value) (env : environ)
    : result dict :=
  current ← _validated_now now;
  match file with
  | Unreadable => Ok (_unknown "STATUS_UNAVAILABLE" current)
  | NotText | NotJson => Ok (_unknown "STATUS_INVALID" current)
  | StatusJson r =>
      match load_json_authority r with
      | Ok (VDict raw) =>
          let max_age := match max_age_seconds with
                         | Some v => _max_age_seconds v
                         | None => _max_age_seconds (VStr (default "30" (env "NODE_EGRESS_STATUS_MAX_AGE_SECONDS")))
                         end in
          Ok (status_report raw current max_age)
      | _ => Ok (_unknown "STATUS_INVALID" current)
      end
  end.

(** ** The readers of the relay *)
Definition EXTERNAL_RELAY_READER_TYPES : list string := ["rtmpConn"; "rtmpsConn"].

(** A request to the API of MediaMTX: the text of a [RuntimeError], or the JSON value. *)
Inductive api_answer : Type :=
| ApiFailed (reason : string)
| ApiJson (v : value).

(** An answer that is no object counts as an empty one. *)
Definition api_object (v : value) : dict := default ∅ (as_dict v).

Definition snapshot_of (path : string) (payload : dict) : option dict :=
  match py_get_or payload "items" (VList []) with
  | VList items =>
      head (omap (fun item => match item with
                              | VDict d => if py_eq (py_get d "name") (VStr path) then Some d else None
                              | _ => None
                              end) items)
  | _ => None
  end.

Definition external_reader (reader : value) : bool :=
  match reader with
  | VDict d => match py_get d "type" with VStr t => bool_decide (t ∈ EXTERNAL_RELAY_READER_TYPES) | _ => true end
  | _ => true
  end.

Definition _external_relay_readers (readers : list value) : list value := List.filter external_reader readers.

Definition relay_base (status : string) (connected : bool) (count : Z) (reason : value) (observed_at : float) : dict :=
  list_to_map
    [("status", VStr status); ("connected", VBool connected); ("reader_count", VInt count); ("reason_code", reason);
     ("observed_at", VFloat observed_at)].

Definition relay_observe (path : string) (answer : api_answer) (now : value) : result dict :=
  observed_at ← _validated_now now;
  Ok match answer with
     | ApiFailed reason => relay_base "UNKNOWN" false 0 (VStr (py_take 100 reason)) observed_at
     | ApiJson v =>
         match snapshot_of path (api_object v) with
         | Some snapshot =>
             if match py_get snapshot "online" with VBool b => negb b | _ => true end
             then relay_base "UNKNOWN" false 0 (VStr "RELAY_SOURCE_OFFLINE") observed_at
             else
               match py_get_or snapshot "readers" (VList []) with
               | VNull => relay_base "DISCONNECTED" false 0 VNull observed_at
               | VList readers =>
                   let external := _external_relay_readers readers in
                   let some := negb (bool_decide (external = [])) in
                   relay_base (if some then "CONNECTED" else "DISCONNECTED") some (Z.of_nat (length external)) VNull observed_at
               | _ => relay_base "UNKNOWN" false 0 (VStr "READER_STATE_UNAVAILABLE") observed_at
               end
         | None => relay_base "UNKNOWN" false 0 (VStr "RELAY_SOURCE_OFFLINE") observed_at
         end
     end.

(** ** What they report is accepted *)
Section accepted.
Context {conversions : Conversions} {laws : ConversionLaws}.

Lemma declared_int n z : int_at_least n (VInt z) = (n <=? z).
Proof using laws. unfold int_at_least. by rewrite as_int_int. Qed.
Lemma declared_bool b : boolean (VBool b) = true.
Proof using laws. unfold boolean. rewrite as_bool_bool. by apply bool_decide_eq_true. Qed.
Lemma declared_float v f : nonneg_number v = Some f -> float_at_least_zero v = true.
Proof using laws.
  unfold nonneg_number, float_at_least_zero. destruct (number_as_float v) as [g|] eqn:E; [|done].
  rewrite (as_float_number _ _ E). by destruct (_ && _).
Qed.

Lemma now_ok v t : _validated_now v = Ok t -> nonneg_number (VFloat t) = Some t.
Proof.
  unfold _validated_now. destruct (nonneg_number v) as [f|] eqn:E; [|done]. intros [= ->].
  apply nonneg_number_spec in E as [E1 E2]. by apply nonneg_number_float.
Qed.

Lemma bounded_text_ok n v : nullable (text_up_to n) (bounded_text n v) = true.
Proof. unfold bounded_text. destruct (truthy v); [|done]. cbn. apply Nat.leb_le, py_len_take. Qed.

Lemma retry_ok v : nullable float_at_least_zero (default VNull (_nonnegative_finite_number v)) = true.
Proof using laws.
  unfold _nonnegative_finite_number. destruct (nonneg_number v) eqn:E; [|done]. cbn. unfold nullable.
  by rewrite (declared_float _ _ E), orb_true_r.
Qed.

(** A body written with exactly the declared fields. *)
Lemma accepts_fields fields (vs : list value) :
  NoDup fields.*1 -> length vs = length fields ->
  Forall2 (fun (f : field_spec) v => f.2.2 v = true) fields vs -> accepts fields (list_to_map (zip fields.*1 vs)) = true.
Proof.
  intros Hn Hl Hf. unfold accepts. apply andb_true_iff. split; apply forallb_forall.
  - intros [k v] Hin%list_elem_of_In%elem_of_map_to_list%elem_of_list_to_map_2. apply bool_decide_eq_true.
    by apply elem_of_zip_l in Hin.
  - intros [k [required check]] (i & Hi)%list_elem_of_In%list_elem_of_lookup.
    destruct (Forall2_lookup_l _ _ _ _ _ Hf Hi) as (v & Hv & Hc).
    erewrite elem_of_list_to_map_1; [exact Hc| |].
    + rewrite fst_zip; [exact Hn|]. rewrite length_fmap. lia.
    + apply list_elem_of_lookup. exists i. rewrite lookup_zip_with, list_lookup_fmap, Hi. cbn. by rewrite Hv.
Qed.

Lemma accepted_record fields (record : list (string * value)) :
  bool_decide (record.*1 = fields.*1) && bool_decide (NoDup fields.*1) = true ->
  forallb (fun p => p.1.2.2 p.2) (zip fields record.*2) = true ->
  accepts fields (list_to_map record) = true.
Proof.
  intros [Hn%bool_decide_eq_true Hd%bool_decide_eq_true]%andb_true_iff Hf.
  assert (Hl : length record.*2 = length fields) by (rewrite <- (length_fmap fst fields), <- Hn, !length_fmap; done).
  rewrite <- (zip_fst_snd record), Hn. apply accepts_fields; [done..|].
  apply Forall2_same_length_lookup. split; [done|]. intros i f v Hi Hv. rewrite forallb_forall in Hf.
  apply (Hf (f, v)). apply list_elem_of_In, list_elem_of_lookup. exists i. apply lookup_zip_with_Some. by exists f, v.
Qed.

Ltac accepted :=
  apply accepted_record; [reflexivity|];
  cbn [zip zip_with fmap list_fmap map forallb fst snd EgressObservationRequest RelayClientObservationRequest].

Lemma unknown_accepted reason t :
  (py_len reason <= 100)%nat -> nonneg_number (VFloat t) = Some t -> accepts EgressObservationRequest (_unknown reason t) = true.
Proof using laws.
  intros Hr Ht. unfold _unknown. accepted. unfold nullable, text_up_to. rewrite declared_bool, !declared_int, (declared_float _ _ Ht).
  by rewrite (proj2 (Nat.leb_le _ _) Hr).
Qed.

Lemma field_int raw key n : _optional_nonnegative_int_field raw key = Ok n -> int_at_least 0 (VInt n) = true.
Proof using laws.
  unfold _optional_nonnegative_int_field. destruct (raw !! key) as [[| |z| | | |]|]; try done.
  - destruct (z <? 0) eqn:E; [done|]. intros [= ->]. rewrite declared_int. lia.
  - intros [= <-]. by rewrite declared_int.
Qed.

Lemma status_report_accepted raw current max_age :
  nonneg_number (VFloat current) = Some current -> accepts EgressObservationRequest (status_report raw current max_age) = true.
Proof using laws.
  intros Hc. assert (Hinv : accepts EgressObservationRequest (_unknown "STATUS_INVALID" current) = true).
  { apply unknown_accepted; [|done]. apply Nat.leb_le. reflexivity. }
  unfold status_report. cbv zeta. set (status := name_text _). destruct (negb _) eqn:Hs; [done|].
  apply negb_false_iff, bool_decide_eq_true in Hs.
  destruct (_optional_boolean_field raw "connected") as [connected|]; [|done].
  destruct (_optional_nonnegative_int_field raw "attempt") as [attempt|] eqn:Ha; [|done].
  destruct (_optional_nonnegative_int_field raw "rendered_buffers") as [buffers|] eqn:Hb; [|done].
  apply field_int in Ha, Hb.
  assert (Ho : forall t, match raw !! "observed_at" with None => Some current | Some v => nonneg_number v end = Some t ->
    nonneg_number (VFloat t) = Some t).
  { intros t. destruct (raw !! "observed_at") as [v|]; [|by intros [= <-]].
    intros [E1 E2]%nonneg_number_spec. by apply nonneg_number_float. }
  destruct (match raw !! "observed_at" with None => _ | Some v => _ end) as [t|]; [|done]. specialize (Ho t eq_refl).
  destruct (_ && _); [apply unknown_accepted; [apply Nat.leb_le; reflexivity|done]|].
  accepted. rewrite !bounded_text_ok, retry_ok, Ha, Hb, declared_bool, (declared_float _ _ Ho).
  assert (Hin : text_in (VStr status) EGRESS_STATUSES = true).
  { cbn. apply bool_decide_eq_true. apply list_elem_of_In in Hs. apply list_elem_of_In. cbn in Hs |- *. tauto. }
  by rewrite Hin.
Qed.

Lemma relay_base_accepted status connected count reason t :
  text_in (VStr status) RELAY_CLIENT_STATUSES = true -> 0 <= count -> nullable (text_up_to 100) reason = true ->
  nonneg_number (VFloat t) = Some t -> accepts RelayClientObservationRequest (relay_base status connected count reason t) = true.
Proof using laws.
  intros Hs Hc Hr Ht. unfold relay_base. accepted. rewrite Hs, Hr, declared_bool, declared_int, (declared_float _ _ Ht). cbn.
  by rewrite (proj2 (Z.leb_le _ _) Hc).
Qed.

Lemma egress_report_ok file now max_age env :
  match read_egress_status file now max_age env with
  | Ok o => accepts EgressObservationRequest o = true
  | Err _ => nonneg_number now = None end.
Proof using laws.
  unfold read_egress_status. destruct (_validated_now now) as [t|] eqn:En.
  2: { unfold _validated_now in En. by destruct (nonneg_number now). }
  apply now_ok in En. cbn [mbind result_bind].
  assert (Hunk : forall reason, Nat.leb (py_len reason) 100 = true -> accepts EgressObservationRequest (_unknown reason t) = true)
    by (intros reason Hr; apply unknown_accepted; [by apply Nat.leb_le|done]).
  destruct file as [| | |r]; [apply Hunk; reflexivity..|].
  destruct (load_json_authority r) as [v|]; [|apply Hunk; reflexivity].
  destruct v as [| | | | | |raw]; [apply Hunk; reflexivity..|]. by apply status_report_accepted.
Qed.

Lemma relay_report_ok path answer now :
  match relay_observe path answer now with
  | Ok o => accepts RelayClientObservationRequest o = true
  | Err _ => nonneg_number now = None end.
Proof using laws.
  unfold relay_observe. destruct (_validated_now now) as [t|] eqn:En.
  2: { unfold _validated_now in En. by destruct (nonneg_number now). }
  apply now_ok in En. cbn [mbind result_bind]. destruct answer as [reason|v].
  { apply relay_base_accepted; [done|done| |done]. cbn. by apply Nat.leb_le, py_len_take. }
  repeat case_match; apply relay_base_accepted; try done; lia.
Qed.
End accepted.

(** A declared body that needs no conversion is also what the authority of the Nodes
    admits. *)
Lemma accepted_value fields body name required check v :
  accepts fields body = true -> (name, (required, check)) ∈ fields -> body !! name = Some v -> check v = true.
Proof.
  unfold accepts. intros [_ H]%andb_true_iff Hin Hv. rewrite forallb_forall in H.
  specialize (H _ (proj1 (list_elem_of_In _ _) Hin)). cbn in H. by rewrite Hv in H.
Qed.
Lemma accepted_present fields body name check :
  accepts fields body = true -> (name, (true, check)) ∈ fields -> exists v, body !! name = Some v /\ check v = true.
Proof.
  unfold accepts. intros [_ H]%andb_true_iff Hin. rewrite forallb_forall in H.
  specialize (H _ (proj1 (list_elem_of_In _ _) Hin)). cbn in H. destruct (body !! name) as [v|]; [by exists v|done].
Qed.

Lemma bool_ok v : @boolean strict v = true -> bool_field v = Ok tt.
Proof. by destruct v. Qed.
Lemma count_ok v : @int_at_least strict 0 v = true -> count_field v = Ok tt.
Proof. destruct v; try done. cbn. intros H. unfold count_field. cbn. by replace (z <? 0) with false by lia. Qed.
Lemma finite_ok v : @float_at_least_zero strict v = true -> finite_field v = Ok tt.
Proof.
  unfold float_at_least_zero, finite_field, _require_finite_number, nonneg_number. cbn [as_float strict].
  destruct (number_as_float v); [|done]. by destruct (_ && _).
Qed.

Lemma when_given_ok body check field (declared : value -> bool) :
  (forall v, body !! field = Some v -> nullable declared v = true) -> (forall v, declared v = true -> check v = Ok tt) ->
  when_given body check field = Ok tt.
Proof.
  intros Hb Hc. unfold when_given. destruct (body !! field) as [v|] eqn:E; [|done]. specialize (Hb v eq_refl).
  unfold nullable in Hb. destruct v; try done; by apply Hc.
Qed.
Lemma when_present_ok body check field (declared : value -> bool) :
  (forall v, body !! field = Some v -> declared v = true) -> (forall v, declared v = true -> check v = Ok tt) ->
  when_present body check field = Ok tt.
Proof. intros Hb Hc. unfold when_present. destruct (body !! field) as [v|]; [|done]. by apply Hc, Hb. Qed.

Ltac declared := apply list_elem_of_In; cbn; tauto.

Lemma egress_body_admitted body :
  accepts (@EgressObservationRequest strict) body = true ->
  _validate_observation (VDict body) EGRESS_STATUSES ["connected"] ["attempt"; "rendered_buffers"] ["next_retry_at"] = Ok tt.
Proof.
  clear str_of. intros H. unfold _validate_observation.
  destruct (accepted_present _ _ "status" (fun v => text_in v EGRESS_STATUSES) H) as (s & Es & Hs); [declared|].
  destruct (accepted_present _ _ "observed_at" (@float_at_least_zero strict) H) as (t & Et & Ht); [declared|].
  unfold py_get. rewrite Es, Et. cbn [default from_option id]. rewrite Hs, finite_ok by done. cbn.
  rewrite (when_present_ok _ _ _ (@boolean strict)); [|intros v; apply (accepted_value _ _ "connected" false (@boolean strict) _ H); declared|apply bool_ok].
  cbn. rewrite (when_given_ok _ _ "attempt" (@int_at_least strict 0));
    [|intros v Hv; unfold nullable; rewrite (accepted_value _ _ "attempt" false (@int_at_least strict 0) _ H ltac:(declared) Hv); apply orb_true_r|apply count_ok].
  cbn. rewrite (when_given_ok _ _ "rendered_buffers" (@int_at_least strict 0));
    [|intros v Hv; unfold nullable; rewrite (accepted_value _ _ "rendered_buffers" false (@int_at_least strict 0) _ H ltac:(declared) Hv); apply orb_true_r|apply count_ok].
  cbn.
  rewrite (when_given_ok _ _ _ (@float_at_least_zero strict)); [done| |apply finite_ok].
  intros v. apply (accepted_value _ _ "next_retry_at" false (nullable (@float_at_least_zero strict)) _ H). declared.
Qed.

Lemma relay_body_admitted body :
  accepts (@RelayClientObservationRequest strict) body = true ->
  _validate_observation (VDict body) RELAY_CLIENT_STATUSES ["connected"] ["reader_count"] [] = Ok tt.
Proof.
  clear str_of. intros H. unfold _validate_observation.
  destruct (accepted_present _ _ "status" (fun v => text_in v RELAY_CLIENT_STATUSES) H) as (s & Es & Hs); [declared|].
  destruct (accepted_present _ _ "observed_at" (@float_at_least_zero strict) H) as (t & Et & Ht); [declared|].
  unfold py_get. rewrite Es, Et. cbn [default from_option id]. rewrite Hs, finite_ok by done. cbn.
  rewrite (when_present_ok _ _ _ (@boolean strict)); [|intros v; apply (accepted_value _ _ "connected" false (@boolean strict) _ H); declared|apply bool_ok].
  cbn. rewrite (when_given_ok _ _ _ (@int_at_least strict 0)); [done| |apply count_ok].
  intros v Hv. unfold nullable. rewrite (accepted_value _ _ "reader_count" false (@int_at_least strict 0) _ H ltac:(declared) Hv). apply orb_true_r.
Qed.

(** the output reports of the agent are accepted. Whatever the status file of the
    gateway or the answer of the media server is, when [read_egress_status] and
    [RelayClientObserver.observe] report anything (they raise only when the clock is
    invalid) the report is of the shape that the request of the heartbeat declares,
    without any conversion, and the check of the Node authority admits it. *)
Theorem output_reports_are_accepted :
  (forall file now max_age env, match read_egress_status file now max_age env with
     | Ok o => accepts (@EgressObservationRequest strict) o = true /\
         _validate_observation (VDict o) EGRESS_STATUSES ["connected"] ["attempt"; "rendered_buffers"] ["next_retry_at"] = Ok tt
     | Err _ => nonneg_number now = None end) /\
  (forall path answer now, match relay_observe path answer now with
     | Ok o => accepts (@RelayClientObservationRequest strict) o = true /\
         _validate_observation (VDict o) RELAY_CLIENT_STATUSES ["connected"] ["reader_count"] [] = Ok tt
     | Err _ => nonneg_number now = None end).
Proof.
  split.
  - intros file now max_age env. pose proof (egress_report_ok (laws := strict_laws) file now max_age env) as H.
    destruct (read_egress_status file now max_age env) as [o|]; [|exact H]. split; [exact H|by apply egress_body_admitted].
  - intros path answer now. pose proof (relay_report_ok (laws := strict_laws) path answer now) as H.
    destruct (relay_observe path answer now) as [o|]; [|exact H]. split; [exact H|by apply relay_body_admitted].
Qed.

(** an output is reported as connected only on fresh evidence: when
    [read_egress_status] reports a connection, the status file says [CONNECTED] and
    [connected], and unless the age limit is switched off, its observation is at most
    that old at the time of the report. *)
Theorem connected_report_is_fresh file now max_age env o :
  read_egress_status file now (Some max_age) env = Ok o -> py_get o "connected" = VBool true ->
  exists raw current observed_at,
    _validated_now now = Ok current /\ (exists r, file = StatusJson r /\ load_json_authority r = Ok (VDict raw)) /\
    py_get raw "status" = VStr "CONNECTED" /\ py_get raw "connected" = VBool true /\
    py_get o "observed_at" = VFloat observed_at /\
    (flt fzero (_max_age_seconds max_age) = true -> flt (_max_age_seconds max_age) (fsub current observed_at) = false).
Proof.
  unfold read_egress_status. intros H Hc. apply result_bind_ok in H as (current & Hn & H).
  assert (Hu : forall reason t, py_get (_unknown reason t) "connected" <> VBool true).
  { intros reason t. unfold _unknown. rewrite ?list_to_map_cons. cbn [fst snd]. record_fields. done. }
  destruct file as [| | |r]; try (injection H as <-; by apply Hu in Hc).
  destruct (load_json_authority r) as [[| | | | | |raw]|] eqn:Hr; try (injection H as <-; by apply Hu in Hc).
  injection H as <-. exists raw, current. unfold status_report in *. cbv zeta in *.
  destruct (negb (bool_decide (_ ∈ ALLOWED_STATUSES))); [by apply Hu in Hc|].
  destruct (_optional_boolean_field raw "connected") as [connected|] eqn:Eb; [|by apply Hu in Hc].
  destruct (_optional_nonnegative_int_field raw "attempt"); [|by apply Hu in Hc].
  destruct (_optional_nonnegative_int_field raw "rendered_buffers"); [|by apply Hu in Hc].
  destruct (match raw !! "observed_at" with None => _ | Some v => _ end) as [t|]; [|by apply Hu in Hc].
  destruct (_ && flt _ (fsub current t)) eqn:Eage; [by apply Hu in Hc|].
  rewrite ?list_to_map_cons in *. cbn [fst snd] in *. revert Hc. record_fields. intros [= [Es%String.eqb_eq ->]%andb_true_iff].
  exists t. split; [done|]. split; [by exists r|].
  assert (Ecs : py_get raw "status" = VStr "CONNECTED").
  { unfold py_get_or in Es. unfold py_get. destruct (raw !! "status") as [[|[]| | | | |]|]; try done. cbn in *. by rewrite Es. }
  split; [done|]. split.
  { unfold _optional_boolean_field in Eb. unfold py_get. destruct (raw !! "connected") as [[]|]; try done. cbn. by injection Eb as ->. }
  split; [done|]. intros Hp. rewrite Es, Hp in Eage.
  assert (Ht : bool_decide ("CONNECTED"%string ∈ TERMINAL_STATUSES) = false) by reflexivity. by rewrite Ht in Eage.
Qed.
End observers.

Definition demo_status (status : string) (at_time : Z) : status_file :=
  StatusJson (RObj [("status", RStr status); ("connected", RBool true); ("attempt", RInt 3); ("observed_at", RInt at_time)]).
Definition demo_read (file : status_file) : result dict :=
  read_egress_status name_text file (VInt 100) (Some (VInt 30)) (fun _ => None).

Example demo_reports :
  ((fun o => (py_get o "status", py_get o "connected")) <$>
     omap (fun r => match r with Ok o => Some o | Err _ => None end)
       (demo_read <$> [demo_status "CONNECTED" 70; demo_status "CONNECTED" 69; demo_status "FAILED" 1; NotJson])) =
  [(VStr "CONNECTED", VBool true); (VStr "UNKNOWN", VBool false); (VStr "FAILED", VBool false); (VStr "UNKNOWN", VBool false)].
Proof. vm_compute. reflexivity. Qed.

Lemma connected_report_is_fresh_witness :
  exists o, demo_read (demo_status "CONNECTED" 70) = Ok o /\ exists t, py_get o "observed_at" = VFloat t.
Proof.
  destruct (demo_read (demo_status "CONNECTED" 70)) as [o|e] eqn:E.
  2: { exfalso. assert (Hb : is_ok (demo_read (demo_status "CONNECTED" 70)) = true) by (vm_compute; reflexivity).
       rewrite E in Hb. discriminate Hb. }
  assert (Hc : match demo_read (demo_status "CONNECTED" 70) with
               | Ok o => match py_get o "connected" with VBool b => b | _ => false end | Err _ => false end = true)
    by (vm_compute; reflexivity).
  rewrite E in Hc. exists o. split; [reflexivity|].
  destruct (connected_report_is_fresh name_text (demo_status "CONNECTED" 70) (VInt 100) (VInt 30) (fun _ => None) o E)
    as (raw & current & t & _ & _ & _ & _ & Ht & _).
  - destruct (py_get o "connected") as [|b| | | | |]; try discriminate Hc. rewrite Hc. reflexivity.
  - exists t. exact Ht.
Defined.
