(* ===== verification/IngestPolicy.v ===== *)
(** * The input policy of a Node

    [apps/node-agent/ingest_policy.py]: what the media server says of the publisher,
    judged against the formats and the bitrate that are allowed, and the one request
    that disconnects a publisher. The answers of the media server are arguments.
    [str(v)] of what is no string is an argument, as in EgressStatus.v. *)

From S2P Require Import Prelude PyFloat Sha256 PyValue Json Effects Authority PyText TextFacts Uuid IpAddress Url EgressDestination StateFile NodeAuthority AttemptSupervisor EgressStatus.

(** ** Numbers *)

(** [round(f, digits)]: half to even on the exact value, then the nearest double. *)
Definition round_half_even (num den : Z) : Z :=
  let q := num / den in let r := num mod den in
  if 2 * r <? den then q else if den <? 2 * r then q + 1 else if Z.even q then q else q + 1.

Definition py_round (digits : Z) (f : float) : float :=
  match f with
  | S754_finite s m e =>
      let scaled := Z.pos m * 10 ^ digits in
      let k := if 0 <=? e then scaled * 2 ^ e else round_half_even scaled (2 ^ (- e)) in
      of_decimal s k (- digits)
  | f => f
  end.

Example py_round_examples :
  (py_round 2 (fratio 2675 1000), py_round 1 (fratio 1 4), py_round 1 (fratio 35 100), py_round 1 (of_Z 7)) =
  (fratio 267 100, fratio 2 10, fratio 3 10, of_Z 7).
Proof. vm_compute. reflexivity. Qed.

(** [f > z], compared exactly *)
Definition exceeds (f : float) (z : Z) : bool :=
  match f with
  | S754_finite s m e =>
      let m := if s then Z.neg m else Z.pos m in
      if 0 <=? e then z <? m * 2 ^ e else z * 2 ^ (- e) <? m
  | S754_infinity s => negb s
  | S754_zero _ => z <? 0
  | S754_nan => false
  end.

(** [int(v)], with [None] for a [TypeError] or [ValueError]; the [OverflowError] of an
    infinity is not caught. *)
Definition _safe_int (v : value) : result (option Z) :=
  match py_int v with
  | Ok z => Ok (Some z)
  | Err TypeError | Err ValueError => Ok None
  | Err e => Err e
  end.

(** ** Policy *)
Definition VIDEO_CODECS : list string :=
  ["AV1"; "VP9"; "VP8"; "H265"; "H264"; "MPEG-4 Video"; "MPEG-1/2 Video"; "M-JPEG"].
Definition AUDIO_CODECS : list string :=
  ["Opus"; "FLAC"; "Vorbis"; "MPEG-4 Audio"; "MPEG-4 Audio LATM"; "MPEG-1/2 Audio"; "AC3"; "Speex"; "G726"; "G722";
   "G711"; "LPCM"].
Definition ALLOWED_RESOLUTIONS : list (Z * Z) := [(1280, 720); (1920, 1080)].

Record IngestPolicyConfig : Type := PolicyConfig {
  api_url : string;
  policy_path : string;
  max_bitrate_bps : Z;
  bitrate_violation_samples : Z;
  timeout_seconds : float
}.

Definition policy_env_int (env : environ) (name : string) (dflt minimum : Z) : Z :=
  match getenv_int env name dflt with Some n => Z.max minimum n | None => dflt end.

Definition policy_config_from_env (env : environ) : IngestPolicyConfig :=
  PolicyConfig
    (rstrip_chars is_slash (default "http://mediamtx:9997" (env "NODE_MEDIAMTX_API_URL")))
    (default "live/input" (env "NODE_INGEST_PATH"))
    (policy_env_int env "NODE_INGEST_MAX_BITRATE_BPS" 6000000 100000)
    (policy_env_int env "NODE_INGEST_BITRATE_VIOLATION_SAMPLES" 2 1)
    (fmin (fmax (default (of_Z 2) (getenv_float env "NODE_MEDIAMTX_API_TIMEOUT_SECONDS" (of_Z 2))) (fratio 2 10)) (of_Z 10)).

Record policy_state : Type := PolicyState {
  last_source_id : option string;
  last_inbound_bytes : option Z;
  last_sample_at : option float;
  over_bitrate_samples : Z;
  last_enforced_source_id : option string
}.

Definition policy_start : policy_state := PolicyState None None None 0 None.

Definition _reset_sampling (st : policy_state) : policy_state :=
  PolicyState None None None 0 (last_enforced_source_id st).

Definition _validated_observed_time (v : value) : result float :=
  match nonneg_number v with Some f => Ok f | None => Err IngestObservationClockError end.

Definition codec_of (track : dict) : string := match py_get track "codec" with VStr s => s | _ => EmptyString end.
Definition has_codec (codecs : list string) (track : dict) : bool := bool_decide (codec_of track ∈ codecs).

Section policy.
Context (str_of : value -> string) (config : IngestPolicyConfig).

Definition track_of (item : dict) : dict :=
  let props := default ∅ (as_dict (py_get item "codecProps")) in
  fold_left (fun track key => match props !! key with Some v => <[key := v]> track | None => track end)
    ["width"; "height"; "profile"; "level"; "sampleRate"; "channelCount"]
    {[ "codec" := VStr (str_of (py_get_or item "codec" (VStr EmptyString))) ]}.

Definition _normalise_tracks (tracks : list value) : list dict := track_of <$> omap as_dict (take 8 tracks).

Definition _track_metadata_may_be_incomplete (tracks : list dict) : bool :=
  let codecs := codec_of <$> tracks in
  let count name := length (List.filter (String.eqb name) codecs) in
  if bool_decide (tracks = []) then true
  else if negb (forallb (fun c => bool_decide (c ∈ ["H264"; "MPEG-4 Audio"])) codecs) then false
  else if Nat.ltb 1 (count "H264") || Nat.ltb 1 (count "MPEG-4 Audio") then false
  else negb (Nat.eqb (count "H264") 1) || negb (Nat.eqb (count "MPEG-4 Audio") 1).

(** The reasons and the warnings for the video, and for the audio. *)
Definition judge_video (tracks : list dict) : result (list string * list string) :=
  match List.filter (has_codec VIDEO_CODECS) tracks with
  | [video] =>
      if String.eqb (codec_of video) "H264" then
        width ← _safe_int (py_get video "width");
        height ← _safe_int (py_get video "height");
        Ok match width, height with
           | Some w, Some h => if bool_decide ((w, h) ∈ ALLOWED_RESOLUTIONS) then ([], []) else (["RESOLUTION_UNSUPPORTED"], [])
           | _, _ => ([], ["VIDEO_DIMENSIONS_UNKNOWN"])
           end
      else Ok (["VIDEO_CODEC_UNSUPPORTED"], [])
  | _ => Ok (["VIDEO_CODEC_UNSUPPORTED"], [])
  end.

Definition judge_audio (tracks : list dict) : result (list string * list string) :=
  match List.filter (has_codec AUDIO_CODECS) tracks with
  | [audio] =>
      if String.eqb (codec_of audio) "MPEG-4 Audio" then
        sample_rate ← _safe_int (py_get audio "sampleRate");
        channels ← _safe_int (py_get audio "channelCount");
        let rate_warnings := match sample_rate with
                             | None => ["AUDIO_SAMPLE_RATE_UNKNOWN"]
                             | Some r => if r =? 48000 then [] else ["AUDIO_SAMPLE_RATE_NON_PREFERRED"]
                             end in
        Ok match channels with
           | None => ([], rate_warnings ++ ["AUDIO_CHANNELS_UNKNOWN"])
           | Some c => (if bool_decide (c ∈ [1; 2]) then [] else ["AUDIO_CHANNELS_UNSUPPORTED"], rate_warnings)
           end
      else Ok (["AUDIO_CODEC_UNSUPPORTED"], [])
  | _ => Ok (["AUDIO_CODEC_UNSUPPORTED"], [])
  end.

Definition evaluate_tracks (tracks : list dict) : result (list string * list string) :=
  '(video_reasons, video_warnings) ← judge_video tracks;
  '(audio_reasons, audio_warnings) ← judge_audio tracks;
  Ok (video_reasons ++ audio_reasons, video_warnings ++ audio_warnings).

(** The bitrate since the last sample of the same source, when both counters are there. *)
Definition sampled_bitrate (st : policy_state) (inbound_bytes : option Z) (observed_at : float) : result (option float) :=
  match inbound_bytes, last_inbound_bytes st, last_sample_at st with
  | Some bytes, Some last_bytes, Some last_at =>
      if flt last_at observed_at && (last_bytes <=? bytes) then
        let delta := of_Z (bytes - last_bytes) in
        if is_finite delta then Ok (Some (fdiv (fmul delta (of_Z 8)) (fsub observed_at last_at)))
        else Err OverflowError
      else Ok None
  | _, _, _ => Ok None
  end.

Definition with_over (n : Z) (st : policy_state) : policy_state :=
  PolicyState (last_source_id st) (last_inbound_bytes st) (last_sample_at st) n (last_enforced_source_id st).

(** The state, and the reason or warning for the bitrate. *)
Definition judge_bitrate (st : policy_state) (bitrate : option float) : policy_state * list string * list string :=
  match bitrate with
  | None => (st, [], [])
  | Some b =>
      if exceeds b (max_bitrate_bps config) then
        let n := over_bitrate_samples st + 1 in
        if bitrate_violation_samples config <=? n then (with_over n st, ["BITRATE_TOO_HIGH"], [])
        else (with_over n st, [], ["BITRATE_ABOVE_LIMIT_PENDING"])
      else (with_over 0 st, [], [])
  end.

Definition texts (l : list string) : value := VList (VStr <$> l).

Definition offline_report (observed_at : float) : dict :=
  list_to_map
    [("status", VStr "OFFLINE"); ("path", VStr (policy_path config)); ("online", VBool false); ("source_type", VNull);
     ("source_id", VNull); ("bitrate_bps", VNull); ("tracks", VList []); ("reasons", VList []); ("warnings", VList []);
     ("enforced", VBool false); ("observed_at", VFloat observed_at)].

Definition ingest_status (reasons warnings : list string) (bitrate : option float) : string :=
  if negb (bool_decide (reasons = [])) then "REJECTED"
  else match bitrate with
       | None => "PENDING"
       | Some _ => if negb (bool_decide (warnings = [])) then "WARNING" else "ACCEPTED"
       end.

Definition online_report (source_id source_type : option string) (tracks : list dict) (reasons warnings : list string)
    (bitrate : option float) (observed_at : float) : dict :=
  list_to_map
    [("status", VStr (ingest_status reasons warnings bitrate)); ("path", VStr (policy_path config));
     ("online", VBool true); ("source_type", opt_str source_type); ("source_id", opt_str source_id);
     ("bitrate_bps", match bitrate with Some b => VFloat (py_round 1 b) | None => VNull end);
     ("max_bitrate_bps", VInt (max_bitrate_bps config)); ("tracks", VList (VDict <$> tracks)); ("reasons", texts reasons);
     ("warnings", texts warnings); ("enforced", VBool false); ("observed_at", VFloat observed_at)].

(** The source of a path that is online. *)
Definition online_source (snapshot : option dict) : option (dict * dict) :=
  match snapshot with
  | Some path =>
      if truthy (py_get path "online")
      then match py_get path "source" with VDict source => Some (path, source) | _ => None end else None
  | None => None
  end.

Definition source_text (source : dict) (key : string) : option string :=
  let s := str_of (py_get_or source key (VStr EmptyString)) in if str_empty s then None else Some s.

(** The report, or what is raised, and the state as it is left. *)
Definition observe_online (st : policy_state) (path source : dict) (observed_at : float) : result dict * policy_state :=
  let source_id := source_text source "id" in
  let source_type := source_text source "type" in
  let tracks := _normalise_tracks (match py_get_or path "tracks2" (VList []) with VList l => l | _ => [] end) in
  match _safe_int (py_get path "inboundBytes") with
  | Err e => (Err e, st)
  | Ok inbound_bytes =>
      let source_changed := negb (bool_decide (source_id = last_source_id st)) in
      match (if source_changed then Ok None else sampled_bitrate st inbound_bytes observed_at) with
      | Err e => (Err e, st)
      | Ok bitrate =>
          let st :=
            if source_changed then PolicyState source_id inbound_bytes (Some observed_at) 0 None
            else match bitrate with
                 | Some _ => PolicyState (last_source_id st) inbound_bytes (Some observed_at) (over_bitrate_samples st)
                               (last_enforced_source_id st)
                 | None => st
                 end in
          match evaluate_tracks tracks with
          | Err e => (Err e, st)
          | Ok (reasons, warnings) =>
              let pending := source_changed && _track_metadata_may_be_incomplete tracks in
              let reasons := if pending then [] else reasons in
              let warnings := if pending then warnings ++ ["TRACK_METADATA_PENDING"] else warnings in
              let '(st, bitrate_reasons, bitrate_warnings) := judge_bitrate st bitrate in
              (Ok (online_report source_id source_type tracks (reasons ++ bitrate_reasons) (warnings ++ bitrate_warnings)
                     bitrate observed_at), st)
          end
      end
  end.

Definition observe (st : policy_state) (answer : api_answer) (now : value) : result dict * policy_state :=
  match _validated_observed_time now with
  | Err e => (Err e, st)
  | Ok observed_at =>
      match answer with
      | ApiFailed _ => (Err RuntimeError, st)
      | ApiJson v =>
          match online_source (snapshot_of (policy_path config) (api_object v)) with
          | None => (Ok (offline_report observed_at), _reset_sampling st)
          | Some (path, source) => observe_online st path source observed_at
          end
      end
  end.

(** ** Enforcement *)
Definition endpoint_prefix (source_type : string) : option string :=
  if String.eqb source_type "rtmpConn" then Some "rtmpconns"
  else if String.eqb source_type "rtmpsConn" then Some "rtmpsconns"
  else if String.eqb source_type "srtConn" then Some "srtconns" else None.

(** The request path that disconnects the source of a report, if there is one to make. *)
Definition kick_path (st : policy_state) (report : dict) : option (string * string) :=
  match py_get report "status", py_get report "source_id", py_get report "source_type" with
  | VStr status, VStr source_id, VStr source_type =>
      if negb (String.eqb status "REJECTED") || str_empty source_id ||
         bool_decide (last_enforced_source_id st = Some source_id) then None
      else prefix ← endpoint_prefix source_type;
           Some (source_id, String.concat "" ["/v3/"; prefix; "/kick/"; quote source_id])
  | _, _, _ => None
  end.

(** [kick] answers that request: [None], or the text of the error. The request that was
    made is part of the result. *)
Definition observe_and_enforce (st : policy_state) (answer : api_answer) (now : value) (kick : option string)
    : result dict * policy_state * option (string * string) :=
  match observe st answer now with
  | (Err e, st) => (Err e, st, None)
  | (Ok report, st) =>
      match kick_path st report with
      | None => (Ok report, st, None)
      | Some (source_id, path) =>
          match kick with
          | None => (Ok (<["enforced" := VBool true]> report),
                     PolicyState (last_source_id st) (last_inbound_bytes st) (last_sample_at st) (over_bitrate_samples st)
                       (Some source_id), Some (source_id, path))
          | Some reason => (Ok (<["enforcement_error" := VStr (py_take 160 reason)]> report), st, Some (source_id, path))
          end
      end
  end.

(** ** What is accepted *)

(** One H.264 video of an allowed size and one AAC audio of one or two channels, where
    the media server says so. *)
Definition allowed_format (tracks : list dict) : Prop :=
  exists video audio,
    List.filter (has_codec VIDEO_CODECS) tracks = [video] /\ codec_of video = "H264" /\
    List.filter (has_codec AUDIO_CODECS) tracks = [audio] /\ codec_of audio = "MPEG-4 Audio" /\
    (forall w h, _safe_int (py_get video "width") = Ok (Some w) -> _safe_int (py_get video "height") = Ok (Some h) ->
       (w, h) ∈ ALLOWED_RESOLUTIONS) /\
    (forall c, _safe_int (py_get audio "channelCount") = Ok (Some c) -> c = 1 \/ c = 2).

Lemma judge_video_ok tracks reasons warnings :
  judge_video tracks = Ok (reasons, warnings) ->
  (reasons = [] <-> exists video, List.filter (has_codec VIDEO_CODECS) tracks = [video] /\ codec_of video = "H264" /\
     (forall w h, _safe_int (py_get video "width") = Ok (Some w) -> _safe_int (py_get video "height") = Ok (Some h) ->
        (w, h) ∈ ALLOWED_RESOLUTIONS)).
Proof.
  clear str_of config. unfold judge_video. destruct (List.filter _ tracks) as [|video [|v2 l]].
  - intros [= <- <-]. split; [done|by intros (? & ? & _)].
  - destruct (String.eqb_spec (codec_of video) "H264") as [E|E].
    + intros H. apply result_bind_ok in H as (w & Hw & H). apply result_bind_ok in H as (h & Hh & H).
      destruct w as [w|], h as [h|].
      { case_bool_decide as Hin; injection H as <- <-; (split; [|done || by intros (v & [= <-] & _ & Hv); specialize (Hv w h Hw Hh)]).
        - intros _. exists video. split; [done|]. split; [done|]. intros w' h' Hw' Hh'. congruence.
        - done. }
      all: injection H as <- <-; (split; [|done]); intros _; exists video; (split; [done|]); (split; [done|]); intros; congruence.
    + intros [= <- <-]. split; [done|]. by intros (v & [= <-] & Hv & _).
  - intros [= <- <-]. split; [done|by intros (? & ? & _)].
Qed.

Lemma judge_audio_ok tracks reasons warnings :
  judge_audio tracks = Ok (reasons, warnings) ->
  (reasons = [] <-> exists audio, List.filter (has_codec AUDIO_CODECS) tracks = [audio] /\ codec_of audio = "MPEG-4 Audio" /\
     (forall c, _safe_int (py_get audio "channelCount") = Ok (Some c) -> c = 1 \/ c = 2)).
Proof.
  clear str_of config. unfold judge_audio. destruct (List.filter _ tracks) as [|audio [|v2 l]].
  - intros [= <- <-]. split; [done|by intros (? & ? & _)].
  - destruct (String.eqb_spec (codec_of audio) "MPEG-4 Audio") as [E|E].
    + intros H. apply result_bind_ok in H as (r & _ & H). apply result_bind_ok in H as (c & Hc & H). cbv zeta in H.
      destruct c as [c|].
      { case_bool_decide as Hin; injection H as <- _; split.
        - intros _. exists audio. split; [done|]. split; [done|]. intros c' Hc'. rewrite Hc in Hc'. injection Hc' as <-.
          apply list_elem_of_In in Hin. cbn in Hin. lia.
        - done.
        - done.
        - intros (a & [= <-] & _ & Ha). destruct Hin. specialize (Ha c Hc). apply list_elem_of_In. cbn. lia. }
      injection H as <- _. split; [|done]. intros _. exists audio. split; [done|]. split; [done|]. intros; congruence.
    + intros [= <- <-]. split; [done|]. by intros (a & [= <-] & Ha & _).
  - intros [= <- <-]. split; [done|by intros (? & ? & _)].
Qed.

Lemma format_policy_core tracks reasons warnings :
  evaluate_tracks tracks = Ok (reasons, warnings) -> (reasons = [] <-> allowed_format tracks).
Proof.
  unfold evaluate_tracks. intros H. apply result_bind_ok in H as ([vr vw] & Hv%judge_video_ok & H).
  apply result_bind_ok in H as ([ar aw] & Ha%judge_audio_ok & [= <- <-]). unfold allowed_format.
  split.
  - intros [Ev Ea]%app_eq_nil. apply Hv in Ev as (video & ? & ? & ?). apply Ha in Ea as (audio & ? & ? & ?).
    by exists video, audio.
  - intros (video & audio & ? & ? & ? & ? & ? & ?). rewrite (proj2 Hv), (proj2 Ha); [done|by exists audio|by exists video].
Qed.

(** the format policy. [evaluate_tracks] finds no reason to reject exactly when
    there is one video and it is H.264, there is one audio and it is AAC, and the
    resolution and the number of channels are allowed as far as they are known. *)
Theorem format_policy tracks reasons warnings :
  evaluate_tracks tracks = Ok (reasons, warnings) -> (reasons = [] <-> allowed_format tracks).
Proof. apply format_policy_core. Qed.

(** ** Who is disconnected *)
Lemma judge_bitrate_source st b st' r w :
  judge_bitrate st b = (st', r, w) ->
  last_source_id st' = last_source_id st /\ last_enforced_source_id st' = last_enforced_source_id st /\
  over_bitrate_samples st' =
    match b with
    | Some x => if exceeds x (max_bitrate_bps config) then over_bitrate_samples st + 1 else 0
    | None => over_bitrate_samples st
    end /\
  (r <> [] -> exists x, b = Some x /\ exceeds x (max_bitrate_bps config) = true /\
     bitrate_violation_samples config <= over_bitrate_samples st + 1).
Proof.
  unfold judge_bitrate. destruct b as [x|]; [|by intros [= <- <- <-]].
  destruct (exceeds x _) eqn:E; [|by intros [= <- <- <-]]. cbv zeta. destruct (_ <=? _) eqn:En; intros [= <- <- <-].
  - split; [done|]. split; [done|]. split; [done|]. intros _. exists x. split; [done|]. split; [done|lia].
  - done.
Qed.

(** The rate of the bytes that the media server has counted since the last sample. *)
Definition measured_rate (st : policy_state) (path : dict) (t : float) : option float :=
  match _safe_int (py_get path "inboundBytes"), last_inbound_bytes st, last_sample_at st with
  | Ok (Some bytes), Some last_bytes, Some last_at =>
      if flt last_at t && (last_bytes <=? bytes)
      then Some (fdiv (fmul (of_Z (bytes - last_bytes)) (of_Z 8)) (fsub t last_at)) else None
  | _, _, _ => None
  end.

(** Why the source of a path deserves to be disconnected, in a state: its format is not
    allowed, and this is not a first, partial description of it; or it is measured
    above the limit, after [n] samples of it in a row that were. *)
Definition deserved (st : policy_state) (n : Z) (path source : dict) (t : float) : Prop :=
  let tracks := _normalise_tracks (match py_get_or path "tracks2" (VList []) with VList l => l | _ => [] end) in
  (~ allowed_format tracks /\
   (source_text source "id" = last_source_id st \/ _track_metadata_may_be_incomplete tracks = false)) \/
  (source_text source "id" = last_source_id st /\ bitrate_violation_samples config <= n + 1 /\
   exists rate, measured_rate st path t = Some rate /\ exceeds rate (max_bitrate_bps config) = true).

(** The path and the source that an answer shows on line, and the time. *)
Definition online_poll (answer : api_answer) (now : value) : option (dict * dict * float) :=
  match _validated_observed_time now, answer with
  | Ok t, ApiJson v => (fun p => (p.1, p.2, t)) <$> online_source (snapshot_of (policy_path config) (api_object v))
  | _, _ => None
  end.

(** The samples above the limit in a row, after a poll that gave [r]. *)
Definition counted (st : policy_state) (n : Z) (answer : api_answer) (now : value) (r : result dict) : Z :=
  match r, online_poll answer now with
  | Err _, _ => n
  | Ok _, None => 0
  | Ok _, Some (path, source, t) =>
      if bool_decide (source_text source "id" = last_source_id st) then
        match measured_rate st path t with
        | Some rate => if exceeds rate (max_bitrate_bps config) then n + 1 else 0
        | None => n
        end
      else 0
  end.

(** The states of the policy after any polls, with that number. *)
Inductive sampled : policy_state -> Z -> Prop :=
| sampled_start : sampled policy_start 0
| sampled_poll st n answer now kick r st' request :
    sampled st n -> observe_and_enforce st answer now kick = (r, st', request) ->
    sampled st' (counted st n answer now r).

Lemma sampled_measured st path bytes t b :
  _safe_int (py_get path "inboundBytes") = Ok bytes -> sampled_bitrate st bytes t = Ok b ->
  measured_rate st path t = b.
Proof.
  clear str_of config. unfold measured_rate, sampled_bitrate. intros ->.
  destruct bytes as [bytes|], (last_inbound_bytes st), (last_sample_at st); try (by intros [= <-]).
  destruct (_ && _); [|by intros [= <-]]. cbv zeta. destruct (is_finite _); [|done]. by intros [= <-].
Qed.

Lemma report_fields id kind tracks reasons warnings b t :
  let r := online_report id kind tracks reasons warnings b t in
  py_get r "source_id" = opt_str id /\ py_get r "status" = VStr (ingest_status reasons warnings b).
Proof. cbv zeta. unfold online_report. rewrite ?list_to_map_cons. cbn [fst snd]. by record_fields. Qed.

Lemma rejected_for reasons warnings b : ingest_status reasons warnings b = "REJECTED" -> reasons <> [].
Proof. intros H ->. revert H. unfold ingest_status. cbn [bool_decide negb]. by repeat case_match. Qed.

Lemma observe_online_spec st path source t r st' :
  observe_online st path source t = (Ok r, st') ->
  let id := source_text source "id" in
  py_get r "source_id" = opt_str id /\ last_source_id st' = id /\
  last_enforced_source_id st' = (if bool_decide (id = last_source_id st) then last_enforced_source_id st else None) /\
  over_bitrate_samples st' =
    (if bool_decide (id = last_source_id st) then
       match measured_rate st path t with
       | Some rate => if exceeds rate (max_bitrate_bps config) then over_bitrate_samples st + 1 else 0
       | None => over_bitrate_samples st
       end
     else 0) /\
  (py_get r "status" = VStr "REJECTED" -> deserved st (over_bitrate_samples st) path source t).
Proof.
  unfold observe_online, deserved. cbv zeta. set (id := source_text source "id"). set (tracks := _normalise_tracks _).
  destruct (_safe_int (py_get path "inboundBytes")) as [bytes|] eqn:Ebytes; [|done].
  destruct (bool_decide (id = last_source_id st)) eqn:Eid; cbn [negb andb].
  - apply bool_decide_eq_true in Eid. destruct (sampled_bitrate st bytes t) as [b|] eqn:Eb; [|done].
    rewrite (sampled_measured _ _ _ _ _ Ebytes Eb).
    set (st1 := match b with Some _ => _ | None => st end).
    assert (Hst1 : last_source_id st1 = last_source_id st /\ last_enforced_source_id st1 = last_enforced_source_id st /\
      over_bitrate_samples st1 = over_bitrate_samples st) by (unfold st1; by destruct b).
    destruct (evaluate_tracks tracks) as [[reasons warnings]|] eqn:Et; [|done].
    destruct (judge_bitrate st1 b) as [[st2 br] bw] eqn:Ej. intros [= <- <-].
    apply judge_bitrate_source in Ej as (S2 & E2 & O2 & Hbr). destruct Hst1 as (S1 & E1 & O1). rewrite O1 in Hbr, O2.
    destruct (report_fields id (source_text source "type") tracks (reasons ++ br) (warnings ++ bw) b t) as [-> ->].
    split; [done|]. split; [congruence|]. split; [congruence|]. split; [exact O2|].
    intros [= En%rejected_for]. destruct reasons as [|x reasons].
    + right. split; [done|]. destruct (Hbr En) as (x & -> & Hx & Hn). split; [done|]. by exists x.
    + left. split; [|by left]. rewrite <- (format_policy_core tracks _ _ Et). done.
  - apply bool_decide_eq_false in Eid. destruct (evaluate_tracks tracks) as [[reasons warnings]|] eqn:Et; [|done].
    set (pending := _track_metadata_may_be_incomplete tracks). set (rs := if pending then [] else reasons).
    cbn [judge_bitrate]. intros [= <- <-].
    destruct (report_fields id (source_text source "type") tracks (rs ++ []) ((if pending then warnings ++ ["TRACK_METADATA_PENDING"] else warnings) ++ []) None t)
      as [-> ->].
    split; [done|]. split; [done|]. split; [done|]. split; [done|]. intros [= En%rejected_for]. rewrite app_nil_r in En. left. unfold rs in En. destruct pending eqn:Ep; [done|]. split; [|by right].
    rewrite <- (format_policy_core tracks _ _ Et). done.
Qed.

Lemma kick_path_ok st report id p :
  kick_path st report = Some (id, p) ->
  py_get report "status" = VStr "REJECTED" /\ py_get report "source_id" = VStr id /\ id <> EmptyString /\
  last_enforced_source_id st <> Some id.
Proof.
  unfold kick_path. destruct (py_get report "status") as [| | | |status| |]; try done.
  destruct (py_get report "source_id") as [| | | |source_id| |]; try done.
  destruct (py_get report "source_type") as [| | | |kind| |]; try done. destruct (_ || _ || _) eqn:E; [done|].
  apply orb_false_iff in E as [[E1 E2]%orb_false_iff E3%bool_decide_eq_false].
  apply negb_false_iff, String.eqb_eq in E1. apply str_empty_false in E2.
  destruct (endpoint_prefix kind); [|done]. intros [= -> _]. by subst status.
Qed.

(** One poll: what it left and the request it made. *)
Definition poll : Type := api_answer * value * option string.
Definition poll_once (st : policy_state) (x : poll) : policy_state * option (string * string) :=
  let '(answer, now, kick) := x in
  let '(_, st, request) := observe_and_enforce st answer now kick in (st, request).

(** The states after each poll, and the requests. *)
Fixpoint run_polls (st : policy_state) (polls : list poll) : list (policy_state * option (string * string)) :=
  match polls with
  | [] => []
  | x :: rest => let '(st, request) := poll_once st x in (st, request) :: run_polls st rest
  end.

Lemma poll_keeps st x st' request id :
  poll_once st x = (st', request) -> last_source_id st = Some id -> last_enforced_source_id st = Some id ->
  last_source_id st' = Some id -> request = None /\ last_enforced_source_id st' = Some id.
Proof.
  destruct x as [[answer now] kick]. unfold poll_once, observe_and_enforce. intros H Hs He Hs'.
  destruct (observe st answer now) as [[report|e] st1] eqn:Ho.
  2: { injection H as <- <-. split; [done|]. unfold observe in Ho.
       destruct (_validated_observed_time now) as [t|]; [|by injection Ho as _ <-].
       destruct answer as [|v]; [by injection Ho as _ <-|]. destruct (online_source _) as [[path source]|]; [|done].
       revert Ho Hs'. unfold observe_online. cbv zeta. set (sid := source_text source "id").
       destruct (_safe_int _) as [bytes|]; [|by intros [= _ <-]].
       destruct (bool_decide (sid = last_source_id st)) eqn:Eid; cbn [negb].
       - destruct (sampled_bitrate st bytes t) as [b|]; [|by intros [= _ <-]].
         destruct (evaluate_tracks _) as [[]|]; [by destruct (judge_bitrate _ _) as [[]]|]. intros [= _ <-]. by destruct b.
       - destruct (evaluate_tracks _) as [[]|]; [by destruct (judge_bitrate _ _) as [[]]|]. intros [= _ <-]. cbn. intros ->.
         apply bool_decide_eq_false in Eid. congruence. }
  unfold observe in Ho. destruct (_validated_observed_time now) as [t|]; [|done]. destruct answer as [|v]; [done|].
  assert (Hk : last_source_id st1 = Some id).
  { destruct (kick_path st1 report) as [[id1 p1]|]; [destruct kick|]; injection H as <- _; exact Hs'. }
  destruct (online_source _) as [[path source]|]; [|injection Ho as <- <-; done].
  destruct (observe_online_spec _ _ _ _ _ _ Ho) as (Hid & Hls & Hen & _ & _).
  rewrite Hk in Hls. rewrite <- Hls, Hs, bool_decide_eq_true_2, He in Hen by done.
  destruct (kick_path st1 report) as [[id1 p1]|] eqn:Ek.
  - apply kick_path_ok in Ek as (_ & E1 & _ & Hne). rewrite Hid, <- Hls in E1. injection E1 as <-. by destruct Hne.
  - injection H as <- <-. done.
Qed.

(** The counter of the policy is that number, or lower. *)
Lemma observe_counts st answer now r st1 :
  observe st answer now = (r, st1) ->
  over_bitrate_samples st1 = 0 \/ over_bitrate_samples st1 = counted st (over_bitrate_samples st) answer now r.
Proof.
  unfold observe, counted, online_poll. destruct (_validated_observed_time now) as [t|]; [|intros [= <- <-]; by right].
  destruct answer as [reason|v]; [intros [= <- <-]; by right|].
  destruct (online_source _) as [[path source]|]; [|intros [= <- <-]; by left]. cbn [fmap option_fmap option_map fst snd].
  destruct r as [r|e]; [intros (_ & _ & _ & Ho & _)%observe_online_spec; by right|].
  unfold observe_online. cbv zeta. destruct (_safe_int _) as [bytes|]; [|intros [= _ <-]; by right].
  destruct (bool_decide _); cbn [negb].
  - destruct (sampled_bitrate st bytes t) as [b|]; [|intros [= _ <-]; by right].
    destruct (evaluate_tracks _) as [[]|]; [by destruct (judge_bitrate _ _) as [[]]|].
    intros [= _ <-]. right. by destruct b.
  - destruct (evaluate_tracks _) as [[]|]; [by destruct (judge_bitrate _ _) as [[]]|]. intros [= _ <-]. by left.
Qed.

Lemma counted_mono st n m answer now r : n <= m -> counted st n answer now r <= counted st m answer now r.
Proof. intros H. unfold counted. repeat case_match; lia. Qed.

Lemma counted_nonneg st n answer now r : 0 <= n -> 0 <= counted st n answer now r.
Proof. intros H. unfold counted. repeat case_match; lia. Qed.

Lemma sampled_bound st n : sampled st n -> over_bitrate_samples st <= n /\ 0 <= n.
Proof.
  induction 1 as [|st n answer now kick r st' request _ [IH Hn] H]; [done|].
  split; [|by apply counted_nonneg]. unfold observe_and_enforce in H.
  destruct (observe st answer now) as [r1 st1] eqn:Ho.
  assert (E : over_bitrate_samples st' = over_bitrate_samples st1 /\ is_ok r = is_ok r1).
  { destruct r1 as [report|e]; [|by injection H as <- <- _].
    destruct (kick_path st1 report) as [[id p]|]; [destruct kick|]; injection H as <- <- _; done. }
  destruct E as [-> Eok].
  assert (Er : counted st n answer now r = counted st n answer now r1) by (destruct r, r1; done).
  rewrite Er. destruct (observe_counts _ _ _ _ _ Ho) as [->| ->]; [by apply counted_nonneg|by apply counted_mono].
Qed.

Lemma deserved_mono st n m path source t : n <= m -> deserved st n path source t -> deserved st m path source t.
Proof. intros Hn [H|(Hs & H & Hr)]; [by left|right]. split; [done|]. split; [lia|done]. Qed.

Lemma sampled_next st n answer now kick :
  sampled st n ->
  sampled (observe_and_enforce st answer now kick).1.2
    (counted st n answer now (observe_and_enforce st answer now kick).1.1).
Proof.
  intros H. destruct (observe_and_enforce st answer now kick) as [[r st'] request] eqn:E. by eapply sampled_poll.
Qed.

End policy.

(** ** A run *)
Definition demo_policy : IngestPolicyConfig := policy_config_from_env (fun _ => None).
Definition demo_track (codec : string) (props : list (string * value)) : value :=
  VDict (list_to_map [("codec", VStr codec); ("codecProps", VDict (list_to_map props))]).
Definition demo_answer_of (tracks : list value) (bytes : Z) : api_answer :=
  ApiJson (VDict {[ "items" := VList [VDict (list_to_map
    [("name", VStr "live/input"); ("online", VBool true); ("inboundBytes", VInt bytes); ("tracks2", VList tracks);
     ("source", VDict (list_to_map [("id", VStr "pub 1"); ("type", VStr "srtConn")]))])] ]}).
Definition demo_aac : value := demo_track "MPEG-4 Audio" [("sampleRate", VInt 48000); ("channelCount", VInt 2)].
Definition demo_good : list value := [demo_track "H264" [("width", VInt 1280); ("height", VInt 720)]; demo_aac].
Definition demo_bad : list value := [demo_track "VP9" []; demo_aac].

Example demo_polls :
  let polls := [(demo_answer_of [demo_aac] 0, VInt 10, None); (demo_answer_of demo_good 1000000, VInt 12, None);
                (demo_answer_of demo_good 3000000, VInt 14, None); (demo_answer_of demo_good 5000000, VInt 16, None);
                (demo_answer_of demo_bad 5000000, VInt 18, None)] in
  (fun x => (over_bitrate_samples x.1, x.2)) <$> run_polls name_text demo_policy policy_start polls =
  [(0, None); (0, None); (1, None); (2, Some ("pub 1"%string, "/v3/srtconns/kick/pub%201"%string)); (0, None)].
Proof. vm_compute. reflexivity. Qed.

Lemma format_policy_witness :
  exists warnings, evaluate_tracks (_normalise_tracks name_text demo_good) = Ok ([], warnings) /\
    allowed_format (_normalise_tracks name_text demo_good).
Proof.
  exists []. assert (E : evaluate_tracks (_normalise_tracks name_text demo_good) = Ok ([], [])) by (vm_compute; reflexivity).
  split; [exact E|]. apply (format_policy (_normalise_tracks name_text demo_good) [] [] E). reflexivity.
Defined.

(** The publisher connects, describes itself, and sends a sample above the limit. *)
Definition demo_over : policy_state := PolicyState (Some "pub 1") (Some 3000000) (Some (of_Z 14)) 1 None.

Lemma demo_sampled : sampled name_text demo_policy demo_over 1.
Proof.
  pose proof (sampled_next name_text demo_policy _ _ (demo_answer_of demo_good 3000000) (VInt 14) None
    (sampled_next name_text demo_policy _ _ (demo_answer_of demo_good 1000000) (VInt 12) None
      (sampled_next name_text demo_policy _ _ (demo_answer_of [demo_aac] 0) (VInt 10) None
        (sampled_start name_text demo_policy)))) as H.
  match type of H with sampled _ _ ?st ?n =>
    assert (Es : st = demo_over) by (vm_compute; reflexivity); assert (En : n = 1) by (vm_compute; reflexivity) end.
  rewrite Es, En in H. exact H.
Qed.

Local Abbreviation demo_kick := (observe_and_enforce name_text demo_policy demo_over (demo_answer_of demo_good 5000000) (VInt 16) None).

