(* ===== verification/IngestQuality.v ===== *)
(** * The quality of an input

    [apps/node-agent/ingest_quality.py]: samples of the frames of the input, taken by
    [ffprobe] for each track, are classified, and the result is merged into the report
    of IngestPolicy.v. What [ffprobe] did, the time that passed, the reading of the file
    with the URL and the parsing of a text as JSON are arguments. *)

From S2P Require Import Prelude PyFloat Sha256 PyValue Json Effects Authority PyText TextFacts JsonText Uuid IpAddress Url EgressDestination StateFile NodeAuthority AttemptSupervisor EgressStatus IngestPolicy.

(** ** Numbers *)

(** [float(v)], with [None] for a [TypeError] or [ValueError]; the [OverflowError] of an
    integer that is too large is not caught. *)
Definition _safe_float (v : value) : result (option float) :=
  match v with
  | VBool b => Ok (Some (if b then fone else fzero))
  | VInt z => let f := of_Z z in if is_finite f then Ok (Some f) else Err OverflowError
  | VFloat f => Ok (Some f)
  | VStr s => Ok (float_of_text s)
  | VNull | VList _ | VDict _ => Ok None
  end.

(** [f < z], compared exactly *)
Definition below (f : float) (z : Z) : bool :=
  match f with
  | S754_finite s m e =>
      let m := if s then Z.neg m else Z.pos m in
      if 0 <=? e then m * 2 ^ e <? z else m <? z * 2 ^ (- e)
  | S754_infinity s => s
  | S754_zero _ => 0 <? z
  | S754_nan => false
  end.

(** [max], [min] and [sorted] of numbers. ([ffprobe] writes no NaN; a list with one may
    be sorted in another order by Python.) *)
Definition py_max (x : float) (l : list float) : float := fold_left (fun m y => if flt m y then y else m) l x.
Definition py_min (x : float) (l : list float) : float := fold_left (fun m y => if flt y m then y else m) l x.

Fixpoint insert_sorted (x : float) (l : list float) : list float :=
  match l with
  | [] => [x]
  | y :: l' => if flt x y then x :: l else y :: insert_sorted x l'
  end.
Definition sorted_floats (l : list float) : list float := fold_left (fun acc x => insert_sorted x acc) l [].

(** [list(dict.fromkeys(values))] *)
Definition _dedupe (l : list string) : list string :=
  fold_left (fun acc x => if bool_decide (x ∈ acc) then acc else acc ++ [x]) l [].

(** ** Configuration *)
Record IngestQualityConfig : Type := QualityConfig {
  input_url : string;
  input_url_file : option string;
  sample_seconds : float;
  min_video_fps : float;
  preferred_min_fps : float;
  preferred_max_fps : float;
  max_video_fps : float;
  max_gop_seconds : float;
  min_progress_ratio : float;
  min_bitrate_bps : Z;
  low_bitrate_samples : Z
}.

Definition quality_env_float (env : environ) (name : string) (dflt minimum : float) : float :=
  match getenv_float env name dflt with Some f => fmax minimum f | None => dflt end.
Definition quality_env_int (env : environ) (name : string) (dflt minimum : Z) : Z :=
  match getenv_int env name dflt with Some n => Z.max minimum n | None => dflt end.

Definition quality_config_from_env (env : environ) : IngestQualityConfig :=
  let preferred_min := quality_env_float env "NODE_INGEST_PREFERRED_MIN_FPS" (of_Z 24) fone in
  let preferred_max := quality_env_float env "NODE_INGEST_PREFERRED_MAX_FPS" (of_Z 35) preferred_min in
  let file := py_strip (default EmptyString (env "NODE_INGEST_SAMPLE_URL_FILE")) in
  {| input_url := default "rtsp://mediamtx:8554/live/input" (env "NODE_INGEST_SAMPLE_URL");
     input_url_file := if str_empty file then None else Some file;
     sample_seconds := fmin (quality_env_float env "NODE_INGEST_SAMPLE_SECONDS" (of_Z 4) fone) (of_Z 10);
     min_video_fps := quality_env_float env "NODE_INGEST_MIN_FPS" (of_Z 20) fone;
     preferred_min_fps := preferred_min;
     preferred_max_fps := preferred_max;
     max_video_fps := quality_env_float env "NODE_INGEST_MAX_FPS" (of_Z 40) preferred_max;
     max_gop_seconds := quality_env_float env "NODE_INGEST_MAX_GOP_SECONDS" (of_Z 4) (fratio 1 2);
     min_progress_ratio := fmin (quality_env_float env "NODE_INGEST_MIN_PROGRESS_RATIO" (fratio 6 10) (fratio 1 10)) fone;
     min_bitrate_bps := quality_env_int env "NODE_INGEST_MIN_BITRATE_BPS" 500000 0;
     low_bitrate_samples := quality_env_int env "NODE_INGEST_LOW_BITRATE_SAMPLES" 2 1 |}.

(** ** Frames *)

(** The length of the line boundary at the head of a text, of [str.splitlines]. *)
Definition break_len (s : string) : nat :=
  match s with
  | EmptyString => O
  | String c s1 =>
      let n := byte_code c in
      let next := match s1 with String d _ => byte_code d | EmptyString => 0 end in
      let third := match s1 with String _ (String e _) => byte_code e | _ => 0 end in
      if n =? 13 then (if next =? 10 then 2%nat else 1%nat)
      else if (10 <=? n) && (n <=? 12) || (28 <=? n) && (n <=? 30) then 1%nat
      else if (n =? 194) && (next =? 133) then 2%nat
      else if (n =? 226) && (next =? 128) && ((third =? 168) || (third =? 169)) then 3%nat
      else O
  end.

(** The lines, with an empty one at the end when the text ends in a boundary. *)
Fixpoint lines_from (skip : nat) (s : string) : list string :=
  match s with
  | EmptyString => [EmptyString]
  | String c s' =>
      match skip with
      | S k => lines_from k s'
      | O => match break_len s with
             | S k => EmptyString :: lines_from k s'
             | O => match lines_from 0 s' with l :: ls => String c l :: ls | [] => [String c EmptyString] end
             end
      end
  end.

Definition frame_of_line (line : string) : dict :=
  fold_left (fun frame part =>
    match partition "="%char part with
    | (key, Some v) => if str_empty key then frame else <[key := VStr v]> frame
    | _ => frame
    end) (split_on "|" line) ∅.

Definition media_types : list string := ["video"; "audio"].

Definition frames_of_lines (output : string) : list value :=
  VDict <$> List.filter (fun frame => text_in (py_get frame "media_type") media_types)
    (frame_of_line <$> List.filter (fun line => negb (str_empty line)) (py_strip <$> lines_from 0 output)).

Definition no_frames : dict := {[ "frames" := VList [] ]}.
Definition invalid_frames : dict := {[ "frames" := VList []; "invalid" := VBool true ]}.

Section sampler.
Context (json_text : string -> option raw) (config : IngestQualityConfig).

Definition _parse_frame_output (output : string) : result dict :=
  match py_strip output with
  | EmptyString => Ok no_frames
  | String c _ as text =>
      if Ascii.eqb c "{" then
        match json_text text with
        | None => Ok invalid_frames
        | Some r => v ← json_loads r; Ok (match v with VDict d => d | _ => invalid_frames end)
        end
      else Ok {[ "frames" := VList (frames_of_lines output) ]}
  end.

Definition is_media (media_type : string) (frame : dict) : bool :=
  match py_get frame "media_type" with VStr s => String.eqb s media_type | _ => false end.

Definition _frames_for_media_type (payload : dict) (media_type : string) : list dict :=
  match py_get_or payload "frames" (VList []) with
  | VList l => List.filter (is_media media_type) (omap as_dict l)
  | _ => []
  end.

Definition _frame_timestamp (frame : dict) : result (option float) :=
  a ← _safe_float (py_get frame "best_effort_timestamp_time");
  match a with Some t => Ok (Some t) | None => _safe_float (py_get frame "pkt_dts_time") end.

Definition _span (values : list float) : option float :=
  match values with [] => None | x :: l => Some (fsub (py_max x l) (py_min x l)) end.

Definition _is_effective_timeout (span sample_elapsed_seconds : option float) : bool :=
  match span, sample_elapsed_seconds with
  | Some span, Some elapsed =>
      if flt elapsed (fmul (sample_seconds config) (fratio 90 100)) then false
      else let required_progress := fmul (sample_seconds config) (min_progress_ratio config) in
           flt span (fmin (fratio 1 4) (fmul required_progress (fratio 1 4)))
  | _, _ => false
  end.

Fixpoint gaps (l : list float) : list float :=
  match l with
  | x :: ((y :: _) as rest) => fmax fzero (fsub y x) :: gaps rest
  | _ => []
  end.

Definition _max_keyframe_gap (video_times keyframe_times : list float) : option float :=
  match video_times with
  | [] => None
  | x :: l =>
      match gaps (py_min x l :: sorted_floats keyframe_times ++ [py_max x l]) with
      | g :: gs => Some (py_max g gs)
      | [] => None
      end
  end.

(** What the frames of a sample say, one after the other. *)
Record track_times : Type := TrackTimes {
  times : list float;                      (* latest first *)
  regressions : Z;
  previous : option float
}.
Definition no_times : track_times := TrackTimes [] 0 None.

Definition add_time (t : float) (x : track_times) : track_times :=
  TrackTimes (t :: times x)
    (match previous x with
     | Some p => if flt (fadd t (fratio 1 1000)) p then regressions x + 1 else regressions x
     | None => regressions x end) (Some t).

Record sample_times : Type := SampleTimes { video : track_times; audio : track_times; keyframe_times : list float }.

Definition add_frame (acc : sample_times) (frame : dict) : result sample_times :=
  let media_type := name_text (py_get_or frame "media_type" (VStr EmptyString)) in
  timestamp ← _frame_timestamp frame;
  match timestamp with
  | Some t =>
      if String.eqb media_type "video" then
        key_frame ← _safe_int (py_get frame "key_frame");
        Ok (SampleTimes (add_time t (video acc)) (audio acc)
              (if bool_decide (key_frame = Some 1) then t :: keyframe_times acc else keyframe_times acc))
      else if String.eqb media_type "audio" then Ok (SampleTimes (video acc) (add_time t (audio acc)) (keyframe_times acc))
      else Ok acc
  | None => Ok acc
  end.

Fixpoint add_frames (acc : sample_times) (frames : list dict) : result sample_times :=
  match frames with
  | [] => Ok acc
  | frame :: rest => acc ← add_frame acc frame; add_frames acc rest
  end.

Definition when (b : bool) (reason : string) : list string := if b then [reason] else [].
Definition is_none {A} (x : option A) : bool := match x with None => true | Some _ => false end.
Definition stalled (span : option float) (timeout : bool) : bool :=
  match span with
  | Some s => flt s (fmul (sample_seconds config) (min_progress_ratio config)) && negb timeout
  | None => false
  end.

Definition judge_fps (video_fps : option float) (no_video : bool) : list string * list string :=
  match video_fps with
  | None => ([], when (negb no_video) "FPS_UNKNOWN")
  | Some fps =>
      if flt fps (min_video_fps config) || flt (max_video_fps config) fps then (["FPS_OUT_OF_RANGE"], [])
      else ([], when (negb (fle (preferred_min_fps config) fps && fle fps (preferred_max_fps config))) "FPS_NON_PREFERRED")
  end.

Definition judge_gop (video_span : option float) (max_gop : option float) (keyframes : list float) : list string * list string :=
  match video_span with
  | None => ([], [])
  | Some span =>
      if match max_gop with Some g => flt (max_gop_seconds config) g | None => false end then (["GOP_TOO_LONG"], [])
      else match keyframes with
           | [] => if fle (max_gop_seconds config) span then (["KEYFRAME_TIMEOUT"], []) else ([], ["GOP_UNOBSERVED"])
           | [_] => ([], when (flt span (max_gop_seconds config)) "GOP_UNOBSERVED")
           | _ => ([], [])
           end
  end.

Definition opt_round (digits : Z) (f : option float) : value := match f with Some f => VFloat (py_round digits f) | None => VNull end.

Record quality : Type := Quality { measures : dict; quality_reasons : list string; quality_warnings : list string }.

Definition judge_sample (s : sample_times) (sample_elapsed_seconds : option float) : quality :=
  let video_times := reverse (times (video s)) in
  let audio_times := reverse (times (audio s)) in
  let keyframes := reverse (keyframe_times s) in
  let video_span := _span video_times in
  let audio_span := _span audio_times in
  let no_video := bool_decide (video_times = []) in
  let no_audio := bool_decide (audio_times = []) in
  let video_fps := span ← video_span;
    if flt fzero span && Nat.leb 2 (length video_times) then Some (fdiv (of_Z (Z.of_nat (length video_times) - 1)) span) else None in
  let max_gop := _max_keyframe_gap video_times keyframes in
  let video_timeout := negb no_video && _is_effective_timeout video_span sample_elapsed_seconds in
  let audio_timeout := negb no_audio && _is_effective_timeout audio_span sample_elapsed_seconds in
  let '(fps_reasons, fps_warnings) := judge_fps video_fps no_video in
  let '(gop_reasons, gop_warnings) := judge_gop video_span max_gop keyframes in
  Quality (list_to_map
    [("sample_elapsed_seconds", VFloat (py_round 3 (default (sample_seconds config) sample_elapsed_seconds)));
     ("video_frames", VInt (Z.of_nat (length video_times))); ("audio_frames", VInt (Z.of_nat (length audio_times)));
     ("video_fps", opt_round 2 video_fps); ("video_timestamp_span_seconds", opt_round 3 video_span);
     ("audio_timestamp_span_seconds", opt_round 3 audio_span); ("video_timestamp_regressions", VInt (regressions (video s)));
     ("audio_timestamp_regressions", VInt (regressions (audio s))); ("keyframes", VInt (Z.of_nat (length keyframes)));
     ("max_gop_seconds", opt_round 3 max_gop)])
    (_dedupe (when (no_video || video_timeout) "VIDEO_TIMEOUT" ++ when (no_audio || audio_timeout) "AUDIO_TIMEOUT" ++
       when (0 <? regressions (video s)) "VIDEO_TIMESTAMP_REGRESSION" ++
       when (0 <? regressions (audio s)) "AUDIO_TIMESTAMP_REGRESSION" ++
       when (stalled video_span video_timeout) "VIDEO_TIMESTAMP_STALLED" ++
       when (stalled audio_span audio_timeout) "AUDIO_TIMESTAMP_STALLED" ++ fps_reasons ++ gop_reasons))
    (_dedupe (fps_warnings ++ gop_warnings)).

Definition evaluate_frame_sample (payload : dict) (sample_elapsed_seconds : option float) : result quality :=
  let frames := match py_get_or payload "frames" (VList []) with VList l => omap as_dict l | _ => [] end in
  s ← add_frames (SampleTimes no_times no_times []) frames; Ok (judge_sample s sample_elapsed_seconds).

(** ** Samples *)
Inductive probe_run : Type :=
| ProbeTimedOut (stdout : string)
| ProbeCompleted (returncode : Z) (stdout stderr : string)
| ProbeRaised (e : exn).

Record track_sample : Type := TrackSample { frames : list dict; timed_out : bool; failure : option string }.

Definition quote_char : string := String (Ascii.ascii_of_nat 39) EmptyString.
Definition backslash : string := String (Ascii.ascii_of_nat 92) EmptyString.
Definition line_feed : string := String (Ascii.ascii_of_nat 10) EmptyString.
Definition line_char (c : Ascii.ascii) : bool := (byte_code c =? 10) || (byte_code c =? 13).

(** The text that [ffprobe] reads; it quotes the URL. *)
Definition _ffconcat_input (url media_type : string) : result string :=
  raise_if (str_empty url || negb (all_chars (fun c => negb (line_char c)) url)) RuntimeError ;;
  let escaped := py_replace quote_char (String.append backslash quote_char) (py_replace backslash (String.append backslash backslash) url) in
  Ok (String.concat "" ["ffconcat version 1.0"; line_feed; "file "; quote_char; escaped; quote_char; line_feed;
                        "option rtsp_transport tcp"; line_feed; "option allowed_media_types "; media_type; line_feed]).

Definition probe_error (stderr input_url : string) : string :=
  let detail := py_replace input_url "<redacted-input>" (if str_empty stderr then "ffprobe failed" else stderr) in
  py_take 160 (py_replace line_feed " " (py_strip detail)).

Definition _sample_track (run : string -> string -> probe_run) (media_type input_url : string) : result track_sample :=
  input ← _ffconcat_input input_url media_type;
  match run media_type input with
  | ProbeRaised e => Err e
  | ProbeTimedOut stdout =>
      payload ← _parse_frame_output stdout;
      Ok (TrackSample (_frames_for_media_type payload media_type) true None)
  | ProbeCompleted returncode stdout stderr =>
      payload ← _parse_frame_output stdout;
      let frames := _frames_for_media_type payload media_type in
      if negb (returncode =? 0) then Ok (TrackSample frames false (Some (probe_error stderr input_url)))
      else if truthy (py_get payload "invalid") then Ok (TrackSample [] false (Some "ffprobe returned invalid frame data"))
      else Ok (TrackSample frames false None)
  end.

(** [secret] is what [read_runtime_secret] answers, [None] for its error. *)
Definition _input_url (secret : option string) : result string :=
  match input_url_file config with
  | None => Ok (input_url config)
  | Some _ =>
      match secret with
      | None => Err RuntimeError
      | Some text => let value := py_strip text in if str_empty value then Err RuntimeError else Ok value
      end
  end.

Definition _input_url_error (secret : option string) : string :=
  match secret with None => "ingest sample URL secret is unavailable" | Some _ => "ingest sample URL secret is empty" end.

(** The measures of a sample that failed. *)
Definition no_measures (elapsed : float) (video_frames audio_frames : nat) : list (string * value) :=
  [("sample_elapsed_seconds", VFloat (py_round 3 elapsed)); ("video_frames", VInt (Z.of_nat video_frames));
   ("audio_frames", VInt (Z.of_nat audio_frames)); ("video_fps", VNull); ("video_timestamp_span_seconds", VNull);
   ("audio_timestamp_span_seconds", VNull); ("keyframes", VInt 0); ("max_gop_seconds", VNull)].

Definition failed_sample (elapsed : float) (video_frames audio_frames : nat) (error : string) : quality :=
  Quality (list_to_map (no_measures elapsed video_frames audio_frames ++ [("error", VStr error)])) ["MEDIA_SAMPLE_FAILED"] [].
Definition timed_out_sample (elapsed : float) : quality :=
  Quality (list_to_map (no_measures elapsed 0 0)) ["MEDIA_SAMPLE_TIMEOUT"] [].

(** [elapsed] is the time between the two readings of the monotonic clock. *)
Definition sample (secret : option string) (run : string -> string -> probe_run) (elapsed : float) : result quality :=
  match _input_url secret with
  | Err _ => Ok (failed_sample elapsed 0 0 (_input_url_error secret))
  | Ok url =>
      v ← _sample_track run "video" url;
      a ← _sample_track run "audio" url;
      let all := frames v ++ frames a in
      match omap failure [v; a] with
      | (_ :: _) as failures =>
          Ok (failed_sample elapsed (length (List.filter (is_media "video") all)) (length (List.filter (is_media "audio") all))
                (py_take 160 (join_with "; " (List.filter (fun e => negb (str_empty e)) failures))))
      | [] =>
          if bool_decide (all = []) && timed_out v && timed_out a then Ok (timed_out_sample elapsed)
          else evaluate_frame_sample {[ "frames" := VList (VDict <$> all) ]} (Some elapsed)
      end
  end.

(** ** The report *)
Record sampler_state : Type := SamplerState { sampler_source_id : option string; low_samples : Z }.
Definition sampler_start : sampler_state := SamplerState None 0.

Definition _reset_source (source_id : option string) (st : sampler_state) : sampler_state :=
  if bool_decide (source_id = sampler_source_id st) then st else SamplerState source_id 0.

(** The reasons and warnings of a report are texts. *)
Definition report_texts (v : value) : list string := match v with VList l => omap as_str l | _ => [] end.

Definition not_sampled (report : dict) : bool :=
  negb (truthy (py_get report "online")) || text_in (py_get report "status") ["OFFLINE"; "UNKNOWN"; "REJECTED"].

(** The reasons and warnings for a low bitrate, and the count of such samples. *)
Definition judge_low_bitrate (bitrate : option float) (n : Z) : Z * list string * list string :=
  match bitrate with
  | Some b =>
      if 0 <? min_bitrate_bps config then
        if below b (min_bitrate_bps config) then
          if low_bitrate_samples config <=? n + 1 then (n + 1, ["BITRATE_TOO_LOW"], [])
          else (n + 1, [], ["BITRATE_BELOW_MIN_PENDING"])
        else (0, [], [])
      else (n, [], [])
  | None => (n, [], [])
  end.

Definition merged_status (reasons warnings : list string) (status : value) : value :=
  if negb (bool_decide (reasons = [])) then VStr "DEGRADED"
  else if negb (bool_decide (warnings = [])) && text_in status ["ACCEPTED"] then VStr "WARNING" else status.

Definition augment (st : sampler_state) (report : dict) (sampled : result quality) : result dict * sampler_state :=
  let st := _reset_source (as_str (py_get report "source_id")) st in
  if not_sampled report then
    (Ok report, if truthy (py_get report "online") then st else SamplerState (sampler_source_id st) 0)
  else
    match sampled with
    | Err e => (Err e, st)
    | Ok q =>
        match _safe_float (py_get report "bitrate_bps") with
        | Err e => (Err e, st)
        | Ok bitrate =>
            let '(n, low_reasons, low_warnings) := judge_low_bitrate bitrate (low_samples st) in
            let reasons := _dedupe (report_texts (py_get_or report "reasons" (VList [])) ++ quality_reasons q ++ low_reasons) in
            let warnings := _dedupe (report_texts (py_get_or report "warnings" (VList [])) ++ quality_warnings q ++ low_warnings) in
            (Ok (<["status" := merged_status reasons warnings (py_get report "status")]>
                 (<["warnings" := texts warnings]> (<["reasons" := texts reasons]>
                 (<["quality" := VDict (measures q)]> report)))), SamplerState (sampler_source_id st) n)
        end
    end.
End sampler.

(** ** What the sampler may change *)
Lemma elem_of_dedupe_from (l acc : list string) x :
  x ∈ fold_left (fun acc x => if bool_decide (x ∈ acc) then acc else acc ++ [x]) l acc <-> x ∈ acc \/ x ∈ l.
Proof.
  revert acc. induction l as [|y l IH]; intros acc; cbn; [set_solver|]. rewrite IH.
  case_bool_decide; set_solver.
Qed.

Lemma elem_of_dedupe l x : x ∈ _dedupe l <-> x ∈ l.
Proof. unfold _dedupe. rewrite elem_of_dedupe_from. set_solver. Qed.

Lemma length_dedupe l (names : list string) : l ⊆ names -> (length (_dedupe l) <= length names)%nat.
Proof.
  intros Hl. apply submseteq_length, NoDup_submseteq.
  - unfold _dedupe. assert (Hd : forall acc : list string, NoDup acc ->
      NoDup (fold_left (fun acc x => if bool_decide (x ∈ acc) then acc else acc ++ [x]) l acc)).
    { clear Hl. induction l as [|y l IH]; intros acc Ha; cbn; [done|]. apply IH. case_bool_decide; [done|].
      apply NoDup_app. split; [done|]. split; [set_solver|apply NoDup_singleton]. }
    apply Hd. constructor.
  - intros x Hx. rewrite elem_of_dedupe in Hx. by apply Hl.
Qed.

Lemma report_texts_of l : report_texts (texts l) = l.
Proof. unfold report_texts, texts. induction l as [|x l IH]; cbn; [done|by rewrite IH]. Qed.

Lemma not_sampled_idle report :
  truthy (py_get report "online") = false \/
  py_get report "status" = VStr "OFFLINE" \/ py_get report "status" = VStr "UNKNOWN" \/ py_get report "status" = VStr "REJECTED" <->
  not_sampled report = true.
Proof.
  unfold not_sampled. rewrite orb_true_iff, negb_true_iff. destruct (py_get report "status") as [| | | |s| |]; cbn [text_in];
    rewrite ?bool_decide_eq_true; try naive_solver. set_solver.
Qed.

Lemma dedupe_nil l : _dedupe l = [] <-> l = [].
Proof.
  split; [|by intros ->]. intros H. destruct l as [|x l]; [done|]. assert (Hx : x ∈ _dedupe (x :: l)) by (apply elem_of_dedupe; set_solver).
  rewrite H in Hx. set_solver.
Qed.

Lemma merged_status_cases reasons warnings status :
  (reasons <> [] -> merged_status (_dedupe reasons) (_dedupe warnings) status = VStr "DEGRADED") /\
  (reasons = [] -> warnings <> [] -> status = VStr "ACCEPTED" -> merged_status (_dedupe reasons) (_dedupe warnings) status = VStr "WARNING") /\
  (reasons = [] -> warnings = [] \/ status <> VStr "ACCEPTED" -> merged_status (_dedupe reasons) (_dedupe warnings) status = status) /\
  (forall s, s <> "DEGRADED" -> s <> "WARNING" -> status <> VStr s -> merged_status (_dedupe reasons) (_dedupe warnings) status <> VStr s).
Proof.
  assert (Ha : text_in status ["ACCEPTED"] = true <-> status = VStr "ACCEPTED").
  { destruct status; cbn; rewrite ?bool_decide_eq_true; try naive_solver. set_solver. }
  pose proof (dedupe_nil reasons). pose proof (dedupe_nil warnings).
  unfold merged_status. repeat case_bool_decide; cbn [negb andb]; destruct (text_in status ["ACCEPTED"]) eqn:E; naive_solver.
Qed.

(** C38: the quality of an input is not destructive. The report of a publisher that is off
    line, or whose status is [OFFLINE], [UNKNOWN] or [REJECTED], is returned unchanged,
    whatever a sample would say. Every other report comes back with another status than these three,
    so that no sample ever makes a rejection: it has the measures, and its own reasons and
    warnings followed by those of the sample and of the bitrate; its status is [DEGRADED]
    if it has a reason, [WARNING] if it has a warning only and was [ACCEPTED], and what it
    was otherwise; no other field changes. It fails when taking the sample fails. *)
Theorem quality_is_not_destructive config st report sampled :
  let status := py_get report "status" in
  let idle := truthy (py_get report "online") = false \/
              status = VStr "OFFLINE" \/ status = VStr "UNKNOWN" \/ status = VStr "REJECTED" in
  (idle -> (augment config st report sampled).1 = Ok report) /\
  (~ idle -> forall q bitrate, sampled = Ok q -> _safe_float (py_get report "bitrate_bps") = Ok bitrate ->
     exists report' n low_reasons low_warnings,
       (augment config st report sampled).1 = Ok report' /\
       judge_low_bitrate config bitrate (low_samples (_reset_source (as_str (py_get report "source_id")) st)) =
         (n, low_reasons, low_warnings) /\
       let reasons := report_texts (py_get_or report "reasons" (VList [])) ++ quality_reasons q ++ low_reasons in
       let warnings := report_texts (py_get_or report "warnings" (VList [])) ++ quality_warnings q ++ low_warnings in
       let status' := py_get report' "status" in
       status' <> VStr "OFFLINE" /\ status' <> VStr "UNKNOWN" /\ status' <> VStr "REJECTED" /\
       (reasons <> [] -> status' = VStr "DEGRADED") /\
       (reasons = [] -> warnings <> [] -> status = VStr "ACCEPTED" -> status' = VStr "WARNING") /\
       (reasons = [] -> warnings = [] \/ status <> VStr "ACCEPTED" -> status' = status) /\
       (forall name, name ∈ report_texts (py_get report' "reasons") <-> name ∈ reasons) /\
       (forall name, name ∈ report_texts (py_get report' "warnings") <-> name ∈ warnings) /\
       py_get report' "quality" = VDict (measures q) /\
       (forall field, field ∉ ["status"; "reasons"; "warnings"; "quality"] -> report' !! field = report !! field)) /\
  (~ idle -> forall e, sampled = Err e -> (augment config st report sampled).1 = Err e).
Proof.
  cbv zeta. split; [|split].
  - intros Hi%not_sampled_idle. unfold augment. cbv zeta. by rewrite Hi.
  - intros Hi q bitrate -> Hb. unfold augment. cbv zeta. rewrite not_sampled_idle in Hi. apply not_true_is_false in Hi. rewrite Hi, Hb.
    destruct (judge_low_bitrate _ _ _) as [[n lr] lw] eqn:El. eexists _, n, lr, lw. split; [reflexivity|]. split; [reflexivity|].
    record_fields. rewrite !report_texts_of. pose proof (merged_status_cases (report_texts (py_get_or report "reasons" (VList [])) ++ quality_reasons q ++ lr)
      (report_texts (py_get_or report "warnings" (VList [])) ++ quality_warnings q ++ lw) (py_get report "status")) as (M1 & M2 & M3 & M4).
    apply orb_false_iff in Hi as [_ Hi].
    assert (Hs : forall s, s ∈ ["OFFLINE"; "UNKNOWN"; "REJECTED"] -> py_get report "status" <> VStr s).
    { intros s Hin E. rewrite E in Hi. cbn in Hi. by apply bool_decide_eq_false in Hi. }
    split; [apply M4; [done..|apply Hs; set_solver]|]. split; [apply M4; [done..|apply Hs; set_solver]|].
    split; [apply M4; [done..|apply Hs; set_solver]|]. split; [exact M1|]. split; [exact M2|]. split; [exact M3|].
    split; [intros name; apply elem_of_dedupe|]. split; [intros name; apply elem_of_dedupe|]. split; [done|].
    intros field Hf. rewrite !lookup_insert_ne; [done|..]; set_solver.
  - intros Hi e ->. unfold augment. cbv zeta. rewrite not_sampled_idle in Hi. apply not_true_is_false in Hi. by rewrite Hi.
Qed.
