(* ===== verification/IngestReports.v ===== *)
(** * The heartbeat of a Node and what the control plane takes

    [_ingest_observation] and the body of [heartbeat] ([apps/node-agent/agent.py]) put
    the reports of IngestPolicy.v, IngestQuality.v and EgressStatus.v together; the
    request classes of [node_internal.py] say what the control plane takes. *)

From S2P Require Import Prelude PyFloat Sha256 PyValue Json Effects Authority PyText TextFacts JsonText Uuid IpAddress Url EgressDestination StateFile NodeAuthority AttemptSupervisor EgressStatus IngestPolicy IngestQuality.

(** ** Declared bodies *)
Definition text_between (lo hi : nat) (v : value) : bool :=
  match v with VStr s => Nat.leb lo (py_len s) && Nat.leb (py_len s) hi | _ => false end.

Section declared.
Context `{Conversions}.

Definition int_between (lo hi : Z) (v : value) : bool :=
  match as_int v with Some z => (lo <=? z) && (z <=? hi) | None => false end.
Definition float_between (hi : Z) (v : value) : bool :=
  match as_float v with Some f => is_finite f && negb (flt f fzero) && negb (exceeds f hi) | None => false end.
Definition text_or_int (v : value) : bool := match v with VStr _ => true | _ => bool_decide (is_Some (as_int v)) end.
Definition list_up_to (n : nat) (check : value -> bool) (v : value) : bool :=
  match v with VList l => Nat.leb (length l) n && forallb check l | _ => false end.
Definition body_of (fields : list field_spec) (v : value) : bool := match v with VDict d => accepts fields d | _ => false end.

Definition TrackObservation : list field_spec :=
  [("codec", (true, text_between 1 100)); ("width", (false, nullable (int_between 1 16384)));
   ("height", (false, nullable (int_between 1 16384))); ("profile", (false, nullable text_or_int));
   ("level", (false, nullable text_or_int)); ("sampleRate", (false, nullable (int_between 1 768000)));
   ("channelCount", (false, nullable (int_between 1 64)))].

Definition QualityObservation : list field_spec :=
  [("sample_elapsed_seconds", (false, nullable (float_between 60))); ("video_frames", (false, nullable (int_between 0 1000000)));
   ("audio_frames", (false, nullable (int_between 0 10000000))); ("video_fps", (false, nullable (float_between 1000)));
   ("video_timestamp_span_seconds", (false, nullable (float_between 60)));
   ("audio_timestamp_span_seconds", (false, nullable (float_between 60)));
   ("keyframes", (false, nullable (int_between 0 1000000))); ("max_gop_seconds", (false, nullable (float_between 60)));
   ("video_timestamp_regressions", (false, nullable (int_between 0 1000000)));
   ("audio_timestamp_regressions", (false, nullable (int_between 0 1000000))); ("error", (false, nullable (text_up_to 200)))].

Definition BoundedReason : value -> bool := text_between 1 100.

Definition IngestObservationRequest : list field_spec :=
  [("status", (true, fun v => text_in v INGEST_STATUSES)); ("path", (true, text_between 1 200)); ("online", (false, boolean));
   ("source_type", (false, nullable (text_up_to 50))); ("source_id", (false, nullable (text_up_to 200)));
   ("bitrate_bps", (false, nullable float_at_least_zero)); ("max_bitrate_bps", (false, nullable (int_at_least 0)));
   ("tracks", (false, list_up_to 8 (body_of TrackObservation))); ("reasons", (false, list_up_to 16 BoundedReason));
   ("warnings", (false, list_up_to 16 BoundedReason)); ("quality", (false, nullable (body_of QualityObservation)));
   ("enforced", (false, boolean)); ("enforcement_error", (false, nullable (text_up_to 200)));
   ("observed_at", (true, float_at_least_zero))].

Definition HeartbeatRequest : list field_spec :=
  [("status", (false, fun v => text_in v NODE_STATUSES)); ("media_health", (false, text_up_to 200));
   ("active_publisher", (false, boolean)); ("egress_connected", (false, boolean));
   ("cpu_percent", (false, nullable (float_between 1000))); ("memory_mb", (false, nullable float_at_least_zero));
   ("software_version", (false, nullable (text_up_to 100)));
   ("deadline_remaining_seconds", (false, nullable float_at_least_zero));
   ("ingest", (false, nullable (body_of IngestObservationRequest))); ("egress", (false, nullable (body_of EgressObservationRequest)));
   ("relay_client", (false, nullable (body_of RelayClientObservationRequest)))].
End declared.

(** ** [_ingest_observation] *)
Definition unknown_ingest (path : string) (observed_at : float) : dict :=
  list_to_map
    [("status", VStr "UNKNOWN"); ("path", VStr path); ("online", VBool false); ("source_type", VNull); ("source_id", VNull);
     ("bitrate_bps", VNull); ("tracks", VList []); ("reasons", texts ["MEDIAMTX_API_UNAVAILABLE"]); ("warnings", VList []);
     ("enforced", VBool false); ("observed_at", VFloat observed_at)].

Definition degraded_report (report : dict) : dict :=
  if truthy (py_get report "online") && negb (text_in (py_get report "status") ["REJECTED"]) then
    let warnings := _dedupe (report_texts (py_get_or report "warnings" (VList [])) ++ ["QUALITY_SAMPLER_UNAVAILABLE"]) in
    let report' := <["warnings" := texts warnings]> report in
    if text_in (py_get report "status") ["ACCEPTED"] then <["status" := VStr "WARNING"]> report' else report'
  else report.

(** [observed] is the outcome of [observe_and_enforce], [augmented] that of [augment]
    when there is a sampler; [path] and [now] are read for the fallback only. *)
Definition _ingest_observation (path : string) (now : value) (observed : result dict) (augmented : option (dict -> result dict))
    : result dict :=
  match observed with
  | Err RuntimeError => t ← _validated_observed_time now; Ok (unknown_ingest path t)
  | Err e => Err e
  | Ok report =>
      match augmented with
      | None => Ok report
      | Some f => match f report with Ok report' => Ok report' | Err _ => Ok (degraded_report report) end
      end
  end.

(** ** [heartbeat] *)
Definition with_report (name : string) (report : option dict) (payload : dict) : dict :=
  match report with Some r => <[name := VDict r]> payload | None => payload end.

(** [health] is what the supervisor reports; [remaining] the time up to the deadline. *)
Definition heartbeat_payload (str_of : value -> string) (health : dict) (ingest egress relay_client : option dict)
    (agent_version : string) (remaining : option float) : dict :=
  let flag key report field := truthy (match report with
                                       | Some r => py_get_or r field (VBool false)
                                       | None => py_get_or health key (VBool false) end) in
  let running := match py_get health "media_stack" with VStr s => String.eqb s "running" | _ => false end in
  with_report "relay_client" relay_client (with_report "egress" egress (with_report "ingest" ingest (list_to_map
    [("status", VStr (if running then "READY" else "STOPPING"));
     ("media_health", VStr (str_of (py_get_or health "media_stack" (VStr "unknown"))));
     ("active_publisher", VBool (flag "active_publisher" ingest "online"));
     ("egress_connected", VBool (flag "egress_connected" egress "connected"));
     ("software_version", VStr agent_version);
     ("deadline_remaining_seconds", match remaining with Some f => VFloat (fmax fzero f) | None => VNull end)]))).

(** ** Declared fields, one by one *)
Definition field_check (fields : list field_spec) (name : string) : option (value -> bool) :=
  match List.find (fun f => String.eqb f.1 name) fields with Some (_, (_, check)) => Some check | None => None end.

(** The values of a body satisfy their declarations, apart from those of [free]. *)
Definition checked (fields : list field_spec) (free : list string) (name : string) (v : value) : bool :=
  match field_check fields name with
  | Some check => existsb (String.eqb name) free || check v
  | None => false
  end.
Definition values_ok (fields : list field_spec) (free : list string) (body : dict) : Prop :=
  map_Forall (fun name v => checked fields free name v = true) body.

Lemma values_ok_empty fields free : values_ok fields free ∅.
Proof. apply map_Forall_empty. Qed.

Lemma values_ok_insert fields free name v body :
  checked fields free name v = true -> values_ok fields free body -> values_ok fields free (<[name := v]> body).
Proof. intros H1 H2. exact (map_Forall_insert_2 (fun n v => checked fields free n v = true) _ _ _ H1 H2). Qed.

Lemma field_check_in fields name check : field_check fields name = Some check -> name ∈ fields.*1.
Proof.
  unfold field_check. destruct (List.find (fun f => String.eqb f.1 name) fields) as [[n [r c]]|] eqn:E; [|done]. intros _.
  apply find_some in E as [Hin E]. apply String.eqb_eq in E. cbn in E. subst. apply list_elem_of_fmap.
  exists (name, (r, c)). split; [done|by apply list_elem_of_In].
Qed.

Lemma field_check_of fields name r check :
  NoDup fields.*1 -> (name, (r, check)) ∈ fields -> field_check fields name = Some check.
Proof.
  unfold field_check. induction fields as [|[n [r' c]] fields IH]; cbn; [set_solver|]. intros [Hn Hd]%NoDup_cons Hin.
  destruct (String.eqb_spec n name) as [->|Hne].
  - apply elem_of_cons in Hin as [[= -> ->]|Hin]; [done|]. destruct Hn. apply list_elem_of_fmap. by exists (name, (r, check)).
  - apply IH; [done|]. apply elem_of_cons in Hin as [[= -> _ _]|Hin]; [done|done].
Qed.

(** A body is accepted exactly when its free values are, the others being as declared
    and the required ones there. *)
Lemma accepts_free fields free body :
  bool_decide (NoDup fields.*1) = true -> values_ok fields free body ->
  forallb (fun '(name, (required, _)) => negb required || bool_decide (is_Some (body !! name))) fields = true ->
  accepts fields body =
  forallb (fun '(name, (_, check)) => negb (existsb (String.eqb name) free) || match body !! name with Some v => check v | None => true end)
    fields.
Proof.
  intros Hd%bool_decide_eq_true Hv Hr. unfold accepts.
  replace (forallb (fun p => bool_decide (p.1 ∈ fields.*1)) (map_to_list body)) with true; cbn [andb].
  2: { symmetry. apply forallb_forall. intros [k v] Hin%list_elem_of_In%elem_of_map_to_list. apply bool_decide_eq_true. cbn.
       specialize (Hv k v Hin). unfold checked in Hv. destruct (field_check fields k) eqn:E; [by apply field_check_in in E|done]. }
  assert (Hsub : forall f, f ∈ fields -> (match body !! f.1 with Some v => f.2.2 v | None => negb f.2.1 end) =
    negb (existsb (String.eqb f.1) free) || match body !! f.1 with Some v => f.2.2 v | None => true end).
  { intros [name [required check]] Hin. cbn. rewrite forallb_forall in Hr. specialize (Hr _ (proj1 (list_elem_of_In _ _) Hin)).
    cbn in Hr. destruct (body !! name) as [v|] eqn:E.
    - specialize (Hv name v E). unfold checked in Hv. rewrite (field_check_of _ _ _ _ Hd Hin) in Hv.
      destruct (existsb _ free); cbn in *; [done|]. by rewrite Hv.
    - rewrite orb_true_r. by destruct required. }
  clear Hd Hv Hr. induction fields as [|f fields IH]; [done|]. cbn [forallb]. rewrite IH by (intros; apply Hsub; set_solver).
  specialize (Hsub f ltac:(set_solver)). destruct f as [name [required check]]. cbn in Hsub. by rewrite Hsub.
Qed.

(** ** The ingest report *)
Definition ranged : list string := ["path"; "source_type"; "source_id"; "bitrate_bps"; "max_bitrate_bps"; "tracks"; "quality"].
Definition has_fields (names : list string) (body : dict) : Prop := Forall (fun name => is_Some (body !! name)) names.

Section accepted.
Context {conversions : Conversions} {laws : ConversionLaws}.

Definition ingest_values : dict -> Prop := values_ok IngestObservationRequest ranged.

(** What the control plane still has to check of a report: the configured path and
    limit, the source, the bitrate, the tracks and the measures. *)
Definition ingest_fits (report : dict) : bool :=
  text_between 1 200 (py_get report "path") && nullable (text_up_to 50) (py_get report "source_type") &&
  nullable (text_up_to 200) (py_get report "source_id") && nullable float_at_least_zero (py_get report "bitrate_bps") &&
  nullable (int_at_least 0) (py_get report "max_bitrate_bps") &&
  list_up_to 8 (body_of TrackObservation) (py_get_or report "tracks" (VList [])) &&
  nullable (body_of QualityObservation) (py_get report "quality").

Record ingest_report_ok (r : dict) : Prop := IngestReportOk {
  report_values : ingest_values r;
  report_fields : has_fields ["status"; "path"; "observed_at"] r }.

Lemma accepts_ingest r : ingest_report_ok r -> accepts IngestObservationRequest r = ingest_fits r.
Proof.
  intros [Hv Hf]. rewrite (accepts_free _ ranged); [|reflexivity|exact Hv|].
  - unfold ingest_fits, py_get, py_get_or, IngestObservationRequest.
    cbn [forallb ranged existsb String.eqb Ascii.eqb Bool.eqb negb orb andb].
    unfold has_fields in Hf. rewrite !Forall_cons in Hf. destruct Hf as (_ & [path ->] & _).
    destruct (r !! "source_type"), (r !! "source_id"), (r !! "bitrate_bps"), (r !! "max_bitrate_bps"), (r !! "tracks"), (r !! "quality");
      cbn [default from_option id nullable is_null orb]; rewrite ?andb_assoc, ?andb_true_r; done.
  - unfold has_fields in Hf. rewrite !Forall_cons in Hf. destruct Hf as (H1 & H2 & H3 & _). cbn [forallb IngestObservationRequest negb orb andb].
    by rewrite !bool_decide_eq_true_2.
Qed.

Lemma ok_insert r name v :
  checked IngestObservationRequest ranged name v = true -> ingest_report_ok r -> ingest_report_ok (<[name := v]> r).
Proof.
  intros Hc [Hv Hf]. split; [by apply values_ok_insert|]. unfold has_fields in *. eapply Forall_impl; [exact Hf|].
  cbn. intros x Hx. destruct (decide (name = x)) as [->|Hne]; [rewrite lookup_insert_eq; by eexists|by rewrite lookup_insert_ne].
Qed.

(** A report written down field by field. *)
Lemma ok_record (fields : list (string * value)) :
  forallb (fun p => checked IngestObservationRequest ranged p.1 p.2) fields = true ->
  forallb (fun name => existsb (fun p => String.eqb p.1 name) fields) ["status"; "path"; "observed_at"] = true ->
  ingest_report_ok (list_to_map fields).
Proof.
  intros Hv Hf. split.
  - clear Hf. unfold ingest_values. induction fields as [|[k v] fields IH]; [apply values_ok_empty|].
    cbn in Hv. apply andb_true_iff in Hv as [Hk Hv]. cbn. apply values_ok_insert; [exact Hk|by apply IH].
  - unfold has_fields. apply Forall_forall. intros name Hin. rewrite forallb_forall in Hf.
    specialize (Hf name (proj1 (list_elem_of_In _ _) Hin)). clear Hv Hin. induction fields as [|[k v] fields IH]; [done|].
    cbn in Hf |- *. destruct (String.eqb_spec k name) as [->|Hne]; [rewrite lookup_insert_eq; by eexists|].
    rewrite lookup_insert_ne by done. by apply IH.
Qed.

Definition policy_reasons : list string :=
  ["VIDEO_CODEC_UNSUPPORTED"; "RESOLUTION_UNSUPPORTED"; "AUDIO_CODEC_UNSUPPORTED"; "AUDIO_CHANNELS_UNSUPPORTED"; "BITRATE_TOO_HIGH"].
Definition policy_warnings : list string :=
  ["VIDEO_DIMENSIONS_UNKNOWN"; "AUDIO_SAMPLE_RATE_UNKNOWN"; "AUDIO_SAMPLE_RATE_NON_PREFERRED"; "AUDIO_CHANNELS_UNKNOWN";
   "TRACK_METADATA_PENDING"; "BITRATE_ABOVE_LIMIT_PENDING"].
Definition sample_reasons : list string :=
  ["MEDIA_SAMPLE_FAILED"; "MEDIA_SAMPLE_TIMEOUT"; "VIDEO_TIMEOUT"; "AUDIO_TIMEOUT"; "VIDEO_TIMESTAMP_REGRESSION";
   "AUDIO_TIMESTAMP_REGRESSION"; "VIDEO_TIMESTAMP_STALLED"; "AUDIO_TIMESTAMP_STALLED"; "FPS_OUT_OF_RANGE"; "GOP_TOO_LONG";
   "KEYFRAME_TIMEOUT"; "BITRATE_TOO_LOW"].
Definition all_warnings : list string :=
  policy_warnings ++ ["FPS_UNKNOWN"; "FPS_NON_PREFERRED"; "GOP_UNOBSERVED"; "BITRATE_BELOW_MIN_PENDING"; "QUALITY_SAMPLER_UNAVAILABLE"].

(** Decides inclusions of lists of names. *)
Definition names_in (l names : list string) : bool := forallb (fun x => existsb (String.eqb x) names) l.
Lemma names_in_ok l names : names_in l names = true -> l ⊆ names.
Proof.
  unfold names_in. rewrite forallb_forall. intros H x Hx. specialize (H x (proj1 (list_elem_of_In _ _) Hx)).
  apply existsb_exists in H as (y & Hy & E). apply String.eqb_eq in E as ->. by apply list_elem_of_In.
Qed.
Lemma names_in_app l1 l2 names : names_in (l1 ++ l2) names = names_in l1 names && names_in l2 names.
Proof. apply forallb_app. Qed.

Lemma texts_ok names l :
  l ⊆ names -> forallb (fun s => BoundedReason (VStr s)) names = true -> (length l <= 16)%nat ->
  list_up_to 16 BoundedReason (texts l) = true.
Proof.
  intros Hl Hn Hlen. unfold list_up_to, texts. rewrite length_fmap, (proj2 (Nat.leb_le _ _) Hlen). cbn [andb].
  apply forallb_forall. intros v (s & -> & Hs)%list_elem_of_In%list_elem_of_fmap. rewrite forallb_forall in Hn.
  apply Hn, list_elem_of_In. by apply Hl.
Qed.

(** ** The names of the policy *)
Ltac names_done := cbn; repeat split; first [reflexivity|lia].

Lemma video_names tracks r w :
  judge_video tracks = Ok (r, w) ->
  names_in r policy_reasons = true /\ names_in w policy_warnings = true /\ (length r <= 1)%nat /\ (length w <= 1)%nat.
Proof.
  unfold judge_video. destruct (List.filter _ tracks) as [|video [|? ?]]; [intros [= <- <-]; names_done| |intros [= <- <-]; names_done].
  destruct (String.eqb _ _); [|intros [= <- <-]; names_done]. intros H. apply result_bind_ok in H as (a & _ & H).
  apply result_bind_ok in H as (b & _ & H). destruct a, b; try case_bool_decide; injection H as <- <-; names_done.
Qed.

Lemma audio_names tracks r w :
  judge_audio tracks = Ok (r, w) ->
  names_in r policy_reasons = true /\ names_in w policy_warnings = true /\ (length r <= 1)%nat /\ (length w <= 2)%nat.
Proof.
  unfold judge_audio. destruct (List.filter _ tracks) as [|audio [|? ?]]; [intros [= <- <-]; names_done| |intros [= <- <-]; names_done].
  destruct (String.eqb _ _); [|intros [= <- <-]; names_done]. intros H. apply result_bind_ok in H as (a & _ & H).
  apply result_bind_ok in H as (b & _ & H). cbv zeta in H.
  destruct a as [a|], b; try case_bool_decide; try destruct (a =? 48000); injection H as <- <-; names_done.
Qed.

Lemma track_names tracks r w :
  evaluate_tracks tracks = Ok (r, w) ->
  names_in r policy_reasons = true /\ names_in w policy_warnings = true /\ (length r <= 2)%nat /\ (length w <= 3)%nat.
Proof.
  unfold evaluate_tracks. intros H. apply result_bind_ok in H as ([vr vw] & (V1 & V2 & V3 & V4)%video_names & H).
  apply result_bind_ok in H as ([ar aw] & (A1 & A2 & A3 & A4)%audio_names & [= <- <-]).
  rewrite !names_in_app, V1, V2, A1, A2, !length_app. split; [done|]. split; [done|lia].
Qed.

Lemma bitrate_names config st b st' r w :
  judge_bitrate config st b = (st', r, w) ->
  names_in r policy_reasons = true /\ names_in w policy_warnings = true /\ (length r <= 1)%nat /\ (length w <= 1)%nat.
Proof.
  unfold judge_bitrate. destruct b as [b|]; [|intros [= <- <- <-]; names_done].
  destruct (exceeds _ _); [|intros [= <- <- <-]; names_done]. cbv zeta. destruct (_ <=? _); intros [= <- <- <-]; names_done.
Qed.

(** What a report of the policy is. *)
Record policy_report_ok (r : dict) : Prop := PolicyReportOk {
  policy_ok : ingest_report_ok r;
  policy_clean : not_sampled r = false -> report_texts (py_get_or r "reasons" (VList [])) = [];
  policy_names : report_texts (py_get_or r "warnings" (VList [])) ⊆ policy_warnings }.

Lemma status_known reasons warnings b : text_in (VStr (ingest_status reasons warnings b)) INGEST_STATUSES = true.
Proof. unfold ingest_status. repeat case_bool_decide; destruct b; cbn; reflexivity. Qed.

Lemma time_ok now t : _validated_observed_time now = Ok t -> float_at_least_zero (VFloat t) = true.
Proof using laws.
  unfold _validated_observed_time. destruct (nonneg_number now) as [f|] eqn:E; [|done]. intros [= ->].
  apply nonneg_number_spec in E as [E1 E2]. by apply (declared_float _ t), nonneg_number_float.
Qed.

Lemma policy_insert r name v :
  checked IngestObservationRequest ranged name v = true -> name ∉ ["online"; "status"; "reasons"; "warnings"] ->
  policy_report_ok r -> policy_report_ok (<[name := v]> r).
Proof using laws.
  intros Hc Hn [H1 H2 H3]. assert (Hne : forall field, field ∈ ["online"; "status"; "reasons"; "warnings"] -> name <> field) by congruence.
  split; [by apply ok_insert|..]; unfold not_sampled, py_get_or, py_get in *; rewrite !lookup_insert_ne by (apply Hne; set_solver); done.
Qed.

Section reports.
Context (str_of : value -> string) (config : IngestPolicyConfig).

Ltac checks := cbn [checked field_check List.find fst snd forallb existsb ranged IngestObservationRequest String.eqb Ascii.eqb Bool.eqb orb].

Lemma online_report_ok sid kind tracks reasons warnings b t :
  float_at_least_zero (VFloat t) = true -> names_in reasons policy_reasons = true -> names_in warnings policy_warnings = true ->
  (length reasons <= 16)%nat -> (length warnings <= 16)%nat ->
  policy_report_ok (online_report config sid kind tracks reasons warnings b t).
Proof using laws.
  intros Ht Hr%names_in_ok Hw%names_in_ok Lr Lw. split.
  - apply ok_record; [|reflexivity]. unfold checked, field_check. checks.
    by rewrite status_known, !declared_bool, (texts_ok _ _ Hr eq_refl Lr), (texts_ok _ _ Hw eq_refl Lw), Ht.
  - unfold online_report. rewrite ?list_to_map_cons. cbn [fst snd]. unfold not_sampled, py_get_or. record_fields.
    rewrite !lookup_insert_ne, lookup_insert_eq by discriminate. cbn [default from_option id]. rewrite report_texts_of.
    cbn [truthy negb orb]. unfold ingest_status. case_bool_decide; [done|]. cbn. done.
  - unfold online_report. rewrite ?list_to_map_cons. cbn [fst snd]. unfold py_get_or.
    rewrite !lookup_insert_ne, lookup_insert_eq by discriminate. cbn [default from_option id]. by rewrite report_texts_of.
Qed.

Lemma offline_report_ok t : float_at_least_zero (VFloat t) = true -> policy_report_ok (offline_report config t).
Proof using laws.
  intros Ht. split.
  - apply ok_record; [|reflexivity]. unfold checked, field_check. checks. by rewrite !declared_bool, Ht.
  - intros H. exfalso. revert H. unfold offline_report. rewrite ?list_to_map_cons. cbn [fst snd]. unfold not_sampled. record_fields. done.
  - unfold offline_report. rewrite ?list_to_map_cons. cbn [fst snd]. unfold py_get_or.
    rewrite !lookup_insert_ne, lookup_insert_eq by discriminate. cbn. set_solver.
Qed.

Lemma observe_ok st answer now r st' : observe str_of config st answer now = (Ok r, st') -> policy_report_ok r.
Proof using laws.
  unfold observe. destruct (_validated_observed_time now) as [t|] eqn:Et; [|done]. apply time_ok in Et.
  destruct answer as [|v]; [done|]. destruct (online_source _) as [[path source]|].
  2: { intros [= <- _]. by apply offline_report_ok. }
  unfold observe_online. cbv zeta. destruct (_safe_int _); [|done]. destruct (if negb _ then _ else _); [|done].
  destruct (evaluate_tracks _) as [[reasons warnings]|] eqn:E; [|done]. apply track_names in E as (T1 & T2 & T3 & T4).
  match goal with |- context [if ?b then [] else reasons] => set (pending := b) end.
  destruct (judge_bitrate _ _ _) as [[st2 br] bw] eqn:Eb. apply bitrate_names in Eb as (B1 & B2 & B3 & B4). intros [= <- _].
  apply online_report_ok; [done|..].
  - rewrite names_in_app, B1. by destruct pending; rewrite ?T1.
  - rewrite names_in_app, B2. destruct pending; [rewrite names_in_app|]; by rewrite T2.
  - rewrite length_app. destruct pending; cbn; lia.
  - rewrite length_app. destruct pending; [rewrite length_app|]; cbn; lia.
Qed.

Lemma enforced_ok st answer now kick r :
  (observe_and_enforce str_of config st answer now kick).1.1 = Ok r -> policy_report_ok r.
Proof using laws.
  unfold observe_and_enforce. destruct (observe _ _ _ _ _) as [[r0|e] st1] eqn:Ho; [|done]. apply observe_ok in Ho.
  destruct (kick_path st1 r0) as [[i p]|]; [|by intros [= <-]]. destruct kick as [reason|]; intros [= <-].
  - apply policy_insert; [|set_solver|done]. unfold checked, field_check. checks. cbn. apply Nat.leb_le.
    pose proof (py_len_take 160 reason). lia.
  - apply policy_insert; [|set_solver|done]. unfold checked, field_check. checks. by rewrite declared_bool.
Qed.
End reports.

(** ** The names of a sample *)
Definition quality_names (q : quality) : Prop :=
  names_in (quality_reasons q) sample_reasons = true /\ names_in (quality_warnings q) all_warnings = true.

Lemma names_in_when b reason names : existsb (String.eqb reason) names = true -> names_in (when b reason) names = true.
Proof. intros H. destruct b; [|done]. cbn. by rewrite H. Qed.

Lemma names_in_dedupe l names : names_in l names = true -> names_in (_dedupe l) names = true.
Proof.
  unfold names_in. rewrite !forallb_forall. intros H x Hx. apply H. apply list_elem_of_In. rewrite <- elem_of_dedupe.
  by apply list_elem_of_In.
Qed.

Lemma fps_names config fps b :
  names_in (judge_fps config fps b).1 sample_reasons = true /\ names_in (judge_fps config fps b).2 all_warnings = true.
Proof. unfold judge_fps. destruct fps; [destruct (_ || _)|]; cbn [fst snd]; auto using names_in_when. Qed.

Lemma gop_names config span gop keys :
  names_in (judge_gop config span gop keys).1 sample_reasons = true /\ names_in (judge_gop config span gop keys).2 all_warnings = true.
Proof.
  unfold judge_gop. destruct span; [|done]. destruct (match gop with Some _ => _ | None => _ end); [done|].
  destruct keys as [|k [|]]; [destruct (fle _ _)| |]; cbn [fst snd]; auto using names_in_when.
Qed.

Lemma judge_sample_names config s elapsed : quality_names (judge_sample config s elapsed).
Proof.
  unfold judge_sample. cbv zeta.
  destruct (judge_fps _ _ _) as [fr fw] eqn:Ef. destruct (judge_gop _ _ _ _) as [gr gw] eqn:Eg.
  match type of Ef with judge_fps ?c ?f ?b = _ => destruct (fps_names c f b) as [F1 F2]; rewrite Ef in F1, F2 end.
  match type of Eg with judge_gop ?c ?f ?g ?k = _ => destruct (gop_names c f g k) as [G1 G2]; rewrite Eg in G1, G2 end.
  cbn [fst snd] in *. split; cbn [quality_reasons quality_warnings]; apply names_in_dedupe; rewrite !names_in_app.
  - rewrite F1, G1, !names_in_when by reflexivity. reflexivity.
  - by rewrite F2, G2.
Qed.

Lemma sample_names json config secret run elapsed q : sample json config secret run elapsed = Ok q -> quality_names q.
Proof.
  unfold sample. destruct (_input_url _ _) as [url|]; [|by intros [= <-]]. intros H.
  apply result_bind_ok in H as (v & _ & H). apply result_bind_ok in H as (a & _ & H). cbv zeta in H.
  destruct (omap failure [v; a]); [|by injection H as <-]. destruct (_ && _ && _); [by injection H as <-|].
  unfold evaluate_frame_sample in H. apply result_bind_ok in H as (s & _ & [= <-]). apply judge_sample_names.
Qed.

(** ** The final report *)
Lemma low_names config b n n' r w :
  judge_low_bitrate config b n = (n', r, w) -> names_in r sample_reasons = true /\ names_in w all_warnings = true.
Proof.
  unfold judge_low_bitrate. repeat case_match; intros [= <- <- <-]; done.
Qed.

Lemma dedupe_ok l names : l ⊆ names -> forallb (fun s => BoundedReason (VStr s)) names = true -> (length names <= 16)%nat ->
  list_up_to 16 BoundedReason (texts (_dedupe l)) = true.
Proof.
  intros Hl Hn Hlen. apply (texts_ok names); [|done|].
  - intros x. rewrite elem_of_dedupe. apply Hl.
  - etrans; [by apply length_dedupe|done].
Qed.

Lemma merged_known reasons warnings status :
  text_in status INGEST_STATUSES = true -> text_in (merged_status reasons warnings status) INGEST_STATUSES = true.
Proof. intros H. unfold merged_status. destruct (negb _); [reflexivity|]. destruct (_ && _); [reflexivity|done]. Qed.

Lemma report_status r : ingest_report_ok r -> text_in (py_get r "status") INGEST_STATUSES = true.
Proof.
  intros [Hv Hf]. unfold has_fields in Hf. rewrite Forall_cons in Hf. destruct Hf as [[v Hs] _]. unfold py_get. rewrite Hs.
  specialize (Hv _ _ Hs). unfold checked, field_check in Hv. cbn in Hv. exact Hv.
Qed.

Lemma augment_ok config st r q r' st' :
  policy_report_ok r -> quality_names q -> augment config st r (Ok q) = (Ok r', st') -> ingest_report_ok r'.
Proof.
  intros [H1 H2 H3] [Q1%names_in_ok Q2%names_in_ok]. unfold augment. cbv zeta.
  destruct (not_sampled r) eqn:Hn; [by intros [= <- _]|]. destruct (_safe_float _) as [b|]; [|done].
  destruct (judge_low_bitrate _ _ _) as [[n lr] lw] eqn:El. apply low_names in El as [L1%names_in_ok L2%names_in_ok].
  intros [= <- _]. rewrite H2 by done.
  repeat apply ok_insert; [..|exact H1]; unfold checked, field_check; cbn [List.find fst snd existsb ranged IngestObservationRequest String.eqb Ascii.eqb Bool.eqb orb].
  - by apply merged_known, report_status.
  - apply (dedupe_ok _ all_warnings); [|reflexivity|cbn; lia]. intros x. rewrite !elem_of_app. intros [Hx|[Hx|Hx]]; [|by apply Q2|by apply L2].
    unfold all_warnings. apply elem_of_app. left. by apply H3.
  - apply (dedupe_ok _ sample_reasons); [|reflexivity|cbn; lia]. intros x. rewrite !elem_of_app. intros [Hx|[Hx|Hx]]; [by apply elem_of_nil in Hx|by apply Q1|by apply L1].
  - reflexivity.
Qed.

Lemma degraded_ok r : policy_report_ok r -> ingest_report_ok (degraded_report r).
Proof using laws.
  intros [H1 H2 H3]. unfold degraded_report. destruct (_ && _); [|done]. cbv zeta.
  assert (H : ingest_report_ok (<["warnings" := texts (_dedupe (report_texts (py_get_or r "warnings" (VList [])) ++ ["QUALITY_SAMPLER_UNAVAILABLE"]))]> r)).
  { apply ok_insert; [|done]. unfold checked, field_check. cbn [List.find fst snd existsb ranged IngestObservationRequest String.eqb Ascii.eqb Bool.eqb orb].
    apply (dedupe_ok _ all_warnings); [|reflexivity|cbn; lia]. intros x. rewrite elem_of_app. intros [Hx|Hx]; unfold all_warnings; apply elem_of_app;
      [left; by apply H3|right]. apply list_elem_of_singleton in Hx as ->. set_solver. }
  destruct (text_in _ _); [|done]. by apply ok_insert.
Qed.

(** ** The body of a heartbeat *)
Section heartbeat.
Context (str_of : value -> string) (json_text : string -> option raw).
Context (policy : IngestPolicyConfig) (quality_config : IngestQualityConfig).

(** Where the reports of a heartbeat come from: [None] is an observer that is not
    configured. *)
Definition sampled_by (augmented : option (dict -> result dict)) : Prop :=
  match augmented with
  | None => True
  | Some f => exists st secret run elapsed, forall r, f r = (augment quality_config st r (sample json_text quality_config secret run elapsed)).1
  end.
Definition ingest_from (ingest : option dict) : Prop :=
  match ingest with
  | None => True
  | Some r => exists st answer now kick later augmented,
      _ingest_observation (policy_path policy) later (observe_and_enforce str_of policy st answer now kick).1.1 augmented = Ok r /\
      sampled_by augmented
  end.
Definition egress_from (egress : option dict) : Prop :=
  match egress with
  | None => True
  | Some o => exists file now max_age env, read_egress_status str_of file now max_age env = Ok o
  end.
Definition relay_from (relay_client : option dict) : Prop :=
  match relay_client with
  | None => True
  | Some o => exists path answer now, relay_observe path answer now = Ok o
  end.

Lemma unknown_ingest_ok t : float_at_least_zero (VFloat t) = true -> ingest_report_ok (unknown_ingest (policy_path policy) t).
Proof using laws.
  intros Ht. apply ok_record; [|reflexivity]. unfold checked, field_check.
  cbn [checked field_check List.find fst snd forallb existsb ranged IngestObservationRequest String.eqb Ascii.eqb Bool.eqb orb].
  by rewrite !declared_bool, Ht.
Qed.

Lemma ingest_from_ok r : ingest_from (Some r) -> ingest_report_ok r.
Proof using laws.
  intros (st & answer & now & kick & later & augmented & H & Hs). unfold _ingest_observation in H.
  pose proof (enforced_ok str_of policy st answer now kick) as Hp.
  destruct (observe_and_enforce str_of policy st answer now kick).1.1 as [r0|e].
  - specialize (Hp r0 eq_refl). destruct augmented as [f|]; [|injection H as <-; apply Hp].
    destruct Hs as (sst & secret & run & elapsed & Hs). rewrite Hs in H.
    destruct (sample _ _ _ _ _) as [q|e] eqn:Eq.
    + apply sample_names in Eq. destruct (augment quality_config sst r0 (Ok q)) as [[r1|e] st'] eqn:Ea; injection H as <-.
      * by apply augment_ok in Ea.
      * by apply degraded_ok.
    + destruct (augment quality_config sst r0 (Err e)) as [[r1|e1] st'] eqn:Ea; injection H as <-; [|by apply degraded_ok].
      unfold augment in Ea. cbv zeta in Ea. destruct (not_sampled r0); [|done]. injection Ea as <- _. apply Hp.
  - destruct e; try discriminate H. apply result_bind_ok in H as (t & Ht & [= <-]). apply unknown_ingest_ok. by apply time_ok in Ht.
Qed.

(** [max(0.0, remaining)] is a number of JSON. *)
Definition remaining_fits (f : float) : bool := negb (flt fzero f) || is_finite f.

Lemma remaining_ok f : float_at_least_zero (VFloat (fmax fzero f)) = remaining_fits f.
Proof using laws.
  unfold fmax, float_at_least_zero, remaining_fits. rewrite (as_float_number (VFloat _) _ eq_refl). destruct (flt fzero f) eqn:E; [|reflexivity].
  destruct (is_finite f) eqn:Hf; [|reflexivity]. apply is_finite_not_nan in Hf as Hn.
  rewrite flt_not_fle by done. by rewrite flt_fle.
Qed.

Lemma with_report_values fields free name report payload :
  (forall r, report = Some r -> checked fields free name (VDict r) = true) ->
  values_ok fields free payload -> values_ok fields free (with_report name report payload).
Proof. intros H Hp. destruct report as [r|]; [|done]. by apply values_ok_insert; [apply H|]. Qed.

Lemma with_report_lookup name other report payload :
  name <> other -> with_report name report payload !! other = payload !! other.
Proof. intros H. destruct report; [|done]. by apply lookup_insert_ne. Qed.

Lemma with_report_at name report payload :
  with_report name report payload !! name = match report with Some r => Some (VDict r) | None => payload !! name end.
Proof. destruct report; [|done]. apply lookup_insert_eq. Qed.

Lemma remaining_text remaining :
  nullable float_at_least_zero (match remaining with Some f => VFloat (fmax fzero f) | None => VNull end) =
  match remaining with Some f => remaining_fits f | None => true end.
Proof using laws. destruct remaining as [f|]; [|done]. apply remaining_ok. Qed.

(** C39: which heartbeats of its agents the control plane takes. A heartbeat is built
    from what the observers of the agent answer, in any of their states, whatever the
    media server, [ffprobe] and the gateway say. Under every conversion that leaves the
    values of the declared type alone ([ConversionLaws]) it is of the shape that
    [HeartbeatRequest] declares exactly when what it copies unchecked is in range: the
    version of the agent and the text of the state of the media stack are short enough,
    the time up to the deadline is not infinite and, in the ingest report
    ([ingest_fits]), so are the configured path and bitrate limit, the source, the
    bitrate, the tracks and the measures. Every status, reason, warning, flag, count and
    time that the agent itself writes is always taken. *)
Theorem heartbeats_are_accepted health ingest egress relay_client agent_version remaining :
  ingest_from ingest -> egress_from egress -> relay_from relay_client ->
  accepts HeartbeatRequest (heartbeat_payload str_of health ingest egress relay_client agent_version remaining) =
  text_up_to 200 (VStr (str_of (py_get_or health "media_stack" (VStr "unknown")))) &&
  text_up_to 100 (VStr agent_version) &&
  match remaining with Some f => remaining_fits f | None => true end &&
  match ingest with Some r => ingest_fits r | None => true end.
Proof using laws.
  intros Hi He Hr.
  rewrite (accepts_free _ ["media_health"; "software_version"; "deadline_remaining_seconds"; "ingest"]); [|reflexivity| |].
  - cbn [forallb HeartbeatRequest existsb String.eqb Ascii.eqb Bool.eqb negb orb andb]. unfold heartbeat_payload. cbv zeta.
    rewrite ?list_to_map_cons. cbn [fst snd]. rewrite !with_report_lookup by discriminate.
    rewrite with_report_at. repeat first [rewrite lookup_insert_eq|rewrite lookup_insert_ne by discriminate]. cbn [list_to_map foldr].
    rewrite !andb_true_r, <- remaining_text, !andb_assoc. f_equal. destruct ingest as [r|]; [|done]. by apply accepts_ingest, ingest_from_ok.
  - unfold heartbeat_payload. cbv zeta. repeat apply with_report_values.
    + intros o ->. destruct Hr as (path & answer & now & H). pose proof (relay_report_ok path answer now) as Ha. rewrite H in Ha. exact Ha.
    + intros o ->. destruct He as (file & now & max_age & env & H). pose proof (egress_report_ok str_of file now max_age env) as Ha.
      rewrite H in Ha. exact Ha.
    + done.
    + rewrite ?list_to_map_cons. cbn [fst snd]. repeat apply values_ok_insert; [..|apply values_ok_empty]; try done; try apply declared_bool.
      by destruct (match py_get health "media_stack" with VStr _ => _ | _ => _ end).
  - reflexivity.
Qed.
End heartbeat.
End accepted.

(** ** A run

    The conversions of pydantic as its documentation lists them, but for the texts of
    digits that are not ASCII. *)
Definition integral (f : float) : option Z :=
  match py_int (VFloat f) with Ok z => if feq_Z f z then Some z else None | Err _ => None end.
Definition truth_text (s : string) : option bool :=
  let s := py_lower s in
  if bool_decide (s ∈ ["true"; "t"; "yes"; "y"; "on"; "1"]) then Some true
  else if bool_decide (s ∈ ["false"; "f"; "no"; "n"; "off"; "0"]) then Some false else None.
#[local] Instance documented : Conversions :=
  {| as_int v := match v with
                 | VBool b => Some (Z.b2z b)
                 | VInt z => Some z
                 | VFloat f => integral f
                 | VStr s => match int_of_text s with Some z => Some z | None => (f ← float_of_text s; integral f) end
                 | _ => None
                 end;
     as_float v := match v with
                   | VBool b => Some (of_Z (Z.b2z b))
                   | VStr s => float_of_text s
                   | v => number_as_float v
                   end;
     as_bool v := match v with
                  | VBool b => Some b
                  | VInt 0 => Some false
                  | VInt 1 => Some true
                  | VFloat f => if feq_Z f 0 then Some false else if feq_Z f 1 then Some true else None
                  | VStr s => truth_text s
                  | _ => None
                  end |}.
#[local] Instance documented_laws : ConversionLaws.
Proof. split; [done| |done]. intros v f. by destruct v. Qed.

(** The media server may write the size of a track as a text, or as a float. *)
Definition demo_track (width : value) : value :=
  VDict (list_to_map [("codec", VStr "H264"); ("width", width); ("height", VFloat (of_Z 720)); ("profile", VStr "High")]).
Example demo_tracks :
  map (fun width => body_of TrackObservation (demo_track width))
    [VInt 1280; VStr "1280"; VFloat (of_Z 1280); VStr "1280.0"; VBool true; VFloat (fratio 5 2); VStr "wide"; VInt 0; VInt 20000] =
  [true; true; true; true; true; false; false; false; false].
Proof. vm_compute. reflexivity. Qed.

Definition demo_first : policy_state := (poll_once name_text demo_policy policy_start (demo_answer_of demo_good 1000000, VInt 10, None)).1.
Local Abbreviation demo_observed :=
  ((observe_and_enforce name_text demo_policy demo_first (demo_answer_of demo_good 2000000) (VInt 12) None).1.1).

Definition demo_lines (l : list string) : string := join_with line_feed l.
Definition demo_frame (kind key time : string) : string :=
  String.concat "" ["media_type="; kind; "|key_frame="; key; "|best_effort_timestamp_time="; time; "|pkt_dts_time=N/A"].
Definition demo_ffprobe (second : string) (media_type _ : string) : probe_run :=
  if String.eqb media_type "video"
  then ProbeCompleted 0 (demo_lines [demo_frame "video" "1" "100.0"; demo_frame "video" "0" second; demo_frame "video" "1" "104.0"]) EmptyString
  else ProbeCompleted 0 (demo_lines [demo_frame "audio" "1" "100.0"; demo_frame "audio" "1" "104.0"]) EmptyString.
Definition demo_quality : IngestQualityConfig := quality_config_from_env (fun _ => None).
Definition demo_sampler (second : string) (r : dict) : result dict :=
  (augment demo_quality sampler_start r (sample (fun _ => None) demo_quality None (demo_ffprobe second) (of_Z 4))).1.
Definition demo_health : dict := {[ "media_stack" := VStr "running" ]}.
Definition demo_heartbeat (r : dict) : dict := heartbeat_payload name_text demo_health (Some r) None None "0.5.0" (Some (of_Z 60)).

(** What a heartbeat says: the status, the reasons, the span, and whether it is taken. *)
Definition demo_outcome (second : string) : option (value * list string * value * bool) :=
  match _ingest_observation "live/input" (VInt 12) demo_observed (Some (demo_sampler second)) with
  | Ok r => Some (py_get r "status", report_texts (py_get r "reasons"),
                  match py_get r "quality" with VDict q => py_get q "video_timestamp_span_seconds" | _ => VNull end,
                  accepts HeartbeatRequest (demo_heartbeat r))
  | Err _ => None
  end.

Example demo_outcomes :
  (demo_outcome "102.0", demo_outcome "1.0") =
  (Some (VStr "DEGRADED", ["FPS_OUT_OF_RANGE"], VFloat (of_Z 4), true),
   Some (VStr "DEGRADED", ["VIDEO_TIMESTAMP_REGRESSION"; "FPS_OUT_OF_RANGE"; "GOP_TOO_LONG"], VFloat (of_Z 103), false)).
Proof. vm_compute. reflexivity. Qed.

Local Abbreviation demo_report second := (_ingest_observation "live/input" (VInt 12) demo_observed (Some (demo_sampler second))).

Lemma demo_report_from second r : demo_report second = Ok r -> ingest_from name_text (fun _ => None) demo_policy demo_quality (Some r).
Proof.
  intros H. exists demo_first, (demo_answer_of demo_good 2000000), (VInt 12), None, (VInt 12), (Some (demo_sampler second)).
  split; [exact H|]. by exists sampler_start, None, (demo_ffprobe second), (of_Z 4).
Qed.

(** A stream whose timestamps go back by more than a minute is degraded, and only that,
    for the sampler; the control plane refuses the heartbeat that says so, since it takes
    spans of at most 60 seconds. *)
Theorem timestamp_jump_is_refused :
  exists r, ingest_from name_text (fun _ => None) demo_policy demo_quality (Some r) /\ py_get r "status" = VStr "DEGRADED" /\
    accepts HeartbeatRequest (demo_heartbeat r) = false.
Proof.
  assert (Hb : match demo_report "1.0" with
               | Ok r => text_in (py_get r "status") ["DEGRADED"] && negb (accepts HeartbeatRequest (demo_heartbeat r))
               | Err _ => false end = true) by (vm_compute; reflexivity).
  destruct (demo_report "1.0") as [r|] eqn:E; [|discriminate Hb]. exists r. split; [exact (demo_report_from _ _ E)|].
  apply andb_prop in Hb as [Hs Ha]. apply negb_true_iff in Ha. split; [|exact Ha].
  destruct (py_get r "status") as [| | | |s| |]; try discriminate Hs. apply bool_decide_eq_true, list_elem_of_singleton in Hs as ->.
  reflexivity.
Qed.

Lemma heartbeats_are_accepted_witness :
  exists r, demo_report "102.0" = Ok r /\ accepts HeartbeatRequest (demo_heartbeat r) = true.
Proof.
  assert (Hb : match demo_report "102.0" with Ok r => ingest_fits r | Err _ => false end = true) by (vm_compute; reflexivity).
  destruct (demo_report "102.0") as [r|] eqn:E; [|discriminate Hb]. exists r. split; [reflexivity|].
  unfold demo_heartbeat.
  rewrite (heartbeats_are_accepted (laws := documented_laws) name_text (fun _ => None) demo_policy demo_quality
             demo_health (Some r) None None "0.5.0" (Some (of_Z 60)) (demo_report_from _ _ E) I I), Hb.
  reflexivity.
Defined.

Lemma quality_is_not_destructive_witness :
  exists r r', demo_observed = Ok r /\ demo_sampler "1.0" r = Ok r' /\
    text_in (py_get r "status") ["ACCEPTED"] = true /\ py_get r' "status" <> VStr "REJECTED" /\ py_get r' "status" = VStr "DEGRADED".
Proof.
  unfold demo_sampler.
  assert (Hb : match demo_observed, sample (fun _ => None) demo_quality None (demo_ffprobe "1.0") (of_Z 4) with
               | Ok r, Ok q => negb (not_sampled r) && is_ok (_safe_float (py_get r "bitrate_bps")) &&
                               negb (bool_decide (quality_reasons q = [])) && text_in (py_get r "status") ["ACCEPTED"]
               | _, _ => false end = true) by (vm_compute; reflexivity).
  destruct demo_observed as [r|]; [|discriminate Hb].
  destruct (sample (fun _ => None) demo_quality None (demo_ffprobe "1.0") (of_Z 4)) as [q|]; [|discriminate Hb].
  apply andb_prop in Hb as [[[Hn Hf]%andb_prop Hq]%andb_prop Hs]. apply negb_true_iff in Hn, Hq.
  destruct (_safe_float (py_get r "bitrate_bps")) as [b|] eqn:Eb; [|discriminate Hf].
  destruct (quality_is_not_destructive demo_quality sampler_start r (Ok q)) as (_ & H & _).
  destruct (H ltac:(rewrite not_sampled_idle, Hn; discriminate) q b eq_refl Eb) as (r' & n & lr & lw & Hr & _ & _ & _ & Hrej & Hdeg & _).
  exists r, r'. split; [reflexivity|]. split; [exact Hr|]. split; [exact Hs|]. split; [exact Hrej|]. apply Hdeg.
  apply bool_decide_eq_false in Hq. destruct (quality_reasons q); [done|]. by destruct (report_texts _).
Defined.
