(* ===== verification/AgentBootstrap.v ===== *)
(** * The bootstrap of a Node Agent

    [bootstrap], [write_secret], [seed_control_state] and [remove_secret] of
    [apps/node-agent/agent.py]: what the agent takes from the answer of the control
    plane, and the three files it makes of it, the publish URL and the verified address
    for the egress gateway and the first audio command for the continuity process.

    [str(v)] of what is no string is an argument, and so are the outcomes of the writes. *)

From S2P Require Import Prelude PyFloat Sha256 PyValue Json Effects Authority PyText TextFacts Uuid IpAddress Url ControlStore ControlReader.

(** ** Times *)
Definition _validated_deadline_time (v : value) : result float :=
  match nonneg_number v with Some f => Ok f | None => Err DeadlineClockError end.

Definition _bootstrap_absolute_deadline (response : dict) : result (option float) :=
  match response !! "absolute_deadline" with
  | None => Ok None
  | Some v => t ← _validated_deadline_time v; Ok (Some t)
  end.

(** [now] is what [time.time()] answers. *)
Definition _deadline_remaining (absolute_deadline now : value) : result float :=
  deadline ← _validated_deadline_time absolute_deadline;
  now ← _validated_deadline_time now;
  let remaining := fsub deadline now in
  raise_if (negb (is_finite remaining)) DeadlineClockError ;;
  Ok remaining.

(** ** [bootstrap] *)
Record assignment : Type := Assignment {
  assigned_node : string;
  assigned_session : string;
  assigned_deadline : option float;
  assigned_egress_mode : string
}.

Section agent.
Context (str_of : value -> string) (mapped : bool).

Definition some_text (v : value) : option string := let s := str_of v in if str_empty s then None else Some s.

(** [secrets.compare_digest] compares ASCII texts only. *)
Definition compare_digest (a b : string) : result bool :=
  let ascii := all_chars (fun c => byte_code c <? 128) in
  if ascii a && ascii b then Ok (String.eqb a b) else Err TypeError.

Definition bootstrap (node_access_token : string) (response : dict) : result assignment :=
  let field key := some_text (py_get_or response key (VStr EmptyString)) in
  deadline ← _bootstrap_absolute_deadline response;
  match field "node_access_token" with
  | Some returned => same ← compare_digest returned node_access_token; raise_if (negb same) RuntimeError
  | None => Ok tt
  end ;;
  let egress_mode := str_of (py_get_or response "egress_mode" (VStr "DIRECT_PUSH")) in
  raise_if (negb (bool_decide (egress_mode ∈ ["DIRECT_PUSH"; "RELAY_ONLY"]))) RuntimeError ;;
  match field "node_id", field "session_id" with
  | Some node_id, Some session_id =>
      raise_if (str_empty node_access_token) RuntimeError ;;
      Ok (Assignment node_id session_id deadline egress_mode)
  | _, _ => Err RuntimeError
  end.

(** ** Files *)
Record node_files : Type := NodeFiles {
  egress_url_file : option string;
  peer_ip_file : option string;
  control_state_file : option raw
}.

(** A file is replaced by one that has been written completely: a write is done, or it
    raises before or after the replacement. *)
Inductive write_fate : Type := WriteDone | WriteLost | WriteKept.

Definition replaced {A} (o : write_fate) (old : option A) (new : A) : option A :=
  match o with WriteLost => old | _ => Some new end.
Definition write_result (o : write_fate) : result unit := match o with WriteDone => Ok tt | _ => Err OSError end.

Definition line_end : string := String (Ascii.ascii_of_nat 10) EmptyString.
Definition secret_line (s : string) : string := String.append s line_end.

Definition without_secrets (files : node_files) : node_files := NodeFiles None None (control_state_file files).

(** ** [write_secret] *)
Definition is_loopback (a : ip_addr) : bool :=
  match a with
  | V4 n => in_network 32 n (ip4 127 0 0 0, 8)
  | V6 n _ => match ipv4_mapped n with
              | Some m => if mapped then in_network 32 m (ip4 127 0 0 0, 8) else false
              | None => n =? 1
              end
  end.
Definition is_link_local (a : ip_addr) : bool :=
  match a with
  | V4 n => in_network 32 n (ip4 169 254 0 0, 16)
  | V6 n _ => match ipv4_mapped n with
              | Some m => if mapped then in_network 32 m (ip4 169 254 0 0, 16) else false
              | None => in_network 128 n (ip6 65152 0 0, 10)
              end
  end.

(** The URL and the address that are written. *)
Definition egress_delivery (response : dict) : result (string * string) :=
  let egress_url := str_of (py_get_or response "egress_url" (VStr EmptyString)) in
  raise_if (str_empty egress_url) RuntimeError ;;
  let peer_ip := py_strip (str_of (py_get_or response "egress_verified_peer_ip" (VStr EmptyString))) in
  match ip_address peer_ip with
  | None => Err RuntimeError
  | Some a =>
      raise_if (is_unspecified mapped a || is_loopback a || is_multicast mapped a || is_link_local a) RuntimeError ;;
      Ok (egress_url, peer_ip)
  end.

(** [Ok true]: the secret is there; [Ok false]: there is none to have. [directory] tells
    whether the directory could be made; a file that is removed may be gone already. *)
Definition write_secret (egress_mode : string) (response : dict) (directory : bool) (write_url write_peer : write_fate)
    (files : node_files) : result bool * node_files :=
  let egress_mode := str_of (py_get_or response "egress_mode" (VStr egress_mode)) in
  if String.eqb egress_mode "RELAY_ONLY" then (Ok false, without_secrets files)
  else if negb directory then (Err OSError, files)
  else
    match egress_delivery response with
    | Err e => (Err e, files)
    | Ok (egress_url, peer_ip) =>
        match write_result write_url with
        | Err e => (Err e, without_secrets files)
        | Ok _ =>
            match write_result write_peer with
            | Err e => (Err e, without_secrets files)
            | Ok _ => (Ok true, NodeFiles (Some (secret_line egress_url)) (Some (secret_line peer_ip)) (control_state_file files))
            end
        end
    end.

Definition remove_secret (secret_path : bool) (files : node_files) : node_files :=
  if secret_path then without_secrets files else files.

(** ** [seed_control_state] *)
Definition seed_payload (response : dict) (now : value) : result dict :=
  mode ← match py_get_or response "audio_mode" (VStr "LIVE") with
         | VStr m => if bool_decide (m ∈ ["LIVE"; "MUTED"]) then Ok m else Err RuntimeError
         | _ => Err RuntimeError
         end;
  version ← match py_get_or response "audio_version" (VInt 0) with
            | VInt n => if n <? 0 then Err RuntimeError else Ok n
            | _ => Err RuntimeError
            end;
  let command_id := py_get response "audio_command_id" in
  raise_if (match command_id with
            | VNull => false
            | VStr s => match parse_uuid s with Some _ => false | None => true end
            | _ => true end) RuntimeError ;;
  let idempotency_key := py_get response "audio_idempotency_key" in
  raise_if (match idempotency_key with
            | VNull => false
            | VStr s => str_empty s || Nat.ltb 200 (py_len s)
            | _ => true end) RuntimeError ;;
  updated_at ← match nonneg_number (py_get_or response "audio_updated_at" now) with Some f => Ok f | None => Err RuntimeError end;
  Ok (list_to_map
    [("audio_mode", VStr mode); ("version", VInt version); ("command_id", command_id);
     ("idempotency_key", idempotency_key); ("updated_at", VFloat updated_at)]).

(** [configured]: whether there is a path for the file. *)
Definition seed_control_state (configured : bool) (response : dict) (now : value) (write : write_fate) (files : node_files)
    : result unit * node_files :=
  if negb configured || bool_decide (is_Some (control_state_file files)) then (Ok tt, files)
  else
    match seed_payload response now with
    | Err e => (Err e, files)
    | Ok payload =>
        match json_dump (VDict payload) with
        | Err _ => (Err RuntimeError, files)
        | Ok text => (write_result write,
                      NodeFiles (egress_url_file files) (peer_ip_file files) (replaced write (control_state_file files) text))
        end
    end.
End agent.

(** ** The secret files *)
Lemma write_secret_outcome str_of mapped mode response directory u p files :
  match write_secret str_of mapped mode response directory u p files with
  | (Ok true, files') => exists url peer, egress_delivery str_of mapped response = Ok (url, peer) /\
      files' = NodeFiles (Some (secret_line url)) (Some (secret_line peer)) (control_state_file files)
  | (Ok false, files') => files' = without_secrets files
  | (Err e, files') => files' = without_secrets files \/ files' = files
  end.
Proof.
  unfold write_secret. cbv zeta. destruct (String.eqb _ _); [done|]. destruct directory; cbn [negb]; [|by right].
  destruct (egress_delivery str_of mapped response) as [[url peer]|e]; [|by right].
  destruct u; [destruct p|..]; cbn; eauto.
Qed.

(** The secret files are written together or not at all: after [write_secret], whatever
    write failed, the two files hold the URL and the address of one answer, whose address
    can be connected to, or both are gone, or it failed before anything was touched; and [remove_secret] removes what was written. *)
Theorem secrets_come_in_pairs str_of mapped mode response directory u p files :
  let '(r, files') := write_secret str_of mapped mode response directory u p files in
  control_state_file files' = control_state_file files /\
  match r with
  | Ok true => exists url peer a, egress_url_file files' = Some (secret_line url) /\ peer_ip_file files' = Some (secret_line peer) /\
      url <> EmptyString /\ ip_address peer = Some a /\ is_unspecified mapped a = false /\ is_loopback mapped a = false /\
      is_multicast mapped a = false /\ is_link_local mapped a = false /\
      remove_secret true files' = without_secrets files
  | Ok false => files' = without_secrets files
  | Err _ => files' = without_secrets files \/ files' = files
  end.
Proof.
  pose proof (write_secret_outcome str_of mapped mode response directory u p files) as H.
  destruct (write_secret _ _ _ _ _ _ _ _) as [[[]|e] files'].
  - destruct H as (url & peer & Hd & ->). split; [done|]. revert Hd. unfold egress_delivery. cbv zeta.
    set (sent := str_of (py_get_or response "egress_url" _)). set (address := py_strip _). intros Hd.
    apply result_bind_ok in Hd as ([] & Hu & Hd).
    destruct (ip_address address) as [a|] eqn:Ea; [|done]. apply result_bind_ok in Hd as ([] & Hb & Hd).
    injection Hd as <- <-. exists sent, address, a. rewrite Ea. unfold raise_if in Hu, Hb.
    destruct (str_empty sent) eqn:Es; [done|]. apply str_empty_false in Es.
    destruct (_ || _) eqn:E in Hb; [done|]. apply orb_false_iff in E as [[[E1 E2]%orb_false_iff E3]%orb_false_iff E4].
    done.
  - by subst.
  - destruct H as [->| ->]; auto.
Qed.

(** ** The seeded command *)
Lemma seed_payload_ok response now payload :
  seed_payload response now = Ok payload ->
  exists mode version updated_at,
    payload = list_to_map [("audio_mode", VStr mode); ("version", VInt version); ("command_id", py_get response "audio_command_id");
                           ("idempotency_key", py_get response "audio_idempotency_key"); ("updated_at", VFloat updated_at)] /\
    py_get_or response "audio_mode" (VStr "LIVE") = VStr mode /\ mode ∈ ["LIVE"; "MUTED"] /\
    py_get_or response "audio_version" (VInt 0) = VInt version /\ 0 <= version /\
    match py_get response "audio_command_id" with
    | VNull => True | VStr s => is_Some (parse_uuid s) | _ => False end /\
    match py_get response "audio_idempotency_key" with
    | VNull => True | VStr s => bad_key s = false | _ => False end /\
    nonneg_number (py_get_or response "audio_updated_at" now) = Some updated_at.
Proof.
  unfold seed_payload. intros H. apply result_bind_ok in H as (mode & Hm & H). apply result_bind_ok in H as (version & Hv & H).
  cbv zeta in H. apply result_bind_ok in H as ([] & Hc & H). apply result_bind_ok in H as ([] & Hk & H).
  apply result_bind_ok in H as (t & Ht & [= <-]). exists mode, version, t. split; [done|].
  destruct (py_get_or response "audio_mode" _) as [| | | |m| |]; try done. case_bool_decide as Hin; [|done]. injection Hm as ->.
  destruct (py_get_or response "audio_version" _) as [| |n| | | |]; try done. destruct (n <? 0) eqn:En; [done|]. injection Hv as ->.
  destruct (nonneg_number _) as [f|]; [|done]. injection Ht as ->.
  split; [done|]. split; [done|]. split; [done|]. split; [lia|]. split; [|split; [|done]].
  - destruct (py_get response "audio_command_id") as [| | | |s| |]; try done. destruct (parse_uuid s); [by eexists|done].
  - destruct (py_get response "audio_idempotency_key") as [| | | |s| |]; try done. unfold bad_key. by destruct (_ || _).
Qed.

(** What is seeded is a command of the authority, as the control plane writes them. *)
Lemma seed_payload_valid response now payload :
  seed_payload response now = Ok payload ->
  exists c, payload = encode_control c /\ _validate_control (VDict payload) = Ok c /\
    py_get_or response "audio_mode" (VStr "LIVE") = VStr (audio_mode c) /\
    py_get_or response "audio_version" (VInt 0) = VInt (version c) /\
    py_get response "audio_command_id" = opt_str (command_id c).
Proof.
  intros H. apply seed_payload_ok in H as (mode & version & t & -> & Hm & Hin & Hv & Hn & Hc & Hk & Ht).
  exists (Control mode version (as_str (py_get response "audio_command_id")) (as_str (py_get response "audio_idempotency_key")) t).
  unfold encode_control. cbn [audio_mode ControlStore.version command_id idempotency_key updated_at].
  assert (Hf : nonneg_number (VFloat t) = Some t).
  { apply nonneg_number_spec in Ht as [H1 H2]. by apply nonneg_number_float. }
  assert (Ec : py_get response "audio_command_id" = opt_str (as_str (py_get response "audio_command_id")))
    by (by destruct (py_get response "audio_command_id")).
  assert (Ek : py_get response "audio_idempotency_key" = opt_str (as_str (py_get response "audio_idempotency_key")))
    by (by destruct (py_get response "audio_idempotency_key")).
  split; [by rewrite <- Ec, <- Ek|]. split; [|done].
  unfold _validate_control. rewrite ?list_to_map_cons. cbn [fst snd]. record_fields.
  rewrite bool_decide_eq_true_2 by done. cbn [mbind result_bind]. unfold nonneg_int. replace (version <? 0) with false by lia.
  cbn [mbind result_bind]. unfold optional_text, _normalize_update_time. rewrite Hf.
  destruct (py_get response "audio_command_id") as [| | | |s| |]; try done;
  destruct (py_get response "audio_idempotency_key") as [| | | |k| |]; try done; rewrite ?Hk, ?bool_decide_eq_true_2 by done; done.
Qed.

(** C40: the seeded audio command is the one that is read. When the agent has seeded the
    file of the audio command, the reader of the continuity process, from whatever state,
    reports the mode, the version and the command that the control plane answered; the
    validator of the control plane takes the file too; and a file that was there is never
    touched. *)
Theorem seeded_command_is_read configured response now o files files' last :
  seed_control_state configured response now o files = (Ok tt, files') ->
  egress_url_file files' = egress_url_file files /\ peer_ip_file files' = peer_ip_file files /\
  match control_state_file files with
  | Some r => control_state_file files' = Some r
  | None =>
      configured = true ->
      exists r c, control_state_file files' = Some r /\ load_json_authority r = Ok (VDict (encode_control c)) /\
        _validate_control (VDict (encode_control c)) = Ok c /\
        py_get_or response "audio_mode" (VStr "LIVE") = VStr (audio_mode c) /\
        py_get_or response "audio_version" (VInt 0) = VInt (version c) /\
        py_get response "audio_command_id" = opt_str (command_id c) /\
        read last (Observe false (Present r)) = ((seen c, None), Some (seen c))
  end.
Proof.
  unfold seed_control_state. destruct (control_state_file files) as [r|] eqn:Ef.
  { rewrite orb_true_r. intros [= <-]. by rewrite Ef. }
  destruct configured; [|intros [= <-]; by rewrite Ef]. cbn [negb orb bool_decide].
  rewrite bool_decide_eq_false_2 by (by intros []). destruct (seed_payload response now) as [payload|] eqn:Ep; [|done].
  destruct (json_dump (VDict payload)) as [r|] eqn:Ej; [|done]. destruct o; cbn; [|done..]. intros [= <-].
  split; [done|]. split; [done|]. intros _. apply seed_payload_valid in Ep as (c & -> & Hv & Hm & Hn & Hc).
  apply load_json_authority_dump in Ej. exists r, c. cbn [control_state_file replaced].
  do 6 (split; [done|]). unfold read, current. cbn [unreadable found]. rewrite Ej. cbn [mbind result_bind].
  by rewrite validators_agree, Hv.
Qed.

(** ** A run *)
Definition demo_answer : dict :=
  list_to_map [("node_id", VStr "node-1"); ("session_id", VStr "s-1"); ("egress_mode", VStr "DIRECT_PUSH");
    ("egress_url", VStr "rtmp://live.example/app/key"); ("egress_verified_peer_ip", VStr "192.0.2.7"); ("audio_mode", VStr "MUTED");
    ("audio_version", VInt 3); ("audio_updated_at", VInt 100)].
Definition demo_files : node_files := NodeFiles None None None.

Example demo_bootstrap :
  match bootstrap name_text "token" demo_answer with Ok a => Some (assigned_node a, assigned_egress_mode a) | Err _ => None end =
    Some ("node-1", "DIRECT_PUSH") /\
  write_secret name_text true "DIRECT_PUSH" demo_answer true WriteDone WriteLost demo_files = (Err OSError, demo_files) /\
  peer_ip_file (write_secret name_text true "DIRECT_PUSH" demo_answer true WriteDone WriteDone demo_files).2 = Some (secret_line "192.0.2.7").
Proof. vm_compute. auto. Qed.

Lemma seeded_command_is_read_witness :
  exists files', seed_control_state true demo_answer (VInt 5) WriteDone demo_files = (Ok tt, files') /\ egress_url_file files' = None.
Proof.
  assert (Hb : is_ok (seed_control_state true demo_answer (VInt 5) WriteDone demo_files).1 = true) by (vm_compute; reflexivity).
  destruct (seed_control_state true demo_answer (VInt 5) WriteDone demo_files) as [[[]|e] files'] eqn:E; [|discriminate Hb].
  exists files'. split; [reflexivity|].
  exact (proj1 (seeded_command_is_read true demo_answer (VInt 5) WriteDone demo_files files' None E)).
Defined.
