(* ===== verification/Supervisor.v ===== *)
(** * The supervisor of the media stack

    [ComposeSupervisor] of [apps/node-agent/supervisor.py]: it starts, stops and observes
    containers that exist already through the [docker compose] command. What a command
    answers and what the monotonic clock reads are sequences of answers, one per call;
    the commands are kept in a trace. [AgentLifecycle.v] sees a supervisor through its
    outcomes only. *)

From S2P Require Import Prelude PyFloat Sha256 PyValue Json Effects Authority PyText TextFacts JsonText Uuid IpAddress Url EgressDestination StateFile NodeAuthority AttemptSupervisor EgressStatus IngestPolicy IngestQuality.

Record SupervisionResult : Type := Supervised { ok : bool; detail : string }.

(** A command that ran, or could not be run (an [OSError] or a timeout, with its text). *)
Inductive command_answer : Type :=
| Ran (returncode : Z) (stdout stderr : string)
| NotRun (error : string).

Record completed : Type := Completed { returncode : Z; stdout : string; stderr : string }.

Record compose_world : Type := ComposeWorld {
  commands : list (list string);          (* latest first *)
  readings : nat                          (* of the clock *)
}.

Inductive media_state := MediaRunning | MediaStarting | MediaStopped | MediaUnknown.

Definition media_text (s : media_state) : string :=
  match s with
  | MediaRunning => "running" | MediaStarting => "starting" | MediaStopped => "stopped" | MediaUnknown => "unknown"
  end.

Definition _egress_gateway_enabled (env : environ) : bool :=
  negb (bool_decide (py_lower (py_strip (default "1" (env "EGRESS_GATEWAY_ENABLED"))) ∈ ["0"; "false"; "no"; "off"])).

Definition _services_for_mode (env : environ) (egress_mode : string) : list string :=
  ["mediamtx"; "continuity"] ++
  (if negb (String.eqb egress_mode "RELAY_ONLY") && _egress_gateway_enabled env then ["egress-gateway"] else []).

Section compose.
Context (docker : nat -> list string -> command_answer) (monotonic : nat -> float).
Context (json_text : string -> option raw) (str_of : value -> string).
Context (env : environ) (compose_file_there : bool) (startup_timeout_seconds : float).

Definition _compose (args : list string) (w : compose_world) : completed * compose_world :=
  (match docker (length (commands w)) args with
   | Ran code out err => Completed code out err
   | NotRun error => Completed 127 EmptyString error
   end, ComposeWorld (args :: commands w) (readings w)).

Definition time_monotonic (w : compose_world) : float * compose_world :=
  (monotonic (readings w), ComposeWorld (commands w) (S (readings w))).

(** ** What [docker compose ps] says *)
Definition ps_row (text : string) : option dict :=
  match json_text text with
  | Some r => match json_loads r with Ok (VDict d) => Some d | _ => None end
  | None => None
  end.

(** The rows, or [None] for any of the errors that the caller catches. *)
Definition _parse_ps (output : string) : option (list dict) :=
  let payload := py_strip output in
  match payload with
  | EmptyString => Some []
  | String c _ =>
      if Ascii.eqb c "[" then
        match json_text payload with
        | Some r => match json_loads r with Ok (VList l) => mapM as_dict l | _ => None end
        | None => None
        end
      else mapM ps_row (let ls := lines_from 0 payload in
                        match last ls with Some EmptyString => removelast ls | _ => ls end)
  end.

(** The latest row of a service. *)
Definition row_of (rows : list dict) (service : string) : option dict :=
  List.find (fun row => truthy (py_get row "Service") && String.eqb (str_of (py_get_or row "Service" (VStr EmptyString))) service)
    (reverse rows).

Definition row_text (row : dict) (key : string) : string := py_lower (str_of (py_get_or row key (VStr EmptyString))).

Fixpoint judge_services (rows : list dict) (services : list string) : media_state :=
  match services with
  | [] => MediaRunning
  | service :: rest =>
      match row_of rows service with
      | None => MediaStopped
      | Some row =>
          if negb (String.eqb (row_text row "State") "running") then MediaStopped
          else if negb (bool_decide (row_text row "Health" ∈ [""; "healthy"])) then MediaStarting
          else judge_services rows rest
      end
  end.

Definition _health_from_ps (required_services : list string) (result : completed) : media_state :=
  if negb (returncode result =? 0) then MediaUnknown
  else match _parse_ps (stdout result) with
       | None => MediaUnknown
       | Some rows =>
           if existsb (fun service => match row_of rows service with None => true | Some _ => false end) required_services
           then MediaStopped else judge_services rows required_services
       end.

Definition ps_command (services : list string) : list string := ["ps"; "--all"; "--format"; "json"] ++ services.

Definition _read_health (services : list string) (w : compose_world) : media_state * compose_world :=
  let '(ps, w) := _compose (ps_command services) w in (_health_from_ps services ps, w).

Definition health (services : list string) (w : compose_world) : media_state * compose_world :=
  if compose_file_there then _read_health services w else (MediaUnknown, w).

(** ** [start] *)
Definition stripped_or (text dflt : string) : string := let s := py_strip text in if str_empty s then dflt else s.

Definition _preflight (w : compose_world) : SupervisionResult * compose_world :=
  if negb compose_file_there then (Supervised false "compose file is missing", w)
  else let '(version, w) := _compose ["version"] w in
       if negb (returncode version =? 0) then (Supervised false (stripped_or (stderr version) "docker compose is unavailable"), w)
       else (Supervised true "compose preflight passed", w).

(** The wait for the services; [None] when the fuel is used up. *)
Fixpoint await (fuel : nat) (services : list string) (deadline : float) (w : compose_world)
    : option (SupervisionResult * compose_world) :=
  match fuel with
  | O => None
  | S fuel =>
      let '(state, w) := _read_health services w in
      match state with
      | MediaRunning => Some (Supervised true "required media services are running", w)
      | _ =>
          let '(now, w) := time_monotonic w in
          if fle deadline now
          then Some (Supervised false (String.append "media services did not become ready: " (media_text state)), w)
          else await fuel services deadline w
      end
  end.

Definition start_services (fuel : nat) (services : list string) (w : compose_world) : option (SupervisionResult * compose_world) :=
  let '(result, w) := _compose ("start" :: services) w in
  if negb (returncode result =? 0) then Some (Supervised false (stripped_or (stderr result) "compose start failed"), w)
  else let '(now, w) := time_monotonic w in await fuel services (fadd now startup_timeout_seconds) w.

Definition start (fuel : nat) (egress_mode : string) (w : compose_world) : option (SupervisionResult * compose_world) :=
  let '(preflight, w) := _preflight w in
  if negb (ok preflight) then Some (preflight, w)
  else
    let required_services := _services_for_mode env egress_mode in
    if negb (bool_decide ("egress-gateway" ∈ required_services)) then
      let '(disabled, w) := _compose ["stop"; "egress-gateway"] w in
      if negb (returncode disabled =? 0)
      then Some (Supervised false (stripped_or (stderr disabled) "cannot stop disabled egress gateway"), w)
      else start_services fuel required_services w
    else start_services fuel required_services w.

(** ** [stop] *)
Definition stop_command : list string := ["stop"; "-t"; "10"; "egress-gateway"; "continuity"; "mediamtx"].

Fixpoint stop_attempts (attempts : nat) (last_detail : string) (w : compose_world) : SupervisionResult * compose_world :=
  match attempts with
  | O => (Supervised false last_detail, w)
  | S attempts =>
      let '(stopped, w) := _compose stop_command w in
      if returncode stopped =? 0 then (Supervised true (stripped_or (stderr stopped) "media services stopped"), w)
      else stop_attempts attempts (stripped_or (stderr stopped) last_detail) w
  end.

Definition stop (w : compose_world) : SupervisionResult * compose_world := stop_attempts 3 "media services stop failed" w.

(** ** What [running] means *)
Definition service_up (rows : list dict) (service : string) : Prop :=
  exists row, row_of rows service = Some row /\ row_text row "State" = "running" /\ row_text row "Health" ∈ [""; "healthy"].

Lemma judge_running rows services : judge_services rows services = MediaRunning <-> Forall (service_up rows) services.
Proof.
  induction services as [|s services IH]; cbn; [done|]. rewrite Forall_cons, <- IH. unfold service_up.
  destruct (row_of rows s) as [row|]; [|split; [done|by intros [(? & ? & _) _]]].
  destruct (String.eqb_spec (row_text row "State") "running") as [E|E]; cbn [negb].
  - case_bool_decide as Hh; cbn [negb].
    + split; [intros H; split; [by exists row|done]|by intros [_ H]].
    + split; [done|]. by intros [(? & [= <-] & _ & H) _].
  - split; [done|]. by intros [(? & [= <-] & H & _) _].
Qed.

(** The health of the stack. It is reported as running exactly when [docker compose
    ps] succeeded with readable rows in which the latest row of every required service
    is running, and healthy where it has a health check. *)
Theorem running_means_every_service required_services result :
  _health_from_ps required_services result = MediaRunning <->
  returncode result = 0 /\ exists rows, _parse_ps (stdout result) = Some rows /\ Forall (service_up rows) required_services.
Proof.
  unfold _health_from_ps. destruct (returncode result =? 0) eqn:Ec; cbn [negb].
  2: { apply Z.eqb_neq in Ec. split; [done|by intros [? _]]. }
  apply Z.eqb_eq in Ec. destruct (_parse_ps (stdout result)) as [rows|]; [|split; [done|by intros (_ & ? & ? & _)]].
  destruct (existsb _ required_services) eqn:Ee.
  - split; [done|]. intros (_ & rows' & [= <-] & H). apply existsb_exists in Ee as (s & Hs & Er).
    rewrite Forall_forall in H. apply list_elem_of_In in Hs. destruct (H s Hs) as (row & E & _). by rewrite E in Er.
  - rewrite judge_running. split; [intros H; split; [done|by exists rows]|by intros (_ & ? & [= <-] & H)].
Qed.

(** ** The commands *)
Definition known_commands (services : list string) : list (list string) :=
  [["version"]; ["stop"; "egress-gateway"]; "start" :: services; ps_command services; stop_command].

(** The commands that a call adds are among the known ones. *)
Definition adds (services : list string) (w w' : compose_world) : Prop :=
  exists new, commands w' = new ++ commands w /\ Forall (fun c => c ∈ known_commands services) new.

Lemma adds_refl services w w' : commands w' = commands w -> adds services w w'.
Proof. intros H. exists []. split; [done|constructor]. Qed.
Lemma adds_trans services w1 w2 w3 : adds services w1 w2 -> adds services w2 w3 -> adds services w1 w3.
Proof.
  intros (n1 & E1 & H1) (n2 & E2 & H2). exists (n2 ++ n1). split; [by rewrite E2, E1, app_assoc|by apply Forall_app].
Qed.
Lemma adds_command services c w r w' : c ∈ known_commands services -> _compose c w = (r, w') -> adds services w w'.
Proof. intros Hc [= _ <-]. exists [c]. split; [done|by apply Forall_singleton]. Qed.

Ltac known E := eapply adds_command; [|exact E]; apply list_elem_of_In; cbn; tauto.

Lemma await_spec fuel services deadline : forall w r w',
  await fuel services deadline w = Some (r, w') ->
  adds services w w' /\
  (ok r = true -> exists w1 ps, _compose (ps_command services) w1 = (ps, w') /\ _health_from_ps services ps = MediaRunning).
Proof.
  induction fuel as [|fuel IH]; intros w r w' H; [done|]. cbn [await] in H. unfold _read_health in H.
  destruct (_compose (ps_command services) w) as [ps w1] eqn:Ec. assert (Ha : adds services w w1) by known Ec.
  assert (Hrec : forall s, s = _health_from_ps services ps -> s <> MediaRunning ->
    (let '(now, w2) := time_monotonic w1 in
     if fle deadline now then Some (Supervised false (String.append "media services did not become ready: " (media_text s)), w2)
     else await fuel services deadline w2) = Some (r, w') ->
    adds services w w' /\
    (ok r = true -> exists w1 ps, _compose (ps_command services) w1 = (ps, w') /\ _health_from_ps services ps = MediaRunning)).
  { intros s _ _. unfold time_monotonic. destruct (fle deadline _).
    - intros [= <- <-]. split; [|done]. eapply adds_trans; [exact Ha|by apply adds_refl].
    - intros [Hb Hr]%IH. split; [|exact Hr]. eapply adds_trans; [exact Ha|]. eapply adds_trans; [|exact Hb]. by apply adds_refl. }
  destruct (_health_from_ps services ps) eqn:Eh; try (by apply (Hrec _ eq_refl)).
  injection H as <- <-. split; [exact Ha|]. intros _. by exists w, ps.
Qed.

Lemma start_services_spec fuel services w r w' :
  start_services fuel services w = Some (r, w') ->
  adds services w w' /\
  (ok r = true -> exists w1 ps, _compose (ps_command services) w1 = (ps, w') /\ _health_from_ps services ps = MediaRunning).
Proof.
  unfold start_services. destruct (_compose ("start" :: services) w) as [result w1] eqn:Ec.
  assert (Ha : adds services w w1) by known Ec. destruct (negb _).
  - intros [= <- <-]. by split.
  - unfold time_monotonic. intros [Hb Hr]%await_spec. split; [|exact Hr].
    eapply adds_trans; [exact Ha|]. eapply adds_trans; [|exact Hb]. by apply adds_refl.
Qed.

(** A started stack runs. However the commands answer, [start] issues no command but
    the version check, the stop of a gateway that is switched off, the start of the
    required services and the observation; and when it reports success, the last of
    them showed every required service running. *)
Theorem started_means_running fuel egress_mode w r w' :
  start fuel egress_mode w = Some (r, w') ->
  adds (_services_for_mode env egress_mode) w w' /\
  (ok r = true ->
     exists w1 ps rows, _compose (ps_command (_services_for_mode env egress_mode)) w1 = (ps, w') /\ returncode ps = 0 /\
       _parse_ps (stdout ps) = Some rows /\ Forall (service_up rows) (_services_for_mode env egress_mode)).
Proof.
  unfold start. set (services := _services_for_mode env egress_mode). intros H.
  cut (adds services w w' /\ (ok r = true -> exists w1 ps, _compose (ps_command services) w1 = (ps, w') /\
    _health_from_ps services ps = MediaRunning)).
  { intros [Ha Hr]. split; [exact Ha|]. intros Hok. destruct (Hr Hok) as (w1 & ps & E & Hh).
    unfold _health_from_ps in Hh. destruct (returncode ps =? 0) eqn:Ec; [|done]. apply Z.eqb_eq in Ec. cbn [negb] in Hh.
    destruct (_parse_ps (stdout ps)) as [rows|] eqn:Ep; [|done]. destruct (existsb _ services); [done|].
    apply judge_running in Hh. by exists w1, ps, rows. }
  unfold _preflight in H. destruct (negb compose_file_there).
  { cbn in H. injection H as <- <-. split; [by apply adds_refl|done]. }
  destruct (_compose ["version"] w) as [version w1] eqn:Ev. assert (Hv : adds services w w1) by known Ev.
  destruct (negb (returncode version =? 0)); cbn [ok negb] in H; [injection H as <- <-; by split|].
  destruct (negb (bool_decide ("egress-gateway" ∈ services))).
  - destruct (_compose ["stop"; "egress-gateway"] w1) as [disabled w2] eqn:Ed.
    assert (Hd : adds services w1 w2) by known Ed.
    destruct (negb _); [injection H as <- <-; split; [by eapply adds_trans|done]|].
    apply start_services_spec in H as [Hs Hr]. split; [|exact Hr]. eapply adds_trans; [exact Hv|]. by eapply adds_trans.
  - apply start_services_spec in H as [Hs Hr]. split; [|exact Hr]. by eapply adds_trans.
Qed.

(** ** The wait ends *)
Lemma await_ends k services deadline : forall w,
  fle deadline (monotonic (readings w + k)) = true -> is_Some (await (S k) services deadline w).
Proof.
  induction k as [|k IH]; intros w Hk.
  - cbn. unfold _read_health, _compose, time_monotonic. cbn [readings]. rewrite Nat.add_0_r in Hk. rewrite Hk.
    destruct (_health_from_ps _ _); by eexists.
  - remember (S k) as k1 eqn:Ek1. cbn [await]. unfold _read_health, _compose, time_monotonic. cbn [readings].
    destruct (_health_from_ps _ _); [by eexists|..]; (destruct (fle deadline (monotonic (readings w))); [by eexists|]);
      subst k1; apply IH; cbn [readings]; by rewrite Nat.add_succ_l, <- Nat.add_succ_r.
Qed.

(** The call of [start] ends: once the clock has passed the startup timeout after [k]
    readings, [S k] rounds are enough. *)
Theorem start_ends k egress_mode w :
  fle (fadd (monotonic (readings w)) startup_timeout_seconds) (monotonic (S (readings w) + k)) = true ->
  is_Some (start (S k) egress_mode w).
Proof.
  intros Hk.
  assert (Hs : forall services w1, readings w1 = readings w -> is_Some (start_services (S k) services w1)).
  { intros services w1 Hr. unfold start_services, _compose, time_monotonic. cbn [readings]. rewrite Hr.
    destruct (negb _); [by eexists|]. apply await_ends. cbn [readings]. exact Hk. }
  unfold start, _preflight. destruct (negb compose_file_there); [by eexists|]. unfold _compose.
  destruct (negb (returncode _ =? 0)); cbn [ok negb]; [by eexists|]. destruct (negb (bool_decide _)); [|by apply Hs].
  destruct (negb _); [by eexists|]. by apply Hs.
Qed.

(** ** [stop] *)

Definition succeeded (n : nat) (command : list string) : Prop :=
  match docker n command with Ran code _ _ => code = 0 | NotRun _ => False end.

Lemma compose_succeeded command w : (returncode (_compose command w).1 =? 0) = true <-> succeeded (length (commands w)) command.
Proof. unfold _compose, succeeded. destruct (docker _ _); cbn; [by rewrite Z.eqb_eq|done]. Qed.

(** The call of [stop] always returns: it succeeds when one of its three attempts does,
    and it makes no attempt after the first that does. *)
Theorem stop_retries n last_detail : forall w,
  let '(r, w') := stop_attempts n last_detail w in
  (ok r = true <-> exists i, (i < n)%nat /\ succeeded (length (commands w) + i) stop_command) /\
  exists m, (m <= n)%nat /\ commands w' = repeat stop_command m ++ commands w.
Proof.
  revert last_detail. induction n as [|n IH]; intros last_detail w; cbn [stop_attempts].
  { split; [split; [done|]; by intros (i & ? & _); lia|]. by exists 0%nat. }
  pose proof (compose_succeeded stop_command w) as Hc.
  assert (Hw : commands (_compose stop_command w).2 = stop_command :: commands w) by done.
  destruct (_compose stop_command w) as [stopped w1]. cbn [fst snd] in Hc, Hw. destruct (returncode stopped =? 0).
  - split; [split; [intros _|done]|exists 1%nat; split; [lia|by rewrite Hw]].
    exists 0%nat. rewrite Nat.add_0_r. split; [lia|by apply Hc].
  - specialize (IH (stripped_or (stderr stopped) last_detail) w1). destruct (stop_attempts n _ w1) as [r w'].
    destruct IH as [IH (m & Hm & E)]. rewrite Hw in IH, E. cbn [length] in IH. split.
    + rewrite IH. split; intros (i & Hi & H).
      * exists (S i). rewrite Nat.add_succ_r. split; [lia|done].
      * destruct i as [|i]; [rewrite Nat.add_0_r in H; by apply Hc in H|]. exists i. rewrite Nat.add_succ_r in H. split; [lia|done].
    + exists (S m). split; [lia|]. rewrite E. change (repeat stop_command (S m)) with (stop_command :: repeat stop_command m). by rewrite repeat_cons, <- app_assoc.
Qed.
End compose.

(** ** [FakeSupervisor] *)
Record fake_supervisor : Type := FakeSupervisor {
  started_sessions : list string;
  started_egress_modes : list string;
  stopped_sessions : list string;
  fake_running : bool
}.
Definition fake_new : fake_supervisor := FakeSupervisor [] [] [] false.
Definition fake_start (session_id egress_mode : string) (s : fake_supervisor) : SupervisionResult * fake_supervisor :=
  (Supervised true "fake media stack started",
   FakeSupervisor (started_sessions s ++ [session_id]) (started_egress_modes s ++ [egress_mode]) (stopped_sessions s) true).
Definition fake_stop (session_id : string) (s : fake_supervisor) : SupervisionResult * fake_supervisor :=
  (Supervised true "fake media stack stopped",
   FakeSupervisor (started_sessions s) (started_egress_modes s) (stopped_sessions s ++ [session_id]) false).
Definition fake_health (s : fake_supervisor) : media_state := if fake_running s then MediaRunning else MediaStopped.

(** ** A run: the gateway is ready at the second look *)
Definition demo_row (service health : string) : raw := RObj [("Service", RStr service); ("State", RStr "Running"); ("Health", RStr health)].
Definition demo_rows (s : string) : option raw :=
  if String.eqb s "m" then Some (demo_row "mediamtx" "healthy") else if String.eqb s "c" then Some (demo_row "continuity" "")
  else if String.eqb s "g" then Some (demo_row "egress-gateway" "healthy")
  else if String.eqb s "h" then Some (demo_row "egress-gateway" "starting") else None.
Definition demo_docker (n : nat) (args : list string) : command_answer :=
  Ran 0 (match n with 2%nat => join_with line_feed ["m"; "c"; "h"] | 3%nat => join_with line_feed ["m"; "c"; "g"] | _ => "" end) "".
Local Abbreviation demo_start :=
  (start demo_docker (fun n => of_Z (Z.of_nat n)) demo_rows name_text (fun _ => None) true (of_Z 30) 31 "DIRECT_PUSH" (ComposeWorld [] 0)).

Lemma started_means_running_witness :
  exists r w, demo_start = Some (r, w) /\ ok r = true /\ readings w = 2%nat /\
    exists rows, Forall (service_up name_text rows) ["mediamtx"; "continuity"; "egress-gateway"].
Proof.
  assert (Hb : match demo_start with Some (r, w) => ok r && Nat.eqb (readings w) 2 | None => false end = true) by (vm_compute; reflexivity).
  destruct demo_start as [[r w]|] eqn:E; [|discriminate Hb]. apply andb_prop in Hb as [Hok Hn]. apply Nat.eqb_eq in Hn.
  exists r, w. split; [reflexivity|]. split; [exact Hok|]. split; [exact Hn|].
  destruct (started_means_running demo_docker (fun n => of_Z (Z.of_nat n)) demo_rows name_text (fun _ => None) true (of_Z 30) 31 "DIRECT_PUSH"
              (ComposeWorld [] 0) r w E) as [_ H].
  destruct (H Hok) as (w1 & ps & rows & _ & _ & _ & Hr). exists rows. exact Hr.
Defined.
