(* ===== verification/AgentLifecycle.v ===== *)
(** * The life of a Node Agent

    [NodeAgent.run] of [apps/node-agent/agent.py]: the main thread bootstraps, starts the
    media stack and sends heartbeats; [_deadline_watchdog] runs beside it, and a signal
    may arrive at any time. Both threads stop the media through [_stop_media_once], which
    holds [_media_stop_lock] during the call of the supervisor; the call that starts the
    media holds no lock. A run is a sequence of [action]s, each the code of one thread up
    to its next access to shared state, in any order the lock allows.

    The media stack is seen from the agent: it may come up at any time during a call of
    [start], a call of [stop] may take it down at any time, and one that reports success
    has taken it down. *)

From S2P Require Import Prelude.

(** ** State *)
Record agent := Agent {
  _shutdown_event : bool;
  _stop_requested : bool;
  _media_stop_attempted : bool;
  _media_started : bool;
  _media_start_attempted : bool;
  _media_start_finished : bool;
  _media_stop_requested : bool;
  _media_stop_result : option bool;             (* its [ok] *)
  _media_stop_error : bool }.

Definition new_agent : agent := Agent false false false false false false false None false.

Definition set_shutdown (a : agent) : agent :=
  Agent true (_stop_requested a) (_media_stop_attempted a) (_media_started a) (_media_start_attempted a)
    (_media_start_finished a) (_media_stop_requested a) (_media_stop_result a) (_media_stop_error a).
Definition request_shutdown (a : agent) : agent :=
  Agent true true (_media_stop_attempted a) (_media_started a) (_media_start_attempted a)
    (_media_start_finished a) (_media_stop_requested a) (_media_stop_result a) (_media_stop_error a).
Definition set_start (started attempted finished : bool) (a : agent) : agent :=
  Agent (_shutdown_event a) (_stop_requested a) (_media_stop_attempted a) started attempted finished
    (_media_stop_requested a) (_media_stop_result a) (_media_stop_error a).

(** ** [_stop_media_once] *)
Inductive stop_outcome := StopOk | StopNotOk | StopRaised.

(** Its beginning: the state it leaves, and whether it calls the supervisor. *)
Definition enter_stop (a : agent) : agent * bool :=
  let requested attempted := Agent (_shutdown_event a) (_stop_requested a) attempted (_media_started a)
    (_media_start_attempted a) (_media_start_finished a) true (_media_stop_result a) (_media_stop_error a) in
  if negb (_media_started a) && _media_start_attempted a && negb (_media_start_finished a)
  then (requested (_media_stop_attempted a), false)
  else if _media_stop_attempted a then (requested true, false)
  else (requested true, true).

(** Its end, once the supervisor has answered. *)
Definition leave_stop (a : agent) (o : stop_outcome) : agent :=
  match o with
  | StopOk => Agent (_shutdown_event a) (_stop_requested a) (_media_stop_attempted a) false
      (_media_start_attempted a) (_media_start_finished a) (_media_stop_requested a) (Some true) false
  | StopNotOk => Agent (_shutdown_event a) (_stop_requested a) (_media_stop_attempted a) (_media_started a)
      (_media_start_attempted a) (_media_start_finished a) (_media_stop_requested a) (Some false) (_media_stop_error a)
  | StopRaised => Agent (_shutdown_event a) (_stop_requested a) false (_media_started a)
      (_media_start_attempted a) (_media_start_finished a) (_media_stop_requested a) (_media_stop_result a) true
  end.

(** ** Threads *)
Inductive thread := Main | Watchdog.
Inductive site := AfterStart | InFinally | AfterJoin.       (* where [run] calls [_stop_media_once] *)
Inductive main_pc :=
  | Booting | Preparing | Testing | Attempting | Marking | Starting | Started | Looping
  | Unwinding | Stopping (s : site) | Joining | Leaving | Ended.
Inductive watchdog_pc := NotStarted | Watching | WatchdogStopping | WatchdogDone.

Record world := World {
  state : agent;
  main : main_pc;
  watchdog : watchdog_pc;
  calling : option thread;          (* who holds the lock in a call of the supervisor *)
  went_down : bool;                 (* during that call *)
  exit_code : Z;
  raised : bool;                    (* an exception leaves [run] *)
  secret : bool;                    (* the secret file is there *)
  media_auth_started : bool;
  running : bool;                   (* the media stack *)
  answers : list bool;              (* of the calls of [stop] that returned, latest first *)
  raced : bool }.                   (* the latest one began while a start was pending *)

Definition new_world : world :=
  World new_agent Booting NotStarted None false 0 false false false false [] false.

Definition goto (pc : main_pc) (w : world) : world :=
  World (state w) pc (watchdog w) (calling w) (went_down w) (exit_code w) (raised w) (secret w)
    (media_auth_started w) (running w) (answers w) (raced w).
Definition with_state (f : agent -> agent) (w : world) : world :=
  World (f (state w)) (main w) (watchdog w) (calling w) (went_down w) (exit_code w) (raised w) (secret w)
    (media_auth_started w) (running w) (answers w) (raced w).
Definition watchdog_goto (pc : watchdog_pc) (w : world) : world :=
  World (state w) (main w) pc (calling w) (went_down w) (exit_code w) (raised w) (secret w)
    (media_auth_started w) (running w) (answers w) (raced w).
Definition failed_with (code : Z) (w : world) : world :=
  World (state w) (main w) (watchdog w) (calling w) (went_down w) code (raised w) (secret w)
    (media_auth_started w) (running w) (answers w) (raced w).
Definition raise_out (w : world) : world :=
  World (state w) (main w) (watchdog w) (calling w) (went_down w) (exit_code w) true (secret w)
    (media_auth_started w) (running w) (answers w) (raced w).
Definition set_secret (b : bool) (w : world) : world :=
  World (state w) (main w) (watchdog w) (calling w) (went_down w) (exit_code w) (raised w) b
    (media_auth_started w) (running w) (answers w) (raced w).
Definition auth_started (w : world) : world :=
  World (state w) (main w) (watchdog w) (calling w) (went_down w) (exit_code w) (raised w) (secret w)
    true (running w) (answers w) (raced w).
Definition set_running (b down : bool) (w : world) : world :=
  World (state w) (main w) (watchdog w) (calling w) down (exit_code w) (raised w) (secret w)
    (media_auth_started w) b (answers w) (raced w).

Definition lock_free (w : world) : bool := match calling w with None => true | Some _ => false end.

(** ** Actions *)
Inductive boot :=
  | BootRaised                          (* bootstrap, or the secret file *)
  | DeadlineRefused                     (* passed, or its clock invalid *)
  | SeedRaised (direct : bool)          (* the audio authority; a secret file is there unless RELAY_ONLY *)
  | Booted (direct : bool).
Inductive start_outcome := StartOk | StartNotOk | StartRaised.
Inductive beat :=
  | BeatRunning | BeatStopped           (* the desired state *)
  | BeatClockError | BeatDenied (status_code : Z) | BeatFailed | BeatRaised.
Inductive tick := TickDue | TickClockError.

Inductive action :=
  | Signal
  | Boot (o : boot) | Prepare (ok : bool) | Test | Attempt | Mark | StartReturns (o : start_outcome) | AfterStarted
  | Beat (o : beat) | LoopEnds | Unwind | Join | Leave (cleaned removed : bool)
  | Watch (t : tick) | WatchEnds
  | Enter (t : thread) | StopReturns (t : thread) (o : stop_outcome)
  | ComesUp | GoesDown.

(** The hooks of [main] are configured together or not at all. *)
Record hooks := Hooks { pre_media_start : bool; post_media_stop : bool }.

Definition boot_step (o : boot) (w : world) : world :=
  match o with
  | BootRaised => goto Unwinding (raise_out w)
  | DeadlineRefused => goto Unwinding (failed_with 1 (with_state request_shutdown w))
  | SeedRaised direct => goto Unwinding (raise_out (set_secret direct w))
  | Booted direct => goto Preparing (watchdog_goto Watching (set_secret direct w))
  end.

Definition prepare_step (h : hooks) (ok : bool) (w : world) : world :=
  if _shutdown_event (state w) || negb (pre_media_start h) then goto Testing w
  else if ok then goto Testing (auth_started w) else goto Unwinding (raise_out w).

Definition test_step (w : world) : world :=
  goto (if _shutdown_event (state w) then Unwinding else Attempting) w.

Definition attempt_step (w : world) : world :=
  goto Marking (with_state (fun a => set_start (_media_started a) true (_media_start_finished a) a) w).

Definition mark_step (w : world) : world :=
  goto Starting (with_state (fun a => set_start true (_media_start_attempted a) (_media_start_finished a) a) w).

Definition start_returns (o : start_outcome) (w : world) : world :=
  match o with
  | StartOk => goto Started w
  | _ => goto Unwinding (failed_with 1
           (with_state (fun a => set_start (_media_started a) (_media_start_attempted a) true a) w))
  end.

Definition after_started (w : world) : world :=
  let a := set_start true (_media_start_attempted (state w)) true (state w) in
  let stop_after_start := _media_stop_requested a || _shutdown_event a in
  goto (if stop_after_start then Stopping AfterStart else Looping) (with_state (fun _ => a) w).

Definition beat_step (o : beat) (w : world) : world :=
  match o with
  | BeatRunning | BeatFailed => w
  | BeatStopped => goto Unwinding (with_state request_shutdown w)
  | BeatClockError => goto Unwinding (failed_with 1 (with_state request_shutdown w))
  | BeatDenied status_code =>
      if (400 <=? status_code) && (status_code <? 500) then goto Unwinding (with_state request_shutdown w) else w
  | BeatRaised => goto Unwinding (raise_out w)
  end.

Definition after_site (s : site) : main_pc :=
  match s with AfterStart => Looping | InFinally => Joining | AfterJoin => Leaving end.

(** The end of [run]: the exit code, the hook and the secret file. *)
Definition leave_step (h : hooks) (cleaned removed : bool) (w : world) : world :=
  let a := state w in
  let w := if _media_stop_error a then failed_with 1 w
           else match _media_stop_result a with Some false => failed_with 1 w | _ => w end in
  let w := if post_media_stop h then (if cleaned then w else failed_with 1 w)
           else if media_auth_started w then failed_with 1 w else w in
  goto Ended (if removed then set_secret false w else raise_out w).

(** A start that may still bring the media up. *)
Definition start_pending (pc : main_pc) : bool :=
  match pc with Attempting | Marking | Starting => true | _ => false end.

(** The thread goes on behind [_stop_media_once]. *)
Definition stop_done (t : thread) (w : world) : option world :=
  match t, main w, watchdog w with
  | Main, Stopping s, _ => Some (goto (after_site s) w)
  | Watchdog, _, WatchdogStopping => Some (watchdog_goto WatchdogDone w)
  | _, _, _ => None
  end.

Definition enter_step (t : thread) (w : world) : option world :=
  let '(a, call) := enter_stop (state w) in
  if call then
    match stop_done t w with
    | None => None
    | Some _ => Some (World a (main w) (watchdog w) (Some t) false (exit_code w) (raised w) (secret w)
                        (media_auth_started w) (running w) (answers w) (start_pending (main w)))
    end
  else stop_done t (with_state (fun _ => a) w).

Definition same_thread (t t' : thread) : bool :=
  match t, t' with Main, Main | Watchdog, Watchdog => true | _, _ => false end.

Definition return_step (t : thread) (o : stop_outcome) (w : world) : option world :=
  match calling w with
  | Some t' =>
      if same_thread t t' && match o with StopOk => went_down w | _ => true end then
        stop_done t (World (leave_stop (state w) o) (main w) (watchdog w) None false (exit_code w) (raised w) (secret w)
          (media_auth_started w) (running w)
          (match o with StopOk => true :: answers w | StopNotOk => false :: answers w | StopRaised => answers w end)
          (raced w))
      else None
  | None => None
  end.

(** One action, where the program can take it. *)
Definition perform (h : hooks) (x : action) (w : world) : option world :=
  let at_pc (ok : bool) (w' : world) := if ok then Some w' else None in
  match x, main w with
  | Signal, Ended => None
  | Signal, _ => Some (with_state set_shutdown w)
  | Boot o, Booting => Some (boot_step o w)
  | Prepare ok, Preparing => Some (prepare_step h ok w)
  | Test, Testing => Some (test_step w)
  | Attempt, Attempting => Some (attempt_step w)
  | Mark, Marking => at_pc (lock_free w) (mark_step w)
  | StartReturns o, Starting => Some (start_returns o w)
  | AfterStarted, Started => at_pc (lock_free w) (after_started w)
  | Beat o, Looping => at_pc (negb (_shutdown_event (state w))) (beat_step o w)
  | LoopEnds, Looping => at_pc (_shutdown_event (state w)) (goto Unwinding w)
  | Unwind, Unwinding => Some (goto (Stopping InFinally) (with_state set_shutdown w))
  | Join, Joining => Some (goto (Stopping AfterJoin) w)
  | Leave cleaned removed, Leaving => Some (leave_step h cleaned removed w)
  | Watch _, _ => match watchdog w with
                  | Watching => at_pc (negb (_shutdown_event (state w))) (with_state request_shutdown w)
                  | _ => None end
  | WatchEnds, _ => match watchdog w with
                    | Watching => at_pc (_shutdown_event (state w)) (watchdog_goto WatchdogStopping w)
                    | _ => None end
  | Enter t, _ => if lock_free w then enter_step t w else None
  | StopReturns t o, _ => return_step t o w
  | ComesUp, Starting => Some (set_running true (went_down w) w)
  | GoesDown, _ => at_pc (negb (lock_free w)) (set_running false true w)
  | _, _ => None
  end.

(** ** Runs *)
Fixpoint run_actions (h : hooks) (xs : list action) (w : world) : option world :=
  match xs with
  | [] => Some w
  | x :: xs => match perform h x w with Some w' => run_actions h xs w' | None => None end
  end.

Inductive reachable (h : hooks) : world -> Prop :=
  | reach_new : reachable h new_world
  | reach_step x w w' : reachable h w -> perform h x w = Some w' -> reachable h w'.

Lemma run_actions_reachable h xs w w' : reachable h w -> run_actions h xs w = Some w' -> reachable h w'.
Proof.
  revert w. induction xs as [|x xs IH]; cbn; intros w Hw; [by intros [= <-]|].
  destruct (perform h x w) as [w1|] eqn:E; [|done]. apply IH. exact (reach_step _ _ _ _ Hw E).
Qed.

(** ** The invariant *)
Definition before_start (pc : main_pc) : bool :=
  match pc with Booting | Preparing | Testing => true | _ => false end.
Definition start_done (pc : main_pc) : bool :=
  match pc with Looping | Unwinding | Stopping _ | Joining | Leaving | Ended => true | _ => false end.
Definition at_the_end (pc : main_pc) : bool := match pc with Leaving | Ended => true | _ => false end.

(** The lock: in a call of one thread, or free before or after the one call that was
    answered. *)
Inductive lock_inv (w : world) : Prop :=
  | called_by_main s : calling w = Some Main -> main w = Stopping s -> _media_stop_attempted (state w) = true ->
      answers w = [] -> lock_inv w
  | called_by_watchdog : calling w = Some Watchdog -> watchdog w = WatchdogStopping ->
      _media_stop_attempted (state w) = true -> answers w = [] -> lock_inv w
  | answered ok : calling w = None -> _media_stop_attempted (state w) = true -> answers w = [ok] ->
      _media_stop_result (state w) = Some ok -> lock_inv w
  | unanswered : calling w = None -> _media_stop_attempted (state w) = false -> answers w = [] -> lock_inv w.

(** The start: one that was attempted has finished before [run] goes on. *)
Record start_inv (w : world) : Prop := StartInv {
  start_alone : main w = Booting -> watchdog w = NotStarted;
  start_before : before_start (main w) = true -> _media_start_attempted (state w) = false;
  start_over : start_done (main w) = true -> _media_start_attempted (state w) = true ->
               _media_start_finished (state w) = true;
  start_watchdog : watchdog w = WatchdogStopping -> _shutdown_event (state w) = true }.

(** At the end a stop has been answered, or the last one raised. *)
Definition stop_inv (w : world) : Prop :=
  at_the_end (main w) = true -> answers w <> [] \/ _media_stop_error (state w) = true.

(** Without a race no start is left that could follow the stop. *)
Record race_inv (w : world) : Prop := RaceInv {
  race_start : is_Some (calling w) \/ answers w <> [] -> raced w = false ->
               start_pending (main w) = false /\
               (before_start (main w) = true -> _shutdown_event (state w) = true);
  race_call : is_Some (calling w) -> raced w = false -> went_down w = true -> running w = false;
  race_down : answers w = [true] -> raced w = false -> running w = false }.

Record inv (w : world) : Prop := Inv {
  inv_lock : lock_inv w; inv_start : start_inv w; inv_stop : stop_inv w; inv_race : race_inv w }.

Lemma inv_new : inv new_world.
Proof. split; [by apply unanswered|split|red|split]; cbn; try done; try (by intros [? [=]]). by intros [[? [=]]|[]]. Qed.

(** The worlds an action leads to, one goal for each. *)
Ltac action_cases H :=
  unfold perform, boot_step, prepare_step, test_step, after_started, beat_step, start_returns, enter_step, return_step,
    stop_done, lock_free, leave_step, enter_stop in H;
  repeat (case_match; simplify_eq/=; try done).

Ltac lock_cases I :=
  let s := fresh "s" in let ok := fresh "ok" in
  destruct I as [s ? ? ? ?|? ? ? ?|ok ? ? ? ?|? ? ?]; cbn in *; subst.

Lemma perform_lock h x w w' : lock_inv w -> start_inv w -> perform h x w = Some w' -> lock_inv w'.
Proof.
  intros I [J _ _ _] H. destruct w as [[sd sr sa ms msa msf msr res err] pc dog call down code rs sec auth run ans race].
  lock_cases I; action_cases H;
  first [by eapply called_by_main|by apply called_by_watchdog|by eapply answered|by apply unanswered|by discriminate (J eq_refl)].
Qed.

Ltac site_cases := try match goal with s : site |- _ => by destruct s end.

Lemma perform_start h x w w' : lock_inv w -> start_inv w -> perform h x w = Some w' -> start_inv w'.
Proof.
  intros I [J0 J1 J2 J3] H. destruct w as [[sd sr sa ms msa msf msr res err] pc dog call down code rs sec auth run ans race].
  lock_cases I; action_cases H; split; cbn; auto; try done; try (by intros ->; discriminate (J0 eq_refl)); intros; site_cases;
  intuition congruence.
Qed.

Lemma perform_stop h x w w' : inv w -> perform h x w = Some w' -> stop_inv w'.
Proof.
  intros [I [J0 J1 J2 J3] K _] H. destruct w as [[sd sr sa ms msa msf msr res err] pc dog call down code rs sec auth run ans race].
  unfold stop_inv in *. lock_cases I; action_cases H; auto.
  apply andb_prop in H as [Ha Hf]. apply andb_prop in Ha as [_ Ha]. by rewrite (J2 eq_refl Ha) in Hf.
Qed.

Lemma perform_race h x w w' : inv w -> perform h x w = Some w' -> race_inv w'.
Proof.
  intros [I [_ _ _ J] _ [K1 K2 K3]] H.
  destruct w as [[sd sr sa ms msa msf msr res err] pc dog call down code rs sec auth run ans race].
  lock_cases I; action_cases H; split; cbn; auto; try done; intros; site_cases; intuition congruence.
Qed.

Lemma reachable_inv h w : reachable h w -> inv w.
Proof.
  induction 1 as [|x w w' _ IH Hx]; [exact inv_new|]. pose proof IH as [I J _ _].
  split; [exact (perform_lock _ _ _ _ I J Hx)|exact (perform_start _ _ _ _ I J Hx)|exact (perform_stop _ _ _ _ IH Hx)|
          exact (perform_race _ _ _ _ IH Hx)].
Qed.

(** An answer is the last one. *)
Lemma perform_answered h x w w' :
  lock_inv w -> perform h x w = Some w' -> answers w <> [] -> answers w' = answers w /\ calling w' = None.
Proof.
  intros I H. destruct w as [[sd sr sa ms msa msf msr res err] pc dog call down code rs sec auth run ans race].
  lock_cases I; try done; action_cases H.
Qed.

Definition exit_inv (w : world) : Prop :=
  main w = Ended -> (raised w = false -> secret w = false) /\ (exit_code w = 0 -> answers w = [true]).

Lemma perform_exit h x w w' : inv w -> exit_inv w -> perform h x w = Some w' -> exit_inv w'.
Proof.
  intros [I _ K _] E H. destruct w as [[sd sr sa ms msa msf msr res err] pc dog call down code rs sec auth run ans race].
  unfold exit_inv, stop_inv in *. lock_cases I; action_cases H; intros; auto; site_cases; intuition congruence.
Qed.

Lemma reachable_exit h w : reachable h w -> exit_inv w.
Proof. induction 1 as [|x w w' Hw IH Hx]; [done|]. exact (perform_exit _ _ _ _ (reachable_inv _ _ Hw) IH Hx). Qed.

Lemma answered_stays h xs : forall w w',
  reachable h w -> answers w <> [] -> run_actions h xs w = Some w' -> answers w' = answers w /\ (xs <> [] -> calling w' = None).
Proof.
  induction xs as [|x xs IH]; cbn; intros w w' Hw Ha; [by intros [= <-]|].
  destruct (perform h x w) as [w1|] eqn:E; [|done]. intros H.
  destruct (perform_answered _ _ _ _ (inv_lock _ (reachable_inv _ _ Hw)) E Ha) as [A C].
  destruct (IH w1 w' (reach_step _ _ _ _ Hw E)) as [A' C']; [by rewrite A|done|]. rewrite A', A. split; [done|]. intros _.
  destruct xs; [by injection H as <-|by apply C'].
Qed.

(** ** Properties *)

(** C35: a clean end has stopped the media. When [run] returns 0, exactly one call of
    [stop] was answered and it reported success, the secret file is gone, and the media
    stack is down, unless that call began while a start was still to be made or in
    progress ([raced]). *)
Theorem clean_exit_has_stopped h w :
  reachable h w -> main w = Ended -> raised w = false -> exit_code w = 0 ->
  answers w = [true] /\ secret w = false /\ (raced w = false -> running w = false).
Proof.
  intros Hw Hm Hr Hc. destruct (reachable_exit _ _ Hw Hm) as [Hs Ha]. split; [auto|]. split; [auto|].
  intros Hn. exact (race_down _ (inv_race _ (reachable_inv _ _ Hw)) (Ha Hc) Hn).
Qed.

(** the media is stopped once. Whatever the threads do, at most one call of [stop] is
    answered, and after it, successful or not, none is made again; only one that raised
    is repeated. *)
Theorem media_is_stopped_once h w xs w' :
  reachable h w -> run_actions h xs w = Some w' ->
  (length (answers w') <= 1)%nat /\
  (answers w <> [] -> xs <> [] -> answers w' = answers w /\ calling w' = None).
Proof.
  intros Hw Hx. split.
  - pose proof (inv_lock _ (reachable_inv _ _ (run_actions_reachable _ _ _ _ Hw Hx))) as I.
    destruct I as [? ? ? ? E|? ? ? E|? ? ? E ?|? ? E]; rewrite E; cbn; lia.
  - intros Ha Hne. destruct (answered_stays _ _ _ _ Hw Ha Hx). auto.
Qed.

(** the agent never blocks itself. Until [run] has ended there is always an action
    of the main thread, or the answer of a call in progress, that can happen. *)
Theorem run_goes_on h w :
  reachable h w -> main w <> Ended ->
  exists x w', perform h x w = Some w' /\ match x with Signal | Watch _ | WatchEnds | Enter Watchdog => False | _ => True end.
Proof.
  intros Hw Hm. pose proof (inv_lock _ (reachable_inv _ _ Hw)) as I.
  destruct w as [a pc dog [t|] down code rs sec auth run ans race]; cbn in *.
  - exists (StopReturns t StopNotOk). destruct I as [s Ht Hpc _ _|Ht Hdog _ _|? [=]|[=]]; cbn in *; injection Ht as ->; subst.
    + by eexists.
    + by eexists.
  - destruct pc as [| | | | | | | | |s| | |]; [exists (Boot (Booted true))|exists (Prepare true)|exists Test|exists Attempt|exists Mark|
      exists (StartReturns StartOk)|exists AfterStarted|exists (if _shutdown_event a then LoopEnds else Beat BeatRunning)|
      exists Unwind|exists (Enter Main)|exists Join|exists (Leave true true)|done]; try (eexists; cbn; split; [reflexivity|done]).
    + destruct (_shutdown_event a) eqn:E; cbn; rewrite E; by eexists.
    + cbn. unfold enter_step. cbn. destruct (enter_stop a) as [a' []]; by eexists.
Qed.

(** ** A late start *)
(** Names the world that a run ends in. *)
Ltac exec_actions r E :=
  let v := eval vm_compute in r in
  match v with Some ?w => assert (E : r = Some w) by (vm_compute; reflexivity) end.

Definition no_hooks : hooks := Hooks false false.
Definition late_start_actions : list action :=
  [Boot (Booted true); Prepare true; Test; Attempt; Mark;
   Watch TickDue; WatchEnds; Enter Watchdog; GoesDown; StopReturns Watchdog StopOk;
   ComesUp; StartReturns StartOk; AfterStarted; Enter Main; LoopEnds; Unwind; Enter Main; Join; Enter Main; Leave true true].

(** a late start. The deadline passes while the media is being started: the stop of the watchdog
    succeeds, the media comes up after it, the start returns, and since a stop has been
    made none of the three calls of [run] makes another one. The agent exits with code 0
    and the media is running. *)
Theorem late_start_leaves_media_running :
  exists w, reachable no_hooks w /\ main w = Ended /\ raised w = false /\ exit_code w = 0 /\ answers w = [true] /\ running w = true.
Proof.
  exec_actions (run_actions no_hooks late_start_actions new_world) E. eexists.
  split; [exact (run_actions_reachable _ _ _ _ (reach_new _) E)|]. by repeat split.
Qed.

Definition clean_actions : list action :=
  [Boot (Booted true); Prepare true; Test; Attempt; Mark; ComesUp; StartReturns StartOk; AfterStarted; Beat BeatRunning; Signal;
   WatchEnds; LoopEnds; Enter Watchdog; GoesDown; Unwind; StopReturns Watchdog StopOk; Enter Main; Join; Enter Main; Leave true true].

Lemma clean_exit_has_stopped_witness :
  exists w, run_actions no_hooks clean_actions new_world = Some w /\ main w = Ended /\ running w = false.
Proof.
  exec_actions (run_actions no_hooks clean_actions new_world) E. eexists. split; [exact E|]. split; [reflexivity|].
  apply (clean_exit_has_stopped no_hooks _ (run_actions_reachable _ _ _ _ (reach_new _) E)); reflexivity.
Defined.

Lemma media_is_stopped_once_witness :
  exists w, run_actions no_hooks clean_actions new_world = Some w /\ (length (answers w) <= 1)%nat.
Proof.
  exec_actions (run_actions no_hooks clean_actions new_world) E. eexists. split; [exact E|].
  exact (proj1 (media_is_stopped_once no_hooks new_world clean_actions _ (reach_new _) E)).
Defined.

Lemma run_goes_on_witness : exists x w', perform no_hooks x new_world = Some w' /\ x <> Signal.
Proof.
  destruct (run_goes_on no_hooks new_world (reach_new _)) as (x & w' & H & Hx); [discriminate|].
  exists x, w'. split; [exact H|]. intros ->. exact Hx.
Defined.
